(* ===== verification/_CoqProject ===== *)
-Q . S2P
Prelude.v
Platform.v
Iomux.v
Clock.v
Dmac.v
Exti.v
Nvic.v
Gpio.v
Dmamem.v
Eth.v
EthRing.v
EthHw.v
RtcLib.v
Rtc.v
Timer.v
PageAlloc.v
Buddy.v
BuddyAlloc.v
Pcp.v
PageOps.v
Serial.v
Usart.v
UsartSpec.v
UsartInit.v
UsartInv.v
PageSource.v
Nommu.v
NommuLib.v
NommuInv.v
NommuPages.v
NommuFind.v
NommuUnmap.v
NommuMmap.v
NommuRun.v
NommuSpec.v
Flat.v
FlatLib.v
FlatTables.v
FlatReloc.v
FlatImage.v
FlatPlace.v
FlatMap.v
FlatLoad.v
FlatExec.v
FlatSpec.v
Initramfs.v
GenInitCpio.v
InitArchive.v
InitReader.v
InitStop.v
InitSpec.v
CacheV7m.v
Fb.v
FbBits.v
FbFill.v
FbPixel.v
FbBlit.v
FbImage.v
FbCopy.v
Lcd.v
LcdMem.v
LcdSpec.v
I2c.v
I2cSpec.v
Spi.v
SpiSpec.v
