(* ===== verification/Prelude.v ===== *)
(** * Linux 2.6.33 (uClinux) on the STM32F746G-DISCO: verification library

    The repository is a Linux 2.6.33 tree without MMU support for STM32 boards, with
    a port to the STM32F746G-DISCO (Cortex-M7).  This library models the code that
    is the port's own: the machine layer ([arch/arm/mach-stm32]), the allocator of
    non-cached memory ([mm/dmamem.c]), the Ethernet driver
    ([drivers/net/arm/stm32_eth.c]), the USART driver ([drivers/serial/stm32_usart.c]),
    the I2C driver ([drivers/i2c/busses/i2c-stm32f7.c]), the SPI driver
    ([drivers/spi/spi_stm32.c]), the real-time clock driver ([drivers/rtc/rtc-stm32f2.c]), the kernel library code
    under them, and the parts of the kernel that decide how programs live without an
    MMU: the page allocator ([mm/page_alloc.c]), the mappings of processes
    ([mm/nommu.c]), the loader of flat executables ([fs/binfmt_flat.c]) and the
    archive of the root file system, written by [usr/gen_init_cpio.c] and unpacked by
    [init/initramfs.c]; and what the console is drawn with: the maintenance of the
    caches ([arch/arm/mm/cache-v7m.c]), the drawing routines of [drivers/video] and the
    LCD driver ([drivers/video/stm32f7_lcdfb.c]).  All paths below are under
    [src/linux-stm32f7-master].

    ** How the program is put together

    At boot [stm32_iomux_init] connects the pins, [stm32_timer_init] calls
    [stm32_clock_init], which computes the clock tree from what the boot loader
    left in the RCC registers, and programs the system tick.  [stm32_eth_init]
    installs the ring sizes of the board for the Ethernet driver.  Drivers then
    use the [clk_*] calls, the DMA channel calls, the GPIO calls and GPIO
    interrupts (which go through EXTI to the NVIC) and [dmamem_alloc].
    The LCD driver gives the controller a frame in cached memory; every drawing call of
    the console stores through the caches and cleans the rows it drew on.
    [populate_rootfs] unpacks the archive that the build linked into the kernel.  A
    program is started by [load_flat_binary]: it maps text and data with [do_mmap], which takes
    its pages from the page allocator; afterwards the program changes its mappings
    with the system calls of [nommu.c] until [exit_mmap] returns everything.

    ** Files

    - [Prelude]: error codes, the [result] type for code that can fault, 32-bit
      operations and their notations, register fields, the classes [W1C] and [W1S]
      of write-1-to-clear and write-1-to-set registers, tactics ([zbool], [zdiv],
      [zcrush], [field_expr]) and the hint database [u32].
    - [Platform]: [stm32_platform.c], the board identifiers.
    - [Iomux]: [iomux.c].  [stm32f2_gpio_config] and the tables of
      [stm32_iomux_init]; the specification is a map from pins to [pin_config].
    - [Clock]: [clock.c].  RCC registers, the computed clocks, the [struct clk]
      objects with their reference counts; [stm32_clock_init], [clk_enable],
      [clk_disable], [clk_set_rate].
    - [Dmac]: [dmac.c].  Channel ownership, stream registers, the setup calls and
      the interrupt handler.
    - [Exti], [Nvic], [Gpio]: [exti.c], the mask and acknowledge functions of
      [arch/arm/common/nvic.c], and [gpio.c] with the chained interrupt handler.
    - [Dmamem]: [mm/dmamem.c].  The ordered free list and the used list.
    - [Eth] (definitions), [EthRing] and [EthHw] (theorems): [stm32_eth.c] and the
      platform data of [eth.c].
    - [RtcLib]: [drivers/rtc/rtc-lib.c], [lib/bcd.c] and [mktime].
    - [Rtc]: [rtc-stm32f2.c].
    - [Timer]: [timer.c].
    - [PageAlloc], [Buddy], [BuddyAlloc], [Pcp], [PageOps]: [mm/page_alloc.c].  The
      zone, its free lists by order and migrate type, splitting and merging
      ([__rmqueue], [__free_one_page]), the per-processor lists, watermarks and the
      calls [buffered_rmqueue] and [__free_pages].
    - [Serial]: the transmit path of [serial_core.c].  [Usart] (definitions),
      [UsartSpec], [UsartInit] and [UsartInv] (theorems): [stm32_usart.c], [uart.c]
      and [dmainit.c].
    - [PageSource]: the class of what [mm/nommu.c] needs of the page allocator, with
      the zone as its instance.
    - [Nommu] (definitions), [NommuLib], [NommuInv], [NommuPages], [NommuFind],
      [NommuUnmap], [NommuMmap], [NommuRun] (the invariant and every operation) and
      [NommuSpec] (theorems): [mm/nommu.c].
    - [Flat] (definitions), [FlatLib] (memory, words, strings), [FlatTables] (the
      stack), [FlatReloc] (relocation), [FlatImage] (images and their files),
      [FlatPlace], [FlatMap], [FlatLoad], [FlatExec] (the steps of loading) and
      [FlatSpec] (theorems): [fs/binfmt_flat.c].
    - [Initramfs] (definitions): [init/initramfs.c] over an interface of system calls;
      [GenInitCpio] (definitions): [usr/gen_init_cpio.c].  [InitArchive] (the records
      the latter writes), [InitReader] (one record read), [InitStop] (the measure of the
      machine) and [InitSpec] (the specification and the theorems).
    - [CacheV7m]: [cache-v7m.c] over an interface of what the maintenance registers do,
      with a write-back cache as its instance.
    - [Fb] (definitions): [cfbfillrect.c], [cfbimgblt.c], [cfbcopyarea.c] and
      [fb_draw.h] over an interface of words.  [FbBits] (memory as bits, painting),
      [FbFill], [FbPixel] (filling), [FbBlit], [FbImage] (images) and [FbCopy] (copies).
    - [Lcd] (definitions): [stm32f7_lcdfb.c].  [LcdMem] (stores through the caches) and
      [LcdSpec] (the canvas and the theorems).
    - [I2c] (definitions) and [I2cSpec] (theorems): [i2c-stm32f7.c], over [Dmac] and
      [Dmamem].
    - [Spi] (definitions) and [SpiSpec] (theorems): [spi_stm32.c].

    ** How code becomes definitions

    A definition has the name of the C function it translates; a helper holds a
    named part of a function.  A C integer is a [Z] with its wrap-around written
    out ([u32], [s32], [.<<], [.~]).  Registers are records, written with setters.
    A function that changes state takes and returns it; locks make such functions
    atomic, and where the lock is dropped in between ([stm32_netdev_xmit]) the parts
    are definitions of their own.  Division by zero, an index out of range, a NULL
    pointer, BUG_ON and an endless poll are [Fault]s, so that a theorem that gives [Ok] also says
    that none of them happens.  Hardware is never made up: a status register that
    is cleared by writing is a function argument with its documented law as a
    class, polled flags are functions of the number of reads, reset pulses and the
    progress of a DMA engine are arguments.

    Loops are structural where the code counts down (receive budget, pending
    descriptors, list traversals, months of a year).  A poll without a limit has
    fuel, and its theorem asks for a read below the fuel that answers ready; the
    loop of [stm32_eth_rx_poll] has the fuel [budget + 1], which a theorem of
    [EthRing] shows is never used up; the walk over a global offset table has the size
    of the program's memory, and the search for the end of a string the size of the
    argument pages, which the theorems on loading show to be enough; the machine that
    reads an archive has four turns for a byte, which a measure shows to be enough, and
    the loop around it two turns more than there are bytes: a theorem of [InitSpec] says
    that it ends in them or never.

    ** What the theorems show

    - Pins: configuration programs exactly the addressed pin and rejects bad
      arguments; the whole table-driven initialisation refines the map of pins; on
      the Discovery board no pin is claimed twice.
    - Clocks: the computed tree is the one of the registers; initialisation on the
      STM32F7 gives the 48 MHz USB/SD clock and the 9 MHz pixel clock; over every
      sequence of enable, disable and rate calls a clock runs exactly while somebody
      holds it; without the PLL as system clock initialisation divides by zero.
    - DMA: over every sequence of calls and interrupts a channel has at most one
      owner; calls on one channel leave the others alone; refused calls change
      nothing; the setup calls program the fields they name; an interrupt reaches
      the handler of its channel.
    - GPIO interrupts: the chained handler serves every pending line once and
      acknowledges it; enabling routes pin to line to interrupt; lines are shared
      between ports, and a pin 15 indexes past the table of line owners.
    - Coherent memory: over every sequence of allocations and frees the free and
      the live blocks tile the region; an allocation is aligned, inside the region,
      disjoint from the live blocks and first-fit; freeing it restores the state;
      sizes that wrap 32 bits are not refused, and the other theorems exclude them.
    - Ethernet: the transmit window is exactly what the DMA may own; the receive
      loop delivers exactly the good frames in order; the poll, with interrupts and the
      DMA going on, never leaves a frame without an interrupt or another poll to come;
      buffers do not overlap; opening leaves the device ready.  Also
      the window of the race in [stm32_netdev_xmit] and the SRAM lost per
      open/close cycle.
    - Real-time clock: the conversions agree with a calendar that only knows "the
      next day", for all 2{^32} seconds, but for [tm_yday], which is one more than
      documented, and are inverse to each other; time and alarm read back as written
      (setting the time clears pending events); the alarm interrupt reports each event once; the
      periodic rate; the flag mask of Alarm A.
    - Tick: register values always fit; the period is one clock too long.
    - Page allocator: over every sequence of allocations and frees of several users no
      page is lost or handed out twice, and free buddies are merged; a block is found
      whenever one is free; freeing in any order gives the same zone; the bulk loop of
      the per-processor lists ends.
    - USART: reception through the double-buffered DMA loses nothing while the reader
      keeps up; transmission sends the circular buffer in order and drains it; no
      interrupt that is requested follows a NULL buffer or leaves the buffers; the
      divider of the baud rate is within half a step unless a carry or the mantissa's
      high bits are lost; the character dropped on an idle line; what an open leaks.
    - Mappings: every run of valid system calls (files copied, no range that wraps) keeps regions, areas, pages and file
      references consistent; unmapping removes exactly the range asked for; exit gives
      everything back; searches are complete; lengths that wrap are not refused.
    - Flat executables: loading the file of a well-formed image gives a process with
      the relocated image, zeroed bss and heap and its arguments on the stack, on top
      of the theorems on mappings; what relocation refuses; the missing room for the
      alignment of the data.
    - Root file system: what the build writes the boot reads back, for every list of
      directories, devices, pipes, sockets, symbolic links and files with hard links;
      reading any input ends, but for junk after an archive, where the boot hangs.
    - Caches: mapping and unmapping a buffer of whole lines is safe for a device that
      fills it; which lines the loops over unaligned ranges miss.
    - Drawing: filling, images (by table or pixel by pixel) and copies (also onto
      themselves) set exactly the pixels they are asked to, at every depth that divides a
      word; copies are of whole words, since the code loses odd columns.
    - LCD: the probe and its errors; from the probe on the panel shows the canvas of the
      specification after any list of fills, images and copies at even columns inside
      it, as the controller reads it from memory behind the caches.
    - I2C: what a message asks of the controller, and that it is too much for long ones;
      a transfer on a controller that answers completes and leaves the driver idle; the
      probe and its error paths give back everything, but one of them reports success.
    - SPI: what is programmed for a slave; the exchange driven by interrupts equals a
      sequential reference, also for buffers that are sent and overwritten in place; the
      queue is served in order, each message once.  Also what happens to messages without
      frames, after time-outs and on removal.

    ** What is not modelled

    Device and driver registration, memory barriers, frame
    and DMA payloads, the LPC18xx and external-RAM variants of the Ethernet driver,
    the boards' tables of SPI, I2C, flash, USB and SD devices, and the code of
    Linux 2.6.33 that the port uses unchanged.  In [mm/page_alloc.c] reclaim, several
    zones and boot-time set-up; in [mm/nommu.c] the callbacks of areas and direct
    mappings (which are modelled but not covered by the theorems on runs); in the
    loader compressed executables and shared libraries, which are not configured; in
    [initramfs.c] the decompressors, also not configured; in [gen_init_cpio.c] the
    parsing of the list; in the drawing routines pixels in reversed order, not configured
    either, and 12 and 24 bits a pixel, which are modelled but have no theorem; in the SPI
    driver the polled variant, not configured.  The I2C and SPI drivers are not in the
    board's default configuration; they are modelled as the STM32F7 build has them.

    ** Plan

    In order: the boot part of [rtc.c] and [eth.c]; a refinement of [Dmamem]'s lists to
    the linked lists in memory. *)

From Stdlib Require Export ZArith Lia Bool.
From stdpp Require Export base numbers list relations.

#[global] Open Scope Z_scope.

(** ** Error codes ([include/asm-generic/errno-base.h]) *)

Definition ENOENT : Z := 2.
Definition ENOMEM : Z := 12.
Definition EBUSY : Z := 16.
Definition EEXIST : Z := 17.
Definition ENODEV : Z := 19.
Definition EINVAL : Z := 22.

(** ** Outcomes

    C code that divides by zero, indexes an array out of bounds, follows a NULL
    pointer, trips a [BUG_ON] or polls a flag that never comes has no result; such a run ends in
    a [Fault]. *)

Inductive fault := DivByZero | BadIndex | NullPtr | Bug | Stuck.

Inductive result (A : Type) := Ok (a : A) | Fault (f : fault).
Arguments Ok {A} a.
Arguments Fault {A} f.

Definition rbind {A B} (x : result A) (k : A -> result B) : result B :=
  match x with Ok a => k a | Fault f => Fault f end.

Declare Scope result_scope.
Delimit Scope result_scope with result.
Notation "'let*' x := e 'in' k" := (rbind e (fun x => k))
  (at level 10, x pattern, k at level 200) : result_scope.
#[global] Open Scope result_scope.

Definition is_ok {A} (x : result A) : Prop := exists a, x = Ok a.

(** ** 32-bit machine arithmetic

    A [u32] is a [Z] in the range [[0, 2^32)]; an [int] constant that is
    shifted into bit 31 and then combined with a [u32] denotes the same 32-bit
    pattern, so both are written with the same operations. *)

Definition u32_max : Z := 4294967295.
Definition u32 (x : Z) : Z := x mod 4294967296.
Definition s32 (x : Z) : Z :=
  let y := u32 x in if y <? 2147483648 then y else y - 4294967296.
Definition shl32 (x n : Z) : Z := u32 (Z.shiftl x n).
Definition not32 (x : Z) : Z := Z.lxor x u32_max.
Definition BIT (n : Z) : Z := shl32 1 n.

Declare Scope c_scope.
Delimit Scope c_scope with C.
Notation "x '.&' y" := (Z.land x y) (at level 40, left associativity) : c_scope.
Notation "x '.|' y" := (Z.lor x y) (at level 45, left associativity) : c_scope.
Notation "x '.<<' y" := (shl32 x y) (at level 37, left associativity) : c_scope.
Notation "x '.>>' y" := (Z.shiftr x y) (at level 37, left associativity) : c_scope.
Notation "'.~' x" := (not32 x) (at level 30, right associativity) : c_scope.
#[global] Open Scope c_scope.

(** Unsigned division, which faults on a zero divisor. *)
Definition udiv (x y : Z) : result Z := if y =? 0 then Fault DivByZero else Ok (x / y).

(** A value fits in [w] bits. *)
Definition fits (w x : Z) : Prop := 0 <= x < 2 ^ w.
Abbreviation is_u32 := (fits 32).

#[global] Instance fits_dec w x : Decision (fits w x).
Proof. unfold fits. apply _. Defined.

Definition is_u32b (x : Z) : bool := (0 <=? x) && (x <? 4294967296).

(** ** Register fields *)

(** The [w]-bit field of [r] at bit [s]. *)
Definition field (r s w : Z) : Z := (r .>> s) .& Z.ones w.

(** What the code does to program a field: clear it with a mask, then or the
    new value in. *)
Definition upd (r s w v : Z) : Z := (r .& .~ (Z.ones w .<< s)) .| (v .<< s).

(** ** Hint databases and tactics *)

Create HintDb u32.
Create HintDb testbit.

Ltac zbool :=
  repeat match goal with
  | |- context [?a <? ?b] => destruct (Z.ltb_spec a b)
  | |- context [?a <=? ?b] => destruct (Z.leb_spec a b)
  | |- context [?a =? ?b] => destruct (Z.eqb_spec a b)
  | H : context [?a <? ?b] |- _ => destruct (Z.ltb_spec a b)
  | H : context [?a <=? ?b] |- _ => destruct (Z.leb_spec a b)
  | H : context [?a =? ?b] |- _ => destruct (Z.eqb_spec a b)
  end.

(** [lia] with the quotients and remainders of the goal spelled out. *)
Ltac zdiv := Z.to_euclidean_division_equations; lia.

(** Case split on every boolean comparison, then close by [lia] or by boolean
    computation. *)
Ltac zcrush :=
  zbool; simpl; rewrite ?andb_true_r, ?andb_false_r, ?orb_false_r, ?orb_true_r;
  try reflexivity; try lia; try (exfalso; lia).

(** ** Bits of the machine operations *)

Lemma fits_testbit_high w x i : 0 <= w -> fits w x -> w <= i -> Z.testbit x i = false.
Proof.
  intros Hw [H0 H1] Hi. destruct (Z.eq_dec x 0) as [->|Hx]; [apply Z.bits_0|].
  apply Z.bits_above_log2; [lia|].
  apply Z.lt_le_trans with w; [|lia]. apply Z.log2_lt_pow2; lia.
Qed.

Lemma fits_bits w x :
  0 <= w -> 0 <= x -> (forall i, w <= i -> Z.testbit x i = false) -> fits w x.
Proof.
  intros Hw Hx Hb. split; [lia|].
  destruct (Z.eq_dec x 0) as [->|Hne]; [apply Z.pow_pos_nonneg; lia|].
  apply Z.log2_lt_pow2; [lia|].
  destruct (Z.lt_ge_cases (Z.log2 x) w) as [|Hge]; [assumption|].
  specialize (Hb _ Hge). rewrite Z.bit_log2 in Hb by lia. discriminate.
Qed.

Lemma u32_range x : is_u32 (u32 x).
Proof. unfold u32, fits. change (2 ^ 32) with 4294967296. apply Z.mod_pos_bound. lia. Qed.

Lemma u32_id x : is_u32 x -> u32 x = x.
Proof. unfold u32, fits. change (2 ^ 32) with 4294967296. intros. apply Z.mod_small; lia. Qed.

Lemma testbit_u32 x i : Z.testbit (u32 x) i = (i <? 32) && Z.testbit x i.
Proof.
  unfold u32. change 4294967296 with (2 ^ 32).
  destruct (Z.ltb_spec i 32); simpl.
  - destruct (Z.leb_spec 0 i); [apply Z.mod_pow2_bits_low; lia|].
    now rewrite !Z.testbit_neg_r by lia.
  - apply Z.mod_pow2_bits_high; lia.
Qed.

Lemma testbit_shl32 x n i :
  0 <= n -> Z.testbit (x .<< n) i = (i <? 32) && Z.testbit x (i - n).
Proof.
  intros Hn. unfold shl32. rewrite testbit_u32. f_equal.
  destruct (Z.leb_spec 0 i); [apply Z.shiftl_spec; lia|].
  now rewrite !Z.testbit_neg_r by lia.
Qed.

Lemma testbit_not32 x i :
  Z.testbit (.~ x) i = xorb (Z.testbit x i) ((0 <=? i) && (i <? 32)).
Proof.
  unfold not32. change u32_max with (Z.ones 32).
  now rewrite Z.lxor_spec, Z.testbit_ones by lia.
Qed.

Lemma testbit_shr x n i : 0 <= n -> 0 <= i -> Z.testbit (x .>> n) i = Z.testbit x (i + n).
Proof. intros. apply Z.shiftr_spec; lia. Qed.

Lemma testbit_BIT n i : 0 <= n < 32 -> Z.testbit (BIT n) i = (i =? n).
Proof.
  intros Hn. unfold BIT. rewrite testbit_shl32 by lia. zbool; simpl; try lia.
  - now replace (i - n) with 0 by lia.
  - destruct (Z.leb_spec 0 (i - n)).
    + apply (fits_testbit_high 1); unfold fits; lia.
    + apply Z.testbit_neg_r; lia.
Qed.

Lemma testbit_neg x i : i < 0 -> Z.testbit x i = false.
Proof. apply Z.testbit_neg_r. Qed.

Lemma u32_testbit_high x i : is_u32 x -> 32 <= i -> Z.testbit x i = false.
Proof. apply fits_testbit_high. lia. Qed.

(** ** Ranges of the machine operations *)

Lemma land_u32_l x y : is_u32 x -> 0 <= y -> is_u32 (x .& y).
Proof.
  intros Hx Hy. apply fits_bits; [lia| |].
  - apply Z.land_nonneg; destruct Hx; lia.
  - intros i Hi. rewrite Z.land_spec, (u32_testbit_high x) by assumption. reflexivity.
Qed.

Lemma lor_u32 x y : is_u32 x -> is_u32 y -> is_u32 (x .| y).
Proof.
  intros Hx Hy. apply fits_bits; [lia| |].
  - apply Z.lor_nonneg; destruct Hx, Hy; lia.
  - intros i Hi. now rewrite Z.lor_spec, !u32_testbit_high by assumption.
Qed.

Lemma not32_u32 x : is_u32 x -> is_u32 (.~ x).
Proof.
  intros Hx. apply fits_bits; [lia| |].
  - unfold not32. apply Z.lxor_nonneg. destruct Hx. unfold u32_max. lia.
  - intros i Hi. rewrite testbit_not32, u32_testbit_high by assumption. zcrush.
Qed.

Lemma shl32_u32 x n : is_u32 (x .<< n).
Proof. apply u32_range. Qed.

Lemma shr_u32 x n : is_u32 x -> 0 <= n -> is_u32 (x .>> n).
Proof.
  intros Hx Hn. apply fits_bits; [lia| |].
  - apply Z.shiftr_nonneg. destruct Hx; lia.
  - intros i Hi. rewrite testbit_shr by lia. apply u32_testbit_high; [assumption|lia].
Qed.

Lemma is_u32_nonneg x : is_u32 x -> 0 <= x.
Proof. now intros []. Qed.

#[export] Hint Resolve u32_range land_u32_l lor_u32 not32_u32 shl32_u32 shr_u32 is_u32_nonneg : u32.

Lemma s32_id x : - 2147483648 <= x < 2147483648 -> s32 x = x.
Proof. intros H. unfold s32, u32. destruct (Z.ltb_spec (x mod 4294967296) 2147483648); zdiv. Qed.

(** ** Fields *)

Lemma field_bits r s w i :
  0 <= s -> 0 <= w -> 0 <= i ->
  Z.testbit (field r s w) i = (i <? w) && Z.testbit r (i + s).
Proof.
  intros. unfold field. rewrite Z.land_spec, testbit_shr, Z.testbit_ones by lia. zcrush.
Qed.

Lemma field_fits r s w : 0 <= s -> 0 <= w -> fits w (field r s w).
Proof.
  intros. unfold field. rewrite Z.land_ones by lia.
  apply Z.mod_pos_bound. apply Z.pow_pos_nonneg; lia.
Qed.

(** Two fields are equal when they agree on their bits. *)
Lemma field_ext r r' s s' w :
  0 <= s -> 0 <= s' -> 0 <= w ->
  (forall i, 0 <= i < w -> Z.testbit r (i + s) = Z.testbit r' (i + s')) ->
  field r s w = field r' s' w.
Proof.
  intros Hs Hs' Hw H. apply Z.bits_inj'. intros i Hi.
  rewrite !field_bits by lia. destruct (Z.ltb_spec i w); simpl; [apply H; lia|reflexivity].
Qed.

Lemma upd_bits r s w v i :
  0 <= s -> 0 <= w -> s + w <= 32 -> fits w v -> is_u32 r ->
  Z.testbit (upd r s w v) i =
    if (s <=? i) && (i <? s + w) then Z.testbit v (i - s) else Z.testbit r i.
Proof.
  intros Hs Hw Hsw Hv Hr. unfold upd.
  rewrite Z.lor_spec, Z.land_spec, testbit_not32, !testbit_shl32, Z.testbit_ones by lia.
  destruct (Z.ltb_spec i 0); [rewrite !testbit_neg by lia; zcrush|].
  destruct (Z.ltb_spec i 32).
  - destruct (Z.leb_spec s i), (Z.ltb_spec i (s + w)); simpl.
    + zcrush.
    + rewrite (fits_testbit_high w v) by (auto; lia). zcrush.
    + rewrite (testbit_neg v) by lia. zcrush.
    + rewrite (testbit_neg v) by lia. zcrush.
  - rewrite (u32_testbit_high r i) by (auto; lia). zcrush.
Qed.

Lemma upd_u32 r s w v : is_u32 r -> is_u32 (upd r s w v).
Proof. intros. unfold upd. auto with u32. Qed.

Lemma field_upd_same r s w v :
  0 <= s -> 0 <= w -> s + w <= 32 -> fits w v -> is_u32 r ->
  field (upd r s w v) s w = v.
Proof.
  intros. apply Z.bits_inj'. intros i Hi. rewrite field_bits, upd_bits by assumption.
  destruct (Z.ltb_spec i w).
  - replace (i + s - s) with i by lia. zcrush.
  - now rewrite (fits_testbit_high w v i) by (auto; lia).
Qed.

(** Programming a field leaves every disjoint field alone. *)
Lemma field_upd_other r s w v s' w' :
  0 <= s -> 0 <= w -> s + w <= 32 -> fits w v -> is_u32 r ->
  0 <= s' -> 0 <= w' -> s' + w' <= s \/ s + w <= s' ->
  field (upd r s w v) s' w' = field r s' w'.
Proof.
  intros. apply field_ext; [lia..|]. intros i Hi. rewrite upd_bits by assumption. zcrush.
Qed.

#[export] Hint Resolve upd_u32 : u32.

(** ** Single bits *)

Lemma set_bit_spec r n i :
  0 <= n < 32 -> Z.testbit (r .| BIT n) i = (i =? n) || Z.testbit r i.
Proof. intros. rewrite Z.lor_spec, testbit_BIT by lia. apply orb_comm. Qed.

Lemma clear_bit_spec r n i :
  0 <= n < 32 -> is_u32 r -> Z.testbit (r .& .~ BIT n) i = negb (i =? n) && Z.testbit r i.
Proof.
  intros Hn Hr. rewrite Z.land_spec, testbit_not32, testbit_BIT by lia.
  destruct (Z.ltb_spec i 0); [now rewrite (testbit_neg r) by lia; zcrush|].
  destruct (Z.ltb_spec i 32); [|rewrite (u32_testbit_high r i) by (auto; lia)]; zcrush.
Qed.

(** [reg & (1 << n)] used as a condition. *)
Definition bit_set (r n : Z) : bool := negb ((r .& BIT n) =? 0).

Lemma bit_set_testbit r n : 0 <= n < 32 -> bit_set r n = Z.testbit r n.
Proof.
  intros Hn. unfold bit_set. destruct (Z.testbit r n) eqn:E.
  - destruct (Z.eqb_spec (r .& BIT n) 0) as [H|]; [|reflexivity].
    apply (f_equal (fun z => Z.testbit z n)) in H.
    rewrite Z.land_spec, testbit_BIT, Z.bits_0, E, Z.eqb_refl in H by lia. discriminate.
  - replace (r .& BIT n) with 0; [reflexivity|]. symmetry. apply Z.bits_inj'. intros i Hi.
    rewrite Z.land_spec, testbit_BIT, Z.bits_0 by lia.
    destruct (Z.eqb_spec i n) as [->|]; [now rewrite E|apply andb_false_r].
Qed.

(** [reg & mask] used as a condition. *)
Definition has (v mask : Z) : bool := negb ((v .& mask) =? 0).

Lemma has_bit v n : 0 <= n < 32 -> has v (BIT n) = Z.testbit v n.
Proof. apply bit_set_testbit. Qed.

Lemma BIT_u32 n : is_u32 (BIT n).
Proof. apply u32_range. Qed.
#[export] Hint Resolve BIT_u32 : u32.

(** ** Fields of a register assembled with [&], [|] and [<<] *)

Lemma field_lor r r' s w :
  0 <= s -> 0 <= w -> field (r .| r') s w = field r s w .| field r' s w.
Proof.
  intros. apply Z.bits_inj'. intros i Hi.
  rewrite Z.lor_spec, !field_bits, Z.lor_spec by lia. zcrush.
Qed.

Lemma field_shl_same v s w :
  0 <= s -> 0 <= w -> s + w <= 32 -> fits w v -> field (v .<< s) s w = v.
Proof.
  intros. apply Z.bits_inj'. intros i Hi. rewrite field_bits, testbit_shl32 by lia.
  replace (i + s - s) with i by lia.
  destruct (Z.ltb_spec i w); [zcrush|]. now rewrite (fits_testbit_high w v) by (auto; lia).
Qed.

Lemma field_shl_other w' v n s w :
  0 <= s -> 0 <= w -> 0 <= n -> 0 <= w' -> fits w' v -> s + w <= n \/ n + w' <= s ->
  field (v .<< n) s w = 0.
Proof.
  intros Hs Hw Hn Hw' Hv Hd. apply Z.bits_inj'. intros i Hi.
  rewrite field_bits, testbit_shl32, Z.bits_0 by lia.
  destruct (Z.ltb_spec i w); [|reflexivity]. destruct Hd.
  - rewrite (testbit_neg v) by lia. zcrush.
  - rewrite (fits_testbit_high w' v) by (auto; lia). zcrush.
Qed.

Lemma field_clear_in r M s w :
  0 <= s -> 0 <= w -> s + w <= 32 -> field M s w = Z.ones w -> field (r .& .~ M) s w = 0.
Proof.
  intros Hs Hw Hsw HM. apply Z.bits_inj'. intros i Hi. rewrite field_bits, Z.bits_0 by lia.
  destruct (Z.ltb_spec i w); [|reflexivity]. rewrite Z.land_spec, testbit_not32.
  apply (f_equal (fun z => Z.testbit z i)) in HM.
  rewrite field_bits, Z.testbit_ones in HM by lia.
  destruct (Z.testbit M (i + s)); [|zcrush]. zcrush.
Qed.

Lemma field_clear_out r M s w :
  0 <= s -> 0 <= w -> s + w <= 32 -> field M s w = 0 -> field (r .& .~ M) s w = field r s w.
Proof.
  intros Hs Hw Hsw HM. apply field_ext; [lia..|]. intros i Hi.
  rewrite Z.land_spec, testbit_not32. apply (f_equal (fun z => Z.testbit z i)) in HM.
  rewrite field_bits, Z.bits_0 in HM by lia.
  destruct (Z.testbit M (i + s)); zcrush.
Qed.

Lemma field_1 r n : 0 <= n -> field r n 1 = Z.b2z (Z.testbit r n).
Proof.
  intros. apply Z.bits_inj'. intros i Hi. rewrite field_bits by lia.
  destruct (Z.eq_dec i 0) as [->|]; [now rewrite Z.b2z_bit0|].
  rewrite (fits_testbit_high 1 (Z.b2z _)); [zcrush|lia| |lia].
  unfold fits. destruct (Z.testbit r n); simpl; lia.
Qed.

Lemma fits_weaken w w' x : 0 <= w <= w' -> fits w x -> fits w' x.
Proof. intros Hw [H0 H1]. split; [lia|]. pose proof (Z.pow_le_mono_r 2 w w'). lia. Qed.

(** The field of an expression built from masks and shifted arguments. *)
Ltac field_expr :=
  rewrite ?field_lor by lia;
  repeat match goal with
  | |- context [field (?x .& .~ ?M) ?s ?w] =>
      (rewrite (field_clear_in x M s w) by (lia || reflexivity)) ||
      (rewrite (field_clear_out x M s w) by (lia || reflexivity)); rewrite ?field_lor by lia
  | |- context [field (?v .<< ?n) ?s ?w] =>
      (rewrite (field_shl_same v s w) by (lia || assumption)) ||
      match goal with H : fits ?w' v |- _ =>
        rewrite (field_shl_other w' v n s w) by (lia || assumption) end
  end; rewrite ?Z.lor_0_l, ?Z.lor_0_r.

(** ** Write-1-to-clear registers

    What the drivers rely on for the status registers of the DMA, EXTI and
    Ethernet hardware: [w1c r v] is the register after [v] was written to it
    (or to its flag-clear register). *)

Class W1C (w1c : Z -> Z -> Z) : Prop :=
  w1c_spec : forall r v, is_u32 r -> is_u32 v -> w1c r v = r .& .~ v.

(** The register behaviour the reference manual describes. *)
Definition w1c_hw (r v : Z) : Z := r .& .~ v.

#[export] Instance w1c_hw_W1C : W1C w1c_hw.
Proof. easy. Qed.

Lemma w1c_u32 w1c `{!W1C w1c} r v : is_u32 r -> is_u32 v -> is_u32 (w1c r v).
Proof. intros. rewrite (w1c_spec (w1c:=w1c)) by assumption. auto with u32. Qed.
#[export] Hint Resolve w1c_u32 : u32.

Lemma w1c_BIT_spec w1c `{!W1C w1c} r n i :
  0 <= n < 32 -> is_u32 r -> Z.testbit (w1c r (BIT n)) i = negb (i =? n) && Z.testbit r i.
Proof. intros. rewrite (w1c_spec (w1c:=w1c)) by auto with u32. now apply clear_bit_spec. Qed.

(** Write-1-to-set registers, such as the NVIC set-enable words. *)
Class W1S (w1s : Z -> Z -> Z) : Prop :=
  w1s_spec : forall r v, is_u32 r -> is_u32 v -> w1s r v = r .| v.

Definition w1s_hw (r v : Z) : Z := r .| v.

#[export] Instance w1s_hw_W1S : W1S w1s_hw.
Proof. easy. Qed.

Lemma w1s_BIT_spec w1s `{!W1S w1s} r n i :
  0 <= n < 32 -> is_u32 r -> Z.testbit (w1s r (BIT n)) i = (i =? n) || Z.testbit r i.
Proof. intros. rewrite (w1s_spec (w1s:=w1s)) by auto with u32. now apply set_bit_spec. Qed.

Lemma w1s_u32 w1s `{!W1S w1s} r v : is_u32 r -> is_u32 v -> is_u32 (w1s r v).
Proof. intros. rewrite (w1s_spec (w1s:=w1s)) by assumption. auto with u32. Qed.
#[export] Hint Resolve w1s_u32 : u32.

(** Rounding down with a mask: [x & ~(2^w - 1)]. *)
Lemma land_not_ones x w :
  0 <= w <= 32 -> is_u32 x -> x .& .~ (Z.ones w) = x / 2 ^ w * 2 ^ w.
Proof.
  intros Hw Hx. transitivity (Z.ldiff x (Z.ones w)).
  - apply Z.bits_inj'. intros i Hi. rewrite Z.land_spec, testbit_not32, Z.ldiff_spec.
    destruct (Z.ltb_spec i 32).
    + destruct (Z.testbit (Z.ones w) i); zcrush.
    + rewrite (u32_testbit_high x) by (assumption || lia). reflexivity.
  - now rewrite Z.ldiff_ones_r, Z.shiftl_mul_pow2, Z.shiftr_div_pow2 by lia.
Qed.
