(* ===== verification/Platform.v ===== *)
(** * Board identification ([arch/arm/mach-stm32/stm32_platform.c])

    The platform (board) identifiers of [include/mach/platform.h], the
    [stm32_platform=] boot parameter and the device lookup.  The state is the
    static variable [stm32_platform]. *)

From Stdlib Require Import String.
From S2P Require Import Prelude.

Definition DEVICE_STM32F207IG : Z := 0.
Definition DEVICE_STM32F407IG : Z := 1.
Definition DEVICE_STM32F437II : Z := 2.
Definition DEVICE_STM32F439II : Z := 3.
Definition DEVICE_STM32F746NG : Z := 4.

Definition PLATFORM_STM32_STM3220G_EVAL : Z := 0.
Definition PLATFORM_STM32_STM3240G_EVAL : Z := 1.
Definition PLATFORM_STM32_STM_SOM : Z := 2.
Definition PLATFORM_STM32_STM_STM32F439_SOM : Z := 3.
Definition PLATFORM_STM32_STM_DISCO : Z := 4.
Definition PLATFORM_STM32_STM_STM32F7_SOM : Z := 5.
Definition PLATFORM_STM32_STM32F7_DISCO : Z := 6.

(** The initial value of the static variable (F2/F4/F7 builds). *)
Definition stm32_platform_default : Z := PLATFORM_STM32_STM3220G_EVAL.

(** [stm32_device_get]: the [switch] on [stm32_platform]. *)
Definition stm32_device_get (stm32_platform : Z) : Z :=
  if stm32_platform =? PLATFORM_STM32_STM3220G_EVAL then DEVICE_STM32F207IG
  else if stm32_platform =? PLATFORM_STM32_STM3240G_EVAL then DEVICE_STM32F407IG
  else if stm32_platform =? PLATFORM_STM32_STM_SOM then DEVICE_STM32F437II
  else if (stm32_platform =? PLATFORM_STM32_STM_STM32F439_SOM)
          || (stm32_platform =? PLATFORM_STM32_STM_DISCO) then DEVICE_STM32F439II
  else if (stm32_platform =? PLATFORM_STM32_STM_STM32F7_SOM)
          || (stm32_platform =? PLATFORM_STM32_STM32F7_DISCO) then DEVICE_STM32F746NG
  else DEVICE_STM32F207IG.

(** [stm32_platform_parse]: the boot parameter handler; an unknown name leaves
    the platform unchanged and the return value is always 1 (handled). *)
Definition stm32_platform_parse (s : string) (stm32_platform : Z) : Z * Z :=
  (1,
   if String.eqb s "stm3220g-eval" then PLATFORM_STM32_STM3220G_EVAL
   else if String.eqb s "stm3240g-eval" then PLATFORM_STM32_STM3240G_EVAL
   else if String.eqb s "stm-som" then PLATFORM_STM32_STM_SOM
   else if String.eqb s "stm32f4x9-som" then PLATFORM_STM32_STM_STM32F439_SOM
   else if String.eqb s "stm32f7-som" then PLATFORM_STM32_STM_STM32F7_SOM
   else if String.eqb s "stm32f7-disco" then PLATFORM_STM32_STM32F7_DISCO
   else if String.eqb s "stm-disco" then PLATFORM_STM32_STM_DISCO
   else stm32_platform).

(** A platform identifier that the code names. *)
Definition known_platform (p : Z) : Prop := 0 <= p <= 6.

Lemma stm32_platform_parse_known s p :
  known_platform p -> known_platform (snd (stm32_platform_parse s p)).
Proof.
  unfold stm32_platform_parse, known_platform; simpl; intros.
  repeat (destruct (String.eqb _ _); [vm_compute; split; discriminate|]). assumption.
Qed.
