(* ===== verification/Iomux.v ===== *)
(** * Pin multiplexing ([arch/arm/mach-stm32/iomux.c])

    The GPIO register blocks ([struct stm32f2_gpio_regs]) of ports A..K, the
    roles a pin can be given, [stm32f2_gpio_config] and the board set-up
    [stm32_iomux_init], section by section in the order of the source.

    GPIO configuration registers are plain read/write memory on this SoC, so a
    register is a [u32] cell of the state.  The build configuration ([#if
    defined(CONFIG_...)]) is a record of booleans. *)

From S2P Require Import Prelude Platform.

(** ** Constants *)

Definition STM32F2_GPIO_MODE_IN : Z := 0.
Definition STM32F2_GPIO_MODE_OUT : Z := 1.
Definition STM32F2_GPIO_MODE_AF : Z := 2.
Definition STM32F2_GPIO_MODE_AN : Z := 3.

Definition STM32F2_GPIO_OTYPE_PP : Z := 0.
Definition STM32F2_GPIO_OTYPE_OD : Z := 1.
Definition STM32F7_GPIO_OTYPE_PP : Z := 0.
Definition STM32F7_GPIO_OTYPE_OD : Z := 1.

Definition STM32F2_GPIO_SPEED_2M : Z := 0.
Definition STM32F2_GPIO_SPEED_25M : Z := 1.
Definition STM32F2_GPIO_SPEED_50M : Z := 2.
Definition STM32F2_GPIO_SPEED_100M : Z := 3.

Definition STM32F2_GPIO_PUPD_NO : Z := 0.
Definition STM32F2_GPIO_PUPD_UP : Z := 1.
Definition STM32F2_GPIO_PUPD_DOWN : Z := 2.

(** ** Roles *)

Inductive stm32f2_gpio_role :=
  | ROLE_USART1 | ROLE_USART2 | ROLE_USART3 | ROLE_USART4
  | ROLE_USART5 | ROLE_USART6 | ROLE_USART7 | ROLE_USART8
  | ROLE_ETHERNET
  | ROLE_SPI1 | ROLE_SPI2 | ROLE_SPI3 | ROLE_SPI4 | ROLE_SPI5 | ROLE_SPI6
  | ROLE_I2C1 | ROLE_I2C2 | ROLE_I2C3 | ROLE_I2C4
  | ROLE_SDIO | ROLE_USB_OTG | ROLE_LTDC | ROLE_MCO
  | ROLE_OUT | ROLE_IN | ROLE_IN_PUP.

#[global] Instance stm32f2_gpio_role_eq_dec : EqDecision stm32f2_gpio_role.
Proof. solve_decision. Defined.

Definition all_roles : list stm32f2_gpio_role :=
  [ROLE_USART1; ROLE_USART2; ROLE_USART3; ROLE_USART4;
   ROLE_USART5; ROLE_USART6; ROLE_USART7; ROLE_USART8;
   ROLE_ETHERNET;
   ROLE_SPI1; ROLE_SPI2; ROLE_SPI3; ROLE_SPI4; ROLE_SPI5; ROLE_SPI6;
   ROLE_I2C1; ROLE_I2C2; ROLE_I2C3; ROLE_I2C4;
   ROLE_SDIO; ROLE_USB_OTG; ROLE_LTDC; ROLE_MCO;
   ROLE_OUT; ROLE_IN; ROLE_IN_PUP].

(** The C enum's value of a role, and the role of an enum value; a value past
    the last enumerator takes the [default] branch of the [switch]. *)
Definition role_enum (r : stm32f2_gpio_role) : nat :=
  match r with
  | ROLE_USART1 => 0 | ROLE_USART2 => 1 | ROLE_USART3 => 2 | ROLE_USART4 => 3
  | ROLE_USART5 => 4 | ROLE_USART6 => 5 | ROLE_USART7 => 6 | ROLE_USART8 => 7
  | ROLE_ETHERNET => 8
  | ROLE_SPI1 => 9 | ROLE_SPI2 => 10 | ROLE_SPI3 => 11
  | ROLE_SPI4 => 12 | ROLE_SPI5 => 13 | ROLE_SPI6 => 14
  | ROLE_I2C1 => 15 | ROLE_I2C2 => 16 | ROLE_I2C3 => 17 | ROLE_I2C4 => 18
  | ROLE_SDIO => 19 | ROLE_USB_OTG => 20 | ROLE_LTDC => 21 | ROLE_MCO => 22
  | ROLE_OUT => 23 | ROLE_IN => 24 | ROLE_IN_PUP => 25
  end%nat.

Definition role_of_enum (n : nat) : option stm32f2_gpio_role := all_roles !! n.

Lemma role_of_enum_enum r : role_of_enum (role_enum r) = Some r.
Proof. now destruct r. Qed.

(** The AF values, indexed by the role enum. *)
Definition af_val : list Z :=
  [7; 7; 7;
   8; 8; 8;
   8; 8; 11;
   5; 5; 6;
   5; 5; 5;
   4; 4; 4;
   4;
   12; 10;
   14;
   0].

(** ** State *)

Record gpio_regs := {
  moder : Z; otyper : Z; ospeedr : Z; pupdr : Z; idr : Z; odr : Z;
  bsrrl : Z; bsrrh : Z; lckr : Z;
  afr0 : Z; afr1 : Z                                   (* afr[2] *)
}.

Definition set_moder g v := {| moder := v; otyper := otyper g; ospeedr := ospeedr g;
  pupdr := pupdr g; idr := idr g; odr := odr g; bsrrl := bsrrl g; bsrrh := bsrrh g;
  lckr := lckr g; afr0 := afr0 g; afr1 := afr1 g |}.
Definition set_otyper g v := {| moder := moder g; otyper := v; ospeedr := ospeedr g;
  pupdr := pupdr g; idr := idr g; odr := odr g; bsrrl := bsrrl g; bsrrh := bsrrh g;
  lckr := lckr g; afr0 := afr0 g; afr1 := afr1 g |}.
Definition set_ospeedr g v := {| moder := moder g; otyper := otyper g; ospeedr := v;
  pupdr := pupdr g; idr := idr g; odr := odr g; bsrrl := bsrrl g; bsrrh := bsrrh g;
  lckr := lckr g; afr0 := afr0 g; afr1 := afr1 g |}.
Definition set_pupdr g v := {| moder := moder g; otyper := otyper g; ospeedr := ospeedr g;
  pupdr := v; idr := idr g; odr := odr g; bsrrl := bsrrl g; bsrrh := bsrrh g;
  lckr := lckr g; afr0 := afr0 g; afr1 := afr1 g |}.
Definition set_odr g v := {| moder := moder g; otyper := otyper g; ospeedr := ospeedr g;
  pupdr := pupdr g; idr := idr g; odr := v; bsrrl := bsrrl g; bsrrh := bsrrh g;
  lckr := lckr g; afr0 := afr0 g; afr1 := afr1 g |}.
Definition afr (g : gpio_regs) (k : Z) : Z := if k =? 0 then afr0 g else afr1 g.
Definition set_afr (g : gpio_regs) (k v : Z) := {| moder := moder g; otyper := otyper g;
  ospeedr := ospeedr g; pupdr := pupdr g; idr := idr g; odr := odr g; bsrrl := bsrrl g;
  bsrrh := bsrrh g; lckr := lckr g;
  afr0 := if k =? 0 then v else afr0 g; afr1 := if k =? 0 then afr1 g else v |}.

(** The eleven port blocks [stm32_gpio_base[]] and the AHB1 clock gates. *)
Record gpio_hw := { ahb1enr : Z; gpio_port : list gpio_regs }.

Definition STM32_GPIO_BASE_LEN : Z := 11.

Record stm32f2_gpio_dsc := Dsc { dsc_port : Z; dsc_pin : Z }.

#[global] Instance stm32f2_gpio_dsc_eq_dec : EqDecision stm32f2_gpio_dsc.
Proof. solve_decision. Defined.

(** ** [stm32f2_gpio_config] *)

(** The I/O parameters the [switch] selects: output type, speed, pull. *)
Definition role_params (r : stm32f2_gpio_role) : Z * Z * Z :=
  match r with
  | ROLE_USART1 | ROLE_USART2 | ROLE_USART3 | ROLE_USART4
  | ROLE_USART5 | ROLE_USART6 | ROLE_USART7 | ROLE_USART8
  | ROLE_SPI1 | ROLE_SPI2 | ROLE_SPI3 | ROLE_SPI4 | ROLE_SPI5 | ROLE_SPI6 =>
      (STM32F2_GPIO_OTYPE_PP, STM32F2_GPIO_SPEED_50M, STM32F2_GPIO_PUPD_UP)
  | ROLE_I2C1 | ROLE_I2C2 | ROLE_I2C3 | ROLE_I2C4 =>
      (STM32F2_GPIO_OTYPE_OD, STM32F2_GPIO_SPEED_2M, STM32F2_GPIO_PUPD_UP)
  | ROLE_USB_OTG | ROLE_ETHERNET | ROLE_MCO =>
      (STM32F2_GPIO_OTYPE_PP, STM32F2_GPIO_SPEED_100M, STM32F2_GPIO_PUPD_NO)
  | ROLE_SDIO =>
      (STM32F7_GPIO_OTYPE_PP, STM32F2_GPIO_SPEED_50M, STM32F2_GPIO_PUPD_UP)
  | ROLE_LTDC =>
      (STM32F7_GPIO_OTYPE_PP, STM32F2_GPIO_SPEED_50M, STM32F2_GPIO_PUPD_NO)
  | ROLE_OUT =>
      (STM32F2_GPIO_OTYPE_PP, STM32F2_GPIO_SPEED_50M, STM32F2_GPIO_PUPD_NO)
  | ROLE_IN =>
      (STM32F2_GPIO_OTYPE_PP, STM32F2_GPIO_SPEED_50M, STM32F2_GPIO_PUPD_NO)
  | ROLE_IN_PUP =>
      (STM32F2_GPIO_OTYPE_PP, STM32F2_GPIO_SPEED_50M, STM32F2_GPIO_PUPD_UP)
  end.

(** The roles that connect the pin to a peripheral. *)
Definition role_has_af (r : stm32f2_gpio_role) : bool :=
  match r with
  | ROLE_MCO | ROLE_OUT | ROLE_IN | ROLE_IN_PUP => false
  | _ => true
  end.

Definition role_mode (r : stm32f2_gpio_role) : Z :=
  match r with
  | ROLE_OUT => STM32F2_GPIO_MODE_OUT
  | ROLE_IN => STM32F2_GPIO_MODE_IN
  | ROLE_IN_PUP => STM32F2_GPIO_MODE_IN
  | _ => STM32F2_GPIO_MODE_AF
  end.

Definition role_af (r : stm32f2_gpio_role) : Z := nth (role_enum r) af_val 0.

(** The writes to the port's register block, in source order. *)
Definition gpio_program (pin : Z) (role : stm32f2_gpio_role) (g : gpio_regs) : gpio_regs :=
  let '(otype, ospeed, pupd) := role_params role in
  let g :=
    if role_has_af role then
      let i := (pin .& 0x07) * 4 in
      let g := set_afr g (pin .>> 3) (afr g (pin .>> 3) .& .~ (0xF .<< i)) in
      set_afr g (pin .>> 3) (afr g (pin .>> 3) .| (role_af role .<< i))
    else g in
  let i := pin in
  let g := set_otyper g (otyper g .& .~ (0x1 .<< i)) in
  let g := set_otyper g (otyper g .| (otype .<< i)) in
  let i := pin * 2 in
  let mode := role_mode role in
  let g := set_moder g (moder g .& .~ (0x3 .<< i)) in
  let g := set_moder g (moder g .| (mode .<< i)) in
  let g := set_ospeedr g (ospeedr g .& .~ (0x3 .<< i)) in
  let g := set_ospeedr g (ospeedr g .| (ospeed .<< i)) in
  let g := set_pupdr g (pupdr g .& .~ (0x3 .<< i)) in
  let g := set_pupdr g (pupdr g .| (pupd .<< i)) in
  g.

(** [port] and [pin] are [u32]; [dsc] may be a null pointer; [role] is the
    enum's value. *)
Definition stm32f2_gpio_config (dsc : option stm32f2_gpio_dsc) (role : nat)
    (hw : gpio_hw) : Z * gpio_hw :=
  match dsc with
  | None => (- EINVAL, hw)
  | Some d =>
    if (STM32_GPIO_BASE_LEN <=? dsc_port d) || (15 <? dsc_pin d) then (- EINVAL, hw)
    else match role_of_enum role with
    | None => (- EINVAL, hw)
    | Some r =>
      (0, {| ahb1enr := ahb1enr hw .| (1 .<< dsc_port d);
             gpio_port := alter (gpio_program (dsc_pin d) r)
                                (Z.to_nat (dsc_port d)) (gpio_port hw) |})
    end
  end.

(** ** Well-formed register state *)

Record gpio_wf (g : gpio_regs) : Prop := {
  wf_moder : is_u32 (moder g); wf_otyper : is_u32 (otyper g);
  wf_ospeedr : is_u32 (ospeedr g); wf_pupdr : is_u32 (pupdr g);
  wf_odr : is_u32 (odr g); wf_afr0 : is_u32 (afr0 g); wf_afr1 : is_u32 (afr1 g)
}.

Record hw_wf (hw : gpio_hw) : Prop := {
  wf_ahb1enr : is_u32 (ahb1enr hw);
  wf_len : length (gpio_port hw) = 11%nat;
  wf_ports : Forall gpio_wf (gpio_port hw)
}.

(** ** The abstract view: what a pin is configured as *)

Record pin_config := {
  pc_mode : Z; pc_otype : Z; pc_ospeed : Z; pc_pupd : Z; pc_af : Z
}.

(** Field positions of pin [p]; alternate functions are four bits wide, eight
    pins per register. *)
Definition pin_cfg (g : gpio_regs) (p : Z) : pin_config := {|
  pc_mode := field (moder g) (2 * p) 2;
  pc_otype := field (otyper g) p 1;
  pc_ospeed := field (ospeedr g) (2 * p) 2;
  pc_pupd := field (pupdr g) (2 * p) 2;
  pc_af := field (afr g (p / 8)) (4 * (p mod 8)) 4
|}.

(** The configuration a role asks for; roles without an alternate function
    leave the AF selection as it was. *)
Definition role_cfg (r : stm32f2_gpio_role) (old : pin_config) : pin_config :=
  let '(otype, ospeed, pupd) := role_params r in {|
    pc_mode := role_mode r; pc_otype := otype; pc_ospeed := ospeed; pc_pupd := pupd;
    pc_af := if role_has_af r then role_af r else pc_af old
  |}.

Definition pin_of (hw : gpio_hw) (d : stm32f2_gpio_dsc) : option pin_config :=
  (fun g => pin_cfg g (dsc_pin d)) <$> gpio_port hw !! Z.to_nat (dsc_port d).

Definition dsc_valid (d : stm32f2_gpio_dsc) : Prop :=
  0 <= dsc_port d < STM32_GPIO_BASE_LEN /\ 0 <= dsc_pin d <= 15.

#[global] Instance dsc_valid_dec d : Decision (dsc_valid d).
Proof. unfold dsc_valid. apply _. Defined.

(** ** Correctness of [gpio_program] *)

Lemma role_params_fit r :
  fits 1 (role_params r).1.1 /\ fits 2 (role_params r).1.2 /\ fits 2 (role_params r).2
  /\ fits 2 (role_mode r) /\ fits 4 (role_af r).
Proof. destruct r; vm_compute; repeat split; discriminate. Qed.

Lemma afr_set_afr g k v k' :
  0 <= k <= 1 -> 0 <= k' <= 1 ->
  afr (set_afr g k v) k' = if k =? k' then v else afr g k'.
Proof. intros. unfold afr, set_afr; simpl. zcrush. Qed.

(** Each register of the programmed block is the old one with one field
    written. *)
Lemma gpio_program_regs p r g :
  let g' := gpio_program p r g in
  moder g' = upd (moder g) (p * 2) 2 (role_mode r)
  /\ otyper g' = upd (otyper g) p 1 (role_params r).1.1
  /\ ospeedr g' = upd (ospeedr g) (p * 2) 2 (role_params r).1.2
  /\ pupdr g' = upd (pupdr g) (p * 2) 2 (role_params r).2
  /\ odr g' = odr g
  /\ (0 <= p <= 15 -> forall k, 0 <= k <= 1 ->
      afr g' k = if role_has_af r && (k =? p / 8)
                 then upd (afr g k) (4 * (p mod 8)) 4 (role_af r) else afr g k).
Proof.
  unfold gpio_program. destruct (role_params r) as [[ot os] pu]. simpl.
  destruct (role_has_af r); simpl; repeat split; try reflexivity.
  all: intros Hp k Hk; try reflexivity.
  assert (Hd : p .>> 3 = p / 8) by (rewrite Z.shiftr_div_pow2 by lia; reflexivity).
  assert (Hm : (p .& 7) * 4 = 4 * (p mod 8))
    by (change 7 with (Z.ones 3); rewrite Z.land_ones by lia; change (2 ^ 3) with 8; lia).
  assert (Hr : 0 <= p / 8 <= 1) by zdiv.
  rewrite Hd, Hm. unfold afr, set_afr, upd; simpl. zcrush.
Qed.

Lemma gpio_wf_afr g k : gpio_wf g -> is_u32 (afr g k).
Proof. intros []. unfold afr. destruct (k =? 0); assumption. Qed.

Lemma gpio_program_wf p r g : 0 <= p <= 15 -> gpio_wf g -> gpio_wf (gpio_program p r g).
Proof.
  intros Hp Hg. destruct (gpio_program_regs p r g) as (E1&E2&E3&E4&E5&E6).
  specialize (E6 Hp). pose proof (gpio_wf_afr g 0 Hg). pose proof (gpio_wf_afr g 1 Hg).
  destruct Hg. split; rewrite ?E1, ?E2, ?E3, ?E4, ?E5; auto with u32.
  - specialize (E6 0 ltac:(lia)). change (afr0 (gpio_program p r g))
      with (afr (gpio_program p r g) 0). rewrite E6. case_match; auto with u32.
  - specialize (E6 1 ltac:(lia)). change (afr1 (gpio_program p r g))
      with (afr (gpio_program p r g) 1). rewrite E6. case_match; auto with u32.
Qed.

(** The programmed pin has the role's configuration. *)
Lemma gpio_program_same p r g :
  0 <= p <= 15 -> gpio_wf g -> pin_cfg (gpio_program p r g) p = role_cfg r (pin_cfg g p).
Proof.
  intros Hp Hg. destruct (gpio_program_regs p r g) as (E1&E2&E3&E4&_&E6).
  destruct (role_params_fit r) as (F1&F2&F3&F4&F5).
  unfold pin_cfg, role_cfg. rewrite E1, E2, E3, E4, (E6 Hp) by zdiv.
  destruct (role_params r) as [[ot os] pu]; simpl in *.
  rewrite Z.eqb_refl, andb_true_r, (Z.mul_comm p 2). pose proof (gpio_wf_afr g (p / 8) Hg).
  destruct Hg. rewrite !field_upd_same by (auto; zdiv). f_equal.
  destruct (role_has_af r); [apply field_upd_same; auto; zdiv|reflexivity].
Qed.

(** Every other pin of the port keeps its configuration. *)
Lemma gpio_program_other p q r g :
  0 <= p <= 15 -> 0 <= q <= 15 -> p <> q -> gpio_wf g ->
  pin_cfg (gpio_program p r g) q = pin_cfg g q.
Proof.
  intros Hp Hq Hne Hg. destruct (gpio_program_regs p r g) as (E1&E2&E3&E4&_&E6).
  destruct (role_params_fit r) as (F1&F2&F3&F4&F5).
  unfold pin_cfg. rewrite E1, E2, E3, E4, (E6 Hp) by zdiv.
  pose proof (gpio_wf_afr g (q / 8) Hg). destruct Hg.
  rewrite !field_upd_other by (auto; zdiv). f_equal.
  destruct (role_has_af r); simpl; [|reflexivity].
  destruct (Z.eqb_spec (q / 8) (p / 8)); [|reflexivity].
  apply field_upd_other; auto; zdiv.
Qed.

(** ** [stm32f2_gpio_config] as an update of the abstract pin map *)

Lemma config_ok d role r hw :
  dsc_valid d -> role_of_enum role = Some r ->
  stm32f2_gpio_config (Some d) role hw =
    (0, {| ahb1enr := ahb1enr hw .| BIT (dsc_port d);
           gpio_port := alter (gpio_program (dsc_pin d) r)
                              (Z.to_nat (dsc_port d)) (gpio_port hw) |}).
Proof.
  intros [Hp Hq] Hr. unfold stm32f2_gpio_config. rewrite Hr.
  replace (STM32_GPIO_BASE_LEN <=? dsc_port d) with false by zcrush.
  now replace (15 <? dsc_pin d) with false by zcrush.
Qed.

Lemma config_wf d role hw :
  (0 <= dsc_pin d) -> hw_wf hw -> hw_wf (stm32f2_gpio_config (Some d) role hw).2.
Proof.
  intros Hp Hw. unfold stm32f2_gpio_config.
  destruct (STM32_GPIO_BASE_LEN <=? dsc_port d); simpl; [assumption|].
  destruct (Z.ltb_spec 15 (dsc_pin d)); simpl; [assumption|].
  destruct (role_of_enum role); simpl; [|assumption].
  destruct Hw as [Ha Hl Hf]. split; simpl.
  - auto with u32.
  - now rewrite length_alter.
  - apply Forall_alter; [assumption|]. intros. apply gpio_program_wf; [lia|assumption].
Qed.

Lemma pin_of_config d role r hw d' :
  dsc_valid d -> dsc_valid d' -> hw_wf hw -> role_of_enum role = Some r ->
  pin_of (stm32f2_gpio_config (Some d) role hw).2 d' =
    if decide (d' = d) then role_cfg r <$> pin_of hw d' else pin_of hw d'.
Proof.
  intros Hd Hd' [_ _ Hf] Hr. rewrite (config_ok d role r hw Hd Hr). unfold pin_of; simpl.
  destruct Hd as [Hp Hq], Hd' as [Hp' Hq'].
  destruct (decide (dsc_port d' = dsc_port d)) as [Hpe|Hpe].
  - rewrite Hpe, list_lookup_alter_eq.
    destruct (gpio_port hw !! Z.to_nat (dsc_port d)) as [g|] eqn:E; simpl.
    2: { now case_decide. }
    assert (gpio_wf g) by (eapply Forall_lookup_1; eassumption).
    case_decide as Hdd.
    + subst d'. f_equal. now apply gpio_program_same.
    + f_equal. apply gpio_program_other; auto.
      intros Hpq. apply Hdd. destruct d, d'; simpl in *; congruence.
  - rewrite decide_False by (intros ->; contradiction).
    rewrite list_lookup_alter_ne; [reflexivity|].
    intros Hn. apply Hpe. now apply Z2Nat.inj.
Qed.

(** Requests are issued one after another and the return values ignored. *)
Definition gpio_request : Type := stm32f2_gpio_dsc * stm32f2_gpio_role.

Definition gpio_config_all (l : list gpio_request) (hw : gpio_hw) : gpio_hw :=
  fold_left (fun hw q => (stm32f2_gpio_config (Some q.1) (role_enum q.2) hw).2) l hw.

(** What a list of requests does to one pin. *)
Definition pin_requests (l : list gpio_request) (d : stm32f2_gpio_dsc)
    (c : option pin_config) : option pin_config :=
  fold_left (fun c q => if decide (d = q.1) then role_cfg q.2 <$> c else c) l c.

Lemma gpio_config_all_refines l hw :
  Forall (fun q => dsc_valid q.1) l -> hw_wf hw ->
  hw_wf (gpio_config_all l hw) /\
  (forall d, dsc_valid d -> pin_of (gpio_config_all l hw) d = pin_requests l d (pin_of hw d)).
Proof.
  intros Hl. revert hw. induction Hl as [|[d r] l Hq Hl IH]; intros hw Hw; [auto|].
  simpl in *. assert (Hw' : hw_wf (stm32f2_gpio_config (Some d) (role_enum r) hw).2)
    by (apply config_wf; [apply Hq|assumption]).
  destruct (IH _ Hw') as [IHw IHp]. split; [assumption|]. intros d' Hd'.
  rewrite IHp, (pin_of_config d _ r hw d') by (auto using role_of_enum_enum).
  reflexivity.
Qed.

Lemma pin_requests_notin l d c : d ∉ l.*1 -> pin_requests l d c = c.
Proof.
  revert c. induction l as [|[e r] l IH]; intros c Hn; [reflexivity|]. simpl in *.
  apply not_elem_of_cons in Hn as [Hne Hn]. rewrite decide_False by assumption. now apply IH.
Qed.

Lemma pin_requests_in l d r c :
  NoDup (l.*1) -> (d, r) ∈ l -> pin_requests l d c = role_cfg r <$> c.
Proof.
  revert c. induction l as [|[e r'] l IH]; intros c Hnd Hin; [now apply not_elem_of_nil in Hin|].
  simpl in *. apply NoDup_cons in Hnd as [Hn Hnd]. apply elem_of_cons in Hin as [[= -> ->]|Hin].
  - rewrite decide_True by reflexivity. now apply pin_requests_notin.
  - rewrite decide_False; [now apply IH|]. intros ->. apply Hn.
    apply list_elem_of_fmap. now exists (e, r).
Qed.

(** ** Board set-up: [stm32_iomux_init] *)

(** The [CONFIG_] symbols the function tests.  [CONFIG_GPIO_SYSFS_LIB] stands
    for [defined(CONFIG_GPIOLIB) && defined(CONFIG_GPIO_SYSFS)].  SPI1, SPI3 and
    SPI6 have no field: enabling them stops the build with [#error]. *)
Record iomux_cfg := {
  CONFIG_ARCH_STM32F7 : bool;
  CONFIG_STM32_USART1 : bool; CONFIG_STM32_USART3 : bool;
  CONFIG_STM32_USART6 : bool; CONFIG_STM32_USART7 : bool;
  CONFIG_STM32_MAC : bool;
  CONFIG_STM32_SPI2 : bool; CONFIG_STM32_SPI4 : bool; CONFIG_STM32_SPI5 : bool;
  CONFIG_STM32_I2C1 : bool; CONFIG_STM32_I2C2 : bool;
  CONFIG_STM32_I2C3 : bool; CONFIG_STM32_I2C4 : bool;
  CONFIG_MMC_ARMMMCI : bool;
  CONFIG_STM32_USB_OTG_FS : bool; CONFIG_STM32_USB_OTG_HS : bool;
  CONFIG_GPIO_SYSFS_LIB : bool;
  CONFIG_STM32_FB : bool; CONFIG_STM32F7_DISCO_FB : bool
}.

Definition rq (port pin : Z) (r : stm32f2_gpio_role) : gpio_request := (Dsc port pin, r).
Definition on (b : bool) (l : list gpio_request) : list gpio_request := if b then l else [].
(** The [for] loops over a static array of descriptors. *)
Definition each (r : stm32f2_gpio_role) (l : list (Z * Z)) : list gpio_request :=
  map (fun pq => rq pq.1 pq.2 r) l.

(** Console pins, boards with the F439 and F7 chips. *)
Definition uart_requests_f7 (c : iomux_cfg) : list gpio_request :=
  on (CONFIG_STM32_USART1 c) [rq 1 6 ROLE_USART1; rq 0 10 ROLE_USART1]
  ++ on (CONFIG_STM32_USART3 c) [rq 2 10 ROLE_USART3; rq 2 11 ROLE_USART3]
  ++ on (CONFIG_STM32_USART6 c) [rq 2 6 ROLE_USART6; rq 2 7 ROLE_USART6]
  ++ on (CONFIG_STM32_USART7 c) [rq 5 7 ROLE_USART7; rq 5 6 ROLE_USART7].

(** Console pins, the other boards. *)
Definition uart_requests_f2 (c : iomux_cfg) : list gpio_request :=
  on (CONFIG_STM32_USART1 c) [rq 0 9 ROLE_USART1; rq 0 10 ROLE_USART1]
  ++ on (CONFIG_STM32_USART3 c) [rq 2 10 ROLE_USART3; rq 2 11 ROLE_USART3].

Definition mii_gpio : list (Z * Z) :=
  [(0, 1); (0, 2); (0, 7);
   (1, 5); (1, 8);
   (2, 1); (2, 2); (2, 3); (2, 4); (2, 5);
   (6, 11); (6, 13); (6, 14);
   (7, 2); (7, 3); (7, 6); (7, 7);
   (8, 10)].

Definition rmii_gpio : list (Z * Z) :=
  [(0, 1); (0, 2); (0, 7);
   (2, 1); (2, 4); (2, 5);
   (6, 11); (6, 13); (6, 14)].

Definition mac_requests (c : iomux_cfg) (platform : Z) : list gpio_request :=
  on (CONFIG_STM32_MAC c)
    (if (platform =? PLATFORM_STM32_STM_SOM)
        || (platform =? PLATFORM_STM32_STM_DISCO)
        || (platform =? PLATFORM_STM32_STM_STM32F439_SOM)
        || (platform =? PLATFORM_STM32_STM_STM32F7_SOM)
        || (platform =? PLATFORM_STM32_STM32F7_DISCO)
     then each ROLE_ETHERNET rmii_gpio
     else each ROLE_ETHERNET mii_gpio).

Definition spi_requests (c : iomux_cfg) : list gpio_request :=
  on (CONFIG_STM32_SPI2 c)
    [rq 8 1 ROLE_SPI2; rq 1 14 ROLE_SPI2; rq 1 15 ROLE_SPI2; rq 1 9 ROLE_OUT]
  ++ on (CONFIG_STM32_SPI4 c)
    [rq 4 2 ROLE_SPI4; rq 4 5 ROLE_SPI4; rq 4 6 ROLE_SPI4; rq 4 4 ROLE_OUT]
  ++ on (CONFIG_STM32_SPI5 c)
    [rq 7 6 ROLE_SPI5; rq 5 8 ROLE_SPI5; rq 5 9 ROLE_SPI5; rq 7 5 ROLE_OUT].

Definition i2c_requests (c : iomux_cfg) (platform : Z) : list gpio_request :=
  let som := (platform =? PLATFORM_STM32_STM_STM32F439_SOM)
             || (platform =? PLATFORM_STM32_STM_STM32F7_SOM) in
  on (CONFIG_STM32_I2C1 c)
    [if som then rq 1 8 ROLE_I2C1 else rq 1 9 ROLE_I2C1;
     if som then rq 1 7 ROLE_I2C1 else rq 1 8 ROLE_I2C1]
  ++ on (CONFIG_STM32_I2C2 c) [rq 1 10 ROLE_I2C2; rq 1 11 ROLE_I2C2]
  ++ on (CONFIG_STM32_I2C3 c) [rq 0 8 ROLE_I2C3; rq 2 9 ROLE_I2C3]
  ++ on (CONFIG_STM32_I2C4 c) [rq 7 11 ROLE_I2C4; rq 7 12 ROLE_I2C4].

Definition sdcard_gpio : list (Z * Z) :=
  [(2, 8); (2, 9); (2, 10); (2, 11); (2, 12); (3, 2)].

Definition mmc_requests (c : iomux_cfg) (platform : Z) : list gpio_request :=
  on (CONFIG_MMC_ARMMMCI c)
    (each ROLE_SDIO sdcard_gpio
     ++ on (platform =? PLATFORM_STM32_STM32F7_DISCO) [rq 2 13 ROLE_IN_PUP]).

Definition otg_fs_gpio : list (Z * Z) := [(0, 11); (0, 12); (0, 9); (0, 10)].

Definition usb_fs_requests (c : iomux_cfg) (platform : Z) : list gpio_request :=
  on (CONFIG_STM32_USB_OTG_FS c)
    (each ROLE_USB_OTG otg_fs_gpio
     ++ on (platform =? PLATFORM_STM32_STM32F7_DISCO) [rq 3 5 ROLE_OUT]).

(** The VBUS switch enable PD5 is then driven low: [odr &= ~(1 << 5)]. *)
Definition usb_fs_vbus_on (c : iomux_cfg) (platform : Z) (hw : gpio_hw) : gpio_hw :=
  if CONFIG_STM32_USB_OTG_FS c && (platform =? PLATFORM_STM32_STM32F7_DISCO) then
    {| ahb1enr := ahb1enr hw;
       gpio_port := alter (fun g => set_odr g (odr g .& .~ (1 .<< 5))) 3%nat (gpio_port hw) |}
  else hw.

Definition otg_hs_gpio : list (Z * Z) :=
  [(0, 5); (2, 0); (7, 4);
   (0, 3); (1, 0); (1, 1); (1, 10); (1, 11); (1, 12); (1, 13); (1, 5)].

Definition usb_hs_requests (c : iomux_cfg) (platform : Z) : list gpio_request :=
  on (CONFIG_STM32_USB_OTG_HS c)
    (each ROLE_USB_OTG otg_hs_gpio
     ++ [if platform =? PLATFORM_STM32_STM32F7_DISCO
         then rq 2 2 ROLE_USB_OTG else rq 8 11 ROLE_USB_OTG]).

(** User push buttons and LEDs. *)
Definition sysfs_requests (c : iomux_cfg) (platform : Z) : list gpio_request :=
  on (CONFIG_GPIO_SYSFS_LIB c)
    (on (platform =? PLATFORM_STM32_STM_STM32F439_SOM) [rq 4 2 ROLE_IN_PUP; rq 1 2 ROLE_OUT]
     ++ on (platform =? PLATFORM_STM32_STM_STM32F7_SOM) [rq 7 2 ROLE_IN_PUP; rq 1 2 ROLE_OUT]
     ++ on (platform =? PLATFORM_STM32_STM32F7_DISCO) [rq 8 11 ROLE_IN_PUP; rq 8 1 ROLE_OUT]
     ++ on (platform =? PLATFORM_STM32_STM_DISCO) [rq 0 0 ROLE_IN; rq 4 3 ROLE_OUT]).

Definition fb_lcd_gpio (f7 : bool) : list (Z * Z) :=
  if f7 then
    [(8, 14); (10, 7); (8, 12); (8, 13);
     (9, 12); (9, 13); (9, 14); (9, 15); (10, 3); (10, 4); (10, 5); (10, 6);
     (9, 7); (9, 8); (9, 9); (9, 10); (9, 11); (10, 0); (10, 1); (10, 2);
     (8, 15); (9, 0); (9, 1); (9, 2); (9, 3); (9, 4); (9, 5); (9, 6)]
  else
    [(6, 7); (5, 10); (8, 10); (8, 9);
     (6, 12); (6, 10); (8, 4); (8, 5); (8, 6); (8, 7);
     (7, 13); (7, 14); (7, 15); (8, 0); (2, 7); (8, 2);
     (7, 2); (7, 3); (7, 8); (7, 9); (7, 10); (7, 11); (7, 12); (6, 6)].

(** [fb_running] is the result of [stm32f4_fb_is_running()]: the LCD controller
    was left running by the boot loader. *)
Definition fb_requests (c : iomux_cfg) (fb_running : bool) : list gpio_request :=
  on (CONFIG_STM32_FB c)
    (if fb_running then [] else each ROLE_LTDC (fb_lcd_gpio (CONFIG_ARCH_STM32F7 c))).

Definition disco_lcd_disp_pins : list (Z * Z) := [(8, 12); (10, 3)].

Definition disco_lcd_gpio : list (Z * Z) :=
  [(8, 9); (8, 10); (8, 14); (10, 7);
   (8, 15); (9, 0); (9, 1); (9, 2); (9, 3); (9, 4); (9, 5); (9, 6);
   (9, 7); (9, 8); (9, 9); (9, 10); (9, 11); (10, 0); (10, 1); (10, 2);
   (9, 12); (9, 13); (9, 14); (9, 15); (6, 12); (10, 4); (10, 5); (10, 6)].

Definition disco_fb_requests (c : iomux_cfg) : list gpio_request :=
  on (CONFIG_STM32F7_DISCO_FB c)
    (each ROLE_LTDC disco_lcd_gpio ++ each ROLE_OUT disco_lcd_disp_pins).

(** From the label [uartdone] to the end of the case. *)
Definition iomux_uartdone (c : iomux_cfg) (platform : Z) (fb_running : bool)
    (hw : gpio_hw) : gpio_hw :=
  let hw := gpio_config_all (mac_requests c platform) hw in
  let hw := gpio_config_all (spi_requests c) hw in
  let hw := gpio_config_all (i2c_requests c platform) hw in
  let hw := gpio_config_all (mmc_requests c platform) hw in
  let hw := gpio_config_all (usb_fs_requests c platform) hw in
  let hw := usb_fs_vbus_on c platform hw in
  let hw := gpio_config_all (usb_hs_requests c platform) hw in
  let hw := gpio_config_all (sysfs_requests c platform) hw in
  let hw := gpio_config_all (fb_requests c fb_running) hw in
  gpio_config_all (disco_fb_requests c) hw.

Definition platform_is_f439_f7 (platform : Z) : bool :=
  (platform =? PLATFORM_STM32_STM_STM32F439_SOM)
  || (platform =? PLATFORM_STM32_STM_STM32F7_SOM)
  || (platform =? PLATFORM_STM32_STM32F7_DISCO).

Definition platform_is_f2_f4 (platform : Z) : bool :=
  (platform =? PLATFORM_STM32_STM3220G_EVAL)
  || (platform =? PLATFORM_STM32_STM3240G_EVAL)
  || (platform =? PLATFORM_STM32_STM_SOM)
  || (platform =? PLATFORM_STM32_STM_DISCO).

(** The [switch] on the platform; an unsupported one only prints a warning. *)
Definition stm32_iomux_init (c : iomux_cfg) (platform : Z) (fb_running : bool)
    (hw : gpio_hw) : gpio_hw :=
  if platform_is_f439_f7 platform then
    iomux_uartdone c platform fb_running (gpio_config_all (uart_requests_f7 c) hw)
  else if platform_is_f2_f4 platform then
    iomux_uartdone c platform fb_running (gpio_config_all (uart_requests_f2 c) hw)
  else hw.

(** The options of the committed [.config]. *)
Definition disco_config : iomux_cfg := {|
  CONFIG_ARCH_STM32F7 := true;
  CONFIG_STM32_USART1 := false; CONFIG_STM32_USART3 := false;
  CONFIG_STM32_USART6 := true; CONFIG_STM32_USART7 := false;
  CONFIG_STM32_MAC := true;
  CONFIG_STM32_SPI2 := false; CONFIG_STM32_SPI4 := false; CONFIG_STM32_SPI5 := false;
  CONFIG_STM32_I2C1 := false; CONFIG_STM32_I2C2 := false;
  CONFIG_STM32_I2C3 := false; CONFIG_STM32_I2C4 := false;
  CONFIG_MMC_ARMMMCI := true;
  CONFIG_STM32_USB_OTG_FS := true; CONFIG_STM32_USB_OTG_HS := false;
  CONFIG_GPIO_SYSFS_LIB := false;
  CONFIG_STM32_FB := false; CONFIG_STM32F7_DISCO_FB := true
|}.

(** ** Theorems *)

(** The requests of a board in order. *)
Definition iomux_requests (c : iomux_cfg) (platform : Z) (fb_running : bool) :
    list gpio_request :=
  (if platform_is_f439_f7 platform then uart_requests_f7 c else uart_requests_f2 c)
  ++ mac_requests c platform ++ spi_requests c ++ i2c_requests c platform
  ++ mmc_requests c platform ++ usb_fs_requests c platform ++ usb_hs_requests c platform
  ++ sysfs_requests c platform ++ fb_requests c fb_running ++ disco_fb_requests c.

Lemma pin_requests_app l1 l2 d c :
  pin_requests (l1 ++ l2) d c = pin_requests l2 d (pin_requests l1 d c).
Proof. apply fold_left_app. Qed.

Lemma gpio_config_all_app l1 l2 hw :
  gpio_config_all (l1 ++ l2) hw = gpio_config_all l2 (gpio_config_all l1 hw).
Proof. apply fold_left_app. Qed.

Lemma on_valid b l : Forall (fun q => dsc_valid q.1) l -> Forall (fun q => dsc_valid q.1) (on b l).
Proof. destruct b; [auto|constructor]. Qed.

(** A literal request list is checked by evaluation. *)
Ltac valid_list :=
  apply (bool_decide_unpack _); vm_compute; exact I.

Lemma iomux_requests_valid c p fb : Forall (fun q => dsc_valid q.1) (iomux_requests c p fb).
Proof.
  unfold iomux_requests, uart_requests_f7, uart_requests_f2, mac_requests, spi_requests,
    i2c_requests, mmc_requests, usb_fs_requests, usb_hs_requests, sysfs_requests, fb_requests,
    fb_lcd_gpio, disco_fb_requests, each, rq.
  cbv zeta.
  repeat first [apply Forall_app_2 | apply on_valid
               | match goal with |- context [if ?b then _ else _] => destruct b end];
    valid_list.
Qed.

Lemma usb_fs_vbus_on_pins c p hw d : pin_of (usb_fs_vbus_on c p hw) d = pin_of hw d.
Proof.
  unfold usb_fs_vbus_on, pin_of. destruct (_ && _); [|reflexivity]; simpl.
  destruct (decide (Z.to_nat (dsc_port d) = 3%nat)) as [->|Hne].
  - rewrite list_lookup_alter_eq. now destruct (gpio_port hw !! 3%nat).
  - now rewrite list_lookup_alter_ne by congruence.
Qed.

Lemma usb_fs_vbus_on_wf c p hw : hw_wf hw -> hw_wf (usb_fs_vbus_on c p hw).
Proof.
  intros Hw. unfold usb_fs_vbus_on. destruct (_ && _); [|assumption].
  destruct Hw as [? ? Hf]. split; simpl; [assumption|now rewrite length_alter|].
  apply Forall_alter; [assumption|]. intros g _ []. split; simpl; auto with u32.
Qed.

(** One stage of the set-up, in terms of the pins. *)
Lemma stage_refines l hw :
  Forall (fun q => dsc_valid q.1) l -> hw_wf hw -> hw_wf (gpio_config_all l hw).
Proof. intros. now apply gpio_config_all_refines. Qed.

Lemma stage_pins l hw d :
  Forall (fun q => dsc_valid q.1) l -> hw_wf hw -> dsc_valid d ->
  pin_of (gpio_config_all l hw) d = pin_requests l d (pin_of hw d).
Proof. intros. now apply gpio_config_all_refines. Qed.

(** The stages before and after the VBUS write, as two request lists. *)
Lemma iomux_uartdone_split c p fb hw l0 :
  iomux_uartdone c p fb (gpio_config_all l0 hw) =
  gpio_config_all (usb_hs_requests c p ++ sysfs_requests c p ++ fb_requests c fb
                   ++ disco_fb_requests c)
    (usb_fs_vbus_on c p
       (gpio_config_all (l0 ++ mac_requests c p ++ spi_requests c ++ i2c_requests c p
                         ++ mmc_requests c p ++ usb_fs_requests c p) hw)).
Proof. unfold iomux_uartdone. now rewrite !gpio_config_all_app. Qed.

Lemma iomux_init_spec c p fb hw :
  platform_is_f439_f7 p || platform_is_f2_f4 p = true -> hw_wf hw ->
  hw_wf (stm32_iomux_init c p fb hw) /\
  forall d, dsc_valid d ->
    pin_of (stm32_iomux_init c p fb hw) d
    = pin_requests (iomux_requests c p fb) d (pin_of hw d).
Proof.
  intros Hp Hw. pose proof (iomux_requests_valid c p fb) as Hv. unfold iomux_requests in *.
  unfold stm32_iomux_init.
  set (l0 := if platform_is_f439_f7 p then uart_requests_f7 c else uart_requests_f2 c) in *.
  assert (E : (if platform_is_f439_f7 p
               then iomux_uartdone c p fb (gpio_config_all (uart_requests_f7 c) hw)
               else if platform_is_f2_f4 p
                    then iomux_uartdone c p fb (gpio_config_all (uart_requests_f2 c) hw)
                    else hw) = iomux_uartdone c p fb (gpio_config_all l0 hw)).
  { subst l0. destruct (platform_is_f439_f7 p); [reflexivity|]. simpl in Hp. now rewrite Hp. }
  rewrite E, iomux_uartdone_split.
  set (l1 := l0 ++ mac_requests c p ++ spi_requests c ++ i2c_requests c p ++ mmc_requests c p
             ++ usb_fs_requests c p).
  set (l2 := usb_hs_requests c p ++ sysfs_requests c p ++ fb_requests c fb
             ++ disco_fb_requests c).
  match type of Hv with Forall _ ?l =>
    replace l with (l1 ++ l2) in * by (unfold l1, l2; now rewrite <- !app_assoc) end.
  apply Forall_app in Hv as [Hv1 Hv2]. clear E.
  assert (Hw' := usb_fs_vbus_on_wf c p _ (stage_refines _ _ Hv1 Hw)). split.
  - now apply stage_refines.
  - intros d Hd. rewrite stage_pins, usb_fs_vbus_on_pins, stage_pins by assumption.
    rewrite <- pin_requests_app. unfold l1. now rewrite <- !app_assoc.
Qed.

(** Pin configuration does not touch the output data registers. *)
Lemma gpio_config_all_odr l hw k :
  odr <$> gpio_port (gpio_config_all l hw) !! k = odr <$> gpio_port hw !! k.
Proof.
  revert hw. induction l as [|[d r] l IH]; intros hw; [reflexivity|]. simpl. rewrite IH.
  unfold stm32f2_gpio_config. destruct (_ || _); [reflexivity|].
  destruct (role_of_enum _) as [r'|]; [|reflexivity]. simpl.
  destruct (decide (k = Z.to_nat (dsc_port d))) as [->|Hne].
  - rewrite list_lookup_alter_eq. destruct (gpio_port hw !! _) as [g|]; [|reflexivity]. simpl.
    f_equal. apply (gpio_program_regs (dsc_pin d) r' g).
  - now rewrite list_lookup_alter_ne by congruence.
Qed.

Lemma disco_requests_nodup :
  NoDup ((iomux_requests disco_config PLATFORM_STM32_STM32F7_DISCO false).*1).
Proof. apply (bool_decide_unpack _). vm_compute. exact I. Qed.

(** The VBUS switch enable is the only output bit that changes. *)
Lemma disco_odr hw :
  odr <$> gpio_port (stm32_iomux_init disco_config PLATFORM_STM32_STM32F7_DISCO false hw) !! 3%nat
  = (fun g => odr g .& .~ BIT 5) <$> gpio_port hw !! 3%nat.
Proof.
  unfold stm32_iomux_init.
  change (platform_is_f439_f7 PLATFORM_STM32_STM32F7_DISCO) with true. cbv iota.
  rewrite iomux_uartdone_split, gpio_config_all_odr. unfold usb_fs_vbus_on.
  match goal with |- context [gpio_config_all ?l hw] => set (l1 := l) end.
  change (CONFIG_STM32_USB_OTG_FS disco_config && _) with true. cbv iota. cbn [gpio_port].
  rewrite list_lookup_alter_eq. pose proof (gpio_config_all_odr l1 hw 3%nat) as H.
  destruct (gpio_port (gpio_config_all l1 hw) !! 3%nat), (gpio_port hw !! 3%nat);
    simpl in *; try discriminate; [|reflexivity].
  injection H as H. now rewrite H.
Qed.

(** Configuring a valid pin for a role succeeds; the pin then reads back
    exactly as the role asks (mode, output type, speed, pull resistor and, for a
    peripheral role, alternate function), its port's clock is on, and no other
    pin of any port changes, whatever the registers held before. *)
Theorem gpio_config_correct hw d role r :
  hw_wf hw -> dsc_valid d -> role_of_enum role = Some r ->
  let '(rv, hw') := stm32f2_gpio_config (Some d) role hw in
  rv = 0 /\ hw_wf hw'
  /\ Z.testbit (ahb1enr hw') (dsc_port d) = true
  /\ pin_of hw' d = role_cfg r <$> pin_of hw d
  /\ is_Some (pin_of hw' d)
  /\ forall d', dsc_valid d' -> d' <> d -> pin_of hw' d' = pin_of hw d'.
Proof.
  intros Hw Hd Hr. pose proof (config_wf d role hw ltac:(apply Hd) Hw) as Hw'.
  pose proof (fun d' => pin_of_config d role r hw d' Hd) as Hpin.
  rewrite (config_ok d role r hw Hd Hr) in *. simpl in *. pose proof Hd as [Hp Hq].
  repeat split; try apply Hw'; try lia.
  - rewrite set_bit_spec by (unfold STM32_GPIO_BASE_LEN in Hp; lia). now rewrite Z.eqb_refl.
  - rewrite Hpin by assumption. now rewrite decide_True.
  - rewrite Hpin, decide_True by auto. destruct Hw. unfold pin_of.
    destruct (lookup_lt_is_Some_2 (gpio_port hw) (Z.to_nat (dsc_port d))) as [g Hg].
    { rewrite wf_len0. unfold STM32_GPIO_BASE_LEN in Hp. lia. }
    rewrite Hg. now eexists.
  - intros d' Hd' Hne. now rewrite Hpin, decide_False by assumption.
Qed.

(** A power-on register state. *)
Definition gpio_reset : gpio_regs := {|
  moder := 0; otyper := 0; ospeedr := 0; pupdr := 0; idr := 0; odr := 0xFFFF;
  bsrrl := 0; bsrrh := 0; lckr := 0; afr0 := 0; afr1 := 0 |}.
Definition hw_reset : gpio_hw := {| ahb1enr := 0x00100000; gpio_port := replicate 11 gpio_reset |}.

Lemma hw_reset_wf : hw_wf hw_reset.
Proof.
  split; [vm_compute; split; [discriminate|reflexivity]|reflexivity|].
  apply Forall_replicate. split; vm_compute; split; (discriminate || reflexivity).
Qed.

Lemma gpio_config_correct_witness :
  let '(rv, hw') := stm32f2_gpio_config (Some (Dsc 6 13)) 8 hw_reset in
  rv = 0 /\ hw_wf hw'
  /\ Z.testbit (ahb1enr hw') 6 = true
  /\ pin_of hw' (Dsc 6 13) = role_cfg ROLE_ETHERNET <$> pin_of hw_reset (Dsc 6 13)
  /\ is_Some (pin_of hw' (Dsc 6 13))
  /\ forall d', dsc_valid d' -> d' <> Dsc 6 13 -> pin_of hw' d' = pin_of hw_reset d'.
Proof.
  apply (gpio_config_correct hw_reset (Dsc 6 13) 8 ROLE_ETHERNET).
  - exact hw_reset_wf.
  - vm_compute. repeat split; discriminate.
  - reflexivity.
Defined.

(** A null descriptor, a port past K, a pin past 15 or a role outside the
    enum is refused with [-EINVAL] and changes nothing. *)
Theorem gpio_config_rejects hw dsc role :
  match dsc with
  | None => True
  | Some d => STM32_GPIO_BASE_LEN <= dsc_port d \/ 15 < dsc_pin d \/ (26 <= role)%nat
  end ->
  stm32f2_gpio_config dsc role hw = (- EINVAL, hw).
Proof.
  destruct dsc as [d|]; [|reflexivity]. intros H. unfold stm32f2_gpio_config.
  destruct (Z.leb_spec STM32_GPIO_BASE_LEN (dsc_port d)); [reflexivity|].
  destruct (Z.ltb_spec 15 (dsc_pin d)); [reflexivity|]. simpl.
  unfold role_of_enum. rewrite lookup_ge_None_2; [reflexivity|]. simpl. lia.
Qed.

Lemma gpio_config_rejects_witness :
  stm32f2_gpio_config (Some (Dsc 11 3)) 8 hw_reset = (- EINVAL, hw_reset)
  /\ stm32f2_gpio_config (Some (Dsc 2 3)) 26 hw_reset = (- EINVAL, hw_reset).
Proof.
  split.
  - apply (gpio_config_rejects hw_reset (Some (Dsc 11 3)) 8). left. vm_compute. discriminate.
  - apply (gpio_config_rejects hw_reset (Some (Dsc 2 3)) 26). right. right. lia.
Defined.

(** C20: On every supported board and with every combination of options, the pin
    set-up does to each pin exactly what the board's list of requests says, in
    order (the last request for a pin wins), and keeps the registers well
    formed. *)
Theorem stm32_iomux_init_refines c p fb hw :
  platform_is_f439_f7 p || platform_is_f2_f4 p = true -> hw_wf hw ->
  hw_wf (stm32_iomux_init c p fb hw) /\
  forall d, dsc_valid d ->
    pin_of (stm32_iomux_init c p fb hw) d
    = pin_requests (iomux_requests c p fb) d (pin_of hw d).
Proof. apply iomux_init_spec. Qed.

Lemma stm32_iomux_init_refines_witness :
  pin_of (stm32_iomux_init disco_config 6 false hw_reset) (Dsc 6 13)
  = pin_requests (iomux_requests disco_config 6 false) (Dsc 6 13) (pin_of hw_reset (Dsc 6 13)).
Proof.
  apply (stm32_iomux_init_refines disco_config 6 false hw_reset).
  - reflexivity.
  - exact hw_reset_wf.
  - vm_compute. repeat split; discriminate.
Defined.

(** With the committed configuration no pin of the Discovery board is
    claimed twice, so from any register state every requested pin ends up with
    its role; in particular the Ethernet transmit line PG13 is a push-pull
    alternate function although its neighbour PG12 is set up for the LCD, and
    every pin that is not requested is left as the boot loader had it. *)
Theorem disco_pinout hw :
  hw_wf hw ->
  let hw' := stm32_iomux_init disco_config PLATFORM_STM32_STM32F7_DISCO false hw in
  let l := iomux_requests disco_config PLATFORM_STM32_STM32F7_DISCO false in
  NoDup (l.*1)
  /\ (forall d r, (d, r) ∈ l -> pin_of hw' d = role_cfg r <$> pin_of hw d)
  /\ (forall d, dsc_valid d -> d ∉ l.*1 -> pin_of hw' d = pin_of hw d)
  /\ (pc_otype <$> pin_of hw' (Dsc 6 13) = Some STM32F2_GPIO_OTYPE_PP)
  /\ (pc_af <$> pin_of hw' (Dsc 6 13) = Some 11)
  /\ (pc_af <$> pin_of hw' (Dsc 6 12) = Some 14)
  /\ (odr <$> gpio_port hw' !! 3%nat) = (fun g => odr g .& .~ BIT 5) <$> gpio_port hw !! 3%nat.
Proof.
  intros Hw hw' l. destruct (iomux_init_spec disco_config 6 false hw eq_refl Hw) as [_ Hpin].
  assert (Hin : forall d r, (d, r) ∈ l -> pin_of hw' d = role_cfg r <$> pin_of hw d).
  { intros d r Hin. subst hw' l. rewrite Hpin.
    - apply pin_requests_in; [apply disco_requests_nodup|exact Hin].
    - pose proof (iomux_requests_valid disco_config 6 false) as Hv.
      exact (proj1 (Forall_forall _ _) Hv (d, r) Hin). }
  assert (Hg : is_Some (gpio_port hw !! 6%nat))
    by (apply lookup_lt_is_Some_2; rewrite (wf_len _ Hw); lia).
  destruct Hg as [g Hg].
  assert (Hrest : forall d, dsc_valid d -> d ∉ l.*1 -> pin_of hw' d = pin_of hw d).
  { intros d Hd Hn. subst hw' l. rewrite Hpin by assumption. now apply pin_requests_notin. }
  pose proof (Hin (Dsc 6 13) ROLE_ETHERNET ltac:(apply (bool_decide_unpack _); vm_compute; exact I))
    as H13.
  pose proof (Hin (Dsc 6 12) ROLE_LTDC ltac:(apply (bool_decide_unpack _); vm_compute; exact I))
    as H12.
  pose proof (disco_odr hw) as Hodr. fold hw' in Hodr. pose proof disco_requests_nodup as Hnd.
  fold l in Hnd. clearbody hw' l. rewrite H13, H12. unfold pin_of. cbn [dsc_port dsc_pin].
  change (Z.to_nat 6) with 6%nat. rewrite Hg. auto 10.
Qed.

Lemma disco_pinout_witness :
  pin_of (stm32_iomux_init disco_config PLATFORM_STM32_STM32F7_DISCO false hw_reset) (Dsc 6 13)
  = role_cfg ROLE_ETHERNET <$> pin_of hw_reset (Dsc 6 13).
Proof.
  apply (disco_pinout hw_reset hw_reset_wf). apply (bool_decide_unpack _). vm_compute. exact I.
Defined.
