(* ===== verification/Clock.v ===== *)
(** * Clocks ([arch/arm/mach-stm32/clock.c])

    The RCC registers the driver uses, the legacy table [clock_val[]], the
    reference-counted [clk_*] API, the PLLSAI set-up and the boot-time
    computation of the clock tree.  The non-F1 build is modelled; [f7] is
    [defined(CONFIG_ARCH_STM32F7)].

    The PLLSAI lock flag (bit 29 of RCC_CR) is set by the hardware: what the
    [n]-th poll of it reads is the parameter [pllsai_rdy]. *)

From S2P Require Import Prelude Platform.

(** ** Constants *)

Definition STM32_HSI_HZ : Z := 16000000.
Definition STM32_RCC_CFGR_SWS_BIT : Z := 2.
Definition STM32_RCC_CFGR_SWS_MSK : Z := 0x3.
Definition STM32_RCC_CFGR_SWS_HSI : Z := 0x0.
Definition STM32_RCC_CFGR_SWS_HSE : Z := 0x1.
Definition STM32_RCC_CFGR_SWS_PLL : Z := 0x2.
Definition STM32_RCC_CFGR_HPRE_BIT : Z := 4.
Definition STM32_RCC_CFGR_HPRE_MSK : Z := 0xF.
Definition STM32_RCC_CFGR_PPRE1_BIT : Z := 10.
Definition STM32_RCC_CFGR_PPRE1_MSK : Z := 0x7.
Definition STM32_RCC_CFGR_PPRE1_DIVNO : Z := 0x0.
Definition STM32_RCC_CFGR_PPRE2_BIT : Z := 13.
Definition STM32_RCC_CFGR_PPRE2_MSK : Z := 0x7.
Definition STM32_RCC_CFGR_PPRE2_DIVNO : Z := 0x0.
Definition STM32F2_RCC_PLLCFGR_HSESRC : Z := 1 .<< 22.
Definition STM32F2_RCC_PLLCFGR_PLLM_BIT : Z := 0.
Definition STM32F2_RCC_PLLCFGR_PLLM_MSK : Z := 0x3F.
Definition STM32F2_RCC_PLLCFGR_PLLN_BIT : Z := 6.
Definition STM32F2_RCC_PLLCFGR_PLLN_MSK : Z := 0x1FF.
Definition STM32F2_RCC_PLLCFGR_PLLP_BIT : Z := 16.
Definition STM32F2_RCC_PLLCFGR_PLLP_MSK : Z := 0x3.
Definition STM32F2_RCC_PLLCFGR_PLLQ_BIT : Z := 24.
Definition STM32F2_RCC_PLLCFGR_PLLQ_MSK : Z := 0xF.
Definition STM32_RCC_ENR_SDIOEN : Z := 1 .<< 11.
Definition STM32_RCC_ENR_LTDCEN : Z := 1 .<< 26.
Definition RCC_CR_PLLSAION : Z := 1 .<< 28.
Definition RCC_DCKCFGR_PLLSAIDIVR : Z := 3 .<< 16.
Definition RCC_PLLSAIDivR_Div8 : Z := 2 .<< 16.
Definition STM32F7_PLLSAI_VCO_HZ : Z := 288000000.
Definition STM32F7_PLLSAI_P_DIV6 : Z := 2 .<< 16.
Definition STM32F7_PLLSAI_R : Z := 4.
Definition STM32F7_PLLSAI_DIVR : Z := RCC_PLLSAIDivR_Div8.
Definition STM32F7_CK48_HZ : Z := 48000000.
Definition RCC_DCKCFGR2_CK48MSEL : Z := 1 .<< 27.

(** ** State *)

(** The registers of [struct stm32_rcc_regs] that this file reads or writes. *)
Record rcc_regs := {
  rcc_cr : Z; rcc_pllcfgr : Z; rcc_cfgr : Z; rcc_ahb1enr : Z; rcc_apb2enr : Z;
  rcc_pllsaicfgr : Z; rcc_dckcfgr : Z; rcc_dckcfgr2 : Z
}.

Definition set_cr r v := {| rcc_cr := v; rcc_pllcfgr := rcc_pllcfgr r; rcc_cfgr := rcc_cfgr r;
  rcc_ahb1enr := rcc_ahb1enr r; rcc_apb2enr := rcc_apb2enr r;
  rcc_pllsaicfgr := rcc_pllsaicfgr r; rcc_dckcfgr := rcc_dckcfgr r;
  rcc_dckcfgr2 := rcc_dckcfgr2 r |}.
Definition set_ahb1enr r v := {| rcc_cr := rcc_cr r; rcc_pllcfgr := rcc_pllcfgr r;
  rcc_cfgr := rcc_cfgr r; rcc_ahb1enr := v; rcc_apb2enr := rcc_apb2enr r;
  rcc_pllsaicfgr := rcc_pllsaicfgr r; rcc_dckcfgr := rcc_dckcfgr r;
  rcc_dckcfgr2 := rcc_dckcfgr2 r |}.
Definition set_apb2enr r v := {| rcc_cr := rcc_cr r; rcc_pllcfgr := rcc_pllcfgr r;
  rcc_cfgr := rcc_cfgr r; rcc_ahb1enr := rcc_ahb1enr r; rcc_apb2enr := v;
  rcc_pllsaicfgr := rcc_pllsaicfgr r; rcc_dckcfgr := rcc_dckcfgr r;
  rcc_dckcfgr2 := rcc_dckcfgr2 r |}.
Definition set_pllsaicfgr r v := {| rcc_cr := rcc_cr r; rcc_pllcfgr := rcc_pllcfgr r;
  rcc_cfgr := rcc_cfgr r; rcc_ahb1enr := rcc_ahb1enr r; rcc_apb2enr := rcc_apb2enr r;
  rcc_pllsaicfgr := v; rcc_dckcfgr := rcc_dckcfgr r; rcc_dckcfgr2 := rcc_dckcfgr2 r |}.
Definition set_dckcfgr r v := {| rcc_cr := rcc_cr r; rcc_pllcfgr := rcc_pllcfgr r;
  rcc_cfgr := rcc_cfgr r; rcc_ahb1enr := rcc_ahb1enr r; rcc_apb2enr := rcc_apb2enr r;
  rcc_pllsaicfgr := rcc_pllsaicfgr r; rcc_dckcfgr := v; rcc_dckcfgr2 := rcc_dckcfgr2 r |}.
Definition set_dckcfgr2 r v := {| rcc_cr := rcc_cr r; rcc_pllcfgr := rcc_pllcfgr r;
  rcc_cfgr := rcc_cfgr r; rcc_ahb1enr := rcc_ahb1enr r; rcc_apb2enr := rcc_apb2enr r;
  rcc_pllsaicfgr := rcc_pllsaicfgr r; rcc_dckcfgr := rcc_dckcfgr r; rcc_dckcfgr2 := v |}.

(** [enum stm32_clock] and the table [clock_val[CLOCK_END]]. *)
Inductive stm32_clock :=
  | CLOCK_SYSCLK | CLOCK_HCLK | CLOCK_PCLK1 | CLOCK_PCLK2
  | CLOCK_PTMR1 | CLOCK_PTMR2 | CLOCK_DIVM.

Record clock_vals := {
  v_sysclk : Z; v_hclk : Z; v_pclk1 : Z; v_pclk2 : Z; v_ptmr1 : Z; v_ptmr2 : Z; v_divm : Z
}.

(** [clock_val] is in BSS: all zero at boot. *)
Definition clock_val_bss : clock_vals := {|
  v_sysclk := 0; v_hclk := 0; v_pclk1 := 0; v_pclk2 := 0; v_ptmr1 := 0; v_ptmr2 := 0;
  v_divm := 0 |}.

Definition clock_val (v : clock_vals) (c : stm32_clock) : Z :=
  match c with
  | CLOCK_SYSCLK => v_sysclk v | CLOCK_HCLK => v_hclk v
  | CLOCK_PCLK1 => v_pclk1 v | CLOCK_PCLK2 => v_pclk2 v
  | CLOCK_PTMR1 => v_ptmr1 v | CLOCK_PTMR2 => v_ptmr2 v
  | CLOCK_DIVM => v_divm v
  end.

(** The [struct clk] objects of the file. *)
Inductive clk_id :=
  | clk_mci | clk_ltdc | clk_sai_r
  | clk_gpioa | clk_gpiob | clk_gpioc | clk_gpiod | clk_gpioe | clk_gpiof
  | clk_gpiog | clk_gpioh | clk_gpioi | clk_gpioj | clk_gpiok.

#[global] Instance clk_id_eq_dec : EqDecision clk_id.
Proof. solve_decision. Defined.

Record clk := { clk_rate : Z; clk_enabled : Z }.

Record clk_state := { rcc : rcc_regs; vals : clock_vals; clks : clk_id -> clk }.

Definition set_rcc st r := {| rcc := r; vals := vals st; clks := clks st |}.
Definition set_vals st v := {| rcc := rcc st; vals := v; clks := clks st |}.
Definition set_clk st id c :=
  {| rcc := rcc st; vals := vals st;
     clks := fun j => if decide (j = id) then c else clks st j |}.

(** The initialisers of the [struct clk] objects. *)
Definition clks_init (id : clk_id) : clk :=
  {| clk_rate := if decide (id = clk_sai_r) then 9000000 else 0; clk_enabled := 0 |}.

(** ** Gate bits *)

(** Bit of a GPIO port's gate in AHB1ENR ([RCC_GPIOx_ENABLE]). *)
Definition RCC_GPIO_ENABLE (id : clk_id) : option Z :=
  match id with
  | clk_gpioa => Some 0 | clk_gpiob => Some 1 | clk_gpioc => Some 2 | clk_gpiod => Some 3
  | clk_gpioe => Some 4 | clk_gpiof => Some 5 | clk_gpiog => Some 6 | clk_gpioh => Some 7
  | clk_gpioi => Some 8 | clk_gpioj => Some 9 | clk_gpiok => Some 10
  | _ => None
  end.

Section Poll.

(** What the [n]-th read of the PLLSAI lock flag returns. *)
Context (pllsai_rdy : nat -> bool).

(** [while ((STM32_RCC->cr & (1 << 29)) == 0);] *)
Fixpoint wait_pllsai (fuel n : nat) : result unit :=
  match fuel with
  | O => Fault Stuck
  | S fuel => if pllsai_rdy n then Ok tt else wait_pllsai fuel (S n)
  end.

(** ** The PLLSAI *)

Definition sai_r_clk_disable (r : rcc_regs) : rcc_regs :=
  set_cr r (rcc_cr r .& .~ RCC_CR_PLLSAION).

(** The register value and the R divider the function computes. *)
Definition sai_r_config (f7 : bool) (rate parent_rate : Z) : result (Z * Z) :=
  let sai_q := 7 in
  if f7 then
    let* sai_n := udiv STM32F7_PLLSAI_VCO_HZ parent_rate in
    Ok ((sai_n .<< 6) .| STM32F7_PLLSAI_P_DIV6 .| (sai_q .<< 24)
        .| (STM32F7_PLLSAI_R .<< 28), STM32F7_PLLSAI_DIVR)
  else
    let sai_r := 3 in
    let* sai_n := udiv (u32 (u32 (rate * sai_r) * 8)) parent_rate in
    Ok ((sai_n .<< 6) .| (sai_q .<< 24) .| (sai_r .<< 28), RCC_PLLSAIDivR_Div8).

Definition sai_r_clk_enable (f7 : bool) (fuel : nat) (rate : Z) (v : clock_vals)
    (r : rcc_regs) : result rcc_regs :=
  let parent_rate := v_divm v in
  let* (pllsaicfgr, sai_div_r) := sai_r_config f7 rate parent_rate in
  if f7 && negb ((rcc_cr r .& RCC_CR_PLLSAION) =? 0)
     && (rcc_pllsaicfgr r =? pllsaicfgr)
     && ((rcc_dckcfgr r .& RCC_DCKCFGR_PLLSAIDIVR) =? sai_div_r)
  then Ok r
  else
    let r := sai_r_clk_disable r in
    let r := set_pllsaicfgr r pllsaicfgr in
    let dckcfgr := rcc_dckcfgr r in
    let dckcfgr := dckcfgr .& .~ RCC_DCKCFGR_PLLSAIDIVR in
    let dckcfgr := dckcfgr .| sai_div_r in
    let r := set_dckcfgr r dckcfgr in
    let r := set_cr r (rcc_cr r .| RCC_CR_PLLSAION) in
    let* _ := wait_pllsai fuel 0 in
    Ok r.

(** ** The [clk_*] API *)

(** The [clk_enable] methods. *)
Definition clk_op_enable (f7 : bool) (fuel : nat) (id : clk_id) (st : clk_state) :
    result clk_state :=
  match id with
  | clk_mci => Ok (set_rcc st (set_apb2enr (rcc st)
                     (rcc_apb2enr (rcc st) .| STM32_RCC_ENR_SDIOEN)))
  | clk_ltdc => Ok (set_rcc st (set_apb2enr (rcc st)
                     (rcc_apb2enr (rcc st) .| STM32_RCC_ENR_LTDCEN)))
  | clk_sai_r =>
      let* r := sai_r_clk_enable f7 fuel (clk_rate (clks st clk_sai_r)) (vals st) (rcc st) in
      Ok (set_rcc st r)
  | _ => match RCC_GPIO_ENABLE id with
         | Some b => Ok (set_rcc st (set_ahb1enr (rcc st) (rcc_ahb1enr (rcc st) .| BIT b)))
         | None => Ok st
         end
  end.

(** The [clk_disable] methods. *)
Definition clk_op_disable (id : clk_id) (st : clk_state) : clk_state :=
  match id with
  | clk_mci => set_rcc st (set_apb2enr (rcc st)
                  (rcc_apb2enr (rcc st) .& .~ STM32_RCC_ENR_SDIOEN))
  | clk_ltdc => set_rcc st (set_apb2enr (rcc st)
                  (rcc_apb2enr (rcc st) .& .~ STM32_RCC_ENR_LTDCEN))
  | clk_sai_r => set_rcc st (sai_r_clk_disable (rcc st))
  | _ => match RCC_GPIO_ENABLE id with
         | Some b => set_rcc st (set_ahb1enr (rcc st) (rcc_ahb1enr (rcc st) .& .~ BIT b))
         | None => st
         end
  end.

(** [clk->enabled++ == 0]: the old count decides, the new one wraps. *)
Definition clk_enable (f7 : bool) (fuel : nat) (id : clk_id) (st : clk_state) :
    result (Z * clk_state) :=
  let c := clks st id in
  let st' := set_clk st id {| clk_rate := clk_rate c; clk_enabled := u32 (clk_enabled c + 1) |} in
  let* st'' := (if clk_enabled c =? 0 then clk_op_enable f7 fuel id st' else Ok st') in
  Ok (0, st'').

(** [--clk->enabled == 0]: the new count decides. *)
Definition clk_disable (id : clk_id) (st : clk_state) : clk_state :=
  let c := clks st id in
  let n := u32 (clk_enabled c - 1) in
  let st' := set_clk st id {| clk_rate := clk_rate c; clk_enabled := n |} in
  if n =? 0 then clk_op_disable id st' else st'.

Definition clk_get_rate (id : clk_id) (st : clk_state) : Z := clk_rate (clks st id).

(** Only [clk_sai_r] has a [clk_set_rate] method. *)
Definition clk_set_rate (id : clk_id) (rate : Z) (st : clk_state) : Z * clk_state :=
  match id with
  | clk_sai_r => (0, set_clk st id {| clk_rate := rate;
                                      clk_enabled := clk_enabled (clks st id) |})
  | _ => (- EINVAL, st)
  end.

Definition clk_round_rate (id : clk_id) (rate : Z) (st : clk_state) : Z := clk_rate (clks st id).

(** ** The clock tree: [stm32_clock_init] *)

Definition hse_hz_of (platform : Z) : Z :=
  if (platform =? PLATFORM_STM32_STM3220G_EVAL)
     || (platform =? PLATFORM_STM32_STM3240G_EVAL) then 25000000
  else if (platform =? PLATFORM_STM32_STM_SOM)
     || (platform =? PLATFORM_STM32_STM_STM32F439_SOM)
     || (platform =? PLATFORM_STM32_STM_STM32F7_SOM) then 12000000
  else if platform =? PLATFORM_STM32_STM32F7_DISCO then 25000000
  else if platform =? PLATFORM_STM32_STM_DISCO then 8000000
  else 25000000.

Definition apbahb_presc_tbl : list Z := [0; 0; 0; 0; 1; 2; 3; 4; 1; 2; 3; 4; 6; 7; 8; 9].

Definition presc_of (i : Z) : Z := nth (Z.to_nat i) apbahb_presc_tbl 0.

(** "Get SYSCLK": (SYSCLK, DIVM, pllvco); DIVM is written only when the PLL
    drives the system clock. *)
Definition get_sysclk (hse_hz : Z) (r : rcc_regs) (divm0 : Z) : result (Z * Z * Z) :=
  let tmp := (rcc_cfgr r .>> STM32_RCC_CFGR_SWS_BIT) .& STM32_RCC_CFGR_SWS_MSK in
  if tmp =? STM32_RCC_CFGR_SWS_HSI then Ok (STM32_HSI_HZ, divm0, 0)
  else if tmp =? STM32_RCC_CFGR_SWS_HSE then Ok (hse_hz, divm0, 0)
  else if tmp =? STM32_RCC_CFGR_SWS_PLL then
    let pllm := (rcc_pllcfgr r .>> STM32F2_RCC_PLLCFGR_PLLM_BIT)
                .& STM32F2_RCC_PLLCFGR_PLLM_MSK in
    let tmp := if (rcc_pllcfgr r .& STM32F2_RCC_PLLCFGR_HSESRC) =? 0
               then STM32_HSI_HZ else hse_hz in
    let* divm := udiv tmp pllm in
    let pllvco := (rcc_pllcfgr r .>> STM32F2_RCC_PLLCFGR_PLLN_BIT)
                  .& STM32F2_RCC_PLLCFGR_PLLN_MSK in
    let pllvco := u32 (pllvco * divm) in
    let pllp := (rcc_pllcfgr r .>> STM32F2_RCC_PLLCFGR_PLLP_BIT)
                .& STM32F2_RCC_PLLCFGR_PLLP_MSK in
    let pllp := (pllp + 1) * 2 in
    let* sysclk := udiv pllvco pllp in
    Ok (sysclk, divm, pllvco)
  else Ok (STM32_HSI_HZ, divm0, 0).

(** "Get HCLK" to "Get PTMR2". *)
Definition bus_clocks (cfgr sysclk divm : Z) : clock_vals :=
  let tmp := (cfgr .>> STM32_RCC_CFGR_HPRE_BIT) .& STM32_RCC_CFGR_HPRE_MSK in
  let hclk := sysclk .>> presc_of tmp in
  let tmp := (cfgr .>> STM32_RCC_CFGR_PPRE1_BIT) .& STM32_RCC_CFGR_PPRE1_MSK in
  let pclk1 := hclk .>> presc_of tmp in
  let ptmr1 := if tmp =? STM32_RCC_CFGR_PPRE1_DIVNO then pclk1 else u32 (pclk1 * 2) in
  let tmp := (cfgr .>> STM32_RCC_CFGR_PPRE2_BIT) .& STM32_RCC_CFGR_PPRE2_MSK in
  let pclk2 := hclk .>> presc_of tmp in
  let ptmr2 := if tmp =? STM32_RCC_CFGR_PPRE2_DIVNO then pclk2 else u32 (pclk2 * 2) in
  {| v_sysclk := sysclk; v_hclk := hclk; v_pclk1 := pclk1; v_pclk2 := pclk2;
     v_ptmr1 := ptmr1; v_ptmr2 := ptmr2; v_divm := divm |}.

Definition set_mci_rate (rate : Z) (st : clk_state) : clk_state :=
  set_clk st clk_mci {| clk_rate := rate; clk_enabled := clk_enabled (clks st clk_mci) |}.

(** The registration with [clkdev_add] makes the clocks visible to drivers and
    changes nothing here. *)
Definition stm32_clock_init (f7 : bool) (fuel : nat) (platform : Z) (st : clk_state) :
    result clk_state :=
  let* (sysclk, divm, pllvco) := get_sysclk (hse_hz_of platform) (rcc st) (v_divm (vals st)) in
  let st := set_vals st (bus_clocks (rcc_cfgr (rcc st)) sysclk divm) in
  let* st :=
    (if pllvco =? 0 then Ok st
     else let* rate := udiv pllvco ((rcc_pllcfgr (rcc st) .>> STM32F2_RCC_PLLCFGR_PLLQ_BIT)
                                    .& STM32F2_RCC_PLLCFGR_PLLQ_MSK) in
          Ok (set_mci_rate rate st)) in
  if f7 then
    let* r := sai_r_clk_enable f7 fuel (clk_rate (clks st clk_sai_r)) (vals st) (rcc st) in
    let r := set_dckcfgr2 r (rcc_dckcfgr2 r .| RCC_DCKCFGR2_CK48MSEL) in
    Ok (set_mci_rate STM32F7_CK48_HZ (set_rcc st r))
  else Ok st.

End Poll.

Definition stm32_clock_get (c : stm32_clock) (st : clk_state) : Z := clock_val (vals st) c.

(** ** The clock tree *)

Lemma presc_of_range i : 0 <= presc_of i <= 9.
Proof.
  unfold presc_of.
  destruct (nth_in_or_default (Z.to_nat i) apbahb_presc_tbl 0) as [H| ->]; [|lia].
  revert H. generalize (nth (Z.to_nat i) apbahb_presc_tbl 0). apply List.Forall_forall.
  repeat constructor; discriminate.
Qed.

Lemma shr_le x n : 0 <= x -> 0 <= n -> 0 <= x .>> n <= x.
Proof.
  intros. rewrite Z.shiftr_div_pow2 by lia.
  assert (1 <= 2 ^ n) by (apply (Z.pow_le_mono_r 2 0 n); lia). split.
  - apply Z.div_pos; lia.
  - apply Z.div_le_upper_bound; nia.
Qed.

Lemma shr_double_le x n : 0 <= x -> 1 <= n -> 2 * (x .>> n) <= x.
Proof.
  intros. replace n with ((n - 1) + 1) by lia. rewrite <- Z.shiftr_shiftr by lia.
  pose proof (shr_le x (n - 1) ltac:(lia) ltac:(lia)).
  rewrite (Z.shiftr_div_pow2 _ 1) by lia. change (2 ^ 1) with 2. zdiv.
Qed.

(** An APB prescaler code: the table has no division for 0..3. *)
Definition apb_code (c : Z) : Prop := c = 0 \/ 4 <= c <= 7.

Lemma apb_presc_pos c : 4 <= c <= 7 -> 1 <= presc_of c.
Proof.
  intros. assert (c = 4 \/ c = 5 \/ c = 6 \/ c = 7) as [->|[->|[->| ->]]] by lia;
    vm_compute; discriminate.
Qed.

(** The clock of the timers on one APB bus. *)
Lemma ptmr_bound hclk c :
  is_u32 hclk -> apb_code c ->
  let pclk := hclk .>> presc_of c in
  let ptmr := if c =? 0 then pclk else u32 (pclk * 2) in
  0 <= pclk <= hclk /\ ptmr <= hclk /\ ptmr = (if presc_of c =? 0 then pclk else 2 * pclk).
Proof.
  intros Hh Hc pclk ptmr. pose proof (presc_of_range c) as Hr.
  pose proof (shr_le hclk (presc_of c) ltac:(apply Hh) ltac:(lia)) as Hp. fold pclk in Hp.
  subst ptmr. destruct Hc as [->|Hc].
  - change (presc_of 0) with 0. simpl. lia.
  - pose proof (apb_presc_pos c Hc). destruct (Z.eqb_spec c 0); [lia|].
    destruct (Z.eqb_spec (presc_of c) 0); [lia|].
    pose proof (shr_double_le hclk (presc_of c) ltac:(apply Hh) ltac:(lia)). fold pclk in H0.
    rewrite u32_id; [lia|]. destruct Hh. unfold fits. lia.
Qed.

(** The bus clocks never exceed the clock they are derived from, the
    doubling of the timer clocks does not overflow, and for the documented
    prescaler codes the timer clock is the APB clock, doubled exactly when the
    APB bus is prescaled, and never faster than HCLK. *)
Theorem bus_clocks_tree cfgr sysclk divm :
  is_u32 sysclk ->
  let v := bus_clocks cfgr sysclk divm in
  let ppre1 := field cfgr 10 3 in
  let ppre2 := field cfgr 13 3 in
  v_hclk v <= v_sysclk v /\ v_pclk1 v <= v_hclk v /\ v_pclk2 v <= v_hclk v
  /\ (apb_code ppre1 ->
      v_ptmr1 v = (if presc_of ppre1 =? 0 then v_pclk1 v else 2 * v_pclk1 v)
      /\ v_ptmr1 v <= v_hclk v)
  /\ (apb_code ppre2 ->
      v_ptmr2 v = (if presc_of ppre2 =? 0 then v_pclk2 v else 2 * v_pclk2 v)
      /\ v_ptmr2 v <= v_hclk v).
Proof.
  intros Hs v ppre1 ppre2.
  pose proof (presc_of_range (field cfgr 4 4)).
  pose proof (shr_le sysclk (presc_of (field cfgr 4 4)) ltac:(apply Hs) ltac:(lia)) as Hh.
  assert (Hhu : is_u32 (v_hclk v))
    by (change (v_hclk v) with (sysclk .>> presc_of (field cfgr 4 4)); unfold fits in *; lia).
  pose proof (shr_le (v_hclk v) (presc_of ppre1) ltac:(apply Hhu)
                (proj1 (presc_of_range _))).
  pose proof (shr_le (v_hclk v) (presc_of ppre2) ltac:(apply Hhu)
                (proj1 (presc_of_range _))).
  split; [exact (proj2 Hh)|]. split; [exact (proj2 H0)|]. split; [exact (proj2 H1)|].
  split; intros Hc; destruct (ptmr_bound _ _ Hhu Hc) as (_ & Hle & Heq); auto.
Qed.

Lemma bus_clocks_tree_witness :
  v_ptmr1 (bus_clocks 0x00009400 200000000 1000000) = 2 * v_pclk1 (bus_clocks 0x00009400 200000000 1000000)
  /\ v_ptmr1 (bus_clocks 0x00009400 200000000 1000000) <= 200000000.
Proof.
  assert (Hs : is_u32 200000000) by (split; [discriminate|reflexivity]).
  destruct (bus_clocks_tree 0x00009400 200000000 1000000 Hs) as (_ & _ & _ & H & _).
  apply H. right. vm_compute. split; discriminate.
Defined.

(** The test for "prescaled" is on the raw field: for the codes 1, 2 and 3,
    which the prescaler table itself treats as not divided, the timer clock is
    doubled although the bus clock equals HCLK. *)
Theorem ptmr1_doubled_when_not_prescaled cfgr sysclk divm :
  is_u32 sysclk -> sysclk < 2147483648 -> 1 <= field cfgr 10 3 <= 3 ->
  let v := bus_clocks cfgr sysclk divm in
  v_pclk1 v = v_hclk v /\ v_ptmr1 v = 2 * v_hclk v.
Proof.
  intros Hs Hlt Hc v.
  pose proof (presc_of_range (field cfgr 4 4)).
  pose proof (shr_le sysclk (presc_of (field cfgr 4 4)) ltac:(apply Hs) ltac:(lia)) as Hh.
  assert (Hp : presc_of (field cfgr 10 3) = 0)
    by (assert (field cfgr 10 3 = 1 \/ field cfgr 10 3 = 2 \/ field cfgr 10 3 = 3)
          as [->|[->| ->]] by lia; reflexivity).
  assert (E : v_pclk1 v = v_hclk v).
  { change (v_pclk1 v) with (v_hclk v .>> presc_of (field cfgr 10 3)). now rewrite Hp. }
  split; [exact E|].
  change (v_ptmr1 v) with (if field cfgr 10 3 =? 0 then v_pclk1 v else u32 (v_pclk1 v * 2)).
  destruct (Z.eqb_spec (field cfgr 10 3) 0); [lia|]. rewrite E, u32_id; [lia|].
  change (v_hclk v) with (sysclk .>> presc_of (field cfgr 4 4)). unfold fits. lia.
Qed.

Lemma ptmr1_doubled_when_not_prescaled_witness :
  v_ptmr1 (bus_clocks 0x400 16000000 0) = 32000000.
Proof.
  apply (ptmr1_doubled_when_not_prescaled 0x400 16000000 0).
  - split; [discriminate|reflexivity].
  - reflexivity.
  - vm_compute. split; discriminate.
Defined.

(** ** The PLLSAI and the 48 MHz domain *)

(** Frequencies the PLLSAI registers stand for (the comments above
    [STM32F7_PLLSAI_VCO_HZ]): VCO = DIVM * N, P output = VCO / (2 (P + 1)), pixel
    clock = VCO / R / 2^(DIVR + 1). *)
Definition pllsai_vco_hz (v : clock_vals) (r : rcc_regs) : Z :=
  v_divm v * field (rcc_pllsaicfgr r) 6 9.
Definition ck48_hz (v : clock_vals) (r : rcc_regs) : Z :=
  pllsai_vco_hz v r / (2 * (field (rcc_pllsaicfgr r) 16 2 + 1)).
Definition ltdc_pixel_hz (v : clock_vals) (r : rcc_regs) : Z :=
  pllsai_vco_hz v r / field (rcc_pllsaicfgr r) 28 3 / 2 ^ (field (rcc_dckcfgr r) 16 2 + 1).

Record rcc_wf (r : rcc_regs) : Prop := {
  wf_cr : is_u32 (rcc_cr r); wf_ahb1enr : is_u32 (rcc_ahb1enr r);
  wf_apb2enr : is_u32 (rcc_apb2enr r); wf_dckcfgr : is_u32 (rcc_dckcfgr r)
}.

Ltac rcc_simpl :=
  cbn [set_cr set_ahb1enr set_apb2enr set_pllsaicfgr set_dckcfgr set_dckcfgr2
       sai_r_clk_disable rcc_cr rcc_pllcfgr rcc_cfgr rcc_ahb1enr rcc_apb2enr
       rcc_pllsaicfgr rcc_dckcfgr rcc_dckcfgr2 set_rcc set_vals set_clk set_mci_rate
       rcc vals clks clk_rate clk_enabled] in *.

Lemma wait_pllsai_ok rdy fuel n k :
  rdy (n + k)%nat = true -> (k < fuel)%nat -> wait_pllsai rdy fuel n = Ok tt.
Proof.
  revert n k. induction fuel as [|fuel IH]; intros n k Hr Hk; [lia|]. simpl.
  destruct (rdy n) eqn:E; [reflexivity|]. destruct k as [|k].
  - rewrite Nat.add_0_r in Hr. congruence.
  - apply (IH (S n) k); [|lia]. now rewrite <- Hr, Nat.add_succ_r.
Qed.

(** The PLLSAICFGR value written on the F7 for a VCO multiplier [n]. *)
Definition pllsaicfgr_f7 (n : Z) : Z :=
  (n .<< 6) .| STM32F7_PLLSAI_P_DIV6 .| (7 .<< 24) .| (STM32F7_PLLSAI_R .<< 28).

Lemma pllsaicfgr_f7_fields n :
  fits 9 n ->
  field (pllsaicfgr_f7 n) 6 9 = n /\ field (pllsaicfgr_f7 n) 16 2 = 2
  /\ field (pllsaicfgr_f7 n) 28 3 = 4.
Proof.
  intros Hn.
  assert (Hb : forall i, Z.testbit (pllsaicfgr_f7 n) i =
    (i <? 32) && (Z.testbit n (i - 6) || Z.testbit 2 (i - 16) || Z.testbit 7 (i - 24)
                  || Z.testbit 4 (i - 28))).
  { intros i. unfold pllsaicfgr_f7, STM32F7_PLLSAI_P_DIV6, STM32F7_PLLSAI_R.
    rewrite !Z.lor_spec, !testbit_shl32 by lia. now destruct (i <? 32). }
  assert (Hh : forall i, 9 <= i -> Z.testbit n i = false)
    by (intros; apply (fits_testbit_high 9); auto; lia).
  repeat split; apply Z.bits_inj'; intros i Hi; rewrite field_bits, Hb by lia.
  - destruct (Z.ltb_spec i 9).
    + rewrite (testbit_neg 2), (testbit_neg 7), (testbit_neg 4) by lia.
      replace (i + 6 - 6) with i by lia. zcrush.
    + now rewrite (Hh i) by lia.
  - destruct (Z.ltb_spec i 2); [|now rewrite (fits_testbit_high 2 2 i) by (unfold fits; lia)].
    rewrite Hh, (testbit_neg 7), (testbit_neg 4) by lia.
    replace (i + 16 - 16) with i by lia. zcrush.
  - destruct (Z.ltb_spec i 3); [|now rewrite (fits_testbit_high 3 4 i) by (unfold fits; lia)].
    rewrite Hh, (fits_testbit_high 2 2), (fits_testbit_high 3 7) by (unfold fits; lia).
    replace (i + 28 - 28) with i by lia. zcrush.
Qed.

Lemma divr_masked d : (d .& RCC_DCKCFGR_PLLSAIDIVR) = RCC_PLLSAIDivR_Div8 -> field d 16 2 = 2.
Proof.
  intros H. transitivity (field (d .& RCC_DCKCFGR_PLLSAIDIVR) 16 2).
  - apply field_ext; [lia..|]. intros i Hi. rewrite Z.land_spec.
    unfold RCC_DCKCFGR_PLLSAIDIVR. rewrite testbit_shl32 by lia.
    replace (i + 16 - 16) with i by lia. assert (i = 0 \/ i = 1) as [->| ->] by lia;
      simpl; now rewrite andb_true_r.
  - now rewrite H.
Qed.

Lemma divr_upd_masked d :
  is_u32 d -> (upd d 16 2 2 .& RCC_DCKCFGR_PLLSAIDIVR) = RCC_PLLSAIDivR_Div8.
Proof.
  intros Hd. apply Z.bits_inj'. intros i Hi. rewrite Z.land_spec, upd_bits by (auto; unfold fits; lia).
  unfold RCC_DCKCFGR_PLLSAIDIVR, RCC_PLLSAIDivR_Div8. rewrite !testbit_shl32 by lia.
  destruct (Z.leb_spec 16 i), (Z.ltb_spec i (16 + 2)); simpl.
  - assert (i = 16 \/ i = 17) as [->| ->] by lia; reflexivity.
  - rewrite (fits_testbit_high 2 3), (fits_testbit_high 2 2) by (unfold fits; lia). zcrush.
  - rewrite (testbit_neg 3), (testbit_neg 2) by lia. zcrush.
  - rewrite (testbit_neg 3), (testbit_neg 2) by lia. zcrush.
Qed.

(** What a successful [sai_r_clk_enable] leaves behind on the F7. *)
Lemma sai_r_clk_enable_post rdy fuel rate v r r' :
  rcc_wf r -> sai_r_clk_enable rdy true fuel rate v r = Ok r' ->
  v_divm v <> 0 /\ Z.testbit (rcc_cr r') 28 = true
  /\ rcc_pllsaicfgr r' = pllsaicfgr_f7 (STM32F7_PLLSAI_VCO_HZ / v_divm v)
  /\ (rcc_dckcfgr r' .& RCC_DCKCFGR_PLLSAIDIVR) = RCC_PLLSAIDivR_Div8
  /\ rcc_wf r' /\ rcc_ahb1enr r' = rcc_ahb1enr r /\ rcc_apb2enr r' = rcc_apb2enr r
  /\ rcc_dckcfgr2 r' = rcc_dckcfgr2 r.
Proof.
  intros Hw. unfold sai_r_clk_enable, sai_r_config, udiv.
  destruct (Z.eqb_spec (v_divm v) 0) as [|Hd]; [discriminate|]. cbn [rbind].
  fold (pllsaicfgr_f7 (STM32F7_PLLSAI_VCO_HZ / v_divm v)).
  match goal with |- (if ?c then _ else _) = _ -> _ => destruct c eqn:E end.
  - intros [= <-]. apply andb_prop in E as [E E3]. apply andb_prop in E as [E E2].
    apply Z.eqb_eq in E3, E2. change (bit_set (rcc_cr r) 28 = true) in E.
    rewrite bit_set_testbit in E by lia. auto 10.
  - destruct (wait_pllsai rdy fuel 0) as [[]|]; [|discriminate]. cbn [rbind]. intros [= <-]. rcc_simpl.
    destruct Hw. split; [assumption|].
    split; [change RCC_CR_PLLSAION with (BIT 28); rewrite set_bit_spec by lia; reflexivity|].
    split; [reflexivity|]. split; [apply (divr_upd_masked (rcc_dckcfgr r)); assumption|].
    split; [|auto]. split; rcc_simpl; auto with u32.
    + change RCC_CR_PLLSAION with (BIT 28). auto with u32.
    + apply (upd_u32 (rcc_dckcfgr r) 16 2 2). assumption.
Qed.

Lemma sai_r_clk_enable_ok rdy fuel rate v r n :
  v_divm v <> 0 -> rdy n = true -> (n < fuel)%nat ->
  is_ok (sai_r_clk_enable rdy true fuel rate v r).
Proof.
  intros Hd Hr Hn. unfold sai_r_clk_enable, sai_r_config, udiv.
  destruct (Z.eqb_spec (v_divm v) 0); [contradiction|]. cbn [rbind].
  rewrite (wait_pllsai_ok rdy fuel 0 n Hr Hn). cbn [rbind].
  match goal with |- is_ok (if ?c then _ else _) => destruct c end; eexists; reflexivity.
Qed.

(** The frequencies, when the PLL input divides the 288 MHz VCO. *)
Lemma pllsai_frequencies v r :
  (v_divm v | STM32F7_PLLSAI_VCO_HZ) -> 562501 <= v_divm v ->
  rcc_pllsaicfgr r = pllsaicfgr_f7 (STM32F7_PLLSAI_VCO_HZ / v_divm v) ->
  (rcc_dckcfgr r .& RCC_DCKCFGR_PLLSAIDIVR) = RCC_PLLSAIDivR_Div8 ->
  pllsai_vco_hz v r = STM32F7_PLLSAI_VCO_HZ /\ ck48_hz v r = STM32F7_CK48_HZ
  /\ ltdc_pixel_hz v r = 9000000.
Proof.
  intros Hdvd Hd Hp Hdck.
  assert (Hn : fits 9 (STM32F7_PLLSAI_VCO_HZ / v_divm v)).
  { unfold STM32F7_PLLSAI_VCO_HZ. split; [apply Z.div_pos; lia|].
    apply Z.div_lt_upper_bound; change (2 ^ 9) with 512; lia. }
  destruct (pllsaicfgr_f7_fields _ Hn) as (F1 & F2 & F3).
  assert (Hv : pllsai_vco_hz v r = STM32F7_PLLSAI_VCO_HZ).
  { unfold pllsai_vco_hz. rewrite Hp, F1. rewrite <- Z.divide_div_mul_exact by (assumption || lia).
    rewrite Z.mul_comm, Z.div_mul by lia. reflexivity. }
  unfold ck48_hz, ltdc_pixel_hz. rewrite Hv, Hp, F2, F3, (divr_masked _ Hdck). auto.
Qed.

(** Bringing the PLLSAI up gives exactly the 48 MHz USB/SD clock and the
    9 MHz pixel clock whenever the PLL input clock divides the 288 MHz VCO, the
    call returns as soon as the PLL locks, and a second call finds it running
    and writes nothing (so the consumers of the 48 MHz domain see no glitch),
    without even waiting. *)
Theorem sai_r_clk_enable_48mhz rdy fuel rate v r n :
  rcc_wf r -> (v_divm v | STM32F7_PLLSAI_VCO_HZ) -> 562501 <= v_divm v ->
  rdy n = true -> (n < fuel)%nat ->
  exists r', sai_r_clk_enable rdy true fuel rate v r = Ok r'
  /\ Z.testbit (rcc_cr r') 28 = true
  /\ ck48_hz v r' = STM32F7_CK48_HZ /\ ltdc_pixel_hz v r' = 9000000
  /\ forall fuel' rate', sai_r_clk_enable rdy true fuel' rate' v r' = Ok r'.
Proof.
  intros Hw Hdvd Hd Hr Hn.
  destruct (sai_r_clk_enable_ok rdy fuel rate v r n ltac:(lia) Hr Hn) as [r' E].
  exists r'. split; [exact E|].
  destruct (sai_r_clk_enable_post _ _ _ _ _ _ Hw E) as (Hd0 & Hon & Hcfg & Hdck & _).
  destruct (pllsai_frequencies v r' Hdvd Hd Hcfg Hdck) as (_ & H48 & Hpix).
  repeat split; try assumption. intros fuel' rate'.
  unfold sai_r_clk_enable, sai_r_config, udiv.
  destruct (Z.eqb_spec (v_divm v) 0); [contradiction|]. cbn [rbind].
  fold (pllsaicfgr_f7 (STM32F7_PLLSAI_VCO_HZ / v_divm v)). rewrite Hcfg, Z.eqb_refl, Hdck.
  change (negb ((rcc_cr r' .& RCC_CR_PLLSAION) =? 0)) with (bit_set (rcc_cr r') 28).
  rewrite bit_set_testbit, Hon by lia. reflexivity.
Qed.

(** RCC as the F7 boot loader leaves it: PLL from HSE, M = 25, N = 400, P = 2,
    Q = 8, AHB / 1, APB1 / 4, APB2 / 2. *)
Definition rcc_boot : rcc_regs := {|
  rcc_cr := 0x03035D83; rcc_pllcfgr := 0x08406419; rcc_cfgr := 0x0000940A;
  rcc_ahb1enr := 0x00100000; rcc_apb2enr := 0; rcc_pllsaicfgr := 0x24003000;
  rcc_dckcfgr := 0; rcc_dckcfgr2 := 0 |}.
Definition st_boot : clk_state :=
  {| rcc := rcc_boot; vals := clock_val_bss; clks := clks_init |}.

Lemma rcc_boot_wf : rcc_wf rcc_boot.
Proof. split; vm_compute; split; (discriminate || reflexivity). Qed.

Definition vals_1mhz : clock_vals := bus_clocks 0x0000940A 200000000 1000000.

Lemma sai_r_clk_enable_48mhz_witness :
  exists r', sai_r_clk_enable (Nat.leb 3) true 10 9000000 vals_1mhz rcc_boot = Ok r'
  /\ Z.testbit (rcc_cr r') 28 = true
  /\ ck48_hz vals_1mhz r' = STM32F7_CK48_HZ /\ ltdc_pixel_hz vals_1mhz r' = 9000000
  /\ forall fuel' rate', sai_r_clk_enable (Nat.leb 3) true fuel' rate' vals_1mhz r' = Ok r'.
Proof.
  apply (sai_r_clk_enable_48mhz (Nat.leb 3) 10 9000000 vals_1mhz rcc_boot 3).
  - exact rcc_boot_wf.
  - exists 288. reflexivity.
  - vm_compute. discriminate.
  - reflexivity.
  - lia.
Defined.

(** The system clock source field. *)
Definition sws (st : clk_state) : Z := field (rcc_cfgr (rcc st)) 2 2.

Lemma get_sysclk_not_pll hse r divm0 :
  field (rcc_cfgr r) 2 2 <> STM32_RCC_CFGR_SWS_PLL ->
  exists sysclk, get_sysclk hse r divm0 = Ok (sysclk, divm0, 0).
Proof.
  intros H. unfold get_sysclk. change (_ .& STM32_RCC_CFGR_SWS_MSK) with (field (rcc_cfgr r) 2 2).
  destruct (_ =? STM32_RCC_CFGR_SWS_HSI); [eauto|].
  destruct (_ =? STM32_RCC_CFGR_SWS_HSE); [eauto|].
  destruct (Z.eqb_spec (field (rcc_cfgr r) 2 2) STM32_RCC_CFGR_SWS_PLL); [contradiction|eauto].
Qed.

(** The PLL branch. *)
Lemma get_sysclk_pll hse r divm0 :
  field (rcc_cfgr r) 2 2 = STM32_RCC_CFGR_SWS_PLL -> field (rcc_pllcfgr r) 0 6 <> 0 ->
  let src := if bit_set (rcc_pllcfgr r) 22 then hse else STM32_HSI_HZ in
  let divm := src / field (rcc_pllcfgr r) 0 6 in
  let vco := u32 (field (rcc_pllcfgr r) 6 9 * divm) in
  get_sysclk hse r divm0 =
    Ok (vco / ((field (rcc_pllcfgr r) 16 2 + 1) * 2), divm, vco).
Proof.
  intros H Hm. unfold get_sysclk. change (_ .& STM32_RCC_CFGR_SWS_MSK) with (field (rcc_cfgr r) 2 2).
  rewrite H. cbv zeta. cbn [Z.eqb STM32_RCC_CFGR_SWS_HSI STM32_RCC_CFGR_SWS_HSE
    STM32_RCC_CFGR_SWS_PLL Pos.eqb].
  change (_ .& STM32F2_RCC_PLLCFGR_PLLM_MSK) with (field (rcc_pllcfgr r) 0 6).
  change (_ .& STM32F2_RCC_PLLCFGR_PLLP_MSK) with (field (rcc_pllcfgr r) 16 2).
  change (_ .& STM32F2_RCC_PLLCFGR_PLLN_MSK) with (field (rcc_pllcfgr r) 6 9).
  unfold udiv. destruct (Z.eqb_spec (field (rcc_pllcfgr r) 0 6) 0); [contradiction|]. cbn [rbind].
  destruct (field_fits (rcc_pllcfgr r) 16 2) as [? ?]; [lia..|].
  destruct (Z.eqb_spec ((field (rcc_pllcfgr r) 16 2 + 1) * 2) 0); [lia|]. cbn [rbind].
  unfold bit_set. change (BIT 22) with STM32F2_RCC_PLLCFGR_HSESRC.
  destruct (_ .& STM32F2_RCC_PLLCFGR_HSESRC =? 0); reflexivity.
Qed.

(** On the F7, booting with the system clock taken from HSE or HSI (not the
    PLL) leaves the PLL input rate [CLOCK_DIVM] at its initial zero, and the
    unconditional PLLSAI set-up then divides by it. *)
Theorem clock_init_f7_needs_pll rdy fuel platform st :
  sws st <> STM32_RCC_CFGR_SWS_PLL -> v_divm (vals st) = 0 ->
  stm32_clock_init rdy true fuel platform st = Fault DivByZero.
Proof.
  intros Hs Hd. unfold stm32_clock_init. rewrite Hd.
  destruct (get_sysclk_not_pll (hse_hz_of platform) (rcc st) 0 Hs) as [sysclk E].
  rewrite E. cbn [rbind Z.eqb]. reflexivity.
Qed.

Lemma clock_init_f7_needs_pll_witness :
  stm32_clock_init (fun _ => true) true 10 PLATFORM_STM32_STM32F7_DISCO
    {| rcc := {| rcc_cr := 0x83; rcc_pllcfgr := 0x24003010; rcc_cfgr := 0; rcc_ahb1enr := 0x00100000;
                 rcc_apb2enr := 0; rcc_pllsaicfgr := 0x24003000; rcc_dckcfgr := 0;
                 rcc_dckcfgr2 := 0 |};
       vals := clock_val_bss; clks := clks_init |} = Fault DivByZero.
Proof.
  apply clock_init_f7_needs_pll.
  - vm_compute. discriminate.
  - reflexivity.
Defined.

Lemma hse_hz_bounds platform : 8000000 <= hse_hz_of platform <= 25000000.
Proof. unfold hse_hz_of. repeat case_match; lia. Qed.

(** C33: On the F7 with the PLL driving the system clock, its factors M and Q not zero, and
    PLLSAI ready within the polls, boot-time clock set-up completes: the PLL input is
    source / M, SYSCLK is (source / M * N) / P (computed in 32 bits, which is exact up to an
    input of 8 MHz), the 48 MHz multiplexer selects the PLLSAI and the SD card controller is
    told 48 MHz.  If moreover source / M divides the 288 MHz of the PLLSAI and is at least
    562501 Hz (so that the multiplier fits its nine bits), the 48 MHz domain and the 9 MHz pixel
    clock are exact; for another input (25 MHz / 24, say) they are not. *)
Theorem clock_init_f7 rdy fuel platform st n :
  let r := rcc st in
  let m := field (rcc_pllcfgr r) 0 6 in
  let src := if bit_set (rcc_pllcfgr r) 22 then hse_hz_of platform else STM32_HSI_HZ in
  let vco := field (rcc_pllcfgr r) 6 9 * (src / m) in
  rcc_wf r -> sws st = STM32_RCC_CFGR_SWS_PLL -> m <> 0 -> field (rcc_pllcfgr r) 24 4 <> 0 ->
  rdy n = true -> (n < fuel)%nat ->
  exists st', stm32_clock_init rdy true fuel platform st = Ok st'
  /\ stm32_clock_get CLOCK_DIVM st' = src / m
  /\ stm32_clock_get CLOCK_SYSCLK st' = u32 vco / (2 * (field (rcc_pllcfgr r) 16 2 + 1))
  /\ (src / m <= 8000000 -> u32 vco = vco)
  /\ Z.testbit (rcc_dckcfgr2 (rcc st')) 27 = true
  /\ clk_get_rate clk_mci st' = STM32F7_CK48_HZ
  /\ ((src / m | STM32F7_PLLSAI_VCO_HZ) -> 562501 <= src / m ->
      ck48_hz (vals st') (rcc st') = STM32F7_CK48_HZ /\ ltdc_pixel_hz (vals st') (rcc st') = 9000000).
Proof.
  intros r m src vco0 Hw Hs Hm Hq Hr Hn. unfold stm32_clock_init.
  assert (Hm6 : fits 6 m) by (apply field_fits; lia). destruct Hm6 as [Hm0 Hm6]. change (2 ^ 6) with 64 in Hm6.
  assert (Hsrc : 8000000 <= src).
  { unfold src. pose proof (hse_hz_bounds platform). unfold STM32_HSI_HZ. destruct (bit_set _ _); lia. }
  assert (Hd : 0 < src / m) by (apply Z.div_str_pos; lia).
  rewrite (get_sysclk_pll _ _ _ Hs Hm). fold r m src. cbv zeta. cbn [rbind].
  assert (HN : fits 9 (field (rcc_pllcfgr r) 6 9)) by (apply field_fits; lia).
  fold vco0. set (vco := u32 vco0).
  set (v := bus_clocks (rcc_cfgr r) (vco / ((field (rcc_pllcfgr r) 16 2 + 1) * 2)) (src / m)).
  match goal with |- context [if vco =? 0 then Ok ?s else _] =>
    assert (exists st1, (if vco =? 0 then Ok s
      else let* rate := udiv vco ((rcc_pllcfgr r .>> STM32F2_RCC_PLLCFGR_PLLQ_BIT)
             .& STM32F2_RCC_PLLCFGR_PLLQ_MSK) in Ok (set_mci_rate rate s)) = Ok st1
      /\ rcc st1 = r /\ vals st1 = v) as (st1 & E1 & Er & Ev) end.
  { destruct (vco =? 0); [eexists; split; [reflexivity|split; reflexivity]|].
    change (_ .& STM32F2_RCC_PLLCFGR_PLLQ_MSK) with (field (rcc_pllcfgr r) 24 4). unfold udiv.
    destruct (Z.eqb_spec (field (rcc_pllcfgr r) 24 4) 0); [contradiction|].
    eexists; split; [reflexivity|split; reflexivity]. }
  rcc_simpl. fold r in E1 |- *. rewrite E1. cbn [rbind]. rewrite Er, Ev.
  destruct (sai_r_clk_enable_ok rdy fuel (clk_rate (clks st1 clk_sai_r)) v r n
              ltac:(unfold v; simpl; lia) Hr Hn) as [r' E].
  rewrite E. cbn [rbind]. eexists; split; [reflexivity|].
  destruct (sai_r_clk_enable_post _ _ _ _ _ _ Hw E) as (_ & _ & Hcfg & Hdck & _).
  unfold stm32_clock_get, clk_get_rate. rcc_simpl. rewrite Ev.
  split; [reflexivity|]. split; [simpl; f_equal; lia|].
  split; [intros H8; unfold vco, vco0; apply u32_id; destruct HN; unfold fits; change (2 ^ 9) with 512 in *; nia|].
  split; [change RCC_DCKCFGR2_CK48MSEL with (BIT 27); now rewrite set_bit_spec by lia|].
  split; [now rewrite decide_True|]. intros Hdvd H5.
  destruct (pllsai_frequencies v r' Hdvd ltac:(unfold v; simpl; lia) Hcfg Hdck) as (_ & H48 & Hpix). now split.
Qed.

Lemma clock_init_f7_witness :
  exists st', stm32_clock_init (fun _ => true) true 1 PLATFORM_STM32_STM32F7_DISCO st_boot = Ok st'
  /\ stm32_clock_get CLOCK_DIVM st' = 1000000
  /\ stm32_clock_get CLOCK_SYSCLK st' = 200000000
  /\ ck48_hz (vals st') (rcc st') = 48000000.
Proof.
  destruct (clock_init_f7 (fun _ => true) 1 PLATFORM_STM32_STM32F7_DISCO st_boot 0 rcc_boot_wf)
    as (st' & E & H1 & H2 & _ & _ & _ & H).
  - reflexivity.
  - vm_compute. discriminate.
  - vm_compute. discriminate.
  - reflexivity.
  - lia.
  - exists st'. split; [exact E|]. rewrite H1, H2. split; [reflexivity|]. split; [reflexivity|]. apply H.
    + exists 288. reflexivity.
    + vm_compute. discriminate.
Defined.

(** ** Reference counting *)

(** Whether the hardware gate (or PLL) behind a clock is on. *)
Definition gate_on (id : clk_id) (r : rcc_regs) : bool :=
  match id with
  | clk_mci => Z.testbit (rcc_apb2enr r) 11
  | clk_ltdc => Z.testbit (rcc_apb2enr r) 26
  | clk_sai_r => Z.testbit (rcc_cr r) 28
  | _ => match RCC_GPIO_ENABLE id with
         | Some b => Z.testbit (rcc_ahb1enr r) b
         | None => false
         end
  end.

Lemma clk_op_enable_gate rdy fuel id st st' :
  rcc_wf (rcc st) -> clk_op_enable rdy true fuel id st = Ok st' ->
  rcc_wf (rcc st') /\ clks st' = clks st /\ vals st' = vals st
  /\ gate_on id (rcc st') = true
  /\ forall j, j <> id -> gate_on j (rcc st') = gate_on j (rcc st).
Proof.
  intros Hw E. pose proof Hw as [Hcr Ha Hb Hd].
  destruct (decide (id = clk_sai_r)) as [->|Hid].
  2: { destruct id; try congruence; unfold clk_op_enable, RCC_GPIO_ENABLE in E;
    injection E as <-; (split; [split; rcc_simpl;
      unfold STM32_RCC_ENR_SDIOEN, STM32_RCC_ENR_LTDCEN; auto with u32|]);
    (split; [reflexivity|]); (split; [reflexivity|]);
    unfold gate_on, STM32_RCC_ENR_SDIOEN, STM32_RCC_ENR_LTDCEN, RCC_GPIO_ENABLE;
    change (1 .<< 11) with (BIT 11); change (1 .<< 26) with (BIT 26); rcc_simpl;
    (split; [rewrite set_bit_spec by lia; reflexivity|]);
    intros [] Hj; try congruence; rewrite ?set_bit_spec by lia; reflexivity. }
  unfold clk_op_enable in E.
  destruct (sai_r_clk_enable _ _ _ _ _ _) as [r'|] eqn:Es; [|discriminate].
  injection E as <-. rcc_simpl.
  destruct (sai_r_clk_enable_post _ _ _ _ _ _ Hw Es) as (_ & Hon & _ & _ & Hw' & Ea & Eb & _).
  split; [assumption|]. split; [reflexivity|]. split; [reflexivity|]. split; [exact Hon|].
  intros [] Hj; simpl; try congruence; rewrite ?Ea, ?Eb; reflexivity.
Qed.

Lemma clk_op_disable_gate id st :
  rcc_wf (rcc st) ->
  rcc_wf (rcc (clk_op_disable id st)) /\ clks (clk_op_disable id st) = clks st
  /\ gate_on id (rcc (clk_op_disable id st)) = false
  /\ forall j, j <> id -> gate_on j (rcc (clk_op_disable id st)) = gate_on j (rcc st).
Proof.
  intros Hw. pose proof Hw as [Hcr Ha Hb Hd].
  destruct id; unfold clk_op_disable, RCC_GPIO_ENABLE;
    (split; [split; rcc_simpl; unfold STM32_RCC_ENR_SDIOEN, STM32_RCC_ENR_LTDCEN, RCC_CR_PLLSAION;
             auto with u32|]); (split; [reflexivity|]);
    unfold gate_on, RCC_GPIO_ENABLE; rcc_simpl;
    unfold STM32_RCC_ENR_SDIOEN, STM32_RCC_ENR_LTDCEN, RCC_CR_PLLSAION;
    change (1 .<< 11) with (BIT 11); change (1 .<< 26) with (BIT 26);
    change (1 .<< 28) with (BIT 28);
    (split; [rewrite clear_bit_spec by (auto; lia); reflexivity|]);
    intros [] Hj; try congruence; rewrite ?clear_bit_spec by (auto; lia); reflexivity.
Qed.

(** The API calls drivers make; a driver disables a clock only after it enabled
    it, and there are fewer than 2^32 - 1 users. *)
Inductive clk_step (rdy : nat -> bool) : clk_state -> clk_state -> Prop :=
  | step_enable id fuel st rv st' :
      clk_enabled (clks st id) < u32_max ->
      clk_enable rdy true fuel id st = Ok (rv, st') -> clk_step rdy st st'
  | step_disable id st :
      0 < clk_enabled (clks st id) -> clk_step rdy st (clk_disable id st)
  | step_set_rate id rate st : clk_step rdy st (clk_set_rate id rate st).2.

(** Every clock with users has its gate on. *)
Record clk_inv (st : clk_state) : Prop := {
  inv_wf : rcc_wf (rcc st);
  inv_count : forall id, is_u32 (clk_enabled (clks st id));
  inv_gate : forall id, 0 < clk_enabled (clks st id) -> gate_on id (rcc st) = true
}.

Lemma u32_succ x : is_u32 x -> x < u32_max -> u32 (x + 1) = x + 1.
Proof. unfold u32_max. intros [] ?. apply u32_id. unfold fits. lia. Qed.

Lemma u32_pred x : is_u32 x -> 0 < x -> u32 (x - 1) = x - 1.
Proof. intros [] ?. apply u32_id. unfold fits. lia. Qed.

Lemma clks_set_clk st id c j :
  clks (set_clk st id c) j = if decide (j = id) then c else clks st j.
Proof. reflexivity. Qed.

Lemma clk_enable_inv rdy fuel id st rv st' :
  clk_inv st -> clk_enabled (clks st id) < u32_max ->
  clk_enable rdy true fuel id st = Ok (rv, st') -> clk_inv st'.
Proof.
  intros [Hw Hc Hg] Hlt. unfold clk_enable.
  set (s1 := set_clk st id _). destruct (Z.eqb_spec (clk_enabled (clks st id)) 0) as [Hz|Hz].
  - destruct (clk_op_enable rdy true fuel id s1) as [s2|] eqn:E; [|discriminate].
    intros [= _ <-]. destruct (clk_op_enable_gate rdy fuel id s1 s2 Hw E) as (Hw2 & Hk & _ & Hon & Hoff).
    split; [assumption| |]; intros j; rewrite Hk; unfold s1; rewrite clks_set_clk; case_decide as Hj; simpl.
    + apply u32_range.
    + apply Hc.
    + intros _. now subst j.
    + intros Hp. rewrite Hoff by assumption. now apply Hg.
  - intros [= _ <-]. unfold s1. split; [exact Hw| |]; intros j; rewrite clks_set_clk; case_decide; simpl.
    + apply u32_range.
    + apply Hc.
    + subst j. intros _. apply Hg. specialize (Hc id). unfold fits in Hc. lia.
    + apply Hg.
Qed.

Lemma clk_disable_inv id st :
  clk_inv st -> 0 < clk_enabled (clks st id) -> clk_inv (clk_disable id st).
Proof.
  intros [Hw Hc Hg] Hp. unfold clk_disable. rewrite (u32_pred _ (Hc id) Hp).
  set (s1 := set_clk st id _).
  assert (Hs1 : forall j, is_u32 (clk_enabled (clks s1 j))).
  { intros j. unfold s1. rewrite clks_set_clk. case_decide; [|apply Hc]. simpl.
    specialize (Hc id). unfold fits in *. lia. }
  destruct (Z.eqb_spec (clk_enabled (clks st id) - 1) 0) as [Hz|Hz].
  - destruct (clk_op_disable_gate id s1 Hw) as (Hw2 & Hk & _ & Hoff).
    split; [assumption| |]; intros j; rewrite Hk; [apply Hs1|]. unfold s1 at 1.
    rewrite clks_set_clk. case_decide as Hj; simpl; [lia|]. intros Hpos.
    rewrite Hoff by assumption. now apply Hg.
  - split; [exact Hw|exact Hs1|]. intros j. unfold s1 at 1. rewrite clks_set_clk.
    case_decide as Hj; simpl; [subst j; intros _; now apply Hg|apply Hg].
Qed.

Lemma clk_set_rate_inv id rate st : clk_inv st -> clk_inv (clk_set_rate id rate st).2.
Proof.
  intros [Hw Hc Hg]. destruct id; simpl; try (now split).
  split; [exact Hw| |]; intros j; rcc_simpl; case_decide as Hj; simpl;
    subst; auto.
Qed.

(** C32: In every state reachable by balanced [clk_enable]/[clk_disable] (and
    [clk_set_rate]) calls from boot, a clock that still has a user is running:
    no other user's [clk_disable] has switched its gate off. *)
Theorem clk_refcount_safety rdy st st' :
  rcc_wf (rcc st) -> (forall id, clk_enabled (clks st id) = 0) ->
  rtc (clk_step rdy) st st' ->
  forall id, 0 < clk_enabled (clks st' id) -> gate_on id (rcc st') = true.
Proof.
  intros Hw H0 Hr. apply inv_gate.
  assert (Hi : clk_inv st).
  { split; [assumption| |]; intros j; rewrite H0; [split; [lia|reflexivity]|lia]. }
  clear Hw H0. induction Hr as [|x y z Hs _ IH]; [assumption|]. apply IH.
  destruct Hs; eauto using clk_enable_inv, clk_disable_inv, clk_set_rate_inv.
Qed.

Lemma clk_refcount_safety_witness :
  exists st', rtc (clk_step (fun _ => true)) st_boot st'
  /\ clk_enabled (clks st' clk_mci) = 1 /\ gate_on clk_mci (rcc st') = true.
Proof.
  pose (s1 := match clk_enable (fun _ => true) true 1 clk_mci st_boot with
              | Ok (_, s) => s | Fault _ => st_boot end).
  pose (s2 := match clk_enable (fun _ => true) true 1 clk_mci s1 with
              | Ok (_, s) => s | Fault _ => s1 end).
  assert (Hr : rtc (clk_step (fun _ => true)) st_boot (clk_disable clk_mci s2)).
  { apply rtc_l with s1; [apply (step_enable _ clk_mci 1 st_boot 0); reflexivity|].
    apply rtc_l with s2; [apply (step_enable _ clk_mci 1 s1 0); reflexivity|].
    apply rtc_once, step_disable. reflexivity. }
  exists (clk_disable clk_mci s2). split; [exact Hr|]. split; [reflexivity|].
  apply (clk_refcount_safety (fun _ => true) st_boot _ rcc_boot_wf).
  - intros []; reflexivity.
  - exact Hr.
  - reflexivity.
Defined.

(** The last [clk_disable] switches the gate off and no other gate; an
    unbalanced one (the count is zero, which only warns) wraps the count to
    2^32 - 1 instead, and the next [clk_enable] then succeeds without switching
    the gate on. *)
Theorem clk_disable_cases rdy fuel id st :
  rcc_wf (rcc st) ->
  (clk_enabled (clks st id) = 1 ->
     gate_on id (rcc (clk_disable id st)) = false
     /\ clk_enabled (clks (clk_disable id st) id) = 0
     /\ forall j, j <> id -> gate_on j (rcc (clk_disable id st)) = gate_on j (rcc st))
  /\ (clk_enabled (clks st id) = 0 ->
     clk_enabled (clks (clk_disable id st) id) = u32_max
     /\ rcc (clk_disable id st) = rcc st
     /\ exists st', clk_enable rdy true fuel id (clk_disable id st) = Ok (0, st')
        /\ rcc st' = rcc st).
Proof.
  intros Hw. split; intros Hn; unfold clk_disable; rewrite Hn.
  - change (u32 (1 - 1)) with 0. rewrite Z.eqb_refl. set (s1 := set_clk st id _).
    destruct (clk_op_disable_gate id s1 Hw) as (_ & Hk & Hoff & Hoth).
    split; [exact Hoff|]. split; [|exact Hoth]. rewrite Hk. unfold s1.
    rewrite clks_set_clk, decide_True by reflexivity. reflexivity.
  - change (u32 (0 - 1)) with u32_max. change (u32_max =? 0) with false. cbv iota.
    split; [rewrite clks_set_clk, decide_True by reflexivity; reflexivity|].
    split; [reflexivity|]. unfold clk_enable. rewrite clks_set_clk, decide_True by reflexivity.
    change (u32_max =? 0) with false. simpl. eexists. split; reflexivity.
Qed.

Lemma clk_disable_cases_witness :
  clk_enabled (clks (clk_disable clk_mci st_boot) clk_mci) = u32_max
  /\ exists st', clk_enable (fun _ => true) true 1 clk_mci (clk_disable clk_mci st_boot) = Ok (0, st')
     /\ rcc st' = rcc_boot.
Proof.
  destruct (clk_disable_cases (fun _ => true) 1 clk_mci st_boot rcc_boot_wf) as [_ H].
  destruct (H eq_refl) as (H1 & _ & H2). split; assumption.
Defined.
