(* ===== verification/Dmac.v ===== *)
(** * DMA controller driver ([arch/arm/mach-stm32/dmac.c])

    Sixteen channels over two controllers, the per-channel ownership flag and
    interrupt handler, and the register programming of the API.  Every API call
    runs under the channel's spin lock and is one step here.  The STM32F2/F4/F7
    register layout of [dmaregs.h] is modelled.

    A write to an interrupt-flag-clear register acts on the status register
    inside the controller; the parameter [w1c] gives the status after the write.
    The result of the kernel's [request_irq] is an argument of the call, and the
    effect of a client's interrupt handler is the parameter [call_handler]. *)

From S2P Require Import Prelude.

(** ** Constants ([dmaregs.h], [dmac.h], [dmac.c]) *)

Definition STM32F2_DMA_CH_NUM : Z := 16.
Definition STM32F2_DMA_CH_NUM_DMA1 : Z := 8.
Definition STM32_DMA_CR_CT : Z := 1 .<< 19.
Definition STM32_DMA_CR_DBM_BIT : Z := 18.
Definition STM32_DMA_CR_DBM : Z := 1 .<< STM32_DMA_CR_DBM_BIT.
Definition STM32_DMA_CR_MBURST_BITS : Z := 23.
Definition STM32_DMA_CR_MBURST_MSK : Z := 3 .<< STM32_DMA_CR_MBURST_BITS.
Definition STM32_DMA_CR_PBURST_BITS : Z := 21.
Definition STM32_DMA_CR_PBURST_MSK : Z := 3 .<< STM32_DMA_CR_PBURST_BITS.
Definition STM32_DMA_CR_PINCOS_MSK : Z := 1 .<< 15.
Definition STM32_DMA_CR_MSIZE_BITS : Z := 13.
Definition STM32_DMA_CR_MSIZE_MSK : Z := 3 .<< STM32_DMA_CR_MSIZE_BITS.
Definition STM32_DMA_CR_PSIZE_BITS : Z := 11.
Definition STM32_DMA_CR_PSIZE_MSK : Z := 3 .<< STM32_DMA_CR_PSIZE_BITS.
Definition STM32_DMA_CR_PL_BIT : Z := 16.
Definition STM32_DMA_CR_PL_MSK : Z := 3 .<< STM32_DMA_CR_PL_BIT.
Definition STM32_DMA_CR_MINC_BIT : Z := 10.
Definition STM32_DMA_CR_MINC : Z := 1 .<< STM32_DMA_CR_MINC_BIT.
Definition STM32_DMA_CR_PINC_BIT : Z := 9.
Definition STM32_DMA_CR_PINC : Z := 1 .<< STM32_DMA_CR_PINC_BIT.
Definition STM32_DMA_CR_CIRC_BIT : Z := 8.
Definition STM32_DMA_CR_CIRC : Z := 1 .<< STM32_DMA_CR_CIRC_BIT.
Definition STM32_DMA_CR_DIR_BITS : Z := 6.
Definition STM32_DMA_CR_DIR_MSK : Z := 3 .<< STM32_DMA_CR_DIR_BITS.
Definition STM32_DMA_CR_PFCTRL_BIT : Z := 5.
Definition STM32_DMA_CR_PFCTRL_MSK : Z := 1 .<< STM32_DMA_CR_PFCTRL_BIT.
Definition STM32_DMA_CR_TCIE : Z := 1 .<< 4.
Definition STM32_DMA_CR_HTIE : Z := 1 .<< 3.
Definition STM32_DMA_CR_EN : Z := 1 .<< 0.
Definition STM32_DMA_INTCOMPLETE : Z := 1 .<< 0.
Definition STM32_DMA_INTHALF : Z := 1 .<< 1.
Definition STM32_DMA_IRQF_TC : Z := 1 .<< 5.
Definition STM32_DMA_IRQF_HT : Z := 1 .<< 4.
Definition STM32_DMA_IRQF_TE : Z := 1 .<< 3.
Definition STM32_DMA_IRQF_DME : Z := 1 .<< 2.
Definition STM32_DMA_IRQF_FE : Z := 1 .<< 0.
Definition STM32_DMA_FCR_DMDIS_BIT : Z := 2.
Definition STM32_DMA_FCR_DMDIS_MSK : Z := 1 .<< STM32_DMA_FCR_DMDIS_BIT.
Definition STM32_DMA_FCR_FTH_BITS : Z := 0.
Definition STM32_DMA_FCR_FTH_MSK : Z := 3 .<< STM32_DMA_FCR_FTH_BITS.

(** The mask all call sites of [stm32_dma_clear_irq_flags] pass. *)
Definition irqf_all : Z :=
  STM32_DMA_IRQF_TC .| STM32_DMA_IRQF_HT .| STM32_DMA_IRQF_TE
  .| STM32_DMA_IRQF_DME .| STM32_DMA_IRQF_FE.

(** ** State *)

(** [irq_handler] is a function pointer: [None] is [NULL].  [irq_data] is an
    opaque pointer, 0 for [NULL]. *)
Record dma_ch_priv := { in_use : bool; irq_handler : option Z; irq_data : Z }.

Record stm32_dma_ch_regs := { cr : Z; ndtr : Z; par : Z; m0ar : Z; m1ar : Z; fcr : Z }.

Record stm32_dma_regs := { lisr : Z; hisr : Z; s : list stm32_dma_ch_regs }.

Record dmac := {
  dma_ch : list dma_ch_priv; STM32_DMA1 : stm32_dma_regs; STM32_DMA2 : stm32_dma_regs
}.

#[global] Instance dma_ch_priv_inhabited : Inhabited dma_ch_priv :=
  populate {| in_use := false; irq_handler := None; irq_data := 0 |}.
#[global] Instance dma_ch_regs_inhabited : Inhabited stm32_dma_ch_regs :=
  populate {| cr := 0; ndtr := 0; par := 0; m0ar := 0; m1ar := 0; fcr := 0 |}.

(** [dma_ch] lies in BSS. *)
Definition dma_ch_bss : list dma_ch_priv := replicate 16 inhabitant.

Definition priv (st : dmac) (ch : Z) : dma_ch_priv := dma_ch st !!! Z.to_nat ch.
Definition set_priv (st : dmac) (ch : Z) (p : dma_ch_priv) : dmac :=
  {| dma_ch := <[Z.to_nat ch := p]> (dma_ch st);
     STM32_DMA1 := STM32_DMA1 st; STM32_DMA2 := STM32_DMA2 st |}.

Definition dma_regs (st : dmac) (ch : Z) : stm32_dma_regs :=
  if ch <? STM32F2_DMA_CH_NUM_DMA1 then STM32_DMA1 st else STM32_DMA2 st.
Definition set_dma_regs (st : dmac) (ch : Z) (d : stm32_dma_regs) : dmac :=
  if ch <? STM32F2_DMA_CH_NUM_DMA1
  then {| dma_ch := dma_ch st; STM32_DMA1 := d; STM32_DMA2 := STM32_DMA2 st |}
  else {| dma_ch := dma_ch st; STM32_DMA1 := STM32_DMA1 st; STM32_DMA2 := d |}.

(** [dma_ch_regs(ch)] and a write through it. *)
Definition dma_ch_regs (st : dmac) (ch : Z) : stm32_dma_ch_regs :=
  s (dma_regs st ch) !!! Z.to_nat (ch mod STM32F2_DMA_CH_NUM_DMA1).
Definition set_ch_regs (st : dmac) (ch : Z) (r : stm32_dma_ch_regs) : dmac :=
  let d := dma_regs st ch in
  set_dma_regs st ch {| lisr := lisr d; hisr := hisr d;
    s := <[Z.to_nat (ch mod STM32F2_DMA_CH_NUM_DMA1) := r]> (s d) |}.

Definition set_ch_cr (r : stm32_dma_ch_regs) (v : Z) : stm32_dma_ch_regs :=
  {| cr := v; ndtr := ndtr r; par := par r; m0ar := m0ar r; m1ar := m1ar r; fcr := fcr r |}.

(** ** Operations *)

Section Ops.

Context (w1c : Z -> Z -> Z).

Definition irq_flags_shift (ch : Z) : Z := ((ch .& 2) .<< 3) .| ((ch .& 1) * 6).

Definition stm32_dma_clear_irq_flags (ch flags : Z) (st : dmac) : dmac :=
  let d := dma_regs st ch in
  let v := flags .<< irq_flags_shift ch in
  set_dma_regs st ch
    (if negb ((ch .& 4) =? 0)
     then {| lisr := lisr d; hisr := w1c (hisr d) v; s := s d |}
     else {| lisr := w1c (lisr d) v; hisr := hisr d; s := s d |}).

Definition stm32_dma_ch_valid (ch : Z) : bool := (0 <=? ch) && (ch <? STM32F2_DMA_CH_NUM).

Definition stm32_dma_ch_get (ch : Z) (st : dmac) : Z * dmac :=
  if negb (stm32_dma_ch_valid ch) then (- EINVAL, st)
  else
    let p := priv st ch in
    (if in_use p then - EBUSY else 0,
     set_priv st ch {| in_use := true; irq_handler := irq_handler p; irq_data := irq_data p |}).

Definition stm32_dma_ch_put (ch : Z) (st : dmac) : Z * dmac :=
  if negb (stm32_dma_ch_valid ch) then (- EINVAL, st)
  else
    let p := priv st ch in
    (if in_use p then 0 else - EBUSY,
     set_priv st ch {| in_use := false; irq_handler := irq_handler p; irq_data := irq_data p |}).

(** [DMAAPI_LOCKED_BEGIN] ... [DMAAPI_LOCKED_END]: [body] ends the call with
    [inl rv] ([goto unlock]) or falls through with [inr st]. *)
Definition dmaapi_locked (ch : Z) (body : dmac -> Z + dmac) (st : dmac) : Z * dmac :=
  if negb (stm32_dma_ch_valid ch) then (- EINVAL, st)
  else if negb (in_use (priv st ch)) then (- ENODEV, st)
  else match body st with inl rv => (rv, st) | inr st' => (0, st') end.

Definition __stm32_dma_ch_enable (ch : Z) (enable : bool) : dmac -> Z * dmac :=
  dmaapi_locked ch (fun st =>
    if enable then
      let st := stm32_dma_clear_irq_flags ch irqf_all st in
      let r := dma_ch_regs st ch in
      inr (set_ch_regs st ch (set_ch_cr r (cr r .| STM32_DMA_CR_EN)))
    else
      let r := dma_ch_regs st ch in
      inr (set_ch_regs st ch (set_ch_cr r (cr r .& .~ STM32_DMA_CR_EN)))).

Definition stm32_dma_ch_enable (ch : Z) := __stm32_dma_ch_enable ch true.
Definition stm32_dma_ch_disable (ch : Z) := __stm32_dma_ch_enable ch false.

Definition stm32f2_dma_irq : list Z :=
  [11; 12; 13; 14; 15; 16; 17; 47; 56; 57; 58; 59; 60; 68; 69; 70].

(** The [cr] updates of [stm32_dma_ch_request_irq]. *)
Definition irq_enable_bits (flags : Z) (r : stm32_dma_ch_regs) : stm32_dma_ch_regs :=
  let r := if negb ((flags .& STM32_DMA_INTCOMPLETE) =? 0)
           then set_ch_cr r (cr r .| STM32_DMA_CR_TCIE)
           else set_ch_cr r (cr r .& .~ STM32_DMA_CR_TCIE) in
  if negb ((flags .& STM32_DMA_INTHALF) =? 0)
  then set_ch_cr r (cr r .| STM32_DMA_CR_HTIE)
  else set_ch_cr r (cr r .& .~ STM32_DMA_CR_HTIE).

(** [request_irq_rv irq] is what the kernel's [request_irq] answers. *)
Definition stm32_dma_ch_request_irq (request_irq_rv : Z -> Z) (ch : Z) (handler : option Z)
    (flags data : Z) (st : dmac) : Z * dmac :=
  if negb (stm32_dma_ch_valid ch) then (- EINVAL, st)
  else
    let p := priv st ch in
    if negb (in_use p) then (- ENODEV, st)
    else if bool_decide (is_Some (irq_handler p)) then (- EEXIST, st)
    else
      let st := set_priv st ch {| in_use := in_use p; irq_handler := handler;
                                  irq_data := data |} in
      let rv := request_irq_rv (stm32f2_dma_irq !!! Z.to_nat ch) in
      if negb (rv =? 0)
      then (rv, set_priv st ch {| in_use := in_use p; irq_handler := None; irq_data := 0 |})
      else (0, set_ch_regs st ch (irq_enable_bits flags (dma_ch_regs st ch))).

Definition stm32_dma_ch_free_irq (ch data : Z) (st : dmac) : Z * dmac :=
  if negb (stm32_dma_ch_valid ch) then (- EINVAL, st)
  else
    let p := priv st ch in
    if negb (in_use p) then (- ENODEV, st)
    else if negb (irq_data p =? data) then (- EINVAL, st)
    else match irq_handler p with
    | None => (- EINVAL, st)
    | Some _ =>
        let st := set_priv st ch {| in_use := in_use p; irq_handler := None; irq_data := 0 |} in
        let r := dma_ch_regs st ch in
        (0, set_ch_regs st ch
              (set_ch_cr r (cr r .& .~ (STM32_DMA_CR_TCIE .| STM32_DMA_CR_HTIE))))
    end.

(** The interrupt handler of channel [ch]; [call_handler h ch flags data] is the
    client's handler. *)
Definition stm32_dma_isr (call_handler : Z -> Z -> Z -> Z -> dmac -> dmac) (ch : Z)
    (st : dmac) : result dmac :=
  match dma_ch st !! Z.to_nat ch with
  | None => Fault BadIndex
  | Some p =>
      let st := match irq_handler p with
                | Some h => call_handler h ch 0 (irq_data p) st
                | None => st
                end in
      Ok (stm32_dma_clear_irq_flags ch irqf_all st)
  end.

(** "Cannot change parameters of an enabled DMA channel". *)
Definition ch_enabled (r : stm32_dma_ch_regs) : bool := negb ((cr r .& STM32_DMA_CR_EN) =? 0).

Definition init_clear_msk : Z :=
  STM32_DMA_CR_DIR_MSK .| STM32_DMA_CR_PFCTRL_MSK .| STM32_DMA_CR_PL_MSK
  .| STM32_DMA_CR_DBM .| STM32_DMA_CR_CIRC .| STM32_DMA_CR_PINC .| STM32_DMA_CR_MINC
  .| STM32_DMA_CR_PSIZE_MSK .| STM32_DMA_CR_MSIZE_MSK .| STM32_DMA_CR_PINCOS_MSK
  .| STM32_DMA_CR_CT .| STM32_DMA_CR_PBURST_MSK .| STM32_DMA_CR_MBURST_MSK.

Definition stm32_dma_ch_init (ch dir fpctrl pl dbm circ : Z) : dmac -> Z * dmac :=
  dmaapi_locked ch (fun st =>
    if (2 <? dir) || (1 <? fpctrl) || (3 <? pl) || (1 <? dbm) || (1 <? circ)
    then inl (- EINVAL)
    else
      let r := dma_ch_regs st ch in
      if ch_enabled r then inl (- EBUSY)
      else inr (set_ch_regs st ch {|
        ndtr := 0; par := 0; m0ar := 0; m1ar := 0; fcr := 0;
        cr := (cr r .& .~ init_clear_msk)
              .| (dir .<< STM32_DMA_CR_DIR_BITS) .| (fpctrl .<< STM32_DMA_CR_PFCTRL_BIT)
              .| (pl .<< STM32_DMA_CR_PL_BIT) .| (dbm .<< STM32_DMA_CR_DBM_BIT)
              .| (circ .<< STM32_DMA_CR_CIRC_BIT) |})).

Definition stm32_dma_ch_init_fifo (ch burst threshold : Z) : dmac -> Z * dmac :=
  dmaapi_locked ch (fun st =>
    if (1 <? burst) || (3 <? threshold) then inl (- EINVAL)
    else
      let r := dma_ch_regs st ch in
      if ch_enabled r then inl (- EBUSY)
      else inr (set_ch_regs st ch {|
        cr := cr r; ndtr := ndtr r; par := par r; m0ar := m0ar r; m1ar := m1ar r;
        fcr := (fcr r .& .~ (STM32_DMA_FCR_DMDIS_MSK .| STM32_DMA_FCR_FTH_MSK))
               .| (burst .<< STM32_DMA_FCR_DMDIS_BIT)
               .| (threshold .<< STM32_DMA_FCR_FTH_BITS) |})).

Definition stm32_dma_ch_set_periph (ch addr inc bitwidth burst : Z) : dmac -> Z * dmac :=
  dmaapi_locked ch (fun st =>
    if (1 <? inc) || (3 <? bitwidth) || (3 <? burst) then inl (- EINVAL)
    else
      let r := dma_ch_regs st ch in
      if ch_enabled r then inl (- EBUSY)
      else inr (set_ch_regs st ch {|
        ndtr := ndtr r; par := addr; m0ar := m0ar r; m1ar := m1ar r; fcr := fcr r;
        cr := (cr r .& .~ (STM32_DMA_CR_PINC .| STM32_DMA_CR_PSIZE_MSK
                           .| STM32_DMA_CR_PBURST_MSK))
              .| (inc .<< STM32_DMA_CR_PINC_BIT) .| (bitwidth .<< STM32_DMA_CR_PSIZE_BITS)
              .| (burst .<< STM32_DMA_CR_PBURST_BITS) |})).

Definition stm32_dma_ch_set_memory (ch addr inc bitwidth burst : Z) : dmac -> Z * dmac :=
  dmaapi_locked ch (fun st =>
    if (1 <? inc) || (3 <? bitwidth) || (3 <? burst) then inl (- EINVAL)
    else
      let r := dma_ch_regs st ch in
      if ch_enabled r then inl (- EBUSY)
      else inr (set_ch_regs st ch {|
        ndtr := ndtr r; par := par r; m0ar := addr; m1ar := m1ar r; fcr := fcr r;
        cr := (cr r .& .~ (STM32_DMA_CR_MINC .| STM32_DMA_CR_MSIZE_MSK
                           .| STM32_DMA_CR_MBURST_MSK))
              .| (inc .<< STM32_DMA_CR_MINC_BIT) .| (bitwidth .<< STM32_DMA_CR_MSIZE_BITS)
              .| (burst .<< STM32_DMA_CR_MBURST_BITS) |})).

Definition stm32_dma_ch_set_nitems (ch nitems : Z) : dmac -> Z * dmac :=
  dmaapi_locked ch (fun st =>
    let r := dma_ch_regs st ch in
    if ch_enabled r then inl (- EBUSY)
    else inr (set_ch_regs st ch {|
      cr := cr r; ndtr := nitems; par := par r; m0ar := m0ar r; m1ar := m1ar r;
      fcr := fcr r |})).

(** The API as one type of calls. *)
Inductive dma_op :=
  | OpGet (ch : Z) | OpPut (ch : Z) | OpEnable (ch : Z) | OpDisable (ch : Z)
  | OpRequestIrq (rv : Z -> Z) (ch : Z) (handler : option Z) (flags data : Z)
  | OpFreeIrq (ch data : Z)
  | OpInit (ch dir fpctrl pl dbm circ : Z)
  | OpInitFifo (ch burst threshold : Z)
  | OpSetPeriph (ch addr inc bitwidth burst : Z)
  | OpSetMemory (ch addr inc bitwidth burst : Z)
  | OpSetNitems (ch nitems : Z).

Definition op_ch (o : dma_op) : Z :=
  match o with
  | OpGet ch | OpPut ch | OpEnable ch | OpDisable ch | OpRequestIrq _ ch _ _ _
  | OpFreeIrq ch _ | OpInit ch _ _ _ _ _ | OpInitFifo ch _ _ | OpSetPeriph ch _ _ _ _
  | OpSetMemory ch _ _ _ _ | OpSetNitems ch _ => ch
  end.

Definition dma_exec (o : dma_op) : dmac -> Z * dmac :=
  match o with
  | OpGet ch => stm32_dma_ch_get ch
  | OpPut ch => stm32_dma_ch_put ch
  | OpEnable ch => stm32_dma_ch_enable ch
  | OpDisable ch => stm32_dma_ch_disable ch
  | OpRequestIrq rv ch h flags data => stm32_dma_ch_request_irq rv ch h flags data
  | OpFreeIrq ch data => stm32_dma_ch_free_irq ch data
  | OpInit ch dir fpctrl pl dbm circ => stm32_dma_ch_init ch dir fpctrl pl dbm circ
  | OpInitFifo ch burst threshold => stm32_dma_ch_init_fifo ch burst threshold
  | OpSetPeriph ch addr inc bw burst => stm32_dma_ch_set_periph ch addr inc bw burst
  | OpSetMemory ch addr inc bw burst => stm32_dma_ch_set_memory ch addr inc bw burst
  | OpSetNitems ch n => stm32_dma_ch_set_nitems ch n
  end.

End Ops.

(** ** The channels as independent cells *)

(** The interrupt flags of a channel: its six bits of LISR or HISR. *)
Definition isr_of (st : dmac) (ch : Z) : Z :=
  let d := dma_regs st ch in if negb ((ch .& 4) =? 0) then hisr d else lisr d.
Definition ch_flags (st : dmac) (ch : Z) : Z := field (isr_of st ch) (irq_flags_shift ch) 6.

Definition view (st : dmac) (ch : Z) := (priv st ch, dma_ch_regs st ch, ch_flags st ch).

Record regs_wf (r : stm32_dma_ch_regs) : Prop := { cr_u32 : is_u32 (cr r); fcr_u32 : is_u32 (fcr r) }.

Record dmac_wf (st : dmac) : Prop := {
  wf_priv : length (dma_ch st) = 16%nat;
  wf_s1 : length (s (STM32_DMA1 st)) = 8%nat;
  wf_s2 : length (s (STM32_DMA2 st)) = 8%nat;
  wf_isr : forall ch, is_u32 (isr_of st ch);
  wf_regs : forall ch, regs_wf (dma_ch_regs st ch);
  wf_null : forall ch, irq_handler (priv st ch) = None -> irq_data (priv st ch) = 0
}.

Lemma valid_range ch : stm32_dma_ch_valid ch = true <-> 0 <= ch < 16.
Proof. unfold stm32_dma_ch_valid, STM32F2_DMA_CH_NUM. zcrush; split; (reflexivity || discriminate || lia). Qed.

Lemma slots_disjoint_b :
  forallb (fun ch => forallb (fun ch' =>
    (ch =? ch') || negb (eqb (ch <? 8) (ch' <? 8)) || negb (eqb ((ch .& 4) =? 0) ((ch' .& 4) =? 0))
    || (irq_flags_shift ch' + 6 <=? irq_flags_shift ch)
    || (irq_flags_shift ch + 6 <=? irq_flags_shift ch')) (seqZ 0 16)) (seqZ 0 16) = true.
Proof. vm_compute. reflexivity. Qed.

(** Two channels either use different status registers or different bits. *)
Lemma slots_disjoint ch ch' :
  0 <= ch < 16 -> 0 <= ch' < 16 -> ch <> ch' ->
  (ch <? 8) <> (ch' <? 8) \/ ((ch .& 4) =? 0) <> ((ch' .& 4) =? 0)
  \/ irq_flags_shift ch' + 6 <= irq_flags_shift ch
  \/ irq_flags_shift ch + 6 <= irq_flags_shift ch'.
Proof.
  intros H H' Hne. pose proof slots_disjoint_b as Hb. rewrite forallb_forall in Hb.
  specialize (Hb ch ltac:(apply list_elem_of_In, elem_of_seqZ; lia)). cbv beta in Hb.
  rewrite forallb_forall in Hb.
  specialize (Hb ch' ltac:(apply list_elem_of_In, elem_of_seqZ; lia)).
  rewrite !orb_true_iff, !negb_true_iff, !eqb_false_iff, !Z.leb_le in Hb.
  destruct (Z.eqb_spec ch ch'); intuition congruence.
Qed.

Lemma shift_range_b :
  forallb (fun ch => (0 <=? irq_flags_shift ch) && (irq_flags_shift ch + 6 <=? 32)) (seqZ 0 16) = true.
Proof. vm_compute. reflexivity. Qed.

Lemma shift_range ch : 0 <= ch < 16 -> 0 <= irq_flags_shift ch <= 26.
Proof.
  intros H. pose proof shift_range_b as Hb. rewrite forallb_forall in Hb.
  specialize (Hb ch ltac:(apply list_elem_of_In, elem_of_seqZ; lia)).
  rewrite andb_true_iff, !Z.leb_le in Hb. lia.
Qed.

(** ** Reading back the cells *)

Lemma mod8_lt ch : (Z.to_nat (ch mod 8) < 8)%nat.
Proof. pose proof (Z.mod_pos_bound ch 8). lia. Qed.

Section Cells.

Context (st : dmac) (Hwf : dmac_wf st).

Lemma priv_set_priv ch ch' p :
  0 <= ch < 16 -> 0 <= ch' < 16 ->
  priv (set_priv st ch p) ch' = if ch =? ch' then p else priv st ch'.
Proof.
  destruct Hwf. intros. unfold priv, set_priv. cbn [dma_ch]. destruct (Z.eqb_spec ch ch') as [<-|].
  - apply list_lookup_total_insert_eq. lia.
  - apply list_lookup_total_insert_ne. lia.
Qed.

Lemma s_length ch : length (s (dma_regs st ch)) = 8%nat.
Proof. destruct Hwf. unfold dma_regs. now destruct (ch <? _). Qed.

Lemma dma_regs_set_eq ch d : dma_regs (set_dma_regs st ch d) ch = d.
Proof. unfold dma_regs, set_dma_regs. now destruct (ch <? _). Qed.

Lemma dma_regs_set ch ch' d :
  dma_regs (set_dma_regs st ch d) ch' =
  if eqb (ch <? 8) (ch' <? 8) then d else dma_regs st ch'.
Proof.
  unfold dma_regs, set_dma_regs, STM32F2_DMA_CH_NUM_DMA1.
  now destruct (ch <? 8), (ch' <? 8).
Qed.

Lemma regs_set_ch_regs ch ch' r :
  0 <= ch < 16 -> 0 <= ch' < 16 ->
  dma_ch_regs (set_ch_regs st ch r) ch' = if ch =? ch' then r else dma_ch_regs st ch'.
Proof.
  intros. unfold dma_ch_regs at 1, set_ch_regs, STM32F2_DMA_CH_NUM_DMA1. rewrite dma_regs_set.
  destruct (Z.eqb_spec ch ch') as [<-|].
  - rewrite eqb_reflx. cbn [s]. apply list_lookup_total_insert_eq. rewrite s_length.
    apply mod8_lt.
  - destruct (eqb (ch <? 8) (ch' <? 8)) eqn:E; [|reflexivity]. cbn [s].
    apply eqb_prop in E. unfold dma_ch_regs, STM32F2_DMA_CH_NUM_DMA1.
    replace (dma_regs st ch') with (dma_regs st ch)
      by (unfold dma_regs, STM32F2_DMA_CH_NUM_DMA1; now rewrite E).
    apply list_lookup_total_insert_ne. intros Hm0.
    assert (Hm : ch mod 8 = ch' mod 8)
      by (pose proof (Z.mod_pos_bound ch' 8); pose proof (Z.mod_pos_bound ch 8); lia).
    clear Hm0. revert E Hm. zbool; intros; try discriminate; zdiv.
Qed.

Lemma isr_set_ch_regs ch ch' r : isr_of (set_ch_regs st ch r) ch' = isr_of st ch'.
Proof.
  unfold isr_of, set_ch_regs. rewrite dma_regs_set.
  destruct (eqb (ch <? 8) (ch' <? 8)) eqn:E; [|reflexivity]. apply eqb_prop in E.
  replace (dma_regs st ch') with (dma_regs st ch)
    by (unfold dma_regs, STM32F2_DMA_CH_NUM_DMA1; now rewrite E). reflexivity.
Qed.

Lemma priv_set_ch_regs ch ch' r : priv (set_ch_regs st ch r) ch' = priv st ch'.
Proof. unfold set_ch_regs, set_dma_regs, priv. now destruct (ch <? _). Qed.

Lemma view_set_ch_regs ch ch' r :
  0 <= ch < 16 -> 0 <= ch' < 16 ->
  view (set_ch_regs st ch r) ch' =
  (priv st ch', if ch =? ch' then r else dma_ch_regs st ch', ch_flags st ch').
Proof.
  intros. unfold view, ch_flags. now rewrite regs_set_ch_regs, isr_set_ch_regs, priv_set_ch_regs.
Qed.

Lemma view_set_priv ch ch' p :
  0 <= ch < 16 -> 0 <= ch' < 16 ->
  view (set_priv st ch p) ch' =
  (if ch =? ch' then p else priv st ch', dma_ch_regs st ch', ch_flags st ch').
Proof. intros. unfold view. now rewrite priv_set_priv by assumption. Qed.

Lemma wf_set_priv ch p :
  0 <= ch < 16 -> (irq_handler p = None -> irq_data p = 0) -> dmac_wf (set_priv st ch p).
Proof.
  intros Hc Hp. pose proof Hwf as []. split; try assumption.
  - unfold set_priv. cbn [dma_ch]. now rewrite length_insert.
  - intros ch'. unfold priv, set_priv. cbn [dma_ch].
    destruct (decide (Z.to_nat ch = Z.to_nat ch')) as [<-|].
    + now rewrite list_lookup_total_insert_eq by lia.
    + rewrite list_lookup_total_insert_ne by assumption. apply wf_null0.
Qed.

Lemma wf_set_ch_regs ch r : 0 <= ch < 16 -> regs_wf r -> dmac_wf (set_ch_regs st ch r).
Proof.
  intros Hc Hr. pose proof Hwf as []. split.
  - unfold set_ch_regs, set_dma_regs. now destruct (ch <? _).
  - unfold set_ch_regs, set_dma_regs, dma_regs. destruct (ch <? _); cbn; now rewrite ?length_insert.
  - unfold set_ch_regs, set_dma_regs, dma_regs. destruct (ch <? _); cbn; now rewrite ?length_insert.
  - intros ch'. rewrite isr_set_ch_regs. auto.
  - intros ch'. unfold dma_ch_regs, set_ch_regs, STM32F2_DMA_CH_NUM_DMA1. rewrite dma_regs_set.
    destruct (eqb (ch <? 8) (ch' <? 8)) eqn:E; [|apply wf_regs0]. apply eqb_prop in E. cbn [s].
    replace (dma_regs st ch) with (dma_regs st ch')
      by (unfold dma_regs, STM32F2_DMA_CH_NUM_DMA1; now rewrite E).
    destruct (decide (Z.to_nat (ch mod 8) = Z.to_nat (ch' mod 8))) as [->|].
    + rewrite list_lookup_total_insert_eq; [assumption|]. rewrite s_length.
      apply mod8_lt.
    + rewrite list_lookup_total_insert_ne by assumption. apply wf_regs0.
  - intros ch'. rewrite priv_set_ch_regs. auto.
Qed.

End Cells.

(** ** Clearing interrupt flags *)

Section Spec.

(** Writing 1 to a bit of a flag-clear register clears that status bit. *)
Context (w1c : Z -> Z -> Z) `{Hw1c : !W1C w1c}.

Lemma same_ctl st ch ch' : (ch <? 8) = (ch' <? 8) -> dma_regs st ch = dma_regs st ch'.
Proof. unfold dma_regs, STM32F2_DMA_CH_NUM_DMA1. now intros ->. Qed.

Lemma isr_clear st ch ch' flags :
  isr_of (stm32_dma_clear_irq_flags w1c ch flags st) ch' =
  if eqb (ch <? 8) (ch' <? 8) && eqb ((ch .& 4) =? 0) ((ch' .& 4) =? 0)
  then w1c (isr_of st ch') (flags .<< irq_flags_shift ch) else isr_of st ch'.
Proof.
  unfold isr_of, stm32_dma_clear_irq_flags. rewrite dma_regs_set.
  destruct (eqb (ch <? 8) (ch' <? 8)) eqn:E; [|reflexivity]. apply eqb_prop in E.
  rewrite <- (same_ctl st ch ch' E). now destruct ((ch .& 4) =? 0), ((ch' .& 4) =? 0).
Qed.

Lemma s_clear st ch ch' flags :
  s (dma_regs (stm32_dma_clear_irq_flags w1c ch flags st) ch') = s (dma_regs st ch').
Proof.
  unfold stm32_dma_clear_irq_flags. rewrite dma_regs_set.
  destruct (eqb (ch <? 8) (ch' <? 8)) eqn:E; [|reflexivity]. apply eqb_prop in E.
  rewrite <- (same_ctl st ch ch' E). now destruct ((ch .& 4) =? 0).
Qed.

Lemma regs_clear st ch ch' flags :
  dma_ch_regs (stm32_dma_clear_irq_flags w1c ch flags st) ch' = dma_ch_regs st ch'.
Proof. unfold dma_ch_regs. now rewrite s_clear. Qed.

Lemma dma_ch_clear st ch flags :
  dma_ch (stm32_dma_clear_irq_flags w1c ch flags st) = dma_ch st.
Proof. unfold stm32_dma_clear_irq_flags, set_dma_regs. now destruct (ch <? _). Qed.

Lemma priv_clear st ch ch' flags :
  priv (stm32_dma_clear_irq_flags w1c ch flags st) ch' = priv st ch'.
Proof. unfold priv. now rewrite dma_ch_clear. Qed.

Lemma wf_clear st ch flags :
  dmac_wf st -> dmac_wf (stm32_dma_clear_irq_flags w1c ch flags st).
Proof.
  intros []. split.
  - now rewrite dma_ch_clear.
  - pose proof (s_clear st ch 0 flags) as H. unfold dma_regs in H. simpl in H. congruence.
  - pose proof (s_clear st ch 8 flags) as H. unfold dma_regs in H. simpl in H. congruence.
  - intros ch'. rewrite isr_clear. destruct (_ && _); [|auto].
    rewrite (w1c_spec (w1c:=w1c)) by auto with u32. auto with u32.
  - intros ch'. rewrite regs_clear. auto.
  - intros ch'. rewrite priv_clear. auto.
Qed.

Lemma irqf_all_fits : fits 6 irqf_all.
Proof. vm_compute. split; [discriminate|reflexivity]. Qed.

(** Clearing the flags of a channel clears them all (bit 1 is reserved) ... *)
Lemma flags_clear_same st ch :
  dmac_wf st -> 0 <= ch < 16 ->
  ch_flags (stm32_dma_clear_irq_flags w1c ch irqf_all st) ch .& irqf_all = 0.
Proof.
  intros [] Hc. unfold ch_flags. rewrite isr_clear, !eqb_reflx. cbn [andb].
  rewrite (w1c_spec (w1c:=w1c)) by auto with u32. pose proof (shift_range ch Hc).
  apply Z.bits_inj'. intros i Hi. rewrite Z.land_spec, field_bits, Z.bits_0 by lia.
  rewrite Z.land_spec, testbit_not32, testbit_shl32 by lia.
  replace (i + irq_flags_shift ch - irq_flags_shift ch) with i by lia.
  destruct (Z.testbit irqf_all i); [|apply andb_false_r]. zcrush.
Qed.

(** ... and leaves the other channels' alone. *)
Lemma flags_clear_other st ch ch' :
  dmac_wf st -> 0 <= ch < 16 -> 0 <= ch' < 16 -> ch <> ch' ->
  ch_flags (stm32_dma_clear_irq_flags w1c ch irqf_all st) ch' = ch_flags st ch'.
Proof.
  intros [] Hc Hc' Hne. unfold ch_flags. rewrite isr_clear.
  destruct (_ && _) eqn:E; [|reflexivity].
  apply andb_true_iff in E as [E1%eqb_prop E2%eqb_prop].
  pose proof (shift_range ch Hc). pose proof (shift_range ch' Hc').
  rewrite (w1c_spec (w1c:=w1c)) by auto with u32. apply field_clear_out; [lia..|].
  apply (field_shl_other 6); [lia..|apply irqf_all_fits|].
  destruct (slots_disjoint ch ch' Hc Hc' Hne) as [?|[?|?]]; [contradiction..|lia].
Qed.

(** ** Every call, seen from the channels *)

Lemma locked_inv ch body st rv st' :
  dmaapi_locked ch body st = (rv, st') ->
  st' = st \/ (0 <= ch < 16 /\ in_use (priv st ch) = true /\ rv = 0 /\ body st = inr st').
Proof.
  unfold dmaapi_locked. destruct (stm32_dma_ch_valid ch) eqn:Hv; cbn [negb]; [|intros [= _ <-]; auto].
  apply valid_range in Hv. destruct (in_use (priv st ch)) eqn:Hu; cbn [negb]; [|intros [= _ <-]; auto].
  destruct (body st) eqn:Hb; intros [= <- <-]; auto.
Qed.

(** Request with a real handler; clients never pass [NULL]. *)
Definition op_handler_ok (o : dma_op) : Prop :=
  match o with OpRequestIrq _ _ h _ _ => h <> None | _ => True end.

Lemma irq_enable_bits_wf flags r : regs_wf r -> regs_wf (irq_enable_bits flags r).
Proof.
  intros []. unfold irq_enable_bits, STM32_DMA_CR_HTIE, STM32_DMA_CR_TCIE.
  destruct (negb _), (negb _); split; cbn [cr fcr set_ch_cr]; auto with u32.
Qed.

(** What a call may do: change the channel's private record, its registers, or
    clear its flags and change its registers. *)
Inductive touches (ch : Z) (st : dmac) : dmac -> Prop :=
  | touch_none : touches ch st st
  | touch_priv p : (irq_handler p = None -> irq_data p = 0) -> touches ch st (set_priv st ch p)
  | touch_regs r : regs_wf r -> touches ch st (set_ch_regs st ch r)
  | touch_both p r : (irq_handler p = None -> irq_data p = 0) -> regs_wf r ->
      touches ch st (set_ch_regs (set_priv st ch p) ch r)
  | touch_two_priv p p' : (irq_handler p = None -> irq_data p = 0) ->
      (irq_handler p' = None -> irq_data p' = 0) ->
      touches ch st (set_priv (set_priv st ch p) ch p')
  | touch_clear r : regs_wf r ->
      touches ch st (set_ch_regs (stm32_dma_clear_irq_flags w1c ch irqf_all st) ch r).

Lemma touches_frame ch st st' :
  dmac_wf st -> 0 <= ch < 16 -> touches ch st st' ->
  dmac_wf st' /\ forall ch', 0 <= ch' < 16 -> ch' <> ch -> view st' ch' = view st ch'.
Proof.
  intros Hw Hc Ht.
  assert (Hne : forall ch' : Z, ch' <> ch -> (ch =? ch') = false) by (intros; apply Z.eqb_neq; lia).
  destruct Ht as [|p Hp|r Hr|p r Hp Hr|p p' Hp Hp'|r Hr];
    (split; [eauto 6 using wf_set_priv, wf_set_ch_regs, wf_clear|intros ch' Hc' Hch]);
    pose proof (wf_set_priv st Hw ch) as Hwp; pose proof (wf_clear st ch irqf_all Hw) as Hwc.
  - reflexivity.
  - rewrite view_set_priv, (Hne ch' Hch) by auto. reflexivity.
  - rewrite view_set_ch_regs, (Hne ch' Hch) by auto. reflexivity.
  - rewrite view_set_ch_regs, (Hne ch' Hch) by auto.
    pose proof (view_set_priv st Hw ch ch' p Hc Hc') as E. rewrite (Hne ch' Hch) in E. exact E.
  - rewrite view_set_priv, (Hne ch' Hch) by auto.
    pose proof (view_set_priv st Hw ch ch' p Hc Hc') as E. rewrite (Hne ch' Hch) in E. exact E.
  - rewrite view_set_ch_regs, (Hne ch' Hch) by auto. unfold view.
    now rewrite priv_clear, regs_clear, flags_clear_other by auto.
Qed.

(** A closed register constant. *)
#[local] Hint Extern 5 (fits 32 _) => (vm_compute; split; [discriminate|reflexivity]) : u32.

Ltac solve_regs_wf :=
  match goal with
  | H : dmac_wf ?st |- context [dma_ch_regs ?st ?ch] =>
      let Hr := fresh in pose proof (wf_regs st H ch) as Hr; destruct Hr;
      split; cbn [cr fcr set_ch_cr]; auto 12 with u32
  end.

Lemma exec_touches o st rv st' :
  dmac_wf st -> op_handler_ok o -> dma_exec w1c o st = (rv, st') ->
  st' = st \/ (0 <= op_ch o < 16 /\ touches (op_ch o) st st').
Proof.
  intros Hw Ho. destruct o; cbn [dma_exec op_ch op_handler_ok] in *; intros E.
  1, 2: unfold stm32_dma_ch_get, stm32_dma_ch_put in E;
    destruct (stm32_dma_ch_valid ch) eqn:Hv; cbn [negb] in E; [|injection E as _ <-; now left];
    apply valid_range in Hv; injection E as _ <-; right; split; [assumption|];
    apply touch_priv; cbn; apply wf_null; assumption.
  3: { unfold stm32_dma_ch_request_irq in E.
    destruct (stm32_dma_ch_valid ch) eqn:Hv; cbn [negb] in E; [|injection E as _ <-; now left].
    apply valid_range in Hv. destruct (in_use (priv st ch)); cbn [negb] in E; [|injection E as _ <-; now left].
    destruct (bool_decide _); [injection E as _ <-; now left|]. right. split; [assumption|].
    destruct (negb _); injection E as _ <-.
    - apply touch_two_priv; [cbn; congruence|reflexivity].
    - apply touch_both; [cbn; congruence|]. apply irq_enable_bits_wf, (wf_regs st Hw). }
  3: { unfold stm32_dma_ch_free_irq in E.
    destruct (stm32_dma_ch_valid ch) eqn:Hv; cbn [negb] in E; [|injection E as _ <-; now left].
    apply valid_range in Hv. destruct (in_use (priv st ch)); cbn [negb] in E; [|injection E as _ <-; now left].
    destruct (negb _); [injection E as _ <-; now left|].
    destruct (irq_handler (priv st ch)); injection E as _ <-; [|now left].
    right. split; [assumption|]. apply touch_both; [reflexivity|].
    change (dma_ch_regs (set_priv _ _ _) ch) with (dma_ch_regs st ch).
    unfold STM32_DMA_CR_TCIE, STM32_DMA_CR_HTIE. solve_regs_wf. }
  all: apply locked_inv in E as [->|(Hc & _ & _ & E)]; [now left|right; split; [assumption|]];
    cbv beta iota zeta in E;
    repeat match type of E with (if ?b then _ else _) = _ => destruct b; try discriminate E end;
    injection E as <-; rewrite ?regs_clear;
    (apply touch_regs || apply touch_clear); unfold STM32_DMA_CR_EN; solve_regs_wf.
Qed.

Lemma dma_channel_frame o st rv st' :
  dmac_wf st -> op_handler_ok o -> dma_exec w1c o st = (rv, st') ->
  dmac_wf st'
  /\ forall ch, 0 <= ch < 16 -> ch <> op_ch o -> view st' ch = view st ch.
Proof.
  intros Hw Ho E. destruct (exec_touches o st rv st' Hw Ho E) as [->|[Hc Ht]]; [auto|].
  now apply touches_frame.
Qed.

(** Channels are isolated: no API call on one channel, accepted or refused,
    changes the owner, the interrupt handler, the registers or the pending
    interrupt flags of another channel, and the driver state stays well formed. *)
Theorem dma_channel_isolation o st rv st' :
  dmac_wf st -> op_handler_ok o -> dma_exec w1c o st = (rv, st') ->
  dmac_wf st'
  /\ forall ch, 0 <= ch < 16 -> ch <> op_ch o -> view st' ch = view st ch.
Proof. apply dma_channel_frame. Qed.

(** The contract of the API's error codes: [Some e] when the call must be
    refused. *)
Definition dma_refusal (o : dma_op) (st : dmac) : option Z :=
  let p := priv st (op_ch o) in
  let busy := if ch_enabled (dma_ch_regs st (op_ch o)) then Some (- EBUSY) else None in
  let args (ok : bool) (k : option Z) := if ok then k else Some (- EINVAL) in
  if negb (stm32_dma_ch_valid (op_ch o)) then Some (- EINVAL)
  else match o with
  | OpGet _ => if in_use p then Some (- EBUSY) else None
  | OpPut _ => if in_use p then None else Some (- EBUSY)
  | _ => if negb (in_use p) then Some (- ENODEV)
    else match o with
    | OpRequestIrq rv ch _ _ _ =>
        if irq_handler p is Some _ then Some (- EEXIST)
        else let e := rv (stm32f2_dma_irq !!! Z.to_nat ch) in
             if e =? 0 then None else Some e
    | OpFreeIrq _ data => args ((irq_data p =? data) && bool_decide (is_Some (irq_handler p))) None
    | OpInit _ dir fpctrl pl dbm circ =>
        args ((dir <=? 2) && (fpctrl <=? 1) && (pl <=? 3) && (dbm <=? 1) && (circ <=? 1)) busy
    | OpInitFifo _ burst threshold => args ((burst <=? 1) && (threshold <=? 3)) busy
    | OpSetPeriph _ _ inc bw burst | OpSetMemory _ _ inc bw burst =>
        args ((inc <=? 1) && (bw <=? 3) && (burst <=? 3)) busy
    | OpSetNitems _ _ => busy
    | _ => None
    end
  end.

Lemma set_priv_id st ch : dmac_wf st -> 0 <= ch < 16 -> set_priv st ch (priv st ch) = st.
Proof.
  intros [] Hc. destruct st as [l d1 d2]. unfold set_priv, priv in *. cbn in *. f_equal.
  apply list_insert_id, list_lookup_lookup_total_lt. lia.
Qed.

Lemma set_priv_twice st ch p p' : set_priv (set_priv st ch p) ch p' = set_priv st ch p'.
Proof. unfold set_priv. cbn [dma_ch STM32_DMA1 STM32_DMA2]. now rewrite list_insert_insert_eq. Qed.

Lemma priv_eta p : {| in_use := in_use p; irq_handler := irq_handler p; irq_data := irq_data p |} = p.
Proof. now destruct p. Qed.

Lemma locked_spec ch body st :
  0 <= ch < 16 -> in_use (priv st ch) = true ->
  dmaapi_locked ch body st = match body st with inl rv => (rv, st) | inr st' => (0, st') end.
Proof.
  intros Hc Hu. unfold dmaapi_locked. rewrite (proj2 (valid_range ch) Hc), Hu. reflexivity.
Qed.

Lemma ltb_leb x y : (x <? y) = negb (y <=? x).
Proof. zcrush. Qed.

Ltac unfold_api :=
  unfold stm32_dma_ch_get, stm32_dma_ch_put, stm32_dma_ch_request_irq, stm32_dma_ch_free_irq,
    stm32_dma_ch_enable, stm32_dma_ch_disable, __stm32_dma_ch_enable, stm32_dma_ch_init,
    stm32_dma_ch_init_fifo, stm32_dma_ch_set_periph, stm32_dma_ch_set_memory,
    stm32_dma_ch_set_nitems.

Lemma exec_invalid o st :
  stm32_dma_ch_valid (op_ch o) = false -> dma_exec w1c o st = (- EINVAL, st).
Proof.
  destruct o; cbn [op_ch dma_exec]; intros Hv; unfold_api; unfold dmaapi_locked; now rewrite Hv.
Qed.

Lemma request_irq_unchanged rv ch h flags data st :
  dmac_wf st -> 0 <= ch < 16 -> in_use (priv st ch) = true -> irq_handler (priv st ch) = None ->
  rv (stm32f2_dma_irq !!! Z.to_nat ch) <> 0 ->
  stm32_dma_ch_request_irq rv ch h flags data st = (rv (stm32f2_dma_irq !!! Z.to_nat ch), st).
Proof.
  intros Hw Hc Hu Hh He. unfold stm32_dma_ch_request_irq.
  rewrite (proj2 (valid_range ch) Hc), Hu, Hh, bool_decide_false by (now intros []).
  apply Z.eqb_neq in He. rewrite He. cbn [negb]. f_equal. rewrite set_priv_twice.
  rewrite <- (set_priv_id st ch Hw Hc) at 2. f_equal.
  rewrite <- (priv_eta (priv st ch)), Hu, Hh, (wf_null st Hw ch Hh). reflexivity.
Qed.

(** Error behaviour of the whole API: a call that must be refused (channel
    number out of range, channel not acquired, already acquired, already having a
    handler, wrong [data], argument out of range, channel running) returns exactly
    the documented error and changes nothing at all; every other call returns 0. *)
Theorem dma_refused_unchanged o st :
  dmac_wf st ->
  match dma_refusal o st with
  | Some e => dma_exec w1c o st = (e, st)
  | None => (dma_exec w1c o st).1 = 0
  end.
Proof.
  intros Hw. unfold dma_refusal. destruct (stm32_dma_ch_valid (op_ch o)) eqn:Hv; cbn [negb].
  2: { now rewrite exec_invalid. }
  pose proof Hv as Hc. apply valid_range in Hc.
  destruct (in_use (priv st (op_ch o))) eqn:Hu; destruct o; cbn [op_ch] in *; cbn [dma_exec negb].
  12-22: unfold_api; unfold dmaapi_locked; rewrite Hv, Hu; try reflexivity; cbn [negb];
    rewrite <- Hu, priv_eta; f_equal; now apply set_priv_id.
  7-10: unfold_api; rewrite locked_spec, !ltb_leb, <- !negb_andb by assumption;
    destruct (_ && _); [|reflexivity]; cbn [negb]; now destruct (ch_enabled _).
  - unfold_api. rewrite Hv, Hu. cbn [negb]. f_equal. rewrite <- Hu, priv_eta. now apply set_priv_id.
  - unfold_api. now rewrite Hv, Hu.
  - unfold_api. now rewrite locked_spec.
  - unfold_api. now rewrite locked_spec.
  - destruct (irq_handler (priv st ch)) as [h|] eqn:Hh; [unfold_api; now rewrite Hv, Hu, Hh|].
    destruct (Z.eqb_spec (rv (stm32f2_dma_irq !!! Z.to_nat ch)) 0) as [E|].
    + unfold_api. now rewrite Hv, Hu, Hh, E.
    + now apply request_irq_unchanged.
  - unfold_api. rewrite Hv, Hu. cbn [negb].
    destruct (irq_data (priv st ch) =? data); cbn [negb andb]; [|reflexivity].
    destruct (irq_handler (priv st ch)); reflexivity.
  - unfold_api. rewrite locked_spec by assumption. cbv zeta. now destruct (ch_enabled _).
Qed.

(** ** Ownership *)

(** A sequence of calls, by any clients, and the answer each got. *)
Fixpoint dma_run (os : list dma_op) (st : dmac) : list (dma_op * Z) * dmac :=
  match os with
  | [] => ([], st)
  | o :: os =>
      let (rv, st) := dma_exec w1c o st in
      let (tr, st) := dma_run os st in ((o, rv) :: tr, st)
  end.

(** Successful acquisitions of [ch] minus successful releases. *)
Definition holds_delta (ch : Z) (x : dma_op * Z) : Z :=
  match x with
  | (OpGet c, 0) => if c =? ch then 1 else 0
  | (OpPut c, 0) => if c =? ch then -1 else 0
  | _ => 0
  end.
Definition holders (ch : Z) (tr : list (dma_op * Z)) : Z := foldr (fun x n => holds_delta ch x + n) 0 tr.

Definition owned (st : dmac) (ch : Z) : Z := Z.b2z (in_use (priv st ch)).

Lemma exec_owned_other o st rv st' :
  dmac_wf st -> (forall c, o <> OpGet c) -> (forall c, o <> OpPut c) ->
  dma_exec w1c o st = (rv, st') -> 0 <= op_ch o < 16 ->
  in_use (priv st' (op_ch o)) = in_use (priv st (op_ch o)).
Proof.
  intros Hw Hg Hp E Hc. destruct o; cbn [op_ch dma_exec] in *;
    try (now destruct (Hg ch)); try (now destruct (Hp ch)).
  3: { revert E. unfold_api. rewrite (proj2 (valid_range ch) Hc). cbn [negb].
    destruct (in_use (priv st ch)) eqn:Hu; cbn [negb]; [|now intros [= _ <-]].
    destruct (bool_decide _); [now intros [= _ <-]|].
    destruct (negb _); intros [= _ <-]; rewrite ?set_priv_twice, ?priv_set_ch_regs;
      rewrite priv_set_priv, Z.eqb_refl by assumption; reflexivity. }
  3: { revert E. unfold_api. rewrite (proj2 (valid_range ch) Hc). cbn [negb].
    destruct (in_use (priv st ch)) eqn:Hu; cbn [negb]; [|now intros [= _ <-]].
    destruct (negb _); [now intros [= _ <-]|]. destruct (irq_handler _); intros [= _ <-]; [|assumption].
    rewrite priv_set_ch_regs, priv_set_priv, Z.eqb_refl by assumption. reflexivity. }
  all: apply locked_inv in E as [->|(_ & _ & _ & E)]; [reflexivity|]; cbv beta iota zeta in E;
    repeat match type of E with (if ?b then _ else _) = _ => destruct b; try discriminate E end;
    injection E as <-; now rewrite priv_set_ch_regs, ?priv_clear.
Qed.

Lemma exec_owned o st rv st' ch :
  dmac_wf st -> op_handler_ok o -> 0 <= ch < 16 -> dma_exec w1c o st = (rv, st') ->
  owned st' ch = owned st ch + holds_delta ch (o, rv).
Proof.
  intros Hw Ho Hc E. destruct (dma_channel_frame o st rv st' Hw Ho E) as [_ Hf].
  destruct (Z.eq_dec ch (op_ch o)) as [Heq|Hne].
  2: { unfold owned. specialize (Hf ch Hc Hne). unfold view in Hf. injection Hf as -> _ _.
    destruct o; simpl in *; destruct rv; try lia; destruct (Z.eqb_spec ch0 ch); lia. }
  clear Hf. unfold owned.
  destruct o; try (rewrite Heq, (exec_owned_other _ st rv st' Hw) by (assumption || congruence ||
    now rewrite <- Heq); destruct rv; simpl; lia); cbn [op_ch dma_exec] in *; subst ch0;
    unfold stm32_dma_ch_get, stm32_dma_ch_put in E; rewrite (proj2 (valid_range ch) Hc) in E;
    cbn [negb] in E; injection E as <- <-; rewrite priv_set_priv, Z.eqb_refl by assumption;
    destruct (in_use (priv st ch)); simpl; rewrite ?Z.eqb_refl; reflexivity.
Qed.

(** C11: Exclusive access: over any sequence of API calls from any clients, the
    successful acquisitions of a channel minus its successful releases is the
    change of its [in_use] flag, so that from boot at most one client holds a
    channel and a second acquisition succeeds only after a release. *)
Theorem dma_exclusive os st tr st' ch :
  dmac_wf st -> Forall op_handler_ok os -> 0 <= ch < 16 -> dma_run os st = (tr, st') ->
  holders ch tr = owned st' ch - owned st ch
  /\ (in_use (priv st ch) = false -> 0 <= holders ch tr <= 1).
Proof.
  intros Hw Ho Hc E.
  assert (H : holders ch tr = owned st' ch - owned st ch).
  { clear -Hw1c Hw Ho Hc E. revert st tr Hw E. induction Ho as [|o os Ho _ IH]; intros st tr Hw; simpl.
    - intros [= <- <-]. simpl. lia.
    - destruct (dma_exec w1c o st) as [rv s1] eqn:E1. destruct (dma_run os s1) as [tr1 s2] eqn:E2.
      intros [= <- <-].
      change (holders ch ((o, rv) :: tr1)) with (holds_delta ch (o, rv) + holders ch tr1).
      destruct (dma_channel_frame o st rv s1 Hw Ho E1) as [Hw1 _].
      rewrite (IH s1 tr1 Hw1 E2), (exec_owned o st rv s1 ch Hw Ho Hc E1). lia. }
  split; [assumption|]. intros Hu. rewrite H. unfold owned. rewrite Hu. destruct (in_use (priv st' ch)); simpl; lia.
Qed.

(** ** Configuring a channel *)

(** The calls a client makes on an acquired, idle channel. *)
Definition setup_calls ch dir fpctrl pl dbm circ pinc psize pburst paddr minc msize mburst maddr
    burst threshold nitems : list dma_op :=
  [OpInit ch dir fpctrl pl dbm circ; OpInitFifo ch burst threshold;
   OpSetPeriph ch paddr pinc psize pburst; OpSetMemory ch maddr minc msize mburst;
   OpSetNitems ch nitems; OpEnable ch].

Lemma run_cons o os st rv st1 tr st2 :
  dma_exec w1c o st = (rv, st1) -> dma_run os st1 = (tr, st2) ->
  dma_run (o :: os) st = ((o, rv) :: tr, st2).
Proof. intros E1 E2. simpl. now rewrite E1, E2. Qed.

(** An owned, idle channel whose registers are [r]. *)
Record ready (st : dmac) (ch : Z) (r : stm32_dma_ch_regs) : Prop := {
  ready_wf : dmac_wf st;
  ready_owned : in_use (priv st ch) = true;
  ready_regs : dma_ch_regs st ch = r;
  ready_idle : field (cr r) 0 1 = 0
}.

Lemma ready_enabled st ch r : ready st ch r -> ch_enabled (dma_ch_regs st ch) = false.
Proof.
  intros [_ _ <- Hi]. unfold ch_enabled. change STM32_DMA_CR_EN with (BIT 0).
  change (negb _) with (bit_set (cr (dma_ch_regs st ch)) 0). rewrite bit_set_testbit by lia.
  rewrite field_1 in Hi by lia. now destruct (Z.testbit _ 0).
Qed.

(** One configuration call on such a channel. *)
Lemma ready_step ch body st r r' :
  0 <= ch < 16 -> ready st ch r -> body st = inr (set_ch_regs st ch r') ->
  regs_wf r' -> field (cr r') 0 1 = 0 ->
  dmaapi_locked ch body st = (0, set_ch_regs st ch r') /\ ready (set_ch_regs st ch r') ch r'.
Proof.
  intros Hc [Hw Hu _ _] Hb Hr Hi. rewrite locked_spec, Hb by assumption. split; [reflexivity|].
  split; [now apply wf_set_ch_regs| | |assumption].
  - now rewrite priv_set_ch_regs.
  - now rewrite regs_set_ch_regs, Z.eqb_refl by assumption.
Qed.

Section Setup.

Context (ch dir fpctrl pl dbm circ pinc psize pburst paddr minc msize mburst maddr
         burst threshold nitems : Z).
Hypothesis Hch : 0 <= ch < 16.
Hypothesis Hdir : 0 <= dir <= 2.
Hypothesis Hfp : fits 1 fpctrl.
Hypothesis Hpl : fits 2 pl.
Hypothesis Hdbm : fits 1 dbm.
Hypothesis Hcirc : fits 1 circ.
Hypothesis Hpinc : fits 1 pinc.
Hypothesis Hpsize : fits 2 psize.
Hypothesis Hpburst : fits 2 pburst.
Hypothesis Hminc : fits 1 minc.
Hypothesis Hmsize : fits 2 msize.
Hypothesis Hmburst : fits 2 mburst.
Hypothesis Hburst : fits 1 burst.
Hypothesis Hthr : fits 2 threshold.

Lemma Hdir2 : fits 2 dir.
Proof. unfold fits. lia. Qed.

(** The register contents after the five configuration calls. *)
Definition cr_init (c : Z) : Z :=
  (c .& .~ init_clear_msk) .| (dir .<< 6) .| (fpctrl .<< 5) .| (pl .<< 16) .| (dbm .<< 18)
  .| (circ .<< 8).
Definition cr_periph (c : Z) : Z :=
  (c .& .~ (STM32_DMA_CR_PINC .| STM32_DMA_CR_PSIZE_MSK .| STM32_DMA_CR_PBURST_MSK))
  .| (pinc .<< 9) .| (psize .<< 11) .| (pburst .<< 21).
Definition cr_memory (c : Z) : Z :=
  (c .& .~ (STM32_DMA_CR_MINC .| STM32_DMA_CR_MSIZE_MSK .| STM32_DMA_CR_MBURST_MSK))
  .| (minc .<< 10) .| (msize .<< 13) .| (mburst .<< 23).
Definition fcr_setup (f : Z) : Z :=
  (f .& .~ (STM32_DMA_FCR_DMDIS_MSK .| STM32_DMA_FCR_FTH_MSK)) .| (burst .<< 2) .| (threshold .<< 0).
Lemma field_cr_init_idle c : field c 0 1 = 0 -> field (cr_init c) 0 1 = 0.
Proof. pose proof Hdir2. intros Hz. unfold cr_init. now field_expr. Qed.

Lemma field_cr_periph_idle c : field c 0 1 = 0 -> field (cr_periph c) 0 1 = 0.
Proof. intros Hz. unfold cr_periph. now field_expr. Qed.

Lemma field_cr_memory_idle c : field c 0 1 = 0 -> field (cr_memory c) 0 1 = 0.
Proof. intros Hz. unfold cr_memory. now field_expr. Qed.

Lemma setup_fields c f :
  let c' := cr_memory (cr_periph (cr_init c)) in
  field c' 6 2 = dir /\ field c' 5 1 = fpctrl /\ field c' 16 2 = pl /\ field c' 18 1 = dbm
  /\ field c' 8 1 = circ /\ field c' 9 1 = pinc /\ field c' 11 2 = psize /\ field c' 21 2 = pburst
  /\ field c' 10 1 = minc /\ field c' 13 2 = msize /\ field c' 23 2 = mburst
  /\ field c' 15 1 = 0 /\ field c' 19 1 = 0
  /\ field c' 3 2 = field c 3 2 /\ field c' 25 3 = field c 25 3
  /\ field (fcr_setup f) 2 1 = burst /\ field (fcr_setup f) 0 2 = threshold.
Proof.
  pose proof Hdir2. unfold cr_memory, cr_periph, cr_init, fcr_setup. cbv zeta.
  repeat split; field_expr; reflexivity.
Qed.

Lemma args_ok :
  (2 <? dir) || (1 <? fpctrl) || (3 <? pl) || (1 <? dbm) || (1 <? circ) = false
  /\ (1 <? burst) || (3 <? threshold) = false
  /\ (1 <? pinc) || (3 <? psize) || (3 <? pburst) = false
  /\ (1 <? minc) || (3 <? msize) || (3 <? mburst) = false.
Proof.
  unfold fits in *. change (2 ^ 1) with 2 in *. change (2 ^ 2) with 4 in *.
  repeat split; rewrite !orb_false_iff, !Z.ltb_ge; lia.
Qed.

(** A configuration call: the arguments pass, the channel is idle. *)
Ltac config_call R :=
  cbn [dma_exec]; unfold_api; apply (ready_step ch _ _ _ _ Hch R);
  [ let A1 := fresh in let A2 := fresh in let A3 := fresh in let A4 := fresh in
    destruct args_ok as (A1 & A2 & A3 & A4); rewrite ?A1, ?A2, ?A3, ?A4, (ready_enabled _ _ _ R);
    cbv zeta; rewrite (ready_regs _ _ _ R); reflexivity
  | let W := fresh in pose proof (wf_regs _ (ready_wf _ _ _ R) ch) as W;
    rewrite (ready_regs _ _ _ R) in W; destruct W;
    unfold cr_init, cr_periph, cr_memory; split; cbn [cr fcr]; auto 12 with u32
  | cbn [cr]; first [apply field_cr_init_idle | apply field_cr_periph_idle
    | apply field_cr_memory_idle | idtac]; assumption ].

Lemma exec_init st r : ready st ch r ->
  let r' := {| cr := cr_init (cr r); ndtr := 0; par := 0; m0ar := 0; m1ar := 0; fcr := 0 |} in
  dma_exec w1c (OpInit ch dir fpctrl pl dbm circ) st = (0, set_ch_regs st ch r')
  /\ ready (set_ch_regs st ch r') ch r'.
Proof. intros R r'. unfold r'. pose proof (ready_idle _ _ _ R). config_call R. Qed.

Lemma exec_init_fifo st r : ready st ch r ->
  let r' := {| cr := cr r; ndtr := ndtr r; par := par r; m0ar := m0ar r; m1ar := m1ar r;
               fcr := fcr_setup (fcr r) |} in
  dma_exec w1c (OpInitFifo ch burst threshold) st = (0, set_ch_regs st ch r')
  /\ ready (set_ch_regs st ch r') ch r'.
Proof. intros R r'. unfold r', fcr_setup. pose proof (ready_idle _ _ _ R). config_call R. Qed.

Lemma exec_set_periph st r : ready st ch r ->
  let r' := {| cr := cr_periph (cr r); ndtr := ndtr r; par := paddr; m0ar := m0ar r; m1ar := m1ar r;
               fcr := fcr r |} in
  dma_exec w1c (OpSetPeriph ch paddr pinc psize pburst) st = (0, set_ch_regs st ch r')
  /\ ready (set_ch_regs st ch r') ch r'.
Proof. intros R r'. unfold r'. pose proof (ready_idle _ _ _ R). config_call R. Qed.

Lemma exec_set_memory st r : ready st ch r ->
  let r' := {| cr := cr_memory (cr r); ndtr := ndtr r; par := par r; m0ar := maddr; m1ar := m1ar r;
               fcr := fcr r |} in
  dma_exec w1c (OpSetMemory ch maddr minc msize mburst) st = (0, set_ch_regs st ch r')
  /\ ready (set_ch_regs st ch r') ch r'.
Proof. intros R r'. unfold r'. pose proof (ready_idle _ _ _ R). config_call R. Qed.

Lemma exec_set_nitems st r : ready st ch r ->
  let r' := {| cr := cr r; ndtr := nitems; par := par r; m0ar := m0ar r; m1ar := m1ar r;
               fcr := fcr r |} in
  dma_exec w1c (OpSetNitems ch nitems) st = (0, set_ch_regs st ch r')
  /\ ready (set_ch_regs st ch r') ch r'.
Proof. intros R r'. unfold r'. pose proof (ready_idle _ _ _ R). config_call R. Qed.

(** Enabling sets EN, after clearing the channel's interrupt flags. *)
Lemma exec_enable st r : ready st ch r ->
  exists st', dma_exec w1c (OpEnable ch) st = (0, st')
  /\ dma_ch_regs st' ch = set_ch_cr r (cr r .| STM32_DMA_CR_EN)
  /\ ch_flags st' ch .& irqf_all = 0.
Proof.
  intros R. pose proof R as [Hw Hu Hr _]. cbn [dma_exec]. unfold_api. rewrite locked_spec by assumption.
  eexists. split; [reflexivity|]. cbv zeta.
  pose proof (wf_clear st ch irqf_all Hw) as Hw'.
  rewrite regs_set_ch_regs, Z.eqb_refl, regs_clear, Hr by assumption. split; [reflexivity|].
  unfold ch_flags. rewrite isr_set_ch_regs. now apply flags_clear_same.
Qed.

(** The configuration protocol of an acquired, idle channel
    ([stm32_dma_ch_init], [_init_fifo], [_set_periph], [_set_memory],
    [_set_nitems], [_enable]): all six calls succeed and at the end every field of
    the stream's registers holds the argument it was given, PINCOS and CT are
    clear, the interrupt enables and the channel selection of before are kept, the
    stream is enabled and its pending interrupt flags are clear. *)
Theorem dma_setup_programs st :
  dmac_wf st -> in_use (priv st ch) = true -> Z.testbit (cr (dma_ch_regs st ch)) 0 = false ->
  exists tr st',
    dma_run (setup_calls ch dir fpctrl pl dbm circ pinc psize pburst paddr minc msize mburst maddr
               burst threshold nitems) st = (tr, st')
    /\ Forall (fun x => x.2 = 0) tr
    /\ let r := dma_ch_regs st' ch in
       let c := cr r in
       field c 6 2 = dir /\ field c 5 1 = fpctrl /\ field c 16 2 = pl /\ field c 18 1 = dbm
       /\ field c 8 1 = circ /\ field c 9 1 = pinc /\ field c 11 2 = psize
       /\ field c 21 2 = pburst /\ field c 10 1 = minc /\ field c 13 2 = msize
       /\ field c 23 2 = mburst /\ field c 15 1 = 0 /\ field c 19 1 = 0
       /\ field c 3 2 = field (cr (dma_ch_regs st ch)) 3 2
       /\ field c 25 3 = field (cr (dma_ch_regs st ch)) 25 3
       /\ Z.testbit c 0 = true
       /\ par r = paddr /\ m0ar r = maddr /\ m1ar r = 0 /\ ndtr r = nitems
       /\ field (fcr r) 2 1 = burst /\ field (fcr r) 0 2 = threshold
       /\ ch_flags st' ch .& irqf_all = 0.
Proof.
  intros Hw Hu Hi.
  assert (R0 : ready st ch (dma_ch_regs st ch))
    by (split; auto; rewrite field_1, Hi by lia; reflexivity).
  destruct (exec_init st _ R0) as [E1 R1].
  destruct (exec_init_fifo _ _ R1) as [E2 R2].
  destruct (exec_set_periph _ _ R2) as [E3 R3].
  destruct (exec_set_memory _ _ R3) as [E4 R4].
  destruct (exec_set_nitems _ _ R4) as [E5 R5].
  destruct (exec_enable _ _ R5) as (st' & E6 & Hr & Hf).
  eexists _, st'. unfold setup_calls. split.
  { repeat (eapply run_cons; [eassumption|]). reflexivity. }
  split; [repeat constructor|]. cbv zeta. rewrite Hr. cbn [cr fcr ndtr par m0ar m1ar set_ch_cr].
  destruct (setup_fields (cr (dma_ch_regs st ch)) 0) as
    (F1 & F2 & F3 & F4 & F5 & F6 & F7 & F8 & F9 & F10 & F11 & F12 & F13 & F14 & F15 & F16 & F17).
  unfold STM32_DMA_CR_EN. assert (fits 1 1) by (vm_compute; split; [discriminate|reflexivity]).
  rewrite !field_lor by lia. rewrite F1, F2, F3, F4, F5, F6, F7, F8, F9, F10, F11, F12, F13, F14, F15.
  change (1 .<< 0) with (BIT 0). rewrite set_bit_spec by lia. cbn [Z.eqb orb].
  repeat match goal with |- context [field (BIT 0) ?s ?w] => change (field (BIT 0) s w) with 0 end.
  rewrite !Z.lor_0_r. repeat split; assumption.
Qed.

End Setup.

(** ** Interrupt delivery *)

(** The driver state after a successful [request_irq]. *)
Lemma request_irq_ok rv ch h flags data st :
  dmac_wf st -> 0 <= ch < 16 -> in_use (priv st ch) = true -> irq_handler (priv st ch) = None ->
  rv (stm32f2_dma_irq !!! Z.to_nat ch) = 0 ->
  exists st', stm32_dma_ch_request_irq rv ch (Some h) flags data st = (0, st')
  /\ dmac_wf st'
  /\ priv st' ch = {| in_use := true; irq_handler := Some h; irq_data := data |}
  /\ dma_ch_regs st' ch = irq_enable_bits flags (dma_ch_regs st ch).
Proof.
  intros Hw Hc Hu Hh He. unfold stm32_dma_ch_request_irq.
  rewrite (proj2 (valid_range ch) Hc), Hu, Hh, He, bool_decide_false by (now intros []). cbn [negb Z.eqb].
  eexists. split; [reflexivity|].
  assert (Hw' : dmac_wf (set_priv st ch {| in_use := true; irq_handler := Some h; irq_data := data |}))
    by (apply wf_set_priv; [assumption..|discriminate]).
  split; [apply wf_set_ch_regs; [assumption..|]; apply irq_enable_bits_wf, (wf_regs st Hw)|].
  rewrite priv_set_ch_regs, priv_set_priv, regs_set_ch_regs, Z.eqb_refl by assumption. split; reflexivity.
Qed.

Lemma irq_enable_bits_spec flags r :
  is_u32 (cr r) ->
  Z.testbit (cr (irq_enable_bits flags r)) 4 = Z.testbit flags 0
  /\ Z.testbit (cr (irq_enable_bits flags r)) 3 = Z.testbit flags 1
  /\ forall i, i <> 3 -> i <> 4 -> Z.testbit (cr (irq_enable_bits flags r)) i = Z.testbit (cr r) i.
Proof.
  intros Hr. unfold irq_enable_bits.
  change (negb ((flags .& STM32_DMA_INTCOMPLETE) =? 0)) with (bit_set flags 0).
  change (negb ((flags .& STM32_DMA_INTHALF) =? 0)) with (bit_set flags 1).
  rewrite !bit_set_testbit by lia.
  change STM32_DMA_CR_TCIE with (BIT 4). change STM32_DMA_CR_HTIE with (BIT 3).
  destruct (Z.testbit flags 0), (Z.testbit flags 1); cbn [cr set_ch_cr];
    (split; [|split]; [..|intros i H3 H4]);
    rewrite ?clear_bit_spec, ?set_bit_spec, ?clear_bit_spec, ?set_bit_spec by (lia || auto with u32);
    zcrush.
Qed.

(** Interrupt delivery: on an acquired channel without a handler,
    [stm32_dma_ch_request_irq] enables exactly the requested interrupts
    (completion: TCIE, half: HTIE) and changes no other configuration bit, and an
    interrupt then runs that handler with the channel number and the registered
    data and ends with all of the channel's flags acknowledged. *)
Theorem dma_irq_delivery rv call_handler ch h flags data st :
  dmac_wf st -> 0 <= ch < 16 -> in_use (priv st ch) = true -> irq_handler (priv st ch) = None ->
  rv (stm32f2_dma_irq !!! Z.to_nat ch) = 0 ->
  exists st', stm32_dma_ch_request_irq rv ch (Some h) flags data st = (0, st')
  /\ Z.testbit (cr (dma_ch_regs st' ch)) 4 = Z.testbit flags 0
  /\ Z.testbit (cr (dma_ch_regs st' ch)) 3 = Z.testbit flags 1
  /\ (forall i, i <> 3 -> i <> 4 ->
        Z.testbit (cr (dma_ch_regs st' ch)) i = Z.testbit (cr (dma_ch_regs st ch)) i)
  /\ exists st'', stm32_dma_isr w1c call_handler ch st' = Ok st''
     /\ st'' = stm32_dma_clear_irq_flags w1c ch irqf_all (call_handler h ch 0 data st')
     /\ (dmac_wf (call_handler h ch 0 data st') -> ch_flags st'' ch .& irqf_all = 0).
Proof.
  intros Hw Hc Hu Hh He.
  destruct (request_irq_ok rv ch h flags data st Hw Hc Hu Hh He) as (st' & E & Hw' & Hp & Hr).
  exists st'. split; [exact E|]. rewrite Hr.
  destruct (irq_enable_bits_spec flags (dma_ch_regs st ch) (cr_u32 _ (wf_regs st Hw ch))) as (B1 & B2 & B3).
  repeat (split; [assumption|]). unfold stm32_dma_isr.
  rewrite (list_lookup_lookup_total_lt (dma_ch st')) by (rewrite (wf_priv st' Hw'); lia).
  change (dma_ch st' !!! Z.to_nat ch) with (priv st' ch). rewrite Hp. cbn [irq_handler irq_data].
  eexists. split; [reflexivity|]. split; [reflexivity|]. intros. now apply flags_clear_same.
Qed.

(** Releasing a channel does not remove its interrupt handler: after
    [stm32_dma_ch_put] the next client can acquire the channel but its
    [stm32_dma_ch_request_irq] is refused with -EEXIST, and an interrupt still runs
    the previous owner's handler. *)
Theorem dma_put_keeps_handler rv call_handler ch h h' flags data st :
  dmac_wf st -> 0 <= ch < 16 -> in_use (priv st ch) = true -> irq_handler (priv st ch) = Some h ->
  exists st1 st2,
    stm32_dma_ch_put ch st = (0, st1) /\ stm32_dma_ch_get ch st1 = (0, st2)
    /\ stm32_dma_ch_request_irq rv ch (Some h') flags data st2 = (- EEXIST, st2)
    /\ stm32_dma_isr w1c call_handler ch st1
        = Ok (stm32_dma_clear_irq_flags w1c ch irqf_all
                (call_handler h ch 0 (irq_data (priv st ch)) st1)).
Proof.
  intros Hw Hc Hu Hh. pose proof (proj2 (valid_range ch) Hc) as Hv.
  unfold stm32_dma_ch_put, stm32_dma_ch_get, stm32_dma_ch_request_irq. rewrite Hv, Hu. cbn [negb].
  assert (Hw1 : forall b, dmac_wf (set_priv st ch {| in_use := b; irq_handler := irq_handler (priv st ch);
      irq_data := irq_data (priv st ch) |})) by (intros; apply wf_set_priv; [assumption..|]; cbn; rewrite Hh; discriminate).
  do 2 eexists. split; [reflexivity|]. rewrite priv_set_priv, Z.eqb_refl by assumption. cbn [in_use irq_handler irq_data].
  split; [reflexivity|]. rewrite set_priv_twice, priv_set_priv, Z.eqb_refl, Hh by assumption.
  cbn [in_use irq_handler irq_data negb]. split; [reflexivity|]. unfold stm32_dma_isr.
  rewrite (list_lookup_lookup_total_lt (dma_ch _)) by (rewrite <- Hh, (wf_priv _ (Hw1 false)); lia).
  change (dma_ch ?x !!! Z.to_nat ch) with (priv x ch).
  now rewrite priv_set_priv, Z.eqb_refl by assumption.
Qed.

End Spec.

(** ** Witnesses *)

(** Boot: no owner, all registers zero, some interrupt flags pending. *)
Definition dmac_boot : dmac := {|
  dma_ch := dma_ch_bss;
  STM32_DMA1 := {| lisr := 0x0F7D0F7D; hisr := 0x0F7D0F7D; s := replicate 8 inhabitant |};
  STM32_DMA2 := {| lisr := 0x0F7D0F7D; hisr := 0; s := replicate 8 inhabitant |} |}.

Lemma lookup_total_replicate_inhabitant {A} `{Inhabited A} n i :
  replicate n inhabitant !!! i = (inhabitant : A).
Proof.
  rewrite list_lookup_total_alt. destruct (decide (i < n)%nat).
  - now rewrite lookup_replicate_2.
  - now rewrite lookup_ge_None_2 by (rewrite length_replicate; lia).
Qed.

Lemma dmac_boot_wf : dmac_wf dmac_boot.
Proof.
  split; try reflexivity.
  - intros ch. unfold isr_of, dma_regs, dmac_boot. cbn.
    destruct (ch <? _), (negb _); vm_compute; split; (discriminate || reflexivity).
  - intros ch. unfold dma_ch_regs, dma_regs, dmac_boot, STM32_DMA1, STM32_DMA2, s.
    destruct (ch <? _); rewrite lookup_total_replicate_inhabitant; split; vm_compute; split; (discriminate || reflexivity).
  - intros ch _. unfold priv, dmac_boot, dma_ch, dma_ch_bss.
    now rewrite lookup_total_replicate_inhabitant.
Qed.

(** The boot state after channel 9 was acquired. *)
Definition dmac_owned : dmac := (stm32_dma_ch_get 9 dmac_boot).2.

Lemma dmac_owned_wf : dmac_wf dmac_owned.
Proof.
  apply (wf_set_priv dmac_boot dmac_boot_wf 9); [lia|]. intros _. apply (wf_null _ dmac_boot_wf).
  reflexivity.
Qed.

Lemma dma_channel_isolation_witness :
  view (dma_exec w1c_hw (OpEnable 9) dmac_owned).2 10 = view dmac_owned 10
  /\ view (dma_exec w1c_hw (OpEnable 9) dmac_owned).2 9 <> view dmac_owned 9.
Proof.
  destruct (dma_channel_isolation w1c_hw (OpEnable 9) dmac_owned _ _ dmac_owned_wf I
              (surjective_pairing _)) as [_ H].
  split; [apply H; [lia|discriminate]|]. vm_compute. discriminate.
Defined.

Lemma dma_refused_unchanged_witness :
  dma_exec w1c_hw (OpInit 9 0 0 4 0 0) dmac_owned = (- EINVAL, dmac_owned)
  /\ dma_exec w1c_hw (OpSetNitems 3 100) dmac_owned = (- ENODEV, dmac_owned).
Proof.
  split.
  - apply (dma_refused_unchanged w1c_hw (OpInit 9 0 0 4 0 0) dmac_owned dmac_owned_wf).
  - apply (dma_refused_unchanged w1c_hw (OpSetNitems 3 100) dmac_owned dmac_owned_wf).
Defined.

Lemma dma_exclusive_witness :
  let (tr, st) := dma_run w1c_hw [OpGet 4; OpGet 4; OpPut 4; OpGet 4] dmac_boot in
  map snd tr = [0; - EBUSY; 0; 0] /\ holders 4 tr = owned st 4 - owned dmac_boot 4.
Proof.
  destruct (dma_run w1c_hw [OpGet 4; OpGet 4; OpPut 4; OpGet 4] dmac_boot) as [tr st] eqn:E.
  destruct (dma_exclusive w1c_hw [OpGet 4; OpGet 4; OpPut 4; OpGet 4] _ _ _ 4 dmac_boot_wf
              ltac:(repeat constructor) ltac:(lia) E) as [H _].
  split; [|exact H]. vm_compute in E. injection E as <- _. reflexivity.
Defined.

Lemma dma_setup_programs_witness :
  exists tr st',
    dma_run w1c_hw (setup_calls 9 1 0 3 0 1 0 2 1 0x40011004 1 2 3 0x20001000 1 3 512) dmac_owned
    = (tr, st')
    /\ ndtr (dma_ch_regs st' 9) = 512 /\ field (cr (dma_ch_regs st' 9)) 16 2 = 3
    /\ Z.testbit (cr (dma_ch_regs st' 9)) 0 = true.
Proof.
  destruct (dma_setup_programs w1c_hw 9 1 0 3 0 1 0 2 1 0x40011004 1 2 3 0x20001000
              1 3 512 ltac:(lia) ltac:(lia)) with (st := dmac_owned) as (tr & st' & E & _ & H).
  1-12: apply (bool_decide_unpack _); vm_compute; exact I.
  1: exact dmac_owned_wf.
  1, 2: reflexivity.
  exists tr, st'. split; [exact E|]. cbv zeta in H. tauto.
Defined.

Lemma dma_irq_delivery_witness :
  exists st', stm32_dma_ch_request_irq (fun _ => 0) 9 (Some 77) STM32_DMA_INTCOMPLETE 5 dmac_owned
              = (0, st')
  /\ Z.testbit (cr (dma_ch_regs st' 9)) 4 = true /\ Z.testbit (cr (dma_ch_regs st' 9)) 3 = false.
Proof.
  destruct (dma_irq_delivery w1c_hw (fun _ => 0) (fun _ _ _ _ st => st) 9 77
              STM32_DMA_INTCOMPLETE 5 dmac_owned dmac_owned_wf ltac:(lia) eq_refl eq_refl eq_refl)
    as (st' & E & H4 & H3 & _).
  exists st'. split; [exact E|]. rewrite H4, H3. split; reflexivity.
Defined.

Lemma dma_put_keeps_handler_witness :
  let st := (stm32_dma_ch_request_irq (fun _ => 0) 9 (Some 77) 1 5 dmac_owned).2 in
  exists st1 st2, stm32_dma_ch_put 9 st = (0, st1) /\ stm32_dma_ch_get 9 st1 = (0, st2)
  /\ stm32_dma_ch_request_irq (fun _ => 0) 9 (Some 78) 1 6 st2 = (- EEXIST, st2).
Proof.
  destruct (dma_channel_frame w1c_hw (OpRequestIrq (fun _ => 0) 9 (Some 77) 1 5) dmac_owned
              _ _ dmac_owned_wf ltac:(discriminate) (surjective_pairing _)) as [Hw _].
  destruct (dma_put_keeps_handler w1c_hw (fun _ => 0) (fun _ _ _ _ st => st) 9 77 78 1 6
    (stm32_dma_ch_request_irq (fun _ => 0) 9 (Some 77) 1 5 dmac_owned).2 Hw ltac:(lia) eq_refl eq_refl)
    as (st1 & st2 & E1 & E2 & E3 & _).
  exists st1, st2. repeat split; assumption.
Defined.
