(* ===== verification/Exti.v ===== *)
(** * External interrupt lines ([arch/arm/mach-stm32/exti.c])

    The EXTI and SYSCFG registers and the six functions of the driver.  PR is a
    write-1-to-clear register: [w1c] is its behaviour. *)

From S2P Require Import Prelude.

Record stm32_exti_regs := {
  imr : Z; emr : Z; rtsr : Z; ftsr : Z; swier : Z; pr : Z;
  exticr : list Z                                  (* STM32_EXTI_SYSCFG->exticr[4] *)
}.

Definition set_imr e v := {| imr := v; emr := emr e; rtsr := rtsr e; ftsr := ftsr e;
  swier := swier e; pr := pr e; exticr := exticr e |}.
Definition set_rtsr e v := {| imr := imr e; emr := emr e; rtsr := v; ftsr := ftsr e;
  swier := swier e; pr := pr e; exticr := exticr e |}.
Definition set_ftsr e v := {| imr := imr e; emr := emr e; rtsr := rtsr e; ftsr := v;
  swier := swier e; pr := pr e; exticr := exticr e |}.
Definition set_pr e v := {| imr := imr e; emr := emr e; rtsr := rtsr e; ftsr := ftsr e;
  swier := swier e; pr := v; exticr := exticr e |}.
Definition set_exticr e v := {| imr := imr e; emr := emr e; rtsr := rtsr e; ftsr := ftsr e;
  swier := swier e; pr := pr e; exticr := v |}.

Ltac exti_simpl := cbn [imr emr rtsr ftsr swier pr exticr set_imr set_rtsr set_ftsr set_pr set_exticr].

Section Ops.

Context (w1c : Z -> Z -> Z).

(** [exticr[line / 4]] is read and written; the array has four words. *)
Definition stm32_exti_connect (line pin : Z) (e : stm32_exti_regs) : result stm32_exti_regs :=
  let offset := line / 4 in
  let shft := (line mod 4) * 4 in
  match exticr e !! Z.to_nat offset with
  | None => Fault BadIndex
  | Some v =>
      let v := v .& .~ (0xF .<< shft) in
      let v := v .| (pin .<< shft) in
      Ok (set_exticr e (<[Z.to_nat offset := v]> (exticr e)))
  end.

Definition stm32_exti_clear_pending (line : Z) (e : stm32_exti_regs) : stm32_exti_regs :=
  set_pr e (w1c (pr e) (1 .<< line)).

Definition stm32_exti_enable_int (line : Z) (enable : bool) (e : stm32_exti_regs) :
    stm32_exti_regs :=
  if enable then
    let e := stm32_exti_clear_pending line e in
    set_imr e (imr e .| (1 .<< line))
  else
    let e := set_imr e (imr e .& .~ (1 .<< line)) in
    let e := set_rtsr e (rtsr e .& .~ (1 .<< line)) in
    let e := set_ftsr e (ftsr e .& .~ (1 .<< line)) in
    stm32_exti_clear_pending line e.

Definition stm32_exti_set_rising (line : Z) (e : stm32_exti_regs) : stm32_exti_regs :=
  set_rtsr e (rtsr e .| (1 .<< line)).

Definition stm32_exti_set_falling (line : Z) (e : stm32_exti_regs) : stm32_exti_regs :=
  set_ftsr e (ftsr e .| (1 .<< line)).

Definition stm32_exti_get_pending (e : stm32_exti_regs) : Z := pr e.

End Ops.

(** ** Lines as independent cells *)

Record exti_wf (e : stm32_exti_regs) : Prop := {
  imr_u32 : is_u32 (imr e); rtsr_u32 : is_u32 (rtsr e); ftsr_u32 : is_u32 (ftsr e);
  pr_u32 : is_u32 (pr e);
  exticr_len : length (exticr e) = 4%nat;
  exticr_u32 : Forall is_u32 (exticr e)
}.

(** What the hardware does with one line: interrupt unmasked, rising and falling
    trigger, pending. *)
Definition line_state (e : stm32_exti_regs) (i : Z) : bool * bool * bool * bool :=
  (Z.testbit (imr e) i, Z.testbit (rtsr e) i, Z.testbit (ftsr e) i, Z.testbit (pr e) i).

(** The port a line 0..15 listens to. *)
Definition line_source (e : stm32_exti_regs) (i : Z) : Z :=
  field (exticr e !!! Z.to_nat (i / 4)) (i mod 4 * 4) 4.

Section Spec.

Context (w1c : Z -> Z -> Z) `{!W1C w1c}.

Lemma exti_connect_ok line port e :
  exti_wf e -> 0 <= line < 16 -> fits 4 port ->
  exists e', stm32_exti_connect line port e = Ok e' /\ exti_wf e'
  /\ (forall i, line_state e' i = line_state e i)
  /\ forall i, 0 <= i < 16 ->
       line_source e' i = if i =? line then port else line_source e i.
Proof.
  intros [] Hl Hp. unfold stm32_exti_connect.
  assert (Ho : (Z.to_nat (line / 4) < 4)%nat) by (zdiv).
  destruct (lookup_lt_is_Some_2 (exticr e) (Z.to_nat (line / 4))) as [v Ev]; [lia|].
  rewrite Ev. eexists; split; [reflexivity|].
  assert (Hv : is_u32 v) by (eapply Forall_lookup_1; eassumption).
  assert (Hvt : exticr e !!! Z.to_nat (line / 4) = v) by now apply list_lookup_total_correct.
  change (_ .| _) with (upd v (line mod 4 * 4) 4 port).
  assert (0 <= line mod 4 * 4 <= 12) by (zdiv).
  split; [|split; [reflexivity|]].
  - split; exti_simpl; try assumption.
    + now rewrite length_insert.
    + apply Forall_insert; [assumption|]. auto with u32.
  - intros i Hi. unfold line_source. exti_simpl.
    destruct (decide (i / 4 = line / 4)) as [Hq|Hq].
    + rewrite Hq, list_lookup_total_insert_eq by lia. destruct (Z.eqb_spec i line) as [->|Hne].
      * apply field_upd_same; (lia || assumption).
      * rewrite Hvt. apply field_upd_other; try (lia || assumption); [zdiv|].
        assert (i mod 4 <> line mod 4) by (zdiv). lia.
    + rewrite list_lookup_total_insert_ne by (zdiv).
      destruct (Z.eqb_spec i line); [congruence|reflexivity].
Qed.

(** Enabling unmasks exactly the line, after dropping a stale event. *)
Lemma exti_enable_spec line e :
  exti_wf e -> 0 <= line < 32 ->
  let e' := stm32_exti_enable_int w1c line true e in
  exti_wf e' /\ exticr e' = exticr e
  /\ forall i, line_state e' i =
       if i =? line then (true, Z.testbit (rtsr e) i, Z.testbit (ftsr e) i, false)
       else line_state e i.
Proof.
  intros [] Hl. unfold stm32_exti_enable_int, stm32_exti_clear_pending. exti_simpl.
  change (1 .<< line) with (BIT line).
  split; [split; exti_simpl; auto with u32|]. split; [reflexivity|].
  intros i. unfold line_state. exti_simpl. rewrite set_bit_spec, (w1c_BIT_spec w1c) by assumption.
  now destruct (i =? line).
Qed.

(** Disabling masks the line and forgets its triggers and its pending event. *)
Lemma exti_disable_spec line e :
  exti_wf e -> 0 <= line < 32 ->
  let e' := stm32_exti_enable_int w1c line false e in
  exti_wf e' /\ exticr e' = exticr e
  /\ forall i, line_state e' i =
       if i =? line then (false, false, false, false) else line_state e i.
Proof.
  intros [] Hl. unfold stm32_exti_enable_int, stm32_exti_clear_pending. exti_simpl.
  change (1 .<< line) with (BIT line).
  split; [split; exti_simpl; auto with u32|]. split; [reflexivity|].
  intros i. unfold line_state. exti_simpl.
  rewrite !clear_bit_spec, (w1c_BIT_spec w1c) by assumption. now destruct (i =? line).
Qed.

Lemma exti_clear_spec line e i :
  exti_wf e -> 0 <= line < 32 ->
  Z.testbit (pr (stm32_exti_clear_pending w1c line e)) i = negb (i =? line) && Z.testbit (pr e) i.
Proof. intros [] Hl. apply (w1c_BIT_spec w1c); assumption. Qed.

Lemma exti_clear_wf line e : exti_wf e -> exti_wf (stm32_exti_clear_pending w1c line e).
Proof. intros []. split; exti_simpl; auto with u32. apply (w1c_u32 w1c); auto with u32. Qed.

End Spec.
