(* ===== verification/Nvic.v ===== *)
(** * Interrupt controller ([arch/arm/common/nvic.c])

    The enable words of the NVIC (one bit per interrupt) behind the set-enable
    and clear-enable registers, and the priority bytes; [ictr] is the read-only
    interrupt controller type register NVIC_INTR_CTRL. *)

From S2P Require Import Prelude.

Definition NVIC_IRQS : Z := 90.

Record nvic := { ictr : Z; enable_words : list Z; prio_words : list Z }.

Section Ops.

(** Writes to NVIC_CLEAR_ENABLE and NVIC_SET_ENABLE. *)
Context (w1c w1s : Z -> Z -> Z).

Definition clear_enable (i v : Z) (n : nvic) : nvic :=
  {| ictr := ictr n; enable_words := alter (fun r => w1c r v) (Z.to_nat i) (enable_words n);
     prio_words := prio_words n |}.
Definition set_enable (i v : Z) (n : nvic) : nvic :=
  {| ictr := ictr n; enable_words := alter (fun r => w1s r v) (Z.to_nat i) (enable_words n);
     prio_words := prio_words n |}.

Definition nvic_ack_irq (irq : Z) (n : nvic) : nvic :=
  let mask := 1 .<< (irq mod 32) in clear_enable (irq / 32) mask n.
Definition nvic_mask_irq (irq : Z) (n : nvic) : nvic :=
  let mask := 1 .<< (irq mod 32) in clear_enable (irq / 32) mask n.
Definition nvic_unmask_irq (irq : Z) (n : nvic) : nvic :=
  let mask := 1 .<< (irq mod 32) in set_enable (irq / 32) mask n.

(** The hardware part of [nvic_init]: all interrupts off, all priorities 0.  The
    priority loop writes one word per four interrupts. *)
Definition nvic_init (n : nvic) : nvic :=
  let max_irq := ((ictr n .& 0x1f) + 1) * 32 in
  let n := fold_left (fun n i => clear_enable i (.~ 0) n) (seqZ 0 (max_irq / 32)) n in
  {| ictr := ictr n; enable_words := enable_words n;
     prio_words := fold_left (fun p i => <[Z.to_nat i := 0]> p) (seqZ 0 (max_irq / 4))
                     (prio_words n) |}.

End Ops.

Definition irq_enabled (n : nvic) (irq : Z) : bool :=
  Z.testbit (enable_words n !!! Z.to_nat (irq / 32)) (irq mod 32).

Definition nvic_wf (n : nvic) : Prop :=
  length (enable_words n) = 8%nat /\ Forall is_u32 (enable_words n).

Section Spec.

Context (w1c w1s : Z -> Z -> Z) `{!W1C w1c, !W1S w1s}.

(** An [alter] of one enable word that acts on one bit. *)
Lemma alter_enable n irq f (b : bool) :
  nvic_wf n -> 0 <= irq < 256 ->
  (forall r i, is_u32 r ->
     Z.testbit (f r) i = if i =? irq mod 32 then b else Z.testbit r i) ->
  (forall r, is_u32 r -> is_u32 (f r)) ->
  let n' := {| ictr := ictr n; enable_words := alter f (Z.to_nat (irq / 32)) (enable_words n);
               prio_words := prio_words n |} in
  nvic_wf n' /\ forall i, 0 <= i -> irq_enabled n' i = if i =? irq then b else irq_enabled n i.
Proof.
  intros [Hl Hf] Hirq Hbit Hu. cbv zeta. split.
  - split; cbn [enable_words]; [now rewrite length_alter|]. apply Forall_alter; auto.
  - intros i Hi. unfold irq_enabled. cbn [enable_words].
    assert (Hw : (Z.to_nat (irq / 32) < length (enable_words n))%nat) by (rewrite Hl; zdiv).
    rewrite !list_lookup_total_alt.
    destruct (decide (i / 32 = irq / 32)) as [Hq|Hq].
    + rewrite Hq, list_lookup_alter_eq.
      destruct (lookup_lt_is_Some_2 _ _ Hw) as [v Ev]. rewrite Ev. cbn.
      rewrite Hbit by (eapply Forall_lookup_1; eassumption).
      destruct (Z.eqb_spec i irq) as [->|]; [now rewrite Z.eqb_refl|].
      destruct (Z.eqb_spec (i mod 32) (irq mod 32)); [zdiv|reflexivity].
    + rewrite list_lookup_alter_ne by (zdiv). destruct (Z.eqb_spec i irq); [congruence|reflexivity].
Qed.

Lemma irq_mod32 irq : 0 <= irq mod 32 < 32.
Proof. apply Z.mod_pos_bound. lia. Qed.

Lemma nvic_ack_spec irq n :
  nvic_wf n -> 0 <= irq < 256 ->
  nvic_wf (nvic_ack_irq w1c irq n)
  /\ forall i, 0 <= i ->
       irq_enabled (nvic_ack_irq w1c irq n) i = if i =? irq then false else irq_enabled n i.
Proof.
  intros. pose proof (irq_mod32 irq). apply alter_enable; auto.
  - intros r i Hr. rewrite (w1c_BIT_spec w1c) by assumption. now destruct (i =? irq mod 32).
  - intros. apply (w1c_u32 w1c); auto with u32.
Qed.

Lemma nvic_unmask_spec irq n :
  nvic_wf n -> 0 <= irq < 256 ->
  nvic_wf (nvic_unmask_irq w1s irq n)
  /\ forall i, 0 <= i ->
       irq_enabled (nvic_unmask_irq w1s irq n) i = if i =? irq then true else irq_enabled n i.
Proof.
  intros. pose proof (irq_mod32 irq). apply alter_enable; auto.
  - intros r i Hr. rewrite (w1s_BIT_spec w1s) by assumption. now destruct (i =? irq mod 32).
  - intros. apply (w1s_u32 w1s); auto with u32.
Qed.

Lemma w1c_all r : is_u32 r -> w1c r (.~ 0) = 0.
Proof.
  intros Hr. rewrite (w1c_spec (w1c:=w1c)) by (assumption || (vm_compute; split; [discriminate|reflexivity])).
  change (.~ (.~ 0)) with 0. apply Z.land_0_r.
Qed.

(** Turning off a list of words: they end up zero, and stay zero. *)
Lemma clear_words ws n j :
  nvic_wf n -> (j ∈ ws \/ enable_words n !!! Z.to_nat j = 0) -> Forall (fun i => 0 <= i) ws -> 0 <= j < 8 ->
  let n' := fold_left (fun n i => clear_enable w1c i (.~ 0) n) ws n in
  nvic_wf n' /\ enable_words n' !!! Z.to_nat j = 0.
Proof.
  revert n. induction ws as [|i ws IH]; intros n Hw Hj Hpos Hr; cbn [fold_left].
  - destruct Hj as [Hj|Hj]; [now apply not_elem_of_nil in Hj|]. auto.
  - apply Forall_cons in Hpos as [Hi Hpos]. destruct Hw as [Hl Hf].
    apply IH; try assumption.
    + split; cbn [enable_words clear_enable]; [now rewrite length_alter|].
      apply Forall_alter; [assumption|]. intros r _ Hru. rewrite w1c_all by assumption. split; [lia|reflexivity].
    + destruct (decide (i = j)) as [->|Hne].
      * right. cbn [enable_words clear_enable]. rewrite list_lookup_total_alt, list_lookup_alter_eq.
        destruct (lookup_lt_is_Some_2 (enable_words n) (Z.to_nat j)) as [v Ev]; [lia|].
        rewrite Ev. cbn. apply w1c_all. eapply Forall_lookup_1; eassumption.
      * destruct Hj as [Hj|Hj]; [left; apply elem_of_cons in Hj as [?|?]; congruence|right].
        cbn [enable_words clear_enable].
        rewrite list_lookup_total_alt, list_lookup_alter_ne, <- list_lookup_total_alt by lia. assumption.
Qed.

(** [nvic_init] turns off every interrupt the controller has. *)
Lemma nvic_init_off n irq :
  nvic_wf n -> 0 <= irq < ((ictr n .& 0x1f) + 1) * 32 -> irq < 256 ->
  irq_enabled (nvic_init w1c n) irq = false.
Proof.
  intros Hw Hi Hlt. unfold irq_enabled, nvic_init. cbn [enable_words].
  destruct (clear_words (seqZ 0 (((ictr n .& 0x1f) + 1) * 32 / 32)) n (irq / 32) Hw) as [_ E].
  - left. apply elem_of_seqZ. zdiv.
  - apply Forall_forall. intros x Hx%elem_of_seqZ. lia.
  - zdiv.
  - rewrite E. apply Z.bits_0.
Qed.

End Spec.
