(* ===== verification/Gpio.v ===== *)
(** * GPIO chip ([arch/arm/mach-stm32/gpio.c])

    The [gpio_chip] operations on ports A..I and the GPIO interrupts that are
    multiplexed on the EXTI lines (CONFIG_STM32_GPIO and CONFIG_STM32_GPIO_INT).
    The handlers of the logical GPIO interrupts are the parameter
    [generic_handle_irq]. *)

From S2P Require Import Prelude Iomux Exti Nvic.

Definition STM32_GPIO_PORTS : Z := 9.
Definition STM32_GPIO_PORT_PINS : Z := 16.
Definition STM32_GPIO_LEN : Z := STM32_GPIO_PORT_PINS * STM32_GPIO_PORTS.
Definition STM32_EXTI_IRQS_LEN : Z := 7.
Definition STM32_EXTI_LINES_LEN : Z := 15.
Definition IRQ_TYPE_EDGE_RISING : Z := 0x1.
Definition IRQ_TYPE_EDGE_FALLING : Z := 0x2.
Definition IRQ_TYPE_LEVEL_HIGH : Z := 0x4.
Definition IRQ_TYPE_LEVEL_LOW : Z := 0x8.
Definition IRQ_MASKED : Z := 0x8000.

Definition STM32_GPIO_GETPIN (number : Z) : Z := number mod STM32_GPIO_PORT_PINS.
Definition STM32_GPIO_GETPORT (number : Z) : Z := number / STM32_GPIO_PORT_PINS.

(** [struct stm32_gpio_chip], the hardware it drives, and [irq_desc[].status]. *)
Record stm32_gpio_chip := {
  gpio_ports : list gpio_regs;
  exti : stm32_exti_regs;
  nvic_hw : nvic;
  irq_base : Z;
  exti_2_gpio : list Z;
  irq_status : Z -> Z
}.

Definition exti_irqs : list Z := [6; 7; 8; 9; 10; 23; 40].

Definition set_port st k g := {| gpio_ports := <[k := g]> (gpio_ports st); exti := exti st;
  nvic_hw := nvic_hw st; irq_base := irq_base st; exti_2_gpio := exti_2_gpio st;
  irq_status := irq_status st |}.
Definition set_exti st e := {| gpio_ports := gpio_ports st; exti := e; nvic_hw := nvic_hw st;
  irq_base := irq_base st; exti_2_gpio := exti_2_gpio st; irq_status := irq_status st |}.
Definition set_nvic st n := {| gpio_ports := gpio_ports st; exti := exti st; nvic_hw := n;
  irq_base := irq_base st; exti_2_gpio := exti_2_gpio st; irq_status := irq_status st |}.
Definition set_exti_2_gpio st l := {| gpio_ports := gpio_ports st; exti := exti st;
  nvic_hw := nvic_hw st; irq_base := irq_base st; exti_2_gpio := l; irq_status := irq_status st |}.
Definition set_irq_status st irq v := {| gpio_ports := gpio_ports st; exti := exti st;
  nvic_hw := nvic_hw st; irq_base := irq_base st; exti_2_gpio := exti_2_gpio st;
  irq_status := fun i => if i =? irq then v else irq_status st i |}.

Ltac chip_simpl := cbn [gpio_ports exti nvic_hw irq_base exti_2_gpio irq_status set_port set_exti
  set_nvic set_exti_2_gpio set_irq_status] in *.

(** ** Pins *)

(** A register block is reached through [stm32_gpio_base[port]], an array of
    nine. *)
Definition with_port {A} (gpio : Z) (st : stm32_gpio_chip) (k : nat -> gpio_regs -> result A) :
    result A :=
  match gpio_ports st !! Z.to_nat (STM32_GPIO_GETPORT gpio) with
  | None => Fault BadIndex
  | Some g => k (Z.to_nat (STM32_GPIO_GETPORT gpio)) g
  end.

Definition stm32_gpio_set_value (gpio v : Z) (st : stm32_gpio_chip) : result stm32_gpio_chip :=
  with_port gpio st (fun port g =>
    let pin := STM32_GPIO_GETPIN gpio in
    let l := odr g in
    let l := l .& .~ (1 .<< pin) in
    let l := l .| (v .<< pin) in
    Ok (set_port st port (set_odr g l))).

Definition stm32_gpio_get_value (gpio : Z) (st : stm32_gpio_chip) : result Z :=
  with_port gpio st (fun port g =>
    let pin := STM32_GPIO_GETPIN gpio in
    Ok (if (idr g .& (1 .<< pin)) =? 0 then 0 else 1)).

Definition stm32_gpio_direction_input (gpio : Z) (st : stm32_gpio_chip) :
    result (Z * stm32_gpio_chip) :=
  with_port gpio st (fun port g =>
    let shf := STM32_GPIO_GETPIN gpio * 2 in
    Ok (0, set_port st port (set_moder g (moder g .& .~ (3 .<< shf))))).

(** [gpio_set_value] of gpiolib calls the chip's [set] method. *)
Definition stm32_gpio_direction_output (gpio level : Z) (st : stm32_gpio_chip) :
    result (Z * stm32_gpio_chip) :=
  with_port gpio st (fun port g =>
    let shf := STM32_GPIO_GETPIN gpio * 2 in
    let l := moder g in
    let l := l .& .~ (3 .<< shf) in
    let l := l .| (1 .<< shf) in
    let st := set_port st port (set_moder g l) in
    let* st := stm32_gpio_set_value gpio level st in
    Ok (0, st)).

(** ** Interrupts *)

Definition stm32_gpio_to_irq (offset : Z) (st : stm32_gpio_chip) : Z :=
  if (irq_base st =? u32_max) || (STM32_GPIO_LEN <=? offset) then - EINVAL
  else irq_base st + offset.

Section Irq.

Context (w1c w1s : Z -> Z -> Z).
Context (generic_handle_irq : Z -> stm32_gpio_chip -> stm32_gpio_chip).

(** [for_each_bit(line, &pending, STM32_EXTI_LINES_LEN)]. *)
Fixpoint exti_irq_loop (lines : list Z) (pending : Z) (st : stm32_gpio_chip) :
    result (list Z * stm32_gpio_chip) :=
  match lines with
  | [] => Ok ([], st)
  | line :: lines =>
      if Z.testbit pending line then
        match exti_2_gpio st !! Z.to_nat line with
        | None => Fault BadIndex
        | Some pin =>
            let irq := irq_base st + pin in
            let st := generic_handle_irq irq st in
            let st := set_exti st (stm32_exti_clear_pending w1c line (exti st)) in
            let* (irqs, st) := exti_irq_loop lines pending st in
            Ok (irq :: irqs, st)
        end
      else exti_irq_loop lines pending st
  end.

(** The chained handler; the list says which logical interrupts it raised. *)
Definition stm32_exti_irq_handler (irq : Z) (st : stm32_gpio_chip) :
    result (list Z * stm32_gpio_chip) :=
  let st := set_nvic st (nvic_ack_irq w1c irq (nvic_hw st)) in
  let pending := stm32_exti_get_pending (exti st) in
  let* (irqs, st) := exti_irq_loop (seqZ 0 STM32_EXTI_LINES_LEN) pending st in
  Ok (irqs, set_nvic st (nvic_unmask_irq w1s irq (nvic_hw st))).

(** The comparison with [exti_2_gpio[line]] only decides whether a message is
    printed, but it reads the array. *)
Definition stm32_gpio_irq_enable (irq : Z) (st : stm32_gpio_chip) : result stm32_gpio_chip :=
  let gpio := irq - irq_base st in
  let line := STM32_GPIO_GETPIN gpio in
  let pin := STM32_GPIO_GETPORT gpio in
  match exti_2_gpio st !! Z.to_nat line with
  | None => Fault BadIndex
  | Some _ =>
      let st := set_exti_2_gpio st (<[Z.to_nat line := gpio]> (exti_2_gpio st)) in
      let* e := stm32_exti_connect line pin (exti st) in
      let st := set_exti st e in
      let st := set_exti st (stm32_exti_enable_int w1c line true (exti st)) in
      Ok (set_irq_status st irq (irq_status st irq .& .~ IRQ_MASKED))
  end.

Definition stm32_gpio_irq_disable (irq : Z) (st : stm32_gpio_chip) : stm32_gpio_chip :=
  let gpio := irq - irq_base st in
  let line := STM32_GPIO_GETPIN gpio in
  let st := set_exti st (stm32_exti_enable_int w1c line false (exti st)) in
  set_irq_status st irq (irq_status st irq .| IRQ_MASKED).

Definition stm32_gpio_irq_set_type (irq trigger : Z) (st : stm32_gpio_chip) :
    Z * stm32_gpio_chip :=
  let gpio := irq - irq_base st in
  let line := STM32_GPIO_GETPIN gpio in
  if (STM32_GPIO_LEN <=? gpio)
     || negb ((trigger .& (IRQ_TYPE_LEVEL_HIGH .| IRQ_TYPE_LEVEL_LOW)) =? 0)
  then (- EINVAL, st)
  else
    let st := if negb ((trigger .& IRQ_TYPE_EDGE_RISING) =? 0)
              then set_exti st (stm32_exti_set_rising line (exti st)) else st in
    let st := if negb ((trigger .& IRQ_TYPE_EDGE_FALLING) =? 0)
              then set_exti st (stm32_exti_set_falling line (exti st)) else st in
    (0, st).

End Irq.

(** The part of [stm32_gpio_init] that acts on the chip's own data; the rest
    registers the handlers above with the interrupt and GPIO cores. *)
Definition stm32_gpio_init (st : stm32_gpio_chip) : stm32_gpio_chip :=
  set_exti_2_gpio st (fold_left (fun l i => <[Z.to_nat i := -1]> l) (seqZ 0 STM32_EXTI_LINES_LEN)
                        (exti_2_gpio st)).

(** ** Pins as independent cells *)

#[global] Instance gpio_regs_inhabited : Inhabited gpio_regs := populate {|
  moder := 0; otyper := 0; ospeedr := 0; pupdr := 0; idr := 0; odr := 0; bsrrl := 0; bsrrh := 0;
  lckr := 0; afr0 := 0; afr1 := 0 |}.

Definition port_of (st : stm32_gpio_chip) (gpio : Z) : gpio_regs :=
  gpio_ports st !!! Z.to_nat (gpio / 16).

(** Direction (mode field), driven level and sensed level of a pin. *)
Definition pin_mode (st : stm32_gpio_chip) (gpio : Z) : Z :=
  field (moder (port_of st gpio)) (gpio mod 16 * 2) 2.
Definition pin_out (st : stm32_gpio_chip) (gpio : Z) : bool :=
  Z.testbit (odr (port_of st gpio)) (gpio mod 16).
Definition pin_in (st : stm32_gpio_chip) (gpio : Z) : bool :=
  Z.testbit (idr (port_of st gpio)) (gpio mod 16).

Record chip_wf (st : stm32_gpio_chip) : Prop := {
  wf_nports : length (gpio_ports st) = 9%nat;
  wf_moders : Forall (fun g => is_u32 (moder g) /\ is_u32 (odr g)) (gpio_ports st);
  wf_exti : exti_wf (exti st);
  wf_nvic : nvic_wf (nvic_hw st);
  wf_map : length (exti_2_gpio st) = 15%nat
}.

Definition gpio_ok (gpio : Z) : Prop := 0 <= gpio < STM32_GPIO_LEN.

Lemma gpio_ok_range gpio : gpio_ok gpio -> 0 <= gpio / 16 < 9 /\ 0 <= gpio mod 16 < 16.
Proof. unfold gpio_ok. change STM32_GPIO_LEN with 144. zdiv. Qed.

Lemma with_port_ok {A} gpio st (k : nat -> gpio_regs -> result A) :
  chip_wf st -> gpio_ok gpio ->
  with_port gpio st k = k (Z.to_nat (gpio / 16)) (port_of st gpio).
Proof.
  intros [] H%gpio_ok_range. unfold with_port. change (STM32_GPIO_GETPORT gpio) with (gpio / 16).
  now rewrite (list_lookup_lookup_total_lt (gpio_ports st)) by lia.
Qed.

Lemma port_wf st gpio :
  chip_wf st -> gpio_ok gpio -> is_u32 (moder (port_of st gpio)) /\ is_u32 (odr (port_of st gpio)).
Proof.
  intros [] H%gpio_ok_range. eapply (Forall_lookup_1 _ _ _ _ wf_moders0).
  apply list_lookup_lookup_total_lt. lia.
Qed.

Lemma port_of_set st gpio gpio' g :
  chip_wf st -> gpio_ok gpio ->
  port_of (set_port st (Z.to_nat (gpio / 16)) g) gpio' =
  if decide (Z.to_nat (gpio / 16) = Z.to_nat (gpio' / 16)) then g else port_of st gpio'.
Proof.
  intros [] H%gpio_ok_range. unfold port_of. chip_simpl. case_decide as Hd.
  - rewrite <- Hd. apply list_lookup_total_insert_eq. lia.
  - now apply list_lookup_total_insert_ne.
Qed.

Lemma set_port_wf st gpio g :
  chip_wf st -> is_u32 (moder g) -> is_u32 (odr g) -> chip_wf (set_port st (Z.to_nat (gpio / 16)) g).
Proof.
  intros [] Hm Ho. split; chip_simpl; try assumption.
  - now rewrite length_insert.
  - now apply Forall_insert.
Qed.

(** Programming one pin's output bit: the neighbours keep theirs when the value
    is 0 or 1. *)
Lemma set_value_spec gpio v st :
  chip_wf st -> gpio_ok gpio -> fits 1 v ->
  exists st', stm32_gpio_set_value gpio v st = Ok st' /\ chip_wf st'
  /\ (forall i, gpio_ok i -> pin_out st' i = if i =? gpio then v =? 1 else pin_out st i)
  /\ (forall i, pin_mode st' i = pin_mode st i) /\ (forall i, pin_in st' i = pin_in st i)
  /\ exti st' = exti st.
Proof.
  intros Hw Hg Hv. unfold stm32_gpio_set_value. rewrite with_port_ok by assumption. cbv zeta.
  destruct (gpio_ok_range gpio Hg) as [Hq Hr]. destruct (port_wf st gpio Hw Hg) as [Hm Ho].
  change (STM32_GPIO_GETPIN gpio) with (gpio mod 16).
  change (_ .| _) with (upd (odr (port_of st gpio)) (gpio mod 16) 1 v).
  eexists. split; [reflexivity|].
  assert (Hp : forall i, Z.to_nat (gpio / 16) = Z.to_nat (i / 16) -> port_of st gpio = port_of st i)
    by (intros i E; unfold port_of; now rewrite E).
  split; [apply set_port_wf; cbn [moder odr set_odr set_moder]; auto with u32|]. split; [|split; [|split; [|reflexivity]]].
  - intros i Hi. pose proof (gpio_ok_range i Hi). unfold pin_out. rewrite port_of_set by assumption.
    case_decide as Hd.
    + cbn [odr set_odr]. rewrite upd_bits by (lia || assumption).
      destruct (Z.eqb_spec i gpio) as [->|Hne].
      * rewrite Z.leb_refl, Z.sub_diag, (proj2 (Z.ltb_lt _ _)) by lia. simpl.
        change (2 ^ 1) with 2 in Hv. assert (v = 0 \/ v = 1) as [->| ->] by (unfold fits in Hv; lia); reflexivity.
      * assert (i mod 16 <> gpio mod 16) by (zdiv). rewrite <- (Hp i Hd).
        destruct (Z.leb_spec (gpio mod 16) (i mod 16)), (Z.ltb_spec (i mod 16) (gpio mod 16 + 1));
          try lia; reflexivity.
    + destruct (Z.eqb_spec i gpio); [congruence|reflexivity].
  - intros i. unfold pin_mode. rewrite port_of_set by assumption.
    case_decide as Hd; [now rewrite <- (Hp i Hd)|reflexivity].
  - intros i. unfold pin_in. rewrite port_of_set by assumption.
    case_decide as Hd; [now rewrite <- (Hp i Hd)|reflexivity].
Qed.

(** Programming one pin's mode field. *)
Lemma set_mode_spec gpio mode st :
  chip_wf st -> gpio_ok gpio -> fits 2 mode ->
  let st' := set_port st (Z.to_nat (gpio / 16))
    (set_moder (port_of st gpio) (upd (moder (port_of st gpio)) (gpio mod 16 * 2) 2 mode)) in
  chip_wf st'
  /\ (forall i, gpio_ok i -> pin_mode st' i = if i =? gpio then mode else pin_mode st i)
  /\ (forall i, pin_out st' i = pin_out st i) /\ (forall i, pin_in st' i = pin_in st i)
  /\ exti st' = exti st.
Proof.
  intros Hw Hg Hv. cbv zeta.
  destruct (gpio_ok_range gpio Hg) as [Hq Hr]. destruct (port_wf st gpio Hw Hg) as [Hm Ho].
  assert (Hp : forall i, Z.to_nat (gpio / 16) = Z.to_nat (i / 16) -> port_of st gpio = port_of st i)
    by (intros i E; unfold port_of; now rewrite E).
  split; [apply set_port_wf; cbn [moder odr set_odr set_moder]; auto with u32|]. split; [|split; [|split; [|reflexivity]]].
  - intros i Hi. pose proof (gpio_ok_range i Hi). unfold pin_mode. rewrite port_of_set by assumption.
    case_decide as Hd.
    + cbn [moder set_moder]. destruct (Z.eqb_spec i gpio) as [->|Hne].
      * apply field_upd_same; (lia || assumption).
      * assert (i mod 16 <> gpio mod 16) by (zdiv). rewrite <- (Hp i Hd).
        apply field_upd_other; (lia || assumption).
    + destruct (Z.eqb_spec i gpio); [congruence|reflexivity].
  - intros i. unfold pin_out. rewrite port_of_set by assumption.
    case_decide as Hd; [now rewrite <- (Hp i Hd)|reflexivity].
  - intros i. unfold pin_in. rewrite port_of_set by assumption.
    case_decide as Hd; [now rewrite <- (Hp i Hd)|reflexivity].
Qed.

(** The pin operations act on exactly one pin: [direction_output] with level
    0 or 1 makes the pin an output driving that level, [direction_input] makes it
    an input and keeps its output latch, [get] returns the sensed level, and no
    other pin of any port changes mode or level. *)
Theorem gpio_pin_ops gpio level st :
  chip_wf st -> gpio_ok gpio -> fits 1 level ->
  (exists st', stm32_gpio_direction_output gpio level st = Ok (0, st') /\ chip_wf st'
     /\ forall i, gpio_ok i ->
          pin_mode st' i = (if i =? gpio then 1 else pin_mode st i)
          /\ pin_out st' i = (if i =? gpio then level =? 1 else pin_out st i))
  /\ (exists st', stm32_gpio_direction_input gpio st = Ok (0, st') /\ chip_wf st'
     /\ forall i, gpio_ok i ->
          pin_mode st' i = (if i =? gpio then 0 else pin_mode st i) /\ pin_out st' i = pin_out st i)
  /\ stm32_gpio_get_value gpio st = Ok (Z.b2z (pin_in st gpio)).
Proof.
  intros Hw Hg Hv. pose proof (gpio_ok_range gpio Hg).
  unfold stm32_gpio_direction_output, stm32_gpio_direction_input, stm32_gpio_get_value.
  rewrite !with_port_ok by assumption. cbv zeta.
  change (STM32_GPIO_GETPIN gpio) with (gpio mod 16). split; [|split].
  - change (_ .| _) with (upd (moder (port_of st gpio)) (gpio mod 16 * 2) 2 1).
    destruct (set_mode_spec gpio 1 st Hw Hg ltac:(now split)) as (W1 & M1 & O1 & _).
    destruct (set_value_spec gpio level _ W1 Hg Hv) as (st' & E & W2 & O2 & M2 & _).
    rewrite E. cbn [rbind]. exists st'. split; [reflexivity|]. split; [assumption|]. intros i Hi.
    now rewrite M2, M1, O2, O1 by assumption.
  - replace (moder (port_of st gpio) .& .~ (3 .<< (gpio mod 16 * 2)))
      with (upd (moder (port_of st gpio)) (gpio mod 16 * 2) 2 0).
    2: { unfold upd. unfold shl32 at 2. rewrite Z.shiftl_0_l. apply Z.lor_0_r. }
    destruct (set_mode_spec gpio 0 st Hw Hg ltac:(now split)) as (W1 & M1 & O1 & _).
    eexists. split; [reflexivity|]. split; [assumption|]. intros i Hi. now rewrite M1, O1.
  - change (1 .<< (gpio mod 16)) with (BIT (gpio mod 16)). unfold pin_in.
    rewrite <- bit_set_testbit by lia. unfold bit_set. now destruct (_ =? 0).
Qed.

(** [stm32_gpio_set_value] does not normalise its value: asked to drive a
    pin high with 2, it drives that pin low and the next pin of the port high. *)
Theorem gpio_set_value_not_boolean gpio st :
  chip_wf st -> gpio_ok gpio -> gpio mod 16 < 15 ->
  exists st', stm32_gpio_set_value gpio 2 st = Ok st'
  /\ pin_out st' gpio = false /\ pin_out st' (gpio + 1) = true.
Proof.
  intros Hw Hg Hp. destruct (gpio_ok_range gpio Hg) as [Hq Hr].
  unfold stm32_gpio_set_value. rewrite with_port_ok by assumption. cbv zeta.
  change (STM32_GPIO_GETPIN gpio) with (gpio mod 16).
  eexists. split; [reflexivity|]. unfold pin_out. rewrite !port_of_set by assumption.
  replace ((gpio + 1) / 16) with (gpio / 16) by (zdiv).
  replace ((gpio + 1) mod 16) with (gpio mod 16 + 1) by (zdiv).
  rewrite !decide_True by reflexivity. cbn [odr set_odr].
  change (1 .<< (gpio mod 16)) with (BIT (gpio mod 16)).
  destruct (port_wf st gpio Hw Hg) as [_ Ho].
  rewrite !Z.lor_spec, !clear_bit_spec, !testbit_shl32 by (lia || assumption).
  rewrite Z.sub_diag. replace (gpio mod 16 + 1 - gpio mod 16) with 1 by lia.
  rewrite Z.eqb_refl, (proj2 (Z.ltb_lt (gpio mod 16) 32)), (proj2 (Z.ltb_lt (gpio mod 16 + 1) 32)) by lia.
  split; [reflexivity|apply orb_true_r].
Qed.

(** ** Interrupt routing *)

Section IrqSpec.

Context (w1c w1s : Z -> Z -> Z) `{!W1C w1c, !W1S w1s}.

Lemma irq_enable_oob gpio st :
  chip_wf st -> gpio_ok gpio -> gpio mod 16 = 15 ->
  stm32_gpio_irq_enable w1c (irq_base st + gpio) st = Fault BadIndex.
Proof.
  intros [] Hg Hp. unfold stm32_gpio_irq_enable.
  replace (irq_base st + gpio - irq_base st) with gpio by lia.
  change (STM32_GPIO_GETPIN gpio) with (gpio mod 16). rewrite Hp, lookup_ge_None_2; [reflexivity|lia].
Qed.

Lemma irq_enable_spec gpio st :
  chip_wf st -> gpio_ok gpio -> gpio mod 16 <> 15 ->
  exists st', stm32_gpio_irq_enable w1c (irq_base st + gpio) st = Ok st' /\ chip_wf st' /\ irq_base st' = irq_base st
  /\ exti_2_gpio st' !! Z.to_nat (gpio mod 16) = Some gpio
  /\ line_source (exti st') (gpio mod 16) = gpio / 16
  /\ line_state (exti st') (gpio mod 16)
     = (true, Z.testbit (rtsr (exti st)) (gpio mod 16), Z.testbit (ftsr (exti st)) (gpio mod 16), false)
  /\ (forall i, i <> gpio mod 16 -> line_state (exti st') i = line_state (exti st) i)
  /\ (forall i, 0 <= i < 16 -> i <> gpio mod 16 ->
        line_source (exti st') i = line_source (exti st) i
        /\ exti_2_gpio st' !! Z.to_nat i = exti_2_gpio st !! Z.to_nat i)
  /\ irq_status st' (irq_base st + gpio) .& IRQ_MASKED = 0.
Proof.
  intros Hw Hg Hp. destruct (gpio_ok_range gpio Hg) as [Hq Hr]. pose proof Hw as [].
  unfold stm32_gpio_irq_enable. replace (irq_base st + gpio - irq_base st) with gpio by lia.
  change (STM32_GPIO_GETPIN gpio) with (gpio mod 16). change (STM32_GPIO_GETPORT gpio) with (gpio / 16).
  destruct (lookup_lt_is_Some_2 (exti_2_gpio st) (Z.to_nat (gpio mod 16))) as [o Eo]; [lia|].
  rewrite Eo. cbv zeta. chip_simpl.
  destruct (exti_connect_ok (gpio mod 16) (gpio / 16) (exti st) wf_exti0 ltac:(lia)
              ltac:(unfold fits; lia)) as (e & Ee & We & Hls & Hsrc).
  rewrite Ee. cbn [rbind]. chip_simpl.
  destruct (exti_enable_spec w1c (gpio mod 16) e We ltac:(lia)) as (We' & Hcr & Hst).
  eexists. split; [reflexivity|]. chip_simpl. cbv zeta in *.
  split; [split; chip_simpl; try assumption; now rewrite length_insert|]. split; [reflexivity|].
  split; [apply list_lookup_insert_eq; lia|].
  unfold line_source in *. rewrite !Hcr, Hsrc, !Hst, Z.eqb_refl by lia. split; [reflexivity|].
  specialize (Hls (gpio mod 16)) as Hl. unfold line_state in Hl. injection Hl as _ -> -> _.
  split; [reflexivity|]. split; [|split].
  - intros i Hi. rewrite Hst, <- Hls, (proj2 (Z.eqb_neq _ _) Hi). reflexivity.
  - intros i Hi Hne. rewrite Hsrc, (proj2 (Z.eqb_neq _ _) Hne) by assumption.
    split; [reflexivity|]. apply list_lookup_insert_ne. lia.
  - rewrite Z.eqb_refl. change IRQ_MASKED with (BIT 15). apply Z.bits_inj'. intros i Hi.
    rewrite !Z.land_spec, testbit_not32, testbit_BIT, Z.bits_0 by lia.
    destruct (Z.eqb_spec i 15) as [->|]; [now rewrite andb_false_r|apply andb_false_r].
Qed.

(** Enabling a GPIO interrupt (of any pin but pin 15) records the GPIO as
    the owner of its EXTI line, connects the line to the GPIO's port, unmasks
    the line with no stale event pending and unmasks the interrupt descriptor; the
    source, mask, triggers and pending state of every other line are unchanged. *)
Theorem gpio_irq_enable_routes gpio st :
  chip_wf st -> gpio_ok gpio -> gpio mod 16 <> 15 ->
  exists st', stm32_gpio_irq_enable w1c (irq_base st + gpio) st = Ok st' /\ chip_wf st'
  /\ exti_2_gpio st' !! Z.to_nat (gpio mod 16) = Some gpio
  /\ line_source (exti st') (gpio mod 16) = gpio / 16
  /\ line_state (exti st') (gpio mod 16)
     = (true, Z.testbit (rtsr (exti st)) (gpio mod 16), Z.testbit (ftsr (exti st)) (gpio mod 16), false)
  /\ (forall i, i <> gpio mod 16 -> line_state (exti st') i = line_state (exti st) i)
  /\ (forall i, 0 <= i < 16 -> i <> gpio mod 16 ->
        line_source (exti st') i = line_source (exti st) i
        /\ exti_2_gpio st' !! Z.to_nat i = exti_2_gpio st !! Z.to_nat i)
  /\ irq_status st' (irq_base st + gpio) .& IRQ_MASKED = 0.
Proof.
  intros Hw Hg Hp. destruct (irq_enable_spec gpio st Hw Hg Hp) as (st' & E & Hw' & _ & H).
  now exists st'.
Qed.

(** The table of line owners has 15 entries for 16 lines: enabling the
    interrupt of a pin 15 indexes it out of bounds. *)
Theorem gpio_irq_enable_pin15 gpio st :
  chip_wf st -> gpio_ok gpio -> gpio mod 16 = 15 ->
  stm32_gpio_irq_enable w1c (irq_base st + gpio) st = Fault BadIndex.
Proof. apply irq_enable_oob. Qed.

(** Two GPIOs that share an EXTI line: after the second one took the line
    over, disabling the first one's interrupt masks the line and drops the second
    one's triggers, although the second one still owns the line and its
    descriptor is unmasked. *)
Theorem gpio_irq_shared_line g1 g2 st st' :
  chip_wf st -> gpio_ok g1 -> gpio_ok g2 -> g1 <> g2 -> g1 mod 16 = g2 mod 16 ->
  stm32_gpio_irq_enable w1c (irq_base st + g2) st = Ok st' ->
  let st'' := stm32_gpio_irq_disable w1c (irq_base st + g1) st' in
  exti_2_gpio st'' !! Z.to_nat (g2 mod 16) = Some g2
  /\ irq_status st'' (irq_base st + g2) .& IRQ_MASKED = 0
  /\ line_state (exti st'') (g2 mod 16) = (false, false, false, false).
Proof.
  intros Hw H1 H2 Hne Hm E.
  destruct (decide (g2 mod 16 = 15)) as [H15|H15].
  { rewrite irq_enable_oob in E by assumption. discriminate. }
  destruct (irq_enable_spec g2 st Hw H2 H15) as (s' & E' & Hw' & Hb & Ho & _ & _ & _ & _ & Hs).
  rewrite E in E'. injection E' as <-. destruct (gpio_ok_range g2 H2) as [_ Hr].
  unfold stm32_gpio_irq_disable. rewrite Hb. replace (irq_base st + g1 - irq_base st) with g1 by lia.
  change (STM32_GPIO_GETPIN g1) with (g1 mod 16). rewrite Hm. cbv zeta. chip_simpl.
  split; [exact Ho|]. split.
  - rewrite (proj2 (Z.eqb_neq _ _)) by lia. exact Hs.
  - destruct (exti_disable_spec w1c (g2 mod 16) (exti st') (wf_exti _ Hw') ltac:(lia)) as (_ & _ & H).
    now rewrite H, Z.eqb_refl.
Qed.

(** ** The chained handler *)

(** What the handler of a logical GPIO interrupt may do to the chip: nothing but
    let new edges arrive on its own line. *)
Record handler_local (h : Z -> stm32_gpio_chip -> stm32_gpio_chip) : Prop := {
  h_wf : forall irq s, chip_wf s -> chip_wf (h irq s);
  h_map : forall irq s, exti_2_gpio (h irq s) = exti_2_gpio s;
  h_base : forall irq s, irq_base (h irq s) = irq_base s;
  h_pr : forall irq s i, i <> (irq - irq_base s) mod 16 ->
    Z.testbit (pr (exti (h irq s))) i = Z.testbit (pr (exti s)) i
}.

Lemma set_exti_wf st e : chip_wf st -> exti_wf e -> chip_wf (set_exti st e).
Proof. intros [] ?. split; assumption. Qed.

Definition owner (st : stm32_gpio_chip) (line : Z) : Z := exti_2_gpio st !!! Z.to_nat line.

Lemma exti_irq_loop_spec h lines pending st :
  handler_local h -> chip_wf st -> NoDup lines -> Forall (fun l => 0 <= l < 15) lines ->
  Forall (fun l => Z.testbit pending l = true -> owner st l mod 16 = l) lines ->
  exists st', exti_irq_loop w1c h lines pending st
    = Ok (map (fun l => irq_base st + owner st l) (filter (fun l => Z.testbit pending l) lines), st')
  /\ chip_wf st'
  /\ forall i, Z.testbit (pr (exti st')) i
       = negb (Z.testbit pending i && bool_decide (i ∈ lines)) && Z.testbit (pr (exti st)) i.
Proof.
  intros Hh. revert st. induction lines as [|l ls IH]; intros st Hw Hnd Hr Hown.
  - exists st. split; [reflexivity|]. split; [assumption|]. intros i.
    rewrite bool_decide_false by apply not_elem_of_nil. now rewrite andb_false_r.
  - apply NoDup_cons in Hnd as [Hni Hnd]. apply Forall_cons in Hr as [Hl Hr].
    apply Forall_cons in Hown as [Ho Hown]. cbn [exti_irq_loop].
    destruct (Z.testbit pending l) eqn:El.
    + destruct (lookup_lt_is_Some_2 (exti_2_gpio st) (Z.to_nat l)) as [g Eg]; [rewrite (wf_map st Hw); lia|].
      rewrite Eg. cbv zeta. assert (Hg : owner st l = g) by (now apply list_lookup_total_correct).
      set (s1 := h (irq_base st + g) st). pose proof (h_wf h Hh (irq_base st + g) st Hw) as W1.
      set (s2 := set_exti s1 (stm32_exti_clear_pending w1c l (exti s1))).
      assert (W2 : chip_wf s2) by (apply set_exti_wf; [assumption|]; apply (exti_clear_wf w1c), (wf_exti _ W1)).
      assert (Em : exti_2_gpio s2 = exti_2_gpio st) by apply (h_map h Hh).
      assert (Eb : irq_base s2 = irq_base st) by apply (h_base h Hh).
      destruct (IH s2 W2 Hnd Hr) as (st' & E & W' & Hpr).
      { apply (Forall_impl _ _ _ Hown). intros x Hx. unfold owner. now rewrite Em. }
      rewrite E. cbn [rbind]. exists st'. rewrite filter_cons_True by now rewrite El.
      cbn [map]. rewrite Hg. unfold owner in E |- *. rewrite Em, Eb. split; [reflexivity|].
      split; [assumption|]. intros i. rewrite Hpr. unfold s2 at 1. chip_simpl.
      rewrite (exti_clear_spec w1c) by (apply (wf_exti _ W1) || lia).
      destruct (Z.eqb_spec i l) as [->|Hne].
      * rewrite El, (bool_decide_true (l ∈ l :: ls)) by left. simpl. apply andb_false_r.
      * rewrite (bool_decide_ext (i ∈ l :: ls) (i ∈ ls)) by (rewrite elem_of_cons; intuition congruence).
        cbn [negb andb]. unfold s1. rewrite (h_pr h Hh); [reflexivity|].
        replace (irq_base st + g - irq_base st) with g by lia. rewrite <- Hg, Ho by reflexivity. assumption.
    + destruct (IH st Hw Hnd Hr Hown) as (st' & E & W' & Hpr). exists st'.
      rewrite filter_cons_False by now rewrite El. split; [exact E|]. split; [assumption|].
      intros i. rewrite Hpr. destruct (Z.eqb_spec i l) as [->|Hne]; [now rewrite El|].
      now rewrite (bool_decide_ext (i ∈ l :: ls) (i ∈ ls)) by (rewrite elem_of_cons; intuition congruence).
Qed.

(** The chained EXTI handler raises exactly the logical interrupts of the
    owners of the pending lines 0..14, lowest line first, acknowledges those lines
    only after their handlers ran (so that an edge that arrives on the line
    during its own handler is dropped with it), leaves line 15 and the non-GPIO
    lines pending as they were, and ends with its own NVIC interrupt enabled. *)
Theorem exti_handler_serves h irq st :
  handler_local h -> chip_wf st -> 0 <= irq < 256 ->
  (forall l, 0 <= l < 15 -> Z.testbit (pr (exti st)) l = true -> owner st l mod 16 = l) ->
  exists st', stm32_exti_irq_handler w1c w1s h irq st
    = Ok (map (fun l => irq_base st + owner st l)
            (filter (fun l => Z.testbit (pr (exti st)) l) (seqZ 0 15)), st')
  /\ chip_wf st' /\ irq_enabled (nvic_hw st') irq = true
  /\ (forall l, 0 <= l < 15 -> Z.testbit (pr (exti st')) l = false)
  /\ (forall l, 15 <= l -> Z.testbit (pr (exti st')) l = Z.testbit (pr (exti st)) l).
Proof.
  intros Hh Hw Hirq Hown. unfold stm32_exti_irq_handler. cbv zeta.
  destruct (nvic_ack_spec w1c irq (nvic_hw st) (wf_nvic st Hw) Hirq) as [Wn _].
  set (s0 := set_nvic st _). assert (W0 : chip_wf s0) by (destruct Hw; now split).
  change (stm32_exti_get_pending (exti s0)) with (pr (exti st)).
  change STM32_EXTI_LINES_LEN with 15.
  destruct (exti_irq_loop_spec h (seqZ 0 15) (pr (exti st)) s0 Hh W0 (NoDup_seqZ 0 15)) as (s1 & E & W1 & Hpr).
  1: apply Forall_forall; intros l Hl%elem_of_seqZ; lia.
  1: apply Forall_forall; intros l Hl%elem_of_seqZ; apply Hown; lia.
  rewrite E. cbn [rbind]. eexists. split; [reflexivity|].
  destruct (nvic_unmask_spec w1s irq (nvic_hw s1) (wf_nvic _ W1) Hirq) as [Wu Hu].
  split; [destruct W1; now split|]. split; [chip_simpl; rewrite Hu, Z.eqb_refl by lia; reflexivity|].
  chip_simpl. split; intros l Hl; rewrite Hpr.
  - rewrite bool_decide_true by (apply elem_of_seqZ; lia). unfold s0; chip_simpl.
    now destruct (Z.testbit (pr (exti st)) l).
  - rewrite bool_decide_false by (rewrite elem_of_seqZ; lia). now rewrite andb_false_r.
Qed.

End IrqSpec.

(** [stm32_gpio_irq_set_type] refuses level triggers with -EINVAL and
    changes nothing; for edges it only ever adds triggers to the line (rising and
    falling are kept if they were set before) and touches no other line. *)
Theorem gpio_irq_set_type_adds gpio trigger st :
  chip_wf st -> gpio_ok gpio -> 0 <= trigger ->
  if Z.testbit trigger 2 || Z.testbit trigger 3
  then stm32_gpio_irq_set_type (irq_base st + gpio) trigger st = (- EINVAL, st)
  else exists st', stm32_gpio_irq_set_type (irq_base st + gpio) trigger st = (0, st')
    /\ forall i, 0 <= i -> line_state (exti st') i =
         if i =? gpio mod 16
         then (Z.testbit (imr (exti st)) i, Z.testbit trigger 0 || Z.testbit (rtsr (exti st)) i,
               Z.testbit trigger 1 || Z.testbit (ftsr (exti st)) i, Z.testbit (pr (exti st)) i)
         else line_state (exti st) i.
Proof.
  intros Hw Hg Ht. destruct (gpio_ok_range gpio Hg) as [_ Hr]. unfold stm32_gpio_irq_set_type.
  replace (irq_base st + gpio - irq_base st) with gpio by lia.
  rewrite (proj2 (Z.leb_gt _ _)) by apply Hg. cbn [orb]. cbv zeta.
  change (STM32_GPIO_GETPIN gpio) with (gpio mod 16).
  replace (negb ((trigger .& (IRQ_TYPE_LEVEL_HIGH .| IRQ_TYPE_LEVEL_LOW)) =? 0))
    with (bit_set trigger 2 || bit_set trigger 3).
  2: { unfold bit_set. change (IRQ_TYPE_LEVEL_HIGH .| IRQ_TYPE_LEVEL_LOW) with (BIT 2 .| BIT 3).
    rewrite Z.land_lor_distr_r, <- negb_andb. f_equal.
    destruct (Z.eqb_spec (trigger .& BIT 2 .| trigger .& BIT 3) 0) as [E|E].
    - apply Z.lor_eq_0_iff in E as [-> ->]. reflexivity.
    - destruct (Z.eqb_spec (trigger .& BIT 2) 0) as [E2|]; [|reflexivity]. rewrite E2, Z.lor_0_l in E.
      now destruct (Z.eqb_spec (trigger .& BIT 3) 0). }
  change (negb ((trigger .& IRQ_TYPE_EDGE_RISING) =? 0)) with (bit_set trigger 0).
  change (negb ((trigger .& IRQ_TYPE_EDGE_FALLING) =? 0)) with (bit_set trigger 1).
  rewrite !bit_set_testbit by lia. destruct (_ || _); [reflexivity|].
  eexists. split; [reflexivity|]. intros i Hi.
  destruct (Z.testbit trigger 0), (Z.testbit trigger 1); chip_simpl; cbn [orb];
    unfold line_state, stm32_exti_set_rising, stm32_exti_set_falling; exti_simpl;
    change (1 .<< (gpio mod 16)) with (BIT (gpio mod 16)); rewrite ?set_bit_spec by lia;
    now destruct (i =? gpio mod 16).
Qed.

(** ** Witnesses *)

(** Ports in their reset state, lines 3 (owned by PB3) and 7 (owned by PA7) pending. *)
Definition chip_boot : stm32_gpio_chip := {|
  gpio_ports := replicate 9 inhabitant;
  exti := {| imr := 0x88; emr := 0; rtsr := 0x88; ftsr := 0; swier := 0; pr := 0x8088;
             exticr := [0x1000; 0; 0; 0] |};
  nvic_hw := {| ictr := 3; enable_words := replicate 8 0; prio_words := replicate 60 0 |};
  irq_base := NVIC_IRQS;
  exti_2_gpio := [-1; -1; -1; 19; -1; -1; -1; 7; -1; -1; -1; -1; -1; -1; -1];
  irq_status := fun _ => IRQ_MASKED |}.

Ltac closed_u32 := vm_compute; split; [discriminate|reflexivity].

Lemma chip_boot_wf : chip_wf chip_boot.
Proof.
  split; [reflexivity| | | |reflexivity].
  - cbn [gpio_ports chip_boot]. apply Forall_replicate. split; closed_u32.
  - split; [closed_u32..|reflexivity|]. cbn [exti chip_boot exticr].
    repeat (apply Forall_cons; split; [closed_u32|]). apply Forall_nil_2.
  - split; [reflexivity|]. apply Forall_replicate. closed_u32.
Qed.

Lemma gpio_pin_ops_witness :
  exists st', stm32_gpio_direction_output 37 1 chip_boot = Ok (0, st')
  /\ pin_mode st' 37 = 1 /\ pin_out st' 37 = true /\ pin_out st' 38 = false.
Proof.
  destruct (gpio_pin_ops 37 1 chip_boot chip_boot_wf ltac:(now split) ltac:(now split))
    as [(st' & E & _ & H) _].
  exists st'. split; [exact E|].
  destruct (H 37 ltac:(now split)) as [-> ->]. destruct (H 38 ltac:(now split)) as [_ ->].
  repeat split.
Defined.

Lemma gpio_set_value_not_boolean_witness :
  exists st', stm32_gpio_set_value 37 2 chip_boot = Ok st'
  /\ pin_out st' 37 = false /\ pin_out st' 38 = true.
Proof. apply (gpio_set_value_not_boolean 37 chip_boot chip_boot_wf); [now split|reflexivity]. Defined.

Lemma gpio_irq_enable_routes_witness :
  exists st', stm32_gpio_irq_enable w1c_hw (NVIC_IRQS + 37) chip_boot = Ok st'
  /\ line_source (exti st') 5 = 2 /\ line_source (exti st') 3 = 1.
Proof.
  destruct (gpio_irq_enable_routes w1c_hw 37 chip_boot chip_boot_wf ltac:(now split) ltac:(discriminate))
    as (st' & E & _ & _ & Hs & _ & _ & Ho & _).
  exists st'. split; [exact E|]. split; [exact Hs|].
  destruct (Ho 3 ltac:(lia) ltac:(discriminate)) as [-> _]. reflexivity.
Defined.

Lemma gpio_irq_enable_pin15_witness :
  stm32_gpio_irq_enable w1c_hw (NVIC_IRQS + 15) chip_boot = Fault BadIndex.
Proof.
  apply (gpio_irq_enable_pin15 w1c_hw 15 chip_boot chip_boot_wf); [now split|reflexivity].
Defined.

Lemma gpio_irq_shared_line_witness :
  exists st', stm32_gpio_irq_enable w1c_hw (NVIC_IRQS + 3) chip_boot = Ok st'
  /\ line_state (exti (stm32_gpio_irq_disable w1c_hw (NVIC_IRQS + 19) st')) 3
      = (false, false, false, false).
Proof.
  eexists. split; [reflexivity|].
  eapply (gpio_irq_shared_line w1c_hw 19 3 chip_boot _ chip_boot_wf).
  - now split.
  - now split.
  - discriminate.
  - reflexivity.
  - reflexivity.
Defined.

Lemma exti_handler_serves_witness :
  exists st', stm32_exti_irq_handler w1c_hw w1s_hw (fun _ st => st) 23 chip_boot
              = Ok ([NVIC_IRQS + 19; NVIC_IRQS + 7], st')
  /\ Z.testbit (pr (exti st')) 7 = false /\ Z.testbit (pr (exti st')) 15 = true.
Proof.
  destruct (exti_handler_serves w1c_hw w1s_hw (fun _ st => st) 23 chip_boot) as (st' & E & _ & _ & H1 & H2).
  - split; auto.
  - exact chip_boot_wf.
  - lia.
  - intros l Hl. assert (Hin : l ∈ seqZ 0 15) by (apply elem_of_seqZ; lia).
    change (seqZ 0 15) with [0;1;2;3;4;5;6;7;8;9;10;11;12;13;14] in Hin.
    repeat (apply elem_of_cons in Hin as [->|Hin]; [vm_compute; (discriminate || reflexivity)|]).
    now apply not_elem_of_nil in Hin.
  - exists st'. split; [exact E|]. split; [apply H1; lia|rewrite H2 by lia; reflexivity].
Defined.

Lemma gpio_irq_set_type_adds_witness :
  exists st', stm32_gpio_irq_set_type (NVIC_IRQS + 7) IRQ_TYPE_EDGE_FALLING chip_boot = (0, st')
  /\ line_state (exti st') 7 = (true, true, true, true).
Proof.
  destruct (gpio_irq_set_type_adds 7 IRQ_TYPE_EDGE_FALLING chip_boot chip_boot_wf ltac:(now split)
              ltac:(discriminate)) as (st' & E & H).
  exists st'. split; [exact E|]. rewrite H by lia. reflexivity.
Defined.
