(* ===== verification/Dmamem.v ===== *)
(** * Coherent memory allocator ([mm/dmamem.c])

    The region that U-Boot passes in ATAG_DMAMEM, split into the framebuffer area
    and an allocator with an address-sorted free list and a used list.  The linked
    lists of [struct dm_dsc] are lists of blocks; addresses and sizes are 32-bit
    and wrap as in the C code.  [kmalloc n] says whether the [n]-th [kmalloc] of a
    call succeeds. *)

From S2P Require Import Prelude.

Definition PAGE_SIZE : Z := 4096.

Record dm_dsc := { base : Z; size : Z }.

Record dmamem := {
  dm_base : Z; dm_sz_all : Z; dm_sz_fb : Z;
  dm_lst_free : list dm_dsc; dm_lst_used : list dm_dsc
}.

#[global] Instance dm_dsc_eq_dec : EqDecision dm_dsc.
Proof. solve_decision. Defined.

(** All of it lies in BSS. *)
Definition dmamem_bss : dmamem :=
  {| dm_base := 0; dm_sz_all := 0; dm_sz_fb := 0; dm_lst_free := []; dm_lst_used := [] |}.

Definition set_free st l := {| dm_base := dm_base st; dm_sz_all := dm_sz_all st;
  dm_sz_fb := dm_sz_fb st; dm_lst_free := l; dm_lst_used := dm_lst_used st |}.
Definition set_used st l := {| dm_base := dm_base st; dm_sz_all := dm_sz_all st;
  dm_sz_fb := dm_sz_fb st; dm_lst_free := dm_lst_free st; dm_lst_used := l |}.

(** [struct tag_dmamem] *)
Record tag_dmamem := { tag_base : Z; tag_sz_all : Z; tag_sz_fb : Z }.

Definition parse_tag_dmamem (t : tag_dmamem) (st : dmamem) : Z * dmamem :=
  if tag_sz_all t <? tag_sz_fb t then (0, st)
  else if negb ((tag_base t .& (PAGE_SIZE - 1)) =? 0)
       || negb ((tag_sz_fb t .& (PAGE_SIZE - 1)) =? 0)
       || negb ((tag_sz_all t .& (PAGE_SIZE - 1)) =? 0) then (0, st)
  else (0, {| dm_base := tag_base t; dm_sz_all := tag_sz_all t; dm_sz_fb := tag_sz_fb t;
              dm_lst_free := dm_lst_free st; dm_lst_used := dm_lst_used st |}).

(** The resource and /proc registrations have no effect on the allocator. *)
Definition dm_init (kmalloc : nat -> bool) (st : dmamem) : Z * dmamem :=
  if dm_sz_all st =? 0 then (0, st)
  else if negb (kmalloc 0%nat) then (- ENOMEM, set_free st [])
  else (0, set_free st [{| base := u32 (dm_base st + dm_sz_fb st);
                           size := u32 (dm_sz_all st - dm_sz_fb st) |}]).

(** The search loop: the blocks before the one found, the aligned address in it,
    the block and the blocks after it. *)
Fixpoint find_block (align count : Z) (l : list dm_dsc) :
    result (option (list dm_dsc * Z * dm_dsc * list dm_dsc)) :=
  match l with
  | [] => Ok None
  | dm :: l' =>
      let* q := udiv (u32 (base dm + align - 1)) align in
      let abase := u32 (q * align) in
      if u32 (abase + count * PAGE_SIZE) <=? u32 (base dm + size dm)
      then Ok (Some ([], abase, dm, l'))
      else
        let* r := find_block align count l' in
        Ok (match r with
            | Some (pre, a, d, post) => Some (dm :: pre, a, d, post)
            | None => None
            end)
  end.

Definition page_count (size : Z) : Z := u32 (size + PAGE_SIZE - 1) / PAGE_SIZE.

Definition page_align (align : Z) : Z :=
  let align := if align =? 0 then PAGE_SIZE else align in
  if negb (align mod PAGE_SIZE =? 0)
  then u32 (align + PAGE_SIZE - 1) .& .~ (PAGE_SIZE - 1) else align.

(** [None] is the [NULL] result. *)
Definition dmamem_alloc (kmalloc : nat -> bool) (sz align : Z) (st : dmamem) :
    result (option Z * dmamem) :=
  let count := page_count sz in
  let align := page_align align in
  let* r := find_block align count (dm_lst_free st) in
  match r with
  | None => Ok (None, st)
  | Some (pre, abase, dm, post) =>
      let need_ndm := u32 (abase - base dm + count * PAGE_SIZE) <? size dm in
      let need_adm := negb (abase =? base dm) in
      if need_ndm && negb (kmalloc 0%nat) then Ok (None, st)
      else if need_adm && negb (kmalloc (if need_ndm then 1 else 0)%nat) then Ok (None, st)
      else
        let asize := u32 (abase - base dm) in
        let pre := if need_adm then pre ++ [{| base := base dm; size := asize |}] else pre in
        let dm := if need_adm then {| base := abase; size := u32 (size dm - asize) |} else dm in
        let '(ndm, free) :=
          if need_ndm then
            let ndm := {| base := base dm; size := u32 (count * PAGE_SIZE) |} in
            (ndm, pre ++ {| base := u32 (base ndm + size ndm);
                            size := u32 (size dm - size ndm) |} :: post)
          else (dm, pre ++ post) in
        Ok (Some (base ndm), set_used (set_free st free) (ndm :: dm_lst_used st))
  end.

(** Searching the used list: the block and the list without it. *)
Fixpoint take_used (b : Z) (l : list dm_dsc) : option (dm_dsc * list dm_dsc) :=
  match l with
  | [] => None
  | dm :: l' =>
      if base dm =? b then Some (dm, l')
      else match take_used b l' with
           | Some (d, r) => Some (d, dm :: r)
           | None => None
           end
  end.

(** The insertion point: the free blocks below [b] and the others; the loop stops
    at the first block that is not below. *)
Fixpoint split_free (b : Z) (l : list dm_dsc) : list dm_dsc * list dm_dsc :=
  match l with
  | [] => ([], [])
  | dm :: l' =>
      if b <=? base dm then ([], l)
      else let (pre, post) := split_free b l' in (dm :: pre, post)
  end.

Definition concat_next (dm : dm_dsc) (post : list dm_dsc) : dm_dsc * list dm_dsc :=
  match post with
  | next :: post' =>
      if u32 (base dm + size dm) =? base next
      then ({| base := base dm; size := u32 (size dm + size next) |}, post')
      else (dm, post)
  | [] => (dm, [])
  end.

(** [prev] is the last block of [pre]. *)
Definition concat_prev (pre : list dm_dsc) (dm : dm_dsc) (post : list dm_dsc) : list dm_dsc :=
  match rev pre with
  | prev :: rpre =>
      if u32 (base prev + size prev) =? base dm
      then rev rpre ++ {| base := base prev; size := u32 (size prev + size dm) |} :: post
      else pre ++ dm :: post
  | [] => dm :: post
  end.

Definition dmamem_free (b : Z) (st : dmamem) : dmamem :=
  match take_used b (dm_lst_used st) with
  | None => st
  | Some (dm, used) =>
      let (pre, post) := split_free b (dm_lst_free st) in
      let (dm, post) := concat_next dm post in
      set_used (set_free st (concat_prev pre dm post)) used
  end.

(** The two out-parameters, when the caller wants them. *)
Definition dmamem_fb_get (st : dmamem) : Z * option (Z * Z) :=
  if dm_sz_all st =? 0 then (- ENODEV, None) else (0, Some (dm_base st, dm_sz_fb st)).

(** The counters of a list printed by [dm_proc]: blocks, total and largest size. *)
Definition list_metrics (l : list dm_dsc) : Z * Z * Z :=
  fold_left (fun '(n, total, mx) dm =>
    (n + 1, u32 (total + size dm), if mx <? size dm then size dm else mx)) l (0, 0, 0).

Example alloc_free_example :
  let st := {| dm_base := 0x20000; dm_sz_all := 0x10000; dm_sz_fb := 0x4000;
               dm_lst_free := [{| base := 0x24000; size := 0xC000 |}]; dm_lst_used := [] |} in
  match dmamem_alloc (fun _ => true) 5000 0x8000 st with
  | Ok (Some p, st') =>
      p = 0x28000
      /\ dm_lst_free st' = [{| base := 0x24000; size := 0x4000 |}; {| base := 0x2A000; size := 0x6000 |}]
      /\ dmamem_free p st' = st
  | _ => False
  end.
Proof. vm_compute. repeat split. Qed.

(** ** Blocks as sets of addresses *)

(** 1 if the block contains the address, and how many blocks of a list do. *)
Definition inb (b : dm_dsc) (x : Z) : Z :=
  if (base b <=? x) && (x <? base b + size b) then 1 else 0.
Fixpoint cnt (l : list dm_dsc) (x : Z) : Z :=
  match l with [] => 0 | b :: l => inb b x + cnt l x end.

Lemma inb_range b x : 0 <= inb b x <= 1.
Proof. unfold inb. destruct (_ && _); lia. Qed.

Lemma inb_in b x : base b <= x < base b + size b -> inb b x = 1.
Proof. unfold inb. intros. zcrush. Qed.

Lemma inb_out b x : x < base b \/ base b + size b <= x -> inb b x = 0.
Proof. unfold inb. intros. zcrush. Qed.

Lemma inb_1 b x : inb b x = 1 -> base b <= x < base b + size b.
Proof. unfold inb. zcrush. Qed.

(** Cutting a block in two. *)
Lemma inb_split b s1 s2 x :
  0 <= s1 -> 0 <= s2 ->
  inb {| base := b; size := s1 + s2 |} x =
  inb {| base := b; size := s1 |} x + inb {| base := b + s1; size := s2 |} x.
Proof. intros. unfold inb. cbn [base size]. zcrush. Qed.

Lemma cnt_nonneg l x : 0 <= cnt l x.
Proof. induction l as [|b l IH]; simpl; [lia|]. pose proof (inb_range b x). lia. Qed.

Lemma cnt_app l l' x : cnt (l ++ l') x = cnt l x + cnt l' x.
Proof. induction l as [|b l IH]; simpl; lia. Qed.

Lemma cnt_in b l x : b ∈ l -> inb b x <= cnt l x.
Proof.
  induction 1 as [|b c l _ IH]; simpl.
  - pose proof (cnt_nonneg l x). lia.
  - pose proof (inb_range c x). lia.
Qed.

(** A sorted, coalesced list of non-empty blocks above [m]: between two
    neighbours there is at least one address. *)
Fixpoint chain (m : Z) (l : list dm_dsc) : Prop :=
  match l with
  | [] => True
  | b :: l => m < base b /\ 0 < size b /\ chain (base b + size b) l
  end.

Fixpoint chain_end (m : Z) (l : list dm_dsc) : Z :=
  match l with [] => m | b :: l => chain_end (base b + size b) l end.

Lemma chain_weaken m m' l : m' <= m -> chain m l -> chain m' l.
Proof. destruct l; simpl; [auto|]. intros ? (? & ? & ?). repeat split; (lia || assumption). Qed.

Lemma chain_app m l l' : chain m (l ++ l') <-> chain m l /\ chain (chain_end m l) l'.
Proof. revert m. induction l as [|b l IH]; simpl; intros m; [tauto|]. rewrite IH. tauto. Qed.

Lemma chain_end_app m l l' : chain_end m (l ++ l') = chain_end (chain_end m l) l'.
Proof. revert m. induction l; simpl; auto. Qed.

Lemma chain_end_ge m l : chain m l -> m <= chain_end m l.
Proof.
  revert m. induction l as [|b l IH]; simpl; intros m; [lia|].
  intros (? & ? & H). specialize (IH _ H). lia.
Qed.

Lemma chain_cnt_low m l x : chain m l -> x <= m -> cnt l x = 0.
Proof.
  revert m. induction l as [|b l IH]; simpl; intros m; [reflexivity|].
  intros (? & ? & H) Hx. rewrite inb_out by lia. apply (IH _ H). lia.
Qed.

(** A sorted, coalesced list is determined by the addresses it covers. *)
Lemma chain_canonical m l1 l2 :
  chain m l1 -> chain m l2 -> (forall x, cnt l1 x = cnt l2 x) -> l1 = l2.
Proof.
  revert m l2. induction l1 as [|b1 l1 IH]; intros m [|b2 l2]; cbn [chain].
  - reflexivity.
  - intros _ (? & ? & H) E. specialize (E (base b2)). simpl in E.
    rewrite inb_in in E by lia. pose proof (cnt_nonneg l2 (base b2)). lia.
  - intros (? & ? & H) _ E. specialize (E (base b1)). simpl in E.
    rewrite inb_in in E by lia. pose proof (cnt_nonneg l1 (base b1)). lia.
  - intros (Hm1 & Hs1 & H1) (Hm2 & Hs2 & H2) E. cbn [cnt] in E.
    assert (Hb : base b1 = base b2).
    { destruct (Z.lt_total (base b1) (base b2)) as [Hlt|[Heq|Hgt]]; [|assumption|]; exfalso.
      - specialize (E (base b1)). rewrite inb_in, (inb_out b2), (chain_cnt_low _ l2 _ H2) in E by lia.
        pose proof (cnt_nonneg l1 (base b1)). lia.
      - specialize (E (base b2)). rewrite (inb_in b2), (inb_out b1), (chain_cnt_low _ l1 _ H1) in E by lia.
        pose proof (cnt_nonneg l2 (base b2)). lia. }
    assert (Hs : size b1 = size b2).
    { destruct (Z.lt_total (size b1) (size b2)) as [Hlt|[Heq|Hgt]]; [|assumption|]; exfalso.
      - specialize (E (base b1 + size b1)).
        rewrite (inb_in b2), (inb_out b1), (chain_cnt_low _ l1 _ H1) in E by lia.
        pose proof (cnt_nonneg l2 (base b1 + size b1)). lia.
      - specialize (E (base b2 + size b2)).
        rewrite (inb_in b1), (inb_out b2), (chain_cnt_low _ l2 _ H2) in E by lia.
        pose proof (cnt_nonneg l1 (base b2 + size b2)). lia. }
    assert (b1 = b2) as -> by (destruct b1, b2; simpl in *; congruence).
    f_equal. apply (IH _ _ H1 H2). intros x. specialize (E x). lia.
Qed.

(** ** The invariant *)

Definition dm_lo (st : dmamem) : Z := dm_base st + dm_sz_fb st.
Definition dm_hi (st : dmamem) : Z := dm_base st + dm_sz_all st.

(** A block of whole pages inside the allocator's region. *)
Definition blk_ok (st : dmamem) (b : dm_dsc) : Prop :=
  dm_lo st <= base b /\ 0 < size b /\ base b + size b <= dm_hi st
  /\ (PAGE_SIZE | base b) /\ (PAGE_SIZE | size b).

Record dm_inv (st : dmamem) : Prop := {
  inv_region : 0 <= dm_base st /\ 0 <= dm_sz_fb st <= dm_sz_all st /\ dm_hi st < u32_max;
  inv_free : Forall (blk_ok st) (dm_lst_free st);
  inv_used : Forall (blk_ok st) (dm_lst_used st);
  inv_chain : chain (-1) (dm_lst_free st);
  inv_part : forall x, cnt (dm_lst_free st) x + cnt (dm_lst_used st) x
                       = if (dm_lo st <=? x) && (x <? dm_hi st) then 1 else 0
}.

(** ** Rounding *)

Lemma land_not_page x : is_u32 x -> x .& .~ (PAGE_SIZE - 1) = x / PAGE_SIZE * PAGE_SIZE.
Proof. intros Hx. exact (land_not_ones x 12 ltac:(lia) Hx). Qed.

Lemma page_count_spec sz :
  0 <= sz <= u32_max + 1 - PAGE_SIZE ->
  page_count sz = (sz + PAGE_SIZE - 1) / PAGE_SIZE
  /\ sz <= page_count sz * PAGE_SIZE < sz + PAGE_SIZE.
Proof.
  unfold page_count, u32_max, PAGE_SIZE. intros. rewrite u32_id by (unfold fits; lia).
  split; [reflexivity|]. zdiv.
Qed.

Lemma page_align_spec align :
  0 <= align <= u32_max + 1 - PAGE_SIZE ->
  (PAGE_SIZE | page_align align) /\ 0 < page_align align /\ align <= page_align align < align + PAGE_SIZE + 1
  /\ ((PAGE_SIZE | align) -> 0 < align -> page_align align = align).
Proof.
  unfold page_align, u32_max. intros Ha. destruct (Z.eqb_spec align 0) as [->|Hne].
  - change (PAGE_SIZE mod PAGE_SIZE =? 0) with true. cbn [negb]. unfold PAGE_SIZE.
    repeat split; try lia. apply Z.divide_refl.
  - destruct (Z.eqb_spec (align mod PAGE_SIZE) 0) as [E|E]; cbn [negb].
    + unfold PAGE_SIZE in *. repeat split; try lia. now apply Z.mod_divide.
    + rewrite land_not_page by apply u32_range. unfold PAGE_SIZE in *.
      rewrite u32_id by (unfold fits; lia). repeat split; try zdiv.
      * exists ((align + 4096 - 1) / 4096). reflexivity.
      * intros Hd. apply Z.mod_divide in Hd; [|lia]. lia.
Qed.

Definition align_up (b al : Z) : Z := (b + al - 1) / al * al.

Lemma align_up_spec b al :
  0 < al -> (al | align_up b al) /\ b <= align_up b al < b + al.
Proof.
  intros Hal. unfold align_up. split; [exists ((b + al - 1) / al); reflexivity|].
  pose proof (Z.mod_pos_bound (b + al - 1) al Hal). pose proof (Z.div_mod (b + al - 1) al ltac:(lia)). lia.
Qed.

(** ** Allocation *)

(** The request cannot wrap the 32-bit address arithmetic. *)
Definition req_ok (st : dmamem) (sz align : Z) : Prop :=
  0 < sz /\ 0 <= align <= u32_max + 1 - PAGE_SIZE
  /\ dm_hi st + page_align align + (sz + PAGE_SIZE) <= u32_max + 1.

(** A free block with room for [c] pages at its first aligned address. *)
Definition room (al c : Z) (b : dm_dsc) : Prop :=
  align_up (base b) al + c * PAGE_SIZE <= base b + size b.

Lemma find_block_spec st al c l :
  0 <= dm_lo st -> 0 < al -> 0 <= c -> dm_hi st + al + c * PAGE_SIZE <= u32_max + 1 ->
  dm_hi st < u32_max -> Forall (blk_ok st) l ->
  exists r, find_block al c l = Ok r /\
  match r with
  | None => Forall (fun b => ~ room al c b) l
  | Some (pre, a, d, post) =>
      l = pre ++ d :: post /\ a = align_up (base d) al /\ room al c d
      /\ Forall (fun b => ~ room al c b) pre
  end.
Proof.
  intros Hlo Hal Hc Hno Hhi. unfold u32_max, PAGE_SIZE in *.
  induction l as [|b l IH]; intros Hf; cbn [find_block].
  - exists None. split; [reflexivity|]. constructor.
  - apply Forall_cons in Hf as [(H1 & H2 & H3 & _) Hf].
    destruct (align_up_spec (base b) al Hal) as [_ Hup]. unfold udiv.
    destruct (Z.eqb_spec al 0); [lia|]. cbn [rbind]. unfold PAGE_SIZE.
    rewrite (u32_id (base b + al - 1)) by (unfold fits; lia). fold (align_up (base b) al).
    rewrite (u32_id (align_up _ _)), !u32_id by (unfold fits; lia).
    destruct (Z.leb_spec (align_up (base b) al + c * 4096) (base b + size b)) as [Hr|Hr].
    + eexists. split; [reflexivity|]. repeat split; [assumption|constructor].
    + destruct (IH Hf) as (r & E & Hrs). rewrite E. cbn [rbind].
      eexists. split; [reflexivity|]. destruct r as [[[[pre a] d] post]|].
      * destruct Hrs as (-> & Ha & Hd & Hp). repeat split; try assumption.
        constructor; [|assumption]. unfold room, PAGE_SIZE. lia.
      * constructor; [|assumption]. unfold room, PAGE_SIZE. lia.
Qed.

(** The free list after block [d] was replaced by what is left of it. *)
Lemma chain_replace m pre d rest post :
  chain m (pre ++ d :: post) ->
  (forall m', m' < base d -> chain m' rest /\ chain_end m' rest <= base d + size d) ->
  chain m (pre ++ rest ++ post).
Proof.
  rewrite !chain_app. cbn [chain]. intros (Hp & Hm & Hs & Hpost) Hr.
  destruct (Hr _ Hm) as [H1 H2]. repeat split; try assumption. now apply (chain_weaken _ _ _ H2).
Qed.

(** The pieces of a block [d] around the pages [a, a + n): in front and behind. *)
Definition front (d : dm_dsc) (a : Z) : list dm_dsc :=
  if a =? base d then [] else [{| base := base d; size := a - base d |}].
Definition back (d : dm_dsc) (a n : Z) : list dm_dsc :=
  if a + n =? base d + size d then []
  else [{| base := a + n; size := base d + size d - (a + n) |}].

Lemma pieces_cnt d a n x :
  base d <= a -> 0 <= n -> a + n <= base d + size d ->
  cnt (front d a ++ back d a n) x + inb {| base := a; size := n |} x = inb d x.
Proof.
  intros. unfold front, back, inb.
  destruct (Z.eqb_spec a (base d)), (Z.eqb_spec (a + n) (base d + size d)); cbn [app cnt base size];
    unfold inb; cbn [base size]; zcrush.
Qed.

Lemma pieces_chain d a n m :
  base d <= a -> 0 < n -> a + n <= base d + size d -> m < base d ->
  chain m (front d a ++ back d a n) /\ chain_end m (front d a ++ back d a n) <= base d + size d.
Proof.
  intros. unfold front, back.
  destruct (Z.eqb_spec a (base d)), (Z.eqb_spec (a + n) (base d + size d)); cbn; repeat split; lia.
Qed.

Lemma pieces_ok st d a n :
  blk_ok st d -> base d <= a -> 0 < n -> a + n <= base d + size d ->
  (PAGE_SIZE | a) -> (PAGE_SIZE | n) -> Forall (blk_ok st) (front d a ++ back d a n).
Proof.
  intros (H1 & H2 & H3 & H4 & H5) Ha Hn Hl Da Dn. unfold front, back, blk_ok in *.
  destruct (Z.eqb_spec a (base d)), (Z.eqb_spec (a + n) (base d + size d)); cbn [app];
    repeat (apply Forall_cons; split; [cbn [base size]; repeat split; try lia;
      auto using Z.divide_add_r, Z.divide_sub_r|]); apply Forall_nil_2.
Qed.

(** What a successful allocation does to the two lists. *)
Definition alloc_post (st : dmamem) (pre : list dm_dsc) (d : dm_dsc) (post : list dm_dsc) (a n : Z) :=
  set_used (set_free st (pre ++ (front d a ++ back d a n) ++ post))
    ({| base := a; size := n |} :: dm_lst_used st).

Lemma alloc_effect kmalloc sz align st pre a d post :
  dm_inv st -> req_ok st sz align ->
  let c := page_count sz in
  find_block (page_align align) c (dm_lst_free st) = Ok (Some (pre, a, d, post)) ->
  blk_ok st d -> base d <= a -> a + c * PAGE_SIZE <= base d + size d ->
  dmamem_alloc kmalloc sz align st = Ok (Some a, alloc_post st pre d post a (c * PAGE_SIZE))
  \/ (dmamem_alloc kmalloc sz align st = Ok (None, st)
      /\ (kmalloc 0%nat = false \/ kmalloc 1%nat = false)).
Proof.
  intros [(R1 & R2 & R3) _ _ _ _] (Hsz & Hal & Hno) c Ef (B1 & B2 & B3 & _) Ha Hfit. unfold c in *.
  destruct (page_count_spec sz) as [_ Hc].
  { destruct (page_align_spec align Hal) as (_ & ? & _). unfold dm_hi, u32_max, PAGE_SIZE in *. lia. }
  unfold dmamem_alloc. rewrite Ef. cbn [rbind]. cbv zeta.
  set (n := page_count sz * PAGE_SIZE) in *. unfold u32_max, dm_lo, dm_hi in *.
  rewrite !(u32_id (a - base d + n)), !(u32_id (a - base d)), !(u32_id n), !(u32_id (size d - (a - base d)))
    by (unfold fits; lia).
  unfold alloc_post, front, back.
  destruct (Z.ltb_spec (a - base d + n) (size d)) as [Hnd|Hnd]; cbn [andb].
  - destruct (kmalloc 0%nat) eqn:K0; cbn [negb]; [|right; auto].
    destruct (Z.eqb_spec (a + n) (base d + size d)); [lia|].
    destruct (Z.eqb_spec a (base d)) as [->|Hne]; cbn [andb negb].
    + left. cbn [base size app]. repeat f_equal.
      * rewrite u32_id by (unfold fits; lia). reflexivity.
      * rewrite u32_id by (unfold fits; lia). lia.
    + destruct (kmalloc 1%nat) eqn:K1; cbn [negb]; [|right; auto].
      left. cbn [base size app]. rewrite <- !app_assoc. cbn [app]. repeat f_equal.
      * rewrite u32_id by (unfold fits; lia). reflexivity.
      * rewrite u32_id by (unfold fits; lia). lia.
  - destruct (Z.eqb_spec (a + n) (base d + size d)) as [Heq|]; [|lia].
    destruct (Z.eqb_spec a (base d)) as [->|Hne]; cbn [andb negb].
    + left. cbn [base size app].
      destruct d as [bd sd]. cbn [base size] in *. repeat f_equal. lia.
    + destruct (kmalloc 0%nat) eqn:K0; cbn [negb]; [|right; auto].
      left. cbn [base size app]. rewrite <- !app_assoc. cbn [app]. repeat f_equal. lia.
Qed.

Lemma alloc_post_inv st pre d post a n :
  dm_inv st -> dm_lst_free st = pre ++ d :: post -> base d <= a -> 0 < n ->
  a + n <= base d + size d -> (PAGE_SIZE | a) -> (PAGE_SIZE | n) ->
  dm_inv (alloc_post st pre d post a n).
Proof.
  intros [Hr Hf Hu Hc Hp] E Ha Hn Hl Da Dn. rewrite E in *.
  apply Forall_app in Hf as [Hf1 [Hd Hf2]%Forall_cons].
  split; cbn [dm_base dm_sz_fb dm_sz_all alloc_post set_used set_free dm_lst_free dm_lst_used].
  - exact Hr.
  - rewrite !Forall_app. pose proof (pieces_ok st d a n Hd Ha Hn Hl Da Dn) as H.
    apply Forall_app in H. split; [exact Hf1|]. split; [exact H|exact Hf2].
  - apply Forall_cons. split; [|exact Hu]. destruct Hd as (H1 & H2 & H3 & _).
    change (blk_ok st {| base := a; size := n |}). unfold blk_ok. cbn [base size].
    split; [lia|]. split; [lia|]. split; [lia|]. split; assumption.
  - apply (chain_replace _ _ _ _ _ Hc). intros m' Hm'. now apply pieces_chain.
  - intros x. change (dm_lo _) with (dm_lo st). change (dm_hi _) with (dm_hi st).
    rewrite <- Hp. cbn [cnt]. pose proof (pieces_cnt d a n x Ha ltac:(lia) Hl) as Hpc.
    rewrite !cnt_app in *. cbn [cnt]. lia.
Qed.

(** The whole behaviour of [dmamem_alloc] on a request that does not wrap. *)
Lemma alloc_spec kmalloc sz align st :
  dm_inv st -> req_ok st sz align ->
  let n := page_count sz * PAGE_SIZE in
  (exists pre d post, dm_lst_free st = pre ++ d :: post
     /\ room (page_align align) (page_count sz) d
     /\ Forall (fun b => ~ room (page_align align) (page_count sz) b) pre
     /\ dm_inv (alloc_post st pre d post (align_up (base d) (page_align align)) n)
     /\ (dmamem_alloc kmalloc sz align st
         = Ok (Some (align_up (base d) (page_align align)),
               alloc_post st pre d post (align_up (base d) (page_align align)) n)
         \/ (dmamem_alloc kmalloc sz align st = Ok (None, st)
             /\ (kmalloc 0%nat = false \/ kmalloc 1%nat = false))))
  \/ (Forall (fun b => ~ room (page_align align) (page_count sz) b) (dm_lst_free st)
      /\ dmamem_alloc kmalloc sz align st = Ok (None, st)).
Proof.
  intros Hi Hq n. pose proof Hi as [(R1 & R2 & R3) Hf _ _ _]. pose proof Hq as (Hsz & Hal & Hno).
  destruct (page_align_spec align Hal) as (Dal & Pal & _).
  destruct (page_count_spec sz) as [_ Hc]; [unfold dm_hi, u32_max, PAGE_SIZE in *; lia|].
  destruct (find_block_spec st (page_align align) (page_count sz) (dm_lst_free st)) as (r & E & Hr);
    try assumption.
  1: unfold dm_lo; lia. 1: unfold PAGE_SIZE in *; lia. 1: unfold PAGE_SIZE, u32_max in *; lia.
  destruct r as [[[[pre a] d] post]|]; [left|right].
  - destruct Hr as (El & -> & Hroom & Hpre). exists pre, d, post.
    destruct (align_up_spec (base d) (page_align align) Pal) as [Da Ha].
    assert (Hd : blk_ok st d) by (rewrite El, Forall_app, Forall_cons in Hf; tauto).
    assert (Hn : 0 < n) by (unfold n, PAGE_SIZE in *; lia).
    split; [exact El|]. split; [exact Hroom|]. split; [exact Hpre|]. split.
    + apply alloc_post_inv; try assumption; [lia| |apply Z.divide_factor_r].
      now apply (Z.divide_trans _ (page_align align)).
    + apply (alloc_effect kmalloc sz align st pre _ d post Hi Hq E Hd); [lia|exact Hroom].
  - split; [exact Hr|]. unfold dmamem_alloc. now rewrite E.
Qed.

(** C37: An allocation of a non-zero size whose size and alignment do not reach past 32 bits from the end of the region
    ([req_ok]; one that does can be given too small a block, [dmamem_alloc_wraps]).  When it succeeds, the address is a
    multiple of the requested alignment (rounded up to whole pages), the block has at least the requested size in whole pages,
    lies inside the allocator's region, every byte of it was free before and overlaps no live block; the invariant (free and used
    blocks tile the region, free list sorted and coalesced) is kept.  When it fails nothing changes. *)
Theorem dmamem_alloc_sound kmalloc sz align st :
  dm_inv st -> req_ok st sz align ->
  exists p st', dmamem_alloc kmalloc sz align st = Ok (p, st') /\ dm_inv st' /\
  match p with
  | None => st' = st
  | Some a =>
      exists n, dm_lst_used st' = {| base := a; size := n |} :: dm_lst_used st
      /\ (page_align align | a) /\ sz <= n < sz + PAGE_SIZE /\ (PAGE_SIZE | n)
      /\ dm_lo st <= a /\ a + n <= dm_hi st
      /\ (forall x, a <= x < a + n -> cnt (dm_lst_free st) x = 1 /\ cnt (dm_lst_used st) x = 0)
      /\ forall x, cnt (dm_lst_free st') x
                   = cnt (dm_lst_free st) x - inb {| base := a; size := n |} x
  end.
Proof.
  intros Hi Hq. pose proof Hq as (Hsz & Hal & Hno).
  destruct (page_align_spec align Hal) as (_ & Pal & _).
  destruct (page_count_spec sz) as [_ Hc].
  { destruct Hi as [(? & ? & ?) _ _ _ _]. unfold dm_hi, u32_max, PAGE_SIZE in *. lia. }
  destruct (alloc_spec kmalloc sz align st Hi Hq) as [(pre & d & post & El & Hroom & _ & Hi' & [E|[E _]])|[_ E]].
  2, 3: exists None, st; auto.
  destruct (align_up_spec (base d) (page_align align) Pal) as [Da Ha].
  set (a := align_up (base d) (page_align align)) in *. set (n := page_count sz * PAGE_SIZE) in *.
  eexists _, _. split; [exact E|]. split; [exact Hi'|]. exists n.
  assert (Hd : blk_ok st d) by (pose proof (inv_free st Hi) as Hf; rewrite El, Forall_app, Forall_cons in Hf; tauto).
  destruct Hd as (H1 & H2 & H3 & _). unfold room in Hroom. fold a n in Hroom.
  split; [reflexivity|]. split; [exact Da|]. split; [exact Hc|]. split; [apply Z.divide_factor_r|].
  split; [lia|]. split; [lia|]. split.
  - intros x Hx. pose proof (inv_part st Hi x) as Hp. pose proof (cnt_nonneg (dm_lst_used st) x).
    assert (inb d x <= cnt (dm_lst_free st) x) by (apply cnt_in; rewrite El, elem_of_app, elem_of_cons; tauto).
    rewrite inb_in in H0 by lia. destruct (_ && _); lia.
  - intros x. pose proof (pieces_cnt d a n x ltac:(lia) ltac:(unfold n, PAGE_SIZE in *; lia) Hroom) as Hpc.
    cbn [dm_lst_free alloc_post set_used set_free]. rewrite El, !cnt_app in *. cbn [cnt]. lia.
Qed.

(** First fit, and complete: if the kernel has memory for descriptors, the
    allocation succeeds exactly when some free block has room for the pages at an
    aligned address, and then it takes the lowest such block; otherwise it
    returns [NULL]. *)
Theorem dmamem_alloc_first_fit kmalloc sz align st :
  dm_inv st -> req_ok st sz align -> (forall i, kmalloc i = true) ->
  (forall b, b ∈ dm_lst_free st -> room (page_align align) (page_count sz) b ->
     exists a d st', dmamem_alloc kmalloc sz align st = Ok (Some a, st')
       /\ d ∈ dm_lst_free st /\ a = align_up (base d) (page_align align) /\ base d <= base b)
  /\ (Forall (fun b => ~ room (page_align align) (page_count sz) b) (dm_lst_free st) ->
      dmamem_alloc kmalloc sz align st = Ok (None, st)).
Proof.
  intros Hi Hq Hk.
  destruct (alloc_spec kmalloc sz align st Hi Hq) as
    [(pre & d & post & El & Hroom & Hpre & _ & [E|[_ [K|K]]])|[Hno E]].
  2, 3: now rewrite Hk in K.
  - split.
    + intros b Hb Hrb. eexists _, d, _. split; [exact E|].
      split; [rewrite El, elem_of_app, elem_of_cons; tauto|]. split; [reflexivity|].
      pose proof (inv_chain st Hi) as Hch. rewrite El in Hb, Hch.
      apply elem_of_app in Hb as [Hb|[->|Hb]%elem_of_cons].
      * rewrite Forall_forall in Hpre. now destruct (Hpre b Hb).
      * lia.
      * apply chain_app in Hch as [_ (Hm & Hs & Hch)]. clear -Hb Hs Hch.
        revert Hb Hch. assert (Hle : base d <= base d + size d) by lia. revert Hle.
        generalize (base d + size d). induction post as [|c post IH]; intros m Hle Hb Hch.
        -- now apply not_elem_of_nil in Hb.
        -- destruct Hch as (H1 & H2 & H3). apply elem_of_cons in Hb as [->|Hb]; [lia|]. apply (IH (base c + size c)); (lia || assumption).
    + rewrite El, Forall_app, Forall_cons. tauto.
  - split; [|auto]. intros b Hb Hrb. rewrite Forall_forall in Hno. now destruct (Hno b Hb).
Qed.

(** ** Freeing *)

Lemma take_used_Some b l dm r :
  take_used b l = Some (dm, r) -> base dm = b /\ exists l1 l2, l = l1 ++ dm :: l2 /\ r = l1 ++ l2.
Proof.
  revert dm r. induction l as [|c l IH]; simpl; intros dm r; [discriminate|].
  destruct (Z.eqb_spec (base c) b) as [Hb|Hb].
  - intros [= <- <-]. split; [assumption|]. now exists [], l.
  - destruct (take_used b l) as [[d' r']|] eqn:E; [|discriminate]. intros [= <- <-].
    destruct (IH _ _ eq_refl) as (H & l1 & l2 & -> & ->). split; [assumption|]. now exists (c :: l1), l2.
Qed.

Lemma take_used_None b l : take_used b l = None <-> Forall (fun c => base c <> b) l.
Proof.
  induction l as [|c l IH]; simpl; [split; [constructor|reflexivity]|]. rewrite Forall_cons, <- IH.
  destruct (Z.eqb_spec (base c) b), (take_used b l) as [[]|]; split; intros; intuition congruence.
Qed.

Lemma split_free_spec b l :
  let (pre, post) := split_free b l in
  l = pre ++ post /\ Forall (fun c => base c < b) pre
  /\ match post with [] => True | n :: _ => b <= base n end.
Proof.
  induction l as [|c l IH]; simpl; [auto|]. destruct (Z.leb_spec b (base c)); [auto|].
  destruct (split_free b l) as [pre post]. destruct IH as (-> & Hp & Hq). auto.
Qed.

(** Two blocks, one of the free list and one live, do not overlap. *)
Lemma disjoint_free_used st f u x :
  dm_inv st -> f ∈ dm_lst_free st -> u ∈ dm_lst_used st -> inb f x + inb u x <= 1.
Proof.
  intros Hi Hf Hu. pose proof (cnt_in f _ x Hf). pose proof (cnt_in u _ x Hu).
  pose proof (inv_part st Hi x). destruct (_ && _); lia.
Qed.

Lemma below_end st f u :
  dm_inv st -> f ∈ dm_lst_free st -> u ∈ dm_lst_used st -> 0 < size u ->
  base f < base u -> base f + size f <= base u.
Proof.
  intros Hi Hf Hu Hs Hlt. pose proof (disjoint_free_used st f u (base u) Hi Hf Hu) as H.
  rewrite (inb_in u) in H by lia. destruct (Z.le_gt_cases (base f + size f) (base u)); [assumption|].
  rewrite inb_in in H by lia. lia.
Qed.

Lemma above_base st f u :
  dm_inv st -> f ∈ dm_lst_free st -> u ∈ dm_lst_used st -> 0 < size f ->
  base u <= base f -> base u + size u <= base f.
Proof.
  intros Hi Hf Hu Hs Hle. pose proof (disjoint_free_used st f u (base f) Hi Hf Hu) as H.
  rewrite (inb_in f) in H by lia. destruct (Z.le_gt_cases (base u + size u) (base f)); [assumption|].
  rewrite (inb_in u) in H by lia. lia.
Qed.

(** Merging with the upper neighbour. *)
Lemma concat_next_spec st dm post :
  dm_inv st -> blk_ok st dm -> Forall (blk_ok st) post -> chain (base dm + size dm - 1) post ->
  let (dm', post') := concat_next dm post in
  base dm' = base dm /\ blk_ok st dm' /\ Forall (blk_ok st) post'
  /\ chain (base dm' + size dm') post'
  /\ forall x, inb dm' x + cnt post' x = inb dm x + cnt post x.
Proof.
  intros [(R1 & R2 & R3) _ _ _ _] Hd Hf Hc. pose proof Hd as (H1 & H2 & H3 & H4 & H5).
  unfold concat_next, u32_max, dm_hi, dm_lo in *.
  destruct post as [|n post]; [auto|]. apply Forall_cons in Hf as [Hn Hf]. destruct Hc as (C1 & C2 & C3).
  pose proof Hn as (N1 & N2 & N3 & N4 & N5). unfold dm_hi, dm_lo in *.
  rewrite !u32_id by (unfold fits; lia).
  destruct (Z.eqb_spec (base dm + size dm) (base n)) as [E|E]; cbn [base size].
  - cbn [base size]. split; [reflexivity|].
    split; [unfold blk_ok, dm_hi, dm_lo; cbn [base size]; repeat split; try lia; auto using Z.divide_add_r|].
    split; [assumption|]. split; [replace (base dm + (size dm + size n)) with (base n + size n) by lia; assumption|].
    intros x. cbn [cnt]. rewrite inb_split by lia. rewrite E. destruct dm, n; simpl in *. lia.
  - split; [reflexivity|]. split; [assumption|]. split; [now constructor|]. split; [|auto].
    cbn [chain]. repeat split; (lia || assumption).
Qed.

(** Merging with the lower neighbour. *)
Lemma concat_prev_spec st pre dm post :
  dm_inv st -> blk_ok st dm -> Forall (blk_ok st) pre -> Forall (blk_ok st) post ->
  chain (-1) pre -> chain_end (-1) pre <= base dm -> chain (base dm + size dm) post ->
  Forall (blk_ok st) (concat_prev pre dm post) /\ chain (-1) (concat_prev pre dm post)
  /\ forall x, cnt (concat_prev pre dm post) x = cnt pre x + inb dm x + cnt post x.
Proof.
  intros [(R1 & R2 & R3) _ _ _ _] Hd Hp Hq Hc He Hcq. pose proof Hd as (H1 & H2 & H3 & H4 & H5).
  unfold concat_prev, u32_max in *.
  destruct pre as [|p pre' _] using rev_ind.
  - cbn [rev]. split; [now constructor|]. split; [|intros; simpl; lia].
    cbn [chain]. repeat split; try assumption. unfold dm_lo in *. lia.
  - rewrite rev_app_distr. cbn [rev app]. rewrite rev_involutive.
    apply Forall_app in Hp as [Hp' [Hpb _]%Forall_cons]. pose proof Hpb as (P1 & P2 & P3 & P4 & P5).
    rewrite chain_app in Hc. destruct Hc as [Hc1 (Hc2 & Hc3 & _)].
    rewrite chain_end_app in He. cbn [chain_end] in He. unfold dm_hi, dm_lo in *.
    rewrite (u32_id (base p + size p)) by (unfold fits; lia).
    destruct (Z.eqb_spec (base p + size p) (base dm)) as [E|E].
    + rewrite u32_id by (unfold fits; lia). split; [|split].
      * rewrite Forall_app, Forall_cons. split; [assumption|]. split; [|assumption].
        unfold blk_ok, dm_hi, dm_lo; cbn [base size]; repeat split; try lia; auto using Z.divide_add_r.
      * apply chain_app. split; [assumption|]. cbn [chain base size]. repeat split; try lia.
        now replace (base p + (size p + size dm)) with (base dm + size dm) by lia.
      * intros x. rewrite !cnt_app. cbn [cnt]. rewrite inb_split by lia. rewrite E. destruct dm, p; simpl in *. lia.
    + split; [|split].
      * apply Forall_app. split; [|now constructor]. apply Forall_app. split; [assumption|now repeat constructor].
      * rewrite <- app_assoc. cbn [app]. apply chain_app. split; [assumption|]. cbn [chain].
        repeat split; (lia || assumption).
      * intros x. rewrite !cnt_app. cbn [cnt]. lia.
Qed.

Lemma chain_end_below st pre u m :
  dm_inv st -> u ∈ dm_lst_used st -> 0 < size u -> m <= base u ->
  Forall (fun f => f ∈ dm_lst_free st /\ base f < base u) pre -> chain_end m pre <= base u.
Proof.
  intros Hi Hu Hs Hm Hp. revert m Hm. induction Hp as [|f pre [Hf Hlt] _ IH]; intros m Hm; [assumption|].
  apply IH. now apply (below_end st).
Qed.

(** Freeing a live block. *)
Lemma free_spec st b dm used' :
  dm_inv st -> take_used b (dm_lst_used st) = Some (dm, used') ->
  let st' := dmamem_free b st in
  dm_inv st' /\ dm_lst_used st' = used'
  /\ forall x, cnt (dm_lst_free st') x = cnt (dm_lst_free st) x + inb dm x.
Proof.
  intros Hi Ht. unfold dmamem_free. rewrite Ht.
  destruct (take_used_Some _ _ _ _ Ht) as (Hb & l1 & l2 & Eu & ->). pose proof Hi as [Hr Hf Hu Hch Hp].
  assert (Hin : dm ∈ dm_lst_used st) by (rewrite Eu, elem_of_app, elem_of_cons; tauto).
  rewrite Eu, Forall_app, Forall_cons in Hu. destruct Hu as (Hu1 & Hd & Hu2). pose proof Hd as (D1 & D2 & _).
  pose proof (split_free_spec b (dm_lst_free st)) as Hs.
  destruct (split_free b (dm_lst_free st)) as [pre post]. destruct Hs as (Ef & Hpre & Hpost). subst b.
  rewrite Ef in Hf, Hch. apply Forall_app in Hf as [Hf1 Hf2]. apply chain_app in Hch as [Hc1 Hc2].
  assert (Hc2' : chain (base dm + size dm - 1) post).
  { destruct post as [|n post]; [exact I|]. destruct Hc2 as (_ & Hn & Hc2). cbn [chain].
    assert (base dm + size dm <= base n).
    { apply (above_base st); try assumption. rewrite Ef, elem_of_app, elem_of_cons. tauto. }
    repeat split; (lia || assumption). }
  pose proof (concat_next_spec st dm post Hi Hd Hf2 Hc2') as Hn.
  destruct (concat_next dm post) as [dm' post']. destruct Hn as (Eb & Hd' & Hf2' & Hc2'' & Hcnt).
  destruct (concat_prev_spec st pre dm' post' Hi Hd' Hf1 Hf2' Hc1) as (Hok & Hch' & Hcnt').
  { rewrite Eb. apply (chain_end_below st); try assumption.
    - destruct Hr. unfold dm_lo in D1. lia.
    - apply Forall_forall. intros f Hfin. rewrite Forall_forall in Hpre. split; [|auto].
      rewrite Ef, elem_of_app. tauto. }
  { assumption. }
  split; [split|split; [reflexivity|]].
  - exact Hr.
  - exact Hok.
  - cbn. rewrite Forall_app. split; assumption.
  - exact Hch'.
  - intros x. change (dm_lo _) with (dm_lo st). change (dm_hi _) with (dm_hi st). rewrite <- Hp.
    cbn [dm_lst_free dm_lst_used set_used set_free]. rewrite Ef, Eu, Hcnt', !cnt_app. cbn [cnt].
    specialize (Hcnt x). lia.
  - intros x. cbn [dm_lst_free set_used set_free]. rewrite Ef, Hcnt', cnt_app. specialize (Hcnt x). lia.
Qed.

Lemma dmamem_ext st st' :
  dm_base st = dm_base st' -> dm_sz_all st = dm_sz_all st' -> dm_sz_fb st = dm_sz_fb st' ->
  dm_lst_free st = dm_lst_free st' -> dm_lst_used st = dm_lst_used st' -> st = st'.
Proof. destruct st, st'; simpl; congruence. Qed.

Lemma free_region b st :
  dm_base (dmamem_free b st) = dm_base st /\ dm_sz_all (dmamem_free b st) = dm_sz_all st
  /\ dm_sz_fb (dmamem_free b st) = dm_sz_fb st.
Proof.
  unfold dmamem_free. destruct (take_used _ _) as [[]|]; [|auto].
  destruct (split_free _ _), (concat_next _ _). auto.
Qed.

(** Freeing what has just been allocated. *)
Lemma alloc_free_undo kmalloc sz align st p st' :
  dm_inv st -> req_ok st sz align -> dmamem_alloc kmalloc sz align st = Ok (Some p, st') ->
  dmamem_free p st' = st.
Proof.
  intros Hi Hq E.
  destruct (alloc_spec kmalloc sz align st Hi Hq) as [(pre & d & post & El & Hroom & _ & Hi' & [E'|[E' _]])|[_ E']];
    rewrite E in E'; [|discriminate..]. injection E' as -> ->.
  destruct (page_align_spec align (proj1 (proj2 Hq))) as (_ & Pal & _).
  destruct (align_up_spec (base d) (page_align align) Pal) as [_ Ha].
  set (a := align_up (base d) (page_align align)) in *. set (n := page_count sz * PAGE_SIZE) in *.
  assert (Hn : 0 <= n).
  { pose proof (inv_used _ Hi') as Hu. apply Forall_cons in Hu as [(_ & Hs & _) _]. cbn in Hs. lia. }
  assert (Ht : take_used a (dm_lst_used (alloc_post st pre d post a n))
               = Some ({| base := a; size := n |}, dm_lst_used st)) by (cbn; now rewrite Z.eqb_refl).
  destruct (free_spec _ _ _ _ Hi' Ht) as (Hi2 & Hu & Hcnt).
  destruct (free_region a (alloc_post st pre d post a n)) as (F1 & F2 & F3).
  apply dmamem_ext; try assumption.
  apply (chain_canonical (-1)); [apply (inv_chain _ Hi2)|apply (inv_chain _ Hi)|].
  intros x. rewrite Hcnt. cbn [dm_lst_free alloc_post set_used set_free].
  pose proof (pieces_cnt d a n x ltac:(lia) Hn Hroom) as Hpc.
  rewrite El, !cnt_app in *. cbn [cnt]. lia.
Qed.

(** Round trip: freeing a block that was just allocated restores the
    allocator exactly, free list and used list included; the splits of the
    allocation (alignment padding, remainder) are all coalesced back. *)
Theorem dmamem_alloc_free_roundtrip kmalloc sz align st p st' :
  dm_inv st -> req_ok st sz align -> dmamem_alloc kmalloc sz align st = Ok (Some p, st') ->
  dmamem_free p st' = st.
Proof. apply alloc_free_undo. Qed.

(** ** All runs of the allocator *)

(** The driver calls after initialisation; [dmamem_free] may be called with any
    address. *)
Inductive dm_step : dmamem -> dmamem -> Prop :=
  | step_alloc kmalloc sz align st p st' :
      req_ok st sz align -> dmamem_alloc kmalloc sz align st = Ok (p, st') -> dm_step st st'
  | step_free b st : dm_step st (dmamem_free b st).

Definition region_of (st : dmamem) := (dm_base st, dm_sz_all st, dm_sz_fb st).

Lemma dm_step_inv st st' : dm_inv st -> dm_step st st' -> dm_inv st' /\ region_of st' = region_of st.
Proof.
  intros Hi Hs. revert Hi. destruct Hs as [kmalloc sz align s p s' Hq E|b s]; intros Hi.
  - destruct (alloc_spec kmalloc sz align s Hi Hq) as [(pre & d & post & _ & _ & _ & Hi' & [E'|[E' _]])|[_ E']];
      rewrite E in E'; injection E' as -> ->; auto.
  - destruct (free_region b s) as (F1 & F2 & F3). split; [|unfold region_of; congruence].
    destruct (take_used b (dm_lst_used s)) as [[dm r]|] eqn:E; [apply (free_spec s b dm r Hi E)|].
    unfold dmamem_free. now rewrite E.
Qed.

Lemma dm_steps_inv st st' :
  dm_inv st -> rtc dm_step st st' -> dm_inv st' /\ region_of st' = region_of st.
Proof.
  intros Hi Hr. induction Hr as [s|x y z Hs _ IH]; [auto|].
  destruct (dm_step_inv x y Hi Hs) as [Hy Ey]. destruct (IH Hy) as [Hz Ez]. split; congruence.
Qed.

(** A boot tag that the code accepts and that leaves room for the allocator
    below the top of the address space. *)
Definition tag_ok (t : tag_dmamem) : Prop :=
  0 <= tag_base t /\ 0 <= tag_sz_fb t < tag_sz_all t /\ tag_base t + tag_sz_all t < u32_max
  /\ (PAGE_SIZE | tag_base t) /\ (PAGE_SIZE | tag_sz_all t) /\ (PAGE_SIZE | tag_sz_fb t).

Definition boot_block (t : tag_dmamem) : dm_dsc :=
  {| base := tag_base t + tag_sz_fb t; size := tag_sz_all t - tag_sz_fb t |}.

Definition dm_booted (t : tag_dmamem) : dmamem :=
  {| dm_base := tag_base t; dm_sz_all := tag_sz_all t; dm_sz_fb := tag_sz_fb t;
     dm_lst_free := [boot_block t]; dm_lst_used := [] |}.

Lemma land_page x : (PAGE_SIZE | x) -> ((x .& (PAGE_SIZE - 1)) =? 0) = true.
Proof.
  intros Hd. change (PAGE_SIZE - 1) with (Z.ones 12). rewrite Z.land_ones by lia.
  apply Z.eqb_eq, Z.mod_divide; [discriminate|]. exact Hd.
Qed.

Lemma boot_ok t kmalloc :
  tag_ok t -> kmalloc 0%nat = true ->
  dm_init kmalloc (parse_tag_dmamem t dmamem_bss).2 = (0, dm_booted t) /\ dm_inv (dm_booted t).
Proof.
  intros (H1 & H2 & H3 & D1 & D2 & D3) Hk. unfold u32_max in H3. split.
  - unfold parse_tag_dmamem. rewrite !land_page by assumption.
    rewrite (proj2 (Z.ltb_ge _ _)) by lia. cbn [negb orb snd]. unfold dm_init. cbn [dm_sz_all].
    rewrite (proj2 (Z.eqb_neq _ _)) by lia. rewrite Hk. cbn [negb]. unfold dm_booted, boot_block, set_free.
    cbn [dm_base dm_sz_all dm_sz_fb dm_lst_used]. rewrite !u32_id by (unfold fits; lia). reflexivity.
  - split; cbn [dm_booted dm_lst_free dm_lst_used].
    + unfold dm_hi, u32_max. cbn. lia.
    + constructor; [|constructor]. unfold blk_ok, dm_lo, dm_hi. cbn.
      repeat split; try lia; auto using Z.divide_add_r, Z.divide_sub_r.
    + constructor.
    + cbn. lia.
    + intros x. unfold dm_lo, dm_hi, cnt, inb. cbn. zcrush.
Qed.

(** C7: Safety of every run of requests that do not wrap: after boot with a well-formed ATAG (page-aligned region below
    the top of the address space) and a successful kmalloc, whatever sequence of frees (double frees and unknown addresses
    included) and of allocations of a non-zero size the drivers make, where size and alignment together do not reach past 32 bits
    from the end of the region ([req_ok]), live blocks are inside the region, never overlap each other or a free block, no byte is
    lost, and once nothing is live the free list is again the single original block: no leak and no fragmentation.  Requests that
    wrap are not refused and are not covered: [dmamem_alloc_wraps]. *)
Theorem dmamem_runs_safe t kmalloc st0 st :
  tag_ok t -> kmalloc 0%nat = true ->
  dm_init kmalloc (parse_tag_dmamem t dmamem_bss).2 = (0, st0) -> rtc dm_step st0 st ->
  Forall (blk_ok st) (dm_lst_used st)
  /\ (forall x, cnt (dm_lst_free st) x + cnt (dm_lst_used st) x
        = if (tag_base t + tag_sz_fb t <=? x) && (x <? tag_base t + tag_sz_all t) then 1 else 0)
  /\ (dm_lst_used st = [] -> dm_lst_free st = [boot_block t]).
Proof.
  intros Ht Hk E Hr. destruct (boot_ok t kmalloc Ht Hk) as [E0 Hi0]. rewrite E in E0. injection E0 as ->.
  destruct (dm_steps_inv _ _ Hi0 Hr) as [Hi Eg]. injection Eg as G1 G2 G3.
  pose proof (inv_part _ Hi) as Hp. unfold dm_lo, dm_hi in Hp. rewrite G1, G2, G3 in Hp.
  split; [apply (inv_used _ Hi)|]. split; [exact Hp|]. intros Hu.
  apply (chain_canonical (-1)); [apply (inv_chain _ Hi)|apply (inv_chain _ Hi0)|].
  intros x. specialize (Hp x). rewrite Hu in Hp. pose proof (inv_part _ Hi0 x) as Hp0.
  unfold dm_lo, dm_hi in Hp0. cbn [dm_booted dm_lst_free dm_lst_used dm_base dm_sz_all dm_sz_fb cnt] in *. lia.
Qed.

(** A request whose size wraps the address computation is not refused: if
    the first free block starts at [base d] and the rounded size reaches beyond the
    top of the address space from there, [dmamem_alloc] returns that block, which
    is smaller than the request. *)
Theorem dmamem_alloc_wraps kmalloc sz d rest st :
  dm_inv st -> dm_lst_free st = d :: rest -> 0 < sz <= u32_max + 1 - PAGE_SIZE ->
  u32_max + 1 <= base d + page_count sz * PAGE_SIZE ->
  exists st', dmamem_alloc kmalloc sz 0 st = Ok (Some (base d), st')
  /\ dm_lst_used st' = d :: dm_lst_used st /\ size d < sz.
Proof.
  intros [(R1 & R2 & R3) Hf _ _ _] Ef Hsz Hw. rewrite Ef in Hf. apply Forall_cons in Hf as [(B1 & B2 & B3 & [q Hq] & [q' Hq']) _].
  destruct (page_count_spec sz ltac:(lia)) as [_ Hc]. unfold dm_lo, dm_hi in *. unfold u32_max, PAGE_SIZE in *.
  set (n := page_count sz * 4096) in *.
  unfold dmamem_alloc. change (page_align 0) with 4096. rewrite Ef. cbn [find_block udiv Z.eqb rbind].
  rewrite (u32_id (base d + 4096 - 1)) by (unfold fits; lia).
  assert (Ea : (base d + 4096 - 1) / 4096 * 4096 = base d) by (rewrite Hq; zdiv).
  rewrite Ea, (u32_id (base d)), (u32_id (base d + size d)) by (unfold fits; lia).
  unfold PAGE_SIZE. fold n.
  assert (Hn : u32 (base d + n) = base d + n - 4294967296) by (unfold u32; zdiv). rewrite Hn.
  rewrite (proj2 (Z.leb_le _ _)) by lia. cbn [rbind]. cbv zeta.
  rewrite Z.sub_diag, Z.add_0_l, Z.eqb_refl, (u32_id n) by (unfold fits; lia).
  rewrite (proj2 (Z.ltb_ge _ _)) by lia. cbn [andb negb].
  eexists. split; [reflexivity|]. split; [reflexivity|]. lia.
Qed.

(** ** Witnesses *)

(** The Discovery board's last 2 MB of SDRAM, 1 MB of it framebuffer. *)
Definition tag_disco : tag_dmamem :=
  {| tag_base := 0xC0600000; tag_sz_all := 0x200000; tag_sz_fb := 0x100000 |}.

Lemma tag_disco_ok : tag_ok tag_disco.
Proof.
  unfold tag_ok, u32_max. cbn. repeat split; try lia.
  - exists 0xC0600. reflexivity.
  - exists 0x200. reflexivity.
  - exists 0x100. reflexivity.
Qed.

Definition km (n : nat) : bool := true.

Lemma dm_disco_inv : dm_inv (dm_booted tag_disco).
Proof. apply (boot_ok tag_disco km tag_disco_ok eq_refl). Qed.

Lemma req_disco : req_ok (dm_booted tag_disco) 5000 0x8000.
Proof. unfold req_ok. vm_compute. repeat split; (discriminate || reflexivity). Qed.

Lemma dmamem_alloc_sound_witness :
  exists st', dmamem_alloc km 5000 0x8000 (dm_booted tag_disco) = Ok (Some 0xC0700000, st') /\ dm_inv st'.
Proof.
  destruct (dmamem_alloc_sound km 5000 0x8000 _ dm_disco_inv req_disco) as (p & st' & E & Hi & _).
  assert (p = Some 0xC0700000) as -> by (vm_compute in E; now injection E as <- _).
  exists st'. split; assumption.
Defined.

Lemma dmamem_alloc_first_fit_witness :
  exists a d st', dmamem_alloc km 5000 0x8000 (dm_booted tag_disco) = Ok (Some a, st')
  /\ d ∈ dm_lst_free (dm_booted tag_disco) /\ a = align_up (base d) (page_align 0x8000)
  /\ base d <= 0xC0700000.
Proof.
  apply (proj1 (dmamem_alloc_first_fit km 5000 0x8000 _ dm_disco_inv req_disco ltac:(reflexivity))
           (boot_block tag_disco)).
  - left.
  - vm_compute. discriminate.
Defined.

Lemma dmamem_alloc_free_roundtrip_witness :
  exists p st', dmamem_alloc km 5000 0x8000 (dm_booted tag_disco) = Ok (Some p, st')
  /\ dmamem_free p st' = dm_booted tag_disco.
Proof.
  eexists _, _. split; [vm_compute; reflexivity|].
  apply (dmamem_alloc_free_roundtrip km 5000 0x8000 _ _ _ dm_disco_inv req_disco). vm_compute. reflexivity.
Defined.

Lemma dmamem_runs_safe_witness :
  exists st, rtc dm_step (dm_booted tag_disco) st /\ length (dm_lst_used st) = 1%nat
  /\ forall x, cnt (dm_lst_free st) x + cnt (dm_lst_used st) x
       = if (0xC0700000 <=? x) && (x <? 0xC0800000) then 1 else 0.
Proof.
  destruct (dmamem_alloc km 5000 0x8000 (dm_booted tag_disco)) as [[p st]|f] eqn:E;
    [|vm_compute in E; discriminate].
  assert (Hr : rtc dm_step (dm_booted tag_disco) st)
    by (apply rtc_once; exact (step_alloc _ _ _ _ _ _ req_disco E)).
  exists st. split; [exact Hr|]. split; [vm_compute in E; injection E as _ <-; reflexivity|].
  apply (dmamem_runs_safe tag_disco km (dm_booted tag_disco) st tag_disco_ok eq_refl).
  - vm_compute. reflexivity.
  - exact Hr.
Defined.

Lemma dmamem_alloc_wraps_witness :
  exists st', dmamem_alloc km 0x40000000 0 (dm_booted tag_disco) = Ok (Some 0xC0700000, st')
  /\ dm_lst_used st' = [boot_block tag_disco] /\ size (boot_block tag_disco) < 0x40000000.
Proof.
  apply (dmamem_alloc_wraps km 0x40000000 (boot_block tag_disco) [] _ dm_disco_inv eq_refl).
  - vm_compute. split; [reflexivity|discriminate].
  - vm_compute. discriminate.
Defined.
