(* ===== verification/Eth.v ===== *)
(** * Ethernet driver ([drivers/net/arm/stm32_eth.c], [arch/arm/mach-stm32/eth.c])

    The MAC registers the driver uses, the receive and transmit descriptor rings,
    the NAPI poll and interrupt handlers, the buffers in on-chip SRAM
    (CONFIG_STM32_ETHER_BUF_IN_SRAM, the committed configuration), opening and
    closing the device, the MDIO bus and the link callback.

    Frame contents are not modelled: a received frame is its descriptor and length,
    a transmitted one its length.  What the hardware does is passed in: [w1c] for
    the status register, the values of polled bits, the effects [mac_reset]
    and [dma_reset] of the resets, and, for the receive poll, the DMA's progress on the
    ring and the interrupts that are taken meanwhile. *)

From S2P Require Import Prelude Platform Clock.

(** ** Constants *)

Definition STM32_MAC_CR_RE : Z := 1 .<< 2.
Definition STM32_MAC_CR_TE : Z := 1 .<< 3.
Definition STM32_MAC_CR_DM : Z := 1 .<< 11.
Definition STM32_MAC_CR_FES : Z := 1 .<< 14.
Definition STM32_MAC_MIIAR_MB : Z := 1 .<< 0.
Definition STM32_MAC_MIIAR_MW : Z := 1 .<< 1.
Definition STM32_MAC_MIIAR_CR_BIT : Z := 2.
Definition STM32_MAC_MIIAR_CR_MSK : Z := 0x7.
Definition STM32_MAC_MIIAR_MR_BIT : Z := 6.
Definition STM32_MAC_MIIAR_MR_MSK : Z := 0x1F.
Definition STM32_MAC_MIIAR_PA_BIT : Z := 11.
Definition STM32_MAC_MIIAR_PA_MSK : Z := 0x1F.
Definition STM32_MAC_DMABMR_SR : Z := 1 .<< 0.
Definition STM32_MAC_DMABMR_PBL_BIT : Z := 8.
Definition STM32_MAC_DMABMR_RTPR_BIT : Z := 14.
Definition STM32_MAC_DMABMR_RTPR_2_1 : Z := 0x1.
Definition STM32_MAC_DMABMR_FB : Z := 1 .<< 16.
Definition STM32_MAC_DMABMR_RDP_BIT : Z := 17.
Definition STM32_MAC_DMABMR_USP : Z := 1 .<< 23.
Definition STM32_MAC_DMABMR_AAB : Z := 1 .<< 25.
Definition STM32_MAC_DMASR_TS : Z := 1 .<< 0.
Definition STM32_MAC_DMASR_TBUS : Z := 1 .<< 2.
Definition STM32_MAC_DMASR_ROS : Z := 1 .<< 4.
Definition STM32_MAC_DMASR_TUS : Z := 1 .<< 5.
Definition STM32_MAC_DMASR_RS : Z := 1 .<< 6.
Definition STM32_MAC_DMASR_RBUS : Z := 1 .<< 7.
Definition STM32_MAC_DMASR_AIS : Z := 1 .<< 15.
Definition STM32_MAC_DMASR_NIS : Z := 1 .<< 16.
Definition STM32_MAC_DMASR_TX_MSK : Z :=
  STM32_MAC_DMASR_TS .| STM32_MAC_DMASR_TBUS .| STM32_MAC_DMASR_TUS.
Definition STM32_MAC_DMASR_RX_MSK : Z :=
  STM32_MAC_DMASR_RS .| STM32_MAC_DMASR_ROS .| STM32_MAC_DMASR_RBUS.
Definition STM32_MAC_DMAOMR_SR : Z := 1 .<< 1.
Definition STM32_MAC_DMAOMR_ST : Z := 1 .<< 13.
Definition STM32_MAC_DMAOMR_FTF : Z := 1 .<< 20.
Definition STM32_MAC_DMAIER_TIE : Z := 1 .<< 0.
Definition STM32_MAC_DMAIER_RIE : Z := 1 .<< 6.
Definition STM32_DMA_TBD_DMA_OWN : Z := 1 .<< 31.
Definition STM32_DMA_TBD_LS : Z := 1 .<< 29.
Definition STM32_DMA_TBD_FS : Z := 1 .<< 28.
Definition STM32_DMA_TBD_TCH : Z := 1 .<< 20.
Definition STM32_DMA_TBD_ES : Z := 1 .<< 15.
Definition STM32_DMA_TBD_NC : Z := 1 .<< 10.
Definition STM32_DMA_TBD_EC : Z := 1 .<< 8.
Definition STM32_DMA_TBD_CC_BIT : Z := 3.
Definition STM32_DMA_TBD_CC_MSK : Z := 0xF.
Definition STM32_DMA_TBD_UF : Z := 1 .<< 1.
Definition STM32_DMA_RBD_DMA_OWN : Z := 1 .<< 31.
Definition STM32_DMA_RBD_FL_BIT : Z := 16.
Definition STM32_DMA_RBD_FL_MSK : Z := 0x3FFF.
Definition STM32_DMA_RBD_ES : Z := 1 .<< 15.
Definition STM32_DMA_RBD_LE : Z := 1 .<< 12.
Definition STM32_DMA_RBD_OE : Z := 1 .<< 11.
Definition STM32_DMA_RBD_FS : Z := 1 .<< 9.
Definition STM32_DMA_RBD_LS : Z := 1 .<< 8.
Definition STM32_DMA_RBD_CE : Z := 1 .<< 1.
Definition STM32_DMA_RBD_RCH : Z := 1 .<< 14.

Definition SRAM_PHYS_OFFSET : Z := 0x20000000.
Definition SRAM_PHYS_SIZE : Z := 0x00020000.
Definition CONFIG_STM32_ETHER_BUF_IN_SRAM_BASE : Z := 0x1000.
Definition STM32_SRAM : Z := SRAM_PHYS_OFFSET + CONFIG_STM32_ETHER_BUF_IN_SRAM_BASE.

Definition NETDEV_TX_OK : Z := 0.
Definition NETDEV_TX_BUSY : Z := 0x10.
Definition DUPLEX_FULL : Z := 1.
Definition SPEED_100 : Z := 100.

(** ** State *)

Record stm32_mac_regs := {
  maccr : Z; macmiiar : Z; macmiidr : Z; maca0hr : Z; maca0lr : Z; dmabmr : Z; dmatpdr : Z;
  dmardlar : Z; dmatdlar : Z; dmasr : Z; dmaomr : Z; dmaier : Z
}.

Definition set_maccr r v := {| maccr := v; macmiiar := macmiiar r; macmiidr := macmiidr r;
  maca0hr := maca0hr r; maca0lr := maca0lr r; dmabmr := dmabmr r; dmatpdr := dmatpdr r;
  dmardlar := dmardlar r; dmatdlar := dmatdlar r; dmasr := dmasr r; dmaomr := dmaomr r;
  dmaier := dmaier r |}.
Definition set_macmii r a d := {| maccr := maccr r; macmiiar := a; macmiidr := d;
  maca0hr := maca0hr r; maca0lr := maca0lr r; dmabmr := dmabmr r; dmatpdr := dmatpdr r;
  dmardlar := dmardlar r; dmatdlar := dmatdlar r; dmasr := dmasr r; dmaomr := dmaomr r;
  dmaier := dmaier r |}.
Definition set_maca0 r h l := {| maccr := maccr r; macmiiar := macmiiar r; macmiidr := macmiidr r;
  maca0hr := h; maca0lr := l; dmabmr := dmabmr r; dmatpdr := dmatpdr r;
  dmardlar := dmardlar r; dmatdlar := dmatdlar r; dmasr := dmasr r; dmaomr := dmaomr r;
  dmaier := dmaier r |}.
Definition set_dmabmr r v := {| maccr := maccr r; macmiiar := macmiiar r; macmiidr := macmiidr r;
  maca0hr := maca0hr r; maca0lr := maca0lr r; dmabmr := v; dmatpdr := dmatpdr r;
  dmardlar := dmardlar r; dmatdlar := dmatdlar r; dmasr := dmasr r; dmaomr := dmaomr r;
  dmaier := dmaier r |}.
Definition set_dmatpdr r v := {| maccr := maccr r; macmiiar := macmiiar r; macmiidr := macmiidr r;
  maca0hr := maca0hr r; maca0lr := maca0lr r; dmabmr := dmabmr r; dmatpdr := v;
  dmardlar := dmardlar r; dmatdlar := dmatdlar r; dmasr := dmasr r; dmaomr := dmaomr r;
  dmaier := dmaier r |}.
Definition set_dmadlar r rx tx := {| maccr := maccr r; macmiiar := macmiiar r;
  macmiidr := macmiidr r; maca0hr := maca0hr r; maca0lr := maca0lr r; dmabmr := dmabmr r;
  dmatpdr := dmatpdr r; dmardlar := rx; dmatdlar := tx; dmasr := dmasr r; dmaomr := dmaomr r;
  dmaier := dmaier r |}.
Definition set_dmasr r v := {| maccr := maccr r; macmiiar := macmiiar r; macmiidr := macmiidr r;
  maca0hr := maca0hr r; maca0lr := maca0lr r; dmabmr := dmabmr r; dmatpdr := dmatpdr r;
  dmardlar := dmardlar r; dmatdlar := dmatdlar r; dmasr := v; dmaomr := dmaomr r;
  dmaier := dmaier r |}.
Definition set_dmaomr r v := {| maccr := maccr r; macmiiar := macmiiar r; macmiidr := macmiidr r;
  maca0hr := maca0hr r; maca0lr := maca0lr r; dmabmr := dmabmr r; dmatpdr := dmatpdr r;
  dmardlar := dmardlar r; dmatdlar := dmatdlar r; dmasr := dmasr r; dmaomr := v;
  dmaier := dmaier r |}.
Definition set_dmaier r v := {| maccr := maccr r; macmiiar := macmiiar r; macmiidr := macmiidr r;
  maca0hr := maca0hr r; maca0lr := maca0lr r; dmabmr := dmabmr r; dmatpdr := dmatpdr r;
  dmardlar := dmardlar r; dmatdlar := dmatdlar r; dmasr := dmasr r; dmaomr := dmaomr r;
  dmaier := v |}.

(** [struct stm32_eth_dma_bd] *)
Record stm32_eth_dma_bd := { stat : Z; ctrl : Z; buf : Z; next : Z }.

#[global] Instance bd_inhabited : Inhabited stm32_eth_dma_bd :=
  populate {| stat := 0; ctrl := 0; buf := 0; next := 0 |}.

Definition set_stat b v := {| stat := v; ctrl := ctrl b; buf := buf b; next := next b |}.

(** The fields of [struct stm32_eth_priv] for the receive and transmit sides;
    [rx_skb] and [tx_skb] are the addresses of the SRAM buffers, [tx_len] the
    [len] fields of the transmit buffers. *)
Record rx_side := {
  rx_bd : list stm32_eth_dma_bd; rx_bd_dma_addr : Z; rx_skb : list Z;
  rx_done_idx : Z; rx_buf_num : Z
}.
Record tx_side := {
  tx_bd : list stm32_eth_dma_bd; tx_bd_dma_addr : Z; tx_skb : list Z; tx_len : list Z;
  tx_todo_idx : Z; tx_done_idx : Z; tx_pending : Z; tx_blocked : bool; tx_buf_num : Z
}.

(** [struct net_device_stats], the counters the driver maintains. *)
Inductive stat_id :=
  | rx_errors | rx_length_errors | rx_fifo_errors | rx_crc_errors | rx_frame_errors
  | rx_dropped | rx_packets | rx_bytes | rx_over_errors
  | tx_errors | tx_carrier_errors | tx_fifo_errors | tx_packets | tx_bytes | tx_dropped
  | collisions.

#[global] Instance stat_id_eq_dec : EqDecision stat_id.
Proof. solve_decision. Defined.

Definition stats := stat_id -> Z.
Definition add_stat (id : stat_id) (n : Z) (s : stats) : stats :=
  fun j => if decide (j = id) then u32 (s j + n) else s j.
Definition add_stat_if (b : bool) (id : stat_id) (s : stats) : stats :=
  if b then add_stat id 1 s else s.

(** [queue_stopped] is the state of the transmit queue in the network core,
    [napi_sched] the NAPI_STATE_SCHED bit and [napi_dis] the NAPI_STATE_DISABLE bit. *)
Record eth := {
  regs : stm32_mac_regs; rx : rx_side; tx : tx_side; nstat : stats;
  frame_max_size : Z; sram_pointer : Z;
  queue_stopped : bool; napi_sched : bool; napi_dis : bool;
  link : Z; speed : Z; duplex : Z
}.

Definition set_regs st r := {| regs := r; rx := rx st; tx := tx st; nstat := nstat st;
  frame_max_size := frame_max_size st; sram_pointer := sram_pointer st;
  queue_stopped := queue_stopped st; napi_sched := napi_sched st; napi_dis := napi_dis st; link := link st;
  speed := speed st; duplex := duplex st |}.
Definition set_rx st r := {| regs := regs st; rx := r; tx := tx st; nstat := nstat st;
  frame_max_size := frame_max_size st; sram_pointer := sram_pointer st;
  queue_stopped := queue_stopped st; napi_sched := napi_sched st; napi_dis := napi_dis st; link := link st;
  speed := speed st; duplex := duplex st |}.
Definition set_tx st t := {| regs := regs st; rx := rx st; tx := t; nstat := nstat st;
  frame_max_size := frame_max_size st; sram_pointer := sram_pointer st;
  queue_stopped := queue_stopped st; napi_sched := napi_sched st; napi_dis := napi_dis st; link := link st;
  speed := speed st; duplex := duplex st |}.
Definition set_nstat st s := {| regs := regs st; rx := rx st; tx := tx st; nstat := s;
  frame_max_size := frame_max_size st; sram_pointer := sram_pointer st;
  queue_stopped := queue_stopped st; napi_sched := napi_sched st; napi_dis := napi_dis st; link := link st;
  speed := speed st; duplex := duplex st |}.
Definition set_sram st p := {| regs := regs st; rx := rx st; tx := tx st; nstat := nstat st;
  frame_max_size := frame_max_size st; sram_pointer := p;
  queue_stopped := queue_stopped st; napi_sched := napi_sched st; napi_dis := napi_dis st; link := link st;
  speed := speed st; duplex := duplex st |}.
Definition set_queue_stopped st b := {| regs := regs st; rx := rx st; tx := tx st;
  nstat := nstat st; frame_max_size := frame_max_size st; sram_pointer := sram_pointer st;
  queue_stopped := b; napi_sched := napi_sched st; napi_dis := napi_dis st; link := link st;
  speed := speed st; duplex := duplex st |}.
Definition set_napi st b := {| regs := regs st; rx := rx st; tx := tx st; nstat := nstat st;
  frame_max_size := frame_max_size st; sram_pointer := sram_pointer st;
  queue_stopped := queue_stopped st; napi_sched := b; napi_dis := napi_dis st; link := link st;
  speed := speed st; duplex := duplex st |}.
Definition set_link st l s d := {| regs := regs st; rx := rx st; tx := tx st; nstat := nstat st;
  frame_max_size := frame_max_size st; sram_pointer := sram_pointer st;
  queue_stopped := queue_stopped st; napi_sched := napi_sched st; napi_dis := napi_dis st; link := l;
  speed := s; duplex := d |}.

Ltac eth_simpl := cbn [regs rx tx nstat frame_max_size sram_pointer queue_stopped napi_sched napi_dis
  link speed duplex set_regs set_rx set_tx set_nstat set_sram set_queue_stopped set_napi set_link
  maccr macmiiar macmiidr maca0hr maca0lr dmabmr dmatpdr dmardlar dmatdlar dmasr dmaomr dmaier
  set_maccr set_macmii set_maca0 set_dmabmr set_dmatpdr set_dmadlar set_dmasr set_dmaomr set_dmaier
  rx_bd rx_bd_dma_addr rx_skb rx_done_idx rx_buf_num
  tx_bd tx_bd_dma_addr tx_skb tx_len tx_todo_idx tx_done_idx tx_pending tx_blocked tx_buf_num
  stat ctrl buf next set_stat] in *.

(** ** Receive *)

(** The error counters of a bad frame. *)
Definition rx_error_stats (stat : Z) (s : stats) : stats :=
  let s := add_stat rx_errors 1 s in
  let s := add_stat_if (negb ((stat .& STM32_DMA_RBD_LE) =? 0)) rx_length_errors s in
  let s := add_stat_if (negb ((stat .& STM32_DMA_RBD_OE) =? 0)) rx_fifo_errors s in
  let s := add_stat_if (negb ((stat .& STM32_DMA_RBD_CE) =? 0)) rx_crc_errors s in
  add_stat_if (negb ((stat .& (STM32_DMA_RBD_FS .| STM32_DMA_RBD_LS))
                     =? (STM32_DMA_RBD_FS .| STM32_DMA_RBD_LS))) rx_frame_errors s.

Definition rx_frame_len (stat : Z) : Z :=
  u32 (((stat .>> STM32_DMA_RBD_FL_BIT) .& STM32_DMA_RBD_FL_MSK) - 4).

(** Label [next]: give the descriptor back and go on. *)
Definition rx_next (st : eth) : eth :=
  let r := rx st in
  let idx := rx_done_idx r in
  set_rx st {|
    rx_bd := alter (fun b => set_stat b STM32_DMA_RBD_DMA_OWN) (Z.to_nat idx) (rx_bd r);
    rx_bd_dma_addr := rx_bd_dma_addr r; rx_skb := rx_skb r;
    rx_done_idx := (rx_done_idx r + 1) mod rx_buf_num r; rx_buf_num := rx_buf_num r |}.

Definition owned_bit (stat : Z) : bool := negb ((stat .& STM32_DMA_RBD_DMA_OWN) =? 0).

(** [stm32_eth_rx_get], with [fuel] = [budget - processed]; [skb_ok len] says
    whether the socket buffer could be allocated and [dma n] is the DMA's progress on
    the ring before descriptor number [n] is looked at.  The list holds the descriptor
    and the length of each frame passed to [netif_receive_skb]. *)
Fixpoint rx_get_loop (dma : nat -> rx_side -> rx_side) (skb_ok : Z -> bool) (fuel : nat)
    (processed : Z) (st : eth) : result (Z * list (Z * Z) * eth) :=
  match fuel with
  | O => Ok (processed, [], st)
  | S fuel =>
      let st := set_rx st (dma (Z.to_nat processed) (rx st)) in
      let idx := rx_done_idx (rx st) in
      match rx_bd (rx st) !! Z.to_nat idx with
      | None => Fault BadIndex
      | Some bd =>
          if owned_bit (stat bd) then Ok (processed, [], st)
          else
            if negb ((stat bd .& STM32_DMA_RBD_ES) =? 0) then
              rx_get_loop dma skb_ok fuel (processed + 1)
                (rx_next (set_nstat st (rx_error_stats (stat bd) (nstat st))))
            else
              let len := rx_frame_len (stat bd) in
              if negb (skb_ok len) then
                rx_get_loop dma skb_ok fuel (processed + 1)
                  (rx_next (set_nstat st (add_stat rx_dropped 1 (nstat st))))
              else
                let s := add_stat rx_bytes len (add_stat rx_packets 1 (nstat st)) in
                let* (p, frames, st') := rx_get_loop dma skb_ok fuel (processed + 1)
                                           (rx_next (set_nstat st s)) in
                Ok (p, (idx, len) :: frames, st')
      end
  end.

Definition rx_get_with (dma : nat -> rx_side -> rx_side) (skb_ok : Z -> bool)
    (processed budget : Z) (st : eth) : result (Z * list (Z * Z) * eth) :=
  rx_get_loop dma skb_ok (Z.to_nat (budget - processed)) processed st.

(** A call during which the DMA completes no further frame. *)
Definition stm32_eth_rx_get : (Z -> bool) -> Z -> Z -> eth -> result (Z * list (Z * Z) * eth) :=
  rx_get_with (fun _ r => r).

(** ** Transmit *)

(** One completed descriptor. *)
Definition tx_done_stats (stat len : Z) (s : stats) : stats :=
  let s :=
    if negb ((stat .& STM32_DMA_TBD_ES) =? 0) then
      let s := add_stat tx_errors 1 s in
      let s := add_stat_if (negb ((stat .& STM32_DMA_TBD_NC) =? 0)) tx_carrier_errors s in
      add_stat_if (negb ((stat .& STM32_DMA_TBD_UF) =? 0)) tx_fifo_errors s
    else add_stat tx_bytes len (add_stat tx_packets 1 s) in
  if negb ((stat .& STM32_DMA_TBD_EC) =? 0) then add_stat collisions 16 s
  else add_stat collisions ((stat .>> STM32_DMA_TBD_CC_BIT) .& STM32_DMA_TBD_CC_MSK) s.

Definition tx_pop (t : tx_side) : tx_side :=
  {| tx_bd := tx_bd t; tx_bd_dma_addr := tx_bd_dma_addr t; tx_skb := tx_skb t; tx_len := tx_len t;
     tx_todo_idx := tx_todo_idx t; tx_done_idx := (tx_done_idx t + 1) mod tx_buf_num t;
     tx_pending := tx_pending t - 1; tx_blocked := tx_blocked t; tx_buf_num := tx_buf_num t |}.

(** [while (stm->tx_pending)]; each turn takes one off [tx_pending], which is the
    fuel. *)
Fixpoint tx_complete_loop (fuel : nat) (st : eth) : result eth :=
  match fuel with
  | O => Ok st
  | S fuel =>
      let idx := tx_done_idx (tx st) in
      match tx_bd (tx st) !! Z.to_nat idx, tx_len (tx st) !! Z.to_nat idx with
      | Some bd, Some len =>
          if owned_bit (stat bd) then Ok st
          else tx_complete_loop fuel
                 (set_tx (set_nstat st (tx_done_stats (stat bd) len (nstat st))) (tx_pop (tx st)))
      | _, _ => Fault BadIndex
      end
  end.

Definition set_blocked (t : tx_side) (b : bool) : tx_side :=
  {| tx_bd := tx_bd t; tx_bd_dma_addr := tx_bd_dma_addr t; tx_skb := tx_skb t; tx_len := tx_len t;
     tx_todo_idx := tx_todo_idx t; tx_done_idx := tx_done_idx t; tx_pending := tx_pending t;
     tx_blocked := b; tx_buf_num := tx_buf_num t |}.

Definition stm32_eth_tx_complete (st : eth) : result eth :=
  let* st := tx_complete_loop (Z.to_nat (tx_pending (tx st))) st in
  Ok (if tx_blocked (tx st)
      then set_queue_stopped (set_tx st (set_blocked (tx st) false)) false else st).

Definition tx_push (t : tx_side) : tx_side :=
  {| tx_bd := tx_bd t; tx_bd_dma_addr := tx_bd_dma_addr t; tx_skb := tx_skb t; tx_len := tx_len t;
     tx_todo_idx := (tx_todo_idx t + 1) mod tx_buf_num t; tx_done_idx := tx_done_idx t;
     tx_pending := tx_pending t + 1; tx_blocked := tx_blocked t; tx_buf_num := tx_buf_num t |}.

(** [stm32_netdev_xmit] runs in three parts: taking the next descriptor under
    the lock, ... *)
Definition xmit_capture (len : Z) (st : eth) : (Z * eth) + (Z * eth) :=
  if frame_max_size st <? len
  then inl (NETDEV_TX_OK, set_nstat st (add_stat tx_dropped 1 (nstat st)))
  else
    let t := tx st in
    let idx := tx_todo_idx t in
    if tx_blocked t || (tx_buf_num t <=? tx_pending t) then inl (NETDEV_TX_BUSY, st)
    else inr (idx, set_tx st (tx_push t)).

(** ... programming it and kicking the DMA without the lock, ... *)
Definition xmit_program (idx len : Z) (st : eth) : eth :=
  let t := tx st in
  let st := set_tx st
    {| tx_bd := alter (fun b => {| stat := stat b .| (STM32_DMA_TBD_FS .| STM32_DMA_TBD_LS
                                                      .| STM32_DMA_TBD_DMA_OWN);
                                   ctrl := len; buf := buf b; next := next b |})
                  (Z.to_nat idx) (tx_bd t);
       tx_bd_dma_addr := tx_bd_dma_addr t; tx_skb := tx_skb t;
       tx_len := <[Z.to_nat idx := len]> (tx_len t);
       tx_todo_idx := tx_todo_idx t; tx_done_idx := tx_done_idx t; tx_pending := tx_pending t;
       tx_blocked := tx_blocked t; tx_buf_num := tx_buf_num t |} in
  set_regs st (set_dmatpdr (regs st) 0).

(** ... and stopping the queue when the ring is full, under the lock again. *)
Definition xmit_finish (st : eth) : eth :=
  if tx_pending (tx st) =? tx_buf_num (tx st)
  then set_queue_stopped (set_tx st (set_blocked (tx st) true)) true else st.

Definition stm32_netdev_xmit (len : Z) (st : eth) : Z * eth :=
  match xmit_capture len st with
  | inl r => r
  | inr (idx, st) => (NETDEV_TX_OK, xmit_finish (xmit_program idx len st))
  end.

(** ** Interrupt *)

(** [napi_schedule_prep] ([include/linux/netdevice.h]): take the poll unless it is
    scheduled or being disabled. *)
Definition napi_schedule_prep (st : eth) : bool * eth :=
  if negb (napi_dis st) && negb (napi_sched st) then (true, set_napi st true) else (false, st).

(** [napi_reschedule]: the same; putting the device on the poll list follows. *)
Definition napi_reschedule (st : eth) : bool * eth := napi_schedule_prep st.

(** [__napi_complete]. *)
Definition __napi_complete (st : eth) : result eth :=
  if negb (napi_sched st) then Fault Bug else Ok (set_napi st false).

(** The result says whether the interrupt was the device's (IRQ_HANDLED). *)
Definition stm32_eth_irq (w1c : Z -> Z -> Z) (st : eth) : result (bool * eth) :=
  let status := dmasr (regs st) in
  let st := set_regs st (set_dmasr (regs st) (w1c (dmasr (regs st)) status)) in
  if status =? 0 then Ok (false, st)
  else
    let st :=
      if negb ((status .& STM32_MAC_DMASR_RX_MSK) =? 0) then
        let st := set_nstat st (add_stat_if (negb ((status .& STM32_MAC_DMASR_ROS) =? 0))
                                  rx_over_errors (nstat st)) in
        let (ok, st) := napi_schedule_prep st in
        if ok then set_regs st (set_dmaier (regs st)
                                  (dmaier (regs st) .& .~ STM32_MAC_DMAIER_RIE))
        else st
      else st in
    let* st :=
      (if negb ((status .& STM32_MAC_DMASR_TX_MSK) =? 0) then
         stm32_eth_tx_complete
           (set_nstat st (add_stat_if (negb ((status .& STM32_MAC_DMASR_TUS) =? 0))
                            tx_fifo_errors (nstat st)))
       else Ok st) in
    Ok (true, st).

(** ** Receive poll *)

Section Poll.

Context (w1c : Z -> Z -> Z) (skb_ok : Z -> bool).

(** What happens while the poll runs, by number of the pass: [dma n] and [look n] are
    the DMA's progress on the ring while the pass fetches frames and before its last look
    at the ring; [irqs n] and [irqs' n] are the status words of the interrupts taken
    while it fetches and between the release of the lock and [napi_reschedule]. *)
Context (dma : nat -> nat -> rx_side -> rx_side) (look : nat -> rx_side -> rx_side).
Context (irqs irqs' : nat -> list Z).

(** Interrupts with the status words [l], one after the other. *)
Fixpoint take_irqs (l : list Z) (st : eth) : result eth :=
  match l with
  | [] => Ok st
  | v :: l =>
      let* (_, st) := stm32_eth_irq w1c (set_regs st (set_dmasr (regs st) v)) in
      take_irqs l st
  end.

(** The part under [rx_lock]; the result is [more]. *)
Definition rx_poll_locked (n : nat) (st : eth) : result (bool * eth) :=
  let* st := __napi_complete st in
  let st := set_regs st (set_dmaier (regs st) (dmaier (regs st) .| STM32_MAC_DMAIER_RIE)) in
  let st := set_rx st (look n (rx st)) in
  match rx_bd (rx st) !! Z.to_nat (rx_done_idx (rx st)) with
  | None => Fault BadIndex
  | Some bd =>
      if negb (owned_bit (stat bd)) then
        let st := set_regs st (set_dmaier (regs st)
                                 (dmaier (regs st) .& .~ STM32_MAC_DMAIER_RIE)) in
        let st := set_regs st (set_dmasr (regs st)
                                 (w1c (dmasr (regs st)) STM32_MAC_DMASR_RX_MSK)) in
        Ok (true, st)
      else Ok (false, st)
  end.

(** The [do ... while] loop of [stm32_eth_rx_poll]. *)
Fixpoint rx_poll_loop (fuel n : nat) (rx0 budget : Z) (st : eth) :
    result (Z * list (Z * Z) * eth) :=
  match fuel with
  | O => Fault Stuck
  | S fuel =>
      let* (got, frames, st) := rx_get_with (dma n) skb_ok rx0 budget st in
      let* st := take_irqs (irqs n) st in
      if negb (got <? budget) then
        Ok (got, frames,
            set_regs st (set_dmaier (regs st) (dmaier (regs st) .| STM32_MAC_DMAIER_RIE)))
      else
        let* (more, st) := rx_poll_locked n st in
        let* st := take_irqs (irqs' n) st in
        let (again, st) := if more then napi_reschedule st else (false, st) in
        if again then
          let* (got, frames', st) := rx_poll_loop fuel (S n) got budget st in
          Ok (got, frames ++ frames', st)
        else Ok (got, frames, st)
  end.

Definition stm32_eth_rx_poll (budget : Z) (st : eth) : result (Z * list (Z * Z) * eth) :=
  rx_poll_loop (S (Z.to_nat budget)) 0 0 budget st.

End Poll.

(** ** Buffers in SRAM *)

Definition sizeof_bd : Z := 16.              (* struct stm32_eth_dma_bd *)
Definition sizeof_skb_fake : Z := 4.         (* struct stm32_sk_buff_fake: len, data[0] *)

Definition ALIGN4 (x : Z) : Z := u32 (x + 3) .& .~ 3.

(** The address and the state; BUG_ON ends the run. *)
Definition stm32_sram_alloc (sz : Z) (st : eth) : result (Z * eth) :=
  let base := sram_pointer st in
  let p := u32 (sram_pointer st + (ALIGN4 sz + 4)) in
  if SRAM_PHYS_OFFSET + SRAM_PHYS_SIZE <=? p then Fault Bug
  else Ok (base, set_sram st p).

(** [n] buffers of [sz] bytes. *)
Fixpoint sram_alloc_n (n : nat) (sz : Z) (st : eth) : result (list Z * eth) :=
  match n with
  | O => Ok ([], st)
  | S n =>
      let* (a, st) := stm32_sram_alloc sz st in
      let* (l, st) := sram_alloc_n n sz st in
      Ok (a :: l, st)
  end.

Definition rx_bd_init (fms dma n : Z) (i : nat) (skb : Z) : stm32_eth_dma_bd :=
  {| stat := STM32_DMA_RBD_DMA_OWN; ctrl := STM32_DMA_RBD_RCH .| fms; buf := skb + sizeof_skb_fake;
     next := u32 (dma + sizeof_bd * ((Z.of_nat i + 1) mod n)) |}.
Definition tx_bd_init (dma n : Z) (i : nat) (skb : Z) : stm32_eth_dma_bd :=
  {| stat := STM32_DMA_TBD_TCH; ctrl := 0; buf := skb + sizeof_skb_fake;
     next := u32 (dma + sizeof_bd * ((Z.of_nat i + 1) mod n)) |}.

Definition skb_size (st : eth) : Z := u32 (sizeof_skb_fake + frame_max_size st + 4).

(** The loops allocate and initialise element by element; here the allocations
    of a loop come first and the descriptors are filled in with [imap].  The
    transmit buffers' [len] fields are uninitialised SRAM: they keep whatever was
    in [tx_len]. *)
Definition stm32_eth_buffers_alloc (st : eth) : result (Z * eth) :=
  let nrx := rx_buf_num (rx st) in
  let ntx := tx_buf_num (tx st) in
  let* (rxd, st) := stm32_sram_alloc (u32 (sizeof_bd * nrx)) st in
  let* (txd, st) := stm32_sram_alloc (u32 (sizeof_bd * ntx)) st in
  let* (rskb, st) := sram_alloc_n (Z.to_nat nrx) (skb_size st) st in
  let st := set_rx st {| rx_bd := imap (rx_bd_init (frame_max_size st) rxd nrx) rskb;
                         rx_bd_dma_addr := rxd; rx_skb := rskb;
                         rx_done_idx := rx_done_idx (rx st); rx_buf_num := nrx |} in
  let* (tskb, st) := sram_alloc_n (Z.to_nat ntx) (skb_size st) st in
  let t := tx st in
  let st := set_tx st {| tx_bd := imap (tx_bd_init txd ntx) tskb; tx_bd_dma_addr := txd;
                         tx_skb := tskb; tx_len := tx_len t; tx_todo_idx := tx_todo_idx t;
                         tx_done_idx := tx_done_idx t; tx_pending := tx_pending t;
                         tx_blocked := tx_blocked t; tx_buf_num := ntx |} in
  Ok (0, st).

Definition stm32_eth_buffers_free (st : eth) : eth :=
  let total_alloc_size := u32 (sizeof_bd + sizeof_skb_fake + frame_max_size st + 4) in
  let total_alloc_size := u32 (total_alloc_size * (rx_buf_num (rx st) + tx_buf_num (tx st))) in
  set_sram st (u32 (sram_pointer st - total_alloc_size)).

(** ** Hardware start and stop *)

Definition hw_stop_regs (r : stm32_mac_regs) : stm32_mac_regs :=
  set_dmaomr r (dmaomr r .& .~ (STM32_MAC_DMAOMR_SR .| STM32_MAC_DMAOMR_ST)).

Definition stm32_eth_hw_stop (st : eth) : eth := set_regs st (hw_stop_regs (regs st)).

Definition params_regs (duplex speed : Z) (r : stm32_mac_regs) : stm32_mac_regs :=
  let tmp := maccr r in
  let tmp := if duplex =? DUPLEX_FULL then tmp .| STM32_MAC_CR_DM
             else tmp .& .~ STM32_MAC_CR_DM in
  let tmp := if speed =? SPEED_100 then tmp .| STM32_MAC_CR_FES
             else tmp .& .~ STM32_MAC_CR_FES in
  set_maccr r tmp.

Definition stm32_params_setup (st : eth) : eth :=
  set_regs st (params_regs (duplex st) (speed st) (regs st)).

(** From the computed HCLK of the clock driver. *)
Definition stm32_eth_mdio_cr (clk : clk_state) : Z :=
  let hclk := stm32_clock_get CLOCK_HCLK clk in
  if hclk <? 35000000 then 2
  else if hclk <? 60000000 then 3
  else if hclk <? 100000000 then 0
  else if hclk <? 150000000 then 1
  else 4.

(** [for (i = 0; i < n; i++) if (!busy) break;]: does the bit clear within [n]
    polls; [busy i] is the [i]-th read. *)
Fixpoint poll_clear (busy : nat -> bool) (n i : nat) : bool :=
  match n with
  | O => false
  | S n => if busy i then poll_clear busy n (S i) else true
  end.

Section Hw.

(** What the peripheral reset pulse (RCC AHB1RSTR) and the DMA software reset do
    to the registers, and the polls of DMABMR.SR and DMAOMR.FTF. *)
Context (mac_reset dma_reset : stm32_mac_regs -> stm32_mac_regs).
Context (sr_busy ftf_busy : nat -> bool).
Context (clk : clk_state) (dev_addr : list Z).

Definition addr_byte (i : nat) : Z := nth i dev_addr 0.

(** Bus mode, MAC address and descriptor lists, and the start of the FIFO flush. *)
Definition hw_config_regs (rxd txd : Z) (r : stm32_mac_regs) : stm32_mac_regs :=
  let r := set_dmabmr r
    ((32 .<< STM32_MAC_DMABMR_PBL_BIT) .| (32 .<< STM32_MAC_DMABMR_RDP_BIT)
     .| (STM32_MAC_DMABMR_RTPR_2_1 .<< STM32_MAC_DMABMR_RTPR_BIT)
     .| STM32_MAC_DMABMR_FB .| STM32_MAC_DMABMR_USP .| STM32_MAC_DMABMR_AAB) in
  let r := set_maca0 r
    ((addr_byte 5 .<< 8) .| (addr_byte 4 .<< 0))
    ((addr_byte 3 .<< 24) .| (addr_byte 2 .<< 16) .| (addr_byte 1 .<< 8) .| (addr_byte 0 .<< 0)) in
  let r := set_dmadlar r rxd txd in
  set_dmaomr r (dmaomr r .| STM32_MAC_DMAOMR_FTF).

(** The flush bit has cleared itself; enable the MAC and start the DMA. *)
Definition hw_enable_regs (r : stm32_mac_regs) : stm32_mac_regs :=
  let r := set_dmaomr r (dmaomr r .& .~ STM32_MAC_DMAOMR_FTF) in
  let r := set_maccr r (maccr r .| (STM32_MAC_CR_TE .| STM32_MAC_CR_RE)) in
  set_dmaomr r (dmaomr r .| (STM32_MAC_DMAOMR_ST .| STM32_MAC_DMAOMR_SR)).

Definition stm32_eth_hw_start (st : eth) : Z * eth :=
  let r := mac_reset (hw_stop_regs (regs st)) in
  let r := set_dmabmr r (dmabmr r .| STM32_MAC_DMABMR_SR) in
  if negb (poll_clear sr_busy 100 0) then (- EBUSY, set_regs st r)
  else
    let r := dma_reset r in
    let r := set_macmii r (stm32_eth_mdio_cr clk .<< STM32_MAC_MIIAR_CR_BIT) (macmiidr r) in
    let r := params_regs (duplex st) (speed st) r in
    if negb ((dmabmr r .& STM32_MAC_DMABMR_SR) =? 0) then (- EBUSY, set_regs st r)
    else
      let r := hw_config_regs (rx_bd_dma_addr (rx st)) (tx_bd_dma_addr (tx st)) r in
      if negb (poll_clear ftf_busy 10 0) then (- EBUSY, set_regs st r)
      else (0, set_regs st (hw_enable_regs r)).

Definition ier_bits : Z :=
  STM32_MAC_DMAIER_TIE .| STM32_MAC_DMAIER_RIE .| STM32_MAC_DMASR_NIS .| STM32_MAC_DMASR_AIS.

Definition ring_reset (st : eth) : eth :=
  let r := rx st in
  let t := tx st in
  let st := set_rx st {| rx_bd := rx_bd r; rx_bd_dma_addr := rx_bd_dma_addr r; rx_skb := rx_skb r;
                         rx_done_idx := 0; rx_buf_num := rx_buf_num r |} in
  set_tx st {| tx_bd := tx_bd t; tx_bd_dma_addr := tx_bd_dma_addr t; tx_skb := tx_skb t;
               tx_len := tx_len t; tx_todo_idx := 0; tx_done_idx := 0; tx_pending := 0;
               tx_blocked := false; tx_buf_num := tx_buf_num t |}.

(** [request_irq_rv] is what the kernel's [request_irq] answers.  [napi_enable]
    clears the scheduled state, [napi_disable] leaves it set; the PHY calls have
    no effect on the device. *)
Definition stm32_netdev_open (request_irq_rv : Z) (st : eth) : result (Z * eth) :=
  let st := set_link st 0 (-1) (-1) in
  let* (rv, st) := stm32_eth_buffers_alloc st in
  if negb (rv =? 0) then Ok (rv, st)
  else
    let st := set_napi st false in
    let (rv, st) := stm32_eth_hw_start st in
    if negb (rv =? 0) then Ok (rv, stm32_eth_buffers_free (set_napi st true))
    else
      let st := ring_reset st in
      if negb (request_irq_rv =? 0)
      then Ok (request_irq_rv, stm32_eth_buffers_free (stm32_eth_hw_stop (set_napi st true)))
      else
        let st := set_regs st (set_dmaier (regs st) (dmaier (regs st) .| ier_bits)) in
        Ok (0, set_queue_stopped st false).

Definition stm32_netdev_close (st : eth) : Z * eth :=
  let st := set_napi st true in
  let st := set_queue_stopped st true in
  let st := set_regs st (set_dmaier (regs st) (dmaier (regs st) .& .~ ier_bits)) in
  let st := stm32_eth_hw_stop st in
  (0, stm32_eth_buffers_free st).

End Hw.

(** ** MDIO and link *)

(** The address register value of a transfer. *)
Definition mdio_addr (miiar phy_id reg op : Z) : Z :=
  let tmp := miiar .& (STM32_MAC_MIIAR_CR_MSK .<< STM32_MAC_MIIAR_CR_BIT) in
  let phy_id := phy_id .& STM32_MAC_MIIAR_PA_MSK in
  let tmp := tmp .| (phy_id .<< STM32_MAC_MIIAR_PA_BIT) in
  let reg := reg .& STM32_MAC_MIIAR_MR_MSK in
  let tmp := tmp .| (reg .<< STM32_MAC_MIIAR_MR_BIT) in
  tmp .| op.

(** A timeout is only reported in the log. *)
Definition stm32_mdio_write (phy_id reg data : Z) (st : eth) : Z * eth :=
  let tmp := mdio_addr (macmiiar (regs st)) phy_id reg
               (STM32_MAC_MIIAR_MW .| STM32_MAC_MIIAR_MB) in
  (0, set_regs st (set_macmii (regs st) tmp data)).

(** [mb_busy] are the polls of MB, [rdata] what the PHY puts in MACMIIDR. *)
Definition stm32_mdio_read (mb_busy : nat -> bool) (rdata : Z) (phy_id reg : Z) (st : eth) :
    Z * eth :=
  let tmp := mdio_addr (macmiiar (regs st)) phy_id reg STM32_MAC_MIIAR_MB in
  if poll_clear mb_busy 10 0
  then (rdata, set_regs st (set_macmii (regs st) (tmp .& .~ STM32_MAC_MIIAR_MB) rdata))
  else (0xFFFF, set_regs st (set_macmii (regs st) tmp (macmiidr (regs st)))).

(** [struct phy_device], as the callback reads it. *)
Record phy_device := { phy_link : Z; phy_speed : Z; phy_duplex : Z }.

Definition stm32_handle_link_change (p : phy_device) (st : eth) : eth :=
  let '(st, status_change) :=
    if negb (phy_link p =? 0)
       && (negb (speed st =? phy_speed p) || negb (duplex st =? phy_duplex p))
    then (set_link st (link st) (phy_speed p) (phy_duplex p), true) else (st, false) in
  let '(st, status_change) :=
    if negb (phy_link p =? link st) then
      let st := if phy_link p =? 0 then set_link st (link st) 0 (-1) else st in
      (set_link st (phy_link p) (speed st) (duplex st), true)
    else (st, status_change) in
  if status_change then stm32_params_setup st else st.

(** ** Platform data ([arch/arm/mach-stm32/eth.c]) *)

Record stm32_eth_data := {
  d_frame_max_size : Z; d_rx_buf_num : Z; d_tx_buf_num : Z; d_mac_addr : list Z; d_phy_id : Z }.

Definition stm3220g_eval_eth_data : stm32_eth_data :=
  {| d_frame_max_size := 2044; d_tx_buf_num := 24; d_rx_buf_num := 32;
     d_mac_addr := replicate 6 0; d_phy_id := 1 |}.
Definition stm32f7_eth_data : stm32_eth_data :=
  {| d_frame_max_size := 2044; d_tx_buf_num := 8; d_rx_buf_num := 12;
     d_mac_addr := replicate 6 0; d_phy_id := 0 |}.

(** The platform data [stm32_eth_init] installs. *)
Definition eth_platform_data (platform : Z) : option stm32_eth_data :=
  if (platform =? PLATFORM_STM32_STM3220G_EVAL) || (platform =? PLATFORM_STM32_STM3240G_EVAL)
     || (platform =? PLATFORM_STM32_STM_SOM) || (platform =? PLATFORM_STM32_STM_DISCO)
     || (platform =? PLATFORM_STM32_STM_STM32F439_SOM) then Some stm3220g_eval_eth_data
  else if (platform =? PLATFORM_STM32_STM_STM32F7_SOM)
     || (platform =? PLATFORM_STM32_STM32F7_DISCO) then Some stm32f7_eth_data
  else None.

(** The driver parameters and SRAM part of [stm32_plat_probe]. *)
Definition eth_probe_setup (d : stm32_eth_data) (st : eth) : result (Z * eth) :=
  let st := set_sram st (ALIGN4 STM32_SRAM) in
  let st := {| regs := regs st; rx := rx st; tx := tx st; nstat := nstat st;
               frame_max_size := d_frame_max_size d; sram_pointer := sram_pointer st;
               queue_stopped := queue_stopped st; napi_sched := napi_sched st; napi_dis := napi_dis st; link := link st;
               speed := speed st; duplex := duplex st |} in
  if (frame_max_size st <? 64) || (STM32_DMA_RBD_FL_MSK <? frame_max_size st) then Ok (- EINVAL, st)
  else
    let r := rx st in
    let t := tx st in
    let st := set_rx st {| rx_bd := rx_bd r; rx_bd_dma_addr := rx_bd_dma_addr r; rx_skb := rx_skb r;
                           rx_done_idx := rx_done_idx r; rx_buf_num := d_rx_buf_num d |} in
    let st := set_tx st {| tx_bd := tx_bd t; tx_bd_dma_addr := tx_bd_dma_addr t;
                           tx_skb := tx_skb t; tx_len := tx_len t; tx_todo_idx := tx_todo_idx t;
                           tx_done_idx := tx_done_idx t; tx_pending := tx_pending t;
                           tx_blocked := tx_blocked t; tx_buf_num := d_tx_buf_num d |} in
    if (d_tx_buf_num d =? 0) || (d_rx_buf_num d =? 0) then Ok (- EINVAL, st)
    else
      let* (_, st) := stm32_sram_alloc (u32 (d_rx_buf_num d * 4)) st in
      let* (_, st) := stm32_sram_alloc (u32 (d_tx_buf_num d * 4)) st in
      Ok (0, st).
