(* ===== verification/EthRing.v ===== *)
(** * The Ethernet descriptor rings

    Safety of the transmit ring under every interleaving of transmissions, DMA
    completions and interrupts, and the functional behaviour of the receive ring
    and its NAPI poll. *)

From S2P Require Import Prelude Clock Eth.

(** ** Ring arithmetic *)

Lemma ring_succ i n : 0 <= i < n -> (i + 1) mod n = if i + 1 =? n then 0 else i + 1.
Proof.
  intros. destruct (Z.eqb_spec (i + 1) n) as [->|]; [apply Z_mod_same_full|]. apply Z.mod_small; lia.
Qed.

(** The [k] slots from [d] on. *)
Definition window (n d k i : Z) : Prop := d <= i < d + k \/ i + n < d + k.

(** [e] is [k] slots after [d]. *)
Definition advance (n d k e : Z) : Prop := e = d + k \/ e = d + k - n.

#[global] Instance window_dec n d k i : Decision (window n d k i).
Proof. unfold window. apply _. Defined.

(** ** Transmit *)

Definition tx_owned (t : tx_side) (i : Z) : Prop :=
  exists b, tx_bd t !! Z.to_nat i = Some b /\ owned_bit (stat b) = true.

Record tx_inv (t : tx_side) : Prop := {
  tx_n : 0 < tx_buf_num t;
  tx_len_bd : Z.of_nat (length (tx_bd t)) = tx_buf_num t;
  tx_len_len : Z.of_nat (length (tx_len t)) = tx_buf_num t;
  tx_todo_range : 0 <= tx_todo_idx t < tx_buf_num t;
  tx_done_range : 0 <= tx_done_idx t < tx_buf_num t;
  tx_pending_range : 0 <= tx_pending t <= tx_buf_num t;
  tx_todo_pos : advance (tx_buf_num t) (tx_done_idx t) (tx_pending t) (tx_todo_idx t);
  tx_own : forall i, 0 <= i < tx_buf_num t -> tx_owned t i ->
    window (tx_buf_num t) (tx_done_idx t) (tx_pending t) i
}.

(** The queue is stopped exactly while the driver is blocked, and then the ring
    is full. *)
Record eth_tx_inv (st : eth) : Prop := {
  inv_tx : tx_inv (tx st);
  inv_queue : queue_stopped st = tx_blocked (tx st);
  inv_blocked : tx_blocked (tx st) = true -> tx_pending (tx st) = tx_buf_num (tx st)
}.

Lemma tx_pop_inv t b :
  tx_inv t -> 0 < tx_pending t -> tx_bd t !! Z.to_nat (tx_done_idx t) = Some b ->
  owned_bit (stat b) = false -> tx_inv (tx_pop t).
Proof.
  intros [] Hp Eb Hb. split; eth_simpl; unfold tx_pop; cbn; try assumption; try lia.
  - apply Z.mod_pos_bound. lia.
  - rewrite ring_succ by lia. unfold advance in *. destruct (Z.eqb_spec (tx_done_idx t + 1) (tx_buf_num t)); lia.
  - intros i Hi Ho. assert (Hne : i <> tx_done_idx t).
    { intros ->. destruct Ho as (b' & Eb' & Hb'). cbn in Eb'. congruence. }
    specialize (tx_own0 i Hi Ho). rewrite ring_succ by lia. unfold window in *.
    destruct (Z.eqb_spec (tx_done_idx t + 1) (tx_buf_num t)); lia.
Qed.

Lemma tx_complete_loop_ok fuel st :
  tx_inv (tx st) -> Z.of_nat fuel <= tx_pending (tx st) ->
  exists st', tx_complete_loop fuel st = Ok st' /\ tx_inv (tx st')
  /\ tx_blocked (tx st') = tx_blocked (tx st) /\ tx_buf_num (tx st') = tx_buf_num (tx st)
  /\ tx_bd (tx st') = tx_bd (tx st) /\ tx_todo_idx (tx st') = tx_todo_idx (tx st)
  /\ queue_stopped st' = queue_stopped st /\ tx_pending (tx st') <= tx_pending (tx st).
Proof.
  revert st. induction fuel as [|fuel IH]; intros st Hi Hf; cbn [tx_complete_loop].
  - exists st. repeat split; (assumption || lia || apply Hi).
  - pose proof Hi as [].
    destruct (lookup_lt_is_Some_2 (tx_bd (tx st)) (Z.to_nat (tx_done_idx (tx st)))) as [b Eb]; [lia|].
    destruct (lookup_lt_is_Some_2 (tx_len (tx st)) (Z.to_nat (tx_done_idx (tx st)))) as [l El]; [lia|].
    rewrite Eb, El. destruct (owned_bit (stat b)) eqn:Hb.
    + exists st. repeat split; (assumption || lia).
    + destruct (IH (set_tx (set_nstat st (tx_done_stats (stat b) l (nstat st))) (tx_pop (tx st))))
        as (st' & E & H1 & H2 & H3 & H4 & H5 & H6 & H7).
      * apply (tx_pop_inv _ b); try assumption. lia.
      * eth_simpl. unfold tx_pop. cbn. lia.
      * exists st'. split; [exact E|]. eth_simpl. unfold tx_pop in *. cbn in *.
        repeat split; (assumption || congruence || lia || apply H1).
Qed.

Lemma tx_complete_inv st :
  eth_tx_inv st ->
  exists st', stm32_eth_tx_complete st = Ok st' /\ eth_tx_inv st'
  /\ tx_blocked (tx st') = false /\ tx_bd (tx st') = tx_bd (tx st)
  /\ tx_todo_idx (tx st') = tx_todo_idx (tx st).
Proof.
  intros [Hi Hq Hb]. unfold stm32_eth_tx_complete.
  destruct (tx_complete_loop_ok (Z.to_nat (tx_pending (tx st))) st Hi) as (s & E & H1 & H2 & H3 & H4 & H5 & H6 & H7).
  { destruct Hi. lia. }
  rewrite E. cbn [rbind]. eexists. split; [reflexivity|].
  destruct (tx_blocked (tx s)) eqn:Ebl.
  - split; [|repeat split; assumption]. split; [destruct H1; split; assumption|reflexivity|discriminate].
  - split; [|repeat split; assumption]. split; [assumption|congruence|congruence].
Qed.

(** ** Every run of the transmit side *)

(** Transmissions, completions by the DMA (of any descriptor it owns, with any
    status) and interrupts; a transmission is not interrupted between taking a
    descriptor and handing it to the DMA. *)
Definition tx_hw_done (i s : Z) (st : eth) : eth :=
  let t := tx st in
  set_tx st {| tx_bd := alter (fun b => set_stat b s) (Z.to_nat i) (tx_bd t);
    tx_bd_dma_addr := tx_bd_dma_addr t; tx_skb := tx_skb t; tx_len := tx_len t;
    tx_todo_idx := tx_todo_idx t; tx_done_idx := tx_done_idx t; tx_pending := tx_pending t;
    tx_blocked := tx_blocked t; tx_buf_num := tx_buf_num t |}.

Inductive tx_step (w1c : Z -> Z -> Z) : eth -> eth -> Prop :=
  | step_xmit len st rv st' : stm32_netdev_xmit len st = (rv, st') -> tx_step w1c st st'
  | step_dma i s st : tx_owned (tx st) i -> owned_bit s = false -> tx_step w1c st (tx_hw_done i s st)
  | step_dmasr v st : tx_step w1c st (set_regs st (set_dmasr (regs st) v))
  | step_irq b st st' : stm32_eth_irq w1c st = Ok (b, st') -> tx_step w1c st st'.

Lemma capture_free len st idx st1 :
  eth_tx_inv st -> xmit_capture len st = inr (idx, st1) ->
  ~ tx_owned (tx st) idx /\ idx = tx_todo_idx (tx st) /\ tx_pending (tx st) < tx_buf_num (tx st)
  /\ tx_blocked (tx st) = false.
Proof.
  intros [[] Hq Hb]. unfold xmit_capture. destruct (_ <? _); [discriminate|].
  destruct (tx_blocked (tx st)); [discriminate|]. cbn [orb].
  destruct (Z.leb_spec (tx_buf_num (tx st)) (tx_pending (tx st))); [discriminate|]. intros [= <- _].
  split; [|auto]. intros Ho. specialize (tx_own0 _ tx_todo_range0 Ho).
  unfold window, advance in *. lia.
Qed.

Lemma xmit_inv len st rv st' :
  eth_tx_inv st -> stm32_netdev_xmit len st = (rv, st') -> eth_tx_inv st'.
Proof.
  intros Hi. unfold stm32_netdev_xmit. destruct (xmit_capture len st) as [r|[idx s1]] eqn:Ec.
  - intros ->. unfold xmit_capture in Ec. destruct (_ <? _).
    + injection Ec as _ <-. destruct Hi. now split.
    + destruct (_ || _); [|discriminate]. injection Ec as _ <-. exact Hi.
  - destruct (capture_free _ _ _ _ Hi Ec) as (_ & Eidx & Hlt & Hnb). intros [= _ <-].
    unfold xmit_capture in Ec. destruct (_ <? _); [discriminate|]. destruct (_ || _); [discriminate|].
    injection Ec as _ <-. destruct Hi as [[] Hq Hb].
    assert (Ht : tx_inv (tx (xmit_program idx len (set_tx st (tx_push (tx st)))))).
    { unfold xmit_program, tx_push. split; eth_simpl; try assumption; try lia.
      - now rewrite length_alter.
      - now rewrite length_insert.
      - apply Z.mod_pos_bound. lia.
      - rewrite ring_succ by lia. unfold advance in *.
        destruct (Z.eqb_spec (tx_todo_idx (tx st) + 1) (tx_buf_num (tx st))); lia.
      - intros i Hir (b & Eb & Hown). eth_simpl. destruct (decide (i = idx)) as [->|Hne].
        + subst idx. unfold advance, window in *. lia.
        + rewrite list_lookup_alter_ne in Eb by lia.
          assert (Ho : tx_owned (tx st) i) by (exists b; auto). specialize (tx_own0 i Hir Ho).
          unfold window in *. lia. }
    unfold xmit_finish. set (s2 := xmit_program idx len _) in *.
    destruct (Z.eqb_spec (tx_pending (tx s2)) (tx_buf_num (tx s2))) as [Hfull|Hnf].
    + split; [destruct Ht; split; assumption|reflexivity|]. intros _. exact Hfull.
    + split; [exact Ht|exact Hq|]. change (tx_blocked (tx s2)) with (tx_blocked (tx st)). congruence.
Qed.

Lemma dma_inv i s st :
  eth_tx_inv st -> owned_bit s = false -> eth_tx_inv (tx_hw_done i s st).
Proof.
  intros [[] Hq Hb] Hs. split; [|exact Hq|exact Hb]. split; unfold tx_hw_done; eth_simpl; try assumption.
  - now rewrite length_alter.
  - intros j Hj (b & Eb & Ho). eth_simpl. apply tx_own0; [assumption|].
    destruct (decide (Z.to_nat i = Z.to_nat j)) as [E|E].
    + rewrite E, list_lookup_alter_eq in Eb. destruct (tx_bd (tx st) !! Z.to_nat j); [|discriminate].
      injection Eb as <-. cbn in Ho. congruence.
    + rewrite list_lookup_alter_ne in Eb by assumption. exists b. auto.
Qed.

Lemma irq_inv w1c st :
  eth_tx_inv st -> exists b st', stm32_eth_irq w1c st = Ok (b, st') /\ eth_tx_inv st'.
Proof.
  intros Hi. unfold stm32_eth_irq. cbv zeta.
  assert (H0 : eth_tx_inv (set_regs st (set_dmasr (regs st) (w1c (dmasr (regs st)) (dmasr (regs st))))))
    by (destruct Hi; now split).
  destruct (_ =? 0); [eexists _, _; split; [reflexivity|exact H0]|].
  match goal with |- context [if negb (_ .& STM32_MAC_DMASR_RX_MSK =? 0) then ?a else ?b] =>
    assert (H1 : eth_tx_inv (if negb (dmasr (regs st) .& STM32_MAC_DMASR_RX_MSK =? 0) then a else b));
    [|set (s1 := if negb (dmasr (regs st) .& STM32_MAC_DMASR_RX_MSK =? 0) then a else b) in *] end.
  { destruct (negb _); [|exact H0]. unfold napi_schedule_prep. destruct (_ && _); destruct Hi; now split. }
  destruct (negb (_ .& STM32_MAC_DMASR_TX_MSK =? 0)).
  - destruct (tx_complete_inv (set_nstat s1 (add_stat_if
      (negb (dmasr (regs st) .& STM32_MAC_DMASR_TUS =? 0)) tx_fifo_errors (nstat s1)))) as (s2 & E & H2 & _).
    { destruct H1. now split. }
    rewrite E. cbn [rbind]. eexists _, _. split; [reflexivity|exact H2].
  - eexists _, _. split; [reflexivity|exact H1].
Qed.

(** C8: Safety of the transmit ring: from a state in which the DMA owns only
    pending descriptors, after any sequence of transmissions, DMA completions and
    interrupts, the ring indices stay consistent ([tx_todo_idx] is [tx_pending]
    slots after [tx_done_idx], 0 <= pending <= size), every descriptor the DMA owns
    is counted as pending, the next descriptor a transmission takes is never one
    that is still in flight, the queue is stopped only while the ring is full, and
    no interrupt faults. *)
Theorem eth_tx_ring_safe w1c st st' :
  eth_tx_inv st -> rtc (tx_step w1c) st st' ->
  eth_tx_inv st'
  /\ (forall len idx s1, xmit_capture len st' = inr (idx, s1) -> ~ tx_owned (tx st') idx)
  /\ (exists b s2, stm32_eth_irq w1c st' = Ok (b, s2)).
Proof.
  intros Hi Hr. assert (Hi' : eth_tx_inv st').
  { induction Hr as [|x y z Hs _ IH]; [assumption|]. apply IH. clear IH. revert Hi.
    destruct Hs as [len s rv s' E|i s s0 Ho Hs|v s|b s s' E]; intros Hi.
    - exact (xmit_inv _ _ _ _ Hi E).
    - now apply dma_inv.
    - destruct Hi. now split.
    - destruct (irq_inv w1c s Hi) as (b' & s2 & E' & H). rewrite E in E'. now injection E' as -> ->. }
  split; [exact Hi'|]. split.
  - intros len idx s1 E. now destruct (capture_free _ _ _ _ Hi' E).
  - destruct (irq_inv w1c st' Hi') as (b & s2 & E & _). eauto.
Qed.

Lemma owned_bit_31 x : owned_bit x = Z.testbit x 31.
Proof. unfold owned_bit. now apply bit_set_testbit. Qed.

(** The descriptor a transmission programs is handed to the DMA. *)
Lemma program_owned idx len st :
  (Z.to_nat idx < length (tx_bd (tx st)))%nat -> tx_owned (tx (xmit_program idx len st)) idx.
Proof.
  intros Hr. unfold xmit_program. destruct (lookup_lt_is_Some_2 _ _ Hr) as [b Eb].
  eexists. eth_simpl. rewrite list_lookup_alter_eq, Eb. split; [reflexivity|]. eth_simpl.
  rewrite owned_bit_31, !Z.lor_spec. change (Z.testbit STM32_DMA_TBD_DMA_OWN 31) with true.
  now rewrite !orb_true_r.
Qed.

(** The window between taking a descriptor and handing it to the DMA is not
    protected: if the transmit-complete work of an interrupt (a receive interrupt
    with a sticky transmit status suffices) runs there while the ring is empty, it
    takes the not yet programmed descriptor for a completed one; afterwards
    nothing is pending although the DMA owns the descriptor, so the ring invariant
    is lost. *)
Theorem eth_tx_race len st idx st1 :
  eth_tx_inv st -> tx_pending (tx st) = 0 -> xmit_capture len st = inr (idx, st1) ->
  exists st2, stm32_eth_tx_complete st1 = Ok st2
  /\ let st3 := xmit_finish (xmit_program idx len st2) in
     tx_pending (tx st3) = 0 /\ tx_owned (tx st3) idx /\ ~ eth_tx_inv st3.
Proof.
  intros Hi Hp Ec. destruct (capture_free _ _ _ _ Hi Ec) as (Hno & -> & Hlt & Hnb).
  unfold xmit_capture in Ec. destruct (_ <? _); [discriminate|]. destruct (_ || _); [discriminate|].
  injection Ec as <-. destruct Hi as [Ht Hq Hb]. pose proof Ht as []. rewrite Hp in *.
  assert (Hd : tx_todo_idx (tx st) = tx_done_idx (tx st)) by (unfold advance in *; lia).
  destruct (lookup_lt_is_Some_2 (tx_bd (tx st)) (Z.to_nat (tx_done_idx (tx st)))) as [b Eb]; [lia|].
  destruct (lookup_lt_is_Some_2 (tx_len (tx st)) (Z.to_nat (tx_done_idx (tx st)))) as [l El]; [lia|].
  assert (Hob : owned_bit (stat b) = false).
  { destruct (owned_bit (stat b)) eqn:E; [|reflexivity]. destruct Hno. rewrite Hd. exists b. auto. }
  unfold stm32_eth_tx_complete, tx_push. eth_simpl. rewrite Hp. change (Z.to_nat (0 + 1)) with 1%nat.
  cbn [tx_complete_loop]. eth_simpl. rewrite Eb, El, Hob. cbn [rbind]. eth_simpl.
  unfold tx_pop. eth_simpl. rewrite Hnb. eexists. split; [reflexivity|].
  unfold xmit_finish. match goal with |- context [xmit_program ?i len ?s] => set (s2 := s) end.
  assert (Ep : tx_pending (tx (xmit_program (tx_todo_idx (tx st)) len s2)) = 0) by reflexivity.
  assert (En : tx_buf_num (tx (xmit_program (tx_todo_idx (tx st)) len s2)) = tx_buf_num (tx st)) by reflexivity.
  rewrite Ep, En, (proj2 (Z.eqb_neq 0 _)) by lia. cbv zeta. split; [exact Ep|].
  assert (Ho : tx_owned (tx (xmit_program (tx_todo_idx (tx st)) len s2)) (tx_todo_idx (tx st))).
  { apply program_owned. change (tx_bd (tx s2)) with (tx_bd (tx st)). lia. }
  split; [exact Ho|]. intros [[] _ _].
  assert (Hin : 0 <= tx_todo_idx (tx st) < tx_buf_num (tx (xmit_program (tx_todo_idx (tx st)) len s2)))
    by (rewrite En; lia).
  match goal with H : forall i, _ -> tx_owned (tx (xmit_program _ _ _)) i -> _ |- _ =>
    specialize (H _ Hin Ho); rewrite Ep, En in H; unfold window in H end.
  match goal with H : 0 <= tx_done_idx (tx (xmit_program _ _ _)) < _ |- _ => rewrite En in H end. lia.
Qed.

(** ** Receive *)

Definition rx_owned (r : rx_side) (i : Z) : Prop :=
  exists b, rx_bd r !! Z.to_nat i = Some b /\ owned_bit (stat b) = true.

Record rx_inv (r : rx_side) : Prop := {
  rx_n : 0 < rx_buf_num r;
  rx_len_bd : Z.of_nat (length (rx_bd r)) = rx_buf_num r;
  rx_done_range : 0 <= rx_done_idx r < rx_buf_num r
}.

(** What a descriptor delivers to the network stack. *)
Definition rx_deliver (skb_ok : Z -> bool) (r : rx_side) (i : Z) : option (Z * Z) :=
  match rx_bd r !! Z.to_nat i with
  | Some b =>
      if Z.testbit (stat b) 15 then None
      else if skb_ok (rx_frame_len (stat b)) then Some (i, rx_frame_len (stat b)) else None
  | None => None
  end.

(** The [k] slots of the ring from [d] on, in order. *)
Fixpoint slots (n d : Z) (k : nat) : list Z :=
  match k with O => [] | S k => d :: slots n (if d + 1 =? n then 0 else d + 1) k end.

Lemma slots_window n d k i :
  0 <= d < n -> i ∈ slots n d k -> 0 <= i < n /\ window n d (Z.of_nat k) i.
Proof.
  revert d. induction k as [|k IH]; intros d Hd Hi; [now apply not_elem_of_nil in Hi|].
  cbn [slots] in Hi. apply elem_of_cons in Hi as [->|Hi]; [unfold window; lia|].
  destruct (Z.eqb_spec (d + 1) n); (apply IH in Hi as [H1 H2]; [|lia]); split;
    try assumption; unfold window in *; lia.
Qed.

(** What [stm32_eth_rx_get] does to the ring: [k] descriptors are given back. *)
Record rx_taken (r : rx_side) (k : nat) (r' : rx_side) : Prop := {
  taken_le : Z.of_nat k <= rx_buf_num r;
  taken_num : rx_buf_num r' = rx_buf_num r;
  taken_inv : rx_inv r';
  taken_pos : advance (rx_buf_num r) (rx_done_idx r) (Z.of_nat k) (rx_done_idx r');
  taken_ready : forall i, 0 <= i < rx_buf_num r ->
    window (rx_buf_num r) (rx_done_idx r) (Z.of_nat k) i -> ~ rx_owned r i;
  taken_back : forall i, 0 <= i < rx_buf_num r ->
    rx_bd r' !! Z.to_nat i =
    if decide (window (rx_buf_num r) (rx_done_idx r) (Z.of_nat k) i)
    then (fun b => set_stat b STM32_DMA_RBD_DMA_OWN) <$> rx_bd r !! Z.to_nat i
    else rx_bd r !! Z.to_nat i
}.

Lemma taken_0 r : rx_inv r -> rx_taken r 0 r.
Proof.
  intros []. split; try lia; try (now split).
  - unfold advance. lia.
  - intros i Hi Hw. unfold window in Hw. lia.
  - intros i Hi. rewrite decide_False; [reflexivity|]. unfold window. lia.
Qed.

Lemma rx_next_taken st b :
  rx_inv (rx st) -> rx_bd (rx st) !! Z.to_nat (rx_done_idx (rx st)) = Some b ->
  owned_bit (stat b) = false ->
  rx_inv (rx (rx_next st)) /\ rx_owned (rx (rx_next st)) (rx_done_idx (rx st))
  /\ forall k r', rx_taken (rx (rx_next st)) k r' -> rx_taken (rx st) (S k) r'.
Proof.
  intros [Hn Hl Hd] Eb Ho. unfold rx_next. eth_simpl.
  assert (Hown : rx_owned (rx (rx_next st)) (rx_done_idx (rx st))).
  { eexists. unfold rx_next. eth_simpl. rewrite list_lookup_alter_eq, Eb. split; reflexivity. }
  split; [|split; [exact Hown|]].
  { split; eth_simpl; [assumption|now rewrite length_alter|]. apply Z.mod_pos_bound. lia. }
  intros k r' [H1 H2 H3 H4 H5 H6]. unfold rx_next in *. eth_simpl.
  rewrite ring_succ in * by lia.
  assert (Hk : Z.of_nat k < rx_buf_num (rx st)).
  { destruct (Z.eq_dec (Z.of_nat k) (rx_buf_num (rx st))) as [E|]; [|lia].
    exfalso. apply (H5 (rx_done_idx (rx st)) Hd); [|exact Hown].
    unfold window. destruct (Z.eqb_spec (rx_done_idx (rx st) + 1) (rx_buf_num (rx st))); lia. }
  split; try assumption.
  - lia.
  - pose proof (rx_done_range _ H3). rewrite H2 in *. unfold advance in *.
    destruct (Z.eqb_spec (rx_done_idx (rx st) + 1) (rx_buf_num (rx st))); lia.
  - intros i Hi Hw (b' & Eb' & Hb'). destruct (decide (i = rx_done_idx (rx st))) as [->|Hne]; [congruence|].
    apply (H5 i Hi).
    + unfold window in *. destruct (Z.eqb_spec (rx_done_idx (rx st) + 1) (rx_buf_num (rx st))); lia.
    + exists b'. eth_simpl. rewrite list_lookup_alter_ne by lia. auto.
  - intros i Hi. rewrite H6 by assumption.
    destruct (decide (i = rx_done_idx (rx st))) as [->|Hne].
    + rewrite list_lookup_alter_eq, Eb. rewrite (decide_True _ (P := window _ _ (Z.of_nat (S k)) _))
        by (unfold window; lia).
      case_decide; reflexivity.
    + rewrite list_lookup_alter_ne by lia. apply decide_ext.
      unfold window. destruct (Z.eqb_spec (rx_done_idx (rx st) + 1) (rx_buf_num (rx st))); lia.
Qed.

Lemma rx_deliver_next skb_ok st i :
  rx_inv (rx st) -> 0 <= i -> i <> rx_done_idx (rx st) ->
  rx_deliver skb_ok (rx (rx_next st)) i = rx_deliver skb_ok (rx st) i.
Proof.
  intros [] Hi Hne. unfold rx_deliver, rx_next. eth_simpl. now rewrite list_lookup_alter_ne by lia.
Qed.

Lemma omap_ext_in {A B} (f g : A -> option B) (l : list A) :
  (forall x, x ∈ l -> f x = g x) -> omap f l = omap g l.
Proof.
  induction l as [|x l IH]; intros H; [reflexivity|]. cbn. rewrite (H x) by left.
  rewrite IH; [reflexivity|]. intros y Hy. apply H. now right.
Qed.

(** The parts of the device that receiving leaves alone. *)
Definition rx_frame (st st' : eth) : Prop :=
  regs st' = regs st /\ tx st' = tx st /\ queue_stopped st' = queue_stopped st
  /\ napi_sched st' = napi_sched st /\ napi_dis st' = napi_dis st /\ sram_pointer st' = sram_pointer st.

Lemma slots_deliver_next skb_ok st k :
  rx_inv (rx st) -> Z.of_nat (S k) <= rx_buf_num (rx st) ->
  omap (rx_deliver skb_ok (rx (rx_next st)))
    (slots (rx_buf_num (rx st)) (rx_done_idx (rx (rx_next st))) k)
  = omap (rx_deliver skb_ok (rx st))
      (slots (rx_buf_num (rx st))
         (if rx_done_idx (rx st) + 1 =? rx_buf_num (rx st) then 0 else rx_done_idx (rx st) + 1) k).
Proof.
  intros Hi Hk. pose proof Hi as [Hn Hl Hd].
  replace (rx_done_idx (rx (rx_next st)))
    with (if rx_done_idx (rx st) + 1 =? rx_buf_num (rx st) then 0 else rx_done_idx (rx st) + 1)
    by (unfold rx_next; eth_simpl; now rewrite ring_succ by lia).
  apply omap_ext_in. intros i Hin.
  apply slots_window in Hin as [Hr Hw]; [|destruct (Z.eqb_spec (rx_done_idx (rx st) + 1) (rx_buf_num (rx st))); lia].
  apply rx_deliver_next; [assumption|lia|]. intros ->. unfold window in Hw.
  destruct (Z.eqb_spec (rx_done_idx (rx st) + 1) (rx_buf_num (rx st))); lia.
Qed.

Lemma set_rx_same st : set_rx st (rx st) = st.
Proof. now destruct st. Qed.

Lemma rx_get_loop_spec skb_ok fuel p st :
  rx_inv (rx st) ->
  exists k st',
    rx_get_loop (fun _ r => r) skb_ok fuel p st
    = Ok (p + Z.of_nat k,
          omap (rx_deliver skb_ok (rx st)) (slots (rx_buf_num (rx st)) (rx_done_idx (rx st)) k), st')
    /\ (k <= fuel)%nat /\ rx_taken (rx st) k (rx st') /\ rx_frame st st'
    /\ (k = fuel \/ rx_owned (rx st') (rx_done_idx (rx st'))).
Proof.
  revert p st. induction fuel as [|fuel IH]; intros p st Hi; cbn [rx_get_loop]; rewrite ?set_rx_same.
  - exists 0%nat, st. rewrite Z.add_0_r. cbn. split; [reflexivity|]. split; [lia|].
    split; [now apply taken_0|]. split; [unfold rx_frame; auto 8|now left].
  - pose proof Hi as [Hn Hl Hd].
    destruct (lookup_lt_is_Some_2 (rx_bd (rx st)) (Z.to_nat (rx_done_idx (rx st)))) as [b Eb]; [lia|].
    rewrite Eb. destruct (owned_bit (stat b)) eqn:Hb.
    { exists 0%nat, st. rewrite Z.add_0_r. cbn. split; [reflexivity|]. split; [lia|].
      split; [now apply taken_0|]. split; [unfold rx_frame; auto 8|]. right. exists b. auto. }
    change (negb ((stat b .& STM32_DMA_RBD_ES) =? 0)) with (bit_set (stat b) 15).
    rewrite bit_set_testbit by lia.
    (* one turn of the loop on the counters [s] *)
    assert (Hstep : forall s, exists k st',
      rx_get_loop (fun _ r => r) skb_ok fuel (p + 1) (rx_next (set_nstat st s))
      = Ok (p + Z.of_nat (S k),
            omap (rx_deliver skb_ok (rx st)) (slots (rx_buf_num (rx st))
              (if rx_done_idx (rx st) + 1 =? rx_buf_num (rx st) then 0 else rx_done_idx (rx st) + 1) k), st')
      /\ (S k <= S fuel)%nat /\ rx_taken (rx st) (S k) (rx st') /\ rx_frame st st'
      /\ (S k = S fuel \/ rx_owned (rx st') (rx_done_idx (rx st')))).
    { intros s. destruct (rx_next_taken (set_nstat st s) b Hi Eb Hb) as (Hi1 & _ & Htk).
      destruct (IH (p + 1) (rx_next (set_nstat st s)) Hi1) as (k & st' & E & Hk & Ht & Hf & He).
      exists k, st'. specialize (Htk k _ Ht). eth_simpl. split; [|split; [lia|split; [exact Htk|split; [exact Hf|]]]].
      - rewrite E. f_equal. f_equal. f_equal; [lia|].
        exact (slots_deliver_next skb_ok (set_nstat st s) k Hi (taken_le _ _ _ Htk)).
      - destruct He; [left; lia|now right]. }
    assert (Hd0 : rx_deliver skb_ok (rx st) (rx_done_idx (rx st)) =
      if Z.testbit (stat b) 15 then None
      else if skb_ok (rx_frame_len (stat b)) then Some (rx_done_idx (rx st), rx_frame_len (stat b)) else None)
      by (unfold rx_deliver; now rewrite Eb).
    destruct (Z.testbit (stat b) 15).
    { destruct (Hstep (rx_error_stats (stat b) (nstat st))) as (k & st' & E & H). exists (S k), st'.
      split; [|exact H]. rewrite E. cbn [slots omap list_omap]. now rewrite Hd0. }
    cbv zeta. destruct (skb_ok (rx_frame_len (stat b))) eqn:Es; cbn [negb].
    + destruct (Hstep (add_stat rx_bytes (rx_frame_len (stat b)) (add_stat rx_packets 1 (nstat st))))
        as (k & st' & E & H). exists (S k), st'. split; [|exact H]. rewrite E. cbn [rbind slots omap list_omap].
      now rewrite Hd0.
    + destruct (Hstep (add_stat rx_dropped 1 (nstat st))) as (k & st' & E & H). exists (S k), st'.
      split; [|exact H]. rewrite E. cbn [slots omap list_omap]. now rewrite Hd0.
Qed.

(** C22: [stm32_eth_rx_get] takes [k] frames in ring order from [rx_done_idx] on,
    with [k] at most the budget and at most the ring size, all of them descriptors
    the DMA had completed; it passes exactly the error-free ones it can allocate a
    buffer for to the network stack, with their length less the CRC, gives each
    taken descriptor back to the DMA, leaves every other descriptor and the transmit
    side alone, and stops before the budget only at a descriptor the DMA owns.  The DMA
    completes no further frame during the call; the theorem on the poll lets it. *)
Theorem eth_rx_get_correct skb_ok processed budget st :
  rx_inv (rx st) -> processed <= budget ->
  exists k st',
    stm32_eth_rx_get skb_ok processed budget st
    = Ok (processed + Z.of_nat k,
          omap (rx_deliver skb_ok (rx st)) (slots (rx_buf_num (rx st)) (rx_done_idx (rx st)) k), st')
    /\ processed + Z.of_nat k <= budget /\ rx_taken (rx st) k (rx st') /\ rx_frame st st'
    /\ (processed + Z.of_nat k = budget \/ rx_owned (rx st') (rx_done_idx (rx st'))).
Proof.
  intros Hi Hp. unfold stm32_eth_rx_get, rx_get_with.
  destruct (rx_get_loop_spec skb_ok (Z.to_nat (budget - processed)) processed st Hi)
    as (k & st' & E & Hk & Ht & Hf & He).
  exists k, st'. split; [exact E|]. split; [lia|]. split; [exact Ht|]. split; [exact Hf|].
  destruct He; [left; lia|now right].
Qed.

(** The DMA fills descriptors it owns; it does not touch the others. *)
Record rx_dma_ok (dma : nat -> rx_side -> rx_side) : Prop := {
  dma_num : forall n r, rx_buf_num (dma n r) = rx_buf_num r;
  dma_idx : forall n r, rx_done_idx (dma n r) = rx_done_idx r;
  dma_len : forall n r, length (rx_bd (dma n r)) = length (rx_bd r);
  dma_keep : forall n r i b, rx_bd r !! i = Some b -> owned_bit (stat b) = false ->
    rx_bd (dma n r) !! i = Some b
}.

Lemma dma_rx_inv dma n r : rx_dma_ok dma -> rx_inv r -> rx_inv (dma n r).
Proof.
  intros [D1 D2 D3 _] []. split; rewrite ?D1, ?D2, ?D3; assumption.
Qed.

(** Fetching while the DMA goes on. *)
Lemma rx_get_dma_spec dma skb_ok fuel p st :
  rx_dma_ok dma -> rx_inv (rx st) ->
  exists k frames st',
    rx_get_loop dma skb_ok fuel p st = Ok (p + Z.of_nat k, frames, st')
    /\ (k <= fuel)%nat /\ rx_inv (rx st') /\ rx_frame st st'
    /\ (k = fuel \/ rx_owned (rx st') (rx_done_idx (rx st')))
    /\ (~ rx_owned (rx st) (rx_done_idx (rx st)) -> (0 < fuel)%nat -> (0 < k)%nat).
Proof.
  intros Hd. revert p st. induction fuel as [|fuel IH]; intros p st Hi; cbn [rx_get_loop].
  { exists 0%nat, [], st. rewrite Z.add_0_r. unfold rx_frame. repeat split; auto; try apply Hi; lia. }
  set (s0 := set_rx st _). assert (Hi0 : rx_inv (rx s0)) by (now apply dma_rx_inv).
  assert (Hf0 : rx_frame st s0) by (unfold rx_frame; auto 8).
  pose proof Hi0 as [Hn Hl Hr].
  destruct (lookup_lt_is_Some_2 (rx_bd (rx s0)) (Z.to_nat (rx_done_idx (rx s0)))) as [b Eb]; [lia|].
  rewrite Eb. destruct (owned_bit (stat b)) eqn:Hb.
  { exists 0%nat, [], s0. rewrite Z.add_0_r. split; [reflexivity|]. split; [lia|]. split; [exact Hi0|].
    split; [exact Hf0|]. split; [right; now exists b|]. intros Hno _. exfalso. apply Hno.
    unfold s0 in Eb. eth_simpl. rewrite (dma_idx dma Hd) in Eb.
    destruct (lookup_lt_is_Some_2 (rx_bd (rx st)) (Z.to_nat (rx_done_idx (rx st)))) as [c Ec];
      [destruct Hi; lia|].
    exists c. split; [exact Ec|]. destruct (owned_bit (stat c)) eqn:Hc; [reflexivity|].
    rewrite (dma_keep dma Hd _ _ _ _ Ec Hc) in Eb. congruence. }
  assert (Hstep : forall s, exists k frames st',
    rx_get_loop dma skb_ok fuel (p + 1) (rx_next (set_nstat s0 s)) = Ok (p + Z.of_nat (S k), frames, st')
    /\ (S k <= S fuel)%nat /\ rx_inv (rx st') /\ rx_frame st st'
    /\ (S k = S fuel \/ rx_owned (rx st') (rx_done_idx (rx st')))
    /\ (~ rx_owned (rx st) (rx_done_idx (rx st)) -> (0 < S fuel)%nat -> (0 < S k)%nat)).
  { intros s. destruct (rx_next_taken (set_nstat s0 s) b Hi0 Eb Hb) as (Hi1 & _ & _).
    destruct (IH (p + 1) (rx_next (set_nstat s0 s)) Hi1) as (k & fr & st' & E & Hk & Hi' & Hf & He & _).
    exists k, fr, st'. replace (p + Z.of_nat (S k)) with (p + 1 + Z.of_nat k) by lia.
    split; [exact E|]. split; [lia|]. split; [exact Hi'|]. split; [exact Hf|]. split; [|lia].
    destruct He; [left; lia|now right]. }
  destruct (negb _).
  { destruct (Hstep (rx_error_stats (stat b) (nstat s0))) as (k & fr & st' & H). now exists (S k), fr, st'. }
  cbv zeta. destruct (skb_ok (rx_frame_len (stat b))); cbn [negb].
  - destruct (Hstep (add_stat rx_bytes (rx_frame_len (stat b)) (add_stat rx_packets 1 (nstat s0))))
      as (k & fr & st' & E & H). rewrite E. cbn [rbind]. now eexists (S k), _, st'.
  - destruct (Hstep (add_stat rx_dropped 1 (nstat s0))) as (k & fr & st' & H). now exists (S k), fr, st'.
Qed.

(** What an interrupt does to the poll: it leaves the receive ring alone, and if it
    schedules the poll it turns the receive interrupt off. *)
Definition irq_keeps (st st' : eth) : Prop :=
  rx st' = rx st /\ napi_dis st' = napi_dis st
  /\ ((napi_sched st' = napi_sched st /\ dmaier (regs st') = dmaier (regs st))
      \/ (napi_dis st = false /\ napi_sched st = false /\ napi_sched st' = true
          /\ Z.testbit (dmaier (regs st')) 6 = false)).

Lemma tx_complete_loop_keeps fuel st st' :
  tx_complete_loop fuel st = Ok st' ->
  rx st' = rx st /\ napi_dis st' = napi_dis st /\ napi_sched st' = napi_sched st /\ regs st' = regs st.
Proof.
  revert st. induction fuel as [|fuel IH]; intros st; cbn [tx_complete_loop]; [intros [= <-]; auto|].
  destruct (_ !! _); [|discriminate]. destruct (_ !! _); [|discriminate].
  destruct (owned_bit _); [intros [= <-]; auto|]. intros E. exact (IH _ E).
Qed.

Lemma tx_complete_keeps st st' :
  stm32_eth_tx_complete st = Ok st' ->
  rx st' = rx st /\ napi_dis st' = napi_dis st /\ napi_sched st' = napi_sched st /\ regs st' = regs st.
Proof.
  unfold stm32_eth_tx_complete. destruct (tx_complete_loop _ st) as [s1|] eqn:E; cbn [rbind]; [|discriminate].
  apply tx_complete_loop_keeps in E. intros [= <-]. now destruct (tx_blocked (tx s1)).
Qed.

Lemma RIE_set x : Z.testbit (x .| STM32_MAC_DMAIER_RIE) 6 = true.
Proof. change STM32_MAC_DMAIER_RIE with (BIT 6). now rewrite set_bit_spec by lia. Qed.

Lemma RIE_clear x : Z.testbit (x .& .~ STM32_MAC_DMAIER_RIE) 6 = false.
Proof. change STM32_MAC_DMAIER_RIE with (BIT 6). rewrite Z.land_spec. apply andb_false_r. Qed.

Lemma irq_keeps_ok w1c st b st' : stm32_eth_irq w1c st = Ok (b, st') -> irq_keeps st st'.
Proof.
  unfold stm32_eth_irq. cbv zeta. destruct (_ =? 0); [intros [= _ <-]; unfold irq_keeps; auto|].
  match goal with |- context [let* _ := (if _ then stm32_eth_tx_complete (set_nstat ?a _) else Ok ?a) in _] =>
    set (s1 := a) end.
  assert (H1 : irq_keeps st s1).
  { unfold s1, irq_keeps, napi_schedule_prep. destruct (negb _); [|auto]. eth_simpl.
    destruct (napi_dis st) eqn:Ed, (napi_sched st) eqn:Es; cbn [andb negb]; eth_simpl;
      rewrite ?Ed, ?Es; auto 10 using RIE_clear. }
  clearbody s1. destruct (negb (_ .& STM32_MAC_DMASR_TX_MSK =? 0)); cbn [rbind]; [|now intros [= _ <-]].
  destruct (stm32_eth_tx_complete _) as [s2|] eqn:E; cbn [rbind]; [|discriminate]. intros [= _ <-].
  apply tx_complete_keeps in E as (E1 & E2 & E3 & E4). eth_simpl.
  unfold irq_keeps in *. now rewrite E1, E2, E3, E4.
Qed.

Lemma take_irqs_ok w1c l st :
  eth_tx_inv st -> exists st', take_irqs w1c l st = Ok st' /\ eth_tx_inv st' /\ irq_keeps st st'.
Proof.
  revert st. induction l as [|v l IH]; intros st Hi; cbn [take_irqs].
  { exists st. unfold irq_keeps. auto 10. }
  set (s0 := set_regs st _). assert (Hi0 : eth_tx_inv s0) by (destruct Hi; now split).
  destruct (irq_inv w1c s0 Hi0) as (b & s1 & E & Hi1). rewrite E. cbn [rbind]. apply irq_keeps_ok in E.
  destruct (IH s1 Hi1) as (s2 & E2 & Hi2 & K2). exists s2. split; [exact E2|]. split; [exact Hi2|].
  unfold irq_keeps in *. unfold s0 in *. eth_simpl. destruct E as (R1 & D1 & C1), K2 as (R2 & D2 & C2).
  rewrite R2, D2, R1, D1 in *. split; [reflexivity|]. split; [reflexivity|].
  destruct C1 as [[C1 C1']|(C0 & C1 & C1' & C1'')], C2 as [[C2 C2']|(C3 & C2 & C2' & C2'')];
    rewrite ?C2, ?C2'; auto; try congruence. right. rewrite <- C1. auto.
Qed.

(** How the poll may end: the budget is spent and the poll stays on the list; an interrupt
    has put it back on the list, with the receive interrupt off; it is off the list with
    the interrupt on and the next descriptor seen in the hands of the DMA after that; or the
    device is being closed. *)
Inductive poll_end (budget got : Z) (st : eth) : Prop :=
  | pe_budget : got = budget -> napi_sched st = true -> Z.testbit (dmaier (regs st)) 6 = true ->
      poll_end budget got st
  | pe_again : got < budget -> napi_sched st = true -> Z.testbit (dmaier (regs st)) 6 = false ->
      poll_end budget got st
  | pe_idle : got < budget -> napi_sched st = false -> Z.testbit (dmaier (regs st)) 6 = true ->
      rx_owned (rx st) (rx_done_idx (rx st)) -> poll_end budget got st
  | pe_closing : got < budget -> napi_sched st = false -> napi_dis st = true -> poll_end budget got st.

Lemma rx_poll_locked_ok w1c look n st :
  rx_dma_ok look -> rx_inv (rx st) -> eth_tx_inv st -> napi_sched st = true ->
  exists more st', rx_poll_locked w1c look n st = Ok (more, st')
  /\ rx_inv (rx st') /\ eth_tx_inv st' /\ napi_sched st' = false /\ napi_dis st' = napi_dis st
  /\ Z.testbit (dmaier (regs st')) 6 = negb more
  /\ (if more then ~ rx_owned (rx st') (rx_done_idx (rx st')) else rx_owned (rx st') (rx_done_idx (rx st'))).
Proof.
  intros Hd Hi Ht Hs. unfold rx_poll_locked, __napi_complete. rewrite Hs. cbn [negb rbind]. cbv zeta. eth_simpl.
  pose proof (dma_rx_inv look n _ Hd Hi) as Hi2. pose proof Hi2 as [Hn2 Hl2 Hd2].
  destruct (lookup_lt_is_Some_2 (rx_bd (look n (rx st))) (Z.to_nat (rx_done_idx (look n (rx st))))) as [b Eb]; [lia|].
  rewrite Eb. destruct (owned_bit (stat b)) eqn:Hb; cbn [negb]; eexists _, _; (split; [reflexivity|]); eth_simpl;
    (split; [exact Hi2|]; split; [destruct Ht; now split|]; split; [reflexivity|]; split; [reflexivity|]).
  - split; [apply RIE_set|]. now exists b.
  - split; [apply RIE_clear|]. intros (b' & Eb' & Hb'). congruence.
Qed.

Section PollOk.

Context (w1c : Z -> Z -> Z) (skb_ok : Z -> bool).
Context (dma : nat -> nat -> rx_side -> rx_side) (look : nat -> rx_side -> rx_side) (irqs irqs' : nat -> list Z).
Hypothesis (Hdma : forall n, rx_dma_ok (dma n)) (Hlook : rx_dma_ok look).

Lemma rx_poll_loop_ok fuel n rx0 budget st :
  rx_inv (rx st) -> eth_tx_inv st -> napi_sched st = true -> rx0 <= budget ->
  budget - rx0 < Z.of_nat fuel
  \/ (~ rx_owned (rx st) (rx_done_idx (rx st)) /\ budget - rx0 <= Z.of_nat fuel /\ (0 < fuel)%nat) ->
  exists got frames st',
    rx_poll_loop w1c skb_ok dma look irqs irqs' fuel n rx0 budget st = Ok (got, frames, st')
    /\ rx0 <= got <= budget /\ rx_inv (rx st') /\ eth_tx_inv st' /\ napi_dis st' = napi_dis st
    /\ poll_end budget got st'.
Proof.
  revert n rx0 st. induction fuel as [|fuel IH]; intros n rx0 st Hi Hx Hs Hle Hf; [lia|].
  cbn [rx_poll_loop]. unfold rx_get_with.
  destruct (rx_get_dma_spec (dma n) skb_ok (Z.to_nat (budget - rx0)) rx0 st (Hdma n) Hi)
    as (k & fr & s1 & E & Hk & Hi1 & (F1 & F2 & F3 & F4 & F5 & F6) & He & Hpos).
  rewrite E. cbn [rbind].
  assert (Hx1 : eth_tx_inv s1) by (destruct Hx; split; rewrite ?F2, ?F3; assumption).
  destruct (take_irqs_ok w1c (irqs n) s1 Hx1) as (s2 & E2 & Hx2 & (R2 & D2 & C2)). rewrite E2. cbn [rbind].
  assert (Hs2 : napi_sched s2 = true) by (destruct C2 as [[C2 _]|(_ & C2 & _)]; congruence).
  assert (Hi2 : rx_inv (rx s2)) by now rewrite R2.
  destruct (Z.ltb_spec (rx0 + Z.of_nat k) budget) as [Hlt|Hge]; cbn [negb].
  2: { eexists _, _, _. split; [reflexivity|]. eth_simpl. split; [lia|]. split; [exact Hi2|].
    split; [destruct Hx2; now split|]. split; [congruence|]. apply pe_budget; [lia|exact Hs2|apply RIE_set]. }
  assert (Hk1 : budget - rx0 < Z.of_nat (S fuel) \/ (0 < k)%nat /\ budget - rx0 <= Z.of_nat (S fuel)).
  { destruct Hf as [Hf|(Hno & Hf & _)]; [now left|]. right. split; [|lia]. apply Hpos; [exact Hno|lia]. }
  destruct (rx_poll_locked_ok w1c look n s2 Hlook Hi2 Hx2 Hs2) as (more & s3 & E3 & Hi3 & Hx3 & Hs3 & D3 & B3 & O3).
  rewrite E3. cbn [rbind].
  destruct (take_irqs_ok w1c (irqs' n) s3 Hx3) as (s4 & E4 & Hx4 & (R4 & D4 & C4)). rewrite E4. cbn [rbind].
  assert (Hi4 : rx_inv (rx s4)) by now rewrite R4.
  destruct more; cbn [negb] in B3.
  - unfold napi_reschedule, napi_schedule_prep. destruct (negb (napi_dis s4) && negb (napi_sched s4)) eqn:Er.
    + destruct (IH (S n) (rx0 + Z.of_nat k) (set_napi s4 true)) as (got & fr' & s5 & E5 & G1 & G2 & G3 & G4 & G5).
      * exact Hi4.
      * destruct Hx4; now split.
      * reflexivity.
      * lia.
      * right. eth_simpl. rewrite R4. split; [exact O3|lia].
      * rewrite E5. cbn [rbind]. eexists _, _, _. split; [reflexivity|]. eth_simpl. split; [lia|].
        split; [exact G2|]. split; [exact G3|]. split; [congruence|exact G5].
    + eexists _, _, _. split; [reflexivity|]. split; [lia|]. split; [exact Hi4|]. split; [exact Hx4|].
      split; [congruence|]. destruct (napi_sched s4) eqn:Es.
      * apply pe_again; [exact Hlt|exact Es|]. destruct C4 as [[C4 _]|(_ & _ & _ & C4)]; [congruence|exact C4].
      * apply pe_closing; [exact Hlt|exact Es|]. destruct (napi_dis s4); [reflexivity|discriminate Er].
  - eexists _, _, _. split; [reflexivity|]. split; [lia|]. split; [exact Hi4|]. split; [exact Hx4|].
    split; [congruence|]. destruct C4 as [[C4 C4']|(_ & _ & C4 & C4')].
    + apply pe_idle; [exact Hlt|congruence|congruence|now rewrite R4].
    + now apply pe_again.
Qed.

End PollOk.

(** C21: The NAPI poll, called while it is scheduled, terminates and returns at most the
    budget, whatever frames the DMA completes while it fetches and before each of its looks
    at the ring and whatever interrupts (transmit or receive) are taken in between; and no
    received frame is left without a wake-up.  It ends in one of four ways: the budget is
    spent, the poll stays scheduled and the receive interrupt is on; an interrupt
    between the release of the lock and [napi_reschedule] has scheduled it again (the receive
    interrupt is then off, and the poll about to run); it is not scheduled, the receive
    interrupt is on, and after turning it on the poll saw that the next descriptor still
    belongs to the DMA; or [napi_disable] is pending.  The rings' invariants are kept. *)
Theorem eth_rx_poll_no_lost_wakeup w1c skb_ok dma look irqs irqs' budget st :
  (forall n, rx_dma_ok (dma n)) -> rx_dma_ok look ->
  rx_inv (rx st) -> eth_tx_inv st -> napi_sched st = true -> 0 <= budget ->
  exists got frames st',
    stm32_eth_rx_poll w1c skb_ok dma look irqs irqs' budget st = Ok (got, frames, st')
    /\ 0 <= got <= budget /\ rx_inv (rx st') /\ eth_tx_inv st' /\ napi_dis st' = napi_dis st
    /\ poll_end budget got st'.
Proof. intros Hd Hk Hi Hx Hs Hb. apply rx_poll_loop_ok; try assumption. left. lia. Qed.

(** ** Witnesses *)

Definition regs_zero : stm32_mac_regs := {|
  maccr := 0; macmiiar := 0; macmiidr := 0; maca0hr := 0; maca0lr := 0; dmabmr := 0; dmatpdr := 0;
  dmardlar := 0; dmatdlar := 0; dmasr := 0; dmaomr := 0; dmaier := 0 |}.

(** Two descriptors each way: a received 64-byte frame waits in receive
    descriptor 0, nothing is being sent. *)
Definition eth_demo : eth := {|
  regs := regs_zero;
  rx := {| rx_bd := [{| stat := 0x00440300; ctrl := 0; buf := 0; next := 0 |};
                     {| stat := STM32_DMA_RBD_DMA_OWN; ctrl := 0; buf := 0; next := 0 |}];
           rx_bd_dma_addr := 0; rx_skb := [0; 0]; rx_done_idx := 0; rx_buf_num := 2 |};
  tx := {| tx_bd := [{| stat := STM32_DMA_TBD_TCH; ctrl := 0; buf := 0; next := 0 |};
                     {| stat := STM32_DMA_TBD_TCH; ctrl := 0; buf := 0; next := 0 |}];
           tx_bd_dma_addr := 0; tx_skb := [0; 0]; tx_len := [0; 0]; tx_todo_idx := 0;
           tx_done_idx := 0; tx_pending := 0; tx_blocked := false; tx_buf_num := 2 |};
  nstat := fun _ => 0; frame_max_size := 2044; sram_pointer := 0x20001000;
  queue_stopped := false; napi_sched := true; napi_dis := false; link := 1; speed := 100; duplex := 1 |}.

Lemma eth_demo_tx : eth_tx_inv eth_demo.
Proof.
  split; [|reflexivity|discriminate]. split; cbn; try lia.
  - left. reflexivity.
  - intros i Hi (b & Eb & Hb). exfalso. assert (i = 0 \/ i = 1) as [->| ->] by lia;
      injection Eb as <-; discriminate.
Qed.

Lemma eth_demo_rx : rx_inv (rx eth_demo).
Proof. split; cbn; lia. Qed.

Lemma eth_tx_ring_safe_witness :
  let st := (stm32_netdev_xmit 1500 (stm32_netdev_xmit 100 eth_demo).2).2 in
  rtc (tx_step w1c_hw) eth_demo st /\ tx_pending (tx st) = 2 /\ queue_stopped st = true /\ eth_tx_inv st.
Proof.
  assert (Hr : rtc (tx_step w1c_hw) eth_demo
    (stm32_netdev_xmit 1500 (stm32_netdev_xmit 100 eth_demo).2).2).
  { eapply rtc_l; [eapply (step_xmit _ 100); apply surjective_pairing|].
    apply rtc_once. eapply (step_xmit _ 1500). apply surjective_pairing. }
  split; [exact Hr|]. split; [reflexivity|]. split; [reflexivity|].
  apply (eth_tx_ring_safe w1c_hw eth_demo _ eth_demo_tx Hr).
Defined.

Lemma eth_tx_race_witness :
  exists idx st1 st2, xmit_capture 100 eth_demo = inr (idx, st1)
  /\ stm32_eth_tx_complete st1 = Ok st2
  /\ tx_pending (tx (xmit_finish (xmit_program idx 100 st2))) = 0
  /\ tx_owned (tx (xmit_finish (xmit_program idx 100 st2))) idx.
Proof.
  destruct (xmit_capture 100 eth_demo) as [|[idx st1]] eqn:E; [discriminate|].
  destruct (eth_tx_race 100 eth_demo idx st1 eth_demo_tx eq_refl E) as (st2 & E2 & H1 & H2 & _).
  exists idx, st1, st2. auto.
Defined.

Local Definition get_count {A B} (r : result (Z * A * B)) : Z :=
  match r with Ok (n, _, _) => n | _ => -1 end.

Lemma eth_rx_get_correct_witness :
  exists st', stm32_eth_rx_get (fun _ => true) 0 64 eth_demo = Ok (1, [(0, 64)], st')
  /\ rx_taken (rx eth_demo) 1 (rx st').
Proof.
  destruct (eth_rx_get_correct (fun _ => true) 0 64 eth_demo eth_demo_rx ltac:(lia))
    as (k & st' & E & _ & Ht & _).
  pose proof (f_equal get_count E) as Ek.
  replace (get_count (stm32_eth_rx_get _ _ _ _)) with 1 in Ek by (vm_compute; reflexivity).
  cbn [get_count] in Ek. assert (k = 1%nat) as -> by lia.
  exists st'. split; [exact E|exact Ht].
Defined.

(** A second frame arrives in descriptor 1 while the poll looks at the ring. *)
Definition demo_look (n : nat) (r : rx_side) : rx_side :=
  {| rx_bd := alter (fun b => if owned_bit (stat b) then set_stat b 0x00440300 else b) 1%nat (rx_bd r);
     rx_bd_dma_addr := rx_bd_dma_addr r; rx_skb := rx_skb r; rx_done_idx := rx_done_idx r;
     rx_buf_num := rx_buf_num r |}.

Lemma demo_look_ok : rx_dma_ok demo_look.
Proof.
  split; intros; cbn; try reflexivity; [apply length_alter|].
  destruct (decide (i = 1%nat)) as [->|]; [|now rewrite list_lookup_alter_ne by congruence].
  rewrite list_lookup_alter_eq, H. cbn. now rewrite H0.
Qed.

Local Definition poll_summary {F} (r : result (Z * F * eth)) : option (Z * bool * bool) :=
  match r with Ok (n, _, st) => Some (n, napi_sched st, Z.testbit (dmaier (regs st)) 6) | _ => None end.

Lemma demo_poll_run :
  poll_summary (stm32_eth_rx_poll w1c_hw (fun _ => true) (fun _ _ r => r) demo_look (fun _ => [])
                  (fun _ => [STM32_MAC_DMASR_TS .| STM32_MAC_DMASR_RS]) 64 eth_demo) = Some (1, true, false).
Proof. vm_compute. reflexivity. Qed.

(** The transmit interrupt that comes then has a receive status as well and schedules the
    poll first. *)
Lemma eth_rx_poll_no_lost_wakeup_witness :
  exists frames st', stm32_eth_rx_poll w1c_hw (fun _ => true) (fun _ _ r => r) demo_look (fun _ => [])
                       (fun _ => [STM32_MAC_DMASR_TS .| STM32_MAC_DMASR_RS]) 64 eth_demo = Ok (1, frames, st')
  /\ napi_sched st' = true /\ Z.testbit (dmaier (regs st')) 6 = false /\ poll_end 64 1 st'.
Proof.
  destruct (eth_rx_poll_no_lost_wakeup w1c_hw (fun _ => true) (fun _ _ r => r) demo_look (fun _ => [])
              (fun _ => [STM32_MAC_DMASR_TS .| STM32_MAC_DMASR_RS]) 64 eth_demo
              ltac:(now split) demo_look_ok eth_demo_rx eth_demo_tx eq_refl ltac:(lia))
    as (got & fr & st' & E & _ & _ & _ & _ & H).
  pose proof demo_poll_run as Ec. rewrite E in Ec. cbn [poll_summary] in Ec. injection Ec as -> E1 E2.
  exists fr, st'. split; [exact E|]. split; [exact E1|]. split; [exact E2|exact H].
Defined.
