(* ===== verification/EthHw.v ===== *)
(** * The Ethernet device: buffers in SRAM, opening and closing *)

From S2P Require Import Prelude Platform Clock Eth EthRing.

(** ** The SRAM allocator *)

Definition SRAM_END : Z := SRAM_PHYS_OFFSET + SRAM_PHYS_SIZE.

(** What the platform data and the probe guarantee. *)
Record eth_cfg_ok (st : eth) : Prop := {
  cfg_fms : 64 <= frame_max_size st <= STM32_DMA_RBD_FL_MSK;
  cfg_nrx : 0 < rx_buf_num (rx st) <= 4096;
  cfg_ntx : 0 < tx_buf_num (tx st) <= 4096;
  cfg_sram : SRAM_PHYS_OFFSET <= sram_pointer st < SRAM_END
}.

Definition align4 (x : Z) : Z := (x + 3) / 4 * 4.

Lemma ALIGN4_spec x : 0 <= x <= 0x10000000 -> ALIGN4 x = align4 x.
Proof.
  intros Hx. unfold ALIGN4, align4. rewrite u32_id by (unfold fits; lia).
  apply (land_not_ones (x + 3) 2); [lia|]. unfold fits. lia.
Qed.

Lemma sram_alloc_spec sz st :
  0 <= sz <= 0x10000000 -> SRAM_PHYS_OFFSET <= sram_pointer st < SRAM_END ->
  let p := sram_pointer st + align4 sz + 4 in
  stm32_sram_alloc sz st =
  if SRAM_END <=? p then Fault Bug else Ok (sram_pointer st, set_sram st p).
Proof.
  unfold SRAM_END, SRAM_PHYS_OFFSET, SRAM_PHYS_SIZE. intros Hsz Hp. cbv zeta. unfold stm32_sram_alloc.
  rewrite ALIGN4_spec by assumption. assert (0 <= align4 sz <= sz + 3) by (unfold align4; zdiv).
  rewrite u32_id by (unfold fits; lia). unfold SRAM_PHYS_OFFSET, SRAM_PHYS_SIZE.
  replace (sram_pointer st + (align4 sz + 4)) with (sram_pointer st + align4 sz + 4) by lia. reflexivity.
Qed.

Lemma set_sram_twice st p q : set_sram (set_sram st p) q = set_sram st q.
Proof. reflexivity. Qed.

(** The addresses of [n] buffers [stride] apart. *)
Fixpoint buf_addrs (p stride : Z) (n : nat) : list Z :=
  match n with O => [] | S n => p :: buf_addrs (p + stride) stride n end.

Lemma length_buf_addrs p stride n : length (buf_addrs p stride n) = n.
Proof. revert p. induction n; intros; simpl; auto. Qed.

Lemma sram_alloc_n_spec n sz st :
  0 <= sz <= 0x10000000 -> SRAM_PHYS_OFFSET <= sram_pointer st < SRAM_END ->
  let stride := align4 sz + 4 in
  sram_alloc_n n sz st =
  if (SRAM_END <=? sram_pointer st + Z.of_nat n * stride) then Fault Bug
  else Ok (buf_addrs (sram_pointer st) stride n, set_sram st (sram_pointer st + Z.of_nat n * stride)).
Proof.
  intros Hsz. cbv zeta. assert (Hs : 0 <= align4 sz) by (unfold align4; zdiv).
  revert st. induction n as [|n IH]; intros st Hp; cbn [sram_alloc_n].
  - rewrite (proj2 (Z.leb_gt _ _)) by lia. cbn [buf_addrs]. rewrite Z.add_0_r.
    f_equal. f_equal. now destruct st.
  - rewrite sram_alloc_spec by assumption.
    destruct (Z.leb_spec SRAM_END (sram_pointer st + align4 sz + 4)).
    + rewrite (proj2 (Z.leb_le _ _)) by nia. reflexivity.
    + cbn [rbind]. rewrite IH by (eth_simpl; lia). eth_simpl.
      replace (sram_pointer st + Z.of_nat (S n) * (align4 sz + 4))
        with (sram_pointer st + align4 sz + 4 + Z.of_nat n * (align4 sz + 4)) by lia.
      destruct (_ <=? _); [reflexivity|]. cbn [rbind buf_addrs]. rewrite set_sram_twice.
      now replace (sram_pointer st + (align4 sz + 4)) with (sram_pointer st + align4 sz + 4) by lia.
Qed.

(** ** Buffer layout *)

Definition skb_bytes (st : eth) : Z := frame_max_size st + 8.
Definition skb_stride (st : eth) : Z := align4 (skb_bytes st) + 4.

(** Everything [stm32_eth_buffers_alloc] takes. *)
Definition sram_need (st : eth) : Z :=
  (16 * rx_buf_num (rx st) + 4) + (16 * tx_buf_num (tx st) + 4)
  + (rx_buf_num (rx st) + tx_buf_num (tx st)) * skb_stride st.

Definition rxd_addr (st : eth) : Z := sram_pointer st.
Definition txd_addr (st : eth) : Z := rxd_addr st + 16 * rx_buf_num (rx st) + 4.
Definition rskb_addr (st : eth) : Z := txd_addr st + 16 * tx_buf_num (tx st) + 4.
Definition tskb_addr (st : eth) : Z := rskb_addr st + rx_buf_num (rx st) * skb_stride st.
Definition rskbs (st : eth) : list Z := buf_addrs (rskb_addr st) (skb_stride st) (Z.to_nat (rx_buf_num (rx st))).
Definition tskbs (st : eth) : list Z := buf_addrs (tskb_addr st) (skb_stride st) (Z.to_nat (tx_buf_num (tx st))).

(** The device after a successful buffer allocation. *)
Definition buffers_post (st : eth) : eth :=
  let st1 := set_sram st (sram_pointer st + sram_need st) in
  let st2 := set_rx st1 {|
    rx_bd := imap (rx_bd_init (frame_max_size st) (rxd_addr st) (rx_buf_num (rx st))) (rskbs st);
    rx_bd_dma_addr := rxd_addr st; rx_skb := rskbs st; rx_done_idx := rx_done_idx (rx st);
    rx_buf_num := rx_buf_num (rx st) |} in
  set_tx st2 {|
    tx_bd := imap (tx_bd_init (txd_addr st) (tx_buf_num (tx st))) (tskbs st);
    tx_bd_dma_addr := txd_addr st; tx_skb := tskbs st; tx_len := tx_len (tx st);
    tx_todo_idx := tx_todo_idx (tx st); tx_done_idx := tx_done_idx (tx st);
    tx_pending := tx_pending (tx st); tx_blocked := tx_blocked (tx st);
    tx_buf_num := tx_buf_num (tx st) |}.

Lemma align4_16 n : align4 (16 * n) = 16 * n.
Proof. unfold align4. zdiv. Qed.

Lemma skb_stride_pos st : eth_cfg_ok st -> frame_max_size st + 12 <= skb_stride st < frame_max_size st + 16.
Proof. intros [H _ _ _]. unfold skb_stride, skb_bytes, align4. zdiv. Qed.

Lemma buffers_alloc_spec st :
  eth_cfg_ok st ->
  stm32_eth_buffers_alloc st =
  if SRAM_END <=? sram_pointer st + sram_need st then Fault Bug else Ok (0, buffers_post st).
Proof.
  intros Hc. pose proof (skb_stride_pos st Hc) as Hst. pose proof Hc as [H1 H2 H3 H4].
  change STM32_DMA_RBD_FL_MSK with 16383 in H1. unfold stm32_eth_buffers_alloc. unfold sizeof_bd.
  rewrite !(u32_id (16 * _)) by (unfold fits; lia).
  rewrite sram_alloc_spec by (assumption || lia). rewrite align4_16. unfold sram_need.
  destruct (Z.leb_spec SRAM_END (sram_pointer st + 16 * rx_buf_num (rx st) + 4)).
  { rewrite (proj2 (Z.leb_le _ _)) by nia. reflexivity. }
  cbn [rbind]. rewrite sram_alloc_spec by (eth_simpl; lia). rewrite align4_16. eth_simpl.
  destruct (Z.leb_spec SRAM_END (sram_pointer st + 16 * rx_buf_num (rx st) + 4 + 16 * tx_buf_num (tx st) + 4)).
  { rewrite (proj2 (Z.leb_le _ _)) by nia. reflexivity. }
  cbn [rbind]. rewrite set_sram_twice.
  assert (Ek : forall s, frame_max_size s = frame_max_size st -> skb_size s = skb_bytes st).
  { intros s Es. unfold skb_size, skb_bytes, sizeof_skb_fake. rewrite Es, u32_id by (unfold fits; lia). lia. }
  rewrite Ek by reflexivity.
  rewrite sram_alloc_n_spec by (eth_simpl; unfold skb_bytes; lia). eth_simpl. fold (skb_stride st).
  rewrite !Z2Nat.id by lia.
  match goal with |- context [SRAM_END <=? ?p + rx_buf_num (rx st) * skb_stride st] =>
    destruct (Z.leb_spec SRAM_END (p + rx_buf_num (rx st) * skb_stride st)) end.
  { rewrite (proj2 (Z.leb_le _ _)) by nia. reflexivity. }
  cbn [rbind]. eth_simpl. rewrite Ek by reflexivity.
  rewrite sram_alloc_n_spec by (eth_simpl; unfold skb_bytes; nia). eth_simpl. fold (skb_stride st).
  rewrite !Z2Nat.id by lia.
  match goal with |- context [SRAM_END <=? ?p] =>
    replace p with (sram_pointer st + (16 * rx_buf_num (rx st) + 4 + (16 * tx_buf_num (tx st) + 4) +
      (rx_buf_num (rx st) + tx_buf_num (tx st)) * skb_stride st)) by lia end.
  destruct (_ <=? _); [reflexivity|]. cbn [rbind]. unfold buffers_post, tskbs, rskbs, tskb_addr, rskb_addr, txd_addr, rxd_addr, sram_need.
  reflexivity.
Qed.

(** Regions one above the other between [lo] and [hi]. *)
Fixpoint stacked (lo hi : Z) (l : list (Z * Z)) : Prop :=
  match l with
  | [] => lo <= hi
  | (a, n) :: l => lo <= a /\ 0 < n /\ stacked (a + n) hi l
  end.

Lemma stacked_weaken lo lo' hi l : lo' <= lo -> stacked lo hi l -> stacked lo' hi l.
Proof. destruct l as [|[a n] l]; simpl; intuition lia. Qed.

Lemma stacked_bufs lo hi p stride sz n rest :
  lo <= p -> 0 < sz <= stride -> stacked (p + Z.of_nat n * stride) hi rest ->
  stacked lo hi (map (fun a => (a, sz)) (buf_addrs p stride n) ++ rest).
Proof.
  intros Hlo Hsz. revert lo p Hlo. induction n as [|n IH]; intros lo p Hlo Hr; cbn [buf_addrs map app].
  - apply (stacked_weaken p); [assumption|]. now replace (p + Z.of_nat 0 * stride) with p in Hr by lia.
  - cbn [stacked]. split; [assumption|]. split; [lia|]. apply (IH (p + sz) (p + stride)); [lia|].
    now replace (p + stride + Z.of_nat n * stride) with (p + Z.of_nat (S n) * stride) by lia.
Qed.

(** The regions the device hands to the DMA: both rings and all buffers. *)
Definition dma_regions (st : eth) : list (Z * Z) :=
  (rx_bd_dma_addr (rx st), 16 * rx_buf_num (rx st))
  :: (tx_bd_dma_addr (tx st), 16 * tx_buf_num (tx st))
  :: map (fun a => (a, frame_max_size st + 8)) (rx_skb (rx st) ++ tx_skb (tx st)).

Lemma imap_lookup_bd {A B} (f : nat -> A -> B) (l : list A) i :
  imap f l !! i = f i <$> l !! i.
Proof. apply list_lookup_imap. Qed.

(** Buffer allocation either hits the BUG_ON for lack of SRAM or lays the two
    descriptor rings and all frame buffers out one above the other inside the
    SRAM, without overlap; each ring is closed (descriptor [i] points to
    descriptor [i + 1] modulo its size), each descriptor points at its own
    buffer's data, and all receive descriptors start out owned by the DMA. *)
Theorem eth_buffers_layout st :
  eth_cfg_ok st ->
  stm32_eth_buffers_alloc st = Fault Bug
  \/ exists st', stm32_eth_buffers_alloc st = Ok (0, st')
     /\ stacked (sram_pointer st) (sram_pointer st') (dma_regions st') /\ sram_pointer st' < SRAM_END
     /\ (forall i, 0 <= i < rx_buf_num (rx st) -> exists a,
           rx_skb (rx st') !! Z.to_nat i = Some a
           /\ rx_bd (rx st') !! Z.to_nat i = Some
                {| stat := STM32_DMA_RBD_DMA_OWN; ctrl := STM32_DMA_RBD_RCH .| frame_max_size st;
                   buf := a + 4;
                   next := rx_bd_dma_addr (rx st') + 16 * ((i + 1) mod rx_buf_num (rx st)) |})
     /\ (forall i, 0 <= i < tx_buf_num (tx st) -> exists a,
           tx_skb (tx st') !! Z.to_nat i = Some a
           /\ tx_bd (tx st') !! Z.to_nat i = Some
                {| stat := STM32_DMA_TBD_TCH; ctrl := 0; buf := a + 4;
                   next := tx_bd_dma_addr (tx st') + 16 * ((i + 1) mod tx_buf_num (tx st)) |}).
Proof.
  intros Hc. rewrite buffers_alloc_spec by assumption.
  destruct (Z.leb_spec SRAM_END (sram_pointer st + sram_need st)) as [|Hlt]; [now left|right].
  pose proof (skb_stride_pos st Hc) as Hst. pose proof Hc as [H1 H2 H3 H4].
  change STM32_DMA_RBD_FL_MSK with 16383 in H1. unfold SRAM_END, SRAM_PHYS_OFFSET, SRAM_PHYS_SIZE in *.
  eexists. split; [reflexivity|]. unfold buffers_post, dma_regions. eth_simpl. split; [|split; [exact Hlt|split]].
  - unfold txd_addr, rxd_addr. cbn [stacked]. split; [lia|]. split; [lia|]. split; [lia|]. split; [lia|].
    rewrite map_app. apply stacked_bufs; [unfold rskb_addr, txd_addr, rxd_addr; lia|lia|].
    rewrite Z2Nat.id by lia. fold (tskb_addr st).
    rewrite <- (app_nil_r (map _ _)). apply stacked_bufs; [lia|lia|]. cbn [stacked].
    rewrite Z2Nat.id by lia. unfold sram_need, tskb_addr, rskb_addr, txd_addr, rxd_addr. lia.
  - intros i Hi. destruct (lookup_lt_is_Some_2 (rskbs st) (Z.to_nat i)) as [a Ea];
      [unfold rskbs; rewrite length_buf_addrs; lia|].
    exists a. split; [exact Ea|]. rewrite imap_lookup_bd, Ea. cbn [fmap option_fmap option_map].
    unfold rx_bd_init, sizeof_bd, sizeof_skb_fake. rewrite Z2Nat.id by lia.
    pose proof (Z.mod_pos_bound (i + 1) (rx_buf_num (rx st)) ltac:(lia)).
    rewrite u32_id by (unfold fits, rxd_addr; lia). reflexivity.
  - intros i Hi. destruct (lookup_lt_is_Some_2 (tskbs st) (Z.to_nat i)) as [a Ea];
      [unfold tskbs; rewrite length_buf_addrs; lia|].
    exists a. split; [exact Ea|]. rewrite imap_lookup_bd, Ea. cbn [fmap option_fmap option_map].
    unfold tx_bd_init, sizeof_bd, sizeof_skb_fake. rewrite Z2Nat.id by lia.
    pose proof (Z.mod_pos_bound (i + 1) (tx_buf_num (tx st)) ltac:(lia)).
    rewrite u32_id by (unfold fits, txd_addr, rxd_addr; lia). reflexivity.
Qed.

(** ** Opening and closing *)

(** The part of the state that starting and stopping the hardware keeps. *)
Definition keep (st st' : eth) : Prop :=
  rx st' = rx st /\ tx st' = tx st /\ sram_pointer st' = sram_pointer st
  /\ frame_max_size st' = frame_max_size st.

Section Open.

Context (mac_reset dma_reset : stm32_mac_regs -> stm32_mac_regs).
Context (sr_busy ftf_busy : nat -> bool) (clk : clk_state) (dev_addr : list Z).

Abbreviation hw_start := (stm32_eth_hw_start mac_reset dma_reset sr_busy ftf_busy clk dev_addr).
Abbreviation netdev_open := (stm32_netdev_open mac_reset dma_reset sr_busy ftf_busy clk dev_addr).

Lemma hw_start_keep st rv st' : hw_start st = (rv, st') -> keep st st' /\ (rv = 0 \/ rv = - EBUSY).
Proof.
  unfold stm32_eth_hw_start. cbv zeta. destruct (negb (poll_clear sr_busy 100 0)).
  { intros [= <- <-]. unfold keep. auto 8. }
  destruct (negb (_ =? 0)).
  { intros [= <- <-]. unfold keep. auto 8. }
  destruct (negb (poll_clear ftf_busy 10 0)); intros [= <- <-]; unfold keep; auto 8.
Qed.

(** The SRAM a complete open/close cycle does not give back. *)
Definition leak (st : eth) : Z :=
  8 + (rx_buf_num (rx st) + tx_buf_num (tx st)) * (skb_stride st - skb_bytes st).

Lemma leak_pos st : eth_cfg_ok st -> 16 <= leak st.
Proof. intros Hc. pose proof (skb_stride_pos st Hc). destruct Hc. unfold leak, skb_bytes. nia. Qed.

Lemma buffers_free_spec st p :
  eth_cfg_ok st -> sram_pointer st + sram_need st < SRAM_END ->
  sram_pointer p = sram_pointer st + sram_need st -> frame_max_size p = frame_max_size st ->
  rx_buf_num (rx p) = rx_buf_num (rx st) -> tx_buf_num (tx p) = tx_buf_num (tx st) ->
  sram_pointer (stm32_eth_buffers_free p) = sram_pointer st + leak st.
Proof.
  intros Hc Hlt Ep Ef Er Et. pose proof (skb_stride_pos st Hc) as Hst. pose proof Hc as [H1 H2 H3 H4].
  change STM32_DMA_RBD_FL_MSK with 16383 in H1. unfold stm32_eth_buffers_free, sizeof_bd, sizeof_skb_fake.
  eth_simpl. rewrite Ep, Ef, Er, Et. unfold SRAM_END, SRAM_PHYS_OFFSET, SRAM_PHYS_SIZE in *.
  rewrite (u32_id (16 + 4 + _ + 4)) by (unfold fits; lia).
  unfold sram_need, leak, skb_bytes in *. rewrite u32_id.
  - rewrite u32_id by (unfold fits; nia). lia.
  - rewrite u32_id by (unfold fits; nia). unfold fits. nia.
Qed.

(** Bring the interface up and down again ("ifconfig up; ifconfig down"); when
    opening fails the driver has already cleaned up. *)
Definition up_down (request_irq_rv : Z) (st : eth) : result eth :=
  let* (rv, st) := netdev_open request_irq_rv st in
  Ok (if rv =? 0 then (stm32_netdev_close st).2 else st).

Fixpoint up_downs (irqs : list Z) (st : eth) : result eth :=
  match irqs with
  | [] => Ok st
  | rv :: irqs => let* st := up_down rv st in up_downs irqs st
  end.

Lemma up_down_spec irq st :
  eth_cfg_ok st ->
  if SRAM_END <=? sram_pointer st + sram_need st then up_down irq st = Fault Bug
  else exists st', up_down irq st = Ok st' /\ sram_pointer st' = sram_pointer st + leak st
       /\ frame_max_size st' = frame_max_size st /\ rx_buf_num (rx st') = rx_buf_num (rx st)
       /\ tx_buf_num (tx st') = tx_buf_num (tx st).
Proof.
  intros Hc. unfold up_down, stm32_netdev_open.
  pose proof (buffers_alloc_spec (set_link st 0 (-1) (-1)) ltac:(destruct Hc; now split)) as Ea.
  change (sram_pointer (set_link st 0 (-1) (-1)) + sram_need (set_link st 0 (-1) (-1)))
    with (sram_pointer st + sram_need st) in Ea.
  destruct (Z.leb_spec SRAM_END (sram_pointer st + sram_need st)) as [|Hlt]; rewrite Ea; [reflexivity|].
  cbn [rbind Z.eqb negb]. set (s0 := set_napi (buffers_post _) false).
  assert (Ks : forall p, keep s0 p -> sram_pointer (stm32_eth_buffers_free p) = sram_pointer st + leak st
    /\ frame_max_size p = frame_max_size st /\ rx_buf_num (rx p) = rx_buf_num (rx st)
    /\ tx_buf_num (tx p) = tx_buf_num (tx st)).
  { intros p (K1 & K2 & K3 & K4). assert (Er : rx_buf_num (rx p) = rx_buf_num (rx st)) by now rewrite K1.
    assert (Et : tx_buf_num (tx p) = tx_buf_num (tx st)) by now rewrite K2.
    split; [|auto]. apply (buffers_free_spec st p Hc Hlt); auto. }
  destruct (hw_start s0) as [rv s1] eqn:Eh. destruct (hw_start_keep _ _ _ Eh) as [(K1 & K2 & K3 & K4) Hrv].
  assert (Kn : keep s0 s1) by (unfold keep; auto).
  destruct (Z.eqb_spec rv 0) as [->|Hne]; cbn [negb].
  - destruct (Z.eqb_spec irq 0) as [->|Hi]; cbn [negb rbind Z.eqb].
    + eexists. split; [reflexivity|]. unfold stm32_netdev_close. cbv zeta. cbn [snd].
      match goal with |- context [stm32_eth_buffers_free ?p] => 
        assert (Hp : sram_pointer (stm32_eth_buffers_free p) = sram_pointer st + leak st) end.
      { apply (buffers_free_spec st _ Hc Hlt); unfold ring_reset, stm32_eth_hw_stop; eth_simpl;
          rewrite ?K1, ?K2; assumption || reflexivity. }
      split; [exact Hp|]. unfold ring_reset, stm32_eth_hw_stop, stm32_eth_buffers_free. eth_simpl.
      rewrite ?K1, ?K2. auto.
    + rewrite (proj2 (Z.eqb_neq _ _) Hi). eexists. split; [reflexivity|].
      match goal with |- context [stm32_eth_buffers_free ?p] => 
        assert (Hp : sram_pointer (stm32_eth_buffers_free p) = sram_pointer st + leak st) end.
      { apply (buffers_free_spec st _ Hc Hlt); unfold ring_reset, stm32_eth_hw_stop; eth_simpl;
          rewrite ?K1, ?K2; assumption || reflexivity. }
      split; [exact Hp|]. unfold ring_reset, stm32_eth_hw_stop, stm32_eth_buffers_free. eth_simpl.
      rewrite ?K1, ?K2. auto.
  - cbn [rbind]. rewrite (proj2 (Z.eqb_neq _ _) Hne). eexists. split; [reflexivity|].
    destruct (Ks (set_napi s1 true)) as (E1 & E2 & E3 & E4); [exact Kn|].
    split; [exact E1|]. auto.
Qed.

Lemma up_down_cfg irq st st' :
  eth_cfg_ok st -> up_down irq st = Ok st' ->
  eth_cfg_ok st' /\ sram_pointer st' = sram_pointer st + leak st /\ leak st' = leak st.
Proof.
  intros Hc E. pose proof (up_down_spec irq st Hc) as H.
  destruct (Z.leb_spec SRAM_END (sram_pointer st + sram_need st)) as [|Hlt]; [congruence|].
  destruct H as (s & E' & Hp & Hf & Hr & Ht). rewrite E in E'. injection E' as <-.
  pose proof (leak_pos st Hc). pose proof (skb_stride_pos st Hc). pose proof Hc as [H1 H2 H3 H4].
  split; [|split; [exact Hp|unfold leak, skb_stride, skb_bytes; now rewrite Hf, Hr, Ht]].
  split; rewrite ?Hf, ?Hr, ?Ht, ?Hp; try assumption.
  unfold leak, sram_need, skb_bytes in *. change STM32_DMA_RBD_FL_MSK with 16383 in H1. split; nia.
Qed.

(** Every time the interface goes up and down, whatever the hardware and
    [request_irq] answer, the driver's SRAM pointer moves up by 8 bytes plus 4 to 7
    bytes per buffer (the padding that [stm32_sram_alloc] adds and
    [stm32_eth_buffers_free] does not subtract), so that a bounded number of
    cycles ends in the BUG_ON of [stm32_sram_alloc]. *)
Theorem eth_open_close_leaks irqs st :
  eth_cfg_ok st ->
  (forall st', up_downs irqs st = Ok st' ->
     sram_pointer st' = sram_pointer st + Z.of_nat (length irqs) * leak st /\ 16 <= leak st)
  /\ (SRAM_END <= sram_pointer st + Z.of_nat (length irqs) * leak st -> up_downs irqs st = Fault Bug).
Proof.
  revert st. induction irqs as [|irq irqs IH]; intros st Hc; cbn [up_downs length].
  - split; [intros st' [= <-]; split; [lia|now apply leak_pos]|]. destruct Hc. lia.
  - pose proof (up_down_spec irq st Hc) as Hu.
    destruct (Z.leb_spec SRAM_END (sram_pointer st + sram_need st)) as [|Hlt].
    { rewrite Hu. split; [discriminate|reflexivity]. }
    destruct Hu as (s & E & _). destruct (up_down_cfg irq st s Hc E) as (Hc' & Hp & Hl).
    rewrite E. cbn [rbind]. destruct (IH s Hc') as [H1 H2]. rewrite Hp, Hl in *. split.
    + intros st' E'. destruct (H1 st' E'). lia.
    + intros Hbig. apply H2. lia.
Qed.

(** ** A successful open *)

Lemma testbit_lor_r x y i : Z.testbit y i = true -> Z.testbit (x .| y) i = true.
Proof. intros H. now rewrite Z.lor_spec, H, orb_true_r. Qed.

(** The bytes of the address registers. *)
Lemma bytes4 a b c d : fits 8 a -> fits 8 b -> fits 8 c -> fits 8 d ->
  let v := (d .<< 24) .| (c .<< 16) .| (b .<< 8) .| (a .<< 0) in
  field v 0 8 = a /\ field v 8 8 = b /\ field v 16 8 = c /\ field v 24 8 = d.
Proof. intros Ha Hb Hc Hd. cbv zeta. repeat split; field_expr; reflexivity. Qed.

Lemma bytes2 a b : fits 8 a -> fits 8 b ->
  let v := (b .<< 8) .| (a .<< 0) in field v 0 8 = a /\ field v 8 8 = b.
Proof. intros Ha Hb. cbv zeta. repeat split; field_expr; reflexivity. Qed.

Lemma nth_fits8 i : Forall (fits 8) dev_addr -> fits 8 (nth i dev_addr 0).
Proof.
  intros Haddr. destruct (nth_in_or_default i dev_addr 0) as [Hin| ->]; [|now split].
  rewrite List.Forall_forall in Haddr. now apply Haddr.
Qed.

(** The registers after a successful start. *)
Record started (st : eth) (r : stm32_mac_regs) : Prop := {
  st_rxd : dmardlar r = rx_bd_dma_addr (rx st);
  st_txd : dmatdlar r = tx_bd_dma_addr (tx st);
  st_lo : forall i, (i < 4)%nat -> field (maca0lr r) (8 * Z.of_nat i) 8 = nth i dev_addr 0;
  st_hi : forall i, (i < 2)%nat -> field (maca0hr r) (8 * Z.of_nat i) 8 = nth (4 + i) dev_addr 0;
  st_re : Z.testbit (maccr r) 2 = true; st_te : Z.testbit (maccr r) 3 = true;
  st_sr : Z.testbit (dmaomr r) 1 = true; st_st : Z.testbit (dmaomr r) 13 = true
}.

Lemma config_started st r :
  Forall (fits 8) dev_addr ->
  started st (hw_enable_regs (hw_config_regs dev_addr (rx_bd_dma_addr (rx st)) (tx_bd_dma_addr (tx st)) r)).
Proof.
  intros Ha. pose proof (fun i => nth_fits8 i Ha) as Hb.
  destruct (bytes4 _ _ _ _ (Hb 0%nat) (Hb 1%nat) (Hb 2%nat) (Hb 3%nat)) as (F0 & F1 & F2 & F3).
  destruct (bytes2 _ _ (Hb 4%nat) (Hb 5%nat)) as (F4 & F5).
  unfold hw_enable_regs, hw_config_regs, addr_byte. cbv zeta.
  split; eth_simpl; try reflexivity; try (apply testbit_lor_r; reflexivity).
  - intros [|[|[|[|i]]]] Hi; (assumption || lia).
  - intros [|[|i]] Hi; (assumption || lia).
Qed.

Lemma hw_start_ok st :
  poll_clear sr_busy 100 0 = true -> poll_clear ftf_busy 10 0 = true ->
  (forall r, Z.testbit (dmabmr (dma_reset r)) 0 = false) -> Forall (fits 8) dev_addr ->
  exists r, hw_start st = (0, set_regs st r) /\ started st r.
Proof.
  intros Hsr Hftf Hrst Haddr. unfold stm32_eth_hw_start. rewrite Hsr, Hftf. cbn [negb].
  generalize (mac_reset (hw_stop_regs (regs st))). intros r1. cbv zeta.
  set (r2 := set_dmabmr r1 _). specialize (Hrst r2).
  change (dmabmr (params_regs _ _ (set_macmii (dma_reset r2) _ _))) with (dmabmr (dma_reset r2)).
  change STM32_MAC_DMABMR_SR with (BIT 0). change (negb ((?x .& BIT 0) =? 0)) with (bit_set x 0).
  rewrite bit_set_testbit, Hrst by lia. eexists. split; [reflexivity|]. now apply config_started.
Qed.

(** The rings of a freshly opened device. *)
Lemma fresh_rx st r :
  eth_cfg_ok st -> rx_bd r = rx_bd (rx (buffers_post st)) -> rx_buf_num r = rx_buf_num (rx st) ->
  rx_done_idx r = 0 -> rx_inv r /\ forall i, 0 <= i < rx_buf_num (rx st) -> rx_owned r i.
Proof.
  intros [_ H2 _ _] Eb En Ed. unfold buffers_post in Eb. eth_simpl.
  assert (L : Z.of_nat (length (rx_bd r)) = rx_buf_num (rx st)).
  { rewrite Eb, length_imap. unfold rskbs. rewrite length_buf_addrs. lia. }
  split; [split; lia|]. intros i Hi.
  destruct (lookup_lt_is_Some_2 (rx_bd r) (Z.to_nat i)) as [b E]; [lia|]. exists b. split; [exact E|].
  rewrite Eb, imap_lookup_bd in E. destruct (_ !! _); [|discriminate]. injection E as <-. reflexivity.
Qed.

Lemma fresh_tx st t :
  eth_cfg_ok st -> tx_bd t = tx_bd (tx (buffers_post st)) -> tx_buf_num t = tx_buf_num (tx st) ->
  Z.of_nat (length (tx_len t)) = tx_buf_num t ->
  tx_todo_idx t = 0 -> tx_done_idx t = 0 -> tx_pending t = 0 ->
  tx_inv t /\ forall i, 0 <= i < tx_buf_num (tx st) -> ~ tx_owned t i.
Proof.
  intros [_ _ H3 _] Eb En El E1 E2 E3. unfold buffers_post in Eb. eth_simpl.
  assert (Hno : forall i, 0 <= i < tx_buf_num (tx st) -> ~ tx_owned t i).
  { intros i Hi (b & E & Hb). rewrite Eb, imap_lookup_bd in E.
    destruct (_ !! _); [|discriminate]. injection E as <-. discriminate. }
  split; [|exact Hno]. split; try lia.
  - rewrite Eb, length_imap. unfold tskbs. rewrite length_buf_addrs. lia.
  - unfold advance. lia.
  - intros i Hi Ho. rewrite En in Hi. now destruct (Hno i Hi).
Qed.

(** A successful [stm32_netdev_open] (SRAM available, the resets and the
    FIFO flush complete, [request_irq] answers 0) returns 0 with both rings empty
    and consistent: every receive descriptor owned by the DMA, no transmit
    descriptor owned by it, the MAC told the ring addresses and the device's MAC
    address, receiver, transmitter, both DMA engines and the interrupts enabled,
    and the transmit queue running. *)
Theorem eth_open_ready st :
  eth_cfg_ok st -> sram_pointer st + sram_need st < SRAM_END ->
  Z.of_nat (length (tx_len (tx st))) = tx_buf_num (tx st) ->
  poll_clear sr_busy 100 0 = true -> poll_clear ftf_busy 10 0 = true ->
  (forall r, Z.testbit (dmabmr (dma_reset r)) 0 = false) -> Forall (fits 8) dev_addr ->
  exists st', netdev_open 0 st = Ok (0, st')
  /\ rx_inv (rx st') /\ (forall i, 0 <= i < rx_buf_num (rx st) -> rx_owned (rx st') i)
  /\ eth_tx_inv st' /\ tx_pending (tx st') = 0
  /\ (forall i, 0 <= i < tx_buf_num (tx st) -> ~ tx_owned (tx st') i)
  /\ dmardlar (regs st') = rx_bd_dma_addr (rx st') /\ dmatdlar (regs st') = tx_bd_dma_addr (tx st')
  /\ (forall i, (i < 4)%nat -> field (maca0lr (regs st')) (8 * Z.of_nat i) 8 = nth i dev_addr 0)
  /\ (forall i, (i < 2)%nat -> field (maca0hr (regs st')) (8 * Z.of_nat i) 8 = nth (4 + i) dev_addr 0)
  /\ Z.testbit (maccr (regs st')) 2 = true /\ Z.testbit (maccr (regs st')) 3 = true
  /\ Z.testbit (dmaomr (regs st')) 1 = true /\ Z.testbit (dmaomr (regs st')) 13 = true
  /\ Z.testbit (dmaier (regs st')) 0 = true /\ Z.testbit (dmaier (regs st')) 6 = true
  /\ queue_stopped st' = false /\ napi_sched st' = false.
Proof.
  intros Hc Hlt Hlen Hsr Hftf Hrst Haddr. unfold stm32_netdev_open.
  set (sl := set_link st 0 (-1) (-1)). assert (Hcl : eth_cfg_ok sl) by (destruct Hc; now split).
  rewrite (buffers_alloc_spec sl Hcl).
  change (sram_pointer sl + sram_need sl) with (sram_pointer st + sram_need st).
  rewrite (proj2 (Z.leb_gt _ _) Hlt). cbn [rbind Z.eqb negb].
  destruct (hw_start_ok (set_napi (buffers_post sl) false) Hsr Hftf Hrst Haddr) as (r & E & [S1 S2 S3 S4 S5 S6 S7 S8]).
  rewrite E. cbn [Z.eqb negb]. eexists. split; [reflexivity|].
  destruct (fresh_rx sl (rx (ring_reset (buffers_post sl))) Hcl) as [R1 R2]; [reflexivity..|].
  destruct (fresh_tx sl (tx (ring_reset (buffers_post sl))) Hcl) as [T1 T2];
    [reflexivity|reflexivity|exact Hlen|reflexivity..|].
  split; [exact R1|]. split; [exact R2|]. split; [split; [exact T1|reflexivity|discriminate]|].
  split; [reflexivity|]. split; [exact T2|]. split; [exact S1|]. split; [exact S2|]. split; [exact S3|].
  split; [exact S4|]. split; [exact S5|]. split; [exact S6|]. split; [exact S7|]. split; [exact S8|].
  split; [apply testbit_lor_r; reflexivity|]. split; [apply testbit_lor_r; reflexivity|]. split; reflexivity.
Qed.

End Open.

(** ** Witnesses: the Discovery board *)

(** The device after the probe with the STM32F7 platform data. *)
Definition eth_f7 : eth :=
  match eth_probe_setup stm32f7_eth_data
          (set_tx eth_demo {| tx_bd := []; tx_bd_dma_addr := 0; tx_skb := []; tx_len := replicate 8 0;
             tx_todo_idx := 0; tx_done_idx := 0; tx_pending := 0; tx_blocked := false; tx_buf_num := 0 |})
  with Ok (_, st) => st | Fault _ => eth_demo end.

Lemma eth_f7_cfg : eth_cfg_ok eth_f7.
Proof. split; vm_compute; split; (discriminate || reflexivity). Qed.

Lemma eth_buffers_layout_witness :
  exists st', stm32_eth_buffers_alloc eth_f7 = Ok (0, st')
  /\ stacked (sram_pointer eth_f7) (sram_pointer st') (dma_regions st')
  /\ sram_pointer st' < 0x20010000.
Proof.
  destruct (eth_buffers_layout eth_f7 eth_f7_cfg) as [E|(st' & E & Hs & _)].
  - vm_compute in E. discriminate.
  - exists st'. split; [exact E|]. split; [exact Hs|]. vm_compute in E. injection E as <-. reflexivity.
Defined.

Lemma eth_open_close_leaks_witness :
  leak eth_f7 = 88
  /\ up_downs (fun r => r) (fun r => r) (fun _ => false) (fun _ => false) st_boot
       [2; 0; 0; 0; 0; 1] (replicate 1500 0) eth_f7 = Fault Bug.
Proof.
  split; [reflexivity|].
  apply (proj2 (eth_open_close_leaks (fun r => r) (fun r => r) (fun _ => false) (fun _ => false) st_boot
           [2; 0; 0; 0; 0; 1] (replicate 1500 0) eth_f7 eth_f7_cfg)).
  vm_compute. discriminate.
Defined.

Lemma eth_open_ready_witness :
  exists st', stm32_netdev_open (fun r => r) (fun _ => regs_zero) (fun _ => false) (fun _ => false) st_boot
                [2; 0; 0; 0; 0; 1] 0 eth_f7 = Ok (0, st')
  /\ queue_stopped st' = false /\ field (maca0lr (regs st')) 0 8 = 2.
Proof.
  destruct (eth_open_ready (fun r => r) (fun _ => regs_zero) (fun _ => false) (fun _ => false) st_boot
              [2; 0; 0; 0; 0; 1] eth_f7 eth_f7_cfg) as (st' & E & H).
  - reflexivity.
  - reflexivity.
  - reflexivity.
  - reflexivity.
  - reflexivity.
  - apply (bool_decide_unpack _). vm_compute. exact I.
  - exists st'. split; [exact E|]. destruct H as (_ & _ & _ & _ & _ & _ & _ & Hl & _ & _ & _ & _ & _ & _ & _ & Hq & _).
    split; [exact Hq|]. exact (Hl 0%nat ltac:(lia)).
Defined.
