(* ===== verification/RtcLib.v ===== *)
(** * Calendar conversions ([drivers/rtc/rtc-lib.c], [lib/bcd.c], [mktime] of [kernel/time.c])

    The RTC library converts between seconds since 1970 and broken-down dates,
    the RTC registers hold decimal digits.  Everything is kept at the width of the
    C code: [unsigned long] and [unsigned int] are 32 bits on this machine.

    The specification is a calendar that only knows what the next day of a date
    is; the conversions are compared with it over the whole range of the clock. *)

From S2P Require Import Prelude.

(** ** Decimal digits *)

(** The argument is an [unsigned char]. *)
Definition bcd2bin (val : Z) : Z := (val .& 0x0f) + (val .>> 4) * 10.

(** The result is an [unsigned char]. *)
Definition bin2bcd (val : Z) : Z := (((val / 10) .<< 4) + val mod 10) mod 256.

(** ** Dates *)

Record rtc_time := {
  tm_sec : Z; tm_min : Z; tm_hour : Z; tm_mday : Z; tm_mon : Z; tm_year : Z;
  tm_wday : Z; tm_yday : Z; tm_isdst : Z
}.

Definition is_leap_year (year : Z) : bool :=
  ((year mod 4 =? 0) && negb (year mod 100 =? 0)) || (year mod 400 =? 0).

Definition rtc_days_in_month : list Z := [31; 28; 31; 30; 31; 30; 31; 31; 30; 31; 30; 31].

Definition rtc_ydays : list (list Z) :=
  [[0; 31; 59; 90; 120; 151; 181; 212; 243; 273; 304; 334; 365];
   [0; 31; 60; 91; 121; 152; 182; 213; 244; 274; 305; 335; 366]].

Definition LEAPS_THRU_END_OF (y : Z) : Z := u32 (y / 4 - y / 100 + y / 400).

(** An index past the table is a fault. *)
Definition rtc_month_days (month year : Z) : result Z :=
  match rtc_days_in_month !! Z.to_nat month with
  | Some n => Ok (n + Z.b2z (is_leap_year year && (month =? 1)))
  | None => Fault BadIndex
  end.

Definition rtc_year_days (day month year : Z) : result Z :=
  match rtc_ydays !! Z.to_nat (Z.b2z (is_leap_year year)) with
  | Some row => match row !! Z.to_nat month with
                | Some n => Ok (s32 (n + day - 1))
                | None => Fault BadIndex
                end
  | None => Fault BadIndex
  end.

(** [for (month = 0; month < 11; month++)]: [n] = [11 - month] turns are left. *)
Fixpoint month_loop (n : nat) (month days year : Z) : result (Z * Z) :=
  match n with
  | O => Ok (month, days)
  | S n =>
      let* len := rtc_month_days month year in
      let newdays := s32 (days - len) in
      if newdays <? 0 then Ok (month, days) else month_loop n (month + 1) newdays year
  end.

(** The year and the day in the year (from 0) of a day since 1970. *)
Definition split_year (days : Z) : Z * Z :=
  let year := u32 (1970 + days / 365) in
  let days := s32 (days - ((year - 1970) * 365 + LEAPS_THRU_END_OF (u32 (year - 1))
                           - LEAPS_THRU_END_OF (1970 - 1))) in
  if days <? 0
  then let year := u32 (year - 1) in (year, s32 (days + 365 + Z.b2z (is_leap_year year)))
  else (year, days).

(** [tm_isdst] is not assigned: it keeps the caller's value. *)
Definition rtc_time_to_tm (time : Z) (tm : rtc_time) : result rtc_time :=
  let days := s32 (time / 86400) in
  let time := u32 (time - u32 days * 86400) in
  let wday := (days + 4) mod 7 in
  let '(year, ydays) := split_year days in
  let* (month, mdays) := month_loop 11 0 ydays year in
  let hour := time / 3600 in
  let time := u32 (time - hour * 3600) in
  let minute := time / 60 in
  Ok {| tm_sec := s32 (time - minute * 60); tm_min := minute; tm_hour := hour;
        tm_mday := mdays + 1; tm_mon := month; tm_year := s32 (year - 1900);
        tm_wday := wday; tm_yday := ydays + 1; tm_isdst := tm_isdst tm |}.

(** The month is looked up only when it is below 12. *)
Definition rtc_valid_tm (tm : rtc_time) : result Z :=
  if (tm_year tm <? 70) || (12 <=? u32 (tm_mon tm)) || (tm_mday tm <? 1) then Ok (- EINVAL)
  else
    let* len := rtc_month_days (tm_mon tm) (u32 (tm_year tm + 1900)) in
    if (len <? tm_mday tm) || (24 <=? u32 (tm_hour tm)) || (60 <=? u32 (tm_min tm))
       || (60 <=? u32 (tm_sec tm))
    then Ok (- EINVAL) else Ok 0.

(** The day number of [mktime]. *)
Definition mktime_days (year0 mon0 day : Z) : Z :=
  let mon := u32 (mon0 - 2) in
  let '(mon, year) := if s32 mon <=? 0 then (u32 (mon + 12), u32 (year0 - 1)) else (mon, year0) in
  u32 (u32 (year / 4 - year / 100 + year / 400 + u32 (367 * mon) / 12 + day)
       + u32 (year * 365) - 719499).

Definition mktime (year0 mon0 day hour min sec : Z) : Z :=
  u32 (u32 (u32 (mktime_days year0 mon0 day * 24 + hour) * 60 + min) * 60 + sec).

Definition rtc_tm_to_time (tm : rtc_time) : Z :=
  mktime (u32 (tm_year tm + 1900)) (u32 (tm_mon tm + 1)) (u32 (tm_mday tm))
         (u32 (tm_hour tm)) (u32 (tm_min tm)) (u32 (tm_sec tm)).

(** ** The calendar *)

Module Calendar.

(** Year, month 0..11, day of the month 1.., day of the week (0 = Sunday), days since
    the first of January 0..365, as [struct tm] documents them ([include/linux/time.h]). *)
Record date := { y : Z; mo : Z; d : Z; wd : Z; yd : Z }.

#[global] Instance date_eq_dec : EqDecision date.
Proof. solve_decision. Defined.

(** Thirty days have April, June, September and November; February has 28, and 29
    in leap years. *)
Definition month_length (year month : Z) : Z :=
  if month =? 1 then if is_leap_year year then 29 else 28
  else if bool_decide (month ∈ [3; 5; 8; 10]) then 30 else 31.

(** The first of January 1970 was a Thursday. *)
Definition epoch : date := {| y := 1970; mo := 0; d := 1; wd := 4; yd := 0 |}.

Definition tomorrow (t : date) : date :=
  let w := (wd t + 1) mod 7 in
  if d t <? month_length (y t) (mo t)
  then {| y := y t; mo := mo t; d := d t + 1; wd := w; yd := yd t + 1 |}
  else if mo t <? 11 then {| y := y t; mo := mo t + 1; d := 1; wd := w; yd := yd t + 1 |}
  else {| y := y t + 1; mo := 0; d := 1; wd := w; yd := 0 |}.

Definition after (n : nat) : date := Nat.iter n tomorrow epoch.

End Calendar.
Import Calendar.

(** ** Day numbers

    Every date has a day number: the days of the years before, of the months
    before, and of the month. *)

Definition leap (year : Z) : Z := Z.b2z (is_leap_year year).

(** Days from 1970 to the start of a year. *)
Definition year_start (year : Z) : Z :=
  365 * (year - 1970) + ((year - 1) / 4 - (year - 1) / 100 + (year - 1) / 400) - 477.

(** Days from the start of the year to the start of a month. *)
Definition month_start (year month : Z) : Z :=
  foldr (fun m acc => month_length year m + acc) 0 (seqZ 0 month).

Definition day_number (t : date) : Z := year_start (y t) + month_start (y t) (mo t) + d t - 1.

Record date_ok (t : date) : Prop := {
  mo_ok : 0 <= mo t <= 11;
  d_ok : 1 <= d t <= month_length (y t) (mo t);
  yd_ok : yd t = month_start (y t) (mo t) + d t - 1;
  wd_ok : wd t = (day_number t + 4) mod 7
}.

Lemma leap_range year : 0 <= leap year <= 1.
Proof. unfold leap. destruct (is_leap_year year); cbn; lia. Qed.

Lemma year_start_succ year : year_start (year + 1) = year_start year + 365 + leap year.
Proof.
  unfold year_start, leap, is_leap_year. replace (year + 1 - 1) with year by lia.
  destruct (Z.eqb_spec (year mod 4) 0), (Z.eqb_spec (year mod 100) 0), (Z.eqb_spec (year mod 400) 0);
    cbn [andb orb negb Z.b2z]; zdiv.
Qed.

Ltac month_cases m :=
  let H := fresh in
  assert (H : m = 0 \/ m = 1 \/ m = 2 \/ m = 3 \/ m = 4 \/ m = 5 \/ m = 6 \/ m = 7
              \/ m = 8 \/ m = 9 \/ m = 10 \/ m = 11) by lia;
  repeat destruct H as [H|H].

Lemma month_length_eq year m :
  0 <= m <= 11 -> month_length year m = nth (Z.to_nat m)
    [31; 28 + leap year; 31; 30; 31; 30; 31; 31; 30; 31; 30; 31] 0.
Proof.
  intros Hm. month_cases m; subst m; cbv -[is_leap_year]; destruct (is_leap_year year); reflexivity.
Qed.

Lemma month_start_eq year m :
  0 <= m <= 12 -> month_start year m = nth (Z.to_nat m)
    [0; 31; 59 + leap year; 90 + leap year; 120 + leap year; 151 + leap year; 181 + leap year;
     212 + leap year; 243 + leap year; 273 + leap year; 304 + leap year; 334 + leap year;
     365 + leap year] 0.
Proof.
  intros Hm. assert (m = 12 \/ 0 <= m <= 11) as [->|Hm'] by lia.
  - cbv -[is_leap_year]. destruct (is_leap_year year); reflexivity.
  - month_cases m; subst m; cbv -[is_leap_year]; destruct (is_leap_year year); reflexivity.
Qed.

(** Puts the numbers in for lengths and starts of concrete months. *)
Ltac month_nth :=
  rewrite ?month_length_eq, ?month_start_eq in * by lia;
  repeat match goal with
  | H : context [Z.to_nat (Zpos ?p)] |- _ =>
      let n := eval vm_compute in (Pos.to_nat p) in change (Z.to_nat (Zpos p)) with n in H
  | |- context [Z.to_nat (Zpos ?p)] =>
      let n := eval vm_compute in (Pos.to_nat p) in change (Z.to_nat (Zpos p)) with n
  end;
  change (Z.to_nat 0) with 0%nat in *; cbn [nth] in *.

Lemma month_start_succ year m :
  0 <= m <= 11 -> month_start year (m + 1) = month_start year m + month_length year m.
Proof.
  intros Hm. month_cases m; subst m;
    match goal with |- context [month_start year (?a + 1)] =>
      let v := eval vm_compute in (a + 1) in change (a + 1) with v end; month_nth; lia.
Qed.

Lemma month_bounds year m :
  0 <= m <= 11 -> 28 <= month_length year m <= 31
  /\ 0 <= month_start year m /\ month_start year m + month_length year m <= 365 + leap year.
Proof.
  intros Hm. pose proof (leap_range year). month_cases m; subst m; month_nth; lia.
Qed.

Lemma month_length_max year m : 0 <= m <= 11 -> month_length year m <= 31.
Proof. intros Hm. destruct (month_bounds year m Hm). lia. Qed.

Lemma month_start_mono year a b : 0 <= a <= b /\ b <= 11 -> month_start year a <= month_start year b.
Proof.
  intros [Hab Hb]. replace b with (a + Z.of_nat (Z.to_nat (b - a))) in * by lia.
  induction (Z.to_nat (b - a)) as [|n IH]; [rewrite Z.add_0_r; lia|].
  replace (a + Z.of_nat (S n)) with (a + Z.of_nat n + 1) in * by lia.
  rewrite month_start_succ by lia. pose proof (month_bounds year (a + Z.of_nat n) ltac:(lia)). lia.
Qed.

Lemma date_ok_tomorrow t :
  date_ok t -> date_ok (tomorrow t) /\ day_number (tomorrow t) = day_number t + 1.
Proof.
  intros [Hm Hd Hy Hw]. unfold tomorrow.
  assert (Hn : day_number (tomorrow t) = day_number t + 1).
  { unfold tomorrow, day_number. pose proof (year_start_succ (y t)).
    destruct (Z.ltb_spec (d t) (month_length (y t) (mo t))); [cbn; lia|].
    destruct (Z.ltb_spec (mo t) 11); cbn [y mo d].
    - rewrite month_start_succ by lia. lia.
    - replace (mo t) with 11 in * by lia. month_nth. lia. }
  unfold tomorrow in *. pose proof (month_bounds (y t) (mo t) Hm).
  destruct (Z.ltb_spec (d t) (month_length (y t) (mo t))); [|destruct (Z.ltb_spec (mo t) 11)];
    (split; [|exact Hn]); (split; [cbn [y mo d yd wd]; try lia..|rewrite Hn; cbn [wd]; rewrite Hw; zdiv]).
  - pose proof (month_bounds (y t) (mo t + 1) ltac:(lia)). lia.
  - rewrite month_start_succ by lia. lia.
  - pose proof (month_bounds (y t + 1) 0 ltac:(lia)). lia.
  - reflexivity.
Qed.

Lemma year_start_lower year : 1970 <= year -> 365 * (year - 1970) <= year_start year.
Proof. unfold year_start. intros H. zdiv. Qed.

Lemma date_ok_after n :
  date_ok (after n) /\ day_number (after n) = Z.of_nat n /\ 1970 <= y (after n).
Proof.
  induction n as [|n (IH1 & IH2 & IH3)].
  - split; [|split; [reflexivity|vm_compute; discriminate]].
    split; vm_compute; repeat split; discriminate.
  - destruct (date_ok_tomorrow _ IH1) as [H1 H2].
    change (after (S n)) with (tomorrow (after n)). split; [exact H1|]. split; [lia|].
    unfold tomorrow. repeat case_match; cbn [y]; lia.
Qed.

(** The last of the 2{^32} seconds falls on day 49710, in 2106. *)
Lemma after_2106 n : Z.of_nat n <= 49710 -> 1970 <= y (after n) <= 2106.
Proof.
  intros Hn. destruct (date_ok_after n) as ([Hm Hd _ _] & E & Hy). split; [lia|].
  pose proof (year_start_lower _ Hy). pose proof (month_bounds (y (after n)) _ Hm).
  unfold day_number in E. lia.
Qed.

(** ** The conversions compute day numbers *)

Lemma leaps_year_start year :
  1 <= year <= 3000 ->
  (year - 1970) * 365 + LEAPS_THRU_END_OF (u32 (year - 1)) - LEAPS_THRU_END_OF (1970 - 1) = year_start year.
Proof.
  intros H. change (LEAPS_THRU_END_OF (1970 - 1)) with 477. unfold year_start, LEAPS_THRU_END_OF.
  rewrite (u32_id (year - 1)) by (unfold is_u32, fits; lia). rewrite u32_id; [lia|]. split; zdiv.
Qed.

Lemma year_start_range year : 1970 <= year <= 2107 ->
  365 * (year - 1970) <= year_start year <= 365 * (year - 1970) + 35.
Proof. unfold year_start. intros H. zdiv. Qed.

Lemma split_year_spec year k :
  1970 <= year <= 2106 -> 0 <= k < 365 + leap year -> split_year (year_start year + k) = (year, k).
Proof.
  intros Hy Hk. unfold split_year. pose proof (year_start_range year ltac:(lia)).
  pose proof (year_start_succ year) as Hs. pose proof (leap_range year).
  rewrite (u32_id (1970 + _)) by (split; zdiv).
  assert ((year_start year + k) / 365 = year - 1970 \/ (year_start year + k) / 365 = year - 1969) as [->| ->]
    by zdiv.
  - replace (1970 + (year - 1970)) with year by lia. rewrite leaps_year_start by lia.
    rewrite s32_id by lia. destruct (Z.ltb_spec (year_start year + k - year_start year) 0); [lia|].
    f_equal. lia.
  - replace (1970 + (year - 1969)) with (year + 1) by lia. rewrite leaps_year_start by lia.
    rewrite s32_id by lia. destruct (Z.ltb_spec (year_start year + k - year_start (year + 1)) 0); [|lia].
    rewrite u32_id by (split; lia). replace (year + 1 - 1) with year by lia.
    rewrite s32_id by (fold (leap year); lia). fold (leap year). f_equal. lia.
Qed.

Lemma rtc_month_days_spec m year :
  0 <= m <= 11 -> rtc_month_days m year = Ok (month_length year m).
Proof.
  intros Hm. rewrite month_length_eq by lia. unfold rtc_month_days, leap.
  month_cases m; subst m; cbv -[is_leap_year]; destruct (is_leap_year year); reflexivity.
Qed.

Lemma month_loop_spec n m m0 k year :
  0 <= m -> m + Z.of_nat n = 11 -> m <= m0 <= 11 -> 
  month_start year m0 <= k < month_start year m0 + month_length year m0 ->
  month_loop n m (k - month_start year m) year = Ok (m0, k - month_start year m0).
Proof.
  revert m. induction n as [|n IH]; intros m Hm Hn Hm0 Hk; cbn [month_loop].
  - now replace m0 with m by lia.
  - rewrite rtc_month_days_spec by lia. cbn [rbind].
    pose proof (month_bounds year m ltac:(lia)). pose proof (month_bounds year m0 ltac:(lia)).
    pose proof (leap_range year). pose proof (month_start_succ year m ltac:(lia)) as Hs.
    rewrite s32_id by lia.
    destruct (Z.eq_dec m m0) as [->|Hne].
    + destruct (Z.ltb_spec (k - month_start year m0 - month_length year m0) 0); [reflexivity|lia].
    + pose proof (month_start_mono year (m + 1) m0 ltac:(lia)).
      destruct (Z.ltb_spec (k - month_start year m - month_length year m) 0); [lia|].
      replace (k - month_start year m - month_length year m) with (k - month_start year (m + 1)) by lia.
      apply IH; lia.
Qed.

Lemma date_ok_yd t : date_ok t -> 0 <= yd t < 365 + leap (y t).
Proof. intros [Hm Hd Hy _]. pose proof (month_bounds (y t) (mo t) Hm). lia. Qed.

(** The date part of [rtc_time_to_tm] inverts [day_number]. *)
Lemma split_date t :
  date_ok t -> 1970 <= y t <= 2106 ->
  split_year (day_number t) = (y t, yd t)
  /\ month_loop 11 0 (yd t) (y t) = Ok (mo t, d t - 1).
Proof.
  intros Ht Hy. pose proof (date_ok_yd t Ht). destruct Ht as [Hm Hd Hyd _]. split.
  - rewrite <- split_year_spec by lia. f_equal. unfold day_number. lia.
  - replace (yd t) with (yd t - month_start (y t) 0) by (change (month_start (y t) 0) with 0; lia).
    rewrite (month_loop_spec 11 0 (mo t)) by lia. do 2 f_equal. lia.
Qed.

(** The part of [mktime_days] after the months are renumbered. *)
Lemma mktime_formula year mon day :
  1969 <= year <= 2106 -> 1 <= mon <= 12 -> 1970 <= year \/ 11 <= mon -> 1 <= day <= 31 ->
  u32 (u32 (year / 4 - year / 100 + year / 400 + u32 (367 * mon) / 12 + day) + u32 (year * 365) - 719499)
  = year_start (year + 1) + 367 * mon / 12 + day - 337.
Proof.
  intros Hy Hm Hym Hd. unfold year_start. replace (year + 1 - 1) with year by lia.
  rewrite (u32_id (367 * mon)), (u32_id (year * 365)) by (split; lia).
  rewrite (u32_id (_ + day)) by (split; zdiv).
  rewrite u32_id by (split; zdiv). zdiv.
Qed.

(** [mktime]'s formula, with the year starting in March, is [day_number]. *)
Lemma mktime_days_spec t :
  date_ok t -> 1970 <= y t <= 2106 -> mktime_days (y t) (mo t + 1) (d t) = day_number t.
Proof.
  intros [Hm Hd _ _] Hy. pose proof (month_bounds (y t) (mo t) Hm).
  pose proof (year_start_succ (y t)) as Hs. pose proof (year_start_succ (y t - 1)) as Hs'.
  replace (y t - 1 + 1) with (y t) in Hs' by lia.
  destruct t as [yr m dd w yy]; unfold day_number, mktime_days; cbn [y mo d] in *.
  assert (m <= 1 \/ 2 <= m) as [Hlow|Hhigh] by lia.
  - replace (s32 (u32 (m + 1 - 2)) <=? 0) with true by (assert (m = 0 \/ m = 1) as [->| ->] by lia; reflexivity).
    rewrite (u32_id (yr - 1)) by (split; lia).
    replace (u32 (u32 (m + 1 - 2) + 12)) with (m + 11) by (assert (m = 0 \/ m = 1) as [->| ->] by lia; reflexivity).
    rewrite mktime_formula by lia. replace (yr - 1 + 1) with yr by lia.
    assert (m = 0 \/ m = 1) as [->| ->] by lia; month_nth; zdiv.
  - rewrite (u32_id (m + 1 - 2)) by (split; lia). rewrite s32_id by lia.
    destruct (Z.leb_spec (m + 1 - 2) 0); [lia|]. rewrite mktime_formula by lia.
    month_cases m; subst m; try lia; month_nth; zdiv.
Qed.

(** ** Whole times *)

(** The date of a broken-down time of this library, whose [tm_yday] counts from 1. *)
Definition tm_date (tm : rtc_time) : date :=
  {| y := tm_year tm + 1900; mo := tm_mon tm; d := tm_mday tm; wd := tm_wday tm; yd := tm_yday tm - 1 |}.

Record clock_ok (tm : rtc_time) (secs : Z) : Prop := {
  h_ok : 0 <= tm_hour tm < 24; min_ok : 0 <= tm_min tm < 60; sec_ok : 0 <= tm_sec tm < 60;
  secs_ok : secs = tm_hour tm * 3600 + tm_min tm * 60 + tm_sec tm
}.

Lemma u32_mod_day time : is_u32 time ->
  s32 (time / 86400) = time / 86400 /\ u32 (time - u32 (time / 86400) * 86400) = time mod 86400.
Proof.
  intros [H0 H1]. change (2 ^ 32) with 4294967296 in H1.
  rewrite s32_id by zdiv. split; [reflexivity|]. rewrite (u32_id (time / 86400)) by (split; zdiv).
  rewrite u32_id by (split; zdiv). zdiv.
Qed.

(** [rtc_time_to_tm] at a given date. *)
Lemma time_to_tm_spec t secs tm0 :
  date_ok t -> 1970 <= y t <= 2106 -> 0 <= secs < 86400 -> is_u32 (day_number t * 86400 + secs) ->
  exists tm, rtc_time_to_tm (day_number t * 86400 + secs) tm0 = Ok tm
  /\ tm_date tm = t /\ clock_ok tm secs /\ tm_isdst tm = tm_isdst tm0.
Proof.
  intros Ht Hy Hs Hu. unfold rtc_time_to_tm. destruct (u32_mod_day _ Hu) as [E1 E2]. cbv zeta.
  rewrite E1, E2. replace ((day_number t * 86400 + secs) / 86400) with (day_number t) by zdiv.
  replace ((day_number t * 86400 + secs) mod 86400) with secs by zdiv.
  destruct (split_date t Ht Hy) as [-> ->]. cbn [rbind].
  rewrite (u32_id (secs - _)) by (split; zdiv). rewrite !s32_id by zdiv.
  eexists. split; [reflexivity|]. split; [|split; [|reflexivity]].
  - destruct Ht as [_ _ _ Hw]. destruct t; unfold tm_date; cbn in *. f_equal; lia.
  - split; cbn; zdiv.
Qed.

(** [rtc_tm_to_time] at a given date. *)
Lemma tm_to_time_spec tm secs :
  date_ok (tm_date tm) -> 1970 <= tm_year tm + 1900 <= 2106 -> clock_ok tm secs ->
  is_u32 (day_number (tm_date tm) * 86400 + secs) ->
  rtc_tm_to_time tm = day_number (tm_date tm) * 86400 + secs.
Proof.
  intros Ht Hy [Hh Hm Hs ->] [H0 H1]. pose proof (mktime_days_spec _ Ht Hy) as E. unfold rtc_tm_to_time, mktime.
  destruct Ht as [Hmo Hd _ _]. pose proof (month_bounds (y (tm_date tm)) _ Hmo). cbn [y mo d tm_date] in *.
  rewrite !(u32_id (tm_year tm + 1900)), !(u32_id (tm_mon tm + 1)), !(u32_id (tm_mday tm)),
    !(u32_id (tm_hour tm)), !(u32_id (tm_min tm)), !(u32_id (tm_sec tm)) by (split; lia).
  change (2 ^ 32) with 4294967296 in *.
  fold (tm_date tm). rewrite E. rewrite (u32_id (_ * 24 + _)) by (split; lia).
  rewrite (u32_id (_ * 60 + tm_min tm)) by (split; lia). rewrite u32_id by (split; lia). lia.
Qed.

(** The fields are C [int]s. *)
Definition is_s32 (x : Z) : Prop := - 2147483648 <= x < 2147483648.

Record tm_int (tm : rtc_time) : Prop := {
  int_year : is_s32 (tm_year tm); int_mon : is_s32 (tm_mon tm); int_hour : is_s32 (tm_hour tm);
  int_min : is_s32 (tm_min tm); int_sec : is_s32 (tm_sec tm)
}.

(** A time that [rtc_valid_tm] accepts is one of the calendar's, and conversely. *)
Lemma valid_tm_spec tm :
  tm_int tm ->
  rtc_valid_tm tm = Ok 0 <->
  70 <= tm_year tm /\ 0 <= tm_mon tm <= 11
  /\ 1 <= tm_mday tm <= month_length (tm_year tm + 1900) (tm_mon tm)
  /\ 0 <= tm_hour tm < 24 /\ 0 <= tm_min tm < 60 /\ 0 <= tm_sec tm < 60.
Proof.
  intros [Hy Hmo Hh Hm Hs]. unfold is_s32 in *. unfold rtc_valid_tm.
  assert (Hu : forall x b, - 2147483648 <= x < 2147483648 -> 0 <= b < 2147483648 ->
    (b <=? u32 x) = negb ((0 <=? x) && (x <? b))).
  { intros x b Hx Hb. unfold u32. destruct (Z.leb_spec 0 x), (Z.ltb_spec x b); cbn; zdiv. }
  rewrite !Hu by lia.
  destruct (Z.ltb_spec (tm_year tm) 70); cbn [orb]; [split; [discriminate|lia]|].
  destruct (Z.leb_spec 0 (tm_mon tm)), (Z.ltb_spec (tm_mon tm) 12); cbn [andb negb orb];
    try (split; [discriminate|lia]).
  destruct (Z.ltb_spec (tm_mday tm) 1); [split; [discriminate|lia]|].
  rewrite rtc_month_days_spec by lia. cbn [rbind]. rewrite u32_id by (split; lia).
  destruct (Z.ltb_spec (month_length (tm_year tm + 1900) (tm_mon tm)) (tm_mday tm)); cbn [orb];
    [split; [discriminate|lia]|].
  destruct (Z.leb_spec 0 (tm_hour tm)), (Z.ltb_spec (tm_hour tm) 24); cbn [andb negb orb];
    try (split; [discriminate|lia]).
  destruct (Z.leb_spec 0 (tm_min tm)), (Z.ltb_spec (tm_min tm) 60); cbn [andb negb orb];
    try (split; [discriminate|lia]).
  destruct (Z.leb_spec 0 (tm_sec tm)), (Z.ltb_spec (tm_sec tm) 60); cbn [andb negb orb];
    try (split; [discriminate|lia]).
  split; [lia|reflexivity].
Qed.

Lemma valid_tm_total tm : tm_int tm -> rtc_valid_tm tm = Ok 0 \/ rtc_valid_tm tm = Ok (- EINVAL).
Proof.
  intros [_ Hmo _ _ _]. unfold is_s32 in *. unfold rtc_valid_tm.
  destruct (Z.leb_spec 12 (u32 (tm_mon tm))) as [|H12].
  { rewrite orb_true_r. cbn [orb]. auto. }
  assert (0 <= tm_mon tm <= 11) by (unfold u32 in H12; zdiv).
  rewrite rtc_month_days_spec by lia. cbn [rbind]. repeat case_match; auto.
Qed.

Lemma rtc_year_days_spec t :
  date_ok t -> 1970 <= y t -> rtc_year_days (d t) (mo t) (y t) = Ok (yd t).
Proof.
  intros [Hm Hd Hy _] _. rewrite Hy, month_start_eq by lia. pose proof (month_bounds (y t) _ Hm).
  destruct t as [yr m dd w yy]; cbn [y mo d yd] in *. unfold rtc_year_days, leap.
  month_cases m; subst m; destruct (is_leap_year yr); cbn -[s32]; f_equal; rewrite s32_id by lia;
    reflexivity.
Qed.

(** A time since 1970 is a date and a time of day. *)
Lemma time_to_tm_after time tm0 :
  is_u32 time ->
  exists tm, rtc_time_to_tm time tm0 = Ok tm
  /\ tm_date tm = after (Z.to_nat (time / 86400)) /\ clock_ok tm (time mod 86400).
Proof.
  intros Hu. assert (Hd : 0 <= time / 86400 <= 49710) by (destruct Hu as [? H]; change (2 ^ 32) with 4294967296 in H; zdiv).
  destruct (date_ok_after (Z.to_nat (time / 86400))) as (Ht & E & _).
  pose proof (after_2106 (Z.to_nat (time / 86400)) ltac:(lia)) as Hy. rewrite Z2Nat.id in E by lia.
  assert (Et : day_number (after (Z.to_nat (time / 86400))) * 86400 + time mod 86400 = time) by (rewrite E; zdiv).
  destruct (time_to_tm_spec _ (time mod 86400) tm0 Ht Hy ltac:(zdiv)) as (tm & E1 & E2 & E3 & _);
    rewrite Et in *; eauto.
Qed.

(** The date of a valid time, whatever its day of the week and year say. *)
Record same_day (tm : rtc_time) (t : date) : Prop := {
  same_y : y t = tm_year tm + 1900; same_mo : mo t = tm_mon tm; same_d : d t = tm_mday tm }.

Lemma tm_dated tm :
  70 <= tm_year tm <= 205 -> 0 <= tm_mon tm <= 11 ->
  1 <= tm_mday tm <= month_length (tm_year tm + 1900) (tm_mon tm) ->
  0 <= tm_hour tm < 24 -> 0 <= tm_min tm < 60 -> 0 <= tm_sec tm < 60 ->
  let secs := tm_hour tm * 3600 + tm_min tm * 60 + tm_sec tm in
  exists t, date_ok t /\ same_day tm t /\ 1970 <= y t <= 2105
  /\ is_u32 (day_number t * 86400 + secs) /\ rtc_tm_to_time tm = day_number t * 86400 + secs.
Proof.
  intros Hy Hm Hd Hh Hmi Hs secs. set (yr := tm_year tm + 1900) in *.
  set (yd0 := month_start yr (tm_mon tm) + tm_mday tm - 1).
  set (n := year_start yr + month_start yr (tm_mon tm) + tm_mday tm - 1).
  set (u := {| tm_sec := tm_sec tm; tm_min := tm_min tm; tm_hour := tm_hour tm; tm_mday := tm_mday tm;
    tm_mon := tm_mon tm; tm_year := tm_year tm; tm_wday := (n + 4) mod 7; tm_yday := yd0 + 1; tm_isdst := 0 |}).
  assert (Ht : date_ok (tm_date u)).
  { split; unfold u; cbn [y mo d wd yd tm_date tm_year tm_mon tm_mday tm_wday tm_yday]; (assumption || reflexivity || (unfold yd0, yr; lia)). }
  assert (Hu : is_u32 (day_number (tm_date u) * 86400 + secs)).
  { pose proof (month_bounds yr (tm_mon tm) Hm). pose proof (year_start_succ yr).
    pose proof (year_start_range yr ltac:(lia)). pose proof (year_start_range (yr + 1) ltac:(lia)).
    change (day_number (tm_date u)) with n. split; [|change (2 ^ 32) with 4294967296]; lia. }
  exists (tm_date u). split; [exact Ht|]. split; [split; reflexivity|]. split; [cbn; lia|].
  split; [exact Hu|]. apply (tm_to_time_spec u secs Ht); [cbn; lia| |exact Hu].
  split; cbn; (lia || reflexivity).
Qed.

(** C13: For every 32-bit time [rtc_time_to_tm] finishes, without reading past its
    tables, and gives the year, month, day of the month and day of the week of the date
    that [time / 86400] days of "the next day" lead to from Thursday the first of January
    1970, and the right time of day; [rtc_valid_tm] accepts the result.  [rtc_year_days]
    gives the day of the year as documented, from 0, but [tm_yday] is one more: the
    library counts it from 1, against the comment on [struct tm]. *)
Theorem rtc_calendar time tm0 :
  is_u32 time ->
  let t := after (Z.to_nat (time / 86400)) in
  exists tm, rtc_time_to_tm time tm0 = Ok tm
  /\ tm_year tm + 1900 = y t /\ tm_mon tm = mo t /\ tm_mday tm = d t /\ tm_wday tm = wd t
  /\ clock_ok tm (time mod 86400)
  /\ rtc_valid_tm tm = Ok 0
  /\ rtc_year_days (tm_mday tm) (tm_mon tm) (tm_year tm + 1900) = Ok (yd t)
  /\ tm_yday tm = yd t + 1.
Proof.
  intros Hu t. destruct (time_to_tm_after time tm0 Hu) as (tm & E & Hd & Hc). fold t in Hd.
  exists tm. split; [exact E|]. destruct (date_ok_after (Z.to_nat (time / 86400))) as (Ht & _ & H70). fold t in Ht, H70.
  assert (Hy : 1970 <= y t <= 2106).
  { apply after_2106. destruct Hu as [? H]. change (2 ^ 32) with 4294967296 in H. zdiv. }
  clearbody t. subst t. cbn [y mo d wd yd tm_date] in *. do 4 (split; [reflexivity|]). split; [exact Hc|]. split; [|split; [|lia]].
  - destruct Hc, Ht. cbn [y mo d tm_date] in *. apply valid_tm_spec; [split; unfold is_s32; lia|]. repeat split; lia.
  - exact (rtc_year_days_spec _ Ht H70).
Qed.

(** C12: The two conversions are inverse to each other: a 32-bit time converted to a
    date and back is the same time, and a date that [rtc_valid_tm] accepts, up
    to the end of 2105, converted to a time and back is the same date and time of
    day. *)
Theorem rtc_roundtrip tm0 :
  (forall time, is_u32 time ->
     exists tm, rtc_time_to_tm time tm0 = Ok tm /\ rtc_tm_to_time tm = time)
  /\ (forall tm, rtc_valid_tm tm = Ok 0 -> tm_year tm <= 205 ->
        tm_int tm ->
        is_u32 (rtc_tm_to_time tm)
        /\ exists tm', rtc_time_to_tm (rtc_tm_to_time tm) tm0 = Ok tm'
           /\ tm_year tm' = tm_year tm /\ tm_mon tm' = tm_mon tm /\ tm_mday tm' = tm_mday tm
           /\ tm_hour tm' = tm_hour tm /\ tm_min tm' = tm_min tm /\ tm_sec tm' = tm_sec tm).
Proof.
  split.
  - intros time Hu. destruct (time_to_tm_after time tm0 Hu) as (tm & E & Hd & Hc).
    exists tm. split; [exact E|]. destruct (date_ok_after (Z.to_nat (time / 86400))) as (Ht & En & _).
    assert (Hn : 0 <= time / 86400 <= 49710) by (destruct Hu as [? H]; change (2 ^ 32) with 4294967296 in H; zdiv).
    pose proof (after_2106 (Z.to_nat (time / 86400)) ltac:(lia)) as Hy. rewrite Z2Nat.id in En by lia.
    rewrite <- Hd in *. assert (Et : day_number (tm_date tm) * 86400 + time mod 86400 = time) by (rewrite En; zdiv).
    rewrite (tm_to_time_spec tm (time mod 86400)); try assumption; now rewrite Et.
  - intros tm Hv H205 Hint. apply (valid_tm_spec tm Hint) in Hv as (H70 & H1 & H2 & H3 & H4 & H5).
    destruct (tm_dated tm) as (t & Ht & [Ey Em Ed] & Hn & Hu & E); [lia..|].
    rewrite E. split; [exact Hu|].
    destruct (time_to_tm_spec t (tm_hour tm * 3600 + tm_min tm * 60 + tm_sec tm) tm0 Ht)
      as (tm' & E' & Ed' & Hc' & _); [lia..|exact Hu|].
    exists tm'. split; [exact E'|]. destruct Hc'. subst t. cbn [y mo d tm_date] in *. repeat split; lia.
Qed.

(** ** Witnesses *)

Definition tm_zero : rtc_time := {| tm_sec := 0; tm_min := 0; tm_hour := 0; tm_mday := 0;
  tm_mon := 0; tm_year := 0; tm_wday := 0; tm_yday := 0; tm_isdst := 0 |}.

(** The last second of the clock, Sunday the seventh of February 2106. *)
Lemma rtc_calendar_witness :
  exists tm, rtc_time_to_tm u32_max tm_zero = Ok tm
  /\ tm_date tm = {| y := 2106; mo := 1; d := 7; wd := 0; yd := 37 |} /\ tm_yday tm = 38 /\ clock_ok tm 23295.
Proof.
  destruct (rtc_calendar u32_max tm_zero ltac:(split; reflexivity || discriminate)) as (tm & E & _ & _ & _ & _ & Hc & _).
  exists tm. split; [exact E|]. assert (E' := E). vm_compute in E'. injection E' as <-. split; [reflexivity|].
  split; [reflexivity|exact Hc].
Defined.

Lemma rtc_roundtrip_witness :
  exists tm, rtc_time_to_tm 951782400 tm_zero = Ok tm /\ rtc_tm_to_time tm = 951782400.
Proof. apply (proj1 (rtc_roundtrip tm_zero)). split; reflexivity || discriminate. Defined.
