(* ===== verification/Rtc.v ===== *)
(** * The on-chip real-time clock ([drivers/rtc/rtc-stm32f2.c])

    The registers, the helpers and the operations of [stm32f2_rtc_ops], and the
    two interrupt handlers.  The spin lock makes each operation atomic; the device
    registration is not modelled.

    What the driver relies on of the hardware: RTC_ISR's flags are cleared by
    writing 0 ([IsrHw]); the loops that poll a flag read the answers [ready]. *)

From S2P Require Import Prelude Exti RtcLib.

(** ** Registers *)

Record stm32f2_rtc_regs := {
  tr : Z; dr : Z; cr : Z; isr : Z; wutr : Z; alrmar : Z; alrmbr : Z; wpr : Z }.

Definition set_tr_dr r t d := {| tr := t; dr := d; cr := cr r; isr := isr r; wutr := wutr r;
  alrmar := alrmar r; alrmbr := alrmbr r; wpr := wpr r |}.
Definition set_cr r v := {| tr := tr r; dr := dr r; cr := v; isr := isr r; wutr := wutr r;
  alrmar := alrmar r; alrmbr := alrmbr r; wpr := wpr r |}.
Definition set_isr r v := {| tr := tr r; dr := dr r; cr := cr r; isr := v; wutr := wutr r;
  alrmar := alrmar r; alrmbr := alrmbr r; wpr := wpr r |}.
Definition set_wutr r v := {| tr := tr r; dr := dr r; cr := cr r; isr := isr r; wutr := v;
  alrmar := alrmar r; alrmbr := alrmbr r; wpr := wpr r |}.
Definition set_alrmr r (alarm : bool) v := {| tr := tr r; dr := dr r; cr := cr r; isr := isr r;
  wutr := wutr r; alrmar := if alarm then alrmar r else v; alrmbr := if alarm then v else alrmbr r;
  wpr := wpr r |}.
Definition set_wpr r v := {| tr := tr r; dr := dr r; cr := cr r; isr := isr r; wutr := wutr r;
  alrmar := alrmar r; alrmbr := alrmbr r; wpr := v |}.

Definition STM32F2_RTC_TR_SEC_BITS : Z := 0.
Definition STM32F2_RTC_TR_SEC_MSK : Z := 0x7f .<< STM32F2_RTC_TR_SEC_BITS.
Definition STM32F2_RTC_TR_MIN_BITS : Z := 8.
Definition STM32F2_RTC_TR_MIN_MSK : Z := 0x7f .<< STM32F2_RTC_TR_MIN_BITS.
Definition STM32F2_RTC_TR_HOUR_BITS : Z := 16.
Definition STM32F2_RTC_TR_HOUR_MSK : Z := 0x3f .<< STM32F2_RTC_TR_HOUR_BITS.
Definition STM32F2_RTC_DR_MDAY_BITS : Z := 0.
Definition STM32F2_RTC_DR_MDAY_MSK : Z := 0x3f .<< STM32F2_RTC_DR_MDAY_BITS.
Definition STM32F2_RTC_DR_MON_BITS : Z := 8.
Definition STM32F2_RTC_DR_MON_MSK : Z := 0x1f .<< STM32F2_RTC_DR_MON_BITS.
Definition STM32F2_RTC_DR_YEAR_BITS : Z := 16.
Definition STM32F2_RTC_DR_YEAR_MSK : Z := 0xff .<< STM32F2_RTC_DR_YEAR_BITS.
Definition STM32F2_RTC_DR_WDAY_BITS : Z := 13.
Definition STM32F2_RTC_DR_WDAY_MSK : Z := 7 .<< STM32F2_RTC_DR_WDAY_BITS.
Definition STM32F2_RTC_CR_WUTIE_MSK : Z := BIT 14.
Definition STM32F2_RTC_CR_ALRBIE_MSK : Z := BIT 13.
Definition STM32F2_RTC_CR_ALRAIE_MSK : Z := BIT 12.
Definition STM32F2_RTC_CR_WUTE_MSK : Z := BIT 10.
Definition STM32F2_RTC_CR_ALRBE_MSK : Z := BIT 9.
Definition STM32F2_RTC_CR_ALRAE_MSK : Z := BIT 8.
Definition STM32F2_RTC_CR_WUCKSEL_BITS : Z := 0.
Definition STM32F2_RTC_CR_WUCKSEL_MSK : Z := 7 .<< STM32F2_RTC_CR_WUCKSEL_BITS.
Definition STM32F2_RTC_CR_WUCKSEL_DIV2 : Z := 3 .<< STM32F2_RTC_CR_WUCKSEL_BITS.
Definition STM32F2_RTC_ISR_WUTF_MSK : Z := BIT 10.
Definition STM32F2_RTC_ISR_ALRBF_MSK : Z := BIT 9.
Definition STM32F2_RTC_ISR_ALRAF_MSK : Z := BIT 8.
Definition STM32F2_RTC_ISR_INIT_MSK : Z := BIT 7.
Definition STM32F2_RTC_ISR_INITF_MSK : Z := BIT 6.
Definition STM32F2_RTC_ISR_WUTWF_MSK : Z := BIT 2.
Definition STM32F2_RTC_ISR_ALRBWF_MSK : Z := BIT 1.
Definition STM32F2_RTC_ISR_ALRAWF_MSK : Z := BIT 0.
Definition STM32F2_RTC_ALRMR_DATEMASK_MSK : Z := BIT 31.
Definition STM32F2_RTC_ALRMR_HOURMASK_MSK : Z := BIT 23.
Definition STM32F2_RTC_ALRMR_MINMASK_MSK : Z := BIT 15.
Definition STM32F2_RTC_ALRMR_SECMASK_MSK : Z := BIT 7.
Definition STM32F2_RTC_ALRMR_WDSEL_MSK : Z := BIT 30.
Definition STM32F2_RTC_ALRMR_DAY_BITS : Z := 24.
Definition STM32F2_RTC_ALRMR_MDAY_MSK : Z := 0x3f .<< STM32F2_RTC_ALRMR_DAY_BITS.
Definition STM32F2_RTC_ALRMR_WDAY_MSK : Z := 0x7 .<< STM32F2_RTC_ALRMR_DAY_BITS.
Definition STM32F2_RTC_ALRMR_HOUR_BITS : Z := 16.
Definition STM32F2_RTC_ALRMR_HOUR_MSK : Z := 0x3f .<< STM32F2_RTC_ALRMR_HOUR_BITS.
Definition STM32F2_RTC_ALRMR_MIN_BITS : Z := 8.
Definition STM32F2_RTC_ALRMR_MIN_MSK : Z := 0x7f .<< STM32F2_RTC_ALRMR_MIN_BITS.
Definition STM32F2_RTC_ALRMR_SEC_BITS : Z := 0.
Definition STM32F2_RTC_ALRMR_SEC_MSK : Z := 0x7f .<< STM32F2_RTC_ALRMR_SEC_BITS.

Definition STM32F2_EXTI_LINE_RTC_ALARM : Z := 17.
Definition STM32F2_EXTI_LINE_RTC_WAKEUP : Z := 22.
Definition RTC_IRQF : Z := 0x80.
Definition RTC_PF : Z := 0x40.
Definition RTC_AF : Z := 0x20.
Definition RTC_UF : Z := 0x10.

Ltac rtc_simpl := cbn [tr dr cr isr wutr alrmar alrmbr wpr set_tr_dr set_cr set_isr set_wutr
  set_alrmr set_wpr].

(** ** RTC_ISR

    [isr_w old v] is the register after [v] was written: the event flags (RSF and
    bits 8 to 15) are cleared by a 0 and kept by a 1, INIT takes the written
    value, leaving it ends the initialisation mode (INITF), and the other bits
    cannot be written. *)

Definition isr_event (i : Z) : bool := (i =? 5) || ((8 <=? i) && (i <=? 15)).

Class IsrHw (isr_w : Z -> Z -> Z) : Prop :=
  isr_w_spec : forall old v i, is_u32 old -> is_u32 v -> 0 <= i ->
    Z.testbit (isr_w old v) i =
    if isr_event i then Z.testbit old i && Z.testbit v i
    else if i =? 7 then Z.testbit v 7
    else if i =? 6 then Z.testbit old 6 && Z.testbit v 7
    else Z.testbit old i.

(** The device: registers, interrupt lines, and the events passed to the RTC core
    with [rtc_update_irq]. *)
Record rtc := { regs : stm32f2_rtc_regs; exti : stm32_exti_regs; events : list Z }.

Definition set_regs s r := {| regs := r; exti := exti s; events := events s |}.

(** [while (!(isr & FLAG));]: the [i]-th read of the flag is [ready i]. *)
Fixpoint wait (ready : nat -> bool) (fuel i : nat) : result unit :=
  match fuel with
  | O => Fault Stuck
  | S fuel => if ready i then Ok tt else wait ready fuel (S i)
  end.

Section Ops.

Context (w1c isr_w : Z -> Z -> Z) (ready : nat -> bool) (fuel : nat).

Definition write_isr (r : stm32f2_rtc_regs) (v : Z) : stm32f2_rtc_regs := set_isr r (isr_w (isr r) v).

(** The last key written to the write-protection register. *)
Definition stm32f2_rtc_write_enable (enable : bool) (r : stm32f2_rtc_regs) : stm32f2_rtc_regs :=
  if enable then set_wpr (set_wpr r 0xca) 0x53 else set_wpr r 0xff.

Definition stm32f2_rtc_enable_init_mode (enable : bool) (r : stm32f2_rtc_regs) :
    result stm32f2_rtc_regs :=
  if enable then
    if (isr r .& STM32F2_RTC_ISR_INITF_MSK) =? 0 then
      let r := write_isr r STM32F2_RTC_ISR_INIT_MSK in
      let* _ := wait ready fuel 0 in
      Ok (set_isr r (isr r .| STM32F2_RTC_ISR_INITF_MSK))
    else Ok r
  else Ok (write_isr r (isr r .& .~ STM32F2_RTC_ISR_INIT_MSK)).

(** The value is whether the interrupt was the device's. *)
Definition stm32f2_rtc_alarm_irq (s : rtc) : bool * rtc :=
  let r := regs s in
  let status := isr r in
  let enabled_irqs := cr r in
  let r := stm32f2_rtc_write_enable true r in
  let r := write_isr r (isr r .& .~ (status .& (STM32F2_RTC_ISR_ALRBF_MSK
                                                .| STM32F2_RTC_ISR_ALRAF_MSK))) in
  let r := stm32f2_rtc_write_enable false r in
  let ev := 0 in
  let ev := if negb ((status .& STM32F2_RTC_ISR_ALRAF_MSK) =? 0)
               && negb ((enabled_irqs .& STM32F2_RTC_CR_ALRAIE_MSK) =? 0)
            then ev .| (RTC_AF .| RTC_IRQF) else ev in
  let ev := if negb ((status .& STM32F2_RTC_ISR_ALRBF_MSK) =? 0)
               && negb ((enabled_irqs .& STM32F2_RTC_CR_ALRBIE_MSK) =? 0)
            then ev .| (RTC_UF .| RTC_IRQF) else ev in
  if negb (ev =? 0)
  then (true, {| regs := r; exti := stm32_exti_clear_pending w1c STM32F2_EXTI_LINE_RTC_ALARM (exti s);
                 events := events s ++ [ev] |})
  else (false, set_regs s r).

Definition stm32f2_rtc_wakeup_irq (s : rtc) : bool * rtc :=
  let r := regs s in
  if ((isr r .& STM32F2_RTC_ISR_WUTF_MSK) =? 0) || ((cr r .& STM32F2_RTC_CR_WUTIE_MSK) =? 0)
  then (false, s)
  else
    let r := stm32f2_rtc_write_enable true r in
    let r := write_isr r (isr r .& .~ STM32F2_RTC_ISR_WUTF_MSK) in
    let r := stm32f2_rtc_write_enable false r in
    (true, {| regs := r; exti := stm32_exti_clear_pending w1c STM32F2_EXTI_LINE_RTC_WAKEUP (exti s);
              events := events s ++ [RTC_PF .| RTC_IRQF] |}).

(** The load value of the wakeup counter, minus 1-encoded. *)
Definition wakeup_load (freq : Z) : Z :=
  let tmp := 16384 / freq in
  if tmp <? 2 then 1 else tmp - 1.

Definition stm32f2_rtc_irq_set_freq (freq : Z) (r : stm32f2_rtc_regs) :
    result (Z * stm32f2_rtc_regs) :=
  if (freq <=? 0) || (8192 <? freq) then Ok (- EINVAL, r)
  else
    let tmp := wakeup_load freq in
    let r := stm32f2_rtc_write_enable true r in
    let wakeup_state := cr r .& STM32F2_RTC_CR_WUTE_MSK in
    let r := set_cr r (cr r .& .~ STM32F2_RTC_CR_WUTE_MSK) in
    let* _ := wait ready fuel 0 in
    let r := set_cr r ((cr r .& .~ STM32F2_RTC_CR_WUCKSEL_MSK) .| STM32F2_RTC_CR_WUCKSEL_DIV2) in
    let r := set_wutr r (tmp .& 0xffff) in
    let r := set_cr r (cr r .| wakeup_state) in
    Ok (0, stm32f2_rtc_write_enable false r).

Definition stm32f2_rtc_irq_set_state (enabled : bool) (r : stm32f2_rtc_regs) : Z * stm32f2_rtc_regs :=
  let r := stm32f2_rtc_write_enable true r in
  let r := set_cr r (if enabled
                     then cr r .| (STM32F2_RTC_CR_WUTE_MSK .| STM32F2_RTC_CR_WUTIE_MSK)
                     else cr r .& .~ (STM32F2_RTC_CR_WUTE_MSK .| STM32F2_RTC_CR_WUTIE_MSK)) in
  let r := write_isr r (isr r .& .~ STM32F2_RTC_ISR_WUTF_MSK) in
  (0, stm32f2_rtc_write_enable false r).

(** [alarm] is false for Alarm A and true for Alarm B. *)
Definition stm32f2_alarm_irq_enable (alarm enable : bool) (r : stm32f2_rtc_regs) : stm32f2_rtc_regs :=
  let irq_enable_msk := if alarm then STM32F2_RTC_CR_ALRBIE_MSK else STM32F2_RTC_CR_ALRAIE_MSK in
  let irq_flag_msk := if alarm then STM32F2_RTC_ISR_ALRBF_MSK else .~ STM32F2_RTC_ISR_ALRAF_MSK in
  let r := stm32f2_rtc_write_enable true r in
  let r := set_cr r (if enable then cr r .| irq_enable_msk else cr r .& .~ irq_enable_msk) in
  let r := write_isr r (isr r .& .~ irq_flag_msk) in
  stm32f2_rtc_write_enable false r.

Definition stm32f2_rtc_alarm_irq_enable (enabled : bool) (r : stm32f2_rtc_regs) :
    Z * stm32f2_rtc_regs := (0, stm32f2_alarm_irq_enable false enabled r).

(** The alarm register value of [stm32f2_setup_alarm]. *)
Definition alarm_value (mday wday hour min sec : Z) : Z :=
  let tmp := 0 in
  let tmp :=
    if (mday <? 0) && (wday <? 0) then tmp .| STM32F2_RTC_ALRMR_DATEMASK_MSK
    else if 0 <? mday
    then tmp .| ((bin2bcd (u32 mday) .<< STM32F2_RTC_ALRMR_DAY_BITS) .& STM32F2_RTC_ALRMR_MDAY_MSK)
    else tmp .| STM32F2_RTC_ALRMR_WDSEL_MSK
             .| (((if wday =? 0 then 7 else wday) .<< STM32F2_RTC_ALRMR_DAY_BITS)
                 .& STM32F2_RTC_ALRMR_WDAY_MSK) in
  let tmp := tmp .| (if 0 <=? hour
    then (bin2bcd (u32 hour) .<< STM32F2_RTC_ALRMR_HOUR_BITS) .& STM32F2_RTC_ALRMR_HOUR_MSK
    else STM32F2_RTC_ALRMR_HOURMASK_MSK) in
  let tmp := tmp .| (if 0 <=? min
    then (bin2bcd (u32 min) .<< STM32F2_RTC_ALRMR_MIN_BITS) .& STM32F2_RTC_ALRMR_MIN_MSK
    else STM32F2_RTC_ALRMR_MINMASK_MSK) in
  tmp .| (if 0 <=? sec
    then (bin2bcd (u32 sec) .<< STM32F2_RTC_ALRMR_SEC_BITS) .& STM32F2_RTC_ALRMR_SEC_MSK
    else STM32F2_RTC_ALRMR_SECMASK_MSK).

Definition stm32f2_setup_alarm (alarm : bool) (mday wday hour min sec : Z) (r : stm32f2_rtc_regs) :
    result stm32f2_rtc_regs :=
  let enable_msk := if alarm then STM32F2_RTC_CR_ALRBE_MSK else STM32F2_RTC_CR_ALRAE_MSK in
  let r := stm32f2_rtc_write_enable true r in
  let r := set_cr r (cr r .& .~ enable_msk) in
  let* _ := wait ready fuel 0 in
  let r := set_alrmr r alarm (alarm_value mday wday hour min sec) in
  let r := set_cr r (cr r .| enable_msk) in
  Ok (stm32f2_rtc_write_enable false r).

Definition stm32f2_rtc_update_irq_enable (enabled : bool) (s : rtc) : result (Z * rtc) :=
  if enabled then
    let* r := stm32f2_setup_alarm true (-1) (-1) (-1) (-1) (-1) (regs s) in
    Ok (0, set_regs s (stm32f2_alarm_irq_enable true true r))
  else
    let r := stm32f2_alarm_irq_enable true false (regs s) in
    let r := stm32f2_rtc_write_enable true r in
    let r := set_cr r (cr r .& .~ STM32F2_RTC_CR_ALRBE_MSK) in
    let r := stm32f2_rtc_write_enable false r in
    Ok (0, {| regs := r; exti := stm32_exti_clear_pending w1c STM32F2_EXTI_LINE_RTC_ALARM (exti s);
              events := events s |}).

Definition stm32f2_rtc_read_time (tm : rtc_time) (r : stm32f2_rtc_regs) : Z * rtc_time :=
  (0, {| tm_sec := bcd2bin ((tr r .& STM32F2_RTC_TR_SEC_MSK) .>> STM32F2_RTC_TR_SEC_BITS);
         tm_min := bcd2bin ((tr r .& STM32F2_RTC_TR_MIN_MSK) .>> STM32F2_RTC_TR_MIN_BITS);
         tm_hour := bcd2bin ((tr r .& STM32F2_RTC_TR_HOUR_MSK) .>> STM32F2_RTC_TR_HOUR_BITS);
         tm_mday := bcd2bin ((dr r .& STM32F2_RTC_DR_MDAY_MSK) .>> STM32F2_RTC_DR_MDAY_BITS);
         tm_mon := bcd2bin ((dr r .& STM32F2_RTC_DR_MON_MSK) .>> STM32F2_RTC_DR_MON_BITS) - 1;
         tm_year := bcd2bin ((dr r .& STM32F2_RTC_DR_YEAR_MSK) .>> STM32F2_RTC_DR_YEAR_BITS) + 100;
         tm_wday := ((dr r .& STM32F2_RTC_DR_WDAY_MSK) .>> STM32F2_RTC_DR_WDAY_BITS) mod 7;
         tm_yday := tm_yday tm; tm_isdst := tm_isdst tm |}).

Definition time_value (tr : Z) (tm : rtc_time) : Z :=
  (tr .& .~ (STM32F2_RTC_TR_SEC_MSK .| STM32F2_RTC_TR_MIN_MSK .| STM32F2_RTC_TR_HOUR_MSK))
  .| ((bin2bcd (u32 (tm_sec tm)) .<< STM32F2_RTC_TR_SEC_BITS) .& STM32F2_RTC_TR_SEC_MSK)
  .| ((bin2bcd (u32 (tm_min tm)) .<< STM32F2_RTC_TR_MIN_BITS) .& STM32F2_RTC_TR_MIN_MSK)
  .| ((bin2bcd (u32 (tm_hour tm)) .<< STM32F2_RTC_TR_HOUR_BITS) .& STM32F2_RTC_TR_HOUR_MSK).

Definition date_value (dr : Z) (tm : rtc_time) : Z :=
  (dr .& .~ (STM32F2_RTC_DR_MDAY_MSK .| STM32F2_RTC_DR_MON_MSK
             .| STM32F2_RTC_DR_YEAR_MSK .| STM32F2_RTC_DR_WDAY_MSK))
  .| ((bin2bcd (u32 (tm_mday tm)) .<< STM32F2_RTC_DR_MDAY_BITS) .& STM32F2_RTC_DR_MDAY_MSK)
  .| ((bin2bcd (u32 (tm_mon tm + 1)) .<< STM32F2_RTC_DR_MON_BITS) .& STM32F2_RTC_DR_MON_MSK)
  .| ((bin2bcd (u32 (Z.rem (tm_year tm) 100)) .<< STM32F2_RTC_DR_YEAR_BITS) .& STM32F2_RTC_DR_YEAR_MSK)
  .| (((if tm_wday tm =? 0 then 7 else tm_wday tm) .<< STM32F2_RTC_DR_WDAY_BITS)
      .& STM32F2_RTC_DR_WDAY_MSK).

Definition stm32f2_rtc_set_time (tm : rtc_time) (r : stm32f2_rtc_regs) :
    result (Z * stm32f2_rtc_regs) :=
  let r := stm32f2_rtc_write_enable true r in
  let* r := stm32f2_rtc_enable_init_mode true r in
  let r := set_tr_dr r (time_value (tr r) tm) (date_value (dr r) tm) in
  let* r := stm32f2_rtc_enable_init_mode false r in
  Ok (0, stm32f2_rtc_write_enable false r).

Record rtc_wkalrm := { enabled : Z; pending : Z; time : rtc_time }.

Definition stm32f2_rtc_read_alarm (alrm : rtc_wkalrm) (r : stm32f2_rtc_regs) : Z * rtc_wkalrm :=
  let reg := alrmar r in
  let '(mday, wday) :=
    if negb ((reg .& STM32F2_RTC_ALRMR_DATEMASK_MSK) =? 0) then (-1, -1)
    else if negb ((reg .& STM32F2_RTC_ALRMR_WDSEL_MSK) =? 0)
    then (-1, ((reg .& STM32F2_RTC_ALRMR_WDAY_MSK) .>> STM32F2_RTC_ALRMR_DAY_BITS) mod 7)
    else (bcd2bin ((reg .& STM32F2_RTC_ALRMR_MDAY_MSK) .>> STM32F2_RTC_ALRMR_DAY_BITS), -1) in
  let hour := if negb ((reg .& STM32F2_RTC_ALRMR_HOURMASK_MSK) =? 0) then -1
    else bcd2bin ((reg .& STM32F2_RTC_ALRMR_HOUR_MSK) .>> STM32F2_RTC_ALRMR_HOUR_BITS) in
  let min := if negb ((reg .& STM32F2_RTC_ALRMR_MINMASK_MSK) =? 0) then -1
    else bcd2bin ((reg .& STM32F2_RTC_ALRMR_MIN_MSK) .>> STM32F2_RTC_ALRMR_MIN_BITS) in
  let sec := if negb ((reg .& STM32F2_RTC_ALRMR_SECMASK_MSK) =? 0) then -1
    else bcd2bin ((reg .& STM32F2_RTC_ALRMR_SEC_MSK) .>> STM32F2_RTC_ALRMR_SEC_BITS) in
  (0, {| enabled := Z.b2z (negb ((cr r .& STM32F2_RTC_CR_ALRAE_MSK) =? 0));
         pending := Z.b2z (negb ((isr r .& STM32F2_RTC_ISR_ALRAF_MSK) =? 0));
         time := {| tm_sec := sec; tm_min := min; tm_hour := hour; tm_mday := mday; tm_mon := -1;
                    tm_year := -1; tm_wday := wday; tm_yday := tm_yday (time alrm);
                    tm_isdst := tm_isdst (time alrm) |} |}).

Definition stm32f2_rtc_set_alarm (alrm : rtc_wkalrm) (r : stm32f2_rtc_regs) :
    result (Z * stm32f2_rtc_regs) :=
  let tm := time alrm in
  let* v := rtc_valid_tm tm in
  if negb (v =? 0) then Ok (- EINVAL, r)
  else
    let* r := stm32f2_setup_alarm false (tm_mday tm) (tm_wday tm) (tm_hour tm) (tm_min tm)
                (tm_sec tm) r in
    Ok (0, if negb (enabled alrm =? 0) then stm32f2_alarm_irq_enable false true r else r).

End Ops.

(** ** Register fields and decimal digits *)

Lemma mask_read x s w m :
  0 <= s -> 0 <= w -> s + w <= 32 -> m = Z.ones w -> (x .& (m .<< s)) .>> s = field x s w.
Proof.
  intros Hs Hw Hsw ->. apply Z.bits_inj'. intros i Hi.
  rewrite field_bits, testbit_shr, Z.land_spec, testbit_shl32 by lia.
  replace (i + s - s) with i by lia. rewrite Z.testbit_ones by lia. zcrush.
Qed.

Lemma field_mask_out r M s w :
  0 <= s -> 0 <= w -> field M s w = 0 -> field (r .& M) s w = 0.
Proof.
  intros Hs Hw HM. apply Z.bits_inj'. intros i Hi. rewrite field_bits, Z.land_spec, Z.bits_0 by lia.
  apply (f_equal (fun z => Z.testbit z i)) in HM. rewrite field_bits, Z.bits_0 in HM by lia.
  destruct (i <? w); [|reflexivity]. cbn [andb] in *. rewrite HM. apply andb_false_r.
Qed.

Lemma mask_write v s w m :
  0 <= s -> 0 <= w -> s + w <= 32 -> m = Z.ones w -> fits w v -> (v .<< s) .& (m .<< s) = v .<< s.
Proof.
  intros Hs Hw Hsw -> Hv. apply Z.bits_inj'. intros i Hi.
  rewrite Z.land_spec, !testbit_shl32 by lia. destruct (Z.ltb_spec i s).
  { rewrite (testbit_neg v) by lia. zcrush. }
  rewrite Z.testbit_ones by lia. destruct (Z.ltb_spec (i - s) w).
  - zcrush.
  - rewrite (fits_testbit_high w v) by (auto; lia). zcrush.
Qed.

Lemma bcd_all :
  Forall (fun v => bcd2bin (bin2bcd v) = v /\ fits 8 (bin2bcd v)
                   /\ (v < 80 -> fits 7 (bin2bcd v)) /\ (v < 40 -> fits 6 (bin2bcd v))
                   /\ (v < 20 -> fits 5 (bin2bcd v))) (seqZ 0 100).
Proof. apply (bool_decide_unpack _). vm_compute. exact I. Qed.

Lemma bcd_spec v : 0 <= v < 100 ->
  bcd2bin (bin2bcd v) = v /\ fits 8 (bin2bcd v)
  /\ (v < 80 -> fits 7 (bin2bcd v)) /\ (v < 40 -> fits 6 (bin2bcd v)) /\ (v < 20 -> fits 5 (bin2bcd v)).
Proof. intros H. apply (proj1 (Forall_forall _ _) bcd_all v). apply elem_of_seqZ. lia. Qed.

Lemma bcd2bin_bin2bcd v : 0 <= v < 100 -> bcd2bin (bin2bcd v) = v.
Proof. apply bcd_spec. Qed.

Lemma wait_ok ready fuel i :
  (exists k, (i <= k < i + fuel)%nat /\ ready k = true) -> wait ready fuel i = Ok tt.
Proof.
  revert i. induction fuel as [|fuel IH]; intros i (k & Hk & E); [lia|]. cbn [wait].
  destruct (ready i) eqn:Ei; [reflexivity|]. apply IH. exists k. split; [|exact E].
  assert (k <> i) by congruence. lia.
Qed.

(** The times the driver can be given. *)
Record tm_ok (tm : rtc_time) : Prop := {
  ok_sec : 0 <= tm_sec tm < 60; ok_min : 0 <= tm_min tm < 60; ok_hour : 0 <= tm_hour tm < 24;
  ok_mday : 1 <= tm_mday tm <= 31; ok_mon : 0 <= tm_mon tm <= 11; ok_year : 0 <= tm_year tm;
  ok_wday : 0 <= tm_wday tm <= 6
}.

Lemma time_value_fields t tm :
  tm_ok tm ->
  field (time_value t tm) 0 7 = bin2bcd (tm_sec tm) /\ field (time_value t tm) 8 7 = bin2bcd (tm_min tm)
  /\ field (time_value t tm) 16 6 = bin2bcd (tm_hour tm).
Proof.
  intros []. unfold time_value, STM32F2_RTC_TR_SEC_BITS, STM32F2_RTC_TR_MIN_BITS, STM32F2_RTC_TR_HOUR_BITS,
    STM32F2_RTC_TR_SEC_MSK, STM32F2_RTC_TR_MIN_MSK, STM32F2_RTC_TR_HOUR_MSK.
  rewrite (u32_id (tm_sec tm)), (u32_id (tm_min tm)), (u32_id (tm_hour tm)) by (split; lia).
  destruct (bcd_spec (tm_sec tm)) as (_ & _ & Fs & _); [lia|].
  destruct (bcd_spec (tm_min tm)) as (_ & _ & Fm & _); [lia|].
  destruct (bcd_spec (tm_hour tm)) as (_ & _ & _ & Fh & _); [lia|].
  specialize (Fs ltac:(lia)). specialize (Fm ltac:(lia)). specialize (Fh ltac:(lia)).
  rewrite (mask_write _ _ 7) by (lia || reflexivity || assumption).
  rewrite (mask_write _ _ 7) by (lia || reflexivity || assumption).
  rewrite (mask_write _ _ 6) by (lia || reflexivity || assumption).
  repeat split; field_expr; reflexivity.
Qed.

Lemma date_value_fields t tm :
  tm_ok tm ->
  field (date_value t tm) 0 6 = bin2bcd (tm_mday tm) /\ field (date_value t tm) 8 5 = bin2bcd (tm_mon tm + 1)
  /\ field (date_value t tm) 16 8 = bin2bcd (tm_year tm mod 100)
  /\ field (date_value t tm) 13 3 = (if tm_wday tm =? 0 then 7 else tm_wday tm).
Proof.
  intros []. unfold date_value, STM32F2_RTC_DR_MDAY_BITS, STM32F2_RTC_DR_MON_BITS, STM32F2_RTC_DR_YEAR_BITS,
    STM32F2_RTC_DR_WDAY_BITS, STM32F2_RTC_DR_MDAY_MSK, STM32F2_RTC_DR_MON_MSK, STM32F2_RTC_DR_YEAR_MSK,
    STM32F2_RTC_DR_WDAY_MSK.
  rewrite Z.rem_mod_nonneg by lia.
  rewrite (u32_id (tm_mday tm)), (u32_id (tm_mon tm + 1)), (u32_id (tm_year tm mod 100)) by (split; zdiv).
  destruct (bcd_spec (tm_mday tm)) as (_ & _ & _ & Fd & _); [lia|].
  destruct (bcd_spec (tm_mon tm + 1)) as (_ & _ & _ & _ & Fm); [lia|].
  destruct (bcd_spec (tm_year tm mod 100)) as (_ & Fy & _); [zdiv|].
  specialize (Fd ltac:(lia)). specialize (Fm ltac:(lia)).
  assert (Fw : fits 3 (if tm_wday tm =? 0 then 7 else tm_wday tm)) by (case_match; split; lia).
  rewrite (mask_write _ _ 6) by (lia || reflexivity || assumption).
  rewrite (mask_write _ _ 5) by (lia || reflexivity || assumption).
  rewrite (mask_write _ _ 8) by (lia || reflexivity || assumption).
  rewrite (mask_write _ _ 3) by (lia || reflexivity || assumption).
  repeat split; field_expr; reflexivity.
Qed.

(** [stm32f2_rtc_read_time] in terms of register fields. *)
Lemma read_time_fields tm r :
  stm32f2_rtc_read_time tm r =
  (0, {| tm_sec := bcd2bin (field (tr r) 0 7); tm_min := bcd2bin (field (tr r) 8 7);
         tm_hour := bcd2bin (field (tr r) 16 6); tm_mday := bcd2bin (field (dr r) 0 6);
         tm_mon := bcd2bin (field (dr r) 8 5) - 1; tm_year := bcd2bin (field (dr r) 16 8) + 100;
         tm_wday := field (dr r) 13 3 mod 7; tm_yday := tm_yday tm; tm_isdst := tm_isdst tm |}).
Proof.
  unfold stm32f2_rtc_read_time. repeat f_equal; (apply mask_read; lia || reflexivity).
Qed.

Section Theorems.

Context (w1c isr_w : Z -> Z -> Z) `{!W1C w1c} `{!IsrHw isr_w} (ready : nat -> bool) (fuel : nat).

Context (Hready : exists k, (k < fuel)%nat /\ ready k = true).

Local Abbreviation set_time := (stm32f2_rtc_set_time isr_w ready fuel).
Local Abbreviation set_alarm := (stm32f2_rtc_set_alarm isr_w ready fuel).

Lemma wait_ready : wait ready fuel 0 = Ok tt.
Proof. apply wait_ok. destruct Hready as (k & ? & ?). exists k. split; [lia|assumption]. Qed.

(** What [stm32f2_rtc_set_time] leaves in the registers. *)
Lemma set_time_regs tm r :
  exists r', set_time tm r = Ok (0, r')
  /\ tr r' = time_value (tr r) tm /\ dr r' = date_value (dr r) tm
  /\ cr r' = cr r /\ wutr r' = wutr r /\ alrmar r' = alrmar r /\ alrmbr r' = alrmbr r /\ wpr r' = 0xff
  /\ isr r' = let i := if (isr r .& STM32F2_RTC_ISR_INITF_MSK) =? 0
                       then isr_w (isr r) STM32F2_RTC_ISR_INIT_MSK .| STM32F2_RTC_ISR_INITF_MSK
                       else isr r in
              isr_w i (i .& .~ STM32F2_RTC_ISR_INIT_MSK).
Proof.
  unfold stm32f2_rtc_set_time, stm32f2_rtc_enable_init_mode. cbn [stm32f2_rtc_write_enable]. rtc_simpl.
  destruct ((isr r .& STM32F2_RTC_ISR_INITF_MSK) =? 0).
  - rewrite wait_ready. cbn [rbind]. eexists. split; [reflexivity|]. repeat split.
  - cbn [rbind]. eexists. split; [reflexivity|]. repeat split.
Qed.

(** *** Alarms *)

Lemma bit_test r n : 0 <= n < 32 -> negb ((r .& BIT n) =? 0) = Z.testbit r n.
Proof. apply bit_set_testbit. Qed.

(** The value of a one-bit register field decides the test of its mask. *)
Lemma field_bit_test r n : 0 <= n < 32 -> negb ((r .& BIT n) =? 0) = negb (field r n 1 =? 0).
Proof. intros. rewrite bit_test, field_1 by lia. now destruct (Z.testbit r n). Qed.

Lemma alarm_value_fields mday wday hour min sec :
  1 <= mday <= 31 -> 0 <= hour < 24 -> 0 <= min < 60 -> 0 <= sec < 60 ->
  let v := alarm_value mday wday hour min sec in
  field v 24 6 = bin2bcd mday /\ field v 16 6 = bin2bcd hour /\ field v 8 7 = bin2bcd min
  /\ field v 0 7 = bin2bcd sec /\ field v 31 1 = 0 /\ field v 30 1 = 0 /\ field v 23 1 = 0
  /\ field v 15 1 = 0 /\ field v 7 1 = 0.
Proof.
  intros Hd Hh Hm Hs. unfold alarm_value, STM32F2_RTC_ALRMR_DAY_BITS, STM32F2_RTC_ALRMR_HOUR_BITS,
    STM32F2_RTC_ALRMR_MIN_BITS, STM32F2_RTC_ALRMR_SEC_BITS, STM32F2_RTC_ALRMR_MDAY_MSK,
    STM32F2_RTC_ALRMR_HOUR_MSK, STM32F2_RTC_ALRMR_MIN_MSK, STM32F2_RTC_ALRMR_SEC_MSK.
  destruct (Z.ltb_spec mday 0); [lia|]. destruct (Z.ltb_spec 0 mday); [|lia].
  destruct (Z.leb_spec 0 hour); [|lia]. destruct (Z.leb_spec 0 min); [|lia].
  destruct (Z.leb_spec 0 sec); [|lia]. cbn [andb].
  rewrite (u32_id mday), (u32_id hour), (u32_id min), (u32_id sec) by (split; lia).
  destruct (bcd_spec mday) as (_ & _ & _ & Fd & _); [lia|]. destruct (bcd_spec hour) as (_ & _ & _ & Fh & _); [lia|].
  destruct (bcd_spec min) as (_ & _ & Fm & _); [lia|]. destruct (bcd_spec sec) as (_ & _ & Fs & _); [lia|].
  specialize (Fd ltac:(lia)). specialize (Fh ltac:(lia)). specialize (Fm ltac:(lia)). specialize (Fs ltac:(lia)).
  rewrite (mask_write (bin2bcd mday) 24 6), (mask_write (bin2bcd hour) 16 6), (mask_write (bin2bcd min) 8 7),
    (mask_write (bin2bcd sec) 0 7) by (lia || reflexivity || assumption).
  rewrite Z.lor_0_l. repeat split; field_expr; reflexivity.
Qed.

(** [stm32f2_rtc_read_alarm] of a register without "don't care" bits that selects a
    date. *)
Lemma read_alarm_fields alrm r :
  field (alrmar r) 31 1 = 0 -> field (alrmar r) 30 1 = 0 -> field (alrmar r) 23 1 = 0 ->
  field (alrmar r) 15 1 = 0 -> field (alrmar r) 7 1 = 0 ->
  stm32f2_rtc_read_alarm alrm r =
  (0, {| enabled := Z.b2z (Z.testbit (cr r) 8); pending := Z.b2z (Z.testbit (isr r) 8);
         time := {| tm_sec := bcd2bin (field (alrmar r) 0 7); tm_min := bcd2bin (field (alrmar r) 8 7);
                    tm_hour := bcd2bin (field (alrmar r) 16 6); tm_mday := bcd2bin (field (alrmar r) 24 6);
                    tm_mon := -1; tm_year := -1; tm_wday := -1; tm_yday := tm_yday (time alrm);
                    tm_isdst := tm_isdst (time alrm) |} |}).
Proof.
  intros H31 H30 H23 H15 H7. unfold stm32f2_rtc_read_alarm, STM32F2_RTC_ALRMR_DATEMASK_MSK,
    STM32F2_RTC_ALRMR_WDSEL_MSK, STM32F2_RTC_ALRMR_HOURMASK_MSK, STM32F2_RTC_ALRMR_MINMASK_MSK,
    STM32F2_RTC_ALRMR_SECMASK_MSK, STM32F2_RTC_CR_ALRAE_MSK, STM32F2_RTC_ISR_ALRAF_MSK.
  rewrite !(field_bit_test (alrmar r)) by lia. rewrite H31, H30, H23, H15, H7. cbn [Z.eqb negb].
  rewrite !bit_test by lia. repeat f_equal; (apply mask_read; lia || reflexivity).
Qed.

(** What [stm32f2_setup_alarm] leaves in the registers, for Alarm A. *)
Lemma setup_alarm_regs mday wday hour min sec r :
  stm32f2_setup_alarm ready fuel false mday wday hour min sec r =
  Ok {| tr := tr r; dr := dr r;
        cr := (cr r .& .~ STM32F2_RTC_CR_ALRAE_MSK) .| STM32F2_RTC_CR_ALRAE_MSK; isr := isr r;
        wutr := wutr r; alrmar := alarm_value mday wday hour min sec; alrmbr := alrmbr r; wpr := 0xff |}.
Proof. unfold stm32f2_setup_alarm. rewrite wait_ready. reflexivity. Qed.

Lemma isr_w_u32 old v : is_u32 old -> is_u32 v -> is_u32 (isr_w old v).
Proof.
  intros Ho Hv. replace (isr_w old v) with (u32 (isr_w old v)); [apply u32_range|].
  apply Z.bits_inj'. intros i Hi. rewrite testbit_u32. destruct (Z.ltb_spec i 32); [reflexivity|].
  rewrite (isr_w_spec (isr_w:=isr_w)) by (assumption || lia). unfold isr_event.
  rewrite (u32_testbit_high old i) by (assumption || lia). zcrush.
Qed.

(** Events after a read-modify-write of RTC_ISR that clears the mask [m]. *)
Lemma isr_clear_spec r m i :
  is_u32 (isr r) -> is_u32 m -> 0 <= i -> isr_event i = true ->
  Z.testbit (isr (write_isr isr_w r (isr r .& .~ m))) i = Z.testbit (isr r) i && negb (Z.testbit m i).
Proof.
  intros Hr Hm Hi He. unfold write_isr. rtc_simpl. rewrite (isr_w_spec (isr_w:=isr_w)), He by auto with u32.
  rewrite Z.land_spec, testbit_not32. unfold isr_event in He. destruct (Z.testbit (isr r) i); cbn; [|reflexivity].
  destruct (Z.ltb_spec i 32); [zcrush|]. destruct (Z.eqb_spec i 5), (Z.leb_spec i 15); cbn in He; try lia;
    rewrite andb_false_r in He; discriminate.
Qed.

(** What [stm32f2_alarm_irq_enable] does to the control register and the events. *)
Lemma alarm_irq_enable_spec alarm enable r i :
  is_u32 (isr r) -> is_u32 (cr r) -> 0 <= i ->
  let r' := stm32f2_alarm_irq_enable isr_w alarm enable r in
  let ie := if alarm then 13 else 12 in
  Z.testbit (cr r') i = (if i =? ie then enable else Z.testbit (cr r) i)
  /\ (isr_event i = true -> Z.testbit (isr r') i =
        Z.testbit (isr r) i && (if alarm then negb (i =? 9) else i =? 8)).
Proof.
  intros Hi Hc H0 r' ie. unfold r', ie, stm32f2_alarm_irq_enable. cbn [stm32f2_rtc_write_enable]. split.
  - unfold write_isr. rtc_simpl. unfold STM32F2_RTC_CR_ALRBIE_MSK, STM32F2_RTC_CR_ALRAIE_MSK.
    destruct alarm, enable; rewrite ?set_bit_spec, ?clear_bit_spec by (assumption || lia); zcrush.
  - intros He. unfold write_isr. rtc_simpl.
    unfold STM32F2_RTC_ISR_ALRBF_MSK, STM32F2_RTC_ISR_ALRAF_MSK.
    rewrite (isr_w_spec (isr_w:=isr_w)), He by (destruct alarm; auto 8 with u32).
    rewrite Z.land_spec, testbit_not32. unfold isr_event in He.
    assert (i < 32) by (destruct (Z.eqb_spec i 5), (Z.leb_spec 8 i), (Z.leb_spec i 15); cbn in He; lia || discriminate).
    destruct alarm; rewrite ?testbit_not32, testbit_BIT by lia; destruct (Z.testbit (isr r) i); zcrush.
Qed.

(** The registers at the end of [stm32f2_rtc_set_alarm]. *)
Lemma set_alarm_final (en : bool) ra r :
  cr ra = (cr r .& .~ STM32F2_RTC_CR_ALRAE_MSK) .| STM32F2_RTC_CR_ALRAE_MSK -> isr ra = isr r ->
  tr ra = tr r /\ dr ra = dr r /\ alrmbr ra = alrmbr r /\ wutr ra = wutr r /\ wpr ra = 0xff ->
  is_u32 (isr r) -> is_u32 (cr r) ->
  let r' := if en then stm32f2_alarm_irq_enable isr_w false true ra else ra in
  alrmar r' = alrmar ra /\ Z.testbit (cr r') 8 = true /\ Z.testbit (isr r') 8 = Z.testbit (isr r) 8
  /\ Z.testbit (cr r') 12 = (Z.testbit (cr r) 12 || en)
  /\ tr r' = tr r /\ dr r' = dr r /\ alrmbr r' = alrmbr r /\ wutr r' = wutr r /\ wpr r' = 0xff.
Proof.
  intros Ec Ei Hrest Hi Hc. unfold STM32F2_RTC_CR_ALRAE_MSK in Ec.
  assert (Hu : is_u32 (cr ra)) by (rewrite Ec; auto 6 with u32).
  assert (Hbit : forall i, 0 <= i -> Z.testbit (cr ra) i = (i =? 8) || Z.testbit (cr r) i).
  { intros i H0. rewrite Ec, set_bit_spec, clear_bit_spec by (assumption || lia). zcrush. }
  destruct en; cbv zeta.
  - rewrite <- Ei in Hi.
    destruct (alarm_irq_enable_spec false true ra 8 Hi Hu) as [C8 I8]; [lia|].
    destruct (alarm_irq_enable_spec false true ra 12 Hi Hu) as [C12 _]; [lia|].
    split; [reflexivity|]. rewrite C8, C12, I8, Ei, Hbit by (lia || reflexivity).
    rewrite orb_true_r, andb_true_r. repeat split; apply Hrest.
  - rewrite !Hbit, Ei, orb_false_r by lia. split; [reflexivity|]. repeat split; apply Hrest.
Qed.

(** Setting an alarm for a valid time and reading it back gives the day of the
    month, hour, minute and second (the RTC compares neither month nor year: they
    read as -1), keeps the pending flag, the time, Alarm B and the wakeup timer,
    and turns the alarm interrupt on when asked to; the alarm then always reads as
    enabled, also when it was set with [enabled] = 0.  An invalid time is refused
    with -EINVAL and changes nothing. *)
Theorem rtc_alarm_roundtrip alrm alrm0 r :
  tm_int (time alrm) -> is_u32 (isr r) -> is_u32 (cr r) ->
  (rtc_valid_tm (time alrm) = Ok 0 ->
   exists r', set_alarm alrm r = Ok (0, r')
   /\ stm32f2_rtc_read_alarm alrm0 r' =
      (0, {| enabled := 1; pending := Z.b2z (Z.testbit (isr r) 8);
             time := {| tm_sec := tm_sec (time alrm); tm_min := tm_min (time alrm);
                        tm_hour := tm_hour (time alrm); tm_mday := tm_mday (time alrm);
                        tm_mon := -1; tm_year := -1; tm_wday := -1;
                        tm_yday := tm_yday (time alrm0); tm_isdst := tm_isdst (time alrm0) |} |})
   /\ Z.testbit (cr r') 12 = (Z.testbit (cr r) 12 || negb (enabled alrm =? 0))
   /\ tr r' = tr r /\ dr r' = dr r /\ alrmbr r' = alrmbr r /\ wutr r' = wutr r /\ wpr r' = 0xff)
  /\ (rtc_valid_tm (time alrm) <> Ok 0 -> set_alarm alrm r = Ok (- EINVAL, r)).
Proof.
  intros Hint Hi Hc. split.
  - intros Hv. unfold stm32f2_rtc_set_alarm. rewrite Hv. cbn [rbind Z.eqb negb].
    apply (valid_tm_spec _ Hint) in Hv as (_ & Hmo & Hd & Hh & Hm & Hs).
    pose proof (month_length_max (tm_year (time alrm) + 1900) (tm_mon (time alrm)) Hmo).
    rewrite setup_alarm_regs. cbn [rbind].
    destruct (alarm_value_fields (tm_mday (time alrm)) (tm_wday (time alrm)) (tm_hour (time alrm))
                (tm_min (time alrm)) (tm_sec (time alrm))) as (Fd & Fh & Fm & Fs & F31 & F30 & F23 & F15 & F7); [lia..|].
    match goal with |- context [Ok (0, if _ then _ ?x else ?x)] => set (ra := x) end.
    destruct (set_alarm_final (negb (enabled alrm =? 0)) ra r) as (A1 & A2 & A3 & A4 & A5); [done..|].
    eexists. split; [reflexivity|]. split; [|exact (conj A4 A5)].
    rewrite read_alarm_fields by (rewrite A1; assumption). rewrite A1, A2, A3.
    change (alrmar ra) with (alarm_value (tm_mday (time alrm)) (tm_wday (time alrm)) (tm_hour (time alrm))
                (tm_min (time alrm)) (tm_sec (time alrm))).
    rewrite Fd, Fh, Fm, Fs, !bcd2bin_bin2bcd by lia. reflexivity.
  - intros Hv. destruct (valid_tm_total _ Hint) as [E|E]; [contradiction|].
    unfold stm32f2_rtc_set_alarm. rewrite E. reflexivity.
Qed.

(** Enabling or disabling the Alarm A interrupt does not clear the alarm's own
    event flag but the flags of every other event (Alarm B and the wakeup timer
    among them); for Alarm B it is the other way round, as the comment in the code
    says. *)
Theorem rtc_alarm_irq_enable_flags enable r :
  is_u32 (isr r) -> is_u32 (cr r) ->
  (let r' := stm32f2_alarm_irq_enable isr_w false enable r in
   Z.testbit (cr r') 12 = enable /\ Z.testbit (isr r') 8 = Z.testbit (isr r) 8
   /\ forall i, 0 <= i -> isr_event i = true -> i <> 8 -> Z.testbit (isr r') i = false)
  /\ (let r' := stm32f2_alarm_irq_enable isr_w true enable r in
      Z.testbit (cr r') 13 = enable /\ Z.testbit (isr r') 9 = false
      /\ forall i, 0 <= i -> isr_event i = true -> i <> 9 -> Z.testbit (isr r') i = Z.testbit (isr r) i).
Proof.
  intros Hi Hc. split; cbv zeta.
  - destruct (alarm_irq_enable_spec false enable r 12 Hi Hc) as [E _]; [lia|].
    destruct (alarm_irq_enable_spec false enable r 8 Hi Hc) as [_ E8]; [lia|].
    split; [exact E|]. split; [rewrite E8 by reflexivity; apply andb_true_r|].
    intros i H0 He Hn. destruct (alarm_irq_enable_spec false enable r i Hi Hc H0) as [_ ->]; [|exact He].
    destruct (Z.eqb_spec i 8); [contradiction|]. apply andb_false_r.
  - destruct (alarm_irq_enable_spec true enable r 13 Hi Hc) as [E _]; [lia|].
    destruct (alarm_irq_enable_spec true enable r 9 Hi Hc) as [_ E9]; [lia|].
    split; [exact E|]. split; [rewrite E9 by reflexivity; apply andb_false_r|].
    intros i H0 He Hn. destruct (alarm_irq_enable_spec true enable r i Hi Hc H0) as [_ ->]; [|exact He].
    destruct (Z.eqb_spec i 9); [contradiction|]. apply andb_true_r.
Qed.

(** Entering the initialisation mode clears every pending event: an alarm or
    wakeup that fires just before the time is set is lost. *)
Theorem rtc_set_time_drops_events tm r i :
  is_u32 (isr r) -> Z.testbit (isr r) 6 = false -> 0 <= i -> isr_event i = true ->
  exists r', set_time tm r = Ok (0, r') /\ Z.testbit (isr r') i = false.
Proof.
  intros Hi H6 H0 He. destruct (set_time_regs tm r) as (r' & E & _ & _ & _ & _ & _ & _ & _ & Er).
  exists r'. split; [exact E|]. rewrite Er. cbv zeta.
  assert ((isr r .& STM32F2_RTC_ISR_INITF_MSK =? 0) = true) as ->.
  { pose proof (bit_test (isr r) 6 ltac:(lia)) as Hb. rewrite H6 in Hb.
    destruct (isr r .& BIT 6 =? 0) eqn:Ez; [exact Ez|discriminate]. }
  set (i1 := isr_w (isr r) STM32F2_RTC_ISR_INIT_MSK .| STM32F2_RTC_ISR_INITF_MSK).
  assert (Hu : is_u32 (isr_w (isr r) STM32F2_RTC_ISR_INIT_MSK)) by (apply isr_w_u32; (exact Hi || apply BIT_u32)).
  unfold STM32F2_RTC_ISR_INITF_MSK, STM32F2_RTC_ISR_INIT_MSK in *.
  assert (Hu1 : is_u32 i1) by (apply lor_u32; auto with u32).
  rewrite (isr_w_spec (isr_w:=isr_w)), He by auto with u32.
  replace (Z.testbit i1 i) with false; [reflexivity|]. symmetry. unfold i1.
  rewrite set_bit_spec, (isr_w_spec (isr_w:=isr_w)), He, testbit_BIT by (assumption || apply BIT_u32 || lia).
  unfold isr_event in He. zcrush.
Qed.

(** C40: Setting the time and reading it back gives the same second, minute, hour,
    day, month and day of the week, and the same year when it is from 2000 to
    2099; another year comes back in that century with the same last two digits.
    The fields of the time are in their ranges, the initialisation flag comes within the
    polls.  The alarm registers, the wakeup timer and the control register are not touched
    and the registers are write-protected again; the status register does change: unless
    the clock is already in the initialisation mode, entering it clears every pending
    event flag (alarms, wakeup, time stamp, tamper). *)
Theorem rtc_set_read_roundtrip tm tm0 r :
  tm_ok tm ->
  exists r', set_time tm r = Ok (0, r')
  /\ stm32f2_rtc_read_time tm0 r' =
     (0, {| tm_sec := tm_sec tm; tm_min := tm_min tm; tm_hour := tm_hour tm; tm_mday := tm_mday tm;
            tm_mon := tm_mon tm; tm_year := tm_year tm mod 100 + 100; tm_wday := tm_wday tm;
            tm_yday := tm_yday tm0; tm_isdst := tm_isdst tm0 |})
  /\ (100 <= tm_year tm <= 199 -> tm_year tm mod 100 + 100 = tm_year tm)
  /\ cr r' = cr r /\ wutr r' = wutr r /\ alrmar r' = alrmar r /\ alrmbr r' = alrmbr r /\ wpr r' = 0xff
  /\ (is_u32 (isr r) -> Z.testbit (isr r) 6 = false ->
      forall i, 0 <= i -> isr_event i = true -> Z.testbit (isr r') i = false).
Proof.
  intros Hok. destruct (set_time_regs tm r) as (r' & E & Et & Ed & E1 & E2 & E3 & E4 & E5 & _).
  exists r'. split; [exact E|]. split.
  - rewrite read_time_fields, Et, Ed.
    destruct (time_value_fields (tr r) tm Hok) as (-> & -> & ->).
    destruct (date_value_fields (dr r) tm Hok) as (-> & -> & -> & ->).
    destruct Hok. rewrite !bcd2bin_bin2bcd by (lia || zdiv). repeat f_equal; [lia|].
    destruct (Z.eqb_spec (tm_wday tm) 0) as [->|]; [reflexivity|]. apply Z.mod_small. lia.
  - split; [intros; zdiv|]. do 5 (split; [assumption|]). intros Hi H6 i H0 He.
    destruct (rtc_set_time_drops_events tm r i Hi H6 H0 He) as (r2 & E6 & H). congruence.
Qed.

(** The periodic interrupt rate: a frequency outside 1..8192 Hz is refused with
    -EINVAL and changes nothing; otherwise the wakeup counter gets a non-zero
    16-bit load value [n] with the clock RTCCLK/2 = 16384 Hz selected, such that
    the rate 16384 / (n + 1) is exactly [freq] when [freq] divides 16384, and in
    general [n + 1] is the longest period not longer than 1 / [freq]; the timer
    stays enabled or disabled as it was. *)
Theorem rtc_set_freq_rate freq r :
  is_u32 (cr r) ->
  (~ 1 <= freq <= 8192 -> stm32f2_rtc_irq_set_freq ready fuel freq r = Ok (- EINVAL, r))
  /\ (1 <= freq <= 8192 ->
      exists r', stm32f2_rtc_irq_set_freq ready fuel freq r = Ok (0, r')
      /\ 1 <= wutr r' < 65536
      /\ (wutr r' + 1) * freq <= 16384 < (wutr r' + 2) * freq
      /\ (16384 mod freq = 0 -> (wutr r' + 1) * freq = 16384)
      /\ field (cr r') 0 3 = 3 /\ Z.testbit (cr r') 10 = Z.testbit (cr r) 10
      /\ tr r' = tr r /\ dr r' = dr r /\ isr r' = isr r /\ alrmar r' = alrmar r /\ alrmbr r' = alrmbr r).
Proof.
  intros Hc. unfold stm32f2_rtc_irq_set_freq. split; intros Hf.
  - destruct (Z.leb_spec freq 0), (Z.ltb_spec 8192 freq); cbn [orb]; reflexivity || lia.
  - destruct (Z.leb_spec freq 0), (Z.ltb_spec 8192 freq); cbn [orb]; try lia.
    rewrite wait_ready. cbn [rbind]. eexists. split; [reflexivity|].
    cbn [stm32f2_rtc_write_enable]. rtc_simpl.
    pose proof (Z.div_mod 16384 freq ltac:(lia)). pose proof (Z.mod_pos_bound 16384 freq ltac:(lia)).
    assert (2 <= 16384 / freq <= 16384) by (split; [apply Z.div_le_lower_bound; lia|apply Z.div_le_upper_bound; lia]).
    unfold wakeup_load. destruct (Z.ltb_spec (16384 / freq) 2); [lia|].
    change 0xffff with (Z.ones 16). rewrite Z.land_ones, Z.mod_small by lia.
    split; [lia|]. split; [nia|]. split; [nia|].
    split; [|split; [|repeat split]].
    + unfold STM32F2_RTC_CR_WUCKSEL_MSK, STM32F2_RTC_CR_WUCKSEL_DIV2, STM32F2_RTC_CR_WUCKSEL_BITS.
      rewrite !field_lor by lia. rewrite field_clear_in by (lia || reflexivity).
      unfold STM32F2_RTC_CR_WUTE_MSK. rewrite (field_mask_out (cr r) (BIT 10)) by (lia || reflexivity). reflexivity.
    + unfold STM32F2_RTC_CR_WUCKSEL_MSK, STM32F2_RTC_CR_WUCKSEL_DIV2, STM32F2_RTC_CR_WUCKSEL_BITS,
        STM32F2_RTC_CR_WUTE_MSK.
      rewrite !Z.lor_spec, !Z.land_spec, !testbit_not32. destruct (Z.testbit (cr r) 10); reflexivity.
Qed.

(** The events [stm32f2_rtc_alarm_irq] reports. *)
Definition alarm_events (r : stm32f2_rtc_regs) : Z :=
  (if Z.testbit (isr r) 8 && Z.testbit (cr r) 12 then RTC_AF .| RTC_IRQF else 0)
  .| (if Z.testbit (isr r) 9 && Z.testbit (cr r) 13 then RTC_UF .| RTC_IRQF else 0).

Lemma alarm_events_0 r :
  alarm_events r = 0 <->
  ~ ((Z.testbit (isr r) 8 = true /\ Z.testbit (cr r) 12 = true)
     \/ (Z.testbit (isr r) 9 = true /\ Z.testbit (cr r) 13 = true)).
Proof.
  unfold alarm_events. destruct (Z.testbit (isr r) 8), (Z.testbit (cr r) 12), (Z.testbit (isr r) 9),
    (Z.testbit (cr r) 13); cbn; intuition discriminate.
Qed.

(** The alarm interrupt handler reports an alarm exactly when Alarm A fired and
    its interrupt is on, and an update exactly when Alarm B fired and its interrupt
    is on, both in one event; it clears both flags and no other event, so that none
    is reported twice or lost, and acknowledges the EXTI line (and answers
    IRQ_HANDLED) exactly when it reported something. *)
Theorem rtc_alarm_irq_delivery s :
  is_u32 (isr (regs s)) -> is_u32 (pr (exti s)) ->
  let ev := alarm_events (regs s) in
  let '(handled, s') := stm32f2_rtc_alarm_irq w1c isr_w s in
  handled = negb (ev =? 0) /\ events s' = events s ++ (if handled then [ev] else [])
  /\ (handled = true <-> (Z.testbit (isr (regs s)) 8 = true /\ Z.testbit (cr (regs s)) 12 = true)
                         \/ (Z.testbit (isr (regs s)) 9 = true /\ Z.testbit (cr (regs s)) 13 = true))
  /\ (forall i, 0 <= i -> isr_event i = true ->
        Z.testbit (isr (regs s')) i = Z.testbit (isr (regs s)) i && negb ((i =? 8) || (i =? 9)))
  /\ cr (regs s') = cr (regs s)
  /\ (forall i, Z.testbit (pr (exti s')) i = Z.testbit (pr (exti s)) i && negb (handled && (i =? 17))).
Proof.
  intros Hi Hp ev. unfold stm32f2_rtc_alarm_irq. cbv zeta.
  unfold STM32F2_RTC_ISR_ALRAF_MSK, STM32F2_RTC_ISR_ALRBF_MSK, STM32F2_RTC_CR_ALRAIE_MSK, STM32F2_RTC_CR_ALRBIE_MSK.
  rewrite !bit_test by lia. set (r := regs s) in *.
  set (r' := stm32f2_rtc_write_enable false _).
  assert (Hflags : forall i, 0 <= i -> isr_event i = true ->
    Z.testbit (isr r') i = Z.testbit (isr r) i && negb ((i =? 8) || (i =? 9))).
  { intros i H0 He. unfold r'. cbn [stm32f2_rtc_write_enable]. unfold set_wpr at 1. cbn [isr].
    rewrite isr_clear_spec; [|exact Hi|apply land_u32_l; [exact Hi|reflexivity || (vm_compute; discriminate)]|exact H0|exact He].
    rtc_simpl. rewrite Z.land_spec, Z.lor_spec, !testbit_BIT by lia.
    destruct (Z.testbit (isr r) i); zcrush. }
  set (ev' := if Z.testbit (isr r) 9 && Z.testbit (cr r) 13 then _ else _).
  assert (Hev : ev' = ev).
  { unfold ev', ev, alarm_events. fold r. repeat case_match; reflexivity. }
  rewrite Hev. pose proof (alarm_events_0 r) as Hz. fold r in Hz. change (alarm_events r) with ev in Hz.
  destruct (Z.eqb_spec ev 0) as [E0|E0]; cbn [negb regs exti events set_regs andb].
  - split; [reflexivity|]. split; [now rewrite app_nil_r|]. split; [|split; [exact Hflags|split; [reflexivity|]]].
    + split; [discriminate|]. intros H. now apply Hz in E0.
    + intros i. now rewrite andb_true_r.
  - split; [reflexivity|]. split; [reflexivity|]. split; [|split; [exact Hflags|split; [reflexivity|]]].
    + split; [intros _|reflexivity]. destruct (Z.testbit (isr r) 8), (Z.testbit (cr r) 12),
        (Z.testbit (isr r) 9), (Z.testbit (cr r) 13); auto; exfalso; apply E0, Hz; intuition discriminate.
    + intros i. unfold stm32_exti_clear_pending. exti_simpl.
      change (1 .<< STM32F2_EXTI_LINE_RTC_ALARM) with (BIT 17).
      rewrite (w1c_BIT_spec w1c) by (assumption || lia). apply andb_comm.
Qed.

End Theorems.

(** ** Witnesses *)

(** RTC_ISR as the reference manual describes it. *)
Definition isr_hw (old v : Z) : Z :=
  let old' := if Z.testbit v 7 then old else old .& .~ (BIT 6) in
  (old' .& .~ (0xff20 .| BIT 7)) .| ((old .& v) .& 0xff20) .| (v .& BIT 7).

Lemma isr_event_mask i : 0 <= i -> Z.testbit 0xff20 i = isr_event i.
Proof.
  intros Hi. destruct (Z.ltb_spec i 16) as [H|H].
  - assert (Hall : Forall (fun i => Z.testbit 0xff20 i = isr_event i) (seqZ 0 16))
      by (apply (bool_decide_unpack _); vm_compute; exact I).
    apply (proj1 (Forall_forall _ _) Hall). apply elem_of_seqZ. lia.
  - rewrite (fits_testbit_high 16) by (lia || split; lia). unfold isr_event. zcrush.
Qed.

#[export] Instance isr_hw_IsrHw : IsrHw isr_hw.
Proof.
  intros old v i Ho Hv Hi. unfold isr_hw.
  rewrite !Z.lor_spec, !Z.land_spec, testbit_not32, Z.lor_spec, isr_event_mask, testbit_BIT by lia.
  replace (Z.testbit (if Z.testbit v 7 then old else old .& .~ BIT 6) i)
    with (if (i =? 6) && negb (Z.testbit v 7) then false else Z.testbit old i).
  2: { destruct (Z.testbit v 7); [now rewrite andb_false_r|]. rewrite clear_bit_spec by (assumption || lia).
       destruct (i =? 6); reflexivity. }
  destruct (Z.ltb_spec i 32); [|rewrite (u32_testbit_high old i), (u32_testbit_high v i) by (assumption || lia);
    unfold isr_event; zcrush].
  rewrite (proj2 (Z.leb_le 0 i) Hi). destruct (isr_event i) eqn:He; unfold isr_event in He.
  - replace (i =? 6) with false by (symmetry; zcrush). replace (i =? 7) with false by (symmetry; zcrush).
    destruct (Z.testbit old i), (Z.testbit v i); reflexivity.
  - destruct (Z.eqb_spec i 7) as [E7|], (Z.eqb_spec i 6) as [E6|]; try lia; rewrite ?E7, ?E6;
      repeat match goal with |- context [Z.testbit ?a ?b] => destruct (Z.testbit a b) end; reflexivity.
Qed.

Definition rtc_reset : stm32f2_rtc_regs := {| tr := 0; dr := 0x2101; cr := 0; isr := 7;
  wutr := 0xffff; alrmar := 0; alrmbr := 0; wpr := 0xff |}.

(** Saturday the 29th of February 2020, 23:59:58. *)
Definition tm_demo : rtc_time := {| tm_sec := 58; tm_min := 59; tm_hour := 23; tm_mday := 29;
  tm_mon := 1; tm_year := 120; tm_wday := 6; tm_yday := 60; tm_isdst := 0 |}.

Lemma ready_demo : exists k, (k < 3)%nat /\ (2 <=? Z.of_nat k) = true.
Proof. exists 2%nat. split; [lia|reflexivity]. Qed.

Local Abbreviation polls := (fun k => 2 <=? Z.of_nat k).

Lemma rtc_set_read_roundtrip_witness :
  exists r', stm32f2_rtc_set_time isr_hw polls 3 tm_demo rtc_reset = Ok (0, r')
  /\ dr r' = 0x20C229 /\ (stm32f2_rtc_read_time tm_demo r').2 = tm_demo.
Proof.
  destruct (rtc_set_read_roundtrip isr_hw polls 3 ready_demo tm_demo tm_demo rtc_reset) as (r' & E & E' & _);
    [split; cbn; lia|].
  exists r'. split; [exact E|]. rewrite E'. split; [|reflexivity].
  vm_compute in E. injection E as <-. reflexivity.
Defined.

Lemma rtc_alarm_roundtrip_witness :
  exists r', stm32f2_rtc_set_alarm isr_hw polls 3 {| enabled := 0; pending := 0; time := tm_demo |} rtc_reset
             = Ok (0, r')
  /\ enabled (stm32f2_rtc_read_alarm {| enabled := 0; pending := 0; time := tm_demo |} r').2 = 1
  /\ Z.testbit (cr r') 12 = false.
Proof.
  destruct (rtc_alarm_roundtrip isr_hw polls 3 ready_demo {| enabled := 0; pending := 0; time := tm_demo |}
    {| enabled := 0; pending := 0; time := tm_demo |} rtc_reset) as [H _];
    [split; unfold is_s32; cbn; lia|split; cbn; lia..|].
  destruct (H eq_refl) as (r' & E & E' & E12 & _). exists r'. split; [exact E|]. rewrite E'. split; [reflexivity|].
  exact E12.
Defined.

(** Both alarms and the wakeup timer have fired. *)
Definition rtc_fired : stm32f2_rtc_regs := {| tr := 0; dr := 0x2101; cr := 0x3000; isr := 0x707;
  wutr := 0xffff; alrmar := 0; alrmbr := 0; wpr := 0xff |}.

Lemma rtc_alarm_irq_enable_flags_witness :
  Z.testbit (isr rtc_fired) 9 = true
  /\ Z.testbit (isr (stm32f2_alarm_irq_enable isr_hw false true rtc_fired)) 9 = false
  /\ Z.testbit (isr (stm32f2_alarm_irq_enable isr_hw false true rtc_fired)) 8 = true.
Proof.
  destruct (rtc_alarm_irq_enable_flags isr_hw true rtc_fired) as [(_ & H8 & H) _]; [split; cbn; lia..|].
  split; [reflexivity|]. split; [apply H; [lia|reflexivity|lia]|]. now rewrite H8.
Defined.

Lemma rtc_set_freq_rate_witness :
  exists r', stm32f2_rtc_irq_set_freq polls 3 1024 rtc_reset = Ok (0, r') /\ (wutr r' + 1) * 1024 = 16384.
Proof.
  destruct (rtc_set_freq_rate polls 3 ready_demo 1024 rtc_reset) as [_ H]; [split; cbn; lia|].
  destruct (H ltac:(lia)) as (r' & E & _ & _ & Hx & _). exists r'. split; [exact E|]. apply Hx. reflexivity.
Defined.

Definition exti_zero : stm32_exti_regs := {| imr := 0; emr := 0; rtsr := 0; ftsr := 0; swier := 0;
  pr := 0x20001; exticr := [0; 0; 0; 0] |}.

Lemma rtc_alarm_irq_delivery_witness :
  let s := {| regs := rtc_fired; exti := exti_zero; events := [] |} in
  let '(handled, s') := stm32f2_rtc_alarm_irq w1c_hw isr_hw s in
  handled = true /\ events s' = [0xb0] /\ Z.testbit (isr (regs s')) 10 = true
  /\ Z.testbit (pr (exti s')) 17 = false.
Proof.
  cbv zeta. pose proof (rtc_alarm_irq_delivery w1c_hw isr_hw {| regs := rtc_fired; exti := exti_zero; events := [] |}
    ltac:(split; cbn; lia) ltac:(split; cbn; lia)) as H. cbv zeta in H.
  destruct (stm32f2_rtc_alarm_irq _ _ _) as [handled s']. destruct H as (-> & -> & _ & Hf & _ & Hp).
  split; [reflexivity|]. split; [reflexivity|]. split; [now rewrite Hf|now rewrite Hp].
Defined.
