(* ===== verification/Timer.v ===== *)
(** * The system tick ([arch/arm/mach-stm32/timer.c])

    TIM2 generates the periodic tick: [stm32_timer_init] reads the timer clock
    from the clock driver and [tick_tmr_init] turns it into a prescaler and an
    auto-reload value.  The clock-event and clock-source registration is not
    modelled. *)

From S2P Require Import Prelude Platform Clock.

Definition STM32_TIM_CR1_CEN : Z := BIT 0.
Definition STM32_TIM_CR1_ARPE : Z := BIT 7.
Definition STM32_TIM_DIER_UIE : Z := BIT 0.
Definition STM32_TIM_SR_UIF : Z := BIT 0.
Definition STM32_TIM_EGR_UG : Z := BIT 0.
Definition STM32_RCC_MSK_TIM2 : Z := BIT 0.

(** CONFIG_HZ of the board's configuration. *)
Definition HZ : Z := 100.

(** The 16-bit registers the driver uses, and the 32-bit auto-reload register. *)
Record stm32_tim_regs := { cr1 : Z; dier : Z; sr : Z; egr : Z; psc : Z; arr : Z }.

Definition u16 (x : Z) : Z := x mod 65536.

Definition set_cr1 t v := {| cr1 := u16 v; dier := dier t; sr := sr t; egr := egr t; psc := psc t; arr := arr t |}.
Definition set_dier t v := {| cr1 := cr1 t; dier := u16 v; sr := sr t; egr := egr t; psc := psc t; arr := arr t |}.
Definition set_sr t v := {| cr1 := cr1 t; dier := dier t; sr := u16 v; egr := egr t; psc := psc t; arr := arr t |}.
Definition set_egr t v := {| cr1 := cr1 t; dier := dier t; sr := sr t; egr := u16 v; psc := psc t; arr := arr t |}.
Definition set_psc t v := {| cr1 := cr1 t; dier := dier t; sr := sr t; egr := egr t; psc := u16 v; arr := arr t |}.
Definition set_arr t v := {| cr1 := cr1 t; dier := dier t; sr := sr t; egr := egr t; psc := psc t; arr := u32 v |}.

Inductive clock_event_mode :=
  | CLOCK_EVT_MODE_UNUSED | CLOCK_EVT_MODE_SHUTDOWN | CLOCK_EVT_MODE_PERIODIC
  | CLOCK_EVT_MODE_ONESHOT | CLOCK_EVT_MODE_RESUME.

Definition tick_tmr_set_mode (mode : clock_event_mode) (t : stm32_tim_regs) : stm32_tim_regs :=
  match mode with
  | CLOCK_EVT_MODE_PERIODIC => set_cr1 t (cr1 t .| STM32_TIM_CR1_CEN)
  | _ => set_cr1 t (cr1 t .& .~ STM32_TIM_CR1_CEN)
  end.

(** The tick counter stands for [evt->event_handler]. *)
Definition tick_tmr_irq_handler (t : stm32_tim_regs) (ticks : Z) : stm32_tim_regs * Z :=
  (set_sr t (sr t .& .~ STM32_TIM_SR_UIF), ticks + 1).

(** [ilog2] of a value that is not a constant: [fls(n) - 1]. *)
Definition ilog2 (n : Z) : Z := if n =? 0 then -1 else Z.log2 n.

Section Init.

(** TICK_TIM_COUNTER_BITWIDTH: 16 on the STM32F1 and 32 otherwise; [tim_reset] is
    what the RCC reset pulse does to the registers. *)
Context (bitwidth : Z) (tim_reset : stm32_tim_regs -> stm32_tim_regs).

Definition tick_psc_pwr (div : Z) : Z :=
  let psc_pwr := ilog2 div - bitwidth + 1 in
  if psc_pwr <? 0 then 0 else psc_pwr.

Definition tick_tmr_init (tick_tmr_clk : Z) (rcc_enr : Z) (t : stm32_tim_regs) : Z * stm32_tim_regs :=
  let div := tick_tmr_clk / HZ in
  let psc_pwr := tick_psc_pwr div in
  let rcc_enr := rcc_enr .| STM32_RCC_MSK_TIM2 in
  let t := tim_reset t in
  let t := set_cr1 t STM32_TIM_CR1_ARPE in
  let t := set_arr t (div .>> psc_pwr) in
  let t := set_psc t ((1 .<< psc_pwr) - 1) in
  let t := set_egr t STM32_TIM_EGR_UG in
  (rcc_enr, set_dier t (dier t .| STM32_TIM_DIER_UIE)).

End Init.

(** On the STM32F7: clocks first, then the tick from CLOCK_PTMR1.  The result holds
    the SysTick clock source's frequency too. *)
Definition stm32_timer_init (rdy : nat -> bool) (fuel : nat) (tim_reset : stm32_tim_regs -> stm32_tim_regs)
    (platform : Z) (st : clk_state) (rcc_enr : Z) (t : stm32_tim_regs) :
    result (clk_state * Z * Z * stm32_tim_regs) :=
  let* st := stm32_clock_init rdy true fuel platform st in
  let tick_tmr_clk := stm32_clock_get CLOCK_PTMR1 st in
  let src_tmr_clk := stm32_clock_get CLOCK_HCLK st / 8 in
  let (rcc_enr, t) := tick_tmr_init 32 tim_reset tick_tmr_clk rcc_enr t in
  Ok (st, src_tmr_clk, rcc_enr, t).

(** ** The tick period *)

(** Timer clocks between two update events: prescaler and counter both count from
    0 to their value. *)
Definition tick_period (t : stm32_tim_regs) : Z := (psc t + 1) * (arr t + 1).

Lemma ilog2_bounds n : 1 <= n -> 2 ^ ilog2 n <= n < 2 * 2 ^ ilog2 n /\ 0 <= ilog2 n.
Proof.
  intros Hn. unfold ilog2. destruct (Z.eqb_spec n 0); [lia|].
  pose proof (Z.log2_spec n ltac:(lia)) as H. pose proof (Z.log2_nonneg n).
  rewrite Z.pow_succ_r in H by lia. lia.
Qed.

(** The prescaler exponent is the least for which the divider fits the counter. *)
Lemma psc_pwr_spec w div :
  1 <= w <= 32 -> 1 <= div < 2 ^ 32 ->
  let p := tick_psc_pwr w div in
  0 <= p <= 32 - w /\ 0 <= div / 2 ^ p < 2 ^ w /\ (0 < p -> 2 ^ w <= div / 2 ^ (p - 1)).
Proof.
  intros Hw Hd p. destruct (ilog2_bounds div) as ([Hlo Hhi] & H0); [lia|].
  assert (Hl : ilog2 div < 32) by (apply (Z.pow_lt_mono_r_iff 2); lia).
  unfold p, tick_psc_pwr. destruct (Z.ltb_spec (ilog2 div - w + 1) 0) as [Hn|Hn].
  - change (2 ^ 0) with 1. rewrite Z.div_1_r. split; [lia|]. split; [|lia].
    split; [lia|]. assert (2 * 2 ^ ilog2 div <= 2 ^ w); [|lia].
    rewrite <- Z.pow_succ_r by lia. apply Z.pow_le_mono_r; lia.
  - set (k := ilog2 div - w + 1) in *. split; [lia|].
    assert (E : 2 * 2 ^ ilog2 div = 2 ^ w * 2 ^ k).
    { rewrite <- Z.pow_succ_r, <- Z.pow_add_r by lia. f_equal. lia. }
    split.
    + split; [apply Z.div_pos; lia|]. apply Z.div_lt_upper_bound; [apply Z.pow_pos_nonneg; lia|]. lia.
    + intros Hk. apply Z.div_le_lower_bound; [apply Z.pow_pos_nonneg; lia|].
      rewrite <- Z.pow_add_r by lia. replace (k - 1 + w) with (ilog2 div) by lia. exact Hlo.
Qed.

(** [tick_tmr_init] always programs values that the registers can hold (a power
    of two as prescaler, the least for which the divider fits the counter), with
    the update interrupt on and the counter still stopped.  The tick period is
    however not the divider [clk / HZ] but up to [2^psc_pwr] timer clocks longer,
    and one clock longer without a prescaler, because the counter takes
    [arr + 1] clocks and [arr] is not decremented. *)
Theorem timer_tick_period w tim_reset clk enr t :
  w = 16 \/ w = 32 -> HZ <= clk < 2 ^ 32 ->
  let '(enr', t') := tick_tmr_init w tim_reset clk enr t in
  let div := clk / HZ in
  let p := tick_psc_pwr w div in
  psc t' + 1 = 2 ^ p /\ arr t' = div / 2 ^ p /\ 0 <= arr t' < 2 ^ w
  /\ (0 < p -> 2 ^ w <= div / 2 ^ (p - 1))
  /\ div < tick_period t' <= div + 2 ^ p /\ (w = 32 -> tick_period t' = div + 1)
  /\ Z.testbit (dier t') 0 = true /\ Z.testbit (cr1 t') 0 = false /\ Z.testbit enr' 0 = true.
Proof.
  intros Hw Hc. unfold tick_tmr_init. cbv zeta.
  assert (Hdiv : 1 <= clk / HZ < 2 ^ 32) by (unfold HZ in *; zdiv).
  destruct (psc_pwr_spec w (clk / HZ)) as (Hp & Ha & Hmin); [lia|lia|].
  set (p := tick_psc_pwr w (clk / HZ)) in *. set (div := clk / HZ) in *.
  assert (Hpp : 1 <= 2 ^ p <= 2 ^ 16) by (split; [pose proof (Z.pow_pos_nonneg 2 p)|apply Z.pow_le_mono_r]; lia).
  assert (Hww : 2 ^ w <= 2 ^ 32) by (apply Z.pow_le_mono_r; lia).
  unfold tick_period. cbn [psc arr dier cr1 set_psc set_arr set_dier set_egr set_cr1].
  rewrite Z.shiftr_div_pow2, (u32_id (div / 2 ^ p)) by (lia || (split; lia)).
  assert (E : 1 .<< p = 2 ^ p).
  { unfold shl32. rewrite Z.shiftl_1_l. apply u32_id. split; lia. }
  rewrite E. unfold u16. rewrite (Z.mod_small (2 ^ p - 1)) by lia.
  pose proof (Z.div_mod div (2 ^ p) ltac:(lia)). pose proof (Z.mod_pos_bound div (2 ^ p) ltac:(lia)).
  replace (2 ^ p - 1 + 1) with (2 ^ p) by lia.
  split; [reflexivity|]. split; [reflexivity|]. split; [exact Ha|]. split; [exact Hmin|]. split; [lia|].
  split; [|split; [|split; [reflexivity|]]].
  - intros ->. assert (p = 0) as -> by lia. change (2 ^ 0) with 1. rewrite Z.div_1_r. lia.
  - rewrite <- (Z.land_ones _ 16) by lia. rewrite Z.land_spec, Z.lor_spec.
    change (Z.testbit STM32_TIM_DIER_UIE 0) with true. now rewrite orb_true_r.
  - rewrite Z.lor_spec. change (Z.testbit STM32_RCC_MSK_TIM2 0) with true. apply orb_true_r.
Qed.

(** A 100 MHz timer clock with HZ = 100: 1000001 clocks per tick. *)
Lemma timer_tick_period_witness :
  let t := {| cr1 := 0; dier := 0; sr := 0; egr := 0; psc := 0; arr := 0 |} in
  tick_period (tick_tmr_init 32 (fun t => t) 100000000 0 t).2 = 1000001.
Proof.
  cbv zeta. pose proof (timer_tick_period 32 (fun t => t) 100000000 0
    {| cr1 := 0; dier := 0; sr := 0; egr := 0; psc := 0; arr := 0 |}
    ltac:(now right) ltac:(split; [discriminate|reflexivity])) as H.
  destruct (tick_tmr_init _ _ _ _ _) as [enr t']. cbv zeta in H.
  destruct H as (_ & _ & _ & _ & _ & H & _). exact (H eq_refl).
Defined.

(** The whole of [stm32_timer_init] on the Discovery board, from the boot loader's
    clock setting: the tick has the period computed from CLOCK_PTMR1 and SysTick
    runs at HCLK / 8. *)
Example timer_init_disco :
  match stm32_timer_init (fun _ => true) 1 (fun t => t) PLATFORM_STM32_STM32F7_DISCO st_boot 0
          {| cr1 := 0; dier := 0; sr := 0; egr := 0; psc := 0; arr := 0 |} with
  | Ok (st, src_tmr_clk, _, t) =>
      stm32_clock_get CLOCK_PTMR1 st = 100000000 /\ tick_period t = 1000001 /\ src_tmr_clk = 25000000
  | Fault _ => False
  end.
Proof. vm_compute. repeat split. Qed.
