(* ===== verification/PageAlloc.v ===== *)
(** * The page allocator of one zone ([mm/page_alloc.c])

    The buddy lists of a zone, the per-CPU lists of single pages, allocation,
    freeing and the watermark check, in the committed configuration: one zone of
    flat memory without MMU, one processor, CONFIG_DEBUG_VM off (so VM_BUG_ON is
    empty), no compound pages.  Page frame numbers stand for [struct page]
    pointers; a list holds the pages linked by their [lru] member.  The zone lock
    makes the operations atomic. *)

From S2P Require Import Prelude.

(** ** Configuration *)

Definition MAX_ORDER : nat := 12.                    (* CONFIG_FORCE_MAX_ZONEORDER *)
Definition pageblock_order : nat := MAX_ORDER - 1.
Definition pageblock_nr_pages : Z := 1 .<< Z.of_nat pageblock_order.

Definition MIGRATE_UNMOVABLE : nat := 0.
Definition MIGRATE_RECLAIMABLE : nat := 1.
Definition MIGRATE_MOVABLE : nat := 2.
Definition MIGRATE_PCPTYPES : nat := 3.
Definition MIGRATE_RESERVE : nat := 3.
Definition MIGRATE_ISOLATE : nat := 4.
Definition MIGRATE_TYPES : nat := 5.

(** ** State *)

(** [private] holds the order of a free block's first page and the migrate type of
    a page on a per-CPU list; [bad] stands for a page that is still mapped, has a
    [mapping] or a flag of PAGE_FLAGS_CHECK_AT_FREE other than PG_buddy, [dirty] for
    one with any other flag (PAGE_FLAGS_CHECK_AT_PREP is all of them). *)
Record page := { PageBuddy : bool; private : nat; _count : Z; bad : bool; dirty : bool }.

Record per_cpu_pages := { pcp_count : Z; high : Z; batch : Z; lists : nat -> list Z }.

(** [free_list o t] is [free_area[o].free_list[t]]; [nr_free_pages] is the zone
    counter NR_FREE_PAGES; [pageblock t] the migrate type of a page block. *)
Record zone := {
  zone_start_pfn : Z; spanned_pages : Z;
  free_list : nat -> nat -> list Z; nr_free : nat -> Z;
  mem_map : Z -> page; page_zone_id : Z -> Z; pageblock : Z -> nat;
  nr_free_pages : Z; pcp : per_cpu_pages
}.

Definition set_free z fl nf mm := {| zone_start_pfn := zone_start_pfn z;
  spanned_pages := spanned_pages z; free_list := fl; nr_free := nf; mem_map := mm;
  page_zone_id := page_zone_id z; pageblock := pageblock z; nr_free_pages := nr_free_pages z;
  pcp := pcp z |}.
Definition set_free_list z fl := set_free z fl (nr_free z) (mem_map z).
Definition set_nr_free z nf := set_free z (free_list z) nf (mem_map z).
Definition set_mem_map z mm := set_free z (free_list z) (nr_free z) mm.
Definition set_pageblock z pb := {| zone_start_pfn := zone_start_pfn z;
  spanned_pages := spanned_pages z; free_list := free_list z; nr_free := nr_free z;
  mem_map := mem_map z; page_zone_id := page_zone_id z; pageblock := pb;
  nr_free_pages := nr_free_pages z; pcp := pcp z |}.
Definition set_nr_free_pages z n := {| zone_start_pfn := zone_start_pfn z;
  spanned_pages := spanned_pages z; free_list := free_list z; nr_free := nr_free z;
  mem_map := mem_map z; page_zone_id := page_zone_id z; pageblock := pageblock z;
  nr_free_pages := n; pcp := pcp z |}.
Definition set_pcp z p := {| zone_start_pfn := zone_start_pfn z;
  spanned_pages := spanned_pages z; free_list := free_list z; nr_free := nr_free z;
  mem_map := mem_map z; page_zone_id := page_zone_id z; pageblock := pageblock z;
  nr_free_pages := nr_free_pages z; pcp := p |}.

Ltac zone_simpl := cbn [zone_start_pfn spanned_pages free_list nr_free mem_map page_zone_id
  pageblock nr_free_pages pcp set_free set_free_list set_nr_free set_mem_map set_pageblock
  set_nr_free_pages set_pcp PageBuddy private _count bad dirty pcp_count high batch lists].

(** ** Pages and lists *)

Definition upd_page (p : Z) (f : page -> page) (z : zone) : zone :=
  set_mem_map z (fun q => if decide (q = p) then f (mem_map z q) else mem_map z q).

Definition set_page_private (p : Z) (v : nat) : zone -> zone :=
  upd_page p (fun g => {| PageBuddy := PageBuddy g; private := v; _count := _count g; bad := bad g; dirty := dirty g |}).

Definition set_page_count (p v : Z) : zone -> zone :=
  upd_page p (fun g => {| PageBuddy := PageBuddy g; private := private g; _count := v; bad := bad g; dirty := dirty g |}).

Definition set_page_order (p : Z) (order : nat) : zone -> zone :=
  upd_page p (fun g => {| PageBuddy := true; private := order; _count := _count g; bad := bad g; dirty := dirty g |}).

Definition rmv_page_order (p : Z) : zone -> zone :=
  upd_page p (fun g => {| PageBuddy := false; private := 0; _count := _count g; bad := bad g; dirty := dirty g |}).

(** [list_del(&page->lru)] of a page on a free list: it leaves the list it is on. *)
Definition list_del (p : Z) (z : zone) : zone :=
  set_free_list z (fun o t => filter (fun q => q <> p) (free_list z o t)).

(** [list_add(&page->lru, &free_area[order].free_list[migratetype])]. *)
Definition list_add (p : Z) (order mt : nat) (z : zone) : zone :=
  set_free_list z (fun o t => if decide (o = order /\ t = mt) then p :: free_list z o t
                              else free_list z o t).

Definition add_nr_free (order : nat) (n : Z) (z : zone) : zone :=
  set_nr_free z (fun o => if decide (o = order) then nr_free z o + n else nr_free z o).

(** ** Freeing *)

Definition page_find_buddy (page page_idx : Z) (order : nat) : Z :=
  let buddy_idx := Z.lxor page_idx (1 .<< Z.of_nat order) in
  page + (buddy_idx - page_idx).

Definition find_combined_index (page_idx : Z) (order : nat) : Z :=
  page_idx .& .~ (1 .<< Z.of_nat order).

Definition page_is_buddy (z : zone) (page buddy : Z) (order : nat) : bool :=
  if negb (page_zone_id z page =? page_zone_id z buddy) then false
  else PageBuddy (mem_map z buddy) && bool_decide (private (mem_map z buddy) = order).

(** [while (order < MAX_ORDER-1)]: [n] = [MAX_ORDER - 1 - order] turns are left. *)
Fixpoint merge_loop (n : nat) (z : zone) (page page_idx : Z) (order : nat) : zone * Z * nat :=
  match n with
  | O => (z, page, order)
  | S n =>
      let buddy := page_find_buddy page page_idx order in
      if negb (page_is_buddy z page buddy order) then (z, page, order)
      else
        let z := list_del buddy z in
        let z := add_nr_free order (-1) z in
        let z := rmv_page_order buddy z in
        let combined_idx := find_combined_index page_idx order in
        merge_loop n z (page + (combined_idx - page_idx)) combined_idx (S order)
  end.

Definition free_one_page_core (page : Z) (order mt : nat) (z : zone) : zone :=
  let page_idx := page .& ((1 .<< Z.of_nat MAX_ORDER) - 1) in
  let '(z, page, order) := merge_loop (MAX_ORDER - 1 - order) z page page_idx order in
  let z := set_page_order page order z in
  let z := list_add page order mt z in
  add_nr_free order 1 z.

Definition free_one_page (page : Z) (order mt : nat) (z : zone) : zone :=
  let z := set_nr_free_pages z (nr_free_pages z + (1 .<< Z.of_nat order)) in
  free_one_page_core page order mt z.

(** "Leave bad fields for debug, except PageBuddy could make trouble". *)
Definition bad_page (p : Z) : zone -> zone :=
  upd_page p (fun g => {| PageBuddy := false; private := private g; _count := _count g;
                          bad := bad g; dirty := dirty g |}).

Definition free_pages_check (p : Z) (z : zone) : bool * zone :=
  let g := mem_map z p in
  if bad g || PageBuddy g || negb (_count g =? 0) then (true, bad_page p z)
  else (false, upd_page p (fun g => {| PageBuddy := PageBuddy g; private := private g;
                                       _count := _count g; bad := bad g; dirty := false |}) z).

Definition get_pageblock_migratetype (z : zone) (p : Z) : nat :=
  pageblock z (p .>> Z.of_nat pageblock_order).

(** [page + 0] to [page + (1 << order) - 1]. *)
Definition block (page : Z) (order : nat) : list Z := seqZ page (1 .<< Z.of_nat order).

(** The loop of [__free_pages_ok] checks every page, whatever it has found before. *)
Fixpoint free_check_all (l : list Z) (z : zone) : bool * zone :=
  match l with
  | [] => (false, z)
  | p :: l =>
      let (b, z) := free_pages_check p z in
      let (b', z) := free_check_all l z in
      (b || b', z)
  end.

Definition free_pages_ok (page : Z) (order : nat) (z : zone) : zone :=
  let (bad, z) := free_check_all (block page order) z in
  if bad then z
  else free_one_page page order (get_pageblock_migratetype z page) z.

(** ** Allocation *)

(** [while (high > low)]: [n] = [high - low] turns are left. *)
Fixpoint expand (n : nat) (z : zone) (page : Z) (high mt : nat) : zone :=
  match n with
  | O => z
  | S n =>
      let high := (high - 1)%nat in
      let p := page + (1 .<< Z.of_nat high) in
      let z := list_add p high mt z in
      let z := add_nr_free high 1 z in
      expand n (set_page_order p high z) page high mt
  end.

(** The loop over [current_order]; [n] = [MAX_ORDER - current_order]. *)
Fixpoint rmqueue_smallest_loop (n : nat) (order current_order mt : nat) (z : zone) :
    option Z * zone :=
  match n with
  | O => (None, z)
  | S n =>
      match free_list z current_order mt with
      | [] => rmqueue_smallest_loop n order (S current_order) mt z
      | page :: _ =>
          let z := list_del page z in
          let z := rmv_page_order page z in
          let z := add_nr_free current_order (-1) z in
          (Some page, expand (current_order - order) z page current_order mt)
      end
  end.

Definition rmqueue_smallest (order mt : nat) (z : zone) : option Z * zone :=
  rmqueue_smallest_loop (MAX_ORDER - order) order order mt z.

(** Rows have MIGRATE_TYPES - 1 entries; those without an initialiser are 0. *)
Definition fallbacks (mt : nat) : list nat :=
  match mt with
  | 0%nat => [MIGRATE_RECLAIMABLE; MIGRATE_MOVABLE; MIGRATE_RESERVE; 0%nat]
  | 1%nat => [MIGRATE_UNMOVABLE; MIGRATE_MOVABLE; MIGRATE_RESERVE; 0%nat]
  | 2%nat => [MIGRATE_RECLAIMABLE; MIGRATE_UNMOVABLE; MIGRATE_RESERVE; 0%nat]
  | 3%nat => [MIGRATE_RESERVE; MIGRATE_RESERVE; MIGRATE_RESERVE; 0%nat]
  | _ => [0%nat; 0%nat; 0%nat; 0%nat]
  end.

(** [for (page = start_page; page <= end_page;)]; [fuel] bounds the pages left. *)
Fixpoint move_freepages (fuel : nat) (page end_page : Z) (mt : nat) (z : zone) : Z * zone :=
  match fuel with
  | O => (0, z)
  | S fuel =>
      if end_page <? page then (0, z)
      else if negb (PageBuddy (mem_map z page)) then move_freepages fuel (page + 1) end_page mt z
      else
        let order := private (mem_map z page) in
        let z := list_del page z in
        let z := list_add page order mt z in
        let (moved, z) := move_freepages fuel (page + (1 .<< Z.of_nat order)) end_page mt z in
        ((1 .<< Z.of_nat order) + moved, z)
  end.

Definition move_freepages_block (page : Z) (mt : nat) (z : zone) : Z * zone :=
  let start_pfn := page .& .~ (pageblock_nr_pages - 1) in
  let end_pfn := start_pfn + pageblock_nr_pages - 1 in
  let start_page := if start_pfn <? zone_start_pfn z then page else start_pfn in
  if zone_start_pfn z + spanned_pages z <=? end_pfn then (0, z)
  else move_freepages (Z.to_nat pageblock_nr_pages) start_page end_pfn mt z.

(** Without CONFIG_MMU every page block is MIGRATE_UNMOVABLE. *)
Definition set_pageblock_migratetype (page : Z) (mt : nat) (z : zone) : zone :=
  let mt := MIGRATE_UNMOVABLE in
  set_pageblock z (fun b => if decide (b = page .>> Z.of_nat pageblock_order) then mt
                            else pageblock z b).

(** [while (nr_pageblocks--)]. *)
Fixpoint change_pageblock_range (nr_pageblocks : nat) (page : Z) (mt : nat) (z : zone) : zone :=
  match nr_pageblocks with
  | O => z
  | S n => change_pageblock_range n (page + pageblock_nr_pages) mt (set_pageblock_migratetype page mt z)
  end.

Section Alloc.

Context (page_group_by_mobility_disabled : bool).

(** What [__rmqueue_fallback] does with the first page of a non-empty list. *)
Definition fallback_take (page : Z) (order current_order mt start_mt : nat) (z : zone) : zone :=
  let z := add_nr_free current_order (-1) z in
  let '(z, mt) :=
    if (pageblock_order / 2 <=? current_order)%nat || bool_decide (start_mt = MIGRATE_RECLAIMABLE)
       || page_group_by_mobility_disabled
    then
      let (pages, z) := move_freepages_block page start_mt z in
      let z := if ((1 .<< Z.of_nat (pageblock_order - 1)) <=? pages) || page_group_by_mobility_disabled
               then set_pageblock_migratetype page start_mt z else z in
      (z, start_mt)
    else (z, mt) in
  let z := list_del page z in
  let z := rmv_page_order page z in
  let z := if (pageblock_order <=? current_order)%nat
           then change_pageblock_range (2 ^ (current_order - pageblock_order))%nat page start_mt z
           else z in
  expand (current_order - order) z page current_order mt.

(** The first fallback type with a block of this order. *)
Fixpoint fallback_type (types : list nat) (current_order : nat) (z : zone) : option (Z * nat) :=
  match types with
  | [] => None
  | mt :: types =>
      if bool_decide (mt = MIGRATE_RESERVE) then fallback_type types current_order z
      else match free_list z current_order mt with
           | [] => fallback_type types current_order z
           | page :: _ => Some (page, mt)
           end
  end.

(** From order MAX_ORDER - 1 down to [order]; [n] is the number of orders left. *)
Fixpoint rmqueue_fallback_loop (n : nat) (order start_mt : nat) (z : zone) : option Z * zone :=
  match n with
  | O => (None, z)
  | S n =>
      let current_order := (order + n)%nat in
      match fallback_type (fallbacks start_mt) current_order z with
      | Some (page, mt) => (Some page, fallback_take page order current_order mt start_mt z)
      | None => rmqueue_fallback_loop n order start_mt z
      end
  end.

Definition rmqueue_fallback (order start_mt : nat) (z : zone) : option Z * zone :=
  rmqueue_fallback_loop (MAX_ORDER - order) order start_mt z.

Definition rmqueue (order mt : nat) (z : zone) : option Z * zone :=
  match rmqueue_smallest order mt z with
  | (Some page, z) => (Some page, z)
  | (None, z) =>
      if bool_decide (mt = MIGRATE_RESERVE) then (None, z)
      else match rmqueue_fallback order mt z with
           | (Some page, z) => (Some page, z)
           | (None, z) => rmqueue_smallest order MIGRATE_RESERVE z
           end
  end.

End Alloc.

(** ** Per-CPU lists *)

Definition set_pcp_list (p : per_cpu_pages) (t : nat) (l : list Z) : per_cpu_pages :=
  {| pcp_count := pcp_count p; high := high p; batch := batch p;
     lists := fun u => if decide (u = t) then l else lists p u |}.
Definition add_pcp_count (p : per_cpu_pages) (n : Z) : per_cpu_pages :=
  {| pcp_count := pcp_count p + n; high := high p; batch := batch p; lists := lists p |}.

Section Pcp.

Context (page_group_by_mobility_disabled : bool).

Local Abbreviation rmqueue := (rmqueue page_group_by_mobility_disabled).

(** [for (i = 0; i < count; ++i)]: the pages taken, in the order they are taken. *)
Fixpoint rmqueue_bulk_loop (count : nat) (order mt : nat) (z : zone) : list Z * zone :=
  match count with
  | O => ([], z)
  | S count =>
      match rmqueue order mt z with
      | (None, z) => ([], z)
      | (Some page, z) =>
          let (l, z) := rmqueue_bulk_loop count order mt (set_page_private page mt z) in
          (page :: l, z)
      end
  end.

(** Each page is linked after the one before it ([cold = 0]) or before it. *)
Definition rmqueue_bulk (order : nat) (count : Z) (mt : nat) (cold : bool) (z : zone) : Z * zone :=
  let (l, z) := rmqueue_bulk_loop (Z.to_nat count) order mt z in
  let old := lists (pcp z) mt in
  let z := set_pcp z (set_pcp_list (pcp z) mt (if cold then old ++ rev l else l ++ old)) in
  let i := Z.of_nat (length l) in
  (i, set_nr_free_pages z (nr_free_pages z - (i .<< Z.of_nat order))).

(** The search for the next non-empty list; all lists empty is an endless loop. *)
Fixpoint bulk_next (fuel : nat) (p : per_cpu_pages) (batch_free : Z) (mt : nat) : result (Z * nat) :=
  match fuel with
  | O => Fault Stuck
  | S fuel =>
      let batch_free := batch_free + 1 in
      let mt := if decide (S mt = MIGRATE_PCPTYPES) then 0%nat else S mt in
      match lists p mt with
      | [] => bulk_next fuel p batch_free mt
      | _ => Ok (batch_free, mt)
      end
  end.

(** The inner [do ... while (--count && --batch_free && !list_empty(list))]. *)
Fixpoint bulk_list (count : nat) (batch_free : Z) (mt : nat) (z : zone) : nat * Z * zone :=
  match count with
  | O => (O, batch_free, z)
  | S count =>
      match rev (lists (pcp z) mt) with
      | [] => (S count, batch_free, z)
      | page :: rest =>
          let z := set_pcp z (set_pcp_list (pcp z) mt (rev rest)) in
          let z := free_one_page_core page 0 (private (mem_map z page)) z in
          if (count =? 0)%nat then (O, batch_free, z)
          else
            let batch_free := batch_free - 1 in
            if (batch_free =? 0) || (length rest =? 0)%nat then (count, batch_free, z)
            else bulk_list count batch_free mt z
      end
  end.

(** [while (count)]: every turn frees at least one page. *)
Fixpoint free_pcppages_loop (fuel count : nat) (batch_free : Z) (mt : nat) (z : zone) : result zone :=
  match count with
  | O => Ok z
  | S _ =>
      match fuel with
      | O => Fault Stuck
      | S fuel =>
          let* (batch_free, mt) := bulk_next MIGRATE_PCPTYPES (pcp z) batch_free mt in
          let '(count, batch_free, z) := bulk_list count batch_free mt z in
          free_pcppages_loop fuel count batch_free mt z
      end
  end.

Definition free_pcppages_bulk (count : Z) (z : zone) : result zone :=
  let z := set_nr_free_pages z (nr_free_pages z + count) in
  free_pcppages_loop (Z.to_nat count) (Z.to_nat count) 0 0 z.

Definition free_hot_cold_page (page : Z) (cold : bool) (z : zone) : result zone :=
  let (bad, z) := free_pages_check page z in
  if bad then Ok z
  else
    let mt := get_pageblock_migratetype z page in
    let z := set_page_private page mt z in
    if (MIGRATE_PCPTYPES <=? mt)%nat && bool_decide (mt = MIGRATE_ISOLATE)
    then Ok (free_one_page page 0 mt z)
    else
      let mt := if (MIGRATE_PCPTYPES <=? mt)%nat then MIGRATE_MOVABLE else mt in
      let l := lists (pcp z) mt in
      let z := set_pcp z (add_pcp_count
                 (set_pcp_list (pcp z) mt (if cold then l ++ [page] else page :: l)) 1) in
      if high (pcp z) <=? pcp_count (pcp z) then
        let n := batch (pcp z) in
        let* z := free_pcppages_bulk n z in
        Ok (set_pcp z (add_pcp_count (pcp z) (- n)))
      else Ok z.

Definition free_hot_page (page : Z) (z : zone) : result zone := free_hot_cold_page page false z.

(** True when a page is not fit to be handed out. *)
Definition check_new_page (p : Z) (z : zone) : bool * zone :=
  let g := mem_map z p in
  if bad g || PageBuddy g || dirty g || negb (_count g =? 0) then (true, bad_page p z) else (false, z).

(** The loop of [prep_new_page] ends at the first page that is not fit. *)
Fixpoint prep_check (l : list Z) (z : zone) : bool * zone :=
  match l with
  | [] => (false, z)
  | p :: l => match check_new_page p z with (true, z) => (true, z) | (false, z) => prep_check l z end
  end.

Definition prep_new_page (page : Z) (order : nat) (z : zone) : bool * zone :=
  match prep_check (block page order) z with
  | (true, z) => (true, z)
  | (false, z) =>
      let z := set_page_private page 0 z in
      (false, set_page_count page 1 z)
  end.

(** One pass of [buffered_rmqueue] up to [prep_new_page]. *)
Definition rmqueue_pass (order : nat) (cold : bool) (mt : nat) (z : zone) : option Z * zone :=
  if (order =? 0)%nat then
    let z :=
      match lists (pcp z) mt with
      | [] => let (n, z) := rmqueue_bulk 0 (batch (pcp z)) mt cold z in
              set_pcp z (add_pcp_count (pcp z) n)
      | _ => z
      end in
    match (if cold then rev (lists (pcp z) mt) else lists (pcp z) mt) with
    | [] => (None, z)
    | page :: rest =>
        let l := if cold then rev rest else rest in
        (Some page, set_pcp z (add_pcp_count (set_pcp_list (pcp z) mt l) (-1)))
    end
  else
    match rmqueue order mt z with
    | (None, z) => (None, z)
    | (Some page, z) => (Some page, set_nr_free_pages z (nr_free_pages z - (1 .<< Z.of_nat order)))
    end.

(** [goto again] when a page is not fit; [fuel] bounds the passes. *)
Fixpoint buffered_rmqueue (fuel order : nat) (cold : bool) (mt : nat) (z : zone) :
    result (option Z * zone) :=
  match fuel with
  | O => Fault Stuck
  | S fuel =>
      match rmqueue_pass order cold mt z with
      | (None, z) => Ok (None, z)
      | (Some page, z) =>
          match prep_new_page page order z with
          | (true, z) => buffered_rmqueue fuel order cold mt z
          | (false, z) => Ok (Some page, z)
          end
      end
  end.

(** ** The interface *)

(** [put_page_testzero] and the two ways to free. *)
Definition free_pages (page : Z) (order : nat) (z : zone) : result zone :=
  let n := _count (mem_map z page) - 1 in
  let z := set_page_count page n z in
  if n =? 0 then
    if (order =? 0)%nat then free_hot_page page z else Ok (free_pages_ok page order z)
  else Ok z.

(** Each page but the first gets a reference of its own. *)
Definition split_page (page : Z) (order : nat) (z : zone) : zone :=
  foldl (fun z p => set_page_count p 1 z) z (seqZ (page + 1) ((1 .<< Z.of_nat order) - 1)).

(** Single pages freed one after the other. *)
Fixpoint free_page_list (l : list Z) (z : zone) : result zone :=
  match l with
  | [] => Ok z
  | p :: l => let* z := free_pages p 0 z in free_page_list l z
  end.

Definition PAGE_SHIFT : Z := 12.

(** [do { size >>= 1; order++; } while (size)], from order -1. *)
Fixpoint get_order_loop (fuel : nat) (size : Z) : nat :=
  match fuel with
  | O => O
  | S fuel => let size := size .>> 1 in if size =? 0 then O else S (get_order_loop fuel size)
  end.

Definition get_order (size : Z) : nat := get_order_loop 32 (u32 (size - 1) .>> (PAGE_SHIFT - 1)).

(** The number of pages of [PAGE_ALIGN(size)]. *)
Definition page_align_nr (size : Z) : Z := u32 (size + 4095) .>> PAGE_SHIFT.

Definition alloc_pages_exact (size : Z) (mt : nat) (z : zone) : result (option Z * zone) :=
  let order := get_order size in
  let* (page, z) := buffered_rmqueue 1 order false mt z in
  match page with
  | None => Ok (None, z)
  | Some page =>
      let z := split_page page order z in
      let used := page_align_nr size in
      let* z := free_page_list (seqZ (page + used) ((1 .<< Z.of_nat order) - used)) z in
      Ok (Some page, z)
  end.

Definition free_pages_exact (page size : Z) (z : zone) : result zone :=
  free_page_list (seqZ page (page_align_nr size)) z.

End Pcp.

(** ** Watermarks *)

(** The loop over the orders below [order]; [o] counts up, [n] = [order - o]. *)
Fixpoint watermark_loop (n o : nat) (z : zone) (free_pages min : Z) : bool :=
  match n with
  | O => true
  | S n =>
      let free_pages := free_pages - (nr_free z o .<< Z.of_nat o) in
      let min := min .>> 1 in
      if free_pages <=? min then false else watermark_loop n (S o) z free_pages min
  end.

Definition zone_watermark_ok (order : nat) (mark lowmem_reserve : Z) (alloc_high alloc_harder : bool)
    (z : zone) : bool :=
  let min := mark in
  let free_pages := nr_free_pages z - (1 .<< Z.of_nat order) + 1 in
  let min := if alloc_high then min - min / 2 else min in
  let min := if alloc_harder then min - min / 4 else min in
  if free_pages <=? min + lowmem_reserve then false else watermark_loop order 0 z free_pages min.
