(* ===== verification/Buddy.v ===== *)
(** * The buddy system: invariant, and what freeing and allocating do to it

    Naturally aligned blocks, the set of free pages, and the invariant of a zone's
    free lists: blocks are aligned and disjoint, marked and counted correctly, and
    two free buddies never stay apart. *)

From S2P Require Import Prelude PageAlloc.

(** ** Aligned blocks *)

Definition pow2 (o : nat) : Z := 2 ^ Z.of_nat o.

Definition aligned (o : nat) (p : Z) : Prop := (pow2 o | p).

(** Page [q] belongs to the block of order [o] at [p]. *)
Definition in_block (o : nat) (p q : Z) : Prop := p <= q < p + pow2 o.

#[global] Instance in_block_dec o p q : Decision (in_block o p q).
Proof. unfold in_block. apply _. Defined.

(** The other half of the block of order [o + 1] around [p], and that block. *)
Definition buddy (o : nat) (p : Z) : Z := if Z.testbit p (Z.of_nat o) then p - pow2 o else p + pow2 o.
Definition parent (o : nat) (p : Z) : Z := if Z.testbit p (Z.of_nat o) then p - pow2 o else p.

Lemma pow2_pos o : 1 <= pow2 o.
Proof. unfold pow2. pose proof (Z.pow_pos_nonneg 2 (Z.of_nat o)). lia. Qed.

Lemma pow2_S o : pow2 (S o) = 2 * pow2 o.
Proof. unfold pow2. rewrite Nat2Z.inj_succ, Z.pow_succ_r by lia. reflexivity. Qed.

Lemma shl_pow2 o : (o < 32)%nat -> 1 .<< Z.of_nat o = pow2 o.
Proof.
  intros Ho. unfold shl32, pow2. rewrite Z.shiftl_1_l. apply u32_id. split; [|apply Z.pow_lt_mono_r; lia].
  pose proof (Z.pow_pos_nonneg 2 (Z.of_nat o)). lia.
Qed.

Lemma pow2_divide o o' : (o <= o')%nat -> (pow2 o | pow2 o').
Proof.
  intros H. exists (pow2 (o' - o)). unfold pow2. rewrite <- Z.pow_add_r by lia. f_equal. lia.
Qed.

Lemma pow2_le o o' : (o <= o')%nat -> pow2 o <= pow2 o'.
Proof. intros. unfold pow2. apply Z.pow_le_mono_r; lia. Qed.

Lemma aligned_le o o' p : (o <= o')%nat -> aligned o' p -> aligned o p.
Proof. intros H Ha. eapply Z.divide_trans; [apply pow2_divide, H|exact Ha]. Qed.

Lemma aligned_0 p : aligned 0 p.
Proof. exists p. unfold pow2. cbn. lia. Qed.

(** The bit that tells left from right halves. *)
Lemma testbit_odd o p k : p = k * pow2 o -> Z.testbit p (Z.of_nat o) = Z.odd k.
Proof.
  intros ->. unfold pow2. rewrite Z.mul_pow2_bits by lia. rewrite Z.sub_diag. apply Z.bit0_odd.
Qed.

Lemma parent_aligned o p : aligned o p -> aligned (S o) (parent o p).
Proof.
  intros [k ->]. unfold parent. rewrite (testbit_odd o _ k) by reflexivity. unfold aligned. rewrite pow2_S.
  destruct (Z.odd k) eqn:E.
  - apply Z.odd_spec in E as [j ->]. exists j. lia.
  - rewrite <- Z.negb_even in E. apply negb_false_iff, Z.even_spec in E as [j ->]. exists j. lia.
Qed.

Lemma aligned_S_even o p : aligned (S o) p -> Z.testbit p (Z.of_nat o) = false.
Proof.
  intros [k ->]. rewrite pow2_S. rewrite (testbit_odd o _ (2 * k)) by lia. now rewrite Z.odd_mul.
Qed.

Lemma buddy_aligned o p : aligned o p -> aligned o (buddy o p).
Proof.
  intros H. unfold buddy. case_match; [apply Z.divide_sub_r|apply Z.divide_add_r]; trivial; apply Z.divide_refl.
Qed.

Lemma buddy_right o p : aligned (S o) p -> buddy o (p + pow2 o) = p.
Proof.
  intros [k ->]. unfold buddy. rewrite pow2_S. rewrite (testbit_odd o _ (2 * k + 1)) by lia.
  rewrite Z.odd_add, Z.odd_mul. cbn [Z.odd xorb andb]. lia.
Qed.

Lemma buddy_left o p : aligned (S o) p -> buddy o p = p + pow2 o.
Proof. intros H. unfold buddy. now rewrite (aligned_S_even o p H). Qed.

Lemma buddy_invol o p : aligned o p -> buddy o (buddy o p) = p.
Proof.
  intros H. pose proof (parent_aligned o p H) as Hp. unfold parent in Hp. unfold buddy at 2.
  destruct (Z.testbit p (Z.of_nat o)) eqn:E.
  - rewrite (buddy_left o) by exact Hp. lia.
  - now apply buddy_right.
Qed.

Lemma buddy_neq o p : buddy o p <> p.
Proof. pose proof (pow2_pos o). unfold buddy. case_match; lia. Qed.

(** A block and its buddy make up the parent. *)
Lemma parent_split o p q :
  in_block (S o) (parent o p) q <-> in_block o p q \/ in_block o (buddy o p) q.
Proof. unfold in_block, parent, buddy. rewrite pow2_S. pose proof (pow2_pos o). case_match; lia. Qed.

Lemma buddy_disjoint o p q : in_block o p q -> in_block o (buddy o p) q -> False.
Proof. unfold in_block, buddy. case_match; lia. Qed.

(** Blocks that meet are nested. *)
Lemma block_nested o o' p p' q :
  (o <= o')%nat -> aligned o p -> aligned o' p' -> in_block o p q -> in_block o' p' q ->
  forall r, in_block o p r -> in_block o' p' r.
Proof.
  intros Hle [k ->] [k' ->] H H' r Hr. unfold in_block in *. destruct (pow2_divide o o' Hle) as [d Hd].
  pose proof (pow2_pos o). pose proof (pow2_pos o'). rewrite Hd in *.
  assert (0 < d) by nia. assert (k < k' * d + d) by nia. assert (k' * d <= k) by nia. nia.
Qed.

Lemma block_same o p p' q :
  aligned o p -> aligned o p' -> in_block o p q -> in_block o p' q -> p = p'.
Proof.
  intros H H' Hq Hq'. pose proof (pow2_pos o).
  assert (in_block o p p) by (unfold in_block; lia). assert (in_block o p' p') by (unfold in_block; lia).
  pose proof (block_nested o o p p' q ltac:(lia) H H' Hq Hq' p). pose proof (block_nested o o p' p q ltac:(lia) H' H Hq' Hq p').
  unfold in_block in *. lia.
Qed.

Lemma in_block_head o p : in_block o p p.
Proof. unfold in_block. pose proof (pow2_pos o). lia. Qed.

(** ** The index arithmetic of the code *)

Lemma pow2_testbit o i : 0 <= i -> Z.testbit (pow2 o) i = (i =? Z.of_nat o).
Proof.
  intros Hi. unfold pow2. destruct (Z.eqb_spec i (Z.of_nat o)) as [->|].
  - apply Z.pow2_bits_true. lia.
  - apply Z.pow2_bits_false. lia.
Qed.

Lemma sub_pow2 x o : Z.testbit x (Z.of_nat o) = true -> x - pow2 o = Z.ldiff x (pow2 o).
Proof.
  intros H. apply Z.sub_nocarry_ldiff. apply Z.bits_inj'. intros i Hi.
  rewrite Z.ldiff_spec, pow2_testbit, Z.bits_0 by lia.
  destruct (Z.eqb_spec i (Z.of_nat o)) as [->|]; [now rewrite H|reflexivity].
Qed.

Lemma lxor_pow2 x o :
  Z.lxor x (pow2 o) = if Z.testbit x (Z.of_nat o) then x - pow2 o else x + pow2 o.
Proof.
  destruct (Z.testbit x (Z.of_nat o)) eqn:E.
  - rewrite sub_pow2 by exact E. apply Z.bits_inj'. intros i Hi.
    rewrite Z.lxor_spec, Z.ldiff_spec, pow2_testbit by lia.
    destruct (Z.eqb_spec i (Z.of_nat o)) as [->|]; [now rewrite E|]. now destruct (Z.testbit x i).
  - symmetry. apply Z.add_nocarry_lxor. apply Z.bits_inj'. intros i Hi.
    rewrite Z.land_spec, pow2_testbit, Z.bits_0 by lia.
    destruct (Z.eqb_spec i (Z.of_nat o)) as [->|]; [now rewrite E|apply andb_false_r].
Qed.

Lemma clear_pow2 x o :
  (o < 32)%nat -> is_u32 x ->
  x .& .~ (pow2 o) = if Z.testbit x (Z.of_nat o) then x - pow2 o else x.
Proof.
  intros Ho Hx. transitivity (Z.ldiff x (pow2 o)).
  - apply Z.bits_inj'. intros i Hi. rewrite Z.land_spec, testbit_not32, Z.ldiff_spec.
    destruct (Z.ltb_spec i 32); [destruct (Z.testbit (pow2 o) i); zcrush|].
    now rewrite (u32_testbit_high x i) by (assumption || lia).
  - destruct (Z.testbit x (Z.of_nat o)) eqn:E; [symmetry; now apply sub_pow2|].
    apply Z.bits_inj'. intros i Hi. rewrite Z.ldiff_spec, pow2_testbit by lia.
    destruct (Z.eqb_spec i (Z.of_nat o)) as [->|]; [now rewrite E|apply andb_true_r].
Qed.

(** [page_idx] is the page number within its MAX_ORDER block. *)
Record idx_of (page page_idx : Z) : Prop := {
  idx_range : 0 <= page_idx < pow2 MAX_ORDER;
  idx_cong : (pow2 MAX_ORDER | page - page_idx)
}.

Lemma idx_of_mask page : 0 <= page -> idx_of page (page .& ((1 .<< Z.of_nat MAX_ORDER) - 1)).
Proof.
  intros Hp. rewrite shl_pow2 by (unfold MAX_ORDER; lia).
  change (pow2 MAX_ORDER - 1) with (Z.ones 12). rewrite Z.land_ones by lia.
  change (2 ^ 12) with (pow2 MAX_ORDER). pose proof (pow2_pos MAX_ORDER).
  split; [apply Z.mod_pos_bound; lia|]. exists (page / pow2 MAX_ORDER). rewrite (Z.div_mod page (pow2 MAX_ORDER)) at 1 by lia. lia.
Qed.

Lemma idx_testbit page idx o :
  idx_of page idx -> (o < MAX_ORDER)%nat -> Z.testbit idx (Z.of_nat o) = Z.testbit page (Z.of_nat o).
Proof.
  intros [_ [k Hk]] Ho. replace page with (idx + k * pow2 MAX_ORDER) by lia.
  rewrite !Z.testbit_odd, !Z.shiftr_div_pow2 by lia.
  assert (E : k * pow2 MAX_ORDER = (k * 2 * pow2 (MAX_ORDER - 1 - o)) * 2 ^ Z.of_nat o).
  { unfold pow2. rewrite <- !Z.mul_assoc. f_equal. rewrite <- Z.pow_add_r by lia.
    rewrite <- Z.pow_succ_r by lia. f_equal. lia. }
  rewrite E, Z.div_add by (apply Z.pow_nonzero; lia). rewrite Z.odd_add.
  rewrite !Z.odd_mul. cbn. now rewrite andb_false_r, xorb_false_r.
Qed.

Lemma find_buddy_spec page idx o :
  idx_of page idx -> (o < MAX_ORDER)%nat -> page_find_buddy page idx o = buddy o page.
Proof.
  intros Hi Ho. unfold page_find_buddy, buddy. rewrite shl_pow2 by (unfold MAX_ORDER in *; lia).
  rewrite lxor_pow2, (idx_testbit page idx o Hi Ho). case_match; lia.
Qed.

Lemma combined_spec page idx o :
  idx_of page idx -> (o < MAX_ORDER)%nat ->
  page + (find_combined_index idx o - idx) = parent o page
  /\ idx_of (parent o page) (find_combined_index idx o).
Proof.
  intros Hi Ho. unfold find_combined_index. rewrite shl_pow2 by (unfold MAX_ORDER in *; lia).
  assert (Hu : is_u32 idx).
  { destruct Hi as [[H0 H1] _]. split; [lia|]. eapply Z.lt_trans; [exact H1|reflexivity]. }
  rewrite clear_pow2 by (assumption || (unfold MAX_ORDER in *; lia)).
  rewrite (idx_testbit page idx o Hi Ho). pose proof Hi as [Hr Hc]. unfold parent.
  pose proof (pow2_pos o). destruct (Z.testbit page (Z.of_nat o)) eqn:E.
  - split; [lia|]. split; [|replace (page - pow2 o - (idx - pow2 o)) with (page - idx) by lia; exact Hc].
    split; [|lia]. rewrite <- (idx_testbit page idx o Hi Ho) in E.
    rewrite sub_pow2 by exact E. apply Z.ldiff_nonneg. lia.
  - split; [lia|exact Hi].
Qed.

(** ** The invariant *)

(** All free blocks of one order. *)
Definition lists_of (z : zone) (o : nat) : list Z := concat (map (free_list z o) (seq 0 MIGRATE_TYPES)).

Definition free_page (z : zone) (q : Z) : Prop := exists o p, p ∈ lists_of z o /\ in_block o p q.

(** A block that lies in the zone. *)
Definition in_zone (z : zone) (o : nat) (p : Z) : Prop :=
  zone_start_pfn z <= p /\ p + pow2 o <= zone_start_pfn z + spanned_pages z.

(** A page that [check_new_page] has nothing against, its PG_buddy flag apart. *)
Definition clean (z : zone) (q : Z) : Prop :=
  _count (mem_map z q) = 0 /\ bad (mem_map z q) = false /\ dirty (mem_map z q) = false.

Record buddy_inv (z : zone) : Prop := {
  bi_start : 0 <= zone_start_pfn z;
  bi_id : forall q, zone_start_pfn z <= q < zone_start_pfn z + spanned_pages z ->
    page_zone_id z q = page_zone_id z (zone_start_pfn z);
  bi_order : forall o p, p ∈ lists_of z o -> (o < MAX_ORDER)%nat;
  bi_aligned : forall o p, p ∈ lists_of z o -> aligned o p;
  bi_zone : forall o p, p ∈ lists_of z o -> in_zone z o p;
  bi_mark : forall o p, p ∈ lists_of z o ->
    PageBuddy (mem_map z p) = true /\ private (mem_map z p) = o;
  bi_marked : forall p, PageBuddy (mem_map z p) = true -> p ∈ lists_of z (private (mem_map z p));
  bi_nodup : forall o, NoDup (lists_of z o);
  bi_nr : forall o, nr_free z o = Z.of_nat (length (lists_of z o));
  bi_disjoint : forall o o' p p' q, p ∈ lists_of z o -> p' ∈ lists_of z o' ->
    in_block o p q -> in_block o' p' q -> o = o' /\ p = p';
  bi_merged : forall o p, (S o < MAX_ORDER)%nat -> p ∈ lists_of z o -> buddy o p ∉ lists_of z o;
  bi_clean : forall q, free_page z q -> clean z q;
  bi_types : forall b, (pageblock z b < MIGRATE_ISOLATE)%nat;
  bi_isolate : forall o, free_list z o MIGRATE_ISOLATE = []
}.

Lemma head_free z o p : p ∈ lists_of z o -> free_page z p.
Proof. intros H. exists o, p. split; [exact H|apply in_block_head]. Qed.

(** *** The list operations *)

Lemma lists_of_del p z o : lists_of (list_del p z) o = filter (fun q => q <> p) (lists_of z o).
Proof.
  unfold lists_of, list_del. zone_simpl. induction (seq 0 MIGRATE_TYPES) as [|t l IH]; [reflexivity|].
  cbn [map concat]. now rewrite filter_app, IH.
Qed.

Lemma lists_of_add p o mt z o' :
  (mt < MIGRATE_TYPES)%nat ->
  lists_of (list_add p o mt z) o' ≡ₚ if decide (o' = o) then p :: lists_of z o' else lists_of z o'.
Proof.
  intros Hmt. unfold lists_of, list_add. zone_simpl. destruct (decide (o' = o)) as [->|Hne].
  - change (seq 0 MIGRATE_TYPES) with [0; 1; 2; 3; 4]%nat. cbn [map concat]. rewrite !app_nil_r.
    unfold MIGRATE_TYPES in Hmt.
    destruct mt as [|[|[|[|[|mt]]]]]; [..|lia];
      repeat (first [rewrite decide_True by auto | rewrite decide_False by (intros [_ ?]; lia)]);
      cbn [app]; rewrite <- ?Permutation_middle; try reflexivity; solve_Permutation.
  - erewrite map_ext; [reflexivity|]. intros t. cbn. now rewrite decide_False by (intros [? _]; contradiction).
Qed.

Lemma elem_of_del p z o q : q ∈ lists_of (list_del p z) o <-> q <> p /\ q ∈ lists_of z o.
Proof. rewrite lists_of_del, list_elem_of_filter. reflexivity. Qed.

Lemma elem_of_add p o mt z o' q :
  (mt < MIGRATE_TYPES)%nat ->
  q ∈ lists_of (list_add p o mt z) o' <-> (o' = o /\ q = p) \/ q ∈ lists_of z o'.
Proof.
  intros Hmt. rewrite (lists_of_add p o mt z o' Hmt).
  destruct (decide (o' = o)); [rewrite elem_of_cons|]; intuition.
Qed.

Lemma filter_neq_id (p : Z) (l : list Z) : p ∉ l -> filter (fun q => q <> p) l = l.
Proof.
  induction l as [|x l IH]; intros H; [reflexivity|]. apply not_elem_of_cons in H as [Hx Hl].
  rewrite filter_cons, decide_True by congruence. now rewrite IH.
Qed.

(** Taking one element out of a list without duplicates. *)
Lemma filter_neq_length (p : Z) (l : list Z) :
  NoDup l -> p ∈ l -> Z.of_nat (length (filter (fun q => q <> p) l)) = Z.of_nat (length l) - 1.
Proof.
  induction 1 as [|x l Hx Hl IH]; intros Hp; [inversion Hp|]. rewrite filter_cons.
  destruct (decide (x <> p)) as [Hne|He].
  - apply elem_of_cons in Hp as [|Hp]; [congruence|]. cbn [length]. specialize (IH Hp). lia.
  - assert (x = p) as -> by (destruct (Z.eq_dec x p); [assumption|contradiction]).
    rewrite filter_neq_id by exact Hx. cbn [length]. lia.
Qed.

(** The three steps that take a free block off its list. *)
Definition take (o : nat) (p : Z) (z : zone) : zone :=
  add_nr_free o (-1) (rmv_page_order p (list_del p z)).

Lemma take_spec o p z :
  buddy_inv z -> p ∈ lists_of z o ->
  buddy_inv (take o p z)
  /\ (forall o' p', p' ∈ lists_of (take o p z) o' <-> p' <> p /\ p' ∈ lists_of z o')
  /\ (forall q, free_page (take o p z) q <-> free_page z q /\ ~ in_block o p q).
Proof.
  intros Hi Hp. pose proof Hi as [Hs Hid Ho Ha Hz Hm Hmk Hnd Hnr Hdj Hmg Hcl Hty Hiso].
  assert (HL : forall o' p', p' ∈ lists_of (take o p z) o' <-> p' <> p /\ p' ∈ lists_of z o')
    by (intros; apply elem_of_del).
  assert (Hfree : forall q, free_page (take o p z) q <-> free_page z q /\ ~ in_block o p q).
  { intros q. split.
    - intros (o' & p' & [Hne H']%HL & Hq). split; [now exists o', p'|].
      intros Hq'. destruct (Hdj o o' p p' q Hp H' Hq' Hq). congruence.
    - intros [(o' & p' & H' & Hq) Hn]. exists o', p'. split; [|exact Hq]. apply HL. split; [|exact H'].
      intros ->. destruct (Hm _ _ Hp), (Hm _ _ H'). congruence. }
  split; [|split; [exact HL|exact Hfree]].
  assert (Hmem : forall q, q <> p -> mem_map (take o p z) q = mem_map z q).
  { intros q Hq. unfold take, rmv_page_order, upd_page, add_nr_free. zone_simpl. now rewrite decide_False. }
  split; try assumption.
  - intros o' p' [_ H']%HL. eauto.
  - intros o' p' [_ H']%HL. eauto.
  - intros o' p' [_ H']%HL. exact (Hz _ _ H').
  - intros o' p' [Hne H']%HL. rewrite Hmem by exact Hne. eauto.
  - intros p' Hf. destruct (Z.eq_dec p' p) as [->|Hne].
    + exfalso. revert Hf. unfold take, rmv_page_order, upd_page, add_nr_free. zone_simpl.
      rewrite decide_True by reflexivity. discriminate.
    + rewrite Hmem in * by exact Hne. apply HL. eauto.
  - intros o'. change (NoDup (lists_of (list_del p z) o')). rewrite lists_of_del. now apply NoDup_filter.
  - intros o'. change (nr_free (take o p z) o') with (if decide (o' = o) then nr_free z o' + -1 else nr_free z o').
    change (lists_of (take o p z) o') with (lists_of (list_del p z) o'). rewrite lists_of_del, Hnr.
    destruct (decide (o' = o)) as [->|Hne].
    + now rewrite filter_neq_length by auto.
    + rewrite filter_neq_id; [reflexivity|]. intros H'. destruct (Hm _ _ Hp), (Hm _ _ H'). congruence.
  - intros o1 o2 p1 p2 q [_ H1]%HL [_ H2]%HL. eauto.
  - intros o' p' Hlt [_ H']%HL [_ Hb]%HL. exact (Hmg o' p' Hlt H' Hb).
  - intros q [Hq Hn]%Hfree. destruct (Hcl q Hq) as [Hc Hb]. destruct (Z.eq_dec q p) as [->|Hne].
    + exfalso. apply Hn, in_block_head.
    + unfold clean. rewrite Hmem by exact Hne. auto.
  - intros o'. change (free_list (take o p z) o' MIGRATE_ISOLATE)
      with (filter (fun q => q <> p) (free_list z o' MIGRATE_ISOLATE)). now rewrite Hiso.
Qed.

Lemma lt_types mt : (mt < MIGRATE_ISOLATE)%nat -> (mt < MIGRATE_TYPES)%nat.
Proof. unfold MIGRATE_ISOLATE, MIGRATE_TYPES. lia. Qed.

(** The three steps that put a free block on a list. *)
Definition put (o mt : nat) (p : Z) (z : zone) : zone :=
  add_nr_free o 1 (list_add p o mt (set_page_order p o z)).

(** A block that may become free as it is. *)
Record held (z : zone) (o : nat) (p : Z) : Prop := {
  held_order : (o < MAX_ORDER)%nat;
  held_aligned : aligned o p;
  held_zone : in_zone z o p;
  held_free : forall q, in_block o p q -> ~ free_page z q;
  held_clean : forall q, in_block o p q -> clean z q
}.

Lemma put_spec o mt p z :
  buddy_inv z -> held z o p -> (mt < MIGRATE_ISOLATE)%nat ->
  ((S o < MAX_ORDER)%nat -> buddy o p ∉ lists_of z o) ->
  buddy_inv (put o mt p z)
  /\ (forall o' p', p' ∈ lists_of (put o mt p z) o' <-> (o' = o /\ p' = p) \/ p' ∈ lists_of z o')
  /\ (forall q, free_page (put o mt p z) q <-> free_page z q \/ in_block o p q).
Proof.
  intros Hi [Ho Ha Hz Hf Hc] Hmt Hb. pose proof Hi as [Hs Hid Ho' Ha' Hz' Hm Hmk Hnd Hnr Hdj Hmg Hcl Hty Hiso].
  assert (HL : forall o' p', p' ∈ lists_of (put o mt p z) o' <-> (o' = o /\ p' = p) \/ p' ∈ lists_of z o')
    by (intros; exact (elem_of_add p o mt (set_page_order p o z) o' p' (lt_types mt Hmt))).
  assert (Hnew : p ∉ lists_of z o) by (intros H; apply (Hf p); [apply in_block_head|eapply head_free; eauto]).
  assert (Hfree : forall q, free_page (put o mt p z) q <-> free_page z q \/ in_block o p q).
  { intros q. split.
    - intros (o1 & p1 & [[-> ->]|H1]%HL & Hq); [now right|left; now exists o1, p1].
    - intros [(o1 & p1 & H1 & Hq)|Hq]; [exists o1, p1|exists o, p]; (split; [apply HL; auto|exact Hq]). }
  assert (Hmem : forall q, q <> p -> mem_map (put o mt p z) q = mem_map z q).
  { intros q Hq. unfold put, set_page_order, upd_page, add_nr_free, list_add. zone_simpl. now rewrite decide_False. }
  assert (Hmp : mem_map (put o mt p z) p =
    {| PageBuddy := true; private := o; _count := _count (mem_map z p); bad := bad (mem_map z p);
       dirty := dirty (mem_map z p) |}).
  { unfold put, set_page_order, upd_page, add_nr_free, list_add. zone_simpl. now rewrite decide_True. }
  assert (Hne : forall o1 p1, p1 ∈ lists_of z o1 -> p1 <> p).
  { intros o1 p1 H1 ->. apply (Hf p); [apply in_block_head|eapply head_free; eauto]. }
  split; [|split; [exact HL|exact Hfree]]. split; try assumption.
  - intros o1 p1 [[-> ->]|H1]%HL; eauto.
  - intros o1 p1 [[-> ->]|H1]%HL; eauto.
  - intros o1 p1 [[-> ->]|H1]%HL; [exact Hz|exact (Hz' _ _ H1)].
  - intros o1 p1 [[-> ->]|H1]%HL; [rewrite Hmp; auto|]. rewrite Hmem by eauto. eauto.
  - intros p1 Hf1. destruct (Z.eq_dec p1 p) as [->|Hn].
    + rewrite Hmp. apply HL. auto.
    + rewrite Hmem in * by exact Hn. apply HL. auto.
  - intros o1. change (lists_of (put o mt p z) o1) with (lists_of (list_add p o mt (set_page_order p o z)) o1).
    rewrite (lists_of_add p o mt _ o1 (lt_types mt Hmt)). destruct (decide (o1 = o)) as [->|]; [|apply Hnd].
    constructor; [exact Hnew|apply Hnd].
  - intros o1. change (lists_of (put o mt p z) o1) with (lists_of (list_add p o mt (set_page_order p o z)) o1).
    rewrite (lists_of_add p o mt _ o1 (lt_types mt Hmt)).
    change (nr_free (put o mt p z) o1) with (if decide (o1 = o) then nr_free z o1 + 1 else nr_free z o1).
    change (lists_of (set_page_order p o z) o1) with (lists_of z o1). rewrite Hnr.
    destruct (decide (o1 = o)); cbn [length]; lia.
  - intros o1 o2 p1 p2 q [[-> ->]|H1]%HL [[-> ->]|H2]%HL Hq1 Hq2; auto.
    + exfalso. apply (Hf q Hq1). now exists o2, p2.
    + exfalso. apply (Hf q Hq2). now exists o1, p1.
    + eauto.
  - intros o1 p1 Hlt [[-> ->]|H1]%HL [[Eo Eb]|H2]%HL.
    + now apply (buddy_neq o p).
    + now apply (Hb Hlt).
    + subst o1. apply (Hb Hlt). rewrite <- Eb, buddy_invol by eauto. exact H1.
    + exact (Hmg o1 p1 Hlt H1 H2).
  - intros q [Hq|Hq]%Hfree; (destruct (Z.eq_dec q p) as [->|Hn]; [|unfold clean; rewrite Hmem by exact Hn]).
    + unfold clean. rewrite Hmp. exact (Hcl _ Hq).
    + exact (Hcl _ Hq).
    + unfold clean. rewrite Hmp. exact (Hc _ Hq).
    + exact (Hc _ Hq).
  - intros o1. change (free_list (put o mt p z) o1 MIGRATE_ISOLATE) with
      (if decide (o1 = o /\ MIGRATE_ISOLATE = mt) then p :: free_list z o1 MIGRATE_ISOLATE
       else free_list z o1 MIGRATE_ISOLATE).
    rewrite decide_False by (intros [_ <-]; lia). apply Hiso.
Qed.

(** ** Freeing *)

(** What list operations leave alone. *)
Record frame (z z' : zone) : Prop := {
  fr_start : zone_start_pfn z' = zone_start_pfn z;
  fr_span : spanned_pages z' = spanned_pages z;
  fr_count : forall q, _count (mem_map z' q) = _count (mem_map z q);
  fr_bad : forall q, bad (mem_map z' q) = bad (mem_map z q);
  fr_dirty : forall q, dirty (mem_map z' q) = dirty (mem_map z q);
  fr_pages : nr_free_pages z' = nr_free_pages z;
  fr_pcp : pcp z' = pcp z
}.

#[global] Instance frame_preorder : PreOrder frame.
Proof.
  split; [intros z; split; reflexivity|]. intros z1 z2 z3 [] []. split; intros; congruence.
Qed.

Lemma frame_upd p f z :
  (forall g, _count (f g) = _count g) -> (forall g, bad (f g) = bad g) ->
  (forall g, dirty (f g) = dirty g) -> frame z (upd_page p f z).
Proof. intros Hc Hb Hd. split; intros; unfold upd_page; zone_simpl; try case_decide; auto. Qed.

Lemma frame_take o p z : frame z (take o p z).
Proof. transitivity (rmv_page_order p (list_del p z)); [|now split].
  transitivity (list_del p z); [now split|]. now apply frame_upd. Qed.

Lemma frame_put o mt p z : frame z (put o mt p z).
Proof. transitivity (set_page_order p o z); [now apply frame_upd|now split]. Qed.

Lemma mem_take o p z q : q <> p -> mem_map (take o p z) q = mem_map z q.
Proof. intros Hq. unfold take, rmv_page_order, upd_page, add_nr_free. zone_simpl. now rewrite decide_False. Qed.

Lemma mem_put o mt p z q : q <> p -> mem_map (put o mt p z) q = mem_map z q.
Proof.
  intros Hq. unfold put, set_page_order, upd_page, add_nr_free, list_add. zone_simpl. now rewrite decide_False.
Qed.

Lemma clean_frame z z' q : frame z z' -> clean z q -> clean z' q.
Proof.
  intros Hf (Hc & Hb & Hd). unfold clean.
  now rewrite (fr_count _ _ Hf), (fr_bad _ _ Hf), (fr_dirty _ _ Hf).
Qed.

Lemma in_zone_frame z z' o p : frame z z' -> in_zone z o p -> in_zone z' o p.
Proof. intros Hf [H1 H2]. split; rewrite ?(fr_start _ _ Hf), ?(fr_span _ _ Hf); assumption. Qed.

Lemma is_buddy_spec z p b o :
  buddy_inv z -> in_zone z o p -> page_is_buddy z p b o = true <-> b ∈ lists_of z o.
Proof.
  intros Hi [Hz1 Hz2]. pose proof (pow2_pos o). unfold page_is_buddy. split.
  - case_match; [discriminate|]. intros [Hf Ho%bool_decide_eq_true]%andb_true_iff.
    rewrite <- Ho. now apply (bi_marked z Hi).
  - intros Hb. destruct (bi_zone z Hi o b Hb) as [Hb1 Hb2].
    rewrite (bi_id z Hi p) by lia. rewrite (bi_id z Hi b) by lia. rewrite Z.eqb_refl. cbn [negb].
    destruct (bi_mark z Hi o b Hb) as [-> ->]. cbn [andb]. now apply bool_decide_eq_true.
Qed.

(** Merging with the free buddy: the parent block is held instead. *)
Lemma merge_step z o p :
  buddy_inv z -> held z o p -> (S o < MAX_ORDER)%nat -> buddy o p ∈ lists_of z o ->
  buddy_inv (take o (buddy o p) z) /\ held (take o (buddy o p) z) (S o) (parent o p)
  /\ (forall q, free_page (take o (buddy o p) z) q \/ in_block (S o) (parent o p) q
                <-> free_page z q \/ in_block o p q).
Proof.
  intros Hi [Ho Ha Hz Hf Hc] Hlt Hb. destruct (take_spec o (buddy o p) z Hi Hb) as (Hi' & _ & Hfree).
  pose proof (frame_take o (buddy o p) z) as Hfr.
  assert (Hbz := bi_zone z Hi o (buddy o p) Hb).
  split; [exact Hi'|]. split.
  - split; [exact Hlt|now apply parent_aligned| | |].
    + apply (in_zone_frame z); [exact Hfr|]. unfold in_zone, parent, buddy in *. rewrite pow2_S.
      case_match; lia.
    + intros q Hq [Hfq Hnq]%Hfree. apply parent_split in Hq as [Hq|Hq]; [exact (Hf q Hq Hfq)|contradiction].
    + intros q Hq. apply (clean_frame z); [exact Hfr|].
      apply parent_split in Hq as [Hq|Hq]; [now apply Hc|]. apply (bi_clean z Hi). now exists o, (buddy o p).
  - intros q. rewrite parent_split, Hfree. split.
    + intros [[H _]|[H|H]]; [now left|now right|left; now exists o, (buddy o p)].
    + intros [H|H]; [|auto]. destruct (decide (in_block o (buddy o p) q)) as [|Hn]; auto.
Qed.

Lemma merge_loop_spec n z p idx o :
  buddy_inv z -> held z o p -> idx_of p idx -> (n + S o = MAX_ORDER)%nat ->
  exists z' p' o', merge_loop n z p idx o = (z', p', o')
  /\ buddy_inv z' /\ held z' o' p' /\ frame z z' /\ pageblock z' = pageblock z
  /\ ((S o' < MAX_ORDER)%nat -> buddy o' p' ∉ lists_of z' o')
  /\ (forall q, free_page z' q \/ in_block o' p' q <-> free_page z q \/ in_block o p q)
  /\ (forall q, ~ free_page z q -> mem_map z' q = mem_map z q).
Proof.
  revert z p idx o. induction n as [|n IH]; intros z p idx o Hi Hh Hidx Hn; cbn [merge_loop].
  - exists z, p, o. split; [reflexivity|]. split; [exact Hi|]. split; [exact Hh|]. split; [reflexivity|].
    split; [reflexivity|]. split; [lia|]. split; reflexivity.
  - rewrite (find_buddy_spec p idx o Hidx) by lia.
    destruct (page_is_buddy z p (buddy o p) o) eqn:Eb; cbn [negb].
    + apply is_buddy_spec in Eb; [|exact Hi|apply Hh].
      change (rmv_page_order (buddy o p) (add_nr_free o (-1) (list_del (buddy o p) z)))
        with (take o (buddy o p) z).
      destruct (merge_step z o p Hi Hh ltac:(lia) Eb) as (Hi' & Hh' & Hq).
      destruct (combined_spec p idx o Hidx ltac:(lia)) as [-> Hidx'].
      destruct (IH _ _ _ _ Hi' Hh' Hidx' ltac:(lia)) as (z' & p' & o' & E & H1 & H2 & H3 & H4 & H5 & H6 & H7).
      exists z', p', o'. split; [exact E|]. split; [exact H1|]. split; [exact H2|].
      split; [etransitivity; [apply frame_take|exact H3]|]. split; [exact H4|]. split; [exact H5|].
      split; [intros q; now rewrite H6, Hq|]. intros q Hnf. rewrite H7.
      * apply mem_take. intros ->. apply Hnf. now exists o, (buddy o p); auto using in_block_head.
      * intros Hf. apply Hnf. destruct (take_spec o (buddy o p) z Hi Eb) as (_ & _ & Ht). now apply Ht.
    + exists z, p, o. split; [reflexivity|]. split; [exact Hi|]. split; [exact Hh|]. split; [reflexivity|].
      split; [reflexivity|]. split; [|split; reflexivity]. intros _ Hb.
      apply (is_buddy_spec z p (buddy o p) o Hi ltac:(apply Hh)) in Hb. congruence.
Qed.

(** [__free_one_page] gives exactly the held block back and keeps the invariant. *)
Lemma free_core_spec z p o mt :
  buddy_inv z -> held z o p -> (mt < MIGRATE_ISOLATE)%nat ->
  let z' := free_one_page_core p o mt z in
  buddy_inv z' /\ frame z z' /\ pageblock z' = pageblock z
  /\ (forall q, free_page z' q <-> free_page z q \/ in_block o p q)
  /\ (forall q, ~ free_page z q -> ~ in_block o p q -> mem_map z' q = mem_map z q).
Proof.
  intros Hi Hh Hmt. unfold free_one_page_core.
  assert (Hp : 0 <= p) by (destruct (held_zone _ _ _ Hh); pose proof (bi_start z Hi); lia).
  destruct (merge_loop_spec (MAX_ORDER - 1 - o) z p _ o Hi Hh (idx_of_mask p Hp))
    as (z1 & p1 & o1 & -> & Hi1 & Hh1 & Hf1 & Hpb & Hb1 & Hq1 & Hm1); [destruct Hh; lia|].
  change (add_nr_free o1 1 (list_add p1 o1 mt (set_page_order p1 o1 z1))) with (put o1 mt p1 z1).
  destruct (put_spec o1 mt p1 z1 Hi1 Hh1 Hmt Hb1) as (Hi2 & _ & Hq2).
  split; [exact Hi2|]. split; [etransitivity; [exact Hf1|apply frame_put]|]. split; [exact Hpb|].
  split; [intros q; now rewrite Hq2, Hq1|]. intros q Hn Hnb. rewrite mem_put; [now apply Hm1|].
  intros ->. destruct (proj1 (Hq1 p1)); [right; apply in_block_head|contradiction..].
Qed.

(** ** Allocating *)

(** [expand] frees all of a held block but its beginning. *)
Lemma expand_spec n z p o mt :
  buddy_inv z -> held z o p -> (mt < MIGRATE_ISOLATE)%nat -> (n <= o)%nat ->
  let z' := expand n z p o mt in
  buddy_inv z' /\ held z' (o - n) p /\ frame z z' /\ pageblock z' = pageblock z
  /\ (forall q, free_page z' q <-> free_page z q \/ (in_block o p q /\ ~ in_block (o - n) p q))
  /\ (forall q, ~ in_block o p q -> mem_map z' q = mem_map z q).
Proof.
  revert z o. induction n as [|n IH]; intros z o Hi Hh Hmt Hn; cbn [expand].
  - rewrite Nat.sub_0_r. split; [exact Hi|]. split; [exact Hh|]. split; [reflexivity|]. split; [reflexivity|].
    split; [intros q; tauto|reflexivity].
  - destruct o as [|o]; [lia|]. replace (S o - 1)%nat with o by lia. replace (S o - S n)%nat with (o - n)%nat by lia.
    destruct Hh as [Ho Ha Hz Hf Hc]. pose proof (pow2_pos o).
    rewrite shl_pow2 by (unfold MAX_ORDER in Ho; lia).
    assert (Hsub : forall q, in_block o (p + pow2 o) q -> in_block (S o) p q).
    { intros q. unfold in_block. rewrite pow2_S. lia. }
    assert (Hr : held z o (p + pow2 o)).
    { split; [lia| | | |].
      - apply Z.divide_add_r; [|apply Z.divide_refl]. apply (aligned_le o (S o)); [lia|exact Ha].
      - unfold in_zone in *. rewrite pow2_S in Hz. lia.
      - eauto.
      - eauto. }
    change (set_page_order (p + pow2 o) o (add_nr_free o 1 (list_add (p + pow2 o) o mt z)))
      with (put o mt (p + pow2 o) z).
    destruct (put_spec o mt (p + pow2 o) z Hi Hr Hmt) as (Hi' & _ & Hq').
    { intros _ Hb. rewrite buddy_right in Hb by exact Ha. apply (Hf p); [apply in_block_head|].
      eapply head_free, Hb. }
    pose proof (frame_put o mt (p + pow2 o) z) as Hfr.
    destruct (IH (put o mt (p + pow2 o) z) o Hi') as (H1 & H2 & H3 & H4 & H5 & H6); [|exact Hmt|lia|].
    { split; [lia|apply (aligned_le o (S o)); [lia|exact Ha]| | |].
      - apply (in_zone_frame z); [exact Hfr|]. unfold in_zone in *. rewrite pow2_S in Hz. lia.
      - intros q Hq [Hfq|Hfq]%Hq'.
        + apply (Hf q); [|exact Hfq]. unfold in_block in *. rewrite pow2_S. lia.
        + unfold in_block in *. lia.
      - intros q Hq. apply (clean_frame z); [exact Hfr|]. apply Hc. unfold in_block in *. rewrite pow2_S. lia. }
    split; [exact H1|]. split; [exact H2|]. split; [etransitivity; [exact Hfr|exact H3]|]. split; [exact H4|].
    assert (Hle : pow2 (o - n) <= pow2 o) by (apply pow2_le; lia).
    split; [|intros q Hnb; rewrite H6, mem_put; [reflexivity|unfold in_block in *; rewrite pow2_S in Hnb; lia..]].
    intros q. rewrite H5, Hq'. unfold in_block. rewrite pow2_S. split; [intros [[?|?]|?]|intros [?|?]]; auto; try (right; lia).
    destruct (Z.lt_ge_cases q (p + pow2 o)); [right; lia|left; right; lia].
Qed.

(** A block of order [o] at [p] has been handed out of the free pages. *)
Record granted (z : zone) (o : nat) (p : Z) (z' : zone) : Prop := {
  gr_inv : buddy_inv z';
  gr_held : held z' o p;
  gr_frame : frame z z';
  gr_was : forall q, in_block o p q -> free_page z q;
  gr_free : forall q, free_page z' q <-> free_page z q /\ ~ in_block o p q;
  gr_mem : forall q, ~ free_page z q -> mem_map z' q = mem_map z q
}.

Lemma take_held o p z : buddy_inv z -> p ∈ lists_of z o -> held (take o p z) o p.
Proof.
  intros Hi Hp. destruct (take_spec o p z Hi Hp) as (_ & _ & Hq). pose proof (frame_take o p z) as Hfr.
  split; [exact (bi_order z Hi o p Hp)|exact (bi_aligned z Hi o p Hp)| | |].
  - apply (in_zone_frame z); [exact Hfr|]. exact (bi_zone z Hi o p Hp).
  - intros q Hb [_ Hn]%Hq. contradiction.
  - intros q Hb. apply (clean_frame z); [exact Hfr|]. apply (bi_clean z Hi). now exists o, p.
Qed.

(** Taking a free block and giving the rest of it back. *)
Lemma take_expand z o co p mt :
  buddy_inv z -> p ∈ lists_of z co -> (o <= co)%nat -> (mt < MIGRATE_ISOLATE)%nat ->
  granted z o p (expand (co - o) (take co p z) p co mt).
Proof.
  intros Hi Hp Ho Hmt. destruct (take_spec co p z Hi Hp) as (Hi1 & _ & Hq1).
  destruct (expand_spec (co - o) (take co p z) p co mt Hi1 (take_held co p z Hi Hp) Hmt ltac:(lia))
    as (Hi2 & Hh2 & Hf2 & _ & Hq2 & Hm2).
  replace (co - (co - o))%nat with o in * by lia.
  assert (Hsub : forall q, in_block o p q -> in_block co p q).
  { intros q. unfold in_block. pose proof (pow2_le o co Ho). lia. }
  split; [exact Hi2|exact Hh2|etransitivity; [apply frame_take|exact Hf2]| | |].
  - intros q Hq. exists co, p. auto.
  - intros q. rewrite Hq2, Hq1. split.
    + intros [[H Hn]|[H Hn]]; [auto|]. split; [now exists co, p|exact Hn].
    + intros [H Hn]. destruct (decide (in_block co p q)); auto.
  - intros q Hn. rewrite Hm2; [apply mem_take; intros ->; now apply Hn, (head_free z co)|].
    intros Hq. apply Hn. now exists co, p.
Qed.

Lemma elem_of_lists z o t p : (t < MIGRATE_TYPES)%nat -> p ∈ free_list z o t -> p ∈ lists_of z o.
Proof.
  intros Ht Hp. unfold lists_of. apply list_elem_of_In, in_concat. exists (free_list z o t).
  split; [apply in_map, in_seq; lia|now apply list_elem_of_In].
Qed.

Lemma rmqueue_smallest_loop_spec n z o co mt :
  buddy_inv z -> (mt < MIGRATE_ISOLATE)%nat -> (o <= co)%nat -> (n + co = MAX_ORDER)%nat ->
  match rmqueue_smallest_loop n o co mt z with
  | (Some p, z') => granted z o p z'
  | (None, z') => z' = z /\ forall o', (co <= o' < MAX_ORDER)%nat -> free_list z o' mt = []
  end.
Proof.
  revert co. induction n as [|n IH]; intros co Hi Hmt Ho Hn; cbn [rmqueue_smallest_loop].
  - split; [reflexivity|lia].
  - destruct (free_list z co mt) as [|p l] eqn:E.
    + specialize (IH (S co) Hi Hmt ltac:(lia) ltac:(lia)).
      destruct (rmqueue_smallest_loop n o (S co) mt z) as [[p|] z']; [exact IH|].
      destruct IH as [-> H]. split; [reflexivity|]. intros o' Ho'.
      destruct (Nat.eq_dec o' co) as [->|]; [exact E|apply H; lia].
    + change (add_nr_free co (-1) (rmv_page_order p (list_del p z))) with (take co p z).
      apply take_expand; try assumption. apply (elem_of_lists z co mt); [exact (lt_types mt Hmt)|].
      rewrite E. left.
Qed.

Lemma rmqueue_smallest_spec z o mt :
  buddy_inv z -> (mt < MIGRATE_ISOLATE)%nat -> (o < MAX_ORDER)%nat ->
  match rmqueue_smallest o mt z with
  | (Some p, z') => granted z o p z'
  | (None, z') => z' = z /\ forall o', (o <= o' < MAX_ORDER)%nat -> free_list z o' mt = []
  end.
Proof. intros. apply rmqueue_smallest_loop_spec; try assumption; lia. Qed.

(** *** Moving blocks between the lists of one order *)

(** The blocks are the same, on possibly other lists. *)
Record moved (z z' : zone) : Prop := {
  mv_lists : forall o, lists_of z' o ≡ₚ lists_of z o;
  mv_nr : nr_free z' = nr_free z;
  mv_mem : mem_map z' = mem_map z;
  mv_start : zone_start_pfn z' = zone_start_pfn z;
  mv_span : spanned_pages z' = spanned_pages z;
  mv_id : page_zone_id z' = page_zone_id z;
  mv_pages : nr_free_pages z' = nr_free_pages z;
  mv_pcp : pcp z' = pcp z;
  mv_types : (forall b, (pageblock z b < MIGRATE_ISOLATE)%nat) ->
    forall b, (pageblock z' b < MIGRATE_ISOLATE)%nat;
  mv_isolate : (forall o, free_list z o MIGRATE_ISOLATE = []) ->
    forall o, free_list z' o MIGRATE_ISOLATE = []
}.

#[global] Instance moved_preorder : PreOrder moved.
Proof.
  split; [intros z; now split|]. intros z1 z2 z3 [] []. split; try congruence; auto.
  intros o. etransitivity; eauto.
Qed.

Lemma moved_frame z z' : moved z z' -> frame z z'.
Proof. intros []. split; try congruence; intros; congruence. Qed.

Lemma moved_elem z z' o p : moved z z' -> p ∈ lists_of z' o <-> p ∈ lists_of z o.
Proof. intros H. now rewrite (mv_lists _ _ H o). Qed.

Lemma moved_free z z' q : moved z z' -> free_page z' q <-> free_page z q.
Proof.
  intros H. unfold free_page. setoid_rewrite (fun o p => moved_elem z z' o p H). reflexivity.
Qed.

Lemma moved_inv z z' : moved z z' -> buddy_inv z -> buddy_inv z'.
Proof.
  intros H [Hs Hid Ho Ha Hz Hm Hmk Hnd Hnr Hdj Hmg Hcl Hty Hiso]. pose proof H as [HL En Em Es Esp Eid _ _ Ety Eiso].
  split; rewrite ?En, ?Em, ?Es, ?Esp, ?Eid; try assumption.
  - intros o p Hp%(moved_elem z z' o p H). eauto.
  - intros o p Hp%(moved_elem z z' o p H). eauto.
  - intros o p Hp%(moved_elem z z' o p H). unfold in_zone. rewrite Es, Esp. exact (Hz o p Hp).
  - intros o p Hp%(moved_elem z z' o p H). eauto.
  - intros p Hp. apply (moved_elem z z' _ p H). eauto.
  - intros o. now rewrite (HL o).
  - intros o. now rewrite (HL o).
  - intros o o' p p' q Hp%(moved_elem z z' o p H) Hp'%(moved_elem z z' o' p' H). eauto.
  - intros o p Hlt Hp%(moved_elem z z' o p H) Hb%(moved_elem z z' o _ H). exact (Hmg o p Hlt Hp Hb).
  - intros q Hq%(moved_free z z' q H). unfold clean. rewrite Em. exact (Hcl q Hq).
  - auto.
  - auto.
Qed.

Lemma move_one z p mt :
  buddy_inv z -> PageBuddy (mem_map z p) = true -> (mt < MIGRATE_ISOLATE)%nat ->
  moved z (list_add p (private (mem_map z p)) mt (list_del p z)).
Proof.
  intros Hi Hp Hmt. pose proof (bi_marked z Hi p Hp) as Hin. set (o := private (mem_map z p)) in *.
  split; try reflexivity; [|auto|].
  2:{ intros Hiso o'. cbn [list_add list_del set_free_list set_free free_list].
      rewrite Hiso, decide_False by (intros [_ <-]; lia). reflexivity. }
  intros o'. rewrite (lists_of_add p o mt _ o' (lt_types mt Hmt)), lists_of_del.
  destruct (decide (o' = o)) as [->|Hne].
  - apply NoDup_Permutation.
    + constructor; [rewrite list_elem_of_filter; tauto|apply NoDup_filter, (bi_nodup z Hi)].
    + apply (bi_nodup z Hi).
    + intros q. rewrite elem_of_cons, list_elem_of_filter. destruct (Z.eq_dec q p) as [->|]; tauto.
  - rewrite filter_neq_id; [reflexivity|]. intros H'. destruct (bi_mark z Hi o p Hin), (bi_mark z Hi o' p H').
    congruence.
Qed.

Lemma move_freepages_spec fuel z p e mt :
  buddy_inv z -> (mt < MIGRATE_ISOLATE)%nat -> moved z (move_freepages fuel p e mt z).2.
Proof.
  revert z p. induction fuel as [|fuel IH]; intros z p Hi Hmt; cbn [move_freepages]; [reflexivity|].
  destruct (e <? p); [reflexivity|]. destruct (PageBuddy (mem_map z p)) eqn:Ep; cbn [negb]; [|now apply IH].
  pose proof (move_one z p mt Hi Ep Hmt) as Hm.
  specialize (IH (list_add p (private (mem_map z p)) mt (list_del p z))
    (p + (1 .<< Z.of_nat (private (mem_map z p)))) (moved_inv _ _ Hm Hi) Hmt).
  destruct (move_freepages _ _ _ _ _) as [k z']. cbn [snd] in *. etransitivity; eauto.
Qed.

(** The counter of the order is not looked at. *)
Lemma move_freepages_nr fuel z p e mt o k :
  move_freepages fuel p e mt (add_nr_free o k z)
  = let (n, z') := move_freepages fuel p e mt z in (n, add_nr_free o k z').
Proof.
  revert z p. induction fuel as [|fuel IH]; intros z p; cbn [move_freepages]; [reflexivity|].
  destruct (e <? p); [reflexivity|]. change (mem_map (add_nr_free o k z) p) with (mem_map z p).
  destruct (negb (PageBuddy (mem_map z p))); [apply IH|].
  change (list_add p (private (mem_map z p)) mt (list_del p (add_nr_free o k z)))
    with (add_nr_free o k (list_add p (private (mem_map z p)) mt (list_del p z))).
  rewrite IH. destruct (move_freepages _ _ _ _ _) as [n z']. reflexivity.
Qed.

Lemma move_block_spec z p mt o k :
  buddy_inv z -> (mt < MIGRATE_ISOLATE)%nat ->
  exists n z', moved z z' /\ move_freepages_block p mt (add_nr_free o k z) = (n, add_nr_free o k z').
Proof.
  intros Hi Hmt. unfold move_freepages_block. change (zone_start_pfn (add_nr_free o k z)) with (zone_start_pfn z).
  change (spanned_pages (add_nr_free o k z)) with (spanned_pages z).
  destruct (_ <=? _); [exists 0, z; split; reflexivity|]. rewrite move_freepages_nr.
  match goal with |- context [move_freepages ?a ?b ?c ?d ?e] =>
    pose proof (move_freepages_spec a e b c d Hi Hmt) as Hm; destruct (move_freepages a b c d e) as [n z'] end.
  exists n, z'. split; [exact Hm|reflexivity].
Qed.

(** Page-block types are only hints: nothing here depends on them. *)
Lemma set_pageblock_moved p mt z : moved z (set_pageblock_migratetype p mt z).
Proof.
  split; try reflexivity; auto. intros H b. cbn [set_pageblock_migratetype set_pageblock pageblock].
  case_decide; [unfold MIGRATE_UNMOVABLE, MIGRATE_ISOLATE; lia|apply H].
Qed.

Lemma change_pageblock_moved n p mt z : moved z (change_pageblock_range n p mt z).
Proof.
  revert p z. induction n as [|n IH]; intros p z; cbn [change_pageblock_range]; [reflexivity|].
  etransitivity; [apply set_pageblock_moved|apply IH].
Qed.

Lemma held_moved z z' o p : moved z z' -> held z o p -> held z' o p.
Proof.
  intros Hm [Ho Ha Hz Hf Hc]. pose proof (moved_frame z z' Hm) as Hfr. split; [exact Ho|exact Ha| | |].
  - now apply (in_zone_frame z).
  - intros q Hq Hfq%(moved_free z z' q Hm). exact (Hf q Hq Hfq).
  - intros q Hq. apply (clean_frame z); auto.
Qed.

(** [take_expand] with blocks changing lists before and after the block is taken. *)
Lemma take_moved_expand z z1 z2 o co p mt :
  buddy_inv z -> moved z z1 -> p ∈ lists_of z co -> moved (take co p z1) z2 ->
  (o <= co)%nat -> (mt < MIGRATE_ISOLATE)%nat ->
  granted z o p (expand (co - o) z2 p co mt).
Proof.
  intros Hi Hm1 Hp Hm2 Ho Hmt. pose proof (moved_inv _ _ Hm1 Hi) as Hi1.
  apply (moved_elem _ _ _ _ Hm1) in Hp. destruct (take_spec co p z1 Hi1 Hp) as (Hi2 & _ & Hq1).
  destruct (expand_spec (co - o) z2 p co mt (moved_inv _ _ Hm2 Hi2)
    (held_moved _ _ _ _ Hm2 (take_held co p z1 Hi1 Hp)) Hmt ltac:(lia)) as (Hi3 & Hh3 & Hf3 & _ & Hq3 & Hm3).
  replace (co - (co - o))%nat with o in * by lia.
  assert (Hsub : forall q, in_block o p q -> in_block co p q).
  { intros q. unfold in_block. pose proof (pow2_le o co Ho). lia. }
  split; [exact Hi3|exact Hh3| | | |].
  - etransitivity; [apply moved_frame, Hm1|]. etransitivity; [apply (frame_take co p)|].
    etransitivity; [apply moved_frame, Hm2|exact Hf3].
  - intros q Hq. apply (moved_free _ _ q Hm1). exists co, p. auto.
  - intros q. rewrite Hq3, (moved_free _ _ q Hm2), Hq1, <- (moved_free _ _ q Hm1). split.
    + intros [[H Hn]|[H Hn]]; [auto|]. split; [now exists co, p|exact Hn].
    + intros [H Hn]. destruct (decide (in_block co p q)); auto.
  - intros q Hn. rewrite <- (moved_free _ _ q Hm1) in Hn.
    rewrite Hm3, (mv_mem _ _ Hm2), mem_take, (mv_mem _ _ Hm1); [reflexivity| |].
    + intros ->. now apply Hn, (head_free z1 co).
    + intros Hq. apply Hn. now exists co, p.
Qed.

Lemma fallback_take_spec dis z p o co mt smt :
  buddy_inv z -> p ∈ lists_of z co -> (o <= co)%nat -> (mt < MIGRATE_ISOLATE)%nat -> (smt < MIGRATE_ISOLATE)%nat ->
  granted z o p (fallback_take dis p o co mt smt z).
Proof.
  intros Hi Hp Ho Hmt Hsmt. unfold fallback_take.
  destruct (move_block_spec z p smt co (-1) Hi Hsmt) as (n & z' & Hm & E). rewrite E.
  assert (Hchg : forall b z1, moved z1 (if b : bool
    then change_pageblock_range (2 ^ (co - pageblock_order))%nat p smt z1 else z1)).
  { intros [] z1; [apply change_pageblock_moved|reflexivity]. }
  destruct (_ || _ || dis).
  - assert (Hset : forall b : bool, exists z2, moved z z2
      /\ (if b then set_pageblock_migratetype p smt (add_nr_free co (-1) z') else add_nr_free co (-1) z')
         = add_nr_free co (-1) z2).
    { intros []; [|now exists z']. exists (set_pageblock_migratetype p smt z').
      split; [|reflexivity]. etransitivity; [exact Hm|apply set_pageblock_moved]. }
    destruct (Hset ((1 .<< Z.of_nat (pageblock_order - 1) <=? n) || dis)) as (z2 & Hm2 & ->).
    apply (take_moved_expand z z2); try assumption. apply Hchg.
  - apply (take_moved_expand z z); try assumption; [reflexivity|]. apply Hchg.
Qed.

Lemma fallback_type_spec z types co p mt :
  (forall t, t ∈ types -> (t < MIGRATE_ISOLATE)%nat) -> fallback_type types co z = Some (p, mt) ->
  p ∈ lists_of z co /\ (mt < MIGRATE_ISOLATE)%nat.
Proof.
  induction types as [|t types IH]; intros Ht E; cbn [fallback_type] in E; [discriminate|].
  assert (Htl : forall t', t' ∈ types -> (t' < MIGRATE_ISOLATE)%nat) by (intros; apply Ht; now right).
  case_bool_decide; [now apply IH|]. destruct (free_list z co t) as [|x l] eqn:El; [now apply IH|].
  injection E as -> ->. split; [|apply Ht; left]. apply (elem_of_lists z co mt); [apply lt_types, Ht; left|].
  rewrite El. left.
Qed.

Lemma fallback_type_none z types co t :
  fallback_type types co z = None -> t ∈ types -> t <> MIGRATE_RESERVE -> free_list z co t = [].
Proof.
  induction types as [|t' types IH]; intros E Ht Hr; [inversion Ht|]. cbn [fallback_type] in E.
  apply elem_of_cons in Ht as [->|Ht].
  - rewrite bool_decide_eq_false_2 in E by exact Hr. destruct (free_list z co t'); [reflexivity|discriminate].
  - case_bool_decide; [now apply IH|]. destruct (free_list z co t'); [now apply IH|discriminate].
Qed.

Lemma fallbacks_lt mt t : t ∈ fallbacks mt -> (t < MIGRATE_ISOLATE)%nat.
Proof.
  intros H. assert (Forall (fun t => t < MIGRATE_ISOLATE)%nat (fallbacks mt)) as Hf
    by (destruct mt as [|[|[|[|mt]]]]; repeat constructor; vm_compute; lia).
  exact (proj1 (Forall_forall _ _) Hf t H).
Qed.

Lemma rmqueue_fallback_loop_spec dis n z o smt :
  buddy_inv z -> (smt < MIGRATE_ISOLATE)%nat -> (n + o <= MAX_ORDER)%nat ->
  match rmqueue_fallback_loop dis n o smt z with
  | (Some p, z') => granted z o p z'
  | (None, z') => z' = z /\ forall o' t, (o <= o' < o + n)%nat -> t ∈ fallbacks smt -> t <> MIGRATE_RESERVE ->
                   free_list z o' t = []
  end.
Proof.
  induction n as [|n IH]; intros Hi Hs Hn; cbn [rmqueue_fallback_loop]; [split; [reflexivity|lia]|].
  destruct (fallback_type (fallbacks smt) (o + n) z) as [[p mt]|] eqn:E.
  - destruct (fallback_type_spec z _ _ p mt (fallbacks_lt smt) E). apply fallback_take_spec; try assumption. lia.
  - specialize (IH Hi Hs ltac:(lia)). destruct (rmqueue_fallback_loop dis n o smt z) as [[p|] z']; [exact IH|].
    destruct IH as [-> H]. split; [reflexivity|]. intros o' t Ho Ht Hr.
    destruct (Nat.eq_dec o' (o + n)%nat) as [->|]; [exact (fallback_type_none z _ _ t E Ht Hr)|apply H; auto; lia].
Qed.
