(* ===== verification/BuddyAlloc.v ===== *)
(** * The buddy system: what allocation promises

    [__rmqueue] finds a block whenever there is one, the shape of the free lists
    depends on the set of free pages only, and the zone's page counter and the
    watermark check agree with the lists. *)

From S2P Require Import Prelude PageAlloc Buddy.

(** ** [__rmqueue] *)

Lemma lists_of_nil z o :
  buddy_inv z -> (forall t, (t < MIGRATE_ISOLATE)%nat -> free_list z o t = []) -> lists_of z o = [].
Proof.
  intros Hi H. unfold lists_of. change (seq 0 MIGRATE_TYPES) with [0; 1; 2; 3; MIGRATE_ISOLATE]%nat. cbn [map concat].
  rewrite (bi_isolate z Hi o), !H by (unfold MIGRATE_ISOLATE; lia). reflexivity.
Qed.

(** The types [__rmqueue] looks at, for a request of one of the three ordinary types. *)
Lemma types_searched mt t :
  (mt < MIGRATE_PCPTYPES)%nat -> (t < MIGRATE_ISOLATE)%nat ->
  t = mt \/ t = MIGRATE_RESERVE \/ (t ∈ fallbacks mt /\ t <> MIGRATE_RESERVE).
Proof.
  unfold MIGRATE_PCPTYPES, MIGRATE_ISOLATE, MIGRATE_RESERVE. intros Hm Ht.
  destruct mt as [|[|[|]]]; [..|lia]; destruct t as [|[|[|[|]]]]; try lia; auto;
    right; right; (split; [|lia]); cbn; set_solver.
Qed.

Lemma rmqueue_spec dis z o mt :
  buddy_inv z -> (mt < MIGRATE_PCPTYPES)%nat -> (o < MAX_ORDER)%nat ->
  match rmqueue dis o mt z with
  | (Some p, z') => granted z o p z'
  | (None, z') => z' = z /\ forall o', (o <= o')%nat -> lists_of z o' = []
  end.
Proof.
  intros Hi Hmt Ho. assert (Hm4 : (mt < MIGRATE_ISOLATE)%nat) by (unfold MIGRATE_PCPTYPES, MIGRATE_ISOLATE in *; lia).
  unfold rmqueue. pose proof (rmqueue_smallest_spec z o mt Hi Hm4 Ho) as H1.
  destruct (rmqueue_smallest o mt z) as [[p|] z1]; [exact H1|]. destruct H1 as [-> H1].
  rewrite bool_decide_eq_false_2 by (unfold MIGRATE_PCPTYPES, MIGRATE_RESERVE in *; lia).
  pose proof (rmqueue_fallback_loop_spec dis (MAX_ORDER - o) z o mt Hi Hm4 ltac:(lia)) as H2.
  fold (rmqueue_fallback dis o mt z) in H2.
  destruct (rmqueue_fallback dis o mt z) as [[p|] z2]; [exact H2|]. destruct H2 as [-> H2].
  pose proof (rmqueue_smallest_spec z o MIGRATE_RESERVE Hi ltac:(unfold MIGRATE_RESERVE, MIGRATE_ISOLATE; lia) Ho) as H3.
  destruct (rmqueue_smallest o MIGRATE_RESERVE z) as [[p|] z3]; [exact H3|]. destruct H3 as [-> H3].
  split; [reflexivity|]. intros o' Ho'. destruct (Nat.lt_ge_cases o' MAX_ORDER) as [Hlt|Hge].
  - apply lists_of_nil; [exact Hi|]. intros t Ht.
    destruct (types_searched mt t Hmt Ht) as [->|[->|[Hf Hr]]]; [apply H1|apply H3|apply H2]; auto; lia.
  - destruct (lists_of z o') as [|p l] eqn:E; [reflexivity|].
    assert (Hp : p ∈ lists_of z o') by (rewrite E; left). pose proof (bi_order z Hi o' p Hp). lia.
Qed.

(** ** The lists are determined by the free pages *)

(** Every aligned block of free pages lies in one listed block. *)
Lemma free_block_head z o p :
  buddy_inv z -> aligned o p -> (o < MAX_ORDER)%nat -> (forall q, in_block o p q -> free_page z q) ->
  exists o' p', (o <= o')%nat /\ p' ∈ lists_of z o' /\ forall q, in_block o p q -> in_block o' p' q.
Proof.
  intros Hi. revert p. induction o as [|o IH]; intros p Ha Ho Hf.
  - destruct (Hf p (in_block_head 0 p)) as (o' & p' & Hp' & Hq). exists o', p'.
    split; [lia|]. split; [exact Hp'|]. intros q Hq0. assert (q = p) as -> by (unfold in_block, pow2 in Hq0; cbn in Hq0; lia).
    exact Hq.
  - assert (Ha0 : aligned o p) by (apply (aligned_le o (S o)); [lia|exact Ha]).
    assert (Hsub : forall q, in_block (S o) p q <-> in_block o p q \/ in_block o (p + pow2 o) q).
    { intros q. unfold in_block. rewrite pow2_S. pose proof (pow2_pos o). lia. }
    assert (Har : aligned o (p + pow2 o)) by (apply Z.divide_add_r; [exact Ha0|apply Z.divide_refl]).
    destruct (IH p Ha0 ltac:(lia)) as (o1 & p1 & Ho1 & Hp1 & H1); [intros; apply Hf, Hsub; auto|].
    destruct (IH (p + pow2 o) Har ltac:(lia)) as (o2 & p2 & Ho2 & Hp2 & H2); [intros; apply Hf, Hsub; auto|].
    assert (Hup : forall o' p' r, (S o <= o')%nat -> p' ∈ lists_of z o' -> in_block (S o) p r -> in_block o' p' r ->
              exists o' p', (S o <= o')%nat /\ p' ∈ lists_of z o' /\ forall q, in_block (S o) p q -> in_block o' p' q).
    { intros o' p' r Hle Hp' Hr Hr'. exists o', p'. split; [exact Hle|]. split; [exact Hp'|].
      apply (block_nested (S o) o' p p' r); auto. exact (bi_aligned z Hi o' p' Hp'). }
    destruct (Nat.eq_dec o1 o) as [->|]; [|apply (Hup o1 p1 p); [lia|exact Hp1|apply in_block_head|apply H1, in_block_head]].
    destruct (Nat.eq_dec o2 o) as [->|].
    + exfalso. pose proof (block_same o p p1 p Ha0 (bi_aligned z Hi o p1 Hp1) (in_block_head o p) (H1 p (in_block_head o p))) as <-.
      pose proof (block_same o _ p2 _ Har (bi_aligned z Hi o p2 Hp2) (in_block_head o _) (H2 _ (in_block_head o _))) as <-.
      apply (bi_merged z Hi o p Ho Hp1). now rewrite buddy_left.
    + apply (Hup o2 p2 (p + pow2 o)); [lia|exact Hp2|apply Hsub; right; apply in_block_head|apply H2, in_block_head].
Qed.

Definition same_free (z z' : zone) : Prop := forall q, free_page z q <-> free_page z' q.

#[global] Instance same_free_equiv : Equivalence same_free.
Proof.
  split; [intros z q; reflexivity|intros z z' H q; now rewrite (H q)|].
  intros z1 z2 z3 H H' q. now rewrite (H q), (H' q).
Qed.

Lemma same_free_heads z z' o p :
  buddy_inv z -> buddy_inv z' -> same_free z z' -> p ∈ lists_of z o -> p ∈ lists_of z' o.
Proof.
  intros Hi Hi' Hs Hp. pose proof (bi_aligned z Hi o p Hp) as Ha.
  destruct (free_block_head z' o p Hi' Ha (bi_order z Hi o p Hp)) as (o1 & p1 & Ho1 & Hp1 & H1).
  { intros q Hq. apply Hs. now exists o, p. }
  pose proof (bi_aligned z' Hi' o1 p1 Hp1) as Ha1.
  destruct (free_block_head z o1 p1 Hi Ha1 (bi_order z' Hi' o1 p1 Hp1)) as (o2 & p2 & Ho2 & Hp2 & H2).
  { intros q Hq. apply Hs. now exists o1, p1. }
  pose proof (in_block_head o p) as Hh.
  destruct (bi_disjoint z Hi o o2 p p2 p Hp Hp2 Hh (H2 _ (H1 _ Hh))) as [<- <-].
  assert (o1 = o) as -> by lia. rewrite (block_same o p p1 p); auto.
Qed.

(** Zones with the same free pages have the same blocks and block counts. *)
Lemma same_free_lists z z' :
  buddy_inv z -> buddy_inv z' -> same_free z z' ->
  forall o, lists_of z' o ≡ₚ lists_of z o /\ nr_free z' o = nr_free z o.
Proof.
  intros Hi Hi' Hs o. assert (HP : lists_of z' o ≡ₚ lists_of z o).
  { apply NoDup_Permutation; [apply (bi_nodup z' Hi')|apply (bi_nodup z Hi)|]. intros p.
    split; apply same_free_heads; auto. now symmetry. }
  split; [exact HP|]. now rewrite (bi_nr z Hi), (bi_nr z' Hi'), HP.
Qed.

(** ** Counting free pages *)

(** All listed blocks, and the pages in them. *)
Definition heads (z : zone) : list (nat * Z) := o ← seq 0 MAX_ORDER; p ← lists_of z o; [(o, p)].
Definition free_pages_of (z : zone) : list Z := '(o, p) ← heads z; seqZ p (pow2 o).

(** The free pages counted from the block counts of the orders from [o] on. *)
Definition free_count_from (z : zone) (o n : nat) : Z :=
  foldr (fun o acc => nr_free z o * pow2 o + acc) 0 (seq o n).
Definition free_count (z : zone) : Z := free_count_from z 0 MAX_ORDER.

Lemma elem_of_heads z o p : buddy_inv z -> (o, p) ∈ heads z <-> p ∈ lists_of z o.
Proof.
  intros Hi. split.
  - intros (o' & (p' & E%list_elem_of_singleton & Hp')%list_elem_of_bind & _)%list_elem_of_bind. now simplify_eq.
  - intros Hp. apply list_elem_of_bind. exists o. split.
    + apply list_elem_of_bind. exists p. split; [now apply list_elem_of_singleton|exact Hp].
    + apply elem_of_seq. pose proof (bi_order z Hi o p Hp). lia.
Qed.

Lemma NoDup_heads z : buddy_inv z -> NoDup (heads z).
Proof.
  intros Hi. unfold heads. apply NoDup_bind; [| |apply NoDup_seq].
  - intros o o' y _ _ (p & E%list_elem_of_singleton & _)%list_elem_of_bind
      (p' & E'%list_elem_of_singleton & _)%list_elem_of_bind. congruence.
  - intros o _. apply NoDup_bind; [|intros p _; apply NoDup_singleton|apply (bi_nodup z Hi)].
    intros p p' y _ _ E%list_elem_of_singleton E'%list_elem_of_singleton. congruence.
Qed.

Lemma elem_of_free z q : buddy_inv z -> q ∈ free_pages_of z <-> free_page z q.
Proof.
  intros Hi. unfold free_pages_of. rewrite list_elem_of_bind. split.
  - intros ([o p] & Hq%elem_of_seqZ & Hp%(elem_of_heads z o p Hi)). now exists o, p.
  - intros (o & p & Hp & Hq). exists (o, p). rewrite elem_of_seqZ, elem_of_heads by exact Hi. auto.
Qed.

Lemma NoDup_free z : buddy_inv z -> NoDup (free_pages_of z).
Proof.
  intros Hi. apply NoDup_bind; [|intros [o p] _; apply NoDup_seqZ|now apply NoDup_heads].
  intros [o p] [o' p'] q Hp%(elem_of_heads z o p Hi) Hp'%(elem_of_heads z o' p' Hi)
    Hq%elem_of_seqZ Hq'%elem_of_seqZ. now destruct (bi_disjoint z Hi o o' p p' q Hp Hp' Hq Hq') as [-> ->].
Qed.

Lemma length_free_pages z : buddy_inv z -> Z.of_nat (length (free_pages_of z)) = free_count z.
Proof.
  intros Hi. unfold free_pages_of, heads, free_count, free_count_from.
  induction (seq 0 MAX_ORDER) as [|o l IH]; [reflexivity|]. cbn [mbind list_bind foldr].
  rewrite bind_app, length_app, Nat2Z.inj_add, IH. f_equal. rewrite (bi_nr z Hi o).
  induction (lists_of z o) as [|p ps IHp]; [reflexivity|]. cbn [mbind list_bind app length].
  rewrite length_app, length_seqZ, Nat2Z.inj_add, IHp, Z2Nat.id by (pose proof (pow2_pos o); lia). lia.
Qed.

(** No naturally aligned block of that order is free. *)
Definition none_free (order : nat) (z : zone) : Prop :=
  forall p, aligned order p -> exists q, in_block order p q /\ ~ free_page z q.

(** Lists without duplicates: the union of disjoint ones is their concatenation. *)
Lemma NoDup_split_perm (l l1 l2 : list Z) :
  NoDup l -> NoDup l1 -> NoDup l2 -> (forall q, q ∈ l1 -> q ∉ l2) ->
  (forall q, q ∈ l <-> q ∈ l1 \/ q ∈ l2) -> l ≡ₚ l1 ++ l2.
Proof.
  intros Hl H1 H2 Hd H. apply NoDup_Permutation; [exact Hl| |intros q; rewrite elem_of_app; apply H].
  apply NoDup_app. auto.
Qed.

Lemma block_pages p o : (o < 32)%nat -> block p o = seqZ p (pow2 o).
Proof. intros Ho. unfold block. now rewrite shl_pow2. Qed.

Lemma elem_of_block p o q : (o < 32)%nat -> q ∈ block p o <-> in_block o p q.
Proof. intros Ho. rewrite block_pages, elem_of_seqZ by exact Ho. reflexivity. Qed.

Lemma order_32 o : (o < MAX_ORDER)%nat -> (o < 32)%nat.
Proof. unfold MAX_ORDER. lia. Qed.

#[export] Hint Resolve order_32 : core.

Lemma no_head_none_free z o :
  buddy_inv z -> (o < MAX_ORDER)%nat -> (forall o', (o <= o')%nat -> lists_of z o' = []) -> none_free o z.
Proof.
  intros Hi Ho H p Ha. destruct (decide (Forall (fun q => q ∈ free_pages_of z) (block p o))) as [Hall|Hex].
  - exfalso. destruct (free_block_head z o p Hi Ha Ho) as (o' & p' & Hle & Hp' & _).
    + intros q Hq. apply (elem_of_free z q Hi). apply (elem_of_block p o q (order_32 o Ho)) in Hq.
      exact (proj1 (Forall_forall _ _) Hall q Hq).
    + rewrite (H o' Hle) in Hp'. inversion Hp'.
  - apply not_Forall_Exists in Hex; [|apply _]. apply Exists_exists in Hex as (q & Hq & Hn).
    exists q. split; [now apply elem_of_block; auto|]. intros Hf. now apply Hn, elem_of_free.
Qed.

(** A block handed out or given back moves its pages between the two sides. *)
Lemma granted_perm z o p z' :
  buddy_inv z -> granted z o p z' -> free_pages_of z ≡ₚ block p o ++ free_pages_of z'.
Proof.
  intros Hi [Hi' Hh Hf Hw Hq _]. pose proof (order_32 _ (held_order _ _ _ Hh)) as Ho. apply NoDup_split_perm.
  - now apply NoDup_free.
  - rewrite block_pages by exact Ho. apply NoDup_seqZ.
  - now apply NoDup_free.
  - intros q Hb Hfq%(elem_of_free z' q Hi')%Hq. rewrite elem_of_block in Hb by exact Ho. tauto.
  - intros q. rewrite !elem_of_free, elem_of_block, Hq by assumption. specialize (Hw q).
    destruct (decide (in_block o p q)); tauto.
Qed.

Lemma freed_perm z o p z' :
  buddy_inv z -> buddy_inv z' -> held z o p ->
  (forall q, free_page z' q <-> free_page z q \/ in_block o p q) ->
  free_pages_of z' ≡ₚ block p o ++ free_pages_of z.
Proof.
  intros Hi Hi' Hh Hq. pose proof (order_32 _ (held_order _ _ _ Hh)) as Ho. apply NoDup_split_perm.
  - now apply NoDup_free.
  - rewrite block_pages by exact Ho. apply NoDup_seqZ.
  - now apply NoDup_free.
  - intros q Hb Hfq%(elem_of_free z q Hi). apply (held_free _ _ _ Hh q); [|exact Hfq].
    now apply elem_of_block.
  - intros q. rewrite !elem_of_free, elem_of_block, Hq by assumption. tauto.
Qed.

Lemma length_block p o : (o < 32)%nat -> Z.of_nat (length (block p o)) = pow2 o.
Proof. intros Ho. rewrite block_pages, length_seqZ by exact Ho. pose proof (pow2_pos o). lia. Qed.

Lemma free_count_granted z o p z' :
  buddy_inv z -> granted z o p z' -> free_count z' = free_count z - pow2 o.
Proof.
  intros Hi Hg. rewrite <- !length_free_pages by (assumption || apply Hg).
  rewrite (granted_perm z o p z' Hi Hg), length_app, Nat2Z.inj_add, length_block; [lia|].
  apply order_32, (held_order _ _ _ (gr_held _ _ _ _ Hg)).
Qed.

Lemma free_count_freed z o p z' :
  buddy_inv z -> buddy_inv z' -> held z o p ->
  (forall q, free_page z' q <-> free_page z q \/ in_block o p q) ->
  free_count z' = free_count z + pow2 o.
Proof.
  intros Hi Hi' Hh Hq. rewrite <- !length_free_pages by assumption.
  rewrite (freed_perm z o p z' Hi Hi' Hh Hq), length_app, Nat2Z.inj_add, length_block; [lia|].
  apply order_32, (held_order _ _ _ Hh).
Qed.

Lemma free_count_bound z : buddy_inv z -> 0 <= free_count z <= Z.max 0 (spanned_pages z).
Proof.
  intros Hi. rewrite <- length_free_pages by exact Hi. split; [lia|].
  assert (Hle : (length (free_pages_of z) <= length (seqZ (zone_start_pfn z) (spanned_pages z)))%nat).
  { apply submseteq_length, NoDup_submseteq; [now apply NoDup_free|].
    intros q (o & p & Hp & Hq)%(elem_of_free z q Hi). apply elem_of_seqZ.
    destruct (bi_zone z Hi o p Hp). unfold in_block in Hq. lia. }
  rewrite length_seqZ in Hle. lia.
Qed.

(** ** The watermark check *)

Lemma free_count_app z o n m :
  free_count_from z o (n + m) = free_count_from z o n + free_count_from z (o + n) m.
Proof.
  unfold free_count_from. rewrite seq_app, foldr_app. generalize (seq (o + n) m). intros l.
  induction (seq o n) as [|k ks IH]; cbn [foldr]; [reflexivity|]. rewrite IH. lia.
Qed.

Lemma nr_free_term z o : buddy_inv z -> 0 <= nr_free z o * pow2 o.
Proof. intros Hi. rewrite (bi_nr z Hi o). pose proof (pow2_pos o). nia. Qed.

Lemma free_count_from_nonneg z o n : buddy_inv z -> 0 <= free_count_from z o n.
Proof.
  intros Hi. unfold free_count_from. induction (seq o n) as [|k ks IH]; cbn [foldr]; [lia|].
  pose proof (nr_free_term z k Hi). lia.
Qed.

Lemma free_count_from_pos z o n :
  buddy_inv z -> 0 < free_count_from z o n -> exists o', (o <= o')%nat /\ lists_of z o' <> [].
Proof.
  intros Hi. revert o. induction n as [|n IH]; intros o H; cbn in H; [lia|].
  destruct (lists_of z o) as [|p l] eqn:E; [|exists o; split; [lia|now rewrite E]].
  destruct (IH (S o)) as (o' & Ho & Hl); [|exists o'; split; [lia|exact Hl]].
  rewrite (bi_nr z Hi o), E in H. cbn in H. exact H.
Qed.

(** No shift of the check overflows on a 32-bit machine. *)
Lemma nr_free_shl z o :
  buddy_inv z -> (o < MAX_ORDER)%nat -> spanned_pages z <= 2 ^ 20 ->
  nr_free z o .<< Z.of_nat o = nr_free z o * pow2 o.
Proof.
  intros Hi Ho Hs. unfold shl32. rewrite Z.shiftl_mul_pow2 by lia. fold (pow2 o). apply u32_id.
  pose proof (free_count_bound z Hi) as Hb. unfold free_count in Hb.
  replace MAX_ORDER with (o + (1 + (MAX_ORDER - 1 - o)))%nat in Hb by lia.
  rewrite !free_count_app in Hb. pose proof (free_count_from_nonneg z 0 o Hi).
  pose proof (free_count_from_nonneg z (0 + o + 1) (MAX_ORDER - 1 - o) Hi).
  change (free_count_from z (0 + o) 1) with (nr_free z o * pow2 o + 0) in Hb.
  pose proof (nr_free_term z o Hi). unfold is_u32. lia.
Qed.

Lemma watermark_loop_spec n o z fp min :
  buddy_inv z -> (o + n <= MAX_ORDER)%nat -> spanned_pages z <= 2 ^ 20 -> 0 <= min < fp ->
  watermark_loop n o z fp min = true -> free_count_from z o n < fp.
Proof.
  intros Hi. revert o fp min. induction n as [|n IH]; intros o fp min Ho Hs Hm H; [cbn; lia|].
  cbn [watermark_loop] in H. rewrite nr_free_shl in H by (assumption || lia).
  destruct (Z.leb_spec (fp - nr_free z o * pow2 o) (min .>> 1)) as [|Hlt]; [discriminate|].
  assert (0 <= min .>> 1) by (apply Z.shiftr_nonneg; lia).
  apply IH in H; [|lia..]. cbn. unfold free_count_from in H. lia.
Qed.

Lemma watermark_has_block order mark lmr ah ahr z :
  buddy_inv z -> (order < MAX_ORDER)%nat -> spanned_pages z <= 2 ^ 20 ->
  nr_free_pages z = free_count z -> 0 <= mark -> 0 <= lmr ->
  zone_watermark_ok order mark lmr ah ahr z = true ->
  exists o, (order <= o)%nat /\ lists_of z o <> [].
Proof.
  intros Hi Ho Hs Hn Hm Hl H. unfold zone_watermark_ok in H. rewrite shl_pow2 in H by auto.
  set (m1 := if ah then mark - mark / 2 else mark) in H. set (m2 := if ahr then m1 - m1 / 4 else m1) in H.
  assert (H0 : 0 <= m1) by (clear -Hm; subst m1; destruct ah; zdiv).
  assert (0 <= m2) by (clear -H0; subst m2; destruct ahr; zdiv).
  destruct (Z.leb_spec (nr_free_pages z - pow2 order + 1) (m2 + lmr)) as [|Hlt]; [discriminate|].
  apply watermark_loop_spec in H; [|assumption|lia|assumption|lia].
  apply (free_count_from_pos z (0 + order) (MAX_ORDER - order) Hi). pose proof (pow2_pos order).
  unfold free_count in Hn. replace MAX_ORDER with (order + (MAX_ORDER - order))%nat in Hn by lia.
  rewrite free_count_app in Hn. lia.
Qed.

(** ** Freeing whole blocks *)

Lemma buddy_inv_counter z n : buddy_inv z -> buddy_inv (set_nr_free_pages z n).
Proof. intros []. split; assumption. Qed.

Lemma free_page_counter z n q : free_page (set_nr_free_pages z n) q <-> free_page z q.
Proof. reflexivity. Qed.

Lemma held_counter z n o p : held z o p -> held (set_nr_free_pages z n) o p.
Proof. intros []. split; assumption. Qed.

(** What freeing the block of order [o] at [p] does. *)
Record freed (z : zone) (o : nat) (p : Z) (z' : zone) : Prop := {
  fd_inv : buddy_inv z';
  fd_free : forall q, free_page z' q <-> free_page z q \/ in_block o p q;
  fd_start : zone_start_pfn z' = zone_start_pfn z;
  fd_span : spanned_pages z' = spanned_pages z;
  fd_count : forall q, _count (mem_map z' q) = _count (mem_map z q);
  fd_bad : forall q, bad (mem_map z' q) = bad (mem_map z q);
  fd_dirty : forall q, dirty (mem_map z' q) = dirty (mem_map z q);
  fd_pages : nr_free_pages z' = nr_free_pages z + pow2 o;
  fd_pcp : pcp z' = pcp z;
  fd_mem : forall q, ~ free_page z q -> ~ in_block o p q -> mem_map z' q = mem_map z q
}.

Lemma free_one_page_spec z p o mt :
  buddy_inv z -> held z o p -> (mt < MIGRATE_ISOLATE)%nat -> freed z o p (free_one_page p o mt z).
Proof.
  intros Hi Hh Hmt. unfold free_one_page.
  destruct (free_core_spec _ p o mt (buddy_inv_counter z (nr_free_pages z + (1 .<< Z.of_nat o)) Hi)
    (held_counter _ _ _ _ Hh) Hmt) as (Hi' & [Hs Hsp Hc Hb Hd Hp Hpcp] & _ & Hq & Hm).
  split; try assumption. rewrite Hp. cbn [set_nr_free_pages nr_free_pages]. rewrite shl_pow2; [reflexivity|].
  apply order_32, (held_order _ _ _ Hh).
Qed.

Lemma held_freed z o p z' o' p' :
  freed z o p z' -> held z o' p' -> (forall q, in_block o p q -> ~ in_block o' p' q) -> held z' o' p'.
Proof.
  intros [Hi Hq Hs Hsp Hc Hb Hd _ _ _] [Ho Ha Hz Hf Hcl] Hdj. split; [exact Ho|exact Ha| | |].
  - unfold in_zone in *. now rewrite Hs, Hsp.
  - intros q H' [H|H]%Hq; [exact (Hf q H' H)|exact (Hdj q H H')].
  - intros q H'. unfold clean. rewrite Hc, Hb, Hd. exact (Hcl q H').
Qed.

(** Blocks freed one after the other, the last of the list first. *)
Definition free_all (l : list (Z * nat * nat)) (z : zone) : zone :=
  foldr (fun '(p, o, mt) z => free_one_page p o mt z) z l.

Definition pages_of (l : list (Z * nat * nat)) : list Z := '(p, o, mt) ← l; block p o.

Definition all_held (z : zone) (l : list (Z * nat * nat)) : Prop :=
  Forall (fun '(p, o, mt) => held z o p /\ (mt < MIGRATE_ISOLATE)%nat) l /\ NoDup (pages_of l).

Lemma free_all_spec z l :
  buddy_inv z -> all_held z l ->
  buddy_inv (free_all l z)
  /\ nr_free_pages (free_all l z) = nr_free_pages z + Z.of_nat (length (pages_of l))
  /\ (forall q, free_page (free_all l z) q <-> free_page z q \/ q ∈ pages_of l)
  /\ (forall o p, held z o p -> (forall q, in_block o p q -> q ∉ pages_of l) -> held (free_all l z) o p).
Proof.
  intros Hi [Hl Hnd]. induction l as [|[[p o] mt] l IH].
  - split; [exact Hi|]. split; [cbn; lia|]. split; [|auto]. intros q. unfold pages_of. cbn. rewrite elem_of_nil. tauto.
  - apply Forall_cons in Hl as [[Hh Hmt] Hl]. cbn [pages_of mbind list_bind] in Hnd.
    apply NoDup_app in Hnd as (Hb & Hdj & Hnd). destruct (IH Hl Hnd) as (Hi' & Hn & Hq & Hk). clear IH.
    pose proof (order_32 _ (held_order _ _ _ Hh)) as Ho.
    assert (Hh' : held (free_all l z) o p).
    { apply Hk; [exact Hh|]. intros q Hqb. apply Hdj. now apply elem_of_block. }
    pose proof (free_one_page_spec _ p o mt Hi' Hh' Hmt) as Hf. cbn [free_all foldr].
    fold (free_all l z). change (pages_of ((p, o, mt) :: l)) with (block p o ++ pages_of l).
    split; [apply Hf|]. split; [|split].
    + rewrite (fd_pages _ _ _ _ Hf), Hn, length_app, Nat2Z.inj_add, length_block by exact Ho. lia.
    + intros q. rewrite (fd_free _ _ _ _ Hf q), Hq, elem_of_app, elem_of_block by exact Ho. tauto.
    + intros o' p' H' Hd'. apply (held_freed _ o p _ o' p' Hf).
      * apply Hk; [exact H'|]. intros q Hqb Hql. apply (Hd' q Hqb). apply elem_of_app. now right.
      * intros q Hqb Hqb'. apply (Hd' q Hqb'), elem_of_app. left. now apply elem_of_block.
Qed.

Lemma all_held_perm z l l' : l ≡ₚ l' -> all_held z l -> all_held z l'.
Proof.
  intros HP [Hl Hn]. split; [now rewrite <- HP|]. unfold pages_of in *. now rewrite <- HP.
Qed.

(** ** A board's zone

    The 8 MB of SDRAM at 0xC0000000 as one zone of 2048 pages, all of them given to
    the allocator as one block. *)

Definition empty_zone (start span : Z) : zone :=
  {| zone_start_pfn := start; spanned_pages := span; free_list := fun _ _ => []; nr_free := fun _ => 0;
     mem_map := fun _ => {| PageBuddy := false; private := 0; _count := 0; bad := false; dirty := false |};
     page_zone_id := fun _ => 0; pageblock := fun _ => MIGRATE_UNMOVABLE; nr_free_pages := 0;
     pcp := {| pcp_count := 0; high := 6; batch := 1; lists := fun _ => [] |} |}.

Definition disco_zone : zone := free_one_page 0xC0000 11 MIGRATE_UNMOVABLE (empty_zone 0xC0000 2048).

Lemma empty_lists start span o : lists_of (empty_zone start span) o = [].
Proof. reflexivity. Qed.

Lemma empty_free start span q : ~ free_page (empty_zone start span) q.
Proof. intros (o & p & Hp & _). rewrite empty_lists in Hp. inversion Hp. Qed.

Lemma empty_inv start span : 0 <= start -> buddy_inv (empty_zone start span).
Proof.
  intros Hs. split; try exact Hs; try reflexivity; try (intros o p H; rewrite empty_lists in H; now inversion H).
  - intros p H. discriminate H.
  - intros o. constructor.
  - intros o o' p p' q H. rewrite empty_lists in H. inversion H.
  - intros o p _ H. rewrite empty_lists in H. inversion H.
  - intros q H. now apply empty_free in H.
  - intros b. change (0 < 4)%nat. lia.
Qed.

Lemma empty_held start span o p :
  (o < MAX_ORDER)%nat -> aligned o p -> start <= p -> p + pow2 o <= start + span ->
  held (empty_zone start span) o p.
Proof.
  intros Ho Ha H1 H2. split; [exact Ho|exact Ha|split; assumption|intros q _; apply empty_free|].
  intros q _. repeat split.
Qed.

Lemma disco_freed : freed (empty_zone 0xC0000 2048) 11 0xC0000 disco_zone.
Proof.
  apply free_one_page_spec; [now apply empty_inv| |unfold MIGRATE_UNMOVABLE, MIGRATE_ISOLATE; lia].
  apply empty_held; [unfold MAX_ORDER; lia|exists 0x180; reflexivity|reflexivity|].
  change (pow2 11) with 2048. lia.
Qed.

Lemma disco_inv : buddy_inv disco_zone.
Proof. apply disco_freed. Qed.

Lemma disco_free q : free_page disco_zone q <-> 0xC0000 <= q < 0xC0000 + 2048.
Proof.
  rewrite (fd_free _ _ _ _ disco_freed q). pose proof (empty_free 0xC0000 2048 q).
  unfold in_block. change (pow2 11) with 2048. tauto.
Qed.

Lemma fst_eq {A B} (x : A * B) a : x.1 = a -> x = (a, x.2).
Proof. intros <-. now destruct x. Qed.

(** ** Properties *)

(** C2: a request for a block of pages is granted exactly when it can be: [__rmqueue] on a zone whose
    free lists are well-formed hands out a naturally aligned block of the order asked for that was free,
    takes those pages and no others from the free pages, and keeps the lists well-formed; when it
    fails, nothing has changed and no naturally aligned block of that order is free anywhere in the
    zone, whatever lists and page blocks its pages are on. *)
Theorem rmqueue_complete dis z o mt :
  buddy_inv z -> (mt < MIGRATE_PCPTYPES)%nat -> (o < MAX_ORDER)%nat ->
  match rmqueue dis o mt z with
  | (Some p, z') => granted z o p z'
  | (None, z') => z' = z /\ none_free o z
  end.
Proof.
  intros Hi Hmt Ho. pose proof (rmqueue_spec dis z o mt Hi Hmt Ho) as H.
  destruct (rmqueue dis o mt z) as [[p|] z']; [exact H|]. destruct H as [-> H]. split; [reflexivity|].
  exact (no_head_none_free z o Hi Ho H).
Qed.

Lemma rmqueue_complete_witness : exists z',
  rmqueue false 3 MIGRATE_MOVABLE disco_zone = (Some 0xC0000, z') /\ granted disco_zone 3 0xC0000 z'
  /\ exists q, in_block 11 0xC0000 q /\ ~ free_page z' q.
Proof.
  pose proof (rmqueue_complete false disco_zone 3 MIGRATE_MOVABLE disco_inv
    ltac:(unfold MIGRATE_MOVABLE, MIGRATE_PCPTYPES; lia) ltac:(unfold MAX_ORDER; lia)) as H.
  destruct (rmqueue false 3 MIGRATE_MOVABLE disco_zone) as [r z'] eqn:E. exists z'.
  assert (r = Some 0xC0000) as -> by (change r with (r, z').1; rewrite <- E; vm_compute; reflexivity).
  split; [reflexivity|]. split; [exact H|].
  pose proof (rmqueue_complete false z' 11 MIGRATE_MOVABLE (gr_inv _ _ _ _ H)
    ltac:(unfold MIGRATE_MOVABLE, MIGRATE_PCPTYPES; lia) ltac:(unfold MAX_ORDER; lia)) as H2.
  destruct (rmqueue false 11 MIGRATE_MOVABLE z') as [r2 z2] eqn:E2.
  assert (r2 = None) as ->.
  { change r2 with (r2, z2).1. rewrite <- E2. change z' with (Some 0xC0000, z').2. rewrite <- E.
    vm_compute. reflexivity. }
  apply (proj2 H2). exists 0x180. reflexivity.
Defined.

(** Freeing in any order gives the same free lists: after any sequence of frees of disjoint held
    blocks, of any orders and on behalf of any page-block types, the zone has the same blocks of each
    order, the same block counts ([/proc/buddyinfo]) and the same number of free pages as after any
    other sequence of the same frees. *)
Theorem free_order_irrelevant z l l' :
  buddy_inv z -> all_held z l -> l ≡ₚ l' ->
  nr_free_pages (free_all l z) = nr_free_pages (free_all l' z)
  /\ forall o, lists_of (free_all l z) o ≡ₚ lists_of (free_all l' z) o
     /\ nr_free (free_all l z) o = nr_free (free_all l' z) o.
Proof.
  intros Hi Hl HP. pose proof (all_held_perm z l l' HP Hl) as Hl'.
  destruct (free_all_spec z l Hi Hl) as (H1 & N1 & F1 & _).
  destruct (free_all_spec z l' Hi Hl') as (H2 & N2 & F2 & _).
  assert (HPp : pages_of l ≡ₚ pages_of l') by (unfold pages_of; now rewrite HP).
  split; [now rewrite N1, N2, HPp|]. apply same_free_lists; [exact H2|exact H1|].
  intros q. now rewrite F1, F2, HPp.
Qed.

Lemma free_order_irrelevant_witness :
  let l := [(0xC0000, 0%nat, 0%nat); (0xC0001, 0%nat, 2%nat); (0xC0002, 1%nat, 1%nat)] in
  let z := empty_zone 0xC0000 2048 in
  nr_free (free_all l z) 2 = 1 /\ nr_free (free_all l z) 2 = nr_free (free_all (rev l) z) 2.
Proof.
  intros l z. split; [vm_compute; reflexivity|].
  apply (free_order_irrelevant z l (rev l)); [now apply empty_inv| |symmetry; apply Permutation_rev].
  split; [|apply (bool_decide_unpack _); vm_compute; exact I].
  repeat (apply Forall_cons; split; [split; [apply empty_held|]|]); try (vm_compute; congruence);
    try (unfold MIGRATE_ISOLATE, MAX_ORDER; lia); try apply aligned_0; try (exists 0x60001; reflexivity).
  apply Forall_nil. exact I.
Defined.

(** C36: allocating a block and freeing it again restores the free lists: whichever list the block came
    from, however far it had to be split and whatever type it is freed as, every order has the same
    blocks and the same count as before the allocation. *)
Theorem alloc_free_restores dis z o mt mt' p z' :
  buddy_inv z -> (mt < MIGRATE_PCPTYPES)%nat -> (o < MAX_ORDER)%nat -> (mt' < MIGRATE_ISOLATE)%nat ->
  rmqueue dis o mt z = (Some p, z') ->
  forall k, lists_of (free_one_page_core p o mt' z') k ≡ₚ lists_of z k
         /\ nr_free (free_one_page_core p o mt' z') k = nr_free z k.
Proof.
  intros Hi Hmt Ho Hmt' E. pose proof (rmqueue_spec dis z o mt Hi Hmt Ho) as H. rewrite E in H.
  destruct H as [Hi' Hh _ Hw Hq _]. destruct (free_core_spec z' p o mt' Hi' Hh Hmt') as (Hi2 & _ & _ & Hq2 & _).
  apply same_free_lists; [exact Hi|exact Hi2|]. intros q. rewrite Hq2, Hq. specialize (Hw q).
  destruct (decide (in_block o p q)); tauto.
Qed.

Lemma alloc_free_restores_witness :
  let z' := (rmqueue false 0 MIGRATE_MOVABLE disco_zone).2 in
  rmqueue false 0 MIGRATE_MOVABLE disco_zone = (Some 0xC0000, z') /\ nr_free z' 11 = 0 /\ nr_free z' 0 = 1
  /\ nr_free (free_one_page_core 0xC0000 0 MIGRATE_UNMOVABLE z') 11 = nr_free disco_zone 11.
Proof.
  intros z'. assert (E : rmqueue false 0 MIGRATE_MOVABLE disco_zone = (Some 0xC0000, z'))
    by (apply fst_eq; vm_compute; reflexivity).
  split; [exact E|]. split; [vm_compute; reflexivity|]. split; [vm_compute; reflexivity|].
  apply (alloc_free_restores false disco_zone 0 MIGRATE_MOVABLE MIGRATE_UNMOVABLE);
    [exact disco_inv|unfold MIGRATE_MOVABLE, MIGRATE_PCPTYPES; lia|unfold MAX_ORDER; lia
    |unfold MIGRATE_UNMOVABLE, MIGRATE_ISOLATE; lia|exact E].
Defined.

(** The watermark check is safe for every order: when the zone's page counter agrees with its lists
    and [zone_watermark_ok] says yes for any non-negative mark and reserve, with either of the
    ALLOC_HIGH and ALLOC_HARDER discounts, [__rmqueue] does find a block of that order. *)
Theorem watermark_sufficient dis z order mt mark lmr ah ahr :
  buddy_inv z -> (order < MAX_ORDER)%nat -> (mt < MIGRATE_PCPTYPES)%nat -> spanned_pages z <= 2 ^ 20 ->
  nr_free_pages z = free_count z -> 0 <= mark -> 0 <= lmr ->
  zone_watermark_ok order mark lmr ah ahr z = true ->
  exists p z', rmqueue dis order mt z = (Some p, z') /\ granted z order p z'.
Proof.
  intros Hi Ho Hmt Hs Hn Hm Hl H. destruct (watermark_has_block order mark lmr ah ahr z) as (o & Hle & Hne); auto.
  pose proof (rmqueue_spec dis z order mt Hi Hmt Ho) as Hr.
  destruct (rmqueue dis order mt z) as [[p|] z']; [now exists p, z'|]. destruct Hr as [_ Hr].
  exfalso. exact (Hne (Hr o Hle)).
Qed.

Lemma watermark_sufficient_witness : exists p z',
  zone_watermark_ok 5 64 0 true false disco_zone = true
  /\ rmqueue false 5 MIGRATE_UNMOVABLE disco_zone = (Some p, z') /\ granted disco_zone 5 p z'.
Proof.
  destruct (watermark_sufficient false disco_zone 5 MIGRATE_UNMOVABLE 64 0 true false) as (p & z' & H);
    [exact disco_inv|unfold MAX_ORDER; lia|unfold MIGRATE_UNMOVABLE, MIGRATE_PCPTYPES; lia|vm_compute; congruence
    |vm_compute; reflexivity|lia|lia|vm_compute; reflexivity|].
  exists p, z'. split; [vm_compute; reflexivity|exact H].
Defined.
