(* ===== verification/Pcp.v ===== *)
(** * The page allocator as a whole: per-CPU lists, owned blocks and the free pages

    Every managed page is in exactly one place: in a block on the buddy lists, on a
    per-CPU list, or in a block some caller owns.  Blocks on their way from one place
    to another, inside one operation, are in limbo. *)

From S2P Require Import Prelude PageAlloc Buddy BuddyAlloc.

(** ** Where pages are *)

Definition pcp_pages (z : zone) : list Z := lists (pcp z) 0 ++ lists (pcp z) 1 ++ lists (pcp z) 2.

(** The pages of a list of blocks (first page, order). *)
Definition pages (l : list (Z * nat)) : list Z := '(p, o) ← l; block p o.

(** A page as its owner has to leave it: free of what [free_pages_check] looks for, with
    one reference on the block's first page and none on the others. *)
Definition own_page (z : zone) (p q : Z) : Prop :=
  bad (mem_map z q) = false /\ _count (mem_map z q) = if decide (q = p) then 1 else 0.

Record core (managed : list Z) (limbo own : list (Z * nat)) (z : zone) : Prop := {
  co_buddy : buddy_inv z;
  co_part : free_pages_of z ++ pcp_pages z ++ pages limbo ++ pages own ≡ₚ managed;
  co_nodup : NoDup managed;
  co_zone : forall q, q ∈ managed -> zone_start_pfn z <= q < zone_start_pfn z + spanned_pages z;
  co_pcp : forall q, q ∈ pcp_pages z -> clean z q /\ (private (mem_map z q) < MIGRATE_ISOLATE)%nat;
  co_blocks : forall p o, (p, o) ∈ limbo ++ own -> (o < MAX_ORDER)%nat /\ aligned o p;
  co_limbo : forall p o q, (p, o) ∈ limbo -> in_block o p q -> clean z q;
  co_own : forall p o q, (p, o) ∈ own -> in_block o p q -> own_page z p q
}.

Lemma elem_of_pages l q :
  (forall p o, (p, o) ∈ l -> (o < MAX_ORDER)%nat) ->
  q ∈ pages l <-> exists p o, (p, o) ∈ l /\ in_block o p q.
Proof.
  intros Hl. unfold pages. rewrite list_elem_of_bind. split.
  - intros ([p o] & Hq & Hp). apply elem_of_block in Hq; eauto.
  - intros (p & o & Hp & Hq). exists (p, o). split; [|exact Hp]. apply elem_of_block; eauto.
Qed.

Lemma pages_app l l' : pages (l ++ l') = pages l ++ pages l'.
Proof. apply bind_app. Qed.

Lemma pages_singles l : pages (map (fun q => (q, 0%nat)) l) = l.
Proof.
  induction l as [|q l IH]; [reflexivity|]. cbn [map]. change (pages ((q, 0%nat) :: map (fun q => (q, 0%nat)) l))
    with (block q 0 ++ pages (map (fun q => (q, 0%nat)) l)). rewrite IH. reflexivity.
Qed.

Lemma in_block_0 p q : in_block 0 p q <-> q = p.
Proof. unfold in_block, pow2. cbn. lia. Qed.

#[global] Instance pages_proper : Proper ((≡ₚ) ==> (≡ₚ)) pages.
Proof. intros l l' H. unfold pages. now rewrite H. Qed.

Section Core.

Context (managed : list Z).

Local Abbreviation core := (core managed).

Lemma core_perm limbo own own' z : own ≡ₚ own' -> core limbo own z -> core limbo own' z.
Proof.
  intros HP [Hi Hp Hn Hz Hc Hb Hl Ho]. split; try assumption.
  - now rewrite <- HP.
  - intros p o H. apply Hb. now rewrite HP.
  - intros p o q H. apply Ho. now rewrite HP.
Qed.

Lemma core_order limbo own z p o : core limbo own z -> (p, o) ∈ limbo ++ own -> (o < MAX_ORDER)%nat.
Proof. intros H Hp. now destruct (co_blocks _ _ _ _ H p o Hp). Qed.

Lemma core_nodup limbo own z :
  core limbo own z -> NoDup (free_pages_of z ++ pcp_pages z ++ pages limbo ++ pages own).
Proof. intros H. rewrite (co_part _ _ _ _ H). apply H. Qed.

(** Pages elsewhere are not free, and so not marked. *)
Lemma core_not_free limbo own z q :
  core limbo own z -> q ∈ pcp_pages z ++ pages limbo ++ pages own -> ~ free_page z q.
Proof.
  intros H Hq Hf. pose proof (core_nodup limbo own z H) as Hn. apply NoDup_app in Hn as (_ & Hd & _).
  apply (Hd q); [|exact Hq]. apply elem_of_free; [apply H|exact Hf].
Qed.

Lemma not_free_unmarked z q : buddy_inv z -> ~ free_page z q -> PageBuddy (mem_map z q) = false.
Proof.
  intros Hi Hf. destruct (PageBuddy (mem_map z q)) eqn:E; [|reflexivity].
  exfalso. apply Hf. eapply head_free, (bi_marked z Hi q E).
Qed.

Lemma core_in_block limbo own z p o q :
  core limbo own z -> (p, o) ∈ limbo ++ own -> in_block o p q -> q ∈ pages limbo ++ pages own.
Proof.
  intros H Hp Hq. rewrite <- pages_app. apply elem_of_pages; [|now exists p, o].
  intros p' o' H'. exact (core_order limbo own z p' o' H H').
Qed.

Lemma core_block_not_free limbo own z p o q :
  core limbo own z -> (p, o) ∈ limbo ++ own -> in_block o p q -> ~ free_page z q.
Proof.
  intros H Hp Hq. apply (core_not_free limbo own z q H). apply elem_of_app. right.
  exact (core_in_block limbo own z p o q H Hp Hq).
Qed.

(** A block that is not free is in the zone. *)
Lemma core_in_zone limbo own z p o : core limbo own z -> (p, o) ∈ limbo ++ own -> in_zone z o p.
Proof.
  intros H Hp. pose proof (pow2_pos o).
  assert (Hin : forall q, in_block o p q -> q ∈ managed).
  { intros q Hq. rewrite <- (co_part _ _ _ _ H), !elem_of_app.
    pose proof (core_in_block limbo own z p o q H Hp Hq) as H'. apply elem_of_app in H'. tauto. }
  destruct (co_zone _ _ _ _ H p) as [H1 _]; [apply Hin, in_block_head|].
  destruct (co_zone _ _ _ _ H (p + pow2 o - 1)) as [_ H2]; [apply Hin; unfold in_block; lia|].
  split; lia.
Qed.

Lemma core_held limbo own z p o : core ((p, o) :: limbo) own z -> held z o p.
Proof.
  intros H. assert (Hp : (p, o) ∈ ((p, o) :: limbo) ++ own) by (left).
  destruct (co_blocks _ _ _ _ H p o Hp) as [Ho Ha]. split; [exact Ho|exact Ha| | |].
  - exact (core_in_zone _ _ _ _ _ H Hp).
  - intros q. exact (core_block_not_free _ _ _ _ _ q H Hp).
  - intros q. apply (co_limbo _ _ _ _ H p o q). left.
Qed.

(** Pages of the other places are not in the first block in limbo. *)
Lemma core_head_disjoint limbo own z p o q :
  core ((p, o) :: limbo) own z -> q ∈ pcp_pages z ++ pages limbo ++ pages own -> ~ in_block o p q.
Proof.
  intros H Hq Hb. pose proof (core_nodup _ _ _ H) as Hn.
  change (pages ((p, o) :: limbo)) with (block p o ++ pages limbo) in Hn.
  assert (HP : free_pages_of z ++ pcp_pages z ++ (block p o ++ pages limbo) ++ pages own
               ≡ₚ block p o ++ (pcp_pages z ++ pages limbo ++ pages own) ++ free_pages_of z)
    by solve_Permutation.
  rewrite HP in Hn. apply NoDup_app in Hn as (_ & Hd & _). apply (Hd q).
  - apply elem_of_block; [|exact Hb]. apply order_32, (core_order _ _ _ p o H). left.
  - apply elem_of_app. now left.
Qed.

(** *** Moves between the places *)

(** A block leaves the buddy lists. *)
Lemma core_granted limbo own z o p z' :
  core limbo own z -> granted z o p z' -> core ((p, o) :: limbo) own z'.
Proof.
  intros H Hg. pose proof H as [Hi Hp Hn Hz Hc Hb Hl Ho]. destruct Hg as [Hi' Hh Hf Hw Hq Hm] eqn:Eg. clear Eg.
  assert (Hsame : forall q, q ∈ pcp_pages z ++ pages limbo ++ pages own -> mem_map z' q = mem_map z q).
  { intros q Hq'. apply Hm. exact (core_not_free limbo own z q H Hq'). }
  assert (Ep : pcp_pages z' = pcp_pages z) by (unfold pcp_pages; now rewrite (fr_pcp _ _ Hf)).
  split; try assumption.
  - rewrite Ep, <- Hp, (granted_perm z o p z' Hi Hg). change (pages ((p, o) :: limbo)) with (block p o ++ pages limbo).
    solve_Permutation.
  - intros q Hq'. rewrite (fr_start _ _ Hf), (fr_span _ _ Hf). auto.
  - intros q Hq'. rewrite Ep in Hq'. unfold clean. rewrite Hsame by (apply elem_of_app; now left). now apply Hc.
  - intros p' o' [[= -> ->]|H']%elem_of_cons; [split; [apply (held_order _ _ _ Hh)|apply (held_aligned _ _ _ Hh)]|].
    now apply Hb.
  - intros p' o' q [[= -> ->]|H']%elem_of_cons Hq'; [exact (held_clean _ _ _ Hh q Hq')|].
    unfold clean. rewrite Hsame; [exact (Hl p' o' q H' Hq')|].
    apply elem_of_app. right. apply (core_in_block limbo own z p' o' q H); [|exact Hq']. apply elem_of_app. now left.
  - intros p' o' q H' Hq'. unfold own_page. rewrite Hsame; [exact (Ho p' o' q H' Hq')|].
    apply elem_of_app. right. apply (core_in_block limbo own z p' o' q H); [|exact Hq']. apply elem_of_app. now right.
Qed.

(** A block goes back to the buddy lists. *)
Lemma core_freed limbo own z o p mt :
  core ((p, o) :: limbo) own z -> (mt < MIGRATE_ISOLATE)%nat ->
  let z' := free_one_page_core p o mt z in
  core limbo own z' /\ frame z z' /\ free_count z' = free_count z + pow2 o.
Proof.
  intros H Hmt z'. pose proof H as [Hi Hp Hn Hz Hc Hb Hl Ho]. pose proof (core_held limbo own z p o H) as Hh.
  destruct (free_core_spec z p o mt Hi Hh Hmt) as (Hi' & Hf & _ & Hq & Hm). fold z' in Hi', Hf, Hq, Hm.
  assert (Hsame : forall q, q ∈ pcp_pages z ++ pages limbo ++ pages own -> mem_map z' q = mem_map z q).
  { intros q Hq'. apply Hm; [|exact (core_head_disjoint limbo own z p o q H Hq')].
    apply (core_not_free _ own z q H). change (pages ((p, o) :: limbo)) with (block p o ++ pages limbo).
    rewrite !elem_of_app in *. tauto. }
  assert (Ep : pcp_pages z' = pcp_pages z) by (unfold pcp_pages; now rewrite (fr_pcp _ _ Hf)).
  assert (Hin : forall p' o' q, (p', o') ∈ limbo ++ own -> in_block o' p' q -> q ∈ pages limbo ++ pages own).
  { intros p' o' q H' Hq'. rewrite <- pages_app. apply elem_of_pages; [|now exists p', o'].
    intros p1 o1 H1. apply (Hb p1 o1). now right. }
  split; [|split; [exact Hf|exact (free_count_freed z o p z' Hi Hi' Hh Hq)]]. split; try assumption.
  - rewrite Ep, <- Hp, (freed_perm z o p z' Hi Hi' Hh Hq).
    change (pages ((p, o) :: limbo)) with (block p o ++ pages limbo). solve_Permutation.
  - intros q Hq'. rewrite (fr_start _ _ Hf), (fr_span _ _ Hf). auto.
  - intros q Hq'. rewrite Ep in Hq'. unfold clean. rewrite Hsame by (apply elem_of_app; now left). now apply Hc.
  - intros p' o' H'. apply Hb. now right.
  - intros p' o' q H' Hq'. unfold clean. rewrite Hsame; [apply (Hl p' o' q); [now right|exact Hq']|].
    apply elem_of_app. right. apply (Hin p' o'); [apply elem_of_app; now left|exact Hq'].
  - intros p' o' q H' Hq'. unfold own_page. rewrite Hsame; [exact (Ho p' o' q H' Hq')|].
    apply elem_of_app. right. apply (Hin p' o'); [apply elem_of_app; now right|exact Hq'].
Qed.

(** The attributes of pages that are not free may change. *)
Lemma inv_mem z m :
  buddy_inv z -> (forall q, free_page z q -> m q = mem_map z q) ->
  (forall q, ~ free_page z q -> PageBuddy (m q) = false) -> buddy_inv (set_mem_map z m).
Proof.
  intros Hi Hsame Hun. pose proof Hi as [Hs Hid Ho Ha Hz Hm Hmk Hnd Hnr Hdj Hmg Hcl Hty Hiso].
  split; try assumption.
  - intros o p Hp. change (mem_map (set_mem_map z m) p) with (m p). rewrite (Hsame p (head_free z o p Hp)). auto.
  - intros p. change (mem_map (set_mem_map z m) p) with (m p). intros Hp.
    destruct (decide (p ∈ free_pages_of z)) as [Hf%(elem_of_free z p Hi)|Hf].
    + rewrite (Hsame p Hf) in *. exact (Hmk p Hp).
    + rewrite Hun in Hp; [discriminate|]. intros H. now apply Hf, elem_of_free.
  - intros q Hq. unfold clean. change (mem_map (set_mem_map z m) q) with (m q). rewrite (Hsame q Hq). exact (Hcl q Hq).
Qed.

(** Blocks change between limbo and owners while their pages' attributes change; [mine] is
    the set of pages the change is about. *)
Lemma core_upd limbo own limbo' own' (mine : Z -> Prop) z m :
  core limbo own z -> pages limbo' ++ pages own' ≡ₚ pages limbo ++ pages own ->
  (forall q, mine q -> q ∈ pages limbo ++ pages own) ->
  (forall q, ~ mine q -> m q = mem_map z q) -> (forall q, mine q -> PageBuddy (m q) = false) ->
  (forall q, {mine q} + {~ mine q}) ->
  (forall p o, (p, o) ∈ limbo' ++ own' -> (o < MAX_ORDER)%nat /\ aligned o p) ->
  (forall p o q, (p, o) ∈ limbo' -> in_block o p q -> clean (set_mem_map z m) q) ->
  (forall p o q, (p, o) ∈ own' -> in_block o p q -> own_page (set_mem_map z m) p q) ->
  core limbo' own' (set_mem_map z m).
Proof.
  intros H HP Hmine Hout Hun Hdec Hb' Hl' Ho'. pose proof H as [Hi Hp Hn Hz Hc Hb Hl Ho].
  assert (Hnf : forall q, mine q -> ~ free_page z q).
  { intros q Hq. apply (core_not_free limbo own z q H). apply elem_of_app. right. auto. }
  split; try assumption.
  - apply inv_mem; [exact Hi| |].
    + intros q Hq. apply Hout. intros Hq'. exact (Hnf q Hq' Hq).
    + intros q Hq. destruct (Hdec q) as [Hq'|Hq']; [now apply Hun|]. rewrite (Hout q Hq').
      exact (not_free_unmarked z q Hi Hq).
  - change (free_pages_of (set_mem_map z m)) with (free_pages_of z). change (pcp_pages (set_mem_map z m)) with (pcp_pages z).
    now rewrite HP.
  - intros q Hq. assert (Hq' : ~ mine q).
    { intros Hq'. pose proof (core_nodup limbo own z H) as Hnd. apply NoDup_app in Hnd as (_ & _ & Hnd).
      apply NoDup_app in Hnd as (_ & Hd & _). exact (Hd q Hq (Hmine q Hq')). }
    unfold clean. change (mem_map (set_mem_map z m) q) with (m q). rewrite (Hout q Hq'). exact (Hc q Hq).
Qed.

(** [set_pcp] with other lists: pages move between limbo and the lists. *)
Lemma core_set_pcp limbo limbo' own z c :
  core limbo own z ->
  (lists c 0 ++ lists c 1 ++ lists c 2) ++ pages limbo' ≡ₚ pcp_pages z ++ pages limbo ->
  (forall p o, (p, o) ∈ limbo' -> (p, o) ∈ limbo \/ (p ∈ pcp_pages z /\ o = 0%nat)) ->
  (forall q, q ∈ lists c 0 ++ lists c 1 ++ lists c 2 -> q ∈ pcp_pages z
     \/ ((q, 0%nat) ∈ limbo /\ (private (mem_map z q) < MIGRATE_ISOLATE)%nat)) ->
  core limbo' own (set_pcp z c).
Proof.
  intros H HP Hl' Hc'. pose proof H as [Hi Hp Hn Hz Hc Hb Hl Ho]. split; try assumption.
  - destruct Hi. split; assumption.
  - change (free_pages_of (set_pcp z c)) with (free_pages_of z).
    change (pcp_pages (set_pcp z c)) with (lists c 0 ++ lists c 1 ++ lists c 2). rewrite <- Hp.
    rewrite (app_assoc (lists c 0 ++ _)), HP. solve_Permutation.
  - intros q Hq. change (clean (set_pcp z c) q) with (clean z q). change (mem_map (set_pcp z c) q) with (mem_map z q).
    destruct (Hc' q Hq) as [H'|[H' Hpr]]; [exact (Hc q H')|]. split; [|exact Hpr].
    apply (Hl q 0%nat q H'). now apply in_block_0.
  - intros p o [H'|H']%elem_of_app; [|apply Hb, elem_of_app; now right].
    destruct (Hl' p o H') as [H2|[_ ->]]; [apply Hb, elem_of_app; now left|].
    split; [unfold MAX_ORDER; lia|apply aligned_0].
  - intros p o q H' Hq. change (clean (set_pcp z c) q) with (clean z q).
    destruct (Hl' p o H') as [H2|[H2 ->]]; [exact (Hl p o q H2 Hq)|].
    apply in_block_0 in Hq as ->. now apply Hc.
Qed.

(** *** The moves the operations make *)

(** The owner of a block gives it up: the pages become clean. *)
Lemma core_release limbo own p o z m :
  core limbo ((p, o) :: own) z -> (forall q, ~ in_block o p q -> m q = mem_map z q) ->
  (forall q, in_block o p q -> PageBuddy (m q) = false /\ clean (set_mem_map z m) q) ->
  core ((p, o) :: limbo) own (set_mem_map z m).
Proof.
  intros H Hout Hin. pose proof H as [Hi Hp Hn Hz Hc Hb Hl Ho].
  assert (Hb' : (p, o) ∈ limbo ++ (p, o) :: own) by (apply elem_of_app; right; left).
  assert (Hdj : forall q p' o', (p', o') ∈ limbo ++ own -> in_block o' p' q -> ~ in_block o p q).
  { intros q p' o' H' Hq' Hq. pose proof (core_nodup _ _ _ H) as Hnd.
    change (pages ((p, o) :: own)) with (block p o ++ pages own) in Hnd.
    assert (HP : free_pages_of z ++ pcp_pages z ++ pages limbo ++ block p o ++ pages own
      ≡ₚ block p o ++ (pages limbo ++ pages own) ++ free_pages_of z ++ pcp_pages z) by solve_Permutation.
    rewrite HP in Hnd. apply NoDup_app in Hnd as (_ & Hd & _). apply (Hd q).
    - apply elem_of_block; [|exact Hq]. apply order_32. now apply (Hb p o).
    - apply elem_of_app. left. rewrite <- pages_app. apply elem_of_pages; [|now exists p', o'].
      intros p1 o1 H1. apply (Hb p1 o1). apply elem_of_app in H1 as [H1|H1]; apply elem_of_app; auto. right. now right. }
  apply (core_upd limbo ((p, o) :: own) _ _ (in_block o p)); try assumption.
  - change (pages ((p, o) :: limbo)) with (block p o ++ pages limbo).
    change (pages ((p, o) :: own)) with (block p o ++ pages own). solve_Permutation.
  - intros q Hq. exact (core_in_block _ _ _ _ _ q H Hb' Hq).
  - intros q Hq. now apply Hin.
  - intros q. apply in_block_dec.
  - intros p' o' H'. apply Hb. cbn [app] in H'. apply elem_of_cons in H' as [->|H'];
      [exact Hb'|]. apply elem_of_app in H' as [H'|H']; apply elem_of_app; auto. right. now right.
  - intros p' o' q [[= -> ->]|H']%elem_of_cons Hq; [now apply Hin|].
    unfold clean. change (mem_map (set_mem_map z m) q) with (m q).
    rewrite (Hout q (Hdj q p' o' ltac:(apply elem_of_app; now left) Hq)). exact (Hl p' o' q H' Hq).
  - intros p' o' q H' Hq. unfold own_page. change (mem_map (set_mem_map z m) q) with (m q).
    rewrite (Hout q (Hdj q p' o' ltac:(apply elem_of_app; now right) Hq)). apply (Ho p' o' q); [now right|exact Hq].
Qed.

(** A block in limbo becomes blocks [bs] of the same pages, in limbo or owned. *)
Lemma core_claim limbo own p o bs z m :
  core ((p, o) :: limbo) own z -> (forall q, ~ in_block o p q -> m q = mem_map z q) ->
  pages bs ≡ₚ block p o -> (forall p' o', (p', o') ∈ bs -> (o' < MAX_ORDER)%nat /\ aligned o' p') ->
  (forall q, in_block o p q -> PageBuddy (m q) = false) ->
  (forall p' o' q, (p', o') ∈ bs -> in_block o' p' q -> own_page (set_mem_map z m) p' q) ->
  core limbo (bs ++ own) (set_mem_map z m).
Proof.
  intros H Hout Hbs Hbb Hun Hbo. pose proof H as [Hi Hp Hn Hz Hc Hb Hl Ho].
  assert (Hdj : forall q p' o', (p', o') ∈ limbo ++ own -> in_block o' p' q -> ~ in_block o p q).
  { intros q p' o' H' Hq'. apply (core_head_disjoint limbo own z p o q H). apply elem_of_app. right.
    rewrite <- pages_app. apply elem_of_pages; [|now exists p', o']. intros p1 o1 H1. apply (Hb p1 o1). now right. }
  apply (core_upd ((p, o) :: limbo) own _ _ (in_block o p)); try assumption.
  - change (pages ((p, o) :: limbo)) with (block p o ++ pages limbo). rewrite pages_app, Hbs. solve_Permutation.
  - intros q Hq. exact (core_in_block _ _ _ p o q H ltac:(left) Hq).
  - intros q. apply in_block_dec.
  - intros p' o' [H'|[H'|H']%elem_of_app]%elem_of_app; [apply Hb; right; apply elem_of_app; now left|now apply Hbb|].
    apply Hb. right. apply elem_of_app. now right.
  - intros p' o' q H' Hq. unfold clean. change (mem_map (set_mem_map z m) q) with (m q).
    rewrite (Hout q (Hdj q p' o' ltac:(apply elem_of_app; now left) Hq)). apply (Hl p' o' q); [now right|exact Hq].
  - intros p' o' q [H'|H']%elem_of_app Hq; [exact (Hbo p' o' q H' Hq)|]. unfold own_page.
    change (mem_map (set_mem_map z m) q) with (m q).
    rewrite (Hout q (Hdj q p' o' ltac:(apply elem_of_app; now right) Hq)). exact (Ho p' o' q H' Hq).
Qed.

Definition plists (c : per_cpu_pages) : list Z := lists c 0 ++ lists c 1 ++ lists c 2.

Lemma plists_set c t l :
  (t < MIGRATE_PCPTYPES)%nat -> plists (set_pcp_list c t l) ++ lists c t ≡ₚ l ++ plists c.
Proof.
  unfold MIGRATE_PCPTYPES, plists. intros Ht. cbn [set_pcp_list lists].
  destruct t as [|[|[|]]]; [..|lia]; cbn; solve_Permutation.
Qed.

Lemma elem_of_plists c t q : (t < MIGRATE_PCPTYPES)%nat -> q ∈ lists c t -> q ∈ plists c.
Proof.
  unfold MIGRATE_PCPTYPES, plists. intros Ht Hq. rewrite !elem_of_app.
  destruct t as [|[|[|]]]; [..|lia]; auto.
Qed.

(** A page leaves a per-CPU list. *)
Lemma core_pcp_del limbo own z t p l c :
  core limbo own z -> (t < MIGRATE_PCPTYPES)%nat -> lists (pcp z) t ≡ₚ p :: l ->
  lists c = lists (set_pcp_list (pcp z) t l) -> core ((p, 0%nat) :: limbo) own (set_pcp z c).
Proof.
  intros H Ht Hl Ec. pose proof (plists_set (pcp z) t l Ht) as HP. unfold plists in HP. rewrite <- Ec, Hl in HP.
  fold (plists c) (pcp_pages z) in HP. assert (HP' : pcp_pages z ≡ₚ p :: plists c).
  { apply (Permutation_app_inv_l l). rewrite <- HP. solve_Permutation. }
  apply (core_set_pcp limbo); [exact H| | |].
  - fold (plists c). rewrite HP'. change (pages ((p, 0%nat) :: limbo)) with ([p] ++ pages limbo). solve_Permutation.
  - intros p' o' [[= -> ->]|H']%elem_of_cons; [right|now left]. split; [rewrite HP'; left|reflexivity].
  - intros q Hq. left. rewrite HP'. now right.
Qed.

(** Single pages are put on a per-CPU list. *)
Lemma core_pcp_add limbo own z t new l c :
  core (map (fun q => (q, 0%nat)) l ++ limbo) own z -> (t < MIGRATE_PCPTYPES)%nat ->
  new ≡ₚ l ++ lists (pcp z) t -> lists c = lists (set_pcp_list (pcp z) t new) ->
  (forall q, q ∈ l -> (private (mem_map z q) < MIGRATE_ISOLATE)%nat) -> core limbo own (set_pcp z c).
Proof.
  intros H Ht Hn Ec Hpr. pose proof (plists_set (pcp z) t new Ht) as HP. unfold plists in HP. rewrite <- Ec, Hn in HP.
  fold (plists c) (pcp_pages z) in HP. assert (HP' : plists c ≡ₚ l ++ pcp_pages z).
  { apply (Permutation_app_inv_r (lists (pcp z) t)). rewrite HP. solve_Permutation. }
  apply (core_set_pcp (map (fun q => (q, 0%nat)) l ++ limbo)); [exact H| | |].
  - fold (plists c). rewrite HP', pages_app, pages_singles. solve_Permutation.
  - intros p o H'. left. apply elem_of_app. now right.
  - intros q Hq. fold (plists c) in Hq. rewrite HP' in Hq. apply elem_of_app in Hq as [Hq|Hq]; [right|now left].
    split; [|now apply Hpr]. apply elem_of_app. left. apply list_elem_of_fmap. now exists q.
Qed.

End Core.

(** ** Giving pages of the per-CPU lists back *)

Section Bulk.

Context (managed : list Z) (limbo own : list (Z * nat)).

Local Abbreviation core := (core managed limbo own).

(** What draining [k] pages keeps. *)
Record drained (k : nat) (z z' : zone) : Prop := {
  dr_core : core z';
  dr_len : (length (pcp_pages z') + k = length (pcp_pages z))%nat;
  dr_pages : nr_free_pages z' = nr_free_pages z;
  dr_count : pcp_count (pcp z') = pcp_count (pcp z);
  dr_high : high (pcp z') = high (pcp z);
  dr_batch : batch (pcp z') = batch (pcp z);
  dr_span : spanned_pages z' = spanned_pages z
}.

Lemma drained_refl z : core z -> drained 0 z z.
Proof. intros H. split; auto; lia. Qed.

Lemma drained_trans k k' z1 z2 z3 : drained k z1 z2 -> drained k' z2 z3 -> drained (k + k') z1 z3.
Proof. intros [] []. split; first [congruence|lia|assumption]. Qed.

Lemma drain_one z mt page rest :
  core z -> (mt < MIGRATE_PCPTYPES)%nat -> rev (lists (pcp z) mt) = page :: rest ->
  let z1 := set_pcp z (set_pcp_list (pcp z) mt (rev rest)) in
  let z2 := free_one_page_core page 0 (private (mem_map z1 page)) z1 in
  drained 1 z z2 /\ lists (pcp z2) mt = rev rest.
Proof.
  intros H Hmt E z1 z2. assert (El : lists (pcp z) mt = rev rest ++ [page]).
  { rewrite <- (rev_involutive (lists (pcp z) mt)), E. reflexivity. }
  assert (HPl : lists (pcp z) mt ≡ₚ page :: rev rest) by (rewrite El; solve_Permutation).
  assert (H1 : Pcp.core managed ((page, 0%nat) :: limbo) own z1)
    by exact (core_pcp_del managed limbo own z mt page (rev rest) _ H Hmt HPl eq_refl).
  destruct (co_pcp _ _ _ _ H page) as [_ Hpr].
  { apply (elem_of_plists (pcp z) mt); [exact Hmt|]. rewrite HPl. left. }
  destruct (core_freed managed limbo own z1 0 page (private (mem_map z page)) H1 Hpr) as (H2 & Hf & _).
  change (private (mem_map z1 page)) with (private (mem_map z page)) in z2. fold z2 in H2, Hf.
  pose proof (fr_pcp _ _ Hf) as Ep. split.
  - split; [exact H2| |rewrite (fr_pages _ _ Hf); reflexivity|now rewrite Ep..|apply (fr_span _ _ Hf)].
    unfold pcp_pages. rewrite Ep. fold (plists (pcp z1)) (plists (pcp z)).
    pose proof (plists_set (pcp z) mt (rev rest) Hmt) as HP. rewrite HPl in HP.
    apply Permutation_length in HP. rewrite !length_app in HP. cbn [length] in HP.
    change (pcp z1) with (set_pcp_list (pcp z) mt (rev rest)). lia.
  - rewrite Ep. cbn [pcp set_pcp z1 set_pcp_list lists]. now rewrite decide_True.
Qed.

Lemma bulk_list_spec count bf mt z :
  core z -> (mt < MIGRATE_PCPTYPES)%nat -> lists (pcp z) mt <> [] -> (0 < count)%nat -> 0 < bf ->
  exists count' bf' z', bulk_list count bf mt z = (count', bf', z')
  /\ (count' < count)%nat /\ 0 <= bf' /\ drained (count - count') z z'.
Proof.
  intros H Hmt. revert bf z H. induction count as [|count IH]; intros bf z H Hne Hc Hbf; [lia|].
  cbn [bulk_list]. destruct (rev (lists (pcp z) mt)) as [|page rest] eqn:E.
  { exfalso. apply Hne. rewrite <- (rev_involutive (lists (pcp z) mt)), E. reflexivity. }
  destruct (drain_one z mt page rest H Hmt E) as [Hd El]. cbv zeta.
  set (z2 := free_one_page_core page 0 _ _) in *.
  destruct (Nat.eqb_spec count 0) as [->|Hc0]; [exists 0%nat, bf, z2; split; [reflexivity|]; split; [lia|]; split; [lia|exact Hd]|].
  destruct ((bf - 1 =? 0) || (length rest =? 0)%nat) eqn:Eb.
  - exists count, (bf - 1), z2. split; [reflexivity|]. split; [lia|]. split; [lia|].
    now replace (S count - count)%nat with 1%nat by lia.
  - apply orb_false_iff in Eb as [Eb1%Z.eqb_neq Eb2%Nat.eqb_neq].
    destruct (IH (bf - 1) z2 (dr_core _ _ _ Hd)) as (c' & bf' & z' & -> & H1 & H2 & H3); [|lia|lia|].
    { rewrite El. intros E'. apply Eb2. rewrite <- length_rev, E'. reflexivity. }
    exists c', bf', z'. split; [reflexivity|]. split; [lia|]. split; [exact H2|].
    replace (S count - c')%nat with (1 + (count - c'))%nat by lia. exact (drained_trans _ _ _ _ _ Hd H3).
Qed.

(** The search comes to a non-empty list when there is one. *)
Lemma bulk_next_spec p bf mt :
  plists p <> [] -> (mt < MIGRATE_PCPTYPES)%nat -> 0 <= bf ->
  exists bf' mt', bulk_next MIGRATE_PCPTYPES p bf mt = Ok (bf', mt')
  /\ (mt' < MIGRATE_PCPTYPES)%nat /\ lists p mt' <> [] /\ 0 < bf'.
Proof.
  unfold plists, MIGRATE_PCPTYPES. intros Hne Hmt Hbf.
  destruct (lists p 0) as [|a0 l0] eqn:E0; destruct (lists p 1) as [|a1 l1] eqn:E1;
    destruct (lists p 2) as [|a2 l2] eqn:E2; try contradiction;
    destruct mt as [|[|[|]]]; try lia;
    cbn [bulk_next];
    change (if decide (1%nat = MIGRATE_PCPTYPES) then 0%nat else 1%nat) with 1%nat;
    change (if decide (2%nat = MIGRATE_PCPTYPES) then 0%nat else 2%nat) with 2%nat;
    change (if decide (3%nat = MIGRATE_PCPTYPES) then 0%nat else 3%nat) with 0%nat;
    change (if decide (1%nat = MIGRATE_PCPTYPES) then 0%nat else 1%nat) with 1%nat;
    change (if decide (2%nat = MIGRATE_PCPTYPES) then 0%nat else 2%nat) with 2%nat;
    rewrite ?E0, ?E1, ?E2;
    (do 2 eexists; split; [reflexivity|]; split; [lia|]; split; [rewrite ?E0, ?E1, ?E2; discriminate|lia]).
Qed.

Lemma free_pcppages_loop_spec fuel count bf mt z :
  core z -> (mt < MIGRATE_PCPTYPES)%nat -> 0 <= bf -> (count <= fuel)%nat ->
  (count <= length (pcp_pages z))%nat ->
  exists z', free_pcppages_loop fuel count bf mt z = Ok z' /\ drained count z z'.
Proof.
  revert count bf mt z. induction fuel as [|fuel IH]; intros count bf mt z H Hmt Hbf Hc Hl.
  - assert (count = 0%nat) as -> by lia. exists z. split; [reflexivity|now apply drained_refl].
  - destruct count as [|count]; [exists z; split; [reflexivity|now apply drained_refl]|].
    cbn [free_pcppages_loop].
    destruct (bulk_next_spec (pcp z) bf mt) as (bf1 & mt1 & -> & Hmt1 & Hne & Hbf1); [|assumption..|].
    { intros E. change (plists (pcp z)) with (pcp_pages z) in E. rewrite E in Hl. cbn in Hl. lia. }
    cbn [rbind].
    destruct (bulk_list_spec (S count) bf1 mt1 z H Hmt1 Hne ltac:(lia) Hbf1)
      as (c' & bf2 & z1 & -> & Hlt & Hbf2 & Hd).
    destruct (IH c' bf2 mt1 z1 (dr_core _ _ _ Hd) Hmt1 Hbf2 ltac:(lia)) as (z2 & -> & Hd2).
    { pose proof (dr_len _ _ _ Hd). lia. }
    exists z2. split; [reflexivity|]. replace (S count) with (S count - c' + c')%nat by lia.
    exact (drained_trans _ _ _ _ _ Hd Hd2).
Qed.

Lemma core_counter z n : core z -> core (set_nr_free_pages z n).
Proof.
  intros [Hi Hp Hn Hz Hc Hb Hl Ho]. split; try assumption. now apply buddy_inv_counter.
Qed.

Lemma free_pcppages_bulk_spec count z :
  core z -> 0 <= count <= Z.of_nat (length (pcp_pages z)) ->
  exists z', free_pcppages_bulk count z = Ok z'
  /\ drained (Z.to_nat count) (set_nr_free_pages z (nr_free_pages z + count)) z'.
Proof.
  intros H Hc. unfold free_pcppages_bulk. apply free_pcppages_loop_spec; try lia.
  - now apply core_counter.
  - unfold MIGRATE_PCPTYPES. lia.
  - change (pcp_pages (set_nr_free_pages z (nr_free_pages z + count))) with (pcp_pages z). lia.
Qed.

End Bulk.

(** ** Allocation *)

Section Alloc.

Context (managed : list Z) (dis : bool).

Local Abbreviation core := (core managed).

Lemma core_perm_limbo limbo limbo' own z : limbo ≡ₚ limbo' -> core limbo own z -> core limbo' own z.
Proof.
  intros HP [Hi Hp Hn Hz Hc Hb Hl Ho]. split; try assumption.
  - now rewrite <- HP.
  - intros p o H. apply Hb. now rewrite HP.
  - intros p o q H. apply Hl. now rewrite HP.
Qed.

(** [private] of a page that is not free does not matter. *)
Lemma core_private limbo own z p v :
  core limbo own z -> p ∈ pages limbo ++ pages own -> core limbo own (set_page_private p v z).
Proof.
  intros H Hp. apply (core_upd managed limbo own limbo own (eq p)); try assumption; try reflexivity.
  - now intros q <-.
  - intros q Hq. now rewrite decide_False by congruence.
  - intros q <-. rewrite decide_True by reflexivity. cbn [PageBuddy].
    apply not_free_unmarked; [apply H|]. apply (core_not_free managed limbo own z p H), elem_of_app. now right.
  - intros q. apply Z.eq_dec.
  - apply H.
  - intros p' o q H' Hq. pose proof (co_limbo _ _ _ _ H p' o q H' Hq) as Hcl. revert Hcl. unfold clean.
    zone_simpl. destruct (decide (q = p)); auto.
  - intros p' o q H' Hq. pose proof (co_own _ _ _ _ H p' o q H' Hq) as Hcl. revert Hcl. unfold own_page.
    zone_simpl. destruct (decide (q = p)); auto.
Qed.

Lemma core_size limbo own z :
  core limbo own z ->
  free_count z + Z.of_nat (length (pcp_pages z)) + Z.of_nat (length (pages limbo))
    + Z.of_nat (length (pages own)) = Z.of_nat (length managed).
Proof.
  intros H. rewrite <- length_free_pages by apply H.
  pose proof (Permutation_length (co_part _ _ _ _ H)) as E. rewrite !length_app in E. lia.
Qed.

Lemma managed_bound limbo own z :
  core limbo own z -> Z.of_nat (length managed) <= Z.max 0 (spanned_pages z).
Proof.
  intros H. assert (Hle : (length managed <= length (seqZ (zone_start_pfn z) (spanned_pages z)))%nat).
  { apply submseteq_length, NoDup_submseteq; [apply H|]. intros q Hq. apply elem_of_seqZ. exact (co_zone _ _ _ _ H q Hq). }
  rewrite length_seqZ in Hle. lia.
Qed.

(** The pages [rmqueue_bulk] collects, before they are linked to the list. *)
Lemma rmqueue_bulk_loop_spec n mt limbo own z :
  core limbo own z -> (mt < MIGRATE_PCPTYPES)%nat ->
  exists l z', rmqueue_bulk_loop dis n 0 mt z = (l, z')
  /\ core (map (fun q => (q, 0%nat)) l ++ limbo) own z'
  /\ (forall q, q ∈ l -> private (mem_map z' q) = mt)
  /\ (forall q, ~ free_page z q -> mem_map z' q = mem_map z q)
  /\ nr_free_pages z' = nr_free_pages z /\ pcp z' = pcp z /\ spanned_pages z' = spanned_pages z
  /\ (l = [] -> n = 0%nat \/ forall q, ~ free_page z q).
Proof.
  intros H Hmt. revert limbo z H. induction n as [|n IH]; intros limbo z H; cbn [rmqueue_bulk_loop].
  { exists [], z. split; [reflexivity|]. split; [exact H|]. split; [intros q Hq; inversion Hq|].
    do 4 (split; [reflexivity|]). now left. }
  pose proof (rmqueue_spec dis z 0 mt (co_buddy _ _ _ _ H) Hmt ltac:(unfold MAX_ORDER; lia)) as Hr.
  destruct (rmqueue dis 0 mt z) as [[page|] z1].
  - pose proof (core_granted managed limbo own z 0 page z1 H Hr) as H1.
    assert (Hin : page ∈ pages ((page, 0%nat) :: limbo) ++ pages own) by (left).
    pose proof (core_private _ own z1 page mt H1 Hin) as H2.
    destruct (IH _ _ H2) as (l & z' & -> & H3 & Hpr & Hm & Hn & Hpc & Hsp & _). exists (page :: l), z'.
    assert (Hnf : ~ free_page (set_page_private page mt z1) page).
    { apply (core_not_free managed _ own _ page H2), elem_of_app. now right. }
    split; [reflexivity|]. split; [|split; [|split; [|split; [|split; [|split]]]]].
    + apply (core_perm_limbo (map (fun q => (q, 0%nat)) l ++ (page, 0%nat) :: limbo)); [|exact H3].
      cbn [map]. solve_Permutation.
    + intros q [->|Hq]%elem_of_cons; [|exact (Hpr q Hq)]. rewrite (Hm page Hnf).
      unfold set_page_private, upd_page. zone_simpl. now rewrite decide_True.
    + intros q Hq. assert (Hqp : q <> page).
      { intros ->. apply Hq, (gr_was _ _ _ _ Hr). now apply in_block_0. }
      rewrite Hm.
      * unfold set_page_private, upd_page. zone_simpl. rewrite decide_False by exact Hqp.
        exact (gr_mem _ _ _ _ Hr q Hq).
      * intros Hf. apply Hq. now apply (gr_free _ _ _ _ Hr q).
    + rewrite Hn. apply (fr_pages _ _ (gr_frame _ _ _ _ Hr)).
    + rewrite Hpc. apply (fr_pcp _ _ (gr_frame _ _ _ _ Hr)).
    + rewrite Hsp. apply (fr_span _ _ (gr_frame _ _ _ _ Hr)).
    + discriminate.
  - destruct Hr as [-> Hr]. exists [], z. split; [reflexivity|]. split; [exact H|]. split; [intros q Hq; inversion Hq|].
    do 4 (split; [reflexivity|]). intros _. right.
    intros q (o & p & Hp & _). rewrite (Hr o ltac:(lia)) in Hp. inversion Hp.
Qed.

(** Refilling an empty per-CPU list. *)
Lemma rmqueue_bulk_spec count mt cold own z :
  core [] own z -> (mt < MIGRATE_PCPTYPES)%nat -> 0 < count -> spanned_pages z <= 2 ^ 20 ->
  exists n z', rmqueue_bulk dis 0 count mt cold z = (n, z') /\ core [] own z'
  /\ Z.of_nat (length (pcp_pages z')) = Z.of_nat (length (pcp_pages z)) + n
  /\ nr_free_pages z' = nr_free_pages z - n /\ spanned_pages z' = spanned_pages z
  /\ pcp_count (pcp z') = pcp_count (pcp z) /\ high (pcp z') = high (pcp z) /\ batch (pcp z') = batch (pcp z)
  /\ (forall q, ~ free_page z q -> mem_map z' q = mem_map z q)
  /\ (lists (pcp z') mt = [] -> forall q, ~ free_page z q).
Proof.
  intros H Hmt Hc Hs. unfold rmqueue_bulk.
  destruct (rmqueue_bulk_loop_spec (Z.to_nat count) mt [] own z H Hmt)
    as (l & z1 & -> & H1 & Hpr & Hm & Hn & Hpc & Hsp & Hnil).
  set (new := if cold then lists (pcp z1) mt ++ rev l else l ++ lists (pcp z1) mt).
  assert (Hnew : new ≡ₚ l ++ lists (pcp z1) mt)
    by (unfold new; destruct cold; [rewrite <- Permutation_rev|]; solve_Permutation).
  set (z2 := set_pcp z1 (set_pcp_list (pcp z1) mt new)).
  assert (H2 : core [] own z2).
  { apply (core_pcp_add managed [] own z1 mt new l); [exact H1|exact Hmt|exact Hnew|reflexivity|].
    intros q Hq. rewrite (Hpr q Hq). unfold MIGRATE_PCPTYPES, MIGRATE_ISOLATE in *. lia. }
  assert (Hlen : Z.of_nat (length (pcp_pages z2)) = Z.of_nat (length (pcp_pages z)) + Z.of_nat (length l)).
  { pose proof (plists_set (pcp z1) mt new Hmt) as HP. apply Permutation_length in HP.
    apply Permutation_length in Hnew. rewrite !length_app in *. change (pcp_pages z) with (plists (pcp z)). rewrite <- Hpc.
    change (pcp_pages z2) with (plists (set_pcp_list (pcp z1) mt new)). lia. }
  assert (Hshl : Z.of_nat (length l) .<< Z.of_nat 0 = Z.of_nat (length l)).
  { unfold shl32. rewrite Z.shiftl_0_r. apply u32_id. pose proof (core_size _ _ _ H1) as Hsz.
    pose proof (managed_bound _ _ _ H). rewrite pages_app, length_app, pages_singles in Hsz.
    pose proof (free_count_bound z1 (co_buddy _ _ _ _ H1)). unfold is_u32. lia. }
  rewrite Hshl. exists (Z.of_nat (length l)). eexists. split; [reflexivity|].
  split; [exact (core_counter managed [] own z2 _ H2)|]. split; [exact Hlen|].
  split; [cbn [set_nr_free_pages nr_free_pages]; f_equal; exact Hn|]. split; [exact Hsp|]. rewrite <- !Hpc.
  do 3 (split; [reflexivity|]). split; [exact Hm|].
  cbn [set_nr_free_pages pcp set_pcp z2 set_pcp_list lists]. rewrite decide_True by reflexivity. intros E.
  rewrite E in Hnew. apply Permutation_nil, app_eq_nil in Hnew as [El _]. destruct (Hnil El); [lia|assumption].
Qed.

(** [prep_new_page] has nothing against a clean block, and makes it its caller's. *)
Lemma prep_check_clean l z :
  (forall q, q ∈ l -> clean z q /\ PageBuddy (mem_map z q) = false) -> prep_check l z = (false, z).
Proof.
  induction l as [|q l IH]; intros H; [reflexivity|]. cbn [prep_check]. unfold check_new_page.
  destruct (H q) as [(Hc & Hb & Hd) Hm]; [left|]. rewrite Hc, Hb, Hd, Hm. apply IH. intros q' H'. apply H. now right.
Qed.

Lemma prep_new_page_spec p o limbo own z :
  core ((p, o) :: limbo) own z ->
  exists m, prep_new_page p o z = (false, set_mem_map z m) /\ core limbo ((p, o) :: own) (set_mem_map z m)
  /\ (forall q, q <> p -> m q = mem_map z q).
Proof.
  intros H. pose proof (core_held managed limbo own z p o H) as Hh.
  assert (Hun : forall q, in_block o p q -> PageBuddy (mem_map z q) = false).
  { intros q Hq. apply not_free_unmarked; [apply H|exact (held_free _ _ _ Hh q Hq)]. }
  pose proof (order_32 _ (held_order _ _ _ Hh)) as Ho.
  unfold prep_new_page. rewrite prep_check_clean.
  2:{ intros q Hq%elem_of_block; [|exact Ho]. split; [exact (held_clean _ _ _ Hh q Hq)|exact (Hun q Hq)]. }
  eexists. split; [reflexivity|].
  assert (Hm : forall q, q <> p -> mem_map (set_page_count p 1 (set_page_private p 0 z)) q = mem_map z q).
  { intros q Hq. unfold set_page_count, set_page_private, upd_page. zone_simpl. now rewrite !decide_False. }
  assert (Hmp : mem_map (set_page_count p 1 (set_page_private p 0 z)) p
    = {| PageBuddy := PageBuddy (mem_map z p); private := 0; _count := 1; bad := bad (mem_map z p);
         dirty := dirty (mem_map z p) |}).
  { unfold set_page_count, set_page_private, upd_page. zone_simpl. now rewrite !decide_True. }
  split; [|exact Hm].
  apply (core_claim managed limbo own p o [(p, o)] z); [exact H| | | | |].
  - intros q Hq. apply Hm. intros ->. apply Hq, in_block_head.
  - unfold pages. cbn. now rewrite app_nil_r.
  - intros p' o' [= -> ->]%list_elem_of_singleton. split; [apply (held_order _ _ _ Hh)|apply (held_aligned _ _ _ Hh)].
  - intros q Hq. destruct (Z.eq_dec q p) as [->|Hne]; [|exact (eq_trans (f_equal PageBuddy (Hm q Hne)) (Hun q Hq))].
    exact (eq_trans (f_equal PageBuddy Hmp) (Hun p Hq)).
  - intros p' o' q [= -> ->]%list_elem_of_singleton Hq. unfold own_page.
    destruct (held_clean _ _ _ Hh q Hq) as (Hc & Hb & _). destruct (decide (q = p)) as [->|Hne].
    + split; [exact (eq_trans (f_equal bad Hmp) Hb)|exact (f_equal _count Hmp)].
    + split; [exact (eq_trans (f_equal bad (Hm q Hne)) Hb)|exact (eq_trans (f_equal _count (Hm q Hne)) Hc)].
Qed.

End Alloc.
