(* ===== verification/PageOps.v ===== *)
(** * The page allocator's interface: allocating, freeing, splitting

    The invariant that every call of the interface keeps, with the zone's counters,
    and what each call gives its caller. *)

From S2P Require Import Prelude PageAlloc Buddy BuddyAlloc Pcp.

(** A zone whose owners have [own], with the blocks [limbo] held by a caller as they came from
    the allocator, without a reference of their own. *)
Record zone_at (managed : list Z) (limbo own : list (Z * nat)) (z : zone) : Prop := {
  zi_core : core managed limbo own z;
  zi_pages : nr_free_pages z = free_count z;
  zi_count : pcp_count (pcp z) = Z.of_nat (length (pcp_pages z));
  zi_batch : 0 < batch (pcp z) <= high (pcp z);
  zi_span : spanned_pages z <= 2 ^ 20
}.

Abbreviation zone_inv managed := (zone_at managed []).

Section Ops.

Context (managed : list Z) (dis : bool).

Local Abbreviation core := (core managed).
Local Abbreviation zone_at := (zone_at managed).
Local Abbreviation zone_inv := (zone_at []).

Lemma core_pages_eq limbo own z limbo' own' z' :
  core limbo own z -> core limbo' own' z' ->
  free_count z' + Z.of_nat (length (pcp_pages z')) + Z.of_nat (length (pages limbo')) + Z.of_nat (length (pages own'))
  = free_count z + Z.of_nat (length (pcp_pages z)) + Z.of_nat (length (pages limbo)) + Z.of_nat (length (pages own)).
Proof. intros H H'. rewrite (core_size _ _ _ _ H), (core_size _ _ _ _ H'). reflexivity. Qed.

(** ** Allocation *)

(** What a pass leaves: a block in limbo, with the counters right again. *)
Record passed (own : list (Z * nat)) (p : Z) (order : nat) (z z' : zone) : Prop := {
  ps_core : core [(p, order)] own z';
  ps_pages : nr_free_pages z' = free_count z';
  ps_count : pcp_count (pcp z') = Z.of_nat (length (pcp_pages z'));
  ps_batch : 0 < batch (pcp z') <= high (pcp z');
  ps_span : spanned_pages z' = spanned_pages z;
  ps_own : forall q, q ∈ pages own -> mem_map z' q = mem_map z q
}.

Lemma own_not_free limbo own z q : core limbo own z -> q ∈ pages own -> ~ free_page z q.
Proof. intros H Hq. apply (core_not_free managed limbo own z q H). rewrite !elem_of_app. auto. Qed.

(** Taking the first or last page of a per-CPU list that is not empty. *)
Lemma pass_from_list own cold mt z z0 page rest :
  zone_inv own z -> (mt < MIGRATE_PCPTYPES)%nat -> spanned_pages z = spanned_pages z0 ->
  (forall q, q ∈ pages own -> mem_map z q = mem_map z0 q) ->
  (if cold : bool then rev (lists (pcp z) mt) else lists (pcp z) mt) = page :: rest ->
  passed own page 0 z0
    (set_pcp z (add_pcp_count (set_pcp_list (pcp z) mt (if cold then rev rest else rest)) (-1))).
Proof.
  intros [Hc Hn Hpc Hb Hs] Hmt Es Hown E.
  assert (HP : lists (pcp z) mt ≡ₚ page :: (if cold then rev rest else rest)).
  { destruct cold; [|now rewrite E]. rewrite (Permutation_rev (lists (pcp z) mt)), E.
    constructor. apply Permutation_rev. }
  set (c := add_pcp_count _ _).
  assert (H1 : core [(page, 0%nat)] own (set_pcp z c))
    by exact (core_pcp_del managed [] own z mt page _ c Hc Hmt HP eq_refl).
  pose proof (core_pages_eq _ _ _ _ _ _ Hc H1) as Hsz. change (free_count (set_pcp z c)) with (free_count z) in Hsz.
  change (length (pages [(page, 0%nat)])) with 1%nat in Hsz. change (length (pages [])) with 0%nat in Hsz.
  split; [exact H1|exact Hn| |exact Hb|exact Es|exact Hown].
  change (pcp_count (pcp (set_pcp z c))) with (pcp_count (pcp z) + -1). lia.
Qed.

Lemma rmqueue_pass_spec order cold mt own z :
  zone_inv own z -> (mt < MIGRATE_PCPTYPES)%nat -> (order < MAX_ORDER)%nat ->
  match rmqueue_pass dis order cold mt z with
  | (Some p, z') => passed own p order z z'
  | (None, z') => zone_inv own z' /\ none_free order z
  end.
Proof.
  intros H Hmt Ho. pose proof H as [Hc Hn Hpc Hb Hs]. unfold rmqueue_pass.
  destruct (Nat.eqb_spec order 0) as [->|Hne].
  - destruct (lists (pcp z) mt) as [|a l] eqn:El.
    + destruct (rmqueue_bulk_spec managed dis (batch (pcp z)) mt cold own z Hc Hmt ltac:(lia) Hs)
        as (n & z1 & -> & H1 & Hlen & Hn1 & Hs1 & Hc1 & Hh1 & Hb1 & Hm1 & Hnil).
      set (z2 := set_pcp z1 _).
      assert (H2 : core [] own z2).
      { apply (core_set_pcp managed [] [] own z1); [exact H1|reflexivity|auto|auto]. }
      pose proof (core_pages_eq _ _ _ _ _ _ Hc H2) as Hsz. change (pcp_pages z2) with (pcp_pages z1) in Hsz.
      assert (Hz2 : zone_inv own z2).
      { split; [exact H2| | | |].
        - change (nr_free_pages z2) with (nr_free_pages z1). lia.
        - change (pcp_count (pcp z2)) with (pcp_count (pcp z1) + n). change (pcp_pages z2) with (pcp_pages z1). lia.
        - change (batch (pcp z2)) with (batch (pcp z1)). change (high (pcp z2)) with (high (pcp z1)). lia.
        - change (spanned_pages z2) with (spanned_pages z1). lia. }
      change (lists (pcp z2) mt) with (lists (pcp z1) mt).
      destruct (if cold then rev (lists (pcp z1) mt) else lists (pcp z1) mt) as [|page rest] eqn:E.
      * split; [exact Hz2|]. intros p _. exists p. split; [apply in_block_head|]. apply Hnil.
        destruct cold; [|exact E]. now rewrite <- (rev_involutive (lists (pcp z1) mt)), E.
      * apply (pass_from_list own cold mt z2 z page rest Hz2 Hmt); [exact Hs1| |exact E].
        intros q Hq. apply Hm1. exact (own_not_free [] own z q Hc Hq).
    + destruct (if cold then rev (lists (pcp z) mt) else lists (pcp z) mt) as [|page rest] eqn:E.
      * exfalso. destruct cold; [apply (f_equal (@rev Z)) in E; rewrite rev_involutive in E; cbn in E|]; congruence.
      * now apply (pass_from_list own cold mt z z page rest H Hmt).
  - pose proof (rmqueue_spec dis z order mt (co_buddy _ _ _ _ Hc) Hmt Ho) as Hr.
    destruct (rmqueue dis order mt z) as [[p|] z1].
    + pose proof (core_granted managed [] own z order p z1 Hc Hr) as H1.
      pose proof (fr_pcp _ _ (gr_frame _ _ _ _ Hr)) as Ep.
      split; [now apply core_counter| |..]; cbn [set_nr_free_pages nr_free_pages pcp spanned_pages].
      * rewrite shl_pow2, (fr_pages _ _ (gr_frame _ _ _ _ Hr)) by auto.
        change (free_count (set_nr_free_pages _ _)) with (free_count z1).
        rewrite (free_count_granted z order p z1 (co_buddy _ _ _ _ Hc) Hr). lia.
      * change (pcp_pages (set_nr_free_pages _ _)) with (pcp_pages z1). unfold pcp_pages. now rewrite Ep.
      * now rewrite Ep.
      * apply (fr_span _ _ (gr_frame _ _ _ _ Hr)).
      * intros q Hq. apply (gr_mem _ _ _ _ Hr). exact (own_not_free [] own z q Hc Hq).
    + destruct Hr as [-> Hr]. split; [exact H|]. exact (no_head_none_free z order (co_buddy _ _ _ _ Hc) Ho Hr).
Qed.

(** One pass is enough: pages in the allocator's hands are always fit. *)
Lemma buffered_rmqueue_spec fuel order cold mt own z :
  zone_inv own z -> (mt < MIGRATE_PCPTYPES)%nat -> (order < MAX_ORDER)%nat ->
  exists r z', buffered_rmqueue dis (S fuel) order cold mt z = Ok (r, z')
  /\ match r with
     | Some p => zone_inv ((p, order) :: own) z' /\ forall q, q ∈ pages own -> mem_map z' q = mem_map z q
     | None => zone_inv own z' /\ none_free order z
     end.
Proof.
  intros H Hmt Ho. cbn [buffered_rmqueue]. pose proof (rmqueue_pass_spec order cold mt own z H Hmt Ho) as Hp.
  destruct (rmqueue_pass dis order cold mt z) as [[p|] z1]; [|now exists None, z1].
  destruct Hp as [Hc Hn Hpc Hb Hs Hown]. destruct (prep_new_page_spec managed p order [] own z1 Hc) as (m & -> & H2 & Hm).
  exists (Some p), (set_mem_map z1 m). split; [reflexivity|]. split.
  - split; [exact H2|exact Hn|exact Hpc|exact Hb|]. change (spanned_pages (set_mem_map z1 m)) with (spanned_pages z1).
    rewrite Hs. apply H.
  - intros q Hq. rewrite <- (Hown q Hq). apply Hm. intros ->.
    apply (core_head_disjoint managed [] own z1 p order p Hc); [rewrite !elem_of_app; auto|apply in_block_head].
Qed.

(** ** Freeing *)

Definition undirty (g : page) : page :=
  {| PageBuddy := PageBuddy g; private := private g; _count := _count g; bad := bad g; dirty := false |}.

Lemma free_check_all_spec l z :
  (forall q, q ∈ l -> bad (mem_map z q) = false /\ PageBuddy (mem_map z q) = false /\ _count (mem_map z q) = 0) ->
  exists m, free_check_all l z = (false, set_mem_map z m)
  /\ (forall q, q ∉ l -> m q = mem_map z q) /\ (forall q, q ∈ l -> m q = undirty (mem_map z q)).
Proof.
  revert z. induction l as [|q l IH]; intros z H.
  - exists (mem_map z). split; [now destruct z|]. split; [reflexivity|]. intros q Hq. inversion Hq.
  - cbn [free_check_all]. unfold free_pages_check. destruct (H q) as (Hb & Hp & Hc); [left|]. rewrite Hb, Hp, Hc. cbn [orb negb Z.eqb].
    set (z1 := upd_page q _ z). assert (H1 : forall q', mem_map z1 q' = if decide (q' = q) then undirty (mem_map z q') else mem_map z q')
      by reflexivity.
    destruct (IH z1) as (m & -> & Hout & Hin).
    { intros q' Hq'. rewrite H1. destruct (decide (q' = q)); apply H; now right. }
    exists m. split; [reflexivity|]. split.
    + intros q' [Hne Hl]%not_elem_of_cons. rewrite Hout, H1 by exact Hl. now rewrite decide_False.
    + intros q' Hq'. destruct (decide (q' ∈ l)) as [Hl|Hl].
      * rewrite Hin, H1 by exact Hl. now destruct (decide (q' = q)).
      * apply elem_of_cons in Hq' as [->|]; [|contradiction]. rewrite Hout, H1 by exact Hl. now rewrite decide_True.
Qed.

(** After the owner's reference is dropped and the pages are checked, the block is in limbo. *)
Lemma release_checked lim p o own z l :
  core lim ((p, o) :: own) z -> (forall q, q ∈ l <-> in_block o p q) ->
  exists m, free_check_all l (set_page_count p 0 z) = (false, set_mem_map z m)
  /\ core ((p, o) :: lim) own (set_mem_map z m).
Proof.
  intros H Hl. assert (Hin : (p, o) ∈ (p, o) :: own) by left.
  assert (Hin' : (p, o) ∈ lim ++ (p, o) :: own) by (apply elem_of_app; now right).
  assert (Hz1 : forall q, in_block o p q -> bad (mem_map (set_page_count p 0 z) q) = false
    /\ PageBuddy (mem_map (set_page_count p 0 z) q) = false /\ _count (mem_map (set_page_count p 0 z) q) = 0).
  { intros q Hq. destruct (co_own _ _ _ _ H p o q Hin Hq) as [Hb Hc].
    pose proof (not_free_unmarked z q (co_buddy _ _ _ _ H) (core_block_not_free managed _ _ _ _ _ q H Hin' Hq)) as Hm.
    unfold set_page_count, upd_page. zone_simpl. destruct (decide (q = p)); auto. }
  destruct (free_check_all_spec l (set_page_count p 0 z)) as (m & -> & Hout & Hm).
  { intros q Hq%Hl. auto. }
  exists m. split; [reflexivity|]. apply core_release; [exact H| |].
  - intros q Hq. rewrite Hout by (now rewrite Hl). unfold set_page_count, upd_page. zone_simpl.
    rewrite decide_False; [reflexivity|]. intros ->. apply Hq, in_block_head.
  - intros q Hq. unfold clean. change (mem_map (set_mem_map z m) q) with (m q). rewrite Hm by (now rewrite Hl).
    destruct (Hz1 q Hq) as (Hb & Hp & Hc). cbn [undirty PageBuddy _count bad dirty]. auto.
Qed.

Lemma inv_free_one lim own p o z mt :
  core ((p, o) :: lim) own z -> (mt < MIGRATE_ISOLATE)%nat -> nr_free_pages z = free_count z ->
  let z' := free_one_page p o mt z in
  core lim own z' /\ nr_free_pages z' = free_count z' /\ pcp z' = pcp z /\ spanned_pages z' = spanned_pages z.
Proof.
  intros H Hmt Hn z'. unfold free_one_page in z'. set (z1 := set_nr_free_pages _ _) in z'.
  destruct (core_freed managed lim own z1 o p mt (core_counter managed _ own z _ H) Hmt) as (H1 & Hf & Hfc).
  fold z' in H1, Hf, Hfc. split; [exact H1|]. split; [|split; [apply (fr_pcp _ _ Hf)|apply (fr_span _ _ Hf)]].
  rewrite (fr_pages _ _ Hf), Hfc. change (free_count z1) with (free_count z). rewrite <- Hn. cbn [z1 set_nr_free_pages nr_free_pages].
  f_equal. apply shl_pow2, order_32, (core_order managed ((p, o) :: lim) own z p o H). left.
Qed.

(** A single page goes to a per-CPU list, which gives a batch back when it is too long. *)
Lemma free_hot_spec lim own p z m cold :
  zone_at lim ((p, 0%nat) :: own) z -> free_pages_check p (set_page_count p 0 z) = (false, set_mem_map z m) ->
  core ((p, 0%nat) :: lim) own (set_mem_map z m) ->
  exists z', free_hot_cold_page p cold (set_page_count p 0 z) = Ok z' /\ zone_at lim own z'.
Proof.
  intros [Hc Hn Hpc Hb Hs] E H1. unfold free_hot_cold_page. rewrite E. set (z1 := set_mem_map z m) in *.
  set (mt := get_pageblock_migratetype z1 p).
  assert (Hmt : (mt < MIGRATE_ISOLATE)%nat) by apply (bi_types _ (co_buddy _ _ _ _ Hc)).
  rewrite (bool_decide_eq_false_2 (mt = MIGRATE_ISOLATE)) by lia. rewrite andb_false_r.
  set (t := if (MIGRATE_PCPTYPES <=? mt)%nat then MIGRATE_MOVABLE else mt).
  assert (Ht : (t < MIGRATE_PCPTYPES)%nat).
  { unfold t. destruct (Nat.leb_spec MIGRATE_PCPTYPES mt); [unfold MIGRATE_MOVABLE, MIGRATE_PCPTYPES; lia|assumption]. }
  pose proof (core_private managed ((p, 0%nat) :: lim) own z1 p mt H1 ltac:(left)) as H2.
  set (z2 := set_page_private p mt z1) in *.
  set (new := if cold then lists (pcp z2) t ++ [p] else p :: lists (pcp z2) t).
  set (z3 := set_pcp z2 _).
  assert (H3 : core lim own z3).
  { apply (core_pcp_add managed lim own z2 t new [p]); [exact H2|exact Ht| |reflexivity|].
    - unfold new. destruct cold; [solve_Permutation|reflexivity].
    - intros q ->%list_elem_of_singleton. unfold z2, set_page_private, upd_page. zone_simpl.
      rewrite decide_True by reflexivity. exact Hmt. }
  pose proof (core_pages_eq _ _ _ _ _ _ Hc H3) as Hsz. change (free_count z3) with (free_count z) in Hsz.
  change (pages ((p, 0%nat) :: own)) with (p :: pages own) in Hsz. cbn [length] in Hsz.
  change (pcp_count (pcp z3)) with (pcp_count (pcp z) + 1). change (high (pcp z3)) with (high (pcp z)).
  destruct (Z.leb_spec (high (pcp z)) (pcp_count (pcp z) + 1)) as [Hhi|Hlo].
  - change (batch (pcp z3)) with (batch (pcp z)).
    destruct (free_pcppages_bulk_spec managed lim own (batch (pcp z)) z3 H3 ltac:(lia)) as (z4 & -> & [H4 Hlen Hn4 Hc4 Hh4 Hb4 Hs4]).
    cbn [rbind]. eexists. split; [reflexivity|].
    pose proof (core_pages_eq _ _ _ _ _ _ H3 H4) as Hsz4. change (free_count z3) with (free_count z) in Hsz4.
    change (pcp_pages (set_nr_free_pages z3 (nr_free_pages z3 + batch (pcp z)))) with (pcp_pages z3) in Hlen.
    change (nr_free_pages (set_nr_free_pages z3 (nr_free_pages z3 + batch (pcp z)))) with (nr_free_pages z + batch (pcp z)) in Hn4.
    split.
    + apply (core_set_pcp managed lim lim own z4); [exact H4|reflexivity|auto|auto].
    + change (nr_free_pages (set_pcp z4 _)) with (nr_free_pages z4). change (free_count (set_pcp z4 _)) with (free_count z4). lia.
    + change (pcp_count (pcp (set_pcp z4 (add_pcp_count (pcp z4) (- batch (pcp z))))))
        with (pcp_count (pcp z4) + - batch (pcp z)).
      change (pcp_pages (set_pcp z4 (add_pcp_count (pcp z4) (- batch (pcp z))))) with (pcp_pages z4).
      rewrite Hc4. change (pcp_count (pcp (set_nr_free_pages z3 (nr_free_pages z3 + batch (pcp z))))) with (pcp_count (pcp z) + 1). lia.
    + cbn [set_pcp pcp add_pcp_count batch high]. rewrite Hh4, Hb4. exact Hb.
    + change (spanned_pages (set_pcp z4 _)) with (spanned_pages z4). rewrite Hs4. exact Hs.
  - exists z3. split; [reflexivity|]. split; [exact H3|exact Hn| |exact Hb|exact Hs].
    change (pcp_count (pcp z3)) with (pcp_count (pcp z) + 1). lia.
Qed.

Lemma free_pages_held lim own p o z :
  zone_at lim ((p, o) :: own) z -> exists z', free_pages p o z = Ok z' /\ zone_at lim own z'.
Proof.
  intros H. pose proof H as [Hc Hn Hpc Hb Hs]. assert (Hin : (p, o) ∈ (p, o) :: own) by left.
  destruct (co_own _ _ _ _ Hc p o p Hin (in_block_head o p)) as [_ Hcnt]. rewrite decide_True in Hcnt by reflexivity.
  unfold free_pages. rewrite Hcnt. change (1 - 1) with 0. cbn [Z.eqb].
  destruct (Nat.eqb_spec o 0) as [->|Hne].
  - destruct (release_checked lim p 0 own z [p] Hc) as (m & E & H1).
    { intros q. rewrite list_elem_of_singleton, in_block_0. reflexivity. }
    apply (free_hot_spec lim own p z m false H); [|exact H1]. revert E. cbn [free_check_all].
    destruct (free_pages_check p (set_page_count p 0 z)) as [b z1]. rewrite orb_false_r. auto.
  - unfold free_pages_ok. destruct (release_checked lim p o own z (block p o) Hc) as (m & -> & H1).
    { intros q. apply elem_of_block. apply order_32, (core_order managed lim _ z p o Hc). apply elem_of_app. now right. }
    eexists. split; [reflexivity|]. set (z1 := set_mem_map z m) in *.
    destruct (inv_free_one lim own p o z1 (get_pageblock_migratetype z1 p) H1) as (H2 & Hn2 & Hp2 & Hs2);
      [apply (bi_types _ (co_buddy _ _ _ _ H1))|exact Hn|].
    split; [exact H2|exact Hn2| | |].
    + unfold pcp_pages. now rewrite Hp2.
    + now rewrite Hp2.
    + now rewrite Hs2.
Qed.

Lemma free_pages_spec own p o z :
  zone_inv ((p, o) :: own) z -> exists z', free_pages p o z = Ok z' /\ zone_inv own z'.
Proof. apply free_pages_held. Qed.

Lemma zone_inv_perm own own' z : own ≡ₚ own' -> zone_inv own z -> zone_inv own' z.
Proof. intros HP [Hc Hn Hpc Hb Hs]. split; try assumption. exact (core_perm managed [] own own' z HP Hc). Qed.

Lemma free_page_list_spec l own z :
  zone_inv (map (fun q => (q, 0%nat)) l ++ own) z -> exists z', free_page_list l z = Ok z' /\ zone_inv own z'.
Proof.
  revert z. induction l as [|q l IH]; intros z H; cbn [free_page_list]; [now exists z|].
  destruct (free_pages_spec _ q 0 z H) as (z1 & -> & H1). cbn [rbind]. exact (IH z1 H1).
Qed.

(** ** Splitting *)

Lemma set_counts l z q :
  mem_map (foldl (fun z p => set_page_count p 1 z) z l) q
  = if decide (q ∈ l) then {| PageBuddy := PageBuddy (mem_map z q); private := private (mem_map z q);
                              _count := 1; bad := bad (mem_map z q); dirty := dirty (mem_map z q) |}
    else mem_map z q.
Proof.
  revert z. induction l as [|p l IH]; intros z; cbn [foldl]; [now rewrite decide_False by apply not_elem_of_nil|].
  rewrite IH. unfold set_page_count, upd_page. zone_simpl.
  destruct (decide (q = p)) as [->|Hne].
  - rewrite (decide_True (P := p ∈ p :: l)) by left. zone_simpl. now destruct (decide (p ∈ l)).
  - destruct (decide (q ∈ l)) as [Hl|Hl].
    + rewrite decide_True by (now right). reflexivity.
    + rewrite decide_False; [reflexivity|]. intros [|]%elem_of_cons; contradiction.
Qed.

Lemma set_counts_mem l z :
  exists m, foldl (fun z p => set_page_count p 1 z) z l = set_mem_map z m.
Proof.
  revert z. induction l as [|p l IH]; intros z; cbn [foldl]; [exists (mem_map z); now destruct z|].
  destruct (IH (set_page_count p 1 z)) as [m ->]. now exists m.
Qed.

Definition singles (l : list Z) : list (Z * nat) := map (fun q => (q, 0%nat)) l.

Lemma elem_of_singles l p o : (p, o) ∈ singles l <-> o = 0%nat /\ p ∈ l.
Proof.
  unfold singles. rewrite list_elem_of_fmap. split; [intros (q & [= -> ->] & Hq); auto|].
  intros [-> Hp]. now exists p.
Qed.

(** Every page of a split block is owned on its own. *)
Lemma split_page_spec p o own z :
  zone_inv ((p, o) :: own) z -> zone_inv (singles (block p o) ++ own) (split_page p o z).
Proof.
  intros [Hc Hn Hpc Hb Hs]. assert (Hin : (p, o) ∈ (p, o) :: own) by left.
  pose proof (core_order managed [] _ z p o Hc Hin) as Ho. pose proof (pow2_pos o).
  unfold split_page. rewrite shl_pow2 by auto.
  assert (Hmem : forall q, in_block o p q -> bad (mem_map (foldl (fun z p => set_page_count p 1 z) z (seqZ (p + 1) (pow2 o - 1))) q) = false
    /\ _count (mem_map (foldl (fun z p => set_page_count p 1 z) z (seqZ (p + 1) (pow2 o - 1))) q) = 1
    /\ PageBuddy (mem_map (foldl (fun z p => set_page_count p 1 z) z (seqZ (p + 1) (pow2 o - 1))) q) = false).
  { intros q Hq. rewrite set_counts. destruct (co_own _ _ _ _ Hc p o q Hin Hq) as [Hbad Hcnt].
    pose proof (not_free_unmarked z q (co_buddy _ _ _ _ Hc) (core_block_not_free managed _ _ _ _ _ q Hc Hin Hq)).
    destruct (decide (q ∈ seqZ (p + 1) (pow2 o - 1))) as [Hl|Hl]; zone_simpl; [auto|].
    rewrite elem_of_seqZ in Hl. unfold in_block in Hq. rewrite decide_True in Hcnt by lia. auto. }
  assert (Hout : forall q, ~ in_block o p q -> mem_map (foldl (fun z p => set_page_count p 1 z) z (seqZ (p + 1) (pow2 o - 1))) q = mem_map z q).
  { intros q Hq. rewrite set_counts, decide_False; [reflexivity|]. rewrite elem_of_seqZ. unfold in_block in Hq. lia. }
  destruct (set_counts_mem (seqZ (p + 1) (pow2 o - 1)) z) as [m Em]. rewrite Em in *.
  split; [|exact Hn|exact Hpc|exact Hb|exact Hs].
  assert (Hdj : forall q p' o', (p', o') ∈ own -> in_block o' p' q -> ~ in_block o p q).
  { intros q p' o' H' Hq' Hq. pose proof (core_nodup managed _ _ _ Hc) as Hnd. apply NoDup_app in Hnd as (_ & _ & Hnd).
    apply NoDup_app in Hnd as (_ & _ & Hnd). change (pages ((p, o) :: own)) with (block p o ++ pages own) in Hnd.
    cbn [pages mbind list_bind app] in Hnd. apply NoDup_app in Hnd as (_ & Hd & _). apply (Hd q); [apply elem_of_block; auto|].
    apply elem_of_pages; [|now exists p', o']. intros p1 o1 H1. apply (core_order managed [] _ z p1 o1 Hc). now right. }
  apply (core_upd managed [] ((p, o) :: own) [] _ (in_block o p)); try assumption.
  - cbn [app]. rewrite pages_app. unfold singles. rewrite pages_singles. reflexivity.
  - intros q Hq. exact (core_in_block managed _ _ _ p o q Hc Hin Hq).
  - intros q Hq. now apply Hmem.
  - intros q. apply in_block_dec.
  - cbn [app]. intros p' o' [[-> _]%elem_of_singles|H']%elem_of_app; [split; [unfold MAX_ORDER; lia|apply aligned_0]|].
    apply (co_blocks _ _ _ _ Hc). now right.
  - intros p' o' q H'. inversion H'.
  - intros p' o' q [[-> Hp']%elem_of_singles|H']%elem_of_app Hq.
    + apply in_block_0 in Hq as ->. unfold own_page. rewrite decide_True by reflexivity.
      split; apply Hmem; apply (elem_of_block p o); auto.
    + unfold own_page. rewrite (Hout q (Hdj q p' o' H' Hq)). apply (co_own _ _ _ _ Hc p' o' q); [now right|exact Hq].
Qed.

End Ops.

(** ** Exact allocations *)

Lemma get_order_loop_spec fuel s :
  0 <= s < 2 ^ Z.of_nat fuel ->
  s < pow2 (S (get_order_loop fuel s)) /\ (get_order_loop fuel s = 0%nat \/ pow2 (get_order_loop fuel s) <= s).
Proof.
  revert s. induction fuel as [|fuel IH]; intros s Hs.
  - cbn in Hs. cbn [get_order_loop]. unfold pow2. cbn. lia.
  - rewrite Nat2Z.inj_succ, Z.pow_succ_r in Hs by lia. cbn [get_order_loop].
    rewrite Z.shiftr_div_pow2 by lia. change (2 ^ 1) with 2. destruct (Z.eqb_spec (s / 2) 0) as [E|E].
    + split; [|now left]. unfold pow2. cbn. zdiv.
    + destruct (IH (s / 2)) as [H1 H2]; [split; [apply Z.div_pos; lia|apply Z.div_lt_upper_bound; lia]|].
      rewrite (pow2_S (S _)). rewrite (pow2_S (get_order_loop fuel (s / 2))) in *. split; [zdiv|]. right.
      destruct H2 as [->|H2]; [unfold pow2; cbn; zdiv|zdiv].
Qed.

(** The number of pages of [size] bytes, and the least order that holds them. *)
Lemma get_order_spec size :
  0 < size <= 4096 * 2048 ->
  page_align_nr size = (size + 4095) / 4096 /\ 0 < page_align_nr size <= pow2 (get_order size)
  /\ (get_order size < MAX_ORDER)%nat /\ (get_order size = 0%nat \/ pow2 (get_order size - 1) < page_align_nr size).
Proof.
  intros Hs. assert (En : page_align_nr size = (size + 4095) / 4096).
  { unfold page_align_nr. rewrite u32_id by (unfold is_u32; lia). now rewrite Z.shiftr_div_pow2. }
  split; [exact En|]. rewrite En. unfold get_order. rewrite u32_id by (unfold is_u32; lia).
  rewrite Z.shiftr_div_pow2 by (unfold PAGE_SHIFT; lia). change (2 ^ (PAGE_SHIFT - 1)) with 2048.
  assert (Hr : 0 <= (size - 1) / 2048 < 4096) by zdiv.
  destruct (get_order_loop_spec 32 ((size - 1) / 2048)) as [H1 H2]; [split; [lia|eapply Z.lt_trans; [apply Hr|reflexivity]]|].
  set (k := get_order_loop 32 ((size - 1) / 2048)) in *. rewrite pow2_S in H1. pose proof (pow2_pos k).
  split; [split; zdiv|]. split.
  - destruct (Nat.lt_ge_cases k MAX_ORDER) as [|Hge]; [assumption|]. pose proof (pow2_le _ _ Hge) as Hle.
    change (pow2 MAX_ORDER) with 4096 in Hle. destruct H2 as [H2|H2]; [unfold MAX_ORDER in Hge; lia|lia].
  - destruct k as [|k']; [now left|]. right. replace (S k' - 1)%nat with k' by lia. rewrite pow2_S in *.
    destruct H2 as [H2|H2]; [discriminate|]. zdiv.
Qed.

Lemma seqZ_split p n k : 0 <= k <= n -> seqZ p n = seqZ p k ++ seqZ (p + k) (n - k).
Proof. intros H. replace n with (k + (n - k)) at 1 by lia. apply seqZ_app; lia. Qed.

Lemma alloc_pages_exact_spec managed dis size mt own z :
  zone_inv managed own z -> (mt < MIGRATE_PCPTYPES)%nat -> 0 < size <= 4096 * 2048 ->
  exists r z', alloc_pages_exact dis size mt z = Ok (r, z')
  /\ match r with
     | Some p => zone_inv managed (singles (seqZ p ((size + 4095) / 4096)) ++ own) z'
     | None => zone_inv managed own z' /\ none_free (get_order size) z
     end.
Proof.
  intros H Hmt Hs. destruct (get_order_spec size Hs) as (En & Hle & Ho & _). unfold alloc_pages_exact.
  destruct (buffered_rmqueue_spec managed dis 0 (get_order size) false mt own z H Hmt Ho) as (r & z1 & -> & H1).
  cbn [rbind]. destruct r as [p|]; [|now exists None, z1]. destruct H1 as [H1 _].
  pose proof (split_page_spec managed p (get_order size) own z1 H1) as H2. rewrite shl_pow2 by auto.
  rewrite block_pages, (seqZ_split p _ (page_align_nr size)) in H2 by (auto; lia).
  destruct (free_page_list_spec managed (seqZ (p + page_align_nr size) (pow2 (get_order size) - page_align_nr size))
    (singles (seqZ p (page_align_nr size)) ++ own) (split_page p (get_order size) z1)) as (z2 & -> & H3).
  { eapply zone_inv_perm; [|exact H2]. unfold singles. rewrite map_app. solve_Permutation. }
  exists (Some p), z2. split; [reflexivity|]. now rewrite <- En.
Qed.

(** ** Runs of the allocator *)

(** What callers may do: ask for blocks, free and split the blocks they own, and use the
    [private] word and the flags of the pages in them. *)
Inductive step (dis : bool) : zone * list (Z * nat) -> zone * list (Z * nat) -> Prop :=
  | step_alloc z own order cold mt p z' :
      (order < MAX_ORDER)%nat -> (mt < MIGRATE_PCPTYPES)%nat ->
      buffered_rmqueue dis 1 order cold mt z = Ok (Some p, z') -> step dis (z, own) (z', (p, order) :: own)
  | step_alloc_fails z own order cold mt z' :
      (order < MAX_ORDER)%nat -> (mt < MIGRATE_PCPTYPES)%nat ->
      buffered_rmqueue dis 1 order cold mt z = Ok (None, z') -> step dis (z, own) (z', own)
  | step_free z own own' p order z' :
      own ≡ₚ (p, order) :: own' -> free_pages p order z = Ok z' -> step dis (z, own) (z', own')
  | step_split z own own' p order :
      own ≡ₚ (p, order) :: own' ->
      step dis (z, own) (split_page p order z, singles (block p order) ++ own')
  | step_use z own p order q f :
      (p, order) ∈ own -> q ∈ block p order ->
      (forall g, PageBuddy (f g) = PageBuddy g /\ _count (f g) = _count g /\ bad (f g) = bad g) ->
      step dis (z, own) (upd_page q f z, own).

Lemma use_inv managed own z p o q f :
  zone_inv managed own z -> (p, o) ∈ own -> q ∈ block p o ->
  (forall g, PageBuddy (f g) = PageBuddy g /\ _count (f g) = _count g /\ bad (f g) = bad g) ->
  zone_inv managed own (upd_page q f z).
Proof.
  intros [Hc Hn Hpc Hb Hs] Hp Hq Hf. split; [|exact Hn|exact Hpc|exact Hb|exact Hs].
  apply elem_of_block in Hq; [|apply order_32, (core_order managed [] own z p o Hc Hp)].
  pose proof (core_in_block managed [] own z p o q Hc Hp Hq) as Hin.
  apply (core_upd managed [] own [] own (eq q)); try assumption; try reflexivity.
  - now intros q' <-.
  - intros q' Hne. now rewrite decide_False by congruence.
  - intros q' <-. rewrite decide_True by reflexivity. rewrite (proj1 (Hf _)).
    apply not_free_unmarked; [apply Hc|exact (core_block_not_free managed _ _ _ _ _ q Hc Hp Hq)].
  - intros q'. apply Z.eq_dec.
  - apply Hc.
  - intros p' o' q' H'. inversion H'.
  - intros p' o' q' H' Hq'. pose proof (co_own _ _ _ _ Hc p' o' q' H' Hq') as Ho. revert Ho. unfold own_page. zone_simpl.
    destruct (decide (q' = q)); [|auto]. destruct (Hf (mem_map z q')) as (_ & -> & ->). auto.
Qed.

Lemma step_inv managed dis s s' :
  step dis s s' -> zone_inv managed s.2 s.1 -> zone_inv managed s'.2 s'.1.
Proof.
  destruct 1 as [z own order cold mt p z' Ho Hmt E|z own order cold mt z' Ho Hmt E|z own own' p order z' HP E
    |z own own' p order HP|z own p order q f Hp Hq Hf]; cbn [fst snd]; intros H.
  - destruct (buffered_rmqueue_spec managed dis 0 order cold mt own z H Hmt Ho) as (r & z1 & E1 & H1).
    rewrite E in E1. injection E1 as <- <-. apply H1.
  - destruct (buffered_rmqueue_spec managed dis 0 order cold mt own z H Hmt Ho) as (r & z1 & E1 & H1).
    rewrite E in E1. injection E1 as <- <-. apply H1.
  - apply (zone_inv_perm managed _ _ z HP) in H. destruct (free_pages_spec managed own' p order z H) as (z1 & E1 & H1).
    rewrite E in E1. injection E1 as <-. exact H1.
  - apply (zone_inv_perm managed _ _ z HP) in H. now apply split_page_spec.
  - now apply (use_inv managed own z p order q f).
Qed.

Lemma run_inv managed dis s s' :
  rtc (step dis) s s' -> zone_inv managed s.2 s.1 -> zone_inv managed s'.2 s'.1.
Proof. induction 1 as [|s1 s2 s3 H1 _ IH]; [auto|]. intros H. apply IH. exact (step_inv managed dis s1 s2 H1 H). Qed.

(** ** The board's zone when it boots *)

Definition disco_pages : list Z := seqZ 0xC0000 2048.

Lemma disco_zone_inv : zone_inv disco_pages [] disco_zone.
Proof.
  pose proof disco_inv as Hi. split; [|vm_compute; reflexivity|vm_compute; reflexivity|split; vm_compute; congruence|vm_compute; congruence].
  split; [exact Hi| |apply NoDup_seqZ| | | | |].
  - change (pcp_pages disco_zone) with (@nil Z). cbn [app]. rewrite app_nil_r. apply NoDup_Permutation.
    + now apply NoDup_free.
    + apply NoDup_seqZ.
    + intros q. rewrite (elem_of_free disco_zone q Hi), disco_free. unfold disco_pages. rewrite elem_of_seqZ. lia.
  - intros q Hq%elem_of_seqZ. change (0xC0000 <= q < 0xC0000 + 2048). lia.
  - intros q Hq. inversion Hq.
  - intros p o H. inversion H.
  - intros p o q H. inversion H.
  - intros p o q H. inversion H.
Qed.

(** The zone after a page has been allocated and freed: it is on a per-CPU list. *)
Definition use_one (z : zone) : result zone :=
  let* (r, z) := buffered_rmqueue false 1 0 false MIGRATE_UNMOVABLE z in
  match r with Some p => free_pages p 0 z | None => Ok z end.

Lemma use_one_inv managed z :
  zone_inv managed [] z -> exists z', use_one z = Ok z' /\ zone_inv managed [] z'.
Proof.
  intros H. destruct (buffered_rmqueue_spec managed false 0 0 false MIGRATE_UNMOVABLE [] z H
    ltac:(unfold MIGRATE_UNMOVABLE, MIGRATE_PCPTYPES; lia) ltac:(unfold MAX_ORDER; lia)) as (r & z1 & E & H1).
  unfold use_one. rewrite E. cbn [rbind]. destruct r as [p|]; [|exists z1; split; [reflexivity|apply H1]].
  exact (free_pages_spec managed [] p 0 z1 (proj1 H1)).
Qed.

Lemma disco_used_inv :
  exists z, use_one disco_zone = Ok z /\ zone_inv disco_pages [] z /\ pcp_count (pcp z) = 1 /\ nr_free_pages z = 2047.
Proof.
  destruct (use_one_inv disco_pages disco_zone disco_zone_inv) as (z & E & H).
  assert (Er : match use_one disco_zone with Ok z => pcp_count (pcp z) = 1 /\ nr_free_pages z = 2047 | _ => False end)
    by (vm_compute; auto).
  rewrite E in Er. exists z. split; [exact E|]. split; [exact H|exact Er].
Qed.

(** ** Properties *)

(** C1: in every run of the allocator (requests of any order, type and temperature, successful or not,
    frees and splits of owned blocks, owners using their pages' flags and private words) each managed
    page is in exactly one place: in a block on the buddy lists, on a per-CPU list or in one owned
    block; the buddy lists stay well-formed, NR_FREE_PAGES is the number of pages on them, and the
    per-CPU count is right.  No operation gets stuck on the way: every request and every free of an
    owned block returns. *)
Theorem allocator_runs managed dis z0 own0 z own :
  zone_inv managed own0 z0 -> rtc (step dis) (z0, own0) (z, own) ->
  buddy_inv z /\ free_pages_of z ++ pcp_pages z ++ pages own ≡ₚ managed /\ NoDup managed
  /\ nr_free_pages z = Z.of_nat (length (free_pages_of z))
  /\ pcp_count (pcp z) = Z.of_nat (length (pcp_pages z))
  /\ (forall order cold mt, (order < MAX_ORDER)%nat -> (mt < MIGRATE_PCPTYPES)%nat ->
        exists r z', buffered_rmqueue dis 1 order cold mt z = Ok (r, z'))
  /\ (forall p order, (p, order) ∈ own -> exists z', free_pages p order z = Ok z').
Proof.
  intros H0 Hr. pose proof (run_inv managed dis _ _ Hr H0) as H. cbn [fst snd] in H. pose proof H as [Hc Hn Hpc _ _].
  split; [apply Hc|]. split; [apply (co_part _ _ _ _ Hc)|]. split; [apply Hc|].
  split; [now rewrite length_free_pages by apply Hc|]. split; [exact Hpc|]. split.
  - intros order cold mt Ho Hmt. destruct (buffered_rmqueue_spec managed dis 0 order cold mt own z H Hmt Ho) as (r & z' & E & _).
    now exists r, z'.
  - intros p order Hp. apply elem_of_Permutation in Hp as [own' HP].
    destruct (free_pages_spec managed own' p order z (zone_inv_perm managed _ _ z HP H)) as (z' & E & _). now exists z'.
Qed.

Lemma allocator_runs_witness : exists p z,
  step false (disco_zone, []) (z, [(p, 2%nat)])
  /\ free_pages_of z ++ pcp_pages z ++ pages [(p, 2%nat)] ≡ₚ disco_pages.
Proof.
  destruct (allocator_runs disco_pages false disco_zone [] disco_zone [] disco_zone_inv (rtc_refl _ _))
    as (_ & _ & _ & _ & _ & Hal & _).
  destruct (Hal 2%nat false MIGRATE_UNMOVABLE ltac:(unfold MAX_ORDER; lia) ltac:(unfold MIGRATE_UNMOVABLE, MIGRATE_PCPTYPES; lia))
    as (r & z & E).
  assert (Er : match buffered_rmqueue false 1 2 false MIGRATE_UNMOVABLE disco_zone with
               | Ok (Some p, _) => p = 0xC0000 | _ => False end) by (vm_compute; reflexivity).
  rewrite E in Er. destruct r as [p|]; [|destruct Er]. subst p. exists 0xC0000, z.
  assert (Hst : step false (disco_zone, []) (z, [(0xC0000, 2%nat)])).
  { apply (step_alloc false disco_zone [] 2 false MIGRATE_UNMOVABLE); [unfold MAX_ORDER; lia| |exact E].
    unfold MIGRATE_UNMOVABLE, MIGRATE_PCPTYPES. lia. }
  split; [exact Hst|].
  now apply (allocator_runs disco_pages false disco_zone [] z _ disco_zone_inv (rtc_once _ _ Hst)).
Defined.

(** [buffered_rmqueue] gives its caller a block of its own or is right to refuse: it returns after
    one pass (the pages it holds never fail [prep_new_page]); a success is a naturally aligned block
    that becomes the caller's, without touching the pages other callers own; a failure means that
    no naturally aligned block of that order was free, for single pages even that the buddy lists were
    empty, and loses no page. *)
Theorem buffered_rmqueue_outcome managed dis order cold mt own z :
  zone_inv managed own z -> (mt < MIGRATE_PCPTYPES)%nat -> (order < MAX_ORDER)%nat ->
  exists r z', buffered_rmqueue dis 1 order cold mt z = Ok (r, z')
  /\ match r with
     | Some p => zone_inv managed ((p, order) :: own) z' /\ forall q, q ∈ pages own -> mem_map z' q = mem_map z q
     | None => zone_inv managed own z' /\ none_free order z
     end.
Proof. intros. now apply buffered_rmqueue_spec. Qed.

Lemma buffered_rmqueue_outcome_witness : exists p z',
  buffered_rmqueue false 1 0 true MIGRATE_MOVABLE disco_zone = Ok (Some p, z')
  /\ zone_inv disco_pages [(p, 0%nat)] z'.
Proof.
  destruct (buffered_rmqueue_outcome disco_pages false 0 true MIGRATE_MOVABLE [] disco_zone disco_zone_inv
    ltac:(unfold MIGRATE_MOVABLE, MIGRATE_PCPTYPES; lia) ltac:(unfold MAX_ORDER; lia)) as (r & z & E & H).
  assert (Er : match buffered_rmqueue false 1 0 true MIGRATE_MOVABLE disco_zone with
               | Ok (Some p, _) => True | _ => False end) by (vm_compute; exact I).
  rewrite E in Er. destruct r as [p|]; [|destruct Er]. exists p, z. split; [exact E|apply H].
Defined.

(** C35: draining the per-CPU lists terminates: whenever the lists together hold the [count] pages asked
    for, the round-robin loop of [free_pcppages_bulk] ends after at most [count] turns, with exactly
    [count] pages fewer on the lists, all of them on the buddy lists, and NR_FREE_PAGES raised by
    [count].  (With fewer pages the search for a non-empty list would never end.) *)
Theorem pcp_bulk_terminates managed own count z :
  zone_inv managed own z -> 0 <= count <= pcp_count (pcp z) ->
  exists z', free_pcppages_bulk count z = Ok z' /\ buddy_inv z'
  /\ Z.of_nat (length (pcp_pages z')) = Z.of_nat (length (pcp_pages z)) - count
  /\ nr_free_pages z' = nr_free_pages z + count /\ nr_free_pages z' = free_count z'
  /\ free_pages_of z' ++ pcp_pages z' ++ pages own ≡ₚ managed.
Proof.
  intros [Hc Hn Hpc Hb Hs] Hcnt. rewrite Hpc in Hcnt.
  destruct (free_pcppages_bulk_spec managed [] own count z Hc Hcnt) as (z' & E & [H' Hlen Hn' _ _ _ _]).
  change (pcp_pages (set_nr_free_pages z (nr_free_pages z + count))) with (pcp_pages z) in Hlen.
  cbn [set_nr_free_pages nr_free_pages] in Hn'. exists z'. split; [exact E|]. split; [apply H'|].
  split; [lia|]. split; [exact Hn'|]. split; [|apply (co_part _ _ _ _ H')].
  pose proof (core_pages_eq managed _ _ _ _ _ _ Hc H'). lia.
Qed.

Lemma pcp_bulk_terminates_witness : exists z z',
  use_one disco_zone = Ok z /\ free_pcppages_bulk 1 z = Ok z' /\ pcp_pages z' = [] /\ nr_free_pages z' = 2048.
Proof.
  destruct disco_used_inv as (z & E & H & Hc & Hn). exists z.
  destruct (pcp_bulk_terminates disco_pages [] 1 z H ltac:(rewrite Hc; lia)) as (z' & E' & _ & Hl & Hn' & _).
  exists z'. split; [exact E|]. split; [exact E'|]. rewrite <- (zi_count _ _ _ _ H), Hc in Hl.
  split; [|rewrite Hn', Hn; reflexivity]. destruct (pcp_pages z'); [reflexivity|cbn in Hl; lia].
Defined.

(** [alloc_pages_exact] keeps exactly the pages asked for: for a size of up to 8 MB it takes the
    smallest order that holds it, and on success its caller owns the ceiling of size/4096 pages from
    the address returned on, one by one, the rest of the block being free again; it fails only when
    no naturally aligned block of that order is free.  [free_pages_exact] then gives all of them back. *)
Theorem alloc_exact_keeps managed dis size mt own z :
  zone_inv managed own z -> (mt < MIGRATE_PCPTYPES)%nat -> 0 < size <= 4096 * 2048 ->
  (get_order size = 0%nat \/ pow2 (get_order size - 1) < (size + 4095) / 4096 <= pow2 (get_order size))
  /\ exists r z', alloc_pages_exact dis size mt z = Ok (r, z')
  /\ match r with
     | Some p => zone_inv managed (singles (seqZ p ((size + 4095) / 4096)) ++ own) z'
                 /\ exists z2, free_pages_exact p size z' = Ok z2 /\ zone_inv managed own z2
     | None => zone_inv managed own z' /\ none_free (get_order size) z
     end.
Proof.
  intros H Hmt Hs. destruct (get_order_spec size Hs) as (En & Hle & _ & Hmin). split; [rewrite <- En; intuition|].
  destruct (alloc_pages_exact_spec managed dis size mt own z H Hmt Hs) as (r & z' & E & H'). exists r, z'.
  split; [exact E|]. destruct r as [p|]; [|exact H']. split; [exact H'|]. unfold free_pages_exact. rewrite En.
  now apply free_page_list_spec.
Qed.

Lemma alloc_exact_keeps_witness : exists p z',
  alloc_pages_exact false 20000 MIGRATE_UNMOVABLE disco_zone = Ok (Some p, z')
  /\ zone_inv disco_pages (singles (seqZ p 5) ++ []) z'.
Proof.
  destruct (alloc_exact_keeps disco_pages false 20000 MIGRATE_UNMOVABLE [] disco_zone disco_zone_inv
    ltac:(unfold MIGRATE_UNMOVABLE, MIGRATE_PCPTYPES; lia) ltac:(lia)) as (_ & r & z & E & H).
  assert (Er : match alloc_pages_exact false 20000 MIGRATE_UNMOVABLE disco_zone with
               | Ok (Some p, _) => True | _ => False end) by (vm_compute; exact I).
  rewrite E in Er. destruct r as [p|]; [|destruct Er]. exists p, z. split; [exact E|apply H].
Defined.
