(* ===== verification/Serial.v ===== *)
(** * The transmit side of the serial core ([drivers/serial/serial_core.c])

    The circular transmit buffer ([include/linux/circ_buf.h]) and the calls that fill
    it, start, stop and flush it, over the two operations of a driver they use, on an
    open port: its [state] is set and its buffer allocated, so the early returns for
    neither are not taken.  The driver has no [send_xchar] and [flush_buffer] of its own.
    Each call runs under the port's lock and is one step here.  A class states what the
    core relies on; the driver discharges it. *)

From S2P Require Import Prelude.

(** ** The circular buffer *)

Definition UART_XMIT_SIZE : Z := 4096.               (* PAGE_SIZE *)
Definition WAKEUP_CHARS : Z := 256.

Record circ_buf := { buf : list Z; head : Z; tail : Z }.

Definition CIRC_CNT (head tail size : Z) : Z := (head - tail) .& (size - 1).
Definition CIRC_SPACE (head tail size : Z) : Z := CIRC_CNT tail (head + 1) size.
Definition CIRC_SPACE_TO_END (head tail size : Z) : Z :=
  let end_ := size - 1 - head in
  let n := (end_ + tail) .& (size - 1) in
  if n <=? end_ then n else end_ + 1.

Definition uart_circ_empty (c : circ_buf) : bool := head c =? tail c.
Definition uart_circ_clear (c : circ_buf) : circ_buf := {| buf := buf c; head := 0; tail := 0 |}.
Definition uart_circ_chars_pending (c : circ_buf) : Z := CIRC_CNT (head c) (tail c) UART_XMIT_SIZE.
Definition uart_circ_chars_free (c : circ_buf) : Z := CIRC_SPACE (head c) (tail c) UART_XMIT_SIZE.

(** ** Ports and drivers *)

(** A port with the driver's own state; [tx_stopped] is [tty->stopped || tty->hw_stopped]. *)
Record uart_port (HW : Type) := {
  xmit : circ_buf; x_char : Z; tx_stopped : bool; icount_tx : Z; hw : HW
}.
Arguments xmit {HW} _.
Arguments x_char {HW} _.
Arguments tx_stopped {HW} _.
Arguments icount_tx {HW} _.
Arguments hw {HW} _.

Section Port.

Context {HW : Type}.
Implicit Type p : uart_port HW.

Definition set_xmit p c : uart_port HW := {| xmit := c; x_char := x_char p; tx_stopped := tx_stopped p;
  icount_tx := icount_tx p; hw := hw p |}.
Definition set_x_char p v : uart_port HW := {| xmit := xmit p; x_char := v; tx_stopped := tx_stopped p;
  icount_tx := icount_tx p; hw := hw p |}.
Definition set_stopped p b : uart_port HW := {| xmit := xmit p; x_char := x_char p; tx_stopped := b;
  icount_tx := icount_tx p; hw := hw p |}.
Definition inc_icount_tx p : uart_port HW := {| xmit := xmit p; x_char := x_char p; tx_stopped := tx_stopped p;
  icount_tx := u32 (icount_tx p + 1); hw := hw p |}.
Definition set_hw p h : uart_port HW := {| xmit := xmit p; x_char := x_char p; tx_stopped := tx_stopped p;
  icount_tx := icount_tx p; hw := h |}.

End Port.

Ltac port_simpl := cbn [xmit x_char tx_stopped icount_tx hw set_xmit set_x_char set_stopped inc_icount_tx set_hw
  buf head tail].
Tactic Notation "port_simpl" "in" hyp(H) := cbn [xmit x_char tx_stopped icount_tx hw set_xmit set_x_char
  set_stopped inc_icount_tx set_hw buf head tail] in H.

(** The two members of [struct uart_ops] the transmit side uses. *)
Record uart_ops (HW : Type) := {
  stop_tx : uart_port HW -> uart_port HW;
  start_tx : uart_port HW -> result (uart_port HW)
}.
Arguments stop_tx {HW} _ _.
Arguments start_tx {HW} _ _.

(** ** The serial core *)

Section Core.

Context {HW : Type} (ops : uart_ops HW).
Implicit Type p : uart_port HW.

Definition put_char (c : circ_buf) (ch : Z) : Z * circ_buf :=
  if negb (uart_circ_chars_free c =? 0) then
    (1, {| buf := <[Z.to_nat (head c) := ch]> (buf c);
           head := (head c + 1) .& (UART_XMIT_SIZE - 1); tail := tail c |})
  else (0, c).

Definition uart_put_char (ch : Z) p : Z * uart_port HW :=
  let (ret, c) := put_char (xmit p) ch in (ret, set_xmit p c).

(** [memcpy(circ->buf + circ->head, buf, c)] of the first [c] characters of [l]. *)
Definition memcpy_head (c : Z) (l : list Z) (b : circ_buf) : result (list Z) :=
  if head b + c <=? Z.of_nat (length (buf b))
  then Ok (list_inserts (Z.to_nat (head b)) (take (Z.to_nat c) l) (buf b))
  else Fault BadIndex.

(** The loop of [uart_write]; [fuel] bounds its turns. *)
Fixpoint write_loop (fuel : nat) (l : list Z) (ret : Z) (b : circ_buf) : result (Z * circ_buf) :=
  match fuel with
  | O => Fault Stuck
  | S fuel =>
      let c := CIRC_SPACE_TO_END (head b) (tail b) UART_XMIT_SIZE in
      let count := Z.of_nat (length l) in
      let c := if count <? c then count else c in
      if c <=? 0 then Ok (ret, b)
      else
        let* data := memcpy_head c l b in
        let b := {| buf := data; head := (head b + c) .& (UART_XMIT_SIZE - 1); tail := tail b |} in
        write_loop fuel (drop (Z.to_nat c) l) (ret + c) b
  end.

Definition uart_start p : result (uart_port HW) :=
  if negb (uart_circ_empty (xmit p)) && negb (tx_stopped p) then start_tx ops p else Ok p.

Definition uart_flush_chars p : result (uart_port HW) := uart_start p.

Definition uart_stop p : uart_port HW := stop_tx ops p.

Definition uart_write (l : list Z) p : result (Z * uart_port HW) :=
  let* (ret, c) := write_loop 3 l 0 (xmit p) in
  let* p := uart_start (set_xmit p c) in
  Ok (ret, p).

Definition uart_write_room p : Z := uart_circ_chars_free (xmit p).
Definition uart_chars_in_buffer p : Z := uart_circ_chars_pending (xmit p).

Definition uart_flush_buffer p : uart_port HW := set_xmit p (uart_circ_clear (xmit p)).

Definition uart_send_xchar (ch : Z) p : result (uart_port HW) :=
  let p := set_x_char p ch in
  if negb (ch =? 0) then start_tx ops p else Ok p.

(** [stop_tty] and [start_tty] ([drivers/char/tty_io.c]), with no pseudo terminal attached;
    [flow_stopped] is the flag of [TCXONC]. *)
Definition stop_tty p : uart_port HW := if tx_stopped p then p else uart_stop (set_stopped p true).
Definition start_tty (flow_stopped : bool) p : result (uart_port HW) :=
  if negb (tx_stopped p) || flow_stopped then Ok p else uart_start (set_stopped p false).

End Core.

(** ** The buffer as a queue *)

Record circ_wf (c : circ_buf) : Prop := {
  cw_len : length (buf c) = Z.to_nat UART_XMIT_SIZE;
  cw_head : 0 <= head c < UART_XMIT_SIZE;
  cw_tail : 0 <= tail c < UART_XMIT_SIZE
}.

(** The characters between tail and head, the oldest first. *)
Definition contents (c : circ_buf) : list Z :=
  map (fun i => buf c !!! Z.to_nat ((tail c + Z.of_nat i) mod UART_XMIT_SIZE))
      (seq 0 (Z.to_nat (uart_circ_chars_pending c))).

Lemma land_xmit x : x .& (UART_XMIT_SIZE - 1) = x mod UART_XMIT_SIZE.
Proof. change (UART_XMIT_SIZE - 1) with (Z.ones 12). rewrite Z.land_ones by lia. reflexivity. Qed.

Lemma pending_mod c : uart_circ_chars_pending c = (head c - tail c) mod UART_XMIT_SIZE.
Proof. unfold uart_circ_chars_pending, CIRC_CNT. apply land_xmit. Qed.

Lemma pending_range c : 0 <= uart_circ_chars_pending c < UART_XMIT_SIZE.
Proof. rewrite pending_mod. apply Z.mod_pos_bound. reflexivity. Qed.

Lemma length_contents c : Z.of_nat (length (contents c)) = uart_circ_chars_pending c.
Proof.
  unfold contents. rewrite length_map, length_seq. pose proof (pending_range c). lia.
Qed.

Lemma lookup_contents c i :
  (i < length (contents c))%nat ->
  contents c !! i = Some (buf c !!! Z.to_nat ((tail c + Z.of_nat i) mod UART_XMIT_SIZE)).
Proof.
  intros Hi. unfold contents in *. rewrite length_map, length_seq in Hi.
  rewrite list_lookup_fmap, lookup_seq_lt by exact Hi. reflexivity.
Qed.

(** Room is what pending leaves, one place always being free. *)
Lemma free_pending c : circ_wf c -> uart_circ_chars_free c = UART_XMIT_SIZE - 1 - uart_circ_chars_pending c.
Proof.
  intros [_ Hh Ht]. rewrite pending_mod. unfold uart_circ_chars_free, CIRC_SPACE, CIRC_CNT. rewrite land_xmit.
  unfold UART_XMIT_SIZE in *. zdiv.
Qed.

Lemma empty_contents c : circ_wf c -> uart_circ_empty c = true <-> contents c = [].
Proof.
  intros [_ Hh Ht]. unfold uart_circ_empty. rewrite Z.eqb_eq, <- length_zero_iff_nil.
  pose proof (length_contents c) as Hl. rewrite pending_mod in Hl. unfold UART_XMIT_SIZE in *. split; intros; zdiv.
Qed.

(** Copying [l] in at the head appends it to the queue. *)
Lemma push_chunk b (l : list Z) :
  circ_wf b -> head b + Z.of_nat (length l) <= UART_XMIT_SIZE ->
  Z.of_nat (length l) <= uart_circ_chars_free b ->
  let b' := {| buf := list_inserts (Z.to_nat (head b)) l (buf b);
               head := (head b + Z.of_nat (length l)) .& (UART_XMIT_SIZE - 1); tail := tail b |} in
  circ_wf b' /\ contents b' = contents b ++ l.
Proof.
  intros Hwf Hend Hfree b'. pose proof Hwf as [Hl Hh Ht]. rewrite (free_pending b Hwf) in Hfree.
  pose proof (pending_range b) as Hp. rewrite pending_mod in *.
  assert (Hwf' : circ_wf b').
  { split; [cbn [buf b']; now rewrite length_inserts| |exact Ht].
    cbn [head b']. rewrite land_xmit. apply Z.mod_pos_bound. reflexivity. }
  split; [exact Hwf'|].
  assert (Hlen : Z.of_nat (length (contents b')) = Z.of_nat (length (contents b)) + Z.of_nat (length l)).
  { rewrite !length_contents, !pending_mod. cbn [b' head tail]. rewrite land_xmit. unfold UART_XMIT_SIZE in *. zdiv. }
  pose proof (length_contents b) as Hlb. rewrite pending_mod in Hlb.
  apply list_eq_same_length with (n := length (contents b')); [rewrite length_app; lia|reflexivity|].
  intros i x y Hi. rewrite lookup_contents by exact Hi. cbn [b' buf tail]. rewrite list_lookup_total_alt.
  destruct (Nat.lt_ge_cases i (length (contents b))) as [Hlt|Hge].
  - rewrite lookup_app_l by exact Hlt. rewrite lookup_contents by exact Hlt. intros [= <-] [= <-].
    rewrite list_lookup_total_alt. f_equal.
    destruct (Z.lt_ge_cases ((tail b + Z.of_nat i) mod UART_XMIT_SIZE) (head b)).
    + apply list_lookup_inserts_lt. unfold UART_XMIT_SIZE in *. zdiv.
    + apply list_lookup_inserts_ge. unfold UART_XMIT_SIZE in *. zdiv.
  - rewrite lookup_app_r by exact Hge. intros [= <-].
    assert (Ei : Z.to_nat ((tail b + Z.of_nat i) mod UART_XMIT_SIZE) = (Z.to_nat (head b) + (i - length (contents b)))%nat).
    { unfold UART_XMIT_SIZE in *. zdiv. }
    rewrite Ei, list_lookup_inserts by (rewrite ?Hl; unfold UART_XMIT_SIZE in *; lia).
    replace (Z.to_nat (head b) + (i - length (contents b)) - Z.to_nat (head b))%nat with (i - length (contents b))%nat by lia.
    intros ->. reflexivity.
Qed.

Lemma put_char_spec b ch :
  circ_wf b ->
  let '(ret, b') := put_char b ch in
  circ_wf b' /\ if decide (Z.of_nat (length (contents b)) < UART_XMIT_SIZE - 1)
                then ret = 1 /\ contents b' = contents b ++ [ch] else ret = 0 /\ b' = b.
Proof.
  intros Hwf. unfold put_char. pose proof (free_pending b Hwf) as Hf. rewrite length_contents.
  pose proof (pending_range b). destruct (Z.eqb_spec (uart_circ_chars_free b) 0) as [E|E]; cbn [negb].
  - split; [exact Hwf|]. rewrite decide_False by lia. auto.
  - rewrite decide_True by lia. destruct (push_chunk b [ch] Hwf) as [H1 H2]; [pose proof (cw_head b Hwf); cbn; lia|cbn; lia|].
    cbn [length list_inserts] in *. auto.
Qed.

(** The number of characters that fit before the end of the array. *)
Lemma space_to_end b :
  circ_wf b -> let n := CIRC_SPACE_TO_END (head b) (tail b) UART_XMIT_SIZE in
  n = Z.min (uart_circ_chars_free b) (UART_XMIT_SIZE - head b).
Proof.
  intros Hwf n. pose proof Hwf as [_ Hh Ht]. rewrite (free_pending b Hwf), pending_mod. unfold n, CIRC_SPACE_TO_END.
  rewrite land_xmit. unfold UART_XMIT_SIZE in *. destruct (Z.leb_spec ((4096 - 1 - head b + tail b) mod 4096) (4096 - 1 - head b)); zdiv.
Qed.

Lemma free_contents b : circ_wf b -> uart_circ_chars_free b = UART_XMIT_SIZE - 1 - Z.of_nat (length (contents b)).
Proof. intros Hwf. now rewrite length_contents, free_pending. Qed.

(** One turn of [uart_write]: [c] characters are copied. *)
Lemma write_turn f l ret b :
  circ_wf b ->
  let c := Z.min (Z.of_nat (length l)) (Z.min (uart_circ_chars_free b) (UART_XMIT_SIZE - head b)) in
  (c <= 0 /\ write_loop (S f) l ret b = Ok (ret, b))
  \/ (0 < c /\ exists b', write_loop (S f) l ret b = write_loop f (drop (Z.to_nat c) l) (ret + c) b'
      /\ circ_wf b' /\ contents b' = contents b ++ take (Z.to_nat c) l
      /\ head b' = (head b + c) mod UART_XMIT_SIZE).
Proof.
  intros Hwf c. cbn [write_loop]. rewrite (space_to_end b Hwf).
  replace (if Z.of_nat (length l) <? Z.min (uart_circ_chars_free b) (UART_XMIT_SIZE - head b) then Z.of_nat (length l)
           else Z.min (uart_circ_chars_free b) (UART_XMIT_SIZE - head b)) with c
    by (unfold c; destruct (Z.ltb_spec (Z.of_nat (length l)) (Z.min (uart_circ_chars_free b) (UART_XMIT_SIZE - head b))); lia).
  destruct (Z.leb_spec c 0) as [Hc|Hc]; [left; auto|right]. split; [exact Hc|].
  assert (Hlt : Z.of_nat (length (take (Z.to_nat c) l)) = c) by (rewrite length_take; unfold c in *; lia).
  unfold memcpy_head. pose proof (cw_len b Hwf) as Hlen. rewrite Hlen.
  destruct (Z.leb_spec (head b + c) (Z.of_nat (Z.to_nat UART_XMIT_SIZE))) as [Hle|Hle]; [|unfold c, UART_XMIT_SIZE in *; lia].
  destruct (push_chunk b (take (Z.to_nat c) l) Hwf) as [H1 H2]; [rewrite Hlt; unfold c; lia|rewrite Hlt; unfold c; lia|].
  cbn [rbind]. eexists. split; [reflexivity|]. rewrite Hlt in *. split; [exact H1|]. split; [exact H2|].
  cbn [head]. apply land_xmit.
Qed.

Lemma take_take_drop {A} (l : list A) n m : take n l ++ take m (drop n l) = take (n + m) l.
Proof.
  rewrite <- (take_drop n (take (n + m) l)). rewrite take_take, skipn_firstn_comm.
  replace (n `min` (n + m))%nat with n by lia. now replace (n + m - n)%nat with m by lia.
Qed.

(** [uart_write] takes as much as there is room for, in at most two copies. *)
Lemma write_loop_spec l b :
  circ_wf b ->
  exists b', write_loop 3 l 0 b = Ok (Z.min (Z.of_nat (length l)) (uart_circ_chars_free b), b')
  /\ circ_wf b' /\ contents b' = contents b ++ take (Z.to_nat (uart_circ_chars_free b)) l.
Proof.
  intros Hwf. pose proof (free_contents b Hwf) as Hf. pose proof (length_contents b) as Hpl. pose proof (pending_range b).
  pose proof (cw_head b Hwf).
  destruct (write_turn 2 l 0 b Hwf) as [[Hc E]|[Hc (b1 & E & Hwf1 & H1 & Hh1)]].
  { exists b. rewrite E. split; [f_equal; f_equal; lia|]. split; [exact Hwf|].
    assert (Hz : take (Z.to_nat (uart_circ_chars_free b)) l = []); [|now rewrite Hz, app_nil_r].
    apply length_zero_iff_nil. rewrite length_take. lia. }
  rewrite E. clear E. set (c := Z.min (Z.of_nat (length l)) (Z.min _ _)) in *.
  pose proof (free_contents b1 Hwf1) as Hf1. rewrite H1, length_app, length_take in Hf1.
  assert (Hd1 : Z.of_nat (length (drop (Z.to_nat c) l)) = Z.of_nat (length l) - c) by (rewrite length_drop; unfold c; lia).
  assert (Hspace : uart_circ_chars_free b1 = uart_circ_chars_free b - c) by (unfold c in *; lia).
  assert (Hhead : uart_circ_chars_free b1 = 0 \/ Z.of_nat (length l) = c \/ head b1 = 0).
  { rewrite Hh1, Hspace. unfold c, UART_XMIT_SIZE in *.
    destruct (Z.lt_ge_cases (head b + c) 4096); [unfold c in *; lia|right; right]. unfold c in *. zdiv. }
  destruct (write_turn 1 (drop (Z.to_nat c) l) (0 + c) b1 Hwf1) as [[Hc2 E]|[Hc2 (b2 & E & Hwf2 & H2 & Hh2)]].
  { exists b1. rewrite E. split; [f_equal; f_equal; unfold UART_XMIT_SIZE in *; lia|]. split; [exact Hwf1|].
    rewrite H1. f_equal. destruct (Z.le_gt_cases (Z.of_nat (length l)) c); [rewrite !take_ge by lia; reflexivity|].
    f_equal. pose proof (cw_head b1 Hwf1). unfold UART_XMIT_SIZE in *. lia. }
  rewrite E. clear E. set (c2 := Z.min (Z.of_nat (length (drop (Z.to_nat c) l))) _) in *.
  pose proof (free_contents b2 Hwf2) as Hf2. rewrite H2, length_app, length_take in Hf2.
  assert (Hb2 : c2 <= Z.of_nat (length (drop (Z.to_nat c) l))) by (unfold c2; lia).
  assert (Hd2 : Z.of_nat (length (drop (Z.to_nat c2) (drop (Z.to_nat c) l))) = Z.of_nat (length l) - c - c2)
    by (rewrite !length_drop in *; lia).
  assert (Hspace2 : uart_circ_chars_free b2 = uart_circ_chars_free b1 - c2)
    by (pose proof (free_contents b1 Hwf1); clear Hd2 Hhead; lia).
  assert (Hc2e : c2 = Z.min (Z.of_nat (length l) - c) (uart_circ_chars_free b - c)) by (unfold c2, UART_XMIT_SIZE in *; lia).
  destruct (write_turn 0 (drop (Z.to_nat c2) (drop (Z.to_nat c) l)) (0 + c + c2) b2 Hwf2)
    as [[Hc3 E]|[Hc3 _]]; [|exfalso; clear Hf1 Hf2 Hhead; lia].
  exists b2. rewrite E. clear Hf1 Hf2 Hhead Hd1 Hd2 Hf Hpl Hspace2 Hc3. clearbody c2.
  split; [f_equal; f_equal; lia|]. split; [exact Hwf2|].
  rewrite H2, H1, <- app_assoc, take_take_drop. f_equal.
  destruct (Z.le_ge_cases (Z.of_nat (length l)) (uart_circ_chars_free b)); [rewrite !take_ge by lia; reflexivity|].
  f_equal. lia.
Qed.

(** Taking the oldest character out. *)
Lemma pop_contents b :
  circ_wf b -> contents b <> [] ->
  let b' := {| buf := buf b; head := head b; tail := (tail b + 1) .& (UART_XMIT_SIZE - 1) |} in
  circ_wf b' /\ contents b = (buf b !!! Z.to_nat (tail b)) :: contents b'.
Proof.
  intros Hwf Hne b'. pose proof Hwf as [Hl Hh Ht].
  assert (Hwf' : circ_wf b').
  { split; [exact Hl|exact Hh|]. cbn [tail b']. rewrite land_xmit. apply Z.mod_pos_bound. reflexivity. }
  split; [exact Hwf'|]. pose proof (length_contents b) as Hlb. pose proof (length_contents b') as Hlb'.
  rewrite pending_mod in Hlb, Hlb'. cbn [b' head tail] in Hlb'. rewrite land_xmit in Hlb'.
  assert (Hpos : (0 < length (contents b))%nat) by (destruct (contents b); [contradiction|cbn; lia]).
  apply list_eq_same_length with (n := length (contents b)); [cbn [length]; unfold UART_XMIT_SIZE in *; zdiv|reflexivity|].
  intros i x y Hi. rewrite lookup_contents by exact Hi. intros [= <-]. destruct i as [|i].
  - intros [= <-]. f_equal. f_equal. unfold UART_XMIT_SIZE in *. zdiv.
  - cbn [lookup list_lookup]. rewrite lookup_contents by (unfold UART_XMIT_SIZE in *; zdiv). intros [= <-].
    cbn [b' buf tail]. f_equal. f_equal. rewrite land_xmit. unfold UART_XMIT_SIZE in *. zdiv.
Qed.

Lemma clear_contents b : circ_wf b -> circ_wf (uart_circ_clear b) /\ contents (uart_circ_clear b) = [].
Proof. intros [Hl _ _]. split; [split; [exact Hl|vm_compute; intuition congruence..]|reflexivity]. Qed.

(** ** What the line sees *)

(** A character of the buffer, a flow-control character sent out of turn, or console output,
    which does not go through the buffer. *)
Inductive tx_item := Char (c : Z) | XChar (c : Z) | Con (c : Z).

(** The transmit side as its users see it: a queue, what has gone out, a pending
    flow-control character, whether the transmit interrupt is on and whether the
    terminal is stopped. *)
Record line := { queue : list Z; out : list tx_item; xch : Z; arm : bool; halted : bool }.

Definition set_queue s q := {| queue := q; out := out s; xch := xch s; arm := arm s; halted := halted s |}.
Definition set_arm s b := {| queue := queue s; out := out s; xch := xch s; arm := b; halted := halted s |}.
Definition set_xch s c := {| queue := queue s; out := out s; xch := c; arm := arm s; halted := halted s |}.
Definition set_halted s b := {| queue := queue s; out := out s; xch := xch s; arm := arm s; halted := b |}.
Definition emit s i q := {| queue := q; out := out s ++ [i]; xch := xch s; arm := arm s; halted := halted s |}.

(** One opportunity to transmit: at most one character goes out; with nothing to send the
    interrupt is turned off. *)
Definition tick (s : line) : line :=
  if negb (xch s =? 0) then set_xch (emit s (XChar (xch s)) (queue s)) 0
  else match queue s with
       | [] => set_arm s false
       | c :: q => if halted s then set_arm s false else emit s (Char c) q
       end.

Definition kick (s : line) : line :=
  match queue s with
  | [] => s
  | _ => if halted s then s else tick (set_arm s true)
  end.

Inductive tx_event :=
  | Write (l : list Z) | PutChar (c : Z) | FlushChars | FlushBuffer | SendXchar (c : Z)
  | StopTty | StartTty (flow_stopped : bool) | TxIrq.

Definition room (s : line) : nat := (Z.to_nat (UART_XMIT_SIZE - 1) - length (queue s))%nat.

Definition line_step (e : tx_event) (s : line) : Z * line :=
  match e with
  | Write l => (Z.of_nat (length (take (room s) l)), kick (set_queue s (queue s ++ take (room s) l)))
  | PutChar c => (Z.of_nat (length (take (room s) [c])), set_queue s (queue s ++ take (room s) [c]))
  | FlushChars => (0, kick s)
  | FlushBuffer => (0, set_queue s [])
  | SendXchar c => (0, if negb (c =? 0) then tick (set_arm (set_xch s c) true) else set_xch s c)
  | StopTty => (0, if halted s then s else set_arm (set_halted s true) false)
  | StartTty fl => (0, if halted s && negb fl then kick (set_halted s false) else s)
  | TxIrq => (0, tick s)
  end.

(** ** What a driver promises to the core *)

Section Refine.

Context {HW : Type} (ops : uart_ops HW) (irq : uart_port HW -> result (uart_port HW)).

Class TxDriver := {
  sent : HW -> list tx_item;
  armed : HW -> bool;
  hw_ok : HW -> Prop;
  abs p := {| queue := contents (xmit p); out := sent (hw p); xch := x_char p; arm := armed (hw p);
              halted := tx_stopped p |};
  port_ok p := circ_wf (xmit p) /\ hw_ok (hw p);
  stop_tx_ok p : port_ok p -> port_ok (stop_tx ops p) /\ abs (stop_tx ops p) = set_arm (abs p) false;
  start_tx_ok p : port_ok p -> exists p', start_tx ops p = Ok p' /\ port_ok p' /\ abs p' = tick (set_arm (abs p) true);
  irq_ok p : port_ok p -> exists p', irq p = Ok p' /\ port_ok p' /\ abs p' = tick (abs p)
}.

Definition exec (e : tx_event) (p : uart_port HW) : result (Z * uart_port HW) :=
  match e with
  | Write l => uart_write ops l p
  | PutChar c => Ok (uart_put_char c p)
  | FlushChars => let* p := uart_flush_chars ops p in Ok (0, p)
  | FlushBuffer => Ok (0, uart_flush_buffer p)
  | SendXchar c => let* p := uart_send_xchar ops c p in Ok (0, p)
  | StopTty => Ok (0, stop_tty ops p)
  | StartTty fl => let* p := start_tty ops fl p in Ok (0, p)
  | TxIrq => let* p := irq p in Ok (0, p)
  end.

Fixpoint run (es : list tx_event) (p : uart_port HW) : result (list Z * uart_port HW) :=
  match es with
  | [] => Ok ([], p)
  | e :: es =>
      let* (r, p) := exec e p in
      let* (rs, p) := run es p in
      Ok (r :: rs, p)
  end.

Fixpoint line_run (es : list tx_event) (s : line) : list Z * line :=
  match es with
  | [] => ([], s)
  | e :: es => let (r, s) := line_step e s in let (rs, s) := line_run es s in (r :: rs, s)
  end.

Context {D : TxDriver}.

Lemma uart_start_ok p :
  port_ok p -> exists p', uart_start ops p = Ok p' /\ port_ok p' /\ abs p' = kick (abs p).
Proof.
  intros Hp. unfold uart_start, kick. pose proof (empty_contents (xmit p) (proj1 Hp)) as He.
  change (queue (abs p)) with (contents (xmit p)). change (halted (abs p)) with (tx_stopped p).
  destruct (uart_circ_empty (xmit p)) eqn:E; cbn [negb andb].
  - rewrite (proj1 He eq_refl). exists p. auto.
  - destruct (contents (xmit p)) as [|c q] eqn:Ec; [discriminate (proj2 He eq_refl)|].
    destruct (tx_stopped p); cbn [negb]; [exists p; auto|exact (start_tx_ok p Hp)].
Qed.

Lemma room_free p : circ_wf (xmit p) -> Z.of_nat (room (abs p)) = uart_circ_chars_free (xmit p).
Proof.
  intros Hw. rewrite (free_contents _ Hw). unfold room. change (queue (abs p)) with (contents (xmit p)).
  pose proof (length_contents (xmit p)). pose proof (pending_range (xmit p)). unfold UART_XMIT_SIZE in *. lia.
Qed.

Lemma write_ok l p :
  port_ok p -> exists r p', uart_write ops l p = Ok (r, p') /\ port_ok p' /\ (r, abs p') = line_step (Write l) (abs p).
Proof.
  intros [Hw Hh]. unfold uart_write. destruct (write_loop_spec l (xmit p) Hw) as (b & -> & Hb & Hc).
  cbn [rbind]. destruct (uart_start_ok (set_xmit p b)) as (p' & -> & Hp' & Ha); [now split|].
  cbn [rbind]. do 2 eexists. split; [reflexivity|]. split; [exact Hp'|]. cbn [line_step]. rewrite Ha.
  pose proof (room_free p Hw) as Hr. replace (Z.to_nat (uart_circ_chars_free (xmit p))) with (room (abs p)) in Hc by lia.
  f_equal; [rewrite length_take; lia|]. unfold abs at 1. port_simpl. rewrite Hc. reflexivity.
Qed.

Lemma put_ok c p :
  port_ok p -> let '(r, p') := uart_put_char c p in port_ok p' /\ (r, abs p') = line_step (PutChar c) (abs p).
Proof.
  intros [Hw Hh]. unfold uart_put_char. pose proof (put_char_spec (xmit p) c Hw) as H.
  destruct (put_char (xmit p) c) as [r b]. destruct H as [Hb H]. split; [now split|].
  pose proof (room_free p Hw) as Hr. rewrite (free_contents _ Hw) in Hr.
  cbn [line_step]. unfold abs at 1. port_simpl. destruct (decide _) as [Hlt|Hge].
  - destruct H as [-> ->]. destruct (room (abs p)) as [|k] eqn:Ek; [lia|]. cbn [take]. rewrite take_nil. reflexivity.
  - destruct H as [-> ->]. destruct (room (abs p)) as [|k] eqn:Ek; [|unfold UART_XMIT_SIZE in *; lia].
    cbn [take length]. rewrite app_nil_r. reflexivity.
Qed.

(** Every call does to the port what the abstract line does. *)
Lemma exec_ok e p :
  port_ok p -> exists r p', exec e p = Ok (r, p') /\ port_ok p' /\ (r, abs p') = line_step e (abs p).
Proof.
  intros Hp. pose proof Hp as [Hw Hh]. destruct e as [l|c| | |c| |fl|]; cbn [exec].
  - now apply write_ok.
  - pose proof (put_ok c p Hp) as H. destruct (uart_put_char c p) as [r p']. now exists r, p'.
  - destruct (uart_start_ok p Hp) as (p' & E & Hp' & Ha). unfold uart_flush_chars. rewrite E. cbn [rbind].
    exists 0, p'. cbn [line_step]. now rewrite Ha.
  - destruct (clear_contents _ Hw) as [Hb Hc]. do 2 eexists. split; [reflexivity|]. split; [now split|].
    reflexivity.
  - unfold uart_send_xchar. cbn [line_step]. destruct (negb (c =? 0)); [|cbn [rbind]; now exists 0, (set_x_char p c)].
    destruct (start_tx_ok (set_x_char p c)) as (p' & -> & Hp' & Ha); [now split|]. cbn [rbind]. exists 0, p'. now rewrite Ha.
  - unfold stop_tty. cbn [line_step]. change (halted (abs p)) with (tx_stopped p).
    destruct (tx_stopped p); [now exists 0, p|]. destruct (stop_tx_ok (set_stopped p true)) as [Hp' Ha]; [now split|].
    do 2 eexists. split; [reflexivity|]. split; [exact Hp'|]. unfold uart_stop. now rewrite Ha.
  - unfold start_tty. cbn [line_step]. change (halted (abs p)) with (tx_stopped p).
    destruct (tx_stopped p), fl; cbn [negb andb orb]; try (cbn [rbind]; now exists 0, p).
    destruct (uart_start_ok (set_stopped p false)) as (p' & -> & Hp' & Ha); [now split|]. cbn [rbind].
    exists 0, p'. now rewrite Ha.
  - destruct (irq_ok p Hp) as (p' & -> & Hp' & Ha). cbn [rbind line_step]. exists 0, p'. now rewrite Ha.
Qed.

Lemma run_ok es p :
  port_ok p -> exists rs p', run es p = Ok (rs, p') /\ port_ok p' /\ (rs, abs p') = line_run es (abs p).
Proof.
  revert p. induction es as [|e es IH]; intros p Hp; cbn [run line_run]; [now exists [], p|].
  destruct (exec_ok e p Hp) as (r & p1 & -> & Hp1 & E1). cbn [rbind]. rewrite <- E1.
  destruct (IH p1 Hp1) as (rs & p2 & -> & Hp2 & E2). cbn [rbind]. rewrite <- E2. now exists (r :: rs), p2.
Qed.

End Refine.

(** ** The line itself: order and progress *)

Definition chars (l : list tx_item) : list Z := omap (fun i => match i with Char c => Some c | _ => None end) l.

(** The characters an event adds to the queue. *)
Definition accepted (e : tx_event) (s : line) : list Z :=
  match e with Write l => take (room s) l | PutChar c => take (room s) [c] | _ => [] end.

Fixpoint accepted_run (es : list tx_event) (s : line) : list Z :=
  match es with [] => [] | e :: es => accepted e s ++ accepted_run es (line_step e s).2 end.

Lemma tick_fifo s : chars (out (tick s)) ++ queue (tick s) = chars (out s) ++ queue s.
Proof.
  unfold tick. destruct (xch s =? 0); cbn [negb].
  - destruct (queue s) as [|c q] eqn:Eq; cbn [set_arm out queue]; [now rewrite Eq|].
    destruct (halted s); cbn [set_arm emit out queue]; [now rewrite Eq|]. unfold chars. rewrite omap_app, <- app_assoc. reflexivity.
  - cbn [set_xch emit out queue]. unfold chars. rewrite omap_app. cbn. now rewrite app_nil_r.
Qed.

Lemma kick_fifo s : chars (out (kick s)) ++ queue (kick s) = chars (out s) ++ queue s.
Proof.
  unfold kick. destruct (queue s) eqn:E; [now rewrite E|]. destruct (halted s); [now rewrite E|].
  rewrite tick_fifo. cbn [set_arm out queue]. now rewrite E.
Qed.

Lemma step_fifo e s :
  e <> FlushBuffer ->
  chars (out (line_step e s).2) ++ queue (line_step e s).2 = (chars (out s) ++ queue s) ++ accepted e s.
Proof.
  intros He. destruct e as [l|c| | |c| |fl|]; cbn [line_step snd accepted]; rewrite ?app_nil_r; try congruence.
  - rewrite kick_fifo. cbn [set_queue out queue]. now rewrite app_assoc.
  - cbn [set_queue out queue]. now rewrite app_assoc.
  - apply kick_fifo.
  - destruct (negb (c =? 0)); [|reflexivity]. rewrite tick_fifo. reflexivity.
  - now destruct (halted s).
  - destruct (halted s && negb fl); [|reflexivity]. now rewrite kick_fifo.
  - apply tick_fifo.
Qed.

Lemma run_fifo es s :
  FlushBuffer ∉ es ->
  chars (out (line_run es s).2) ++ queue (line_run es s).2 = (chars (out s) ++ queue s) ++ accepted_run es s.
Proof.
  revert s. induction es as [|e es IH]; intros s H; cbn [line_run accepted_run]; [now rewrite app_nil_r|].
  apply not_elem_of_cons in H as [He Hes]. pose proof (step_fifo e s ltac:(congruence)) as H1.
  destruct (line_step e s) as [r s1]. specialize (IH s1 Hes). destruct (line_run es s1) as [rs s2].
  cbn [snd] in *. rewrite IH, H1. now rewrite app_assoc.
Qed.

(** While there is something to send and nothing in the way, the interrupt is on. *)
Definition live (s : line) : Prop := queue s <> [] -> halted s = false -> arm s = true.

Lemma tick_live s : live s -> live (tick s).
Proof.
  intros H Hq Hh. unfold live, tick in *. destruct (negb (xch s =? 0)).
  - cbn [set_xch emit queue arm halted] in *. auto.
  - destruct (queue s) as [|c q] eqn:Eq; cbn [set_arm queue halted arm] in *; [congruence|].
    destruct (halted s) eqn:Eh; cbn [set_arm emit queue halted arm] in *; [congruence|]. now apply H.
Qed.

Lemma arm_live s : live (set_arm s true).
Proof. intros _ _. reflexivity. Qed.

Lemma kick_live s : live (kick s).
Proof.
  unfold kick. destruct (queue s) eqn:E; [intros H; congruence|]. destruct (halted s) eqn:Eh; [intros _ H; congruence|].
  apply tick_live, arm_live.
Qed.

(** [uart_put_char] alone does not start the transmitter; [uart_flush_chars] does. *)
Lemma step_live e s : (forall c, e <> PutChar c) -> live s -> live (line_step e s).2.
Proof.
  intros He Hl. destruct e as [l|c| | |c| |fl|]; cbn [line_step snd].
  - apply kick_live.
  - exfalso. now apply (He c).
  - apply kick_live.
  - intros H. now cbn in H.
  - destruct (negb (c =? 0)); [apply tick_live, arm_live|exact Hl].
  - destruct (halted s) eqn:Eh; [exact Hl|intros _ H; discriminate H].
  - destruct (halted s && negb fl); [apply kick_live|exact Hl].
  - now apply tick_live.
Qed.

(** Interrupts come while they are on; each sends a character. *)
Lemma ticks_drain n s :
  live s -> halted s = false -> xch s = 0 -> (length (queue s) < n)%nat ->
  let s' := (line_run (replicate n TxIrq) s).2 in
  queue s' = [] /\ arm s' = false /\ out s' = out s ++ map Char (queue s).
Proof.
  revert s. induction n as [|n IH]; intros s Hl Hh Hx Hn; [lia|]. cbn [replicate line_run line_step].
  assert (Ht : (queue s = [] /\ tick s = set_arm s false)
    \/ exists c q, queue s = c :: q /\ tick s = emit s (Char c) q).
  { unfold tick. rewrite Hx. cbn [Z.eqb negb]. destruct (queue s) as [|c q]; [now left|right]. rewrite Hh. eauto. }
  destruct Ht as [[Eq Et]|(c & q & Eq & Et)]; rewrite Et.
  - clear IH Hn. assert (Hk : forall k, (line_run (replicate k TxIrq) (set_arm s false)).2 = set_arm s false).
    { induction k as [|k IHk]; [reflexivity|]. cbn [replicate line_run line_step].
      assert (E : tick (set_arm s false) = set_arm s false).
      { unfold tick. cbn [set_arm xch queue]. rewrite Hx, Eq. reflexivity. }
      rewrite E. destruct (line_run _ _) as [rs s'] in *. exact IHk. }
    specialize (Hk n). destruct (line_run _ _) as [rs s'] in *. cbn [snd] in *. subst s'. cbn [set_arm queue arm out].
    rewrite Eq, app_nil_r. auto.
  - specialize (IH (emit s (Char c) q)). destruct (line_run _ _) as [rs s'] in *. cbn [snd] in *.
    cbn [emit queue halted xch out] in IH. rewrite Eq in *. cbn [length] in Hn. destruct IH as (H1 & H2 & H3); auto; [|lia|].
    + rewrite <- Et. now apply tick_live.
    + rewrite H3, <- app_assoc. auto.
Qed.
