(* ===== verification/Usart.v ===== *)
(** * The USART driver ([drivers/serial/stm32_usart.c])

    Transmission one character per interrupt, reception through a DMA stream that
    fills two buffers in turn, opening and closing a port, line settings, the console
    and probing, for STM32F7.  The driver state of a port is the [hw] part of
    [Serial]'s port.  Registers that the hardware changes while the driver polls or
    reads them repeatedly are functions of the read's number. *)

From S2P Require Import Prelude Dmac Clock Dmamem Serial.

(** ** Constants *)

Definition STM32_NR_UARTS : Z := 8.
Definition STM32_DMA_RX_BUF_LEN : Z := 512.
Definition STM32_DMA_RX_BUF_NUM : Z := 2.

Definition STM32_USART_CR1_M1 : Z := 1 .<< 28.
Definition STM32_USART_CR1_M0 : Z := 1 .<< 12.
Definition STM32_USART_CR1_PCE : Z := 1 .<< 10.
Definition STM32_USART_CR1_PS : Z := 1 .<< 9.
Definition STM32_USART_CR1_TXEIE : Z := 1 .<< 7.
Definition STM32_USART_CR1_IDLIE : Z := 1 .<< 4.
Definition STM32_USART_CR1_TE : Z := 1 .<< 3.
Definition STM32_USART_CR1_RE : Z := 1 .<< 2.
Definition STM32_USART_CR1_UE : Z := 1 .<< 0.
Definition STM32_USART_CR2_STOP_MASK : Z := 3 .<< 12.
Definition STM32_USART_CR2_2STOP : Z := 2 .<< 12.
Definition STM32_USART_CR3_CTSE : Z := 1 .<< 9.
Definition STM32_USART_CR3_RTSE : Z := 1 .<< 8.
Definition STM32_USART_CR3_DMAR : Z := 1 .<< 6.
Definition STM32_USART_BRR_F_MSK : Z := 0x0F.
Definition STM32_USART_BRR_M_MSK : Z := 0xFFF.
Definition STM32_USART_BRR_M_BIT : Z := 4.
Definition STM32_DMA_CR_CHSEL_BIT : Z := 25.
Definition STM32_DMA_CR_PL_HIGH : Z := 0x2.
Definition USART_RDR_OFFS : Z := 36.                 (* offsetof(struct stm32_usart_regs, rdr) *)

(** [c_cflag] bits ([asm-generic/termbits.h]). *)
Definition CSIZE : Z := 0x30.
Definition CS8 : Z := 0x30.
Definition CSTOPB : Z := 0x40.
Definition PARENB : Z := 0x100.
Definition PARODD : Z := 0x200.
Definition CRTSCTS : Z := 0x80000000.

(** Stream and channel of each port's receive DMA. *)
Record stm32_dma_ini := { stream : Z; chan : Z }.

Definition stm32_usart_rx_dma : list stm32_dma_ini :=
  [ {| stream := 5; chan := 4 |}; {| stream := 5; chan := 4 |}; {| stream := 1; chan := 4 |};
    {| stream := 2; chan := 4 |}; {| stream := 0; chan := 4 |}; {| stream := 2; chan := 5 |};
    {| stream := 3; chan := 5 |}; {| stream := 6; chan := 5 |} ].

(** The half-transfer and transfer-complete flags of a stream in LISR or HISR. *)
Definition stm32_dma_isr_bit : list Z :=
  [ (1 .<< 4) .| (1 .<< 5); (1 .<< 10) .| (1 .<< 11); (1 .<< 20) .| (1 .<< 21); (1 .<< 26) .| (1 .<< 27);
    (1 .<< 4) .| (1 .<< 5); (1 .<< 10) .| (1 .<< 11); (1 .<< 20) .| (1 .<< 21); (1 .<< 26) .| (1 .<< 27) ].

(** ** State *)

(** [rdr] is the received character that has not been taken out of RDR yet (by the DMA or a read), if any. *)
Record stm32_usart_regs := { cr1 : Z; cr2 : Z; cr3 : Z; brr : Z; tdr : Z; rdr : option Z }.

(** [rx_dma] are the registers of the receive stream, [dma_isr] its LISR or HISR;
    [rxb] the addresses of the two buffers; [flip] the characters handed to the tty
    layer and [tx_log] those written to TDR, oldest first; [irqs] tells whether the
    USART and the DMA interrupt are requested. *)
Record usart := {
  regs : stm32_usart_regs; rx_dma : stm32_dma_ch_regs; dma_isr : Z;
  rxb : list (option Z); wbuf : Z; wpos : Z; rbuf : Z; rpos : Z;
  flip : list Z; tx_log : list tx_item; irqs : bool * bool
}.

Definition set_cr1 r v := {| cr1 := v; cr2 := cr2 r; cr3 := cr3 r; brr := brr r; tdr := tdr r; rdr := rdr r |}.
Definition set_cr2 r v := {| cr1 := cr1 r; cr2 := v; cr3 := cr3 r; brr := brr r; tdr := tdr r; rdr := rdr r |}.
Definition set_cr3 r v := {| cr1 := cr1 r; cr2 := cr2 r; cr3 := v; brr := brr r; tdr := tdr r; rdr := rdr r |}.
Definition set_brr r v := {| cr1 := cr1 r; cr2 := cr2 r; cr3 := cr3 r; brr := v; tdr := tdr r; rdr := rdr r |}.
Definition set_tdr r v := {| cr1 := cr1 r; cr2 := cr2 r; cr3 := cr3 r; brr := brr r; tdr := v; rdr := rdr r |}.
Definition set_rdr r v := {| cr1 := cr1 r; cr2 := cr2 r; cr3 := cr3 r; brr := brr r; tdr := tdr r; rdr := v |}.

Definition set_regs u r := {| regs := r; rx_dma := rx_dma u; dma_isr := dma_isr u; rxb := rxb u;
  wbuf := wbuf u; wpos := wpos u; rbuf := rbuf u; rpos := rpos u; flip := flip u; tx_log := tx_log u; irqs := irqs u |}.
Definition set_rx_dma u d := {| regs := regs u; rx_dma := d; dma_isr := dma_isr u; rxb := rxb u;
  wbuf := wbuf u; wpos := wpos u; rbuf := rbuf u; rpos := rpos u; flip := flip u; tx_log := tx_log u; irqs := irqs u |}.
Definition set_dma_isr u v := {| regs := regs u; rx_dma := rx_dma u; dma_isr := v; rxb := rxb u;
  wbuf := wbuf u; wpos := wpos u; rbuf := rbuf u; rpos := rpos u; flip := flip u; tx_log := tx_log u; irqs := irqs u |}.
Definition set_rxb u b := {| regs := regs u; rx_dma := rx_dma u; dma_isr := dma_isr u; rxb := b;
  wbuf := wbuf u; wpos := wpos u; rbuf := rbuf u; rpos := rpos u; flip := flip u; tx_log := tx_log u; irqs := irqs u |}.
Definition set_writer u b p := {| regs := regs u; rx_dma := rx_dma u; dma_isr := dma_isr u; rxb := rxb u;
  wbuf := b; wpos := p; rbuf := rbuf u; rpos := rpos u; flip := flip u; tx_log := tx_log u; irqs := irqs u |}.
Definition set_reader u b p := {| regs := regs u; rx_dma := rx_dma u; dma_isr := dma_isr u; rxb := rxb u;
  wbuf := wbuf u; wpos := wpos u; rbuf := b; rpos := p; flip := flip u; tx_log := tx_log u; irqs := irqs u |}.
Definition set_flip u l := {| regs := regs u; rx_dma := rx_dma u; dma_isr := dma_isr u; rxb := rxb u;
  wbuf := wbuf u; wpos := wpos u; rbuf := rbuf u; rpos := rpos u; flip := l; tx_log := tx_log u; irqs := irqs u |}.
Definition insert_flip u c := {| regs := regs u; rx_dma := rx_dma u; dma_isr := dma_isr u; rxb := rxb u;
  wbuf := wbuf u; wpos := wpos u; rbuf := rbuf u; rpos := rpos u; flip := flip u ++ [c]; tx_log := tx_log u;
  irqs := irqs u |}.
Definition log_tx u i := {| regs := regs u; rx_dma := rx_dma u; dma_isr := dma_isr u; rxb := rxb u;
  wbuf := wbuf u; wpos := wpos u; rbuf := rbuf u; rpos := rpos u; flip := flip u; tx_log := tx_log u ++ [i];
  irqs := irqs u |}.
Definition set_irqs u i := {| regs := regs u; rx_dma := rx_dma u; dma_isr := dma_isr u; rxb := rxb u;
  wbuf := wbuf u; wpos := wpos u; rbuf := rbuf u; rpos := rpos u; flip := flip u; tx_log := tx_log u; irqs := i |}.

Ltac usart_simpl := cbn [cr1 cr2 cr3 brr tdr rdr set_cr1 set_cr2 set_cr3 set_brr set_tdr set_rdr regs rx_dma dma_isr rxb wbuf wpos
  rbuf rpos flip tx_log irqs set_regs set_rx_dma set_dma_isr set_rxb set_writer set_reader set_flip insert_flip log_tx set_irqs].

Definition upd_cr1 (f : Z -> Z) (u : usart) : usart := set_regs u (set_cr1 (regs u) (f (cr1 (regs u)))).

(** ** Transmission *)

Section Tx.

(** [txe n]: the [n]-th read of ISR shows TXE; [fuel] bounds the reads. *)
Context (txe : nat -> bool) (fuel : nat).

Fixpoint wait_txe (k n : nat) : result unit :=
  match k with
  | O => Fault Stuck
  | S k => if txe n then Ok tt else wait_txe k (S n)
  end.

Definition stm32_xmit_char (i : tx_item) (c : Z) (u : usart) : result usart :=
  let* _ := wait_txe fuel 0 in
  Ok (log_tx (set_regs u (set_tdr (regs u) c)) i).

Definition stm_port_stop_tx (p : uart_port usart) : uart_port usart :=
  set_hw p (upd_cr1 (fun v => v .& .~ STM32_USART_CR1_TXEIE) (hw p)).

(** The wake-up of writers when the buffer runs low only schedules a tasklet. *)
Definition stm32_transmit (p : uart_port usart) : result (uart_port usart) :=
  if negb (x_char p =? 0) then
    let* u := stm32_xmit_char (XChar (x_char p)) (x_char p) (hw p) in
    Ok (inc_icount_tx (set_x_char (set_hw p u) 0))
  else if uart_circ_empty (xmit p) || tx_stopped p then Ok (stm_port_stop_tx p)
  else
    let c := buf (xmit p) !!! Z.to_nat (tail (xmit p)) in
    let* u := stm32_xmit_char (Char c) c (hw p) in
    Ok (inc_icount_tx (set_xmit (set_hw p u)
      {| buf := buf (xmit p); head := head (xmit p); tail := (tail (xmit p) + 1) .& (UART_XMIT_SIZE - 1) |})).

Definition stm_port_start_tx (p : uart_port usart) : result (uart_port usart) :=
  stm32_transmit (set_hw p (upd_cr1 (fun v => v .| STM32_USART_CR1_TXEIE) (hw p))).

Definition stm32_uart_ops : uart_ops usart :=
  {| stop_tx := stm_port_stop_tx; start_tx := stm_port_start_tx |}.

Definition TIOCSER_TEMT : Z := 1.
Definition STM32_USART_ISR_TXE : Z := 1 .<< 7.
Definition stm_port_tx_empty (isr : Z) : Z := if negb ((isr .& STM32_USART_ISR_TXE) =? 0) then TIOCSER_TEMT else 0.

(** *** Console *)

(** [uart_console_write] with [stm_console_putchar]. *)
Fixpoint uart_console_write (s : list Z) (u : usart) : result usart :=
  match s with
  | [] => Ok u
  | c :: s =>
      let* u := if c =? 10 then stm32_xmit_char (Con 13) 13 u else Ok u in
      let* u := stm32_xmit_char (Con c) c u in
      uart_console_write s u
  end.

Definition stm_console_write (s : list Z) (u : usart) : result usart :=
  let iuarte := cr1 (regs u) .& (STM32_USART_CR1_IDLIE .| STM32_USART_CR1_TXEIE) in
  let idmae := cr (rx_dma u) .& (STM32_DMA_CR_TCIE .| STM32_DMA_CR_HTIE) in
  let u := if negb (iuarte =? 0) then upd_cr1 (fun v => v .& .~ iuarte) u else u in
  let u := if negb (idmae =? 0) then set_rx_dma u (set_ch_cr (rx_dma u) (cr (rx_dma u) .& .~ idmae)) else u in
  let* u := uart_console_write s u in
  let u := if negb (idmae =? 0) then set_rx_dma u (set_ch_cr (rx_dma u) (cr (rx_dma u) .| idmae)) else u in
  Ok (if negb (iuarte =? 0) then upd_cr1 (fun v => v .| iuarte) u else u).

End Tx.

(** ** Reception *)

Section Rx.

(** [w1c] is what writing ones to the flag-clear register does to the flags. *)
Context (w1c : Z -> Z -> Z).

(** The buffer the DMA is writing. *)
Definition current_target (r : stm32_dma_ch_regs) : Z :=
  if negb ((cr r .& STM32_DMA_CR_CT) =? 0) then 1 else 0.

(** The reads of CR, NDTR and CR again, and of NDTR once more if the buffer changed;
    [rd n] are the stream's registers at the [n]-th read. *)
Definition read_pos (rd : nat -> stm32_dma_ch_regs) : Z * Z :=
  let new_wbuf := current_target (rd 0%nat) in
  let new_wpos := ndtr (rd 1%nat) in
  let tmp := current_target (rd 2%nat) in
  if negb (new_wbuf =? tmp) then (tmp, ndtr (rd 3%nat)) else (new_wbuf, new_wpos).

(** [while (priv->rpos < priv->wpos)]: [n] turns; [mem b i] is byte [i] of the memory [rxb[b]] points to. *)
Fixpoint fetch (mem : Z -> Z -> Z) (n : nat) (u : usart) : result usart :=
  match n with
  | O => Ok u
  | S n =>
      match rxb u !! Z.to_nat (rbuf u) with
      | None => Fault BadIndex
      | Some None => Fault NullPtr
      | Some (Some _) =>
          if rpos u <? STM32_DMA_RX_BUF_LEN then
            let u := insert_flip u (mem (rbuf u) (rpos u)) in
            fetch mem n (set_reader u (rbuf u) (u32 (rpos u + 1)))
          else Fault BadIndex
      end
  end.

Definition stm32_receive (ini : stm32_dma_ini) (rd : nat -> stm32_dma_ch_regs) (mem : Z -> Z -> Z) (u : usart) :
    result usart :=
  let (new_wbuf, new_wpos) := read_pos rd in
  let new_wpos := u32 (STM32_DMA_RX_BUF_LEN - new_wpos) in
  let wrap := negb (new_wbuf =? wbuf u) in
  let '(u, wrap) :=
    if wrap then
      if rpos u =? STM32_DMA_RX_BUF_LEN then
        (set_reader (set_writer u new_wbuf new_wpos) new_wbuf 0, false)
      else (set_writer u (wbuf u) STM32_DMA_RX_BUF_LEN, true)
    else (set_writer u (wbuf u) new_wpos, false) in
  let* u := fetch mem (Z.to_nat (wpos u - rpos u)) u in
  if negb wrap then
    let tmp := dma_isr u .& (stm32_dma_isr_bit !!! Z.to_nat (stream ini)) in
    Ok (if negb (tmp =? 0) then set_dma_isr u (w1c (dma_isr u) tmp) else u)
  else Ok u.

(** [tmp = uart->rdr]: the value is dropped; a character in the register is gone, and the DMA does not see it. *)
Definition read_rdr (u : usart) : usart := set_regs u (set_rdr (regs u) None).

(** The interrupt handlers; [idle] is the IDLE flag, whose clearing has no further effect. *)
Definition stm32_usart_isr (txe : nat -> bool) (fuel : nat) (ini : stm32_dma_ini) (idle : bool)
    (rd : nat -> stm32_dma_ch_regs) (mem : Z -> Z -> Z) (p : uart_port usart) : result (uart_port usart) :=
  let* p := if idle then let* u := stm32_receive ini rd mem (read_rdr (hw p)) in Ok (set_hw p u) else Ok p in
  stm32_transmit txe fuel p.

Definition stm32_dma_isr (ini : stm32_dma_ini) (rd : nat -> stm32_dma_ch_regs) (mem : Z -> Z -> Z)
    (p : uart_port usart) : result (uart_port usart) :=
  let* u := stm32_receive ini rd mem (hw p) in Ok (set_hw p u).

End Rx.

(** ** Line settings *)

Definition u16 (x : Z) : Z := x mod 65536.

Definition usart_clock (line : Z) (clk : clk_state) : Z :=
  if (line =? 0) || (line =? 5) then stm32_clock_get CLOCK_PCLK2 clk else stm32_clock_get CLOCK_PCLK1 clk.

Definition brr_value (apb_clock baudrate : Z) : result Z :=
  let* int_div := udiv (u32 (25 * apb_clock)) (u32 (4 * baudrate)) in
  let tmp := u16 ((int_div / 100) .<< STM32_USART_BRR_M_BIT) in
  let frac_div := u32 (int_div - 100 * (tmp .>> 4)) in
  Ok (u16 (tmp .| ((u32 (frac_div * 16 + 50) / 100) .& STM32_USART_BRR_F_MSK))).

Definition stm_set_baud_rate (line : Z) (clk : clk_state) (baudrate : Z) (u : usart) : result usart :=
  let* v := brr_value (usart_clock line clk) baudrate in
  Ok (set_regs u (set_brr (regs u) v)).

(** The new control registers of [stm_port_set_termios]. *)
Definition termios_cr1 (c_cflag v : Z) : Z :=
  let v := v .& .~ (STM32_USART_CR1_M0 .| STM32_USART_CR1_M1 .| STM32_USART_CR1_PCE .| STM32_USART_CR1_PS) in
  if negb ((c_cflag .& PARENB) =? 0) then
    let v := v .| STM32_USART_CR1_PCE in
    let v := if negb ((c_cflag .& PARODD) =? 0) then v .| STM32_USART_CR1_PS else v in
    if (c_cflag .& CSIZE) =? CS8 then v .| STM32_USART_CR1_M0 else v
  else v.

Definition termios_cr2 (c_cflag v : Z) : Z :=
  let v := v .& .~ STM32_USART_CR2_STOP_MASK in
  if negb ((c_cflag .& CSTOPB) =? 0) then v .| STM32_USART_CR2_2STOP else v.

Definition termios_cr3 (c_cflag v : Z) : Z :=
  let v := v .& .~ (STM32_USART_CR3_CTSE .| STM32_USART_CR3_RTSE) in
  if negb ((c_cflag .& CRTSCTS) =? 0) then v .| (STM32_USART_CR3_CTSE .| STM32_USART_CR3_RTSE) else v.

(** [get_baud_rate max] stands for [uart_get_baud_rate(port, termios, old, 0, max)]. *)
Definition stm_port_set_termios (line : Z) (clk : clk_state) (get_baud_rate : Z -> Z) (c_cflag : Z) (u : usart) :
    result usart :=
  let r := regs u in
  let baud := get_baud_rate (usart_clock line clk .>> 4) in
  let r := set_cr3 (set_cr2 (set_cr1 r (termios_cr1 c_cflag (cr1 r))) (termios_cr2 c_cflag (cr2 r)))
                   (termios_cr3 c_cflag (cr3 r)) in
  stm_set_baud_rate line clk baud (set_regs u r).

(** ** Opening and closing *)

(** [dma_alloc_coherent] and [dma_free_coherent] ([arch/arm/mm/dma-mapping.c]). *)
Definition dma_alloc_coherent (kmalloc : nat -> bool) (size : Z) (dm : dmamem) : result (option Z * dmamem) :=
  dmamem_alloc kmalloc size 0 dm.
Definition dma_free_coherent (cpu_addr : Z) (dm : dmamem) : dmamem := dmamem_free cpu_addr dm.

(** The loop that allocates the two receive buffers. *)
Definition alloc_rxb (km0 km1 : nat -> bool) (u : usart) (dm : dmamem) : result (bool * usart * dmamem) :=
  let* (b0, dm) := dma_alloc_coherent km0 STM32_DMA_RX_BUF_LEN dm in
  match b0 with
  | None => Ok (false, set_rxb u (<[0%nat := None]> (rxb u)), dm)
  | Some a0 =>
      let* (b1, dm) := dma_alloc_coherent km1 STM32_DMA_RX_BUF_LEN dm in
      match b1 with
      | None => Ok (false, set_rxb u [None; None], dma_free_coherent a0 dm)
      | Some a1 => Ok (true, set_rxb u [Some a0; Some a1], dm)
      end
  end.

(** [while (cr & STM32_DMA_CR_EN)]: [en n] is the bit at the [n]-th read. *)
Fixpoint wait_disabled (en : nat -> bool) (k n : nat) : result unit :=
  match k with
  | O => Fault Stuck
  | S k => if en n then wait_disabled en k (S n) else Ok tt
  end.

Section Open.

Context (en : nat -> bool) (fuel : nat) (line base_addr : Z) (ini : stm32_dma_ini) (clk : clk_state).

Definition disable_dma (u : usart) : result usart :=
  let u := set_rx_dma u (set_ch_cr (rx_dma u) (cr (rx_dma u) .& .~ STM32_DMA_CR_EN)) in
  let* _ := wait_disabled en fuel 0 in
  Ok u.

Definition rx_dma_cr : Z :=
  (chan ini .<< STM32_DMA_CR_CHSEL_BIT) .| (STM32_DMA_CR_PL_HIGH .<< STM32_DMA_CR_PL_BIT)
  .| STM32_DMA_CR_CIRC .| STM32_DMA_CR_MINC .| STM32_DMA_CR_TCIE .| STM32_DMA_CR_HTIE .| STM32_DMA_CR_DBM.

(** The configuration part of [stm_port_startup], from the DMA stream on. *)
Definition startup_hw (u : usart) : result usart :=
  let* u := disable_dma u in
  let d := {| cr := rx_dma_cr; ndtr := STM32_DMA_RX_BUF_LEN; par := base_addr + USART_RDR_OFFS;
              m0ar := default 0 (rxb u !!! 0%nat); m1ar := default 0 (rxb u !!! 1%nat); fcr := fcr (rx_dma u) |} in
  let u := set_rx_dma u (set_ch_cr d (cr d .| STM32_DMA_CR_EN)) in
  let r := set_cr1 (regs u) (STM32_USART_CR1_TE .| STM32_USART_CR1_RE) in
  let r := set_cr3 (set_cr2 r 0) STM32_USART_CR3_DMAR in
  let u := set_regs u (set_cr1 r (cr1 r .| (STM32_USART_CR1_IDLIE .| STM32_USART_CR1_TXEIE))) in
  let* u := if (brr (regs u) .& (STM32_USART_BRR_F_MSK .| (STM32_USART_BRR_M_MSK .<< STM32_USART_BRR_M_BIT))) =? 0
            then stm_set_baud_rate line clk 115200 u else Ok u in
  Ok (upd_cr1 (fun v => v .| STM32_USART_CR1_UE) u).

(** [rv_usart] and [rv_dma] are what the two [request_irq] return. *)
Definition stm_port_startup (km0 km1 : nat -> bool) (rv_usart rv_dma : Z) (u : usart) (dm : dmamem) :
    result (Z * usart * dmamem) :=
  let u := set_reader (set_writer u 0 0) 0 0 in
  let* (ok, u, dm) := alloc_rxb km0 km1 u dm in
  if negb ok then Ok (- ENOMEM, u, dm)
  else if negb (rv_usart =? 0) then Ok (rv_usart, u, dm)
  else
    let u := set_irqs u (true, snd (irqs u)) in
    if negb (rv_dma =? 0) then Ok (rv_dma, set_irqs u (false, snd (irqs u)), dm)
    else
      let u := set_irqs u (true, true) in
      let* u := startup_hw u in
      Ok (0, u, dm).

Definition stm_port_shutdown (u : usart) : result usart :=
  let* u := disable_dma u in
  let u := upd_cr1 (fun v => v .& .~ (STM32_USART_CR1_TE .| STM32_USART_CR1_RE .| STM32_USART_CR1_UE)) u in
  let u := upd_cr1 (fun v => v .& .~ (STM32_USART_CR1_IDLIE .| STM32_USART_CR1_TXEIE)) u in
  Ok (set_irqs u (false, false)).

Definition stm_port_stop_rx (u : usart) : result usart :=
  let* u := disable_dma u in
  Ok (upd_cr1 (fun v => v .& .~ STM32_USART_CR1_RE) u).

End Open.

Definition stm_port_release_port (u : usart) (dm : dmamem) : usart * dmamem :=
  (set_rxb u (map (fun _ => None) (rxb u)),
   foldl (fun dm b => match b with Some a => dma_free_coherent a dm | None => dm end) dm (rxb u)).

(** ** Probing *)

(** What [stm32_probe] sets in [stm32_ports[id]] and [stm32_usart_priv[id]]; [high_isr]
    chooses HISR/HIFCR.  The base addresses are 0 when NULL. *)
Record port_slot := {
  mapbase : Z; reg_usart_base : Z; reg_dma_base : Z; usart_irq : Z; dma_irq : Z;
  slot_ini : stm32_dma_ini; high_isr : bool; bound : bool
}.

#[global] Instance port_slot_inhabited : Inhabited port_slot := populate
  {| mapbase := 0; reg_usart_base := 0; reg_dma_base := 0; usart_irq := 0; dma_irq := 0;
     slot_ini := {| stream := 0; chan := 0 |}; high_isr := false; bound := false |}.

Definition ports_bss : list port_slot := replicate 8 inhabitant.

(** The first slot without a base address, from [id] on. *)
Fixpoint first_free (l : list port_slot) (id : Z) : Z :=
  match l with
  | [] => id
  | s :: l => if mapbase s =? 0 then id else first_free l (id + 1)
  end.

(** Base addresses of USART and DMA, USART and DMA interrupt. *)
Definition resources : Type := Z * Z * Z * Z.

Definition stm32_probe (id : Z) (res : option resources) (add_one_port_rv : Z) (ports : list port_slot) :
    Z * list port_slot :=
  if STM32_NR_UARTS <=? id then (- EINVAL, ports)
  else
    let id := if id <? 0 then first_free ports 0 else id in
    if id =? STM32_NR_UARTS then (- EBUSY, ports)
    else match res with
         | None => (- ENODEV, ports)
         | Some (ureg, dreg, uirq, dirq) =>
             let s := ports !!! Z.to_nat id in
             if negb (mapbase s =? 0) && negb (mapbase s =? ureg) then (- EBUSY, ports)
             else
               let ini := nth (Z.to_nat id) stm32_usart_rx_dma {| stream := 0; chan := 0 |} in
               let s := {| mapbase := ureg; reg_usart_base := ureg; reg_dma_base := dreg; usart_irq := uirq;
                           dma_irq := dirq; slot_ini := ini; high_isr := negb (stream ini <=? 3); bound := true |} in
               let s := if negb (add_one_port_rv =? 0) then
                          {| mapbase := ureg; reg_usart_base := 0; reg_dma_base := 0; usart_irq := uirq;
                             dma_irq := dirq; slot_ini := ini; high_isr := negb (stream ini <=? 3); bound := true |}
                        else s in
               (add_one_port_rv, <[Z.to_nat id := s]> ports)
         end.

(** [stm32_release]; [drvdata] tells whether the device has its port attached, [rv] is what
    [uart_remove_one_port] returns. *)
Definition stm32_release (drvdata : option Z) (rv : Z) (ports : list port_slot) : Z * list port_slot :=
  match drvdata with
  | None => (0, ports)
  | Some id =>
      let s := ports !!! Z.to_nat id in
      let s := if bound s then
                 {| mapbase := mapbase s; reg_usart_base := 0; reg_dma_base := 0; usart_irq := usart_irq s;
                    dma_irq := dma_irq s; slot_ini := slot_ini s; high_isr := high_isr s; bound := bound s |}
               else s in
      (rv, <[Z.to_nat id := s]> ports)
  end.

(** [parse] is [uart_parse_options] and [set_options] the result of [uart_set_options]. *)
Definition stm_console_setup (index : Z) (options : option (list Z)) (parse : list Z -> Z * Z * Z * Z)
    (set_options : Z * Z * Z * Z -> Z) (ports : list port_slot) : Z :=
  let opts := (115200, 110, 8, 110) in
  if (index <? 0) || (STM32_NR_UARTS <=? index) then - EINVAL
  else if negb (bound (ports !!! Z.to_nat index)) then - ENODEV
  else set_options (match options with Some o => parse o | None => opts end).

(** ** The transmitter is a serial-core driver *)

Section TxDriver.

Context (txe : nat -> bool) (fuel : nat).

(** The transmitter becomes ready while the driver polls. *)
Hypothesis txe_comes : exists n, (n < fuel)%nat /\ txe n = true.

Lemma wait_txe_ok k n : (exists i, (n <= i < n + k)%nat /\ txe i = true) -> wait_txe txe k n = Ok tt.
Proof.
  revert n. induction k as [|k IH]; intros n (i & Hi & Hb); [lia|]. cbn [wait_txe]. destruct (txe n) eqn:E; [reflexivity|].
  apply IH. exists i. split; [|exact Hb]. assert (i <> n) by congruence. lia.
Qed.

Lemma xmit_char_ok i c u :
  stm32_xmit_char txe fuel i c u = Ok (log_tx (set_regs u (set_tdr (regs u) c)) i).
Proof.
  unfold stm32_xmit_char. rewrite wait_txe_ok; [reflexivity|]. destruct txe_comes as (n & Hn & E). exists n. split; [lia|exact E].
Qed.

Definition tx_armed (u : usart) : bool := Z.testbit (cr1 (regs u)) 7.

Lemma armed_set v : is_u32 v -> is_u32 (v .| STM32_USART_CR1_TXEIE) /\ Z.testbit (v .| STM32_USART_CR1_TXEIE) 7 = true.
Proof.
  intros Hv. split; [apply lor_u32; [exact Hv|apply shl32_u32]|]. rewrite Z.lor_spec.
  change (Z.testbit STM32_USART_CR1_TXEIE 7) with true. apply orb_true_r.
Qed.

Lemma armed_clear v : is_u32 v -> is_u32 (v .& .~ STM32_USART_CR1_TXEIE) /\ Z.testbit (v .& .~ STM32_USART_CR1_TXEIE) 7 = false.
Proof.
  intros Hv. split; [apply land_u32_l; [exact Hv|apply is_u32_nonneg, not32_u32, shl32_u32]|]. rewrite Z.land_spec.
  change (Z.testbit (.~ STM32_USART_CR1_TXEIE) 7) with false. apply andb_false_r.
Qed.

Definition usart_ok (u : usart) : Prop := is_u32 (cr1 (regs u)).

Definition tx_abs (p : uart_port usart) : line :=
  {| queue := contents (xmit p); out := tx_log (hw p); xch := x_char p; arm := tx_armed (hw p); halted := tx_stopped p |}.

Lemma stop_tx_abs p :
  usart_ok (hw p) -> usart_ok (hw (stm_port_stop_tx p)) /\ tx_abs (stm_port_stop_tx p) = set_arm (tx_abs p) false.
Proof.
  intros Hu. destruct (armed_clear _ Hu) as [H1 H2]. split; [exact H1|]. unfold tx_abs, tx_armed, stm_port_stop_tx, upd_cr1.
  port_simpl. usart_simpl. now rewrite H2.
Qed.

Lemma transmit_abs p :
  circ_wf (xmit p) -> usart_ok (hw p) ->
  exists p', stm32_transmit txe fuel p = Ok p' /\ circ_wf (xmit p') /\ usart_ok (hw p') /\ tx_abs p' = tick (tx_abs p).
Proof.
  intros Hw Hu. unfold stm32_transmit, tick. change (xch (tx_abs p)) with (x_char p).
  change (queue (tx_abs p)) with (contents (xmit p)). change (halted (tx_abs p)) with (tx_stopped p).
  destruct (negb (x_char p =? 0)).
  - rewrite xmit_char_ok. cbn [rbind]. eexists. split; [reflexivity|]. split; [exact Hw|]. split; [exact Hu|reflexivity].
  - pose proof (empty_contents (xmit p) Hw) as He. destruct (uart_circ_empty (xmit p)) eqn:Ee; cbn [orb].
    + rewrite (proj1 He eq_refl). destruct (stop_tx_abs p Hu) as [H1 H2]. eexists. split; [reflexivity|].
      split; [exact Hw|]. split; [exact H1|exact H2].
    + destruct (contents (xmit p)) as [|c q] eqn:Ec; [discriminate (proj2 He eq_refl)|]. destruct (tx_stopped p) eqn:Es.
      * destruct (stop_tx_abs p Hu) as [H1 H2]. eexists. split; [reflexivity|]. split; [exact Hw|]. split; [exact H1|exact H2].
      * rewrite xmit_char_ok. cbn [rbind]. destruct (pop_contents (xmit p) Hw) as [H1 H2]; [now rewrite Ec|].
        rewrite Ec in H2. injection H2 as Hc Hq. eexists. split; [reflexivity|]. split; [exact H1|]. split; [exact Hu|].
        unfold tx_abs, emit. port_simpl. usart_simpl. rewrite <- Hq, <- Hc, Es. reflexivity.
Qed.

(** A transmit interrupt: neither idle line nor received characters. *)
Definition tx_irq : uart_port usart -> result (uart_port usart) :=
  stm32_usart_isr (fun v _ => v) txe fuel {| stream := 0; chan := 0 |} false (fun _ => inhabitant) (fun _ _ => 0).

#[local] Instance stm32_tx_driver : TxDriver (stm32_uart_ops txe fuel) tx_irq.
Proof.
  refine {| sent := tx_log; armed := tx_armed; hw_ok := usart_ok |}.
  - intros p [Hw Hu]. destruct (stop_tx_abs p Hu) as [H1 H2]. split; [split; [exact Hw|exact H1]|exact H2].
  - intros p [Hw Hu]. cbn [stm32_uart_ops start_tx]. unfold stm_port_start_tx.
    set (p1 := set_hw p _). destruct (armed_set _ Hu) as [Hu1 Ha].
    destruct (transmit_abs p1 Hw Hu1) as (p' & E & H1 & H2 & H3). exists p'. split; [exact E|].
    split; [split; assumption|]. refine (eq_trans H3 (f_equal tick _)).
    unfold tx_abs, tx_armed, p1, upd_cr1. port_simpl. usart_simpl. now rewrite Ha.
  - intros p [Hw Hu]. unfold tx_irq, stm32_usart_isr. cbn [rbind].
    destruct (transmit_abs p Hw Hu) as (p' & E & H1 & H2 & H3). exists p'. split; [exact E|]. split; [split; assumption|exact H3].
Defined.

(** Every sequence of calls behaves as the abstract line. *)
Lemma usart_run es p :
  circ_wf (xmit p) -> usart_ok (hw p) ->
  exists rs p', run (stm32_uart_ops txe fuel) tx_irq es p = Ok (rs, p')
  /\ circ_wf (xmit p') /\ usart_ok (hw p') /\ (rs, tx_abs p') = line_run es (tx_abs p).
Proof.
  intros Hw Hu. destruct (run_ok (stm32_uart_ops txe fuel) tx_irq (D := stm32_tx_driver) es p (conj Hw Hu)) as (rs & p' & E & [H1 H2] & H3).
  exists rs, p'. split; [exact E|]. split; [exact H1|]. split; [exact H2|exact H3].
Qed.

End TxDriver.

(** ** The receive ring *)

Section RxRing.

(** [data j] is the [j]-th character received since the port was opened. *)
Context (data : Z -> Z) (w1c : Z -> Z -> Z) (ini : stm32_dma_ini).

(** The stream's registers when [W] characters have been stored: it fills 512 bytes of one
    buffer, then of the other, and counts NDTR down. *)
Definition hw_at (W : Z) (r : stm32_dma_ch_regs) : Prop :=
  current_target r = (W / 512) mod 2 /\ ndtr r = 512 - W mod 512.

(** The last 1024 characters are in the two buffers. *)
Definition intact (W : Z) (mem : Z -> Z -> Z) : Prop :=
  forall j, 0 <= j < W -> W <= j + 1024 -> mem ((j / 512) mod 2) (j mod 512) = data j.

Lemma read_pos_spec rd W0 W1 W2 W3 :
  hw_at W0 (rd 0%nat) -> hw_at W1 (rd 1%nat) -> hw_at W2 (rd 2%nat) -> hw_at W3 (rd 3%nat) ->
  0 <= W0 <= W1 -> W1 <= W2 <= W3 -> W3 < W0 + 512 ->
  exists W, W0 <= W <= W3 /\ read_pos rd = ((W / 512) mod 2, 512 - W mod 512).
Proof.
  intros [C0 _] [_ N1] [C2 _] [_ N3] H1 H2 H3. unfold read_pos. rewrite C0, C2, N1, N3.
  assert (Hb : W2 / 512 = W0 / 512 \/ W2 / 512 = W0 / 512 + 1) by zdiv.
  destruct (Z.eqb_spec ((W0 / 512) mod 2) ((W2 / 512) mod 2)) as [E|E]; cbn [negb].
  - exists W1. split; [lia|]. destruct Hb as [Hb|Hb]; [|rewrite Hb in E; zdiv].
    assert (W1 / 512 = W0 / 512) as -> by zdiv. reflexivity.
  - exists W3. split; [lia|]. destruct Hb as [Hb|Hb]; [congruence|].
    assert (W3 / 512 = W2 / 512) as -> by zdiv. reflexivity.
Qed.

(** Both receive buffers are allocated. *)
Definition buffered (u : usart) : Prop := exists a0 a1, rxb u = [Some a0; Some a1].

Lemma buffered_lookup u b : buffered u -> 0 <= b < 2 -> exists a, rxb u !! Z.to_nat b = Some (Some a).
Proof.
  intros (a0 & a1 & E) Hb. rewrite E. assert (b = 0 \/ b = 1) as [->| ->] by lia; [now exists a0|now exists a1].
Qed.

Lemma fetch_spec mem n u :
  buffered u -> 0 <= rbuf u < 2 -> 0 <= rpos u -> rpos u + Z.of_nat n <= 512 ->
  fetch mem n u = Ok (set_reader (set_flip u (flip u ++ map (mem (rbuf u)) (seqZ (rpos u) (Z.of_nat n))))
                                 (rbuf u) (rpos u + Z.of_nat n)).
Proof.
  revert u. induction n as [|n IH]; intros u Ha Hb Hp Hn; cbn [fetch].
  - rewrite Z.add_0_r. cbn [map seqZ]. rewrite app_nil_r. now destruct u.
  - destruct (buffered_lookup u _ Ha Hb) as [a ->]. unfold STM32_DMA_RX_BUF_LEN.
    rewrite (proj2 (Z.ltb_lt (rpos u) 512)) by lia.
    usart_simpl. rewrite u32_id by (unfold is_u32; lia). rewrite IH; usart_simpl; [|exact Ha|lia..].
    rewrite <- app_assoc. rewrite (seqZ_cons (rpos u) (Z.of_nat (S n))) by lia. cbn [map app].
    replace (Z.pred (Z.of_nat (S n))) with (Z.of_nat n) by lia. unfold Z.succ, set_reader, set_flip. usart_simpl.
    replace (rpos u + 1 + Z.of_nat n) with (rpos u + Z.of_nat (S n)) by lia. reflexivity.
Qed.

(** The reader is in the [k]-th buffer filled and has delivered [R] characters. *)
Record rx_inv (k R : Z) (u : usart) : Prop := {
  ri_bufs : buffered u;
  ri_k : 0 <= k;
  ri_R : R = 512 * k + rpos u;
  ri_pos : 0 <= rpos u <= 512;
  ri_rbuf : rbuf u = k mod 2;
  ri_wbuf : wbuf u = rbuf u;
  ri_flip : flip u = map data (seqZ 0 R)
}.

Lemma mem_data (mem : Z -> Z -> Z) b p n (j0 : Z) :
  (forall j, j0 <= j < j0 + n -> mem b (p + (j - j0)) = data j) ->
  map (mem b) (seqZ p n) = map data (seqZ j0 n).
Proof.
  intros H. apply list_eq. intros i. rewrite !list_lookup_fmap.
  destruct (decide (Z.of_nat i < n)) as [Hi|Hi].
  - rewrite !lookup_seqZ_lt by lia. cbn. f_equal. rewrite <- H by lia. f_equal. lia.
  - rewrite !lookup_seqZ_ge by lia. reflexivity.
Qed.

Lemma seqZ_snoc_map R n : 0 <= R -> 0 <= n -> map data (seqZ 0 R) ++ map data (seqZ R n) = map data (seqZ 0 (R + n)).
Proof. intros. rewrite <- map_app. f_equal. rewrite seqZ_app by lia. f_equal. Qed.

(** A call that sees the DMA at position [W]. *)
Lemma receive_spec k R W u rd mem :
  rx_inv k R u -> read_pos rd = ((W / 512) mod 2, 512 - W mod 512) -> R <= W < 512 * (k + 2) ->
  (forall j, R <= j < W -> mem ((j / 512) mod 2) (j mod 512) = data j) ->
  exists u', stm32_receive w1c ini rd mem u = Ok u'
  /\ ((exists k', rx_inv k' W u' /\ k <= k')
      \/ (rx_inv k (512 * (k + 1)) u' /\ 512 * (k + 1) <= W /\ R < 512 * (k + 1) /\ dma_isr u' = dma_isr u)).
Proof.
  intros [Hbu Hk HR Hp Hrb Hwb Hfl] Er HW Hmem. unfold stm32_receive. rewrite Er. unfold STM32_DMA_RX_BUF_LEN.
  replace (512 - (512 - W mod 512)) with (W mod 512) by lia. rewrite (u32_id (W mod 512)) by (unfold is_u32; zdiv).
  assert (HB : W / 512 = k \/ W / 512 = k + 1) by zdiv.
  assert (Hack : forall u2, exists u', Ok (if negb ((dma_isr u2 .& (stm32_dma_isr_bit !!! Z.to_nat (stream ini))) =? 0)
      then set_dma_isr u2 (w1c (dma_isr u2) (dma_isr u2 .& (stm32_dma_isr_bit !!! Z.to_nat (stream ini)))) else u2) = Ok u'
      /\ rpos u' = rpos u2 /\ rbuf u' = rbuf u2 /\ wbuf u' = wbuf u2 /\ flip u' = flip u2 /\ rxb u' = rxb u2).
  { intros u2. destruct (negb _); eexists; repeat split. }
  destruct HB as [HB|HB].
  - rewrite Hwb, Hrb, HB, Z.eqb_refl. cbn [negb]. rewrite fetch_spec; usart_simpl; [|exact Hbu|zdiv..].
    cbn [rbind]. usart_simpl.
    set (u2 := set_reader _ _ _). destruct (Hack u2) as (u' & E & E1 & E2 & E3 & E4 & E5). exists u'. split; [exact E|left].
    exists k. split; [|lia]. split; unfold buffered; rewrite ?E1, ?E2, ?E3, ?E4, ?E5; unfold u2; usart_simpl; try assumption; [zdiv|zdiv|congruence|].
    rewrite Hfl, (mem_data mem _ _ _ R); [rewrite seqZ_snoc_map by zdiv; f_equal; f_equal; zdiv|].
    intros j Hj. rewrite <- Hmem by zdiv. f_equal; zdiv.
  - rewrite Hwb, Hrb, HB. destruct (Z.eqb_spec ((k + 1) mod 2) (k mod 2)) as [E|_]; [exfalso; zdiv|]. cbn [negb].
    destruct (Z.eqb_spec (rpos u) 512) as [Hend|Hend].
    + rewrite fetch_spec; usart_simpl; [|exact Hbu|zdiv..]. cbn [rbind]. usart_simpl.
      set (u2 := set_reader _ _ _). destruct (Hack u2) as (u' & E & E1 & E2 & E3 & E4 & E5). exists u'. split; [exact E|left].
      exists (k + 1). split; [|lia]. split; unfold buffered; rewrite ?E1, ?E2, ?E3, ?E4, ?E5; unfold u2; usart_simpl; try reflexivity; [exact Hbu|lia|zdiv|zdiv|].
      rewrite Hfl, (mem_data mem _ _ _ R); [rewrite seqZ_snoc_map by zdiv; f_equal; f_equal; zdiv|].
      intros j Hj. rewrite <- Hmem by zdiv. f_equal; zdiv.
    + rewrite fetch_spec; usart_simpl; [|exact Hbu|zdiv..]. cbn [rbind]. usart_simpl. eexists. split; [reflexivity|right]. usart_simpl.
      split; [|split; [zdiv|split; [lia|reflexivity]]]. split; usart_simpl; try assumption; [lia|lia|congruence|].
      rewrite Hfl, (mem_data mem _ _ _ R); [rewrite seqZ_snoc_map by lia; f_equal; f_equal; lia|].
      intros j Hj. rewrite <- Hmem by zdiv. f_equal; zdiv.
Qed.

End RxRing.
