(* ===== verification/UsartSpec.v ===== *)
(** * The USART driver: what it guarantees

    Reception loses nothing as long as the handler is not two buffers late,
    transmission refines a queue, and the register values, buffers and resources of
    a port over opening, closing and probing. *)

From S2P Require Import Prelude Dmac Clock Dmamem Serial Usart.

(** ** Reception *)

Section Rx.

Context (data : Z -> Z) (w1c : Z -> Z -> Z) (ini : stm32_dma_ini).

(** The number of the buffer the reader is in, counted from the opening of the port. *)
Definition reader_block (u : usart) : Z := (Z.of_nat (length (flip u)) - rpos u) / 512.

(** A call of [stm32_receive] while the DMA goes on: [W] characters have been stored when the
    last call returned, [W0] to [W3] at the four reads of its registers and [W'] when the
    characters have been copied.  The call is in time: less than a buffer arrives during the
    reads, and the DMA has not come back to the buffer that is being read. *)
Record timely (u : usart) (W : Z) (rd : nat -> stm32_dma_ch_regs) (mem : Z -> Z -> Z) (W' : Z) : Prop := {
  tm_reads : exists W0 W1 W2 W3, hw_at W0 (rd 0%nat) /\ hw_at W1 (rd 1%nat) /\ hw_at W2 (rd 2%nat)
    /\ hw_at W3 (rd 3%nat) /\ W <= W0 <= W1 /\ W1 <= W2 <= W3 /\ W3 < W0 + 512 /\ W3 <= W';
  tm_late : W' < 512 * (reader_block u + 2);
  tm_mem : intact data W' mem
}.

Inductive rx_call : usart * Z -> usart * Z -> Prop :=
  | rx_call_intro u W rd mem u' W' :
      timely u W rd mem W' -> stm32_receive w1c ini rd mem u = Ok u' -> rx_call (u, W) (u', W').

(** A port that has just been opened. *)
Definition rx_fresh (u : usart) : Prop :=
  buffered u /\ wbuf u = 0 /\ wpos u = 0 /\ rbuf u = 0 /\ rpos u = 0 /\ flip u = [].

Definition rx_good (s : usart * Z) : Prop := exists k R, rx_inv data k R s.1 /\ R <= s.2.

Lemma rx_inv_len k R u : rx_inv data k R u -> Z.of_nat (length (flip u)) = R /\ reader_block u = k.
Proof.
  intros [_ Hk HR Hp _ _ Hf]. assert (E : Z.of_nat (length (flip u)) = R) by (rewrite Hf, length_map, length_seqZ; lia).
  split; [exact E|]. unfold reader_block. rewrite E. replace (R - rpos u) with (k * 512) by lia. now apply Z.div_mul.
Qed.

Lemma fresh_good u : rx_fresh u -> rx_good (u, 0).
Proof.
  intros (H0 & H1 & _ & H3 & H4 & H5). exists 0, 0. split; [|reflexivity]. cbn [fst].
  split; [exact H0|..]; rewrite ?H1, ?H3, ?H4, ?H5; try reflexivity; lia.
Qed.

Lemma timely_receive u W rd mem W' k R :
  rx_inv data k R u -> R <= W -> timely u W rd mem W' ->
  exists u' Ws, stm32_receive w1c ini rd mem u = Ok u' /\ W <= Ws <= W'
  /\ ((exists k', rx_inv data k' Ws u' /\ k <= k')
      \/ (rx_inv data k (512 * (k + 1)) u' /\ 512 * (k + 1) <= Ws /\ R < 512 * (k + 1) /\ dma_isr u' = dma_isr u)).
Proof.
  intros Hi HR [(W0 & W1 & W2 & W3 & H0 & H1 & H2 & H3 & O1 & O2 & O3 & O4) Hl Hm].
  destruct (rx_inv_len k R u Hi) as [_ Hb]. rewrite Hb in Hl. pose proof Hi as [_ Hk HRk Hp _ _ _].
  destruct (read_pos_spec data w1c rd W0 W1 W2 W3 H0 H1 H2 H3 ltac:(lia) O2 O3) as (Ws & Hws & Er).
  destruct (receive_spec data w1c ini k R Ws u rd mem Hi Er ltac:(lia)) as (u' & E & Hc).
  { intros j Hj. apply Hm; lia. }
  exists u', Ws. split; [exact E|]. split; [lia|exact Hc].
Qed.

Lemma rx_call_good s s' : rx_call s s' -> rx_good s -> rx_good s'.
Proof.
  intros [u W rd mem u' W' Ht E] (k & R & Hi & HR). cbn [fst snd] in *.
  destruct (timely_receive u W rd mem W' k R Hi HR Ht) as (u1 & Ws & E1 & Hw & Hc). rewrite E in E1. injection E1 as <-.
  destruct Hc as [(k' & Hi' & _)|(Hi' & H1 & _)]; [exists k', Ws|exists k, (512 * (k + 1))]; (split; [exact Hi'|cbn; lia]).
Qed.

Lemma rx_calls_good s s' : rtc rx_call s s' -> rx_good s -> rx_good s'.
Proof. induction 1 as [|s1 s2 s3 H _ IH]; [auto|]. intros Hg. apply IH. exact (rx_call_good s1 s2 H Hg). Qed.

(** Two calls deliver everything that had been stored before the first. *)
Lemma two_calls u W u1 W1 u2 W2 :
  rx_good (u, W) -> rx_call (u, W) (u1, W1) -> rx_call (u1, W1) (u2, W2) -> W <= Z.of_nat (length (flip u2)).
Proof.
  intros (k & R & Hi & HR) C1 C2. inversion C1 as [? ? rd mem ? ? Ht E]; subst.
  inversion C2 as [? ? rd2 mem2 ? ? Ht2 E2]; subst. cbn [fst snd] in *.
  destruct (timely_receive u W rd mem W1 k R Hi HR Ht) as (v & Ws & E1 & Hw & Hc). rewrite E in E1. injection E1 as <-.
  destruct Hc as [(k' & Hi' & _)|(Hi' & Hge & _)].
  - destruct (timely_receive u1 W1 rd2 mem2 W2 k' Ws Hi' ltac:(lia) Ht2) as (v & Ws2 & E3 & Hw2 & Hc2).
    rewrite E2 in E3. injection E3 as <-.
    destruct Hc2 as [(k2 & Hi2 & _)|(Hi2 & _ & Hlt & _)]; rewrite (proj1 (rx_inv_len _ _ _ Hi2)); lia.
  - destruct (timely_receive u1 W1 rd2 mem2 W2 k _ Hi' ltac:(lia) Ht2) as (v & Ws2 & E3 & Hw2 & Hc2).
    rewrite E2 in E3. injection E3 as <-.
    destruct Hc2 as [(k2 & Hi2 & _)|(_ & _ & Hlt & _)]; [rewrite (proj1 (rx_inv_len _ _ _ Hi2)); lia|lia].
Qed.

End Rx.

(** C9: on a port that has just been opened (its buffers allocated), reception loses and repeats nothing of what the DMA stores: however the interrupts of the DMA stream and of the idle line
    come and however many characters each call finds, as long as no call comes so late that the DMA has
    returned to the buffer being read, the characters handed to the tty layer are exactly the first ones
    received, in order; every such call returns, and what had arrived before a call has been handed over
    when the second call after it returns (the first leaves the DMA interrupt pending when the buffer
    changed under it).  That the read of RDR in the USART interrupt can take a character before the DMA stores it is
    [UsartInv.usart_isr_takes_rdr]. *)
Theorem usart_rx_lossless data w1c ini u0 u W :
  rx_fresh u0 -> rtc (rx_call data w1c ini) (u0, 0) (u, W) ->
  flip u = map data (seqZ 0 (Z.of_nat (length (flip u)))) /\ Z.of_nat (length (flip u)) <= W
  /\ (forall rd mem W', timely data u W rd mem W' -> exists u', stm32_receive w1c ini rd mem u = Ok u'
        /\ (W <= Z.of_nat (length (flip u')) \/ dma_isr u' = dma_isr u))
  /\ (forall u1 W1 u2 W2, rx_call data w1c ini (u, W) (u1, W1) -> rx_call data w1c ini (u1, W1) (u2, W2) ->
        W <= Z.of_nat (length (flip u2))).
Proof.
  intros Hf Hr. pose proof (rx_calls_good data w1c ini _ _ Hr (fresh_good data u0 Hf)) as Hg.
  pose proof Hg as (k & R & Hi & HR). cbn [fst snd] in *. destruct (rx_inv_len data k R u Hi) as [El _].
  split; [rewrite El; apply Hi|]. split; [lia|]. split.
  - intros rd mem W' Ht. destruct (timely_receive data w1c ini u W rd mem W' k R Hi HR Ht) as (u' & Ws & E & Hw & Hc).
    exists u'. split; [exact E|]. destruct Hc as [(k' & Hi' & _)|(_ & _ & _ & Hd)]; [left|now right].
    rewrite (proj1 (rx_inv_len data _ _ _ Hi')). lia.
  - intros u1 W1 u2 W2. now apply two_calls.
Qed.

(** ** Transmission *)

(** C10: transmission is a queue: every sequence of writes, single characters, flushes, flow-control
    characters, stops, starts and transmit interrupts returns, gives the callers the numbers of
    accepted characters of the abstract line and leaves the port as the line; unless the buffer is
    flushed, what has been sent followed by what is buffered is what was there before followed by
    the accepted characters, in order. *)
Theorem usart_tx_refines txe fuel es p :
  (exists n, (n < fuel)%nat /\ txe n = true) -> circ_wf (xmit p) -> usart_ok (hw p) ->
  exists rs p', run (stm32_uart_ops txe fuel) (tx_irq txe fuel) es p = Ok (rs, p')
  /\ circ_wf (xmit p') /\ (rs, tx_abs p') = line_run es (tx_abs p)
  /\ (FlushBuffer ∉ es -> chars (tx_log (hw p')) ++ contents (xmit p')
        = (chars (tx_log (hw p)) ++ contents (xmit p)) ++ accepted_run es (tx_abs p)).
Proof.
  intros Ht Hw Hu. destruct (usart_run txe fuel Ht es p Hw Hu) as (rs & p' & E & Hw' & _ & El).
  exists rs, p'. split; [exact E|]. split; [exact Hw'|]. split; [exact El|]. intros Hes.
  pose proof (run_fifo es (tx_abs p) Hes) as Hf. rewrite <- El in Hf. exact Hf.
Qed.

Lemma run_live es s : (forall c, PutChar c ∉ es) -> live s -> live (line_run es s).2.
Proof.
  revert s. induction es as [|e es IH]; intros s He Hl; [exact Hl|]. cbn [line_run].
  pose proof (step_live e s) as H. destruct (line_step e s) as [r s1]. cbn [snd] in H.
  specialize (IH s1). destruct (line_run es s1) as [rs s2]. cbn [snd] in *. apply IH.
  - intros c Hc. apply (He c). now right.
  - apply H; [|exact Hl]. intros c ->. apply (He c). left.
Qed.

(** Nothing stays in the transmit buffer: in every state the calls reach (single characters apart,
    which wait for [uart_flush_chars]), if characters are buffered and the terminal is not stopped the
    transmit interrupt is enabled; and one interrupt per buffered character and one more send them all, in order,
    and turn the interrupt off. *)
Theorem usart_tx_drains txe fuel es p rs p1 n :
  (exists n, (n < fuel)%nat /\ txe n = true) -> circ_wf (xmit p) -> usart_ok (hw p) -> live (tx_abs p) ->
  (forall c, PutChar c ∉ es) -> run (stm32_uart_ops txe fuel) (tx_irq txe fuel) es p = Ok (rs, p1) ->
  tx_stopped p1 = false -> x_char p1 = 0 -> (length (contents (xmit p1)) < n)%nat ->
  (contents (xmit p1) <> [] -> tx_armed (hw p1) = true)
  /\ exists rs' p2, run (stm32_uart_ops txe fuel) (tx_irq txe fuel) (replicate n TxIrq) p1 = Ok (rs', p2)
     /\ contents (xmit p2) = [] /\ tx_armed (hw p2) = false
     /\ tx_log (hw p2) = tx_log (hw p1) ++ map Char (contents (xmit p1)).
Proof.
  intros Ht Hw Hu Hl He E Hs Hx Hn. destruct (usart_run txe fuel Ht es p Hw Hu) as (rs0 & p0 & E0 & Hw1 & Hu1 & El).
  rewrite E in E0. injection E0 as <- <-. pose proof (run_live es (tx_abs p) He Hl) as Hl1. rewrite <- El in Hl1. cbn [snd] in Hl1.
  split; [intros Hc; exact (Hl1 Hc Hs)|].
  destruct (usart_run txe fuel Ht (replicate n TxIrq) p1 Hw1 Hu1) as (rs2 & p2 & E2 & _ & _ & El2).
  exists rs2, p2. split; [exact E2|]. pose proof (ticks_drain n (tx_abs p1) Hl1 Hs Hx Hn) as Hd. rewrite <- El2 in Hd. exact Hd.
Qed.

(** ** The console *)

(** Carriage return before every line feed. *)
Fixpoint crlf (s : list Z) : list Z :=
  match s with [] => [] | c :: s => if c =? 10 then 13 :: c :: crlf s else c :: crlf s end.

(** [u] after the characters [l] have been sent, [t] being left in TDR. *)
Definition sent_out (u : usart) (l : list tx_item) (t : Z) : usart :=
  {| regs := set_tdr (regs u) t; rx_dma := rx_dma u; dma_isr := dma_isr u; rxb := rxb u; wbuf := wbuf u; wpos := wpos u;
     rbuf := rbuf u; rpos := rpos u; flip := flip u; tx_log := tx_log u ++ l; irqs := irqs u |}.

Lemma sent_out_app u l t l' t' : sent_out (sent_out u l t) l' t' = sent_out u (l ++ l') t'.
Proof. unfold sent_out. usart_simpl. now rewrite app_assoc. Qed.

Lemma console_write_ok txe fuel s u :
  (exists n, (n < fuel)%nat /\ txe n = true) ->
  exists t, uart_console_write txe fuel s u = Ok (sent_out u (map Con (crlf s)) t).
Proof.
  intros Ht. revert u. induction s as [|c s IH]; intros u; cbn [uart_console_write crlf map].
  - exists (tdr (regs u)). unfold sent_out. rewrite app_nil_r. destruct u as [[]]. reflexivity.
  - assert (Hx : forall c v, stm32_xmit_char txe fuel (Con c) c v = Ok (sent_out v [Con c] c))
      by (intros; now rewrite (xmit_char_ok txe fuel Ht)).
    destruct (c =? 10); cbn [rbind map]; rewrite !Hx; cbn [rbind]; rewrite ?Hx; cbn [rbind];
      match goal with |- context [uart_console_write _ _ s ?v] => destruct (IH v) as [t ->] end; exists t;
      now rewrite !sent_out_app.
Qed.

Lemma clear_set v m : is_u32 v -> (v .& .~ (v .& m)) .| (v .& m) = v.
Proof.
  intros Hv. apply Z.bits_inj'. intros i Hi. rewrite Z.lor_spec, !Z.land_spec, testbit_not32, Z.land_spec.
  destruct (Z.ltb_spec i 32); [|now rewrite (u32_testbit_high v i)].
  rewrite (proj2 (Z.leb_le 0 i) Hi). now destruct (Z.testbit v i), (Z.testbit m i).
Qed.

(** Console output: every character is sent once, in order, with a carriage return before each line
    feed, with the interrupts of the port and of its DMA stream masked meanwhile and exactly as they
    were afterwards; the transmit buffer, the receive position and everything else stay as they
    are. *)
Theorem usart_console_write txe fuel s u :
  (exists n, (n < fuel)%nat /\ txe n = true) -> is_u32 (cr1 (regs u)) -> is_u32 (cr (rx_dma u)) ->
  exists t, stm_console_write txe fuel s u = Ok (sent_out u (map Con (crlf s)) t).
Proof.
  intros Ht H1 H2. unfold stm_console_write.
  set (iuarte := cr1 (regs u) .& _). set (idmae := cr (rx_dma u) .& _).
  set (u1 := if negb (iuarte =? 0) then _ else _). set (u2 := if negb (idmae =? 0) then _ else _).
  destruct (console_write_ok txe fuel s u2 Ht) as [t ->]. cbn [rbind]. exists t. f_equal.
  unfold u2, u1. destruct u as [[a1 a2 a3 a4 a5 a6] [b1 b2 b3 b4 b5 b6] ? ? ? ? ? ? ? ? ?].
  destruct (iuarte =? 0), (idmae =? 0); cbn [negb]; unfold sent_out, upd_cr1, set_ch_cr; usart_simpl;
    cbn [cr ndtr par m0ar m1ar fcr]; unfold iuarte, idmae in *; usart_simpl; cbn [cr regs cr1 rx_dma] in *; rewrite ?clear_set by assumption; reflexivity.
Qed.

(** ** Line settings *)

Lemma lor_low k a b : 0 <= k -> 0 <= b < 2 ^ k -> (2 ^ k * a) .| b = 2 ^ k * a + b.
Proof.
  intros Hk Hb. symmetry. rewrite Z.mul_comm, <- Z.shiftl_mul_pow2 by exact Hk. rewrite <- Z.lxor_lor, <- Z.add_nocarry_lxor; [reflexivity|..].
  all: apply Z.bits_inj'; intros i Hi; rewrite Z.land_spec, Z.shiftl_spec, Z.bits_0 by lia;
    destruct (Z.lt_ge_cases i k); [now rewrite Z.testbit_neg_r by lia|rewrite (fits_testbit_high k b i) by (unfold fits; lia); apply andb_false_r].
Qed.

(** The fraction of the divisor in sixteenths, as it is stored. *)
Definition brr_fraction (d : Z) : Z := if d mod 100 <? 97 then (16 * (d mod 100) + 50) / 100 else 0.

(** The divisor register as a function of [d = 25 * clock / (4 * baud)]: the mantissa is cut to twelve bits. *)
Lemma brr_value_ok clk baud :
  0 <= 25 * clk < 2 ^ 32 -> 0 < 4 * baud < 2 ^ 32 ->
  let d := 25 * clk / (4 * baud) in
  d <= 267187500 -> brr_value clk baud = Ok (16 * ((d / 100) mod 4096) + brr_fraction d).
Proof.
  intros Hc Hb d Hd. unfold brr_value. rewrite !u32_id by (unfold fits; lia). unfold udiv.
  rewrite (proj2 (Z.eqb_neq (4 * baud) 0)) by lia. cbn [rbind]. fold d.
  assert (Hd0 : 0 <= d) by (apply Z.div_pos; lia). clearbody d. clear Hc Hb.
  assert (E1 : u16 ((d / 100) .<< STM32_USART_BRR_M_BIT) = 16 * ((d / 100) mod 4096)).
  { unfold shl32, STM32_USART_BRR_M_BIT. rewrite Z.shiftl_mul_pow2 by lia. change (2 ^ 4) with 16.
    rewrite u32_id by (unfold fits; change (2 ^ 32) with 4294967296; zdiv). unfold u16. zdiv. }
  rewrite E1. replace ((16 * ((d / 100) mod 4096)) .>> 4) with ((d / 100) mod 4096)
    by (rewrite Z.shiftr_div_pow2 by lia; change (2 ^ 4) with 16; zdiv).
  assert (E2 : d - 100 * ((d / 100) mod 4096) = 409600 * (d / 409600) + d mod 100).
  { change 409600 with (100 * 4096). rewrite <- Z.div_div by lia. set (q := d / 100).
    pose proof (Z.div_mod d 100 ltac:(lia)). pose proof (Z.div_mod q 4096 ltac:(lia)). lia. }
  rewrite E2. assert (Hk : 0 <= 409600 * (d / 409600) + d mod 100 <= 267187500).
  { pose proof (Z.mod_pos_bound (d / 100) 4096 ltac:(lia)). pose proof (Z.div_pos d 409600 ltac:(lia) ltac:(lia)).
    pose proof (Z.mod_pos_bound d 100 ltac:(lia)). lia. }
  set (k := d / 409600) in *. clearbody k.
  rewrite (u32_id (409600 * k + d mod 100)), u32_id by (unfold fits; change (2 ^ 32) with 4294967296; zdiv).
  change STM32_USART_BRR_F_MSK with (Z.ones 4). rewrite Z.land_ones by lia. change (2 ^ 4) with 16.
  assert (E3 : ((409600 * k + d mod 100) * 16 + 50) / 100 mod 16 = brr_fraction d).
  { unfold brr_fraction. destruct (Z.ltb_spec (d mod 100) 97); zdiv. }
  rewrite E3. assert (Hf : 0 <= brr_fraction d < 16) by (unfold brr_fraction; destruct (Z.ltb_spec (d mod 100) 97); zdiv).
  set (w := brr_fraction d) in *. clearbody w.
  rewrite (lor_low 4 ((d / 100) mod 4096)) by (change (2 ^ 4) with 16; lia). change (2 ^ 4) with 16. f_equal. unfold u16. zdiv.
Qed.

(** C38: the baud rate, for a clock of at most 171 MHz (25 times the clock is computed in 32 bits) and rates from 4 baud on: as long as
    clock / baud is below 65536 the divisor written to BRR differs from it by less than 0.66, except when
    the fraction of the divisor rounds up to 16/16: then the carry into the mantissa is lost and the divisor is
    too small by more than 15.5.  When clock / baud is 65536 or more (rates below 1526 baud at 100 MHz) the mantissa is
    cut to twelve bits and the divisor is too small by more than 65535.  The other registers and the rest of
    the port keep their values. *)
Theorem usart_baud_accuracy line clk baud u :
  let f := usart_clock line clk in
  let d := 25 * f / (4 * baud) in
  0 <= f <= 171000000 -> 4 <= baud -> 4 * baud < 2 ^ 32 ->
  exists v, stm_set_baud_rate line clk baud u = Ok (set_regs u (set_brr (regs u) v))
  /\ 0 <= v < 65536
  /\ (f < 65536 * baud -> d mod 100 < 97 -> - 66 * baud < 100 * (v * baud - f) <= 50 * baud)
  /\ (f < 65536 * baud -> 97 <= d mod 100 -> 100 * (v * baud - f) <= - 1552 * baud)
  /\ (65536 * baud <= f -> v * baud - f <= - 65535 * baud).
Proof.
  intros f d Hc Hb1 Hb2. unfold stm_set_baud_rate. fold f.
  assert (Hd : d <= 267187500) by (apply Z.div_le_upper_bound; lia).
  rewrite (brr_value_ok f baud ltac:(lia) ltac:(lia) Hd). fold d. cbn [rbind]. eexists. split; [reflexivity|].
  assert (Hd0 : 0 <= d) by (apply Z.div_pos; lia).
  assert (Hm : 4 * baud * d <= 25 * f < 4 * baud * (d + 1)).
  { pose proof (Z.div_mod (25 * f) (4 * baud) ltac:(lia)) as E. pose proof (Z.mod_pos_bound (25 * f) (4 * baud) ltac:(lia)).
    fold d in E. lia. }
  clearbody f d. assert (Hlow : f < 65536 * baud -> d < 409600) by nia.
  assert (Hhigh : 65536 * baud <= f -> 409600 <= d) by nia. unfold brr_fraction.
  split; [destruct (Z.ltb_spec (d mod 100) 97); zdiv|]. split_and!.
  - intros Hf Hr. specialize (Hlow Hf). rewrite (proj2 (Z.ltb_lt _ _) Hr), (Z.mod_small (d / 100)) by zdiv.
    set (v := 16 * (d / 100) + (16 * (d mod 100) + 50) / 100).
    assert (Hv : 16 * d - 50 < 100 * v <= 16 * d + 50) by (unfold v; zdiv). clearbody v. nia.
  - intros Hf Hr. specialize (Hlow Hf). rewrite (proj2 (Z.ltb_ge _ _) Hr), (Z.mod_small (d / 100)) by zdiv.
    assert (Hv : 100 * (16 * (d / 100) + 0) <= 16 * d - 1552) by zdiv.
    set (v := 16 * (d / 100) + 0) in *. clearbody v. nia.
  - intros Hf. specialize (Hhigh Hf).
    assert (Hv : 100 * (16 * ((d / 100) mod 4096) + (if d mod 100 <? 97 then (16 * (d mod 100) + 50) / 100 else 0)) <= 16 * d + 50 - 6553600).
    { destruct (Z.ltb_spec (d mod 100) 97); zdiv. }
    set (v := 16 * _ + _) in *. clearbody v. nia.
Qed.

Definition has (cflag m : Z) : bool := negb ((cflag .& m) =? 0).

(** Data bits of a frame: nine with M0, less the parity bit. *)
Definition data_bits (cr1 : Z) : Z := (if Z.testbit cr1 12 then 9 else 8) - (if Z.testbit cr1 10 then 1 else 0).

Lemma bits_clear v m i : is_u32 v -> Z.testbit (v .& .~ m) i = Z.testbit v i && negb (Z.testbit m i).
Proof.
  intros Hv. rewrite Z.land_spec, testbit_not32. destruct (Z.leb_spec 0 i), (Z.ltb_spec i 32); cbn [andb].
  1: now destruct (Z.testbit m i).
  all: first [rewrite (testbit_neg v i) by lia | rewrite (u32_testbit_high v i) by (assumption || lia)]; reflexivity.
Qed.

Lemma termios_cr1_bits c v i :
  is_u32 v ->
  Z.testbit (termios_cr1 c v) i =
    if i =? 10 then has c PARENB
    else if i =? 9 then has c PARENB && has c PARODD
    else if i =? 12 then has c PARENB && ((c .& CSIZE) =? CS8)
    else if i =? 28 then false else Z.testbit v i.
Proof.
  intros Hv. unfold termios_cr1. fold (has c PARENB) (has c PARODD).
  change STM32_USART_CR1_M0 with (BIT 12). change STM32_USART_CR1_M1 with (BIT 28). change STM32_USART_CR1_PCE with (BIT 10).
  change STM32_USART_CR1_PS with (BIT 9).
  set (w := v .& _). assert (Hw : Z.testbit w i = if (i =? 10) || (i =? 9) || (i =? 12) || (i =? 28) then false else Z.testbit v i).
  { unfold w. rewrite bits_clear, !Z.lor_spec, !testbit_BIT by (assumption || lia). zcrush; now rewrite ?andb_false_r, ?andb_true_r. }
  destruct (has c PARENB), (has c PARODD), (_ =? CS8); cbn [andb]; rewrite ?Z.lor_spec, ?testbit_BIT, Hw by lia; zcrush.
Qed.

Lemma termios_cr2_bits c v i :
  is_u32 v -> Z.testbit (termios_cr2 c v) i = if i =? 13 then has c CSTOPB else if i =? 12 then false else Z.testbit v i.
Proof.
  intros Hv. unfold termios_cr2. fold (has c CSTOPB). change STM32_USART_CR2_STOP_MASK with (BIT 12 .| BIT 13).
  change STM32_USART_CR2_2STOP with (BIT 13).
  destruct (has c CSTOPB); rewrite ?Z.lor_spec, bits_clear, Z.lor_spec, !testbit_BIT by (assumption || lia); zcrush;
    now rewrite ?andb_false_r, ?andb_true_r.
Qed.

Lemma termios_cr3_bits c v i :
  is_u32 v ->
  Z.testbit (termios_cr3 c v) i = if (i =? 8) || (i =? 9) then has c CRTSCTS else Z.testbit v i.
Proof.
  intros Hv. unfold termios_cr3. fold (has c CRTSCTS). change STM32_USART_CR3_CTSE with (BIT 9).
  change STM32_USART_CR3_RTSE with (BIT 8).
  destruct (has c CRTSCTS); rewrite ?Z.lor_spec, bits_clear, Z.lor_spec, !testbit_BIT by (assumption || lia); zcrush;
    now rewrite ?andb_false_r, ?andb_true_r.
Qed.

(** Line settings: the frame has parity as asked, odd when asked, two stop bits when asked, hardware flow
    control in both directions when asked, and 8 data bits, except 7 when a size below 8 is asked with parity;
    every other bit of the control registers is kept (interrupt enables, DMA, receiver and
    transmitter). *)
Theorem usart_termios line clk gb c u :
  is_u32 (cr1 (regs u)) -> is_u32 (cr2 (regs u)) -> is_u32 (cr3 (regs u)) ->
  u32 (4 * gb (usart_clock line clk .>> 4)) <> 0 ->
  exists u', stm_port_set_termios line clk gb c u = Ok u'
  /\ data_bits (cr1 (regs u')) = (if has c PARENB && negb ((c .& CSIZE) =? CS8) then 7 else 8)
  /\ Z.testbit (cr1 (regs u')) 10 = has c PARENB /\ Z.testbit (cr1 (regs u')) 9 = has c PARENB && has c PARODD
  /\ Z.testbit (cr2 (regs u')) 13 = has c CSTOPB /\ Z.testbit (cr2 (regs u')) 12 = false
  /\ Z.testbit (cr3 (regs u')) 8 = has c CRTSCTS /\ Z.testbit (cr3 (regs u')) 9 = has c CRTSCTS
  /\ (forall i, i ∉ [9; 10; 12; 28] -> Z.testbit (cr1 (regs u')) i = Z.testbit (cr1 (regs u)) i)
  /\ (forall i, i ∉ [12; 13] -> Z.testbit (cr2 (regs u')) i = Z.testbit (cr2 (regs u)) i)
  /\ (forall i, i ∉ [8; 9] -> Z.testbit (cr3 (regs u')) i = Z.testbit (cr3 (regs u)) i)
  /\ set_regs u' (regs u) = u.
Proof.
  intros H1 H2 H3 Hb. unfold stm_port_set_termios, stm_set_baud_rate, brr_value, udiv.
  rewrite (proj2 (Z.eqb_neq _ _) Hb). cbn [rbind]. eexists. split; [reflexivity|]. usart_simpl. unfold data_bits.
  rewrite !termios_cr1_bits, !termios_cr2_bits, !termios_cr3_bits by assumption. cbn [Z.eqb Pos.eqb orb].
  split; [now destruct (has c PARENB), (_ =? CS8)|]. do 6 (split; [reflexivity|]).
  split; [|split; [|split; [|now destruct u]]]; intros i Hi; rewrite ?termios_cr1_bits, ?termios_cr2_bits, ?termios_cr3_bits by assumption;
    set_unfold in Hi; zcrush.
Qed.

(** ** Opening and closing *)

(** A receive buffer takes a page of the coherent region. *)
Definition rx_block (a : Z) : dm_dsc := {| base := a; size := PAGE_SIZE |}.

Definition req_rx (dm : dmamem) : Prop := req_ok dm STM32_DMA_RX_BUF_LEN 0.

Lemma req_rx_region dm dm' : region_of dm' = region_of dm -> req_rx dm -> req_rx dm'.
Proof. intros [= E1 E2 E3]. unfold req_rx, req_ok, dm_hi. now rewrite E1, E2. Qed.

Lemma alloc_rx km dm :
  dm_inv dm -> req_rx dm ->
  (exists a dm', dma_alloc_coherent km STM32_DMA_RX_BUF_LEN dm = Ok (Some a, dm') /\ dm_inv dm' /\ region_of dm' = region_of dm
     /\ dm_lst_used dm' = rx_block a :: dm_lst_used dm)
  \/ dma_alloc_coherent km STM32_DMA_RX_BUF_LEN dm = Ok (None, dm).
Proof.
  intros Hi Hq. destruct (alloc_spec km STM32_DMA_RX_BUF_LEN 0 dm Hi Hq) as [(pre & d & post & _ & _ & _ & Hi' & [E|[E _]])|[_ E]].
  - left. do 2 eexists. split; [exact E|]. split; [exact Hi'|]. split; reflexivity.
  - now right.
  - now right.
Qed.

(** Either both buffers are allocated or nothing has happened to the region. *)
Lemma alloc_rxb_spec km0 km1 u dm :
  dm_inv dm -> req_rx dm ->
  (exists a0 a1 dm', alloc_rxb km0 km1 u dm = Ok (true, set_rxb u [Some a0; Some a1], dm') /\ dm_inv dm'
     /\ region_of dm' = region_of dm /\ dm_lst_used dm' = rx_block a1 :: rx_block a0 :: dm_lst_used dm)
  \/ exists b, alloc_rxb km0 km1 u dm = Ok (false, set_rxb u b, dm).
Proof.
  intros Hi Hq. unfold alloc_rxb. destruct (alloc_rx km0 dm Hi Hq) as [(a0 & dm1 & E & Hi1 & R1 & U1)|E]; rewrite E; cbn [rbind].
  - pose proof (req_rx_region dm dm1 R1 Hq) as Hq1.
    destruct (alloc_rx km1 dm1 Hi1 Hq1) as [(a1 & dm2 & E2 & Hi2 & R2 & U2)|E2]; rewrite E2; cbn [rbind].
    + left. exists a0, a1, dm2. split; [reflexivity|]. split; [exact Hi2|]. split; [congruence|]. now rewrite U2, U1.
    + right. exists [None; None]. unfold dma_free_coherent. now rewrite (alloc_free_undo _ _ _ _ _ _ Hi Hq E).
  - right. now exists (<[0%nat:=None]> (rxb u)).
Qed.

Lemma wait_disabled_ok en k n : (exists i, (n <= i < n + k)%nat /\ en i = false) -> wait_disabled en k n = Ok tt.
Proof.
  revert n. induction k as [|k IH]; intros n (i & Hi & Hb); [lia|]. cbn [wait_disabled]. destruct (en n) eqn:E; [|reflexivity].
  apply IH. exists i. split; [|exact Hb]. assert (i <> n) by congruence. lia.
Qed.

(** The blocks of the used list are disjoint pages of the region. *)
Lemma used_bases dm : dm_inv dm -> NoDup (map base (dm_lst_used dm)).
Proof.
  intros [_ _ Hu _ Hp]. assert (Hc : forall x, cnt (dm_lst_used dm) x <= 1).
  { intros x. specialize (Hp x). pose proof (cnt_nonneg (dm_lst_free dm) x). destruct (_ && _); lia. }
  clear Hp. induction (dm_lst_used dm) as [|b l IH]; [constructor|]. apply Forall_cons in Hu as [(_ & Hs & _) Hl]. constructor.
  - intros Hin. apply list_elem_of_fmap in Hin as (b' & Eb & Hb'). rewrite Forall_forall in Hl.
    destruct (Hl b' Hb') as (_ & Hs' & _). specialize (Hc (base b)). cbn [cnt] in Hc.
    pose proof (cnt_in b' l (base b) Hb'). rewrite inb_in in Hc by lia. rewrite (inb_in b') in H by lia. lia.
  - apply IH; [exact Hl|]. intros x. specialize (Hc x). cbn [cnt] in Hc. pose proof (inb_range b x). lia.
Qed.

(** So there are at most as many as pages. *)
Lemma used_bound dm : dm_inv dm -> PAGE_SIZE * Z.of_nat (length (dm_lst_used dm)) <= dm_hi dm - dm_lo dm.
Proof.
  intros Hi. pose proof (used_bases dm Hi) as Hnd. pose proof (inv_used _ Hi) as Hu. pose proof (inv_region _ Hi) as (R1 & R2 & _).
  set (lo := (dm_lo dm + PAGE_SIZE - 1) / PAGE_SIZE). set (n := dm_hi dm / PAGE_SIZE - lo).
  assert (Hin : map base (dm_lst_used dm) ⊆ map (fun i => PAGE_SIZE * i) (seqZ lo n)).
  { intros x Hx. apply list_elem_of_fmap in Hx as (b & -> & Hb). rewrite Forall_forall in Hu.
    destruct (Hu b Hb) as (B1 & B2 & B3 & [q Hq] & [q' Hq']). apply list_elem_of_fmap. exists q. split; [lia|].
    apply elem_of_seqZ. unfold n, lo, PAGE_SIZE in *. zdiv. }
  apply NoDup_submseteq in Hin; [|exact Hnd]. apply submseteq_length in Hin. rewrite !length_map, length_seqZ in Hin.
  unfold n, lo, dm_lo, dm_hi, PAGE_SIZE in *. zdiv.
Qed.

Section Sessions.

Context (line base_addr : Z) (ini : stm32_dma_ini) (clk : clk_state).

(** The registers of an opened port. *)
Record opened_regs (a0 a1 : Z) (u : usart) : Prop := {
  or_dma : hw_at 0 (rx_dma u) /\ m0ar (rx_dma u) = a0 /\ m1ar (rx_dma u) = a1 /\ par (rx_dma u) = base_addr + USART_RDR_OFFS
           /\ cr (rx_dma u) = rx_dma_cr ini .| STM32_DMA_CR_EN;
  or_cr : cr1 (regs u) = STM32_USART_CR1_TE .| STM32_USART_CR1_RE .| (STM32_USART_CR1_IDLIE .| STM32_USART_CR1_TXEIE)
          .| STM32_USART_CR1_UE /\ cr2 (regs u) = 0 /\ cr3 (regs u) = STM32_USART_CR3_DMAR;
  or_pos : wbuf u = 0 /\ wpos u = 0 /\ rbuf u = 0 /\ rpos u = 0
}.

Lemma startup_hw_ok en fuel u a0 a1 :
  0 <= chan ini < 8 -> (exists n, (n < fuel)%nat /\ en n = false) -> rxb u = [Some a0; Some a1] ->
  wbuf u = 0 -> wpos u = 0 -> rbuf u = 0 -> rpos u = 0 ->
  exists u', startup_hw en fuel line base_addr ini clk u = Ok u' /\ opened_regs a0 a1 u' /\ rxb u' = rxb u /\ irqs u' = irqs u
  /\ flip u' = flip u /\ tx_log u' = tx_log u
  /\ (brr (regs u) .& 0xFFFF <> 0 -> brr (regs u') = brr (regs u)).
Proof.
  intros Hch (n & Hn & He) Hb P1 P2 P3 P4. unfold startup_hw, disable_dma.
  rewrite wait_disabled_ok by (exists n; split; [lia|exact He]). cbn [rbind]. usart_simpl. rewrite Hb.
  assert (Hct : (rx_dma_cr ini .| STM32_DMA_CR_EN) .& STM32_DMA_CR_CT = 0).
  { destruct ini as [sn c]. cbn [chan] in Hch. assert (Hc : c ∈ [0; 1; 2; 3; 4; 5; 6; 7]) by (set_unfold; lia).
    unfold rx_dma_cr. cbn [chan]. set_unfold in Hc. repeat destruct Hc as [->|Hc]; try reflexivity. contradiction. }
  change (STM32_USART_BRR_F_MSK .| (STM32_USART_BRR_M_MSK .<< STM32_USART_BRR_M_BIT)) with 0xFFFF.
  assert (Hhw : forall d, cr d = rx_dma_cr ini .| STM32_DMA_CR_EN -> ndtr d = 512 -> hw_at 0 d).
  { intros d E1 E2. split; [|rewrite E2; reflexivity]. unfold current_target. now rewrite E1, Hct. }
  destruct (Z.eqb_spec (brr (regs u) .& 0xFFFF) 0) as [E|E].
  - unfold stm_set_baud_rate, brr_value, udiv. change (u32 (4 * 115200) =? 0) with false. cbv iota. cbn [rbind].
    eexists. split; [reflexivity|]. unfold upd_cr1. split; [|usart_simpl; repeat (split; [auto; fail|]); contradiction].
    split; usart_simpl; [split; [now apply Hhw|auto]|auto|auto].
  - cbn [rbind]. eexists. split; [reflexivity|]. unfold upd_cr1. split; [|usart_simpl; auto].
    split; usart_simpl; [split; [now apply Hhw|auto]|auto|auto].
Qed.

(** What [stm_port_startup] returns and leaves behind. *)
Definition startup_result (rv_usart rv_dma : Z) (u : usart) (dm : dmamem) (rv : Z) (u' : usart) (dm' : dmamem) : Prop :=
  (rv = - ENOMEM /\ dm' = dm /\ irqs u' = irqs u /\ regs u' = regs u /\ rx_dma u' = rx_dma u)
  \/ exists a0 a1, dm_lst_used dm' = rx_block a1 :: rx_block a0 :: dm_lst_used dm /\ a0 <> a1
     /\ rxb u' = [Some a0; Some a1] /\ flip u' = flip u /\ tx_log u' = tx_log u
     /\ ((rv_usart <> 0 /\ rv = rv_usart /\ irqs u' = irqs u /\ regs u' = regs u /\ rx_dma u' = rx_dma u)
         \/ (rv_usart = 0 /\ rv_dma <> 0 /\ rv = rv_dma /\ irqs u' = (false, snd (irqs u)) /\ regs u' = regs u
             /\ rx_dma u' = rx_dma u)
         \/ (rv_usart = 0 /\ rv_dma = 0 /\ rv = 0 /\ irqs u' = (true, true) /\ opened_regs a0 a1 u')).

Lemma startup_spec en fuel km0 km1 rv_usart rv_dma u dm :
  0 <= chan ini < 8 -> (exists n, (n < fuel)%nat /\ en n = false) -> dm_inv dm -> req_rx dm ->
  exists rv u' dm', stm_port_startup en fuel line base_addr ini clk km0 km1 rv_usart rv_dma u dm = Ok (rv, u', dm')
  /\ dm_inv dm' /\ region_of dm' = region_of dm /\ startup_result rv_usart rv_dma u dm rv u' dm'.
Proof.
  intros Hch He Hi Hq. unfold stm_port_startup. set (u0 := set_reader _ _ _).
  destruct (alloc_rxb_spec km0 km1 u0 dm Hi Hq) as [(a0 & a1 & dm' & -> & Hi' & Hr & Hu)|(b & ->)]; cbn [rbind negb].
  2: { do 3 eexists. split; [reflexivity|]. split; [exact Hi|]. split; [reflexivity|]. left. auto. }
  assert (Hne : a0 <> a1).
  { pose proof (used_bases dm' Hi') as Hnd. rewrite Hu in Hnd. cbn [map] in Hnd. inversion Hnd as [|? ? Hx _]; subst.
    intros ->. apply Hx. left. }
  destruct (Z.eqb_spec rv_usart 0) as [E1|E1]; cbn [negb].
  2: { do 3 eexists. split; [reflexivity|]. split; [exact Hi'|]. split; [exact Hr|]. right. exists a0, a1.
       repeat (split; [auto; fail|]). left. auto. }
  destruct (Z.eqb_spec rv_dma 0) as [E2|E2]; cbn [negb].
  2: { do 3 eexists. split; [reflexivity|]. split; [exact Hi'|]. split; [exact Hr|]. right. exists a0, a1.
       repeat (split; [auto; fail|]). right; left. auto 10. }
  match goal with |- context [startup_hw _ _ _ _ _ _ ?v] =>
    destruct (startup_hw_ok en fuel v a0 a1 Hch He) as (u' & -> & Ho & Hb & Hirq & Hf & Hl & _); [reflexivity..|] end.
  cbn [rbind]. exists 0, u', dm'. split; [reflexivity|]. split; [exact Hi'|]. split; [exact Hr|]. right. exists a0, a1.
  rewrite Hb, Hirq, Hf, Hl. usart_simpl. repeat (split; [auto; fail|]). right; right. auto.
Qed.

(** An open that got as far as the buffers, and its close. *)
Inductive open_close : usart * dmamem -> usart * dmamem -> Prop :=
  | oc_session en fuel km0 km1 r1 r2 u dm u1 dm1 u2 en' fuel' u3 :
      (exists n, (n < fuel)%nat /\ en n = false) ->
      stm_port_startup en fuel line base_addr ini clk km0 km1 r1 r2 u dm = Ok (0, u1, dm1) ->
      stm_port_shutdown en' fuel' u2 = Ok u3 -> open_close (u, dm) (u3, dm1)
  | oc_failed en fuel km0 km1 r1 r2 u dm rv u1 dm1 :
      (exists n, (n < fuel)%nat /\ en n = false) ->
      stm_port_startup en fuel line base_addr ini clk km0 km1 r1 r2 u dm = Ok (rv, u1, dm1) ->
      rv <> 0 -> rv <> - ENOMEM -> open_close (u, dm) (u1, dm1).

Lemma open_close_step s s' :
  0 <= chan ini < 8 -> open_close s s' -> dm_inv s.2 -> req_rx s.2 ->
  dm_inv s'.2 /\ region_of s'.2 = region_of s.2 /\ length (dm_lst_used s'.2) = (2 + length (dm_lst_used s.2))%nat.
Proof.
  intros Hch [en fuel km0 km1 r1 r2 u dm u1 dm1 u2 en' fuel' u3 Hw E _|en fuel km0 km1 r1 r2 u dm rv u1 dm1 Hw E Hrv Hnm] Hi Hq; cbn [snd] in *;
    destruct (startup_spec en fuel km0 km1 r1 r2 u dm Hch Hw Hi Hq) as (rv' & u' & dm' & E' & Hi' & Hr & Hs);
    rewrite E in E'; injection E' as <- <- <-; (split; [exact Hi'|]; split; [exact Hr|]);
    (destruct Hs as [(H & _)|(a0 & a1 & Hu & _)]; [exfalso; vm_compute in H; (discriminate || contradiction)|rewrite Hu; reflexivity]).
Qed.

Lemma open_closes n s s' :
  0 <= chan ini < 8 -> nsteps open_close n s s' -> dm_inv s.2 -> req_rx s.2 ->
  dm_inv s'.2 /\ region_of s'.2 = region_of s.2 /\ length (dm_lst_used s'.2) = (2 * n + length (dm_lst_used s.2))%nat.
Proof.
  intros Hch H. induction H as [s|n s1 s2 s3 H1 _ IH]; intros Hi Hq; [auto|].
  destruct (open_close_step s1 s2 Hch H1 Hi Hq) as (Hi2 & R2 & L2).
  destruct (IH Hi2 (req_rx_region _ _ R2 Hq)) as (Hi3 & R3 & L3). split; [exact Hi3|]. split; [congruence|]. lia.
Qed.

End Sessions.

(** Opening a port returns -ENOMEM and changes nothing but the receive positions and the buffer pointers, or allocates two
    different buffers; then it returns the error of [request_irq] with both interrupts released and the registers
    untouched, or 0 with both interrupts requested, the DMA stream at the start of the first buffer
    and enabled in double-buffer mode from the receive register, and the receiver, transmitter and their
    interrupts enabled.  Closing it disables all of them again and releases the interrupts. *)
Theorem usart_startup line base_addr ini clk en fuel km0 km1 rv_usart rv_dma u dm :
  0 <= chan ini < 8 -> (exists n, (n < fuel)%nat /\ en n = false) -> dm_inv dm -> req_rx dm ->
  exists rv u' dm', stm_port_startup en fuel line base_addr ini clk km0 km1 rv_usart rv_dma u dm = Ok (rv, u', dm')
  /\ startup_result base_addr ini rv_usart rv_dma u dm rv u' dm'
  /\ (is_u32 (cr1 (regs u)) -> is_u32 (cr (rx_dma u)) ->
      exists u2, stm_port_shutdown en fuel u = Ok u2 /\ irqs u2 = (false, false)
      /\ Z.testbit (cr (rx_dma u2)) 0 = false /\ Forall (fun i => Z.testbit (cr1 (regs u2)) i = false) [0; 2; 3; 4; 7]
      /\ rxb u2 = rxb u).
Proof.
  intros Hch He Hi Hq. destruct (startup_spec line base_addr ini clk en fuel km0 km1 rv_usart rv_dma u dm Hch He Hi Hq)
    as (rv & u' & dm' & E & _ & _ & Hs). exists rv, u', dm'. split; [exact E|]. split; [exact Hs|]. intros H1 H2.
  unfold stm_port_shutdown, disable_dma. destruct He as (n & Hn & He).
  rewrite wait_disabled_ok by (exists n; split; [lia|exact He]). cbn [rbind]. eexists. split; [reflexivity|].
  unfold upd_cr1. usart_simpl. cbn [set_ch_cr cr]. split; [reflexivity|]. split; [|split; [|reflexivity]].
  - rewrite bits_clear by exact H2. apply andb_false_r.
  - assert (H3 : is_u32 (cr1 (regs u) .& .~ (STM32_USART_CR1_TE .| STM32_USART_CR1_RE .| STM32_USART_CR1_UE)))
      by (apply land_u32_l; [exact H1|apply is_u32_nonneg, not32_u32; vm_compute; split; congruence]).
    repeat constructor; rewrite !bits_clear by assumption; cbn; now rewrite ?andb_false_r.
Qed.

(** The receive buffers are never given back: every open that gets past their allocation, closed again or failed on an
    interrupt, takes two more pages of the coherent region, so a region allows at most its size / 8192 of
    them; from then on every open returns -ENOMEM. *)
Theorem usart_open_leaks line base_addr ini clk n u dm u' dm' :
  0 <= chan ini < 8 -> dm_inv dm -> req_rx dm -> nsteps (open_close line base_addr ini clk) n (u, dm) (u', dm') ->
  length (dm_lst_used dm') = (2 * n + length (dm_lst_used dm))%nat
  /\ 2 * PAGE_SIZE * Z.of_nat n <= dm_hi dm - dm_lo dm
  /\ (dm_hi dm - dm_lo dm < 2 * PAGE_SIZE * (Z.of_nat n + 1) ->
      forall en fuel km0 km1 r1 r2 u1, (exists n, (n < fuel)%nat /\ en n = false) ->
      exists u2, stm_port_startup en fuel line base_addr ini clk km0 km1 r1 r2 u1 dm' = Ok (- ENOMEM, u2, dm')).
Proof.
  intros Hch Hi Hq Hn. destruct (open_closes line base_addr ini clk n _ _ Hch Hn Hi Hq) as (Hi' & Hr & Hl). cbn [snd] in *.
  pose proof (used_bound dm' Hi') as Hb. injection Hr as R1 R2 R3. unfold dm_lo, dm_hi in *. rewrite R1, R2, R3, Hl in Hb.
  unfold PAGE_SIZE in *. split; [exact Hl|]. split; [lia|]. intros Hfull en fuel km0 km1 r1 r2 u1 He.
  assert (Hr : region_of dm' = region_of dm) by (unfold region_of; congruence).
  destruct (startup_spec line base_addr ini clk en fuel km0 km1 r1 r2 u1 dm' Hch He Hi' (req_rx_region _ _ Hr Hq))
    as (rv & u2 & dm2 & E & Hi2 & R & [(-> & -> & _)|(a0 & a1 & Hu & _)]); [now exists u2|].
  exfalso. pose proof (used_bound dm2 Hi2) as Hb2. injection R as R4 R5 R6. unfold dm_lo, dm_hi in Hb2.
  rewrite R4, R5, R6, R1, R2, R3, Hu in Hb2. cbn [length] in Hb2. rewrite Hl in Hb2. unfold PAGE_SIZE in Hb2. lia.
Qed.

(** ** Witnesses *)

(** A port that has not been opened, on a board after boot (APB2 at 100 MHz). *)
Definition usart0 : usart :=
  {| regs := {| cr1 := 0; cr2 := 0; cr3 := 0; brr := 0; tdr := 0; rdr := None |}; rx_dma := inhabitant; dma_isr := 0; rxb := [None; None];
     wbuf := 0; wpos := 0; rbuf := 0; rpos := 0; flip := []; tx_log := []; irqs := (false, false) |}.
Definition port0 : uart_port usart :=
  {| xmit := {| buf := replicate 4096 0; head := 0; tail := 0 |}; x_char := 0; tx_stopped := false; icount_tx := 0; hw := usart0 |}.
Definition ini6 : stm32_dma_ini := {| stream := 2; chan := 5 |}.
Definition clk_100mhz : clk_state := {| rcc := rcc_boot; vals := vals_1mhz; clks := clks_init |}.

Lemma port0_ring : circ_wf (xmit port0).
Proof. split; vm_compute; [reflexivity|split; congruence..]. Qed.

Lemma usart0_ok : usart_ok (hw port0).
Proof. vm_compute. split; congruence. Qed.

Lemma ready_now {A} (P : nat -> A) (fuel : nat) (a : A) : (0 < fuel)%nat -> P 0%nat = a -> exists n, (n < fuel)%nat /\ P n = a.
Proof. intros H E. now exists 0%nat. Qed.

(** 600 characters arrive at once: the first call finds the DMA in the second buffer. *)
Definition data0 (j : Z) : Z := j mod 256.
Definition rd600 (n : nat) : stm32_dma_ch_regs := {| cr := 1 .<< 19; ndtr := 424; par := 0; m0ar := 0; m1ar := 0; fcr := 0 |}.
Definition mem600 (b i : Z) : Z := data0 (512 * b + i).

Lemma timely600 u : length (flip u) = 0%nat -> rpos u = 0 -> timely data0 u 0 rd600 mem600 600.
Proof.
  intros H1 H2. split.
  - exists 600, 600, 600, 600. assert (H : forall n, hw_at 600 (rd600 n)) by (intros n; split; reflexivity). repeat split; try apply H; lia.
  - unfold reader_block. rewrite H1, H2. reflexivity.
  - intros j Hj _. unfold mem600. f_equal. zdiv.
Qed.

(** The port with its buffers. *)
Definition usart_open : usart := set_rxb usart0 [Some 0xC0000000; Some 0xC0001000].

Lemma usart_open_fresh : rx_fresh usart_open.
Proof. split; [now eexists _, _|]. repeat split. Qed.

Lemma usart_rx_lossless_witness :
  exists u, rtc (rx_call data0 (fun _ _ => 0) ini6) (usart_open, 0) (u, 600) /\ Z.of_nat (length (flip u)) = 512
  /\ flip u = map data0 (seqZ 0 512).
Proof.
  destruct (stm32_receive (fun _ _ => 0) ini6 rd600 mem600 usart_open) as [u|] eqn:E; [|vm_compute in E; discriminate].
  assert (Hr : rtc (rx_call data0 (fun _ _ => 0) ini6) (usart_open, 0) (u, 600)).
  { apply rtc_once. apply (rx_call_intro _ _ _ usart_open 0 rd600 mem600); [now apply timely600|exact E]. }
  destruct (usart_rx_lossless data0 (fun _ _ => 0) ini6 usart_open u 600 usart_open_fresh Hr) as (Hf & _ & _ & _).
  assert (Hl : length (flip u) = 512%nat) by (revert E; vm_compute; intros [= <-]; reflexivity).
  exists u. split; [exact Hr|]. rewrite Hl in Hf. split; [now rewrite Hl|exact Hf].
Defined.

Lemma usart_tx_refines_witness :
  exists rs p', run (stm32_uart_ops (fun _ => true) 1) (tx_irq (fun _ => true) 1) [Write [72; 105]; TxIrq] port0 = Ok (rs, p')
  /\ chars (tx_log (hw p')) ++ contents (xmit p') = [72; 105].
Proof.
  destruct (usart_tx_refines (fun _ => true) 1 [Write [72; 105]; TxIrq] port0
    (ready_now _ 1 true ltac:(lia) eq_refl) port0_ring usart0_ok) as (rs & p' & E & _ & _ & H).
  assert (Hn : FlushBuffer ∉ [Write [72; 105]; TxIrq])
    by (rewrite !not_elem_of_cons; split; [discriminate|]; split; [discriminate|apply not_elem_of_nil]).
  exists rs, p'. split; [exact E|]. rewrite (H Hn). vm_compute. reflexivity.
Defined.

Lemma usart_tx_drains_witness :
  exists p1 p2 rs rs', run (stm32_uart_ops (fun _ => true) 1) (tx_irq (fun _ => true) 1) [Write [72; 105; 10]] port0 = Ok (rs, p1)
  /\ run (stm32_uart_ops (fun _ => true) 1) (tx_irq (fun _ => true) 1) (replicate 3 TxIrq) p1 = Ok (rs', p2)
  /\ contents (xmit p2) = [] /\ tx_log (hw p2) = [Char 72; Char 105; Char 10].
Proof.
  destruct (run (stm32_uart_ops (fun _ => true) 1) (tx_irq (fun _ => true) 1) [Write [72; 105; 10]] port0) as [[rs p1]|] eqn:E;
    [|exfalso; revert E; clear; vm_compute; discriminate].
  assert (H : match run (stm32_uart_ops (fun _ => true) 1) (tx_irq (fun _ => true) 1) [Write [72; 105; 10]] port0 with
    | Ok (_, p) => tx_stopped p = false /\ x_char p = 0 /\ contents (xmit p) = [105; 10] /\ tx_log (hw p) = [Char 72]
    | Fault _ => True end) by (vm_compute; repeat split).
  rewrite E in H. destruct H as (H1 & H2 & H3 & H4).
  destruct (usart_tx_drains (fun _ => true) 1 [Write [72; 105; 10]] port0 rs p1 3 (ready_now _ 1 true ltac:(lia) eq_refl)
    port0_ring usart0_ok) as (_ & rs' & p2 & E2 & Hc & _ & Ht); try assumption.
  - intros Hq. now contradict Hq.
  - intros c Hc. set_unfold in Hc. intuition discriminate.
  - rewrite H3. cbn. lia.
  - exists p1, p2, rs, rs'. rewrite H4, H3 in Ht. repeat split; assumption.
Defined.

Lemma usart_baud_accuracy_witness :
  exists v, stm_set_baud_rate 5 clk_100mhz 115200 usart0 = Ok (set_regs usart0 (set_brr (regs usart0) v))
  /\ - 66 * 115200 < 100 * (v * 115200 - 100000000) <= 50 * 115200.
Proof.
  destruct (usart_baud_accuracy 5 clk_100mhz 115200 usart0) as (v & E & _ & H & _).
  - vm_compute. split; congruence.
  - lia.
  - reflexivity.
  - exists v. split; [exact E|]. apply H; vm_compute; reflexivity.
Defined.

Lemma req_rx_disco : req_rx (dm_booted tag_disco).
Proof. unfold req_rx, req_ok. vm_compute. repeat split; (discriminate || reflexivity). Qed.

Lemma usart_startup_witness :
  exists u' dm', stm_port_startup (fun _ => false) 1 5 0x40011400 ini6 clk_100mhz km km 0 0 usart0 (dm_booted tag_disco) = Ok (0, u', dm')
  /\ length (dm_lst_used dm') = 2%nat /\ hw_at 0 (rx_dma u').
Proof.
  destruct (usart_startup 5 0x40011400 ini6 clk_100mhz (fun _ => false) 1 km km 0 0 usart0 (dm_booted tag_disco))
    as (rv & u' & dm' & E & Hs & _).
  - vm_compute. split; congruence.
  - exact (ready_now _ 1 false ltac:(lia) eq_refl).
  - exact dm_disco_inv.
  - exact req_rx_disco.
  - assert (rv = 0) as -> by (revert E; vm_compute; congruence).
    destruct Hs as [(H & _)|(a0 & a1 & Hu & _ & _ & _ & _ & [(H & _)|[(_ & H & _)|(_ & _ & _ & _ & Ho)]])]; try (vm_compute in H; congruence).
    exists u', dm'. split; [exact E|]. split; [rewrite Hu; reflexivity|]. apply (or_dma _ _ _ _ _ Ho).
Defined.

Lemma usart_open_leaks_witness :
  exists u' dm', nsteps (open_close 5 0x40011400 ini6 clk_100mhz) 1 (usart0, dm_booted tag_disco) (u', dm')
  /\ length (dm_lst_used dm') = 2%nat.
Proof.
  destruct (stm_port_startup (fun _ => false) 1 5 0x40011400 ini6 clk_100mhz km km 0 0 usart0 (dm_booted tag_disco))
    as [[[rv u1] dm1]|] eqn:E; [|revert E; vm_compute; discriminate].
  assert (rv = 0) as -> by (revert E; vm_compute; congruence).
  destruct (stm_port_shutdown (fun _ => false) 1 u1) as [u3|] eqn:E3; [|discriminate E3].
  assert (Hn : nsteps (open_close 5 0x40011400 ini6 clk_100mhz) 1 (usart0, dm_booted tag_disco) (u3, dm1)).
  { apply nsteps_once. eapply oc_session; [exists 0%nat; split; [apply Nat.lt_0_1|]|exact E|exact E3]. reflexivity. }
  destruct (usart_open_leaks 5 0x40011400 ini6 clk_100mhz 1 usart0 (dm_booted tag_disco) u3 dm1) as (Hl & _).
  - vm_compute. split; congruence.
  - exact dm_disco_inv.
  - exact req_rx_disco.
  - exact Hn.
  - exists u3, dm1. split; [exact Hn|exact Hl].
Defined.
