(* ===== verification/UsartInit.v ===== *)
(** * Which DMA stream serves which device ([dmainit.c], [uart.c])

    The request map of the two DMA controllers and its programming at boot, the
    platform devices of the USARTs, and their probing.  The theorems say that the tables
    of [stm32_usart.c], [uart.c], [dmainit.c] and [dmac.c] agree with each other. *)

From S2P Require Import Prelude Clock Dmac Dmamem Serial Usart.

(** ** DMA initialisation *)

Inductive stm32_dma_map_codes :=
  | I2C1_RX | I2C2_RX | I2C3_RX | I2C4_RX | I2C1_TX | I2C2_TX | I2C3_TX | I2C4_TX | SDMMC
  | UART1_RX | UART2_RX | UART3_RX | UART4_RX | UART5_RX | UART6_RX | UART7_RX | UART8_RX
  | UART1_TX | UART2_TX | UART3_TX | UART4_TX | UART5_TX | UART6_TX | UART7_TX | UART8_TX
  | NOTSUP | NOTDEF.

#[global] Instance code_eq_dec : EqDecision stm32_dma_map_codes.
Proof. solve_decision. Defined.

Definition request_map : list (list stm32_dma_map_codes) :=
  [ [NOTSUP; I2C1_RX; NOTSUP; NOTDEF; UART5_RX; UART8_TX; NOTSUP; NOTSUP];
    [NOTSUP; I2C3_RX; NOTDEF; NOTSUP; UART3_RX; UART7_TX; NOTSUP; NOTSUP];
    [NOTSUP; NOTSUP; I2C4_RX; I2C3_RX; UART4_RX; NOTSUP; NOTSUP; I2C2_RX];
    [NOTSUP; NOTDEF; NOTSUP; NOTDEF; UART3_TX; UART7_RX; NOTSUP; I2C2_RX];
    [NOTSUP; NOTSUP; NOTDEF; I2C3_TX; UART4_TX; NOTSUP; NOTSUP; UART3_TX];
    [NOTSUP; I2C1_RX; I2C4_TX; NOTSUP; UART2_RX; NOTSUP; NOTDEF; NOTSUP];
    [NOTSUP; I2C1_TX; NOTSUP; NOTSUP; UART2_TX; UART8_RX; NOTSUP; NOTSUP];
    [NOTSUP; I2C1_TX; NOTSUP; NOTSUP; UART5_TX; NOTSUP; NOTDEF; I2C2_TX];
    [NOTSUP; NOTDEF; NOTSUP; NOTSUP; NOTSUP; NOTDEF; NOTSUP; NOTDEF];
    [NOTSUP; NOTSUP; NOTSUP; NOTDEF; NOTSUP; UART6_RX; NOTSUP; NOTSUP];
    [NOTSUP; NOTSUP; NOTDEF; NOTSUP; UART1_RX; UART6_RX; NOTSUP; NOTSUP];
    [NOTSUP; NOTSUP; NOTSUP; NOTSUP; SDMMC; NOTSUP; NOTSUP; NOTSUP];
    [NOTSUP; NOTSUP; NOTSUP; NOTSUP; NOTDEF; NOTSUP; NOTSUP; NOTSUP];
    [NOTSUP; NOTSUP; NOTSUP; NOTSUP; UART1_RX; NOTDEF; NOTSUP; NOTSUP];
    [NOTSUP; NOTSUP; NOTSUP; NOTSUP; SDMMC; UART6_TX; NOTSUP; NOTSUP];
    [NOTSUP; NOTSUP; NOTSUP; NOTSUP; UART1_TX; UART6_TX; NOTDEF; NOTSUP] ].

Definition STM32_RCC_AHB1ENR_DMA1_MSK : Z := 1 .<< 21.
Definition STM32_RCC_AHB1ENR_DMA2_MSK : Z := 1 .<< 22.

Definition stm32f2_dma_ch_config : Type := Z * stm32_dma_map_codes.

(** The gate register and the two controllers. *)
Definition dma_hw : Type := Z * dmac.

(** [for (i = 0; i < 8; i++) if (request_map[ch][i] == code)]: the first index, 8 if none. *)
Fixpoint find_source (l : list stm32_dma_map_codes) (code : stm32_dma_map_codes) (i : Z) : Z :=
  match l with
  | [] => i
  | c :: l => if decide (c = code) then i else find_source l code (i + 1)
  end.

Definition dma_ch_config (cfg : stm32f2_dma_ch_config) (h : dma_hw) : Z * dma_hw :=
  let (ch, code) := cfg in
  let (ahb1enr, st) := h in
  if (ch <? 0) || (STM32F2_DMA_CH_NUM <=? ch) then (- EINVAL, h)
  else
    let i := find_source (request_map !!! Z.to_nat ch) code 0 in
    if i =? 8 then (- EINVAL, h)
    else
      let dma_ctrl := if ch <? STM32F2_DMA_CH_NUM_DMA1 then 0 else 1 in
      let ahb1enr := ahb1enr .| (if negb (dma_ctrl =? 0) then STM32_RCC_AHB1ENR_DMA2_MSK else STM32_RCC_AHB1ENR_DMA1_MSK) in
      (0, (ahb1enr, set_ch_regs st ch (set_ch_cr (dma_ch_regs st ch) (i .<< STM32_DMA_CR_CHSEL_BIT)))).

Fixpoint dma_ch_config_table (table : list stm32f2_dma_ch_config) (h : dma_hw) : Z * dma_hw :=
  match table with
  | [] => (0, h)
  | cfg :: table =>
      let (rv, h) := dma_ch_config cfg h in
      if negb (rv =? 0) then (rv, h) else dma_ch_config_table table h
  end.

(** The options the table depends on. *)
Record dma_options := { opt_i2c1 : bool; opt_i2c2 : bool; opt_i2c3 : bool; opt_i2c4 : bool; opt_mmc : bool }.

Definition stm32f2_dmamux_table (o : dma_options) : list stm32f2_dma_ch_config :=
  (if opt_i2c1 o then [(0, I2C1_RX); (6, I2C1_TX)] else [])
  ++ (if opt_i2c2 o then [(3, I2C2_RX); (7, I2C2_TX)] else [])
  ++ (if opt_i2c3 o then [(1, I2C3_RX); (4, I2C3_TX)] else [])
  ++ (if opt_i2c4 o then [(2, I2C4_RX); (5, I2C4_TX)] else [])
  ++ (if opt_mmc o then [(11, SDMMC)] else []).

Definition stm32_dma_init (o : dma_options) (h : dma_hw) : dma_hw := snd (dma_ch_config_table (stm32f2_dmamux_table o) h).

(** ** USART platform devices *)

Definition STM32_DMA1_BASE : Z := 0x40026000.
Definition STM32_DMA2_BASE : Z := 0x40026400.

(** The macros of [uart.h] and [uart.c], by port number from 1. *)
Definition STM32_USART_BASE (uid : Z) : Z :=
  nth (Z.to_nat (uid - 1))
    [0x40011000; 0x40004400; 0x40004800; 0x40004C00; 0x40005000; 0x40011400; 0x40007800; 0x40007C00] 0.
Definition STM32_USART_DMA_BASE (uid : Z) : Z :=
  nth (Z.to_nat (uid - 1))
    [STM32_DMA2_BASE; STM32_DMA1_BASE; STM32_DMA1_BASE; STM32_DMA1_BASE; STM32_DMA1_BASE; STM32_DMA2_BASE;
     STM32_DMA1_BASE; STM32_DMA1_BASE] 0.
Definition STM32_USART_IRQ (uid : Z) : Z := nth (Z.to_nat (uid - 1)) [37; 38; 39; 52; 53; 71; 82; 83] 0.
Definition STM32_USART_DMA_IRQ (uid : Z) : Z := nth (Z.to_nat (uid - 1)) [68; 16; 12; 13; 11; 58; 14; 17] 0.

Inductive enr := Apb1enr | Apb2enr.
Definition stm32_uart_rcc_enr_ofs : list enr :=
  [Apb2enr; Apb1enr; Apb1enr; Apb1enr; Apb1enr; Apb2enr; Apb1enr; Apb1enr].
Definition stm32_uart_rcc_enr_msk : list Z :=
  [1 .<< 4; 1 .<< 17; 1 .<< 18; 1 .<< 19; 1 .<< 20; 1 .<< 5; 1 .<< 30; 1 .<< 31].

Definition usart_resources (uid : Z) : resources :=
  (STM32_USART_BASE uid, STM32_USART_DMA_BASE uid, STM32_USART_IRQ uid, STM32_USART_DMA_IRQ uid).

(** The gate registers and the registered devices (id and resources), in order. *)
Record uart_boot := { g_ahb1 : Z; g_apb1 : Z; g_apb2 : Z; devices : list (Z * resources) }.

Definition usart_init_clocks_and_register (uid : Z) (b : uart_boot) : uart_boot :=
  let msk := nth (Z.to_nat (uid - 1)) stm32_uart_rcc_enr_msk 0 in
  let b := match nth (Z.to_nat (uid - 1)) stm32_uart_rcc_enr_ofs Apb1enr with
           | Apb1enr => {| g_ahb1 := g_ahb1 b; g_apb1 := g_apb1 b .| msk; g_apb2 := g_apb2 b; devices := devices b |}
           | Apb2enr => {| g_ahb1 := g_ahb1 b; g_apb1 := g_apb1 b; g_apb2 := g_apb2 b .| msk; devices := devices b |}
           end in
  {| g_ahb1 := g_ahb1 b .| (if STM32_USART_DMA_BASE uid =? STM32_DMA1_BASE then STM32_RCC_AHB1ENR_DMA1_MSK
                            else STM32_RCC_AHB1ENR_DMA2_MSK);
     g_apb1 := g_apb1 b; g_apb2 := g_apb2 b; devices := devices b ++ [(uid - 1, usart_resources uid)] |}.

(** [enabled uid] is CONFIG_STM32_USART<uid>. *)
Definition stm32_uart_init (enabled : Z -> bool) (b : uart_boot) : uart_boot :=
  fold_left (fun b uid => if enabled uid then usart_init_clocks_and_register uid b else b) [1; 2; 3; 4; 5; 6; 7; 8] b.

(** The driver core probes the registered devices in order; [rv] is what [uart_add_one_port] returns. *)
Fixpoint probe_all (rv : Z -> Z) (devs : list (Z * resources)) (ports : list port_slot) : list Z * list port_slot :=
  match devs with
  | [] => ([], ports)
  | (id, res) :: devs =>
      let (r, ports) := stm32_probe id (Some res) (rv id) ports in
      let (rs, ports) := probe_all rv devs ports in
      (r :: rs, ports)
  end.

(** ** The request map *)

Lemma find_source_spec l code i :
  let j := find_source l code i in
  i <= j <= i + Z.of_nat (length l)
  /\ (j < i + Z.of_nat (length l) -> l !! Z.to_nat (j - i) = Some code /\ forall k, (k < Z.to_nat (j - i))%nat -> l !! k <> Some code)
  /\ (j = i + Z.of_nat (length l) -> code ∉ l).
Proof.
  revert i. induction l as [|c l IH]; intros i; cbn [find_source length].
  - split; [lia|]. split; [lia|]. intros _. apply not_elem_of_nil.
  - destruct (decide (c = code)) as [->|Hne].
    + rewrite Z.sub_diag. split; [lia|]. split; [|lia]. intros _. split; [reflexivity|]. cbn. lia.
    + destruct (IH (i + 1)) as (H1 & H2 & H3). cbv zeta in *. set (j := find_source l code (i + 1)) in *. split; [lia|]. split.
      * intros Hj. destruct H2 as [H2 H4]; [lia|]. replace (Z.to_nat (j - i)) with (S (Z.to_nat (j - (i + 1)))) by lia.
        split; [exact H2|]. intros [|k] Hk; [cbn; congruence|]. apply H4. lia.
      * intros Hj. apply not_elem_of_cons. split; [congruence|]. apply H3. lia.
Qed.

Lemma map_rows : forall ch, 0 <= ch < 16 -> length (request_map !!! Z.to_nat ch) = 8%nat.
Proof.
  intros ch Hc. assert (H : Forall (fun r => length r = 8%nat) request_map) by (repeat constructor).
  rewrite Forall_forall in H. apply H. apply list_elem_of_lookup_total_2. cbn. lia.
Qed.

(** The source a stream is wired to by its CHSEL field. *)
Definition selected (st : dmac) (ch : Z) : option stm32_dma_map_codes :=
  (request_map !!! Z.to_nat ch) !! Z.to_nat (field (cr (dma_ch_regs st ch)) STM32_DMA_CR_CHSEL_BIT 3).

Lemma field_chsel i : 0 <= i < 8 -> field (i .<< STM32_DMA_CR_CHSEL_BIT) STM32_DMA_CR_CHSEL_BIT 3 = i.
Proof.
  intros Hi. assert (H : i ∈ [0; 1; 2; 3; 4; 5; 6; 7]) by (set_unfold; lia).
  set_unfold in H. repeat destruct H as [->|H]; try reflexivity. contradiction.
Qed.

Lemma dma_ch_config_ok ch code gate st :
  dmac_wf st -> 0 <= ch < 16 -> code ∈ request_map !!! Z.to_nat ch ->
  exists gate' st', dma_ch_config (ch, code) (gate, st) = (0, (gate', st')) /\ dmac_wf st' /\ selected st' ch = Some code
  /\ gate' = gate .| (if ch <? 8 then STM32_RCC_AHB1ENR_DMA1_MSK else STM32_RCC_AHB1ENR_DMA2_MSK)
  /\ forall ch', 0 <= ch' < 16 -> ch' <> ch -> view st' ch' = view st ch'.
Proof.
  intros Hwf Hc Hin. unfold dma_ch_config, STM32F2_DMA_CH_NUM. rewrite (proj2 (Z.ltb_ge ch 0)), (proj2 (Z.leb_gt 16 ch)) by lia.
  cbn [orb]. pose proof (map_rows ch Hc) as Hl. destruct (find_source_spec (request_map !!! Z.to_nat ch) code 0) as (H1 & H2 & H3).
  set (i := find_source _ _ _) in *. rewrite Hl in *. change (Z.of_nat 8) with 8 in *. rewrite Z.add_0_l in *.
  destruct (Z.eqb_spec i 8) as [E|E]; [now apply H3 in E|]. destruct H2 as [H2 _]; [lia|]. rewrite Z.sub_0_r in H2.
  do 2 eexists. split; [reflexivity|]. split; [|split; [|split]].
  - apply wf_set_ch_regs; [exact Hwf|exact Hc|]. split; [apply shl32_u32|apply (wf_regs st Hwf ch)].
  - unfold selected. rewrite regs_set_ch_regs by assumption. rewrite Z.eqb_refl. cbn [set_ch_cr cr]. rewrite field_chsel by lia. exact H2.
  - unfold STM32F2_DMA_CH_NUM_DMA1. now destruct (ch <? 8).
  - intros ch' Hc' Hne. rewrite view_set_ch_regs by assumption. rewrite (proj2 (Z.eqb_neq ch ch')) by congruence. reflexivity.
Qed.

Lemma table_ok t gate st :
  dmac_wf st -> Forall (fun c => 0 <= c.1 < 16 /\ c.2 ∈ request_map !!! Z.to_nat c.1) t -> NoDup (map fst t) ->
  exists gate' st', dma_ch_config_table t (gate, st) = (0, (gate', st')) /\ dmac_wf st'
  /\ (forall ch code, (ch, code) ∈ t -> selected st' ch = Some code)
  /\ (forall ch, 0 <= ch < 16 -> ch ∉ map fst t -> view st' ch = view st ch).
Proof.
  intros Hwf Ht. revert gate st Hwf. induction Ht as [|[ch code] t [Hc Hin] Ht IH]; intros gate st Hwf Hnd; cbn [dma_ch_config_table].
  - exists gate, st. split; [reflexivity|]. split; [exact Hwf|]. split; [|auto]. intros ch code H. now apply not_elem_of_nil in H.
  - cbn [map fst snd] in *. apply NoDup_cons in Hnd as [Hni Hnd].
    destruct (dma_ch_config_ok ch code gate st Hwf Hc Hin) as (g1 & st1 & -> & Hwf1 & Hs1 & _ & Hv1). cbn [Z.eqb negb].
    destruct (IH g1 st1 Hwf1 Hnd) as (g2 & st2 & -> & Hwf2 & Hs2 & Hv2). exists g2, st2. split; [reflexivity|]. split; [exact Hwf2|].
    split.
    + intros c cd Hcd. apply elem_of_cons in Hcd as [[= -> ->]|Hcd]; [|now apply Hs2].
      unfold selected in *. pose proof (Hv2 ch Hc Hni) as Hv. unfold view in Hv. injection Hv as _ Hv _. now rewrite Hv.
    + intros c Hc' Hn. apply not_elem_of_cons in Hn as [Hne Hn]. rewrite Hv2, Hv1 by assumption. reflexivity.
Qed.

Lemma mux_table_ok o :
  Forall (fun c => 0 <= c.1 < 16 /\ c.2 ∈ request_map !!! Z.to_nat c.1) (stm32f2_dmamux_table o)
  /\ NoDup (map fst (stm32f2_dmamux_table o)).
Proof.
  assert (H : forall b1 b2 b3 b4 b5, let t := stm32f2_dmamux_table (Build_dma_options b1 b2 b3 b4 b5) in
    forallb (fun c => (0 <=? c.1) && (c.1 <? 16) && bool_decide (c.2 ∈ request_map !!! Z.to_nat c.1)) t = true
    /\ bool_decide (NoDup (map fst t)) = true).
  { intros [] [] [] [] []; vm_compute; split; reflexivity. }
  destruct o as [b1 b2 b3 b4 b5]. specialize (H b1 b2 b3 b4 b5) as [H1 H2]. split; [|now apply bool_decide_eq_true in H2].
  apply Forall_forall. intros c Hc. rewrite forallb_forall in H1. specialize (H1 c (proj1 (list_elem_of_In _ _) Hc)).
  rewrite !andb_true_iff, Z.leb_le, Z.ltb_lt, bool_decide_eq_true in H1. tauto.
Qed.

(** DMA initialisation: in every configuration the boot table is accepted entry by entry, every stream of it ends
    up wired to the request its entry names, no two entries use one stream and every other stream keeps its
    registers, owner and flags; an entry for a channel out of range or a request the stream cannot
    serve is refused with -EINVAL and changes nothing. *)
Theorem dma_init_programs o gate st :
  dmac_wf st ->
  (exists gate' st', dma_ch_config_table (stm32f2_dmamux_table o) (gate, st) = (0, (gate', st'))
   /\ stm32_dma_init o (gate, st) = (gate', st') /\ dmac_wf st'
   /\ (forall ch code, (ch, code) ∈ stm32f2_dmamux_table o -> selected st' ch = Some code)
   /\ (forall ch, 0 <= ch < 16 -> ch ∉ map fst (stm32f2_dmamux_table o) -> view st' ch = view st ch))
  /\ (forall ch code, ~ (0 <= ch < 16) \/ code ∉ request_map !!! Z.to_nat ch -> dma_ch_config (ch, code) (gate, st) = (- EINVAL, (gate, st))).
Proof.
  intros Hwf. split.
  - destruct (mux_table_ok o) as [H1 H2]. destruct (table_ok _ gate st Hwf H1 H2) as (g & st' & E & Hwf' & Hs & Hv).
    exists g, st'. split; [exact E|]. split; [unfold stm32_dma_init; now rewrite E|]. auto.
  - intros ch code H. unfold dma_ch_config, STM32F2_DMA_CH_NUM.
    destruct (Z.ltb_spec ch 0), (Z.leb_spec 16 ch); cbn [orb]; try reflexivity. destruct H as [H|H]; [lia|].
    pose proof (map_rows ch ltac:(lia)) as Hl. destruct (find_source_spec (request_map !!! Z.to_nat ch) code 0) as (Hr & Hj & _).
    set (i := find_source _ _ _) in *. rewrite Hl in *. destruct (Z.eqb_spec i 8) as [E|E]; [reflexivity|].
    exfalso. apply H. destruct Hj as [Hj _]; [lia|]. now apply list_elem_of_lookup_2 in Hj.
Qed.

(** ** The USARTs *)

Definition UART_RX (uid : Z) : stm32_dma_map_codes :=
  nth (Z.to_nat (uid - 1)) [UART1_RX; UART2_RX; UART3_RX; UART4_RX; UART5_RX; UART6_RX; UART7_RX; UART8_RX] NOTDEF.

Definition usart_ini (uid : Z) : stm32_dma_ini := nth (Z.to_nat (uid - 1)) stm32_usart_rx_dma {| stream := 0; chan := 0 |}.

(** The channel of [dmac.c] for the port's stream. *)
Definition usart_channel (uid : Z) : Z :=
  stream (usart_ini uid) + (if STM32_USART_DMA_BASE uid =? STM32_DMA1_BASE then 0 else 8).

(** The streams another device of the boot table uses. *)
Definition i2c_conflict (o : dma_options) (uid : Z) : bool :=
  (opt_i2c1 o && ((uid =? 5) || (uid =? 8))) || (opt_i2c2 o && (uid =? 7)) || (opt_i2c3 o && (uid =? 3))
  || (opt_i2c4 o && ((uid =? 2) || (uid =? 4))).

Lemma wiring_b :
  forallb (fun uid =>
    let ini := usart_ini uid in
    let ch := usart_channel uid in
    (0 <=? ch) && (ch <? 16)
    && bool_decide ((request_map !!! Z.to_nat ch) !! Z.to_nat (chan ini) = Some (UART_RX uid))
    && (STM32_USART_DMA_IRQ uid =? stm32f2_dma_irq !!! Z.to_nat ch)
    && (stm32_dma_isr_bit !!! Z.to_nat (stream ini) =? (STM32_DMA_IRQF_TC .| STM32_DMA_IRQF_HT) .<< irq_flags_shift ch)
    && Bool.eqb (negb (stream ini <=? 3)) (negb ((ch .& 4) =? 0))) [1; 2; 3; 4; 5; 6; 7; 8] = true
  /\ bool_decide (NoDup (map usart_channel [1; 2; 3; 4; 5; 6; 7; 8])) = true.
Proof. vm_compute. split; reflexivity. Qed.

Lemma conflict_b b1 b2 b3 b4 b5 :
  let o := {| opt_i2c1 := b1; opt_i2c2 := b2; opt_i2c3 := b3; opt_i2c4 := b4; opt_mmc := b5 |} in
  forallb (fun uid => Bool.eqb (bool_decide (usart_channel uid ∈ map fst (stm32f2_dmamux_table o))) (i2c_conflict o uid))
    [1; 2; 3; 4; 5; 6; 7; 8] = true.
Proof. destruct b1, b2, b3, b4, b5; vm_compute; reflexivity. Qed.

Lemma uid_in uid : 1 <= uid <= 8 -> In uid [1; 2; 3; 4; 5; 6; 7; 8].
Proof. intros H. cbn. lia. Qed.

(** The tables of four files agree: the stream and channel [stm32_usart.c] programs for a port carry the receive request of that
    port in [dmainit.c]'s map, the interrupt [uart.c] gives the device is the one [dmac.c] has for that stream, the
    status bits the receive handler tests and the register it reads them from are those of the stream, and the eight ports
    use eight different streams; a port shares its stream with a device of the boot table exactly in the
    configurations with the I2C bus listed. *)
Theorem usart_dma_wiring o uid :
  1 <= uid <= 8 ->
  let ini := usart_ini uid in
  let ch := usart_channel uid in
  0 <= ch < 16 /\ (request_map !!! Z.to_nat ch) !! Z.to_nat (chan ini) = Some (UART_RX uid)
  /\ STM32_USART_DMA_IRQ uid = stm32f2_dma_irq !!! Z.to_nat ch
  /\ stm32_dma_isr_bit !!! Z.to_nat (stream ini) = (STM32_DMA_IRQF_TC .| STM32_DMA_IRQF_HT) .<< irq_flags_shift ch
  /\ negb (stream ini <=? 3) = negb ((ch .& 4) =? 0)
  /\ (forall uid', 1 <= uid' <= 8 -> usart_channel uid' = ch -> uid' = uid)
  /\ (ch ∈ map fst (stm32f2_dmamux_table o) <-> i2c_conflict o uid = true).
Proof.
  intros H ini ch. destruct wiring_b as [Hb Hn]. rewrite forallb_forall in Hb. specialize (Hb uid (uid_in uid H)). cbv beta in Hb.
  fold ini ch in Hb. cbv zeta in Hb. rewrite !andb_true_iff, Z.leb_le, Z.ltb_lt, bool_decide_eq_true, !Z.eqb_eq in Hb.
  destruct Hb as (((((H1 & H2) & H3) & H4) & H5) & H6). apply eqb_prop in H6.
  split; [lia|]. split; [exact H3|]. split; [exact H4|]. split; [exact H5|]. split; [exact H6|]. split.
  - intros uid' H' E. apply bool_decide_eq_true in Hn.
    assert (Hl : forall v, 1 <= v <= 8 -> map usart_channel [1; 2; 3; 4; 5; 6; 7; 8] !! Z.to_nat (v - 1) = Some (usart_channel v)).
    { intros v Hv. assert (Hin : v ∈ [1; 2; 3; 4; 5; 6; 7; 8]) by (set_unfold; lia). set_unfold in Hin.
      repeat destruct Hin as [->|Hin]; try reflexivity. contradiction. }
    pose proof (NoDup_lookup _ _ _ _ Hn (Hl uid' H') ltac:(rewrite (Hl uid H); now rewrite E)). lia.
  - destruct o as [b1 b2 b3 b4 b5]. pose proof (conflict_b b1 b2 b3 b4 b5) as Hc. cbv zeta in Hc. rewrite forallb_forall in Hc.
    specialize (Hc uid (uid_in uid H)). apply eqb_prop in Hc. rewrite <- Hc. symmetry. apply bool_decide_eq_true.
Qed.

(** ** Probing *)

(** The slot of a port after its probe, [rv] being what the serial core answered. *)
Definition probed (uid rv : Z) : port_slot :=
  {| mapbase := STM32_USART_BASE uid;
     reg_usart_base := if rv =? 0 then STM32_USART_BASE uid else 0;
     reg_dma_base := if rv =? 0 then STM32_USART_DMA_BASE uid else 0;
     usart_irq := STM32_USART_IRQ uid; dma_irq := STM32_USART_DMA_IRQ uid; slot_ini := usart_ini uid;
     high_isr := negb (stream (usart_ini uid) <=? 3); bound := true |}.

(** Ports and devices once the devices of the list of port numbers are registered. *)
Definition devs (l : list Z) : list (Z * resources) := map (fun uid => (uid - 1, usart_resources uid)) l.

Lemma probe_fresh uid rv ports :
  1 <= uid <= 8 -> mapbase (ports !!! Z.to_nat (uid - 1)) = 0 \/ mapbase (ports !!! Z.to_nat (uid - 1)) = STM32_USART_BASE uid ->
  stm32_probe (uid - 1) (Some (usart_resources uid)) rv ports = (rv, <[Z.to_nat (uid - 1) := probed uid rv]> ports).
Proof.
  intros H Hm. unfold stm32_probe, STM32_NR_UARTS.
  rewrite (proj2 (Z.leb_gt 8 (uid - 1))), (proj2 (Z.ltb_ge (uid - 1) 0)), (proj2 (Z.eqb_neq (uid - 1) 8)) by lia.
  unfold usart_resources. assert (Hb : negb (mapbase (ports !!! Z.to_nat (uid - 1)) =? 0)
    && negb (mapbase (ports !!! Z.to_nat (uid - 1)) =? STM32_USART_BASE uid) = false).
  { destruct Hm as [->| ->]; [reflexivity|]. rewrite Z.eqb_refl. apply andb_false_r. }
  rewrite Hb. unfold probed. fold (usart_ini uid). now destruct (rv =? 0).
Qed.

Lemma probe_list rv l ports :
  length ports = 8%nat -> Forall (fun uid => 1 <= uid <= 8 /\ mapbase (ports !!! Z.to_nat (uid - 1)) = 0) l -> NoDup l ->
  exists ports', probe_all rv (devs l) ports = (map (fun uid => rv (uid - 1)) l, ports') /\ length ports' = 8%nat
  /\ (forall uid, uid ∈ l -> ports' !!! Z.to_nat (uid - 1) = probed uid (rv (uid - 1)))
  /\ (forall uid, 1 <= uid <= 8 -> uid ∉ l -> ports' !!! Z.to_nat (uid - 1) = ports !!! Z.to_nat (uid - 1)).
Proof.
  revert ports. induction l as [|uid l IH]; intros ports Hl Hf Hnd; cbn [devs map probe_all].
  - exists ports. split; [reflexivity|]. split; [exact Hl|]. split; [|auto]. intros uid H. now apply not_elem_of_nil in H.
  - apply Forall_cons in Hf as [[Hu Hm] Hf]. apply NoDup_cons in Hnd as [Hni Hnd].
    rewrite (probe_fresh uid (rv (uid - 1)) ports Hu (or_introl Hm)).
    set (p1 := <[_ := _]> ports). destruct (IH p1) as (p2 & E & Hl2 & H1 & H2); [now unfold p1; rewrite length_insert| |exact Hnd|].
    + apply Forall_forall. intros v Hv. rewrite Forall_forall in Hf. destruct (Hf v Hv) as [Hv1 Hv2]. split; [exact Hv1|].
      unfold p1. rewrite list_lookup_total_insert_ne; [exact Hv2|]. intros E. assert (uid = v) by lia. congruence.
    + unfold devs in E. rewrite E. exists p2. split; [reflexivity|]. split; [exact Hl2|]. split.
      * intros v Hv. apply elem_of_cons in Hv as [->|Hv]; [|now apply H1]. rewrite H2 by assumption.
        unfold p1. apply list_lookup_total_insert_eq. lia.
      * intros v Hv Hn. apply not_elem_of_cons in Hn as [Hne Hn]. rewrite H2 by assumption. unfold p1.
        apply list_lookup_total_insert_ne. lia.
Qed.

(** The gates are set and the devices are registered in port order. *)
Definition uart_gates (uid : Z) (b : uart_boot) : bool :=
  let bit := nth (Z.to_nat (uid - 1)) [4; 17; 18; 19; 20; 5; 30; 31] 0 in
  Z.testbit (match nth (Z.to_nat (uid - 1)) stm32_uart_rcc_enr_ofs Apb1enr with Apb1enr => g_apb1 b | Apb2enr => g_apb2 b end) bit
  && Z.testbit (g_ahb1 b) (if STM32_USART_DMA_BASE uid =? STM32_DMA1_BASE then 21 else 22).

Definition uids : list Z := [1; 2; 3; 4; 5; 6; 7; 8].

Lemma register_keeps uid v b : uart_gates v b = true -> uart_gates v (usart_init_clocks_and_register uid b) = true.
Proof.
  unfold uart_gates, usart_init_clocks_and_register. rewrite !andb_true_iff. intros [H1 H2].
  destruct (nth (Z.to_nat (uid - 1)) _ _), (nth (Z.to_nat (v - 1)) stm32_uart_rcc_enr_ofs _); cbn [g_ahb1 g_apb1 g_apb2]; rewrite !Z.lor_spec, ?H1, ?H2; auto.
Qed.

Lemma register_sets uid b : In uid uids -> uart_gates uid (usart_init_clocks_and_register uid b) = true.
Proof.
  intros H. unfold uart_gates, usart_init_clocks_and_register. cbn in H.
  repeat destruct H as [<-|H]; try contradiction; apply andb_true_iff; split; cbv -[Z.lor Z.testbit];
    rewrite Z.lor_spec; apply orb_true_iff; right; vm_compute; reflexivity.
Qed.

Lemma uart_init_spec (enabled : Z -> bool) (l : list Z) (b : uart_boot) :
  incl l uids ->
  let b' := fold_left (fun b uid => if enabled uid then usart_init_clocks_and_register uid b else b) l b in
  devices b' = devices b ++ devs (filter (fun uid : Z => enabled uid = true) (l : list Z))
  /\ (forall uid, In uid l -> enabled uid = true -> uart_gates uid b' = true)
  /\ (forall uid, uart_gates uid b = true -> uart_gates uid b' = true).
Proof.
  revert b. induction l as [|v l IH]; intros b Hin; cbn [fold_left].
  - rewrite app_nil_r. split; [reflexivity|]. split; [intros uid []|auto].
  - set (b1 := if enabled v then _ else _). destruct (IH b1) as (H1 & H2 & H3); [intros x Hx; apply Hin; now right|].
    assert (Hd : devices b1 = devices b ++ devs (filter (fun uid : Z => enabled uid = true) [v : Z])).
    { unfold b1. rewrite filter_cons, filter_nil. destruct (enabled v).
      - rewrite decide_True by reflexivity. unfold usart_init_clocks_and_register. now destruct (nth _ stm32_uart_rcc_enr_ofs _).
      - rewrite decide_False by discriminate. now rewrite app_nil_r. }
    split; [|split].
    + rewrite H1, Hd, <- app_assoc. f_equal. unfold devs. rewrite <- map_app, <- filter_app. reflexivity.
    + intros uid [->|Hu] He; [|now apply H2]. apply H3. unfold b1. rewrite He. apply register_sets, Hin. now left.
    + intros uid Hg. apply H3. unfold b1. destruct (enabled v); [now apply register_keeps|exact Hg].
Qed.

Lemma first_free_ne l i j : 0 <= j -> mapbase (l !!! Z.to_nat j) <> 0 -> first_free l i <> i + j.
Proof.
  revert i j. induction l as [|s l IH]; intros i j Hj Hm; cbn [first_free]; [now cbn in Hm|].
  destruct (Z.eq_dec j 0) as [->|Hne].
  - change (mapbase s <> 0) in Hm. rewrite (proj2 (Z.eqb_neq _ _) Hm).
    assert (H : forall k, k <= first_free l k) by (clear; induction l as [|t l IH]; intros k; cbn; [lia|destruct (_ =? 0); [lia|specialize (IH (k + 1)); lia]]).
    specialize (H (i + 1)). lia.
  - destruct (mapbase s =? 0); [lia|]. replace (i + j) with (i + 1 + (j - 1)) by lia. apply IH; [lia|].
    replace (Z.to_nat j) with (S (Z.to_nat (j - 1))) in Hm by lia. exact Hm.
Qed.

Lemma usart_base_ne uid : 1 <= uid <= 8 -> STM32_USART_BASE uid <> 0.
Proof.
  intros H. apply uid_in in H. cbn in H. repeat destruct H as [<-|H]; try (vm_compute; discriminate). contradiction.
Qed.

(** Booting the serial ports: whatever ports are enabled, the clocks of each enabled port and of its DMA controller are on, and
    probing its device gives it the slot of its number, with its own registers, interrupts and DMA stream, while the slots of the other ports stay
    free; a port the serial core refuses keeps only its base address and accepts the same device again.  Removing
    a device keeps the base address too, so a device without a number never gets that slot again. *)
Theorem usart_boot (enabled : Z -> bool) (rv : Z -> Z) (b : uart_boot) :
  devices b = [] ->
  let b' := stm32_uart_init enabled b in
  exists rs ports, probe_all rv (devices b') ports_bss = (rs, ports)
  /\ forall uid, 1 <= uid <= 8 ->
     if enabled uid then
       uart_gates uid b' = true /\ rv (uid - 1) ∈ rs /\ ports !!! Z.to_nat (uid - 1) = probed uid (rv (uid - 1))
       /\ (forall r, stm32_probe (uid - 1) (Some (usart_resources uid)) r ports = (r, <[Z.to_nat (uid - 1) := probed uid r]> ports))
       /\ (forall r ports', stm32_release (Some (uid - 1)) r ports = (r, ports') ->
             mapbase (ports' !!! Z.to_nat (uid - 1)) = STM32_USART_BASE uid
             /\ reg_usart_base (ports' !!! Z.to_nat (uid - 1)) = 0 /\ first_free ports' 0 <> uid - 1)
     else ports !!! Z.to_nat (uid - 1) = inhabitant.
Proof.
  intros Hd b'. destruct (uart_init_spec enabled uids b (incl_refl _)) as (H1 & H2 & _). change (fold_left _ uids b) with b' in H1, H2. rewrite Hd, app_nil_l in H1. set (l := filter (fun uid : Z => enabled uid = true) uids) in H1.
  destruct (probe_list rv l ports_bss) as (ports & E & Hl & H3 & H4); [reflexivity| | |].
  { apply Forall_forall. intros uid Hu. apply list_elem_of_filter in Hu as [_ Hu]. split; [unfold uids in Hu; set_unfold in Hu; lia|].
    unfold ports_bss. unfold uids in Hu. set_unfold in Hu. repeat destruct Hu as [->|Hu]; try reflexivity. contradiction. }
  { apply NoDup_filter. unfold uids. now apply (bool_decide_unpack _). }
  rewrite H1, E. do 2 eexists. split; [reflexivity|]. intros uid Hu. pose proof (uid_in uid Hu) as Hin.
  destruct (enabled uid) eqn:He.
  - assert (Hul : uid ∈ l) by (apply list_elem_of_filter; split; [exact He|now apply list_elem_of_In]).
    split; [now apply H2|]. split; [apply list_elem_of_fmap; now exists uid|]. split; [now apply H3|]. split.
    + intros r. apply probe_fresh; [exact Hu|]. right. now rewrite (H3 uid Hul).
    + intros r ports' [= <-]. rewrite (H3 uid Hul). cbn [probed bound mapbase reg_usart_base].
      rewrite list_lookup_total_insert_eq by lia. cbn [mapbase reg_usart_base]. split; [reflexivity|]. split; [reflexivity|].
      intros Ef. refine (first_free_ne _ 0 (uid - 1) ltac:(lia) _ (eq_trans Ef (eq_sym (Z.add_0_l _)))).
      rewrite list_lookup_total_insert_eq by lia. now apply usart_base_ne.
  - rewrite H4; [|exact Hu|].
    + unfold ports_bss. apply lookup_total_replicate_2. lia.
    + intros Hf. apply list_elem_of_filter in Hf as [Hf _]. congruence.
Qed.

(** ** Witnesses *)

Lemma usart_dma_wiring_witness :
  usart_channel 6 = 10 /\ (request_map !!! 10%nat) !! 5%nat = Some UART6_RX /\ STM32_USART_DMA_IRQ 6 = stm32f2_dma_irq !!! 10%nat.
Proof.
  destruct (usart_dma_wiring {| opt_i2c1 := false; opt_i2c2 := false; opt_i2c3 := false; opt_i2c4 := false; opt_mmc := true |} 6 ltac:(lia))
    as (_ & H1 & H2 & _). split; [reflexivity|]. split; [exact H1|exact H2].
Defined.

(** The Discovery board enables USART6 alone. *)
Lemma usart_boot_witness :
  let b := {| g_ahb1 := 0; g_apb1 := 0; g_apb2 := 0; devices := [] |} in
  exists rs ports, probe_all (fun _ => 0) (devices (stm32_uart_init (fun uid => uid =? 6) b)) ports_bss = (rs, ports)
  /\ ports !!! 5%nat = probed 6 0 /\ ports !!! 0%nat = inhabitant.
Proof.
  intros b. destruct (usart_boot (fun uid => uid =? 6) (fun _ => 0) b eq_refl) as (rs & ports & E & H).
  exists rs, ports. split; [exact E|]. split.
  - destruct (H 6 ltac:(lia)) as (_ & _ & Hs & _). exact Hs.
  - exact (H 1 ltac:(lia)).
Defined.
