(* ===== verification/UsartInv.v ===== *)
(** * The USART driver: well-formed states

    Every operation of the driver, and every call of the serial core on it, keeps the registers
    within their widths, the receive positions within the buffers and the transmit buffer a ring,
    whatever the hardware shows. *)

From S2P Require Import Prelude Dmac Clock Dmamem Serial Usart UsartSpec.

Record usart_wf (u : usart) : Prop := {
  uw_cr1 : is_u32 (cr1 (regs u)); uw_cr2 : is_u32 (cr2 (regs u)); uw_cr3 : is_u32 (cr3 (regs u));
  uw_brr : fits 16 (brr (regs u)); uw_dma : is_u32 (cr (rx_dma u)); uw_rxb : length (rxb u) = 2%nat;
  uw_wbuf : 0 <= wbuf u < 2; uw_wpos : 0 <= wpos u <= 512; uw_rbuf : 0 <= rbuf u < 2; uw_rpos : 0 <= rpos u <= 512;
  uw_irqs : fst (irqs u) = true \/ snd (irqs u) = true -> buffered u
}.

Definition port_wf (p : uart_port usart) : Prop := circ_wf (xmit p) /\ usart_wf (hw p).

(** The DMA counter never exceeds what was programmed. *)
Definition ndtr_ok (rd : nat -> stm32_dma_ch_regs) : Prop := forall n, 0 <= ndtr (rd n) <= 512.

Ltac wf_split := split; usart_simpl; try assumption; try lia.

Lemma wf_cr1 f u : usart_wf u -> (forall v, is_u32 v -> is_u32 (f v)) -> usart_wf (upd_cr1 f u).
Proof. intros [] Hf. unfold upd_cr1. wf_split. now apply Hf. Qed.

Lemma clear_u32 v m : is_u32 v -> is_u32 m -> is_u32 (v .& .~ m).
Proof. eauto with u32. Qed.

Ltac u32_regs := repeat first [assumption | apply lor_u32 | apply clear_u32 | apply shl32_u32].

Lemma fetch_wf mem n u :
  usart_wf u -> buffered u -> rpos u + Z.of_nat n <= 512 ->
  exists u', fetch mem n u = Ok u' /\ usart_wf u' /\ dma_isr u' = dma_isr u.
Proof.
  intros Hw Hb Hn. pose proof Hw as []. rewrite fetch_spec by (assumption || lia). eexists. split; [reflexivity|]. split; [wf_split|reflexivity].
Qed.

Lemma receive_wf w1c ini rd mem u :
  usart_wf u -> buffered u -> ndtr_ok rd -> exists u', stm32_receive w1c ini rd mem u = Ok u' /\ usart_wf u'.
Proof.
  intros Hw Hbu Hr. pose proof Hw as [? ? ? ? ? ? Hwb Hwp Hrb Hrp ?]. unfold stm32_receive. destruct (read_pos rd) as [nb np] eqn:E.
  assert (Hp : 0 <= nb < 2 /\ 0 <= np <= 512).
  { pose proof (Hr 1%nat). pose proof (Hr 3%nat). revert E. unfold read_pos, current_target.
    destruct (negb (_ =? 0)), (negb (_ =? 0)); cbn; intros [= <- <-]; lia. }
  unfold STM32_DMA_RX_BUF_LEN. rewrite (u32_id (512 - np)) by (unfold fits; lia).
  assert (Hf : forall u2 (w : bool), usart_wf u2 -> buffered u2 -> exists u', (let* u := fetch mem (Z.to_nat (wpos u2 - rpos u2)) u2 in
    if negb w then let tmp := dma_isr u .& (stm32_dma_isr_bit !!! Z.to_nat (stream ini)) in
      Ok (if negb (tmp =? 0) then set_dma_isr u (w1c (dma_isr u) tmp) else u) else Ok u) = Ok u' /\ usart_wf u').
  { intros u2 w Hw2 Hb2. pose proof Hw2 as []. destruct (fetch_wf mem (Z.to_nat (wpos u2 - rpos u2)) u2 Hw2 Hb2 ltac:(lia)) as (u' & -> & Hw' & _).
    cbn [rbind]. destruct w; cbn [negb]; [now exists u'|]. eexists. split; [reflexivity|]. pose proof Hw' as [].
    destruct (negb _); [wf_split|exact Hw']. }
  destruct (negb (nb =? wbuf u)); [destruct (rpos u =? 512)|]; (apply Hf; [wf_split|exact Hbu]).
Qed.

Lemma wf_regs u r :
  usart_wf u -> is_u32 (cr1 r) -> is_u32 (cr2 r) -> is_u32 (cr3 r) -> fits 16 (brr r) -> usart_wf (set_regs u r).
Proof. intros []. wf_split. Qed.

Lemma baud_wf line clk baud u u' : usart_wf u -> stm_set_baud_rate line clk baud u = Ok u' -> usart_wf u'.
Proof.
  intros Hw. pose proof Hw as []. unfold stm_set_baud_rate, brr_value. destruct (udiv _ _); cbn [rbind]; intros [= <-].
  apply wf_regs; usart_simpl; try assumption. unfold u16, fits. change (2 ^ 16) with 65536. apply Z.mod_pos_bound. lia.
Qed.

Lemma termios_wf line clk gb c u u' : usart_wf u -> stm_port_set_termios line clk gb c u = Ok u' -> usart_wf u'.
Proof.
  intros Hw. pose proof Hw as []. apply baud_wf, wf_regs; usart_simpl; try assumption.
  - unfold termios_cr1. repeat case_match; u32_regs.
  - unfold termios_cr2. case_match; u32_regs.
  - unfold termios_cr3. case_match; u32_regs.
Qed.

Lemma wf_rx_dma u d : usart_wf u -> is_u32 (cr d) -> usart_wf (set_rx_dma u d).
Proof. intros []. wf_split. Qed.

Lemma disable_wf en fuel u u' : usart_wf u -> disable_dma en fuel u = Ok u' -> usart_wf u'.
Proof.
  intros Hw. pose proof Hw as []. unfold disable_dma. destruct (wait_disabled _ _ _); cbn [rbind]; intros [= <-].
  apply wf_rx_dma; [exact Hw|]. apply clear_u32; [assumption|apply shl32_u32].
Qed.

Lemma rx_dma_cr_u32 ini : is_u32 (rx_dma_cr ini).
Proof. unfold rx_dma_cr. repeat apply lor_u32; apply shl32_u32. Qed.

Lemma startup_hw_wf en fuel line base ini clk u u' :
  usart_wf u -> startup_hw en fuel line base ini clk u = Ok u' -> usart_wf u'.
Proof.
  intros Hw. unfold startup_hw. destruct (disable_dma en fuel u) as [u1|] eqn:E; cbn [rbind]; [|discriminate].
  apply disable_wf in E; [|exact Hw]. pose proof E as [].
  set (u2 := set_regs _ _). assert (Hw2 : usart_wf u2).
  { apply wf_regs; usart_simpl; [apply wf_rx_dma; [exact E|]|u32_regs|unfold fits; lia|u32_regs|assumption].
    cbn [set_ch_cr cr]. apply lor_u32; [apply rx_dma_cr_u32|apply shl32_u32]. }
  clearbody u2. assert (Hd : forall v, usart_wf v -> usart_wf (upd_cr1 (fun v => v .| STM32_USART_CR1_UE) v)).
  { intros v Hv. apply wf_cr1; [exact Hv|]. intros x Hx. apply lor_u32; [exact Hx|apply shl32_u32]. }
  destruct (_ =? 0).
  - destruct (stm_set_baud_rate _ _ _ _) as [u3|] eqn:E3; cbn [rbind]; [|discriminate]. intros [= <-]. apply Hd. now apply baud_wf in E3.
  - cbn [rbind]. intros [= <-]. now apply Hd.
Qed.

(** No interrupt of the port is requested. *)
Definition released (u : usart) : Prop := irqs u = (false, false).

Lemma released_irqs u : released u -> ~ (fst (irqs u) = true \/ snd (irqs u) = true).
Proof. unfold released. intros ->. cbn. intuition discriminate. Qed.

Lemma wf_rxb u b : usart_wf u -> length b = 2%nat -> released u -> usart_wf (set_rxb u b).
Proof. intros [] Hl Hr. wf_split. intros H. now contradiction (released_irqs u Hr). Qed.

Lemma alloc_rxb_wf km0 km1 u dm ok u' dm' :
  usart_wf u -> released u -> alloc_rxb km0 km1 u dm = Ok (ok, u', dm') ->
  usart_wf u' /\ released u' /\ (ok = true -> buffered u').
Proof.
  intros Hw Hr. unfold alloc_rxb. destruct (dma_alloc_coherent km0 _ dm) as [[[a0|] dm1]|]; cbn [rbind]; [| |discriminate].
  - destruct (dma_alloc_coherent km1 _ dm1) as [[[a1|] dm2]|]; cbn [rbind]; [intros [= <- <- _]..|discriminate];
      (split; [now apply wf_rxb|]; split; [exact Hr|]); [intros _; now exists a0, a1|discriminate].
  - intros [= <- <- _]. split; [|split; [exact Hr|discriminate]]. apply wf_rxb; [exact Hw| |exact Hr].
    rewrite length_insert. apply Hw.
Qed.

Lemma wf_irqs u i : usart_wf u -> (fst i = true \/ snd i = true -> buffered u) -> usart_wf (set_irqs u i).
Proof. intros [] Hi. wf_split. Qed.

Lemma startup_wf en fuel line base ini clk km0 km1 r1 r2 u dm rv u' dm' :
  usart_wf u -> released u ->
  stm_port_startup en fuel line base ini clk km0 km1 r1 r2 u dm = Ok (rv, u', dm') -> usart_wf u'.
Proof.
  intros Hw Hr. unfold stm_port_startup. assert (H0 : usart_wf (set_reader (set_writer u 0 0) 0 0)) by (pose proof Hw as []; wf_split).
  destruct (alloc_rxb km0 km1 _ dm) as [[[ok u1] dm1]|] eqn:E; cbn [rbind]; [|discriminate].
  apply alloc_rxb_wf in E as (Hw1 & Hr1 & Hb); [|exact H0|exact Hr].
  destruct ok; cbn [negb]; [specialize (Hb eq_refl)|now intros [= _ <- _]].
  repeat case_match; intros [=]; subst; auto using wf_irqs.
  destruct (startup_hw _ _ _ _ _ _ _) as [u3|] eqn:E3; cbn [rbind] in *; [|discriminate].
  simplify_eq. apply startup_hw_wf in E3; auto using wf_irqs.
Qed.

Lemma sent_out_wf u l t : usart_wf u -> usart_wf (sent_out u l t).
Proof. intros []. unfold sent_out. wf_split. Qed.

Lemma xmit_wf txe fuel i c u u' : usart_wf u -> stm32_xmit_char txe fuel i c u = Ok u' -> usart_wf u'.
Proof.
  intros Hw. unfold stm32_xmit_char. destruct (wait_txe _ _ _); cbn [rbind]; intros [= <-]. pose proof Hw as []. wf_split.
Qed.

Lemma console_wf txe fuel s u u' : usart_wf u -> stm_console_write txe fuel s u = Ok u' -> usart_wf u'.
Proof.
  intros Hw. unfold stm_console_write. set (iuarte := cr1 (regs u) .& _). set (idmae := cr (rx_dma u) .& _).
  pose proof Hw as [H1 _ _ _ H2 _ _ _ _ _].
  assert (Hi : is_u32 iuarte) by (apply land_u32_l; [exact H1|apply is_u32_nonneg; u32_regs]).
  assert (Hd : is_u32 idmae) by (apply land_u32_l; [exact H2|apply is_u32_nonneg; u32_regs]).
  set (u1 := if negb (iuarte =? 0) then _ else _). set (u2 := if negb (idmae =? 0) then _ else _).
  assert (Hw1 : usart_wf u1) by (unfold u1; destruct (negb (iuarte =? 0)); [apply wf_cr1; [exact Hw|intros; u32_regs]|exact Hw]).
  assert (Hw2 : usart_wf u2).
  { unfold u2. destruct (negb (idmae =? 0)); [|exact Hw1]. apply wf_rx_dma; [exact Hw1|]. cbn [set_ch_cr cr]. pose proof Hw1 as []. u32_regs. }
  assert (Hc : forall s v v', usart_wf v -> uart_console_write txe fuel s v = Ok v' -> usart_wf v').
  { clear. induction s as [|c s IH]; intros v v' Hv; cbn [uart_console_write]; [now intros [= <-]|].
    destruct (c =? 10); cbn [rbind].
    - destruct (stm32_xmit_char _ _ (Con 13) _ _) as [v1|] eqn:E1; cbn [rbind]; [|discriminate].
      destruct (stm32_xmit_char _ _ (Con c) _ _) as [v2|] eqn:E2; cbn [rbind]; [|discriminate].
      apply IH. eapply xmit_wf; [|exact E2]. eapply xmit_wf; eassumption.
    - destruct (stm32_xmit_char _ _ (Con c) _ _) as [v2|] eqn:E2; cbn [rbind]; [|discriminate]. apply IH. eapply xmit_wf; eassumption. }
  destruct (uart_console_write txe fuel s u2) as [u3|] eqn:E; cbn [rbind]; [|discriminate]. apply Hc in E; [|exact Hw2]. intros [= <-].
  assert (Hw3 : usart_wf (if negb (idmae =? 0) then set_rx_dma u3 (set_ch_cr (rx_dma u3) (cr (rx_dma u3) .| idmae)) else u3)).
  { destruct (negb (idmae =? 0)); [|exact E]. apply wf_rx_dma; [exact E|]. cbn [set_ch_cr cr]. pose proof E as []. u32_regs. }
  destruct (negb (iuarte =? 0)); [|exact Hw3]. apply wf_cr1; [exact Hw3|]. intros. u32_regs.
Qed.

Lemma shutdown_wf en fuel u u' : usart_wf u -> stm_port_shutdown en fuel u = Ok u' -> usart_wf u'.
Proof.
  intros Hw. unfold stm_port_shutdown. destruct (disable_dma en fuel u) as [u1|] eqn:E; cbn [rbind]; [|discriminate]. intros [= <-].
  apply disable_wf in E; [|exact Hw]. apply wf_irqs; [|cbn; intuition discriminate].
  apply wf_cr1; [apply wf_cr1; [exact E|]|]; intros; u32_regs.
Qed.

Lemma stop_rx_wf en fuel u u' : usart_wf u -> stm_port_stop_rx en fuel u = Ok u' -> usart_wf u'.
Proof.
  intros Hw. unfold stm_port_stop_rx. destruct (disable_dma en fuel u) as [u1|] eqn:E; cbn [rbind]; [|discriminate]. intros [= <-].
  apply disable_wf in E; [|exact Hw]. apply wf_cr1; [exact E|]. intros; u32_regs.
Qed.

Lemma transmit_wf txe fuel p p' : port_wf p -> stm32_transmit txe fuel p = Ok p' -> port_wf p'.
Proof.
  intros [Hc Hw]. unfold stm32_transmit. destruct (negb (x_char p =? 0)).
  - destruct (stm32_xmit_char _ _ _ _ _) as [u|] eqn:E; cbn [rbind]; [|discriminate]. intros [= <-]. apply xmit_wf in E; [|exact Hw]. now split.
  - destruct (_ || _).
    + intros [= <-]. split; [exact Hc|]. apply wf_cr1; [exact Hw|]. intros; u32_regs.
    + destruct (stm32_xmit_char _ _ _ _ _) as [u|] eqn:E; cbn [rbind]; [|discriminate]. intros [= <-]. apply xmit_wf in E; [|exact Hw].
      split; [|exact E]. destruct Hc as [H1 H2 H3]. split; port_simpl; try assumption. rewrite land_xmit. now apply Z.mod_pos_bound.
Qed.

(** The calls on a port: an event of the serial core, the operations of the driver, and the interrupts with any hardware state,
    each only while it is requested.  The serial core opens a port only while it is closed (ASYNC_INITIALIZED) and releases it
    only then ([uart_set_info] and [uart_remove_one_port] shut it down first). *)
Inductive port_step : uart_port usart -> uart_port usart -> Prop :=
  | ps_core txe fuel e p r p' :
      (exists n, (n < fuel)%nat /\ txe n = true) -> exec (stm32_uart_ops txe fuel) (tx_irq txe fuel) e p = Ok (r, p') -> port_step p p'
  | ps_rx p c : port_step p (set_hw p (set_regs (hw p) (set_rdr (regs (hw p)) c)))
  | ps_isr w1c txe fuel ini idle rd mem p p' :
      fst (irqs (hw p)) = true -> ndtr_ok rd -> stm32_usart_isr w1c txe fuel ini idle rd mem p = Ok p' -> port_step p p'
  | ps_dma w1c ini rd mem p p' :
      snd (irqs (hw p)) = true -> ndtr_ok rd -> stm32_dma_isr w1c ini rd mem p = Ok p' -> port_step p p'
  | ps_termios line clk gb c p u' : stm_port_set_termios line clk gb c (hw p) = Ok u' -> port_step p (set_hw p u')
  | ps_console txe fuel s p u' : stm_console_write txe fuel s (hw p) = Ok u' -> port_step p (set_hw p u')
  | ps_startup en fuel line base ini clk km0 km1 r1 r2 p dm rv u' dm' :
      released (hw p) -> stm_port_startup en fuel line base ini clk km0 km1 r1 r2 (hw p) dm = Ok (rv, u', dm') ->
      port_step p (set_hw p u')
  | ps_shutdown en fuel p u' : stm_port_shutdown en fuel (hw p) = Ok u' -> port_step p (set_hw p u')
  | ps_stop_rx en fuel p u' : stm_port_stop_rx en fuel (hw p) = Ok u' -> port_step p (set_hw p u')
  | ps_release p dm : released (hw p) -> port_step p (set_hw p (stm_port_release_port (hw p) dm).1).

Lemma uart_start_wf txe fuel p p' : port_wf p -> uart_start (stm32_uart_ops txe fuel) p = Ok p' -> port_wf p'.
Proof.
  intros Hp. unfold uart_start. destruct (_ && _); [|now intros [= <-]]. cbn [stm32_uart_ops start_tx]. unfold stm_port_start_tx.
  apply transmit_wf. destruct Hp as [Hc Hw]. split; [exact Hc|]. apply wf_cr1; [exact Hw|]. intros; u32_regs.
Qed.

Lemma stop_tx_wf p : port_wf p -> port_wf (stm_port_stop_tx p).
Proof. intros [Hc Hw]. split; [exact Hc|]. apply wf_cr1; [exact Hw|]. intros; u32_regs. Qed.

Lemma start_tx_wf txe fuel p p' : port_wf p -> stm_port_start_tx txe fuel p = Ok p' -> port_wf p'.
Proof. intros [Hc Hw]. apply transmit_wf. split; [exact Hc|]. apply wf_cr1; [exact Hw|]. intros; u32_regs. Qed.

Lemma exec_wf txe fuel e p r p' :
  port_wf p -> exec (stm32_uart_ops txe fuel) (tx_irq txe fuel) e p = Ok (r, p') -> port_wf p'.
Proof.
  intros Hp. pose proof Hp as [Hc Hw]. destruct e as [l|c| | |c| |fl|]; cbn [exec].
  - unfold uart_write. destruct (write_loop_spec l (xmit p) Hc) as (b & -> & Hb & _). cbn [rbind].
    destruct (uart_start _ _) as [p1|] eqn:E; cbn [rbind]; [|discriminate]. intros [= _ <-]. eapply uart_start_wf; [|exact E]. now split.
  - unfold uart_put_char. pose proof (put_char_spec (xmit p) c Hc) as H. destruct (put_char (xmit p) c) as [r' b]. intros [= _ <-]. now split.
  - unfold uart_flush_chars. destruct (uart_start _ _) as [p1|] eqn:E; cbn [rbind]; [|discriminate]. intros [= _ <-].
    now apply uart_start_wf in E.
  - intros [= _ <-]. split; [apply (clear_contents _ Hc)|exact Hw].
  - unfold uart_send_xchar. destruct (negb _); cbn [rbind]; [|intros [= _ <-]; now split].
    destruct (start_tx _ _) as [p1|] eqn:E; cbn [rbind]; [|discriminate]. intros [= _ <-]. apply start_tx_wf in E; [exact E|now split].
  - intros [= _ <-]. unfold stop_tty. destruct (tx_stopped p); [exact Hp|]. apply stop_tx_wf. now split.
  - unfold start_tty. destruct (_ || fl); cbn [rbind]; [now intros [= _ <-]|].
    destruct (uart_start _ _) as [p1|] eqn:E; cbn [rbind]; [|discriminate]. intros [= _ <-]. apply uart_start_wf in E; [exact E|now split].
  - unfold tx_irq, stm32_usart_isr. cbn [rbind]. destruct (stm32_transmit _ _ _) as [p1|] eqn:E; cbn [rbind]; [|discriminate].
    intros [= _ <-]. now apply transmit_wf in E.
Qed.

(** The interrupts of characters received, on a port that has its buffers. *)
Lemma dma_isr_wf w1c ini rd mem p :
  port_wf p -> buffered (hw p) -> ndtr_ok rd -> exists p', stm32_dma_isr w1c ini rd mem p = Ok p' /\ port_wf p'.
Proof.
  intros [Hc Hw] Hb Hr. unfold stm32_dma_isr. destruct (receive_wf w1c ini rd mem (hw p) Hw Hb Hr) as (u' & -> & Hu).
  cbn [rbind]. eexists. split; [reflexivity|]. now split.
Qed.

Lemma read_rdr_wf p c : port_wf p -> port_wf (set_hw p (set_regs (hw p) (set_rdr (regs (hw p)) c))).
Proof. intros [Hc Hw]. split; [exact Hc|]. destruct Hw. split; usart_simpl; assumption. Qed.

Lemma usart_isr_idle_wf w1c ini rd mem p :
  port_wf p -> buffered (hw p) -> ndtr_ok rd ->
  exists u', stm32_receive w1c ini rd mem (read_rdr (hw p)) = Ok u' /\ port_wf (set_hw p u').
Proof.
  intros Hp Hb Hr. destruct (read_rdr_wf p None Hp) as [Hc Hw].
  destruct (receive_wf w1c ini rd mem (read_rdr (hw p)) Hw Hb Hr) as (u' & E & Hu). exists u'. split; [exact E|now split].
Qed.

(** Sending never fails on a transmitter that becomes ready. *)
Lemma transmit_ok txe fuel p :
  (exists n, (n < fuel)%nat /\ txe n = true) -> port_wf p -> exists p', stm32_transmit txe fuel p = Ok p' /\ port_wf p'.
Proof.
  intros Ht Hp. pose proof Hp as [Hc Hw]. destruct (transmit_abs txe fuel Ht p Hc (uw_cr1 _ Hw)) as (p' & E & _).
  exists p'. split; [exact E|]. now apply transmit_wf in E.
Qed.

Lemma port_step_wf p p' : port_step p p' -> port_wf p -> port_wf p'.
Proof.
  intros H Hp. pose proof Hp as [Hc Hw]. destruct H as [txe fuel e p r p' Ht E|p c|w1c txe fuel ini idle rd mem p p' Hi Hr E
    |w1c ini rd mem p p' Hi Hr E|line clk gb c p u' E|txe fuel s p u' E|en fuel line base ini clk km0 km1 r1 r2 p dm rv u' dm' Hi E
    |en fuel p u' E|en fuel p u' E|p dm Hi].
  - eapply exec_wf; eassumption.
  - now apply read_rdr_wf.
  - unfold stm32_usart_isr in E. destruct idle; cbn [rbind] in E; [|eapply transmit_wf; eassumption].
    destruct (usart_isr_idle_wf w1c ini rd mem p Hp (uw_irqs _ Hw (or_introl Hi)) Hr) as (u' & E' & Hu). rewrite E' in E.
    eapply transmit_wf; [exact Hu|exact E].
  - destruct (dma_isr_wf w1c ini rd mem p Hp (uw_irqs _ Hw (or_intror Hi)) Hr) as (p2 & E' & Hp2). congruence.
  - split; [exact Hc|]. eapply termios_wf; eassumption.
  - split; [exact Hc|]. eapply console_wf; eassumption.
  - split; [exact Hc|]. eapply startup_wf; eassumption.
  - split; [exact Hc|]. eapply shutdown_wf; eassumption.
  - split; [exact Hc|]. eapply stop_rx_wf; eassumption.
  - split; [exact Hc|]. apply wf_rxb; [exact Hw| |exact Hi]. rewrite length_map. apply Hw.
Qed.

Lemma port_steps_wf p p' : rtc port_step p p' -> port_wf p -> port_wf p'.
Proof. induction 1 as [|p1 p2 p3 H _ IH]; [auto|]. intros Hp. apply IH. exact (port_step_wf _ _ H Hp). Qed.

(** Without buffers the receive routine follows a NULL pointer as soon as it finds a character. *)
Lemma receive_without_buffers : exists w1c ini rd mem, ndtr_ok rd /\ stm32_receive w1c ini rd mem usart0 = Fault NullPtr.
Proof.
  exists (fun _ _ => 0), ini6, (fun _ => {| cr := 0; ndtr := 511; par := 0; m0ar := 0; m1ar := 0; fcr := 0 |}), (fun _ _ => 0).
  split; [intros n; cbn; lia|reflexivity].
Qed.

(** C34: whatever calls, received characters, interrupts and hardware states come, in any order and however late, the registers keep
    their widths, the receive positions stay inside the two buffers, the transmit buffer stays a ring, and the receive
    buffers are allocated whenever an interrupt of the port is requested.  So an interrupt that is requested never faults,
    even when characters have been overwritten: the handlers neither follow a NULL buffer pointer nor read outside the buffers.
    The calls are those the serial core makes: it opens and releases a port only while its interrupts are not requested; the
    transfer counter of the stream is at most the 512 it was programmed with, and the transmitter becomes ready within
    the polls of the USART interrupt.  Calls are atomic: an interrupt does not come inside an open or a close. *)
Theorem usart_type_safe p p' :
  port_wf p -> rtc port_step p p' ->
  port_wf p'
  /\ (fst (irqs (hw p')) = true \/ snd (irqs (hw p')) = true -> buffered (hw p'))
  /\ (forall w1c ini rd mem, snd (irqs (hw p')) = true -> ndtr_ok rd ->
        exists p'', stm32_dma_isr w1c ini rd mem p' = Ok p'' /\ port_wf p'')
  /\ (forall w1c txe fuel ini idle rd mem, fst (irqs (hw p')) = true -> ndtr_ok rd ->
        (exists n, (n < fuel)%nat /\ txe n = true) ->
        exists p'', stm32_usart_isr w1c txe fuel ini idle rd mem p' = Ok p'' /\ port_wf p'').
Proof.
  intros Hp Hr. pose proof (port_steps_wf p p' Hr Hp) as Hp'. pose proof Hp' as [Hc Hw].
  split; [exact Hp'|]. split; [exact (uw_irqs _ Hw)|]. split.
  - intros w1c ini rd mem Hi Hrd. apply dma_isr_wf; [exact Hp'|exact (uw_irqs _ Hw (or_intror Hi))|exact Hrd].
  - intros w1c txe fuel ini idle rd mem Hi Hrd Ht. unfold stm32_usart_isr. destruct idle; cbn [rbind]; [|now apply transmit_ok].
    destruct (usart_isr_idle_wf w1c ini rd mem p' Hp' (uw_irqs _ Hw (or_introl Hi)) Hrd) as (u' & -> & Hu). cbn [rbind].
    now apply transmit_ok.
Qed.

Lemma fetch_rdr mem n u : fetch mem n (read_rdr u) = (let* v := fetch mem n u in Ok (read_rdr v)).
Proof.
  revert u. induction n as [|n IH]; intros u; cbn [fetch]; [reflexivity|].
  change (rxb (read_rdr u)) with (rxb u). change (rbuf (read_rdr u)) with (rbuf u). change (rpos (read_rdr u)) with (rpos u).
  destruct (rxb u !! _) as [[a|]|]; [|reflexivity..]. destruct (_ <? _); [|reflexivity]. exact (IH (set_reader (insert_flip u _) _ _)).
Qed.

(** The receive routine neither looks at RDR nor changes it. *)
Lemma receive_rdr w1c ini rd mem u :
  stm32_receive w1c ini rd mem (read_rdr u) = (let* v := stm32_receive w1c ini rd mem u in Ok (read_rdr v)).
Proof.
  unfold stm32_receive. destruct (read_pos rd) as [nb np]. change (wbuf (read_rdr u)) with (wbuf u).
  change (rpos (read_rdr u)) with (rpos u).
  assert (H : forall v (w : bool),
    (let* x := fetch mem (Z.to_nat (wpos (read_rdr v) - rpos (read_rdr v))) (read_rdr v) in
     if negb w then let tmp := dma_isr x .& (stm32_dma_isr_bit !!! Z.to_nat (stream ini)) in
       Ok (if negb (tmp =? 0) then set_dma_isr x (w1c (dma_isr x) tmp) else x) else Ok x)
    = (let* x := (let* x := fetch mem (Z.to_nat (wpos v - rpos v)) v in
       if negb w then let tmp := dma_isr x .& (stm32_dma_isr_bit !!! Z.to_nat (stream ini)) in
         Ok (if negb (tmp =? 0) then set_dma_isr x (w1c (dma_isr x) tmp) else x) else Ok x) in Ok (read_rdr x))).
  { intros v w. change (wpos (read_rdr v)) with (wpos v). change (rpos (read_rdr v)) with (rpos v). rewrite fetch_rdr.
    destruct (fetch mem _ v) as [x|]; cbn [rbind]; [|reflexivity]. change (dma_isr (read_rdr x)) with (dma_isr x).
    destruct w; cbn [negb rbind]; [reflexivity|]. now destruct (negb _). }
  destruct (negb (nb =? wbuf u)); [destruct (rpos u =? STM32_DMA_RX_BUF_LEN)|].
  - exact (H (set_reader (set_writer u nb (u32 (STM32_DMA_RX_BUF_LEN - np))) nb 0) false).
  - exact (H (set_writer u (wbuf u) STM32_DMA_RX_BUF_LEN) true).
  - exact (H (set_writer u (wbuf u) (u32 (STM32_DMA_RX_BUF_LEN - np))) false).
Qed.

(** The read of RDR in the USART interrupt: a character that is in the register when an idle line is handled is dropped: the call
    hands over what it would hand over without it, and leaves the register empty, so that the stream has nothing to fetch. *)
Theorem usart_isr_takes_rdr w1c txe fuel ini rd mem p :
  stm32_usart_isr w1c txe fuel ini true rd mem p
  = let* u := stm32_receive w1c ini rd mem (hw p) in stm32_transmit txe fuel (set_hw p (set_regs u (set_rdr (regs u) None))).
Proof. unfold stm32_usart_isr. rewrite receive_rdr. now destruct (stm32_receive w1c ini rd mem (hw p)). Qed.

Lemma port0_wf : port_wf port0.
Proof.
  split; [exact port0_ring|]. split; cbn; unfold fits; try lia; try reflexivity; intuition discriminate.
Qed.

(** The port is opened on the board's coherent region; 600 characters arrive and the line goes idle. *)
Definition open_demo : result (Z * usart * dmamem) :=
  stm_port_startup (fun _ => false) 1 5 0x40011400 ini6 clk_100mhz km km 0 0 (hw port0) (dm_booted tag_disco).
Definition idle_demo (u : usart) : result (uart_port usart) :=
  stm32_usart_isr (fun _ _ => 0) (fun _ => true) 1 ini6 true rd600 mem600 (set_hw port0 u).

Local Definition received (r : result (uart_port usart)) : nat :=
  match r with Ok p => length (flip (hw p)) | Fault _ => 0 end.

Lemma open_demo_run :
  match open_demo with Ok (rv, u, _) => Some (rv, irqs u, received (idle_demo u)) | Fault _ => None end
  = Some (0, (true, true), 512%nat).
Proof. vm_compute. reflexivity. Qed.

Lemma open_demo_step rv u dm : open_demo = Ok (rv, u, dm) -> port_step port0 (set_hw port0 u).
Proof. unfold open_demo. intros E. apply ps_startup with (1 := eq_refl) (2 := E). Qed.

Lemma idle_demo_eq u :
  idle_demo u = stm32_usart_isr (fun _ _ => 0) (fun _ => true) 1 ini6 true rd600 mem600 (set_hw port0 u).
Proof. reflexivity. Qed.

Lemma rd600_ok : ndtr_ok rd600.
Proof. intros n. cbn. lia. Qed.

Lemma irqs_port0 u : irqs u = (true, true) -> fst (irqs (hw (set_hw port0 u))) = true.
Proof. cbn. now intros ->. Qed.

Lemma usart_type_safe_witness :
  exists u1 dm1 p2, open_demo = Ok (0, u1, dm1) /\ irqs u1 = (true, true) /\ idle_demo u1 = Ok p2
  /\ length (flip (hw p2)) = 512%nat /\ port_wf p2.
Proof.
  pose proof open_demo_run as Hd. destruct open_demo as [[[rv u1] dm1]|] eqn:E; [|discriminate Hd].
  injection Hd as -> Hi Hl. destruct (usart_type_safe port0 (set_hw port0 u1) port0_wf) as (_ & _ & _ & H).
  { exact (rtc_once _ _ (open_demo_step _ _ _ E)). }
  destruct (H (fun _ _ => 0) (fun _ => true) 1%nat ini6 true rd600 mem600 (irqs_port0 u1 Hi) rd600_ok
    (ready_now _ 1 true Nat.lt_0_1 eq_refl)) as (p2 & E2 & Hw).
  rewrite <- idle_demo_eq in E2. rewrite E2 in Hl. exists u1, dm1, p2. split; [reflexivity|]. split; [exact Hi|].
  split; [exact E2|]. split; [exact Hl|exact Hw].
Defined.
