(* ===== verification/PageSource.v ===== *)
(** * What the page allocator promises to the code that maps memory

    The interface [mm/nommu.c] uses: blocks of pages from [alloc_pages], references
    set on pages inside them and frees of blocks.  The client's theorems are proved
    against this interface; the zone of [PageAlloc] implements it. *)

From S2P Require Import Prelude PageAlloc Buddy BuddyAlloc Pcp PageOps.

(** [holds raw own s]: the clients own the blocks [own], each with one reference on its
    first page, and hold the pages [raw], which have none. *)
Class PageSource (S : Type) := {
  alloc_pages : nat -> S -> result (option Z * S);
  set_page_refcounted : Z -> S -> S;
  put_pages : Z -> nat -> S -> result S;             (* __free_pages *)
  holds : list Z -> list (Z * nat) -> S -> Prop;
  holds_perm raw raw' own own' s : raw ≡ₚ raw' -> own ≡ₚ own' -> holds raw own s -> holds raw' own' s;
  holds_nodup raw own s : holds raw own s -> NoDup (raw ++ pages own);
  holds_range raw own s q : holds raw own s -> q ∈ raw ++ pages own -> 0 < q < 2 ^ 20 - 1;
  alloc_ok o own s : holds [] own s ->
    exists r s', alloc_pages o s = Ok (r, s')
    /\ match r with
       | Some p => holds (seqZ (p + 1) (pow2 o - 1)) ((p, 0%nat) :: own) s' /\ aligned o p /\ (o < MAX_ORDER)%nat
       | None => holds [] own s'
       end;
  ref_ok q k raw own s : holds (block q k ++ raw) own s -> (k < MAX_ORDER)%nat -> aligned k q ->
    holds raw ((q, k) :: own) (set_page_refcounted q s);
  free_ok q k raw own s : holds raw ((q, k) :: own) s -> exists s', put_pages q k s = Ok s' /\ holds raw own s'
}.

#[export] Instance holds_proper {PS} `{PageSource PS} : Proper ((≡ₚ) ==> (≡ₚ) ==> eq ==> iff) holds.
Proof. intros raw raw' Hr own own' Ho s _ <-. split; now apply holds_perm. Qed.

(** ** The zone is one *)

Section Zone.

Context (managed : list Z) (dis : bool).
Hypothesis managed_range : Forall (fun q => 0 < q < 2 ^ 20 - 1) managed.

(** The fast path of [alloc_pages(GFP_KERNEL, order)]; orders beyond the largest are refused. *)
Definition zone_alloc (order : nat) (z : zone) : result (option Z * zone) :=
  if (MAX_ORDER <=? order)%nat then Ok (None, z) else buffered_rmqueue dis 1 order false MIGRATE_UNMOVABLE z.

(** Reshaping what is held without touching the pages. *)
Lemma zone_reshape raw raw' own own' z :
  zone_at managed (singles raw) own z -> raw' ++ pages own' ≡ₚ raw ++ pages own ->
  (forall p o, (p, o) ∈ own' -> (o < MAX_ORDER)%nat /\ aligned o p) ->
  (forall q, q ∈ raw' -> clean z q) ->
  (forall p o q, (p, o) ∈ own' -> in_block o p q -> own_page z p q) ->
  zone_at managed (singles raw') own' z.
Proof.
  intros [Hc Hn Hpc Hb Hs] HP Hbl Hcl Hown. split; [|assumption..].
  pose proof Hc as [Hi Hp Hnd Hz Hcp Hbb Hl Ho]. split; try assumption.
  - rewrite <- Hp. unfold singles in *. rewrite !pages_singles, HP. reflexivity.
  - intros p o [[-> _]%elem_of_singles|H]%elem_of_app; [split; [unfold MAX_ORDER; lia|apply aligned_0]|now apply Hbl].
  - intros p o q [-> H]%elem_of_singles ->%in_block_0. now apply Hcl.
Qed.

Lemma zone_raw_clean raw own z q : zone_at managed (singles raw) own z -> q ∈ raw -> clean z q.
Proof.
  intros H Hq. apply (co_limbo _ _ _ _ (zi_core _ _ _ _ H) q 0%nat q); [apply elem_of_singles; auto|now apply in_block_0].
Qed.

Lemma zone_own raw own z p o q : zone_at managed (singles raw) own z -> (p, o) ∈ own -> in_block o p q -> own_page z p q.
Proof. intros H. apply (co_own _ _ _ _ (zi_core _ _ _ _ H)). Qed.

Lemma zone_blocks raw own z p o : zone_at managed (singles raw) own z -> (p, o) ∈ own -> (o < MAX_ORDER)%nat /\ aligned o p.
Proof. intros H Hp. apply (co_blocks _ _ _ _ (zi_core _ _ _ _ H)). apply elem_of_app. now right. Qed.

Lemma zone_perm raw raw' own own' z :
  raw ≡ₚ raw' -> own ≡ₚ own' -> zone_at managed (singles raw) own z -> zone_at managed (singles raw') own' z.
Proof.
  intros Hr Ho H. apply (zone_reshape raw raw' own own' z H); [now rewrite Hr, Ho| | |].
  - intros p o Hp. rewrite <- Ho in Hp. exact (zone_blocks raw own z p o H Hp).
  - intros q Hq. rewrite <- Hr in Hq. exact (zone_raw_clean raw own z q H Hq).
  - intros p o q Hp. rewrite <- Ho in Hp. exact (zone_own raw own z p o q H Hp).
Qed.

(** A fresh block: its first page is referenced, the others are as they were. *)
Lemma zone_alloc_ok o own z :
  zone_at managed [] own z ->
  exists r z', zone_alloc o z = Ok (r, z')
  /\ match r with
     | Some p => zone_at managed (singles (seqZ (p + 1) (pow2 o - 1))) ((p, 0%nat) :: own) z' /\ aligned o p /\ (o < MAX_ORDER)%nat
     | None => zone_at managed [] own z'
     end.
Proof.
  intros H. unfold zone_alloc. destruct (Nat.leb_spec MAX_ORDER o) as [Ho|Ho]; [now exists None, z|].
  assert (Hmt : (MIGRATE_UNMOVABLE < MIGRATE_PCPTYPES)%nat) by (unfold MIGRATE_UNMOVABLE, MIGRATE_PCPTYPES; lia).
  cbn [buffered_rmqueue]. pose proof (rmqueue_pass_spec managed dis o false MIGRATE_UNMOVABLE own z H Hmt Ho) as Hp.
  destruct (rmqueue_pass dis o false MIGRATE_UNMOVABLE z) as [[p|] z1]; [|exists None, z1; now destruct Hp].
  destruct Hp as [Hc Hn Hpc Hb Hs _]. destruct (prep_new_page_spec managed p o [] own z1 Hc) as (m & -> & H2 & Hm).
  exists (Some p), (set_mem_map z1 m). split; [reflexivity|]. pose proof (pow2_pos o).
  assert (Hz : zone_at managed (singles []) ((p, o) :: own) (set_mem_map z1 m)).
  { split; [exact H2|exact Hn|exact Hpc|exact Hb|]. change (spanned_pages (set_mem_map z1 m)) with (spanned_pages z1). rewrite Hs. apply H. }
  destruct (zone_blocks [] _ _ p o Hz ltac:(left)) as [_ Ha]. split; [|split; [exact Ha|exact Ho]].
  apply (zone_reshape [] _ _ _ _ Hz).
  - change (pages ((p, o) :: own)) with (block p o ++ pages own). change (pages ((p, 0%nat) :: own)) with ([p] ++ pages own).
    rewrite block_pages by auto. rewrite (seqZ_cons p (pow2 o)) by lia. unfold Z.succ.
    replace (Z.pred (pow2 o)) with (pow2 o - 1) by lia. solve_Permutation.
  - intros p' o' [[= -> ->]|Hp']%elem_of_cons; [split; [unfold MAX_ORDER; lia|apply aligned_0]|].
    apply (zone_blocks [] _ _ p' o' Hz). now right.
  - intros q Hq%elem_of_seqZ. unfold clean. change (mem_map (set_mem_map z1 m) q) with (m q). rewrite Hm by lia.
    apply (co_limbo _ _ _ _ Hc p o q ltac:(left)). unfold in_block. lia.
  - intros p' o' q [[= -> ->]|Hp']%elem_of_cons Hq.
    + apply in_block_0 in Hq as ->. apply (zone_own [] _ _ p o p Hz ltac:(left)). unfold in_block. lia.
    + apply (zone_own [] _ _ p' o' q Hz); [now right|exact Hq].
Qed.

(** A reference on the first page of held pages makes them a block. *)
Lemma zone_ref_ok q k raw own z :
  zone_at managed (singles (block q k ++ raw)) own z -> (k < MAX_ORDER)%nat -> aligned k q ->
  zone_at managed (singles raw) ((q, k) :: own) (set_page_count q 1 z).
Proof.
  intros H Hk Ha. pose proof H as [Hc Hn Hpc Hb Hs]. pose proof (pow2_pos k).
  split; [|exact Hn|exact Hpc|exact Hb|exact Hs].
  assert (Hqin : forall r, in_block k q r -> r ∈ block q k) by (intros r Hr; apply elem_of_block; auto).
  assert (Hnd : NoDup ((block q k ++ raw) ++ pages own)).
  { pose proof (core_nodup managed _ _ _ Hc) as Hnd. apply NoDup_app in Hnd as (_ & _ & Hnd). apply NoDup_app in Hnd as (_ & _ & Hnd).
    unfold singles in Hnd. now rewrite pages_singles in Hnd. }
  assert (Hdj : forall r, r ∈ block q k -> r ∉ raw ++ pages own) by (rewrite <- app_assoc in Hnd; apply NoDup_app in Hnd as (_ & Hd & _); exact Hd).
  assert (Hcl : forall r, r ∈ block q k ++ raw -> clean z r) by (intros r; apply (zone_raw_clean _ _ _ r H)).
  assert (Hne : forall r, r ∈ raw ++ pages own -> r <> q).
  { intros r Hr ->. apply (Hdj q); [apply Hqin, in_block_head|exact Hr]. }
  unfold set_page_count, upd_page. apply (core_upd managed (singles (block q k ++ raw)) own _ _ (eq q)); try assumption.
  - unfold singles. rewrite !pages_singles. change (pages ((q, k) :: own)) with (block q k ++ pages own). solve_Permutation.
  - intros r <-. unfold singles. rewrite pages_singles, !elem_of_app. left. left. apply Hqin, in_block_head.
  - intros r Hr. now rewrite decide_False by congruence.
  - intros r <-. rewrite decide_True by reflexivity. cbn [PageBuddy]. apply not_free_unmarked; [apply Hc|].
    apply (core_not_free managed _ own z q Hc). unfold singles. rewrite pages_singles, !elem_of_app. right. left. left. apply Hqin, in_block_head.
  - intros r. apply Z.eq_dec.
  - intros p o [[-> _]%elem_of_singles|[[= -> ->]|Hp]%elem_of_cons]%elem_of_app; [split; [unfold MAX_ORDER; lia|apply aligned_0]|auto|].
    exact (zone_blocks _ _ _ p o H Hp).
  - intros p o r [-> Hr]%elem_of_singles ->%in_block_0. unfold clean. zone_simpl.
    rewrite decide_False by (apply Hne, elem_of_app; now left). apply Hcl, elem_of_app. now right.
  - intros p o r [[= -> ->]|Hp]%elem_of_cons Hr; unfold own_page; zone_simpl.
    + destruct (Hcl r) as (Hc0 & Hb0 & _); [apply elem_of_app; left; now apply Hqin|].
      destruct (decide (r = q)); cbn [bad _count]; auto.
    + rewrite decide_False; [exact (zone_own _ _ _ p o r H Hp Hr)|]. apply Hne, elem_of_app. right.
      apply elem_of_pages; [|now exists p, o]. intros p1 o1 H1. now apply (zone_blocks _ _ _ p1 o1 H).
Qed.

#[local] Instance zone_source : PageSource zone.
Proof.
  refine {| alloc_pages := zone_alloc; set_page_refcounted q z := set_page_count q 1 z; put_pages := free_pages;
            holds raw own z := zone_at managed (singles raw) own z |}.
  - exact zone_perm.
  - intros raw own z [Hc _ _ _ _]. pose proof (core_nodup managed _ _ _ Hc) as Hnd. apply NoDup_app in Hnd as (_ & _ & Hnd).
    apply NoDup_app in Hnd as (_ & _ & Hnd). unfold singles in Hnd. now rewrite pages_singles in Hnd.
  - intros raw own z q [Hc _ _ _ _] Hq. rewrite Forall_forall in managed_range. apply managed_range.
    rewrite <- (co_part _ _ _ _ Hc). unfold singles. rewrite pages_singles, !elem_of_app in *. tauto.
  - exact zone_alloc_ok.
  - exact zone_ref_ok.
  - intros q k raw own z. apply free_pages_held.
Defined.

End Zone.
