(* ===== verification/Nommu.v ===== *)
(** * Memory mappings without an MMU ([mm/nommu.c])

    Regions (blocks of memory with a use count), the areas of processes that refer to
    them, and the system calls that create, shrink, split and remove mappings, in the
    committed configuration: no MPU, no region debugging.  Pointers to [struct vm_region]
    and [struct vm_area_struct] are keys of two heaps; following a pointer that is not in
    its heap is a [BadIndex] fault and a failed [BUG_ON] a [Bug] fault.  The addresses that
    [kmem_cache_alloc] returns are arguments ([None] is NULL).  Red-black trees are the
    lists of their nodes in order.  Pages come from a [PageSource]; their contents are not
    modelled.  The methods of a file and the security hook are arguments too. *)

From stdpp Require Import gmap.
From S2P Require Import Prelude PageAlloc Buddy BuddyAlloc Pcp PageOps PageSource.

(** ** Constants *)

Definition EAGAIN : Z := 11.
Definition EACCES : Z := 13.
Definition EFAULT : Z := 14.
Definition EPERM : Z := 1.
Definition ENOSYS : Z := 38.
Definition EOVERFLOW : Z := 75.
Definition PAGE_MASK : Z := .~ 4095.
Definition TASK_SIZE : Z := 0x800000.                (* CONFIG_DRAM_SIZE *)

Definition PROT_READ : Z := 1.
Definition PROT_WRITE : Z := 2.
Definition PROT_EXEC : Z := 4.
Definition MAP_SHARED : Z := 1.
Definition MAP_PRIVATE : Z := 2.
Definition MAP_TYPE : Z := 0xF.
Definition MAP_FIXED : Z := 0x10.
Definition MAP_GROWSDOWN : Z := 0x100.
Definition MAP_DENYWRITE : Z := 0x800.
Definition MAP_EXECUTABLE : Z := 0x1000.
Definition MAP_LOCKED : Z := 0x2000.
Definition MREMAP_FIXED : Z := 2.
Definition VM_EXEC : Z := 4.
Definition VM_SHARED : Z := 8.
Definition VM_MAYREAD : Z := 0x10.
Definition VM_MAYWRITE : Z := 0x20.
Definition VM_MAYEXEC : Z := 0x40.
Definition VM_MAYSHARE : Z := 0x80.
Definition VM_EXECUTABLE : Z := 0x1000.
Definition VM_MAPPED_COPY : Z := 0x1000000.
Definition BDI_CAP_MAP_COPY : Z := 4.
Definition BDI_CAP_MAP_DIRECT : Z := 8.
Definition BDI_CAP_READ_MAP : Z := 0x10.
Definition BDI_CAP_WRITE_MAP : Z := 0x20.
Definition BDI_CAP_EXEC_MAP : Z := 0x40.
Definition BDI_CAP_VMFLAGS : Z := BDI_CAP_READ_MAP .| BDI_CAP_WRITE_MAP .| BDI_CAP_EXEC_MAP.

(** [flags & mask] as a condition. *)
Definition has (flags mask : Z) : bool := negb ((flags .& mask) =? 0).

Definition PAGE_ALIGN (len : Z) : Z := u32 (len + 4095) .& PAGE_MASK.

(** ** Files *)

Inductive file_type := S_IFREG | S_IFBLK | S_IFCHR | S_IFOTHER.

(** What [mm/nommu.c] looks at in a [struct file]; the methods are given by their results:
    [op_mmap start end pgoff] is the value returned and the new start and end of the area,
    [op_get_unmapped_area] an error or an address, [op_read] the bytes read or an error. *)
Record file := {
  f_id : Z; d_inode : Z; can_mmap : bool; bdi_capabilities : Z; i_mode : file_type;
  can_get_unmapped_area : bool; can_read : bool; fmode_read : bool; fmode_write : bool;
  is_append : bool; verify_locked : bool; mnt_noexec : bool;
  op_mmap : Z -> Z -> Z -> Z * (Z * Z);
  op_get_unmapped_area : Z -> Z -> Z -> Z + Z;
  op_read : Z -> Z -> Z
}.

(** The task and the system settings: READ_IMPLIES_EXEC, whether a debugger sets breakpoints,
    the security hook, [sysctl_nr_trim_pages] and [sysctl_max_map_count]. *)
Record env := {
  read_implies_exec : bool; traced : bool; security_file_mmap : Z -> Z -> Z -> Z;
  sysctl_nr_trim_pages : Z; sysctl_max_map_count : Z
}.

(** ** State *)

Record vm_region := {
  vm_usage : Z; rg_flags : Z; rg_start : Z; rg_end : Z; rg_top : Z; rg_pgoff : Z; rg_file : option file;
  vm_icache_flushed : bool
}.

Record vm_area := { v_start : Z; v_end : Z; v_flags : Z; v_pgoff : Z; v_file : option file; v_region : option Z }.

(** [mmap] is the list of areas, [mm_rb] the tree. *)
Record mm_struct := {
  mmap : list Z; mm_rb : list Z; mmap_cache : option Z; map_count : Z; total_vm : Z; num_exe_file_vmas : Z;
  start_brk : Z; brk : Z; end_brk : Z
}.

(** [f_count] counts the references to each file. *)
Record nommu (PS : Type) := {
  regions : gmap Z vm_region; vmas : gmap Z vm_area; nommu_region_tree : list Z; mms : gmap Z mm_struct;
  mmap_pages_allocated : Z; f_count : Z -> Z; pgs : PS
}.
Arguments regions {PS} _.
Arguments vmas {PS} _.
Arguments nommu_region_tree {PS} _.
Arguments mms {PS} _.
Arguments mmap_pages_allocated {PS} _.
Arguments f_count {PS} _.
Arguments pgs {PS} _.

Definition set_usage r n := {| vm_usage := n; rg_flags := rg_flags r; rg_start := rg_start r; rg_end := rg_end r;
  rg_top := rg_top r; rg_pgoff := rg_pgoff r; rg_file := rg_file r; vm_icache_flushed := vm_icache_flushed r |}.
Definition set_span r s e t := {| vm_usage := vm_usage r; rg_flags := rg_flags r; rg_start := s; rg_end := e;
  rg_top := t; rg_pgoff := rg_pgoff r; rg_file := rg_file r; vm_icache_flushed := vm_icache_flushed r |}.
Definition set_rg_flags r f := {| vm_usage := vm_usage r; rg_flags := f; rg_start := rg_start r; rg_end := rg_end r;
  rg_top := rg_top r; rg_pgoff := rg_pgoff r; rg_file := rg_file r; vm_icache_flushed := vm_icache_flushed r |}.
Definition set_rg_pgoff r o := {| vm_usage := vm_usage r; rg_flags := rg_flags r; rg_start := rg_start r;
  rg_end := rg_end r; rg_top := rg_top r; rg_pgoff := o; rg_file := rg_file r; vm_icache_flushed := vm_icache_flushed r |}.
Definition set_icache r := {| vm_usage := vm_usage r; rg_flags := rg_flags r; rg_start := rg_start r;
  rg_end := rg_end r; rg_top := rg_top r; rg_pgoff := rg_pgoff r; rg_file := rg_file r; vm_icache_flushed := true |}.

Definition set_v_span v s e := {| v_start := s; v_end := e; v_flags := v_flags v; v_pgoff := v_pgoff v;
  v_file := v_file v; v_region := v_region v |}.
Definition set_v_flags v f := {| v_start := v_start v; v_end := v_end v; v_flags := f; v_pgoff := v_pgoff v;
  v_file := v_file v; v_region := v_region v |}.
Definition set_v_pgoff v o := {| v_start := v_start v; v_end := v_end v; v_flags := v_flags v; v_pgoff := o;
  v_file := v_file v; v_region := v_region v |}.
Definition set_v_region v r := {| v_start := v_start v; v_end := v_end v; v_flags := v_flags v; v_pgoff := v_pgoff v;
  v_file := v_file v; v_region := r |}.

Definition set_lists m l t := {| mmap := l; mm_rb := t; mmap_cache := mmap_cache m; map_count := map_count m;
  total_vm := total_vm m; num_exe_file_vmas := num_exe_file_vmas m; start_brk := start_brk m; brk := brk m; end_brk := end_brk m |}.
Definition set_cache m c := {| mmap := mmap m; mm_rb := mm_rb m; mmap_cache := c; map_count := map_count m;
  total_vm := total_vm m; num_exe_file_vmas := num_exe_file_vmas m; start_brk := start_brk m; brk := brk m; end_brk := end_brk m |}.
Definition set_count m n := {| mmap := mmap m; mm_rb := mm_rb m; mmap_cache := mmap_cache m; map_count := n;
  total_vm := total_vm m; num_exe_file_vmas := num_exe_file_vmas m; start_brk := start_brk m; brk := brk m; end_brk := end_brk m |}.
Definition set_total_vm m n := {| mmap := mmap m; mm_rb := mm_rb m; mmap_cache := mmap_cache m; map_count := map_count m;
  total_vm := n; num_exe_file_vmas := num_exe_file_vmas m; start_brk := start_brk m; brk := brk m; end_brk := end_brk m |}.
Definition add_exe m d := {| mmap := mmap m; mm_rb := mm_rb m; mmap_cache := mmap_cache m; map_count := map_count m;
  total_vm := total_vm m; num_exe_file_vmas := num_exe_file_vmas m + d; start_brk := start_brk m; brk := brk m; end_brk := end_brk m |}.
Definition set_brk m b := {| mmap := mmap m; mm_rb := mm_rb m; mmap_cache := mmap_cache m; map_count := map_count m;
  total_vm := total_vm m; num_exe_file_vmas := num_exe_file_vmas m; start_brk := start_brk m; brk := b; end_brk := end_brk m |}.

Section State.

Context {PS : Type}.
Implicit Type st : nommu PS.

Definition set_regions st x : nommu PS := {| regions := x; vmas := vmas st; nommu_region_tree := nommu_region_tree st;
  mms := mms st; mmap_pages_allocated := mmap_pages_allocated st; f_count := f_count st; pgs := pgs st |}.
Definition set_vmas st x : nommu PS := {| regions := regions st; vmas := x; nommu_region_tree := nommu_region_tree st;
  mms := mms st; mmap_pages_allocated := mmap_pages_allocated st; f_count := f_count st; pgs := pgs st |}.
Definition set_tree st x : nommu PS := {| regions := regions st; vmas := vmas st; nommu_region_tree := x;
  mms := mms st; mmap_pages_allocated := mmap_pages_allocated st; f_count := f_count st; pgs := pgs st |}.
Definition set_mms st x : nommu PS := {| regions := regions st; vmas := vmas st; nommu_region_tree := nommu_region_tree st;
  mms := x; mmap_pages_allocated := mmap_pages_allocated st; f_count := f_count st; pgs := pgs st |}.
Definition set_pages st n x : nommu PS := {| regions := regions st; vmas := vmas st; nommu_region_tree := nommu_region_tree st;
  mms := mms st; mmap_pages_allocated := n; f_count := f_count st; pgs := x |}.
Definition add_f_count st (f : file) (d : Z) : nommu PS := {| regions := regions st; vmas := vmas st;
  nommu_region_tree := nommu_region_tree st; mms := mms st; mmap_pages_allocated := mmap_pages_allocated st;
  f_count := fun i => if i =? f_id f then f_count st i + d else f_count st i; pgs := pgs st |}.

Definition deref {A} (m : gmap Z A) (p : Z) : result A := match m !! p with Some a => Ok a | None => Fault BadIndex end.

Definition put_region p r st : nommu PS := set_regions st (<[p := r]> (regions st)).
Definition put_vma p v st : nommu PS := set_vmas st (<[p := v]> (vmas st)).
Definition put_mm p m st : nommu PS := set_mms st (<[p := m]> (mms st)).
Definition free_region p st : nommu PS := set_regions st (delete p (regions st)).
Definition free_vma p st : nommu PS := set_vmas st (delete p (vmas st)).

Definition get_file (f : option file) st : nommu PS := match f with Some f => add_f_count st f 1 | None => st end.
Definition fput (f : option file) st : nommu PS := match f with Some f => add_f_count st f (-1) | None => st end.

(** [removed_exe_file_vma]; the file of the executable itself is not modelled. *)
Definition removed_exe_file_vma (mm : Z) st : result (nommu PS) :=
  let* m := deref (mms st) mm in Ok (put_mm mm (add_exe m (-1)) st).
Definition added_exe_file_vma (mm : Z) st : result (nommu PS) :=
  let* m := deref (mms st) mm in Ok (put_mm mm (add_exe m 1) st).

End State.

Ltac mm_simpl := cbn [regions vmas nommu_region_tree mms mmap_pages_allocated f_count pgs set_regions set_vmas set_tree set_mms
  set_pages add_f_count put_region put_vma put_mm free_region free_vma
  vm_usage rg_flags rg_start rg_end rg_top rg_pgoff rg_file vm_icache_flushed set_usage set_span set_rg_flags set_rg_pgoff set_icache
  v_start v_end v_flags v_pgoff v_file v_region set_v_span set_v_flags set_v_pgoff set_v_region
  mmap mm_rb mmap_cache map_count total_vm num_exe_file_vmas start_brk brk end_brk set_lists set_cache set_count set_total_vm add_exe set_brk].
Tactic Notation "mm_simpl" "in" hyp(H) := cbn [regions vmas nommu_region_tree mms mmap_pages_allocated f_count pgs set_regions set_vmas
  set_tree set_mms set_pages add_f_count put_region put_vma put_mm free_region free_vma
  vm_usage rg_flags rg_start rg_end rg_top rg_pgoff rg_file vm_icache_flushed set_usage set_span set_rg_flags set_rg_pgoff set_icache
  v_start v_end v_flags v_pgoff v_file v_region set_v_span set_v_flags set_v_pgoff set_v_region
  mmap mm_rb mmap_cache map_count total_vm num_exe_file_vmas start_brk brk end_brk set_lists set_cache set_count set_total_vm add_exe set_brk] in H.

Section Ops.

Context {PS : Type} `{PageSource PS}.
Implicit Type st : nommu PS.

(** ** Regions *)

(** Descending the tree by the start address: the place of [r] in the order. *)
Fixpoint region_insert (regs : gmap Z vm_region) (r start : Z) (t : list Z) : result (list Z) :=
  match t with
  | [] => Ok [r]
  | p :: t' =>
      let* pregion := deref regs p in
      if start <? rg_start pregion then Ok (r :: t)
      else if rg_start pregion <? start then
        let* t' := region_insert regs r start t' in Ok (p :: t')
      else if p =? r then Ok t
      else Fault Bug
  end.

Definition add_nommu_region (r : Z) st : result (nommu PS) :=
  let* region := deref (regions st) r in
  let* t := region_insert (regions st) r (rg_start region) (nommu_region_tree st) in
  Ok (set_tree st t).

Definition BUG_ON (b : bool) : result unit := if b then Fault Bug else Ok tt.

Definition is_nil {A} (l : list A) : bool := match l with [] => true | _ => false end.

Definition delete_nommu_region (r : Z) st : result (nommu PS) :=
  let* _ := BUG_ON (is_nil (nommu_region_tree st)) in
  if bool_decide (r ∈ nommu_region_tree st) then Ok (set_tree st (filter (fun p => p <> r) (nommu_region_tree st)))
  else Fault BadIndex.

(** The pages of a loop [for (; from < to; from += PAGE_SIZE)], which drops a reference on each. *)
Fixpoint free_page_loop (l : list Z) st : result (nommu PS) :=
  match l with
  | [] => Ok st
  | page :: l =>
      let* s := put_pages page 0 (pgs st) in
      free_page_loop l (set_pages st (mmap_pages_allocated st - 1) s)
  end.

Definition free_page_series (from to : Z) st : result (nommu PS) :=
  free_page_loop (seqZ (from / 4096) ((to - from + 4095) / 4096)) st.

Definition put_nommu_region (r : Z) st : result (nommu PS) :=
  let* _ := BUG_ON (is_nil (nommu_region_tree st)) in
  let* region := deref (regions st) r in
  let region := set_usage region (vm_usage region - 1) in
  let st := put_region r region st in
  if vm_usage region =? 0 then
    let* st := if rg_start region <? rg_top region then delete_nommu_region r st else Ok st in
    let st := fput (rg_file region) st in
    let* st := if has (rg_flags region) VM_MAPPED_COPY then free_page_series (rg_start region) (rg_top region) st else Ok st in
    Ok (free_region r st)
  else Ok st.

(** ** Areas *)

(** The order of the tree: start, end, address of the structure. *)
Definition vma_less (p : Z) (v : vm_area) (q : Z) (w : vm_area) : bool :=
  if v_start v <? v_start w then true
  else if v_start w <? v_start v then false
  else if v_end v <? v_end w then true
  else if v_end w <? v_end v then false
  else p <? q.

Fixpoint vma_insert (vs : gmap Z vm_area) (p : Z) (v : vm_area) (t : list Z) : result (list Z) :=
  match t with
  | [] => Ok [p]
  | q :: t' =>
      let* w := deref vs q in
      if vma_less p v q w then Ok (p :: t)
      else if vma_less q w p v then
        let* t' := vma_insert vs p v t' in Ok (q :: t')
      else Fault Bug
  end.

(** The list: by start, and longer areas first among those with the same start. *)
Fixpoint list_insert (vs : gmap Z vm_area) (p : Z) (v : vm_area) (l : list Z) : result (list Z) :=
  match l with
  | [] => Ok [p]
  | q :: l' =>
      let* w := deref vs q in
      if v_start v <? v_start w then Ok (p :: l)
      else if v_start w <? v_start v then
        let* l' := list_insert vs p v l' in Ok (q :: l')
      else if v_end w <? v_end v then Ok (p :: l)
      else let* l' := list_insert vs p v l' in Ok (q :: l')
  end.

Definition add_vma_to_mm (mm p : Z) st : result (nommu PS) :=
  let* v := deref (vmas st) p in
  let* _ := BUG_ON (match v_region v with None => true | _ => false end) in
  let* m := deref (mms st) mm in
  let* t := vma_insert (vmas st) p v (mm_rb m) in
  let* l := list_insert (vmas st) p v (mmap m) in
  Ok (put_mm mm (set_lists (set_count m (map_count m + 1)) l t) st).

Definition delete_vma_from_mm (mm p : Z) st : result (nommu PS) :=
  let* m := deref (mms st) mm in
  let m := set_count m (map_count m - 1) in
  let m := if bool_decide (mmap_cache m = Some p) then set_cache m None else m in
  if bool_decide (p ∈ mm_rb m) then
    Ok (put_mm mm (set_lists m (filter (fun q => q <> p) (mmap m)) (filter (fun q => q <> p) (mm_rb m))) st)
  else Fault BadIndex.

Definition delete_vma (mm p : Z) st : result (nommu PS) :=
  let* v := deref (vmas st) p in
  let* st := match v_file v with
             | Some f =>
                 let st := fput (Some f) st in
                 if has (v_flags v) VM_EXECUTABLE then removed_exe_file_vma mm st else Ok st
             | None => Ok st
             end in
  match v_region v with
  | None => Fault BadIndex
  | Some r => let* st := put_nommu_region r st in Ok (free_vma p st)
  end.

(** The first area in the tree that contains [addr]. *)
Fixpoint find_vma_loop (vs : gmap Z vm_area) (addr : Z) (t : list Z) : result (option Z) :=
  match t with
  | [] => Ok None
  | p :: t =>
      let* v := deref vs p in
      if addr <? v_start v then Ok None
      else if addr <? v_end v then Ok (Some p)
      else find_vma_loop vs addr t
  end.

Definition find_vma (mm addr : Z) st : result (option Z * nommu PS) :=
  let* m := deref (mms st) mm in
  let* hit := match mmap_cache m with
              | None => Ok None
              | Some p => let* v := deref (vmas st) p in
                          Ok (if (v_start v <=? addr) && (addr <? v_end v) then Some p else None)
              end in
  match hit with
  | Some p => Ok (Some p, st)
  | None =>
      let* r := find_vma_loop (vmas st) addr (mm_rb m) in
      Ok (match r with Some p => (Some p, put_mm mm (set_cache m (Some p)) st) | None => (None, st) end)
  end.

Fixpoint find_exact_loop (vs : gmap Z vm_area) (addr fin : Z) (t : list Z) : result (option Z) :=
  match t with
  | [] => Ok None
  | p :: t =>
      let* v := deref vs p in
      if v_start v <? addr then find_exact_loop vs addr fin t
      else if addr <? v_start v then Ok None
      else if v_end v =? fin then Ok (Some p)
      else find_exact_loop vs addr fin t
  end.

Definition find_vma_exact (mm addr len : Z) st : result (option Z * nommu PS) :=
  let fin := u32 (addr + len) in
  let* m := deref (mms st) mm in
  let* hit := match mmap_cache m with
              | None => Ok None
              | Some p => let* v := deref (vmas st) p in
                          Ok (if (v_start v =? addr) && (v_end v =? fin) then Some p else None)
              end in
  match hit with
  | Some p => Ok (Some p, st)
  | None =>
      let* r := find_exact_loop (vmas st) addr fin (mm_rb m) in
      Ok (match r with Some p => (Some p, put_mm mm (set_cache m (Some p)) st) | None => (None, st) end)
  end.

(** ** Creating mappings *)

Section Mmap.

Context (e : env).

(** The error or the capabilities; the early returns are the [inl] cases. *)
Definition file_capabilities (f : file) : Z + Z :=
  let capabilities := bdi_capabilities f in
  let c := if negb (capabilities =? 0) then inr capabilities
           else match i_mode f with
                | S_IFREG | S_IFBLK => inr BDI_CAP_MAP_COPY
                | S_IFCHR => inr (BDI_CAP_MAP_DIRECT .| BDI_CAP_READ_MAP .| BDI_CAP_WRITE_MAP)
                | S_IFOTHER => inl (- EINVAL)
                end in
  match c with
  | inl ret => inl ret
  | inr c =>
      let c := if can_get_unmapped_area f then c else c .& .~ BDI_CAP_MAP_DIRECT in
      inr (if can_read f then c else c .& .~ BDI_CAP_MAP_COPY)
  end.

Definition validate_file (f : file) (prot flags : Z) : Z + (Z * Z) :=
  if negb (can_mmap f) then inl (- ENODEV)
  else match file_capabilities f with
  | inl ret => inl ret
  | inr c =>
      if negb (fmode_read f) then inl (- EACCES)
      else
        let c :=
          if has flags MAP_SHARED then
            if has prot PROT_WRITE && negb (fmode_write f) then inl (- EACCES)
            else if is_append f && fmode_write f then inl (- EACCES)
            else if verify_locked f then inl (- EAGAIN)
            else if negb (has c BDI_CAP_MAP_DIRECT) then inl (- ENODEV)
            else if (has prot PROT_READ && negb (has c BDI_CAP_READ_MAP))
                    || (has prot PROT_WRITE && negb (has c BDI_CAP_WRITE_MAP))
                    || (has prot PROT_EXEC && negb (has c BDI_CAP_EXEC_MAP)) then inl (- EINVAL)
            else inr (c .& .~ BDI_CAP_MAP_COPY)
          else if negb (has c BDI_CAP_MAP_COPY) then inl (- ENODEV)
          else inr (if has prot PROT_WRITE then c .& .~ BDI_CAP_MAP_DIRECT else c) in
        match c with
        | inl ret => inl ret
        | inr c =>
            if mnt_noexec f then if has prot PROT_EXEC then inl (- EPERM) else inr (c, prot)
            else if has prot PROT_READ && negb (has prot PROT_EXEC) then
              inr (c, if read_implies_exec e && has c BDI_CAP_EXEC_MAP then prot .| PROT_EXEC else prot)
            else if has prot PROT_READ && has prot PROT_EXEC && negb (has c BDI_CAP_EXEC_MAP) then
              inr (c .& .~ BDI_CAP_MAP_DIRECT, prot)
            else inr (c, prot)
        end
  end.

Definition validate_mmap_request (f : option file) (len prot flags pgoff : Z) : Z + Z :=
  if has flags MAP_FIXED then inl (- EINVAL)
  else if negb ((flags .& MAP_TYPE) =? MAP_PRIVATE) && negb ((flags .& MAP_TYPE) =? MAP_SHARED) then inl (- EINVAL)
  else if len =? 0 then inl (- EINVAL)
  else
    let rlen := PAGE_ALIGN len in
    if (rlen =? 0) || (TASK_SIZE <? rlen) then inl (- ENOMEM)
    else if u32 (pgoff + (rlen .>> 12)) <? pgoff then inl (- EOVERFLOW)
    else
      let c := match f with
               | Some f => validate_file f prot flags
               | None => inr (BDI_CAP_MAP_COPY,
                              if has prot PROT_READ && read_implies_exec e then prot .| PROT_EXEC else prot)
               end in
      match c with
      | inl ret => inl ret
      | inr (c, prot') =>
          let ret := security_file_mmap e prot prot' flags in
          if ret <? 0 then inl ret else inr c
      end.

(** [calc_vm_prot_bits] and [calc_vm_flag_bits]: the bits have the same values. *)
Definition calc_vm_prot_bits (prot : Z) : Z := (prot .& PROT_READ) .| (prot .& PROT_WRITE) .| (prot .& PROT_EXEC).
Definition calc_vm_flag_bits (flags : Z) : Z :=
  (flags .& MAP_GROWSDOWN) .| (flags .& MAP_DENYWRITE) .| (flags .& MAP_EXECUTABLE) .| (flags .& MAP_LOCKED).

Definition determine_vm_flags (f : option file) (prot flags capabilities : Z) : Z :=
  let vm_flags := calc_vm_prot_bits prot .| calc_vm_flag_bits flags in
  let vm_flags := vm_flags .| (VM_MAYREAD .| VM_MAYWRITE .| VM_MAYEXEC) in
  let vm_flags :=
    if negb (has capabilities BDI_CAP_MAP_DIRECT) then
      if bool_decide (is_Some f) && negb (has prot PROT_WRITE) then vm_flags .| VM_MAYSHARE else vm_flags
    else if has flags MAP_SHARED then vm_flags .| (VM_MAYSHARE .| VM_SHARED)
    else if (Z.lxor (vm_flags .& capabilities) vm_flags .& BDI_CAP_VMFLAGS) =? 0 then vm_flags .| VM_MAYSHARE
    else vm_flags in
  if has flags MAP_PRIVATE && traced e then vm_flags .& .~ VM_MAYSHARE else vm_flags.

(** The call of the file's own method, which may move the area. *)
Definition call_mmap (p : Z) st : result (Z * nommu PS) :=
  let* v := deref (vmas st) p in
  match v_file v with
  | None => Fault BadIndex
  | Some f =>
      let '(ret, (s, x)) := op_mmap f (v_start v) (v_end v) (v_pgoff v) in
      Ok (ret, put_vma p (set_v_span v s x) st)
  end.

(** [vma->vm_region->vm_top = vma->vm_region->vm_end]. *)
Definition top_is_end (p : Z) st : result (nommu PS) :=
  let* v := deref (vmas st) p in
  match v_region v with
  | None => Fault BadIndex
  | Some r => let* reg := deref (regions st) r in
              Ok (put_region r (set_span reg (rg_start reg) (rg_end reg) (rg_end reg)) st)
  end.

Definition do_mmap_shared_file (p : Z) st : result (Z * nommu PS) :=
  let* (ret, st) := call_mmap p st in
  if ret =? 0 then let* st := top_is_end p st in Ok (0, st)
  else if negb (ret =? - ENOSYS) then Ok (ret, st)
  else Ok (- ENODEV, st).

(** [while (total > point)]: blocks of the largest power of two are shaved off the end. *)
Fixpoint trim_loop (fuel : nat) (page total point : Z) st : result (Z * nommu PS) :=
  match fuel with
  | O => Fault Stuck
  | S fuel =>
      if point <? total then
        let order := Z.to_nat (Z.log2 (total - point)) in
        let n := 1 .<< Z.of_nat order in
        let total := total - n in
        let s := set_page_refcounted (page + total) (pgs st) in
        let* s := put_pages (page + total) order s in
        trim_loop fuel page total point (set_pages st (mmap_pages_allocated st - n) s)
      else Ok (total, st)
  end.

(** Pages for a mapping of [rlen] bytes, each with a reference: the first page and the number of pages. *)
Definition alloc_mapping (rlen : Z) st : result (option (Z * Z) * nommu PS) :=
  let order := get_order rlen in
  let* (pages, s) := alloc_pages order (pgs st) in
  match pages with
  | None => Ok (None, set_pages st (mmap_pages_allocated st) s)
  | Some page =>
      let total := 1 .<< Z.of_nat order in
      let st := set_pages st (mmap_pages_allocated st + total) s in
      let point := rlen .>> 12 in
      let* (total, st) :=
        if negb (sysctl_nr_trim_pages e =? 0) && (sysctl_nr_trim_pages e <=? total - point)
        then trim_loop 33 page total point st else Ok (total, st) in
      let s := foldl (fun s q => set_page_refcounted q s) (pgs st) (seqZ (page + 1) (total - 1)) in
      Ok (Some (page, total), set_pages st (mmap_pages_allocated st) s)
  end.

Definition do_mmap_private (p r len capabilities : Z) st : result (Z * nommu PS) :=
  let* d := if has capabilities BDI_CAP_MAP_DIRECT then
              let* (ret, st) := call_mmap p st in
              if ret =? 0 then
                let* v := deref (vmas st) p in
                let* _ := BUG_ON (negb (has (v_flags v) VM_MAYSHARE)) in
                let* st := top_is_end p st in Ok (inl (0, st))
              else if negb (ret =? - ENOSYS) then Ok (inl (ret, st)) else Ok (inr st)
            else Ok (inr st) in
  match d with
  | inl res => Ok res
  | inr st =>
      let rlen := PAGE_ALIGN len in
      let* (pages, st) := alloc_mapping rlen st in
      match pages with
      | None => Ok (- ENOMEM, st)
      | Some (page, total) =>
          let* v := deref (vmas st) p in
          let* region := deref (regions st) r in
          let base := u32 (page * 4096) in
          let flags := v_flags v .| VM_MAPPED_COPY in
          let region := set_span (set_rg_flags region flags) base (u32 (base + rlen)) (u32 (base + (total .<< 12))) in
          let v := set_v_span (set_v_flags v flags) base (u32 (base + len)) in
          let st := put_vma p v (put_region r region st) in
          match v_file v with
          | None => Ok (0, st)
          | Some f =>
              let ret := op_read f (v_pgoff v) rlen in
              if ret <? 0 then
                let* st := free_page_series (rg_start region) (rg_end region) st in
                let st := put_vma p (set_v_span v 0 0) (put_region r (set_span region 0 0 0) st) in
                Ok (ret, st)
              else Ok (0, st)
          end
      end
  end.

(** The search for a region to share. *)
Inductive share_result := NoShare | SharingViolation | Share (p : Z).

Fixpoint share_search (regs : gmap Z vm_region) (f : file) (pglen pgoff capabilities : Z) (t : list Z) : result share_result :=
  match t with
  | [] => Ok NoShare
  | q :: t =>
      let* pregion := deref regs q in
      let pgend := u32 (pgoff + pglen) in
      if negb (has (rg_flags pregion) VM_MAYSHARE) then share_search regs f pglen pgoff capabilities t
      else match rg_file pregion with
      | None => Fault BadIndex
      | Some g =>
          if negb (d_inode g =? d_inode f) then share_search regs f pglen pgoff capabilities t
          else if pgend <=? rg_pgoff pregion then share_search regs f pglen pgoff capabilities t
          else
            let rpglen := u32 (u32 (rg_end pregion - rg_start pregion) + 4095) .>> 12 in
            let rpgend := u32 (rg_pgoff pregion + rpglen) in
            if rpgend <=? pgoff then share_search regs f pglen pgoff capabilities t
            else if (negb (rg_pgoff pregion =? pgoff) || negb (rpglen =? pglen))
                    && negb ((rg_pgoff pregion <=? pgoff) && (pgend <=? rpgend)) then
              if negb (has capabilities BDI_CAP_MAP_DIRECT) then Ok SharingViolation
              else share_search regs f pglen pgoff capabilities t
            else Ok (Share q)
      end
  end.

(** The labels [error_just_free] and [error]. *)
Definition mmap_error (cur p r ret : Z) st : result (Z * nommu PS) :=
  let* region := deref (regions st) r in
  let st := free_region r (fput (rg_file region) st) in
  let* v := deref (vmas st) p in
  let st := fput (v_file v) st in
  let* st := if has (v_flags v) VM_EXECUTABLE
             then match v_file v with Some _ => removed_exe_file_vma cur st | None => Fault BadIndex end
             else Ok st in
  Ok (ret, free_vma p st).

(** The label [share]. *)
Definition mmap_share (cur p r result_ : Z) st : result (Z * nommu PS) :=
  let* st := add_vma_to_mm cur p st in
  let* v := deref (vmas st) p in
  let* region := deref (regions st) r in
  let st := if has (v_flags v) VM_EXEC && negb (vm_icache_flushed region) then put_region r (set_icache region) st else st in
  Ok (result_, st).

(** The mapping shares the region [q]. *)
Definition mmap_shared (cur p r q len pgoff : Z) st : result (Z * nommu PS) :=
  let* pregion := deref (regions st) q in
  let st := put_region q (set_usage pregion (vm_usage pregion + 1)) st in
  let* v := deref (vmas st) p in
  let start := u32 (rg_start pregion + ((pgoff - rg_pgoff pregion) .<< 12)) in
  let v := set_v_span (set_v_region v (Some q)) start (u32 (start + len)) in
  let* ok :=
    if has (rg_flags pregion) VM_MAPPED_COPY
    then Ok (inr (put_vma p (set_v_flags v (v_flags v .| VM_MAPPED_COPY)) st))
    else
      let* (ret, st) := do_mmap_shared_file p (put_vma p v st) in
      if ret <? 0 then
        let* v := deref (vmas st) p in
        let* pregion := deref (regions st) q in
        Ok (inl (ret, put_region q (set_usage pregion (vm_usage pregion - 1)) (put_vma p (set_v_span (set_v_region v None) 0 0) st)))
      else Ok (inr st) in
  match ok with
  | inl (ret, st) => mmap_error cur p r ret st
  | inr st =>
      let* region := deref (regions st) r in
      mmap_share cur p q start (free_region r (fput (rg_file region) st))
  end.

(** [get_unmapped_area]: an error, or the capabilities that are left. *)
Definition site_mapping (p r : Z) (f : file) (len pgoff flags capabilities : Z) st : result (Z + Z * nommu PS) :=
  if has capabilities BDI_CAP_MAP_DIRECT then
    match op_get_unmapped_area f len pgoff flags with
    | inl ret =>
        if negb (ret =? - ENOSYS) then Ok (inl ret)
        else if negb (has capabilities BDI_CAP_MAP_COPY) then Ok (inl (- ENODEV))
        else Ok (inr (capabilities .& .~ BDI_CAP_MAP_DIRECT, st))
    | inr addr =>
        let* v := deref (vmas st) p in
        let* region := deref (regions st) r in
        let fin := u32 (addr + len) in
        Ok (inr (capabilities, put_vma p (set_v_span v addr fin) (put_region r (set_span region addr fin (rg_top region)) st)))
    end
  else Ok (inr (capabilities, st)).

(** From "vma->vm_region = region" on. *)
Definition mmap_setup (cur p r : Z) (f : option file) (len capabilities : Z) st : result (Z * nommu PS) :=
  let* v := deref (vmas st) p in
  let st := put_vma p (set_v_region v (Some r)) st in
  let* (ret, st) := if bool_decide (is_Some f) && has (v_flags v) VM_SHARED then do_mmap_shared_file p st
                    else do_mmap_private p r len capabilities st in
  if ret <? 0 then mmap_error cur p r ret st
  else
    let* st := add_nommu_region r st in
    let* v := deref (vmas st) p in
    let* m := deref (mms st) cur in
    let st := put_mm cur (set_total_vm m (total_vm m + (len .>> 12))) st in
    mmap_share cur p r (v_start v) st.

Definition do_mmap_pgoff (cur : Z) (f : option file) (len prot flags pgoff : Z) (new_region new_vma : option Z) st :
    result (Z * nommu PS) :=
  match validate_mmap_request f len prot flags pgoff with
  | inl ret => Ok (ret, st)
  | inr capabilities =>
      let vm_flags := determine_vm_flags f prot flags capabilities in
      match new_region, new_vma with
      | None, _ => Ok (- ENOMEM, st)
      | Some _, None => Ok (- ENOMEM, st)
      | Some r, Some p =>
          let region := {| vm_usage := 1; rg_flags := vm_flags; rg_start := 0; rg_end := 0; rg_top := 0; rg_pgoff := pgoff;
                           rg_file := f; vm_icache_flushed := false |} in
          let v := {| v_start := 0; v_end := 0; v_flags := vm_flags; v_pgoff := pgoff; v_file := f; v_region := None |} in
          let st := put_vma p v (put_region r region st) in
          let st := get_file f (get_file f st) in
          let* st := if bool_decide (is_Some f) && has vm_flags VM_EXECUTABLE then added_exe_file_vma cur st else Ok st in
          if has vm_flags VM_MAYSHARE then
            match f with
            | None => Fault BadIndex
            | Some g =>
                let pglen := u32 (len + 4095) .>> 12 in
                let* sr := share_search (regions st) g pglen pgoff capabilities (nommu_region_tree st) in
                match sr with
                | SharingViolation => mmap_error cur p r (- EINVAL) st
                | Share q => mmap_shared cur p r q len pgoff st
                | NoShare =>
                    let* c := site_mapping p r g len pgoff flags capabilities st in
                    match c with
                    | inl ret => mmap_error cur p r ret st
                    | inr (capabilities, st) => mmap_setup cur p r f len capabilities st
                    end
                end
            end
          else mmap_setup cur p r f len capabilities st
      end
  end.

(** The system call: [fd] is what [fget] finds for the descriptor, [anon] MAP_ANONYMOUS. *)
Definition sys_mmap_pgoff (cur : Z) (anon : bool) (fd : option file) (len prot flags pgoff : Z) (new_region new_vma : option Z) st :
    result (Z * nommu PS) :=
  let flags := flags .& .~ (MAP_EXECUTABLE .| MAP_DENYWRITE) in
  if anon then do_mmap_pgoff cur None len prot flags pgoff new_region new_vma st
  else match fd with
  | None => Ok (- 9, st)                             (* -EBADF *)
  | Some f =>
      let* (ret, st) := do_mmap_pgoff cur (Some f) len prot flags pgoff new_region new_vma (get_file (Some f) st) in
      Ok (ret, fput (Some f) st)
  end.

(** ** Removing mappings *)

Definition split_vma (mm p addr : Z) (new_below : bool) (new_region new_vma : option Z) st : result (Z * nommu PS) :=
  let* v := deref (vmas st) p in
  let* m := deref (mms st) mm in
  if bool_decide (is_Some (v_file v)) then Ok (- ENOMEM, st)
  else if sysctl_max_map_count e <=? map_count m then Ok (- ENOMEM, st)
  else match new_region, new_vma, v_region v with
  | None, _, _ => Ok (- ENOMEM, st)
  | Some _, None, _ => Ok (- ENOMEM, st)
  | Some _, Some _, None => Fault BadIndex
  | Some r', Some p', Some r =>
      let* region := deref (regions st) r in
      let npages := (addr - v_start v) .>> 12 in
      let region' := if new_below then set_span region (rg_start region) addr addr
                     else set_rg_pgoff (set_span region addr (rg_end region) (rg_top region)) (u32 (v_pgoff v + npages)) in
      let v' := set_v_region (if new_below then set_v_span v (v_start v) addr
                              else set_v_pgoff (set_v_span v addr (v_end v)) (u32 (v_pgoff v + npages))) (Some r') in
      let st := put_region r' region' (put_vma p' v' st) in
      let* st := delete_vma_from_mm mm p st in
      let* st := delete_nommu_region r st in
      let region := if new_below then set_rg_pgoff (set_span region addr (rg_end region) (rg_top region)) (u32 (v_pgoff v + npages))
                    else set_span region (rg_start region) addr addr in
      let v := if new_below then set_v_pgoff (set_v_span v addr (v_end v)) (u32 (v_pgoff v + npages))
               else set_v_span v (v_start v) addr in
      let st := put_region r region (put_vma p v st) in
      let* st := add_nommu_region r st in
      let* st := add_nommu_region r' st in
      let* st := add_vma_to_mm mm p st in
      let* st := add_vma_to_mm mm p' st in
      Ok (0, st)
  end.

Definition shrink_vma (mm p from to : Z) st : result (Z * nommu PS) :=
  let* st := delete_vma_from_mm mm p st in
  let* v := deref (vmas st) p in
  let v := if v_start v <? from then set_v_span v (v_start v) from else set_v_span v to (v_end v) in
  let* st := add_vma_to_mm mm p (put_vma p v st) in
  match v_region v with
  | None => Fault BadIndex
  | Some r =>
      let* region := deref (regions st) r in
      let* _ := BUG_ON (negb (vm_usage region =? 1)) in
      let* st := delete_nommu_region r st in
      let '(region, to) := if rg_start region <? from then (set_span region (rg_start region) from from, rg_top region)
                           else (set_span region to (rg_end region) (rg_top region), to) in
      let* st := add_nommu_region r (put_region r region st) in
      let* st := free_page_series from to st in
      Ok (0, st)
  end.

(** The loop over the areas from the one found on, for a file mapping. *)
Fixpoint munmap_file_loop (vs : gmap Z vm_area) (start fin : Z) (t : list Z) : result (option Z) :=
  match t with
  | [] => Ok None
  | p :: t =>
      let* v := deref vs p in
      if v_start v <? start then Ok None
      else if fin =? v_end v then Ok (Some p)
      else munmap_file_loop vs start fin t
  end.

(** The areas of the tree from [p] on. *)
Fixpoint from_vma (p : Z) (t : list Z) : list Z :=
  match t with [] => [] | q :: t' => if q =? p then t else from_vma p t' end.

Definition erase_whole_vma (mm p : Z) st : result (Z * nommu PS) :=
  let* st := delete_vma_from_mm mm p st in
  let* st := delete_vma mm p st in
  Ok (0, st).

Definition do_munmap (mm start len : Z) (new_region new_vma : option Z) st : result (Z * nommu PS) :=
  let fin := u32 (start + len) in
  if len =? 0 then Ok (- EINVAL, st)
  else
    let* (hit, st) := find_vma mm start st in
    match hit with
    | None => Ok (- EINVAL, st)
    | Some p =>
        let* v := deref (vmas st) p in
        if bool_decide (is_Some (v_file v)) then
          let* m := deref (mms st) mm in
          let* q := munmap_file_loop (vmas st) start fin (from_vma p (mm_rb m)) in
          match q with
          | Some q => erase_whole_vma mm q st
          | None => Ok (- EINVAL, st)
          end
        else if (start =? v_start v) && (fin =? v_end v) then erase_whole_vma mm p st
        else if (start <? v_start v) || (v_end v <? fin) then Ok (- EINVAL, st)
        else if has start (.~ PAGE_MASK) then Ok (- EINVAL, st)
        else if negb (fin =? v_end v) && has fin (.~ PAGE_MASK) then Ok (- EINVAL, st)
        else if negb (start =? v_start v) && negb (fin =? v_end v) then
          let* (ret, st) := split_vma mm p start true new_region new_vma st in
          if ret <? 0 then Ok (ret, st) else shrink_vma mm p start fin st
        else shrink_vma mm p start fin st
    end.

End Mmap.

(** [n] bounds the areas. *)
Fixpoint exit_loop (n : nat) (mm : Z) st : result (nommu PS) :=
  let* m := deref (mms st) mm in
  match mmap m with
  | [] => Ok st
  | p :: rest =>
      match n with
      | O => Fault Stuck
      | S n =>
          let* st := delete_vma_from_mm mm p (put_mm mm (set_lists m rest (mm_rb m)) st) in
          let* st := delete_vma mm p st in
          exit_loop n mm st
      end
  end.

Definition exit_mmap (mm : Z) st : result (nommu PS) :=
  let* m := deref (mms st) mm in
  exit_loop (length (mmap m)) mm (put_mm mm (set_total_vm m 0) st).

(** ** Changing a mapping's size, and the heap *)

Definition do_mremap (cur addr old_len new_len flags new_addr : Z) st : result (Z * nommu PS) :=
  if (old_len =? 0) || (new_len =? 0) then Ok (- EINVAL, st)
  else if has addr (.~ PAGE_MASK) then Ok (- EINVAL, st)
  else if has flags MREMAP_FIXED && negb (new_addr =? addr) then Ok (- EINVAL, st)
  else
    let* (hit, st) := find_vma_exact cur addr old_len st in
    match hit with
    | None => Ok (- EINVAL, st)
    | Some p =>
        let* v := deref (vmas st) p in
        if negb (v_end v =? u32 (v_start v + old_len)) then Ok (- EFAULT, st)
        else if has (v_flags v) VM_MAYSHARE then Ok (- EPERM, st)
        else match v_region v with
        | None => Fault BadIndex
        | Some r =>
            let* region := deref (regions st) r in
            if u32 (rg_end region - rg_start region) <? new_len then Ok (- ENOMEM, st)
            else Ok (v_start v, put_vma p (set_v_span v (v_start v) (u32 (v_start v + new_len))) st)
        end
    end.

Definition sys_brk (cur b : Z) st : result (Z * nommu PS) :=
  let* m := deref (mms st) cur in
  if (b <? start_brk m) || (end_brk m <? b) then Ok (brk m, st)
  else if brk m =? b then Ok (brk m, st)
  else Ok (b, put_mm cur (set_brk m b) st).

(** The number of bytes [access_process_vm] copies. *)
Definition access_process_vm (mm addr len : Z) (write : bool) st : result (Z * nommu PS) :=
  if u32 (addr + len) <? addr then Ok (0, st)
  else
    let* (hit, st) := find_vma mm addr st in
    match hit with
    | None => Ok (0, st)
    | Some p =>
        let* v := deref (vmas st) p in
        let len := if v_end v <=? u32 (addr + len) then u32 (v_end v - addr) else len in
        Ok (if (write && has (v_flags v) VM_MAYWRITE) || (negb write && has (v_flags v) VM_MAYREAD) then len else 0, st)
    end.

(** The consistency check of CONFIG_DEBUG_NOMMU_REGIONS: [true] when no [BUG_ON] of it fires. *)
Fixpoint validate_nommu_regions (regs : list vm_region) (last : option vm_region) : bool :=
  match regs with
  | [] => true
  | r :: regs =>
      (rg_start r <? rg_end r) && (rg_end r <=? rg_top r)
      && match last with Some l => rg_top l <=? rg_start r | None => true end
      && validate_nommu_regions regs (Some r)
  end.

End Ops.
