(* ===== verification/NommuLib.v ===== *)
(** * Mappings without an MMU: sums over heaps, ordered trees

    The generic facts the invariant of [mm/nommu.c] is made of: sums and lists over
    the entries of a heap, and insertion into the ordered lists that stand for trees. *)

From stdpp Require Import gmap sorting.
From S2P Require Import Prelude PageAlloc Buddy BuddyAlloc Pcp PageOps PageSource Nommu.

(** ** Sums over a heap *)

Definition msum {A} (f : A -> Z) (m : gmap Z A) : Z := foldr Z.add 0 (map f (map_to_list m).*2).

(** The concatenation of the lists of its entries. *)
Definition mlist {A B} (f : A -> list B) (m : gmap Z A) : list B := (map_to_list m).*2 ≫= f.

Section Sums.

Context {A : Type}.
Implicit Types (m : gmap Z A) (f : A -> Z).

#[local] Instance foldr_add_perm : Proper ((≡ₚ) ==> eq) (foldr Z.add 0).
Proof. intros l l' H. induction H; cbn; lia. Qed.

Lemma msum_insert f m i x : m !! i = None -> msum f (<[i := x]> m) = f x + msum f m.
Proof. intros Hi. unfold msum. rewrite (map_to_list_insert m i x Hi). reflexivity. Qed.

Lemma msum_delete f m i x : m !! i = Some x -> msum f m = f x + msum f (delete i m).
Proof. intros Hi. rewrite <- (msum_insert f (delete i m) i x) by apply lookup_delete_eq. now rewrite insert_delete_id. Qed.

Lemma msum_update f m i x y : m !! i = Some x -> msum f (<[i := y]> m) = msum f m - f x + f y.
Proof.
  intros Hi. rewrite <- insert_delete_eq, msum_insert by apply lookup_delete_eq. rewrite (msum_delete f m i x Hi). lia.
Qed.

Lemma msum_nonneg f m : (forall x, 0 <= f x) -> 0 <= msum f m.
Proof. intros Hf. unfold msum. induction (map_to_list m).*2 as [|x l IH]; cbn; [lia|specialize (Hf x); lia]. Qed.

Lemma msum_pos f m i x : (forall x, 0 <= f x) -> m !! i = Some x -> f x <= msum f m.
Proof. intros Hf Hi. rewrite (msum_delete f m i x Hi). pose proof (msum_nonneg f (delete i m) Hf). lia. Qed.

Lemma msum_two f m i j x y :
  (forall x, 0 <= f x) -> m !! i = Some x -> m !! j = Some y -> i <> j -> f x + f y <= msum f m.
Proof.
  intros Hf Hi Hj Hne. rewrite (msum_delete f m i x Hi). pose proof (msum_pos f (delete i m) j y Hf) as H.
  rewrite lookup_delete_ne in H by exact Hne. specialize (H Hj). lia.
Qed.

Lemma msum_zero f m : (forall i x, m !! i = Some x -> f x = 0) -> msum f m = 0.
Proof.
  intros H. assert (Hl : forall x, x ∈ (map_to_list m).*2 -> f x = 0).
  { intros x Hx. apply list_elem_of_fmap in Hx as ([i y] & -> & Hy). apply elem_of_map_to_list in Hy. now apply (H i). }
  unfold msum. induction (map_to_list m).*2 as [|x l IH]; [reflexivity|]. cbn. rewrite (Hl x) by left. rewrite IH; [lia|].
  intros y Hy. apply Hl. now right.
Qed.

(** A positive sum has a positive entry. *)
Lemma msum_witness f m : (forall x, 0 <= f x) -> 0 < msum f m -> exists i x, m !! i = Some x /\ 0 < f x.
Proof.
  intros Hf H. destruct (decide (Exists (fun p : Z * A => 0 < f p.2) (map_to_list m))) as [He|Hn].
  - apply Exists_exists in He as ([i x] & Hp & Hx). exists i, x. split; [now apply elem_of_map_to_list|exact Hx].
  - exfalso. rewrite (msum_zero f m) in H; [lia|]. intros i x Hi. specialize (Hf x). destruct (Z.eq_dec (f x) 0); [assumption|].
    exfalso. apply Hn, Exists_exists. exists (i, x). split; [now apply elem_of_map_to_list|cbn; lia].
Qed.

(** The keys of a heap. *)
Definition keys m : list Z := (map_to_list m).*1.

Lemma elem_of_keys m k : k ∈ keys m <-> is_Some (m !! k).
Proof.
  unfold keys. rewrite list_elem_of_fmap. split.
  - intros ([i x] & -> & Hp). apply elem_of_map_to_list in Hp. now exists x.
  - intros [x Hx]. exists (k, x). split; [reflexivity|now apply elem_of_map_to_list].
Qed.

Lemma keys_nodup m : NoDup (keys m).
Proof. apply NoDup_fst_map_to_list. Qed.

Lemma keys_insert m k x : m !! k = None -> keys (<[k := x]> m) ≡ₚ k :: keys m.
Proof. intros Hk. unfold keys. now rewrite (map_to_list_insert m k x Hk). Qed.

Lemma keys_delete m k x : m !! k = Some x -> keys m ≡ₚ k :: keys (delete k m).
Proof. intros Hk. rewrite <- (keys_insert (delete k m) k x) by apply lookup_delete_eq. now rewrite insert_delete_id. Qed.

Context {B : Type} (g : A -> list B).

Lemma mlist_insert m i x : m !! i = None -> mlist g (<[i := x]> m) ≡ₚ g x ++ mlist g m.
Proof. intros Hi. unfold mlist. rewrite (map_to_list_insert m i x Hi). reflexivity. Qed.

Lemma mlist_delete m i x : m !! i = Some x -> mlist g m ≡ₚ g x ++ mlist g (delete i m).
Proof. intros Hi. rewrite <- mlist_insert by apply lookup_delete_eq. now rewrite insert_delete_id. Qed.

Lemma mlist_update m i x y : m !! i = Some x -> mlist g (<[i := y]> m) ≡ₚ g y ++ mlist g (delete i m).
Proof. intros Hi. rewrite <- insert_delete_eq. apply mlist_insert, lookup_delete_eq. Qed.

Lemma elem_of_mlist m b : b ∈ mlist g m <-> exists i x, m !! i = Some x /\ b ∈ g x.
Proof.
  unfold mlist. rewrite list_elem_of_bind. split.
  - intros (x & Hb & Hx). apply list_elem_of_fmap in Hx as ([i y] & -> & Hy). apply elem_of_map_to_list in Hy. now exists i, y.
  - intros (i & x & Hi & Hb). exists x. split; [exact Hb|]. apply list_elem_of_fmap. exists (i, x). split; [reflexivity|now apply elem_of_map_to_list].
Qed.

End Sums.

Lemma mlist_nil {A B} (g : A -> list B) : mlist g (∅ : gmap Z A) = [].
Proof. unfold mlist. now rewrite map_to_list_empty. Qed.

(** ** Removing from a list *)

Lemma filter_ne_perm (l : list Z) x : NoDup l -> x ∈ l -> l ≡ₚ x :: filter (fun y => y <> x) l.
Proof.
  induction l as [|y l IH]; intros Hn Hx; [now apply not_elem_of_nil in Hx|]. apply NoDup_cons in Hn as [Hy Hn].
  rewrite filter_cons. destruct (decide (y <> x)) as [Hne|He].
  - apply elem_of_cons in Hx as [->|Hx]; [now contradict Hne|]. rewrite (IH Hn Hx) at 1. apply Permutation_swap.
  - assert (y = x) as -> by (destruct (Z.eq_dec y x); tauto). constructor. clear IH Hx Hn He. induction l as [|z l IH]; [reflexivity|].
    apply not_elem_of_cons in Hy as [Hyz Hy]. rewrite filter_cons, decide_True by congruence. constructor. now apply IH.
Qed.

Lemma filter_ne_elem (l : list Z) x y : y ∈ filter (fun y => y <> x) l <-> y <> x /\ y ∈ l.
Proof. now rewrite list_elem_of_filter. Qed.

Lemma sorted_filter (R : Z -> Z -> Prop) (l : list Z) x : StronglySorted R l -> StronglySorted R (filter (fun y => y <> x) l).
Proof.
  induction 1 as [|y l Hl IH Hy]; [constructor|]. rewrite filter_cons. destruct (decide _); [|exact IH]. constructor; [exact IH|].
  rewrite Forall_forall in *. intros z Hz. apply Hy. now apply filter_ne_elem in Hz.
Qed.

Lemma sorted_agree (R R' : Z -> Z -> Prop) (l : list Z) :
  StronglySorted R l -> (forall x y, x ∈ l -> y ∈ l -> R x y -> R' x y) -> StronglySorted R' l.
Proof.
  induction 1 as [|x l Hl IH Hx]; intros H; constructor.
  - apply IH. intros y z Hy Hz. apply H; now right.
  - rewrite Forall_forall in *. intros y Hy. apply H; [left|now right|now apply Hx].
Qed.

(** ** The region tree *)

Definition rlt (regs : gmap Z vm_region) (a b : Z) : Prop :=
  exists x y, regs !! a = Some x /\ regs !! b = Some y /\ rg_start x < rg_start y.

Lemma region_insert_spec regs r reg t :
  regs !! r = Some reg -> StronglySorted (rlt regs) t -> (forall p, p ∈ t -> is_Some (regs !! p)) -> r ∉ t ->
  (exists t', region_insert regs r (rg_start reg) t = Ok t' /\ t' ≡ₚ r :: t /\ StronglySorted (rlt regs) t')
  \/ (region_insert regs r (rg_start reg) t = Fault Bug /\ exists p x, p ∈ t /\ regs !! p = Some x /\ rg_start x = rg_start reg).
Proof.
  intros Hr Hs. induction Hs as [|p t Hs IH Hp]; intros Ht Hn; cbn [region_insert].
  - left. exists [r]. split; [reflexivity|]. split; [reflexivity|]. repeat constructor.
  - destruct (Ht p ltac:(left)) as [x Hx]. unfold deref. rewrite Hx. cbn [rbind]. apply not_elem_of_cons in Hn as [Hrp Hn].
    destruct (Z.ltb_spec (rg_start reg) (rg_start x)) as [Hlt|Hge].
    + left. eexists. split; [reflexivity|]. split; [reflexivity|]. constructor; [now constructor|]. constructor; [now exists reg, x|].
      rewrite Forall_forall in *. intros q Hq. destruct (Hp q Hq) as (x' & y & E1 & E2 & H). rewrite Hx in E1. injection E1 as <-.
      exists reg, y. repeat split; try assumption. lia.
    + destruct (Z.ltb_spec (rg_start x) (rg_start reg)) as [Hlt|Hle].
      * destruct (IH (fun q Hq => Ht q ltac:(now right)) Hn) as [(t' & E & HP & Hs')|(E & q & y & Hq & H)].
        -- left. unfold deref in E. rewrite E. cbn [rbind]. eexists. split; [reflexivity|]. split; [rewrite HP; apply Permutation_swap|].
           constructor; [exact Hs'|]. rewrite Forall_forall in *. intros q Hq. rewrite HP in Hq.
           apply elem_of_cons in Hq as [->|Hq]; [now exists x, reg|now apply Hp].
        -- right. unfold deref in E. rewrite E. split; [reflexivity|]. exists q, y. split; [now right|exact H].
      * rewrite (proj2 (Z.eqb_neq p r)) by congruence. right. split; [reflexivity|]. exists p, x. repeat split; [left|exact Hx|lia].
Qed.

Lemma rlt_agree regs regs' t :
  StronglySorted (rlt regs) t ->
  (forall p, p ∈ t -> exists x y, regs !! p = Some x /\ regs' !! p = Some y /\ rg_start x = rg_start y) ->
  StronglySorted (rlt regs') t.
Proof.
  intros Hs H. apply (sorted_agree _ _ _ Hs). intros a b Ha Hb (x & y & E1 & E2 & Hlt).
  destruct (H a Ha) as (x1 & x2 & E3 & E4 & E5), (H b Hb) as (y1 & y2 & E6 & E7 & E8).
  exists x2, y2. repeat split; try assumption. congruence || (rewrite E1 in E3; rewrite E2 in E6; injection E3 as <-; injection E6 as <-; lia).
Qed.

(** ** The tree and the list of areas *)

Definition vlt (vs : gmap Z vm_area) (p q : Z) : Prop :=
  exists v w, vs !! p = Some v /\ vs !! q = Some w /\ vma_less p v q w = true.

Lemma vma_less_total p v q w : p <> q -> vma_less p v q w = negb (vma_less q w p v).
Proof. intros Hne. unfold vma_less. zcrush. Qed.

Lemma vma_less_trans p v q w r x : vma_less p v q w = true -> vma_less q w r x = true -> vma_less p v r x = true.
Proof. unfold vma_less. zcrush; discriminate. Qed.

Lemma vma_insert_spec vs p v t :
  vs !! p = Some v -> StronglySorted (vlt vs) t -> (forall q, q ∈ t -> is_Some (vs !! q)) -> p ∉ t ->
  exists t', vma_insert vs p v t = Ok t' /\ t' ≡ₚ p :: t /\ StronglySorted (vlt vs) t'.
Proof.
  intros Hv Hs. induction Hs as [|q t Hs IH Hq]; intros Ht Hn; cbn [vma_insert].
  - exists [p]. split; [reflexivity|]. split; [reflexivity|]. repeat constructor.
  - destruct (Ht q ltac:(left)) as [w Hw]. unfold deref. rewrite Hw. cbn [rbind]. apply not_elem_of_cons in Hn as [Hpq Hn].
    destruct (vma_less p v q w) eqn:El.
    + eexists. split; [reflexivity|]. split; [reflexivity|]. constructor; [now constructor|]. constructor; [now exists v, w|].
      rewrite Forall_forall in *. intros r Hr. destruct (Hq r Hr) as (w' & x & E1 & E2 & H). rewrite Hw in E1. injection E1 as <-.
      exists v, x. repeat split; try assumption. exact (vma_less_trans p v q w r x El H).
    + rewrite (vma_less_total q w p v), El by congruence. cbn [negb].
      destruct (IH (fun r Hr => Ht r ltac:(now right)) Hn) as (t' & E & HP & Hs'). unfold deref in E. rewrite E. cbn [rbind].
      eexists. split; [reflexivity|]. split; [rewrite HP; apply Permutation_swap|]. constructor; [exact Hs'|].
      rewrite Forall_forall in *. intros r Hr. rewrite HP in Hr. apply elem_of_cons in Hr as [->|Hr]; [|now apply Hq].
      exists w, v. repeat split; try assumption. rewrite vma_less_total, El by congruence. reflexivity.
Qed.

Lemma list_insert_spec vs p v l :
  (forall q, q ∈ l -> is_Some (vs !! q)) -> exists l', list_insert vs p v l = Ok l' /\ l' ≡ₚ p :: l.
Proof.
  induction l as [|q l IH]; intros Hl; cbn [list_insert]; [now exists [p]|].
  destruct (Hl q ltac:(left)) as [w Hw]. unfold deref. rewrite Hw. cbn [rbind].
  destruct (IH (fun r Hr => Hl r ltac:(now right))) as (l' & E & HP). unfold deref in E.
  destruct (v_start v <? v_start w); [eexists; split; reflexivity|].
  assert (Hk : exists l0, (let* l' := list_insert vs p v l in Ok (q :: l')) = Ok l0 /\ l0 ≡ₚ p :: q :: l).
  { unfold deref. rewrite E. cbn [rbind]. eexists. split; [reflexivity|]. rewrite HP. apply Permutation_swap. }
  destruct (v_start w <? v_start v); [exact Hk|]. destruct (v_end w <? v_end v); [eexists; split; reflexivity|exact Hk].
Qed.

Lemma vlt_agree vs vs' t :
  StronglySorted (vlt vs) t -> (forall p, p ∈ t -> vs' !! p = vs !! p) -> StronglySorted (vlt vs') t.
Proof.
  intros Hs H. apply (sorted_agree _ _ _ Hs). intros a b Ha Hb (x & y & E1 & E2 & Hl). exists x, y. rewrite (H a Ha), (H b Hb). auto.
Qed.
