(* ===== verification/NommuInv.v ===== *)
(** * Mappings without an MMU: the invariant

    What holds of regions, areas, the ordered trees and the pages between the system
    calls of [mm/nommu.c], and the steps on the trees that every call is made of. *)

From stdpp Require Import gmap sorting.
From S2P Require Import Prelude PageAlloc Buddy BuddyAlloc Pcp PageOps PageSource Nommu NommuLib.

(** ** The region tree *)

(** The tree [t] holds exactly the regions of [regs], in the order of their start. *)
Record tree_ok (regs : gmap Z vm_region) (t : list Z) : Prop := {
  to_keys : t ≡ₚ keys regs;
  to_sorted : StronglySorted (rlt regs) t
}.

Lemma tree_ok_elem regs t r : tree_ok regs t -> r ∈ t <-> is_Some (regs !! r).
Proof. intros [Hk _]. rewrite Hk. apply elem_of_keys. Qed.

Lemma tree_ok_nodup regs t : tree_ok regs t -> NoDup t.
Proof. intros [Hk _]. rewrite Hk. apply keys_nodup. Qed.

Lemma tree_ok_update regs r g g' t :
  regs !! r = Some g -> rg_start g' = rg_start g -> tree_ok regs t -> tree_ok (<[r := g']> regs) t.
Proof.
  intros Hr Hs Ht. pose proof Ht as [Hk Hst]. split.
  - rewrite Hk, (keys_delete regs r g Hr), <- insert_delete_eq. now rewrite keys_insert by apply lookup_delete_eq.
  - apply (rlt_agree regs); [exact Hst|]. intros p Hp. apply (tree_ok_elem _ _ _ Ht) in Hp as [x Hx].
    destruct (decide (p = r)) as [->|Hne]; [exists g, g'|exists x, x].
    + rewrite lookup_insert_eq. repeat split; congruence.
    + rewrite lookup_insert_ne by congruence. auto.
Qed.

(** ** The trees and lists of areas *)

Record mm_ok (vs : gmap Z vm_area) (m : mm_struct) : Prop := {
  mo_list : mmap m ≡ₚ mm_rb m;
  mo_sorted : StronglySorted (vlt vs) (mm_rb m);
  mo_count : map_count m = Z.of_nat (length (mm_rb m));
  mo_cache p : mmap_cache m = Some p -> p ∈ mm_rb m
}.

(** Each area is in the tree of exactly one process. *)
Record mms_ok (vs : gmap Z vm_area) (ms : gmap Z mm_struct) : Prop := {
  ms_keys : mlist mm_rb ms ≡ₚ keys vs;
  ms_each k m : ms !! k = Some m -> mm_ok vs m
}.

Section Mms.

Implicit Types (vs : gmap Z vm_area) (ms : gmap Z mm_struct).

Lemma mms_ok_elem vs ms k m p : mms_ok vs ms -> ms !! k = Some m -> p ∈ mm_rb m -> is_Some (vs !! p).
Proof. intros Hm Hk Hp. apply elem_of_keys. rewrite <- (ms_keys _ _ Hm). apply elem_of_mlist. now exists k, m. Qed.

Lemma mms_ok_owner vs ms p : mms_ok vs ms -> is_Some (vs !! p) -> exists k m, ms !! k = Some m /\ p ∈ mm_rb m.
Proof. intros Hm Hp. apply elem_of_keys in Hp. rewrite <- (ms_keys _ _ Hm) in Hp. now apply elem_of_mlist in Hp. Qed.

Lemma mms_ok_split vs ms k m : mms_ok vs ms -> ms !! k = Some m -> keys vs ≡ₚ mm_rb m ++ mlist mm_rb (delete k ms).
Proof. intros Hm Hk. rewrite <- (ms_keys _ _ Hm). now apply mlist_delete. Qed.

Lemma mms_ok_nodup vs ms k m : mms_ok vs ms -> ms !! k = Some m -> NoDup (mm_rb m).
Proof. intros Hm Hk. pose proof (keys_nodup vs) as Hn. rewrite (mms_ok_split _ _ _ _ Hm Hk) in Hn. now apply NoDup_app in Hn. Qed.

Lemma mms_ok_other vs ms k m k' m' p :
  mms_ok vs ms -> ms !! k = Some m -> ms !! k' = Some m' -> k <> k' -> p ∈ mm_rb m -> p ∉ mm_rb m'.
Proof.
  intros Hm Hk Hk' Hne Hp Hp'. pose proof (keys_nodup vs) as Hn. rewrite (mms_ok_split _ _ _ _ Hm Hk) in Hn.
  apply NoDup_app in Hn as (_ & Hd & _). apply (Hd p Hp). apply elem_of_mlist. exists k', m'. now rewrite lookup_delete_ne.
Qed.

(** Areas whose start and end stay are not moved. *)
Lemma mms_ok_update vs ms p v v' :
  vs !! p = Some v -> v_start v' = v_start v -> v_end v' = v_end v -> mms_ok vs ms -> mms_ok (<[p := v']> vs) ms.
Proof.
  intros Hp Hs He [Hk He']. split.
  - rewrite Hk, (keys_delete vs p v Hp), <- insert_delete_eq. now rewrite keys_insert by apply lookup_delete_eq.
  - intros k m Hm. destruct (He' k m Hm) as [Hl Hst Hc Hca]. split; try assumption.
    apply (sorted_agree _ _ _ Hst). intros a b _ _ (x & y & Ea & Eb & Hlt).
    assert (Hx : forall a x, vs !! a = Some x -> exists x', <[p := v']> vs !! a = Some x' /\ v_start x' = v_start x /\ v_end x' = v_end x).
    { intros a0 x0 H0. destruct (decide (a0 = p)) as [->|Hne]; [exists v'; rewrite lookup_insert_eq|exists x0; rewrite lookup_insert_ne by congruence; auto].
      rewrite Hp in H0. injection H0 as <-. auto. }
    destruct (Hx a x Ea) as (x' & Ea' & E1 & E2), (Hx b y Eb) as (y' & Eb' & E3 & E4). exists x', y'. repeat split; try assumption.
    unfold vma_less in *. now rewrite E1, E2, E3, E4.
Qed.

(** Fields of a process that are not its areas. *)
Lemma mms_ok_frame vs ms k m m' :
  ms !! k = Some m -> mm_rb m' = mm_rb m -> mmap m' = mmap m -> map_count m' = map_count m ->
  (forall p, mmap_cache m' = Some p -> p ∈ mm_rb m) -> mms_ok vs ms -> mms_ok vs (<[k := m']> ms).
Proof.
  intros Hk E1 E2 E3 Hca Hm. pose proof Hm as [Hks He]. split.
  - rewrite <- Hks, mlist_update, E1 by exact Hk. symmetry. now apply mlist_delete.
  - intros k0 m0 H0. destruct (decide (k0 = k)) as [->|Hne].
    + rewrite lookup_insert_eq in H0. injection H0 as <-. destruct (He k m Hk) as [Hl Hs Hc _]. split; rewrite ?E1, ?E2, ?E3; auto.
    + rewrite lookup_insert_ne in H0 by congruence. now apply (He k0).
Qed.

Definition mm_without (p : Z) (m : mm_struct) : mm_struct :=
  set_lists (set_cache (set_count m (map_count m - 1)) (if bool_decide (mmap_cache m = Some p) then None else mmap_cache m))
    (filter (fun q => q <> p) (mmap m)) (filter (fun q => q <> p) (mm_rb m)).

Lemma mms_ok_delete vs ms k m p :
  mms_ok vs ms -> ms !! k = Some m -> p ∈ mm_rb m -> mms_ok (delete p vs) (<[k := mm_without p m]> ms).
Proof.
  intros Hm Hk Hp. pose proof Hm as [Hks He]. destruct (mms_ok_elem _ _ _ _ _ Hm Hk Hp) as [v Hv].
  pose proof (mms_ok_nodup _ _ _ _ Hm Hk) as Hn.
  assert (Hagree : forall t, StronglySorted (vlt vs) t -> p ∉ t -> StronglySorted (vlt (delete p vs)) t).
  { intros t Hs Hpt. apply (vlt_agree vs); [exact Hs|]. intros q Hq. apply lookup_delete_ne. congruence. }
  split.
  - rewrite mlist_update by exact Hk. cbn [mm_rb mm_without set_lists set_cache set_count].
    apply (Permutation_cons_inv (a := p)). rewrite <- (keys_delete vs p v Hv), (mms_ok_split _ _ _ _ Hm Hk).
    rewrite (filter_ne_perm (mm_rb m) p Hn Hp) at 2. reflexivity.
  - intros k0 m0 H0. destruct (decide (k0 = k)) as [->|Hne].
    + rewrite lookup_insert_eq in H0. injection H0 as <-. destruct (He k m Hk) as [Hl Hs Hc Hca].
      split; cbn [mmap mm_rb map_count mmap_cache mm_without set_lists set_cache set_count].
      * apply (Permutation_cons_inv (a := p)). rewrite <- !filter_ne_perm; try assumption; now rewrite Hl.
      * apply Hagree; [now apply sorted_filter|]. rewrite filter_ne_elem. tauto.
      * rewrite Hc, (filter_ne_perm (mm_rb m) p Hn Hp) at 1. cbn [length]. lia.
      * intros q Hq. rewrite filter_ne_elem. case_bool_decide as Hcp; [discriminate|]. split; [congruence|now apply Hca].
    + rewrite lookup_insert_ne in H0 by congruence. pose proof (He k0 m0 H0) as [Hl Hs Hc Hca]. split; try assumption.
      apply Hagree; [exact Hs|]. now apply (mms_ok_other vs ms k m k0 m0).
Qed.

Lemma mms_ok_insert vs ms k m p v l t :
  mms_ok vs ms -> ms !! k = Some m -> vs !! p = None -> l ≡ₚ p :: mmap m -> t ≡ₚ p :: mm_rb m ->
  StronglySorted (vlt (<[p := v]> vs)) t ->
  mms_ok (<[p := v]> vs) (<[k := set_lists (set_count m (map_count m + 1)) l t]> ms).
Proof.
  intros Hm Hk Hp Hl Ht Hst. pose proof Hm as [Hks He]. split.
  - rewrite mlist_update by exact Hk. cbn [mm_rb set_lists]. rewrite Ht, keys_insert by exact Hp. cbn.
    constructor. symmetry. now apply mms_ok_split.
  - intros k0 m0 H0. destruct (decide (k0 = k)) as [->|Hne].
    + rewrite lookup_insert_eq in H0. injection H0 as <-. destruct (He k m Hk) as [Hl0 Hs Hc Hca].
      split; cbn [mmap mm_rb map_count mmap_cache set_lists set_count].
      * now rewrite Hl, Ht, Hl0.
      * exact Hst.
      * rewrite Hc, Ht. cbn [length]. lia.
      * intros q Hq. rewrite Ht. right. now apply Hca.
    + rewrite lookup_insert_ne in H0 by congruence. pose proof (He k0 m0 H0) as [Hl0 Hs Hc Hca]. split; try assumption.
      apply (vlt_agree vs); [exact Hs|]. intros q Hq. apply lookup_insert_ne. intros <-.
      destruct (mms_ok_elem _ _ _ _ _ Hm H0 Hq) as [x Hx]. congruence.
Qed.

End Mms.

(** ** Steps on the trees *)

Section TreeSteps.

Context {PS : Type} `{PageSource PS}.
Implicit Type st : nommu PS.

Lemma delete_nommu_region_ok regs r st :
  tree_ok regs (nommu_region_tree st) -> is_Some (regs !! r) ->
  exists t, delete_nommu_region r st = Ok (set_tree st t) /\ tree_ok (delete r regs) t.
Proof.
  intros Ht [g Hr]. assert (Hin : r ∈ nommu_region_tree st) by (apply (tree_ok_elem _ _ _ Ht); now exists g).
  pose proof (tree_ok_nodup _ _ Ht) as Hn. destruct Ht as [Hk Hs]. unfold delete_nommu_region, BUG_ON.
  rewrite bool_decide_true by exact Hin.
  destruct (is_nil (nommu_region_tree st)) eqn:En; [destruct (nommu_region_tree st); [now apply not_elem_of_nil in Hin|discriminate]|].
  cbn [rbind]. eexists. split; [reflexivity|]. split.
  - apply (Permutation_cons_inv (a := r)). now rewrite <- (filter_ne_perm _ r Hn Hin), Hk, <- (keys_delete regs r g Hr).
  - apply (rlt_agree regs); [now apply sorted_filter|]. intros p Hp. apply filter_ne_elem in Hp as [Hne Hp].
    rewrite Hk in Hp. apply elem_of_keys in Hp as [x Hx]. exists x, x. now rewrite lookup_delete_ne by congruence.
Qed.

Lemma add_nommu_region_ok regs r g st :
  tree_ok regs (nommu_region_tree st) -> regs ⊆ regions st -> regs !! r = None -> regions st !! r = Some g ->
  (forall p x, regs !! p = Some x -> rg_start x <> rg_start g) ->
  exists t, add_nommu_region r st = Ok (set_tree st t) /\ tree_ok (<[r := g]> regs) t.
Proof.
  intros Ht Hsub Hr Hg Hst. unfold add_nommu_region, deref. rewrite Hg. cbn [rbind].
  assert (Hel : forall p, p ∈ nommu_region_tree st -> exists x, regs !! p = Some x /\ regions st !! p = Some x).
  { intros p Hp. apply (tree_ok_elem _ _ _ Ht) in Hp as [x Hx]. exists x. split; [exact Hx|]. exact (lookup_weaken _ _ _ _ Hx Hsub). }
  assert (Hrt : r ∉ nommu_region_tree st) by (intros (x & Hx & _)%Hel; congruence).
  destruct (region_insert_spec (regions st) r g (nommu_region_tree st) Hg) as [(t & E & HP & Hs)|(_ & p & x & Hp & Hx & He)].
  - apply (rlt_agree regs); [apply Ht|]. intros p (x & H1 & H2)%Hel. now exists x, x.
  - intros p (x & _ & Hx)%Hel. now exists x.
  - exact Hrt.
  - rewrite E. cbn [rbind]. exists t. split; [reflexivity|]. split; [rewrite HP, keys_insert by exact Hr; now rewrite (to_keys _ _ Ht)|].
    apply (rlt_agree (regions st)); [exact Hs|]. intros p Hp. rewrite HP in Hp. apply elem_of_cons in Hp as [->|Hp].
    + exists g, g. now rewrite lookup_insert_eq.
    + pose proof Hp as (x & H1 & H2)%Hel. exists x, x. rewrite lookup_insert_ne by congruence. auto.
  - exfalso. apply Hel in Hp as (y & Hy & Hy'). rewrite Hx in Hy'. injection Hy' as <-. exact (Hst p x Hy He).
Qed.

Lemma delete_vma_from_mm_ok vs mm m p st :
  mms_ok vs (mms st) -> mms st !! mm = Some m -> p ∈ mm_rb m ->
  delete_vma_from_mm mm p st = Ok (put_mm mm (mm_without p m) st) /\ mms_ok (delete p vs) (<[mm := mm_without p m]> (mms st)).
Proof.
  intros Hm Hmm Hp. split; [|now apply mms_ok_delete]. unfold delete_vma_from_mm, deref. rewrite Hmm. cbn [rbind].
  unfold mm_without. cbn [mmap_cache set_count].
  destruct (bool_decide (mmap_cache m = Some p)); cbn [mm_rb set_cache set_count]; rewrite bool_decide_true by exact Hp;
    [reflexivity|now destruct m].
Qed.

Lemma add_vma_to_mm_ok vs mm m p v st :
  mms_ok vs (mms st) -> vs ⊆ vmas st -> vs !! p = None -> vmas st !! p = Some v -> is_Some (v_region v) -> mms st !! mm = Some m ->
  exists l t, add_vma_to_mm mm p st = Ok (put_mm mm (set_lists (set_count m (map_count m + 1)) l t) st)
    /\ t ≡ₚ p :: mm_rb m /\ mms_ok (<[p := v]> vs) (<[mm := set_lists (set_count m (map_count m + 1)) l t]> (mms st)).
Proof.
  intros Hm Hsub Hp Hv [r Hr] Hmm. unfold add_vma_to_mm, deref. rewrite Hv. cbn [rbind]. rewrite Hr, Hmm. cbn [rbind BUG_ON].
  assert (Hel : forall q, q ∈ mm_rb m -> exists x, vs !! q = Some x /\ vmas st !! q = Some x).
  { intros q Hq. destruct (mms_ok_elem _ _ _ _ _ Hm Hmm Hq) as [x Hx]. exists x. split; [exact Hx|]. exact (lookup_weaken _ _ _ _ Hx Hsub). }
  destruct (ms_each _ _ Hm mm m Hmm) as [Hl Hs Hc Hca].
  destruct (vma_insert_spec (vmas st) p v (mm_rb m) Hv) as (t & Et & HPt & Hst).
  { apply (vlt_agree vs); [exact Hs|]. intros q (x & H1 & H2)%Hel. congruence. }
  { intros q (x & _ & Hx)%Hel. now exists x. }
  { intros (x & Hx & _)%Hel. congruence. }
  destruct (list_insert_spec (vmas st) p v (mmap m)) as (l & El & HPl).
  { intros q Hq. rewrite Hl in Hq. apply Hel in Hq as (x & _ & Hx). now exists x. }
  rewrite Et, El. cbn [rbind]. exists l, t. split; [reflexivity|]. split; [exact HPt|].
  apply mms_ok_insert; try assumption. apply (vlt_agree (vmas st)); [exact Hst|]. intros q Hq. rewrite HPt in Hq.
  apply elem_of_cons in Hq as [->|Hq]; [now rewrite lookup_insert_eq|]. apply Hel in Hq as (x & H1 & H2).
  rewrite lookup_insert_ne by congruence. congruence.
Qed.

End TreeSteps.

(** ** Regions and the areas that refer to them *)

(** Every region is a copy: a run of whole pages, the mapping in [rg_start .. rg_end]. *)
Record region_ok (g : vm_region) : Prop := {
  ro_start : rg_start g mod 4096 = 0; ro_end : rg_end g mod 4096 = 0; ro_top : rg_top g mod 4096 = 0;
  ro_order : 0 < rg_start g < rg_end g /\ rg_end g <= rg_top g < 2 ^ 32;
  ro_copy : has (rg_flags g) VM_MAPPED_COPY = true;
  ro_share : has (rg_flags g) VM_MAYSHARE = true ->
             is_Some (rg_file g) /\ 0 <= rg_pgoff g /\ rg_pgoff g + (rg_end g - rg_start g) / 4096 < 2 ^ 32
}.

(** The area [v] lies in the region [g]; at its start unless it may be shared. *)
Record vma_ok (g : vm_region) (v : vm_area) : Prop := {
  vo_span : rg_start g <= v_start v < v_end v /\ v_end v <= rg_end g;
  vo_start : v_start v mod 4096 = 0;
  vo_share : has (v_flags v) VM_MAYSHARE = has (rg_flags g) VM_MAYSHARE;
  vo_private : has (rg_flags g) VM_MAYSHARE = false -> v_start v = rg_start g;
  vo_file : is_Some (v_file v) <-> is_Some (rg_file g)
}.

(** The fields of a region that areas depend on. *)
Definition same_map (g g' : vm_region) : Prop :=
  rg_start g' = rg_start g /\ rg_end g' = rg_end g /\ rg_top g' = rg_top g /\ rg_flags g' = rg_flags g /\ rg_pgoff g' = rg_pgoff g
  /\ rg_file g' = rg_file g.

Lemma vma_ok_frame g g' v : same_map g g' -> vma_ok g v -> vma_ok g' v.
Proof. intros (E1 & E2 & E3 & E4 & E5 & E6) [H1 H2 H3 H4 H5]. split; rewrite ?E1, ?E2, ?E4, ?E6; assumption. Qed.

Lemma region_ok_frame g g' : same_map g g' -> region_ok g -> region_ok g'.
Proof.
  intros (E1 & E2 & E3 & E4 & E5 & E6) [H1 H2 H3 H4 H5 H6]. split; rewrite ?E1, ?E2, ?E3, ?E4, ?E5, ?E6; assumption.
Qed.

Definition refs (r : Z) (v : vm_area) : Z := if bool_decide (v_region v = Some r) then 1 else 0.

Lemma refs_nonneg r v : 0 <= refs r v.
Proof. unfold refs. case_bool_decide; lia. Qed.

Record links (regs : gmap Z vm_region) (vs : gmap Z vm_area) : Prop := {
  lk_region r g : regs !! r = Some g -> region_ok g;
  lk_vma p v : vs !! p = Some v -> exists r g, v_region v = Some r /\ regs !! r = Some g /\ vma_ok g v;
  lk_usage r g : regs !! r = Some g -> vm_usage g = msum (refs r) vs /\ 0 < vm_usage g;
  lk_single r g : regs !! r = Some g -> has (rg_flags g) VM_MAYSHARE = false -> vm_usage g = 1
}.

Section Links.

Implicit Types (regs : gmap Z vm_region) (vs : gmap Z vm_area).

Lemma links_region regs vs p v r g :
  links regs vs -> vs !! p = Some v -> v_region v = Some r -> regs !! r = Some g -> vma_ok g v.
Proof. intros Hl Hp Hr Hg. destruct (lk_vma _ _ Hl p v Hp) as (r' & g' & E & Hg' & Hv). congruence. Qed.

Lemma no_refs regs vs r : links regs vs -> regs !! r = None -> msum (refs r) vs = 0.
Proof.
  intros Hl Hr. apply msum_zero. intros p v Hp. destruct (lk_vma _ _ Hl p v Hp) as (r' & g & E & Hg & _).
  unfold refs. rewrite bool_decide_false; congruence.
Qed.

(** A region with one user has no other area. *)
Lemma links_alone regs vs p v r g q w :
  links regs vs -> vs !! p = Some v -> v_region v = Some r -> regs !! r = Some g -> vm_usage g = 1 ->
  vs !! q = Some w -> v_region w = Some r -> q = p.
Proof.
  intros Hl Hp Hr Hg Hu Hq Hw. destruct (decide (q = p)) as [|Hne]; [assumption|]. exfalso.
  pose proof (msum_two (refs r) vs q p w v (refs_nonneg r) Hq Hp Hne) as H2. destruct (lk_usage _ _ Hl r g Hg) as [Eu _].
  unfold refs in H2 at 1 2. rewrite !bool_decide_true in H2 by assumption. lia.
Qed.

Lemma refs_self r v : v_region v = Some r -> refs r v = 1.
Proof. intros E. unfold refs. now rewrite bool_decide_true. Qed.

Lemma refs_other r r' v : v_region v = Some r -> r' <> r -> refs r' v = 0.
Proof. intros E Hne. unfold refs. rewrite bool_decide_false; congruence. Qed.

(** A region with its first area. *)
Lemma links_add regs vs r g p v :
  links regs vs -> regs !! r = None -> vs !! p = None -> region_ok g -> vm_usage g = 1 -> v_region v = Some r -> vma_ok g v ->
  links (<[r := g]> regs) (<[p := v]> vs).
Proof.
  intros Hl Hr Hp Hg Hu Hv Hok. pose proof Hl as [H1 H2 H3 H4]. split.
  - intros r' g' H'. apply lookup_insert_Some in H' as [[<- <-]|[_ H']]; eauto.
  - intros p' v' H'. apply lookup_insert_Some in H' as [[<- <-]|[_ H']].
    + exists r, g. now rewrite lookup_insert_eq.
    + destruct (H2 p' v' H') as (r' & g' & E & Hg' & Hok'). exists r', g'. rewrite lookup_insert_ne by congruence. auto.
  - intros r' g' H'. rewrite msum_insert by exact Hp. apply lookup_insert_Some in H' as [[<- <-]|[Hne H']].
    + rewrite refs_self, (no_refs regs vs r) by assumption. lia.
    + rewrite (refs_other r) by congruence. destruct (H3 r' g' H'). lia.
  - intros r' g' H'. apply lookup_insert_Some in H' as [[<- <-]|[_ H']]; eauto.
Qed.

(** Another area on a region that may be shared. *)
Lemma links_share regs vs r g g' p v :
  links regs vs -> regs !! r = Some g -> has (rg_flags g) VM_MAYSHARE = true -> vs !! p = None -> v_region v = Some r -> vma_ok g v ->
  same_map g g' -> vm_usage g' = vm_usage g + 1 ->
  links (<[r := g']> regs) (<[p := v]> vs).
Proof.
  intros Hl Hr Hs Hp Hv Hok Hsm Hu. pose proof Hl as [H1 H2 H3 H4]. split.
  - intros r' x H'. apply lookup_insert_Some in H' as [[<- <-]|[_ H']]; eauto using region_ok_frame.
  - assert (Hk : forall w r0 g0, v_region w = Some r0 -> regs !! r0 = Some g0 -> vma_ok g0 w ->
      exists r0 g0, v_region w = Some r0 /\ <[r := g']> regs !! r0 = Some g0 /\ vma_ok g0 w).
    { intros w r0 g0 E E0 Hw. exists r0. destruct (decide (r0 = r)) as [->|Hne]; [exists g'|exists g0].
      - rewrite lookup_insert_eq. split; [exact E|]. split; [reflexivity|]. apply (vma_ok_frame g); [exact Hsm|congruence].
      - rewrite lookup_insert_ne by congruence. auto. }
    intros p' v' H'. apply lookup_insert_Some in H' as [[<- <-]|[_ H']]; [now apply (Hk v r g)|].
    destruct (H2 p' v' H') as (r0 & g0 & E & Hg0 & Hok'). now apply (Hk v' r0 g0).
  - intros r' x H'. rewrite msum_insert by exact Hp. apply lookup_insert_Some in H' as [[<- <-]|[Hne H']].
    + rewrite refs_self by exact Hv. destruct (H3 r g Hr). lia.
    + rewrite (refs_other r) by congruence. destruct (H3 r' x H'). lia.
  - intros r' x H'. apply lookup_insert_Some in H' as [[<- <-]|[_ H']]; [destruct Hsm as (_ & _ & _ & -> & _); congruence|eauto].
Qed.

(** An area goes away; with the last one its region does. *)
Lemma links_last regs vs r g p v :
  links regs vs -> vs !! p = Some v -> v_region v = Some r -> regs !! r = Some g -> vm_usage g = 1 ->
  links (delete r regs) (delete p vs).
Proof.
  intros Hl Hp Hv Hr Hu. pose proof Hl as [H1 H2 H3 H4]. split.
  - intros r' x [_ H']%lookup_delete_Some. eauto.
  - intros p' v' [Hne H']%lookup_delete_Some. destruct (H2 p' v' H') as (r0 & g0 & E & Hg0 & Hok). exists r0, g0.
    rewrite lookup_delete_ne; [auto|]. intros <-. apply Hne. symmetry. now apply (links_alone regs vs p v r g p' v').
  - intros r' x [Hne H']%lookup_delete_Some. destruct (H3 r' x H') as [E Hpos]. rewrite (msum_delete _ vs p v Hp) in E.
    rewrite (refs_other r) in E by congruence. lia.
  - intros r' x [_ H']%lookup_delete_Some. eauto.
Qed.

Lemma links_drop regs vs r g p v :
  links regs vs -> vs !! p = Some v -> v_region v = Some r -> regs !! r = Some g -> vm_usage g <> 1 ->
  links (<[r := set_usage g (vm_usage g - 1)]> regs) (delete p vs).
Proof.
  intros Hl Hp Hv Hr Hu. pose proof Hl as [H1 H2 H3 H4]. destruct (H3 r g Hr) as [Eu Hpos]. split.
  - intros r' x H'. apply lookup_insert_Some in H' as [[<- <-]|[_ H']]; [|eauto]. apply (region_ok_frame g); [now repeat split|eauto].
  - intros p' v' [Hne H']%lookup_delete_Some. destruct (H2 p' v' H') as (r0 & g0 & E & Hg0 & Hok).
    exists r0. destruct (decide (r0 = r)) as [->|Hn]; [|exists g0; rewrite lookup_insert_ne by congruence; auto].
    eexists. rewrite lookup_insert_eq. split; [exact E|]. split; [reflexivity|]. apply (vma_ok_frame g); [now repeat split|congruence].
  - intros r' x H'. apply lookup_insert_Some in H' as [[<- <-]|[Hne H']].
    + cbn [vm_usage set_usage]. rewrite (msum_delete _ vs p v Hp), refs_self in Eu by exact Hv. lia.
    + destruct (H3 r' x H') as [E Hx]. rewrite (msum_delete _ vs p v Hp), (refs_other r) in E by congruence. lia.
  - intros r' x H'. apply lookup_insert_Some in H' as [[<- <-]|[_ H']]; [|eauto]. intros Hf. exfalso. apply Hu, (H4 r g Hr Hf).
Qed.

(** The only area of a region and the region change together. *)
Lemma links_edit regs vs r g g' p v v' :
  links regs vs -> vs !! p = Some v -> v_region v = Some r -> regs !! r = Some g -> vm_usage g = 1 ->
  v_region v' = Some r -> vm_usage g' = 1 -> region_ok g' -> vma_ok g' v' ->
  links (<[r := g']> regs) (<[p := v']> vs).
Proof.
  intros Hl Hp Hv Hr Hu Hv' Hu' Hg Hok. rewrite <- (insert_delete_eq regs r), <- (insert_delete_eq vs p).
  apply links_add; try assumption; try apply lookup_delete_eq. now apply (links_last regs vs r g p v).
Qed.

(** Fields of a region that no area depends on. *)
Lemma links_same regs vs r g g' :
  links regs vs -> regs !! r = Some g -> same_map g g' -> vm_usage g' = vm_usage g -> links (<[r := g']> regs) vs.
Proof.
  intros [H1 H2 H3 H4] Hr Hsm Hu. split.
  - intros r' x H'. apply lookup_insert_Some in H' as [[<- <-]|[_ H']]; eauto using region_ok_frame.
  - intros p v Hp. destruct (H2 p v Hp) as (r0 & g0 & E & Hg0 & Hok). exists r0.
    destruct (decide (r0 = r)) as [->|Hne]; [exists g'; rewrite lookup_insert_eq|exists g0; now rewrite lookup_insert_ne by congruence].
    split; [exact E|]. split; [reflexivity|]. apply (vma_ok_frame g); [exact Hsm|congruence].
  - intros r' x H'. apply lookup_insert_Some in H' as [[<- <-]|[_ H']]; [rewrite Hu|]; eauto.
  - intros r' x H'. apply lookup_insert_Some in H' as [[<- <-]|[_ H']]; [|eauto].
    rewrite Hu. destruct Hsm as (_ & _ & _ & -> & _). eauto.
Qed.

End Links.

(** ** The invariant *)

Definition region_pages (g : vm_region) : list Z := seqZ (rg_start g / 4096) ((rg_top g - rg_start g) / 4096).

Definition file_ref (i : Z) (f : option file) : Z :=
  match f with Some f => if i =? f_id f then 1 else 0 | None => 0 end.

Definition page_list (regs : gmap Z vm_region) : list Z := mlist region_pages regs.

Lemma region_pages_start g : region_ok g -> rg_start g / 4096 ∈ region_pages g.
Proof. intros [H1 H2 H3 H4 _ _]. apply elem_of_seqZ. split; [lia|]. zdiv. Qed.

Lemma elem_of_region_pages g q : region_ok g -> q ∈ region_pages g <-> rg_start g <= q * 4096 < rg_top g.
Proof. intros [H1 H2 H3 H4 _ _]. unfold region_pages. rewrite elem_of_seqZ. split; intros; zdiv. Qed.

Section Inv.

Context {PS : Type} `{PageSource PS}.
Implicit Type st : nommu PS.

(** [base] counts the references to files held elsewhere, [ext] are the blocks of pages other users hold and
    [lost] the pages no one will free. *)
Context (base : Z -> Z) (ext : list (Z * nat)).

Definition file_refs (st : nommu PS) (i : Z) : Z :=
  base i + msum (fun v => file_ref i (v_file v)) (vmas st) + msum (fun g => file_ref i (rg_file g)) (regions st).

(** Regions, areas and pages. *)
Record core (lost : list Z) st : Prop := {
  ci_tree : tree_ok (regions st) (nommu_region_tree st);
  ci_links : links (regions st) (vmas st);
  ci_pages : holds [] (singles (page_list (regions st)) ++ singles lost ++ ext) (pgs st);
  ci_alloc : mmap_pages_allocated st = Z.of_nat (length (page_list (regions st))) + Z.of_nat (length lost)
}.

Record mm_inv (lost : list Z) st : Prop := {
  mi_core : core lost st;
  mi_mms : mms_ok (vmas st) (mms st);
  mi_files i : f_count st i = file_refs st i
}.

Lemma core_frame lost st st' :
  regions st' = regions st -> vmas st' = vmas st -> nommu_region_tree st' = nommu_region_tree st -> pgs st' = pgs st ->
  mmap_pages_allocated st' = mmap_pages_allocated st -> core lost st -> core lost st'.
Proof. intros E1 E2 E3 E4 E5 [H1 H2 H3 H4]. split; rewrite ?E1, ?E2, ?E3, ?E4, ?E5; assumption. Qed.

Lemma singles_app l l' : singles (l ++ l') = singles l ++ singles l'.
Proof. apply map_app. Qed.

#[export] Instance singles_perm : Proper ((≡ₚ) ==> (≡ₚ)) singles.
Proof. intros l l' Hl. unfold singles. now rewrite Hl. Qed.

Lemma holds_own own own' s : own ≡ₚ own' -> holds [] own s -> holds [] own' s.
Proof. intros HP. now apply holds_perm. Qed.

Lemma page_list_nodup own regs s : holds [] (singles (page_list regs) ++ own) s -> NoDup (page_list regs).
Proof. intros Hh. apply holds_nodup in Hh. rewrite app_nil_l, pages_app in Hh. unfold singles in Hh. rewrite pages_singles in Hh. now apply NoDup_app in Hh. Qed.

Lemma page_list_range own regs s q : holds [] (singles (page_list regs) ++ own) s -> q ∈ page_list regs -> 0 < q < 2 ^ 20 - 1.
Proof.
  intros Hh Hq. apply (holds_range _ _ _ _ Hh). rewrite app_nil_l, pages_app. unfold singles. rewrite pages_singles.
  apply elem_of_app. now left.
Qed.

(** Regions do not overlap. *)
Lemma regions_disjoint regs r g r' g' q :
  NoDup (page_list regs) -> regs !! r = Some g -> regs !! r' = Some g' -> q ∈ region_pages g -> q ∈ region_pages g' -> r = r'.
Proof.
  intros Hn Hr Hr' Hq Hq'. destruct (decide (r = r')) as [|Hne]; [assumption|]. exfalso.
  unfold page_list in Hn. rewrite (mlist_delete region_pages regs r g Hr) in Hn. apply NoDup_app in Hn as (_ & Hd & _).
  apply (Hd q Hq). apply elem_of_mlist. exists r', g'. now rewrite lookup_delete_ne.
Qed.

Lemma regions_start regs r g r' g' :
  NoDup (page_list regs) -> regs !! r = Some g -> regs !! r' = Some g' -> region_ok g -> region_ok g' -> rg_start g = rg_start g' -> r = r'.
Proof.
  intros Hn Hr Hr' Hg Hg' E. apply (regions_disjoint regs r g r' g' (rg_start g / 4096)); try assumption; [|rewrite E]; now apply region_pages_start.
Qed.

Lemma page_list_insert regs r g : regs !! r = None -> page_list (<[r := g]> regs) ≡ₚ region_pages g ++ page_list regs.
Proof. apply mlist_insert. Qed.

Lemma page_list_delete regs r g : regs !! r = Some g -> page_list regs ≡ₚ region_pages g ++ page_list (delete r regs).
Proof. apply mlist_delete. Qed.

Lemma page_list_update regs r g g' : regs !! r = Some g -> page_list (<[r := g']> regs) ≡ₚ region_pages g' ++ page_list (delete r regs).
Proof. apply mlist_update. Qed.

Lemma page_list_same regs r g g' :
  regs !! r = Some g -> rg_start g' = rg_start g -> rg_top g' = rg_top g -> page_list (<[r := g']> regs) ≡ₚ page_list regs.
Proof.
  intros Hr E1 E2. rewrite (page_list_update regs r g g' Hr), (page_list_delete regs r g Hr). unfold region_pages. now rewrite E1, E2.
Qed.

Lemma f_count_get f st i : f_count (get_file f st) i = f_count st i + file_ref i f.
Proof. destruct f as [f|]; cbn; [destruct (i =? f_id f)|]; lia. Qed.

Lemma f_count_put f st i : f_count (fput f st) i = f_count st i - file_ref i f.
Proof. destruct f as [f|]; cbn; [destruct (i =? f_id f)|]; lia. Qed.

End Inv.
