(* ===== verification/NommuPages.v ===== *)
(** * Mappings without an MMU: the pages of a mapping

    The steps of [mm/nommu.c] that use the page allocator, proved against its
    interface: the allocation of a block and the trimming of its excess pages
    ([do_mmap_private]) and the loop that frees pages ([free_page_series]). *)

From stdpp Require Import gmap.
From S2P Require Import Prelude PageAlloc Buddy BuddyAlloc Pcp PageOps PageSource Nommu.

Section Pages.

Context {PS : Type} `{PageSource PS}.
Implicit Type st : nommu PS.

Lemma set_pages_twice st n n' s s' : set_pages (set_pages st n s) n' s' = set_pages st n' s'.
Proof. reflexivity. Qed.

Lemma set_pages_same st n : n = mmap_pages_allocated st -> set_pages st n (pgs st) = st.
Proof. intros ->. now destruct st. Qed.

Lemma free_page_loop_ok l own st :
  holds [] (singles l ++ own) (pgs st) ->
  exists s, free_page_loop l st = Ok (set_pages st (mmap_pages_allocated st - Z.of_nat (length l)) s) /\ holds [] own s.
Proof.
  revert st. induction l as [|q l IH]; intros st Hh; cbn [free_page_loop].
  - exists (pgs st). split; [|exact Hh]. rewrite set_pages_same; [reflexivity|]. cbn [length]. lia.
  - destruct (free_ok q 0 [] (singles l ++ own) (pgs st) Hh) as (s & -> & Hs). cbn [rbind].
    destruct (IH (set_pages st (mmap_pages_allocated st - 1) s) Hs) as (s' & -> & Hs'). exists s'. split; [|exact Hs'].
    rewrite set_pages_twice. do 2 f_equal. cbn [mmap_pages_allocated set_pages length]. lia.
Qed.

Lemma free_page_series_ok a b own st :
  a mod 4096 = 0 -> b mod 4096 = 0 -> a <= b ->
  holds [] (singles (seqZ (a / 4096) ((b - a) / 4096)) ++ own) (pgs st) ->
  exists s, free_page_series a b st = Ok (set_pages st (mmap_pages_allocated st - (b - a) / 4096) s) /\ holds [] own s.
Proof.
  intros Ha Hb Hab Hh. unfold free_page_series. replace ((b - a + 4095) / 4096) with ((b - a) / 4096) by zdiv.
  destruct (free_page_loop_ok _ _ _ Hh) as (s & -> & Hs). exists s. split; [|exact Hs]. rewrite length_seqZ.
  rewrite Z2Nat.id by zdiv. reflexivity.
Qed.

(** References on each of the remaining pages. *)
Lemma ref_loop_ok l own s :
  holds l own s -> exists s', foldl (fun s q => set_page_refcounted q s) s l = s' /\ holds [] (singles l ++ own) s'.
Proof.
  revert own s. induction l as [|q l IH]; intros own s Hh; [now exists s|]. cbn [foldl].
  destruct (IH ((q, 0%nat) :: own) (set_page_refcounted q s)) as (s' & E & Hs').
  - apply ref_ok; [exact Hh|unfold MAX_ORDER; lia|apply aligned_0].
  - exists s'. split; [exact E|]. refine (holds_perm _ _ _ _ _ _ _ Hs'); [reflexivity|]. cbn. solve_Permutation.
Qed.

(** One round of the trimming: the largest power of two that fits. *)
Lemma log2_step d : 0 < d -> let k := Z.log2 d in 0 <= k /\ 2 ^ k <= d < 2 * 2 ^ k.
Proof. intros Hd k. pose proof (Z.log2_nonneg d). pose proof (Z.log2_spec d Hd). rewrite Z.pow_succ_r in * by lia. subst k. lia. Qed.

Lemma trim_loop_ok fuel page total point order own st :
  holds (seqZ (page + 1) (total - 1)) own (pgs st) -> 1 <= point <= total -> total - point < 2 ^ Z.of_nat fuel ->
  (order <= MAX_ORDER)%nat -> aligned order page -> total - point < pow2 order ->
  (forall k : nat, pow2 k <= total - point -> aligned k total) ->
  exists s, trim_loop (S fuel) page total point st
            = Ok (point, set_pages st (mmap_pages_allocated st - (total - point)) s)
    /\ holds (seqZ (page + 1) (point - 1)) own s.
Proof.
  intros Hh Hp Hf Ho Ha Hlt Hal. revert total st Hh Hp Hf Hlt Hal.
  induction fuel as [|fuel IH]; intros total st Hh Hp Hf Hlt Hal.
  - change (2 ^ Z.of_nat 0) with 1 in Hf. assert (total = point) as -> by lia. cbn [trim_loop]. rewrite Z.ltb_irrefl.
    exists (pgs st). split; [|exact Hh]. rewrite set_pages_same by lia. reflexivity.
  - rewrite Nat2Z.inj_succ, Z.pow_succ_r in Hf by lia. remember (S fuel) as fuel1 eqn:Ef. cbn [trim_loop].
    destruct (Z.ltb_spec point total) as [Hpt|Hpt].
    + destruct (log2_step (total - point)) as [Hk Hb]; [lia|]. set (d := total - point) in *. set (k := Z.to_nat (Z.log2 d)).
      assert (Hpk : pow2 k <= d < 2 * pow2 k) by (unfold pow2, k; rewrite Z2Nat.id by lia; lia).
      pose proof (pow2_pos k) as Hk1.
      assert (Hko : (k < order)%nat).
      { destruct (Nat.lt_ge_cases k order) as [|Hge]; [assumption|]. pose proof (pow2_le _ _ Hge). lia. }
      rewrite shl_pow2 by (unfold MAX_ORDER in Ho; lia).
      assert (Hat : aligned k (page + (total - pow2 k))).
      { unfold aligned in *. apply Z.divide_add_r; [now apply (aligned_le k order); [lia|]|]. apply Z.divide_sub_r; [now apply Hal|reflexivity]. }
      assert (Hsp : seqZ (page + 1) (total - 1) ≡ₚ block (page + (total - pow2 k)) k ++ seqZ (page + 1) (total - pow2 k - 1)).
      { rewrite block_pages by (unfold MAX_ORDER in Ho; lia). rewrite (seqZ_split _ _ (total - pow2 k - 1)) by lia.
        replace (page + 1 + (total - pow2 k - 1)) with (page + (total - pow2 k)) by lia.
        replace (total - 1 - (total - pow2 k - 1)) with (pow2 k) by lia. apply Permutation_app_comm. }
      assert (H1 : holds (seqZ (page + 1) (total - pow2 k - 1)) ((page + (total - pow2 k), k) :: own)
                     (set_page_refcounted (page + (total - pow2 k)) (pgs st))).
      { apply ref_ok; [exact (holds_perm _ _ _ _ _ Hsp (reflexivity own) Hh)|lia|exact Hat]. }
      destruct (free_ok _ _ _ _ _ H1) as (s1 & Hf1 & H2). rewrite Hf1. cbn [rbind].
      destruct (IH (total - pow2 k) (set_pages st (mmap_pages_allocated st - pow2 k) s1)) as (s2 & E2 & H3).
      * exact H2.
      * lia.
      * lia.
      * lia.
      * intros j Hj. unfold aligned. apply Z.divide_sub_r; [apply Hal; lia|]. apply pow2_divide.
        destruct (Nat.le_gt_cases j k) as [|Hjk]; [assumption|]. pose proof (pow2_le (S k) j ltac:(lia)). rewrite pow2_S in *. lia.
      * exists s2. split; [|exact H3]. cbn [mmap_pages_allocated set_pages] in E2. rewrite E2, set_pages_twice. do 3 f_equal. lia.
    + assert (total = point) as -> by lia. exists (pgs st). split; [|exact Hh]. rewrite set_pages_same by lia. reflexivity.
Qed.

Context (e : env).

(** The pages of a mapping of [rlen] bytes: the whole block, or what is left when the excess is trimmed. *)
Definition mapping_pages (rlen : Z) : Z :=
  let total := pow2 (get_order rlen) in
  let point := rlen / 4096 in
  if negb (sysctl_nr_trim_pages e =? 0) && (sysctl_nr_trim_pages e <=? total - point) then point else total.

Lemma mapping_pages_range rlen :
  0 < rlen <= 4096 * 2048 -> rlen mod 4096 = 0 -> 0 < rlen / 4096 <= mapping_pages rlen /\ mapping_pages rlen <= pow2 (get_order rlen).
Proof.
  intros Hr Hm. destruct (get_order_spec rlen Hr) as (En & Hle & _). assert (page_align_nr rlen = rlen / 4096) by (rewrite En; zdiv).
  unfold mapping_pages. cbv zeta. destruct (negb _ && _); lia.
Qed.

Lemma alloc_mapping_ok rlen own st :
  0 < rlen <= 4096 * 2048 -> rlen mod 4096 = 0 -> holds [] own (pgs st) ->
  exists r s, alloc_mapping e rlen st
    = Ok (r, set_pages st (mmap_pages_allocated st + match r with Some (_, total) => total | None => 0 end) s)
  /\ match r with
     | None => holds [] own s
     | Some (page, total) => total = mapping_pages rlen /\ holds [] (singles (seqZ page total) ++ own) s
     end.
Proof.
  intros Hr Hm Hh. destruct (get_order_spec rlen Hr) as (En & Hle & Ho & _). destruct (mapping_pages_range rlen Hr Hm) as [Hmp Hmo].
  assert (Epn : page_align_nr rlen = rlen / 4096) by (rewrite En; zdiv).
  unfold alloc_mapping. destruct (alloc_ok (get_order rlen) own (pgs st) Hh) as (r & s & -> & Hs). cbn [rbind].
  destruct r as [page|]; [|exists None, s; rewrite Z.add_0_r; auto]. destruct Hs as (Hs & Ha & _).
  rewrite shl_pow2 by (unfold MAX_ORDER in Ho; lia). rewrite Z.shiftr_div_pow2 by lia. change (2 ^ 12) with 4096.
  assert (Hfin : forall total s1, total = mapping_pages rlen -> holds (seqZ (page + 1) (total - 1)) ((page, 0%nat) :: own) s1 ->
    exists s', foldl (fun s q => set_page_refcounted q s) s1 (seqZ (page + 1) (total - 1)) = s'
      /\ holds [] (singles (seqZ page total) ++ own) s').
  { intros total s1 Et H1. destruct (ref_loop_ok _ _ _ H1) as (s' & E & H2). exists s'. split; [exact E|].
    refine (holds_perm _ _ _ _ _ _ _ H2); [reflexivity|]. rewrite (seqZ_cons page total) by lia. unfold Z.succ, Z.pred, singles. cbn.
    replace (total + -1) with (total - 1) by lia. solve_Permutation. }
  unfold mapping_pages in *. cbv zeta in *.
  set (trims := negb (sysctl_nr_trim_pages e =? 0) && (sysctl_nr_trim_pages e <=? pow2 (get_order rlen) - rlen / 4096)) in *.
  destruct trims.
  - destruct (trim_loop_ok 32 page (pow2 (get_order rlen)) (rlen / 4096) (get_order rlen) ((page, 0%nat) :: own)
      (set_pages st (mmap_pages_allocated st + pow2 (get_order rlen)) s)) as (s1 & E1 & H1).
    + exact Hs.
    + lia.
    + pose proof (pow2_le (get_order rlen) 31) as Hp. unfold MAX_ORDER in Ho. specialize (Hp ltac:(lia)).
      change (pow2 31) with (2 ^ 31) in Hp. change (2 ^ Z.of_nat 32) with (2 ^ 32). lia.
    + lia.
    + exact Ha.
    + lia.
    + intros k Hk. unfold aligned. apply pow2_divide. destruct (Nat.le_gt_cases k (get_order rlen)) as [|Hg]; [assumption|].
      pose proof (pow2_le (get_order rlen) k ltac:(lia)). lia.
    + rewrite E1. cbn [rbind]. destruct (Hfin (rlen / 4096) s1 eq_refl H1) as (s2 & E2 & H2). cbn [pgs set_pages] in *. rewrite E2.
      exists (Some (page, rlen / 4096)), s2. split; [|auto]. rewrite set_pages_twice. cbn [mmap_pages_allocated set_pages].
      rewrite set_pages_twice. do 3 f_equal. lia.
  - cbn [rbind]. destruct (Hfin (pow2 (get_order rlen)) s eq_refl Hs) as (s2 & E2 & H2). cbn [pgs set_pages]. rewrite E2.
    exists (Some (page, pow2 (get_order rlen))), s2. auto.
Qed.

End Pages.

(** ** Sizes *)

Lemma land_page_mask x : is_u32 x -> x .& PAGE_MASK = 4096 * (x / 4096).
Proof.
  intros Hx. change (x .& PAGE_MASK) with (Z.land x (u32 (Z.lnot 4095))). rewrite (Z.mul_comm 4096).
  change 4096 with (2 ^ 12) at 1 2. rewrite <- Z.shiftl_mul_pow2, <- Z.shiftr_div_pow2 by lia.
  change (u32 (Z.lnot 4095)) with 4294963200. apply Z.bits_inj'. intros n Hn. rewrite Z.land_spec, Z.shiftl_spec by lia.
  change 4294963200 with (Z.shiftl (Z.ones 20) 12). rewrite Z.shiftl_spec by lia. destruct (Z.ltb_spec n 12) as [Hs|Hs].
  - rewrite !(Z.testbit_neg_r _ (n - 12)) by lia. now rewrite andb_false_r.
  - rewrite Z.shiftr_spec, Z.testbit_ones_nonneg by lia. replace (n - 12 + 12) with n by lia.
    destruct (Z.ltb_spec (n - 12) 20); [now rewrite andb_true_r|]. rewrite andb_false_r. symmetry. apply (u32_testbit_high x n); [exact Hx|lia].
Qed.

Lemma PAGE_ALIGN_small len : 0 < len -> len + 4095 < 2 ^ 32 -> PAGE_ALIGN len = 4096 * ((len + 4095) / 4096).
Proof. intros Hl Hlt. unfold PAGE_ALIGN. rewrite u32_id by (unfold is_u32; lia). apply land_page_mask. unfold is_u32. lia. Qed.

Lemma PAGE_ALIGN_spec len :
  0 < len < 2 ^ 32 -> PAGE_ALIGN len <> 0 -> PAGE_ALIGN len = 4096 * ((len + 4095) / 4096) /\ len + 4095 < 2 ^ 32.
Proof.
  intros Hl Hne. destruct (Z.lt_ge_cases (len + 4095) (2 ^ 32)) as [Hlt|Hge]; [split; [now apply PAGE_ALIGN_small|exact Hlt]|].
  contradict Hne. unfold PAGE_ALIGN. assert (Eu : u32 (len + 4095) = len + 4095 - 2 ^ 32) by (unfold u32; zdiv).
  rewrite Eu, land_page_mask by (unfold is_u32; lia). zdiv.
Qed.
