(* ===== verification/NommuFind.v ===== *)
(** * Mappings without an MMU: looking areas up

    [find_vma] and [find_vma_exact] stop early in the ordered tree and go through a
    one-entry cache; they answer as a search of all areas of the process would.  The
    checks of [validate_nommu_regions] follow from the invariant. *)

From stdpp Require Import gmap sorting.
From S2P Require Import Prelude PageAlloc Buddy BuddyAlloc Pcp PageOps PageSource Nommu NommuLib NommuInv.

(** What the searches look for. *)
Definition covers (addr : Z) (v : vm_area) : Prop := v_start v <= addr < v_end v.
Definition exactly (addr fin : Z) (v : vm_area) : Prop := v_start v = addr /\ v_end v = fin.

(** A search for an area with [P] among [t]. *)
Definition found (P : vm_area -> Prop) (vs : gmap Z vm_area) (t : list Z) (hit : option Z) : Prop :=
  match hit with
  | Some p => p ∈ t /\ exists v, vs !! p = Some v /\ P v
  | None => forall p v, p ∈ t -> vs !! p = Some v -> ~ P v
  end.

Lemma found_skip P vs p v t hit : vs !! p = Some v -> ~ P v -> found P vs t hit -> found P vs (p :: t) hit.
Proof.
  intros Hp Hn. destruct hit as [q|]; cbn.
  - intros [Hq Hv]. split; [now right|exact Hv].
  - intros H q w [->|Hq]%elem_of_cons Hw; [congruence|now apply (H q)].
Qed.

(** Past an area that starts too late there is nothing. *)
Lemma found_late (P : vm_area -> Prop) vs p v t :
  vs !! p = Some v -> StronglySorted (vlt vs) (p :: t) -> (forall w, v_start v <= v_start w -> ~ P w) -> found P vs (p :: t) None.
Proof.
  intros Hp Hs HP q w Hq Hw. apply HP. apply StronglySorted_inv in Hs as [_ Hs]. apply elem_of_cons in Hq as [->|Hq].
  - assert (w = v) as -> by congruence. lia.
  - rewrite Forall_forall in Hs. destruct (Hs q Hq) as (v0 & w0 & E1 & E2 & Hlt). assert (v0 = v) as -> by congruence.
    assert (w0 = w) as -> by congruence. unfold vma_less in Hlt.
    destruct (Z.ltb_spec (v_start v) (v_start w)); [lia|]. destruct (Z.ltb_spec (v_start w) (v_start v)); [discriminate|lia].
Qed.

Lemma find_vma_loop_ok vs addr t :
  StronglySorted (vlt vs) t -> (forall p, p ∈ t -> is_Some (vs !! p)) ->
  exists hit, find_vma_loop vs addr t = Ok hit /\ found (covers addr) vs t hit.
Proof.
  intros Hs. induction t as [|p t IH]; intros Ht; cbn [find_vma_loop]; [exists None; split; [reflexivity|intros q w Hq; now apply not_elem_of_nil in Hq]|].
  destruct (Ht p ltac:(left)) as [v Hv]. unfold deref. rewrite Hv. cbn [rbind].
  destruct (Z.ltb_spec addr (v_start v)) as [Hlt|Hge].
  - exists None. split; [reflexivity|]. apply (found_late _ _ _ v); [exact Hv|exact Hs|]. unfold covers. lia.
  - destruct (Z.ltb_spec addr (v_end v)) as [Hlt|Hge'].
    + exists (Some p). split; [reflexivity|]. split; [left|]. exists v. split; [exact Hv|unfold covers; lia].
    + apply StronglySorted_inv in Hs as [Hs _]. destruct (IH Hs) as (hit & E & Hf); [intros q Hq; apply Ht; now right|].
      exists hit. split; [exact E|]. apply (found_skip _ _ _ v); [exact Hv|unfold covers; lia|exact Hf].
Qed.

Lemma find_exact_loop_ok vs addr fin t :
  StronglySorted (vlt vs) t -> (forall p, p ∈ t -> is_Some (vs !! p)) ->
  exists hit, find_exact_loop vs addr fin t = Ok hit /\ found (exactly addr fin) vs t hit.
Proof.
  intros Hs. induction t as [|p t IH]; intros Ht; cbn [find_exact_loop]; [exists None; split; [reflexivity|intros q w Hq; now apply not_elem_of_nil in Hq]|].
  destruct (Ht p ltac:(left)) as [v Hv]. unfold deref. rewrite Hv. cbn [rbind].
  assert (Hrec : v_start v <= addr -> ~ exactly addr fin v ->
    exists hit, find_exact_loop vs addr fin t = Ok hit /\ found (exactly addr fin) vs (p :: t) hit).
  { intros _ Hn. apply StronglySorted_inv in Hs as [Hs _]. destruct (IH Hs) as (hit & E & Hf); [intros q Hq; apply Ht; now right|].
    exists hit. split; [exact E|]. now apply (found_skip _ _ _ v). }
  destruct (Z.ltb_spec (v_start v) addr); [apply Hrec; [lia|unfold exactly; lia]|].
  destruct (Z.ltb_spec addr (v_start v)).
  - exists None. split; [reflexivity|]. apply (found_late _ _ _ v); [exact Hv|exact Hs|]. unfold exactly. lia.
  - destruct (Z.eqb_spec (v_end v) fin); [|apply Hrec; [lia|unfold exactly; lia]].
    exists (Some p). split; [reflexivity|]. split; [left|]. exists v. split; [exact Hv|unfold exactly; lia].
Qed.

Section Find.

Context {PS : Type} `{PageSource PS} (base : Z -> Z) (ext : list (Z * nat)).
Implicit Type st : nommu PS.

Local Abbreviation mm_inv := (mm_inv base ext).

Lemma put_cache_same mm m st : mms st !! mm = Some m -> put_mm mm (set_cache m (mmap_cache m)) st = st.
Proof. intros Hm. unfold put_mm. rewrite insert_id; [now destruct st|]. rewrite Hm. now destruct m. Qed.

Lemma put_cache_ok lost mm m p st :
  mm_inv lost st -> mms st !! mm = Some m -> p ∈ mm_rb m -> mm_inv lost (put_mm mm (set_cache m (Some p)) st).
Proof.
  intros [Hc Hm Hf] Hmm Hp. split; [now apply (core_frame ext lost st)| |exact Hf].
  apply (mms_ok_frame _ _ mm m); try assumption; try reflexivity. cbn. now intros q [= <-].
Qed.

(** The cache holds an area of the process; otherwise the tree is searched. *)
Lemma cached_search (P : vm_area -> Prop) (test : vm_area -> bool) (search : result (option Z)) lost mm m st :
  mm_inv lost st -> mms st !! mm = Some m -> (forall v, test v = true <-> P v) ->
  (exists hit, search = Ok hit /\ found P (vmas st) (mm_rb m) hit) ->
  exists hit c st',
    (let* hit := match mmap_cache m with
                 | None => Ok None
                 | Some p => let* v := deref (vmas st) p in Ok (if test v then Some p else None)
                 end in
     match hit with
     | Some p => Ok (Some p, st)
     | None => let* r := search in Ok (match r with Some p => (Some p, put_mm mm (set_cache m (Some p)) st) | None => (None, st) end)
     end) = Ok (hit, st')
    /\ found P (vmas st) (mm_rb m) hit /\ st' = put_mm mm (set_cache m c) st /\ mm_inv lost st'.
Proof.
  intros Hi Hmm Htest (hit & -> & Hfound). pose proof Hi as [_ Hm _].
  assert (Hslow : exists hit' c st', (let* r := Ok hit in Ok (match r with Some p => (Some p, put_mm mm (set_cache m (Some p)) st) | None => (None, st) end))
    = Ok (hit', st') /\ found P (vmas st) (mm_rb m) hit' /\ st' = put_mm mm (set_cache m c) st /\ mm_inv lost st').
  { cbn [rbind]. destruct hit as [p|].
    - exists (Some p), (Some p). eexists. split; [reflexivity|]. split; [exact Hfound|]. split; [reflexivity|]. now apply put_cache_ok; [| |apply Hfound].
    - exists None, (mmap_cache m), st. rewrite put_cache_same by exact Hmm. auto. }
  destruct (mmap_cache m) as [p|] eqn:Ec; [|exact Hslow].
  pose proof (mo_cache _ _ (ms_each _ _ Hm mm m Hmm) p Ec) as Hp. destruct (mms_ok_elem _ _ _ _ _ Hm Hmm Hp) as [v Hv].
  unfold deref. rewrite Hv. cbn [rbind]. destruct (test v) eqn:Et; [|exact Hslow].
  exists (Some p), (mmap_cache m), st. rewrite put_cache_same by exact Hmm. split_and!; auto. split; [exact Hp|]. exists v.
  split; [exact Hv|now apply Htest].
Qed.

Lemma mm_elems lost mm m p st : mm_inv lost st -> mms st !! mm = Some m -> p ∈ mm_rb m -> is_Some (vmas st !! p).
Proof. intros [_ Hm _]. now apply mms_ok_elem. Qed.

Lemma mm_sorted lost mm m st : mm_inv lost st -> mms st !! mm = Some m -> StronglySorted (vlt (vmas st)) (mm_rb m).
Proof. intros [_ Hm _] Hmm. apply (ms_each _ _ Hm mm m Hmm). Qed.

Lemma find_vma_ok lost mm m addr st :
  mm_inv lost st -> mms st !! mm = Some m ->
  exists hit c st', find_vma mm addr st = Ok (hit, st') /\ found (covers addr) (vmas st) (mm_rb m) hit
    /\ st' = put_mm mm (set_cache m c) st /\ mm_inv lost st'.
Proof.
  intros Hi Hmm. unfold find_vma. unfold deref at 1. rewrite Hmm. cbn [rbind].
  apply (cached_search (covers addr) (fun v => (v_start v <=? addr) && (addr <? v_end v))); [exact Hi|exact Hmm|..].
  - intros v. unfold covers. rewrite andb_true_iff, Z.leb_le, Z.ltb_lt. reflexivity.
  - apply find_vma_loop_ok; [now apply (mm_sorted lost mm)|]. intros p. now apply (mm_elems lost mm).
Qed.

Lemma find_vma_exact_ok lost mm m addr len st :
  mm_inv lost st -> mms st !! mm = Some m ->
  exists hit c st', find_vma_exact mm addr len st = Ok (hit, st') /\ found (exactly addr (u32 (addr + len))) (vmas st) (mm_rb m) hit
    /\ st' = put_mm mm (set_cache m c) st /\ mm_inv lost st'.
Proof.
  intros Hi Hmm. unfold find_vma_exact. unfold deref at 1. rewrite Hmm. cbn [rbind]. cbv zeta.
  apply (cached_search (exactly addr (u32 (addr + len))) (fun v => (v_start v =? addr) && (v_end v =? u32 (addr + len)))); [exact Hi|exact Hmm|..].
  - intros v. unfold exactly. rewrite andb_true_iff, !Z.eqb_eq. reflexivity.
  - apply find_exact_loop_ok; [now apply (mm_sorted lost mm)|]. intros p. now apply (mm_elems lost mm).
Qed.

End Find.

(** ** The consistency check *)

(** Regions in order do not overlap. *)
Lemma ordered_disjoint (regs : gmap Z vm_region) r g r' g' :
  NoDup (page_list regs) -> regs !! r = Some g -> regs !! r' = Some g' -> region_ok g -> region_ok g' ->
  rg_start g < rg_start g' -> rg_top g <= rg_start g'.
Proof.
  intros Hn Hr Hr' Hg Hg' Hlt. destruct (Z.le_gt_cases (rg_top g) (rg_start g')) as [|Hgt]; [assumption|]. exfalso.
  assert (r = r') as <-; [|assert (g' = g) as -> by congruence; lia].
  apply (regions_disjoint regs r g r' g' (rg_start g' / 4096)); try assumption; [|now apply region_pages_start].
  apply elem_of_region_pages; [exact Hg|]. destruct Hg' as [R1 _ _ _ _ _]. zdiv.
Qed.

Lemma validate_ok (regs : gmap Z vm_region) t :
  NoDup (page_list regs) -> (forall r g, regs !! r = Some g -> region_ok g) -> tree_ok regs t ->
  exists gs, Forall2 (fun r g => regs !! r = Some g) t gs /\ validate_nommu_regions gs None = true.
Proof.
  intros Hn Hok Ht. pose proof (to_sorted _ _ Ht) as Hs.
  assert (Hel : forall r, r ∈ t -> is_Some (regs !! r)) by (intros r Hr; now apply (tree_ok_elem _ _ _ Ht)).
  clear Ht. assert (Hlast : forall last, (forall l r g, last = Some l -> r ∈ t -> regs !! r = Some g -> rg_top l <= rg_start g) ->
    exists gs, Forall2 (fun r g => regs !! r = Some g) t gs /\ validate_nommu_regions gs last = true); [|now apply Hlast].
  induction Hs as [|r t Hs IH Hr]; intros last Hl; [exists []; split; [constructor|reflexivity]|].
  destruct (Hel r ltac:(left)) as [g Hg]. destruct (IH (fun q Hq => Hel q ltac:(now right)) (Some g)) as (gs & Hf & Hv).
  { intros l q x [= <-] Hq Hx. rewrite Forall_forall in Hr. destruct (Hr q Hq) as (g0 & x0 & E1 & E2 & Hlt).
    assert (g0 = g) as -> by congruence. assert (x0 = x) as -> by congruence. apply (ordered_disjoint regs r g q x); eauto. }
  exists (g :: gs). split; [now constructor|]. cbn [validate_nommu_regions]. rewrite Hv. destruct (ro_order _ (Hok r g Hg)).
  rewrite (proj2 (Z.ltb_lt _ _)), (proj2 (Z.leb_le _ _)) by lia. destruct last as [l|]; [|reflexivity].
  rewrite (proj2 (Z.leb_le _ _)) by (apply (Hl l r g); [reflexivity|left|exact Hg]). reflexivity.
Qed.
