(* ===== verification/NommuUnmap.v ===== *)
(** * Mappings without an MMU: removing mappings

    [put_nommu_region], [delete_vma], [shrink_vma], [split_vma], [do_munmap] and
    [exit_mmap] keep the invariant; what each leaves mapped and what it frees. *)

From stdpp Require Import gmap.
From S2P Require Import Prelude PageAlloc Buddy BuddyAlloc Pcp PageOps PageSource Nommu NommuLib NommuPages NommuInv NommuFind.

Section Frame.

Context {PS : Type}.
Implicit Type st : nommu PS.

Lemma regions_fput f st : regions (fput f st) = regions st. Proof. now destruct f. Qed.
Lemma vmas_fput f st : vmas (fput f st) = vmas st. Proof. now destruct f. Qed.
Lemma tree_fput f st : nommu_region_tree (fput f st) = nommu_region_tree st. Proof. now destruct f. Qed.
Lemma mms_fput f st : mms (fput f st) = mms st. Proof. now destruct f. Qed.
Lemma alloc_fput f st : mmap_pages_allocated (fput f st) = mmap_pages_allocated st. Proof. now destruct f. Qed.
Lemma pgs_fput f st : pgs (fput f st) = pgs st. Proof. now destruct f. Qed.
Lemma regions_get f st : regions (get_file f st) = regions st. Proof. now destruct f. Qed.
Lemma vmas_get f st : vmas (get_file f st) = vmas st. Proof. now destruct f. Qed.
Lemma tree_get f st : nommu_region_tree (get_file f st) = nommu_region_tree st. Proof. now destruct f. Qed.
Lemma mms_get f st : mms (get_file f st) = mms st. Proof. now destruct f. Qed.
Lemma alloc_get f st : mmap_pages_allocated (get_file f st) = mmap_pages_allocated st. Proof. now destruct f. Qed.
Lemma pgs_get f st : pgs (get_file f st) = pgs st. Proof. now destruct f. Qed.

End Frame.

Create Rewrite HintDb mm_frame.

(** References to files change nothing else. *)
#[export] Hint Rewrite @regions_fput @vmas_fput @tree_fput @mms_fput @alloc_fput @pgs_fput
  @regions_get @vmas_get @tree_get @mms_get @alloc_get @pgs_get @f_count_get @f_count_put : mm_frame.

Ltac frame := repeat (progress (mm_simpl; autorewrite with mm_frame)).

(** ** Shrinking *)

Lemma region_pages_length g : region_ok g -> Z.of_nat (length (region_pages g)) = (rg_top g - rg_start g) / 4096.
Proof. intros [H1 H2 H3 H4 _ _]. unfold region_pages. rewrite length_seqZ, Z2Nat.id; [reflexivity|]. zdiv. Qed.

(** What shrinking makes of an area and its region, which ends the pages freed. *)
Definition shrunk_vma (v : vm_area) (from to : Z) : vm_area :=
  if v_start v <? from then set_v_span v (v_start v) from else set_v_span v to (v_end v).
Definition shrunk_region (g : vm_region) (from to : Z) : vm_region :=
  if rg_start g <? from then set_span g (rg_start g) from from else set_span g to (rg_end g) (rg_top g).
Definition shrunk_to (g : vm_region) (from to : Z) : Z := if rg_start g <? from then rg_top g else to.

(** The part removed is at the end, or it is at the start and ends on a page. *)
Definition shrinkable (v : vm_area) (from to : Z) : Prop :=
  from mod 4096 = 0 /\ (v_start v < from < v_end v \/ (from = v_start v /\ from < to < v_end v /\ to mod 4096 = 0)).

Lemma shrunk_ok g v from to :
  region_ok g -> vma_ok g v -> v_start v = rg_start g -> has (rg_flags g) VM_MAYSHARE = false -> shrinkable v from to ->
  region_ok (shrunk_region g from to) /\ vma_ok (shrunk_region g from to) (shrunk_vma v from to)
  /\ from < shrunk_to g from to /\ shrunk_to g from to mod 4096 = 0
  /\ region_pages g ≡ₚ seqZ (from / 4096) ((shrunk_to g from to - from) / 4096) ++ region_pages (shrunk_region g from to)
  /\ rg_start (shrunk_region g from to) / 4096 ∈ region_pages g.
Proof.
  intros Hg [V1 V2 V3 V4 V5] Hs Hns [Hf Hsh]. pose proof Hg as [H1 H2 H3 H4 H5 H6]. unfold shrunk_region, shrunk_vma, shrunk_to. rewrite Hs in *.
  destruct (Z.ltb_spec (rg_start g) from) as [Hlt|Hge].
  - destruct Hsh as [Hsh|Hsh]; [|lia]. split_and!.
    + split; mm_simpl; try assumption; [lia|congruence].
    + split; mm_simpl; try assumption. lia.
    + lia.
    + exact H3.
    + unfold region_pages. mm_simpl. rewrite (seqZ_split (rg_start g / 4096) _ ((from - rg_start g) / 4096)) by zdiv.
      replace (rg_start g / 4096 + (from - rg_start g) / 4096) with (from / 4096) by zdiv.
      replace ((rg_top g - rg_start g) / 4096 - (from - rg_start g) / 4096) with ((rg_top g - from) / 4096) by zdiv.
      apply Permutation_app_comm.
    + mm_simpl. now apply region_pages_start.
  - destruct Hsh as [Hsh|(-> & Hsh & Ht)]; [lia|]. split_and!.
    + split; mm_simpl; try assumption; [lia|congruence].
    + split; mm_simpl; try assumption; [lia|intros _; reflexivity].
    + lia.
    + exact Ht.
    + unfold region_pages. mm_simpl. rewrite (seqZ_split (rg_start g / 4096) _ ((to - rg_start g) / 4096)) by zdiv.
      replace (rg_start g / 4096 + (to - rg_start g) / 4096) with (to / 4096) by zdiv.
      now replace ((rg_top g - rg_start g) / 4096 - (to - rg_start g) / 4096) with ((rg_top g - to) / 4096) by zdiv.
    + mm_simpl. apply elem_of_region_pages; [exact Hg|]. zdiv.
Qed.

(** The two halves of a region and an area split at [addr]. *)
Definition split_pgoff (v : vm_area) (addr : Z) : Z := u32 (v_pgoff v + ((addr - v_start v) .>> 12)).
Definition region_below (g : vm_region) (addr : Z) : vm_region := set_span g (rg_start g) addr addr.
Definition region_above (g : vm_region) (v : vm_area) (addr : Z) : vm_region :=
  set_rg_pgoff (set_span g addr (rg_end g) (rg_top g)) (split_pgoff v addr).
Definition vma_below (v : vm_area) (addr r' : Z) : vm_area := set_v_region (set_v_span v (v_start v) addr) (Some r').
Definition vma_above (v : vm_area) (addr : Z) : vm_area := set_v_pgoff (set_v_span v addr (v_end v)) (split_pgoff v addr).

Lemma split_halves g v addr r' :
  region_ok g -> vma_ok g v -> v_start v = rg_start g -> has (rg_flags g) VM_MAYSHARE = false ->
  addr mod 4096 = 0 -> v_start v < addr < v_end v ->
  region_ok (region_below g addr) /\ region_ok (region_above g v addr)
  /\ vma_ok (region_below g addr) (vma_below v addr r') /\ vma_ok (region_above g v addr) (vma_above v addr)
  /\ region_pages g = region_pages (region_below g addr) ++ region_pages (region_above g v addr).
Proof.
  intros [H1 H2 H3 H4 H5 H6] [V1 V2 V3 V4 V5] Hs Hns Ha Hr. unfold region_below, region_above, vma_below, vma_above.
  split_and!; [split; mm_simpl; try assumption; (lia || congruence)..| |];
    [split; mm_simpl; try assumption; [lia|reflexivity]|].
  unfold region_pages. mm_simpl. rewrite (seqZ_split (rg_start g / 4096) _ ((addr - rg_start g) / 4096)) by zdiv.
  replace (rg_start g / 4096 + (addr - rg_start g) / 4096) with (addr / 4096) by zdiv.
  now replace ((rg_top g - rg_start g) / 4096 - (addr - rg_start g) / 4096) with ((rg_top g - addr) / 4096) by zdiv.
Qed.

(** The alignment tests of [do_munmap]. *)
Lemma has_offset x : 0 <= x -> has x (.~ PAGE_MASK) = negb (x mod 4096 =? 0).
Proof.
  intros Hx. unfold has. change (.~ PAGE_MASK) with (Z.ones 12). change (x .& Z.ones 12) with (Z.land x (Z.ones 12)).
  now rewrite Z.land_ones by lia.
Qed.

Lemma from_vma_sub p t q : q ∈ from_vma p t -> q ∈ t.
Proof. induction t as [|x t IH]; cbn; [auto|]. destruct (x =? p); [auto|]. intros Hq. right. auto. Qed.

Lemma munmap_file_loop_ok vs start fin t :
  (forall p, p ∈ t -> is_Some (vs !! p)) ->
  exists r, munmap_file_loop vs start fin t = Ok r /\ forall q, r = Some q -> q ∈ t.
Proof.
  induction t as [|p t IH]; intros Ht; cbn [munmap_file_loop]; [now exists None|].
  destruct (Ht p ltac:(left)) as [v Hv]. unfold deref. rewrite Hv. cbn [rbind].
  destruct (v_start v <? start); [now exists None|]. destruct (fin =? v_end v); [exists (Some p); split; [reflexivity|intros q [= <-]; left]|].
  destruct IH as (r & E & Hr); [intros q Hq; apply Ht; now right|]. exists r. split; [exact E|]. intros q Hq. right. auto.
Qed.

(** ** Operations *)

Section Unmap.

Context {PS : Type} `{PageSource PS} (base : Z -> Z) (ext : list (Z * nat)).
Implicit Type st : nommu PS.

Local Abbreviation core := (core ext).
Local Abbreviation mm_inv := (mm_inv base ext).

(** The last reference: the region leaves the tree, its pages and its file are released. *)
Lemma put_nommu_region_last lost r g st :
  core lost st -> regions st !! r = Some g -> vm_usage g = 1 ->
  exists st', put_nommu_region r st = Ok st' /\ regions st' = delete r (regions st) /\ vmas st' = vmas st /\ mms st' = mms st
    /\ tree_ok (regions st') (nommu_region_tree st')
    /\ holds [] (singles (page_list (regions st')) ++ singles lost ++ ext) (pgs st')
    /\ mmap_pages_allocated st' = Z.of_nat (length (page_list (regions st'))) + Z.of_nat (length lost)
    /\ (forall i, f_count st' i = f_count st i - file_ref i (rg_file g)).
Proof.
  intros [Ht Hl Hh Ha] Hg Hu. pose proof (lk_region _ _ Hl r g Hg) as Hok. unfold put_nommu_region, BUG_ON.
  assert (Hin : r ∈ nommu_region_tree st) by (apply (tree_ok_elem _ _ _ Ht); now exists g).
  destruct (is_nil (nommu_region_tree st)) eqn:En; [destruct (nommu_region_tree st); [now apply not_elem_of_nil in Hin|discriminate]|].
  cbn [rbind]. unfold deref. rewrite Hg. cbn [rbind]. cbn [vm_usage set_usage rg_start rg_top rg_file rg_flags].
  rewrite (proj2 (Z.eqb_eq _ _)) by lia. pose proof (ro_order _ Hok) as Hor.
  rewrite (proj2 (Z.ltb_lt _ _)) by lia. set (g' := set_usage g (vm_usage g - 1)).
  destruct (delete_nommu_region_ok (regions st) r (put_region r g' st)) as (t & -> & Ht'); [exact Ht|now exists g|].
  cbn [rbind]. rewrite (ro_copy _ Hok). rewrite (page_list_delete (regions st) r g Hg), singles_app, <- app_assoc in Hh.
  destruct (free_page_series_ok (rg_start g) (rg_top g) (singles (page_list (delete r (regions st))) ++ singles lost ++ ext)
    (fput (rg_file g) (set_tree (put_region r g' st) t))) as (s & -> & Hs); try apply Hok; [lia|frame; exact Hh|].
  cbn [rbind]. eexists. split; [reflexivity|]. frame. rewrite delete_insert_eq. split_and!; try assumption; try reflexivity.
  - rewrite Ha, (page_list_delete (regions st) r g Hg), length_app, <- region_pages_length by exact Hok. lia.
  - intros i. frame. reflexivity.
Qed.

Lemma put_nommu_region_drop lost r g st :
  core lost st -> regions st !! r = Some g -> vm_usage g <> 1 ->
  put_nommu_region r st = Ok (put_region r (set_usage g (vm_usage g - 1)) st).
Proof.
  intros [Ht Hl _ _] Hg Hu. unfold put_nommu_region, BUG_ON.
  assert (Hin : r ∈ nommu_region_tree st) by (apply (tree_ok_elem _ _ _ Ht); now exists g).
  destruct (is_nil (nommu_region_tree st)) eqn:En; [destruct (nommu_region_tree st); [now apply not_elem_of_nil in Hin|discriminate]|].
  cbn [rbind]. unfold deref. rewrite Hg. cbn [rbind vm_usage set_usage]. now rewrite (proj2 (Z.eqb_neq _ _)) by lia.
Qed.

(** What is left of the regions when an area of [r] goes away. *)
Definition drop_ref (r : Z) (g : vm_region) (regs : gmap Z vm_region) : gmap Z vm_region :=
  if vm_usage g =? 1 then delete r regs else <[r := set_usage g (vm_usage g - 1)]> regs.

Lemma put_nommu_region_ok lost r g p v st :
  core lost st -> regions st !! r = Some g -> vmas st !! p = Some v -> v_region v = Some r ->
  exists st', put_nommu_region r st = Ok st' /\ regions st' = drop_ref r g (regions st) /\ vmas st' = vmas st /\ mms st' = mms st
    /\ tree_ok (regions st') (nommu_region_tree st') /\ links (regions st') (delete p (vmas st))
    /\ holds [] (singles (page_list (regions st')) ++ singles lost ++ ext) (pgs st')
    /\ mmap_pages_allocated st' = Z.of_nat (length (page_list (regions st'))) + Z.of_nat (length lost)
    /\ (forall i, f_count st' i - msum (fun g => file_ref i (rg_file g)) (regions st')
                  = f_count st i - msum (fun g => file_ref i (rg_file g)) (regions st)).
Proof.
  intros Hc Hg Hp Hv. pose proof Hc as [Ht Hl Hh Ha]. unfold drop_ref. destruct (Z.eqb_spec (vm_usage g) 1) as [Hu|Hu].
  - destruct (put_nommu_region_last lost r g st Hc Hg Hu) as (st' & E & E1 & E2 & E3 & Ht' & Hh' & Ha' & Hf').
    exists st'. rewrite E1 in *. split_and!; try assumption; try reflexivity; [now apply (links_last (regions st) (vmas st) r g p v)|].
    intros i. rewrite Hf', (msum_delete _ (regions st) r g Hg). lia.
  - rewrite (put_nommu_region_drop lost r g st Hc Hg Hu). eexists. split; [reflexivity|]. mm_simpl.
    assert (HP := page_list_same (regions st) r g (set_usage g (vm_usage g - 1)) Hg eq_refl eq_refl).
    split_and!; try reflexivity.
    + apply (tree_ok_update (regions st) r g); [exact Hg|reflexivity|exact Ht].
    + now apply (links_drop (regions st) (vmas st) r g p v).
    + now rewrite HP.
    + now rewrite HP.
    + intros i. rewrite (msum_update _ (regions st) r g _ Hg). cbn [rg_file set_usage]. lia.
Qed.

(** An area that is in no process any more is destroyed. *)
Lemma delete_vma_ok lost mm m p v r g st :
  core lost st -> (forall i, f_count st i = file_refs base st i) -> mms_ok (delete p (vmas st)) (mms st) ->
  vmas st !! p = Some v -> v_region v = Some r -> regions st !! r = Some g -> mms st !! mm = Some m ->
  exists st', delete_vma mm p st = Ok st' /\ mm_inv lost st' /\ vmas st' = delete p (vmas st) /\ regions st' = drop_ref r g (regions st)
    /\ exists d, mms st' = <[mm := add_exe m d]> (mms st).
Proof.
  intros Hc Hf Hm Hp Hv Hg Hmm. unfold delete_vma, deref. rewrite Hp. cbn [rbind].
  assert (Hpre : exists st1 d, (match v_file v with
      | Some f => if has (v_flags v) VM_EXECUTABLE then removed_exe_file_vma mm (fput (Some f) st) else Ok (fput (Some f) st)
      | None => Ok st end) = Ok st1 /\ regions st1 = regions st /\ vmas st1 = vmas st /\ nommu_region_tree st1 = nommu_region_tree st
      /\ pgs st1 = pgs st /\ mmap_pages_allocated st1 = mmap_pages_allocated st
      /\ (forall i, f_count st1 i = f_count st i - file_ref i (v_file v)) /\ mms st1 = <[mm := add_exe m d]> (mms st)).
  { assert (E0 : mms st = <[mm := add_exe m 0]> (mms st)).
    { symmetry. apply insert_id. rewrite Hmm. f_equal. destruct m. unfold add_exe. cbn. f_equal. lia. }
    destruct (v_file v) as [f|]; [|exists st, 0; split_and!; try assumption; try reflexivity; intros i; cbn [file_ref]; lia].
    unfold removed_exe_file_vma, deref. frame. rewrite Hmm. cbn [rbind]. destruct (has (v_flags v) VM_EXECUTABLE).
    - eexists _, (-1). split; [reflexivity|]. frame. split_and!; try reflexivity. intros i. apply (f_count_put (Some f)).
    - eexists _, 0. split; [reflexivity|]. frame. split_and!; try reflexivity; [intros i; apply (f_count_put (Some f))|exact E0]. }
  destruct Hpre as (st1 & d & -> & E1 & E2 & E3 & E4 & E5 & E6 & E7). cbn [rbind]. rewrite Hv.
  assert (Hc1 : core lost st1) by now apply (core_frame ext lost st).
  rewrite <- E1 in Hg. rewrite <- E2 in Hp.
  destruct (put_nommu_region_ok lost r g p v st1 Hc1 Hg Hp Hv) as (st2 & -> & F1 & F2 & F3 & Ht2 & Hl2 & Hh2 & Ha2 & Hf2).
  cbn [rbind]. eexists. split; [reflexivity|]. rewrite E1, E2 in *. mm_simpl. rewrite F2, F3, E7. split_and!; try assumption; try reflexivity; [|now exists d].
  split; mm_simpl; rewrite ?F2, ?F3, ?E7.
  - split; mm_simpl; rewrite ?F2; assumption.
  - apply (mms_ok_frame _ _ mm m); try assumption; try reflexivity. apply (ms_each _ _ Hm mm m Hmm).
  - intros i. specialize (Hf2 i). rewrite E6, Hf in Hf2. unfold file_refs in *. mm_simpl. rewrite F2.
    rewrite (msum_delete _ (vmas st) p v Hp) in Hf2. lia.
Qed.

Lemma vma_region lost mm m p st :
  mm_inv lost st -> mms st !! mm = Some m -> p ∈ mm_rb m ->
  exists v r g, vmas st !! p = Some v /\ v_region v = Some r /\ regions st !! r = Some g /\ vma_ok g v /\ region_ok g.
Proof.
  intros [Hc Hm Hf] Hmm Hp. destruct (mms_ok_elem _ _ _ _ _ Hm Hmm Hp) as [v Hv]. destruct Hc as [Ht Hl Hh Ha].
  destruct (lk_vma _ _ Hl p v Hv) as (r & g & E & Hg & Hok). exists v, r, g. split_and!; try assumption. now apply (lk_region _ _ Hl r).
Qed.

(** An area is removed as a whole. *)
Lemma erase_whole_vma_ok lost mm m p v r g st :
  mm_inv lost st -> mms st !! mm = Some m -> p ∈ mm_rb m ->
  vmas st !! p = Some v -> v_region v = Some r -> regions st !! r = Some g ->
  exists st' d, erase_whole_vma mm p st = Ok (0, st') /\ mm_inv lost st' /\ vmas st' = delete p (vmas st)
    /\ regions st' = drop_ref r g (regions st) /\ mms st' = <[mm := add_exe (mm_without p m) d]> (mms st).
Proof.
  intros [Hc Hm Hf] Hmm Hp Hv Hr Hg. unfold erase_whole_vma.
  destruct (delete_vma_from_mm_ok (vmas st) mm m p st Hm Hmm Hp) as [-> Hm']. cbn [rbind].
  destruct (delete_vma_ok lost mm (mm_without p m) p v r g (put_mm mm (mm_without p m) st)) as (st' & -> & Hi & E1 & E2 & d & E3).
  all: try assumption; try apply lookup_insert_eq.
  - now apply (core_frame ext lost st).
  - cbn [rbind]. exists st', d. split_and!; try assumption; try reflexivity. rewrite E3. mm_simpl. now rewrite insert_insert_eq.
Qed.

(** An anonymous mapping has its region for itself. *)
Lemma anonymous_private regs vs p v r g :
  links regs vs -> vs !! p = Some v -> v_region v = Some r -> regs !! r = Some g -> v_file v = None ->
  vm_usage g = 1 /\ has (rg_flags g) VM_MAYSHARE = false /\ v_start v = rg_start g /\ rg_file g = None.
Proof.
  intros Hl Hp Hr Hg Hv. pose proof (links_region _ _ _ _ _ _ Hl Hp Hr Hg) as [V1 V2 V3 V4 V5].
  assert (Hf : rg_file g = None) by (destruct (rg_file g); [|reflexivity]; destruct (proj2 V5) as [x Hx]; [now eexists|congruence]).
  assert (Hns : has (rg_flags g) VM_MAYSHARE = false).
  { apply not_true_is_false. intros Hs. destruct (ro_share _ (lk_region _ _ Hl r g Hg) Hs) as [[x Hx] _]. congruence. }
  split_and!; auto. now apply (lk_single _ _ Hl r).
Qed.

(** The region [r] may take another start inside its pages. *)
Lemma start_fresh regs own r g g' q x s :
  holds [] (singles (page_list regs) ++ own) s -> (forall r g, regs !! r = Some g -> region_ok g) -> regs !! r = Some g ->
  rg_start g' / 4096 ∈ region_pages g -> delete r regs !! q = Some x -> rg_start x <> rg_start g'.
Proof.
  intros Hh Hok Hr Hin [Hne Hq]%lookup_delete_Some E. apply Hne.
  apply (regions_disjoint regs r g q x (rg_start g' / 4096)); try assumption; [now apply (page_list_nodup own _ s)|].
  rewrite <- E. apply region_pages_start. now apply (Hok q).
Qed.

Lemma shrink_vma_ok lost mm m p v r g from to st :
  mm_inv lost st -> mms st !! mm = Some m -> p ∈ mm_rb m ->
  vmas st !! p = Some v -> v_region v = Some r -> regions st !! r = Some g -> v_file v = None -> shrinkable v from to ->
  exists st' m', shrink_vma mm p from to st = Ok (0, st') /\ mm_inv lost st' /\ vmas st' = <[p := shrunk_vma v from to]> (vmas st)
    /\ regions st' = <[r := shrunk_region g from to]> (regions st) /\ mms st' = <[mm := m']> (mms st) /\ mm_rb m' ≡ₚ mm_rb m.
Proof.
  intros [[Ht Hl Hh Ha] Hm Hf] Hmm Hp Hv Hr Hg Hvf Hsh.
  destruct (anonymous_private _ _ _ _ _ _ Hl Hv Hr Hg Hvf) as (Hu & Hns & Hs & Hgf).
  pose proof (lk_region _ _ Hl r g Hg) as Hok. pose proof (links_region _ _ _ _ _ _ Hl Hv Hr Hg) as Hvk.
  destruct (shrunk_ok g v from to Hok Hvk Hs Hns Hsh) as (Hok' & Hvk' & Hft & Hta & HP & Hin).
  unfold shrink_vma. destruct (delete_vma_from_mm_ok (vmas st) mm m p st Hm Hmm Hp) as [-> Hm1]. cbn [rbind].
  unfold deref at 1. mm_simpl. rewrite Hv. cbn [rbind]. fold (shrunk_vma v from to). set (v' := shrunk_vma v from to) in *.
  assert (Hr' : v_region v' = Some r) by (unfold v', shrunk_vma; destruct (v_start v <? from); exact Hr).
  assert (Hvf' : v_file v' = None) by (unfold v', shrunk_vma; destruct (v_start v <? from); exact Hvf).
  destruct (add_vma_to_mm_ok (delete p (vmas st)) mm (mm_without p m) p v' (put_vma p v' (put_mm mm (mm_without p m) st)))
    as (l & t & -> & HPt & Hm2); mm_simpl.
  { exact Hm1. } { apply insert_delete_subseteq || (rewrite <- insert_delete_eq; apply insert_subseteq, lookup_delete_eq). }
  { apply lookup_delete_eq. } { apply lookup_insert_eq. } { now rewrite Hr'. } { apply lookup_insert_eq. }
  cbn [rbind]. rewrite Hr'. unfold deref. mm_simpl. rewrite Hg. cbn [rbind]. rewrite Hu. cbn [BUG_ON Z.eqb negb rbind].
  cbn [mms put_vma put_mm set_mms set_vmas] in Hm2. rewrite insert_delete_eq, insert_insert_eq in Hm2.
  match goal with |- context [delete_nommu_region r ?s] => set (st1 := s) end.
  assert (Em : mms st1 = <[mm := set_lists (set_count (mm_without p m) (map_count (mm_without p m) + 1)) l t]> (mms st))
    by apply insert_insert_eq.
  rewrite <- Em in Hm2.
  destruct (delete_nommu_region_ok (regions st) r st1 Ht) as (t1 & -> & Ht1); [now exists g|]. cbn [rbind].
  replace (if rg_start g <? from then (set_span g (rg_start g) from from, rg_top g) else (set_span g to (rg_end g) (rg_top g), to))
    with (shrunk_region g from to, shrunk_to g from to)
    by (unfold shrunk_region, shrunk_to; now destruct (rg_start g <? from)).
  set (g' := shrunk_region g from to) in *.
  destruct (add_nommu_region_ok (delete r (regions st)) r g' (put_region r g' (set_tree st1 t1))) as (t2 & -> & Ht2); mm_simpl.
  { exact Ht1. } { rewrite <- insert_delete_eq. apply insert_subseteq, lookup_delete_eq. } { apply lookup_delete_eq. }
  { apply lookup_insert_eq. } { intros q x. apply (start_fresh _ _ r g g' q x _ Hh (lk_region _ _ Hl) Hg Hin). }
  cbn [rbind]. rewrite (page_list_delete _ r g Hg), HP, !singles_app, <- !app_assoc in Hh.
  destruct (free_page_series_ok from (shrunk_to g from to) (singles (region_pages g') ++ singles (page_list (delete r (regions st))) ++ singles lost ++ ext)
    (set_tree (put_region r g' (set_tree st1 t1)) t2)) as (s & -> & Hs'); [apply Hsh|exact Hta|lia|exact Hh|].
  cbn [rbind]. eexists _, _. split; [reflexivity|]. mm_simpl. rewrite Em. split_and!; try reflexivity.
  2: { cbn [mm_rb set_lists]. rewrite HPt. symmetry. apply filter_ne_perm; [now apply (mms_ok_nodup _ _ _ _ Hm Hmm)|exact Hp]. }
  rewrite insert_delete_eq in Ht2.
  split; [split|..]; mm_simpl; try change (regions st1) with (regions st).
  - exact Ht2.
  - apply (links_edit (regions st) (vmas st) r g g' p v v'); try assumption. unfold g', shrunk_region. now destruct (rg_start g <? from).
  - rewrite (page_list_update _ r g g' Hg), singles_app, <- app_assoc. exact Hs'.
  - change (mmap_pages_allocated st1) with (mmap_pages_allocated st). rewrite Ha.
    rewrite (page_list_update _ r g g' Hg), (page_list_delete _ r g Hg), HP, !length_app, length_seqZ, !Nat2Z.inj_add, Z2Nat.id by zdiv. lia.
  - exact Hm2.
  - intros i. change (f_count st1 i) with (f_count st i). rewrite Hf. unfold file_refs. mm_simpl.
    change (vmas st1) with (<[p := v']> (vmas st)). change (regions st1) with (regions st).
    rewrite (msum_update _ _ p v v' Hv), (msum_update _ _ r g g' Hg), Hvf, Hvf'.
    assert (rg_file g' = rg_file g) as -> by (unfold g', shrunk_region; now destruct (rg_start g <? from)). lia.
Qed.

Context (e : env).

(** Both halves go back into the trees. *)
Lemma readd_regions regs r r' g ga gb own s st :
  holds [] (singles (page_list regs) ++ own) s -> (forall r g, regs !! r = Some g -> region_ok g) ->
  regs !! r = Some g -> regs !! r' = None -> region_ok ga -> region_ok gb ->
  region_pages g = region_pages gb ++ region_pages ga -> rg_start gb <> rg_start ga ->
  tree_ok (delete r regs) (nommu_region_tree st) -> regions st = <[r := ga]> (<[r' := gb]> regs) ->
  exists t t', add_nommu_region r st = Ok (set_tree st t) /\ add_nommu_region r' (set_tree st t) = Ok (set_tree st t')
    /\ tree_ok (<[r' := gb]> (<[r := ga]> regs)) t'.
Proof.
  intros Hh Hok Hg Hr' Hga Hgb HP Hne Ht E. assert (Hrr : r <> r') by congruence.
  assert (Hsub : <[r := ga]> regs ⊆ regions st).
  { rewrite E, insert_insert_ne by congruence. apply insert_subseteq. now rewrite lookup_insert_ne. }
  destruct (add_nommu_region_ok (delete r regs) r ga st Ht) as (t & -> & Ht1).
  { etransitivity; [|exact Hsub]. rewrite <- insert_delete_eq. apply insert_subseteq, lookup_delete_eq. }
  { apply lookup_delete_eq. } { rewrite E. apply lookup_insert_eq. }
  { intros q x. apply (start_fresh _ _ r g ga q x _ Hh Hok Hg). rewrite HP. apply elem_of_app. right. now apply region_pages_start. }
  rewrite insert_delete_eq in Ht1.
  destruct (add_nommu_region_ok (<[r := ga]> regs) r' gb (set_tree st t) Ht1 Hsub) as (t' & E' & Ht2).
  { now rewrite lookup_insert_ne. } { cbn [regions set_tree]. rewrite E, lookup_insert_ne by congruence. apply lookup_insert_eq. }
  { intros q x Hq. apply lookup_insert_Some in Hq as [[<- <-]|[Hqr Hq]]; [congruence|].
    apply (start_fresh _ _ r g gb q x _ Hh Hok Hg); [rewrite HP; apply elem_of_app; left; now apply region_pages_start|].
    now rewrite lookup_delete_ne. }
  exists t, t'. auto.
Qed.

Lemma readd_vmas vs mm m p p' va vb st :
  mms_ok (delete p vs) (mms st) -> vs !! p' = None -> p <> p' -> is_Some (v_region va) -> is_Some (v_region vb) -> mms st !! mm = Some m ->
  vmas st = <[p := va]> (<[p' := vb]> vs) ->
  exists m1 m2, add_vma_to_mm mm p st = Ok (put_mm mm m1 st) /\ add_vma_to_mm mm p' (put_mm mm m1 st) = Ok (put_mm mm m2 st)
    /\ mm_rb m2 ≡ₚ p' :: p :: mm_rb m /\ mms_ok (<[p' := vb]> (<[p := va]> vs)) (<[mm := m2]> (mms st)).
Proof.
  intros Hm Hp' Hpp Hra Hrb Hmm E.
  assert (Hsub : <[p := va]> vs ⊆ vmas st).
  { rewrite E, insert_insert_ne by congruence. apply insert_subseteq. now rewrite lookup_insert_ne. }
  destruct (add_vma_to_mm_ok (delete p vs) mm m p va st Hm) as (l & t & -> & HP & Hm1).
  { etransitivity; [|exact Hsub]. rewrite <- insert_delete_eq. apply insert_subseteq, lookup_delete_eq. }
  { apply lookup_delete_eq. } { rewrite E. apply lookup_insert_eq. } { exact Hra. } { exact Hmm. }
  rewrite insert_delete_eq in Hm1. set (m1 := set_lists (set_count m (map_count m + 1)) l t) in *.
  destruct (add_vma_to_mm_ok (<[p := va]> vs) mm m1 p' vb (put_mm mm m1 st) Hm1 Hsub) as (l' & t' & E' & HP' & Hm2).
  { now rewrite lookup_insert_ne. } { cbn [vmas put_mm set_mms]. rewrite E, lookup_insert_ne by congruence. apply lookup_insert_eq. }
  { exact Hrb. } { apply lookup_insert_eq. }
  exists m1. eexists. split; [reflexivity|]. split.
  - rewrite E'. unfold put_mm, set_mms. cbn [mms]. rewrite insert_insert_eq. reflexivity.
  - cbn [mms put_mm set_mms] in Hm2. rewrite insert_insert_eq in Hm2. split; [|exact Hm2]. cbn [mm_rb set_lists]. rewrite HP'.
    constructor. exact HP.
Qed.

Lemma split_vma_ok lost mm m p v r g addr r' p' st :
  mm_inv lost st -> mms st !! mm = Some m -> p ∈ mm_rb m ->
  vmas st !! p = Some v -> v_region v = Some r -> regions st !! r = Some g -> v_file v = None ->
  map_count m < sysctl_max_map_count e -> regions st !! r' = None -> vmas st !! p' = None ->
  addr mod 4096 = 0 -> v_start v < addr < v_end v ->
  exists st' m', split_vma e mm p addr true (Some r') (Some p') st = Ok (0, st') /\ mm_inv lost st'
    /\ vmas st' = <[p := vma_above v addr]> (<[p' := vma_below v addr r']> (vmas st))
    /\ regions st' = <[r := region_above g v addr]> (<[r' := region_below g addr]> (regions st))
    /\ mms st' = <[mm := m']> (mms st) /\ mm_rb m' ≡ₚ p' :: mm_rb m.
Proof.
  intros [[Ht Hl Hh Ha] Hm Hf] Hmm Hp Hv Hr Hg Hvf Hmax Hr' Hp' Hal Hran.
  destruct (anonymous_private _ _ _ _ _ _ Hl Hv Hr Hg Hvf) as (Hu & Hns & Hs & Hgf).
  pose proof (lk_region _ _ Hl r g Hg) as Hok. pose proof (links_region _ _ _ _ _ _ Hl Hv Hr Hg) as Hvk.
  destruct (split_halves g v addr r' Hok Hvk Hs Hns Hal Hran) as (Hgb & Hga & Hvb & Hva & HP).
  assert (Hrr : r <> r') by congruence. assert (Hpp : p <> p') by congruence.
  unfold split_vma, deref at 1 2. rewrite Hv. cbn [rbind]. rewrite Hmm. cbn [rbind].
  rewrite bool_decide_false by (rewrite Hvf; apply is_Some_None). rewrite (proj2 (Z.leb_gt _ _)) by lia. rewrite Hr.
  unfold deref at 1. rewrite Hg. cbn [rbind]. fold (split_pgoff v addr). fold (region_below g addr).
  fold (region_above g v addr). fold (vma_above v addr). fold (vma_below v addr r').
  set (gb := region_below g addr) in *. set (ga := region_above g v addr) in *. set (vb := vma_below v addr r') in *. set (va := vma_above v addr) in *.
  destruct (delete_vma_from_mm_ok (vmas st) mm m p (put_region r' gb (put_vma p' vb st)) Hm Hmm Hp) as [-> Hm1]. cbn [rbind].
  match goal with |- context [delete_nommu_region r ?s] => set (st1 := s) in * end.
  destruct (delete_nommu_region_ok (regions st) r st1 Ht) as (t1 & -> & Ht1); [now exists g|]. cbn [rbind].
  set (st2 := put_region r ga (put_vma p va (set_tree st1 t1))).
  destruct (readd_regions (regions st) r r' g ga gb (singles lost ++ ext) (pgs st) st2) as (t2 & t3 & E2 & E3 & Ht3);
    try assumption; try reflexivity; [apply Hl|unfold ga, gb; cbn; lia|]. rewrite E2. cbn [rbind]. rewrite E3. cbn [rbind].
  set (st3 := set_tree st2 t3).
  destruct (readd_vmas (vmas st) mm (mm_without p m) p p' va vb st3) as (m1 & m2 & E4 & E5 & HPm & Hm3);
    try assumption; try reflexivity; [now exists r|now exists r'|apply lookup_insert_eq|]. rewrite E4. cbn [rbind]. rewrite E5. cbn [rbind].
  eexists _, m2. split; [reflexivity|]. mm_simpl. split_and!; try reflexivity.
  2: { cbn [mms set_tree put_region put_vma put_mm st1 st2 st3 set_mms set_vmas set_regions]. now rewrite !insert_insert_eq. }
  2: { rewrite HPm. constructor. symmetry. apply (Permutation_trans (filter_ne_perm (mm_rb m) p (mms_ok_nodup _ _ _ _ Hm Hmm) Hp)). reflexivity. }
  assert (Ef : rg_file ga = rg_file g /\ rg_file gb = rg_file g /\ v_file va = v_file v /\ v_file vb = v_file v) by (repeat split).
  destruct Ef as (F1 & F2 & F3 & F4).
  split; [split|..]; mm_simpl; unfold st3, st2, st1; mm_simpl; rewrite ?(insert_insert_ne (regions st) r r') by congruence;
    rewrite ?(insert_insert_ne (vmas st) p p') by congruence.
  - exact Ht3.
  - apply links_add; try assumption; try reflexivity; [|now rewrite lookup_insert_ne..].
    now apply (links_edit (regions st) (vmas st) r g ga p v va).
  - rewrite page_list_insert by now rewrite lookup_insert_ne. rewrite (page_list_update _ r g ga Hg).
    rewrite (page_list_delete _ r g Hg), HP in Hh. rewrite <- app_assoc in Hh. exact Hh.
  - rewrite page_list_insert by now rewrite lookup_insert_ne. rewrite (page_list_update _ r g ga Hg).
    rewrite Ha, (page_list_delete _ r g Hg), HP, <- app_assoc. reflexivity.
  - exact Hm3.
  - intros i. rewrite Hf. unfold file_refs. mm_simpl. rewrite (insert_insert_ne (regions st) r r'), (insert_insert_ne (vmas st) p p') by congruence. rewrite (msum_insert _ _ p' vb), (msum_insert _ _ r' gb) by now rewrite lookup_insert_ne.
    rewrite (msum_update _ _ p v va Hv), (msum_update _ _ r g ga Hg), F1, F2, F3, F4, Hgf, Hvf. cbn [file_ref]. lia.
Qed.

(** The addresses mapped in a process. *)
Definition mapped st (mm a : Z) : Prop :=
  exists m p v, mms st !! mm = Some m /\ p ∈ mm_rb m /\ vmas st !! p = Some v /\ covers a v.

(** No other area covers an address of a mapping that has its region for itself. *)
Lemma private_alone lost p v r g q w a st :
  core lost st -> vmas st !! p = Some v -> v_region v = Some r -> regions st !! r = Some g -> vm_usage g = 1 ->
  vmas st !! q = Some w -> covers a v -> covers a w -> q = p.
Proof.
  intros [Ht Hl Hh Ha] Hp Er Hg Hu Hq Hv Hw. pose proof (links_region _ _ _ _ _ _ Hl Hp Er Hg) as Hok.
  destruct (lk_vma _ _ Hl q w Hq) as (r' & g' & Er' & Hg' & Hok'). apply (links_alone _ _ p v r g q w Hl); try assumption.
  rewrite Er'. f_equal. pose proof (lk_region _ _ Hl r g Hg) as Hro. pose proof (lk_region _ _ Hl r' g' Hg') as Hro'.
  apply (regions_disjoint (regions st) r' g' r g (a / 4096)); try assumption; [now apply (page_list_nodup (singles lost ++ ext) _ (pgs st))|..];
    apply elem_of_region_pages; try assumption; unfold covers in *.
  - destruct Hok' as [V1 _ _ _ _], Hro' as [R1 R2 R3 R4 _ _]. zdiv.
  - destruct Hok as [V1 _ _ _ _], Hro as [R1 R2 R3 R4 _ _]. zdiv.
Qed.

Lemma anonymous_alone lost p v q w a st :
  mm_inv lost st -> vmas st !! p = Some v -> v_file v = None -> vmas st !! q = Some w -> covers a v -> covers a w -> q = p.
Proof.
  intros [Hc _ _] Hp Hvf Hq Hv Hw. pose proof (ci_links _ _ _ Hc) as Hl. destruct (lk_vma _ _ Hl p v Hp) as (r & g & Er & Hg & _).
  destruct (anonymous_private _ _ _ _ _ _ Hl Hp Er Hg Hvf) as (Hu & _). now apply (private_alone lost p v r g q w a st).
Qed.

(** The addresses [lo .. hi] of one process are unmapped, and nothing else is. *)
Definition removes (mm lo hi : Z) st (st' : nommu PS) : Prop :=
  (forall a, mapped st' mm a <-> mapped st mm a /\ ~ (lo <= a < hi)) /\ (forall k a, k <> mm -> mapped st' k a <-> mapped st k a).

(** The area [p] is replaced by the areas [new], which leave out [lo .. hi]. *)
Lemma mapped_edit lost mm m m' p v (new : list (Z * vm_area)) lo hi st st' :
  mm_inv lost st -> mms st !! mm = Some m -> p ∈ mm_rb m -> vmas st !! p = Some v -> v_file v = None ->
  mms st' = <[mm := m']> (mms st) -> (forall q, q ∈ mm_rb m' <-> (q ∈ mm_rb m /\ q <> p) \/ q ∈ new.*1) ->
  (forall q, is_Some (vmas st !! q) -> q <> p -> vmas st' !! q = vmas st !! q) -> (forall q w, (q, w) ∈ new -> vmas st' !! q = Some w) ->
  (forall a, lo <= a < hi -> covers a v) -> (forall a, (exists x, x ∈ new /\ covers a x.2) <-> covers a v /\ ~ (lo <= a < hi)) ->
  removes mm lo hi st st'.
Proof.
  intros Hi Hmm Hp Hv Hvf Em' Hrb Hold Hnew Hin Hcov. pose proof (mi_mms _ _ _ _ Hi) as Hms.
  assert (Hmm' : mms st' !! mm = Some m') by (rewrite Em'; apply lookup_insert_eq).
  assert (Hkeep : forall k mk q, mms st !! k = Some mk -> q ∈ mm_rb mk -> q <> p -> vmas st' !! q = vmas st !! q).
  { intros k mk q Hk Hq. apply Hold. now apply (mms_ok_elem _ _ _ _ _ Hms Hk). }
  split; intros a.
  2: { intros b Hne. assert (Hk : forall mk q, mms st !! a = Some mk -> q ∈ mm_rb mk -> vmas st' !! q = vmas st !! q).
       { intros mk q Hk Hq. apply (Hkeep a mk); try assumption. intros ->. now apply (mms_ok_other _ _ mm m a mk p Hms). }
       unfold mapped. rewrite Em', lookup_insert_ne by congruence.
       split; intros (mk & q & w & Ek & Hq & Hw & Ha); exists mk, q, w; [rewrite (Hk mk q Ek Hq) in Hw|rewrite (Hk mk q Ek Hq)]; auto. }
  split.
  - intros (m0 & q & w & Em & Hq & Hw & Ha). assert (m0 = m') as -> by congruence. apply Hrb in Hq as [[Hq Hne]|Hq].
    + rewrite (Hkeep mm m q Hmm Hq Hne) in Hw. split; [now exists m, q, w|]. intros Hr. apply Hne.
      now apply (anonymous_alone lost p v q w a st); [| | | |apply Hin|].
    + apply list_elem_of_fmap in Hq as ([q' w'] & -> & Hq). cbn in Hw. rewrite (Hnew _ _ Hq) in Hw. injection Hw as ->.
      destruct (proj1 (Hcov a)) as [H1 H2]; [now exists (q', w)|]. split; [now exists m, p, v|exact H2].
  - intros [(m0 & q & w & Em & Hq & Hw & Ha) Hn]. assert (m0 = m) as -> by congruence. destruct (decide (q = p)) as [->|Hne].
    + assert (w = v) as -> by congruence. destruct (proj2 (Hcov a) (conj Ha Hn)) as ([q' w'] & Hx & Ha'). exists m', q', w'.
      split_and!; [exact Hmm'| |now apply Hnew|exact Ha']. apply Hrb. right. apply list_elem_of_fmap. now exists (q', w').
    + exists m', q, w. split_and!; [exact Hmm'|apply Hrb; auto|now rewrite (Hkeep mm m)|exact Ha].
Qed.

Lemma shrink_mapped lost mm m p v r g from to st :
  mm_inv lost st -> mms st !! mm = Some m -> p ∈ mm_rb m ->
  vmas st !! p = Some v -> v_region v = Some r -> regions st !! r = Some g -> v_file v = None ->
  shrinkable v from to -> v_start v <= from -> from < to -> (v_start v < from -> to = v_end v) ->
  exists st' m', shrink_vma mm p from to st = Ok (0, st') /\ mm_inv lost st' /\ mms st' = <[mm := m']> (mms st)
    /\ removes mm from to st st'.
Proof.
  intros Hi Hmm Hp Hv Hr Hg Hvf Hs Hle Hft Htail.
  destruct (shrink_vma_ok lost mm m p v r g from to st Hi Hmm Hp Hv Hr Hg Hvf Hs) as (st' & m' & E & Hi' & Ev & _ & Em & HP).
  exists st', m'. split_and!; try assumption. destruct Hs as [_ Hs].
  apply (mapped_edit lost mm m m' p v [(p, shrunk_vma v from to)]); try assumption.
  - intros q. rewrite HP. cbn. rewrite list_elem_of_singleton. destruct (decide (q = p)); [subst; tauto|tauto].
  - intros q _ Hqp. rewrite Ev. now apply lookup_insert_ne.
  - intros q w [= -> ->]%list_elem_of_singleton. rewrite Ev. apply lookup_insert_eq.
  - intros a Ha. unfold covers. lia.
  - intros a. unfold shrunk_vma, covers. split.
    + intros (x & ->%list_elem_of_singleton & Hx). cbn [snd] in Hx. destruct (Z.ltb_spec (v_start v) from); cbn in Hx; lia.
    + intros [H1 H2]. eexists. split; [now apply list_elem_of_singleton|]. cbn [snd]. destruct (Z.ltb_spec (v_start v) from); cbn; lia.
Qed.

Lemma split_mapped lost mm m p v r g addr nr nv st :
  mm_inv lost st -> mms st !! mm = Some m -> p ∈ mm_rb m ->
  vmas st !! p = Some v -> v_region v = Some r -> regions st !! r = Some g -> v_file v = None ->
  (forall r, nr = Some r -> regions st !! r = None) -> (forall q, nv = Some q -> vmas st !! q = None) ->
  addr mod 4096 = 0 -> v_start v < addr < v_end v ->
  split_vma e mm p addr true nr nv st = Ok (- ENOMEM, st)
  \/ exists st' m', split_vma e mm p addr true nr nv st = Ok (0, st') /\ mm_inv lost st' /\ mms st' = <[mm := m']> (mms st) /\ p ∈ mm_rb m'
       /\ vmas st' !! p = Some (vma_above v addr) /\ regions st' !! r = Some (region_above g v addr)
       /\ removes mm 0 0 st st'.
Proof.
  intros Hi Hmm Hp Hv Hr Hg Hvf Hnr Hnv Hal Hran.
  destruct (Z.le_gt_cases (sysctl_max_map_count e) (map_count m)) as [Hmax|Hmax];
    [|destruct nr as [r'|]; [destruct nv as [p'|]|]].
  1, 3, 4: left; unfold split_vma, deref at 1 2; rewrite Hv; cbn [rbind]; rewrite Hmm; cbn [rbind];
    rewrite bool_decide_false by (rewrite Hvf; apply is_Some_None); destruct (Z.leb_spec (sysctl_max_map_count e) (map_count m)); (reflexivity || lia).
  right. specialize (Hnr r' eq_refl). specialize (Hnv p' eq_refl).
  destruct (split_vma_ok lost mm m p v r g addr r' p' st) as (st' & m' & E & Hi' & Ev & Er & Em & HP); try assumption.
  exists st', m'. assert (Hpp : p <> p') by congruence. assert (Hpm : p' ∉ mm_rb m).
  { intros Hin. destruct (mms_ok_elem _ _ _ _ _ (mi_mms _ _ _ _ Hi) Hmm Hin) as [w Hw]. congruence. }
  split_and!; try assumption.
  - rewrite HP. now right.
  - rewrite Ev. apply lookup_insert_eq.
  - rewrite Er. apply lookup_insert_eq.
  - apply (mapped_edit lost mm m m' p v [(p, vma_above v addr); (p', vma_below v addr r')]); try assumption.
    + intros q. rewrite HP. cbn. rewrite !elem_of_cons. destruct (decide (q = p)); [subst; tauto|]. split; [tauto|]. intros [?|[?|[?|?]]]; try tauto. now apply not_elem_of_nil in H0.
    + intros q [w Hq] Hqp. rewrite Ev, !lookup_insert_ne by congruence. reflexivity.
    + intros q w Hq. apply elem_of_cons in Hq as [[= -> ->]|Hq]; [|apply list_elem_of_singleton in Hq as [= -> ->]]; rewrite Ev; [apply lookup_insert_eq|].
      rewrite lookup_insert_ne by congruence. apply lookup_insert_eq.
    + lia.
    + intros b. unfold covers. split.
      * intros (x & Hx & Hb). apply elem_of_cons in Hx as [->|Hx]; [|apply list_elem_of_singleton in Hx as ->]; cbn in Hb; lia.
      * intros [Hb _]. destruct (Z.lt_ge_cases b addr);
          [exists (p', vma_below v addr r'); split; [right; left|cbn; lia]|exists (p, vma_above v addr); split; [left|cbn; lia]].
Qed.

(** [fin = start + len] does not wrap: the calls that remove a part of an anonymous mapping. *)
Lemma munmap_part_ok lost mm m p v start fin nr nv st :
  mm_inv lost st -> mms st !! mm = Some m -> p ∈ mm_rb m -> vmas st !! p = Some v -> v_file v = None ->
  covers start v -> start < fin <= v_end v -> start mod 4096 = 0 -> (fin = v_end v \/ fin mod 4096 = 0) ->
  (start <> v_start v \/ fin <> v_end v) ->
  (forall r, nr = Some r -> regions st !! r = None) -> (forall q, nv = Some q -> vmas st !! q = None) ->
  exists ret st',
    (if negb (start =? v_start v) && negb (fin =? v_end v) then
       let* (ret, st) := split_vma e mm p start true nr nv st in
       if ret <? 0 then Ok (ret, st) else shrink_vma mm p start fin st
     else shrink_vma mm p start fin st) = Ok (ret, st') /\ mm_inv lost st'
    /\ ((ret = - ENOMEM /\ st' = st /\ v_start v < start /\ fin < v_end v)
        \/ (ret = 0 /\ (exists m', mms st' = <[mm := m']> (mms st)) /\ removes mm start fin st st')).
Proof.
  intros Hi Hmm Hp Hv Hvf Hc Hfin Hal Hfa Hne Hnr Hnv. pose proof Hi as [[Ht Hl _ _] Hm _].
  destruct (lk_vma _ _ Hl p v Hv) as (r & g & Hr & Hg & Hok). unfold covers in Hc.
  destruct (Z.eqb_spec start (v_start v)) as [Es|Es]; [|destruct (Z.eqb_spec fin (v_end v)) as [Ef|Ef]]; cbn [negb andb].
  1-2: destruct (shrink_mapped lost mm m p v r g start fin st) as (st' & m' & E & Hi' & Em & Hma); try assumption; try lia;
    [split; [exact Hal|]; intuition lia|exists 0, st'; split_and!; try assumption; right; split_and!; eauto].
  destruct (split_mapped lost mm m p v r g start nr nv st) as [->|(st1 & m1 & -> & Hi1 & Em1 & Hp1 & Hv1 & Hg1 & Hma1)]; try assumption; try lia.
  - cbn. exists (- ENOMEM), st. split_and!; auto. left. split_and!; auto; lia.
  - cbn [rbind Z.ltb Z.compare]. assert (Hmm1 : mms st1 !! mm = Some m1) by (rewrite Em1; apply lookup_insert_eq).
    destruct (shrink_mapped lost mm m1 p (vma_above v start) r (region_above g v start) start fin st1) as (st' & m' & E & Hi' & Em & Hma);
      try assumption; cbn; try lia; [split; [exact Hal|cbn; intuition lia]|].
    exists 0, st'. split_and!; try assumption. right. split_and!; [reflexivity|exists m'; rewrite Em, Em1; apply insert_insert_eq|].
    destruct Hma as [Ha1 Ha2], Hma1 as [Hb1 Hb2]. split; [intros a; rewrite Ha1, Hb1; split; [intuition|intros [? ?]; intuition lia]|].
    intros k a Hk. now rewrite Ha2, Hb2.
Qed.

Lemma erase_mapped lost mm m p v st :
  mm_inv lost st -> mms st !! mm = Some m -> p ∈ mm_rb m -> vmas st !! p = Some v ->
  exists st' m', erase_whole_vma mm p st = Ok (0, st') /\ mm_inv lost st' /\ mms st' = <[mm := m']> (mms st)
    /\ vmas st' = delete p (vmas st)
    /\ (v_file v = None -> removes mm (v_start v) (v_end v) st st').
Proof.
  intros Hi Hmm Hp Hv. destruct (vma_region lost mm m p st Hi Hmm Hp) as (v' & r & g & Hv' & Hr & Hg & _). assert (v' = v) as -> by congruence.
  destruct (erase_whole_vma_ok lost mm m p v r g st Hi Hmm Hp Hv Hr Hg) as (st' & d & E & Hi' & Ev & _ & Em).
  exists st'. eexists. split_and!; [exact E|exact Hi'|exact Em|exact Ev|]. intros Hvf.
  apply (mapped_edit lost mm m (add_exe (mm_without p m) d) p v []); try assumption.
  - intros q. cbn [mm_rb add_exe mm_without set_lists]. rewrite filter_ne_elem. cbn. split; [tauto|]. intros [?|Hq]; [tauto|now apply not_elem_of_nil in Hq].
  - intros q _ Hqp. rewrite Ev. now apply lookup_delete_ne.
  - intros q w Hq. now apply not_elem_of_nil in Hq.
  - auto.
  - intros a. split; [intros (x & Hx & _); now apply not_elem_of_nil in Hx|unfold covers; lia].
Qed.

(** A call fails and changes only the cache, or it removes what was asked for. *)
Definition munmap_outcome (mm : Z) (m : mm_struct) (start fin : Z) st (ret : Z) (st' : nommu PS) : Prop :=
  ((ret = - EINVAL \/ ret = - ENOMEM) /\ exists c, st' = put_mm mm (set_cache m c) st)
  \/ (ret = 0 /\ (exists m', mms st' = <[mm := m']> (mms st))
      /\ exists p v, p ∈ mm_rb m /\ vmas st !! p = Some v /\ covers start v
         /\ match v_file v with
            | None => removes mm start fin st st'
            | Some _ => exists q, q ∈ mm_rb m /\ vmas st' = delete q (vmas st)
            end).

Lemma mapped_cache mm m c k a st : mms st !! mm = Some m -> mapped (put_mm mm (set_cache m c) st) k a <-> mapped st k a.
Proof.
  intros Hm. unfold mapped. cbn [mms vmas put_mm set_mms]. destruct (decide (k = mm)) as [->|Hne]; [|now rewrite lookup_insert_ne by congruence].
  rewrite lookup_insert_eq. split; intros (m' & p & v & E & Hp & Hv & Ha).
  - injection E as <-. now exists m, p, v.
  - assert (m' = m) as -> by congruence. now exists (set_cache m c), p, v.
Qed.

Lemma munmap_anonymous_ok lost mm m c p v start fin nr nv st :
  mm_inv lost st -> mms st !! mm = Some m -> mm_inv lost (put_mm mm (set_cache m c) st) ->
  p ∈ mm_rb m -> vmas st !! p = Some v -> v_file v = None -> covers start v -> start < fin ->
  (forall r, nr = Some r -> regions st !! r = None) -> (forall q, nv = Some q -> vmas st !! q = None) ->
  exists ret st',
    (let st := put_mm mm (set_cache m c) st in
     if (start =? v_start v) && (fin =? v_end v) then erase_whole_vma mm p st
     else if (start <? v_start v) || (v_end v <? fin) then Ok (- EINVAL, st)
     else if has start (.~ PAGE_MASK) then Ok (- EINVAL, st)
     else if negb (fin =? v_end v) && has fin (.~ PAGE_MASK) then Ok (- EINVAL, st)
     else if negb (start =? v_start v) && negb (fin =? v_end v) then
       let* (ret, st) := split_vma e mm p start true nr nv st in
       if ret <? 0 then Ok (ret, st) else shrink_vma mm p start fin st
     else shrink_vma mm p start fin st) = Ok (ret, st')
    /\ mm_inv lost st' /\ munmap_outcome mm m start fin st ret st'
    /\ (fin <= v_end v -> start mod 4096 = 0 -> fin = v_end v \/ fin mod 4096 = 0 ->
        ret = 0 \/ (ret = - ENOMEM /\ v_start v < start /\ fin < v_end v)).
Proof.
  intros Hi Hmm Hi1 Hp Hv Hvf Hc Hsf Hnr Hnv. cbv zeta. set (st1 := put_mm mm (set_cache m c) st) in *.
  assert (Hmm1 : mms st1 !! mm = Some (set_cache m c)) by apply lookup_insert_eq.
  assert (Hdone : forall st' m', mms st' = <[mm := m']> (mms st1) ->
    removes mm start fin st1 st' -> munmap_outcome mm m start fin st 0 st').
  { intros st' m' Em [Hma Hmo]. right. split; [reflexivity|]. split; [exists m'; rewrite Em; apply insert_insert_eq|].
    exists p, v. split_and!; try assumption. rewrite Hvf.
    split; [intros a; rewrite Hma|intros k a Hk; rewrite Hmo by exact Hk]; unfold st1; now rewrite mapped_cache. }
  assert (Hfail : forall ret, ret = - EINVAL \/ ret = - ENOMEM -> munmap_outcome mm m start fin st ret st1).
  { intros ret Hret. left. split; [exact Hret|now exists c]. }
  destruct Hc as [Hc1 Hc2]. destruct (lk_vma _ _ (ci_links _ _ _ (mi_core _ _ _ _ Hi)) p v Hv) as (r & g & _ & Hg & Hok).
  pose proof (ro_order _ (lk_region _ _ (ci_links _ _ _ (mi_core _ _ _ _ Hi)) r g Hg)) as Hor. destruct (vo_span _ _ Hok).
  destruct ((start =? v_start v) && (fin =? v_end v)) eqn:Ew.
  { apply andb_true_iff in Ew as [Es%Z.eqb_eq Ef%Z.eqb_eq].
    destruct (erase_mapped lost mm (set_cache m c) p v st1 Hi1 Hmm1 Hp Hv) as (st' & m' & -> & Hi' & Em & Ev & Hma).
    exists 0, st'. split_and!; auto. apply (Hdone st' m' Em). rewrite Es, Ef. exact (Hma Hvf). }
  rewrite (proj2 (Z.ltb_ge start (v_start v))) by lia. cbn [orb].
  destruct (Z.ltb_spec (v_end v) fin); [eexists _, st1; split_and!; eauto; lia|].
  rewrite !has_offset by lia. destruct (Z.eqb_spec (start mod 4096) 0); cbn [negb]; [|eexists _, st1; split_and!; eauto; lia].
  destruct (negb (fin =? v_end v) && negb (fin mod 4096 =? 0)) eqn:Eu; [eexists _, st1; split_and!; eauto|].
  { apply andb_true_iff in Eu as [E1%negb_true_iff%Z.eqb_neq E2%negb_true_iff%Z.eqb_neq]. lia. }
  assert (Hne : start <> v_start v \/ fin <> v_end v).
  { apply andb_false_iff in Ew as [Ew%Z.eqb_neq|Ew%Z.eqb_neq]; auto. }
  assert (Hfa : fin = v_end v \/ fin mod 4096 = 0).
  { apply andb_false_iff in Eu as [Eu%negb_false_iff%Z.eqb_eq|Eu%negb_false_iff%Z.eqb_eq]; auto. }
  destruct (munmap_part_ok lost mm (set_cache m c) p v start fin nr nv st1) as (ret & st' & E & Hi' & Hout); try assumption; [split; lia|lia|].
  exists ret, st'. split; [exact E|]. split; [exact Hi'|]. destruct Hout as [(-> & -> & Ha & Hb)|(-> & [m' Em] & Hma)]; [|split; [eauto|auto]].
  split; [auto|]. intros _ _ _. right. auto.
Qed.

Lemma do_munmap_ok lost mm m start len nr nv st :
  mm_inv lost st -> mms st !! mm = Some m -> 0 <= start -> 0 <= len -> start + len < 2 ^ 32 ->
  (forall r, nr = Some r -> regions st !! r = None) -> (forall q, nv = Some q -> vmas st !! q = None) ->
  exists ret st', do_munmap e mm start len nr nv st = Ok (ret, st') /\ mm_inv lost st' /\ munmap_outcome mm m start (start + len) st ret st'.
Proof.
  intros Hi Hmm Hs Hlen Hw Hnr Hnv. unfold do_munmap. rewrite u32_id by (unfold is_u32; lia).
  destruct (Z.eqb_spec len 0) as [|Hl0].
  { exists (- EINVAL), st. split_and!; auto. left. split; [auto|]. exists (mmap_cache m). symmetry. now apply put_cache_same. }
  destruct (find_vma_ok base ext lost mm m start st Hi Hmm) as (hit & c & st1 & -> & Hfound & -> & Hi1). cbn [rbind].
  assert (Hfail : munmap_outcome mm m start (start + len) st (- EINVAL) (put_mm mm (set_cache m c) st)).
  { left. split; [now left|now exists c]. }
  destruct hit as [p|]; [|eauto]. destruct Hfound as (Hp & v & Hv & Hc). unfold deref at 1. cbn [vmas put_mm set_mms]. rewrite Hv. cbn [rbind].
  destruct (v_file v) as [f|] eqn:Hvf.
  2: { rewrite bool_decide_false by apply is_Some_None.
       destruct (munmap_anonymous_ok lost mm m c p v start (start + len) nr nv st) as (ret & st' & E & Hi' & Ho & _); try assumption; [lia|eauto]. }
  rewrite bool_decide_true by (now exists f). unfold deref. cbn [mms put_mm set_mms]. rewrite lookup_insert_eq. cbn [rbind mm_rb set_cache].
  destruct (munmap_file_loop_ok (vmas st) start (start + len) (from_vma p (mm_rb m))) as (r & -> & Hr).
  { intros q Hq%from_vma_sub. now apply (mm_elems base ext lost mm m q st). }
  cbn [rbind]. destruct r as [q|]; [|eauto]. specialize (Hr q eq_refl). apply from_vma_sub in Hr.
  destruct (mm_elems base ext lost mm m q st Hi Hmm Hr) as [w Hq].
  destruct (erase_mapped lost mm (set_cache m c) q w (put_mm mm (set_cache m c) st) Hi1) as (st' & m' & -> & Hi' & Em & Ev & _); try assumption; [apply lookup_insert_eq|].
  exists 0, st'. split_and!; auto. right. split; [reflexivity|]. split; [exists m'; rewrite Em; apply insert_insert_eq|].
  exists p, v. split_and!; try assumption. rewrite Hvf. now exists q.
Qed.

(** Unlinking the head of the list first makes no difference. *)
Lemma delete_head mm m p rest st :
  mms st !! mm = Some m -> mmap m = p :: rest ->
  delete_vma_from_mm mm p (put_mm mm (set_lists m rest (mm_rb m)) st) = delete_vma_from_mm mm p st.
Proof.
  intros Hm Hl. unfold delete_vma_from_mm, deref. cbn [mms put_mm set_mms]. rewrite Hm, lookup_insert_eq. cbn [rbind].
  assert (Hfil : filter (fun q => q <> p) (mmap m) = filter (fun q => q <> p) rest) by (rewrite Hl, filter_cons, decide_False by tauto; reflexivity).
  cbn [mmap_cache set_count set_lists]. destruct (bool_decide (mmap_cache m = Some p)); cbn [mm_rb set_cache set_count set_lists];
    (destruct (bool_decide (p ∈ mm_rb m)); [|reflexivity]); unfold put_mm, set_mms; cbn [mms]; rewrite insert_insert_eq;
    cbn [mmap set_cache set_count set_lists]; rewrite Hfil; reflexivity.
Qed.

Lemma exit_loop_ok n lost mm m st :
  mm_inv lost st -> mms st !! mm = Some m -> (length (mmap m) <= n)%nat ->
  exists st' m', exit_loop n mm st = Ok st' /\ mm_inv lost st' /\ mms st' = <[mm := m']> (mms st) /\ mm_rb m' = [].
Proof.
  revert m st. induction n as [|n IH]; intros m st Hi Hmm Hn; cbn [exit_loop]; unfold deref; rewrite Hmm; cbn [rbind];
    pose proof (mo_list _ _ (ms_each _ _ (mi_mms _ _ _ _ Hi) mm m Hmm)) as HP;
    destruct (mmap m) as [|p rest] eqn:Hl; try (cbn in Hn; lia).
  1, 2: exists st, m; split_and!; auto; [symmetry; now apply insert_id|now apply Permutation_nil in HP].
  rewrite (delete_head mm m p rest st Hmm Hl). assert (Hp : p ∈ mm_rb m) by (rewrite <- HP; left).
  destruct (vma_region lost mm m p st Hi Hmm Hp) as (v & r & g & Hv & Hr & Hg & _).
  destruct (erase_whole_vma_ok lost mm m p v r g st Hi Hmm Hp Hv Hr Hg) as (st1 & d & E & Hi1 & _ & _ & Em).
  unfold erase_whole_vma in E. destruct (delete_vma_from_mm mm p st) as [st0|]; [|discriminate]. cbn [rbind] in *.
  destruct (delete_vma mm p st0) as [st1'|]; [|discriminate]. cbn [rbind] in *. injection E as ->.
  destruct (IH (add_exe (mm_without p m) d) st1) as (st' & m' & E' & Hi' & Em' & Hrb).
  - exact Hi1.
  - rewrite Em. apply lookup_insert_eq.
  - cbn [mmap add_exe mm_without set_lists set_cache set_count]. rewrite Hl, filter_cons, decide_False by tauto.
    pose proof (length_filter (fun q => q <> p) rest). cbn [length] in Hn. lia.
  - exists st', m'. split_and!; auto. rewrite Em', Em. apply insert_insert_eq.
Qed.

Lemma exit_mmap_ok lost mm m st :
  mm_inv lost st -> mms st !! mm = Some m ->
  exists st' m', exit_mmap mm st = Ok st' /\ mm_inv lost st' /\ mms st' = <[mm := m']> (mms st) /\ mm_rb m' = [].
Proof.
  intros Hi Hmm. unfold exit_mmap, deref. rewrite Hmm. cbn [rbind].
  destruct (exit_loop_ok (length (mmap m)) lost mm (set_total_vm m 0) (put_mm mm (set_total_vm m 0) st)) as (st' & m' & E & Hi' & Em & Hrb).
  - destruct Hi as [Hc Hm Hf]. split; [now apply (core_frame ext lost st)| |exact Hf].
    apply (mms_ok_frame _ _ mm m); try assumption; try reflexivity. apply (ms_each _ _ Hm mm m Hmm).
  - apply lookup_insert_eq.
  - reflexivity.
  - exists st', m'. split_and!; auto. rewrite Em. apply insert_insert_eq.
Qed.

End Unmap.
