(* ===== verification/NommuMmap.v ===== *)
(** * Mappings without an MMU: creating mappings

    [do_mmap_pgoff] for anonymous memory and for files that are mapped by copying
    them ([copied]): what a request is allowed, the flags, private copies, sharing
    of copies, and every error path. *)

From stdpp Require Import gmap.
From S2P Require Import Prelude PageAlloc Buddy BuddyAlloc Pcp PageOps PageSource Nommu NommuLib NommuPages NommuInv NommuFind NommuUnmap.

(** ** Flags *)

Lemma has_lor x y k : has (x .| y) k = has x k || has y k.
Proof.
  unfold has. change ((x .| y) .& k) with (Z.land (Z.lor x y) k). rewrite Z.land_lor_distr_l.
  change (x .& k) with (Z.land x k). change (y .& k) with (Z.land y k).
  destruct (Z.eqb_spec (Z.lor (Z.land x k) (Z.land y k)) 0) as [E|E].
  - apply Z.lor_eq_0_iff in E as [-> ->]. reflexivity.
  - destruct (Z.eqb_spec (Z.land x k) 0) as [E1|]; [|reflexivity]. destruct (Z.eqb_spec (Z.land y k) 0) as [E2|]; [|reflexivity].
    rewrite E1, E2 in E. now contradict E.
Qed.

Lemma has_masked x m k : Z.land m k = 0 -> has (x .& m) k = false.
Proof.
  intros E. unfold has. change (x .& m .& k) with (Z.land (Z.land x m) k). now rewrite <- Z.land_assoc, E, Z.land_0_r.
Qed.

Lemma has_land_sub x m k : Z.land m k = k -> has (x .& m) k = has x k.
Proof. intros E. unfold has. change (x .& m .& k) with (Z.land (Z.land x m) k). now rewrite <- Z.land_assoc, E. Qed.

Lemma has_land_false x m k : has x k = false -> has (x .& m) k = false.
Proof.
  unfold has. rewrite !negb_false_iff, !Z.eqb_eq. change (x .& m .& k) with (Z.land (Z.land x m) k). change (x .& k) with (Z.land x k).
  intros E. now rewrite <- Z.land_assoc, (Z.land_comm m), Z.land_assoc, E.
Qed.

Section Flags.

Context (e : env).

(** Memory that is not mapped in place. *)
Definition copied (f : option file) : Prop := match f with Some f => can_get_unmapped_area f = false | None => True end.

Lemma file_capabilities_copied f c : can_get_unmapped_area f = false -> file_capabilities f = inr c -> has c BDI_CAP_MAP_DIRECT = false.
Proof.
  intros Hf. unfold file_capabilities. rewrite Hf. destruct (if negb _ then _ else _) as [|c0]; [discriminate|]. intros [= <-].
  destruct (can_read f); [|apply has_land_false]; now apply has_masked.
Qed.

Lemma validate_file_copied f prot flags c prot' :
  can_get_unmapped_area f = false -> validate_file e f prot flags = inr (c, prot') -> has c BDI_CAP_MAP_DIRECT = false.
Proof.
  intros Hf. unfold validate_file. destruct (negb (can_mmap f)); [discriminate|].
  destruct (file_capabilities f) as [|c0] eqn:Ec; [discriminate|]. apply file_capabilities_copied in Ec; [|exact Hf].
  destruct (negb (fmode_read f)); [discriminate|]. intros Hv.
  match type of Hv with context [match ?x with inl _ => _ | inr _ => _ end] => destruct x as [|c1] eqn:E1; [discriminate|] end.
  assert (H1 : has c1 BDI_CAP_MAP_DIRECT = false).
  { repeat match type of E1 with (if ?b then _ else _) = _ => destruct b; try discriminate end; injection E1 as <-; auto using has_land_false.
    destruct (has prot PROT_WRITE); auto using has_land_false. }
  repeat match type of Hv with (if ?b then _ else _) = _ => destruct b; try discriminate end; injection Hv as <- _; auto using has_land_false.
Qed.

(** What is known of a request that is allowed. *)
Record allowed (f : option file) (len flags pgoff c : Z) : Prop := {
  al_copy : has c BDI_CAP_MAP_DIRECT = false;
  al_len : 0 < PAGE_ALIGN len <= TASK_SIZE /\ PAGE_ALIGN len = 4096 * ((len + 4095) / 4096) /\ len + 4095 < 2 ^ 32;
  al_pgoff : pgoff + PAGE_ALIGN len / 4096 < 2 ^ 32
}.

Lemma validate_allowed f len prot flags pgoff c :
  copied f -> 0 <= len < 2 ^ 32 -> 0 <= pgoff < 2 ^ 32 -> validate_mmap_request e f len prot flags pgoff = inr c -> allowed f len flags pgoff c.
Proof.
  intros Hf Hl Hp. unfold validate_mmap_request. destruct (has flags MAP_FIXED); [discriminate|].
  destruct (_ && _); [discriminate|]. destruct (Z.eqb_spec len 0) as [|Hl0]; [discriminate|].
  destruct (Z.eqb_spec (PAGE_ALIGN len) 0) as [|Hr0]; [discriminate|]. cbn [orb].
  destruct (Z.ltb_spec TASK_SIZE (PAGE_ALIGN len)) as [|Hr1]; [discriminate|].
  destruct (PAGE_ALIGN_spec len ltac:(lia) Hr0) as [Er Hlen]. rewrite Z.shiftr_div_pow2 by lia. change (2 ^ 12) with 4096.
  destruct (Z.ltb_spec (u32 (pgoff + PAGE_ALIGN len / 4096)) pgoff) as [|Hov]; [discriminate|]. intros Hv.
  match type of Hv with context [match ?x with inl _ => _ | inr _ => _ end] => destruct x as [|[c1 prot']] eqn:E1; [discriminate|] end.
  destruct (security_file_mmap e prot prot' flags <? 0); [discriminate|]. injection Hv as <-.
  assert (Hr2 : 0 < PAGE_ALIGN len) by (rewrite Er in *; zdiv).
  split; [|auto|].
  - destruct f as [f|]; [now apply (validate_file_copied f prot flags c1 prot')|]. now injection E1 as <- _.
  - destruct (Z.lt_ge_cases (pgoff + PAGE_ALIGN len / 4096) (2 ^ 32)) as [|Hge]; [assumption|]. exfalso.
    unfold TASK_SIZE in Hr1. unfold u32 in Hov. zdiv.
Qed.

Definition base_flags (prot flags : Z) : Z :=
  calc_vm_prot_bits prot .| calc_vm_flag_bits flags .| (VM_MAYREAD .| VM_MAYWRITE .| VM_MAYEXEC).

Lemma base_flags_has prot flags k :
  Z.land k (PROT_READ .| PROT_WRITE .| PROT_EXEC .| MAP_GROWSDOWN .| MAP_DENYWRITE .| MAP_EXECUTABLE .| MAP_LOCKED
            .| VM_MAYREAD .| VM_MAYWRITE .| VM_MAYEXEC) = 0 -> has (base_flags prot flags) k = false.
Proof.
  intros E. unfold base_flags, calc_vm_prot_bits, calc_vm_flag_bits. rewrite !has_lor.
  assert (Hk : forall m, Z.land m (PROT_READ .| PROT_WRITE .| PROT_EXEC .| MAP_GROWSDOWN .| MAP_DENYWRITE .| MAP_EXECUTABLE .| MAP_LOCKED
            .| VM_MAYREAD .| VM_MAYWRITE .| VM_MAYEXEC) = m -> Z.land m k = 0).
  { intros m Em. rewrite <- Em, <- Z.land_assoc, (Z.land_comm _ k), E. apply Z.land_0_r. }
  assert (Hc : forall m, Z.land m k = 0 -> has m k = false) by (intros m Em; unfold has; now rewrite (Em : (m .& k) = 0)).
  now rewrite !has_masked, !Hc by now apply Hk.
Qed.

Lemma determine_flags_copied f prot flags c :
  has c BDI_CAP_MAP_DIRECT = false ->
  let vf := determine_vm_flags e f prot flags c in
  has vf VM_SHARED = false /\ has vf VM_EXECUTABLE = has flags MAP_EXECUTABLE
  /\ has vf VM_MAYSHARE = bool_decide (is_Some f) && negb (has prot PROT_WRITE) && negb (has flags MAP_PRIVATE && traced e).
Proof.
  intros Hc vf. subst vf. unfold determine_vm_flags. rewrite Hc. cbn [negb]. fold (base_flags prot flags).
  assert (H1 : has (base_flags prot flags) VM_SHARED = false) by now apply base_flags_has.
  assert (H2 : has (base_flags prot flags) VM_MAYSHARE = false) by now apply base_flags_has.
  assert (H3 : has (base_flags prot flags) VM_EXECUTABLE = has flags MAP_EXECUTABLE).
  { unfold base_flags, calc_vm_prot_bits, calc_vm_flag_bits. rewrite !has_lor, (has_land_sub flags MAP_EXECUTABLE VM_EXECUTABLE) by reflexivity.
    rewrite !(has_masked _ _ VM_EXECUTABLE) by reflexivity. cbn [orb]. rewrite !orb_false_r. reflexivity. }
  destruct (bool_decide (is_Some f) && negb (has prot PROT_WRITE)), (has flags MAP_PRIVATE && traced e); cbn [andb negb].
  all: split_and!; rewrite ?(has_masked _ (.~ VM_MAYSHARE) VM_MAYSHARE) by reflexivity;
    rewrite ?(has_land_sub _ (.~ VM_MAYSHARE)) by reflexivity; rewrite ?has_lor, ?H1, ?H2, ?H3; cbn [orb]; rewrite ?orb_false_r; reflexivity.
Qed.

End Flags.

(** ** Copies *)

Section Mmap.

Context {PS : Type} `{PageSource PS} (e : env) (base : Z -> Z) (ext : list (Z * nat)).
Implicit Type st : nommu PS.

Local Abbreviation core := (core ext).
Local Abbreviation mm_inv := (mm_inv base ext).

(** The region and the area of a copy at [page]. *)
Definition copy_region (g : vm_region) (flags page len : Z) : vm_region :=
  set_span (set_rg_flags g (flags .| VM_MAPPED_COPY)) (page * 4096) (page * 4096 + PAGE_ALIGN len)
    ((page + mapping_pages e (PAGE_ALIGN len)) * 4096).
Definition copy_vma (v : vm_area) (page len : Z) : vm_area :=
  set_v_span (set_v_flags v (v_flags v .| VM_MAPPED_COPY)) (page * 4096) (page * 4096 + len).

Definition sized (len : Z) : Prop :=
  0 < PAGE_ALIGN len <= TASK_SIZE /\ PAGE_ALIGN len = 4096 * ((len + 4095) / 4096) /\ len + 4095 < 2 ^ 32.

Lemma sized_len len : sized len -> 0 < len <= PAGE_ALIGN len /\ PAGE_ALIGN len mod 4096 = 0 /\ PAGE_ALIGN len <= 4096 * 2048.
Proof. intros (H1 & H2 & H3). unfold TASK_SIZE in H1. rewrite H2 in *. zdiv. Qed.

(** The pages of a new mapping are addresses. *)
Lemma mapping_addresses page total own s :
  0 < total -> holds [] (singles (seqZ page total) ++ own) s -> 0 < page /\ page + total < 2 ^ 20.
Proof.
  intros Ht Hh.
  assert (Hq : forall q, page <= q < page + total -> 0 < q < 2 ^ 20 - 1).
  { intros q Hq. apply (holds_range _ _ _ _ Hh). rewrite app_nil_l, pages_app. unfold singles. rewrite pages_singles.
    apply elem_of_app. left. apply elem_of_seqZ. lia. }
  pose proof (Hq page ltac:(lia)). pose proof (Hq (page + total - 1) ltac:(lia)). lia.
Qed.

(** The outcomes: no memory; the file cannot be read; a copy. *)
Inductive private_outcome own p r len (v : vm_area) (g : vm_region) st : Z -> nommu PS -> Prop :=
| private_nomem s : holds [] own s -> private_outcome own p r len v g st (- ENOMEM) (set_pages st (mmap_pages_allocated st) s)
| private_unread f g' v' page s n :
    v_file v = Some f -> op_read f (v_pgoff v) (PAGE_ALIGN len) < 0 ->
    rg_file g' = rg_file g -> v_file v' = v_file v -> has (v_flags v') VM_EXECUTABLE = has (v_flags v) VM_EXECUTABLE ->
    let left := mapping_pages e (PAGE_ALIGN len) - PAGE_ALIGN len / 4096 in
    holds [] (singles (seqZ page left) ++ own) s -> n = mmap_pages_allocated st + left ->
    private_outcome own p r len v g st (op_read f (v_pgoff v) (PAGE_ALIGN len)) (put_vma p v' (put_region r g' (set_pages st n s)))
| private_copy page s :
    let total := mapping_pages e (PAGE_ALIGN len) in
    holds [] (singles (seqZ page total) ++ own) s -> 0 < page -> page + total < 2 ^ 20 ->
    (forall f, v_file v = Some f -> 0 <= op_read f (v_pgoff v) (PAGE_ALIGN len)) ->
    private_outcome own p r len v g st 0
      (put_vma p (copy_vma v page len) (put_region r (copy_region g (v_flags v) page len) (set_pages st (mmap_pages_allocated st + total) s))).

Lemma do_mmap_private_ok own p r len c v g st :
  has c BDI_CAP_MAP_DIRECT = false -> sized len -> vmas st !! p = Some v -> regions st !! r = Some g -> holds [] own (pgs st) ->
  exists ret st', do_mmap_private e p r len c st = Ok (ret, st') /\ private_outcome own p r len v g st ret st'.
Proof.
  intros Hc Hsz Hv Hg Hh. destruct (sized_len len Hsz) as (Hl & Hm & Hmx). unfold do_mmap_private. rewrite Hc. cbn [rbind].
  set (rlen := PAGE_ALIGN len) in *.
  destruct (mapping_pages_range e rlen ltac:(lia) Hm) as [Hmp _].
  destruct (alloc_mapping_ok e rlen own st ltac:(lia) Hm Hh) as ([[page total]|] & s & -> & Hs); cbn [rbind].
  2: { rewrite Z.add_0_r. eexists _, _. split; [reflexivity|]. now constructor. }
  destruct Hs as [-> Hs]. destruct (mapping_addresses page (mapping_pages e rlen) own s ltac:(lia) Hs) as [Hp1 Hp2].
  unfold deref. mm_simpl. rewrite Hv, Hg. cbn [rbind].
  assert (Hsh : mapping_pages e rlen .<< 12 = mapping_pages e rlen * 4096).
  { unfold shl32. rewrite Z.shiftl_mul_pow2 by lia. change (2 ^ 12) with 4096. apply u32_id. unfold is_u32. lia. }
  rewrite Hsh. rewrite !u32_id by (unfold is_u32; zdiv).
  replace (page * 4096 + mapping_pages e rlen * 4096) with ((page + mapping_pages e rlen) * 4096) by lia.
  fold (copy_vma v page len). fold (copy_region g (v_flags v) page len).
  change (v_file (copy_vma v page len)) with (v_file v). change (v_pgoff (copy_vma v page len)) with (v_pgoff v).
  destruct (v_file v) as [f|] eqn:Hvf.
  2: { eexists _, _. split; [reflexivity|]. constructor; try assumption. congruence. }
  destruct (Z.ltb_spec (op_read f (v_pgoff v) rlen) 0) as [Hrd|Hrd].
  2: { eexists _, _. split; [reflexivity|]. constructor; try assumption. intros f' Hf'. assert (f' = f) as -> by congruence. exact Hrd. }
  rewrite (seqZ_split page _ (rlen / 4096)), singles_app, <- app_assoc in Hs by lia.
  match goal with |- context [free_page_series ?a ?b ?s0] =>
    destruct (free_page_series_ok (page * 4096) (page * 4096 + rlen)
      (singles (seqZ (page + rlen / 4096) (mapping_pages e rlen - rlen / 4096)) ++ own) s0) as (s1 & E1 & Hs1);
      [zdiv|zdiv|lia| |change a with (page * 4096); change b with (page * 4096 + rlen); rewrite E1] end.
  { mm_simpl. replace (page * 4096 / 4096) with page by zdiv. replace (page * 4096 + rlen - page * 4096) with rlen by lia. exact Hs. }
  cbn [rbind]. eexists _, _. split; [reflexivity|].
  replace (page * 4096 + rlen - page * 4096) with rlen by lia.
  unfold put_vma, put_region, set_vmas, set_regions, set_pages. mm_simpl. rewrite !insert_insert_eq.
  apply (private_unread own p r len v g st f (set_span (copy_region g (v_flags v) page len) 0 0 0)
    (set_v_span (copy_vma v page len) 0 0) (page + rlen / 4096) s1 (mmap_pages_allocated st + mapping_pages e rlen - rlen / 4096)); try assumption; try reflexivity; [|subst rlen; lia].
  cbn [v_flags copy_vma set_v_span set_v_flags]. rewrite has_lor. change (has VM_MAPPED_COPY VM_EXECUTABLE) with false. apply orb_false_r.
Qed.

(** ** The error path *)

(** A new region and a new area are allocated, in no tree yet; the pages of [st] and [lost] are held. *)
Record pending (cur : Z) (m : mm_struct) (p r : Z) (f : option file) (exe : bool) (lost : list Z) st (st1 : nommu PS) : Prop := {
  pd_region : exists g, regions st1 = <[r := g]> (regions st) /\ rg_file g = f;
  pd_vma : exists v, vmas st1 = <[p := v]> (vmas st) /\ v_file v = f /\ has (v_flags v) VM_EXECUTABLE = exe;
  pd_tree : nommu_region_tree st1 = nommu_region_tree st;
  pd_mms : mms st1 = if exe then <[cur := add_exe m 1]> (mms st) else mms st;
  pd_files i : f_count st1 i = f_count st i + 2 * file_ref i f;
  pd_pages : holds [] (singles (page_list (regions st)) ++ singles lost ++ ext) (pgs st1);
  pd_alloc : mmap_pages_allocated st1 = Z.of_nat (length (page_list (regions st))) + Z.of_nat (length lost)
}.

(** An error leaves regions, areas and processes as they were. *)
Definition unchanged st (st' : nommu PS) : Prop :=
  regions st' = regions st /\ vmas st' = vmas st /\ mms st' = mms st /\ nommu_region_tree st' = nommu_region_tree st.

Lemma unchanged_inv lost lost' st st' :
  mm_inv lost st -> unchanged st st' -> (forall i, f_count st' i = f_count st i) ->
  holds [] (singles (page_list (regions st)) ++ singles lost' ++ ext) (pgs st') ->
  mmap_pages_allocated st' = Z.of_nat (length (page_list (regions st))) + Z.of_nat (length lost') -> mm_inv lost' st'.
Proof.
  intros [[Ht Hl _ _] Hm Hf] (E1 & E2 & E3 & E4) Hfc Hh Ha. split; [split|..]; rewrite ?E1, ?E2, ?E3, ?E4; try assumption.
  intros i. rewrite Hfc, Hf. unfold file_refs. now rewrite E1, E2.
Qed.

Lemma add_exe_back m : add_exe (add_exe m 1) (-1) = m.
Proof. destruct m. unfold add_exe. cbn. f_equal. lia. Qed.

Lemma mmap_error_ok lost lost' cur m p r f exe ret st st1 :
  mm_inv lost st -> mms st !! cur = Some m -> regions st !! r = None -> vmas st !! p = None -> (exe = true -> is_Some f) ->
  pending cur m p r f exe lost' st st1 ->
  exists st', mmap_error cur p r ret st1 = Ok (ret, st') /\ mm_inv lost' st' /\ unchanged st st'.
Proof.
  intros Hi Hm Hr Hp Hexe [(g & Er & Hgf) (v & Ev & Hvf & He) Et Em Hf Hh Ha]. unfold mmap_error, deref. rewrite Er, lookup_insert_eq.
  cbn [rbind]. frame. rewrite Ev, lookup_insert_eq. cbn [rbind]. rewrite Hgf, Hvf, He.
  assert (Hdone : forall st2, regions st2 = regions (free_region r (fput f st1)) -> vmas st2 = vmas st1 -> nommu_region_tree st2 = nommu_region_tree st1 ->
    pgs st2 = pgs st1 -> mmap_pages_allocated st2 = mmap_pages_allocated st1 -> (forall i, f_count st2 i = f_count st i) -> mms st2 = mms st ->
    mm_inv lost' (free_vma p st2) /\ unchanged st (free_vma p st2)).
  { intros st2 F1 F2 F3 F4 F5 F6 F7. assert (Hu : unchanged st (free_vma p st2)).
    { unfold unchanged. mm_simpl. rewrite F1, F2, F3, F7. frame. rewrite Er, Ev, Et, !delete_insert_id by assumption. auto. }
    split; [|exact Hu]. apply (unchanged_inv lost lost' st); mm_simpl; try assumption; congruence. }
  destruct exe.
  - destruct (Hexe eq_refl) as [f0 ->]. unfold removed_exe_file_vma, deref. frame. rewrite Em, lookup_insert_eq. cbn [rbind].
    eexists. split; [reflexivity|]. apply Hdone; frame; try reflexivity.
    + intros i. frame. rewrite Hf. lia.
    + rewrite Em, insert_insert_eq, add_exe_back. now apply insert_id.
  - cbn [rbind]. eexists. split; [reflexivity|]. apply Hdone; frame; try reflexivity; [|exact Em]. intros i. frame. rewrite Hf. lia.
Qed.

(** ** Registering the area *)

Lemma mmap_share_ok lost cur m p v r g res st :
  core lost st -> (forall i, f_count st i = file_refs base st i) -> mms_ok (delete p (vmas st)) (mms st) ->
  vmas st !! p = Some v -> v_region v = Some r -> regions st !! r = Some g -> mms st !! cur = Some m ->
  exists st' m' g', mmap_share cur p r res st = Ok (res, st') /\ mm_inv lost st' /\ vmas st' = vmas st
    /\ regions st' = <[r := g']> (regions st) /\ same_map g g' /\ vm_usage g' = vm_usage g
    /\ mms st' = <[cur := m']> (mms st) /\ mm_rb m' ≡ₚ p :: mm_rb m.
Proof.
  intros Hc Hf Hm Hv Hr Hg Hmm. unfold mmap_share.
  destruct (add_vma_to_mm_ok (delete p (vmas st)) cur m p v st Hm) as (l & t & -> & HP & Hm'); try assumption.
  { apply delete_subseteq. } { apply lookup_delete_eq. } { now exists r. }
  rewrite insert_delete_eq, insert_id in Hm' by exact Hv. set (m' := set_lists (set_count m (map_count m + 1)) l t) in *.
  cbn [rbind]. unfold deref. mm_simpl. rewrite Hv, Hg. cbn [rbind].
  assert (Hi : mm_inv lost (put_mm cur m' st)) by (split; [now apply (core_frame ext lost st)|exact Hm'|exact Hf]).
  destruct (has (v_flags v) VM_EXEC && negb (vm_icache_flushed g)).
  2: { exists (put_mm cur m' st), m', g. split_and!; try reflexivity; try assumption; [mm_simpl; symmetry; now apply insert_id|now repeat split]. }
  exists (put_region r (set_icache g) (put_mm cur m' st)), m', (set_icache g). split_and!; try reflexivity; try assumption; [|now repeat split].
  destruct Hc as [Ht Hl Hh Ha]. assert (HPl := page_list_same (regions st) r g (set_icache g) Hg eq_refl eq_refl).
  split; [split|..]; mm_simpl; try assumption.
  - now apply (tree_ok_update (regions st) r g).
  - apply (links_same (regions st) (vmas st) r g); auto. now repeat split.
  - now rewrite HPl.
  - now rewrite HPl.
  - intros i. rewrite Hf. unfold file_refs. mm_simpl. rewrite (msum_update _ (regions st) r g _ Hg). mm_simpl. lia.
Qed.

(** ** A new mapping *)

Definition new_region (f : option file) (vf pgoff : Z) : vm_region :=
  {| vm_usage := 1; rg_flags := vf; rg_start := 0; rg_end := 0; rg_top := 0; rg_pgoff := pgoff; rg_file := f; vm_icache_flushed := false |}.
Definition new_vma (f : option file) (vf pgoff : Z) : vm_area :=
  {| v_start := 0; v_end := 0; v_flags := vf; v_pgoff := pgoff; v_file := f; v_region := None |}.

(** The request: its file, length, offset, flags and capabilities. *)
Record request (f : option file) (len pgoff vf c : Z) : Prop := {
  rq_copy : has c BDI_CAP_MAP_DIRECT = false;
  rq_sized : sized len;
  rq_pgoff : 0 <= pgoff /\ pgoff + PAGE_ALIGN len / 4096 < 2 ^ 32;
  rq_shared : has vf VM_SHARED = false;
  rq_exe : has vf VM_EXECUTABLE = true -> is_Some f;
  rq_mayshare : has vf VM_MAYSHARE = true -> is_Some f
}.

(** Where [do_mmap_pgoff] has allocated the structures and looks for pages. *)
Record started (cur : Z) (m : mm_struct) (p r : Z) (f : option file) (vf pgoff : Z) (lost : list Z) st (st1 : nommu PS) : Prop := {
  sd_pending : pending cur m p r f (has vf VM_EXECUTABLE) lost st st1;
  sd_region : regions st1 = <[r := new_region f vf pgoff]> (regions st);
  sd_vma : vmas st1 = <[p := new_vma f vf pgoff]> (vmas st)
}.

Definition final_vma (f : option file) (vf pgoff r page len : Z) : vm_area := copy_vma (set_v_region (new_vma f vf pgoff) (Some r)) page len.
Definition final_region (f : option file) (vf pgoff page len : Z) : vm_region := copy_region (new_region f vf pgoff) vf page len.

Lemma final_ok f vf pgoff c r page len :
  request f len pgoff vf c -> 0 < page -> page + mapping_pages e (PAGE_ALIGN len) < 2 ^ 20 ->
  region_ok (final_region f vf pgoff page len) /\ vma_ok (final_region f vf pgoff page len) (final_vma f vf pgoff r page len)
  /\ region_pages (final_region f vf pgoff page len) = seqZ page (mapping_pages e (PAGE_ALIGN len)).
Proof.
  intros [Hc Hsz Hpg Hsh Hexe Hms] Hp Hpt. destruct (sized_len len Hsz) as (Hl & Hm & Hmx).
  destruct (mapping_pages_range e (PAGE_ALIGN len) ltac:(lia) Hm) as [Hmp _].
  unfold final_region, final_vma, copy_region, copy_vma, region_pages. split_and!; [split|split|]; mm_simpl; rewrite ?has_lor.
  - zdiv.
  - zdiv.
  - zdiv.
  - zdiv.
  - change (has VM_MAPPED_COPY VM_MAPPED_COPY) with true. apply orb_true_r.
  - change (has VM_MAPPED_COPY VM_MAYSHARE) with false. rewrite orb_false_r. intros Hs. split; [now apply Hms|].
    replace (page * 4096 + PAGE_ALIGN len - page * 4096) with (PAGE_ALIGN len) by lia. exact Hpg.
  - lia.
  - zdiv.
  - reflexivity.
  - reflexivity.
  - reflexivity.
  - f_equal; zdiv.
Qed.

(** A region that holds all the pages asked for, of the same file. *)
Definition shareable (f : option file) (len pgoff : Z) (g : vm_region) : Prop :=
  has (rg_flags g) VM_MAYSHARE = true
  /\ (exists f1 f2, f = Some f1 /\ rg_file g = Some f2 /\ d_inode f1 = d_inode f2)
  /\ rg_pgoff g <= pgoff /\ pgoff + PAGE_ALIGN len / 4096 <= rg_pgoff g + (rg_end g - rg_start g) / 4096.

(** Where the page [pgoff] of the file is in the region. *)
Definition shared_start (g : vm_region) (pgoff : Z) : Z := rg_start g + (pgoff - rg_pgoff g) * 4096.
Definition shared_vma (f : option file) (vf pgoff q len : Z) (g : vm_region) : vm_area :=
  set_v_flags (set_v_span (set_v_region (new_vma f vf pgoff) (Some q)) (shared_start g pgoff) (shared_start g pgoff + len)) (vf .| VM_MAPPED_COPY).

Inductive mmap_outcome (cur : Z) (m : mm_struct) (p r : Z) (f : option file) (len vf pgoff : Z) (lost : list Z) st : Z -> nommu PS -> Prop :=
| mmap_nomem st' : mm_inv lost st' -> unchanged st st' -> mmap_outcome cur m p r f len vf pgoff lost st (- ENOMEM) st'
| mmap_unread f0 page st' :
    f = Some f0 -> op_read f0 pgoff (PAGE_ALIGN len) < 0 ->
    mm_inv (seqZ page (mapping_pages e (PAGE_ALIGN len) - PAGE_ALIGN len / 4096) ++ lost) st' -> unchanged st st' ->
    mmap_outcome cur m p r f len vf pgoff lost st (op_read f0 pgoff (PAGE_ALIGN len)) st'
| mmap_mapped page g' m' st' :
    0 < page -> page + mapping_pages e (PAGE_ALIGN len) < 2 ^ 20 -> mm_inv lost st' ->
    regions st' = <[r := g']> (regions st) -> same_map (final_region f vf pgoff page len) g' -> vm_usage g' = 1 ->
    vmas st' = <[p := final_vma f vf pgoff r page len]> (vmas st) -> mms st' = <[cur := m']> (mms st) -> mm_rb m' ≡ₚ p :: mm_rb m ->
    mmap_outcome cur m p r f len vf pgoff lost st (page * 4096) st'
| mmap_violation st' : is_Some f -> mm_inv lost st' -> unchanged st st' -> mmap_outcome cur m p r f len vf pgoff lost st (- EINVAL) st'
| mmap_shares q g g' m' st' :
    regions st !! q = Some g -> shareable f len pgoff g -> mm_inv lost st' ->
    regions st' = <[q := g']> (regions st) -> same_map g g' -> vm_usage g' = vm_usage g + 1 ->
    vmas st' = <[p := shared_vma f vf pgoff q len g]> (vmas st) -> mms st' = <[cur := m']> (mms st) -> mm_rb m' ≡ₚ p :: mm_rb m ->
    mmap_outcome cur m p r f len vf pgoff lost st (shared_start g pgoff) st'.

Lemma pending_put_vma cur m p r f exe lost v st st1 :
  pending cur m p r f exe lost st st1 -> v_file v = f -> has (v_flags v) VM_EXECUTABLE = exe -> pending cur m p r f exe lost st (put_vma p v st1).
Proof.
  intros [H1 (v0 & E & _) H3 H4 H5 H6 H7] Hf He. split; mm_simpl; try assumption. exists v. rewrite E, insert_insert_eq. auto.
Qed.

(** The pages of a new mapping start no other region. *)
Lemma new_start regs own page total q x s :
  holds [] (singles (seqZ page total) ++ singles (page_list regs) ++ own) s -> 0 < total ->
  (forall r g, regs !! r = Some g -> region_ok g) -> regs !! q = Some x -> rg_start x <> page * 4096.
Proof.
  intros Hh Ht Hok Hq E. apply holds_nodup in Hh. rewrite app_nil_l, !pages_app in Hh. unfold singles in Hh. rewrite !pages_singles in Hh.
  apply NoDup_app in Hh as (_ & Hd & _). apply (Hd page); [apply elem_of_seqZ; lia|]. apply elem_of_app. left.
  apply elem_of_mlist. exists q, x. split; [exact Hq|]. pose proof (region_pages_start x (Hok q x Hq)) as Hin. rewrite E in Hin.
  now rewrite Z.div_mul in Hin by lia.
Qed.

Lemma core_new lost p v r g page total st (st3 : nommu PS) :
  core lost st -> regions st !! r = None -> vmas st !! p = None -> region_ok g -> vma_ok g v -> vm_usage g = 1 -> v_region v = Some r ->
  region_pages g = seqZ page total -> 0 <= total -> tree_ok (<[r := g]> (regions st)) (nommu_region_tree st3) ->
  regions st3 = <[r := g]> (regions st) -> vmas st3 = <[p := v]> (vmas st) ->
  holds [] (singles (seqZ page total) ++ singles (page_list (regions st)) ++ singles lost ++ ext) (pgs st3) ->
  mmap_pages_allocated st3 = mmap_pages_allocated st + total -> core lost st3.
Proof.
  intros [Ht Hl Hh Ha] Hr Hp Hg Hv Hu Hvr Hpg Ht0 Ht3 Er Ev Hh3 Ha3. split.
  - now rewrite Er.
  - rewrite Er, Ev. now apply links_add.
  - rewrite Er, page_list_insert, Hpg, singles_app, <- app_assoc by exact Hr. exact Hh3.
  - rewrite Er, page_list_insert, Hpg, length_app, length_seqZ, Ha3, Ha by exact Hr. lia.
Qed.

(** The copy is there: the region enters the tree, the area the process. *)
Lemma mmap_finish lost cur m p r f len vf pgoff c page s st st1 :
  mm_inv lost st -> mms st !! cur = Some m -> regions st !! r = None -> vmas st !! p = None ->
  request f len pgoff vf c -> started cur m p r f vf pgoff lost st st1 ->
  let total := mapping_pages e (PAGE_ALIGN len) in
  holds [] (singles (seqZ page total) ++ singles (page_list (regions st)) ++ singles lost ++ ext) s ->
  0 < page -> page + total < 2 ^ 20 ->
  exists st', (let st2 := put_vma p (final_vma f vf pgoff r page len) (put_region r (final_region f vf pgoff page len)
                 (set_pages (put_vma p (set_v_region (new_vma f vf pgoff) (Some r)) st1) (mmap_pages_allocated st1 + total) s)) in
    let* st := add_nommu_region r st2 in
    let* v := deref (vmas st) p in
    let* m := deref (mms st) cur in
    let st := put_mm cur (set_total_vm m (total_vm m + (len .>> 12))) st in
    mmap_share cur p r (v_start v) st) = Ok (page * 4096, st') /\ mmap_outcome cur m p r f len vf pgoff lost st (page * 4096) st'.
Proof.
  intros [[Ht Hl Hh0 Ha0] Hm Hf0] Hmm Hr Hp Hrq [Hpd Er Ev] total Hh Hp1 Hp2. cbv zeta.
  destruct (final_ok f vf pgoff c r page len Hrq Hp1 Hp2) as (Hgk & Hvk & Hpg). destruct Hpd as [_ _ Et Em Hf _ Ha].
  destruct (sized_len len (rq_sized _ _ _ _ _ Hrq)) as (Hlen & Hmod & Hmx).
  destruct (mapping_pages_range e (PAGE_ALIGN len) ltac:(lia) Hmod) as [Hmp _]. fold total in Hmp.
  set (g := final_region f vf pgoff page len) in *. set (v := final_vma f vf pgoff r page len) in *.
  match goal with |- context [add_nommu_region r ?s0] => set (st2 := s0) end.
  assert (Er2 : regions st2 = <[r := g]> (regions st)) by (unfold st2; mm_simpl; now rewrite Er, insert_insert_eq).
  assert (Ev2 : vmas st2 = <[p := v]> (vmas st)) by (unfold st2; mm_simpl; now rewrite Ev, !insert_insert_eq).
  destruct (add_nommu_region_ok (regions st) r g st2) as (t & -> & Ht2).
  { unfold st2. mm_simpl. now rewrite Et. } { rewrite Er2. now apply insert_subseteq. } { exact Hr. } { rewrite Er2. apply lookup_insert_eq. }
  { intros q x Hq. exact (new_start (regions st) _ page total q x s Hh ltac:(lia) (lk_region _ _ Hl) Hq). }
  cbn [rbind]. unfold deref. cbn [vmas mms set_tree]. rewrite Ev2, lookup_insert_eq. cbn [rbind].
  assert (Em2 : mms st2 = mms st1) by reflexivity. rewrite Em2, Em.
  set (m1 := if has vf VM_EXECUTABLE then add_exe m 1 else m).
  assert (Em1 : (if has vf VM_EXECUTABLE then <[cur := add_exe m 1]> (mms st) else mms st) = <[cur := m1]> (mms st))
    by (unfold m1; destruct (has vf VM_EXECUTABLE); [reflexivity|symmetry; now apply insert_id]).
  rewrite Em1, lookup_insert_eq. cbn [rbind]. set (m2 := set_total_vm m1 (total_vm m1 + (len .>> 12))).
  assert (Hlists : mm_rb m2 = mm_rb m /\ mmap m2 = mmap m /\ map_count m2 = map_count m /\ mmap_cache m2 = mmap_cache m)
    by (unfold m2, m1; destruct (has vf VM_EXECUTABLE); auto). destruct Hlists as (L1 & L2 & L3 & L4).
  set (st3 := put_mm cur m2 (set_tree st2 t)).
  assert (Er3 : regions st3 = <[r := g]> (regions st)) by exact Er2. assert (Ev3 : vmas st3 = <[p := v]> (vmas st)) by exact Ev2.
  assert (Em3 : mms st3 = <[cur := m2]> (mms st)) by (unfold st3; mm_simpl; now rewrite Em2, Em, Em1, insert_insert_eq).
  destruct (mmap_share_ok lost cur m2 p v r g (page * 4096) st3) as (st' & m' & g' & E & Hi' & F1 & F2 & F3 & F4 & F5 & F6).
  - apply (core_new lost p v r g page total st); try assumption; try reflexivity; [split; assumption|lia|].
    change (mmap_pages_allocated st3) with (mmap_pages_allocated st1 + total). lia.
  - intros i. change (f_count st3 i) with (f_count st1 i). rewrite Hf, Hf0. unfold file_refs.
    rewrite Er3, Ev3, !msum_insert by assumption. change (v_file v) with f. change (rg_file g) with f. lia.
  - rewrite Ev3, Em3, delete_insert_id by exact Hp. apply (mms_ok_frame _ _ cur m); try assumption. rewrite L4. apply (ms_each _ _ Hm cur m Hmm).
  - rewrite Ev3. apply lookup_insert_eq.
  - reflexivity.
  - rewrite Er3. apply lookup_insert_eq.
  - rewrite Em3. apply lookup_insert_eq.
  - exists st'. split; [exact E|]. apply (mmap_mapped _ _ _ _ _ _ _ _ _ _ page g' m'); try assumption.
    + rewrite F2, Er3. apply insert_insert_eq.
    + now rewrite F1, Ev3.
    + rewrite F5, Em3. apply insert_insert_eq.
    + now rewrite F6, L1.
Qed.

Lemma mmap_setup_ok lost cur m p r f len vf pgoff c st st1 :
  mm_inv lost st -> mms st !! cur = Some m -> regions st !! r = None -> vmas st !! p = None ->
  request f len pgoff vf c -> started cur m p r f vf pgoff lost st st1 ->
  exists ret st', mmap_setup e cur p r f len c st1 = Ok (ret, st') /\ mmap_outcome cur m p r f len vf pgoff lost st ret st'.
Proof.
  intros Hi Hmm Hr Hp Hrq Hsd. pose proof Hsd as [Hpd Er Ev]. pose proof Hrq as [Hc Hsz Hpg Hsh Hexe Hms].
  unfold mmap_setup. unfold deref at 1. rewrite Ev, lookup_insert_eq. cbn [rbind]. change (v_flags (new_vma f vf pgoff)) with vf.
  rewrite Hsh, andb_false_r. set (v1 := set_v_region (new_vma f vf pgoff) (Some r)).
  destruct (do_mmap_private_ok (singles (page_list (regions st)) ++ singles lost ++ ext) p r len c v1 (new_region f vf pgoff) (put_vma p v1 st1))
    as (ret & st2 & -> & Hout); try assumption; [apply lookup_insert_eq|mm_simpl; rewrite Er; apply lookup_insert_eq|apply Hpd|].
  cbn [rbind]. assert (Hpd1 : pending cur m p r f (has vf VM_EXECUTABLE) lost st (put_vma p v1 st1)) by now apply pending_put_vma.
  destruct Hout as [s Hs|f0 g' v' page s n Hvf Hrd Hgf Hvf' Hex left Hs Hn|page s total Hs Hp1 Hp2 Hrd].
  - change (- ENOMEM <? 0) with true. cbn beta iota. destruct (mmap_error_ok lost lost cur m p r f (has vf VM_EXECUTABLE) (- ENOMEM) st
      (set_pages (put_vma p v1 st1) (mmap_pages_allocated (put_vma p v1 st1)) s)) as (st' & -> & Hi' & Hu); try assumption.
    + destruct Hpd1 as [H1 H2 H3 H4 H5 H6 H7]. now split.
    + exists (- ENOMEM), st'. split; [reflexivity|]. now constructor.
  - rewrite (proj2 (Z.ltb_lt _ _)) by exact Hrd.
    destruct (mmap_error_ok lost (seqZ page left ++ lost) cur m p r f (has vf VM_EXECUTABLE) (op_read f0 (v_pgoff v1) (PAGE_ALIGN len)) st
      (put_vma p v' (put_region r g' (set_pages (put_vma p v1 st1) n s)))) as (st' & -> & Hi' & Hu); try assumption.
    + destruct Hpd1 as [H1 (v2 & E2 & _) H3 H4 H5 H6 H7]. split; mm_simpl; try assumption.
      * exists g'. rewrite Er, insert_insert_eq. auto.
      * exists v'. rewrite Ev, !insert_insert_eq. auto.
      * rewrite singles_app, <- app_assoc. refine (holds_own _ _ _ _ Hs). solve_Permutation.
      * mm_simpl in Hn. rewrite Hn. mm_simpl in H7. rewrite H7, length_app, length_seqZ.
        destruct (sized_len len Hsz) as (_ & Hmod & Hmx). destruct Hsz as (Hsz & _).
        destruct (mapping_pages_range e (PAGE_ALIGN len) ltac:(lia) Hmod) as [Hmp _]. unfold left. lia.
    + eexists _, st'. split; [reflexivity|]. now apply (mmap_unread _ _ _ _ _ _ _ _ _ _ f0 page).
  - change (0 <? 0) with false. cbn beta iota.
    destruct (mmap_finish lost cur m p r f len vf pgoff c page s st st1 Hi Hmm Hr Hp Hrq Hsd Hs Hp1 Hp2) as (st' & E & Ho).
    exists (page * 4096), st'. split; [exact E|exact Ho].
Qed.

(** ** Sharing *)

Lemma share_search_ok regs f len pgoff vf c t :
  request (Some f) len pgoff vf c -> (forall q, q ∈ t -> exists g, regs !! q = Some g /\ region_ok g) ->
  exists sr, share_search regs f (u32 (len + 4095) .>> 12) pgoff c t = Ok sr
    /\ forall q, sr = Share q -> q ∈ t /\ exists g, regs !! q = Some g /\ shareable (Some f) len pgoff g.
Proof.
  intros [Hc Hsz Hpg _ _ _] Ht. destruct (sized_len len Hsz) as (Hl & Hm & Hmx).
  assert (Epl : u32 (len + 4095) .>> 12 = PAGE_ALIGN len / 4096).
  { destruct Hsz as (Hr & E & Hov). rewrite u32_id by (unfold is_u32; lia). rewrite Z.shiftr_div_pow2 by lia. rewrite E. change (2 ^ 12) with 4096. zdiv. }
  rewrite Epl. set (pglen := PAGE_ALIGN len / 4096) in *. assert (Hpl : 0 < pglen) by (unfold pglen; zdiv).
  induction t as [|q t IH]; cbn [share_search]; [now exists NoShare|].
  destruct (Ht q ltac:(left)) as (g & Hg & Hok). destruct IH as (sr & IHe & IHq); [intros q' Hq'; apply Ht; now right|].
  assert (Hskip : exists sr, share_search regs f pglen pgoff c t = Ok sr
    /\ forall q', sr = Share q' -> q' ∈ q :: t /\ exists g, regs !! q' = Some g /\ shareable (Some f) len pgoff g).
  { exists sr. split; [exact IHe|]. intros q' Hq'. destruct (IHq q' Hq'). split; [now right|assumption]. }
  unfold deref. rewrite Hg. cbn [rbind]. destruct (has (rg_flags g) VM_MAYSHARE) eqn:Hms; cbn [negb]; [|exact Hskip].
  destruct (ro_share _ Hok Hms) as ([f2 Hf2] & Hpo & Hpe). rewrite Hf2.
  destruct (Z.eqb_spec (d_inode f2) (d_inode f)) as [Hin|Hin]; cbn [negb]; [|exact Hskip].
  destruct Hok as [R1 R2 R3 R4 R5 R6].
  replace (u32 (u32 (rg_end g - rg_start g) + 4095) .>> 12) with ((rg_end g - rg_start g) / 4096).
  2: { rewrite (u32_id (rg_end g - rg_start g)) by (unfold is_u32; lia). rewrite u32_id by (unfold is_u32; zdiv). rewrite Z.shiftr_div_pow2 by lia. change (2 ^ 12) with 4096. zdiv. }
  rewrite !u32_id by (unfold is_u32; zdiv). set (rpglen := (rg_end g - rg_start g) / 4096) in *.
  destruct (Z.leb_spec (pgoff + pglen) (rg_pgoff g)); [exact Hskip|]. destruct (Z.leb_spec (rg_pgoff g + rpglen) pgoff); [exact Hskip|].
  destruct ((negb (rg_pgoff g =? pgoff) || negb (rpglen =? pglen)) && negb ((rg_pgoff g <=? pgoff) && (pgoff + pglen <=? rg_pgoff g + rpglen))) eqn:Ec.
  - rewrite Hc. cbn [negb]. exists SharingViolation. split; [reflexivity|discriminate].
  - exists (Share q). split; [reflexivity|]. intros q' [= <-]. split; [left|]. exists g. split; [exact Hg|]. split; [exact Hms|].
    split; [exists f, f2; auto|]. fold pglen rpglen. revert Ec. zcrush; lia || discriminate.
Qed.

Lemma shared_ok f len pgoff vf c q g :
  request f len pgoff vf c -> has vf VM_MAYSHARE = true -> region_ok g -> shareable f len pgoff g ->
  vma_ok g (shared_vma f vf pgoff q len g)
  /\ u32 (rg_start g + ((pgoff - rg_pgoff g) .<< 12)) = shared_start g pgoff /\ u32 (shared_start g pgoff + len) = shared_start g pgoff + len.
Proof.
  intros [Hc Hsz Hpg _ _ _] Hvf [R1 R2 R3 R4 R5 R6] (Hms & (f1 & f2 & Ef & Eg & _) & Hle & Hend).
  destruct (sized_len len Hsz) as (Hl & Hm & Hmx).
  assert (Hsp : rg_start g <= shared_start g pgoff /\ shared_start g pgoff + len <= rg_end g) by (unfold shared_start; zdiv).
  split.
  - unfold shared_vma. split; mm_simpl.
    + lia.
    + unfold shared_start. zdiv.
    + rewrite has_lor, Hvf, Hms. reflexivity.
    + congruence.
    + rewrite Ef, Eg. split; intros _; eexists; reflexivity.
  - unfold shl32. rewrite Z.shiftl_mul_pow2 by lia. change (2 ^ 12) with 4096.
    rewrite (u32_id ((pgoff - rg_pgoff g) * 4096)) by (unfold is_u32, shared_start in *; lia).
    fold (shared_start g pgoff). rewrite !u32_id by (unfold is_u32; lia). auto.
Qed.

Lemma core_share lost p v q g g' st (st3 : nommu PS) :
  core lost st -> regions st !! q = Some g -> has (rg_flags g) VM_MAYSHARE = true -> vmas st !! p = None -> v_region v = Some q -> vma_ok g v ->
  same_map g g' -> vm_usage g' = vm_usage g + 1 -> nommu_region_tree st3 = nommu_region_tree st ->
  regions st3 = <[q := g']> (regions st) -> vmas st3 = <[p := v]> (vmas st) ->
  holds [] (singles (page_list (regions st)) ++ singles lost ++ ext) (pgs st3) ->
  mmap_pages_allocated st3 = mmap_pages_allocated st -> core lost st3.
Proof.
  intros [Ht Hl Hh Ha] Hq Hms Hp Hv Hvk Hsm Hu Et Er Ev Hh3 Ha3. pose proof Hsm as (E1 & _ & E3 & _).
  assert (HP := page_list_same (regions st) q g g' Hq E1 E3). split; rewrite ?Er, ?Ev, ?Et, ?Ha3, ?HP; try assumption.
  - now apply (tree_ok_update (regions st) q g).
  - now apply (links_share (regions st) (vmas st) q g).
Qed.

Lemma mmap_shared_ok lost cur m p r f len vf pgoff c q g st st1 :
  mm_inv lost st -> mms st !! cur = Some m -> regions st !! r = None -> vmas st !! p = None ->
  request f len pgoff vf c -> started cur m p r f vf pgoff lost st st1 -> has vf VM_MAYSHARE = true ->
  regions st !! q = Some g -> shareable f len pgoff g ->
  exists ret st', mmap_shared cur p r q len pgoff st1 = Ok (ret, st') /\ mmap_outcome cur m p r f len vf pgoff lost st ret st'.
Proof.
  intros [Hcore Hm Hf0] Hmm Hr Hp Hrq [Hpd Er Ev] Hvf Hq Hsh. destruct Hpd as [_ _ Et Em Hf Hh Ha].
  pose proof (lk_region _ _ (ci_links _ _ _ Hcore) q g Hq) as Hgk.
  destruct (shared_ok f len pgoff vf c q g Hrq Hvf Hgk Hsh) as (Hvk & E1 & E2). assert (Hrq' : r <> q) by congruence.
  unfold mmap_shared, deref. rewrite Er, lookup_insert_ne, Hq by congruence. cbn [rbind]. mm_simpl. rewrite Ev, lookup_insert_eq. cbn [rbind].
  rewrite (ro_copy _ Hgk), E1, E2. cbn [rbind]. mm_simpl. rewrite lookup_insert_ne, Er, lookup_insert_eq by congruence. cbn [rbind].
  change (rg_file (new_region f vf pgoff)) with f.
  match goal with |- context [mmap_share cur p q ?a ?s] => set (st3 := s) end.
  assert (Er3 : regions st3 = <[q := set_usage g (vm_usage g + 1)]> (regions st)).
  { unfold st3. frame. rewrite Er, delete_insert_ne, delete_insert_id by congruence. reflexivity. }
  assert (Ev3 : vmas st3 = <[p := shared_vma f vf pgoff q len g]> (vmas st)) by (unfold st3; frame; now rewrite Ev, insert_insert_eq).
  set (m1 := if has vf VM_EXECUTABLE then add_exe m 1 else m).
  assert (Em3 : mms st3 = <[cur := m1]> (mms st)).
  { unfold st3. frame. rewrite Em. unfold m1. destruct (has vf VM_EXECUTABLE); [reflexivity|symmetry; now apply insert_id]. }
  assert (Hlists : mm_rb m1 = mm_rb m /\ mmap m1 = mmap m /\ map_count m1 = map_count m /\ mmap_cache m1 = mmap_cache m)
    by (unfold m1; destruct (has vf VM_EXECUTABLE); auto). destruct Hlists as (L1 & L2 & L3 & L4).
  destruct (mmap_share_ok lost cur m1 p (shared_vma f vf pgoff q len g) q (set_usage g (vm_usage g + 1)) (shared_start g pgoff) st3)
    as (st' & m' & g' & E & Hi' & F1 & F2 & F3 & F4 & F5 & F6).
  - apply (core_share lost p (shared_vma f vf pgoff q len g) q g (set_usage g (vm_usage g + 1)) st); try assumption; try reflexivity.
    + apply Hsh.
    + now repeat split.
    + unfold st3. now frame.
    + unfold st3. now frame.
    + unfold st3. frame. rewrite Ha. symmetry. apply Hcore.
  - intros i. unfold file_refs. rewrite Er3, Ev3, (msum_update _ (regions st) q g _ Hq), msum_insert by exact Hp.
    unfold st3. frame. cbn [v_file shared_vma]. rewrite Hf, Hf0. unfold file_refs, shared_vma. mm_simpl. cbn [v_file new_vma]. lia.
  - rewrite Ev3, Em3, delete_insert_id by exact Hp. apply (mms_ok_frame _ _ cur m); try assumption. rewrite L4. apply (ms_each _ _ Hm cur m Hmm).
  - rewrite Ev3. apply lookup_insert_eq.
  - reflexivity.
  - rewrite Er3. apply lookup_insert_eq.
  - rewrite Em3. apply lookup_insert_eq.
  - exists (shared_start g pgoff), st'. split; [exact E|]. apply (mmap_shares _ _ _ _ _ _ _ _ _ _ q g g' m'); try assumption.
    + rewrite F2, Er3. apply insert_insert_eq.
    + now rewrite F1.
    + rewrite F5, Em3. apply insert_insert_eq.
    + now rewrite F6, L1.
Qed.

(** ** The whole call *)

Lemma request_allowed f len prot flags pgoff c :
  copied f -> 0 <= len < 2 ^ 32 -> 0 <= pgoff < 2 ^ 32 -> (f = None -> has flags MAP_EXECUTABLE = false) ->
  validate_mmap_request e f len prot flags pgoff = inr c -> request f len pgoff (determine_vm_flags e f prot flags c) c.
Proof.
  intros Hf Hl Hp Hex Hv. destruct (validate_allowed e f len prot flags pgoff c Hf Hl Hp Hv) as [Hc Hsz Hpg].
  destruct (determine_flags_copied e f prot flags c Hc) as (H1 & H2 & H3). split; try assumption.
  - lia.
  - intros He. rewrite H2 in He. destruct f; [now eexists|]. rewrite Hex in He by reflexivity. discriminate.
  - intros Hm. rewrite H3 in Hm. apply andb_true_iff in Hm as [Hm _]. apply andb_true_iff in Hm as [Hm _]. now apply bool_decide_eq_true in Hm.
Qed.

(** The structures are allocated and the references to the file taken. *)
Lemma start_pending lost cur m p r f vf pgoff st :
  mm_inv lost st -> mms st !! cur = Some m -> (has vf VM_EXECUTABLE = true -> is_Some f) ->
  exists st1, (if bool_decide (is_Some f) && has vf VM_EXECUTABLE
     then added_exe_file_vma cur (get_file f (get_file f (put_vma p (new_vma f vf pgoff) (put_region r (new_region f vf pgoff) st))))
     else Ok (get_file f (get_file f (put_vma p (new_vma f vf pgoff) (put_region r (new_region f vf pgoff) st))))) = Ok st1
    /\ started cur m p r f vf pgoff lost st st1.
Proof.
  intros [[Ht Hl Hh Ha] Hm Hf] Hmm Hexe. unfold added_exe_file_vma, deref. frame. rewrite Hmm. cbn [rbind].
  destruct (has vf VM_EXECUTABLE) eqn:He.
  - rewrite bool_decide_true by now apply Hexe. cbn [andb]. eexists. split; [reflexivity|]. split; [split|..]; frame; try reflexivity; try assumption.
    + eexists. split; reflexivity.
    + eexists. split; [reflexivity|]. auto.
    + now rewrite He.
    + intros i. frame. lia.
  - rewrite andb_false_r. eexists. split; [reflexivity|]. split; [split|..]; frame; try reflexivity; try assumption.
    + eexists. split; reflexivity.
    + eexists. split; [reflexivity|]. auto.
    + now rewrite He.
    + intros i. frame. lia.
Qed.

Definition mmap_result (cur : Z) (m : mm_struct) (f : option file) (len prot flags pgoff : Z) (nr nv : option Z) (lost : list Z) st
    (ret : Z) (st' : nommu PS) : Prop :=
  match validate_mmap_request e f len prot flags pgoff with
  | inl err => ret = err /\ st' = st
  | inr c =>
      match nr, nv with
      | Some r, Some p => mmap_outcome cur m p r f len (determine_vm_flags e f prot flags c) pgoff lost st ret st'
      | _, _ => ret = - ENOMEM /\ st' = st
      end
  end.

Lemma do_mmap_pgoff_ok lost cur m f len prot flags pgoff nr nv st :
  mm_inv lost st -> mms st !! cur = Some m -> copied f -> 0 <= len < 2 ^ 32 -> 0 <= pgoff < 2 ^ 32 ->
  (f = None -> has flags MAP_EXECUTABLE = false) ->
  (forall r, nr = Some r -> regions st !! r = None) -> (forall p, nv = Some p -> vmas st !! p = None) ->
  exists ret st', do_mmap_pgoff e cur f len prot flags pgoff nr nv st = Ok (ret, st')
    /\ mmap_result cur m f len prot flags pgoff nr nv lost st ret st'.
Proof.
  intros Hi Hmm Hf Hl Hp Hex Hnr Hnv. unfold do_mmap_pgoff, mmap_result.
  destruct (validate_mmap_request e f len prot flags pgoff) as [err|c] eqn:Hv; [eauto|].
  destruct nr as [r|]; [|eauto]. destruct nv as [p|]; [|eauto]. specialize (Hnr r eq_refl). specialize (Hnv p eq_refl).
  pose proof (request_allowed f len prot flags pgoff c Hf Hl Hp Hex Hv) as Hrq. set (vf := determine_vm_flags e f prot flags c) in *.
  fold (new_region f vf pgoff). fold (new_vma f vf pgoff).
  destruct (start_pending lost cur m p r f vf pgoff st Hi Hmm (rq_exe _ _ _ _ _ Hrq)) as (st1 & -> & Hsd). cbn [rbind].
  pose proof Hsd as [Hpd Er Ev]. destruct (has vf VM_MAYSHARE) eqn:Hms; [|now apply mmap_setup_ok].
  destruct (rq_mayshare _ _ _ _ _ Hrq Hms) as [f0 ->].
  assert (Hel : forall q, q ∈ nommu_region_tree st -> exists g, regions st !! q = Some g /\ regions st1 !! q = Some g /\ region_ok g).
  { intros q Hq. destruct Hi as [[Ht Hlk _ _] _ _]. apply (tree_ok_elem _ _ _ Ht) in Hq as [g Hg]. exists g.
    rewrite Er, lookup_insert_ne by congruence. split_and!; try assumption. now apply (lk_region _ _ Hlk q). }
  destruct (share_search_ok (regions st1) f0 len pgoff vf c (nommu_region_tree st1) Hrq) as (sr & -> & Hsr).
  { intros q Hq. rewrite (pd_tree _ _ _ _ _ _ _ _ _ Hpd) in Hq. destruct (Hel q Hq) as (g & _ & Hg & Hok). now exists g. }
  cbn [rbind]. destruct sr as [| |q].
  - unfold site_mapping. rewrite (rq_copy _ _ _ _ _ Hrq). cbn [rbind]. now apply mmap_setup_ok.
  - destruct (mmap_error_ok lost lost cur m p r (Some f0) (has vf VM_EXECUTABLE) (- EINVAL) st st1) as (st' & E & Hi' & Hu); try assumption; [now exists f0|].
    exists (- EINVAL), st'. split; [exact E|]. apply mmap_violation; [now exists f0|assumption..].
  - destruct (Hsr q eq_refl) as (Hq & g & Hg & Hsh). rewrite (pd_tree _ _ _ _ _ _ _ _ _ Hpd) in Hq.
    destruct (Hel q Hq) as (g0 & Hg0 & Hg1 & _). assert (g0 = g) as -> by congruence.
    now apply (mmap_shared_ok lost cur m p r (Some f0) len vf pgoff c q g).
Qed.

End Mmap.
