(* ===== verification/NommuRun.v ===== *)
(** * Mappings without an MMU: the system calls together

    [do_mremap] and [sys_brk], the calls as one type, the runs of a system that makes
    them, and the properties of [mm/nommu.c] as a whole. *)

From stdpp Require Import gmap sorting.
From S2P Require Import Prelude PageAlloc Buddy BuddyAlloc Pcp PageOps PageSource Nommu NommuLib NommuPages NommuInv NommuFind NommuUnmap NommuMmap.

(** ** Changing the length of a mapping *)

(** An area may move its end when no other area starts where it does. *)
Lemma mms_ok_resize vs ms p v v' :
  vs !! p = Some v -> v_start v' = v_start v -> (forall q w, vs !! q = Some w -> v_start w = v_start v -> q = p) ->
  mms_ok vs ms -> mms_ok (<[p := v']> vs) ms.
Proof.
  intros Hp Es Halone [Hk He]. split.
  - rewrite Hk, (keys_delete vs p v Hp), <- insert_delete_eq. now rewrite keys_insert by apply lookup_delete_eq.
  - intros k m Hm. destruct (He k m Hm) as [Hl Hst Hc Hca]. split; try assumption.
    apply (sorted_agree _ _ _ Hst). intros a b _ _ (x & y & Ea & Eb & Hlt).
    destruct (decide (a = b)) as [->|Hab].
    { assert (y = x) as -> by congruence. unfold vma_less in Hlt. now rewrite !Z.ltb_irrefl in Hlt. }
    assert (Hstart : a = p \/ b = p -> v_start x <> v_start y).
    { intros [->| ->] Hx; apply Hab; [assert (x = v) as -> by congruence; symmetry; now apply (Halone b y)|].
      assert (y = v) as -> by congruence. now apply (Halone a x). }
    assert (Hsame : forall c z, vs !! c = Some z -> exists z', <[p := v']> vs !! c = Some z' /\ v_start z' = v_start z /\ (c <> p -> z' = z)).
    { intros c z Hz. destruct (decide (c = p)) as [->|Hne]; [exists v'; rewrite lookup_insert_eq|exists z; rewrite lookup_insert_ne by congruence; auto].
      assert (z = v) as -> by congruence. split_and!; [reflexivity|exact Es|congruence]. }
    destruct (Hsame a x Ea) as (x' & Ex & Sx & Nx), (Hsame b y Eb) as (y' & Ey & Sy & Ny). exists x', y'. split_and!; try assumption.
    destruct (decide (a = p)) as [Ha|Ha]; [|destruct (decide (b = p)) as [Hb|Hb]]; [..|rewrite Nx, Ny by assumption; exact Hlt].
    all: assert (Hne : v_start x <> v_start y) by (apply Hstart; auto); revert Hlt; unfold vma_less; rewrite Sx, Sy; zcrush.
Qed.

Section Run.

Context {PS : Type} `{PageSource PS}.
Implicit Type st : nommu PS.

Section Calls.

Context (base : Z -> Z) (ext : list (Z * nat)).

Local Abbreviation mm_inv := (mm_inv base ext).

Definition mremap_outcome (cur : Z) (m : mm_struct) (addr old_len new_len : Z) st (ret : Z) (st' : nommu PS) : Prop :=
  (ret < 0 /\ exists c, st' = put_mm cur (set_cache m c) st)
  \/ exists p v c, ret = v_start v /\ p ∈ mm_rb m /\ vmas st !! p = Some v /\ v_start v = addr /\ v_end v = addr + old_len
     /\ has (v_flags v) VM_MAYSHARE = false
     /\ st' = put_vma p (set_v_span v addr (addr + new_len)) (put_mm cur (set_cache m c) st).

Lemma do_mremap_ok lost cur m addr old_len new_len flags new_addr st :
  mm_inv lost st -> mms st !! cur = Some m -> 0 <= addr < 2 ^ 32 -> 0 <= old_len < 2 ^ 32 -> 0 <= new_len < 2 ^ 32 ->
  exists ret st', do_mremap cur addr old_len new_len flags new_addr st = Ok (ret, st') /\ mm_inv lost st'
    /\ mremap_outcome cur m addr old_len new_len st ret st'.
Proof.
  intros Hi Hmm Ha Hol Hnl. unfold do_mremap.
  assert (Hsame : forall ret, ret < 0 -> exists ret' st', Ok (ret, st) = Ok (ret', st') /\ mm_inv lost st' /\ mremap_outcome cur m addr old_len new_len st ret' st').
  { intros ret Hret. exists ret, st. split_and!; auto. left. split; [exact Hret|]. exists (mmap_cache m). symmetry. now apply put_cache_same. }
  destruct ((old_len =? 0) || (new_len =? 0)) eqn:El; [apply Hsame; reflexivity|]. apply orb_false_iff in El as [El1%Z.eqb_neq El2%Z.eqb_neq].
  destruct (has addr (.~ PAGE_MASK)); [apply Hsame; reflexivity|].
  destruct (has flags MREMAP_FIXED && negb (new_addr =? addr)); [apply Hsame; reflexivity|].
  destruct (find_vma_exact_ok base ext lost cur m addr old_len st Hi Hmm) as (hit & c & st1 & -> & Hfound & -> & Hi1). cbn [rbind].
  assert (Hfail : forall ret, ret < 0 -> exists ret' st', Ok (ret, put_mm cur (set_cache m c) st) = Ok (ret', st') /\ mm_inv lost st'
    /\ mremap_outcome cur m addr old_len new_len st ret' st').
  { intros ret Hret. eexists _, _. split_and!; [reflexivity|exact Hi1|]. left. split; [exact Hret|now exists c]. }
  destruct hit as [p|]; [|apply Hfail; reflexivity]. destruct Hfound as (Hp & v & Hv & Es & Ee).
  unfold deref. mm_simpl. rewrite Hv. cbn [rbind]. rewrite Es, Ee, Z.eqb_refl. cbn [negb].
  destruct (has (v_flags v) VM_MAYSHARE) eqn:Hms; [apply Hfail; reflexivity|].
  pose proof (mi_core _ _ _ _ Hi) as [Ht Hl Hh Hal]. destruct (lk_vma _ _ Hl p v Hv) as (r & g & Hr & Hg & Hok). rewrite Hr, Hg. cbn [rbind].
  pose proof (lk_region _ _ Hl r g Hg) as Hgk. destruct (ro_order _ Hgk) as [R1 R2]. rewrite u32_id by (unfold is_u32; lia).
  destruct (Z.ltb_spec (rg_end g - rg_start g) new_len) as [|Hle]; [apply Hfail; reflexivity|].
  pose proof Hok as [V1 V2 V3 V4 V5]. rewrite Hms in V3. specialize (V4 (eq_sym V3)).
  pose proof (lk_single _ _ Hl r g Hg (eq_sym V3)) as Hu. rewrite u32_id by (unfold is_u32; lia).
  assert (Eend : v_end v = addr + old_len).
  { rewrite Ee in *. unfold u32 in *. destruct (Z.lt_ge_cases (addr + old_len) (2 ^ 32)); [apply Z.mod_small; lia|]. zdiv. }
  eexists _, _. split; [reflexivity|]. rewrite <- Es. split; [|right; exists p, v, c; split_and!; auto; lia].
  destruct Hi1 as [Hc1 Hm1 Hf1]. split; [split|..]; mm_simpl; try assumption.
  - rewrite <- (insert_id (regions st) r g) by exact Hg. apply (links_edit (regions st) (vmas st) r g g p v); try assumption.
    split; mm_simpl; try assumption; [lia|congruence|intros _; exact V4].
  - apply (mms_ok_resize _ _ p v); [exact Hv|reflexivity| |exact Hm1]. intros q w Hq Hqs.
    destruct (lk_vma _ _ Hl q w Hq) as (r' & g' & _ & Hg' & Hok'). destruct (vo_span _ _ Hok').
    apply (private_alone base ext lost p v r g q w (v_start v) st); try assumption; [now split|unfold covers; lia..].
  - intros i. change (f_count st i) with (f_count (put_mm cur (set_cache m c) st) i). rewrite Hf1. unfold file_refs. mm_simpl.
    rewrite (msum_update _ (vmas st) p v _ Hv). mm_simpl. lia.
Qed.

(** ** The calls of a process *)

Inductive call :=
| Mmap (f : option file) (len prot flags pgoff : Z) (new_region new_vma : option Z)
| Munmap (start len : Z) (new_region new_vma : option Z)
| Mremap (addr old_len new_len flags new_addr : Z)
| Brk (b : Z)
| Exit.

Definition run_call (e : env) (cur : Z) (c : call) st : result (Z * nommu PS) :=
  match c with
  | Mmap f len prot flags pgoff nr nv => do_mmap_pgoff e cur f len prot flags pgoff nr nv st
  | Munmap start len nr nv => do_munmap e cur start len nr nv st
  | Mremap addr old_len new_len flags new_addr => do_mremap cur addr old_len new_len flags new_addr st
  | Brk b => sys_brk cur b st
  | Exit => let* st := exit_mmap cur st in Ok (0, st)
  end.

(** New structures are not in use. *)
Definition fresh (nr nv : option Z) st : Prop :=
  (forall r, nr = Some r -> regions st !! r = None) /\ (forall p, nv = Some p -> vmas st !! p = None).

Definition word (x : Z) : Prop := 0 <= x < 2 ^ 32.

(** The calls considered: files are mapped by copying them, VM_EXECUTABLE is for files, and the range of
    [munmap] does not wrap around the address space. *)
Definition valid_call (c : call) st : Prop :=
  match c with
  | Mmap f len prot flags pgoff nr nv =>
      copied f /\ word len /\ word pgoff /\ (f = None -> has flags MAP_EXECUTABLE = false) /\ fresh nr nv st
  | Munmap start len nr nv => 0 <= start /\ 0 <= len /\ start + len < 2 ^ 32 /\ fresh nr nv st
  | Mremap addr old_len new_len _ _ => word addr /\ word old_len /\ word new_len
  | Brk _ | Exit => True
  end.

(** The pages a call can lose: those past the end of a copy whose file cannot be read. *)
Definition unreadable (e : env) (c : call) (lost : list Z) : Prop :=
  match c with
  | Mmap (Some f) len _ _ pgoff _ _ =>
      op_read f pgoff (PAGE_ALIGN len) < 0 /\ exists page, lost = seqZ page (mapping_pages e (PAGE_ALIGN len) - PAGE_ALIGN len / 4096)
  | _ => False
  end.

Lemma mms_keep mm m m' st : mms st !! mm = Some m -> forall k, is_Some (<[mm := m']> (mms st) !! k) <-> is_Some (mms st !! k).
Proof. intros Hm k. destruct (decide (k = mm)) as [->|Hne]; [rewrite lookup_insert_eq, Hm; split; eauto|now rewrite lookup_insert_ne by congruence]. Qed.

(** Every valid call returns, and keeps the invariant. *)
Lemma run_call_ok e lost cur m c st :
  mm_inv lost st -> mms st !! cur = Some m -> valid_call c st ->
  exists ret st' lost', run_call e cur c st = Ok (ret, st') /\ mm_inv (lost' ++ lost) st' /\ (lost' = [] \/ unreadable e c lost')
    /\ forall k, is_Some (mms st' !! k) <-> is_Some (mms st !! k).
Proof.
  intros Hi Hmm Hv.
  destruct c as [f len prot flags pgoff nr nv|start len nr nv|addr old_len new_len flags new_addr|b|]; cbn [run_call valid_call] in *.
  - destruct Hv as (Hf & Hl & Hp & Hex & Hnr & Hnv).
    destruct (do_mmap_pgoff_ok e base ext lost cur m f len prot flags pgoff nr nv st) as (ret & st' & -> & Hr); try assumption.
    exists ret, st'. unfold mmap_result in Hr. destruct (validate_mmap_request e f len prot flags pgoff) as [err|c].
    { destruct Hr as [-> ->]. exists []. split_and!; auto. }
    destruct nr as [r|]; [destruct nv as [p|]|]; [|destruct Hr as [-> ->]; exists []; split_and!; auto..].
    destruct Hr as [st' Hi' Hu|f0 page st' Ef Hrd Hi' Hu|page g' m' st' _ _ Hi' _ _ _ _ Em _|st' _ Hi' Hu|q g g' m' st' _ _ Hi' _ _ _ _ Em _].
    + exists []. destruct Hu as (_ & _ & -> & _). split_and!; auto.
    + eexists. destruct Hu as (_ & _ & -> & _). split_and!; [reflexivity|exact Hi'| |auto]. right. rewrite Ef. cbn. split; [exact Hrd|now exists page].
    + exists []. split_and!; auto. rewrite Em. now apply (mms_keep cur m).
    + exists []. destruct Hu as (_ & _ & -> & _). split_and!; auto.
    + exists []. split_and!; auto. rewrite Em. now apply (mms_keep cur m).
  - destruct Hv as (Hs & Hl & Hw & Hnr & Hnv).
    destruct (do_munmap_ok base ext e lost cur m start len nr nv st) as (ret & st' & -> & Hi' & Ho); try assumption. exists ret, st', [].
    split_and!; auto. destruct Ho as [(_ & c & ->)|(_ & (m' & ->) & _)]; now apply (mms_keep cur m).
  - destruct Hv as (Ha & Ho & Hn). destruct (do_mremap_ok lost cur m addr old_len new_len flags new_addr st) as (ret & st' & -> & Hi' & Hout); try assumption.
    exists ret, st', []. split_and!; auto. destruct Hout as [(_ & c & ->)|(p & v & c & _ & _ & _ & _ & _ & _ & ->)]; now apply (mms_keep cur m).
  - unfold sys_brk, deref. rewrite Hmm. cbn [rbind].
    destruct ((b <? start_brk m) || (end_brk m <? b)); [exists (brk m), st, []; split_and!; auto|].
    destruct (brk m =? b); [exists (brk m), st, []; split_and!; auto|]. eexists _, _, []. split_and!; [reflexivity| |auto|now apply (mms_keep cur m)].
    destruct Hi as [Hc Hm Hf]. split; [now apply (core_frame ext lost st)| |exact Hf].
    apply (mms_ok_frame _ _ cur m); try assumption; try reflexivity. apply (ms_each _ _ Hm cur m Hmm).
  - destruct (exit_mmap_ok base ext lost cur m st Hi Hmm) as (st' & m' & -> & Hi' & Em & _). exists 0, st', []. split_and!; auto.
    rewrite Em. now apply (mms_keep cur m).
Qed.

End Calls.

End Run.
