(* ===== verification/NommuSpec.v ===== *)
(** * Mappings without an MMU: properties

    What [mm/nommu.c] promises as a whole: every run of system calls keeps the regions,
    the areas, the pages and the references to files consistent, searches are complete,
    mappings do not overlap, and what is unmapped is exactly what was asked for. *)

From stdpp Require Import gmap sorting.
From S2P Require Import Prelude PageAlloc Buddy BuddyAlloc Pcp PageOps PageSource Nommu NommuLib NommuPages NommuInv NommuFind NommuUnmap NommuMmap NommuRun.

Section Spec.

Context {PS : Type} `{PageSource PS}.
Implicit Type st : nommu PS.

(** ** Runs *)

(** A system: the state, the references to files held elsewhere and the blocks of pages other users hold. *)
Record config := { cf_mm : nommu PS; cf_base : Z -> Z; cf_ext : list (Z * nat) }.

Definition consistent (c : config) : Prop := exists lost, mm_inv (cf_base c) (cf_ext c) lost (cf_mm c).

(** The areas of a process that has just been made. *)
Definition empty_mm (lo hi : Z) : mm_struct :=
  {| mmap := []; mm_rb := []; mmap_cache := None; map_count := 0; total_vm := 0; num_exe_file_vmas := 0;
     start_brk := lo; brk := lo; end_brk := hi |}.

Definition set_files st (fc : Z -> Z) : nommu PS :=
  {| regions := regions st; vmas := vmas st; nommu_region_tree := nommu_region_tree st; mms := mms st;
     mmap_pages_allocated := mmap_pages_allocated st; f_count := fc; pgs := pgs st |}.

(** Processes come, make calls and go; other users take and give back pages and files. *)
Inductive mm_step (e : env) : config -> config -> Prop :=
| step_call cur c st base ext ret st' :
    is_Some (mms st !! cur) -> valid_call c st -> run_call e cur c st = Ok (ret, st') ->
    mm_step e {| cf_mm := st; cf_base := base; cf_ext := ext |} {| cf_mm := st'; cf_base := base; cf_ext := ext |}
| step_new k lo hi st base ext :
    mms st !! k = None ->
    mm_step e {| cf_mm := st; cf_base := base; cf_ext := ext |} {| cf_mm := put_mm k (empty_mm lo hi) st; cf_base := base; cf_ext := ext |}
| step_gone k m st base ext :
    mms st !! k = Some m -> mm_rb m = [] ->
    mm_step e {| cf_mm := st; cf_base := base; cf_ext := ext |} {| cf_mm := set_mms st (delete k (mms st)); cf_base := base; cf_ext := ext |}
| step_pages s ext' st base ext :
    (forall own, holds [] (own ++ ext) (pgs st) -> holds [] (own ++ ext') s) ->
    mm_step e {| cf_mm := st; cf_base := base; cf_ext := ext |}
      {| cf_mm := set_pages st (mmap_pages_allocated st) s; cf_base := base; cf_ext := ext' |}
| step_files fc base' st base ext :
    (forall i, fc i - base' i = f_count st i - base i) ->
    mm_step e {| cf_mm := st; cf_base := base; cf_ext := ext |} {| cf_mm := set_files st fc; cf_base := base'; cf_ext := ext |}.

Lemma step_consistent e c c' : mm_step e c c' -> consistent c -> consistent c'.
Proof.
  intros [cur cl st base ext ret st' [m Hm] Hv E|k lo hi st base ext Hk|k m st base ext Hk Hrb|s ext' st base ext Hp|fc base' st base ext Hfc]
    [lost Hi]; unfold consistent; cbn [cf_mm cf_base cf_ext] in *.
  - destruct (run_call_ok base ext e lost cur m cl st Hi Hm Hv) as (ret' & st1 & lost' & E' & Hi' & _). rewrite E in E'. injection E' as <- <-. eauto.
  - exists lost. destruct Hi as [Hc [Hk1 Hk2] Hf]. split; [now apply (core_frame ext lost st)|split|exact Hf]; mm_simpl.
    + now rewrite mlist_insert by exact Hk.
    + intros k' m' Hm'. apply lookup_insert_Some in Hm' as [[<- <-]|[_ Hm']]; [|eauto]. split; try reflexivity; [constructor|discriminate].
  - exists lost. destruct Hi as [Hc [Hk1 Hk2] Hf]. split; [now apply (core_frame ext lost st)|split|exact Hf]; mm_simpl.
    + rewrite <- Hk1, (mlist_delete mm_rb (mms st) k m Hk), Hrb. reflexivity.
    + intros k' m' [_ Hm']%lookup_delete_Some. eauto.
  - exists lost. destruct Hi as [[Ht Hl Hh Ha] Hm Hf]. split; [split|..]; mm_simpl; try assumption. rewrite app_assoc. apply Hp. now rewrite <- app_assoc.
  - exists lost. destruct Hi as [Hc Hm Hf]. split; [now apply (core_frame ext lost st)|exact Hm|]. intros i. specialize (Hfc i). specialize (Hf i).
    unfold file_refs in *. cbn [f_count vmas regions set_files]. lia.
Qed.

(** C3: every state reached by valid calls of mmap, munmap, mremap, brk and exit of any processes, with other users of
    pages and files in between, is consistent: each area is in the tree and list of exactly one process, in order, and
    inside its region; the use count of a region is the number of its areas; regions do not overlap and every page of one is
    held by it alone; the page and file counts agree.  In such a state no valid call can fault ([BUG_ON], a pointer that is
    gone, a page freed twice), and the checks of [validate_nommu_regions] hold.  Valid ([valid_call]) are calls with 32-bit
    arguments, by a process that exists, whose files are mapped by copying (no [get_unmapped_area] of their own), which pass
    MAP_EXECUTABLE only with a file, and whose munmap range does not wrap around the address space: a range that wraps breaks
    the areas, which is [munmap_wraps]. *)
Theorem nommu_runs e c c' :
  consistent c -> rtc (mm_step e) c c' ->
  consistent c'
  /\ (forall cur cl, is_Some (mms (cf_mm c') !! cur) -> valid_call cl (cf_mm c') -> exists ret st', run_call e cur cl (cf_mm c') = Ok (ret, st'))
  /\ exists gs, Forall2 (fun r g => regions (cf_mm c') !! r = Some g) (nommu_region_tree (cf_mm c')) gs
       /\ validate_nommu_regions gs None = true.
Proof.
  intros Hc Hr. assert (Hc' : consistent c') by (induction Hr; eauto using step_consistent). split; [exact Hc'|].
  destruct Hc' as [lost Hi]. split.
  - intros cur cl [m Hm] Hv. destruct (run_call_ok _ _ e lost cur m cl _ Hi Hm Hv) as (ret & st' & _ & E & _). eauto.
  - destruct (mi_core _ _ _ _ Hi) as [Ht Hl Hh _]. apply validate_ok; [eapply page_list_nodup; exact Hh|apply Hl|exact Ht].
Qed.

(** ** The end of processes *)

Fixpoint exit_all (ks : list Z) st : result (nommu PS) :=
  match ks with [] => Ok st | k :: ks => let* st := exit_mmap k st in exit_all ks st end.

Lemma exit_all_ok base ext lost ks st :
  mm_inv base ext lost st -> (forall k, k ∈ ks -> is_Some (mms st !! k)) ->
  exists st', exit_all ks st = Ok st' /\ mm_inv base ext lost st'
    /\ (forall k m, mms st' !! k = Some m -> k ∈ ks -> mm_rb m = []) /\ (forall k, k ∉ ks -> mms st' !! k = mms st !! k).
Proof.
  revert st. induction ks as [|k ks IH]; intros st Hi Hks; cbn [exit_all].
  - exists st. split_and!; auto. intros k m _ Hk. now apply not_elem_of_nil in Hk.
  - destruct (Hks k ltac:(left)) as [m Hm]. destruct (exit_mmap_ok base ext lost k m st Hi Hm) as (st1 & m1 & -> & Hi1 & Em & Hrb).
    cbn [rbind]. destruct (IH st1 Hi1) as (st' & E & Hi' & Hin & Hout).
    { intros k' Hk'. rewrite Em. apply (mms_keep k m); [exact Hm|]. apply Hks. now right. }
    exists st'. split_and!; auto.
    + intros k' m' Hm' Hk'. destruct (decide (k' ∈ ks)) as [Hk2|Hk2]; [now apply (Hin k')|].
      apply elem_of_cons in Hk' as [->|]; [|contradiction]. rewrite (Hout k Hk2), Em, lookup_insert_eq in Hm'. now injection Hm' as <-.
    + intros k' [Hne Hk']%not_elem_of_cons. rewrite (Hout k' Hk'), Em. now apply lookup_insert_ne.
Qed.

(** No area is left, hence no region. *)
Lemma no_areas base ext lost st :
  mm_inv base ext lost st -> (forall k m, mms st !! k = Some m -> mm_rb m = []) -> vmas st = ∅ /\ regions st = ∅.
Proof.
  intros [[Ht Hl _ _] Hm _] Hrb.
  assert (Hv : vmas st = ∅).
  { apply map_eq. intros p. rewrite lookup_empty. destruct (vmas st !! p) as [v|] eqn:Ep; [|reflexivity]. exfalso.
    destruct (mms_ok_owner _ _ p Hm ltac:(now exists v)) as (k & m & Hk & Hp). rewrite (Hrb k m Hk) in Hp. now apply not_elem_of_nil in Hp. }
  split; [exact Hv|]. apply map_eq. intros r. rewrite lookup_empty. destruct (regions st !! r) as [g|] eqn:Er; [|reflexivity]. exfalso.
  destruct (lk_usage _ _ Hl r g Er) as [Eu Hpos]. rewrite Hv, msum_zero in Eu; [lia|]. intros i x Hx. now rewrite lookup_empty in Hx.
Qed.

(** C14: when all processes have exited nothing of their mappings is left: no area and no region; the pages that
    mappings held are back with the page allocator, but for those a failed read lost; the count of
    mapped pages says so and every reference to a file is dropped. *)
Theorem nommu_exit_releases base ext lost ks st :
  mm_inv base ext lost st -> (forall k, k ∈ ks <-> is_Some (mms st !! k)) ->
  exists st', exit_all ks st = Ok st' /\ vmas st' = ∅ /\ regions st' = ∅ /\ nommu_region_tree st' = []
    /\ holds [] (singles lost ++ ext) (pgs st') /\ mmap_pages_allocated st' = Z.of_nat (length lost) /\ (forall i, f_count st' i = base i).
Proof.
  intros Hi Hks. destruct (exit_all_ok base ext lost ks st Hi) as (st' & E & Hi' & Hin & Hout); [intros k; apply Hks|].
  exists st'. split; [exact E|]. destruct (no_areas base ext lost st' Hi') as [Hv Hr].
  { intros k m Hm. destruct (decide (k ∈ ks)) as [Hk|Hk]; [now apply (Hin k)|]. exfalso. rewrite (Hout k Hk) in Hm. apply Hk, Hks. now exists m. }
  destruct Hi' as [[Ht _ Hh Ha] _ Hf]. rewrite Hr in *. unfold page_list in *. rewrite mlist_nil in *. split_and!; auto.
  - apply Permutation_nil. rewrite (to_keys _ _ Ht). unfold keys. now rewrite map_to_list_empty.
  - intros i. rewrite Hf. unfold file_refs. rewrite Hv, Hr, !msum_zero; [lia|..]; intros j x Hx; now rewrite lookup_empty in Hx.
Qed.

(** ** Searching *)

(** C19: [find_vma] is an exhaustive search: although it trusts a one-entry cache and stops at the first area
    that starts too late, it returns an area of the process that contains the address whenever one does, and
    nothing otherwise; only the cache changes. *)
Theorem find_vma_complete base ext lost mm m addr st :
  mm_inv base ext lost st -> mms st !! mm = Some m ->
  exists hit c, find_vma mm addr st = Ok (hit, put_mm mm (set_cache m c) st)
    /\ (forall p, hit = Some p -> p ∈ mm_rb m /\ exists v, vmas st !! p = Some v /\ v_start v <= addr < v_end v)
    /\ (hit = None <-> ~ mapped st mm addr) /\ forall k a, mapped (put_mm mm (set_cache m c) st) k a <-> mapped st k a.
Proof.
  intros Hi Hmm. destruct (find_vma_ok base ext lost mm m addr st Hi Hmm) as (hit & c & st' & E & Hf & -> & _).
  exists hit, c. split_and!; [exact E| | |intros k a; now apply mapped_cache].
  - intros p ->. exact Hf.
  - destruct hit as [p|]; cbn in Hf.
    + split; [discriminate|]. intros Hn. exfalso. apply Hn. destruct Hf as (Hp & v & Hv & Hc). now exists m, p, v.
    + split; [|reflexivity]. intros _ (m' & p & v & Em & Hp & Hv & Hc). assert (m' = m) as -> by congruence. exact (Hf p v Hp Hv Hc).
Qed.

(** ** Unmapping *)

(** C17: [munmap] of pages inside an anonymous mapping removes them and nothing else: whatever part it is (all of
    it, an end, or a hole in the middle), afterwards the process has mapped what it had mapped before
    except that range, and no other process is affected.  Only a hole can fail, with -ENOMEM
    and nothing changed, for want of structures or because of the limit on areas. *)
Theorem munmap_exact e base ext lost mm m p v start len nr nv st :
  mm_inv base ext lost st -> mms st !! mm = Some m -> p ∈ mm_rb m -> vmas st !! p = Some v -> v_file v = None ->
  v_start v <= start -> 0 < len -> start + len <= v_end v -> start mod 4096 = 0 -> start + len = v_end v \/ (start + len) mod 4096 = 0 ->
  fresh nr nv st ->
  exists ret st', do_munmap e mm start len nr nv st = Ok (ret, st') /\ mm_inv base ext lost st'
    /\ ((ret = 0 /\ removes mm start (start + len) st st')
        \/ (ret = - ENOMEM /\ v_start v < start /\ start + len < v_end v /\ regions st' = regions st /\ vmas st' = vmas st)).
Proof.
  intros Hi Hmm Hp Hv Hvf Hs Hl He Hal Hfa [Hnr Hnv]. pose proof (ci_links _ _ _ (mi_core _ _ _ _ Hi)) as Hlk.
  destruct (lk_vma _ _ Hlk p v Hv) as (r & g & _ & Hg & Hok).
  destruct (ro_order _ (lk_region _ _ Hlk r g Hg)). destruct (vo_span _ _ Hok).
  unfold do_munmap. rewrite u32_id by (unfold is_u32; lia). rewrite (proj2 (Z.eqb_neq len 0)) by lia.
  destruct (find_vma_ok base ext lost mm m start st Hi Hmm) as (hit & c & st1 & -> & Hf & -> & Hi1). cbn [rbind].
  assert (hit = Some p) as ->.
  { destruct hit as [q|]; cbn in Hf; [|exfalso; apply (Hf p v Hp Hv); unfold covers; lia]. destruct Hf as (Hq & w & Hw & Hcw). f_equal.
    apply (anonymous_alone base ext lost p v q w start st); try assumption. unfold covers. lia. }
  unfold deref at 1. mm_simpl. rewrite Hv. cbn [rbind]. rewrite Hvf, bool_decide_false by apply is_Some_None.
  destruct (munmap_anonymous_ok base ext e lost mm m c p v start (start + len) nr nv st) as (ret & st' & E & Hi' & Ho & Hsucc); try assumption;
    [unfold covers; lia|lia|].
  exists ret, st'. split; [exact E|]. split; [exact Hi'|]. destruct (Hsucc He Hal Hfa) as [->|(-> & Hh1 & Hh2)].
  - left. split; [reflexivity|]. destruct Ho as [[[Ho|Ho] _]|(_ & _ & q & w & Hq & Hw & Hcw & Ho)]; [discriminate..|].
    assert (q = p) as -> by (apply (anonymous_alone base ext lost p v q w start st); try assumption; unfold covers; lia).
    assert (w = v) as -> by congruence. now rewrite Hvf in Ho.
  - right. split_and!; auto; destruct Ho as [[_ [c' ->]]|[Ho _]]; try reflexivity; discriminate.
Qed.

(** ** Mapping *)

(** A new area: what it covers is mapped, in its process only. *)
Lemma mapped_new mm m m' p v st st' :
  mms_ok (vmas st) (mms st) -> mms st !! mm = Some m -> vmas st !! p = None ->
  mms st' = <[mm := m']> (mms st) -> mm_rb m' ≡ₚ p :: mm_rb m -> vmas st' = <[p := v]> (vmas st) ->
  (forall a, mapped st' mm a <-> mapped st mm a \/ covers a v) /\ (forall k a, k <> mm -> mapped st' k a <-> mapped st k a).
Proof.
  intros Hms Hmm Hp Em HP Ev.
  assert (Hk : forall k mk q, mms st !! k = Some mk -> q ∈ mm_rb mk -> vmas st' !! q = vmas st !! q).
  { intros k mk q Hk Hq. rewrite Ev. apply lookup_insert_ne. intros <-. destruct (mms_ok_elem _ _ _ _ _ Hms Hk Hq) as [w Hw]. congruence. }
  split; [intros a|intros k a Hne].
  - unfold mapped. rewrite Em, lookup_insert_eq. split.
    + intros (m0 & q & w & [= <-] & Hq & Hw & Ha). rewrite HP in Hq. apply elem_of_cons in Hq as [->|Hq].
      * right. rewrite Ev, lookup_insert_eq in Hw. congruence.
      * left. rewrite (Hk mm m q Hmm Hq) in Hw. now exists m, q, w.
    + intros [(m0 & q & w & E & Hq & Hw & Ha)|Ha].
      * assert (m0 = m) as -> by congruence. exists m', q, w. rewrite HP, (Hk mm m q Hmm Hq). split_and!; auto. now right.
      * exists m', p, v. rewrite HP, Ev, lookup_insert_eq. split_and!; auto. left.
  - unfold mapped. rewrite Em, lookup_insert_ne by congruence.
    split; intros (mk & q & w & Ek & Hq & Hw & Ha); exists mk, q, w; [rewrite (Hk k mk q Ek Hq) in Hw|rewrite (Hk k mk q Ek Hq)]; auto.
Qed.

(** A new area with a new region of its own covers nothing that was mapped. *)
Lemma fresh_alone base ext lost p r g v st st' k a :
  mms_ok (vmas st) (mms st) -> mm_inv base ext lost st' -> vmas st !! p = None -> vmas st' !! p = Some v -> v_region v = Some r ->
  regions st' !! r = Some g -> vm_usage g = 1 -> (forall q w, vmas st !! q = Some w -> vmas st' !! q = Some w) -> covers a v -> ~ mapped st k a.
Proof.
  intros Hms Hi' Hp Hv Hr Hg Hu Hold Ha (mk & q & w & Ek & Hq & Hw & Hcw). assert (Hqp : q <> p) by congruence. apply Hqp.
  apply (private_alone base ext lost p v r g q w a st'); try assumption; [apply Hi'|now apply Hold].
Qed.

Lemma anonymous_allowed e len prot flags :
  has flags MAP_FIXED = false -> (flags .& MAP_TYPE) = MAP_PRIVATE \/ (flags .& MAP_TYPE) = MAP_SHARED -> 0 < len <= TASK_SIZE ->
  (forall prot', 0 <= security_file_mmap e prot prot' flags) -> validate_mmap_request e None len prot flags 0 = inr BDI_CAP_MAP_COPY.
Proof.
  intros Hfix Hty Hl Hsec. unfold validate_mmap_request. rewrite Hfix.
  assert (Et : negb ((flags .& MAP_TYPE) =? MAP_PRIVATE) && negb ((flags .& MAP_TYPE) =? MAP_SHARED) = false) by (destruct Hty as [-> | ->]; reflexivity).
  rewrite Et, (proj2 (Z.eqb_neq len 0)) by lia. pose proof (PAGE_ALIGN_small len) as Er. unfold TASK_SIZE in *. specialize (Er ltac:(lia) ltac:(lia)).
  rewrite (proj2 (Z.eqb_neq _ _)), (proj2 (Z.ltb_ge _ _)) by (rewrite Er; zdiv). cbn [orb].
  rewrite Z.shiftr_div_pow2 by lia. change (2 ^ 12) with 4096. rewrite u32_id by (unfold is_u32; rewrite Er; zdiv).
  rewrite (proj2 (Z.ltb_ge _ _)) by (rewrite Er; zdiv). now rewrite (proj2 (Z.ltb_ge _ _)) by apply Hsec.
Qed.

(** C18: an anonymous mapping is memory of its own: [mmap] of up to the size of the memory either fails with -ENOMEM
    and leaves everything as it was, or returns a page-aligned address; the process then has mapped
    exactly [len] bytes more, which no process, itself included, had mapped, and nothing changes for the others.
    The pages taken are the smallest block of a power of two, less the excess when it is trimmed. *)
Theorem mmap_anonymous e base ext lost cur m len prot flags r p st :
  mm_inv base ext lost st -> mms st !! cur = Some m -> has flags MAP_FIXED = false ->
  (flags .& MAP_TYPE) = MAP_PRIVATE \/ (flags .& MAP_TYPE) = MAP_SHARED -> has flags MAP_EXECUTABLE = false -> 0 < len <= TASK_SIZE ->
  (forall prot', 0 <= security_file_mmap e prot prot' flags) -> fresh (Some r) (Some p) st ->
  exists ret st', do_mmap_pgoff e cur None len prot flags 0 (Some r) (Some p) st = Ok (ret, st') /\ mm_inv base ext lost st'
    /\ ((ret = - ENOMEM /\ unchanged st st')
        \/ (0 < ret /\ ret mod 4096 = 0
            /\ (forall a, mapped st' cur a <-> mapped st cur a \/ ret <= a < ret + len) /\ (forall k a, k <> cur -> mapped st' k a <-> mapped st k a)
            /\ (forall k a, ret <= a < ret + len -> ~ mapped st k a)
            /\ mmap_pages_allocated st' = mmap_pages_allocated st + mapping_pages e (PAGE_ALIGN len))).
Proof.
  intros Hi Hmm Hfix Hty Hexe Hl Hsec [Hnr Hnv].
  destruct (do_mmap_pgoff_ok e base ext lost cur m None len prot flags 0 (Some r) (Some p) st) as (ret & st' & E & Hr); auto; try (unfold TASK_SIZE in Hl; lia);
    [exact I|]. exists ret, st'. split; [exact E|]. specialize (Hnr r eq_refl). specialize (Hnv p eq_refl).
  unfold mmap_result in Hr. rewrite anonymous_allowed in Hr by assumption. set (vf := determine_vm_flags e None prot flags BDI_CAP_MAP_COPY) in *.
  destruct Hr as [st' Hi' Hu|f0 page st' Hf _ _ _|page g' m' st' Hp1 Hp2 Hi' Er Hsm Hu Ev Em HP|st' [f0 Hf] _ _|q g g' m' st' _ (_ & (f1 & f2 & Hf & _) & _) _ _ _ _ _ _ _];
    [auto|discriminate| |discriminate..].
  split; [exact Hi'|]. right. destruct (mapped_new cur m m' p (final_vma None vf 0 r page len) st st') as [Hm1 Hm2]; try assumption; [apply Hi|].
  assert (Hcov : forall a, covers a (final_vma None vf 0 r page len) <-> page * 4096 <= a < page * 4096 + len) by reflexivity.
  assert (Hg' : regions st' !! r = Some g') by (rewrite Er; apply lookup_insert_eq).
  split_and!; [lia|zdiv|intros a; rewrite Hm1, Hcov; reflexivity|exact Hm2| |].
  - intros k a Ha. apply (fresh_alone base ext lost p r g' (final_vma None vf 0 r page len) st st'); try assumption; try reflexivity.
    + exact (mi_mms _ _ _ _ Hi).
    + rewrite Ev. apply lookup_insert_eq.
    + intros q w Hq. rewrite Ev. now rewrite lookup_insert_ne by congruence.
  - destruct Hi as [[_ _ _ ->] _ _], Hi' as [[_ Hl' _ ->] _ _]. rewrite Er, page_list_insert, length_app, Nat2Z.inj_add by exact Hnr.
    rewrite (region_pages_length g') by exact (lk_region _ _ Hl' r g' Hg'). destruct Hsm as (-> & _ & -> & _).
    unfold final_region, copy_region. mm_simpl. replace ((page + mapping_pages e (PAGE_ALIGN len)) * 4096 - page * 4096)
      with (mapping_pages e (PAGE_ALIGN len) * 4096) by lia. rewrite Z.div_mul by lia. lia.
Qed.

(** ** Ranges that wrap *)

(** [shrink_vma] asked to end below its start. *)
Lemma shrink_wraps base ext lost mm m p v r g st :
  mm_inv base ext lost st -> mms st !! mm = Some m -> p ∈ mm_rb m -> vmas st !! p = Some v -> v_region v = Some r -> regions st !! r = Some g ->
  vm_usage g = 1 -> v_start v = rg_start g -> (forall q x, regions st !! q = Some x -> rg_start x <> v_start v - 4096) ->
  let g' := set_span g (v_start v - 4096) (rg_end g) (rg_top g) in
  let v' := set_v_span v (v_start v - 4096) (v_end v) in
  exists st', shrink_vma mm p (v_start v) (v_start v - 4096) st = Ok (0, st') /\ vmas st' = <[p := v']> (vmas st)
    /\ regions st' = <[r := g']> (regions st) /\ mmap_pages_allocated st' = mmap_pages_allocated st.
Proof.
  intros [[Ht Hl Hh Ha] Hm Hf] Hmm Hp Hv Hr Hg Hu Hs Hfree g' v'. unfold shrink_vma.
  destruct (delete_vma_from_mm_ok (vmas st) mm m p st Hm Hmm Hp) as [-> Hm1]. cbn [rbind].
  unfold deref at 1. mm_simpl. rewrite Hv. cbn [rbind]. rewrite Z.ltb_irrefl. fold v'.
  destruct (add_vma_to_mm_ok (delete p (vmas st)) mm (mm_without p m) p v' (put_vma p v' (put_mm mm (mm_without p m) st)))
    as (l & t & -> & _ & _); mm_simpl.
  { exact Hm1. } { rewrite <- insert_delete_eq. apply insert_subseteq, lookup_delete_eq. }
  { apply lookup_delete_eq. } { apply lookup_insert_eq. } { exists r. exact Hr. } { apply lookup_insert_eq. }
  cbn [rbind]. change (v_region v') with (v_region v). rewrite Hr. unfold deref. mm_simpl. rewrite Hg. cbn [rbind]. rewrite Hu. cbn [BUG_ON Z.eqb negb rbind].
  match goal with |- context [delete_nommu_region r ?s] => set (st1 := s) end.
  destruct (delete_nommu_region_ok (regions st) r st1 Ht) as (t1 & -> & Ht1); [now exists g|]. cbn [rbind].
  rewrite (proj2 (Z.ltb_ge (rg_start g) (v_start v))) by lia. fold g'.
  destruct (add_nommu_region_ok (delete r (regions st)) r g' (put_region r g' (set_tree st1 t1))) as (t2 & -> & Ht2); mm_simpl.
  { exact Ht1. } { rewrite <- insert_delete_eq. apply insert_subseteq, lookup_delete_eq. } { apply lookup_delete_eq. }
  { apply lookup_insert_eq. } { intros q x [_ Hq]%lookup_delete_Some. exact (Hfree q x Hq). }
  cbn [rbind]. unfold free_page_series. replace ((v_start v - 4096 - v_start v + 4095) / 4096) with (-1) by (rewrite (Z.div_unique (v_start v - 4096 - v_start v + 4095) 4096 (-1) 4095); lia).
  cbn [seqZ free_page_loop rbind]. eexists. split; [reflexivity|]. split_and!; reflexivity.
Qed.

(** [munmap] does not check that [start + len] wraps around.  For an anonymous mapping that starts at [start] the
    length 2^32 - 4096 passes every test as the end lies below the start: the call returns 0, frees nothing, and
    moves the start of the area and of its region down by one page, onto a page the process never had.  The
    resulting state is not consistent: the next unmapping frees a page that belongs to someone else. *)
Theorem munmap_wraps e base ext mm m p v r nr nv st :
  mm_inv base ext [] st -> mms st !! mm = Some m -> p ∈ mm_rb m -> vmas st !! p = Some v -> v_file v = None -> v_region v = Some r ->
  8192 <= v_start v -> (forall q x, regions st !! q = Some x -> rg_start x <> v_start v - 4096) ->
  exists st' g', do_munmap e mm (v_start v) (2 ^ 32 - 4096) nr nv st = Ok (0, st')
    /\ vmas st' !! p = Some (set_v_span v (v_start v - 4096) (v_end v)) /\ regions st' !! r = Some g' /\ rg_start g' = v_start v - 4096
    /\ mmap_pages_allocated st' = mmap_pages_allocated st /\ forall base' ext' lost', ~ mm_inv base' ext' lost' st'.
Proof.
  intros Hi Hmm Hp Hv Hvf Hr Hs Hfree. pose proof (mi_core _ _ _ _ Hi) as [Ht Hl Hh Ha].
  destruct (lk_vma _ _ Hl p v Hv) as (r' & g & Hr' & Hg & Hok). assert (r' = r) as -> by congruence.
  destruct (anonymous_private _ _ _ _ _ _ Hl Hv Hr Hg Hvf) as (Hu & Hns & Hst & Hgf). destruct (ro_order _ (lk_region _ _ Hl r g Hg)). destruct (vo_span _ _ Hok).
  assert (Efin : u32 (v_start v + (2 ^ 32 - 4096)) = v_start v - 4096) by (unfold u32; zdiv).
  unfold do_munmap. rewrite Efin. change (2 ^ 32 - 4096 =? 0) with false.
  destruct (find_vma_ok base ext [] mm m (v_start v) st Hi Hmm) as (hit & c & st1 & -> & Hf & -> & Hi1). cbn [rbind].
  assert (hit = Some p) as ->.
  { destruct hit as [q|]; cbn in Hf; [|exfalso; apply (Hf p v Hp Hv); unfold covers; lia]. destruct Hf as (Hq & w & Hw & Hcw). f_equal.
    apply (anonymous_alone base ext [] p v q w (v_start v) st); try assumption. unfold covers. lia. }
  unfold deref at 1. mm_simpl. rewrite Hv. cbn [rbind]. rewrite Hvf, bool_decide_false by apply is_Some_None.
  rewrite Z.eqb_refl, (proj2 (Z.eqb_neq (v_start v - 4096) (v_end v))), Z.ltb_irrefl, (proj2 (Z.ltb_ge (v_end v) _)) by lia.
  pose proof (vo_start _ _ Hok) as Hal. rewrite !has_offset, Hal by lia. replace ((v_start v - 4096) mod 4096) with 0 by zdiv.
  cbn [andb orb negb Z.eqb].
  destruct (shrink_wraps base ext [] mm (set_cache m c) p v r g (put_mm mm (set_cache m c) st)) as (st' & -> & Ev & Er & Ea); try assumption; [apply lookup_insert_eq|].
  exists st'. eexists. split; [reflexivity|]. rewrite Ev, Er, !lookup_insert_eq. split_and!; try reflexivity; [exact Ea|].
  intros base' ext' lost' [[_ _ _ Ha'] _ _]. rewrite Ea in Ha'. mm_simpl in Ha'. rewrite Ha, Er in Ha'. mm_simpl in Ha'.
  rewrite (page_list_update _ r g _ Hg), (page_list_delete _ r g Hg), !length_app, !Nat2Z.inj_add in Ha'.
  pose proof (lk_region _ _ Hl r g Hg) as Hgk. rewrite (region_pages_length g Hgk) in Ha'. unfold region_pages in Ha'. mm_simpl in Ha'.
  rewrite length_seqZ, Z2Nat.id in Ha' by (rewrite Hst; destruct Hgk; zdiv). cbn [length] in Ha'. rewrite Hst in Ha'. destruct Hgk; zdiv.
Qed.

End Spec.

(** ** On the board's memory *)

Section Board.

Lemma disco_range : Forall (fun q => 0 < q < 2 ^ 20 - 1) disco_pages.
Proof. apply Forall_forall. intros q Hq%elem_of_seqZ. lia. Qed.

#[local] Instance disco_source : PageSource zone := zone_source disco_pages false disco_range.

(** One process and nothing mapped. *)
Definition disco_mm : nommu zone :=
  {| regions := ∅; vmas := ∅; nommu_region_tree := []; mms := {[1 := empty_mm 0 0]}; mmap_pages_allocated := 0;
     f_count := fun _ => 0; pgs := disco_zone |}.

(** CONFIG_NOMMU_INITIAL_TRIM_EXCESS=0 of the board's configuration. *)
Definition disco_env : env :=
  {| read_implies_exec := false; traced := false; security_file_mmap := fun _ _ _ => 0; sysctl_nr_trim_pages := 0;
     sysctl_max_map_count := 65536 |}.

Lemma disco_mm_inv : mm_inv (fun _ => 0) [] [] disco_mm.
Proof.
  split; [split|..].
  - split; [reflexivity|constructor].
  - split; intros k x Hk; destruct (lookup_empty_Some k x Hk).
  - exact disco_zone_inv.
  - reflexivity.
  - split; [reflexivity|]. intros k m Hk. cbn [mms disco_mm] in Hk. apply lookup_singleton_Some in Hk as [_ <-]. split; try reflexivity; [constructor|discriminate].
  - intros i. reflexivity.
Qed.

Definition disco_call : call := Mmap None 20000 3 MAP_PRIVATE 0 (Some 10) (Some 20).

Lemma disco_fresh : fresh (Some 10) (Some 20) disco_mm.
Proof. split; intros k _; apply lookup_empty. Qed.

Lemma disco_valid : valid_call disco_call disco_mm.
Proof. cbn. unfold word. split_and!; try lia; try apply disco_fresh; try exact I; try reflexivity. Qed.

(** 20000 bytes mapped: five pages of a block of eight. *)
Lemma disco_mapped : exists st m v g,
  run_call disco_env 1 disco_call disco_mm = Ok (0xC0000000, st) /\ mm_inv (fun _ => 0) [] [] st /\ mms st = <[1 := m]> (mms disco_mm)
  /\ mm_rb m = [20] /\ vmas st = <[20 := v]> ∅ /\ regions st = <[10 := g]> ∅ /\ v_start v = 0xC0000000 /\ v_end v = 0xC0000000 + 20000
  /\ v_file v = None /\ v_region v = Some 10 /\ mmap_pages_allocated st = 8.
Proof.
  destruct (do_mmap_pgoff_ok disco_env (fun _ => 0) [] [] 1 (empty_mm 0 0) None 20000 3 MAP_PRIVATE 0 (Some 10) (Some 20) disco_mm) as (ret & st & E & Hr);
    auto using disco_mm_inv; try lia; try (intros k _; apply lookup_empty); [exact I|].
  assert (Ec : match run_call disco_env 1 disco_call disco_mm with Ok (ret, st) => ret = 0xC0000000 /\ mmap_pages_allocated st = 8 | _ => False end)
    by (vm_compute; split; reflexivity).
  cbn [run_call disco_call] in *. rewrite E in Ec. destruct Ec as [-> Ea]. unfold mmap_result in Hr.
  rewrite anonymous_allowed in Hr; [|reflexivity|now left|unfold TASK_SIZE; lia|intros; cbn; lia].
  remember 0xC0000000 as ret eqn:Hret in Hr.
  destruct Hr as [st _ _|f0 page st Hf|page g' m' st Hp1 Hp2 Hi' Er Hsm Hu Ev Em HP|st [f0 Hf] _ _|q g g' m' st Hq];
    [discriminate Hret|discriminate Hf| |discriminate Hf|].
  2: { destruct (lookup_empty_Some q g Hq). }
  assert (page = 0xC0000) as -> by lia.
  exists st, m', (final_vma None (determine_vm_flags disco_env None 3 MAP_PRIVATE BDI_CAP_MAP_COPY) 0 10 0xC0000 20000), g'.
  split_and!; try assumption; try reflexivity. apply Permutation_length_1_inv. now symmetry.
Qed.

Lemma disco_consistent : consistent {| cf_mm := disco_mm; cf_base := fun _ => 0; cf_ext := [] |}.
Proof. exists []. exact disco_mm_inv. Qed.

Lemma nommu_runs_witness : exists st,
  mm_step disco_env {| cf_mm := disco_mm; cf_base := fun _ => 0; cf_ext := [] |} {| cf_mm := st; cf_base := fun _ => 0; cf_ext := [] |}
  /\ consistent {| cf_mm := st; cf_base := fun _ => 0; cf_ext := [] |}
  /\ exists ret st', run_call disco_env 1 Exit st = Ok (ret, st').
Proof.
  destruct disco_mapped as (st & m & v & g & E & _ & Em & _). exists st.
  assert (Hs : mm_step disco_env {| cf_mm := disco_mm; cf_base := fun _ => 0; cf_ext := [] |} {| cf_mm := st; cf_base := fun _ => 0; cf_ext := [] |}).
  { apply (step_call disco_env 1 disco_call disco_mm (fun _ => 0) [] 0xC0000000 st); [eexists; reflexivity|exact disco_valid|exact E]. }
  split; [exact Hs|]. destruct (nommu_runs disco_env _ _ disco_consistent (rtc_once _ _ Hs)) as (Hc & Hcall & _).
  split; [exact Hc|]. apply (Hcall 1 Exit); [|exact I]. cbn [cf_mm]. rewrite Em, lookup_insert_eq. eexists. reflexivity.
Defined.

Lemma nommu_exit_releases_witness : exists st st' : nommu zone,
  mmap_pages_allocated st = 8 /\ exit_all [1] st = Ok st' /\ regions st' = ∅ /\ mmap_pages_allocated st' = 0.
Proof.
  destruct disco_mapped as (st & m & v & g & _ & Hi & Em & _ & _ & _ & _ & _ & _ & _ & Ha). exists st.
  destruct (nommu_exit_releases (fun _ => 0) [] [] [1] st Hi) as (st' & E' & _ & Hr & _ & _ & Ha' & _).
  - intros k. rewrite Em, list_elem_of_singleton. cbn [mms disco_mm]. split.
    + intros ->. rewrite lookup_insert_eq. now eexists.
    + intros [x Hx]. apply lookup_insert_Some in Hx as [[<- _]|[_ Hx]]; [reflexivity|]. now apply lookup_singleton_Some in Hx as [<- _].
  - exists st'. split; [exact Ha|]. split; [exact E'|]. split; [exact Hr|exact Ha'].
Defined.

Lemma find_vma_complete_witness : exists st c : nommu zone,
  mapped st 1 0xC0000064 /\ (exists p, find_vma 1 0xC0000064 st = Ok (Some p, c)).
Proof.
  destruct disco_mapped as (st & m & v & g & _ & Hi & Em & Hrb & Ev & _ & Es & Ee & _). exists st.
  assert (Hmm : mms st !! 1 = Some m) by (rewrite Em; apply lookup_insert_eq).
  assert (Hmap : mapped st 1 0xC0000064).
  { exists m, 20, v. rewrite Hrb, Ev. split; [exact Hmm|]. split; [apply list_elem_of_singleton; reflexivity|].
    split; [apply lookup_insert_eq|]. unfold covers. lia. }
  destruct (find_vma_complete (fun _ => 0) [] [] 1 m 0xC0000064 st Hi Hmm) as (hit & c & Ef & _ & Hnone & _).
  exists (put_mm 1 (set_cache m c) st). split; [exact Hmap|]. destruct hit as [p|]; [now exists p|]. destruct (proj1 Hnone eq_refl Hmap).
Defined.

Lemma munmap_exact_witness : exists (st : nommu zone) ret st',
  mapped st 1 0xC0001000 /\ do_munmap disco_env 1 0xC0001000 4096 (Some 11) (Some 21) st = Ok (ret, st')
  /\ (ret = 0 -> ~ mapped st' 1 0xC0001000 /\ mapped st' 1 0xC0000FFF).
Proof.
  destruct disco_mapped as (st & m & v & g & _ & Hi & Em & Hrb & Ev & Er & Es & Ee & Hvf & _). exists st.
  assert (Hmm : mms st !! 1 = Some m) by (rewrite Em; apply lookup_insert_eq).
  assert (Hv : vmas st !! 20 = Some v) by (rewrite Ev; apply lookup_insert_eq).
  assert (Hp : 20 ∈ mm_rb m) by (rewrite Hrb; apply list_elem_of_singleton; reflexivity).
  assert (Hmap : forall a, v_start v <= a < v_end v -> mapped st 1 a) by (intros a Ha; now exists m, 20, v).
  destruct (munmap_exact disco_env (fun _ => 0) [] [] 1 m 20 v 0xC0001000 4096 (Some 11) (Some 21) st Hi Hmm Hp Hv Hvf)
    as (ret & st' & Eu & _ & Ho); try lia; [reflexivity|right; reflexivity|unfold fresh; rewrite Er, Ev; split; intros k [= <-]; reflexivity|].
  exists ret, st'. split; [apply Hmap; lia|]. split; [exact Eu|]. intros ->. destruct Ho as [[_ [Hr _]]|[Hbad _]]; [|discriminate Hbad].
  split; [intros [_ Hn]%Hr; lia|]. apply Hr. split; [apply Hmap; lia|lia].
Defined.

Lemma mmap_anonymous_witness : exists ret st,
  do_mmap_pgoff disco_env 1 None 20000 3 MAP_PRIVATE 0 (Some 10) (Some 20) disco_mm = Ok (ret, st)
  /\ (0 < ret -> mapped st 1 ret /\ ~ mapped disco_mm 1 ret /\ mmap_pages_allocated st = 8).
Proof.
  destruct (mmap_anonymous disco_env (fun _ => 0) [] [] 1 (empty_mm 0 0) 20000 3 MAP_PRIVATE 10 20 disco_mm disco_mm_inv)
    as (ret & st & E & _ & Ho); try reflexivity; [now left|unfold TASK_SIZE; lia|exact disco_fresh|].
  exists ret, st. split; [exact E|]. intros Hret. destruct Ho as [[-> _]|(_ & _ & Hm & _ & Hn & Ha)]; [discriminate Hret|].
  split; [apply Hm; right; lia|]. split; [apply Hn; lia|]. rewrite Ha. reflexivity.
Defined.

Lemma munmap_wraps_witness : exists (st st' : nommu zone) g',
  mm_inv (fun _ => 0) [] [] st /\ do_munmap disco_env 1 0xC0000000 0xFFFFF000 None None st = Ok (0, st')
  /\ regions st' !! 10 = Some g' /\ rg_start g' = 0xBFFFF000 /\ forall base ext lost, ~ mm_inv base ext lost st'.
Proof.
  destruct disco_mapped as (st & m & v & g & _ & Hi & Em & Hrb & Ev & Er & Es & Ee & Hvf & Hvr & _). exists st.
  destruct (munmap_wraps disco_env (fun _ => 0) [] 1 m 20 v 10 None None st Hi) as (st' & g' & Eu & _ & Hg & Hs & _ & Hn); try assumption.
  - rewrite Em. apply lookup_insert_eq.
  - rewrite Hrb. apply list_elem_of_singleton. reflexivity.
  - rewrite Ev. apply lookup_insert_eq.
  - lia.
  - intros q x Hx. rewrite Er in Hx. apply lookup_insert_Some in Hx as [[<- <-]|[_ Hx]]; [|destruct (lookup_empty_Some q x Hx)].
    destruct (lk_vma _ _ (ci_links _ _ _ (mi_core _ _ _ _ Hi)) 20 v) as (r & g0 & Hr & Hg & Hok); [rewrite Ev; apply lookup_insert_eq|].
    assert (r = 10) as -> by congruence. rewrite Er, lookup_insert_eq in Hg. injection Hg as <-.
    destruct (anonymous_private _ _ 20 v 10 g (ci_links _ _ _ (mi_core _ _ _ _ Hi))) as (_ & _ & Hst & _); try assumption;
      [rewrite Ev; apply lookup_insert_eq|rewrite Er; apply lookup_insert_eq|]. lia.
  - exists st', g'. rewrite Es in *. split; [exact Hi|]. split; [exact Eu|]. split; [exact Hg|]. split; [exact Hs|exact Hn].
Defined.

End Board.
