(* ===== verification/Flat.v ===== *)
(** * The loader of flat executables ([fs/binfmt_flat.c])

    [load_flat_file], [load_flat_binary], [calc_reloc], [old_reloc] and
    [create_flat_tables] in the committed configuration: no compressed executables, no
    shared libraries.  Mappings are those of [Nommu].  Memory is a function from
    addresses to bytes; an access outside the mappings made for the program is a
    [BadIndex] fault, as it would touch someone else's memory.  The file's [read]
    method, the result of [flush_old_exec] and the argument pages are arguments. *)

From stdpp Require Import gmap.
From S2P Require Import Prelude PageAlloc Buddy BuddyAlloc Pcp PageOps PageSource Nommu.

(** ** Constants *)

Definition FLAT_VERSION : Z := 4.
Definition OLD_FLAT_VERSION : Z := 2.
Definition FLAT_FLAG_RAM : Z := 1.
Definition FLAT_FLAG_GOTPIC : Z := 2.
Definition FLAT_FLAG_GZIP : Z := 4.
Definition FLAT_FLAG_GZDATA : Z := 8.
Definition OLD_FLAT_RELOC_TYPE_TEXT : Z := 0.
Definition OLD_FLAT_RELOC_TYPE_DATA : Z := 1.
Definition OLD_FLAT_RELOC_TYPE_BSS : Z := 2.
Definition FLAT_DATA_ALIGN : Z := 8.                 (* ARCH_SLAB_MINALIGN, CONFIG_AEABI *)
Definition MAX_SHARED_LIBS : Z := 1.
Definition MAX_ARG_PAGES : Z := 32.
Definition RELOC_FAILED : Z := 0xff00ff01.
Definition TOP_OF_ARGS : Z := 4096 * MAX_ARG_PAGES - 4.
Definition HDR_SIZE : Z := 64.                       (* sizeof(struct flat_hdr) *)
Definition ENOEXEC : Z := 8.

(** ** Memory *)

Definition memory := Z -> Z.

Definition get_word (m : memory) (a : Z) : Z := m a + 256 * m (a + 1) + 65536 * m (a + 2) + 16777216 * m (a + 3).

Definition set_byte (m : memory) (a v : Z) : memory := fun x => if x =? a then v else m x.

Definition put_word (m : memory) (a w : Z) : memory := fun x =>
  if x =? a then w mod 256
  else if x =? a + 1 then w / 256 mod 256
  else if x =? a + 2 then w / 65536 mod 256
  else if x =? a + 3 then w / 16777216 mod 256
  else m x.

Definition write_bytes (m : memory) (a : Z) (l : list Z) : memory := fun x =>
  if (a <=? x) && (x <? a + Z.of_nat (length l)) then nth (Z.to_nat (x - a)) l 0 else m x.

Definition memset0 (m : memory) (a n : Z) : memory := fun x => if (a <=? x) && (x <? a + n) then 0 else m x.

Definition ntohl (w : Z) : Z :=
  (w mod 256) * 16777216 + (w / 256 mod 256) * 65536 + (w / 65536 mod 256) * 256 + w / 16777216 mod 256.

(** The mappings of a program: start and length. *)
Definition in_maps (maps : list (Z * Z)) (a n : Z) : bool := existsb (fun '(s, l) => (s <=? a) && (a + n <=? s + l)) maps.

Definition load32 (maps : list (Z * Z)) (m : memory) (a : Z) : result Z :=
  if in_maps maps a 4 then Ok (get_word m a) else Fault BadIndex.
Definition store32 (maps : list (Z * Z)) (m : memory) (a w : Z) : result memory :=
  if in_maps maps a 4 then Ok (put_word m a w) else Fault BadIndex.
Definition load8 (maps : list (Z * Z)) (m : memory) (a : Z) : result Z :=
  if in_maps maps a 1 then Ok (m a) else Fault BadIndex.
Definition store8 (maps : list (Z * Z)) (m : memory) (a v : Z) : result memory :=
  if in_maps maps a 1 then Ok (set_byte m a v) else Fault BadIndex.

(** ** The file *)

(** [struct flat_hdr], in host byte order. *)
Record flat_hdr := {
  h_rev : Z; h_entry : Z; h_data_start : Z; h_data_end : Z; h_bss_end : Z; h_stack_size : Z; h_reloc_start : Z;
  h_reloc_count : Z; h_flags : Z; h_build_date : Z
}.

Definition magic_ok (buf : memory) : bool := (buf 0 =? 0x62) && (buf 1 =? 0x46) && (buf 2 =? 0x4C) && (buf 3 =? 0x54).

Definition read_hdr (buf : memory) : flat_hdr :=
  let word off := ntohl (get_word buf off) in
  {| h_rev := word 4; h_entry := word 8; h_data_start := word 12; h_data_end := word 16; h_bss_end := word 20;
     h_stack_size := word 24; h_reloc_start := word 28; h_reloc_count := word 32; h_flags := word 36; h_build_date := word 40 |}.

(** [struct linux_binprm]: the first bytes of the file, the file, its [read] method (position and count to an
    error or the bytes), the place of the argument strings in the argument pages and their number. *)
Record linux_binprm := {
  b_buf : memory; b_file : file; b_read : Z -> Z -> Z + list Z; b_p : Z; b_argc : Z; b_envc : Z; b_args : memory;
  flush_old_exec : Z; rlim_data : Z
}.

(** [struct lib_info] for the one module. *)
Record lib_info := { start_code : Z; start_data : Z; lib_start_brk : Z; text_len : Z; entry : Z; build_date : Z }.

(** [calc_reloc]: RELOC_FAILED when the offset is outside the program. *)
Definition calc_reloc (r : Z) (p : lib_info) : Z :=
  if r <=? u32 (lib_start_brk p - start_data p + text_len p) then
    if r <? text_len p then u32 (r + start_code p) else u32 (r - text_len p + start_data p)
  else RELOC_FAILED.

(** The process: mappings, memory and the segment limits of its [mm_struct]. *)
Record exec (PS : Type) := {
  x_mm : nommu PS; x_mem : memory; x_maps : list (Z * Z); x_start_code : Z; x_end_code : Z; x_start_data : Z; x_end_data : Z;
  x_arg_start : Z; x_arg_end : Z; x_env_start : Z; x_env_end : Z; x_start_stack : Z
}.
Arguments x_mm {PS} _.
Arguments x_mem {PS} _.
Arguments x_maps {PS} _.
Arguments x_start_code {PS} _.
Arguments x_end_code {PS} _.
Arguments x_start_data {PS} _.
Arguments x_end_data {PS} _.
Arguments x_arg_start {PS} _.
Arguments x_arg_end {PS} _.
Arguments x_env_start {PS} _.
Arguments x_env_end {PS} _.
Arguments x_start_stack {PS} _.

Definition set_brks (m : mm_struct) (a b c : Z) : mm_struct := {| mmap := mmap m; mm_rb := mm_rb m; mmap_cache := mmap_cache m;
  map_count := map_count m; total_vm := total_vm m; num_exe_file_vmas := num_exe_file_vmas m; start_brk := a; brk := b; end_brk := c |}.

Section Exec.

Context {PS : Type} `{PageSource PS} (e : env).
Implicit Type x : exec PS.

Definition set_x_mm x st : exec PS := {| x_mm := st; x_mem := x_mem x; x_maps := x_maps x; x_start_code := x_start_code x;
  x_end_code := x_end_code x; x_start_data := x_start_data x; x_end_data := x_end_data x; x_arg_start := x_arg_start x;
  x_arg_end := x_arg_end x; x_env_start := x_env_start x; x_env_end := x_env_end x; x_start_stack := x_start_stack x |}.
Definition set_x_mem x m : exec PS := {| x_mm := x_mm x; x_mem := m; x_maps := x_maps x; x_start_code := x_start_code x;
  x_end_code := x_end_code x; x_start_data := x_start_data x; x_end_data := x_end_data x; x_arg_start := x_arg_start x;
  x_arg_end := x_arg_end x; x_env_start := x_env_start x; x_env_end := x_env_end x; x_start_stack := x_start_stack x |}.
Definition add_map x st s l m : exec PS := {| x_mm := st; x_mem := m; x_maps := (s, l) :: x_maps x; x_start_code := x_start_code x;
  x_end_code := x_end_code x; x_start_data := x_start_data x; x_end_data := x_end_data x; x_arg_start := x_arg_start x;
  x_arg_end := x_arg_end x; x_env_start := x_env_start x; x_env_end := x_env_end x; x_start_stack := x_start_stack x |}.
Definition set_segments x sc ec sd ed : exec PS := {| x_mm := x_mm x; x_mem := x_mem x; x_maps := x_maps x; x_start_code := sc;
  x_end_code := ec; x_start_data := sd; x_end_data := ed; x_arg_start := x_arg_start x;
  x_arg_end := x_arg_end x; x_env_start := x_env_start x; x_env_end := x_env_end x; x_start_stack := x_start_stack x |}.
Definition set_tables x m a b c d s : exec PS := {| x_mm := x_mm x; x_mem := m; x_maps := x_maps x; x_start_code := x_start_code x;
  x_end_code := x_end_code x; x_start_data := x_start_data x; x_end_data := x_end_data x; x_arg_start := a;
  x_arg_end := b; x_env_start := c; x_env_end := d; x_start_stack := s |}.

(** [do_mmap] at offset 0; the pointers are what the slab allocator returns. *)
Definition do_mmap (cur : Z) (f : option file) (len prot flags : Z) (nr nv : option Z) (st : nommu PS) : result (Z * nommu PS) :=
  do_mmap_pgoff e cur f len prot flags 0 nr nv st.

(** The program text mapped from the file; its memory holds what the file has, and zeroes past its end. *)
Definition map_text (cur : Z) (b : linux_binprm) (len : Z) (nr nv : option Z) x : result (Z * exec PS) :=
  let* (ret, st) := do_mmap cur (Some (b_file b)) len (PROT_READ .| PROT_EXEC) (MAP_PRIVATE .| MAP_EXECUTABLE) nr nv (x_mm x) in
  if ret <=? 0 then Ok (if ret =? 0 then - ENOMEM else ret, set_x_mm x st)
  else
    let bytes := match b_read b 0 (PAGE_ALIGN len) with inl _ => [] | inr l => l end in
    Ok (ret, add_map x st ret (PAGE_ALIGN len) (write_bytes (memset0 (x_mem x) ret (PAGE_ALIGN len)) ret bytes)).

(** Zeroed memory. *)
Definition map_ram (cur len : Z) (nr nv : option Z) x : result (Z * exec PS) :=
  let* (ret, st) := do_mmap cur None len (PROT_READ .| PROT_WRITE .| PROT_EXEC) MAP_PRIVATE nr nv (x_mm x) in
  if ret <=? 0 then Ok (if ret =? 0 then - ENOMEM else ret, set_x_mm x st)
  else Ok (ret, add_map x st ret (PAGE_ALIGN len) (memset0 (x_mem x) ret (PAGE_ALIGN len))).

(** [f_op->read] into memory. *)
Definition read_into (b : linux_binprm) (a n pos : Z) x : result (Z * exec PS) :=
  match b_read b pos n with
  | inl err => Ok (err, x)
  | inr l => if in_maps (x_maps x) a (Z.of_nat (length l)) then Ok (Z.of_nat (length l), set_x_mem x (write_bytes (x_mem x) a l)) else Fault BadIndex
  end.

Definition unmap (cur start len : Z) (nr nv : option Z) x : result (exec PS) :=
  let* (_, st) := do_munmap e cur start len nr nv (x_mm x) in Ok (set_x_mm x st).

Definition ALIGN (a n : Z) : Z := u32 (a + (n - 1)) .& .~ (n - 1).

(** ** Relocations *)

(** The global offset table: words up to -1, relocated in place. *)
Fixpoint got_loop (fuel : nat) (p : lib_info) (maps : list (Z * Z)) (m : memory) (rp : Z) : result (option memory) :=
  match fuel with
  | O => Fault Stuck
  | S fuel =>
      let* w := load32 maps m rp in
      if w =? 0xffffffff then Ok (Some m)
      else if w =? 0 then got_loop fuel p maps m (u32 (rp + 4))
      else
        let addr := calc_reloc w p in
        if addr =? RELOC_FAILED then Ok None
        else let* m := store32 maps m rp addr in got_loop fuel p maps m (u32 (rp + 4))
  end.

Definition reloc_one (p : lib_info) (maps : list (Z * Z)) (gotpic : bool) (m : memory) (reloc i : Z) : result (option memory) :=
  let* w := load32 maps m (u32 (reloc + 4 * i)) in
  let relval := ntohl w in
  let rp := calc_reloc relval p in
  if rp =? RELOC_FAILED then Ok None
  else
    let* addr := load32 maps m rp in
    if addr =? 0 then Ok (Some m)
    else
      let addr := if gotpic then addr else ntohl addr in
      let addr := calc_reloc addr p in
      if addr =? RELOC_FAILED then Ok None
      else let* m := store32 maps m rp addr in Ok (Some m).

(** [n] entries from the [i]th on. *)
Fixpoint reloc_loop (n : nat) (p : lib_info) (maps : list (Z * Z)) (gotpic : bool) (m : memory) (reloc i : Z) : result (option memory) :=
  match n with
  | O => Ok (Some m)
  | S n =>
      let* r := reloc_one p maps gotpic m reloc i in
      match r with None => Ok None | Some m => reloc_loop n p maps gotpic m reloc (i + 1) end
  end.

(** An entry of the old format: 30 bits of signed offset, two bits of type. *)
Definition old_offset (rl : Z) : Z := let o := rl mod 2 ^ 30 in if o <? 2 ^ 29 then o else o - 2 ^ 30.

Definition old_reloc (x : exec PS) (m : memory) (rl : Z) : result memory :=
  let ptr := u32 (x_start_data x + old_offset rl) in
  let ty := (rl .>> 30) .& 3 in
  let add v := let* w := load32 (x_maps x) m ptr in store32 (x_maps x) m ptr (u32 (w + v)) in
  if ty =? OLD_FLAT_RELOC_TYPE_TEXT then add (x_start_code x)
  else if ty =? OLD_FLAT_RELOC_TYPE_DATA then add (x_start_data x)
  else if ty =? OLD_FLAT_RELOC_TYPE_BSS then add (x_end_data x)
  else Ok m.

Fixpoint old_reloc_loop (n : nat) (x : exec PS) (m : memory) (reloc i : Z) : result memory :=
  match n with
  | O => Ok m
  | S n =>
      let* w := load32 (x_maps x) m (u32 (reloc + 4 * i)) in
      let* m := old_reloc x m (ntohl w) in
      old_reloc_loop n x m reloc (i + 1)
  end.

(** ** Loading *)

(** The checks of the header: an error or the flags to go by. *)
Definition check_hdr (b : linux_binprm) (data_len bss_len : Z) : Z + Z :=
  let hdr := read_hdr (b_buf b) in
  if negb (magic_ok (b_buf b)) then inl (- ENOEXEC)
  else if negb (h_rev hdr =? FLAT_VERSION) && negb (h_rev hdr =? OLD_FLAT_VERSION) then inl (- ENOEXEC)
  else
    let flags := if (h_rev hdr =? OLD_FLAT_VERSION) && negb (h_flags hdr =? 0) then FLAT_FLAG_RAM else h_flags hdr in
    if has flags (FLAT_FLAG_GZIP .| FLAT_FLAG_GZDATA) then inl (- ENOEXEC)
    else if rlim_data b <? u32 (data_len + bss_len) then inl (- ENOMEM)
    else if negb (flush_old_exec b =? 0) then inl (flush_old_exec b)
    else inr flags.

(** Where the parts of the program are. *)
Record placement := { textpos : Z; datapos : Z; reloc : Z; memp : Z; memp_size : Z }.

(** The text stays apart from the data ("ROM mapping"). *)
Definition load_rom (cur : Z) (b : linux_binprm) (hdr : flat_hdr) (data_len extra : Z) (relocs : Z) (r1 v1 r2 v2 : option Z) x :
    result (Z * exec PS + placement * exec PS) :=
  let tl := h_data_start hdr in
  let* (tp, x) := map_text cur b tl r1 v1 x in
  if tp <? 0 then Ok (inl (tp, x))
  else
    let len := PAGE_ALIGN (u32 (data_len + extra + MAX_SHARED_LIBS * 4)) in
    let* (real, x) := map_ram cur len r2 v2 x in
    if real <? 0 then let* x := unmap cur tp tl None None x in Ok (inl (real, x))
    else
      let dp := ALIGN (u32 (real + MAX_SHARED_LIBS * 4)) FLAT_DATA_ALIGN in
      let* (res, x) := read_into b dp (u32 (data_len + relocs * 4)) (h_data_start hdr) x in
      if res <? 0 then
        let* x := unmap cur tp tl None None x in
        let* x := unmap cur real (u32 (data_len + extra)) None None x in
        Ok (inl (res, x))
      else Ok (inr ({| textpos := tp; datapos := dp; reloc := u32 (dp + (h_reloc_start hdr - tl)); memp := real; memp_size := len |}, x)).

(** Everything in one block of memory. *)
Definition load_ram (cur : Z) (b : linux_binprm) (hdr : flat_hdr) (data_len extra : Z) (relocs : Z) (r1 v1 : option Z) x :
    result (Z * exec PS + placement * exec PS) :=
  let tl := h_data_start hdr in
  let len := PAGE_ALIGN (u32 (tl + data_len + extra + MAX_SHARED_LIBS * 4)) in
  let* (tp, x) := map_ram cur len r1 v1 x in
  if tp <? 0 then Ok (inl (tp, x))
  else
    let real := u32 (tp + h_data_start hdr) in
    let dp := ALIGN (u32 (real + MAX_SHARED_LIBS * 4)) FLAT_DATA_ALIGN in
    let* (res, x) := read_into b tp tl 0 x in
    let* (res, x) := if res <? 0 then Ok (res, x) else read_into b dp (u32 (data_len + relocs * 4)) (h_data_start hdr) x in
    if res <? 0 then
      let* x := unmap cur tp (u32 (tl + data_len + extra + MAX_SHARED_LIBS * 4)) None None x in
      Ok (inl (res, x))
    else Ok (inr ({| textpos := tp; datapos := dp; reloc := u32 (dp + (h_reloc_start hdr - tl)); memp := tp; memp_size := len |}, x)).

(** The [mm_struct] and the library table of the program. *)
Definition set_up (cur : Z) (hdr : flat_hdr) (data_len bss_len stack_len : Z) (pl : placement) x : result (lib_info * exec PS) :=
  let sc := u32 (textpos pl + HDR_SIZE) in
  let ec := u32 (textpos pl + h_data_start hdr) in
  let sb := u32 (datapos pl + data_len + bss_len) in
  let* m := deref (mms (x_mm x)) cur in
  let x := set_segments x sc ec (datapos pl) (u32 (datapos pl + data_len)) in
  let x := set_x_mm x (put_mm cur (set_brks m sb (u32 (sb + 3) .& .~ 3) (u32 (memp pl + memp_size pl - stack_len))) (x_mm x)) in
  Ok ({| start_code := sc; start_data := datapos pl; lib_start_brk := sb; text_len := u32 (h_data_start hdr - HDR_SIZE);
         entry := u32 ((h_entry hdr .& 0x00ffffff) + textpos pl); build_date := h_build_date hdr |}, x).

(** The relocations: [None] is -ENOEXEC. *)
Definition relocate (hdr : flat_hdr) (flags relocs : Z) (pl : placement) (p : lib_info) x : result (option memory) :=
  let gotpic := has flags FLAT_FLAG_GOTPIC in
  let* m := if gotpic then got_loop (Z.to_nat (memp_size pl)) p (x_maps x) (x_mem x) (datapos pl) else Ok (Some (x_mem x)) in
  match m with
  | None => Ok None
  | Some m =>
      if OLD_FLAT_VERSION <? h_rev hdr then reloc_loop (Z.to_nat relocs) p (x_maps x) gotpic m (reloc pl) 0
      else let* m := old_reloc_loop (Z.to_nat relocs) x m (reloc pl) 0 in Ok (Some m)
  end.

(** From the placement on: segments, relocations, and zeroes for bss, heap and stack. *)
Definition finish_load (cur : Z) (hdr : flat_hdr) (flags relocs data_len bss_len stack_len : Z) (pl : placement) x :
    result (Z * exec PS + lib_info * exec PS) :=
  let* (p, x) := set_up cur hdr data_len bss_len stack_len pl x in
  let* m := relocate hdr flags relocs pl p x in
  match m with
  | None => Ok (inl (- ENOEXEC, x))
  | Some m =>
      let a := u32 (datapos pl + data_len) in
      let n := u32 (bss_len + (memp pl + memp_size pl - stack_len - lib_start_brk p) + stack_len) in
      if in_maps (x_maps x) a n then Ok (inr (p, set_x_mem x (memset0 m a n))) else Fault BadIndex
  end.

(** The error, or the library table of the loaded program; with the stack size that is left to it. *)
Definition load_flat_file (cur : Z) (b : linux_binprm) (extra_stack : Z) (r1 v1 r2 v2 : option Z) x :
    result (Z * exec PS + (lib_info * Z) * exec PS) :=
  let hdr := read_hdr (b_buf b) in
  let data_len := u32 (h_data_end hdr - h_data_start hdr) in
  let bss_len := u32 (h_bss_end hdr - h_data_end hdr) in
  let stack_len := u32 (h_stack_size hdr + extra_stack) in
  let relocs := s32 (h_reloc_count hdr) in
  match check_hdr b data_len bss_len with
  | inl ret => Ok (inl (ret, x))
  | inr flags =>
      let extra := Z.max (u32 (bss_len + stack_len)) (u32 (relocs * 4)) in
      let* r := if has flags (FLAT_FLAG_RAM .| FLAT_FLAG_GZIP) then load_ram cur b hdr data_len extra relocs r1 v1 x
                else load_rom cur b hdr data_len extra relocs r1 v1 r2 v2 x in
      match r with
      | inl (ret, x) => Ok (inl (ret, x))
      | inr (pl, x) =>
          let* r := finish_load cur hdr flags relocs data_len bss_len stack_len pl x in
          Ok (match r with inl res => inl res | inr (p, x) => inr ((p, stack_len), x) end)
      end
  end.

(** ** Arguments *)

(** The end of the string at [p]: past its NUL. *)
Fixpoint skip_string (fuel : nat) (maps : list (Z * Z)) (m : memory) (p : Z) : result Z :=
  match fuel with
  | O => Fault Stuck
  | S fuel =>
      let* dummy := load8 maps m p in
      if dummy =? 0 then Ok (u32 (p + 1)) else skip_string fuel maps m (u32 (p + 1))
  end.

(** [while (argc-- > 0)]: the pointers to [n] strings, then the ends of the table and of the strings. *)
Fixpoint table_loop (n : nat) (maps : list (Z * Z)) (m : memory) (p argv : Z) : result (memory * Z * Z) :=
  match n with
  | O => Ok (m, p, argv)
  | S n =>
      let* m := store32 maps m argv p in
      let* p := skip_string (Z.to_nat (4096 * MAX_ARG_PAGES)) maps m p in
      table_loop n maps m p (u32 (argv + 4))
  end.

Definition create_flat_tables (pp : Z) (b : linux_binprm) x : result (exec PS) :=
  let maps := x_maps x in
  let sp := u32 (pp - 4 * (b_envc b + b_argc b + 2 + 1 + 2)) .& .~ (FLAT_DATA_ALIGN - 1) in
  let argv := u32 (sp + 4 * (1 + 2)) in
  let envp := u32 (argv + 4 * (b_argc b + 1)) in
  let* m := store32 maps (x_mem x) (u32 (sp + 8)) envp in
  let* m := store32 maps m (u32 (sp + 4)) argv in
  let* m := store32 maps m sp (u32 (b_argc b)) in
  let* (m, p, argv) := table_loop (Z.to_nat (b_argc b)) maps m pp argv in
  let* m := store32 maps m argv 0 in
  let arg_end := p in
  let* (m, p, envp) := table_loop (Z.to_nat (b_envc b)) maps m p envp in
  let* m := store32 maps m envp 0 in
  Ok (set_tables x m pp arg_end arg_end p sp).

(** [for (i = TOP_OF_ARGS - 1; i >= bprm->p; i--)]: the argument strings go below [p]. *)
Fixpoint copy_args (n : nat) (b : linux_binprm) (maps : list (Z * Z)) (m : memory) (i p : Z) : result (memory * Z) :=
  match n with
  | O => Ok (m, p)
  | S n =>
      let p := u32 (p - 1) in
      let* m := store8 maps m p (b_args b i) in
      copy_args n b maps m (i - 1) p
  end.

(** The pointer to the data below them, the strings, and the tables. *)
Definition start_stack (cur : Z) (b : linux_binprm) (p : lib_info) (stack_len : Z) x : result (exec PS) :=
  let* m := store32 (x_maps x) (x_mem x) (u32 (start_data p - 4)) (start_data p) in
  let* mst := deref (mms (x_mm x)) cur in
  let top := u32 ((u32 (end_brk mst + stack_len + 3) .& .~ 3) - 4) in
  let* (m, top) := copy_args (Z.to_nat (TOP_OF_ARGS - b_p b)) b (x_maps x) m (TOP_OF_ARGS - 1) top in
  create_flat_tables top b (set_x_mem x m).

(** The entry point and the stack pointer are what [start_thread] gets. *)
Definition load_flat_binary (cur : Z) (b : linux_binprm) (r1 v1 r2 v2 : option Z) x : result (Z * exec PS + (Z * Z) * exec PS) :=
  let stack_len := u32 (TOP_OF_ARGS - b_p b) in
  let stack_len := u32 (stack_len + (b_argc b + 1) * 4) in
  let stack_len := u32 (stack_len + (b_envc b + 1) * 4) in
  let stack_len := u32 (stack_len + (FLAT_DATA_ALIGN - 1)) in
  let* r := load_flat_file cur b stack_len r1 v1 r2 v2 x in
  match r with
  | inl res => Ok (inl res)
  | inr ((p, stack_len), x) =>
      let* x := start_stack cur b p stack_len x in
      Ok (inr ((entry p, x_start_stack x), x))
  end.

End Exec.
