(* ===== verification/FlatLib.v ===== *)
(** * The loader of flat executables: memory, words and strings

    What a store leaves unchanged, words read back, zero-terminated strings and tables of
    words in the memory of a program. *)

From stdpp Require Import gmap.
From S2P Require Import Prelude PageAlloc Buddy BuddyAlloc Pcp PageOps PageSource Nommu Flat.

(** ** Bytes and words *)

Definition is_byte (b : Z) : Prop := 0 <= b < 256.

Definition bytes (m : memory) : Prop := forall a, is_byte (m a).

Implicit Types (m : memory) (a w n : Z) (l : list Z).

Create HintDb flat.

Lemma put_word_out m a w x : x < a \/ a + 4 <= x -> put_word m a w x = m x.
Proof. intros Hx. unfold put_word. zbool; lia. Qed.

Lemma put_word_bytes m a w : bytes m -> bytes (put_word m a w).
Proof. intros Hm x. unfold put_word. specialize (Hm x). unfold is_byte in *. zbool; zdiv. Qed.

Lemma get_put_same m a w : is_u32 w -> get_word (put_word m a w) a = w.
Proof.
  intros [Hw0 Hw]. unfold get_word, put_word. rewrite Z.eqb_refl.
  rewrite (proj2 (Z.eqb_neq (a + 1) a)), (proj2 (Z.eqb_neq (a + 2) a)), (proj2 (Z.eqb_neq (a + 3) a)) by lia.
  rewrite (proj2 (Z.eqb_neq (a + 2) (a + 1))), (proj2 (Z.eqb_neq (a + 3) (a + 1))), (proj2 (Z.eqb_neq (a + 3) (a + 2))) by lia.
  rewrite !Z.eqb_refl. zdiv.
Qed.

(** Memories that agree on the four bytes. *)
Lemma get_word_ext m m' a : (forall x, a <= x < a + 4 -> m x = m' x) -> get_word m a = get_word m' a.
Proof. intros E. unfold get_word. now rewrite !E by lia. Qed.

Lemma get_put_ne m a w a' : a' + 4 <= a \/ a + 4 <= a' -> get_word (put_word m a w) a' = get_word m a'.
Proof. intros Hd. apply get_word_ext. intros x Hx. apply put_word_out. lia. Qed.

Lemma get_word_range m a : bytes m -> is_u32 (get_word m a).
Proof.
  intros Hm. pose proof (Hm a). pose proof (Hm (a + 1)). pose proof (Hm (a + 2)). pose proof (Hm (a + 3)).
  unfold get_word, fits, is_byte in *. lia.
Qed.

Lemma write_bytes_in m a l x : a <= x < a + Z.of_nat (length l) -> write_bytes m a l x = nth (Z.to_nat (x - a)) l 0.
Proof. intros Hx. unfold write_bytes. zbool; try lia. reflexivity. Qed.

Lemma write_bytes_out m a l x : x < a \/ a + Z.of_nat (length l) <= x -> write_bytes m a l x = m x.
Proof. intros Hx. unfold write_bytes. zbool; try lia; reflexivity. Qed.

Lemma write_bytes_bytes m a l : bytes m -> Forall is_byte l -> bytes (write_bytes m a l).
Proof.
  intros Hm Hl x. destruct (decide (a <= x < a + Z.of_nat (length l))) as [Hx|Hx].
  - rewrite write_bytes_in by exact Hx. apply Forall_nth; [exact Hl|lia].
  - rewrite write_bytes_out by lia. apply Hm.
Qed.

Lemma memset0_in m a n x : a <= x < a + n -> memset0 m a n x = 0.
Proof. intros Hx. unfold memset0. zbool; try lia. reflexivity. Qed.

Lemma memset0_out m a n x : x < a \/ a + n <= x -> memset0 m a n x = m x.
Proof. intros Hx. unfold memset0. zbool; try lia; reflexivity. Qed.

Lemma memset0_bytes m a n : bytes m -> bytes (memset0 m a n).
Proof. intros Hm x. specialize (Hm x). unfold memset0, is_byte in *. destruct (_ && _); lia. Qed.

Lemma set_byte_out m a v x : x <> a -> set_byte m a v x = m x.
Proof. intros Hx. unfold set_byte. zbool; [contradiction|reflexivity]. Qed.

Lemma set_byte_same m a v : set_byte m a v a = v.
Proof. unfold set_byte. now rewrite Z.eqb_refl. Qed.

Lemma set_byte_bytes m a v : bytes m -> is_byte v -> bytes (set_byte m a v).
Proof. intros Hm Hv x. unfold set_byte. destruct (x =? a); [exact Hv|apply Hm]. Qed.

#[export] Hint Resolve put_word_bytes write_bytes_bytes memset0_bytes set_byte_bytes get_word_range : flat.

(** The bytes of a word. *)
Lemma word_bytes b0 b1 b2 b3 (w := b0 + 256 * b1 + 65536 * b2 + 16777216 * b3) :
  is_byte b0 -> is_byte b1 -> is_byte b2 -> is_byte b3 ->
  w mod 256 = b0 /\ w / 256 mod 256 = b1 /\ w / 65536 mod 256 = b2 /\ w / 16777216 mod 256 = b3.
Proof.
  unfold is_byte. intros H0 H1 H2 H3.
  assert (E1 : w / 256 = b1 + 256 * b2 + 65536 * b3) by (subst w; symmetry; apply Z.div_unique with b0; lia).
  assert (E2 : w / 65536 = b2 + 256 * b3) by (subst w; symmetry; apply Z.div_unique with (b0 + 256 * b1); lia).
  assert (E3 : w / 16777216 = b3) by (subst w; symmetry; apply Z.div_unique with (b0 + 256 * b1 + 65536 * b2); lia).
  rewrite E1, E2, E3. split_and!; symmetry.
  - apply Z.mod_unique with (b1 + 256 * b2 + 65536 * b3); subst w; lia.
  - apply Z.mod_unique with (b2 + 256 * b3); lia.
  - apply Z.mod_unique with b3; lia.
  - apply Z.mod_unique with 0; lia.
Qed.

Lemma ntohl_bytes b0 b1 b2 b3 : is_byte b0 -> is_byte b1 -> is_byte b2 -> is_byte b3 ->
  ntohl (b0 + 256 * b1 + 65536 * b2 + 16777216 * b3) = b3 + 256 * b2 + 65536 * b1 + 16777216 * b0.
Proof. intros H0 H1 H2 H3. destruct (word_bytes b0 b1 b2 b3 H0 H1 H2 H3) as (E0 & E1 & E2 & E3). unfold ntohl. rewrite E0, E1, E2, E3. lia. Qed.

Lemma bytes_of_word w : is_u32 w -> exists b0 b1 b2 b3, is_byte b0 /\ is_byte b1 /\ is_byte b2 /\ is_byte b3
  /\ w = b0 + 256 * b1 + 65536 * b2 + 16777216 * b3.
Proof.
  intros [H0 H1]. change (2 ^ 32) with 4294967296 in H1. exists (w mod 256), (w / 256 mod 256), (w / 65536 mod 256), (w / 16777216).
  assert (E2 : w / 65536 = w / 256 / 256) by now rewrite Z.div_div by lia.
  assert (E3 : w / 16777216 = w / 256 / 256 / 256) by now rewrite !Z.div_div by lia.
  rewrite E2, E3. unfold is_byte. clear E2 E3. remember (w / 256) as x eqn:Ex. remember (x / 256) as y eqn:Ey. zdiv.
Qed.

(** Swapping twice. *)
Lemma ntohl_range w : is_u32 (ntohl w).
Proof.
  unfold ntohl, fits. pose proof (Z.mod_pos_bound w 256). pose proof (Z.mod_pos_bound (w / 256) 256).
  pose proof (Z.mod_pos_bound (w / 65536) 256). pose proof (Z.mod_pos_bound (w / 16777216) 256). lia.
Qed.

Lemma ntohl_involutive w : is_u32 w -> ntohl (ntohl w) = w.
Proof. intros (b0 & b1 & b2 & b3 & H0 & H1 & H2 & H3 & ->)%bytes_of_word. rewrite (ntohl_bytes b0 b1 b2 b3), ntohl_bytes by assumption. lia. Qed.

(** ** Accesses *)

Lemma in_maps_elem maps s k a n : (s, k) ∈ maps -> s <= a -> a + n <= s + k -> in_maps maps a n = true.
Proof.
  intros Hin Ha Hb. unfold in_maps. apply existsb_exists. exists (s, k). split; [now apply list_elem_of_In|].
  apply andb_true_iff. split; lia.
Qed.

Lemma in_maps_false maps a n : (forall s k, (s, k) ∈ maps -> ~ (s <= a /\ a + n <= s + k)) -> in_maps maps a n = false.
Proof.
  intros Hn. apply not_true_iff_false. intros ((s & k) & Hin & Hb)%existsb_exists. apply (Hn s k); [now apply list_elem_of_In|].
  apply andb_true_iff in Hb. lia.
Qed.

(** The range [lo, hi) of addresses is mapped. *)
Definition usable (maps : list (Z * Z)) (lo hi : Z) : Prop := exists s k, (s, k) ∈ maps /\ 0 <= s <= lo /\ hi <= s + k /\ s + k < 2 ^ 32.

Lemma usable_in maps lo hi a n : usable maps lo hi -> lo <= a -> a + n <= hi -> in_maps maps a n = true.
Proof. intros (s & k & Hin & Hs & Hk & _) Ha Hn. apply (in_maps_elem _ s k); [exact Hin|lia..]. Qed.

Lemma usable_range maps lo hi : usable maps lo hi -> 0 <= lo /\ hi < 2 ^ 32.
Proof. intros (s & k & _ & Hs & Hk & Hw). lia. Qed.

Lemma usable_sub maps lo hi lo' hi' : usable maps lo hi -> lo <= lo' -> hi' <= hi -> usable maps lo' hi'.
Proof. intros (s & k & Hin & Hs & Hk & Hw) Hl Hh. exists s, k. split_and!; try assumption; lia. Qed.

Lemma store32_ok maps m lo hi a w : usable maps lo hi -> lo <= a -> a + 4 <= hi -> store32 maps m a w = Ok (put_word m a w).
Proof. intros Hu Ha Hb. unfold store32. now rewrite (usable_in maps lo hi). Qed.

Lemma load32_ok maps m lo hi a : usable maps lo hi -> lo <= a -> a + 4 <= hi -> load32 maps m a = Ok (get_word m a).
Proof. intros Hu Ha Hb. unfold load32. now rewrite (usable_in maps lo hi). Qed.

Lemma load8_ok maps m lo hi a : usable maps lo hi -> lo <= a -> a + 1 <= hi -> load8 maps m a = Ok (m a).
Proof. intros Hu Ha Hb. unfold load8. now rewrite (usable_in maps lo hi). Qed.

Lemma store8_ok maps m lo hi a v : usable maps lo hi -> lo <= a -> a + 1 <= hi -> store8 maps m a v = Ok (set_byte m a v).
Proof. intros Hu Ha Hb. unfold store8. now rewrite (usable_in maps lo hi). Qed.

(** ** Strings and tables *)

(** A zero-terminated string. *)
Fixpoint cstr m a l : Prop :=
  match l with
  | [] => m a = 0
  | c :: l => c <> 0 /\ m a = c /\ cstr m (a + 1) l
  end.

Definition str_size l : Z := Z.of_nat (length l) + 1.

Definition strs_size (ss : list (list Z)) : Z := foldr (fun s n => str_size s + n) 0 ss.

(** Strings one after the other. *)
Fixpoint cstrs m a (ss : list (list Z)) : Prop :=
  match ss with
  | [] => True
  | s :: ss => cstr m a s /\ cstrs m (a + str_size s) ss
  end.

Fixpoint str_addrs a (ss : list (list Z)) : list Z :=
  match ss with
  | [] => []
  | s :: ss => a :: str_addrs (a + str_size s) ss
  end.

(** A table of words. *)
Fixpoint words m a l : Prop :=
  match l with
  | [] => True
  | w :: l => get_word m a = w /\ words m (a + 4) l
  end.

Lemma strs_size_nonneg ss : 0 <= strs_size ss.
Proof. induction ss as [|s ss IH]; cbn; [lia|]. fold (strs_size ss). unfold str_size. lia. Qed.

Lemma strs_size_app ss ss' : strs_size (ss ++ ss') = strs_size ss + strs_size ss'.
Proof. induction ss as [|s ss IH]; [reflexivity|]. cbn [strs_size foldr app]. fold (strs_size (ss ++ ss')). fold (strs_size ss). lia. Qed.

Lemma str_addrs_length a ss : length (str_addrs a ss) = length ss.
Proof. revert a. induction ss as [|s ss IH]; intros a; cbn; [reflexivity|now rewrite IH]. Qed.

Lemma cstr_ext m m' a l : (forall x, a <= x < a + str_size l -> m x = m' x) -> cstr m a l -> cstr m' a l.
Proof.
  revert a. induction l as [|c l IH]; intros a E; cbn.
  - intros <-. symmetry. apply E. unfold str_size. cbn. lia.
  - intros (Hc & Hm & Hl). split; [exact Hc|]. split; [rewrite <- Hm; symmetry; apply E; unfold str_size; lia|].
    apply IH; [|exact Hl]. intros x Hx. apply E. unfold str_size in *. cbn [length]. lia.
Qed.

Lemma cstrs_ext m m' a ss : (forall x, a <= x < a + strs_size ss -> m x = m' x) -> cstrs m a ss -> cstrs m' a ss.
Proof.
  revert a. induction ss as [|s ss IH]; intros a E; cbn; [trivial|]. fold (strs_size ss) in E. cbn [strs_size foldr] in E. fold (strs_size ss) in E.
  pose proof (strs_size_nonneg ss). intros [Hs Hss]. split.
  - apply (cstr_ext m); [|exact Hs]. intros x Hx. apply E. lia.
  - apply IH; [|exact Hss]. intros x Hx. apply E. unfold str_size in *. lia.
Qed.

Lemma cstrs_app m a ss ss' : cstrs m a (ss ++ ss') <-> cstrs m a ss /\ cstrs m (a + strs_size ss) ss'.
Proof.
  revert a. induction ss as [|s ss IH]; intros a; cbn [app cstrs strs_size foldr]; [rewrite Z.add_0_r; tauto|].
  fold (strs_size ss). rewrite IH, Z.add_assoc. tauto.
Qed.

Lemma words_ext m m' a l : (forall x, a <= x < a + 4 * Z.of_nat (length l) -> m x = m' x) -> words m a l -> words m' a l.
Proof.
  revert a. induction l as [|w l IH]; intros a E; cbn [words]; [trivial|]. cbn [length] in E. intros [Hw Hl]. split.
  - rewrite <- Hw. symmetry. apply get_word_ext. intros x Hx. apply E. lia.
  - apply IH; [|exact Hl]. intros x Hx. apply E. lia.
Qed.

Lemma words_app m a l l' : words m a (l ++ l') <-> words m a l /\ words m (a + 4 * Z.of_nat (length l)) l'.
Proof.
  revert a. induction l as [|w l IH]; intros a; cbn [app words length]; [rewrite Z.mul_0_r, Z.add_0_r; tauto|].
  rewrite IH. replace (a + 4 + 4 * Z.of_nat (length l)) with (a + 4 * Z.of_nat (S (length l))) by lia. tauto.
Qed.

(** A table of addresses is a table of words. *)
Lemma words_put m a w l : is_u32 w -> words m (a + 4) l -> words (put_word m a w) a (w :: l).
Proof.
  intros Hw Hl. split; [now apply get_put_same|]. apply (words_ext m); [|exact Hl]. intros x Hx. symmetry. apply put_word_out. lia.
Qed.

Lemma words_move m m' a d l : (forall x, a <= x < a + 4 * Z.of_nat (length l) -> m' (x + d) = m x) -> words m a l -> words m' (a + d) l.
Proof.
  revert a. induction l as [|w l IH]; intros a E; cbn [words]; [trivial|]. cbn [length] in E. intros [Hw Hl]. split.
  - rewrite <- Hw. unfold get_word. replace (a + d + 1) with (a + 1 + d) by lia. replace (a + d + 2) with (a + 2 + d) by lia.
    replace (a + d + 3) with (a + 3 + d) by lia. now rewrite !E by lia.
  - replace (a + d + 4) with (a + 4 + d) by lia. apply IH; [|exact Hl]. intros x Hx. apply E. lia.
Qed.

(** ** Alignment *)

Lemma align_down_pow k x : 0 <= k <= 32 -> is_u32 x -> (x .& .~ (2 ^ k - 1)) = 2 ^ k * (x / 2 ^ k).
Proof.
  intros Hk Hx. replace (2 ^ k - 1) with (Z.ones k) by (rewrite Z.ones_equiv; lia).
  replace (2 ^ k * (x / 2 ^ k)) with (Z.shiftl (Z.shiftr x k) k) by (rewrite Z.shiftl_mul_pow2, Z.shiftr_div_pow2 by lia; lia).
  apply Z.bits_inj'. intros i Hi. rewrite Z.land_spec, testbit_not32, Z.testbit_ones, Z.shiftl_spec by lia.
  destruct (Z.ltb_spec i k) as [H1|H1].
  - rewrite (Z.testbit_neg_r _ (i - k)) by lia. rewrite (proj2 (Z.leb_le 0 i)), (proj2 (Z.ltb_lt i 32)) by lia. apply andb_false_r.
  - rewrite Z.shiftr_spec by lia. replace (i - k + k) with i by lia. rewrite (proj2 (Z.leb_le 0 i)) by lia. cbn [andb xorb].
    destruct (Z.ltb_spec i 32); [apply andb_true_r|]. now rewrite (fits_testbit_high 32 x i) by (auto; lia).
Qed.

Lemma align_down8 x : is_u32 x -> (x .& .~ (FLAT_DATA_ALIGN - 1)) = 8 * (x / 8).
Proof. intros Hx. exact (align_down_pow 3 x ltac:(lia) Hx). Qed.

Lemma align_down4 x : is_u32 x -> (x .& .~ 3) = 4 * (x / 4).
Proof. intros Hx. exact (align_down_pow 2 x ltac:(lia) Hx). Qed.
