(* ===== verification/FlatTables.v ===== *)
(** * The loader of flat executables: arguments

    The strings copied below the top of the stack and the tables of pointers to them. *)

From stdpp Require Import gmap.
From S2P Require Import Prelude PageAlloc Buddy BuddyAlloc Pcp PageOps PageSource Nommu Flat FlatLib.

(** ** The tables *)

Definition MAX_STRING : Z := 4096 * MAX_ARG_PAGES.

Section Tables.

Context (maps : list (Z * Z)) (lo hi : Z) (Hu : usable maps lo hi).

Implicit Types (m : memory) (l : list Z) (ss : list (list Z)).

Lemma skip_string_ok m l fuel p :
  cstr m p l -> lo <= p -> p + str_size l <= hi -> str_size l <= Z.of_nat fuel -> skip_string fuel maps m p = Ok (p + str_size l).
Proof.
  destruct (usable_range _ _ _ Hu) as [Hlo Hhi]. revert p l. unfold str_size.
  induction fuel as [|fuel IH]; intros p l Hl Hp Hh Hf; [lia|]. cbn [skip_string].
  rewrite (load8_ok maps m lo hi) by (auto; lia). cbn [rbind]. destruct l as [|c l]; cbn [cstr length] in *.
  - rewrite Hl. cbn. f_equal. apply u32_id. unfold fits. lia.
  - destruct Hl as (Hc & -> & Hl). rewrite (proj2 (Z.eqb_neq c 0) Hc), u32_id by (unfold fits; lia).
    rewrite (IH (p + 1) l Hl) by lia. f_equal. lia.
Qed.

Lemma table_loop_ok m ss p t :
  cstrs m p ss -> Forall (fun s => str_size s <= MAX_STRING) ss -> lo <= t -> t + 4 * Z.of_nat (length ss) <= p -> p + strs_size ss <= hi ->
  exists m', table_loop (length ss) maps m p t = Ok (m', p + strs_size ss, t + 4 * Z.of_nat (length ss))
    /\ words m' t (str_addrs p ss) /\ (forall x, x < t \/ t + 4 * Z.of_nat (length ss) <= x -> m' x = m x).
Proof.
  destruct (usable_range _ _ _ Hu) as [Hlo Hhi]. revert m p t.
  induction ss as [|s ss IH]; intros m p t Hs Hmax Ht Htp Hh; cbn [table_loop length str_addrs words strs_size foldr].
  - exists m. rewrite !Z.add_0_r. auto.
  - cbn [length strs_size foldr] in *. fold (strs_size ss) in *. pose proof (strs_size_nonneg ss) as Hpos. destruct Hs as [Hs Hss].
    apply Forall_cons in Hmax as [Hm1 Hmax]. assert (Hsz : 1 <= str_size s) by (unfold str_size; lia).
    rewrite (store32_ok maps m lo hi) by (auto; lia). cbn [rbind].
    assert (Hs' : cstr (put_word m t p) p s) by (apply (cstr_ext m); [|exact Hs]; intros x Hx; symmetry; apply put_word_out; lia).
    rewrite (skip_string_ok _ s) by first [exact Hs'|lia|unfold MAX_STRING, MAX_ARG_PAGES in *; lia].
    cbn [rbind]. rewrite u32_id by (unfold fits; lia).
    destruct (IH (put_word m t p) (p + str_size s) (t + 4)) as (m' & -> & Hw & Ho); try assumption; try lia.
    { apply (cstrs_ext m); [|exact Hss]. intros x Hx. symmetry. apply put_word_out. lia. }
    exists m'. replace (p + (str_size s + strs_size ss)) with (p + str_size s + strs_size ss) by lia.
    replace (t + 4 * Z.of_nat (S (length ss))) with (t + 4 + 4 * Z.of_nat (length ss)) by lia. split; [reflexivity|]. split.
    + split; [|exact Hw]. rewrite <- (get_put_same m t p) by (unfold fits; lia). apply get_word_ext. intros x Hx. apply Ho. lia.
    + intros x Hx. rewrite Ho by lia. apply put_word_out. lia.
Qed.

End Tables.

(** The stack pointer for [n] strings at [pp]: a count, two pointers, and two tables with a NULL at their end. *)
Definition stack_top (pp n : Z) : Z := 8 * ((pp - 4 * (n + 5)) / 8).

Section Create.

Context {PS : Type} `{PageSource PS}.
Implicit Type x : exec PS.

(** What [create_flat_tables] leaves at [sp]. *)
Definition stack_words (pp sp : Z) (args envs : list (list Z)) : list Z :=
  let argc := Z.of_nat (length args) in
  let envp := sp + 12 + 4 * (argc + 1) in
  [argc; sp + 12; envp] ++ str_addrs pp args ++ [0] ++ str_addrs (pp + strs_size args) envs ++ [0].

Lemma create_flat_tables_ok pp b x args envs lo hi :
  cstrs (x_mem x) pp (args ++ envs) -> Forall (fun s => str_size s <= MAX_STRING) (args ++ envs) ->
  b_argc b = Z.of_nat (length args) -> b_envc b = Z.of_nat (length envs) ->
  let sp := stack_top pp (Z.of_nat (length (args ++ envs))) in
  usable (x_maps x) lo hi -> lo <= sp -> pp + strs_size (args ++ envs) <= hi ->
  exists m', create_flat_tables pp b x = Ok (set_tables x m' pp (pp + strs_size args) (pp + strs_size args) (pp + strs_size (args ++ envs)) sp)
    /\ sp mod 8 = 0 /\ words m' sp (stack_words pp sp args envs) /\ (forall a, a < sp \/ pp <= a -> m' a = x_mem x a).
Proof.
  intros Hs Hmax Ea Ee sp Hu Hlo Hhi. destruct (usable_range _ _ _ Hu) as [Hl0 Hh0]. apply Forall_app in Hmax as [Hma Hme].
  apply cstrs_app in Hs as [Hsa Hse]. rewrite strs_size_app in *. pose proof (strs_size_nonneg args) as Hpa. pose proof (strs_size_nonneg envs) as Hpe.
  set (na := Z.of_nat (length args)) in *. set (ne := Z.of_nat (length envs)) in *.
  assert (Esp : sp = 8 * ((pp - 4 * (na + ne + 5)) / 8)) by (unfold sp, stack_top, na, ne; now rewrite length_app, Nat2Z.inj_add). clearbody sp.
  assert (Hna : 0 <= na) by lia. assert (Hne : 0 <= ne) by lia. assert (Hsp : sp + 4 * (na + ne + 5) <= pp) by (subst sp; zdiv).
  unfold create_flat_tables. rewrite Ea, Ee.
  replace (pp - 4 * (ne + na + 2 + 1 + 2)) with (pp - 4 * (na + ne + 5)) by lia.
  rewrite (u32_id (pp - _)) by (unfold fits; lia). rewrite align_down8 by (unfold fits; lia). rewrite <- Esp.
  assert (Hid : forall y, sp <= y <= pp -> u32 y = y) by (intros y Hy; apply u32_id; unfold fits; lia).
  replace (4 * (1 + 2)) with 12 by lia. rewrite (Hid (sp + 12)), (Hid (sp + 12 + 4 * (na + 1))), (Hid (sp + 8)), (Hid (sp + 4)) by lia.
  rewrite (u32_id na) by (unfold fits; lia).
  rewrite !(store32_ok _ _ lo hi) by (auto; lia). cbn [rbind]. rewrite (store32_ok _ _ lo hi) by (auto; lia). cbn [rbind].
  rewrite (store32_ok _ _ lo hi) by (auto; lia). cbn [rbind].
  set (m0 := put_word (put_word (put_word (x_mem x) (sp + 8) (sp + 12 + 4 * (na + 1))) (sp + 4) (sp + 12)) sp na).
  assert (Ho0 : forall a, a < sp \/ sp + 12 <= a -> m0 a = x_mem x a) by (intros a Ha; unfold m0; rewrite !put_word_out by lia; reflexivity).
  unfold na at 1. rewrite Nat2Z.id.
  destruct (table_loop_ok (x_maps x) lo hi Hu m0 args pp (sp + 12)) as (m1 & -> & Hw1 & Ho1); try assumption; try (fold na; lia).
  { apply (cstrs_ext (x_mem x)); [|exact Hsa]. intros a Ha. symmetry. apply Ho0. lia. }
  cbn [rbind]. fold na. rewrite (store32_ok _ _ lo hi) by (auto; lia). cbn [rbind]. unfold ne at 1. rewrite Nat2Z.id.
  set (m2 := put_word m1 (sp + 12 + 4 * na) 0). fold na in Ho1.
  assert (Ho2 : forall a, a < sp \/ sp + 12 + 4 * (na + 1) <= a -> m2 a = x_mem x a).
  { intros a Ha. unfold m2. rewrite put_word_out by lia. rewrite Ho1 by lia. apply Ho0. lia. }
  destruct (table_loop_ok (x_maps x) lo hi Hu m2 envs (pp + strs_size args) (sp + 12 + 4 * (na + 1))) as (m3 & -> & Hw3 & Ho3);
    try assumption; try (fold ne; lia).
  { apply (cstrs_ext (x_mem x)); [|exact Hse]. intros a Ha. symmetry. apply Ho2. lia. }
  cbn [rbind]. fold ne. fold ne in Ho3. rewrite (store32_ok _ _ lo hi) by (auto; lia). cbn [rbind].
  set (m4 := put_word m3 (sp + 12 + 4 * (na + 1) + 4 * ne) 0).
  assert (Ho4 : forall a, a < sp + 12 + 4 * (na + 1) \/ sp + 12 + 4 * (na + 1) + 4 * ne + 4 <= a -> m4 a = m2 a).
  { intros a Ha. unfold m4. rewrite put_word_out by lia. apply Ho3. lia. }
  exists m4. split; [now rewrite Z.add_assoc|]. split; [subst sp; zdiv|]. split.
  - unfold stack_words. fold na. rewrite !words_app. rewrite !str_addrs_length. fold na ne. cbn [length].
    replace (sp + 4 * Z.of_nat 3) with (sp + 12) by lia. replace (sp + 12 + 4 * na + 4 * Z.of_nat 1) with (sp + 12 + 4 * (na + 1)) by lia.
    split_and!.
    + apply (words_ext m0); [|apply words_put; [unfold fits; lia|]; apply words_put; [unfold fits; lia|];
        replace (sp + 4 + 4) with (sp + 8) by lia; apply words_put; [unfold fits; lia|exact I]].
      cbn [length]. intros a Ha. rewrite Ho4 by lia. unfold m2. rewrite put_word_out by lia. symmetry. apply Ho1. lia.
    + apply (words_ext m1); [|exact Hw1]. rewrite str_addrs_length. fold na. intros a Ha. rewrite Ho4 by lia. unfold m2.
      symmetry. apply put_word_out. lia.
    + apply (words_ext m2); [|apply words_put; [unfold fits; lia|exact I]]. cbn [length]. intros a Ha. symmetry. apply Ho4. lia.
    + apply (words_ext m3); [|exact Hw3]. rewrite str_addrs_length. fold ne. intros a Ha. symmetry. apply put_word_out. lia.
    + apply words_put; [unfold fits; lia|exact I].
  - intros a Ha. rewrite Ho4 by lia. apply Ho2. lia.
Qed.

End Create.

(** ** The strings *)

(** [n] bytes, the last at [i], copied to below [p]. *)
Lemma copy_args_ok n b maps lo hi (m : memory) i p :
  usable maps lo hi -> lo <= p - Z.of_nat n -> p <= hi ->
  exists m', copy_args n b maps m i p = Ok (m', p - Z.of_nat n)
    /\ (forall a, p - Z.of_nat n <= a < p -> m' a = b_args b (i - (p - 1 - a))) /\ (forall a, a < p - Z.of_nat n \/ p <= a -> m' a = m a).
Proof.
  intros Hu. destruct (usable_range _ _ _ Hu) as [Hl Hh]. revert m i p.
  induction n as [|n IH]; intros m i p Hlo Hhi; cbn [copy_args].
  - exists m. rewrite Z.sub_0_r in *. split; [reflexivity|]. split; [intros a Ha; lia|reflexivity].
  - rewrite (u32_id (p - 1)) by (unfold fits; lia). rewrite (store8_ok maps m lo hi) by (auto; lia). cbn [rbind].
    destruct (IH (set_byte m (p - 1) (b_args b i)) (i - 1) (p - 1)) as (m' & -> & Hin & Hout); [lia..|].
    exists m'. replace (p - 1 - Z.of_nat n) with (p - Z.of_nat (S n)) in * by lia. split; [reflexivity|]. split; intros a Ha.
    + destruct (decide (a = p - 1)) as [->|Hne].
      * rewrite Hout by lia. rewrite set_byte_same. f_equal. lia.
      * rewrite Hin by lia. f_equal. lia.
    + rewrite Hout by lia. apply set_byte_out. lia.
Qed.

(** Strings keep their meaning when they are moved. *)
Lemma cstr_move (m m' : memory) a d l : (forall x, a <= x < a + str_size l -> m' (x + d) = m x) -> cstr m a l -> cstr m' (a + d) l.
Proof.
  revert a. induction l as [|c l IH]; intros a E; cbn [cstr]; unfold str_size in E; cbn [length] in E.
  - intros <-. apply E. lia.
  - intros (Hc & Hm & Hl). split; [exact Hc|]. split; [rewrite <- Hm; apply E; lia|].
    replace (a + d + 1) with (a + 1 + d) by lia. apply IH; [|exact Hl]. intros x Hx. apply E. unfold str_size in Hx. lia.
Qed.

Lemma cstrs_move (m m' : memory) a d ss : (forall x, a <= x < a + strs_size ss -> m' (x + d) = m x) -> cstrs m a ss -> cstrs m' (a + d) ss.
Proof.
  revert a. induction ss as [|s ss IH]; intros a E; cbn [cstrs]; [trivial|]. cbn [strs_size foldr] in E. fold (strs_size ss) in E.
  pose proof (strs_size_nonneg ss). intros [Hs Hss]. split.
  - apply (cstr_move m); [|exact Hs]. intros x Hx. apply E. lia.
  - replace (a + d + str_size s) with (a + str_size s + d) by lia. apply IH; [|exact Hss]. intros x Hx. apply E. unfold str_size in *. lia.
Qed.
