(* ===== verification/FlatReloc.v ===== *)
(** * The loader of flat executables: relocation

    A relocation entry is an offset into the image of a word that holds an offset into
    the image.  Relocating maps both to where the segments were loaded. *)

From stdpp Require Import gmap sorting.
From S2P Require Import Prelude PageAlloc Buddy BuddyAlloc Pcp PageOps PageSource Nommu Flat FlatLib.

(** ** Where an offset into the image is at run time *)

Definition prog_size (p : lib_info) : Z := lib_start_brk p - start_data p + text_len p.

Definition run (p : lib_info) (r : Z) : Z := if r <? text_len p then start_code p + r else start_data p + (r - text_len p).

(** Segments that do not wrap and do not reach the error value. *)
Record lib_ok (p : lib_info) : Prop := {
  lo_text : 0 <= text_len p;
  lo_code : 0 <= start_code p;
  lo_code_end : start_code p + text_len p <= RELOC_FAILED;
  lo_data : 0 <= start_data p <= lib_start_brk p;
  lo_brk : lib_start_brk p < RELOC_FAILED;
  lo_size : prog_size p < 2 ^ 32
}.

Lemma calc_reloc_ok p r : lib_ok p -> 0 <= r <= prog_size p -> calc_reloc r p = run p r /\ run p r <> RELOC_FAILED.
Proof.
  intros [H1 H2 H3 H4 H5 H6] Hr. unfold calc_reloc, run, prog_size, RELOC_FAILED in *.
  rewrite (u32_id (lib_start_brk p - start_data p + text_len p)) by (unfold fits; lia). rewrite (proj2 (Z.leb_le r _)) by lia.
  destruct (Z.ltb_spec r (text_len p)); rewrite u32_id by (unfold fits; lia); lia.
Qed.

Lemma calc_reloc_bad p r : lib_ok p -> prog_size p < r -> calc_reloc r p = RELOC_FAILED.
Proof.
  intros [H1 H2 H3 H4 H5 H6] Hr. unfold calc_reloc, prog_size in *.
  rewrite (u32_id (lib_start_brk p - start_data p + text_len p)) by (unfold fits; lia). now rewrite (proj2 (Z.leb_gt r _)) by lia.
Qed.

(** ** The relocation entries *)

(** The offset in a word: entries in the image are big-endian, those of position-independent code are not. *)
Definition offset_of (gotpic : bool) (w : Z) : Z := if gotpic then w else ntohl w.

(** A relocated word; zero stays zero. *)
Definition reloc_word (p : lib_info) (gotpic : bool) (w : Z) : Z := if w =? 0 then 0 else run p (offset_of gotpic w).

(** What makes the loader refuse an entry. *)
Definition bad_entry (p : lib_info) (gotpic : bool) (m : memory) (e : Z) : Prop :=
  prog_size p < e \/ (get_word m (run p e) <> 0 /\ prog_size p < offset_of gotpic (get_word m (run p e))).

(** Two words that do not overlap. *)
Definition apart (a b : Z) : Prop := a + 4 <= b \/ b + 4 <= a.

Definition relocated (p : lib_info) (gotpic : bool) (es : list Z) (m m' : memory) : Prop :=
  (forall e, e ∈ es -> get_word m' (run p e) = reloc_word p gotpic (get_word m (run p e)))
  /\ (forall x, (forall e, e ∈ es -> ~ (run p e <= x < run p e + 4)) -> m' x = m x).

Lemma apart_word (m : memory) a b w : apart a b -> get_word (put_word m a w) b = get_word m b.
Proof. intros Ha. apply get_put_ne. unfold apart in Ha. lia. Qed.

Section Relocate.

Context (p : lib_info) (Hp : lib_ok p) (maps : list (Z * Z)) (gotpic : bool).

Implicit Types (m : memory) (es : list Z).

Lemma reloc_word_range m a : bytes m -> get_word m a = 0 \/ offset_of gotpic (get_word m a) <= prog_size p ->
  is_u32 (reloc_word p gotpic (get_word m a)).
Proof.
  intros Hm Hv. unfold reloc_word. destruct (Z.eqb_spec (get_word m a) 0) as [|Hne]; [unfold fits; lia|]. destruct Hv as [|Hv]; [contradiction|].
  assert (0 <= offset_of gotpic (get_word m a)).
  { unfold offset_of. destruct gotpic; [pose proof (get_word_range m a Hm) as []; lia|apply (ntohl_range (get_word m a))]. }
  destruct Hp as [H1 H2 H3 H4 H5 H6]. unfold run, prog_size, fits, RELOC_FAILED in *. destruct (Z.ltb_spec (offset_of gotpic (get_word m a)) (text_len p)); lia.
Qed.

(** One entry. *)
Lemma reloc_one_ok m reloc i e :
  bytes m -> is_u32 e -> (e <= prog_size p -> in_maps maps (run p e) 4 = true) ->
  in_maps maps (reloc + 4 * i) 4 = true -> is_u32 (reloc + 4 * i) -> get_word m (reloc + 4 * i) = ntohl e ->
  exists r, reloc_one p maps gotpic m reloc i = Ok r
    /\ match r with
       | Some m' => ~ bad_entry p gotpic m e
           /\ (m' = m /\ get_word m (run p e) = 0 \/ m' = put_word m (run p e) (reloc_word p gotpic (get_word m (run p e))))
       | None => bad_entry p gotpic m e
       end.
Proof.
  intros Hm He Hin Ht Htr Hw. unfold reloc_one. rewrite (u32_id (reloc + 4 * i)) by exact Htr. unfold load32 at 1. rewrite Ht. cbn [rbind].
  rewrite Hw, ntohl_involutive by exact He. unfold bad_entry. destruct (Z.leb_spec e (prog_size p)) as [Hle|Hgt].
  2: { rewrite calc_reloc_bad by auto. rewrite Z.eqb_refl. exists None. auto. }
  destruct (calc_reloc_ok p e Hp) as [-> Hne]; [destruct He; lia|]. rewrite (proj2 (Z.eqb_neq _ _) Hne). unfold load32. rewrite (Hin Hle). cbn [rbind].
  set (w := get_word m (run p e)). destruct (Z.eqb_spec w 0) as [E0|Hw0]; [exists (Some m); split; [reflexivity|]; split; [lia|auto]|].
  change (if gotpic then w else ntohl w) with (offset_of gotpic w).
  assert (Ho : 0 <= offset_of gotpic w).
  { unfold offset_of. destruct gotpic; [apply (get_word_range m (run p e) Hm)|apply (ntohl_range w)]. }
  destruct (Z.leb_spec (offset_of gotpic w) (prog_size p)) as [Hv|Hv].
  2: { rewrite calc_reloc_bad by auto. rewrite Z.eqb_refl. exists None. auto. }
  destruct (calc_reloc_ok p (offset_of gotpic w) Hp) as [-> Hne']; [lia|]. rewrite (proj2 (Z.eqb_neq _ _) Hne'). unfold store32. rewrite (Hin Hle). cbn [rbind].
  eexists. split; [reflexivity|]. split; [lia|]. right. unfold reloc_word. now rewrite (proj2 (Z.eqb_neq w 0) Hw0).
Qed.

Lemma reloc_loop_ok m reloc i es :
  bytes m -> Forall is_u32 es ->
  (forall e, e ∈ es -> e <= prog_size p -> in_maps maps (run p e) 4 = true) ->
  StronglySorted (fun e e' => e <= prog_size p -> e' <= prog_size p -> apart (run p e) (run p e')) es ->
  usable maps (reloc + 4 * i) (reloc + 4 * (i + Z.of_nat (length es))) ->
  (forall e, e ∈ es -> e <= prog_size p -> run p e + 4 <= reloc + 4 * i \/ reloc + 4 * (i + Z.of_nat (length es)) <= run p e) ->
  words m (reloc + 4 * i) (map ntohl es) ->
  exists r, reloc_loop (length es) p maps gotpic m reloc i = Ok r
    /\ match r with
       | Some m' => bytes m' /\ relocated p gotpic es m m' /\ forall e, e ∈ es -> ~ bad_entry p gotpic m e
       | None => exists e, e ∈ es /\ bad_entry p gotpic m e
       end.
Proof.
  intros Hm Hes Hin Hap Hu Hd Hw. revert m i Hm Hu Hd Hw. induction es as [|e es IH]; intros m i Hm Hu Hd Hw; cbn [reloc_loop length].
  { exists (Some m). split; [reflexivity|]. split; [exact Hm|]. split; [|intros e He; now apply not_elem_of_nil in He].
    split; [intros e He; now apply not_elem_of_nil in He|reflexivity]. }
  apply Forall_cons in Hes as [He Hes]. apply StronglySorted_inv in Hap as [Hap Hape]. rewrite Forall_forall in Hape. destruct Hw as [Hw Hws].
  cbn [length] in Hu, Hd. rewrite Nat2Z.inj_succ in Hu, Hd. destruct (usable_range _ _ _ Hu) as [Hlo Hhi].
  destruct (reloc_one_ok m reloc i e) as (r & -> & Hr); try assumption; [apply Hin; left|now apply (usable_in maps _ _ _ _ Hu); lia|unfold fits; lia|].
  cbn [rbind]. destruct r as [m1|]; [|exists None; split; [reflexivity|]; exists e; split; [left|exact Hr]].
  destruct Hr as [Hgood Hm1].
  assert (Hle : e <= prog_size p) by (unfold bad_entry in Hgood; lia).
  assert (Hrng : is_u32 (reloc_word p gotpic (get_word m (run p e)))).
  { apply reloc_word_range; [exact Hm|]. unfold bad_entry in Hgood. destruct (Z.eq_dec (get_word m (run p e)) 0); [auto|]. right. lia. }
  assert (Hout : forall x, ~ (run p e <= x < run p e + 4) -> m1 x = m x) by (intros x Hx; destruct Hm1 as [[-> _] | ->]; [reflexivity|apply put_word_out; lia]).
  assert (Hin1 : get_word m1 (run p e) = reloc_word p gotpic (get_word m (run p e))).
  { destruct Hm1 as [[-> E0] | ->]; [unfold reloc_word; now rewrite E0|now apply get_put_same]. }
  assert (Hb1 : bytes m1) by (destruct Hm1 as [[-> _] | ->]; auto with flat).
  assert (Hsite : forall e', e' ∈ es -> e' <= prog_size p -> get_word m1 (run p e') = get_word m (run p e')).
  { intros e' He' Hle'. apply get_word_ext. intros x Hx. apply Hout. specialize (Hape e' He' Hle Hle'). unfold apart in Hape. lia. }
  assert (Hbad : forall e', e' ∈ es -> bad_entry p gotpic m1 e' <-> bad_entry p gotpic m e').
  { intros e' He'. unfold bad_entry. destruct (Z.ltb_spec (prog_size p) e') as [Hlt|Hle']; [tauto|]. now rewrite (Hsite e' He' Hle'). }
  destruct (IH Hes ltac:(intros e' He'; apply Hin; now right) Hap m1 (i + 1) Hb1) as (r & -> & Hr).
  - apply (usable_sub maps _ _ _ _ Hu); lia.
  - intros e' He' Hle'. specialize (Hd e' ltac:(now right) Hle'). lia.
  - replace (reloc + 4 * (i + 1)) with (reloc + 4 * i + 4) by lia. apply (words_ext m); [|exact Hws]. rewrite length_map.
    intros x Hx. symmetry. apply Hout. specialize (Hd e ltac:(left) Hle). lia.
  - exists r. split; [reflexivity|]. destruct r as [m'|].
    + destruct Hr as (Hb' & [Hs Ho] & Hg). split; [exact Hb'|]. split; [split|].
      * intros e' [->|He']%elem_of_cons.
        -- rewrite <- Hin1. apply get_word_ext. intros x Hx. apply Ho. intros e' He' Hx'.
           assert (Hle' : e' <= prog_size p) by (specialize (Hg e' He'); unfold bad_entry in Hg; lia).
           specialize (Hape e' He' Hle Hle'). unfold apart in Hape. lia.
        -- rewrite (Hs e' He'). f_equal. apply Hsite; [exact He'|]. specialize (Hg e' He'). unfold bad_entry in Hg. lia.
      * intros x Hx. rewrite Ho by (intros e' He'; apply Hx; now right). apply Hout. apply Hx. left.
      * intros e' [->|He']%elem_of_cons; [exact Hgood|]. rewrite <- (Hbad e' He'). now apply Hg.
    + destruct Hr as (e' & He' & Hr). exists e'. split; [now right|]. now apply (Hbad e' He').
Qed.

(** ** The global offset table *)

Definition bad_got (w : Z) : Prop := w <> 0 /\ prog_size p < w.

Lemma got_loop_ok fuel m rp ws :
  bytes m -> words m rp (ws ++ [0xffffffff]) -> Forall (fun w => w <> 0xffffffff) ws -> (length ws < fuel)%nat ->
  usable maps rp (rp + 4 * (Z.of_nat (length ws) + 1)) ->
  exists r, got_loop fuel p maps m rp = Ok r
    /\ match r with
       | Some m' => bytes m' /\ words m' rp (map (reloc_word p true) ws ++ [0xffffffff])
           /\ (forall x, x < rp \/ rp + 4 * Z.of_nat (length ws) <= x -> m' x = m x) /\ Forall (fun w => ~ bad_got w) ws
       | None => Exists bad_got ws
       end.
Proof.
  revert fuel m rp. induction ws as [|w ws IH]; intros fuel m rp Hm Hw Hne Hf Hu; (destruct fuel as [|fuel]; [lia|]); cbn [got_loop].
  { destruct Hw as [Hw _]. rewrite (load32_ok maps m rp _ rp Hu) by (cbn [length]; lia). cbn [rbind]. rewrite Hw, Z.eqb_refl. exists (Some m).
    split; [reflexivity|]. split; [exact Hm|]. split; [|split; [reflexivity|constructor]]. cbn [map app words]. auto. }
  apply Forall_cons in Hne as [Hwe Hne]. cbn [length] in *. destruct (usable_range _ _ _ Hu) as [Hlo Hhi]. destruct Hw as [Hw Hws].
  pose proof (get_word_range m rp Hm) as Hrng. rewrite Hw in Hrng.
  rewrite (load32_ok maps m rp (rp + 4 * (Z.of_nat (S (length ws)) + 1))) by (auto; lia). cbn [rbind].
  rewrite Hw, (proj2 (Z.eqb_neq w 0xffffffff)) by exact Hwe. rewrite (u32_id (rp + 4)) by (unfold fits; lia).
  assert (Hu' : usable maps (rp + 4) (rp + 4 + 4 * (Z.of_nat (length ws) + 1))) by (apply (usable_sub maps _ _ _ _ Hu); lia).
  assert (Hstep : forall m1 v, bytes m1 -> get_word m1 rp = v -> (forall x, x < rp \/ rp + 4 <= x -> m1 x = m x) -> v = reloc_word p true w -> ~ bad_got w ->
    exists r, got_loop fuel p maps m1 (rp + 4) = Ok r
    /\ match r with
       | Some m' => bytes m' /\ words m' rp (map (reloc_word p true) (w :: ws) ++ [0xffffffff])
           /\ (forall x, x < rp \/ rp + 4 * Z.of_nat (S (length ws)) <= x -> m' x = m x) /\ Forall (fun w => ~ bad_got w) (w :: ws)
       | None => Exists bad_got (w :: ws)
       end).
  { intros m1 v Hb1 Hv Ho1 Ev Hg. destruct (IH fuel m1 (rp + 4) Hb1) as (r & -> & Hr); try assumption; [|lia|].
    { apply (words_ext m); [|exact Hws]. intros x Hx. symmetry. apply Ho1. lia. }
    exists r. split; [reflexivity|]. destruct r as [m'|]; [|now apply Exists_cons_tl].
    destruct Hr as (Hb' & Hw' & Ho' & Hg'). split; [exact Hb'|]. split; [|split; [|now constructor]].
    - cbn [map app words]. split; [|exact Hw']. rewrite <- Ev, <- Hv. apply get_word_ext. intros x Hx. apply Ho'. lia.
    - intros x Hx. rewrite Ho' by lia. apply Ho1. lia. }
  destruct (Z.eqb_spec w 0) as [->|Hw0].
  { apply (Hstep m 0); auto. intros [H0 _]. now apply H0. }
  destruct (Z.leb_spec w (prog_size p)) as [Hle|Hgt].
  2: { rewrite calc_reloc_bad by auto. rewrite Z.eqb_refl. exists None. split; [reflexivity|]. apply Exists_cons_hd. split; [exact Hw0|lia]. }
  destruct (calc_reloc_ok p w Hp) as [-> Hnf]; [destruct Hrng; lia|]. rewrite (proj2 (Z.eqb_neq _ _) Hnf).
  rewrite (store32_ok maps m rp (rp + 4 * (Z.of_nat (S (length ws)) + 1))) by (auto; lia). cbn [rbind].
  assert (Ev : run p w = reloc_word p true w) by (unfold reloc_word; now rewrite (proj2 (Z.eqb_neq w 0) Hw0)).
  assert (Hr32 : is_u32 (run p w)).
  { rewrite Ev, <- Hw. destruct Hp as [H1 H2 H3 H4 H5 H6]. rewrite Hw, <- Ev. unfold run, prog_size, fits, RELOC_FAILED in *.
    destruct Hrng. destruct (Z.ltb_spec w (text_len p)); lia. }
  apply (Hstep (put_word m rp (run p w)) (run p w)); auto with flat.
  - now apply get_put_same.
  - intros x Hx. now apply put_word_out.
  - intros [_ Hb]. lia.
Qed.

End Relocate.

Arguments bad_got p w : assert.
