(* ===== verification/FlatImage.v ===== *)
(** * The loader of flat executables: program images

    The programs the loader is for: code, initialised data, bss, stack and relocations,
    and the file that holds them. *)

From stdpp Require Import gmap sorting.
From S2P Require Import Prelude PageAlloc Buddy BuddyAlloc Pcp PageOps PageSource Nommu Flat FlatLib FlatReloc.

(** ** Images *)

(** The offsets of [im_relocs] count from the start of the code, which the data follow. *)
Record image := {
  im_text : list Z; im_data : list Z; im_bss : Z; im_stack : Z; im_entry : Z; im_relocs : list Z; im_flags : Z; im_date : Z
}.

Definition be32 (w : Z) : list Z := [w / 16777216 mod 256; w / 65536 mod 256; w / 256 mod 256; w mod 256].

Section Image.

Context (img : image).

Definition size_text : Z := Z.of_nat (length (im_text img)).
Definition size_data : Z := Z.of_nat (length (im_data img)).
Definition size_relocs : Z := 4 * Z.of_nat (length (im_relocs img)).

(** The header of the file that the linker makes of an image. *)
Definition hdr_of : flat_hdr :=
  {| h_rev := FLAT_VERSION; h_entry := im_entry img; h_data_start := HDR_SIZE + size_text;
     h_data_end := HDR_SIZE + size_text + size_data; h_bss_end := HDR_SIZE + size_text + size_data + im_bss img;
     h_stack_size := im_stack img; h_reloc_start := HDR_SIZE + size_text + size_data;
     h_reloc_count := Z.of_nat (length (im_relocs img)); h_flags := im_flags img; h_build_date := im_date img |}.

Definition header : list Z :=
  [0x62; 0x46; 0x4C; 0x54] ++ be32 (h_rev hdr_of) ++ be32 (h_entry hdr_of) ++ be32 (h_data_start hdr_of) ++ be32 (h_data_end hdr_of)
  ++ be32 (h_bss_end hdr_of) ++ be32 (h_stack_size hdr_of) ++ be32 (h_reloc_start hdr_of) ++ be32 (h_reloc_count hdr_of)
  ++ be32 (h_flags hdr_of) ++ be32 (h_build_date hdr_of) ++ repeat 0 20.

Definition file_of : list Z := header ++ im_text img ++ im_data img ++ flat_map be32 (im_relocs img).

(** Sizes that fit the machine. *)
Record sized : Prop := {
  sz_bss : 0 <= im_bss img;
  sz_stack : 0 <= im_stack img;
  sz_total : HDR_SIZE + size_text + size_data + im_bss img + im_stack img + size_relocs < 2 ^ 31;
  sz_entry : is_u32 (im_entry img);
  sz_flags : is_u32 (im_flags img);
  sz_date : is_u32 (im_date img);
  sz_bytes : Forall is_byte (im_text img ++ im_data img);
  sz_relocs : Forall is_u32 (im_relocs img)
}.

End Image.

(** What is at offset [r] of the image. *)
Definition image_byte (img : image) : memory := fun r => nth (Z.to_nat r) (im_text img ++ im_data img) 0.

(** ** The file read back *)

Lemma be32_bytes w : Forall is_byte (be32 w).
Proof. repeat constructor; unfold is_byte; try apply Z.mod_pos_bound; lia. Qed.

Lemma ntohl_be32 w (m : memory) a : is_u32 w -> m a = w / 16777216 mod 256 -> m (a + 1) = w / 65536 mod 256 -> m (a + 2) = w / 256 mod 256 ->
  m (a + 3) = w mod 256 -> get_word m a = ntohl w.
Proof. intros Hw E0 E1 E2 E3. unfold get_word, ntohl. rewrite E0, E1, E2, E3. lia. Qed.

Lemma table_words (m : memory) a es :
  Forall is_u32 es -> (forall i, 0 <= i < 4 * Z.of_nat (length es) -> m (a + i) = nth (Z.to_nat i) (flat_map be32 es) 0) -> words m a (map ntohl es).
Proof.
  revert a. induction es as [|e es IH]; intros a Hes E; cbn [map words]; [trivial|]. apply Forall_cons in Hes as [He Hes]. cbn [length flat_map] in E.
  split.
  - pose proof (E 0 ltac:(lia)) as E0. pose proof (E 1 ltac:(lia)) as E1. pose proof (E 2 ltac:(lia)) as E2. pose proof (E 3 ltac:(lia)) as E3.
    rewrite Z.add_0_r in E0. now apply ntohl_be32.
  - apply IH; [exact Hes|]. intros i Hi. replace (a + 4 + i) with (a + (4 + i)) by lia. rewrite E by lia.
    replace (Z.to_nat (4 + i)) with (4 + Z.to_nat i)%nat by lia. reflexivity.
Qed.

Lemma flat_map_length es : length (flat_map be32 es) = (4 * length es)%nat.
Proof. induction es as [|e es IH]; [reflexivity|]. cbn [flat_map length]. rewrite length_app, IH. cbn [be32 length]. lia. Qed.

Lemma header_length img : length (header img) = 64%nat.
Proof. reflexivity. Qed.

Lemma file_length img : Z.of_nat (length (file_of img)) = HDR_SIZE + size_text img + size_data img + size_relocs img.
Proof. unfold file_of, size_text, size_data, size_relocs, HDR_SIZE. rewrite !length_app, flat_map_length, header_length. lia. Qed.

(** The loader reads the header it was given. *)
Lemma read_hdr_of img buf :
  sized img -> (forall i, 0 <= i < HDR_SIZE -> buf i = nth (Z.to_nat i) (file_of img) 0) -> magic_ok buf = true /\ read_hdr buf = hdr_of img.
Proof.
  intros Hs Hb. destruct Hs as [H1 H2 H3 H4 H5 H6 _ _]. unfold HDR_SIZE in *. pose proof (Zle_0_nat (length (im_relocs img))) as H7.
  assert (Hh : forall i, 0 <= i < 64 -> buf i = nth (Z.to_nat i) (header img) 0).
  { intros i Hi. rewrite Hb by lia. unfold file_of. apply app_nth1. rewrite header_length. lia. }
  split; [unfold magic_ok; rewrite !Hh by lia; reflexivity|].
  assert (Hw : forall a w, is_u32 w -> 0 <= a < 60 -> nth (Z.to_nat a) (header img) 0 = w / 16777216 mod 256 ->
    nth (Z.to_nat (a + 1)) (header img) 0 = w / 65536 mod 256 -> nth (Z.to_nat (a + 2)) (header img) 0 = w / 256 mod 256 ->
    nth (Z.to_nat (a + 3)) (header img) 0 = w mod 256 -> ntohl (get_word buf a) = w).
  { intros a w Hw Ha E0 E1 E2 E3. rewrite (ntohl_be32 w buf a) by (rewrite ?Hh by lia; assumption). now apply ntohl_involutive. }
  unfold read_hdr, hdr_of, size_text, size_data, size_relocs, FLAT_VERSION in *. f_equal; apply Hw; try assumption; try lia; try reflexivity; unfold fits, HDR_SIZE; lia.
Qed.

(** ** The parts of the file *)

Lemma nth_firstn_in i n (l : list Z) : (i < n)%nat -> nth i (firstn n l) 0 = nth i l 0.
Proof.
  revert i l. induction n as [|n IH]; intros i l Hi; [lia|]. destruct l as [|c l]; [now destruct i|]. destruct i as [|i]; [reflexivity|]. cbn. apply IH. lia.
Qed.

Lemma file_text img i : 0 <= i < size_text img -> nth (Z.to_nat (HDR_SIZE + i)) (file_of img) 0 = image_byte img i.
Proof.
  intros Hi. unfold file_of, image_byte, size_text, HDR_SIZE in *. rewrite app_nth2; rewrite header_length; [|lia].
  replace (Z.to_nat (64 + i) - 64)%nat with (Z.to_nat i) by lia. now rewrite !app_nth1 by lia.
Qed.

(** What is read from the start of the data on. *)
Lemma file_tail img :
  firstn (Z.to_nat (size_data img + size_relocs img)) (skipn (Z.to_nat (HDR_SIZE + size_text img)) (file_of img)) = im_data img ++ flat_map be32 (im_relocs img).
Proof.
  unfold file_of. rewrite app_assoc. unfold size_text, size_data, size_relocs, HDR_SIZE.
  rewrite drop_app_length' by (rewrite length_app, header_length; lia). apply take_ge. rewrite length_app, flat_map_length. lia.
Qed.

Lemma tail_data img i : 0 <= i < size_data img -> nth (Z.to_nat i) (im_data img ++ flat_map be32 (im_relocs img)) 0 = image_byte img (size_text img + i).
Proof.
  intros Hi. unfold image_byte, size_text, size_data in *. rewrite app_nth1 by lia. rewrite app_nth2 by lia. f_equal. lia.
Qed.

Lemma tail_table img i : 0 <= i < size_relocs img ->
  nth (Z.to_nat (size_data img + i)) (im_data img ++ flat_map be32 (im_relocs img)) 0 = nth (Z.to_nat i) (flat_map be32 (im_relocs img)) 0.
Proof. intros Hi. unfold size_data. rewrite app_nth2 by lia. f_equal. lia. Qed.

Lemma tail_length img : Z.of_nat (length (im_data img ++ flat_map be32 (im_relocs img))) = size_data img + size_relocs img.
Proof. unfold size_data, size_relocs. rewrite length_app, flat_map_length. lia. Qed.

Lemma tail_bytes img : sized img -> Forall is_byte (im_data img ++ flat_map be32 (im_relocs img)).
Proof.
  intros Hs. apply Forall_app. split; [pose proof (sz_bytes _ Hs) as Hb; now apply Forall_app in Hb|]. clear Hs.
  induction (im_relocs img) as [|w ws IH]; [constructor|]. cbn [flat_map]. apply Forall_app. split; [apply be32_bytes|exact IH].
Qed.

Lemma file_bytes img : sized img -> Forall is_byte (file_of img).
Proof.
  intros Hs. unfold file_of, header. pose proof (sz_bytes _ Hs) as Hb. apply Forall_app in Hb as [Ht _].
  repeat (apply Forall_app; split); try apply be32_bytes; try exact Ht; try (pose proof (tail_bytes img Hs) as Hb; apply Forall_app in Hb; apply Hb).
  - repeat constructor; lia.
  - repeat constructor; lia.
Qed.

(** The file of the program holds the image. *)
Record reads (b : linux_binprm) (img : image) : Prop := {
  rd_buf i : 0 <= i < HDR_SIZE -> b_buf b i = nth (Z.to_nat i) (file_of img) 0;
  rd_read pos n : 0 <= pos -> 0 <= n -> b_read b pos n = inr (firstn (Z.to_nat n) (skipn (Z.to_nat pos) (file_of img)))
}.
