(* ===== verification/FlatPlace.v ===== *)
(** * The loader of flat executables: from the placement to the loaded program

    The segments, the relocations and the zeroed memory of an image whose parts have been
    read to where they belong. *)

From stdpp Require Import gmap sorting.
From S2P Require Import Prelude PageAlloc Buddy BuddyAlloc Pcp PageOps PageSource Nommu NommuLib Flat FlatLib FlatReloc FlatImage.

(** ** Images that can be relocated *)

Definition gotpic_of (img : image) : bool := has (im_flags img) FLAT_FLAG_GOTPIC.

(** Sites are words of the code or of the data and do not overlap, and what they hold, like the entries [got] of the
    table at the start of the data, is an offset into the program. *)
Record relocatable (img : image) (got : list Z) : Prop := {
  rl_site e : e ∈ im_relocs img -> e + 4 <= size_text img \/ size_text img <= e /\ e + 4 <= size_text img + size_data img;
  rl_apart : StronglySorted apart (im_relocs img);
  rl_value e : e ∈ im_relocs img -> let w := get_word (image_byte img) e in
    w = 0 \/ offset_of (gotpic_of img) w <= size_text img + size_data img + im_bss img;
  rl_got : if gotpic_of img then
      words (image_byte img) (size_text img) (got ++ [0xffffffff]) /\ 4 * (Z.of_nat (length got) + 1) <= size_data img
      /\ Forall (fun w => w <= size_text img + size_data img + im_bss img) got
      /\ (forall e, e ∈ im_relocs img -> e + 4 <= size_text img \/ size_text img + 4 * (Z.of_nat (length got) + 1) <= e)
    else got = []
}.

(** The code and the data at run time: relocated words at the sites and in the table, the bytes of the image elsewhere. *)
Record in_place (img : image) (got : list Z) (p : lib_info) (m : memory) : Prop := {
  ip_site e : e ∈ im_relocs img -> get_word m (run p e) = reloc_word p (gotpic_of img) (get_word (image_byte img) e);
  ip_got : words m (start_data p) (map (reloc_word p true) got);
  ip_byte r : 0 <= r < size_text img + size_data img -> (forall e, e ∈ im_relocs img -> ~ (e <= r < e + 4)) ->
    ~ (size_text img <= r < size_text img + 4 * Z.of_nat (length got)) -> m (run p r) = image_byte img r
}.

(** The library table's entry for an image. *)
Definition lib_of (img : image) (pl : placement) : lib_info :=
  {| start_code := textpos pl + HDR_SIZE; start_data := datapos pl; lib_start_brk := datapos pl + size_data img + im_bss img;
     text_len := size_text img; entry := u32 ((im_entry img .& 0x00ffffff) + textpos pl); build_date := im_date img |}.

(** The parts of the file have been read to [pl]. *)
Record placed (img : image) (stack_len : Z) (pl : placement) (maps : list (Z * Z)) (m : memory) : Prop := {
  pd_text i : 0 <= i < size_text img -> m (textpos pl + HDR_SIZE + i) = image_byte img i;
  pd_data i : 0 <= i < size_data img -> m (datapos pl + i) = image_byte img (size_text img + i);
  pd_table : words m (datapos pl + size_data img) (map ntohl (im_relocs img));
  pd_reloc : reloc pl = datapos pl + size_data img;
  pd_code : usable maps (textpos pl) (textpos pl + HDR_SIZE + size_text img);
  pd_mem : usable maps (memp pl) (memp pl + memp_size pl);
  pd_page : (memp pl + memp_size pl) mod 4096 = 0;
  pd_before : memp pl + 4 <= datapos pl;
  pd_room : datapos pl + size_data img + Z.max (im_bss img + stack_len) (size_relocs img) <= memp pl + memp_size pl;
  pd_apart : textpos pl + HDR_SIZE + size_text img + 4 <= datapos pl \/ memp pl + memp_size pl <= textpos pl;
  pd_below : textpos pl + HDR_SIZE + size_text img <= RELOC_FAILED /\ memp pl + memp_size pl < RELOC_FAILED
}.

Section Place.

Context (img : image) (got : list Z) (stack_len : Z) (pl : placement) (maps : list (Z * Z)) (m : memory).
Context (Hsz : sized img) (Hrl : relocatable img got) (Hpl : placed img stack_len pl maps m) (Hsl : 0 <= stack_len) (Hm : bytes m).

Abbreviation T := (size_text img).
Abbreviation D := (size_data img).
Abbreviation p := (lib_of img pl).

Lemma sizes_nonneg : 0 <= T /\ 0 <= D /\ 0 <= im_bss img /\ 0 <= size_relocs img.
Proof. unfold size_text, size_data, size_relocs. pose proof (sz_bss _ Hsz). lia. Qed.

Lemma placed_range : 0 <= textpos pl /\ 0 <= memp pl.
Proof. split; [apply (usable_range _ _ _ (pd_code _ _ _ _ _ Hpl))|apply (usable_range _ _ _ (pd_mem _ _ _ _ _ Hpl))]. Qed.

Lemma lib_of_ok : lib_ok p.
Proof.
  pose proof sizes_nonneg as (H1 & H2 & H3 & H4). pose proof placed_range as (H5 & H6). destruct Hpl, pd_below0.
  pose proof (sz_total _ Hsz). pose proof (sz_stack _ Hsz). unfold HDR_SIZE in *.
  split; cbn [lib_of text_len start_code start_data lib_start_brk]; unfold prog_size; cbn [lib_of text_len start_code start_data lib_start_brk];
    unfold HDR_SIZE; lia.
Qed.

Lemma lib_prog_size : prog_size p = T + D + im_bss img.
Proof. unfold prog_size. cbn [lib_of text_len start_data lib_start_brk]. lia. Qed.

Lemma run_lib r : run p r = if r <? T then textpos pl + HDR_SIZE + r else datapos pl + (r - T).
Proof. reflexivity. Qed.

Lemma run_add e k : e + 4 <= T \/ T <= e -> 0 <= k < 4 -> run p (e + k) = run p e + k.
Proof. intros He Hk. rewrite !run_lib. zbool; lia. Qed.

(** Different offsets are at different addresses. *)
Lemma run_inj r r' : 0 <= r < T + D -> 0 <= r' < T + D -> run p r = run p r' -> r = r'.
Proof.
  intros Hr Hr' E. rewrite !run_lib in E. pose proof sizes_nonneg. pose proof placed_range. destruct Hpl. unfold HDR_SIZE in *. zbool; lia.
Qed.

Lemma run_apart e e' : e ∈ im_relocs img -> e' ∈ im_relocs img -> 0 <= e -> 0 <= e' -> apart e e' -> apart (run p e) (run p e').
Proof.
  intros He He' H0 H0' Ha. apply (rl_site _ _ Hrl) in He, He'. rewrite !run_lib. unfold apart in *. pose proof sizes_nonneg. pose proof placed_range.
  destruct Hpl. unfold HDR_SIZE in *. zbool; lia.
Qed.

Lemma site_nonneg e : e ∈ im_relocs img -> 0 <= e.
Proof. intros He. pose proof (sz_relocs _ Hsz) as Hr. rewrite Forall_forall in Hr. destruct (Hr e He). lia. Qed.

Lemma placed_byte r : 0 <= r < T + D -> m (run p r) = image_byte img r.
Proof.
  intros Hr. rewrite run_lib. destruct (Z.ltb_spec r T).
  - apply (pd_text _ _ _ _ _ Hpl). lia.
  - rewrite (pd_data _ _ _ _ _ Hpl) by lia. f_equal. lia.
Qed.

(** The words of the image. *)
Lemma placed_word (m' : memory) e : 0 <= e -> e + 4 <= T \/ T <= e /\ e + 4 <= T + D -> (forall k, 0 <= k < 4 -> m' (run p e + k) = m (run p e + k)) ->
  get_word m' (run p e) = get_word (image_byte img) e.
Proof.
  intros H0 He E. pose proof sizes_nonneg.
  assert (Hk : forall k, 0 <= k < 4 -> m' (run p e + k) = image_byte img (e + k)).
  { intros k Hk. rewrite E by exact Hk. rewrite <- run_add by lia. apply placed_byte. lia. }
  unfold get_word. pose proof (Hk 0 ltac:(lia)) as E0. rewrite !Z.add_0_r in E0. now rewrite E0, !Hk by lia.
Qed.

(** The table at the start of the data. *)
Lemma got_stage fuel :
  size_data img <= Z.of_nat fuel ->
  exists m1, (if gotpic_of img then got_loop fuel p maps m (datapos pl) else Ok (Some m)) = Ok (Some m1)
    /\ bytes m1 /\ words m1 (datapos pl) (map (reloc_word p true) got) /\ 4 * Z.of_nat (length got) <= D
    /\ (forall e, e ∈ im_relocs img -> e + 4 <= T \/ T + 4 * Z.of_nat (length got) <= e)
    /\ (forall x, x < datapos pl \/ datapos pl + 4 * Z.of_nat (length got) <= x -> m1 x = m x).
Proof.
  intros Hf. pose proof sizes_nonneg as (H1 & H2 & H3 & H4). pose proof (rl_got _ _ Hrl) as Hg. pose proof (sz_total _ Hsz) as Ht. pose proof (sz_stack _ Hsz) as Hst.
  destruct (gotpic_of img).
  2: { subst got. exists m. cbn [length map words]. split_and!; try reflexivity; try assumption; try exact I; try lia.
       intros e He. pose proof (rl_site _ _ Hrl e He). lia. }
  destruct Hg as (Hw & Hlen & Hval & Hsites). unfold HDR_SIZE in Ht. rewrite Forall_forall in Hval.
  destruct (got_loop_ok p lib_of_ok maps fuel m (datapos pl) got Hm) as (r & -> & Hr).
  - replace (datapos pl) with (T + (datapos pl - T)) by lia. apply (words_move (image_byte img)); [|exact Hw]. rewrite length_app. cbn [length].
    intros x Hx. replace (x + (datapos pl - T)) with (datapos pl + (x - T)) by lia. rewrite (pd_data _ _ _ _ _ Hpl) by lia. f_equal. lia.
  - apply Forall_forall. intros w Hin ->. specialize (Hval _ Hin). lia.
  - lia.
  - apply (usable_sub _ _ _ _ _ (pd_mem _ _ _ _ _ Hpl)); destruct Hpl; lia.
  - destruct r as [m1|].
    + destruct Hr as (Hb & Hw1 & Ho & _). exists m1. apply words_app in Hw1 as [Hw1 _]. split_and!; try assumption; try reflexivity; [lia|].
      intros e He. specialize (Hsites e He). lia.
    + exfalso. apply Exists_exists in Hr as (w & Hin & _ & Hb). rewrite lib_prog_size in Hb. specialize (Hval w Hin). lia.
Qed.

Lemma site_mapped e : e ∈ im_relocs img -> in_maps maps (run p e) 4 = true.
Proof.
  intros He. pose proof (site_nonneg e He). rewrite run_lib. destruct Hpl. pose proof (sizes_nonneg). unfold HDR_SIZE in *.
  destruct (rl_site _ _ Hrl e He) as [Ht|[Ht Hd]].
  - rewrite (proj2 (Z.ltb_lt e T)) by lia. apply (usable_in _ _ _ _ _ pd_code0); lia.
  - rewrite (proj2 (Z.ltb_ge e T)) by lia. apply (usable_in _ _ _ _ _ pd_mem0); lia.
Qed.

(** The entries. *)
Lemma reloc_stage m1 :
  bytes m1 -> 4 * Z.of_nat (length got) <= D -> (forall e, e ∈ im_relocs img -> e + 4 <= T \/ T + 4 * Z.of_nat (length got) <= e) ->
  (forall x, x < datapos pl \/ datapos pl + 4 * Z.of_nat (length got) <= x -> m1 x = m x) ->
  exists m', reloc_loop (length (im_relocs img)) p maps (gotpic_of img) m1 (reloc pl) 0 = Ok (Some m')
    /\ bytes m' /\ relocated p (gotpic_of img) (im_relocs img) m1 m'
    /\ forall e, e ∈ im_relocs img -> get_word m1 (run p e) = get_word (image_byte img) e.
Proof.
  intros Hb1 Hlen Hsites Ho. pose proof sizes_nonneg as (H1 & H2 & H3 & H4). pose proof placed_range as [H5 H6].
  assert (Hword : forall e, e ∈ im_relocs img -> get_word m1 (run p e) = get_word (image_byte img) e).
  { intros e He. pose proof (site_nonneg e He). apply placed_word; [assumption|now apply (rl_site _ _ Hrl)|]. intros k Hk. apply Ho. rewrite run_lib.
    pose proof (rl_site _ _ Hrl e He). pose proof (Hsites e He). destruct Hpl. unfold HDR_SIZE in *. zbool; lia. }
  destruct (reloc_loop_ok p lib_of_ok maps (gotpic_of img) m1 (reloc pl) 0 (im_relocs img)) as (r & -> & Hr); try exact (sz_relocs _ Hsz); try assumption.
  - intros e He _. now apply site_mapped.
  - apply (sorted_agree _ _ _ (rl_apart _ _ Hrl)). intros e e' He He' Ha _ _. apply run_apart; try assumption; now apply site_nonneg.
  - rewrite (pd_reloc _ _ _ _ _ Hpl). unfold size_relocs in *. apply (usable_sub _ _ _ _ _ (pd_mem _ _ _ _ _ Hpl)); destruct Hpl; unfold size_relocs in *; lia.
  - intros e He _. rewrite (pd_reloc _ _ _ _ _ Hpl), run_lib. pose proof (site_nonneg e He). pose proof (rl_site _ _ Hrl e He).
    destruct Hpl. unfold HDR_SIZE, size_relocs in *. zbool; lia.
  - rewrite (pd_reloc _ _ _ _ _ Hpl). replace (datapos pl + D + 4 * 0) with (datapos pl + D) by lia.
    apply (words_ext m); [|exact (pd_table _ _ _ _ _ Hpl)]. intros x Hx. symmetry. apply Ho. lia.
  - destruct r as [m'|]; [destruct Hr as (Hb' & Hr & _); exists m'; auto|]. exfalso. destruct Hr as (e & He & [Hbad|[Hne Hbad]]); rewrite lib_prog_size in Hbad.
    + pose proof (rl_site _ _ Hrl e He). lia.
    + rewrite (Hword e He) in *. destruct (rl_value _ _ Hrl e He) as [E0|Hv]; [contradiction|lia].
Qed.

(** What the image says depends only on where the image is. *)
Lemma in_place_ext (m1 m2 : memory) :
  4 * Z.of_nat (length got) <= D -> (forall r, 0 <= r < T + D -> m2 (run p r) = m1 (run p r)) -> in_place img got p m1 -> in_place img got p m2.
Proof.
  intros Hlen E [Hs Hg Hb]. pose proof sizes_nonneg as (H1 & H2 & H3 & H4). split.
  - intros e He. rewrite <- (Hs e He). apply get_word_ext. intros x Hx. pose proof (site_nonneg e He). pose proof (rl_site _ _ Hrl e He).
    replace x with (run p e + (x - run p e)) by lia. rewrite <- run_add by lia. apply E. lia.
  - apply (words_ext m1); [|exact Hg]. rewrite length_map. cbn [lib_of start_data]. intros x Hx.
    assert (Hr : run p (T + (x - datapos pl)) = x) by (rewrite run_lib; rewrite (proj2 (Z.ltb_ge _ T)) by lia; lia).
    rewrite <- Hr. symmetry. apply E. lia.
  - intros r Hr Hn1 Hn2. rewrite E by exact Hr. now apply Hb.
Qed.

Lemma got_fits : 4 * Z.of_nat (length got) <= D.
Proof.
  pose proof sizes_nonneg. pose proof (rl_got _ _ Hrl) as Hg. destruct (gotpic_of img); [lia|]. subst got. cbn. lia.
Qed.

(** All relocations: the program is in place. *)
Lemma relocate_ok {PS} (x : exec PS) :
  x_maps x = maps -> x_mem x = m ->
  exists m', relocate (hdr_of img) (im_flags img) (Z.of_nat (length (im_relocs img))) pl p x = Ok (Some m') /\ bytes m' /\ in_place img got p m'.
Proof.
  intros Ex Em. unfold relocate. rewrite Ex, Em. fold (gotpic_of img). pose proof sizes_nonneg as (H1 & H2 & H3 & H4).
  destruct (got_stage (Z.to_nat (memp_size pl))) as (m1 & -> & Hb1 & Hw1 & Hlen & Hsites & Ho1).
  { destruct Hpl. lia. }
  cbn [rbind]. change (OLD_FLAT_VERSION <? h_rev (hdr_of img)) with true. rewrite Nat2Z.id.
  destruct (reloc_stage m1 Hb1 Hlen Hsites Ho1) as (m' & -> & Hb' & [Hs Ho] & Hword). exists m'. split; [reflexivity|]. split; [exact Hb'|]. split.
  - intros e He. rewrite (Hs e He). now rewrite Hword.
  - apply (words_ext m1); [|exact Hw1]. rewrite length_map. cbn [lib_of start_data]. intros y Hy. symmetry. apply Ho. intros e He Hy'.
    pose proof (site_nonneg e He). pose proof (rl_site _ _ Hrl e He). pose proof (Hsites e He). rewrite run_lib in Hy'. destruct Hpl. unfold HDR_SIZE in *. zbool; lia.
  - intros r Hr Hn1 Hn2. rewrite Ho; [rewrite Ho1; [now apply placed_byte|]|].
    + rewrite run_lib. destruct Hpl. unfold HDR_SIZE in *. zbool; lia.
    + intros e He Hx. apply (Hn1 e He). pose proof (site_nonneg e He). pose proof (rl_site _ _ Hrl e He) as Hst.
      set (k := run p r - run p e) in *. assert (Hk : 0 <= k < 4) by lia. assert (E : run p r = run p (e + k)) by (rewrite run_add by lia; lia).
      apply run_inj in E; lia.
Qed.

Section Finish.

Context {PS : Type} (cur : Z) (mm : mm_struct) (x : exec PS).
Context (Ex : x_maps x = maps) (Em : x_mem x = m) (Hmm : mms (x_mm x) !! cur = Some mm).

(** The end of bss and the end of the heap. *)
Definition brk_start : Z := datapos pl + D + im_bss img.
Definition brk_limit : Z := memp pl + memp_size pl - stack_len.

(** The loaded program: its code and data in place, then zeroes up to the end of its memory. *)
Lemma finish_load_ok :
  exists x', finish_load cur (hdr_of img) (im_flags img) (Z.of_nat (length (im_relocs img))) D (im_bss img) stack_len pl x = Ok (inr (p, x'))
    /\ x_maps x' = maps /\ bytes (x_mem x') /\ in_place img got p (x_mem x')
    /\ (forall a, datapos pl + D <= a < memp pl + memp_size pl -> x_mem x' a = 0)
    /\ x_mm x' = put_mm cur (set_brks mm brk_start (4 * ((brk_start + 3) / 4)) brk_limit) (x_mm x)
    /\ brk_start <= brk_limit
    /\ (x_start_code x', x_end_code x', x_start_data x', x_end_data x')
       = (textpos pl + HDR_SIZE, textpos pl + HDR_SIZE + T, datapos pl, datapos pl + D).
Proof.
  pose proof sizes_nonneg as (H1 & H2 & H3 & H4). pose proof placed_range as [H5 H6]. pose proof lib_of_ok as Hlib.
  assert (Hbr : brk_start <= brk_limit /\ 0 <= brk_start /\ brk_limit < RELOC_FAILED) by (unfold brk_start, brk_limit; destruct Hpl; lia).
  assert (Hend : datapos pl + D + Z.max (im_bss img + stack_len) (size_relocs img) <= memp pl + memp_size pl < RELOC_FAILED /\ memp pl + 4 <= datapos pl
    /\ textpos pl + HDR_SIZE + T <= RELOC_FAILED) by (destruct Hpl; lia).
  assert (Hid : forall y, 0 <= y < RELOC_FAILED + 1000 -> u32 y = y) by (intros y Hy; apply u32_id; unfold fits, RELOC_FAILED in *; lia).
  unfold finish_load, set_up. cbn [hdr_of h_data_start h_entry h_build_date]. unfold HDR_SIZE in *.
  rewrite (Hid (datapos pl + D + im_bss img)), (Hid (textpos pl + 64)), (Hid (textpos pl + (64 + T))), (Hid (datapos pl + D)) by lia.
  fold brk_start. rewrite (Hid (brk_start + 3)) by lia. rewrite align_down4 by (unfold fits, RELOC_FAILED in *; lia).
  fold brk_limit. unfold brk_limit at 1. rewrite (Hid (memp pl + memp_size pl - stack_len)) by (unfold brk_limit in *; lia). fold brk_limit.
  replace (64 + T - 64) with T by lia. rewrite (Hid T) by lia. unfold deref. rewrite Hmm. cbn [rbind].
  replace (textpos pl + (64 + T)) with (textpos pl + 64 + T) by lia.
  match goal with |- context [relocate _ _ _ _ ?q ?y] => change q with p; set (x1 := y) end.
  destruct (relocate_ok x1) as (m' & -> & Hb' & Hip); [exact Ex|exact Em|]. cbn [rbind].
  cbn [lib_of lib_start_brk]. fold brk_start.
  replace (im_bss img + (brk_limit - brk_start) + stack_len) with (memp pl + memp_size pl - (datapos pl + D)) by (unfold brk_limit, brk_start; lia).
    rewrite (Hid (memp pl + memp_size pl - (datapos pl + D))) by lia. change (x_maps x1) with (x_maps x). rewrite Ex.
  rewrite (usable_in _ _ _ _ _ (pd_mem _ _ _ _ _ Hpl)) by lia. eexists. split; [reflexivity|]. split_and!.
  - exact Ex.
  - cbn [x_mem set_x_mem]. auto with flat.
  - cbn [x_mem set_x_mem]. apply (in_place_ext m'); [exact got_fits| |exact Hip]. intros r Hr. apply memset0_out.
    rewrite run_lib. destruct Hpl. unfold HDR_SIZE in *. zbool; lia.
  - intros a Ha. cbn [x_mem set_x_mem]. apply memset0_in. lia.
  - reflexivity.
  - apply Hbr.
  - reflexivity.
Qed.

End Finish.

End Place.
