(* ===== verification/FlatMap.v ===== *)
(** * The loader of flat executables: mapping and reading

    What [do_mmap] gives the loader, and the memory after the parts of a program have been
    mapped and read. *)

From stdpp Require Import gmap sorting.
From S2P Require Import Prelude PageAlloc Buddy BuddyAlloc Pcp PageOps PageSource Nommu NommuLib NommuPages NommuInv NommuFind NommuUnmap NommuMmap NommuRun NommuSpec.
From S2P Require Import Flat FlatLib FlatReloc FlatImage FlatPlace.

(** ** Outcomes of a mapping *)

Lemma file_validation_negative e f prot flags err : validate_file e f prot flags = inl err -> err < 0.
Proof.
  unfold validate_file, file_capabilities, ENODEV, EACCES, EAGAIN, EINVAL, EPERM.
  destruct (can_mmap f); cbn [negb]; [|intros [= <-]; lia].
  destruct (if negb (bdi_capabilities f =? 0) then _ else _) as [err0|c] eqn:Ec.
  - intros [= ->]. destruct (bdi_capabilities f =? 0); cbn [negb] in Ec; [|discriminate]. destruct (i_mode f); try discriminate. injection Ec as <-. unfold EINVAL. lia.
  - set (c1 := if can_read f then _ else _). clearbody c1. clear Ec.
    destruct (fmode_read f); cbn [negb]; [|intros [= <-]; lia].
    match goal with |- (match ?y with _ => _ end) = _ -> _ => destruct y as [err0|c2] eqn:Ec2 end.
    + intros [= ->]. repeat match type of Ec2 with (if ?b then _ else _) = _ => destruct b end; try discriminate; injection Ec2 as <-; lia.
    + repeat match goal with |- (if ?b then _ else _) = _ -> _ => destruct b end; try discriminate; intros [= <-]; lia.
Qed.

Lemma validation_negative e f len prot flags pgoff err : validate_mmap_request e f len prot flags pgoff = inl err -> err < 0.
Proof.
  unfold validate_mmap_request, EINVAL, ENOMEM, EOVERFLOW. destruct (has flags MAP_FIXED); [intros [= <-]; lia|].
  destruct (negb _ && _); [intros [= <-]; lia|]. destruct (len =? 0); [intros [= <-]; lia|]. destruct ((_ =? 0) || _); [intros [= <-]; lia|].
  destruct (_ <? pgoff); [intros [= <-]; lia|]. destruct f as [f|].
  - destruct (validate_file e f prot flags) as [err0|[c prot']] eqn:Ev; [intros [= <-]; exact (file_validation_negative e f prot flags _ Ev)|].
    destruct (Z.ltb_spec (security_file_mmap e prot prot' flags) 0) as [Hlt|]; [|discriminate]. intros [= <-]. exact Hlt.
  - match goal with |- (if ?s <? 0 then _ else _) = _ -> _ => destruct (Z.ltb_spec s 0) as [Hlt|] end; [|discriminate]. intros [= <-]. exact Hlt.
Qed.

Section Map.

Context {PS : Type} `{PageSource PS} (e : env) (base : Z -> Z) (ext : list (Z * nat)).
Implicit Type st : nommu PS.

(** Structures that are still free. *)
Definition only_new (r p : option Z) st (st' : nommu PS) : Prop :=
  (forall q, Some q <> r -> regions st !! q = None -> regions st' !! q = None) /\ (forall q, Some q <> p -> vmas st !! q = None -> vmas st' !! q = None).

Lemma only_new_unchanged r p st st' : unchanged st st' -> only_new r p st st'.
Proof. intros (E1 & E2 & _). unfold only_new. rewrite E1, E2. auto. Qed.

(** [len] bytes from [ret] have been mapped. *)
Record maps_at (lost : list Z) (cur : Z) (f : option file) (len : Z) (r p : option Z) st (ret : Z) (st' : nommu PS) : Prop := {
  ma_pos : 0 < ret;
  ma_page : ret mod 4096 = 0;
  ma_inv : mm_inv base ext lost st';
  ma_mapped a : mapped st' cur a <-> mapped st cur a \/ ret <= a < ret + len;
  ma_alone k a : f = None -> ret <= a < ret + len -> ~ mapped st k a;
  ma_new : only_new r p st st'
}.

Lemma outcome_maps lost cur m p r f len vf pgoff c st ret st' :
  mm_inv base ext lost st -> mms st !! cur = Some m -> regions st !! r = None -> vmas st !! p = None ->
  request f len pgoff vf c -> mmap_outcome e base ext cur m p r f len vf pgoff lost st ret st' ->
  (ret < 0 /\ unchanged st st' /\ (f = None -> ret = - ENOMEM) /\ exists lost', mm_inv base ext lost' st' /\ (f = None -> lost' = lost))
  \/ maps_at lost cur f len (Some r) (Some p) st ret st'.
Proof.
  intros Hi Hmm Hr Hp Hrq [st1 Hi' Hu|f0 page st1 Hf Hneg Hi' Hu|page g' m' st1 Hp1 Hp2 Hi' Er Hsm Hus Ev Em HP|st1 [f0 Hf] Hi' Hu|q g g' m' st1 Hq Hsh Hi' Er Hsm Hus Ev Em HP].
  - left. unfold ENOMEM. split_and!; auto; [lia|]. exists lost. auto.
  - left. split_and!; auto; [intros ->; discriminate|]. eexists. split; [exact Hi'|]. intros ->. discriminate.
  - right. destruct (mapped_new cur m m' p (final_vma f vf pgoff r page len) st st1) as [Hm1 _]; try assumption; [apply Hi|].
    assert (Hcov : forall a, covers a (final_vma f vf pgoff r page len) <-> page * 4096 <= a < page * 4096 + len) by reflexivity.
    split; [lia|zdiv|exact Hi'|intros a; rewrite Hm1, Hcov; reflexivity| |].
    + intros k a Hf Ha. apply (fresh_alone base ext lost p r g' (final_vma f vf pgoff r page len) st st1); try assumption; try reflexivity.
      * apply Hi.
      * rewrite Ev. apply lookup_insert_eq.
      * rewrite Er. apply lookup_insert_eq.
      * intros q w Hq. rewrite Ev. now rewrite lookup_insert_ne by congruence.
    + split; intros q Hne Hq; rewrite ?Er, ?Ev; now rewrite lookup_insert_ne by congruence.
  - left. unfold EINVAL. split_and!; auto; [lia|intros ->; discriminate|]. exists lost. auto.
  - right. destruct (mapped_new cur m m' p (shared_vma f vf pgoff q len g) st st1) as [Hm1 _]; try assumption; [apply Hi|].
    pose proof (lk_region _ _ (ci_links _ _ _ (mi_core _ _ _ _ Hi)) q g Hq) as Hok. pose proof Hsh as (_ & (f1 & f2 & Hf1 & _) & Hle & Hend).
    assert (Hpos : 0 < shared_start g pgoff /\ shared_start g pgoff mod 4096 = 0) by (unfold shared_start; destruct Hok; zdiv).
    split; [lia|apply Hpos|exact Hi'|intros a; rewrite Hm1; reflexivity|intros k a ->; discriminate|].
    split; intros q' Hne Hq'; rewrite ?Er, ?Ev; [destruct (decide (q' = q)) as [->|]; [congruence|]|]; now rewrite lookup_insert_ne by congruence.
Qed.

(** The memory of the machine ends below the value [calc_reloc] uses for an error. *)
Definition memory_top : Z := 0xFF000000.

Hypothesis ram_below : forall own s q, holds [] own s -> q ∈ pages own -> q * 4096 < memory_top.

Lemma mapped_below lost st k a : mm_inv base ext lost st -> mapped st k a -> 0 <= a < memory_top.
Proof.
  intros Hi (m & p & v & Hm & Hp & Hv & Ha). pose proof (mi_core _ _ _ _ Hi) as [_ Hl Hh _].
  destruct (lk_vma _ _ Hl p v Hv) as (r & g & _ & Hg & Hok). pose proof (lk_region _ _ Hl r g Hg) as Hgk.
  destruct (vo_span _ _ Hok). destruct (ro_order _ Hgk). unfold covers in Ha.
  assert (Hq : a / 4096 ∈ region_pages g) by (apply elem_of_region_pages; [exact Hgk|]; destruct Hgk; zdiv).
  assert (Hin : a / 4096 ∈ pages (singles (page_list (regions st)) ++ singles lost ++ ext)).
  { rewrite pages_app. apply elem_of_app. left. unfold singles. rewrite pages_singles. apply elem_of_mlist. now exists r, g. }
  specialize (ram_below _ _ _ Hh Hin). unfold memory_top in *. zdiv.
Qed.

Lemma maps_at_range lost cur f len r p st ret st' : 0 < len -> maps_at lost cur f len r p st ret st' -> ret + len <= memory_top.
Proof.
  intros Hl Hma. destruct (mapped_below lost st' cur (ret + len - 1)); [apply Hma| |lia]. apply (ma_mapped _ _ _ _ _ _ _ _ _ Hma). right. lia.
Qed.

(** [do_mmap] of the loader, with its errors. *)
Lemma do_mmap_ok lost cur m f len prot flags nr nv st :
  mm_inv base ext lost st -> mms st !! cur = Some m -> copied f -> 0 < len < 2 ^ 32 ->
  (f = None -> has flags MAP_EXECUTABLE = false) -> fresh nr nv st ->
  exists ret st', do_mmap e cur f len prot flags nr nv st = Ok (ret, st')
    /\ ((ret < 0 /\ unchanged st st' /\ (f = None -> ret = - ENOMEM \/ validate_mmap_request e f len prot flags 0 = inl ret)
          /\ exists lost', mm_inv base ext lost' st' /\ (f = None -> lost' = lost))
        \/ maps_at lost cur f len nr nv st ret st').
Proof.
  intros Hi Hmm Hf Hl Hex [Hnr Hnv].
  destruct (do_mmap_pgoff_ok e base ext lost cur m f len prot flags 0 nr nv st Hi Hmm Hf) as (ret & st' & E & Hr); try assumption; try lia.
  exists ret, st'. split; [exact E|]. unfold mmap_result in Hr. destruct (validate_mmap_request e f len prot flags 0) as [err|c] eqn:Hv.
  { destruct Hr as [-> ->]. left. split_and!; [exact (validation_negative _ _ _ _ _ _ _ Hv)|now repeat split|now right|exists lost; auto]. }
  assert (Hno : ret = - ENOMEM /\ st' = st -> ret < 0 /\ unchanged st st' /\ (f = None -> ret = - ENOMEM \/ inr c = inl ret)
    /\ exists lost', mm_inv base ext lost' st' /\ (f = None -> lost' = lost)).
  { intros [-> ->]. unfold ENOMEM. split_and!; [lia|now repeat split|now left|exists lost; auto]. }
  destruct nr as [r|]; [|left; now apply Hno]. destruct nv as [p|]; [|left; now apply Hno].
  destruct (outcome_maps lost cur m p r f len (determine_vm_flags e f prot flags c) 0 c st ret st' Hi Hmm (Hnr r eq_refl) (Hnv p eq_refl)) as [(H1 & H2 & H3 & H4)|Hma];
    [apply request_allowed; auto; lia|exact Hr| |right; exact Hma]. left. split_and!; auto.
Qed.

End Map.
