(* ===== verification/FlatLoad.v ===== *)
(** * The loader of flat executables: loading a file

    [load_flat_file] on the file of an image: the text mapped from the file or copied to
    memory, the data read, and the program set up. *)

From stdpp Require Import gmap sorting.
From S2P Require Import Prelude PageAlloc Buddy BuddyAlloc Pcp PageOps PageSource Nommu NommuLib NommuPages NommuInv NommuFind NommuUnmap NommuMmap NommuRun NommuSpec.
From S2P Require Import Flat FlatLib FlatReloc FlatImage FlatPlace FlatMap.

(** ** Room *)

(** What data, bss, stack and relocations need. *)
Definition extra_of (img : image) (stack_len : Z) : Z := Z.max (im_bss img + stack_len) (size_relocs img).
Definition needed (img : image) (stack_len : Z) : Z := size_data img + extra_of img stack_len.

Definition page_up (n : Z) : Z := 4096 * ((n + 4095) / 4096).

Definition ram_flag (img : image) : bool := has (im_flags img) (FLAT_FLAG_RAM .| FLAT_FLAG_GZIP).

(** The whole program fits the memory, and the pages taken leave room for the alignment of the data, which
    their size does not count. *)
Record loadable (img : image) (stack_len : Z) : Prop := {
  ld_stack : 0 <= stack_len;
  ld_size : HDR_SIZE + size_text img + needed img stack_len + 4 <= TASK_SIZE;
  ld_room : if ram_flag img
    then 8 * ((HDR_SIZE + size_text img + 11) / 8) + needed img stack_len <= page_up (HDR_SIZE + size_text img + needed img stack_len + 4)
    else 8 + needed img stack_len <= page_up (needed img stack_len + 4)
}.

Lemma PAGE_ALIGN_up n : 0 < n <= TASK_SIZE -> PAGE_ALIGN n = page_up n.
Proof. unfold TASK_SIZE. intros Hn. unfold page_up. apply PAGE_ALIGN_small; lia. Qed.

Lemma page_up_range n : 0 < n <= TASK_SIZE -> n <= page_up n <= TASK_SIZE /\ page_up n < n + 4096.
Proof. unfold page_up, TASK_SIZE. intros Hn. zdiv. Qed.

Lemma page_up_page n : page_up n mod 4096 = 0.
Proof. unfold page_up. rewrite Z.mul_comm. apply Z.mod_mul. lia. Qed.

Lemma page_up_id n : n mod 4096 = 0 -> page_up n = n.
Proof. unfold page_up. intros Hn. zdiv. Qed.

Lemma ALIGN8 a : 0 <= a < 2 ^ 32 - 7 -> ALIGN a FLAT_DATA_ALIGN = 8 * ((a + 7) / 8).
Proof.
  intros Ha. unfold ALIGN. change (FLAT_DATA_ALIGN - 1) with 7. rewrite (u32_id (a + 7)) by (unfold fits; lia).
  apply (align_down8 (a + 7)). unfold fits. lia.
Qed.

Section Load.

Context {PS : Type} `{PageSource PS} (e : env) (base : Z -> Z) (ext : list (Z * nat)).
Hypothesis ram_below : forall own s q, holds [] own s -> q ∈ pages own -> q * 4096 < memory_top.
Hypothesis no_security : forall prot prot' flags, 0 <= security_file_mmap e prot prot' flags.
Implicit Type x : exec PS.

(** The mappings, with nothing changed when they fail. *)
Lemma map_ram_ok lost cur m len nr nv x :
  mm_inv base ext lost (x_mm x) -> mms (x_mm x) !! cur = Some m -> 0 < len <= TASK_SIZE -> len mod 4096 = 0 -> fresh nr nv (x_mm x) ->
  exists ret x', map_ram e cur len nr nv x = Ok (ret, x')
    /\ ((ret = - ENOMEM /\ exists st', unchanged (x_mm x) st' /\ mm_inv base ext lost st' /\ x' = set_x_mm x st')
        \/ exists st', maps_at base ext lost cur None len nr nv (x_mm x) ret st' /\ ret + len <= memory_top
             /\ x' = add_map x st' ret len (memset0 (x_mem x) ret len)).
Proof.
  intros Hi Hmm Hl Hal Hf. unfold map_ram. unfold TASK_SIZE in Hl.
  destruct (do_mmap_ok e base ext lost cur m None len (PROT_READ .| PROT_WRITE .| PROT_EXEC) MAP_PRIVATE nr nv (x_mm x) Hi Hmm I) as (ret & st' & -> & Ho);
    try assumption; [lia|reflexivity|]. cbn [rbind].
  destruct Ho as [(Hneg & Hu & Herr & lost' & Hi' & El)|Hma].
  - rewrite (El eq_refl) in Hi'. rewrite (proj2 (Z.leb_le ret 0)) by lia. rewrite (proj2 (Z.eqb_neq ret 0)) by lia.
    exists ret, (set_x_mm x st'). split; [reflexivity|]. left. split; [|exists st'; auto].
    destruct (Herr eq_refl) as [|Hv]; [assumption|]. rewrite anonymous_allowed in Hv; [discriminate|reflexivity|now left|unfold TASK_SIZE; lia|intros prot2; apply no_security].
  - pose proof (ma_pos _ _ _ _ _ _ _ _ _ _ _ Hma) as Hpos. rewrite (proj2 (Z.leb_gt ret 0)) by lia.
    rewrite PAGE_ALIGN_up, page_up_id by (assumption || (unfold TASK_SIZE; lia)).
    eexists ret, _. split; [reflexivity|]. right. exists st'. split; [exact Hma|]. split; [|reflexivity].
    apply (maps_at_range base ext ram_below lost cur None len nr nv (x_mm x) ret st'); [lia|exact Hma].
Qed.

Lemma map_text_ok lost cur m b len nr nv x :
  mm_inv base ext lost (x_mm x) -> mms (x_mm x) !! cur = Some m -> copied (Some (b_file b)) -> 0 < len <= TASK_SIZE -> fresh nr nv (x_mm x) ->
  exists ret x', map_text e cur b len nr nv x = Ok (ret, x')
    /\ ((ret < 0 /\ exists st' lost', unchanged (x_mm x) st' /\ mm_inv base ext lost' st' /\ x' = set_x_mm x st')
        \/ exists st', maps_at base ext lost cur (Some (b_file b)) len nr nv (x_mm x) ret st' /\ ret + page_up len <= memory_top
             /\ x' = add_map x st' ret (page_up len)
                  (write_bytes (memset0 (x_mem x) ret (page_up len)) ret (match b_read b 0 (page_up len) with inl _ => [] | inr l => l end))).
Proof.
  intros Hi Hmm Hc Hl Hf. unfold map_text. pose proof (page_up_range len Hl) as Hup. pose proof (PAGE_ALIGN_up len Hl) as ->. unfold TASK_SIZE in Hl.
  destruct (do_mmap_ok e base ext lost cur m (Some (b_file b)) len (PROT_READ .| PROT_EXEC) (MAP_PRIVATE .| MAP_EXECUTABLE) nr nv (x_mm x) Hi Hmm Hc)
    as (ret & st' & -> & Ho); try assumption; [lia|discriminate|]. cbn [rbind].
  destruct Ho as [(Hneg & Hu & _ & lost' & Hi' & _)|Hma].
  - rewrite (proj2 (Z.leb_le ret 0)) by lia. rewrite (proj2 (Z.eqb_neq ret 0)) by lia.
    exists ret, (set_x_mm x st'). split; [reflexivity|]. left. split; [exact Hneg|]. exists st', lost'. auto.
  - pose proof (ma_pos _ _ _ _ _ _ _ _ _ _ _ Hma) as Hpos. pose proof (ma_page _ _ _ _ _ _ _ _ _ _ _ Hma) as Hpg. rewrite (proj2 (Z.leb_gt ret 0)) by lia.
    eexists ret, _. split; [reflexivity|]. right. exists st'. split; [exact Hma|]. split; [|reflexivity].
    pose proof (maps_at_range base ext ram_below lost cur _ len nr nv (x_mm x) ret st' ltac:(lia) Hma) as Hr. unfold memory_top, page_up in *. zdiv.
Qed.

(** Reading what the file has. *)
Lemma read_into_ok b a n pos l x :
  b_read b pos n = inr l -> usable (x_maps x) a (a + Z.of_nat (length l)) ->
  read_into b a n pos x = Ok (Z.of_nat (length l), set_x_mem x (write_bytes (x_mem x) a l)).
Proof. intros Er Hu. unfold read_into. rewrite Er. now rewrite (usable_in _ _ _ _ _ Hu) by lia. Qed.

Definition tail_of (img : image) : list Z := im_data img ++ flat_map be32 (im_relocs img).

Lemma tail_placed img (m : memory) dp :
  sized img ->
  (forall i, 0 <= i < size_data img -> write_bytes m dp (tail_of img) (dp + i) = image_byte img (size_text img + i))
  /\ words (write_bytes m dp (tail_of img)) (dp + size_data img) (map ntohl (im_relocs img)).
Proof.
  intros Hs. pose proof (tail_length img) as Hlen. fold (tail_of img) in Hlen.
  assert (Hd : 0 <= size_data img) by (unfold size_data; lia). assert (Hr : 0 <= size_relocs img) by (unfold size_relocs; lia). split.
  - intros i Hi. rewrite write_bytes_in by lia. replace (dp + i - dp) with i by lia. now apply tail_data.
  - apply table_words; [apply Hs|]. fold (size_relocs img). intros i Hi. rewrite write_bytes_in by lia.
    replace (dp + size_data img + i - dp) with (size_data img + i) by lia. now apply tail_table.
Qed.

(** Where a program has been read, and what of the address space the process has. *)
Record parts (img : image) (stack_len cur : Z) (lost : list Z) x (pl : placement) (x' : exec PS) : Prop := {
  pt_placed : placed img stack_len pl (x_maps x') (x_mem x');
  pt_bytes : bytes (x_mem x');
  pt_inv : mm_inv base ext lost (x_mm x');
  pt_proc : is_Some (mms (x_mm x') !! cur);
  pt_data : datapos pl mod 8 = 0;
  pt_mapped a : mapped (x_mm x') cur a <->
    mapped (x_mm x) cur a \/ textpos pl <= a < textpos pl + HDR_SIZE + size_text img \/ memp pl <= a < memp pl + memp_size pl
}.

Lemma maps_at_proc lost cur f len r p st ret st' : 0 < len -> maps_at base ext lost cur f len r p st ret st' -> is_Some (mms st' !! cur).
Proof.
  intros Hl Hma. destruct (proj2 (ma_mapped _ _ _ _ _ _ _ _ _ _ _ Hma ret) ltac:(right; lia)) as (m & p' & v & Hm & _). now exists m.
Qed.

(** Everything in one block of memory. *)
Lemma load_ram_ok lost cur m b img sl nr nv x :
  mm_inv base ext lost (x_mm x) -> mms (x_mm x) !! cur = Some m -> fresh nr nv (x_mm x) -> bytes (x_mem x) ->
  sized img -> reads b img -> loadable img sl -> ram_flag img = true ->
  exists res, load_ram e cur b (hdr_of img) (size_data img) (extra_of img sl) (Z.of_nat (length (im_relocs img))) nr nv x = Ok res
    /\ match res with
       | inl (ret, x') => ret = - ENOMEM /\ exists st', unchanged (x_mm x) st' /\ mm_inv base ext lost st' /\ x' = set_x_mm x st'
       | inr (pl, x') => parts img sl cur lost x pl x'
       end.
Proof.
  intros Hi Hmm Hf Hb Hs Hrd [Hsl Hsz Hroom] Hram. rewrite Hram in Hroom. unfold load_ram. cbn [hdr_of h_data_start h_reloc_start].
  set (T := size_text img) in *. set (D := size_data img) in *. set (R := size_relocs img) in *. unfold needed in *. fold D in Hsz, Hroom. set (X := extra_of img sl) in *.
  assert (Hd : 0 <= T /\ 0 <= D /\ 0 <= R /\ R <= X /\ im_bss img + sl <= X) by (unfold X, extra_of, T, D, R, size_text, size_data, size_relocs; lia).
  change (MAX_SHARED_LIBS * 4) with 4. unfold HDR_SIZE in *. rewrite (u32_id (64 + T + D + X + 4)) by (unfold fits, TASK_SIZE in *; lia).
  replace (64 + T + (D + X) + 4) with (64 + T + D + X + 4) in * by lia. pose proof (page_up_range (64 + T + D + X + 4) ltac:(lia)) as [Hup _].
  rewrite (PAGE_ALIGN_up (64 + T + D + X + 4)) by lia. pose proof (page_up_page (64 + T + D + X + 4)) as Hpg. set (len := page_up (64 + T + D + X + 4)) in *.
  destruct (map_ram_ok lost cur m len nr nv x Hi Hmm ltac:(lia) Hpg Hf) as (tp & x1 & -> & Ho). cbn [rbind].
  destruct Ho as [(-> & st' & Hu & Hi' & ->)|(st' & Hma & Htop & ->)]; [eexists; split; [reflexivity|]; cbn; eauto|].
  pose proof (ma_pos _ _ _ _ _ _ _ _ _ _ _ Hma) as Hpos. pose proof (ma_page _ _ _ _ _ _ _ _ _ _ _ Hma) as Htp. rewrite (proj2 (Z.ltb_ge tp 0)) by lia.
  unfold memory_top in Htop. rewrite (u32_id (tp + (64 + T))), (u32_id (tp + (64 + T) + 4)) by (unfold fits; lia).
  rewrite ALIGN8 by lia. replace (tp + (64 + T) + 4 + 7) with (tp + 64 + T + 11) by lia. set (dp := 8 * ((tp + 64 + T + 11) / 8)).
  assert (Hdp : dp = tp + 8 * ((64 + T + 11) / 8)) by (unfold dp; zdiv). assert (Hdp8 : dp mod 8 = 0) by (unfold dp; zdiv). clearbody dp.
  assert (Hdp1 : tp + 64 + T + 4 <= dp) by zdiv.
  assert (Hus : usable (x_maps (add_map x st' tp len (memset0 (x_mem x) tp len))) tp (tp + len)).
  { exists tp, len. cbn [x_maps add_map]. split; [left|lia]. }
  pose proof (file_length img) as Hfl. fold T D R in Hfl. unfold HDR_SIZE in Hfl.
  assert (Hl1 : Z.of_nat (length (firstn (Z.to_nat (64 + T)) (file_of img))) = 64 + T) by (rewrite length_firstn; lia).
  rewrite (read_into_ok b tp (64 + T) 0 (firstn (Z.to_nat (64 + T)) (file_of img))); [|now rewrite (rd_read _ _ Hrd) by lia|rewrite Hl1; apply (usable_sub _ _ _ _ _ Hus); lia].
  rewrite Hl1. cbn [rbind]. rewrite (proj2 (Z.ltb_ge (64 + T) 0)) by lia.
  rewrite (u32_id (D + _)) by (unfold fits, R, size_relocs, TASK_SIZE in *; lia).
  pose proof (tail_length img) as Hl2. fold (tail_of img) D R in Hl2.
  replace (D + Z.of_nat (length (im_relocs img)) * 4) with (D + R) by (unfold R, size_relocs; lia).
  rewrite (read_into_ok b dp (D + R) (64 + T) (tail_of img)).
  2: { rewrite (rd_read _ _ Hrd) by lia. f_equal. apply file_tail. }
  2: { rewrite Hl2. cbn [x_maps set_x_mem]. apply (usable_sub _ _ _ _ _ Hus); lia. }
  rewrite Hl2. cbn [rbind]. rewrite (proj2 (Z.ltb_ge (D + R) 0)) by lia. eexists. split; [reflexivity|].
  replace (dp + (64 + T + D - (64 + T))) with (dp + D) by lia. rewrite (u32_id (dp + D)) by (unfold fits; lia).
  cbn [x_mem x_mm x_maps set_x_mem add_map]. set (m1 := write_bytes (memset0 (x_mem x) tp len) tp _).
  destruct (tail_placed img m1 dp Hs) as [Htd Htt]. fold T D in Htd, Htt.
  split; [split|..]; cbn [x_mem x_mm x_maps set_x_mem add_map textpos datapos reloc memp memp_size]; unfold HDR_SIZE; fold T D R; try assumption; try lia.
  - intros i Hi0. rewrite write_bytes_out by lia. unfold m1. rewrite write_bytes_in by lia.
    replace (tp + 64 + i - tp) with (HDR_SIZE + i) by (unfold HDR_SIZE; lia). rewrite nth_firstn_in by (unfold HDR_SIZE; lia). now apply file_text.
  - apply (usable_sub _ _ _ _ _ Hus); lia.
  - zdiv.
  - unfold RELOC_FAILED. lia.
  - apply write_bytes_bytes; [apply write_bytes_bytes; [now apply memset0_bytes|apply Forall_take; now apply file_bytes]|now apply tail_bytes].
  - apply Hma.
  - apply (maps_at_proc lost cur None len nr nv (x_mm x) tp st'); [lia|exact Hma].
  - intros a. rewrite (ma_mapped _ _ _ _ _ _ _ _ _ _ _ Hma). intuition lia.
Qed.

Definition distinct (a b : option Z) : Prop := forall q, a = Some q -> b <> Some q.

Lemma fresh_later r1 v1 r2 v2 st (st' : nommu PS) :
  only_new r1 v1 st st' -> fresh r2 v2 st -> distinct r2 r1 -> distinct v2 v1 -> fresh r2 v2 st'.
Proof.
  intros [H1 H2] [H3 H4] Hr Hv. split; intros q E; [apply H1; [|now apply H3]|apply H2; [|now apply H4]].
  - intros E'. now apply (Hr q E).
  - intros E'. now apply (Hv q E).
Qed.

(** Giving a mapping back cannot fault. *)
Lemma unmap_ok lost cur start len x :
  mm_inv base ext lost (x_mm x) -> is_Some (mms (x_mm x) !! cur) -> 0 <= start -> 0 <= len -> start + len < 2 ^ 32 ->
  exists x', unmap e cur start len None None x = Ok x' /\ mm_inv base ext lost (x_mm x').
Proof.
  intros Hi [m Hm] Hs Hl Hw. unfold unmap.
  destruct (do_munmap_ok base ext e lost cur m start len None None (x_mm x) Hi Hm Hs Hl Hw) as (ret & st' & -> & Hi' & _); [discriminate..|].
  cbn [rbind]. eexists. split; [reflexivity|exact Hi'].
Qed.

(** The two mappings of a program whose text stays apart: [tp] and [real], with the text read. *)
Record rom_mapped (img : image) (sl cur : Z) (lost : list Z) x (tp real : Z) (x2 : exec PS) : Prop := {
  rm_text i : 0 <= i < size_text img -> x_mem x2 (tp + HDR_SIZE + i) = image_byte img i;
  rm_bytes : bytes (x_mem x2);
  rm_inv : mm_inv base ext lost (x_mm x2);
  rm_proc : is_Some (mms (x_mm x2) !! cur);
  rm_maps : x_maps x2 = (real, page_up (needed img sl + 4)) :: (tp, page_up (HDR_SIZE + size_text img)) :: x_maps x;
  rm_text_range : 0 < tp /\ tp mod 4096 = 0 /\ tp + page_up (HDR_SIZE + size_text img) <= memory_top;
  rm_real_range : 0 < real /\ real mod 4096 = 0 /\ real + page_up (needed img sl + 4) <= memory_top;
  rm_apart : tp + HDR_SIZE + size_text img <= real \/ real + page_up (needed img sl + 4) <= tp;
  rm_mapped a : mapped (x_mm x2) cur a <->
    mapped (x_mm x) cur a \/ tp <= a < tp + HDR_SIZE + size_text img \/ real <= a < real + page_up (needed img sl + 4)
}.

Lemma sizes_of img sl : sized img ->
  0 <= size_text img /\ 0 <= size_data img /\ 0 <= size_relocs img /\ size_relocs img <= extra_of img sl /\ im_bss img + sl <= extra_of img sl.
Proof. intros Hs. pose proof (sizes_nonneg img Hs). unfold extra_of. lia. Qed.

(** The mappings are made or an error is returned. *)
Lemma rom_maps_ok lost cur m b img sl r1 v1 r2 v2 x :
  mm_inv base ext lost (x_mm x) -> mms (x_mm x) !! cur = Some m -> copied (Some (b_file b)) ->
  fresh r1 v1 (x_mm x) -> fresh r2 v2 (x_mm x) -> distinct r2 r1 -> distinct v2 v1 -> bytes (x_mem x) ->
  sized img -> reads b img -> 0 <= sl -> HDR_SIZE + size_text img + needed img sl + 4 <= TASK_SIZE ->
  let run := load_rom e cur b (hdr_of img) (size_data img) (extra_of img sl) (Z.of_nat (length (im_relocs img))) r1 v1 r2 v2 x in
  (exists ret x', run = Ok (inl (ret, x')) /\ ret < 0 /\ exists lost', mm_inv base ext lost' (x_mm x'))
  \/ exists tp real x2, rom_mapped img sl cur lost x tp real x2
       /\ run = let* (res, x3) := read_into b (real + 8) (size_data img + size_relocs img) (HDR_SIZE + size_text img) x2 in
                if res <? 0 then
                  let* x3 := unmap e cur tp (HDR_SIZE + size_text img) None None x3 in
                  let* x3 := unmap e cur real (u32 (size_data img + extra_of img sl)) None None x3 in
                  Ok (inl (res, x3))
                else Ok (inr ({| textpos := tp; datapos := real + 8; reloc := real + 8 + size_data img; memp := real;
                                 memp_size := page_up (needed img sl + 4) |}, x3)).
Proof.
  intros Hi Hmm Hcp Hf1 Hf2 Hdr Hdv Hb Hs Hrd Hsl Hsz run. subst run. unfold load_rom. cbn [hdr_of h_data_start h_reloc_start]. unfold needed in *.
  pose proof (sizes_of img sl Hs) as Hd. change (MAX_SHARED_LIBS * 4) with 4. unfold HDR_SIZE in *.
  set (T := size_text img) in *. set (D := size_data img) in *. set (R := size_relocs img) in *. set (X := extra_of img sl) in *.
  destruct (map_text_ok lost cur m b (64 + T) r1 v1 x Hi Hmm Hcp ltac:(lia) Hf1) as (tp & x1 & -> & Ho). cbn [rbind].
  destruct Ho as [(Hneg & st' & lost' & Hu & Hi' & ->)|(st1 & Hma & Htop & ->)].
  { left. rewrite (proj2 (Z.ltb_lt tp 0)) by exact Hneg. eexists tp, _. split; [reflexivity|]. eauto. }
  pose proof (ma_pos _ _ _ _ _ _ _ _ _ _ _ Hma) as Hpos. pose proof (ma_page _ _ _ _ _ _ _ _ _ _ _ Hma) as Htpg.
  rewrite (proj2 (Z.ltb_ge tp 0)) by lia. unfold memory_top in Htop.
  pose proof (page_up_range (64 + T) ltac:(lia)) as [Hup1 _]. set (len1 := page_up (64 + T)) in *. set (m1 := write_bytes (memset0 (x_mem x) tp len1) tp _).
  rewrite (u32_id (D + X + 4)) by (unfold fits, TASK_SIZE in *; lia). pose proof (page_up_range (D + X + 4) ltac:(lia)) as [Hup2 _].
  rewrite (PAGE_ALIGN_up (D + X + 4)) by lia. pose proof (page_up_page (D + X + 4)) as Hpg2. set (len2 := page_up (D + X + 4)) in *.
  destruct (maps_at_proc lost cur _ (64 + T) r1 v1 (x_mm x) tp st1 ltac:(lia) Hma) as [mp Hmp].
  destruct (map_ram_ok lost cur mp len2 r2 v2 (add_map x st1 tp len1 m1)) as (real & x2 & -> & Ho2); try assumption; try lia.
  { apply Hma. } { apply (fresh_later r1 v1 r2 v2 (x_mm x)); try assumption. apply Hma. }
  cbn [rbind]. destruct Ho2 as [(-> & st2 & Hu & Hi2 & ->)|(st2 & Hma2 & Htop2 & ->)].
  { left. change (- ENOMEM <? 0) with true. destruct (unmap_ok lost cur tp (64 + T) (set_x_mm (add_map x st1 tp len1 m1) st2)) as (x' & -> & Hi'); try lia.
    - exact Hi2.
    - cbn [x_mm set_x_mm]. destruct Hu as (_ & _ & -> & _). now exists mp.
    - cbn [rbind]. eexists _, _. split; [reflexivity|]. unfold ENOMEM. split; [lia|eauto]. }
  right. cbn [x_mm add_map] in Hma2. pose proof (ma_pos _ _ _ _ _ _ _ _ _ _ _ Hma2) as Hpos2. pose proof (ma_page _ _ _ _ _ _ _ _ _ _ _ Hma2) as Hpg.
  rewrite (proj2 (Z.ltb_ge real 0)) by lia. unfold memory_top in Htop2.
  assert (Hsep : tp + 64 + T <= real \/ real + len2 <= tp).
  { destruct (Z.le_gt_cases (tp + 64 + T) real) as [|H1]; [now left|]. destruct (Z.le_gt_cases (real + len2) tp) as [|H2]; [now right|]. exfalso.
    apply (ma_alone _ _ _ _ _ _ _ _ _ _ _ Hma2 cur (Z.max tp real) eq_refl); [lia|]. apply (ma_mapped _ _ _ _ _ _ _ _ _ _ _ Hma). right. lia. }
  eexists tp, real, _. split.
  2: { rewrite (u32_id (real + 4)) by (unfold fits; lia). rewrite ALIGN8 by lia. replace (8 * ((real + 4 + 7) / 8)) with (real + 8) by zdiv.
       rewrite (u32_id (D + _)) by (unfold fits, R, size_relocs, TASK_SIZE in *; lia).
       replace (D + Z.of_nat (length (im_relocs img)) * 4) with (D + R) by (unfold R, size_relocs; lia).
       replace (real + 8 + (64 + T + D - (64 + T))) with (real + 8 + D) by lia. rewrite (u32_id (real + 8 + D)) by (unfold fits; lia). reflexivity. }
  pose proof (file_length img) as Hfl. fold T D R in Hfl. unfold HDR_SIZE in Hfl.
  split; cbn [x_mem x_mm x_maps add_map]; unfold HDR_SIZE, needed, memory_top; fold T D R X len1 len2; try lia; try reflexivity.
  - intros i Hi0. rewrite memset0_out by lia. unfold m1.
    assert (Hlen : 64 + T <= Z.of_nat (length (firstn (Z.to_nat len1) (file_of img)))) by (rewrite length_firstn; lia).
    rewrite (rd_read _ _ Hrd) by lia. change (skipn (Z.to_nat 0) (file_of img)) with (file_of img). rewrite write_bytes_in by lia.
    replace (tp + 64 + i - tp) with (HDR_SIZE + i) by (unfold HDR_SIZE; lia). rewrite nth_firstn_in by (unfold HDR_SIZE; lia). now apply file_text.
  - apply memset0_bytes. unfold m1. rewrite (rd_read _ _ Hrd) by lia.
    apply write_bytes_bytes; [now apply memset0_bytes|apply Forall_take; now apply file_bytes].
  - apply Hma2.
  - apply (maps_at_proc lost cur None len2 r2 v2 st1 real st2); [lia|exact Hma2].
  - intros a. rewrite (ma_mapped _ _ _ _ _ _ _ _ _ _ _ Hma2), (ma_mapped _ _ _ _ _ _ _ _ _ _ _ Hma). intuition lia.
Qed.

(** The text mapped from the file, the rest in memory of its own. *)
Lemma load_rom_ok lost cur m b img sl r1 v1 r2 v2 x :
  mm_inv base ext lost (x_mm x) -> mms (x_mm x) !! cur = Some m -> copied (Some (b_file b)) ->
  fresh r1 v1 (x_mm x) -> fresh r2 v2 (x_mm x) -> distinct r2 r1 -> distinct v2 v1 -> bytes (x_mem x) ->
  sized img -> reads b img -> loadable img sl -> ram_flag img = false ->
  exists res, load_rom e cur b (hdr_of img) (size_data img) (extra_of img sl) (Z.of_nat (length (im_relocs img))) r1 v1 r2 v2 x = Ok res
    /\ match res with
       | inl (ret, x') => ret < 0 /\ exists lost', mm_inv base ext lost' (x_mm x')
       | inr (pl, x') => parts img sl cur lost x pl x'
       end.
Proof.
  intros Hi Hmm Hcp Hf1 Hf2 Hdr Hdv Hb Hs Hrd [Hsl Hsz Hroom] Hram. rewrite Hram in Hroom.
  destruct (rom_maps_ok lost cur m b img sl r1 v1 r2 v2 x) as [(ret & x' & -> & Hneg & Hl)|(tp & real & x2 & Hrm & ->)]; try assumption.
  { eexists. split; [reflexivity|]. exact (conj Hneg Hl). }
  pose proof (sizes_of img sl Hs) as Hd. destruct Hrm as [Htext Hb2 Hi2 Hp2 Em (Hpos & Htpg & Htop) (Hpos2 & Hpg & Htop2) Hsep Hmap]. unfold memory_top, HDR_SIZE in *.
  pose proof (page_up_range (64 + size_text img)) as Hup1. pose proof (page_up_page (needed img sl + 4)) as Hpg2.
  assert (Hn : 0 <= needed img sl) by (unfold needed; lia). specialize (Hup1 ltac:(lia)).
  set (len2 := page_up (needed img sl + 4)) in *. set (T := size_text img) in *. set (D := size_data img) in *. set (R := size_relocs img) in *.
  assert (Hus : usable (x_maps x2) real (real + len2)) by (exists real, len2; rewrite Em; split; [left|unfold needed in *; lia]).
  assert (Hut : usable (x_maps x2) tp (tp + page_up (64 + T))) by (exists tp, (page_up (64 + T)); rewrite Em; split; [right; left|lia]).
  pose proof (tail_length img) as Hl2. fold (tail_of img) D R in Hl2. unfold needed in Hroom. fold D in Hroom.
  rewrite (read_into_ok b (real + 8) (D + R) (64 + T) (tail_of img)).
  2: { rewrite (rd_read _ _ Hrd) by lia. f_equal. apply file_tail. }
  2: { rewrite Hl2. apply (usable_sub _ _ _ _ _ Hus); lia. }
  rewrite Hl2. cbn [rbind]. rewrite (proj2 (Z.ltb_ge (D + R) 0)) by lia. eexists. split; [reflexivity|].
  destruct (tail_placed img (x_mem x2) (real + 8) Hs) as [Htd Htt]. fold T D in Htd, Htt.
  split; [split|..]; cbn [x_mem x_mm x_maps set_x_mem textpos datapos reloc memp memp_size]; unfold HDR_SIZE; fold T D R; try assumption; try lia.
  - intros i Hi0. rewrite write_bytes_out by lia. now apply Htext.
  - apply (usable_sub _ _ _ _ _ Hut); lia.
  - zdiv.
  - unfold RELOC_FAILED. lia.
  - apply write_bytes_bytes; [exact Hb2|now apply tail_bytes].
  - zdiv.
Qed.

(** Without the room the data run past the end of their mapping. *)
Lemma load_rom_overrun lost cur m b img sl r1 v1 r2 v2 x :
  mm_inv base ext lost (x_mm x) -> mms (x_mm x) !! cur = Some m -> copied (Some (b_file b)) ->
  fresh r1 v1 (x_mm x) -> fresh r2 v2 (x_mm x) -> distinct r2 r1 -> distinct v2 v1 -> bytes (x_mem x) ->
  sized img -> reads b img -> 0 <= sl -> HDR_SIZE + size_text img + needed img sl + 4 <= TASK_SIZE ->
  x_maps x = [] -> page_up (needed img sl + 4) < 8 + size_data img + size_relocs img ->
  let run := load_rom e cur b (hdr_of img) (size_data img) (extra_of img sl) (Z.of_nat (length (im_relocs img))) r1 v1 r2 v2 x in
  (exists ret x', run = Ok (inl (ret, x')) /\ ret < 0) \/ run = Fault BadIndex.
Proof.
  intros Hi Hmm Hcp Hf1 Hf2 Hdr Hdv Hb Hs Hrd Hsl Hsz Hnil Hover run. subst run.
  destruct (rom_maps_ok lost cur m b img sl r1 v1 r2 v2 x) as [(ret & x' & -> & Hneg & _)|(tp & real & x2 & Hrm & ->)]; try assumption; [eauto|].
  right. pose proof (sizes_of img sl Hs) as Hd. destruct Hrm as [_ _ _ _ Em (Hpos & Htpg & Htop) (Hpos2 & Hpg & Htop2) Hsep _].
  unfold read_into. rewrite (rd_read _ _ Hrd) by (unfold HDR_SIZE; lia). rewrite file_tail, (tail_length img), in_maps_false; [reflexivity|].
  intros s k Hin. rewrite Em, Hnil in Hin. unfold HDR_SIZE, needed in *. pose proof (page_up_range (64 + size_text img)) as Hup1.
  pose proof (page_up_range (size_data img + extra_of img sl + 4)) as Hup2. pose proof (page_up_page (64 + size_text img)) as Hpg1.
  apply elem_of_cons in Hin as [[= -> ->]|Hin]; [lia|]. apply list_elem_of_singleton in Hin as [= -> ->].
  unfold page_up in *. zdiv.
Qed.

End Load.
