(* ===== verification/FlatExec.v ===== *)
(** * The loader of flat executables: starting a program

    [load_flat_file] and [load_flat_binary] on the file of an image, from the header to the
    stack of the new program. *)

From stdpp Require Import gmap sorting.
From S2P Require Import Prelude PageAlloc Buddy BuddyAlloc Pcp PageOps PageSource Nommu NommuLib NommuPages NommuInv NommuFind NommuUnmap NommuMmap NommuRun NommuSpec.
From S2P Require Import Flat FlatLib FlatTables FlatReloc FlatImage FlatPlace FlatMap FlatLoad.

(** ** The limits of the heap *)

Section Brks.

Context {PS : Type} `{PageSource PS}.
Implicit Type st : nommu PS.

Lemma brks_inv base ext lost cur m a b c st :
  mm_inv base ext lost st -> mms st !! cur = Some m -> mm_inv base ext lost (put_mm cur (set_brks m a b c) st).
Proof.
  intros [Hc Hm Hf] Hmm. split; [now apply (core_frame ext lost st)| |exact Hf]. mm_simpl.
  pose proof (ms_each _ _ Hm cur m Hmm) as Hk. apply (mms_ok_frame _ _ cur m); try assumption; try reflexivity. exact (mo_cache _ _ Hk).
Qed.

Lemma brks_mapped cur m a b c k addr st : mms st !! cur = Some m -> mapped (put_mm cur (set_brks m a b c) st) k addr <-> mapped st k addr.
Proof.
  intros Hm. unfold mapped. mm_simpl. destruct (decide (k = cur)) as [->|Hne]; [|now rewrite lookup_insert_ne by congruence].
  rewrite lookup_insert_eq. split; intros (m' & p & v & E & Hp & Hv & Ha).
  - injection E as <-. now exists m, p, v.
  - assert (m' = m) as -> by congruence. now exists (set_brks m a b c), p, v.
Qed.

End Brks.

(** ** The file *)

(** What the loader checks before the point of no return. *)
Record accepted (b : linux_binprm) (img : image) : Prop := {
  ac_plain : has (im_flags img) (FLAT_FLAG_GZIP .| FLAT_FLAG_GZDATA) = false;
  ac_limit : size_data img + im_bss img <= rlim_data b;
  ac_flush : flush_old_exec b = 0
}.

Lemma check_hdr_ok b img : sized img -> reads b img -> accepted b img -> check_hdr b (size_data img) (im_bss img) = inr (im_flags img).
Proof.
  intros Hs Hrd [H1 H2 H3]. destruct (read_hdr_of img (b_buf b) Hs (rd_buf _ _ Hrd)) as [Hmg Hh]. unfold check_hdr. rewrite Hmg, Hh.
  cbn [hdr_of h_rev h_flags]. change (FLAT_VERSION =? FLAT_VERSION) with true. change (FLAT_VERSION =? OLD_FLAT_VERSION) with false. cbn [negb andb].
  rewrite H1, H3. pose proof (sz_total _ Hs). pose proof (sz_bss _ Hs). pose proof (sz_stack _ Hs).
  rewrite (u32_id (size_data img + im_bss img)) by (unfold fits, size_text, size_data, size_relocs, HDR_SIZE in *; lia).
  now rewrite (proj2 (Z.ltb_ge (rlim_data b) _)) by exact H2.
Qed.

Section Exec.

Context {PS : Type} `{PageSource PS} (e : env) (base : Z -> Z) (ext : list (Z * nat)).
Hypothesis ram_below : forall own s q, holds [] own s -> q ∈ pages own -> q * 4096 < memory_top.
Hypothesis no_security : forall prot prot' flags, 0 <= security_file_mmap e prot prot' flags.
Implicit Type x : exec PS.

(** A program that has been loaded at [pl]: its image is in place, what follows the data is zero, the heap lies between
    bss and stack, and the process has the memory. *)
Record loaded (img : image) (got : list Z) (stack_len cur : Z) (lost : list Z) x (pl : placement) (x' : exec PS) : Prop := {
  lf_placed : exists m, placed img stack_len pl (x_maps x') m;
  lf_in_place : in_place img got (lib_of img pl) (x_mem x');
  lf_zero a : datapos pl + size_data img <= a < memp pl + memp_size pl -> x_mem x' a = 0;
  lf_bytes : bytes (x_mem x');
  lf_inv : mm_inv base ext lost (x_mm x');
  lf_brk : exists mm, mms (x_mm x') !! cur = Some mm
    /\ (start_brk mm, brk mm, end_brk mm) = (brk_start img pl, 4 * ((brk_start img pl + 3) / 4), brk_limit stack_len pl);
  lf_heap : brk_start img pl <= brk_limit stack_len pl;
  lf_data : datapos pl mod 8 = 0;
  lf_mapped a : mapped (x_mm x') cur a <->
    mapped (x_mm x) cur a \/ textpos pl <= a < textpos pl + HDR_SIZE + size_text img \/ memp pl <= a < memp pl + memp_size pl
}.

Lemma parts_loaded img got sl cur lost x pl x1 :
  sized img -> relocatable img got -> 0 <= sl -> parts base ext img sl cur lost x pl x1 ->
  exists x', finish_load cur (hdr_of img) (im_flags img) (Z.of_nat (length (im_relocs img))) (size_data img) (im_bss img) sl pl x1
      = Ok (inr (lib_of img pl, x')) /\ loaded img got sl cur lost x pl x'.
Proof.
  intros Hs Hrl Hsl [Hpl Hb Hi [mm Hmm] Hd Hm].
  destruct (finish_load_ok img got sl pl (x_maps x1) (x_mem x1) Hs Hrl Hpl Hsl Hb cur mm x1 eq_refl eq_refl Hmm)
    as (x' & -> & Emaps & Hb' & Hip & Hz & Emm & Hbrk & _).
  exists x'. split; [reflexivity|]. split; try assumption.
  - exists (x_mem x1). now rewrite Emaps.
  - rewrite Emm. now apply brks_inv.
  - rewrite Emm. mm_simpl. rewrite lookup_insert_eq. eexists. split; reflexivity.
  - intros a. rewrite Emm, brks_mapped by exact Hmm. apply Hm.
Qed.

(** The structures for the two mappings. *)
Record structures r1 v1 r2 v2 (st : nommu PS) : Prop := {
  su_first : fresh r1 v1 st;
  su_second : fresh r2 v2 st;
  su_regions : distinct r2 r1;
  su_areas : distinct v2 v1
}.

(** The header of an image decoded and checked. *)
Lemma load_flat_file_eq cur b img extra r1 v1 r2 v2 x :
  sized img -> reads b img -> accepted b img -> 0 <= extra -> HDR_SIZE + size_text img + needed img (im_stack img + extra) + 4 <= TASK_SIZE ->
  let sl := im_stack img + extra in
  let n := Z.of_nat (length (im_relocs img)) in
  load_flat_file e cur b extra r1 v1 r2 v2 x =
    let* r := if ram_flag img then load_ram e cur b (hdr_of img) (size_data img) (extra_of img sl) n r1 v1 x
              else load_rom e cur b (hdr_of img) (size_data img) (extra_of img sl) n r1 v1 r2 v2 x in
    match r with
    | inl (ret, x) => Ok (inl (ret, x))
    | inr (pl, x) =>
        let* r := finish_load cur (hdr_of img) (im_flags img) n (size_data img) (im_bss img) sl pl x in
        Ok (match r with inl res => inl res | inr (p, x) => inr ((p, sl), x) end)
    end.
Proof.
  intros Hs Hrd Hac He Hsz sl n. unfold load_flat_file.
  destruct (read_hdr_of img (b_buf b) Hs (rd_buf _ _ Hrd)) as [_ ->]. cbn [hdr_of h_data_start h_data_end h_bss_end h_stack_size h_reloc_count]. fold (hdr_of img).
  pose proof (sz_total _ Hs) as Ht. pose proof (sz_bss _ Hs) as Hbs. pose proof (sz_stack _ Hs) as Hst. pose proof (sizes_of img sl Hs) as Hd.
  assert (Hn : size_relocs img = n * 4) by (unfold size_relocs, n; lia). unfold needed, extra_of, HDR_SIZE, TASK_SIZE in *. fold sl n in Hsz |- *. rewrite Hn in *.
  replace (64 + size_text img + size_data img - (64 + size_text img)) with (size_data img) by lia.
  replace (64 + size_text img + size_data img + im_bss img - (64 + size_text img + size_data img)) with (im_bss img) by lia.
  rewrite (u32_id (size_data img)), (u32_id (im_bss img)), (u32_id sl) by (unfold fits; lia).
  rewrite (check_hdr_ok b img Hs Hrd Hac).
  assert (Es : s32 n = n) by (unfold s32; rewrite (u32_id n) by (unfold fits; lia); rewrite (proj2 (Z.ltb_lt n _)) by lia; reflexivity).
  rewrite Es. rewrite (u32_id (im_bss img + sl)), (u32_id (n * 4)) by (unfold fits; lia). reflexivity.
Qed.

Lemma load_flat_file_ok lost cur m b img got extra r1 v1 r2 v2 x :
  mm_inv base ext lost (x_mm x) -> mms (x_mm x) !! cur = Some m -> copied (Some (b_file b)) -> structures r1 v1 r2 v2 (x_mm x) -> bytes (x_mem x) ->
  sized img -> relocatable img got -> reads b img -> accepted b img -> 0 <= extra -> loadable img (im_stack img + extra) ->
  exists res, load_flat_file e cur b extra r1 v1 r2 v2 x = Ok res
    /\ match res with
       | inl (ret, x') => ret < 0 /\ exists lost', mm_inv base ext lost' (x_mm x')
       | inr ((p, sl), x') => sl = im_stack img + extra /\ exists pl, p = lib_of img pl /\ loaded img got sl cur lost x pl x'
       end.
Proof.
  intros Hi Hmm Hcp [Hf1 Hf2 Hdr Hdv] Hb Hs Hrl Hrd Hac He Hld. rewrite (load_flat_file_eq cur b img) by (auto; apply Hld). set (sl := im_stack img + extra) in *.
  assert (Hfin : forall pl x1, parts base ext img sl cur lost x pl x1 ->
    exists res, (let* r := finish_load cur (hdr_of img) (im_flags img) (Z.of_nat (length (im_relocs img))) (size_data img) (im_bss img) sl pl x1 in
                 Ok (match r with inl res => inl res | inr (p, x) => inr ((p, sl), x) end)) = Ok res
      /\ match res with
         | inl (ret, x') => ret < 0 /\ exists lost', mm_inv base ext lost' (x_mm x')
         | inr ((p, sl0), x') => sl0 = sl /\ exists pl, p = lib_of img pl /\ loaded img got sl0 cur lost x pl x'
         end).
  { intros pl x1 Hpt. destruct (parts_loaded img got sl cur lost x pl x1 Hs Hrl (ld_stack _ _ Hld) Hpt) as (x' & -> & Hlf).
    cbn [rbind]. eexists. split; [reflexivity|]. cbn. eauto. }
  destruct (ram_flag img) eqn:Hram.
  - destruct (load_ram_ok e base ext ram_below no_security lost cur m b img sl r1 v1 x) as (res & -> & Hres); try assumption. cbn [rbind].
    destruct res as [[ret x']|[pl x']]; [|now apply Hfin]. destruct Hres as (-> & st' & _ & Hi' & ->). eexists. split; [reflexivity|]. cbn. unfold ENOMEM.
    split; [lia|eauto].
  - destruct (load_rom_ok e base ext ram_below no_security lost cur m b img sl r1 v1 r2 v2 x) as (res & -> & Hres); try assumption. cbn [rbind].
    destruct res as [[ret x']|[pl x']]; [|now apply Hfin]. eexists. split; [reflexivity|exact Hres].
Qed.

(** *** The stack *)

(** The strings of arguments and environment end at the top of the argument pages. *)
Record arguments (b : linux_binprm) (args envs : list (list Z)) : Prop := {
  ar_argc : b_argc b = Z.of_nat (length args);
  ar_envc : b_envc b = Z.of_nat (length envs);
  ar_place : b_p b + strs_size (args ++ envs) = TOP_OF_ARGS;
  ar_low : 0 <= b_p b;
  ar_strings : cstrs (b_args b) (b_p b) (args ++ envs);
  ar_max : Forall (fun s => str_size s <= MAX_STRING) (args ++ envs)
}.

Definition args_size (args envs : list (list Z)) : Z :=
  strs_size (args ++ envs) + 4 * (Z.of_nat (length args) + 1) + 4 * (Z.of_nat (length envs) + 1) + 7.

(** Where the strings are in the new program, and its stack pointer. *)
Definition strings_at (pl : placement) (args envs : list (list Z)) : Z := memp pl + memp_size pl - 4 - strs_size (args ++ envs).
Definition initial_sp (pl : placement) (args envs : list (list Z)) : Z := stack_top (strings_at pl args envs) (Z.of_nat (length (args ++ envs))).

Lemma initial_sp_range pl img args envs : 16 <= im_stack img ->
  brk_limit (im_stack img + args_size args envs) pl <= initial_sp pl args envs
  /\ initial_sp pl args envs + 4 * (Z.of_nat (length (args ++ envs)) + 5) <= strings_at pl args envs.
Proof.
  intros H16. unfold brk_limit, initial_sp, strings_at, stack_top, args_size. rewrite length_app, Nat2Z.inj_add.
  set (E := memp pl + memp_size pl). set (n := Z.of_nat (length args)). set (k := Z.of_nat (length envs)). set (z := strs_size (args ++ envs)). zdiv.
Qed.

(** A running program: the image, the pointer to its data below them, zeroes up to the stack, and on it the counts,
    the tables and the strings. *)
Record running (img : image) (got : list Z) (args envs : list (list Z)) (pl : placement) (x' : exec PS) : Prop := {
  rn_lib : lib_ok (lib_of img pl);
  rn_in_place : in_place img got (lib_of img pl) (x_mem x');
  rn_self : get_word (x_mem x') (datapos pl - 4) = datapos pl;
  rn_zero a : datapos pl + size_data img <= a < initial_sp pl args envs -> x_mem x' a = 0;
  rn_align : initial_sp pl args envs mod 8 = 0;
  rn_words : words (x_mem x') (initial_sp pl args envs) (stack_words (strings_at pl args envs) (initial_sp pl args envs) args envs);
  rn_strings : cstrs (x_mem x') (strings_at pl args envs) (args ++ envs);
  rn_room : brk_start img pl <= brk_limit (im_stack img + args_size args envs) pl <= initial_sp pl args envs;
  rn_limits : (x_arg_start x', x_arg_end x', x_env_start x', x_env_end x')
    = (strings_at pl args envs, strings_at pl args envs + strs_size args, strings_at pl args envs + strs_size args, memp pl + memp_size pl - 4)
}.

Lemma start_stack_ok lost cur b img got args envs x0 x pl :
  let sl := im_stack img + args_size args envs in
  sized img -> relocatable img got -> 16 <= im_stack img -> arguments b args envs -> loaded img got sl cur lost x0 pl x ->
  exists x', start_stack cur b (lib_of img pl) sl x = Ok x'
    /\ running img got args envs pl x' /\ x_mm x' = x_mm x /\ x_start_stack x' = initial_sp pl args envs.
Proof.
  intros sl Hs Hrl H16 [Hac Hec Hap Hal Has Hax] [[m0 Hpl] Hip Hz _ _ [mm [Hmm Hbrk]] Hheap _ _].
  pose proof (initial_sp_range pl img args envs H16) as [Hsp1 Hsp2]. fold sl in Hsp1. pose proof (sizes_nonneg img Hs) as (Ht & Hd & Hbs & Hr).
  pose proof (strs_size_nonneg (args ++ envs)) as Hss. pose proof (usable_range _ _ _ (pd_mem _ _ _ _ _ Hpl)) as [Hm0 _].
  assert (Hsl : 0 <= sl) by (unfold sl, args_size; lia).
  pose proof Hpl as [_ _ _ _ _ Hmem Hpage Hbefore Hroom Hapart [Hb1 Hb2]]. unfold RELOC_FAILED, HDR_SIZE in *. set (E := memp pl + memp_size pl) in *.
  unfold brk_start in Hheap. unfold start_stack. cbn [lib_of start_data].
  rewrite (u32_id (datapos pl - 4)) by (unfold fits; lia).
  rewrite (store32_ok _ _ _ _ _ _ Hmem) by lia. cbn [rbind]. unfold deref. rewrite Hmm. cbn [rbind]. injection Hbrk as _ _ ->.
  assert (Etop : u32 ((u32 (brk_limit sl pl + sl + 3) .& .~ 3) - 4) = E - 4).
  { unfold brk_limit. fold E. replace (E - sl + sl + 3) with (E + 3) by lia. rewrite (u32_id (E + 3)) by (unfold fits; lia).
    rewrite align_down4 by (unfold fits; lia). replace (4 * ((E + 3) / 4)) with E by zdiv. apply u32_id. unfold fits. lia. }
  rewrite Etop. set (m1 := put_word (x_mem x) (datapos pl - 4) (datapos pl)).
  assert (Eat : strings_at pl args envs = E - 4 - strs_size (args ++ envs)) by reflexivity.
  assert (Hlo : memp pl <= initial_sp pl args envs) by lia.
  destruct (copy_args_ok (Z.to_nat (TOP_OF_ARGS - b_p b)) b (x_maps x) _ _ m1 (TOP_OF_ARGS - 1) (E - 4) Hmem) as (m2 & -> & Hin & Hout); [lia..|].
  cbn [rbind]. replace (E - 4 - Z.of_nat (Z.to_nat (TOP_OF_ARGS - b_p b))) with (strings_at pl args envs) in * by lia.
  assert (Hstr : cstrs m2 (strings_at pl args envs) (args ++ envs)).
  { replace (strings_at pl args envs) with (b_p b + (strings_at pl args envs - b_p b)) by lia. apply (cstrs_move (b_args b)); [|exact Has].
    intros y Hy. rewrite Hin by lia. f_equal. lia. }
  destruct (create_flat_tables_ok (strings_at pl args envs) b (set_x_mem x m2) args envs (memp pl) E Hstr Hax Hac Hec Hmem) as (m3 & -> & H8 & Hw & Ho); [exact Hlo|lia|].
  fold (initial_sp pl args envs) in *. cbn [x_mem set_x_mem] in Ho.
  eexists. split; [reflexivity|]. split; [|split; reflexivity].
  assert (Hlow : forall a, a < initial_sp pl args envs -> m3 a = m1 a) by (intros a Ha; rewrite Ho by lia; apply Hout; lia).
  split; cbn [x_mem set_tables x_arg_start x_arg_end x_env_start x_env_end]; try assumption.
  - exact (lib_of_ok img sl pl (x_maps x) m0 Hs Hpl Hsl).
  - apply (in_place_ext img got pl Hs Hrl (x_mem x)); [now apply (got_fits img got Hs Hrl)| |exact Hip].
    intros r Hr0. rewrite run_lib. unfold HDR_SIZE. destruct (Z.ltb_spec r (size_text img)).
    + destruct (Z.le_gt_cases E (textpos pl)) as [He|He].
      * rewrite Ho by lia. rewrite Hout by lia. unfold m1. apply put_word_out. lia.
      * rewrite Hlow by lia. unfold m1. apply put_word_out. lia.
    + rewrite Hlow by lia. unfold m1. apply put_word_out. lia.
  - transitivity (get_word m1 (datapos pl - 4)); [|apply get_put_same; unfold fits; lia]. apply get_word_ext. intros y Hy. apply Hlow. lia.
  - intros a Ha. rewrite Hlow by lia. unfold m1. rewrite put_word_out by lia. apply Hz. lia.
  - apply (cstrs_ext m2); [|exact Hstr]. intros y Hy. symmetry. apply Ho. lia.
  - split; [exact Hheap|exact Hsp1].
  - f_equal. lia.
Qed.

End Exec.
