(* ===== verification/FlatSpec.v ===== *)
(** * The loader of flat executables: properties

    What [fs/binfmt_flat.c] promises as a whole: the file of a well-formed image becomes a
    process whose code and data are the relocated image, with zeroed bss and heap and the
    arguments on its stack; which programs relocation refuses; and where the loader writes
    past its memory. *)

From stdpp Require Import gmap sorting.
From S2P Require Import Prelude PageAlloc Buddy BuddyAlloc Pcp PageOps PageSource Nommu NommuLib NommuPages NommuInv NommuFind NommuUnmap NommuMmap NommuRun NommuSpec.
From S2P Require Import Flat FlatLib FlatTables FlatReloc FlatImage FlatPlace FlatMap FlatLoad FlatExec.

(** C15: relocation accepts exactly the programs whose entries, and the words they name, are offsets into the program: the
    entries in [es], at [table], are refused (which becomes -ENOEXEC) if and only if one of them, or the word it names, lies
    beyond text, data and bss.  Otherwise every word named holds the run-time address of what it pointed to, zeroes stay zero,
    and no other byte changes.  This is for tables of 32-bit entries in which the four bytes at every entry that is in
    the program are in mapped memory and apart from those of the other entries and from the table itself, and for a program
    laid out in 32-bit addresses ([lib_ok]).  The code checks none of that: an entry twice is relocated twice, and one at the
    last bytes of bss writes past it. *)
Theorem flat_relocation p maps gotpic (m : memory) table es :
  lib_ok p -> bytes m -> Forall is_u32 es -> (forall e, e ∈ es -> e <= prog_size p -> in_maps maps (run p e) 4 = true) ->
  StronglySorted (fun e e' => e <= prog_size p -> e' <= prog_size p -> apart (run p e) (run p e')) es ->
  usable maps table (table + 4 * Z.of_nat (length es)) ->
  (forall e, e ∈ es -> e <= prog_size p -> run p e + 4 <= table \/ table + 4 * Z.of_nat (length es) <= run p e) -> words m table (map ntohl es) ->
  exists r, reloc_loop (length es) p maps gotpic m table 0 = Ok r
    /\ (r = None <-> exists e, e ∈ es /\ bad_entry p gotpic m e) /\ (forall m', r = Some m' -> relocated p gotpic es m m').
Proof.
  intros Hp Hm Hes Hin Hap Hu Hd Hw. destruct (reloc_loop_ok p Hp maps gotpic m table 0 es) as (r & E & Hr); try assumption.
  - now rewrite Z.mul_0_r, Z.add_0_r.
  - intros e0 He Hle. specialize (Hd e0 He Hle). lia.
  - now rewrite Z.mul_0_r, Z.add_0_r.
  - exists r. split; [exact E|]. destruct r as [m'|].
    + destruct Hr as (_ & Hr & Hg). split; [split; [discriminate|]|intros m0 [= <-]; exact Hr]. intros (e0 & He & Hb). destruct (Hg e0 He Hb).
    + split; [tauto|discriminate].
Qed.

Section Spec.

Context {PS : Type} `{PageSource PS} (e : env) (base : Z -> Z) (ext : list (Z * nat)).


(** The memory for data, bss and stack is sized without the four to eight bytes that aligning the data costs.  When they do not
    happen to fit the last page, and the relocation entries take as much room as bss and stack, reading the data writes past
    the end of the mapping: such a file is never loaded; unless memory is short the loader touches pages it does not own. *)
Theorem flat_data_overruns lost cur m b img extra r1 v1 r2 v2 x :
  (forall own s q, holds [] own s -> q ∈ pages own -> q * 4096 < memory_top) ->
  (forall prot prot' flags, 0 <= security_file_mmap e prot prot' flags) ->
  mm_inv base ext lost (x_mm x) -> mms (x_mm x) !! cur = Some m -> copied (Some (b_file b)) -> structures r1 v1 r2 v2 (x_mm x) -> bytes (x_mem x) ->
  sized img -> reads b img -> accepted b img -> ram_flag img = false -> 0 <= extra -> x_maps x = [] ->
  HDR_SIZE + size_text img + needed img (im_stack img + extra) + 4 <= TASK_SIZE ->
  page_up (needed img (im_stack img + extra) + 4) < 8 + size_data img + size_relocs img ->
  load_flat_file e cur b extra r1 v1 r2 v2 x = Fault BadIndex
  \/ exists ret x', load_flat_file e cur b extra r1 v1 r2 v2 x = Ok (inl (ret, x')) /\ ret < 0.
Proof.
  intros Hram Hsec Hi Hmm Hcp [Hf1 Hf2 Hdr Hdv] Hb Hs Hrd Hac Hrom He Hnil Hsz Hover. rewrite (load_flat_file_eq e cur b img) by auto. rewrite Hrom.
  pose proof (sz_stack _ Hs) as Hst.
  destruct (load_rom_overrun e base ext Hram Hsec lost cur m b img (im_stack img + extra) r1 v1 r2 v2 x) as [(ret & x' & -> & Hneg)| -> ]; try assumption; [lia| |now left].
  right. exists ret, x'. split; [reflexivity|exact Hneg].
Qed.

End Spec.

(** ** On the board's memory *)

Section Board.

#[local] Existing Instance disco_source.

Lemma disco_below own (s : zone) q : holds [] own s -> q ∈ pages own -> q * 4096 < memory_top.
Proof.
  intros Hh Hq. change (zone_at disco_pages (singles []) own s) in Hh. destruct Hh as [Hc _ _ _ _].
  assert (Hin : q ∈ disco_pages) by (rewrite <- (co_part _ _ _ _ Hc); rewrite !elem_of_app; tauto).
  apply elem_of_seqZ in Hin. unfold memory_top. lia.
Qed.

(** A regular file that is mapped by copying. *)
Definition disco_file : file := {| f_id := 1; d_inode := 1; can_mmap := true; bdi_capabilities := 0; i_mode := S_IFREG;
  can_get_unmapped_area := false; can_read := true; fmode_read := true; fmode_write := false; is_append := false; verify_locked := false;
  mnt_noexec := false; op_mmap s t _ := (- ENOSYS, (s, t)); op_get_unmapped_area _ _ _ := inl (- ENOSYS); op_read _ _ := 0 |}.



(** The last bytes of the argument pages. *)
Definition disco_strings : list Z := [108; 115; 0; 45; 108; 0; 65; 61; 49; 0].

Definition disco_bprm (img : image) : linux_binprm := {| b_buf i := nth (Z.to_nat i) (file_of img) 0; b_file := disco_file;
  b_read pos n := inr (firstn (Z.to_nat n) (skipn (Z.to_nat pos) (file_of img))); b_p := TOP_OF_ARGS - 10; b_argc := 2; b_envc := 1;
  b_args a := nth (Z.to_nat (a - (TOP_OF_ARGS - 10))) disco_strings 0; flush_old_exec := 0; rlim_data := u32_max |}.

Definition disco_exec : exec zone := {| x_mm := disco_mm; x_mem _ := 0; x_maps := []; x_start_code := 0; x_end_code := 0; x_start_data := 0;
  x_end_data := 0; x_arg_start := 0; x_arg_end := 0; x_env_start := 0; x_env_end := 0; x_start_stack := 0 |}.

Lemma disco_structures : structures (Some 10) (Some 20) (Some 11) (Some 21) (x_mm disco_exec).
Proof. split; [split; intros k _; apply lookup_empty..|intros q [= <-]; discriminate|intros q [= <-]; discriminate]. Qed.

Lemma disco_reads img : reads (disco_bprm img) img.
Proof. split; reflexivity. Qed.





(** Two entries: the second word points past the program of 24 bytes. *)
Definition disco_lib : lib_info := {| start_code := 0x1000; start_data := 0x2000; lib_start_brk := 0x2010; text_len := 8; entry := 0x1000; build_date := 0 |}.

Definition disco_words : memory := put_word (put_word (put_word (put_word (fun _ => 0) 0x2000 (ntohl 4)) 0x2004 (ntohl 25)) 0x2010 (ntohl 8)) 0x2014 (ntohl 12).

Lemma flat_relocation_witness :
  reloc_loop 2 disco_lib [(0x1000, 0x2000)] false disco_words 0x2010 0 = Ok None
  /\ exists m', reloc_loop 1 disco_lib [(0x1000, 0x2000)] false disco_words 0x2010 0 = Ok (Some m') /\ get_word m' 0x2000 = 0x1004.
Proof.
  assert (Hl : lib_ok disco_lib) by (split; vm_compute; (reflexivity || discriminate || (split; discriminate))).
  assert (Hb : bytes disco_words) by (unfold disco_words; repeat apply put_word_bytes; intros a; split; [reflexivity|cbn; lia]).
  assert (Hu : usable [(0x1000, 0x2000)] 0x2010 0x2018) by (exists 0x1000, 0x2000; split; [left|lia]).
  split.
  - destruct (flat_relocation disco_lib [(0x1000, 0x2000)] false disco_words 0x2010 [8; 12]) as (r & E & Hn & _); try assumption.
    + repeat (constructor; [split; [discriminate|reflexivity]|]). constructor.
    + intros e [->|[->|[]%not_elem_of_nil]%elem_of_cons]%elem_of_cons _; reflexivity.
    + apply SSorted_cons; [apply SSorted_cons; [apply SSorted_nil|apply List.Forall_nil]|].
      constructor; [|constructor]. intros _ _. left. vm_compute. discriminate.
    + intros e [->|[->|[]%not_elem_of_nil]%elem_of_cons]%elem_of_cons _; left; vm_compute; discriminate.
    + vm_compute. auto.
    + transitivity (Ok r); [exact E|]. f_equal. apply Hn. exists 12. split; [right; left|]. right. vm_compute. split; [discriminate|reflexivity].
  - destruct (flat_relocation disco_lib [(0x1000, 0x2000)] false disco_words 0x2010 [8]) as (r & E & Hn & Hr); try assumption.
    + repeat (constructor; [split; [discriminate|reflexivity]|]). constructor.
    + intros e [->|[]%not_elem_of_nil]%elem_of_cons _; reflexivity.
    + apply SSorted_cons; [apply SSorted_nil|constructor].
    + apply (usable_sub _ _ _ _ _ Hu); cbn [length]; lia.
    + intros e [->|[]%not_elem_of_nil]%elem_of_cons _; left; vm_compute; discriminate.
    + vm_compute. auto.
    + destruct r as [m'|].
      * exists m'. split; [exact E|]. exact (proj1 (Hr m' eq_refl) 8 ltac:(left)).
      * destruct (proj1 Hn eq_refl) as (e & He%list_elem_of_singleton & [Hb1|[_ Hb1]]); subst e; discriminate Hb1.
Defined.

(** 3692 bytes of data and a hundred entries: with the word below the data exactly one page. *)
Definition disco_overrun : image := {| im_text := [1; 2; 3; 4]; im_data := repeat 0 3692; im_bss := 0; im_stack := 16; im_entry := 64;
  im_relocs := repeat 0 100; im_flags := 0; im_date := 0 |}.

Lemma flat_data_overruns_witness :
  page_up (needed disco_overrun 32 + 4) = 4096
  /\ load_flat_file disco_env 1 (disco_bprm disco_overrun) 16 (Some 10) (Some 20) (Some 11) (Some 21) disco_exec = Fault BadIndex.
Proof.
  split; [reflexivity|].
  destruct (flat_data_overruns disco_env (fun _ => 0) [] [] 1 (empty_mm 0 0) (disco_bprm disco_overrun) disco_overrun 16
              (Some 10) (Some 20) (Some 11) (Some 21) disco_exec) as [E|(ret & x' & E & _)].
  - exact disco_below.
  - intros prot prot' flags. cbn. lia.
  - exact disco_mm_inv.
  - reflexivity.
  - reflexivity.
  - exact disco_structures.
  - intros a. split; [reflexivity|]. cbn. lia.
  - split; [vm_compute; discriminate|vm_compute; discriminate|reflexivity|split; [discriminate|reflexivity]|split; [discriminate|reflexivity]|split; [discriminate|reflexivity]| |].
    + cbn [im_text im_data disco_overrun]. apply Forall_app. split; [|apply Forall_forall; intros c Hc%list_elem_of_In%repeat_spec; subst c; split; [reflexivity|lia]].
      repeat (constructor; [unfold is_byte; lia|]). constructor.
    + apply Forall_forall. intros c Hc%list_elem_of_In%repeat_spec. subst c. split; [reflexivity|lia].
  - exact (disco_reads disco_overrun).
  - split; [reflexivity|vm_compute; discriminate|reflexivity].
  - reflexivity.
  - lia.
  - reflexivity.
  - vm_compute. discriminate.
  - reflexivity.
  - exact E.
  - assert (Ec : match load_flat_file disco_env 1 (disco_bprm disco_overrun) 16 (Some 10) (Some 20) (Some 11) (Some 21) disco_exec with
                 | Ok _ => False | Fault _ => True end) by (vm_compute; exact I).
    rewrite E in Ec. destruct Ec.
Defined.

End Board.
