(* ===== verification/Initramfs.v ===== *)
(** * Unpacking the root file system ([init/initramfs.c])

    The state machine that reads cpio archives, in the committed configuration: no
    decompressor is built in.  The buffers are lists of bytes; [collected] is a position
    in the input or one of the three buffers, and reading past either is a [BadIndex]
    fault.  The calls into the file system are events of an interface; allocations
    succeed (the code panics otherwise, [kstrdup] excepted). *)

From S2P Require Import Prelude.

(** ** The file system *)

Definition path := list Z.

(** The system calls, as far as their result is used: [Utimes] is [do_utime]. *)
Inductive call :=
| Link (old new : path) | Rmdir (p : path) | Unlink (p : path) | Open (p : path) (flags mode : Z) | Fchown (fd uid gid : Z) | Fchmod (fd mode : Z)
| Ftruncate (fd len : Z) | Write (fd : Z) (data : list Z) | Close (fd : Z) | Utimes (p : path) (mtime : Z) | Mkdir (p : path) (mode : Z)
| Chown (p : path) (uid gid : Z) | Chmod (p : path) (mode : Z) | Mknod (p : path) (mode rdev : Z) | Symlink (old new : path) | Lchown (p : path) (uid gid : Z).

(** [sys c fs]: the result of the call and the file system after it; [newlstat]: the mode of a file. *)
Class Rootfs (FS : Type) := { sys : call -> FS -> Z * FS; newlstat : path -> FS -> option Z }.

Definition sys_ {FS} `{Rootfs FS} (c : call) (fs : FS) : FS := snd (sys c fs).

(** ** Constants *)

Definition PATH_MAX : Z := 4096.
Definition S_IFMT : Z := 0xF000.
Definition S_IFSOCK : Z := 0xC000.
Definition S_IFLNK : Z := 0xA000.
Definition S_IFREG : Z := 0x8000.
Definition S_IFBLK : Z := 0x6000.
Definition S_IFDIR : Z := 0x4000.
Definition S_IFCHR : Z := 0x2000.
Definition S_IFIFO : Z := 0x1000.
Definition O_WRONLY : Z := 1.
Definition O_CREAT : Z := 64.
Definition O_TRUNC : Z := 512.

Definition is_type (mode t : Z) : bool := (mode .& S_IFMT) =? t.

Definition N_ALIGN (len : Z) : Z := u32 ((u32 (len + 1) .& .~ 3) + 2).

(** ["070701"], ["070707"] and ["TRAILER!!!"]. *)
Definition newc_magic : list Z := [48; 55; 48; 55; 48; 49].
Definition old_magic : list Z := [48; 55; 48; 55; 48; 55].
Definition trailer_name : path := [84; 82; 65; 73; 76; 69; 82; 33; 33; 33].

(** ** Numbers ([lib/vsprintf.c]) *)

Definition isdigit (c : Z) : bool := (48 <=? c) && (c <=? 57).
Definition isxdigit (c : Z) : bool := isdigit c || ((65 <=? c) && (c <=? 70)) || ((97 <=? c) && (c <=? 102)).
Definition TOLOWER (c : Z) : Z := c .| 0x20.

Fixpoint strtoull_loop (base : Z) (l : list Z) (acc : Z) : Z :=
  match l with
  | [] => acc
  | c :: l =>
      if negb (isxdigit c) then acc
      else
        let value := if isdigit c then c - 48 else TOLOWER c - 97 + 10 in
        if base <=? value then acc else strtoull_loop base l ((acc * base + value) mod 2 ^ 64)
  end.

(** The string ends with its list; base 0, which guesses, is not used here. *)
Definition simple_strtoull (l : list Z) (base : Z) : Z :=
  let l := if (base =? 16) && (nth 0 l 0 =? 48) && (TOLOWER (nth 1 l 0) =? 120) then skipn 2 l else l in
  strtoull_loop base l 0.

Definition simple_strtoul (l : list Z) (base : Z) : Z := u32 (simple_strtoull l base).

Definition MKDEV (ma mi : Z) : Z := (ma .<< 20) .| mi.
Definition MAJOR (dev : Z) : Z := dev .>> 20.
Definition MINOR (dev : Z) : Z := dev .& 0xfffff.

Definition new_encode_dev (dev : Z) : Z :=
  (MINOR dev .& 0xff) .| (MAJOR dev .<< 8) .| ((MINOR dev .& .~ 0xff) .<< 12).

(** ** The state *)

Inductive state := Start | Collect | GotHeader | SkipIt | GotName | CopyFile | GotSymlink | Reset.

#[global] Instance state_eq_dec : EqDecision state.
Proof. solve_decision. Defined.

Inductive error := WrongMethod | NoMagic | BrokenPadding | JunkInArchive | NotConfigured (name : Z).

Inductive buffer := HeaderBuf | SymlinkBuf | NameBuf.

Inductive place := InPlace (l : list Z) | InBuf (b : buffer).

(** The fields of the last header; [mode_t] has 16 bits. *)
Record header := {
  ino : Z; mode : Z; uid : Z; gid : Z; nlink : Z; mtime : Z; body_len : Z; major : Z; minor : Z; rdev : Z; name_len : Z
}.

Record hash_entry := { h_ino : Z; h_minor : Z; h_major : Z; h_mode : Z; h_name : path }.

(** [count] is the length of [victim]. *)
Record unpacker (FS : Type) := {
  message : option error; st : state; next_state : state; victim : list Z; this_header : Z; next_header : Z;
  collected : place; collect : buffer; collect_at : Z; remains : Z; bufs : buffer -> list Z;
  hdr : header; head : Z -> list hash_entry; dir_list : list (path * Z); wfd : Z; vcollected : path; fs : FS
}.
Arguments message {FS} _.
Arguments st {FS} _.
Arguments next_state {FS} _.
Arguments victim {FS} _.
Arguments this_header {FS} _.
Arguments next_header {FS} _.
Arguments collected {FS} _.
Arguments collect {FS} _.
Arguments collect_at {FS} _.
Arguments remains {FS} _.
Arguments bufs {FS} _.
Arguments hdr {FS} _.
Arguments head {FS} _.
Arguments dir_list {FS} _.
Arguments wfd {FS} _.
Arguments vcollected {FS} _.
Arguments fs {FS} _.

Section State.

Context {FS : Type}.
Implicit Type s : unpacker FS.

Definition set_message s e : unpacker FS := {| message := e; st := st s; next_state := next_state s; victim := victim s;
  this_header := this_header s; next_header := next_header s; collected := collected s; collect := collect s; collect_at := collect_at s;
  remains := remains s; bufs := bufs s; hdr := hdr s; head := head s; dir_list := dir_list s; wfd := wfd s; vcollected := vcollected s; fs := fs s |}.
Definition set_st s x : unpacker FS := {| message := message s; st := x; next_state := next_state s; victim := victim s;
  this_header := this_header s; next_header := next_header s; collected := collected s; collect := collect s; collect_at := collect_at s;
  remains := remains s; bufs := bufs s; hdr := hdr s; head := head s; dir_list := dir_list s; wfd := wfd s; vcollected := vcollected s; fs := fs s |}.
Definition set_next_state s x : unpacker FS := {| message := message s; st := st s; next_state := x; victim := victim s;
  this_header := this_header s; next_header := next_header s; collected := collected s; collect := collect s; collect_at := collect_at s;
  remains := remains s; bufs := bufs s; hdr := hdr s; head := head s; dir_list := dir_list s; wfd := wfd s; vcollected := vcollected s; fs := fs s |}.
Definition set_input s v h : unpacker FS := {| message := message s; st := st s; next_state := next_state s; victim := v; this_header := h;
  next_header := next_header s; collected := collected s; collect := collect s; collect_at := collect_at s; remains := remains s; bufs := bufs s;
  hdr := hdr s; head := head s; dir_list := dir_list s; wfd := wfd s; vcollected := vcollected s; fs := fs s |}.
Definition set_next_header s h : unpacker FS := {| message := message s; st := st s; next_state := next_state s; victim := victim s;
  this_header := this_header s; next_header := h; collected := collected s; collect := collect s; collect_at := collect_at s; remains := remains s;
  bufs := bufs s; hdr := hdr s; head := head s; dir_list := dir_list s; wfd := wfd s; vcollected := vcollected s; fs := fs s |}.
Definition set_collected s c : unpacker FS := {| message := message s; st := st s; next_state := next_state s; victim := victim s;
  this_header := this_header s; next_header := next_header s; collected := c; collect := collect s; collect_at := collect_at s; remains := remains s;
  bufs := bufs s; hdr := hdr s; head := head s; dir_list := dir_list s; wfd := wfd s; vcollected := vcollected s; fs := fs s |}.
Definition set_collect s b i n : unpacker FS := {| message := message s; st := st s; next_state := next_state s; victim := victim s;
  this_header := this_header s; next_header := next_header s; collected := collected s; collect := b; collect_at := i; remains := n; bufs := bufs s;
  hdr := hdr s; head := head s; dir_list := dir_list s; wfd := wfd s; vcollected := vcollected s; fs := fs s |}.
Definition set_bufs s b : unpacker FS := {| message := message s; st := st s; next_state := next_state s; victim := victim s;
  this_header := this_header s; next_header := next_header s; collected := collected s; collect := collect s; collect_at := collect_at s;
  remains := remains s; bufs := b; hdr := hdr s; head := head s; dir_list := dir_list s; wfd := wfd s; vcollected := vcollected s; fs := fs s |}.
Definition set_hdr s h : unpacker FS := {| message := message s; st := st s; next_state := next_state s; victim := victim s;
  this_header := this_header s; next_header := next_header s; collected := collected s; collect := collect s; collect_at := collect_at s;
  remains := remains s; bufs := bufs s; hdr := h; head := head s; dir_list := dir_list s; wfd := wfd s; vcollected := vcollected s; fs := fs s |}.
Definition set_head s h : unpacker FS := {| message := message s; st := st s; next_state := next_state s; victim := victim s;
  this_header := this_header s; next_header := next_header s; collected := collected s; collect := collect s; collect_at := collect_at s;
  remains := remains s; bufs := bufs s; hdr := hdr s; head := h; dir_list := dir_list s; wfd := wfd s; vcollected := vcollected s; fs := fs s |}.
Definition set_dir_list s l : unpacker FS := {| message := message s; st := st s; next_state := next_state s; victim := victim s;
  this_header := this_header s; next_header := next_header s; collected := collected s; collect := collect s; collect_at := collect_at s;
  remains := remains s; bufs := bufs s; hdr := hdr s; head := head s; dir_list := l; wfd := wfd s; vcollected := vcollected s; fs := fs s |}.
Definition set_wfd s n : unpacker FS := {| message := message s; st := st s; next_state := next_state s; victim := victim s;
  this_header := this_header s; next_header := next_header s; collected := collected s; collect := collect s; collect_at := collect_at s;
  remains := remains s; bufs := bufs s; hdr := hdr s; head := head s; dir_list := dir_list s; wfd := n; vcollected := vcollected s; fs := fs s |}.
Definition set_vcollected s p : unpacker FS := {| message := message s; st := st s; next_state := next_state s; victim := victim s;
  this_header := this_header s; next_header := next_header s; collected := collected s; collect := collect s; collect_at := collect_at s;
  remains := remains s; bufs := bufs s; hdr := hdr s; head := head s; dir_list := dir_list s; wfd := wfd s; vcollected := p; fs := fs s |}.
Definition set_fs s f : unpacker FS := {| message := message s; st := st s; next_state := next_state s; victim := victim s;
  this_header := this_header s; next_header := next_header s; collected := collected s; collect := collect s; collect_at := collect_at s;
  remains := remains s; bufs := bufs s; hdr := hdr s; head := head s; dir_list := dir_list s; wfd := wfd s; vcollected := vcollected s; fs := f |}.

End State.

Ltac un_simpl := cbn [message st next_state victim this_header next_header collected collect collect_at remains bufs hdr head dir_list wfd vcollected fs
  set_message set_st set_next_state set_input set_next_header set_collected set_collect set_bufs set_hdr set_head set_dir_list set_wfd set_vcollected set_fs].
Tactic Notation "un_simpl" "in" hyp(H) := cbn [message st next_state victim this_header next_header collected collect collect_at remains bufs hdr head dir_list
  wfd vcollected fs set_message set_st set_next_state set_input set_next_header set_collected set_collect set_bufs set_hdr set_head set_dir_list set_wfd
  set_vcollected set_fs] in H.

Definition set_body_len (h : header) (n : Z) : header := {| ino := ino h; mode := mode h; uid := uid h; gid := gid h; nlink := nlink h;
  mtime := mtime h; body_len := n; major := major h; minor := minor h; rdev := rdev h; name_len := name_len h |}.

Section Unpack.

Context {FS : Type} `{Rootfs FS}.
Implicit Type s : unpacker FS.

Definition call_fs s (c : call) : unpacker FS := set_fs s (sys_ c (fs s)).
Definition report s (e : error) : unpacker FS := match message s with None => set_message s (Some e) | Some _ => s end.
Definition count s : Z := Z.of_nat (length (victim s)).

Definition eat s (n : Z) : unpacker FS := set_input s (skipn (Z.to_nat n) (victim s)) (this_header s + n).

(** The bytes at [collected]. *)
Definition at_collected s : list Z := match collected s with InPlace l => l | InBuf b => bufs s b end.

(** The C string at the front of [l]. *)
Fixpoint c_string (l : list Z) : result path :=
  match l with
  | [] => Fault BadIndex
  | c :: l => if c =? 0 then Ok [] else let* p := c_string l in Ok (c :: p)
  end.

(** [memcpy] into a buffer. *)
Definition store_at (l : list Z) (i : Z) (data : list Z) : result (list Z) :=
  if (0 <=? i) && (i + Z.of_nat (length data) <=? Z.of_nat (length l)) then
    Ok (firstn (Z.to_nat i) l ++ data ++ skipn (Z.to_nat i + length data) l)
  else Fault BadIndex.

Definition buffer_eqb (a b : buffer) : bool :=
  match a, b with HeaderBuf, HeaderBuf | SymlinkBuf, SymlinkBuf | NameBuf, NameBuf => true | _, _ => false end.
Definition put_buf s (b : buffer) (l : list Z) : unpacker FS := set_bufs s (fun c => if buffer_eqb c b then l else bufs s c).

(** ** Hard links *)

Definition hash (major minor ino : Z) : Z :=
  let tmp := u32 (ino + minor + (major .<< 3)) in u32 (tmp + (tmp .>> 5)) .& 31.

Fixpoint find_in (l : list hash_entry) (major minor ino mode : Z) : option path :=
  match l with
  | [] => None
  | q :: l =>
      if negb (h_ino q =? ino) then find_in l major minor ino mode
      else if negb (h_minor q =? minor) then find_in l major minor ino mode
      else if negb (h_major q =? major) then find_in l major minor ino mode
      else if negb ((Z.lxor (h_mode q) mode .& S_IFMT) =? 0) then find_in l major minor ino mode
      else Some (h_name q)
  end.

(** [strcpy] copies the name with its NUL into N_ALIGN(PATH_MAX) bytes. *)
Definition find_link (major minor ino mode : Z) (name : path) s : result (option path * unpacker FS) :=
  let b := hash major minor ino in
  match find_in (head s b) major minor ino mode with
  | Some old => Ok (Some old, s)
  | None =>
      if N_ALIGN PATH_MAX <? Z.of_nat (length name) + 1 then Fault BadIndex
      else
        let q := {| h_ino := ino; h_minor := minor; h_major := major; h_mode := mode; h_name := name |} in
        Ok (None, set_head s (fun i => if i =? b then head s b ++ [q] else head s i))
  end.

Definition free_hash s : unpacker FS := set_head s (fun _ => []).

Definition dir_add (name : path) (mtime : Z) s : unpacker FS := set_dir_list s ((name, mtime) :: dir_list s).

Fixpoint dir_utime_loop (l : list (path * Z)) (f : FS) : FS :=
  match l with [] => f | (p, t) :: l => dir_utime_loop l (sys_ (Utimes p t) f) end.

Definition dir_utime s : unpacker FS := set_dir_list (set_fs s (dir_utime_loop (dir_list s) (fs s))) [].

(** ** The header *)

(** Field [i] of the header. *)
Definition parsed (l : list Z) (i : nat) : Z := simple_strtoul (firstn 8 (skipn (6 + 8 * i) l)) 16.

Definition parse_header (l : list Z) : header :=
  {| ino := parsed l 0; mode := parsed l 1 mod 65536; uid := parsed l 2; gid := parsed l 3; nlink := parsed l 4; mtime := s32 (parsed l 5);
     body_len := parsed l 6; major := parsed l 7; minor := parsed l 8;
     rdev := new_encode_dev (MKDEV (parsed l 9) (parsed l 10)); name_len := parsed l 11 |}.

(** ** The actions: true stops the machine *)

Definition read_into (b : buffer) (size : Z) (next : state) s : unpacker FS :=
  if size <=? count s then set_st (eat (set_collected s (InPlace (victim s))) size) next
  else set_st (set_next_state (set_collect (set_collected s (InBuf b)) b 0 size) next) Collect.

Definition do_start s : result (bool * unpacker FS) := Ok (false, read_into HeaderBuf 110 GotHeader s).

Definition do_collect s : result (bool * unpacker FS) :=
  let n := Z.min (remains s) (count s) in
  let* l := store_at (bufs s (collect s)) (collect_at s) (firstn (Z.to_nat n) (victim s)) in
  let s := eat (put_buf s (collect s) l) n in
  let s := set_collect s (collect s) (collect_at s + n) (remains s - n) in
  if negb (remains s =? 0) then Ok (true, s) else Ok (false, set_st s (next_state s)).

Definition list_eqb (a b : list Z) : bool := bool_decide (a = b).

Definition do_header s : result (bool * unpacker FS) :=
  let l := at_collected s in
  if list_eqb (firstn 6 l) old_magic then Ok (true, report s WrongMethod)
  else if negb (list_eqb (firstn 6 l) newc_magic) then Ok (true, report s NoMagic)
  else
    let h := parse_header l in
    let s := set_hdr s h in
    let s := set_next_header s (4 * ((this_header s + N_ALIGN (name_len h) + body_len h + 3) / 4)) in
    let s := set_st s SkipIt in
    if (name_len h <=? 0) || (PATH_MAX <? name_len h) then Ok (false, s)
    else if is_type (mode h) S_IFLNK then
      if PATH_MAX <? body_len h then Ok (false, s)
      else
        let s := set_collect (set_collected s (InBuf SymlinkBuf)) SymlinkBuf 0 (N_ALIGN (name_len h) + body_len h) in
        Ok (false, set_st (set_next_state s GotSymlink) Collect)
    else if is_type (mode h) S_IFREG || (body_len h =? 0) then Ok (false, read_into NameBuf (N_ALIGN (name_len h)) GotName s)
    else Ok (false, s).

(** Going back, to before the input, is a fault. *)
Definition do_skip s : result (bool * unpacker FS) :=
  if this_header s + count s <? next_header s then Ok (true, eat s (count s))
  else if next_header s <? this_header s then Fault BadIndex
  else Ok (false, set_st (eat s (next_header s - this_header s)) (next_state s)).

(** The zero bytes at the front. *)
Fixpoint zeros (l : list Z) : nat := match l with c :: l => if c =? 0 then S (zeros l) else O | [] => O end.

Definition do_reset s : result (bool * unpacker FS) :=
  let s := eat s (Z.of_nat (zeros (victim s))) in
  Ok (true, if negb (count s =? 0) && negb (this_header s mod 4 =? 0) then report s BrokenPadding else s).

(** -1, 0 or 1. *)
Definition maybe_link s : result (Z * unpacker FS) :=
  if 2 <=? nlink (hdr s) then
    let* name := c_string (at_collected s) in
    let* (old, s) := find_link (major (hdr s)) (minor (hdr s)) (ino (hdr s)) (mode (hdr s)) name s in
    match old with
    | Some old => let (r, f) := sys (Link old name) (fs s) in Ok (if r <? 0 then -1 else 1, set_fs s f)
    | None => Ok (0, s)
    end
  else Ok (0, s).

Definition clean_path (p : path) (mode : Z) (f : FS) : FS :=
  match newlstat p f with
  | Some m => if negb ((Z.lxor m mode .& S_IFMT) =? 0) then if is_type m S_IFDIR then sys_ (Rmdir p) f else sys_ (Unlink p) f else f
  | None => f
  end.

(** Opening a regular file. *)
Definition open_file (name : path) (ml : Z) s : unpacker FS :=
  let h := hdr s in
  let (fd, f) := sys (Open name (O_WRONLY .| O_CREAT .| (if ml =? 1 then 0 else O_TRUNC)) (mode h)) (fs s) in
  let s := set_wfd (set_fs s f) fd in
  if 0 <=? fd then
    let s := call_fs s (Fchown fd (uid h) (gid h)) in
    let s := call_fs s (Fchmod fd (mode h)) in
    let s := if negb (body_len h =? 0) then call_fs s (Ftruncate fd (body_len h)) else s in
    set_st (set_vcollected s name) CopyFile
  else s.

Definition do_name s : result (bool * unpacker FS) :=
  let s := set_next_state (set_st s SkipIt) Reset in
  let* name := c_string (at_collected s) in
  if list_eqb name trailer_name then Ok (false, free_hash s)
  else
    let h := hdr s in
    let s := set_fs s (clean_path name (mode h) (fs s)) in
    if is_type (mode h) S_IFREG then
      let* (ml, s) := maybe_link s in
      if 0 <=? ml then Ok (false, open_file name ml s) else Ok (false, s)
    else if is_type (mode h) S_IFDIR then
      let s := call_fs s (Mkdir name (mode h)) in
      let s := call_fs s (Chown name (uid h) (gid h)) in
      let s := call_fs s (Chmod name (mode h)) in
      Ok (false, dir_add name (mtime h) s)
    else if is_type (mode h) S_IFBLK || is_type (mode h) S_IFCHR || is_type (mode h) S_IFIFO || is_type (mode h) S_IFSOCK then
      let* (ml, s) := maybe_link s in
      if ml =? 0 then
        let s := call_fs s (Mknod name (mode h) (rdev h)) in
        let s := call_fs s (Chown name (uid h) (gid h)) in
        let s := call_fs s (Chmod name (mode h)) in
        Ok (false, call_fs s (Utimes name (mtime h)))
      else Ok (false, s)
    else Ok (false, s).

Definition do_copy s : result (bool * unpacker FS) :=
  let h := hdr s in
  if body_len h <=? count s then
    let s := call_fs s (Write (wfd s) (firstn (Z.to_nat (body_len h)) (victim s))) in
    let s := call_fs s (Close (wfd s)) in
    let s := call_fs s (Utimes (vcollected s) (mtime h)) in
    Ok (false, set_st (eat s (body_len h)) SkipIt)
  else
    let n := count s in
    let s := call_fs s (Write (wfd s) (victim s)) in
    Ok (true, eat (set_hdr s (set_body_len h (body_len h - n))) n).

Definition do_symlink s : result (bool * unpacker FS) :=
  let h := hdr s in
  let* l := store_at (at_collected s) (N_ALIGN (name_len h) + body_len h) [0] in
  let s := match collected s with InBuf b => put_buf s b l | InPlace _ => set_collected s (InPlace l) end in
  let* name := c_string l in
  let* target := c_string (skipn (Z.to_nat (N_ALIGN (name_len h))) l) in
  let s := set_fs s (clean_path name 0 (fs s)) in
  let s := call_fs s (Symlink target name) in
  let s := call_fs s (Lchown name (uid h) (gid h)) in
  let s := call_fs s (Utimes name (mtime h)) in
  Ok (false, set_next_state (set_st s SkipIt) Reset).

Definition action s : result (bool * unpacker FS) :=
  match st s with
  | Start => do_start s | Collect => do_collect s | GotHeader => do_header s | SkipIt => do_skip s | GotName => do_name s
  | CopyFile => do_copy s | GotSymlink => do_symlink s | Reset => do_reset s
  end.

(** [while (!actions[state]())]. *)
Fixpoint run_actions (fuel : nat) s : result (unpacker FS) :=
  match fuel with
  | O => Fault Stuck
  | S fuel => let* (stop, s) := action s in if stop : bool then Ok s else run_actions fuel s
  end.

Definition write_fuel (len : nat) : nat := 4 * len + 16.

(** The number of bytes consumed. *)
Definition write_buffer (buf : list Z) s : result (Z * unpacker FS) :=
  let len := Z.of_nat (length buf) in
  let* s := run_actions (write_fuel (length buf)) (set_input s buf (this_header s)) in
  Ok (len - count s, s).

(** ** Whole archives *)

(** The format of compressed data by its first two bytes; its name. *)
Definition compressed_formats : list (Z * Z * Z) := [(31, 139, 0); (31, 158, 0); (66, 90, 1); (93, 0, 2); (137, 76, 3)].

Fixpoint format_of (l : list (Z * Z * Z)) (a b : Z) : option Z :=
  match l with [] => None | (x, y, n) :: l => if (a =? x) && (b =? y) then Some n else format_of l a b end.

(** No decompressor is built in.  With less than two bytes [name] is not set, and the caller reads it. *)
Definition decompress_method (buf : list Z) : result (option Z) :=
  match buf with a :: b :: _ => Ok (format_of compressed_formats a b) | _ => Fault BadIndex end.

(** One turn of the loop for what is neither a header nor padding; [my_inptr] stays 0. *)
Definition try_decompress (buf : list Z) s : result (unpacker FS) :=
  let saved := this_header s in
  let s := set_input s (victim s) 0 in
  let* name := decompress_method buf in
  let s := match name with Some n => report s (NotConfigured n) | None => s end in
  let s := if bool_decide (st s = Reset) then s else report s JunkInArchive in
  Ok (set_input s (victim s) saved).

Fixpoint unpack_loop (fuel : nat) (buf : list Z) s : result (unpacker FS) :=
  match fuel with
  | O => Fault Stuck
  | S fuel =>
      match message s, buf with
      | None, c :: buf' =>
          if (c =? 48) && (this_header s mod 4 =? 0) then
            let* (written, s) := write_buffer buf (set_st s Start) in
            unpack_loop fuel (skipn (Z.to_nat written) buf) s
          else if c =? 0 then unpack_loop fuel buf' (set_input s (victim s) (this_header s + 1))
          else let* s := try_decompress buf s in unpack_loop fuel buf s
      | _, _ => Ok s
      end
  end.

(** The buffers are those of [kmalloc]; [bss] is the state before the first call. *)
Definition unpack_to_rootfs (buf : list Z) s : result (unpacker FS) :=
  let s := set_message (set_input (set_st s Start) (victim s) 0) None in
  let* s := unpack_loop (length buf + 2) buf s in
  Ok (dir_utime s).

(** The archive linked into the kernel, whose errors are a panic, here [Some]; then that of the boot loader, where
    they are printed. *)
Definition populate_rootfs (initramfs : list Z) (initrd : option (list Z)) s : result (option error * unpacker FS) :=
  let* s := unpack_to_rootfs initramfs s in
  match message s with
  | Some e => Ok (Some e, s)
  | None => match initrd with Some l => let* s := unpack_to_rootfs l s in Ok (None, s) | None => Ok (None, s) end
  end.

End Unpack.
