(* ===== verification/GenInitCpio.v ===== *)
(** * Making the archive of the root file system ([usr/gen_init_cpio.c])

    The program of the build that writes the cpio archive which [Initramfs] unpacks at
    boot.  Reading the list of files is not modelled: a line is given by its fields, and
    a file by its contents; the time is an argument. *)

From S2P Require Import Prelude Initramfs.

(** ** Output *)

(** [out] is what has been written to the standard output. *)
Record gen := { offset : Z; g_ino : Z; out : list Z }.

Definition puts (l : list Z) (n : Z) (g : gen) : gen := {| offset := u32 (offset g + n); g_ino := g_ino g; out := out g ++ l |}.

Definition hex_digit (v : Z) : Z := if v <? 10 then 48 + v else 55 + v.

Fixpoint hex_digits (n : nat) (v : Z) : list Z := match n with O => [] | S n => hex_digits n (v / 16) ++ [hex_digit (v mod 16)] end.

(** ["%08X"]: at least eight digits. *)
Definition X08 (v : Z) : list Z := hex_digits (Nat.max 8 (Z.to_nat (Z.log2 v / 4 + 1))) v.

(** The fields of a header, in the order of the format. *)
Definition cpio_hdr (ino mode uid gid nlink mtime filesize major minor rmajor rminor namesize chksum : Z) : list Z :=
  newc_magic ++ X08 ino ++ X08 mode ++ X08 uid ++ X08 gid ++ X08 nlink ++ X08 mtime ++ X08 filesize ++ X08 major ++ X08 minor ++ X08 rmajor
  ++ X08 rminor ++ X08 namesize ++ X08 chksum.

Definition strsize (name : path) : Z := Z.of_nat (length name) + 1.

Definition push_string (name : path) (g : gen) : gen := puts (name ++ [0]) (strsize name) g.

Fixpoint pad_loop (fuel : nat) (unit : Z) (g : gen) : gen :=
  match fuel with
  | O => g
  | S fuel => if offset g mod unit =? 0 then g else pad_loop fuel unit (puts [0] 1 g)
  end.

Definition push_pad (g : gen) : gen := pad_loop 3 4 g.

Fixpoint rest_loop (fuel : nat) (tmp_ofs : Z) (g : gen) : gen :=
  match fuel with
  | O => g
  | S fuel => if tmp_ofs mod 4 =? 0 then g else rest_loop fuel (u32 (tmp_ofs + 1)) (puts [0] 1 g)
  end.

Definition push_rest (name : path) (g : gen) : gen := rest_loop 3 (u32 (strsize name + 110)) (push_string name g).

(** The offset grows by 110 whatever the length. *)
Definition push_hdr (l : list Z) (g : gen) : gen := puts l 110 g.

(** [ino++]. *)
Definition next_ino (g : gen) : gen := {| offset := offset g; g_ino := u32 (g_ino g + 1); out := out g |}.

(** ** Entries *)

Definition cpio_trailer (g : gen) : gen :=
  pad_loop 511 512 (push_rest trailer_name (push_hdr (cpio_hdr 0 0 0 0 1 0 0 0 0 0 0 (strsize trailer_name) 0) g)).

Definition cpio_mkslink (name target : path) (mode uid gid mtime : Z) (g : gen) : gen :=
  let h := cpio_hdr (g_ino g) (S_IFLNK .| mode) uid gid 1 mtime (strsize target) 3 1 0 0 (strsize name) 0 in
  push_pad (push_string target (push_pad (push_string name (push_hdr h (next_ino g))))).

Definition cpio_mkgeneric (name : path) (mode uid gid mtime : Z) (g : gen) : gen :=
  let h := cpio_hdr (g_ino g) mode uid gid 2 mtime 0 3 1 0 0 (strsize name) 0 in
  push_rest name (push_hdr h (next_ino g)).

Inductive generic_types := GT_DIR | GT_PIPE | GT_SOCK.

Definition generic_mode (gt : generic_types) : Z := match gt with GT_DIR => S_IFDIR | GT_PIPE => S_IFIFO | GT_SOCK => S_IFSOCK end.

(** ['b'] is a block device, everything else a character device. *)
Definition cpio_mknod (name : path) (mode uid gid dev_type maj min mtime : Z) (g : gen) : gen :=
  let mode := mode .| (if dev_type =? 98 then S_IFBLK else S_IFCHR) in
  let h := cpio_hdr (g_ino g) mode uid gid 1 mtime 0 3 1 maj min (strsize name) 0 in
  push_rest name (push_hdr h (next_ino g)).

(** The loop over the links; the data go with the last. *)
Fixpoint mkfile_loop (names : list path) (nlinks mode uid gid mtime : Z) (data : list Z) (g : gen) : gen :=
  match names with
  | [] => g
  | name :: names =>
      let data' := match names with [] => data | _ => [] end in
      let h := cpio_hdr (g_ino g) mode uid gid nlinks mtime (Z.of_nat (length data')) 3 1 0 0 (strsize name) 0 in
      let g := push_pad (push_string name (push_hdr h g)) in
      let g := if Z.of_nat (length data') =? 0 then g else push_pad (puts data' (Z.of_nat (length data')) g) in
      mkfile_loop names nlinks mode uid gid mtime data g
  end.

Definition cpio_mkfile (names : list path) (mode uid gid mtime : Z) (data : list Z) (g : gen) : gen :=
  next_ino (mkfile_loop names (Z.of_nat (length names)) (mode .| S_IFREG) uid gid mtime data g).

(** A line of the list: what [main] dispatches on. *)
Inductive entry :=
| File (names : list path) (mode uid gid mtime : Z) (data : list Z)
| Nod (name : path) (mode uid gid dev_type maj min mtime : Z)
| Generic (gt : generic_types) (name : path) (mode uid gid mtime : Z)
| Slink (name target : path) (mode uid gid mtime : Z).

Definition gen_entry (e : entry) (g : gen) : gen :=
  match e with
  | File names mode uid gid mtime data => cpio_mkfile names mode uid gid mtime data g
  | Nod name mode uid gid dev_type maj min mtime => cpio_mknod name mode uid gid dev_type maj min mtime g
  | Generic gt name mode uid gid mtime => cpio_mkgeneric name (mode .| generic_mode gt) uid gid mtime g
  | Slink name target mode uid gid mtime => cpio_mkslink name target mode uid gid mtime g
  end.

Fixpoint gen_entries (es : list entry) (g : gen) : gen := match es with [] => g | e :: es => gen_entries es (gen_entry e g) end.

Definition gen_init : gen := {| offset := 0; g_ino := 721; out := [] |}.

Definition archive (es : list entry) : list Z := out (cpio_trailer (gen_entries es gen_init)).
