(* ===== verification/InitArchive.v ===== *)
(** * The archive of the root file system: its records

    What [GenInitCpio] writes, as records of a header, a name and a body, each padded to
    four bytes; numbers printed and read back. *)

From S2P Require Import Prelude Initramfs GenInitCpio.

Implicit Types (l : list Z) (v : Z).

(** ** Numbers *)

Lemma hex_digits_length n v : length (hex_digits n v) = n.
Proof. revert v. induction n as [|n IH]; intros v; [reflexivity|]. cbn [hex_digits]. rewrite length_app, IH. cbn. lia. Qed.

Definition hex_char (c : Z) : Prop := 48 <= c <= 57 \/ 65 <= c <= 70.

Lemma hex_digit_char v : 0 <= v < 16 -> hex_char (hex_digit v).
Proof. intros Hv. unfold hex_digit, hex_char. destruct (Z.ltb_spec v 10); lia. Qed.

Lemma hex_digits_chars n v : Forall hex_char (hex_digits n v).
Proof.
  revert v. induction n as [|n IH]; intros v; cbn [hex_digits]; [constructor|]. apply Forall_app. split; [apply IH|].
  constructor; [|constructor]. apply hex_digit_char. apply Z.mod_pos_bound. lia.
Qed.

Lemma tolower_cases c : hex_char c -> TOLOWER c = (if c <=? 57 then c else c + 32).
Proof.
  intros Hc. assert (In c [48; 49; 50; 51; 52; 53; 54; 55; 56; 57; 65; 66; 67; 68; 69; 70]) as Hin.
  { unfold hex_char in Hc. cbn. lia. }
  cbn in Hin. repeat destruct Hin as [<-|Hin]; reflexivity || destruct Hin.
Qed.

Lemma strtoull_digit v l acc : 0 <= v < 16 -> strtoull_loop 16 (hex_digit v :: l) acc = strtoull_loop 16 l ((acc * 16 + v) mod 2 ^ 64).
Proof.
  intros Hv. pose proof (hex_digit_char v Hv) as Hc. cbn [strtoull_loop]. unfold isxdigit, isdigit. rewrite tolower_cases by exact Hc.
  unfold hex_digit. destruct (Z.ltb_spec v 10).
  - rewrite !(proj2 (Z.leb_le _ _)) by lia. cbn [andb orb negb]. replace (48 + v - 48) with v by lia. now rewrite (proj2 (Z.leb_gt 16 v)) by lia.
  - rewrite (proj2 (Z.leb_gt (55 + v) 57)) by lia. rewrite andb_false_r. rewrite !(proj2 (Z.leb_le _ _)) by lia. cbn [andb orb negb].
    replace (55 + v + 32 - 97 + 10) with v by lia. now rewrite (proj2 (Z.leb_gt 16 v)) by lia.
Qed.

Lemma strtoull_digits n v l acc :
  0 <= v < 16 ^ Z.of_nat n -> 0 <= acc -> (acc + 1) * 16 ^ Z.of_nat n <= 2 ^ 64 ->
  strtoull_loop 16 (hex_digits n v ++ l) acc = strtoull_loop 16 l (acc * 16 ^ Z.of_nat n + v).
Proof.
  revert v l acc. induction n as [|n IH]; intros v l acc Hv Ha Hb; cbn [hex_digits app].
  - change (16 ^ Z.of_nat 0) with 1 in *. f_equal. lia.
  - rewrite Nat2Z.inj_succ, Z.pow_succ_r in * by lia. assert (Hp : 0 < 16 ^ Z.of_nat n) by (apply Z.pow_pos_nonneg; lia).
    rewrite <- app_assoc. cbn [app]. rewrite IH; [|split; [apply Z.div_pos; lia|apply Z.div_lt_upper_bound; lia]|lia|nia].
    rewrite strtoull_digit by (apply Z.mod_pos_bound; lia). f_equal. rewrite Z.mod_small.
    + pose proof (Z.div_mod v 16). lia.
    + pose proof (Z.mod_pos_bound v 16). pose proof (Z.div_mod v 16). nia.
Qed.

Lemma X08_eq v : is_u32 v -> X08 v = hex_digits 8 v.
Proof.
  intros [H0 H1]. unfold X08. f_equal. destruct (Z.eq_dec v 0) as [->|Hne]; [reflexivity|].
  assert (Z.log2 v < 32) by (apply Z.log2_lt_pow2; lia). pose proof (Z.log2_nonneg v). zdiv.
Qed.

Lemma X08_length v : is_u32 v -> length (X08 v) = 8%nat.
Proof. intros Hv. rewrite X08_eq by exact Hv. apply hex_digits_length. Qed.

(** What is printed is read back. *)
Lemma strtoul_X08 v : is_u32 v -> simple_strtoul (X08 v) 16 = v.
Proof.
  intros Hv. unfold simple_strtoul, simple_strtoull. rewrite X08_eq by exact Hv. rewrite (proj2 (Z.eqb_eq 16 16)) by reflexivity.
  assert (Hx : (TOLOWER (nth 1 (hex_digits 8 v) 0) =? 120) = false).
  { assert (Hc : hex_char (nth 1 (hex_digits 8 v) 0)) by (apply Forall_nth; [apply hex_digits_chars|rewrite hex_digits_length; lia]).
    rewrite tolower_cases by exact Hc. unfold hex_char in Hc. zcrush. }
  rewrite Hx, andb_false_r, <- (app_nil_r (hex_digits 8 v)). destruct Hv as [H0 H1].
  rewrite strtoull_digits by (change (16 ^ Z.of_nat 8) with (2 ^ 32); lia). cbn [strtoull_loop]. rewrite Z.mul_0_l, Z.add_0_l.
  apply u32_id. unfold fits. lia.
Qed.

(** ** Headers *)

(** The fields of a record that vary. *)
Record fields := {
  fl_ino : Z; fl_mode : Z; fl_uid : Z; fl_gid : Z; fl_nlink : Z; fl_mtime : Z; fl_size : Z; fl_major : Z; fl_minor : Z; fl_rmajor : Z; fl_rminor : Z
}.

Definition fields_ok (f : fields) : Prop :=
  Forall is_u32 [fl_ino f; fl_mode f; fl_uid f; fl_gid f; fl_nlink f; fl_mtime f; fl_size f; fl_major f; fl_minor f; fl_rmajor f; fl_rminor f].

Definition hdr_bytes (f : fields) (namesize : Z) : list Z :=
  cpio_hdr (fl_ino f) (fl_mode f) (fl_uid f) (fl_gid f) (fl_nlink f) (fl_mtime f) (fl_size f) (fl_major f) (fl_minor f) (fl_rmajor f) (fl_rminor f) namesize 0.

(** What [parse_header] makes of them. *)
Definition header_of (f : fields) (namesize : Z) : header :=
  {| ino := fl_ino f; mode := fl_mode f mod 65536; uid := fl_uid f; gid := fl_gid f; nlink := fl_nlink f; mtime := s32 (fl_mtime f);
     body_len := fl_size f; major := fl_major f; minor := fl_minor f; rdev := new_encode_dev (MKDEV (fl_rmajor f) (fl_rminor f)); name_len := namesize |}.

Lemma chunk_at (cs : list (list Z)) i l d : Forall (fun c => length c = 8%nat) cs -> (i < length cs)%nat ->
  firstn 8 (skipn (8 * i) (concat cs ++ l)) = nth i cs d.
Proof.
  revert i. induction cs as [|c cs IH]; intros i Hc Hi; [cbn in Hi; lia|]. apply Forall_cons in Hc as [Hc8 Hc]. cbn [concat length] in *.
  destruct i as [|i]; cbn [nth].
  - rewrite Nat.mul_0_r, drop_0, <- app_assoc. now rewrite take_app_length' by congruence.
  - replace (8 * S i)%nat with (length c + 8 * i)%nat by lia. rewrite <- app_assoc, drop_app_add. apply IH; [exact Hc|lia].
Qed.

Definition hdr_chunks (f : fields) (namesize : Z) : list (list Z) :=
  map X08 [fl_ino f; fl_mode f; fl_uid f; fl_gid f; fl_nlink f; fl_mtime f; fl_size f; fl_major f; fl_minor f; fl_rmajor f; fl_rminor f; namesize; 0].

Lemma hdr_bytes_eq f n : hdr_bytes f n = newc_magic ++ concat (hdr_chunks f n).
Proof. unfold hdr_bytes, cpio_hdr, hdr_chunks. cbn [map concat]. now rewrite app_nil_r. Qed.

Lemma hdr_chunks_length f n : fields_ok f -> is_u32 n -> Forall (fun c => length c = 8%nat) (hdr_chunks f n).
Proof.
  intros Hf Hn. unfold hdr_chunks. apply Forall_map. unfold fields_ok in Hf. repeat (apply Forall_cons in Hf as [? Hf]).
  repeat (constructor; [apply X08_length; (assumption || (unfold fits; lia))|]). constructor.
Qed.

Lemma concat_length (cs : list (list Z)) : Forall (fun c => length c = 8%nat) cs -> length (concat cs) = (8 * length cs)%nat.
Proof. induction 1 as [|c cs Hc Hcs IH]; [reflexivity|]. cbn [concat length]. rewrite length_app, Hc, IH. lia. Qed.

Lemma hdr_bytes_length f n : fields_ok f -> is_u32 n -> length (hdr_bytes f n) = 110%nat.
Proof. intros Hf Hn. rewrite hdr_bytes_eq, length_app, concat_length by now apply hdr_chunks_length. reflexivity. Qed.

Lemma parse_hdr_bytes f n l : fields_ok f -> is_u32 n -> parse_header (hdr_bytes f n ++ l) = header_of f n.
Proof.
  intros Hf Hn. pose proof (hdr_chunks_length f n Hf Hn) as Hc.
  assert (Hp : forall i, (i < 13)%nat -> parsed (hdr_bytes f n ++ l) i = simple_strtoul (nth i (hdr_chunks f n) []) 16).
  { intros i Hi. unfold parsed. rewrite hdr_bytes_eq, <- app_assoc. change (6 + 8 * i)%nat with (length newc_magic + 8 * i)%nat. rewrite drop_app_add.
    now rewrite (chunk_at (hdr_chunks f n) i l []) by (auto; exact Hi). }
  unfold parse_header, header_of. rewrite !Hp by lia. unfold fields_ok in Hf. repeat (apply Forall_cons in Hf as [? Hf]).
  unfold hdr_chunks. cbn [map nth]. rewrite !strtoul_X08 by assumption. reflexivity.
Qed.

Lemma hdr_bytes_magic f n l : firstn 6 (hdr_bytes f n ++ l) = newc_magic.
Proof. rewrite hdr_bytes_eq, <- app_assoc. reflexivity. Qed.

(** ** Records *)

Definition pad (n : Z) : list Z := repeat 0 (Z.to_nat n).

Lemma pad_length n : 0 <= n -> Z.of_nat (length (pad n)) = n.
Proof. intros Hn. unfold pad. rewrite repeat_length. lia. Qed.

Lemma land_not3 x : is_u32 x -> (x .& .~ 3) = 4 * (x / 4).
Proof.
  intros Hx. apply Z.bits_inj'. intros i Hi. replace (4 * (x / 4)) with (Z.shiftl (Z.shiftr x 2) 2)
    by (rewrite Z.shiftl_mul_pow2, Z.shiftr_div_pow2 by lia; change (2 ^ 2) with 4; lia).
  rewrite Z.land_spec, testbit_not32, Z.shiftl_spec by lia. change 3 with (Z.ones 2). rewrite Z.testbit_ones by lia.
  destruct (Z.ltb_spec i 2).
  - rewrite (Z.testbit_neg_r _ (i - 2)) by lia. rewrite (proj2 (Z.leb_le 0 i)), (proj2 (Z.ltb_lt i 32)) by lia. apply andb_false_r.
  - rewrite Z.shiftr_spec by lia. replace (i - 2 + 2) with i by lia. rewrite (proj2 (Z.leb_le 0 i)) by lia. cbn [andb xorb].
    destruct (Z.ltb_spec i 32); [apply andb_true_r|]. now rewrite (fits_testbit_high 32 x i) by (try assumption; lia).
Qed.

Lemma N_ALIGN_eq n : 0 <= n < 2 ^ 31 -> N_ALIGN n = 4 * ((n + 1) / 4) + 2.
Proof.
  intros Hn. unfold N_ALIGN. rewrite (u32_id (n + 1)), land_not3 by (unfold fits; lia). apply u32_id. unfold fits. zdiv.
Qed.

Lemma N_ALIGN_ge n : 2 <= N_ALIGN n.
Proof.
  unfold N_ALIGN. pose proof (u32_range (n + 1)) as Hu. rewrite land_not3 by exact Hu. unfold fits in Hu. rewrite u32_id; [zdiv|unfold fits; zdiv].
Qed.

Definition name_pad (name : path) : Z := N_ALIGN (strsize name) - strsize name.
Definition body_pad (body : list Z) : Z := (- Z.of_nat (length body)) mod 4.

Lemma name_pad_eq name : strsize name <= PATH_MAX -> name_pad name = (- (strsize name + 110)) mod 4.
Proof. unfold PATH_MAX, strsize. intros Hn. unfold name_pad, strsize. rewrite N_ALIGN_eq by lia. zdiv. Qed.

(** One file of the archive. *)
Record item := { it_fields : fields; it_name : path; it_body : list Z }.

Definition item_bytes (i : item) : list Z :=
  hdr_bytes (it_fields i) (strsize (it_name i)) ++ it_name i ++ [0] ++ pad (name_pad (it_name i)) ++ it_body i ++ pad (body_pad (it_body i)).

Definition nul_free (name : path) : Prop := Forall (fun c => c <> 0) name.

Record item_ok (i : item) : Prop := {
  io_fields : fields_ok (it_fields i);
  io_size : fl_size (it_fields i) = Z.of_nat (length (it_body i));
  io_name : nul_free (it_name i);
  io_length : strsize (it_name i) <= PATH_MAX
}.

(** ** The generator *)

(** [l] is written, and the offset counts it, modulo the width of the C integer. *)
Record appends (g g' : gen) l : Prop := {
  ap_out : out g' = out g ++ l;
  ap_offset : offset g' = u32 (offset g + Z.of_nat (length l));
  ap_ino : g_ino g' = g_ino g
}.

Lemma puts_appends g l n : n = Z.of_nat (length l) -> appends g (puts l n g) l.
Proof. intros ->. now split. Qed.

Lemma appends_trans g g1 g2 l l' : appends g g1 l -> appends g1 g2 l' -> appends g g2 (l ++ l').
Proof.
  intros [E1 E2 E3] [E4 E5 E6]. split; [now rewrite E4, E1, app_assoc| |congruence].
  rewrite E5, E2, length_app, Nat2Z.inj_add. unfold u32. rewrite Zplus_mod_idemp_l. f_equal. lia.
Qed.

Lemma appends_refl g : offset g = u32 (offset g) -> appends g g [].
Proof. intros E. split; [now rewrite app_nil_r| |reflexivity]. cbn [length]. now rewrite Z.add_0_r. Qed.

Lemma offset_mod g g' l k : (k | 4294967296) -> 0 < k -> appends g g' l -> offset g' mod k = (offset g + Z.of_nat (length l)) mod k.
Proof. intros Hk Hpos [_ -> _]. unfold u32. now apply Z.mod_mod_divide. Qed.

Lemma pad_S n : 0 < n -> pad n = 0 :: pad (n - 1).
Proof. intros Hn. unfold pad. replace (Z.to_nat n) with (S (Z.to_nat (n - 1))) by lia. reflexivity. Qed.

Lemma pad_loop_appends fuel unit g :
  (unit | 4294967296) -> 0 < unit -> is_u32 (offset g) -> (- offset g) mod unit <= Z.of_nat fuel ->
  appends g (pad_loop fuel unit g) (pad ((- offset g) mod unit)) /\ offset (pad_loop fuel unit g) mod unit = 0.
Proof.
  intros Hd Hu. revert g. induction fuel as [|fuel IH]; intros g Hg Hf; cbn [pad_loop].
  - assert (E : (- offset g) mod unit = 0) by (pose proof (Z.mod_pos_bound (- offset g) unit Hu); lia). rewrite E. split.
    + apply appends_refl. symmetry. now apply u32_id.
    + apply Z.mod_opp_l_z in E; [|lia]. now rewrite Z.opp_involutive in E.
  - destruct (Z.eqb_spec (offset g mod unit) 0) as [E|Hne].
    + rewrite Z.mod_opp_l_z by (auto; lia). split; [|exact E]. apply appends_refl. symmetry. now apply u32_id.
    + pose proof (puts_appends g [0] 1 eq_refl) as Ha. set (g1 := puts [0] 1 g) in *.
      assert (Hg1 : is_u32 (offset g1)) by apply u32_range.
      assert (Eo : (- offset g1) mod unit = (- offset g) mod unit - 1).
      { pose proof (offset_mod g g1 [0] unit Hd Hu Ha) as Em. cbn [length] in Em. change (Z.of_nat 1) with 1 in Em.
        assert (Hne' : (- offset g) mod unit <> 0) by (intros E; apply Z.mod_opp_l_z in E; [|lia]; now rewrite Z.opp_involutive in E).
        assert (E1 : (- offset g1) mod unit = (- (offset g + 1)) mod unit).
        { rewrite <- (Z.sub_0_l (offset g1)), <- (Z.sub_0_l (offset g + 1)). now rewrite Zminus_mod, Em, <- Zminus_mod. }
        rewrite E1. replace (- (offset g + 1)) with (- offset g - 1) by lia. pose proof (Z.mod_pos_bound (- offset g) unit Hu).
        symmetry. apply Z.mod_unique with ((- offset g) / unit); [lia|]. pose proof (Z.div_mod (- offset g) unit). lia. }
      assert (Hpos : 0 < (- offset g) mod unit).
      { pose proof (Z.mod_pos_bound (- offset g) unit Hu). assert ((- offset g) mod unit <> 0); [|lia].
        intros E; apply Z.mod_opp_l_z in E; [|lia]; now rewrite Z.opp_involutive in E. }
      destruct (IH g1 Hg1 ltac:(lia)) as [Ha1 Hm1]. split; [|exact Hm1]. rewrite pad_S by exact Hpos. rewrite <- Eo.
      exact (appends_trans g g1 _ [0] _ Ha Ha1).
Qed.

Lemma push_pad_appends g : is_u32 (offset g) -> appends g (push_pad g) (pad ((- offset g) mod 4)) /\ offset (push_pad g) mod 4 = 0.
Proof.
  intros Hg. apply pad_loop_appends; [now exists 1073741824|lia|exact Hg|]. pose proof (Z.mod_pos_bound (- offset g) 4). lia.
Qed.

Lemma rest_loop_appends fuel tmp g :
  0 <= tmp < 2 ^ 31 -> (- tmp) mod 4 <= Z.of_nat fuel -> Z.of_nat fuel <= 3 -> is_u32 (offset g) ->
  appends g (rest_loop fuel tmp g) (pad ((- tmp) mod 4)).
Proof.
  revert tmp g. induction fuel as [|fuel IH]; intros tmp g Ht Hf Hf3 Hg; cbn [rest_loop].
  - assert (E : (- tmp) mod 4 = 0) by (pose proof (Z.mod_pos_bound (- tmp) 4); lia). rewrite E. apply appends_refl. symmetry. now apply u32_id.
  - destruct (Z.eqb_spec (tmp mod 4) 0) as [E|Hne].
    + replace ((- tmp) mod 4) with 0 by zdiv. apply appends_refl. symmetry. now apply u32_id.
    + pose proof (puts_appends g [0] 1 eq_refl) as Ha. rewrite (u32_id (tmp + 1)) by (unfold fits; lia).
      rewrite pad_S by zdiv. replace ((- tmp) mod 4 - 1) with ((- (tmp + 1)) mod 4) by zdiv.
      destruct (Z.eq_dec (tmp + 1) (2 ^ 31)) as [Et|Hnt].
      { rewrite Et. change ((- 2 ^ 31) mod 4) with 0. destruct fuel as [|fuel]; cbn [rest_loop]; [exact Ha|]. change (2 ^ 31 mod 4 =? 0) with true. exact Ha. }
      apply (appends_trans g (puts [0] 1 g) _ [0] _ Ha). apply IH; try lia; [|apply u32_range].
      replace ((- (tmp + 1)) mod 4) with ((- tmp) mod 4 - 1) by zdiv. lia.
Qed.

(** The header and the name of an item. *)
Lemma push_head_appends f name g :
  fields_ok f -> strsize name <= PATH_MAX ->
  appends g (push_string name (push_hdr (hdr_bytes f (strsize name)) g)) (hdr_bytes f (strsize name) ++ name ++ [0])
  /\ is_u32 (offset (push_string name (push_hdr (hdr_bytes f (strsize name)) g))).
Proof.
  intros Hf Hn. split; [|apply u32_range]. apply (appends_trans g (push_hdr (hdr_bytes f (strsize name)) g)).
  - apply puts_appends. rewrite hdr_bytes_length; [reflexivity|exact Hf|]. unfold PATH_MAX, strsize, fits in *. lia.
  - apply puts_appends. rewrite length_app. unfold strsize. cbn [length]. lia.
Qed.

Lemma head_length f name : fields_ok f -> strsize name <= PATH_MAX ->
  Z.of_nat (length (hdr_bytes f (strsize name) ++ name ++ [0])) = 110 + strsize name.
Proof.
  intros Hf Hn. rewrite !length_app, hdr_bytes_length; [unfold strsize; cbn [length]; lia|exact Hf|]. unfold PATH_MAX, strsize, fits in *. lia.
Qed.

(** An item without a body, as [push_rest] writes it. *)
Lemma push_rest_item f name g :
  fields_ok f -> strsize name <= PATH_MAX ->
  appends g (push_rest name (push_hdr (hdr_bytes f (strsize name)) g)) (item_bytes {| it_fields := f; it_name := name; it_body := [] |}).
Proof.
  intros Hf Hn. destruct (push_head_appends f name g Hf Hn) as [Ha Hu]. unfold push_rest, item_bytes. cbn [it_fields it_name it_body].
  change (body_pad []) with 0. change (pad 0) with (@nil Z). rewrite !app_nil_r. unfold PATH_MAX, strsize in Hn.
  replace (hdr_bytes f (strsize name) ++ name ++ [0] ++ pad (name_pad name)) with ((hdr_bytes f (strsize name) ++ name ++ [0]) ++ pad (name_pad name))
    by now rewrite <- !app_assoc.
  apply (appends_trans g _ _ _ _ Ha). rewrite (u32_id (strsize name + 110)) by (unfold fits, strsize; lia).
  rewrite name_pad_eq by (unfold PATH_MAX, strsize; lia). apply rest_loop_appends; [unfold strsize; lia| |lia|exact Hu].
  pose proof (Z.mod_pos_bound (- (strsize name + 110)) 4). lia.
Qed.

(** The head padded by [push_pad], from an aligned offset. *)
Lemma push_pad_head f name g :
  fields_ok f -> strsize name <= PATH_MAX -> offset g mod 4 = 0 ->
  let g' := push_pad (push_string name (push_hdr (hdr_bytes f (strsize name)) g)) in
  appends g g' (hdr_bytes f (strsize name) ++ name ++ [0] ++ pad (name_pad name)) /\ is_u32 (offset g') /\ offset g' mod 4 = 0.
Proof.
  intros Hf Hn Hg. destruct (push_head_appends f name g Hf Hn) as [Ha Hu]. set (g1 := push_string _ _) in *.
  destruct (push_pad_appends g1 Hu) as [Hp Hm]. cbn zeta.
  pose proof (offset_mod g g1 _ 4 ltac:(now exists 1073741824) ltac:(lia) Ha) as Em. rewrite (head_length f name Hf Hn) in Em.
  assert (E : (- offset g1) mod 4 = name_pad name) by (rewrite name_pad_eq by exact Hn; zdiv). rewrite E in Hp.
  split; [|split; [|exact Hm]].
  - replace (hdr_bytes f (strsize name) ++ name ++ [0] ++ pad (name_pad name)) with ((hdr_bytes f (strsize name) ++ name ++ [0]) ++ pad (name_pad name))
      by now rewrite <- !app_assoc.
    exact (appends_trans g g1 _ _ _ Ha Hp).
  - rewrite (ap_offset _ _ _ Hp). apply u32_range.
Qed.

(** An item with a body. *)
Lemma push_body_item f name body g (push : gen -> gen) :
  fields_ok f -> strsize name <= PATH_MAX -> offset g mod 4 = 0 -> (forall g, appends g (push g) body) ->
  let g' := push_pad (push (push_pad (push_string name (push_hdr (hdr_bytes f (strsize name)) g)))) in
  appends g g' (item_bytes {| it_fields := f; it_name := name; it_body := body |}) /\ offset g' mod 4 = 0.
Proof.
  intros Hf Hn Hg Hpush. destruct (push_pad_head f name g Hf Hn Hg) as (Ha & Hu & Hm). set (g1 := push_pad (push_string _ _)) in *. cbn zeta.
  pose proof (Hpush g1) as Hb. assert (Hu2 : is_u32 (offset (push g1))) by (rewrite (ap_offset _ _ _ Hb); apply u32_range).
  destruct (push_pad_appends (push g1) Hu2) as [Hp Hm2]. split; [|exact Hm2].
  pose proof (offset_mod g1 (push g1) body 4 ltac:(now exists 1073741824) ltac:(lia) Hb) as Em.
  assert (E : (- offset (push g1)) mod 4 = body_pad body) by (unfold body_pad; zdiv). rewrite E in Hp.
  unfold item_bytes. cbn [it_fields it_name it_body].
  replace (hdr_bytes f (strsize name) ++ name ++ [0] ++ pad (name_pad name) ++ body ++ pad (body_pad body))
    with ((hdr_bytes f (strsize name) ++ name ++ [0] ++ pad (name_pad name)) ++ body ++ pad (body_pad body)) by now rewrite <- !app_assoc.
  exact (appends_trans _ _ _ _ _ Ha (appends_trans _ _ _ _ _ Hb Hp)).
Qed.

Lemma item_aligned i : item_ok i -> Z.of_nat (length (item_bytes i)) mod 4 = 0 /\ 110 <= Z.of_nat (length (item_bytes i)).
Proof.
  intros [Hf _ _ Hn]. unfold item_bytes. rewrite !length_app, hdr_bytes_length by (auto; unfold PATH_MAX, strsize, fits in *; lia).
  rewrite !Nat2Z.inj_add. unfold body_pad. rewrite !pad_length by (rewrite ?name_pad_eq by exact Hn; zdiv). cbn [length].
  rewrite name_pad_eq by exact Hn. unfold strsize. zdiv.
Qed.

(** ** Entries *)

(** The links of a file share its fields; the last has the data. *)
Fixpoint file_items (f : Z -> fields) (names : list path) (data : list Z) : list item :=
  match names with
  | [] => []
  | name :: names =>
      let body := match names with [] => data | _ => [] end in
      {| it_fields := f (Z.of_nat (length body)); it_name := name; it_body := body |} :: file_items f names data
  end.

Definition mk_fields (ino mode uid gid nlink mtime size rmajor rminor : Z) : fields :=
  {| fl_ino := ino; fl_mode := mode; fl_uid := uid; fl_gid := gid; fl_nlink := nlink; fl_mtime := mtime; fl_size := size;
     fl_major := 3; fl_minor := 1; fl_rmajor := rmajor; fl_rminor := rminor |}.

Definition nod_type (dev_type : Z) : Z := if dev_type =? 98 then S_IFBLK else S_IFCHR.

Definition items_of (e : entry) (ino : Z) : list item :=
  match e with
  | File names mode uid gid mtime data =>
      file_items (fun size => mk_fields ino (mode .| S_IFREG) uid gid (Z.of_nat (length names)) mtime size 0 0) names data
  | Nod name mode uid gid dev_type maj min mtime =>
      [{| it_fields := mk_fields ino (mode .| nod_type dev_type) uid gid 1 mtime 0 maj min; it_name := name; it_body := [] |}]
  | Generic gt name mode uid gid mtime =>
      [{| it_fields := mk_fields ino (mode .| generic_mode gt) uid gid 2 mtime 0 0 0; it_name := name; it_body := [] |}]
  | Slink name target mode uid gid mtime =>
      [{| it_fields := mk_fields ino (S_IFLNK .| mode) uid gid 1 mtime (strsize target) 0 0; it_name := name; it_body := target ++ [0] |}]
  end.

(** What an archive can hold: names without NUL that fit PATH_MAX and are not the trailer's, permission bits, and numbers
    of 32 bits (31 for times). *)
Definition name_ok (name : path) : Prop := nul_free name /\ strsize name <= PATH_MAX /\ name <> trailer_name.
Definition attr_ok (mode uid gid mtime : Z) : Prop := 0 <= mode < 4096 /\ is_u32 uid /\ is_u32 gid /\ 0 <= mtime < 2 ^ 31.

Definition entry_ok (e : entry) : Prop :=
  match e with
  | File names mode uid gid mtime data =>
      names <> [] /\ Forall name_ok names /\ Z.of_nat (length names) < 2 ^ 31 /\ attr_ok mode uid gid mtime /\ Z.of_nat (length data) < 2 ^ 31
  | Nod name mode uid gid dev_type maj min mtime => name_ok name /\ attr_ok mode uid gid mtime /\ is_u32 maj /\ is_u32 min
  | Generic gt name mode uid gid mtime => name_ok name /\ attr_ok mode uid gid mtime
  | Slink name target mode uid gid mtime => name_ok name /\ attr_ok mode uid gid mtime /\ nul_free target /\ strsize target <= PATH_MAX
  end.

Lemma mode_type_u32 mode t : 0 <= mode < 4096 -> is_u32 t -> is_u32 (mode .| t).
Proof. intros Hm Ht. apply lor_u32; [unfold fits; lia|exact Ht]. Qed.

Lemma mk_fields_ok ino mode uid gid nlink mtime size maj min :
  is_u32 ino -> is_u32 mode -> is_u32 uid -> is_u32 gid -> is_u32 nlink -> 0 <= mtime < 2 ^ 31 -> 0 <= size < 2 ^ 31 -> is_u32 maj -> is_u32 min ->
  fields_ok (mk_fields ino mode uid gid nlink mtime size maj min).
Proof.
  intros. unfold fields_ok, mk_fields. cbn [fl_ino fl_mode fl_uid fl_gid fl_nlink fl_mtime fl_size fl_major fl_minor fl_rmajor fl_rminor].
  repeat (constructor; [assumption || (unfold fits; lia)|]). constructor.
Qed.

(** The generator after an entry: the records of [items] are written. *)
Record wrote (g g' : gen) (items : list item) : Prop := {
  wr_out : out g' = out g ++ concat (map item_bytes items);
  wr_offset : offset g' mod 4 = 0
}.

Lemma wrote_one g g' i : item_ok i -> offset g mod 4 = 0 -> appends g g' (item_bytes i) -> wrote g g' [i].
Proof.
  intros Hi Hg Ha. split; [cbn [map concat]; rewrite app_nil_r; exact (ap_out _ _ _ Ha)|].
  rewrite (offset_mod g g' _ 4 ltac:(now exists 1073741824) ltac:(lia) Ha). destruct (item_aligned i Hi). zdiv.
Qed.

Lemma wrote_next g g' items : wrote (next_ino g) g' items -> wrote g g' items.
Proof. now intros [E1 E2]. Qed.

Lemma strsize_u32 name : strsize name <= PATH_MAX -> 0 <= strsize name < 2 ^ 31.
Proof. unfold PATH_MAX, strsize. lia. Qed.

Lemma mkfile_loop_items ino mode uid gid nlinks mtime data names g :
  g_ino g = ino -> offset g mod 4 = 0 -> Forall name_ok names -> Z.of_nat (length data) < 2 ^ 31 ->
  (forall size, 0 <= size < 2 ^ 31 -> fields_ok (mk_fields ino mode uid gid nlinks mtime size 0 0)) ->
  let items := file_items (fun size => mk_fields ino mode uid gid nlinks mtime size 0 0) names data in
  let g' := mkfile_loop names nlinks mode uid gid mtime data g in
  wrote g g' items /\ g_ino g' = ino /\ Forall item_ok items.
Proof.
  intros Hi Hg Hn Hd Hf. revert g Hi Hg. induction names as [|name names IH]; intros g Hi Hg; cbn zeta.
  - cbn [file_items mkfile_loop]. split_and!; [|exact Hi|constructor]. split; [cbn; now rewrite app_nil_r|exact Hg].
  - apply Forall_cons in Hn as [[Hn0 [Hn1 _]] Hn]. specialize (IH Hn). cbn [file_items mkfile_loop].
    set (body := match names with [] => data | _ => [] end). assert (Hb : Z.of_nat (length body) < 2 ^ 31) by (subst body; destruct names; cbn [length]; lia).
    specialize (Hf (Z.of_nat (length body)) ltac:(lia)). set (f := mk_fields _ _ _ _ _ _ _ _ _) in *.
    set (i := {| it_fields := f; it_name := name; it_body := body |}). assert (Hio : item_ok i) by (split; cbn; auto).
    rewrite Hi. change (cpio_hdr ino mode uid gid nlinks mtime (Z.of_nat (length body)) 3 1 0 0 (strsize name) 0) with (hdr_bytes f (strsize name)).
    set (g1 := if Z.of_nat (length body) =? 0 then _ else _). assert (Ha : appends g g1 (item_bytes i)).
    { subst g1. destruct (Z.eqb_spec (Z.of_nat (length body)) 0) as [E|Hne].
      - destruct (push_pad_head f name g Hf Hn1 Hg) as (Ha & _ & _). subst i. unfold item_bytes. cbn [it_fields it_name it_body].
        destruct body; [|discriminate E]. change (body_pad []) with 0. change (pad 0) with (@nil Z). now rewrite !app_nil_r.
      - exact (proj1 (push_body_item f name body g (puts body (Z.of_nat (length body))) Hf Hn1 Hg (fun g => puts_appends g body _ eq_refl))). }
    assert (Hi1 : g_ino g1 = ino) by (rewrite (ap_ino _ _ _ Ha); exact Hi).
    destruct (wrote_one g g1 i Hio Hg Ha) as [W1 W2]. destruct (IH g1 Hi1 W2) as ([W3 W4] & Hino & Hall).
    split_and!; [|exact Hino|now constructor]. split; [|exact W4]. rewrite W3, W1. cbn [map concat]. now rewrite app_nil_r, app_assoc.
Qed.

Lemma type_mode_u32 mode t : 0 <= mode < 4096 -> is_u32 t -> is_u32 (t .| mode).
Proof. intros Hm Ht. apply lor_u32; [exact Ht|unfold fits; lia]. Qed.

(** Every entry is written as its items. *)
Lemma gen_entry_items e g :
  entry_ok e -> offset g mod 4 = 0 -> is_u32 (g_ino g) ->
  let items := items_of e (g_ino g) in
  wrote g (gen_entry e g) items /\ g_ino (gen_entry e g) = u32 (g_ino g + 1) /\ Forall item_ok items.
Proof.
  intros He Hg Hi. destruct e as [names mode uid gid mtime data|name mode uid gid dev_type maj min mtime|gt name mode uid gid mtime|name target mode uid gid mtime];
    cbn [gen_entry items_of entry_ok] in *; cbn zeta.
  - destruct He as (Hne & Hn & Hl & (Hm & Hu & Hgd & Ht) & Hd).
    destruct (mkfile_loop_items (g_ino g) (mode .| S_IFREG) uid gid (Z.of_nat (length names)) mtime data names g eq_refl Hg Hn Hd) as (Hw & Hino & Hall).
    { intros size Hs. apply mk_fields_ok; auto; try (unfold fits; lia). apply mode_type_u32; [lia|unfold fits, S_IFREG; lia]. }
    unfold cpio_mkfile. split_and!; [|cbn [next_ino g_ino]; now rewrite Hino|exact Hall]. destruct Hw as [W1 W2]. now split.
  - destruct He as ([Hn0 [Hn1 _]] & (Hm & Hu & Hgd & Ht) & Hma & Hmi).
    set (f := mk_fields (g_ino g) (mode .| nod_type dev_type) uid gid 1 mtime 0 maj min).
    assert (Hf : fields_ok f) by (apply mk_fields_ok; auto; try (unfold fits; lia); apply mode_type_u32; [lia|unfold nod_type; destruct (dev_type =? 98); unfold fits, S_IFBLK, S_IFCHR; lia]).
    assert (Hio : item_ok {| it_fields := f; it_name := name; it_body := [] |}) by (split; cbn; auto).
    pose proof (push_rest_item f name (next_ino g) Hf Hn1) as Ha. split_and!; [|exact (ap_ino _ _ _ Ha)|now constructor].
    apply wrote_next. now apply wrote_one.
  - destruct He as ([Hn0 [Hn1 _]] & Hm & Hu & Hgd & Ht).
    set (f := mk_fields (g_ino g) (mode .| generic_mode gt) uid gid 2 mtime 0 0 0).
    assert (Hf : fields_ok f) by (apply mk_fields_ok; auto; try (unfold fits; lia); apply mode_type_u32; [lia|destruct gt; unfold fits, generic_mode, S_IFDIR, S_IFIFO, S_IFSOCK; lia]).
    assert (Hio : item_ok {| it_fields := f; it_name := name; it_body := [] |}) by (split; cbn; auto).
    pose proof (push_rest_item f name (next_ino g) Hf Hn1) as Ha. split_and!; [|exact (ap_ino _ _ _ Ha)|now constructor].
    apply wrote_next. now apply wrote_one.
  - destruct He as ([Hn0 [Hn1 _]] & (Hm & Hu & Hgd & Ht) & Ht0 & Ht1).
    set (f := mk_fields (g_ino g) (S_IFLNK .| mode) uid gid 1 mtime (strsize target) 0 0).
    assert (Hf : fields_ok f) by (apply mk_fields_ok; auto using strsize_u32; try (unfold fits; lia); apply type_mode_u32; [lia|unfold fits, S_IFLNK; lia]).
    assert (Hio : item_ok {| it_fields := f; it_name := name; it_body := target ++ [0] |}).
    { split; cbn; auto. rewrite length_app. unfold strsize. cbn [length]. lia. }
    destruct (push_body_item f name (target ++ [0]) (next_ino g) (push_string target) Hf Hn1 Hg) as [Ha _].
    { intros g'. apply puts_appends. rewrite length_app. unfold strsize. cbn [length]. lia. }
    split_and!; [|exact (ap_ino _ _ _ Ha)|now constructor]. apply wrote_next. now apply wrote_one.
Qed.

(** The records of a list of entries. *)
Fixpoint items_from (ino : Z) (es : list entry) : list item :=
  match es with [] => [] | e :: es => items_of e ino ++ items_from (u32 (ino + 1)) es end.

Lemma gen_entries_items es g :
  Forall entry_ok es -> offset g mod 4 = 0 -> is_u32 (g_ino g) ->
  wrote g (gen_entries es g) (items_from (g_ino g) es) /\ Forall item_ok (items_from (g_ino g) es).
Proof.
  intros He. revert g. induction He as [|e es He Hes IH]; intros g Hg Hi; cbn [gen_entries items_from].
  - split; [|constructor]. split; [cbn; now rewrite app_nil_r|exact Hg].
  - destruct (gen_entry_items e g He Hg Hi) as ([W1 W2] & E & Hall). destruct (IH (gen_entry e g) W2) as [[W3 W4] Hall'].
    { rewrite E. apply u32_range. }
    rewrite E in W3, Hall'. split; [|now apply Forall_app]. split; [|exact W4]. now rewrite W3, W1, map_app, concat_app, app_assoc.
Qed.

Definition trailer_item : item :=
  {| it_fields := {| fl_ino := 0; fl_mode := 0; fl_uid := 0; fl_gid := 0; fl_nlink := 1; fl_mtime := 0; fl_size := 0; fl_major := 0; fl_minor := 0;
                     fl_rmajor := 0; fl_rminor := 0 |}; it_name := trailer_name; it_body := [] |}.

Lemma trailer_ok : item_ok trailer_item.
Proof.
  split; [|reflexivity| |vm_compute; congruence].
  - unfold fields_ok. cbn. repeat (constructor; [unfold fits; lia|]). constructor.
  - unfold nul_free. cbn. repeat (constructor; [lia|]). constructor.
Qed.

(** The archive is the records of its entries, the trailer, and zeroes. *)
Lemma archive_items es : Forall entry_ok es ->
  Forall item_ok (items_from 721 es)
  /\ exists n, 0 <= n < 512 /\ n mod 4 = 0 /\ archive es = concat (map item_bytes (items_from 721 es)) ++ item_bytes trailer_item ++ pad n.
Proof.
  intros He. destruct (gen_entries_items es gen_init He eq_refl ltac:(cbn; unfold fits; lia)) as [[W1 W2] Hall]. split; [exact Hall|].
  set (g := gen_entries es gen_init) in *. unfold archive, cpio_trailer.
  pose proof (push_rest_item (it_fields trailer_item) trailer_name g (io_fields _ trailer_ok) (io_length _ trailer_ok)) as Ha.
  change (cpio_hdr 0 0 0 0 1 0 0 0 0 0 0 (strsize trailer_name) 0) with (hdr_bytes (it_fields trailer_item) (strsize trailer_name)).
  set (g1 := push_rest _ _) in *. destruct (pad_loop_appends 511 512 g1) as [Hp _].
  - now exists 8388608.
  - lia.
  - rewrite (ap_offset _ _ _ Ha). apply u32_range.
  - pose proof (Z.mod_pos_bound (- offset g1) 512). lia.
  - exists ((- offset g1) mod 512). split; [apply Z.mod_pos_bound; lia|].
    destruct (wrote_one g g1 trailer_item trailer_ok W2 Ha) as [_ Hm]. split; [zdiv|]. rewrite (ap_out _ _ _ Hp), (ap_out _ _ _ Ha), W1.
    cbn [gen_init out app]. now rewrite <- app_assoc.
Qed.
