(* ===== verification/InitReader.v ===== *)
(** * Unpacking the root file system: reading one record

    The actions of [Initramfs] on a record of the archive ([InitArchive]): from the
    header over the name to the end of its padding. *)

From S2P Require Import Prelude Initramfs GenInitCpio InitArchive.

(** ** Modes *)

Lemma type_of_mode mode t : 0 <= mode < 4096 -> 0 <= t < 16 -> (mode .| (t * 4096)) .& S_IFMT = t * 4096.
Proof.
  intros Hm Ht. apply Z.bits_inj'. intros i Hi. rewrite Z.land_spec, Z.lor_spec. change S_IFMT with (Z.shiftl (Z.ones 4) 12).
  replace (t * 4096) with (Z.shiftl t 12) by (rewrite Z.shiftl_mul_pow2 by lia; reflexivity).
  rewrite !Z.shiftl_spec, Z.testbit_ones by lia. destruct (Z.leb_spec 0 (i - 12)); cbn [andb].
  - rewrite (fits_testbit_high 12 mode i) by (unfold fits; lia). cbn [orb]. destruct (Z.ltb_spec (i - 12) 4); [apply andb_true_r|].
    now rewrite (fits_testbit_high 4 t (i - 12)) by (unfold fits; lia).
  - rewrite andb_false_r. now rewrite Z.testbit_neg_r by lia.
Qed.

(** The types of files, in units of 4096. *)
Definition type_num (t : Z) : Prop := exists k, t = k * 4096 /\ 0 <= k < 16.

Lemma is_type_mode mode t t' : 0 <= mode < 4096 -> type_num t -> is_type (mode .| t) t' = (t =? t').
Proof. intros Hm (k & -> & Hk). unfold is_type. now rewrite type_of_mode. Qed.

Lemma mode_16 mode t : 0 <= mode < 4096 -> type_num t -> (mode .| t) mod 65536 = mode .| t.
Proof.
  intros Hm (k & -> & Hk). apply Z.mod_small. assert (E : fits 16 (mode .| (k * 4096))); [|unfold fits in E; lia].
  apply fits_bits; [lia|apply Z.lor_nonneg; lia|]. intros i Hi. rewrite Z.lor_spec.
  rewrite (fits_testbit_high 16 mode i), (fits_testbit_high 16 (k * 4096) i) by (unfold fits; lia). reflexivity.
Qed.

Lemma s32_small x : 0 <= x < 2 ^ 31 -> s32 x = x.
Proof. intros Hx. apply s32_id. lia. Qed.

(** ** Strings *)

Lemma c_string_app name l : nul_free name -> c_string (name ++ 0 :: l) = Ok name.
Proof.
  induction 1 as [|c name Hc Hn IH]; [reflexivity|]. cbn [app c_string]. rewrite (proj2 (Z.eqb_neq c 0) Hc), IH. reflexivity.
Qed.

Lemma store_at_ok l i data : 0 <= i -> i + Z.of_nat (length data) <= Z.of_nat (length l) ->
  store_at l i data = Ok (firstn (Z.to_nat i) l ++ data ++ skipn (Z.to_nat i + length data) l).
Proof. intros H1 H2. unfold store_at. now rewrite (proj2 (Z.leb_le 0 i)), (proj2 (Z.leb_le _ _)) by lia. Qed.

(** ** Runs *)

Section Reader.

Context {FS : Type} `{Rootfs FS}.
Implicit Type s : unpacker FS.

(** [n] actions that go on. *)
Inductive steps : nat -> unpacker FS -> unpacker FS -> Prop :=
| steps_O s : steps 0 s s
| steps_S n s s1 s2 : action s = Ok (false, s1) -> steps n s1 s2 -> steps (S n) s s2.

Lemma steps_trans n m s s1 s2 : steps n s s1 -> steps m s1 s2 -> steps (n + m) s s2.
Proof. induction 1 as [|n s s1' s1 Ha Hs IH]; intros Hm; [exact Hm|]. cbn [Nat.add]. econstructor; eauto. Qed.

Lemma steps_one s s1 : action s = Ok (false, s1) -> steps 1 s s1.
Proof. intros E. econstructor; [exact E|constructor]. Qed.

Lemma run_steps n fuel s s1 s2 : steps n s s1 -> action s1 = Ok (true, s2) -> (n < fuel)%nat -> run_actions fuel s = Ok s2.
Proof.
  intros Hs. revert fuel. induction Hs as [s|n s s' s1 Ha Hs IH]; intros fuel E Hf; (destruct fuel as [|fuel]; [lia|]); cbn [run_actions].
  - now rewrite E.
  - rewrite Ha. cbn [rbind]. apply IH; [exact E|lia].
Qed.

(** ** A record *)

(** Nothing is wrong, and the next record may start. *)
Record ready s : Prop := {
  rd_message : message s = None;
  rd_header : 0 <= this_header s;
  rd_aligned : this_header s mod 4 = 0;
  rd_symlink_buf : Z.of_nat (length (bufs s SymlinkBuf)) = 8195
}.

(** The state after the header of [i], which started in [s]. *)
Record read_header (i : item) s s' : Prop := {
  rh_message : message s' = None;
  rh_next : next_header s' = this_header s + Z.of_nat (length (item_bytes i));
  rh_hdr : hdr s' = header_of (it_fields i) (strsize (it_name i));
  rh_symlink_buf : Z.of_nat (length (bufs s' SymlinkBuf)) = 8195;
  rh_fs : fs s' = fs s;
  rh_head : head s' = head s;
  rh_dirs : dir_list s' = dir_list s
}.

Lemma item_length i : item_ok i ->
  Z.of_nat (length (item_bytes i)) = 110 + N_ALIGN (strsize (it_name i)) + Z.of_nat (length (it_body i)) + body_pad (it_body i).
Proof.
  intros [Hf _ _ Hn]. pose proof (strsize_u32 _ Hn). unfold item_bytes. rewrite !length_app, hdr_bytes_length by (auto; unfold fits; lia).
  rewrite !Nat2Z.inj_add. rewrite !pad_length; [|unfold body_pad; zdiv|rewrite name_pad_eq by exact Hn; zdiv].
  unfold name_pad. cbn [length]. unfold strsize in *. lia.
Qed.

(** What follows the header. *)
Definition after_header (i : item) (rest : list Z) : list Z :=
  it_name i ++ [0] ++ pad (name_pad (it_name i)) ++ it_body i ++ pad (body_pad (it_body i)) ++ rest.

Lemma item_bytes_app i rest : item_bytes i ++ rest = hdr_bytes (it_fields i) (strsize (it_name i)) ++ after_header i rest.
Proof. unfold item_bytes, after_header. now rewrite <- !app_assoc. Qed.

Lemma start_action i rest s :
  item_ok i -> st s = Start -> victim s = item_bytes i ++ rest ->
  action s = Ok (false, set_st (set_input (set_collected s (InPlace (victim s))) (after_header i rest) (this_header s + 110)) GotHeader).
Proof.
  intros Hi Est Ev. pose proof (item_length i Hi) as Hl. destruct Hi as [Hf _ _ Hn]. pose proof (strsize_u32 _ Hn) as Hs.
  unfold action. rewrite Est. unfold do_start, read_into, count. rewrite Ev, item_bytes_app, length_app.
  rewrite hdr_bytes_length by (auto; unfold fits; lia). rewrite (proj2 (Z.leb_le 110 _)) by lia. unfold eat. un_simpl. rewrite Ev, item_bytes_app.
  change (Z.to_nat 110) with 110%nat. rewrite drop_app_length' by (rewrite hdr_bytes_length; auto; unfold fits; lia). reflexivity.
Qed.

Lemma next_header_eq i (t : Z) : item_ok i -> 0 <= t -> t mod 4 = 0 ->
  4 * ((t + 110 + N_ALIGN (strsize (it_name i)) + fl_size (it_fields i) + 3) / 4) = t + Z.of_nat (length (item_bytes i)).
Proof.
  intros Hi Ht Hm. rewrite (item_length i Hi), (io_size i Hi). pose proof (strsize_u32 _ (io_length i Hi)).
  rewrite N_ALIGN_eq by lia. unfold body_pad. zdiv.
Qed.

(** The name as the code stores it. *)
Definition name_bytes (i : item) : list Z := it_name i ++ [0] ++ pad (name_pad (it_name i)).

Lemma after_header_eq i rest : after_header i rest = name_bytes i ++ it_body i ++ pad (body_pad (it_body i)) ++ rest.
Proof. unfold after_header, name_bytes. now rewrite <- !app_assoc. Qed.

Lemma name_bytes_length i : item_ok i -> Z.of_nat (length (name_bytes i)) = N_ALIGN (strsize (it_name i)).
Proof.
  intros [_ _ _ Hn]. unfold name_bytes. rewrite !length_app, !Nat2Z.inj_add, pad_length by (rewrite name_pad_eq by exact Hn; zdiv).
  unfold name_pad. cbn [length]. unfold strsize in *. lia.
Qed.

(** The header is good: up to the choice of what to do with the record. *)
Lemma header_parsed i rest s s1 :
  item_ok i -> collected s1 = InPlace (item_bytes i ++ rest) -> st s1 = GotHeader -> 0 <= this_header s -> this_header s mod 4 = 0 ->
  this_header s1 = this_header s + 110 -> let h := header_of (it_fields i) (strsize (it_name i)) in
  let s2 := set_st (set_next_header (set_hdr s1 h) (this_header s + Z.of_nat (length (item_bytes i)))) SkipIt in
  action s1 = (if is_type (mode h) S_IFLNK then
      if PATH_MAX <? body_len h then Ok (false, s2)
      else
        let s := set_collect (set_collected s2 (InBuf SymlinkBuf)) SymlinkBuf 0 (N_ALIGN (name_len h) + body_len h) in
        Ok (false, set_st (set_next_state s GotSymlink) Collect)
    else if is_type (mode h) S_IFREG || (body_len h =? 0) then Ok (false, read_into NameBuf (N_ALIGN (name_len h)) GotName s2)
    else Ok (false, s2)).
Proof.
  intros Hi Ec Est H0 Hm Et h s2. pose proof (strsize_u32 _ (io_length i Hi)) as Hs. pose proof (next_header_eq i (this_header s) Hi H0 Hm) as En.
  unfold action. rewrite Est. unfold do_header, at_collected. rewrite Ec, item_bytes_app. rewrite hdr_bytes_magic.
  change (list_eqb newc_magic old_magic) with false. change (list_eqb newc_magic newc_magic) with true. cbn [negb].
  rewrite parse_hdr_bytes by (try exact (io_fields i Hi); unfold fits; lia). cbn zeta. fold h. change (name_len h) with (strsize (it_name i)).
  change (body_len h) with (fl_size (it_fields i)). un_simpl. rewrite Et. rewrite En. fold s2.
  assert (E1 : (strsize (it_name i) <=? 0) = false) by (apply Z.leb_gt; unfold strsize; lia).
  assert (E2 : (PATH_MAX <? strsize (it_name i)) = false) by (apply Z.ltb_ge; exact (io_length i Hi)).
  rewrite E1, E2. reflexivity.
Qed.

(** To the name of a record that is not a symbolic link. *)
Lemma header_name i rest s :
  item_ok i -> ready s -> st s = Start -> victim s = item_bytes i ++ rest ->
  let h := header_of (it_fields i) (strsize (it_name i)) in
  is_type (mode h) S_IFLNK = false -> is_type (mode h) S_IFREG || (body_len h =? 0) = true ->
  exists s2, steps 2 s s2 /\ read_header i s s2 /\ st s2 = GotName /\ collected s2 = InPlace (after_header i rest)
    /\ victim s2 = it_body i ++ pad (body_pad (it_body i)) ++ rest /\ this_header s2 = this_header s + 110 + N_ALIGN (strsize (it_name i)).
Proof.
  intros Hi [Hm H0 Ha Hb] Est Ev h E1 E2. pose proof (start_action i rest s Hi Est Ev) as A1. rewrite Ev in A1. set (s1 := set_st _ GotHeader) in A1.
  assert (A2 := header_parsed i rest s s1 Hi). specialize (A2 eq_refl eq_refl H0 Ha eq_refl). cbn zeta in A2. fold h in A2.
  rewrite E1, E2 in A2. set (s2 := set_st (set_next_header _ _) SkipIt) in A2. unfold read_into in A2.
  assert (Ec : (N_ALIGN (name_len h) <=? count s2) = true).
  { apply Z.leb_le. unfold count. subst s2 s1. un_simpl. rewrite after_header_eq, length_app, Nat2Z.inj_add, name_bytes_length by exact Hi.
    change (name_len h) with (strsize (it_name i)). lia. }
  rewrite Ec in A2. eexists. split; [exact (steps_S _ _ _ _ A1 (steps_one _ _ A2))|]. split; [split; try reflexivity; assumption|].
  unfold eat. subst s2 s1. un_simpl. split_and!; try reflexivity. rewrite after_header_eq.
  change (name_len h) with (strsize (it_name i)). rewrite drop_app_length'; [reflexivity|]. rewrite <- (name_bytes_length i Hi). lia.
Qed.

(** To the buffer of a symbolic link. *)
Lemma header_symlink i rest s :
  item_ok i -> ready s -> st s = Start -> victim s = item_bytes i ++ rest ->
  let h := header_of (it_fields i) (strsize (it_name i)) in
  is_type (mode h) S_IFLNK = true -> body_len h <= PATH_MAX ->
  exists s2 l, steps 3 s s2 /\ read_header i s s2 /\ st s2 = GotSymlink /\ collected s2 = InBuf SymlinkBuf
    /\ bufs s2 SymlinkBuf = name_bytes i ++ it_body i ++ l
    /\ victim s2 = pad (body_pad (it_body i)) ++ rest
    /\ this_header s2 = this_header s + 110 + N_ALIGN (strsize (it_name i)) + Z.of_nat (length (it_body i)).
Proof.
  intros Hi [Hm H0 Ha Hb] Est Ev h E1 E2. pose proof (start_action i rest s Hi Est Ev) as A1. rewrite Ev in A1. set (s1 := set_st _ GotHeader) in A1.
  assert (A2 := header_parsed i rest s s1 Hi). specialize (A2 eq_refl eq_refl H0 Ha eq_refl). cbn zeta in A2. fold h in A2.
  rewrite E1 in A2. rewrite (proj2 (Z.ltb_ge PATH_MAX (body_len h)) E2) in A2. set (s2 := set_st (set_next_state _ _) Collect) in A2.
  pose proof (name_bytes_length i Hi) as Hn. pose proof (io_size i Hi) as Hz. pose proof (strsize_u32 _ (io_length i Hi)) as Hs.
  assert (HN : N_ALIGN (strsize (it_name i)) <= 4098).
  { rewrite N_ALIGN_eq by lia. pose proof (io_length i Hi). unfold PATH_MAX in *. zdiv. }
  set (nb := name_bytes i ++ it_body i). assert (Hl : Z.of_nat (length nb) = N_ALIGN (strsize (it_name i)) + fl_size (it_fields i)).
  { unfold nb. rewrite length_app. lia. }
  change (body_len h) with (fl_size (it_fields i)) in *. unfold PATH_MAX in E2.
  assert (A3 : action s2 = Ok (false, set_st (set_collect (eat (put_buf s2 SymlinkBuf (nb ++ skipn (length nb) (bufs s SymlinkBuf))) (Z.of_nat (length nb)))
     SymlinkBuf (Z.of_nat (length nb)) 0) GotSymlink)).
  { unfold action. change (st s2) with Collect. cbn match. unfold do_collect. change (collect s2) with SymlinkBuf. change (collect_at s2) with 0.
    change (bufs s2 SymlinkBuf) with (bufs s SymlinkBuf).
    assert (Ec : Z.min (remains s2) (count s2) = Z.of_nat (length nb)).
    { unfold count. subst s2 s1. un_simpl. change (name_len h) with (strsize (it_name i)). rewrite after_header_eq, app_assoc. fold nb.
      rewrite length_app. change (body_len h) with (fl_size (it_fields i)). lia. }
    cbv zeta. rewrite Ec. assert (Ef : firstn (Z.to_nat (Z.of_nat (length nb))) (victim s2) = nb).
    { rewrite Nat2Z.id. subst s2 s1. un_simpl. rewrite after_header_eq, app_assoc. fold nb. apply take_app_length. }
    rewrite Ef. rewrite store_at_ok by lia. change (Z.to_nat 0) with 0%nat. rewrite take_0. cbn [app Nat.add rbind]. un_simpl.
    change (remains (eat (put_buf s2 SymlinkBuf (nb ++ skipn (length nb) (bufs s SymlinkBuf))) (Z.of_nat (length nb)))) with (remains s2).
    assert (Er : remains s2 = Z.of_nat (length nb)) by (subst s2; un_simpl; rewrite Hl; reflexivity). rewrite Er, Z.sub_diag.
    change (0 =? 0) with true. cbn [negb]. reflexivity. }
  eexists. exists (skipn (length nb) (bufs s SymlinkBuf)). split; [exact (steps_S _ _ _ _ A1 (steps_S _ _ _ _ A2 (steps_one _ _ A3)))|].
  unfold eat, put_buf. subst s2 s1. un_simpl. split; [split; un_simpl; try reflexivity; try assumption|].
  - cbn [buffer_eqb]. rewrite length_app, length_skipn. lia.
  - cbn [buffer_eqb]. rewrite Nat2Z.id. split_and!; try reflexivity.
    + unfold nb. now rewrite <- app_assoc.
    + rewrite after_header_eq, app_assoc. fold nb. apply drop_app_length.
    + lia.
Qed.

(** ** The end of a record *)

(** The state between two records, after what [s] had. *)
Record left_at (v : list Z) (t : Z) s s' : Prop := {
  lt_state : st s' = Reset;
  lt_victim : victim s' = v;
  lt_header : this_header s' = t;
  lt_message : message s' = message s;
  lt_bufs : bufs s' = bufs s;
  lt_fs : fs s' = fs s;
  lt_head : head s' = head s;
  lt_dirs : dir_list s' = dir_list s
}.

(** The zero bytes at the front of what follows are whole words. *)
Definition pads (rest : list Z) : Prop := Z.of_nat (zeros rest) mod 4 = 0.

Lemma finish_record skipped rest s :
  st s = SkipIt -> next_state s = Reset -> victim s = skipped ++ rest -> next_header s = this_header s + Z.of_nat (length skipped) ->
  next_header s mod 4 = 0 -> pads rest ->
  exists s1 s2, action s = Ok (false, s1) /\ action s1 = Ok (true, s2)
    /\ left_at (skipn (zeros rest) rest) (next_header s + Z.of_nat (zeros rest)) s s2.
Proof.
  intros Est Ens Ev En Hm Hp. set (s1 := set_st (set_input s rest (next_header s)) Reset).
  exists s1, (set_input s1 (skipn (zeros rest) rest) (next_header s + Z.of_nat (zeros rest))). split_and!; [| |now split].
  - unfold action. rewrite Est. unfold do_skip, count. rewrite Ev, length_app, Nat2Z.inj_add. rewrite (proj2 (Z.ltb_ge _ (next_header s))) by lia.
    rewrite (proj2 (Z.ltb_ge (next_header s) _)) by lia. rewrite Ens. unfold eat, s1. rewrite Ev.
    replace (Z.to_nat (next_header s - this_header s)) with (length skipped) by lia. rewrite drop_app_length.
    now replace (this_header s + (next_header s - this_header s)) with (next_header s) by lia.
  - unfold action, do_reset, eat. change (st s1) with Reset. cbn match. change (victim s1) with rest. change (this_header s1) with (next_header s).
    rewrite Nat2Z.id. set (s2 := set_input _ _ _).
    assert (Ec : negb (count s2 =? 0) && negb (this_header s2 mod 4 =? 0) = false); [|now rewrite Ec].
    unfold count, s2. un_simpl. unfold pads in Hp.
    rewrite (proj2 (Z.eqb_eq ((next_header s + Z.of_nat (zeros rest)) mod 4) 0)) by zdiv. apply andb_false_r.
Qed.

(** The record of [i] is read: the machine stops at what follows, past zeroes. *)
Record record_done (i : item) (rest : list Z) s (f : FS) (hd : Z -> list hash_entry) (ds : list (path * Z)) s' : Prop := {
  dn_run : run_actions 16 s = Ok s';
  dn_state : st s' = Reset;
  dn_victim : victim s' = skipn (zeros rest) rest;
  dn_header : this_header s' = this_header s + Z.of_nat (length (item_bytes i)) + Z.of_nat (zeros rest);
  dn_message : message s' = None;
  dn_buf : Z.of_nat (length (bufs s' SymlinkBuf)) = 8195;
  dn_fs : fs s' = f;
  dn_head : head s' = hd;
  dn_dirs : dir_list s' = ds
}.

(** From the skipping of what is left of the record. *)
Lemma close_record i rest skipped n s s3 :
  item_ok i -> ready s -> pads rest -> steps n s s3 -> (n <= 8)%nat ->
  st s3 = SkipIt -> next_state s3 = Reset -> victim s3 = skipped ++ rest -> next_header s3 = this_header s + Z.of_nat (length (item_bytes i)) ->
  this_header s3 + Z.of_nat (length skipped) = next_header s3 -> message s3 = None -> Z.of_nat (length (bufs s3 SymlinkBuf)) = 8195 ->
  exists s', record_done i rest s (fs s3) (head s3) (dir_list s3) s'.
Proof.
  intros Hi [Hm H0 Ha Hb] Hp Hs Hn Est Ens Ev En Et Em Eb. destruct (item_aligned i Hi) as [Hl _].
  destruct (finish_record skipped rest s3 Est Ens Ev ltac:(lia) ltac:(rewrite En; zdiv) Hp) as (s4 & s5 & A1 & A2 & [L1 L2 L3 L4 L5 L6 L7 L8]).
  exists s5. split; try assumption; try congruence.
  exact (run_steps (n + 1) 16 s s4 s5 (steps_trans _ _ _ _ _ Hs (steps_one _ _ A1)) A2 ltac:(lia)).
Qed.

(** ** What a record does *)

Definition sys_all (cs : list call) (f : FS) : FS := fold_left (fun f c => sys_ c f) cs f.

(** Writing a regular file that is opened anew or, a link, as it is. *)
Definition write_file (name : path) (trunc : bool) (mode uid gid mtime : Z) (data : list Z) (f : FS) : FS :=
  let (fd, f) := sys (Open name (O_WRONLY .| O_CREAT .| (if trunc then O_TRUNC else 0)) mode) f in
  if fd <? 0 then f
  else sys_all ([Fchown fd uid gid; Fchmod fd mode] ++ (if Z.of_nat (length data) =? 0 then [] else [Ftruncate fd (Z.of_nat (length data))])
                ++ [Write fd data; Close fd; Utimes name mtime]) f.

(** [maybe_link] on the file system and the hash table. *)
Definition link_result (h : header) (name : path) (f : FS) (hd : Z -> list hash_entry) : Z * FS * (Z -> list hash_entry) :=
  if 2 <=? nlink h then
    let b := hash (major h) (minor h) (ino h) in
    match find_in (hd b) (major h) (minor h) (ino h) (mode h) with
    | Some old => let (r, f) := sys (Link old name) f in (if r <? 0 then -1 else 1, f, hd)
    | None => (0, f, fun i => if i =? b then hd b ++ [{| h_ino := ino h; h_minor := minor h; h_major := major h; h_mode := mode h; h_name := name |}] else hd i)
    end
  else (0, f, hd).

Lemma set_same s : set_head (set_fs s (fs s)) (head s) = s.
Proof. now destruct s. Qed.

Lemma maybe_link_eq name s :
  c_string (at_collected s) = Ok name -> strsize name <= PATH_MAX ->
  maybe_link s = let '(ml, f, hd) := link_result (hdr s) name (fs s) (head s) in Ok (ml, set_head (set_fs s f) hd).
Proof.
  intros Ec Hn. unfold maybe_link, link_result. destruct (2 <=? nlink (hdr s)); [|now rewrite set_same]. rewrite Ec. cbn [rbind]. unfold find_link.
  cbv zeta. destruct (find_in _ _ _ _ _) as [old|]; cbn [rbind].
  - destruct (sys (Link old name) (fs s)) as [r f]. now destruct s.
  - assert (E : (N_ALIGN PATH_MAX <? Z.of_nat (length name) + 1) = false).
    { apply Z.ltb_ge. change (N_ALIGN PATH_MAX) with 4098. unfold PATH_MAX, strsize in *. lia. }
    rewrite E. cbn [rbind]. now destruct s.
Qed.

(** The record of [i] on the file system, the hash table and the directories. *)
Definition node_types (m : Z) : bool := is_type m S_IFBLK || is_type m S_IFCHR || is_type m S_IFIFO || is_type m S_IFSOCK.

Definition item_effect (i : item) (x : FS * (Z -> list hash_entry) * list (path * Z)) : FS * (Z -> list hash_entry) * list (path * Z) :=
  let '(f, hd, ds) := x in
  let h := header_of (it_fields i) (strsize (it_name i)) in
  let name := it_name i in
  if is_type (mode h) S_IFLNK then
    (sys_all [Symlink (removelast (it_body i)) name; Lchown name (uid h) (gid h); Utimes name (mtime h)] (clean_path name 0 f), hd, ds)
  else
    let f := clean_path name (mode h) f in
    if is_type (mode h) S_IFREG then
      let '(ml, f, hd) := link_result h name f hd in
      (if ml <? 0 then f else write_file name (negb (ml =? 1)) (mode h) (uid h) (gid h) (mtime h) (it_body i) f, hd, ds)
    else if is_type (mode h) S_IFDIR then
      (sys_all [Mkdir name (mode h); Chown name (uid h) (gid h); Chmod name (mode h)] f, hd, (name, mtime h) :: ds)
    else if node_types (mode h) then
      let '(ml, f, hd) := link_result h name f hd in
      (if ml =? 0 then sys_all [Mknod name (mode h) (rdev h); Chown name (uid h) (gid h); Chmod name (mode h); Utimes name (mtime h)] f else f, hd, ds)
    else (f, hd, ds).

(** The records of an archive: bodies only for files and symbolic links, whose target is a string. *)
Definition item_std (i : item) : Prop :=
  let m := fl_mode (it_fields i) mod 65536 in
  it_name i <> trailer_name
  /\ (if is_type m S_IFLNK then Z.of_nat (length (it_body i)) <= PATH_MAX /\ exists t, nul_free t /\ it_body i = t ++ [0]
      else is_type m S_IFREG || (Z.of_nat (length (it_body i)) =? 0) = true).

Lemma link_result_sign h name f hd : let '(ml, _, _) := link_result h name f hd in ml = 0 \/ ml = 1 \/ ml = -1.
Proof.
  unfold link_result. destruct (2 <=? nlink h); [|auto]. cbv zeta. destruct (find_in _ _ _ _ _); [|auto].
  destruct (sys _ f) as [r f']. destruct (r <? 0); auto.
Qed.

(** ** Reading a record does just that *)

Lemma pad_app_ok (i : item) (rest : list Z) : it_body i ++ pad (body_pad (it_body i)) ++ rest = (it_body i ++ pad (body_pad (it_body i))) ++ rest.
Proof. apply app_assoc. Qed.

Lemma body_pad_length (l : list Z) : Z.of_nat (length (pad (body_pad l))) = body_pad l.
Proof. apply pad_length. unfold body_pad. zdiv. Qed.

Lemma run_symlink i rest s :
  item_ok i -> item_std i -> ready s -> pads rest -> st s = Start -> victim s = item_bytes i ++ rest ->
  is_type (fl_mode (it_fields i) mod 65536) S_IFLNK = true ->
  exists s', let '(f, hd, ds) := item_effect i (fs s, head s, dir_list s) in record_done i rest s f hd ds s'.
Proof.
  intros Hi [_ Hstd] Hr Hp Est Ev Et. rewrite Et in Hstd. destruct Hstd as (Hb & t & Ht & Ebody).
  set (h := header_of (it_fields i) (strsize (it_name i))). pose proof (name_bytes_length i Hi) as Hn.
  destruct (header_symlink i rest s Hi Hr Est Ev Et) as (s2 & l & Hs & [Rm Rn Rh Rb Rf Rd Rds] & E2 & Ec & Ebuf & Ev2 & Et2).
  { cbn [header_of body_len]. rewrite (io_size i Hi). exact Hb. }
  unfold item_effect. cbn [header_of mode uid gid mtime]. rewrite Et.
  set (L := N_ALIGN (strsize (it_name i)) + fl_size (it_fields i)).
  assert (HL : L = Z.of_nat (length (name_bytes i ++ it_body i))) by (unfold L; rewrite length_app, Nat2Z.inj_add, Hn, (io_size i Hi); reflexivity).
  assert (HL8 : L < 8195).
  { unfold L. rewrite (io_size i Hi). pose proof (strsize_u32 _ (io_length i Hi)). rewrite N_ALIGN_eq by lia. pose proof (io_length i Hi). unfold PATH_MAX in *. zdiv. }
  assert (Es : exists l', store_at (bufs s2 SymlinkBuf) L [0] = Ok (name_bytes i ++ it_body i ++ l') /\ Z.of_nat (length (name_bytes i ++ it_body i ++ l')) = 8195).
  { rewrite store_at_ok by (cbn [length]; lia). rewrite Ebuf. exists ([0] ++ skipn 1 l). rewrite (app_assoc (name_bytes i) (it_body i) l), HL, Nat2Z.id, take_app_length, drop_app_add.
    split; [now rewrite <- app_assoc|]. rewrite Ebuf, app_assoc, length_app in Rb. rewrite app_assoc, !length_app, length_skipn. cbn [length].
    rewrite length_app in *. lia. }
  destruct Es as (l' & Est' & Hl').
  assert (En : c_string (name_bytes i ++ it_body i ++ l') = Ok (it_name i)).
  { unfold name_bytes. rewrite <- app_assoc. apply c_string_app. exact (io_name i Hi). }
  assert (Etg : c_string (skipn (Z.to_nat (N_ALIGN (strsize (it_name i)))) (name_bytes i ++ it_body i ++ l')) = Ok t).
  { rewrite drop_app_length' by lia. rewrite Ebody, <- app_assoc. now apply c_string_app. }
  set (s3 := set_next_state (set_st (call_fs (call_fs (call_fs (set_fs (put_buf s2 SymlinkBuf (name_bytes i ++ it_body i ++ l')) (clean_path (it_name i) 0 (fs s2)))
    (Symlink t (it_name i))) (Lchown (it_name i) (uid h) (gid h))) (Utimes (it_name i) (mtime h))) SkipIt) Reset).
  assert (A : action s2 = Ok (false, s3)).
  { unfold action. rewrite E2. unfold do_symlink, at_collected. rewrite Ec, Rh. fold h. cbn zeta. change (name_len h) with (strsize (it_name i)).
    change (body_len h) with (fl_size (it_fields i)). fold L. rewrite Est'. cbn [rbind]. rewrite En. cbn [rbind]. rewrite Etg. reflexivity. }
  destruct (close_record i rest (pad (body_pad (it_body i))) (3 + 1) s s3 Hi Hr Hp (steps_trans _ _ _ _ _ Hs (steps_one _ _ A)) ltac:(lia) eq_refl eq_refl) as [s' Hd].
  - subst s3. unfold call_fs, put_buf. un_simpl. exact Ev2.
  - subst s3. unfold call_fs, put_buf. un_simpl. exact Rn.
  - subst s3. unfold call_fs, put_buf. un_simpl. rewrite Rn, Et2, (item_length i Hi), body_pad_length. lia.
  - subst s3. unfold call_fs, put_buf. un_simpl. exact Rm.
  - subst s3. unfold call_fs, put_buf. un_simpl. exact Hl'.
  - exists s'. subst s3. unfold call_fs, put_buf in Hd. un_simpl in Hd. rewrite Rf, Rd, Rds in Hd. rewrite Ebody, removelast_last. exact Hd.
Qed.

(** The state at the name of [i], and what becomes of it. *)
Definition named s2 (i : item) : unpacker FS := set_fs (set_next_state (set_st s2 SkipIt) Reset) (clean_path (it_name i) (fl_mode (it_fields i) mod 65536) (fs s2)).

(** A record whose name alone has an effect. *)
Lemma close_named i rest s s2 f hd ds :
  item_ok i -> ready s -> pads rest -> steps 2 s s2 -> read_header i s s2 ->
  victim s2 = it_body i ++ pad (body_pad (it_body i)) ++ rest -> this_header s2 = this_header s + 110 + N_ALIGN (strsize (it_name i)) ->
  action s2 = Ok (false, set_dir_list (set_head (set_fs (named s2 i) f) hd) ds) ->
  exists s', record_done i rest s f hd ds s'.
Proof.
  intros Hi Hr Hp Hs [Rm Rn Rh Rb Rf Rd Rds] Ev Et A.
  destruct (close_record i rest (it_body i ++ pad (body_pad (it_body i))) (2 + 1) s _ Hi Hr Hp (steps_trans _ _ _ _ _ Hs (steps_one _ _ A)) ltac:(lia)) as [s' Hd];
    try (unfold named; un_simpl; first [reflexivity | exact Rm | exact Rn | exact Rb]).
  - unfold named. un_simpl. now rewrite Ev, app_assoc.
  - unfold named. un_simpl. rewrite Rn, Et, (item_length i Hi), length_app, Nat2Z.inj_add, body_pad_length. lia.
  - exists s'. exact Hd.
Qed.

(** The action at a name. *)
Lemma do_name_eq i rest s s2 :
  item_ok i -> read_header i s s2 -> st s2 = GotName -> collected s2 = InPlace (after_header i rest) -> it_name i <> trailer_name ->
  let h := header_of (it_fields i) (strsize (it_name i)) in let name := it_name i in let s3 := named s2 i in
  action s2 =
    (if is_type (mode h) S_IFREG then
       let '(ml, f, hd) := link_result h name (fs s3) (head s2) in
       Ok (false, if 0 <=? ml then open_file name ml (set_head (set_fs s3 f) hd) else set_head (set_fs s3 f) hd)
     else if is_type (mode h) S_IFDIR then
       Ok (false, dir_add name (mtime h) (call_fs (call_fs (call_fs s3 (Mkdir name (mode h))) (Chown name (uid h) (gid h))) (Chmod name (mode h))))
     else if node_types (mode h) then
       let '(ml, f, hd) := link_result h name (fs s3) (head s2) in
       let s := set_head (set_fs s3 f) hd in
       Ok (false, if ml =? 0 then call_fs (call_fs (call_fs (call_fs s (Mknod name (mode h) (rdev h))) (Chown name (uid h) (gid h))) (Chmod name (mode h)))
         (Utimes name (mtime h)) else s)
     else Ok (false, s3)).
Proof.
  intros Hi [Rm Rn Rh Rb Rf Rd Rds] Est Ec Hne h name s3. unfold action. rewrite Est. unfold do_name.
  assert (En : forall s0, collected s0 = InPlace (after_header i rest) -> c_string (at_collected s0) = Ok name).
  { intros s0 E0. unfold at_collected. rewrite E0. apply c_string_app. exact (io_name i Hi). }
  rewrite En by exact Ec. cbn [rbind]. unfold list_eqb. rewrite bool_decide_eq_false_2 by exact Hne. un_simpl. rewrite Rh. fold h name.
  change (set_fs (set_next_state (set_st s2 SkipIt) Reset) (clean_path name (mode h) (fs s2))) with s3.
  rewrite (maybe_link_eq name s3) by (first [apply En; exact Ec | exact (io_length i Hi)]).
  change (hdr s3) with (hdr s2). change (head s3) with (head s2). rewrite Rh. fold h. unfold node_types.
  destruct (link_result h name (fs s3) (head s2)) as [[ml f] hd]. cbn [rbind].
  destruct (is_type (mode h) S_IFREG); [destruct (0 <=? ml); reflexivity|]. destruct (is_type (mode h) S_IFDIR); [reflexivity|].
  destruct (_ || _); [|reflexivity]. destruct (ml =? 0); reflexivity.
Qed.

(** The data of a regular file. *)
Lemma copy_action i rest s :
  st s = CopyFile -> victim s = it_body i ++ rest -> body_len (hdr s) = Z.of_nat (length (it_body i)) ->
  action s = Ok (false, set_st (set_input (set_fs s (sys_all [Write (wfd s) (it_body i); Close (wfd s); Utimes (vcollected s) (mtime (hdr s))] (fs s)))
    rest (this_header s + Z.of_nat (length (it_body i)))) SkipIt).
Proof.
  intros Est Ev Eb. unfold action. rewrite Est. unfold do_copy, count. cbv zeta. rewrite Eb, Ev, length_app, Nat2Z.inj_add.
  rewrite (proj2 (Z.leb_le _ _)) by lia. rewrite Nat2Z.id, take_app_length. unfold eat, call_fs. un_simpl. rewrite Ev, Nat2Z.id, drop_app_length. reflexivity.
Qed.

(** An opened file is filled. *)
Lemma run_regular i rest s s2 ml f hd :
  let h := header_of (it_fields i) (strsize (it_name i)) in
  item_ok i -> ready s -> pads rest -> steps 2 s s2 -> read_header i s s2 ->
  victim s2 = it_body i ++ pad (body_pad (it_body i)) ++ rest -> this_header s2 = this_header s + 110 + N_ALIGN (strsize (it_name i)) ->
  action s2 = Ok (false, if 0 <=? ml then open_file (it_name i) ml (set_head (set_fs (named s2 i) f) hd) else set_head (set_fs (named s2 i) f) hd) ->
  ml = 0 \/ ml = 1 \/ ml = -1 ->
  exists s', record_done i rest s (if ml <? 0 then f else write_file (it_name i) (negb (ml =? 1)) (mode h) (uid h) (gid h) (mtime h) (it_body i) f) hd (dir_list s) s'.
Proof.
  intros h Hi Hr Hp Hs Rh Ev Et A Hml. assert (Hcl := fun f0 hd0 => close_named i rest s s2 f0 hd0 (dir_list s2) Hi Hr Hp Hs Rh Ev Et).
  rewrite <- (rh_dirs _ _ _ Rh) in *. destruct (Z.leb_spec 0 ml) as [H0|H0].
  2:{ rewrite (proj2 (Z.ltb_lt ml 0)) by lia. apply Hcl. now rewrite A. }
  rewrite (proj2 (Z.ltb_ge ml 0)) by lia. unfold open_file, write_file in *. change (hdr (set_head (set_fs (named s2 i) f) hd)) with (hdr s2) in A.
  rewrite (rh_hdr _ _ _ Rh) in A. fold h in A. un_simpl in A. cbv zeta in A.
  replace (if negb (ml =? 1) then O_TRUNC else 0) with (if ml =? 1 then 0 else O_TRUNC) by now destruct (ml =? 1).
  destruct (sys (Open _ _ _) f) as [fd f'] eqn:Eo. destruct (Z.leb_spec 0 fd) as [Hfd|Hfd].
  2:{ rewrite (proj2 (Z.ltb_lt fd 0)) by lia.
      destruct Rh as [Rm Rn Rhh Rb Rf Rd Rds]. destruct (close_record i rest (it_body i ++ pad (body_pad (it_body i))) (2 + 1) s _ Hi Hr Hp (steps_trans _ _ _ _ _ Hs (steps_one _ _ A)) ltac:(lia)) as [s' Hd];
      try (unfold named; un_simpl; first [reflexivity | exact Rm | exact Rn | exact Rb]).
      - unfold named. un_simpl. now rewrite Ev, app_assoc.
      - unfold named. un_simpl. rewrite Rn, Et, (item_length i Hi), length_app, Nat2Z.inj_add, body_pad_length. lia.
      - exists s'. exact Hd. }
  rewrite (proj2 (Z.ltb_ge fd 0)) by lia. change (body_len h) with (fl_size (it_fields i)) in A. rewrite (io_size i Hi) in A.
  match type of A with _ = Ok (false, ?x) => set (s3 := x) in * end.
  assert (A2 := copy_action i (pad (body_pad (it_body i)) ++ rest) s3 eq_refl). destruct Rh as [Rm Rn Rhh Rb Rf Rd Rds].
  assert (Eh3 : hdr s3 = h /\ victim s3 = victim s2 /\ this_header s3 = this_header s2 /\ next_header s3 = next_header s2 /\ message s3 = message s2
    /\ bufs s3 = bufs s2 /\ head s3 = hd /\ dir_list s3 = dir_list s2 /\ wfd s3 = fd /\ vcollected s3 = it_name i /\ next_state s3 = Reset
    /\ fs s3 = sys_all ([Fchown fd (uid h) (gid h); Fchmod fd (mode h)] ++ (if Z.of_nat (length (it_body i)) =? 0 then [] else [Ftruncate fd (Z.of_nat (length (it_body i)))])) f').
  { subst s3. destruct (Z.of_nat (length (it_body i)) =? 0); cbn [negb]; unfold call_fs, named; un_simpl; split_and!; try reflexivity; exact Rhh. }
  destruct Eh3 as (Eh & E1 & E2 & E3 & E4 & E5 & E6 & E7 & E8 & E9 & E10 & E11). clearbody s3.
  specialize (A2 ltac:(now rewrite E1) ltac:(rewrite Eh; exact (io_size i Hi))).
  set (s4 := set_st _ SkipIt) in A2.
  destruct (close_record i rest (pad (body_pad (it_body i))) (2 + 2) s s4 Hi Hr Hp (steps_trans _ _ _ _ _ Hs (steps_S _ _ _ _ A (steps_one _ _ A2))) ltac:(lia) eq_refl) as [s' Hd];
    try (subst s4; un_simpl; first [exact E10 | congruence]).
  - subst s4. un_simpl. rewrite E3, Rn, E2, Et, (item_length i Hi), body_pad_length. lia.
  - exists s'. subst s4. un_simpl in Hd. rewrite E8, E9, E11, Eh, E6, E7 in Hd. unfold sys_all in *. rewrite <- fold_left_app, <- app_assoc in Hd. exact Hd.
Qed.

Lemma run_item i rest s :
  item_ok i -> item_std i -> ready s -> pads rest -> st s = Start -> victim s = item_bytes i ++ rest ->
  exists s', let '(f, hd, ds) := item_effect i (fs s, head s, dir_list s) in record_done i rest s f hd ds s'.
Proof.
  intros Hi Hstd Hr Hp Est Ev. destruct (is_type (fl_mode (it_fields i) mod 65536) S_IFLNK) eqn:El; [now apply run_symlink|].
  destruct Hstd as [Hne Hb]. rewrite El in Hb.
  destruct (header_name i rest s Hi Hr Est Ev El) as (s2 & Hs & Rh & E2 & Ec & Ev2 & Et2).
  { cbn [header_of body_len mode]. now rewrite (io_size i Hi). }
  pose proof (do_name_eq i rest s s2 Hi Rh E2 Ec Hne) as A. cbv zeta in A. unfold item_effect.
  set (h := header_of (it_fields i) (strsize (it_name i))) in *. assert (El' : is_type (mode h) S_IFLNK = false) by exact El. rewrite El'. pose proof Rh as [Rm Rn Rhh Rb Rf Rd Rds].
  pose proof (link_result_sign h (it_name i) (fs (named s2 i)) (head s2)) as Hsg.
  change (fs (named s2 i)) with (clean_path (it_name i) (mode h) (fs s2)) in *. rewrite Rf, Rd in *.
  destruct (link_result _ _ _ _) as [[ml f] hd]. destruct (is_type (mode h) S_IFREG); [now apply (run_regular i rest s s2)|].
  assert (Hcl := fun f0 hd0 ds0 => close_named i rest s s2 f0 hd0 ds0 Hi Hr Hp Hs Rh Ev2 Et2).
  destruct (is_type (mode h) S_IFDIR).
  - apply Hcl. rewrite A. unfold dir_add, call_fs, named. un_simpl. rewrite Rf, Rds, <- Rd. reflexivity.
  - destruct (node_types (mode h)).
    + destruct (ml =? 0); apply Hcl; rewrite A; unfold call_fs, named; un_simpl; rewrite <- Rds; reflexivity.
    + apply Hcl. rewrite A. unfold named. un_simpl. rewrite <- Rds, <- Rd, <- Rf. reflexivity.
Qed.

(** The trailer empties the hash table. *)
Lemma run_trailer rest s :
  ready s -> pads rest -> st s = Start -> victim s = item_bytes trailer_item ++ rest ->
  exists s', record_done trailer_item rest s (fs s) (fun _ => []) (dir_list s) s'.
Proof.
  intros Hr Hp Est Ev. pose proof trailer_ok as Hi.
  destruct (header_name trailer_item rest s Hi Hr Est Ev eq_refl eq_refl) as (s2 & Hs & [Rm Rn Rh Rb Rf Rd Rds] & E2 & Ec & Ev2 & Et2).
  assert (A : action s2 = Ok (false, free_hash (set_next_state (set_st s2 SkipIt) Reset))).
  { unfold action. rewrite E2. unfold do_name, at_collected. un_simpl. rewrite Ec. unfold after_header.
    assert (En : forall l, c_string (it_name trailer_item ++ [0] ++ l) = Ok trailer_name) by (intros l; apply c_string_app; exact (io_name _ Hi)).
    rewrite En. reflexivity. }
  destruct (close_record trailer_item rest (it_body trailer_item ++ pad (body_pad (it_body trailer_item))) (2 + 1) s _ Hi Hr Hp (steps_trans _ _ _ _ _ Hs (steps_one _ _ A)) ltac:(lia)) as [s' Hd];
    try (unfold free_hash; un_simpl; first [reflexivity | exact Rm | exact Rn | exact Rb]).
  - unfold free_hash. un_simpl. now rewrite Ev2, app_assoc.
  - unfold free_hash. un_simpl. rewrite Rn, Et2, (item_length trailer_item Hi), length_app, Nat2Z.inj_add, body_pad_length. lia.
  - exists s'. unfold free_hash in Hd. un_simpl in Hd. rewrite Rf, Rds in Hd. exact Hd.
Qed.

End Reader.
