(* ===== verification/InitStop.v ===== *)
(** * Unpacking the root file system: the machine stops

    A measure for the state machine of [Initramfs], from any input, and what the loop
    around it does when the machine makes no progress. *)

From S2P Require Import Prelude Initramfs InitArchive.

Section Stop.

Context {FS : Type} `{Rootfs FS}.
Implicit Type s : unpacker FS.

(** ** The measure *)

Definition rank (x : state) : Z :=
  match x with Reset => 0 | SkipIt => 1 | CopyFile | Collect => 2 | GotName | GotHeader | GotSymlink => 3 | Start => 4 end.

Definition measure s : Z := 4 * count s + rank (st s).

(** Never a state to come. *)
Definition next_ok (x : state) : Prop := x <> SkipIt /\ x <> Collect /\ x <> CopyFile.

Record inv s : Prop := {
  iv_skip : st s = SkipIt -> next_state s = Reset \/ this_header s + 2 <= next_header s;
  iv_copy : st s = CopyFile -> next_state s = Reset;
  iv_collect : st s = Collect -> 1 <= remains s;
  iv_next : next_ok (next_state s)
}.

(** What an action may do. *)
Definition goes (stop : bool) s s' : Prop :=
  count s' <= count s /\ next_ok (next_state s') /\ (stop = false -> inv s' /\ measure s' < measure s).

Lemma count_eat s n : 0 <= n -> count (eat s n) = Z.max 0 (count s - n).
Proof. intros Hn. unfold count, eat. un_simpl. rewrite length_skipn. lia. Qed.

Lemma count_nonneg s : 0 <= count s.
Proof. unfold count. lia. Qed.

Lemma rank_bound x : 0 <= rank x <= 4.
Proof. destruct x; cbn; lia. Qed.

Lemma next_rank x : next_ok x -> x = Reset \/ 3 <= rank x.
Proof. intros (H1 & H2 & H3). destruct x; cbn; (now left) || (right; lia) || congruence. Qed.

(** From a state whose successor is not one that has an invariant of its own. *)
Lemma goes_to s s' : count s' <= count s -> next_ok (next_state s') -> 4 * count s' + rank (st s') < 4 * count s + rank (st s) ->
  st s' <> SkipIt -> st s' <> CopyFile -> st s' <> Collect -> goes false s s'.
Proof. intros Hc Hn Hm H1 H2 H3. split; [exact Hc|]. split; [exact Hn|]. intros _. split; [split; (easy || congruence)|exact Hm]. Qed.

(** To the skipping of the rest. *)
Lemma goes_skip s s' : count s' <= count s -> next_ok (next_state s') -> st s' = SkipIt -> 2 <= rank (st s) ->
  next_state s' = Reset \/ this_header s' + 2 <= next_header s' -> goes false s s'.
Proof.
  intros Hc Hn Est Hr Hs. split; [exact Hc|]. split; [exact Hn|]. intros _. split; [split; auto; congruence|]. unfold measure. rewrite Est. cbn [rank]. lia.
Qed.

Lemma reset_ok : next_ok Reset.
Proof. easy. Qed.

Lemma do_skip_goes s stop s' : inv s -> st s = SkipIt -> do_skip s = Ok (stop, s') -> goes stop s s'.
Proof.
  intros [Hs _ _ Hn] Est. unfold do_skip. pose proof (count_nonneg s). destruct (Z.ltb_spec (this_header s + count s) (next_header s)).
  - intros [= <- <-]. split; [rewrite count_eat; lia|]. now split.
  - destruct (Z.ltb_spec (next_header s) (this_header s)); [discriminate|]. intros [= <- <-].
    assert (Ec : count (set_st (eat s (next_header s - this_header s)) (next_state s)) = count s - (next_header s - this_header s)).
    { change (count (eat s (next_header s - this_header s)) = count s - (next_header s - this_header s)). rewrite count_eat; lia. }
    pose proof (rank_bound (next_state s)). destruct Hn as (N1 & N2 & N3).
    apply goes_to; rewrite ?Ec; un_simpl; try easy; [lia|]. rewrite Est. cbn [rank].
    destruct (Hs Est) as [E|Hl]; [rewrite E; cbn [rank]; lia|lia].
Qed.

Lemma do_collect_goes s stop s' : inv s -> st s = Collect -> do_collect s = Ok (stop, s') -> goes stop s s'.
Proof.
  intros [_ _ Hc Hn] Est. unfold do_collect. pose proof (count_nonneg s). set (n := Z.min (remains s) (count s)). specialize (Hc Est).
  destruct (store_at _ _ _) as [l|]; cbn [rbind]; [|discriminate]. set (s1 := eat (put_buf s (collect s) l) n). un_simpl.
  assert (Ec : count s1 = count s - n) by (unfold s1; rewrite count_eat by lia; change (count (put_buf s (collect s) l)) with (count s); lia).
  change (remains s1) with (remains s). destruct (Z.eqb_spec (remains s - n) 0) as [E|Hne]; cbn [negb]; intros [= <- <-].
  - destruct Hn as (N1 & N2 & N3). pose proof (rank_bound (next_state s)).
    assert (Ec' : forall x y z t, count (set_st (set_collect s1 x y z) t) = count s - n) by (intros; exact Ec).
    apply goes_to; rewrite ?Ec'; un_simpl; try easy; [lia|]. rewrite Est. cbn [rank]. change (next_state s1) with (next_state s). lia.
  - split; [|split; [exact Hn|discriminate]]. change (count s1 <= count s). lia.
Qed.

Lemma read_into_goes b size next s s0 :
  count s <= count s0 -> 4 * (count s - size) + rank next < 4 * count s0 + rank (st s0) -> 2 < rank (st s0) -> 0 <= size -> next_ok (next_state s) -> next_ok next ->
  goes false s0 (read_into b size next s).
Proof.
  intros Hc Hm Hr Hs Hns Hn. unfold read_into. pose proof (count_nonneg s). destruct (Z.leb_spec size (count s)).
  - set (s1 := set_st _ next). assert (Ec : count s1 = count s - size).
    { change (count (eat (set_collected s (InPlace (victim s))) size) = count s - size). rewrite count_eat by exact Hs.
      change (count (set_collected s (InPlace (victim s)))) with (count s). lia. }
    destruct Hn as (N1 & N2 & N3). apply goes_to; rewrite ?Ec; try easy; lia.
  - set (s1 := set_st _ Collect). assert (Ec : count s1 = count s) by reflexivity.
    split; [lia|]. split; [exact Hn|]. intros _. split; [split; try easy; intros _; cbn; lia|]. unfold measure. rewrite Ec. cbn [rank s1 set_st st]. lia.
Qed.

Lemma do_start_goes s stop s' : inv s -> st s = Start -> do_start s = Ok (stop, s') -> goes stop s s'.
Proof. intros [_ _ _ Hn] Est [= <- <-]. apply read_into_goes; rewrite ?Est; cbn [rank]; try easy; lia. Qed.

Lemma do_header_goes s stop s' : inv s -> st s = GotHeader -> do_header s = Ok (stop, s') -> goes stop s s'.
Proof.
  intros [_ _ _ Hn] Est. unfold do_header. set (l := at_collected s).
  assert (Hrep : forall e, goes true s (report s e)).
  { intros e. unfold report. destruct (message s); (split; [apply Z.le_refl|]; now split). }
  destruct (list_eqb _ old_magic); [intros [= <- <-]; apply Hrep|]. destruct (negb _); [intros [= <- <-]; apply Hrep|].
  set (h := parse_header l). assert (Hb : 0 <= body_len h) by apply u32_range. pose proof (N_ALIGN_ge (name_len h)) as HN. pose proof (N_ALIGN_ge (parsed l 11)) as HN'.
  cbv zeta. set (s2 := set_st _ SkipIt). assert (Hsk : goes false s s2).
  { apply goes_skip; [apply Z.le_refl|exact Hn|reflexivity|rewrite Est; cbn; lia|]. right. change (this_header s + 2 <= 4 * ((this_header s + N_ALIGN (name_len h) + body_len h + 3) / 4)). zdiv. }
  destruct (_ || _); [now intros [= <- <-]|]. destruct (is_type (mode h) S_IFLNK).
  - destruct (PATH_MAX <? body_len h); [now intros [= <- <-]|]. intros [= <- <-].
    split; [apply Z.le_refl|]. split; [easy|]. intros _. split; [split; try easy; intros _; change (1 <= N_ALIGN (name_len h) + body_len h); lia|]. unfold measure. rewrite Est.
    change (4 * count s + 2 < 4 * count s + 3). lia.
  - destruct (_ || _); [|now intros [= <- <-]]. intros [= <- <-]. assert (Ec : count s2 = count s) by reflexivity.
    apply read_into_goes; rewrite ?Ec, ?Est; cbn [rank]; try easy; lia.
Qed.

Lemma maybe_link_frame s ml s' : maybe_link s = Ok (ml, s') ->
  victim s' = victim s /\ st s' = st s /\ next_state s' = next_state s /\ hdr s' = hdr s.
Proof.
  unfold maybe_link. destruct (2 <=? nlink (hdr s)); [|now intros [= <- <-]]. destruct (c_string _) as [name|]; cbn [rbind]; [|discriminate].
  unfold find_link. cbv zeta. destruct (find_in _ _ _ _ _) as [old|]; cbn [rbind].
  - destruct (sys (Link old name) (fs s)) as [r f]. now intros [= <- <-].
  - destruct (_ <? _); cbn [rbind]; [discriminate|]. now intros [= <- <-].
Qed.

(** After a name the rest is skipped, or a file copied. *)
Definition named_end s0 s' : Prop := victim s' = victim s0 /\ next_state s' = Reset /\ (st s' = SkipIt \/ st s' = CopyFile).

Lemma do_name_end s stop s' : do_name s = Ok (stop, s') -> stop = false /\ named_end s s'.
Proof.
  unfold do_name. set (s1 := set_next_state (set_st s SkipIt) Reset). destruct (c_string _) as [name|]; cbn [rbind]; [|discriminate].
  assert (Hsk : forall s2, victim s2 = victim s -> next_state s2 = Reset -> st s2 = SkipIt -> named_end s s2) by (intros s2 E1 E2 E3; split; auto).
  destruct (list_eqb name trailer_name); [intros [= <- <-]; split; [reflexivity|now apply Hsk]|]. cbv zeta.
  set (s2 := set_fs s1 _). destruct (is_type _ S_IFREG).
  - destruct (maybe_link s2) as [[ml s3]|] eqn:El; cbn [rbind]; [|discriminate]. apply maybe_link_frame in El as (E1 & E2 & E3 & _).
    change (victim s2) with (victim s) in E1. change (next_state s2) with Reset in E3. change (st s2) with SkipIt in E2.
    destruct (0 <=? ml); [|intros [= <- <-]; split; [reflexivity|apply Hsk; congruence]]. intros [= <- <-]. split; [reflexivity|]. unfold open_file.
    destruct (sys _ (fs s3)) as [fd f]. cbv zeta. destruct (0 <=? fd); [|apply Hsk; un_simpl; congruence].
    destruct (negb _); unfold call_fs, named_end; un_simpl; rewrite E1, E3; (split; [reflexivity|]; split; [reflexivity|now right]).
  - destruct (is_type _ S_IFDIR); [intros [= <- <-]; split; [reflexivity|]; unfold dir_add, call_fs; now apply Hsk|].
    destruct (_ || _); [|intros [= <- <-]; split; [reflexivity|now apply Hsk]].
    destruct (maybe_link s2) as [[ml s3]|] eqn:El; cbn [rbind]; [|discriminate]. apply maybe_link_frame in El as (E1 & E2 & E3 & _).
    change (victim s2) with (victim s) in E1. change (next_state s2) with Reset in E3. change (st s2) with SkipIt in E2.
    destruct (ml =? 0); intros [= <- <-]; (split; [reflexivity|]); unfold call_fs; apply Hsk; un_simpl; congruence.
Qed.

Lemma do_name_goes s stop s' : inv s -> st s = GotName -> do_name s = Ok (stop, s') -> goes stop s s'.
Proof.
  intros _ Est E. apply do_name_end in E as [-> (Ev & En & Est')]. assert (Ec : count s' = count s) by (unfold count; now rewrite Ev).
  destruct Est' as [E|E]; [apply goes_skip; rewrite ?Est, ?En; cbn [rank]; try easy; auto; lia|].
  split; [lia|]. split; [now rewrite En|]. intros _. split; [split; rewrite ?E, ?En; easy|]. unfold measure. rewrite Est, E, Ec. cbn [rank]. lia.
Qed.

Lemma do_copy_goes s stop s' : inv s -> st s = CopyFile -> do_copy s = Ok (stop, s') -> goes stop s s'.
Proof.
  intros [_ Hc _ Hn] Est. unfold do_copy. cbv zeta. specialize (Hc Est). destruct (_ <=? _).
  - intros [= <- <-]. apply goes_skip; [|exact Hn|reflexivity|rewrite Est; cbn; lia|left; exact Hc].
    unfold count, eat, call_fs. un_simpl. rewrite length_skipn. lia.
  - intros [= <- <-]. split; [|split; [exact Hn|discriminate]]. unfold count, eat, call_fs. un_simpl. rewrite length_skipn. lia.
Qed.

Lemma do_symlink_goes s stop s' : inv s -> st s = GotSymlink -> do_symlink s = Ok (stop, s') -> goes stop s s'.
Proof.
  intros _ Est. unfold do_symlink. cbv zeta. destruct (store_at _ _ _) as [l|]; cbn [rbind]; [|discriminate].
  set (s1 := match collected s with InPlace _ => _ | InBuf b => _ end). assert (Ev : victim s1 = victim s) by (unfold s1; now destruct (collected s)).
  destruct (c_string l) as [name|]; cbn [rbind]; [|discriminate]. destruct (c_string _) as [target|]; cbn [rbind]; [|discriminate].
  intros [= <- <-]. unfold call_fs. apply goes_skip; un_simpl; [unfold count; un_simpl; rewrite Ev; lia|easy|reflexivity|rewrite Est; cbn; lia|now left].
Qed.

Lemma do_reset_goes s stop s' : inv s -> do_reset s = Ok (stop, s') -> goes stop s s'.
Proof.
  intros [_ _ _ Hn]. unfold do_reset. cbv zeta. set (s1 := eat s _). intros [= <- <-].
  assert (Ec : count s1 <= count s) by (unfold s1; rewrite count_eat by lia; pose proof (count_nonneg s); lia).
  assert (Hn1 : next_ok (next_state s1)) by exact Hn. destruct (_ && _); [|now split].
  unfold report. destruct (message s1); now split.
Qed.

Lemma action_goes s stop s' : inv s -> action s = Ok (stop, s') -> goes stop s s'.
Proof.
  intros Hi. unfold action. destruct (st s) eqn:Est;
    [now apply do_start_goes|now apply do_collect_goes|now apply do_header_goes|now apply do_skip_goes|now apply do_name_goes|now apply do_copy_goes
    |now apply do_symlink_goes|now apply do_reset_goes].
Qed.

(** ** Faults: only accesses outside of the buffers *)

Definition bad_index {A} (x : result A) : Prop := match x with Ok _ => True | Fault f => f = BadIndex end.

Lemma bind_bad {A B} (x : result A) (k : A -> result B) : bad_index x -> (forall a, bad_index (k a)) -> bad_index (rbind x k).
Proof. destruct x; cbn; auto. Qed.

Lemma c_string_bad l : bad_index (c_string l).
Proof. induction l as [|c l IH]; cbn [c_string]; [reflexivity|]. destruct (c =? 0); [exact I|]. now apply bind_bad. Qed.

Lemma store_at_bad l i data : bad_index (store_at l i data).
Proof. unfold store_at. now destruct (_ && _). Qed.

Lemma maybe_link_bad s : bad_index (maybe_link s).
Proof.
  unfold maybe_link. destruct (_ <=? _); [|exact I]. apply bind_bad; [apply c_string_bad|]. intros name. apply bind_bad.
  - unfold find_link. cbv zeta. destruct (find_in _ _ _ _ _); [exact I|]. now destruct (_ <? _).
  - intros [[old|] s1]; [|exact I]. now destruct (sys _ _).
Qed.

Lemma do_name_bad s : bad_index (do_name s).
Proof.
  unfold do_name. apply bind_bad; [apply c_string_bad|]. intros name. destruct (list_eqb _ _); [exact I|]. cbv zeta. destruct (is_type _ S_IFREG).
  - apply bind_bad; [apply maybe_link_bad|]. intros [ml s1]. now destruct (0 <=? ml).
  - destruct (is_type _ S_IFDIR); [exact I|]. destruct (_ || _); [|exact I]. apply bind_bad; [apply maybe_link_bad|]. intros [ml s1]. now destruct (ml =? 0).
Qed.

Lemma action_bad s : bad_index (action s).
Proof.
  unfold action. destruct (st s).
  - exact I.
  - unfold do_collect. cbv zeta. apply bind_bad; [apply store_at_bad|]. intros l. now destruct (negb _).
  - unfold do_header. destruct (list_eqb _ old_magic); [exact I|]. destruct (negb _); [exact I|]. cbv zeta. destruct (_ || _); [exact I|].
    destruct (is_type _ S_IFLNK); [now destruct (PATH_MAX <? _)|]. now destruct (_ || _).
  - unfold do_skip. destruct (_ <? _); [exact I|]. now destruct (_ <? _).
  - apply do_name_bad.
  - unfold do_copy. cbv zeta. now destruct (_ <=? _).
  - unfold do_symlink. cbv zeta. apply bind_bad; [apply store_at_bad|]. intros l. apply bind_bad; [apply c_string_bad|]. intros name.
    apply bind_bad; [apply c_string_bad|]. easy.
  - exact I.
Qed.

(** ** The machine stops *)

Lemma run_actions_stop fuel s : inv s -> measure s < Z.of_nat fuel ->
  match run_actions fuel s with Ok s' => count s' <= count s /\ next_ok (next_state s') | Fault f => f = BadIndex end.
Proof.
  revert s. induction fuel as [|fuel IH]; intros s Hi Hm.
  - unfold measure in Hm. pose proof (count_nonneg s). pose proof (rank_bound (st s)). lia.
  - cbn [run_actions]. pose proof (action_bad s) as Hb. destruct (action s) as [[stop s1]|f] eqn:Ea; cbn [rbind]; [|exact Hb].
    apply (action_goes s stop s1 Hi) in Ea as (Hc & Hn & Hg). destruct stop; [now split|]. destruct (Hg eq_refl) as [Hi1 Hm1].
    specialize (IH s1 Hi1 ltac:(lia)). destruct (run_actions fuel s1) as [s2|f]; [|exact IH]. split; [lia|easy].
Qed.

(** A record at the front of the input is consumed, at least a byte of it. *)
Lemma write_buffer_stop buf s :
  next_ok (next_state s) ->
  match write_buffer buf (set_st s Start) with
  | Ok (n, s') => 0 <= n <= Z.of_nat (length buf) /\ (buf <> [] -> 0 < n) /\ next_ok (next_state s')
  | Fault f => f = BadIndex
  end.
Proof.
  intros Hn. unfold write_buffer. set (s0 := set_input _ buf _). assert (Ec : count s0 = Z.of_nat (length buf)) by reflexivity.
  assert (Hi : inv s0) by (now split). unfold write_fuel. replace (4 * length buf + 16)%nat with (S (4 * length buf + 15)) by lia.
  cbn [run_actions]. change (action s0) with (do_start s0). cbn [do_start rbind]. set (s1 := read_into HeaderBuf 110 GotHeader s0).
  assert (Hg : goes false s0 s1) by (apply (do_start_goes s0); easy). destruct Hg as (Hc & Hn1 & Hg). destruct (Hg eq_refl) as [Hi1 Hm1].
  assert (Hm0 : measure s0 = 4 * Z.of_nat (length buf) + 4) by reflexivity.
  pose proof (run_actions_stop (4 * length buf + 15) s1 Hi1 ltac:(lia)) as Hr. destruct (run_actions _ s1) as [s2|f] eqn:Er; cbn [rbind]; [|exact Hr].
  destruct Hr as [Hc2 Hn2]. pose proof (count_nonneg s2). split; [lia|]. split; [|exact Hn2]. intros Hne.
  assert (Hpos : 0 < Z.of_nat (length buf)) by (destruct buf; [easy|cbn [length]; lia]).
  unfold s1, read_into in *. rewrite Ec in *. destruct (Z.leb_spec 110 (Z.of_nat (length buf))).
  - enough (count s2 <= Z.of_nat (length buf) - 110) by lia. etransitivity; [exact Hc2|]. change (count (set_st ?x _)) with (count x). rewrite count_eat by lia.
    change (count (set_collected s0 _)) with (count s0). lia.
  - enough (count s2 = 0) by lia. rewrite Nat.add_comm in Er. cbn [Nat.add run_actions] in Er.
    set (s3 := set_st _ Collect) in Er. change (action s3) with (do_collect s3) in Er. unfold do_collect in Er.
    change (remains s3) with 110 in Er. change (count s3) with (Z.of_nat (length buf)) in Er. rewrite Z.min_r in Er by lia. cbv zeta in Er.
    destruct (store_at _ _ _) as [l|]; cbn [rbind] in Er; [|discriminate Er]. un_simpl in Er.
    change (remains (eat ?x _)) with (remains x) in Er. change (remains (put_buf s3 _ _)) with 110 in Er.
    rewrite (proj2 (Z.eqb_neq (110 - Z.of_nat (length buf)) 0)) in Er by lia. cbn [negb] in Er. injection Er as <-.
    change (count (set_collect ?x _ _ _)) with (count x). rewrite count_eat by lia. change (count (put_buf s3 _ _)) with (Z.of_nat (length buf)). lia.
Qed.

(** ** The loop around the machine *)

(** A turn of the loop that makes progress: a record, or a zero byte. *)
Inductive turn : list Z -> unpacker FS -> list Z -> unpacker FS -> Prop :=
| turn_record buf s n s' : hd_error buf = Some 48 -> message s = None -> this_header s mod 4 = 0 ->
    write_buffer buf (set_st s Start) = Ok (n, s') -> turn buf s (skipn (Z.to_nat n) buf) s'
| turn_zero buf s : message s = None -> turn (0 :: buf) s buf (set_input s (victim s) (this_header s + 1)).

Inductive turns : list Z -> unpacker FS -> list Z -> unpacker FS -> Prop :=
| turns_here buf s : turns buf s buf s
| turns_more buf s buf1 s1 buf2 s2 : turn buf s buf1 s1 -> turns buf1 s1 buf2 s2 -> turns buf s buf2 s2.

(** What the loop can neither take nor refuse. *)
Definition hung (buf : list Z) s : Prop :=
  message s = None /\ st s = Reset
  /\ exists c d l, buf = c :: d :: l /\ c <> 0 /\ (c = 48 -> this_header s mod 4 <> 0) /\ format_of compressed_formats c d = None.

(** One turn of [unpack_loop]. *)
Lemma turn_loop buf s buf' s' fuel : turn buf s buf' s' -> unpack_loop (S fuel) buf s = unpack_loop fuel buf' s'.
Proof.
  intros [buf1 s1 n s2 Eh Em Et Ew|buf1 s1 Em]; cbn [unpack_loop]; rewrite Em.
  - destruct buf1 as [|c l]; [discriminate Eh|]. injection Eh as ->. rewrite Et. change ((48 =? 48) && (0 =? 0)) with true. cbv iota. now rewrite Ew.
  - change ((0 =? 48) && (this_header s1 mod 4 =? 0)) with false. change (0 =? 0) with true. reflexivity.
Qed.

Lemma set_input_same s : set_input (set_input s (victim s) 0) (victim s) (this_header s) = s.
Proof. now destruct s. Qed.

Lemma hung_loop buf s fuel : hung buf s -> unpack_loop fuel buf s = Fault Stuck.
Proof.
  intros (Em & Est & c & d & l & -> & Hc & Ha & Ef). induction fuel as [|fuel IH]; [reflexivity|]. cbn [unpack_loop]. rewrite Em.
  assert (E : (c =? 48) && (this_header s mod 4 =? 0) = false) by (destruct (Z.eqb_spec c 48); [rewrite (proj2 (Z.eqb_neq _ 0)) by auto|]; reflexivity).
  rewrite E, (proj2 (Z.eqb_neq c 0) Hc). unfold try_decompress, decompress_method. rewrite Ef. cbn [rbind].
  change (st (set_input s (victim s) 0)) with (st s). rewrite bool_decide_eq_true_2 by exact Est. change (victim (set_input s (victim s) 0)) with (victim s).
  rewrite set_input_same. exact IH.
Qed.

Lemma turns_hung buf s buf' s' fuel : turns buf s buf' s' -> hung buf' s' -> unpack_loop fuel buf s = Fault Stuck.
Proof.
  intros Ht Hh. revert fuel. induction Ht as [buf s|buf s buf1 s1 buf2 s2 Ht Hts IH]; intros fuel; [now apply hung_loop|].
  destruct fuel as [|fuel]; [reflexivity|]. rewrite (turn_loop _ _ _ _ fuel Ht). now apply IH.
Qed.

(** What is neither a record nor zero: an error, or no progress. *)
Lemma try_hung c l s : message s = None -> c <> 0 -> (c = 48 -> this_header s mod 4 <> 0) ->
  match try_decompress (c :: l) s with Ok s' => message s' <> None \/ hung (c :: l) s | Fault f => f = BadIndex end.
Proof.
  intros Em Hc Ha. unfold try_decompress, decompress_method. destruct l as [|d l]; [reflexivity|]. cbn [rbind].
  destruct (format_of compressed_formats c d) as [n|] eqn:Ef.
  - left. unfold report. un_simpl. rewrite Em. un_simpl. case_bool_decide; un_simpl; discriminate.
  - un_simpl. case_bool_decide as Est; [|left; unfold report; un_simpl; rewrite Em; discriminate].
    right. split; [exact Em|]. split; [exact Est|]. now exists c, d, l.
Qed.

Lemma stuck_hung fuel buf s : next_ok (next_state s) -> (length buf + 2 <= fuel)%nat -> unpack_loop fuel buf s = Fault Stuck ->
  exists buf' s', turns buf s buf' s' /\ hung buf' s'.
Proof.
  revert buf s. induction fuel as [|fuel IH]; intros buf s Hn Hf E; [lia|]. destruct (message s) as [e|] eqn:Em; [cbn [unpack_loop] in E; rewrite Em in E; discriminate E|].
  destruct buf as [|c l]; [cbn [unpack_loop] in E; rewrite Em in E; discriminate E|].
  assert (Hturn : forall buf1 s1, turn (c :: l) s buf1 s1 -> (length buf1 < length (c :: l))%nat -> next_ok (next_state s1) ->
    exists buf' s', turns (c :: l) s buf' s' /\ hung buf' s').
  { intros buf1 s1 Ht Hl Hn1. rewrite (turn_loop _ _ _ _ fuel Ht) in E. destruct (IH buf1 s1 Hn1 ltac:(lia) E) as (buf' & s' & Hts & Hh).
    exists buf', s'. split; [|exact Hh]. econstructor; eauto. }
  destruct (Z.eq_dec c 0) as [->|Hc]; [apply (Hturn l _ (turn_zero l s Em)); [cbn; lia|exact Hn]|].
  destruct (decide (c = 48 /\ this_header s mod 4 = 0)) as [[-> Ha]|Hna].
  - pose proof (write_buffer_stop (48 :: l) s Hn) as Hw. destruct (write_buffer (48 :: l) (set_st s Start)) as [[n s1]|f] eqn:Ew.
    + destruct Hw as (Hb & Hpos & Hn1). specialize (Hpos ltac:(discriminate)).
      apply (Hturn _ s1 (turn_record (48 :: l) s n s1 eq_refl Em Ha Ew)); [|exact Hn1]. rewrite length_skipn. lia.
    + cbn [unpack_loop] in E. rewrite Em, Ha in E. change ((48 =? 48) && (0 =? 0)) with true in E. cbv iota in E. rewrite Ew in E. cbn in E. congruence.
  - assert (Ha : c = 48 -> this_header s mod 4 <> 0) by (intros E0 E1; now apply Hna).
    assert (Eb : (c =? 48) && (this_header s mod 4 =? 0) = false) by (destruct (Z.eqb_spec c 48); [rewrite (proj2 (Z.eqb_neq _ 0)) by auto|]; reflexivity).
    cbn [unpack_loop] in E. rewrite Em, Eb, (proj2 (Z.eqb_neq c 0) Hc) in E. pose proof (try_hung c l s Em Hc Ha) as Ht.
    destruct (try_decompress (c :: l) s) as [s1|f]; cbn [rbind] in E; [|congruence]. destruct Ht as [Hm|Hh]; [|exists (c :: l), s; split; [constructor|exact Hh]].
    destruct fuel as [|fuel]; [cbn [length] in Hf; lia|]. cbn [unpack_loop] in E. destruct (message s1); [discriminate E|congruence].
Qed.

End Stop.
