(* ===== verification/InitSpec.v ===== *)
(** * The root file system: what unpacking an archive does

    The specification of [GenInitCpio] and [Initramfs] together: the lines of the list
    are installed in the file system, in order.  The machine ends on any input; the loop
    around it does not. *)

From S2P Require Import Prelude Initramfs GenInitCpio InitArchive InitReader InitStop.

Section Install.

Context {FS : Type} `{Rootfs FS}.

(** ** The specification *)

(** The further names of a file; without the link the data is lost. *)
Fixpoint install_links (first : path) (names : list path) (mode uid gid mtime : Z) (data : list Z) (f : FS) : FS :=
  match names with
  | [] => f
  | name :: names =>
      let (r, f) := sys (Link first name) (clean_path name mode f) in
      let body := match names with [] => data | _ => [] end in
      install_links first names mode uid gid mtime data (if r <? 0 then f else write_file name false mode uid gid mtime body f)
  end.

Definition install_node (name : path) (mode uid gid mtime rdev : Z) (f : FS) : FS :=
  sys_all [Mknod name mode rdev; Chown name uid gid; Chmod name mode; Utimes name mtime] (clean_path name mode f).

Definition install (f : FS) (e : entry) : FS :=
  match e with
  | File [] _ _ _ _ _ => f
  | File (name :: names) mode uid gid mtime data =>
      let m := mode .| S_IFREG in
      let body := match names with [] => data | _ => [] end in
      install_links name names m uid gid mtime data (write_file name true m uid gid mtime body (clean_path name m f))
  | Nod name mode uid gid dev_type maj min mtime => install_node name (mode .| nod_type dev_type) uid gid mtime (new_encode_dev (MKDEV maj min)) f
  | Generic GT_DIR name mode uid gid mtime =>
      let m := mode .| S_IFDIR in sys_all [Mkdir name m; Chown name uid gid; Chmod name m] (clean_path name m f)
  | Generic gt name mode uid gid mtime => install_node name (mode .| generic_mode gt) uid gid mtime 0 f
  | Slink name target mode uid gid mtime => sys_all [Symlink target name; Lchown name uid gid; Utimes name mtime] (clean_path name 0 f)
  end.

(** The times of the directories, which are set last. *)
Definition dir_times (e : entry) : list (path * Z) := match e with Generic GT_DIR name _ _ _ mtime => [(name, mtime)] | _ => [] end.

Definition install_all (es : list entry) (f : FS) : FS := dir_utime_loop (rev (flat_map dir_times es)) (fold_left install es f).

(** ** The records of an entry *)

(** The hash table has only inodes below [n]. *)
Definition head_below (n : Z) (hd : Z -> list hash_entry) : Prop := forall b, Forall (fun q => h_ino q < n) (hd b).

Lemma find_below l ma mi n m : Forall (fun q => h_ino q < n) l -> find_in l ma mi n m = None.
Proof. induction 1 as [|q l Hq Hl IH]; [reflexivity|]. cbn [find_in]. rewrite (proj2 (Z.eqb_neq (h_ino q) n)) by lia. exact IH. Qed.

Lemma find_added l q : Forall (fun q' => h_ino q' < h_ino q) l -> find_in (l ++ [q]) (h_major q) (h_minor q) (h_ino q) (h_mode q) = Some (h_name q).
Proof.
  induction 1 as [|q' l Hq Hl IH]; cbn [app find_in].
  - now rewrite !Z.eqb_refl, Z.lxor_nilpotent.
  - rewrite (proj2 (Z.eqb_neq (h_ino q') (h_ino q))) by lia. exact IH.
Qed.

Lemma head_below_weaken n n' hd : n <= n' -> head_below n hd -> head_below n' hd.
Proof. intros Hn Hb b. apply (Forall_impl _ _ _ (Hb b)). intros q Hq. lia. Qed.

(** A new inode is not linked; it is remembered when it has several links. *)
Lemma link_new h name f hd : head_below (ino h) hd ->
  exists hd', link_result h name f hd = (0, f, hd') /\ head_below (ino h + 1) hd'
    /\ (2 <= nlink h -> find_in (hd' (hash (major h) (minor h) (ino h))) (major h) (minor h) (ino h) (mode h) = Some name).
Proof.
  intros Hb. unfold link_result. destruct (Z.leb_spec 2 (nlink h)).
  - cbv zeta. rewrite find_below by apply Hb. eexists. split; [reflexivity|]. split.
    + intros b. cbv beta. destruct (b =? _); [|apply (head_below_weaken (ino h)); [lia|exact Hb]].
      apply Forall_app. split; [apply (head_below_weaken (ino h)); [lia|exact Hb]|]. constructor; [cbn [h_ino]; lia|constructor].
    + intros _. cbv beta. rewrite Z.eqb_refl. set (q := {| h_ino := ino h; h_minor := minor h; h_major := major h; h_mode := mode h; h_name := name |}).
      apply (find_added _ q). apply Hb.
  - eexists. split; [reflexivity|]. split; [apply (head_below_weaken (ino h)); [lia|exact Hb]|lia].
Qed.

Lemma link_old h name old f hd : 2 <= nlink h ->
  find_in (hd (hash (major h) (minor h) (ino h))) (major h) (minor h) (ino h) (mode h) = Some old ->
  link_result h name f hd = let (r, f) := sys (Link old name) f in (if r <? 0 then -1 else 1, f, hd).
Proof. intros Hl Ef. unfold link_result. rewrite (proj2 (Z.leb_le 2 (nlink h)) Hl). cbv zeta. now rewrite Ef. Qed.

(** ** Modes of the records *)

Lemma type_nums t : In t [S_IFSOCK; S_IFLNK; S_IFREG; S_IFBLK; S_IFDIR; S_IFCHR; S_IFIFO] -> type_num t.
Proof.
  intros Ht. exists (t / 4096). cbn in Ht. repeat destruct Ht as [<-|Ht]; try destruct Ht; (split; [reflexivity|vm_compute; split; congruence]).
Qed.

(** The mode of a record, and the tests on it. *)
Lemma record_mode mode t : 0 <= mode < 4096 -> In t [S_IFSOCK; S_IFLNK; S_IFREG; S_IFBLK; S_IFDIR; S_IFCHR; S_IFIFO] ->
  (mode .| t) mod 65536 = mode .| t /\ (forall t', is_type (mode .| t) t' = (t =? t')).
Proof. intros Hm Ht. apply type_nums in Ht. split; [now apply mode_16|]. intros t'. now apply is_type_mode. Qed.

Definition effects (items : list item) (x : FS * (Z -> list hash_entry) * list (path * Z)) := fold_left (fun x i => item_effect i x) items x.

(** The record of a regular file. *)
Lemma file_effect fl name body f hd ds mode :
  0 <= mode < 4096 -> fl_mode fl = mode .| S_IFREG -> fl_size fl = Z.of_nat (length body) -> 0 <= fl_mtime fl < 2 ^ 31 ->
  let m := mode .| S_IFREG in let h := header_of fl (strsize name) in
  item_effect {| it_fields := fl; it_name := name; it_body := body |} (f, hd, ds) =
  let '(ml, f, hd) := link_result h name (clean_path name m f) hd in
  (if ml <? 0 then f else write_file name (negb (ml =? 1)) m (fl_uid fl) (fl_gid fl) (fl_mtime fl) body f, hd, ds).
Proof.
  intros Hm Em Es Ht m h. destruct (record_mode mode S_IFREG Hm ltac:(cbn; tauto)) as [E1 E2]. unfold item_effect.
  cbn [it_fields it_name it_body]. fold h. cbv zeta. assert (E : Initramfs.mode h = m) by (unfold h, header_of; cbn [Initramfs.mode]; now rewrite Em).
  rewrite E. unfold m. rewrite !E2. change (S_IFREG =? S_IFLNK) with false. change (S_IFREG =? S_IFREG) with true. cbv iota.
  unfold h, header_of. cbn [uid gid Initramfs.mtime]. rewrite s32_small by exact Ht. reflexivity.
Qed.

Lemma links_effect n md u g nl mt data first names f hd ds :
  let m := md .| S_IFREG in let fl size := mk_fields n m u g nl mt size 0 0 in
  0 <= md < 4096 -> 0 <= mt < 2 ^ 31 -> 2 <= nl -> find_in (hd (hash 3 1 n)) 3 1 n m = Some first ->
  effects (file_items fl names data) (f, hd, ds) = (install_links first names m u g mt data f, hd, ds).
Proof.
  intros m fl Hm Ht Hl Hf. revert f. induction names as [|name names IH]; intros f; [reflexivity|]. cbn [file_items install_links].
  set (body := match names with [] => data | _ => [] end). unfold effects in *. cbn [fold_left].
  rewrite (file_effect (fl (Z.of_nat (length body))) name body f hd ds md Hm eq_refl eq_refl Ht).
  set (h := header_of (fl (Z.of_nat (length body))) (strsize name)).
  assert (Ef : find_in (hd (hash (major h) (minor h) (ino h))) (major h) (minor h) (ino h) (mode h) = Some first).
  { unfold h, header_of. cbn [ino major minor mode fl mk_fields fl_major fl_minor fl_ino fl_mode]. unfold m.
    now rewrite (proj1 (record_mode md S_IFREG Hm ltac:(cbn; tauto))). }
  rewrite (link_old h name first _ hd Hl Ef).
  fold m. destruct (sys (Link first name) (clean_path name m f)) as [r f']. destruct (r <? 0); rewrite <- IH; reflexivity.
Qed.

(** The record of a device, a pipe or a socket. *)
Lemma node_effect fl name f hd ds md t :
  0 <= md < 4096 -> In t [S_IFBLK; S_IFCHR; S_IFIFO; S_IFSOCK] -> fl_mode fl = md .| t -> 0 <= fl_mtime fl < 2 ^ 31 -> head_below (fl_ino fl) hd ->
  exists hd', head_below (fl_ino fl + 1) hd' /\
  item_effect {| it_fields := fl; it_name := name; it_body := [] |} (f, hd, ds) =
    (install_node name (md .| t) (fl_uid fl) (fl_gid fl) (fl_mtime fl) (new_encode_dev (MKDEV (fl_rmajor fl) (fl_rminor fl))) f, hd', ds).
Proof.
  intros Hm Ht Em Htm Hb. destruct (record_mode md t Hm ltac:(cbn in Ht |- *; tauto)) as [E1 E2]. unfold item_effect.
  cbn [it_fields it_name it_body]. set (h := header_of fl (strsize name)). cbv zeta.
  assert (E : mode h = md .| t) by (unfold h, header_of; cbn [mode]; now rewrite Em). rewrite E. unfold node_types. rewrite !E2.
  destruct (link_new h name (clean_path name (md .| t) f) hd Hb) as (hd' & El & Hb' & _). exists hd'. split; [exact Hb'|].
  rewrite El. unfold install_node, h, header_of. cbn [uid gid mtime rdev]. rewrite s32_small by exact Htm.
  cbn in Ht. repeat destruct Ht as [<-|Ht]; try destruct Ht; reflexivity.
Qed.

(** The record of a directory. *)
Lemma dir_effect fl name f hd ds md :
  0 <= md < 4096 -> fl_mode fl = md .| S_IFDIR -> 0 <= fl_mtime fl < 2 ^ 31 ->
  item_effect {| it_fields := fl; it_name := name; it_body := [] |} (f, hd, ds) =
    (sys_all [Mkdir name (md .| S_IFDIR); Chown name (fl_uid fl) (fl_gid fl); Chmod name (md .| S_IFDIR)] (clean_path name (md .| S_IFDIR) f), hd,
     (name, fl_mtime fl) :: ds).
Proof.
  intros Hm Em Htm. destruct (record_mode md S_IFDIR Hm ltac:(cbn; tauto)) as [E1 E2]. unfold item_effect.
  cbn [it_fields it_name it_body]. set (h := header_of fl (strsize name)). cbv zeta.
  assert (E : mode h = md .| S_IFDIR) by (unfold h, header_of; cbn [mode]; now rewrite Em). rewrite E, !E2.
  unfold h, header_of. cbn [uid gid mtime]. rewrite s32_small by exact Htm. reflexivity.
Qed.

Lemma symlink_effect fl name target f hd ds md :
  0 <= md < 4096 -> fl_mode fl = S_IFLNK .| md -> 0 <= fl_mtime fl < 2 ^ 31 ->
  item_effect {| it_fields := fl; it_name := name; it_body := target ++ [0] |} (f, hd, ds) =
    (sys_all [Symlink target name; Lchown name (fl_uid fl) (fl_gid fl); Utimes name (fl_mtime fl)] (clean_path name 0 f), hd, ds).
Proof.
  intros Hm Em Htm. destruct (record_mode md S_IFLNK Hm ltac:(cbn; tauto)) as [E1 E2]. unfold item_effect.
  cbn [it_fields it_name it_body]. set (h := header_of fl (strsize name)). cbv zeta.
  assert (E : mode h = md .| S_IFLNK) by (unfold h, header_of; cbn [mode]; now rewrite Em, Z.lor_comm). rewrite E, !E2, removelast_last.
  unfold h, header_of. cbn [uid gid mtime]. rewrite s32_small by exact Htm. reflexivity.
Qed.

(** A regular file with all its names. *)
Lemma names_effect n name names md u g mt data f hd ds :
  0 <= md < 4096 -> 0 <= mt < 2 ^ 31 -> head_below n hd ->
  exists hd', head_below (n + 1) hd' /\
    effects (file_items (fun size => mk_fields n (md .| S_IFREG) u g (Z.of_nat (length (name :: names))) mt size 0 0) (name :: names) data) (f, hd, ds)
    = (install f (File (name :: names) md u g mt data), hd', ds).
Proof.
  intros Hm Ht Hb. cbn [file_items]. unfold effects. cbn [fold_left]. set (body := match names with [] => data | _ => [] end).
  set (nl := Z.of_nat (length (name :: names))). set (fl := fun size => mk_fields n (md .| S_IFREG) u g nl mt size 0 0).
  cbv beta. set (fl1 := mk_fields n (md .| S_IFREG) u g nl mt (Z.of_nat (length body)) 0 0).
  rewrite (file_effect fl1 name body f hd ds md Hm eq_refl eq_refl Ht).
  set (h := header_of fl1 (strsize name)). set (m := md .| S_IFREG).
  destruct (link_new h name (clean_path name m f) hd Hb) as (hd' & El & Hb' & Hf). exists hd'. split; [exact Hb'|]. rewrite El.
  change (0 <? 0) with false. change (negb (0 =? 1)) with true. cbv iota. cbn [install]. fold body m.
  change (fl_uid _) with u. change (fl_gid _) with g. change (fl_mtime _) with mt.
  set (f1 := write_file name true m u g mt body (clean_path name m f)).
  destruct names as [|name' names]; [reflexivity|]. apply (links_effect n md u g nl mt data name (name' :: names) f1 hd' ds Hm Ht); [cbn [length] in nl; lia|].
  change (mode h) with ((md .| S_IFREG) mod 65536) in Hf. rewrite (proj1 (record_mode md S_IFREG Hm ltac:(cbn; tauto))) in Hf.
  apply Hf. change (2 <= nl). cbn [length] in nl. lia.
Qed.

(** An entry installs itself. *)
Lemma entry_effect e n f hd ds :
  entry_ok e -> head_below n hd ->
  exists hd', head_below (n + 1) hd' /\ effects (items_of e n) (f, hd, ds) = (install f e, hd', rev (dir_times e) ++ ds).
Proof.
  intros He Hb. assert (Hb1 : head_below (n + 1) hd) by (apply (head_below_weaken n); [lia|exact Hb]).
  destruct e as [names md u g mt data|name md u g ty maj min mt|gt name md u g mt|name target md u g mt]; cbn [items_of entry_ok dir_times rev app] in *.
  - destruct He as (Hne & Hn & _ & (Hm & _ & _ & Ht) & _). destruct names as [|name names]; [easy|]. now apply names_effect.
  - destruct He as (_ & (Hm & _ & _ & Ht) & _). unfold effects. cbn [fold_left].
    apply (node_effect (mk_fields n (md .| nod_type ty) u g 1 mt 0 maj min) name f hd ds md (nod_type ty) Hm); try easy.
    unfold nod_type. destruct (ty =? 98); cbn; tauto.
  - destruct He as (_ & Hm & _ & _ & Ht). unfold effects. cbn [fold_left].
    destruct gt; [exists hd; split; [exact Hb1|]; now apply (dir_effect (mk_fields n (md .| S_IFDIR) u g 2 mt 0 0 0) name f hd ds md)
      |apply (node_effect (mk_fields n (md .| S_IFIFO) u g 2 mt 0 0 0) name f hd ds md S_IFIFO Hm)
      |apply (node_effect (mk_fields n (md .| S_IFSOCK) u g 2 mt 0 0 0) name f hd ds md S_IFSOCK Hm)]; try easy; cbn; tauto.
  - destruct He as (_ & (Hm & _ & _ & Ht) & _). exists hd. split; [exact Hb1|]. unfold effects. cbn [fold_left]. now apply (symlink_effect (mk_fields n (S_IFLNK .| md) u g 1 mt (strsize target) 0 0) name target f hd ds md).
Qed.

(** The records are as the machine expects them. *)
Lemma items_std e n : entry_ok e -> Forall item_std (items_of e n).
Proof.
  assert (Hno : forall name, name_ok name -> name <> trailer_name) by (now intros name (_ & _ & Hn)).
  assert (Hone : forall i, item_std i -> Forall item_std [i]) by (intros i Hi; now constructor).
  assert (Hty : forall i md t, fl_mode (it_fields i) = md .| t -> 0 <= md < 4096 -> In t [S_IFSOCK; S_IFREG; S_IFBLK; S_IFDIR; S_IFCHR; S_IFIFO] ->
    it_name i <> trailer_name -> t = S_IFREG \/ it_body i = [] -> item_std i).
  { intros i md t Em Hm Ht Hn Hb. destruct (record_mode md t Hm ltac:(cbn in Ht |- *; tauto)) as [E1 E2]. split; [exact Hn|]. rewrite Em, E1, !E2.
    assert (El : (t =? S_IFLNK) = false) by (cbn in Ht; repeat destruct Ht as [<-|Ht]; try destruct Ht; reflexivity). rewrite El.
    destruct Hb as [-> | ->]; [reflexivity|]. apply orb_true_r. }
  intros He. destruct e as [names md u g mt data|name md u g ty maj min mt|gt name md u g mt|name target md u g mt]; cbn [items_of entry_ok] in *.
  - destruct He as (_ & Hn & _ & (Hm & _) & _). generalize (Z.of_nat (length names)). intros nl. induction Hn as [|name names H1 Hn IH]; cbn [file_items]; constructor; [|exact IH].
    apply (Hty _ md S_IFREG); [reflexivity|exact Hm|cbn; tauto|now apply Hno|now left].
  - destruct He as (Hn & (Hm & _) & _). apply Hone, (Hty _ md (nod_type ty)); [reflexivity|exact Hm| |now apply Hno|now right].
    unfold nod_type. destruct (ty =? 98); cbn; tauto.
  - destruct He as (Hn & Hm & _). apply Hone, (Hty _ md (generic_mode gt)); [reflexivity|exact Hm| |now apply Hno|now right]. destruct gt; cbn; tauto.
  - destruct He as (Hn & (Hm & _) & Ht & Hl). apply Hone. split; [now apply Hno|]. cbn [it_fields it_body mk_fields fl_mode].
    destruct (record_mode md S_IFLNK Hm ltac:(cbn; tauto)) as [E1 E2]. rewrite (Z.lor_comm S_IFLNK md), E1, E2.
    change (S_IFLNK =? S_IFLNK) with true. cbv iota. split; [rewrite length_app; unfold strsize in Hl; cbn [length]; lia|]. now exists target.
Qed.

Lemma entries_effect es n f hd ds :
  Forall entry_ok es -> head_below n hd -> 0 <= n -> n + Z.of_nat (length es) < 2 ^ 32 ->
  exists hd', effects (items_from n es) (f, hd, ds) = (fold_left install es f, hd', rev (flat_map dir_times es) ++ ds).
Proof.
  intros He. revert n f hd ds. induction He as [|e es He Hes IH]; intros n f hd ds Hb H0 Hl; cbn [items_from fold_left flat_map].
  - now exists hd.
  - cbn [length] in Hl. destruct (entry_effect e n f hd ds He Hb) as (hd1 & Hb1 & E1).
    rewrite u32_id by (unfold fits; lia). destruct (IH (n + 1) (install f e) hd1 (rev (dir_times e) ++ ds) Hb1 ltac:(lia) ltac:(lia)) as [hd2 E2].
    exists hd2. unfold effects in *. rewrite fold_left_app, E1, E2, rev_app_distr, app_assoc. reflexivity.
Qed.

Lemma items_from_std es n : Forall entry_ok es -> Forall item_std (items_from n es).
Proof.
  intros He. revert n. induction He as [|e es He Hes IH]; intros n; cbn [items_from]; [constructor|]. apply Forall_app. split; [now apply items_std|apply IH].
Qed.

(** ** The loop over an archive *)

Lemma run_actions_more n m s s' : run_actions n s = Ok s' -> (n <= m)%nat -> run_actions m s = Ok s'.
Proof.
  revert m s. induction n as [|n IH]; intros m s E Hm; [discriminate E|]. destruct m as [|m]; [lia|]. cbn [run_actions] in *.
  destruct (action s) as [[stop s1]|]; [|discriminate E]. cbn [rbind] in *. destruct stop; [exact E|]. apply IH; [exact E|lia].
Qed.

(** The machine as the loop starts it. *)
Definition at_start (s : unpacker FS) (buf : list Z) : unpacker FS := set_input (set_st s Start) buf (this_header s).

Lemma loop_record i rest s f hd ds s' fuel :
  item_ok i -> ready s -> pads rest -> record_done i rest (at_start s (item_bytes i ++ rest)) f hd ds s' ->
  unpack_loop (S fuel) (item_bytes i ++ rest) s = unpack_loop fuel (skipn (zeros rest) rest) s' /\ ready s'.
Proof.
  intros Hi [R1 R2 R3 R4] Hp [D1 D2 D3 D4 D5 D6 _ _ _]. destruct (item_aligned i Hi) as [Hl Hl2].
  change (this_header (at_start s _)) with (this_header s) in D4. unfold pads in Hp. split; [|split; try assumption; zdiv].
  set (buf := item_bytes i ++ rest) in *. assert (Eb : exists l, buf = 48 :: l).
  { unfold buf. rewrite item_bytes_app, hdr_bytes_eq. now eexists. }
  destruct Eb as [l Eb]. cbn [unpack_loop]. rewrite R1, Eb, R3. change ((48 =? 48) && (0 =? 0)) with true. cbv iota. rewrite <- Eb.
  unfold write_buffer. change (set_input (set_st s Start) buf (this_header (set_st s Start))) with (at_start s buf).
  rewrite (run_actions_more 16 _ _ _ D1) by (unfold write_fuel; lia). cbn [rbind]. f_equal. unfold count. rewrite D3.
  replace (Z.to_nat (Z.of_nat (length buf) - Z.of_nat (length (skipn (zeros rest) rest)))) with (length (item_bytes i) + zeros rest)%nat.
  - unfold buf. apply drop_app_add.
  - unfold buf. rewrite length_app, length_skipn. assert (zeros rest <= length rest)%nat; [|lia].
    clear. induction rest as [|c rest IH]; cbn [zeros length]; [lia|]. destruct (c =? 0); lia.
Qed.

Lemma ready_start s buf : ready s -> ready (at_start s buf).
Proof. now intros [R1 R2 R3 R4]. Qed.

Lemma zeros_item i rest : zeros (item_bytes i ++ rest) = 0%nat.
Proof. rewrite item_bytes_app, hdr_bytes_eq. reflexivity. Qed.

Lemma loop_items items tail s :
  Forall item_ok items -> Forall item_std items -> ready s -> zeros tail = 0%nat ->
  exists s', (forall fuel, unpack_loop (length items + fuel) (concat (map item_bytes items) ++ tail) s = unpack_loop fuel tail s') /\ ready s'
    /\ (fs s', head s', dir_list s') = effects items (fs s, head s, dir_list s).
Proof.
  intros Hi. revert s. induction Hi as [|i items Hi His IH]; intros s Hstd Hr Hz; [now exists s|].
  apply Forall_cons in Hstd as [Hs Hss]. cbn [map concat length Nat.add]. rewrite <- app_assoc. set (rest := concat (map item_bytes items) ++ tail).
  assert (Hz' : zeros rest = 0%nat) by (unfold rest; destruct items as [|i' items]; [exact Hz|]; cbn [map concat]; rewrite <- app_assoc; apply zeros_item).
  assert (Hp : pads rest) by (unfold pads; now rewrite Hz').
  destruct (run_item i rest (at_start s (item_bytes i ++ rest)) Hi Hs (ready_start s _ Hr) Hp eq_refl eq_refl) as [s1 Hd].
  change (fs (at_start s _)) with (fs s) in Hd. change (head (at_start s _)) with (head s) in Hd. change (dir_list (at_start s _)) with (dir_list s) in Hd.
  unfold effects. cbn [fold_left]. destruct (item_effect i (fs s, head s, dir_list s)) as [[f hd] ds] eqn:Ei.
  pose proof (fun fuel => loop_record i rest s f hd ds s1 fuel Hi Hr Hp Hd) as El. destruct (El 0%nat) as [_ Hr1].
  destruct (IH s1 Hss Hr1 Hz) as (s' & E1 & E2 & E3). exists s'.
  split; [intros fuel; rewrite (proj1 (El _)), Hz', drop_0; apply E1|]. split; [exact E2|]. unfold effects in E3. rewrite E3.
  now rewrite (dn_fs _ _ _ _ _ _ _ Hd), (dn_head _ _ _ _ _ _ _ Hd), (dn_dirs _ _ _ _ _ _ _ Hd).
Qed.

Lemma zeros_pad n rest : 0 <= n -> zeros rest = 0%nat -> zeros (pad n ++ rest) = Z.to_nat n.
Proof. intros Hn Hz. unfold pad. induction (Z.to_nat n) as [|k IH]; [exact Hz|]. cbn [repeat app zeros]. change (0 =? 0) with true. cbv iota. now rewrite IH. Qed.

Lemma concat_items_length items : Forall item_ok items -> (length items <= length (concat (map item_bytes items)))%nat.
Proof.
  induction 1 as [|i items Hi His IH]; [cbn; lia|]. cbn [map concat length]. rewrite length_app. destruct (item_aligned i Hi). lia.
Qed.

(** A whole archive, followed by something that is not zero. *)
Lemma loop_archive es tail s :
  Forall entry_ok es -> 721 + Z.of_nat (length es) < 2 ^ 32 -> ready s -> (forall b, head s b = []) -> zeros tail = 0%nat ->
  exists k s', (k < length (archive es))%nat /\ (forall fuel, unpack_loop (k + fuel) (archive es ++ tail) s = unpack_loop fuel tail s') /\ ready s' /\ st s' = Reset
    /\ fs s' = fold_left install es (fs s) /\ (forall b, head s' b = []) /\ dir_list s' = rev (flat_map dir_times es) ++ dir_list s.
Proof.
  intros He Hl Hr Hh Hz. destruct (archive_items es He) as (Hall & n & Hn & Hn4 & Ea). set (items := items_from 721 es) in *.
  destruct (entries_effect es 721 (fs s) (head s) (dir_list s) He) as [hd' Ee]; [|lia|lia|].
  { intros b. rewrite Hh. constructor. }
  assert (Hz0 : zeros (item_bytes trailer_item ++ pad n ++ tail) = 0%nat) by apply zeros_item.
  destruct (loop_items items _ s Hall (items_from_std es 721 He) Hr Hz0) as (s1 & El & Hr1 & E1). fold items in Ee. rewrite Ee in E1.
  injection E1 as Ef Eh Ed. assert (Hzp : zeros (pad n ++ tail) = Z.to_nat n) by (apply zeros_pad; [lia|exact Hz]).
  assert (Hp : pads (pad n ++ tail)) by (unfold pads; rewrite Hzp; zdiv).
  destruct (run_trailer (pad n ++ tail) (at_start s1 (item_bytes trailer_item ++ pad n ++ tail)) (ready_start s1 _ Hr1) Hp eq_refl eq_refl) as [s2 Hd].
  pose proof (fun fuel => loop_record _ _ s1 _ _ _ s2 fuel trailer_ok Hr1 Hp Hd) as Et. exists (S (length items)), s2.
  destruct Hd as [_ Dt _ _ _ _ Df Dh Dd]. cbn [at_start set_input set_st fs head dir_list] in Df, Dd. split_and!.
  - rewrite Ea, !length_app. pose proof (concat_items_length items Hall). destruct (item_aligned _ trailer_ok) as [_ Hl']. lia.
  - intros fuel. rewrite Ea, <- !app_assoc, Nat.add_succ_comm, El, (proj1 (Et _)), Hzp. f_equal.
    replace (Z.to_nat n) with (length (pad n)) by (unfold pad; apply repeat_length). apply drop_app_length.
  - exact (proj2 (Et 0%nat)).
  - exact Dt.
  - now rewrite Df.
  - intros b. now rewrite Dh.
  - now rewrite Dd.
Qed.

(** Archives one after the other. *)
Lemma loop_archives ess s fuel :
  Forall (fun es => Forall entry_ok es /\ 721 + Z.of_nat (length es) < 2 ^ 32) ess -> ready s -> (forall b, head s b = []) ->
  (length (concat (map archive ess)) < fuel)%nat ->
  exists s', unpack_loop fuel (concat (map archive ess)) s = Ok s' /\ ready s'
    /\ fs s' = fold_left install (concat ess) (fs s) /\ (forall b, head s' b = []) /\ dir_list s' = rev (flat_map dir_times (concat ess)) ++ dir_list s.
Proof.
  intros He. revert s fuel. induction He as [|es ess [He Hl] Hes IH]; intros s fuel Hr Hh Hf; cbn [map concat].
  - exists s. destruct fuel as [|fuel]; [cbn in Hf; lia|]. cbn [unpack_loop]. rewrite (rd_message _ Hr). now split_and!.
  - cbn [map concat] in Hf. rewrite length_app in Hf. set (tail := concat (map archive ess)) in *.
    assert (Hz : zeros tail = 0%nat).
    { unfold tail. destruct Hes as [|es' ess' [He' _] _]; [reflexivity|]. cbn [map concat]. destruct (archive_items es' He') as (_ & n & _ & _ & Ea).
      rewrite Ea, <- app_assoc. destruct (items_from 721 es') as [|i items]; cbn [map concat app]; rewrite <- app_assoc; apply zeros_item. }
    destruct (loop_archive es tail s He Hl Hr Hh Hz) as (k & s1 & Hk & El & Hr1 & _ & Ef & Hh1 & Ed).
    destruct (IH s1 (fuel - k)%nat Hr1 Hh1 ltac:(lia)) as (s2 & El2 & Hr2 & Ef2 & Hh2 & Ed2). exists s2.
    replace fuel with (k + (fuel - k))%nat by lia. rewrite El. split_and!; try assumption.
    + now rewrite Ef2, Ef, <- fold_left_app.
    + now rewrite Ed2, Ed, flat_map_app, rev_app_distr, app_assoc.
Qed.

(** The state of [unpack_to_rootfs] before its loop. *)
Definition unpack_start (s : unpacker FS) : unpacker FS := set_message (set_input (set_st s Start) (victim s) 0) None.

Lemma unpack_start_ready s : Z.of_nat (length (bufs s SymlinkBuf)) = 8195 -> ready (unpack_start s).
Proof. intros Hb. now split. Qed.

(** The unpacker between two archives. *)
Record idle (s : unpacker FS) : Prop := {
  id_head : forall b, head s b = [];
  id_dirs : dir_list s = [];
  id_buf : Z.of_nat (length (bufs s SymlinkBuf)) = 8195
}.

(** Archives that [gen_init_cpio] writes, one after the other. *)
Definition archives (ess : list (list entry)) : list Z := concat (map archive ess).
Definition entries_ok (es : list entry) : Prop := Forall entry_ok es /\ 721 + Z.of_nat (length es) < 2 ^ 32.

Lemma unpack_archives ess (s : unpacker FS) :
  Forall entries_ok ess -> idle s ->
  exists s', unpack_to_rootfs (archives ess) s = Ok s' /\ message s' = None /\ fs s' = install_all (concat ess) (fs s) /\ idle s'.
Proof.
  intros He [Hh Hd Hb]. destruct (loop_archives ess (unpack_start s) (length (archives ess) + 2) He (unpack_start_ready s Hb) Hh ltac:(unfold archives; lia))
    as (s' & El & Hr & Ef & Hh' & Ed). exists (dir_utime s').
  unfold unpack_to_rootfs. fold (unpack_start s). cbv zeta. unfold archives in *. rewrite El. cbn [rbind]. unfold dir_utime. un_simpl. split_and!; try reflexivity.
  - exact (rd_message _ Hr).
  - unfold install_all. rewrite Ef, Ed. change (dir_list (unpack_start s)) with (dir_list s). now rewrite Hd, app_nil_r.
  - split; [exact Hh'|reflexivity|exact (rd_symlink_buf _ Hr)].
Qed.

(** C5: The root file system of archives that [gen_init_cpio] has written, one after the other, from the kernel and from the
    boot loader, is populated without an error: every entry is installed in order, directories, devices, pipes, sockets,
    symbolic links, and files with their data and all their hard links; the times of the directories are set at the end
    of each.  The table of links is empty again. *)
Theorem populate_installs ess initrd (s : unpacker FS) :
  Forall entries_ok ess -> Forall entries_ok (default [] initrd) -> idle s ->
  exists s', populate_rootfs (archives ess) (option_map archives initrd) s = Ok (None, s') /\ message s' = None /\ idle s'
    /\ fs s' = match initrd with Some ess' => install_all (concat ess') (install_all (concat ess) (fs s)) | None => install_all (concat ess) (fs s) end.
Proof.
  intros He Hi Hs. destruct (unpack_archives ess s He Hs) as (s1 & E1 & M1 & F1 & H1). unfold populate_rootfs. rewrite E1. cbn [rbind]. rewrite M1.
  destruct initrd as [ess'|]; cbn [option_map default] in *; [|now exists s1].
  destruct (unpack_archives ess' s1 Hi H1) as (s2 & E2 & M2 & F2 & H2). rewrite E2. exists s2. now rewrite F2, F1.
Qed.

(** C16: On any input the machine that reads a record stops, having consumed at least a byte, or accesses bytes outside of
    its buffers.  So the loop around it ends in at most two turns more than there are bytes, unless it comes to input
    that it neither takes nor refuses: after a record, a byte that is not the start of a record, zero or known
    compression.  There it hangs, and the boot with it. *)
Theorem unpack_ends buf (s : unpacker FS) :
  next_ok (next_state s) ->
  match write_buffer buf (set_st s Start) with
  | Ok (n, _) => 0 <= n <= Z.of_nat (length buf) /\ (buf <> [] -> 0 < n)
  | Fault f => f = BadIndex
  end
  /\ (unpack_loop (length buf + 2) buf s = Fault Stuck <-> exists buf' s', turns buf s buf' s' /\ hung buf' s')
  /\ (unpack_loop (length buf + 2) buf s = Fault Stuck -> forall fuel, unpack_loop fuel buf s = Fault Stuck).
Proof.
  intros Hn. assert (Hst : unpack_loop (length buf + 2) buf s = Fault Stuck -> exists buf' s', turns buf s buf' s' /\ hung buf' s')
    by (apply stuck_hung; [exact Hn|lia]).
  split_and!.
  - pose proof (write_buffer_stop buf s Hn) as Hw. destruct (write_buffer _ _) as [[n s']|f]; [|exact Hw]. tauto.
  - split; [exact Hst|]. intros (buf' & s' & Ht & Hh). exact (turns_hung _ _ _ _ _ Ht Hh).
  - intros E fuel. destruct (Hst E) as (buf' & s' & Ht & Hh). exact (turns_hung _ _ _ _ _ Ht Hh).
Qed.

(** Bytes after an archive that are not zero, another archive or compressed data known to the kernel are not reported as junk:
    the loop does not end. *)
Theorem unpack_junk_hangs es c d junk (s : unpacker FS) :
  entries_ok es -> idle s ->
  next_ok (next_state s) -> c <> 0 -> c <> 48 -> format_of compressed_formats c d = None ->
  unpack_to_rootfs (archive es ++ c :: d :: junk) s = Fault Stuck
  /\ forall fuel, unpack_loop fuel (archive es ++ c :: d :: junk) (unpack_start s) = Fault Stuck.
Proof.
  intros [He Hl] [Hh _ Hb] Hn Hc Hc48 Ef. set (tail := c :: d :: junk). set (buf := archive es ++ tail).
  assert (Hz : zeros tail = 0%nat) by (unfold tail; cbn [zeros]; now rewrite (proj2 (Z.eqb_neq c 0) Hc)).
  destruct (loop_archive es tail (unpack_start s) He Hl (unpack_start_ready s Hb) Hh Hz) as (k & s' & Hk & El & Hr & Est & _).
  assert (Hh' : hung tail s') by (split; [exact (rd_message _ Hr)|]; split; [exact Est|]; now exists c, d, junk).
  assert (E : unpack_loop (k + (length buf + 2)) buf (unpack_start s) = Fault Stuck) by (unfold buf; rewrite El; now apply hung_loop).
  destruct (stuck_hung (k + (length buf + 2)) buf (unpack_start s) Hn ltac:(lia) E) as (buf2 & s2 & Ht & Hh2).
  assert (Hall : forall fuel, unpack_loop fuel buf (unpack_start s) = Fault Stuck) by (intros fuel; exact (turns_hung _ _ _ _ _ Ht Hh2)).
  split; [|exact Hall]. unfold unpack_to_rootfs. fold (unpack_start s). cbv zeta. now rewrite Hall.
Qed.

End Install.

(** ** The board *)

(** A file system that records the calls, where opening gives descriptor 3. *)
#[local] Instance trace_fs : Rootfs (list call) :=
  { sys c t := (match c with Open _ _ _ => 3 | _ => 0 end, t ++ [c]); newlstat _ _ := None }.

(** The unpacker before the first archive. *)
Definition boot_unpacker : unpacker (list call) :=
  {| message := None; st := Start; next_state := Start; victim := []; this_header := 0; next_header := 0; collected := InPlace []; collect := HeaderBuf;
     collect_at := 0; remains := 0; bufs b := match b with HeaderBuf => repeat 0 110 | SymlinkBuf => repeat 0 (Z.to_nat 8195) | NameBuf => repeat 0 (Z.to_nat 4098) end;
     hdr := parse_header []; head _ := []; dir_list := []; wfd := 0; vcollected := []; fs := [] |}.

(** [dir /d], [nod /c c 5 1], [file /f] with a hard link [/g], [slink /l f]. *)
Definition board_list : list entry :=
  [Generic GT_DIR [47; 100] 493 0 0 1000; Nod [47; 99] 384 0 0 99 5 1 1000; File [[47; 102]; [47; 103]] 493 0 0 1001 [1; 2; 3; 4; 5];
   Slink [47; 108] [102] 511 0 0 1002].

Lemma board_list_ok : Forall entry_ok board_list.
Proof.
  unfold board_list. repeat match goal with
    | |- Forall _ [] => constructor | |- Forall _ (_ :: _) => constructor | |- entry_ok _ => cbn [entry_ok]
    | |- name_ok _ => unfold name_ok | |- attr_ok _ _ _ _ => unfold attr_ok | |- nul_free _ => unfold nul_free | |- _ /\ _ => split end;
    first [discriminate | unfold fits, strsize, PATH_MAX; cbn; lia].
Qed.

Lemma boot_idle : idle boot_unpacker.
Proof. split; [reflexivity|reflexivity|]. vm_compute. reflexivity. Qed.

(** C1 on the board. *)
Lemma populate_installs_witness :
  exists s', populate_rootfs (archives [board_list]) None boot_unpacker = Ok (None, s')
    /\ fs s' = [Mkdir [47; 100] 16877; Chown [47; 100] 0 0; Chmod [47; 100] 16877;
                 Mknod [47; 99] 8576 1281; Chown [47; 99] 0 0; Chmod [47; 99] 8576; Utimes [47; 99] 1000;
                 Open [47; 102] 577 33261; Fchown 3 0 0; Fchmod 3 33261; Write 3 []; Close 3; Utimes [47; 102] 1001;
                 Link [47; 102] [47; 103]; Open [47; 103] 65 33261; Fchown 3 0 0; Fchmod 3 33261; Ftruncate 3 5; Write 3 [1; 2; 3; 4; 5]; Close 3; Utimes [47; 103] 1001;
                 Symlink [102] [47; 108]; Lchown [47; 108] 0 0; Utimes [47; 108] 1002; Utimes [47; 100] 1000].
Proof.
  destruct (populate_installs [board_list] None boot_unpacker) as (s' & E & _ & _ & Ef).
  - constructor; [|constructor]. split; [exact board_list_ok|cbn; lia].
  - constructor.
  - exact boot_idle.
  - exists s'. split; [exact E|]. rewrite Ef. vm_compute. reflexivity.
Defined.

(** C2 on the board: after a record, a zero byte and junk. *)
Lemma unpack_ends_witness :
  next_ok (next_state boot_unpacker) /\ forall fuel, unpack_loop fuel [0; 255; 255] (set_st boot_unpacker Reset) = Fault Stuck.
Proof.
  assert (Hn : next_ok (next_state boot_unpacker)) by (unfold next_ok; cbn; split_and!; discriminate). split; [exact Hn|].
  apply (unpack_ends [0; 255; 255] (set_st boot_unpacker Reset) Hn). reflexivity.
Defined.

(** Junk on the board. *)
Lemma unpack_junk_hangs_witness : unpack_to_rootfs (archive board_list ++ [255; 255; 255]) boot_unpacker = Fault Stuck.
Proof.
  refine (proj1 (unpack_junk_hangs board_list 255 255 [255] boot_unpacker _ _ _ _ _ _)).
  - split; [exact board_list_ok|cbn; lia].
  - exact boot_idle.
  - unfold next_ok. cbn. split_and!; discriminate.
  - discriminate.
  - discriminate.
  - reflexivity.
Defined.
