(* ===== verification/CacheV7m.v ===== *)
(** * Cache maintenance ([arch/arm/mm/cache-v7m.c])

    The L1 caches of the Cortex-M7 are maintained by writing addresses to registers.
    What a write does to the caches is the architecture's: a class [L1] states it, and a
    write-back cache is its instance. *)

From S2P Require Import Prelude.

(** ** The hardware *)

Definition L1_CACHE_BYTES : Z := 32.
Definition line (a : Z) : Z := a / L1_CACHE_BYTES.

(** Bytes as the processor reads them ([cpu]) and as devices do ([poc]); lines that are in the data cache, those that
    wait to be written back, and lines of instructions.  The registers are named as in the code. *)
Class Caches (C : Type) := {
  cpu : C -> Z -> Z; poc : C -> Z -> Z;
  cached : C -> Z -> bool; dirty : C -> Z -> bool; icached : C -> Z -> bool;
  DCIMVAC : Z -> C -> C; DCCMVAC : Z -> C -> C; DCCIMVAC : Z -> C -> C; ICIMVAU : Z -> C -> C
}.

Definition write_back {C} `{Caches C} (c : C) (a x : Z) : Z := if (line x =? line a) && dirty c (line x) then cpu c x else poc c x.
Definition drop_line (f : Z -> bool) (a l : Z) : bool := negb (l =? line a) && f l.

(** The operations by address, as the architecture manual has them. *)
Class L1 (C : Type) `{Caches C} := {
  l1_uncached c x : cached c (line x) = false -> cpu c x = poc c x;
  l1_dirty c l : dirty c l = true -> cached c l = true;
  l1_inv_poc a c x : poc (DCIMVAC a c) x = poc c x;
  l1_inv_cpu a c x : cpu (DCIMVAC a c) x = if line x =? line a then poc c x else cpu c x;
  l1_inv_cached a c l : cached (DCIMVAC a c) l = drop_line (cached c) a l;
  l1_inv_dirty a c l : dirty (DCIMVAC a c) l = drop_line (dirty c) a l;
  l1_clean_poc a c x : poc (DCCMVAC a c) x = write_back c a x;
  l1_clean_cpu a c x : cpu (DCCMVAC a c) x = cpu c x;
  l1_clean_cached a c l : cached (DCCMVAC a c) l = cached c l;
  l1_clean_dirty a c l : dirty (DCCMVAC a c) l = drop_line (dirty c) a l;
  l1_clean_icached a c l : icached (DCCMVAC a c) l = icached c l;
  l1_flush_poc a c x : poc (DCCIMVAC a c) x = write_back c a x;
  l1_flush_cpu a c x : cpu (DCCIMVAC a c) x = if line x =? line a then write_back c a x else cpu c x;
  l1_flush_cached a c l : cached (DCCIMVAC a c) l = drop_line (cached c) a l;
  l1_flush_dirty a c l : dirty (DCCIMVAC a c) l = drop_line (dirty c) a l;
  l1_icache_poc a c x : poc (ICIMVAU a c) x = poc c x;
  l1_icache_cpu a c x : cpu (ICIMVAU a c) x = cpu c x;
  l1_icache_cached a c l : cached (ICIMVAU a c) l = cached c l;
  l1_icache_dirty a c l : dirty (ICIMVAU a c) l = dirty c l;
  l1_icache_icached a c l : icached (ICIMVAU a c) l = drop_line (icached c) a l
}.

(** ** The operations *)

Section Operations.

Context {C : Type} `{Caches C}.

(** [for (; s < e; s += L1_CACHE_BYTES) op(s)], on 32-bit addresses. *)
Fixpoint by_line (fuel : nat) (op : Z -> C -> C) (s e : Z) (c : C) : result C :=
  if s <? e then
    match fuel with O => Fault Stuck | S fuel => by_line fuel op (u32 (s + L1_CACHE_BYTES)) e (op s c) end
  else Ok c.

Definition line_fuel (s e : Z) : nat := Z.to_nat ((e - s) / L1_CACHE_BYTES + 1).
Definition lines_do (op : Z -> C -> C) (s e : Z) (c : C) : result C := by_line (line_fuel s e) op s e c.

Definition v7m_coherent_kern_range (start end_ : Z) (c : C) : result C := lines_do (fun s c => ICIMVAU s (DCCMVAC s c)) start end_ c.
Definition v7m_flush_kern_dcache_area (addr size : Z) (c : C) : result C := lines_do DCCIMVAC addr (u32 (addr + size)) c.
Definition v7m_dma_clean_range (start end_ : Z) (c : C) : result C := lines_do DCCMVAC start end_ c.
Definition v7m_dma_flush_range (start end_ : Z) (c : C) : result C := lines_do DCCIMVAC start end_ c.

Definition misaligned (a : Z) : bool := negb ((a .& (L1_CACHE_BYTES - 1)) =? 0).

Definition v7m_dma_inv_range (start end_ : Z) (c : C) : result C :=
  let '(s, c) := if misaligned start then (u32 (start + L1_CACHE_BYTES) .& .~ (L1_CACHE_BYTES - 1), DCCIMVAC start c) else (start, c) in
  let '(e, c) := if misaligned end_ then (u32 (end_ - L1_CACHE_BYTES) .& .~ (L1_CACHE_BYTES - 1), DCCIMVAC end_ c) else (end_, c) in
  lines_do DCIMVAC s e c.

Inductive dma_direction := DMA_BIDIRECTIONAL | DMA_TO_DEVICE | DMA_FROM_DEVICE.

Definition v7m_dma_map_area (start size : Z) (dir : dma_direction) (c : C) : result C :=
  let end_ := u32 (start + size) in
  let* c := match dir with DMA_FROM_DEVICE => v7m_dma_inv_range start end_ c | _ => Ok c end in
  v7m_dma_clean_range start end_ c.

Definition v7m_dma_unmap_area (start size : Z) (dir : dma_direction) (c : C) : result C :=
  match dir with DMA_TO_DEVICE => Ok c | _ => v7m_dma_inv_range start (u32 (start + size)) c end.

(** *** The whole cache, by set and way *)

Definition CCSIDR_NSETS (x : Z) : Z := (x .>> 13) .& 0x7fff.
Definition CCSIDR_ASC (x : Z) : Z := (x .>> 3) .& 0x3ff.
Definition CCSIDR_LSZ (x : Z) : Z := x .& 0x7.

(** [clz]. *)
Definition clz (x : Z) : Z := if x =? 0 then 32 else 31 - Z.log2 x.

(** The operands of DCCISW in order. *)
Definition set_ways (ccsidr : Z) : list Z :=
  let nsets := CCSIDR_NSETS ccsidr in
  let asc := CCSIDR_ASC ccsidr in
  let sshift := CCSIDR_LSZ ccsidr + 4 in
  let wshift := clz asc in
  flat_map (fun set => map (fun way => ((Z.of_nat way .<< wshift) .| (Z.of_nat set .<< sshift)) .| (0 .<< 1)) (seq 0 (Z.to_nat (asc + 1))))
    (seq 0 (Z.to_nat (nsets + 1))).

Definition v7m_flush_kern_cache_all (DCCISW : Z -> C -> C) (ICIALLU BPIALL : C -> C) (ccsidr : Z) (c : C) : C :=
  BPIALL (ICIALLU (fold_left (fun c sw => DCCISW sw c) (set_ways ccsidr) c)).

End Operations.

(** *** The mode of the caches *)

Inductive cache_mode := OFF | WT | WB | WBA.

(** The pairs of mask and value of each mode. *)
Definition mode_table : list (cache_mode * ((Z * Z) * (Z * Z))) :=
  let bits t c b := ((t .<< 19) .| (c .<< 17)) .| (b .<< 16) in
  [(OFF, ((bits 4 1 1, bits 4 0 0), (bits 7 1 1, bits 1 0 0))); (WT, ((bits 4 1 1, bits 4 1 0), (bits 7 1 1, bits 0 1 0)));
   (WB, ((bits 4 1 1, bits 4 1 1), (bits 7 1 1, bits 0 1 1))); (WBA, ((bits 4 1 1, bits 4 0 1), (bits 7 1 1, bits 1 1 1)))].

Definition mode_matches (rasr : Z) (r : (Z * Z) * (Z * Z)) : bool :=
  negb (negb ((rasr .& fst (fst r)) =? snd (fst r)) && negb ((rasr .& fst (snd r)) =? snd (snd r))).

(** The loop over the table: the index of the best match, -1 for none. *)
Fixpoint best_mode (rasr : Z) (k : Z) (t : list (cache_mode * ((Z * Z) * (Z * Z)))) (best : Z) : Z :=
  match t with
  | [] => best
  | (_, r) :: t => best_mode rasr (k + 1) t (if mode_matches rasr r then if best <? k then k else best else best)
  end.

(** The MPU gives [rasr i] for region [i]. *)
Fixpoint best_region (rasr : Z -> Z) (i : Z) (n : nat) (best : Z) : Z :=
  match n with
  | O => best
  | S n => best_region rasr (i + 1) n (if (rasr i .& 1) =? 0 then best else best_mode (rasr i) 0 mode_table best)
  end.

Definition v7m_best_cache (mpu_type : Z) (rasr : Z -> Z) : cache_mode :=
  let regions := (mpu_type .>> 8) .& 0xFF in
  let best := best_region rasr 0 (Z.to_nat regions) (-1) in
  if best <? 0 then OFF else nth (Z.to_nat best) (map fst mode_table) OFF.

Definition v7m_dcache_mode (ccr mpu_type : Z) (rasr : Z -> Z) : cache_mode := if (ccr .& BIT 16) =? 0 then OFF else v7m_best_cache mpu_type rasr.
Definition v7m_icache_mode (ccr mpu_type : Z) (rasr : Z -> Z) : cache_mode := if (ccr .& BIT 17) =? 0 then OFF else v7m_best_cache mpu_type rasr.

(** ** Lines of a range *)

Section Ranges.

Context {C : Type} `{L1 C}.
Implicit Type c : C.

(** The number of turns of a loop over [n] bytes. *)
Definition turns (n : Z) : Z := (n + 31) / 32.

Fixpoint do_lines (n : nat) (op : Z -> C -> C) (s : Z) (c : C) : C :=
  match n with O => c | S n => do_lines n op (s + L1_CACHE_BYTES) (op s c) end.

Lemma lines_do_eq op s e c : 0 <= s -> e <= 2 ^ 32 - 32 -> lines_do op s e c = Ok (do_lines (Z.to_nat (turns (e - s))) op s c).
Proof.
  intros Hs He. unfold lines_do. assert (Hf : turns (e - s) <= Z.of_nat (line_fuel s e)).
  { unfold line_fuel, turns, L1_CACHE_BYTES. zdiv. }
  revert Hf. generalize (line_fuel s e). intros fuel. revert s c Hs. induction fuel as [|fuel IH]; intros s c Hs Hf; cbn [by_line]; destruct (Z.ltb_spec s e) as [Hlt|Hge].
  - exfalso. unfold turns in Hf. zdiv.
  - replace (Z.to_nat (turns (e - s))) with O; [reflexivity|]. unfold turns. zdiv.
  - unfold L1_CACHE_BYTES. rewrite u32_id by (unfold fits; lia). rewrite IH by (unfold turns in *; try lia; zdiv).
    replace (Z.to_nat (turns (e - s))) with (S (Z.to_nat (turns (e - (s + 32))))); [reflexivity|]. unfold turns. zdiv.
  - replace (Z.to_nat (turns (e - s))) with O; [reflexivity|]. unfold turns. zdiv.
Qed.

(** The lines the loop comes to. *)
Definition reached (s : Z) (n : nat) (l : Z) : bool := (line s <=? l) && (l <? line s + Z.of_nat n).

Lemma reached_O s l : reached s 0 l = false.
Proof. unfold reached. zcrush. Qed.

Lemma reached_S s n l : reached s (S n) l = (l =? line s) || reached (s + L1_CACHE_BYTES) n l.
Proof.
  unfold reached. assert (E : line (s + L1_CACHE_BYTES) = line s + 1) by (unfold line, L1_CACHE_BYTES; zdiv). rewrite E.
  destruct (Z.eqb_spec l (line s)); cbn [orb]; zcrush.
Qed.

Lemma reached_next s n : reached (s + L1_CACHE_BYTES) n (line s) = false.
Proof. unfold reached. assert (E : line (s + L1_CACHE_BYTES) = line s + 1) by (unfold line, L1_CACHE_BYTES; zdiv). rewrite E. zcrush. Qed.

Definition written_back c (p : Z -> bool) (x : Z) : Z := if p (line x) && dirty c (line x) then cpu c x else poc c x.

(** Cleaning. *)
Lemma clean_lines n s c : let c' := do_lines n DCCMVAC s c in
  (forall x, cpu c' x = cpu c x) /\ (forall l, cached c' l = cached c l)
  /\ (forall l, dirty c' l = negb (reached s n l) && dirty c l) /\ (forall x, poc c' x = written_back c (reached s n) x).
Proof.
  revert s c. induction n as [|n IH]; intros s c; cbn [do_lines]; cbv zeta.
  - unfold written_back. setoid_rewrite reached_O. now split_and!.
  - destruct (IH (s + L1_CACHE_BYTES) (DCCMVAC s c)) as (E1 & E2 & E3 & E4). split_and!.
    + intros x. now rewrite E1, l1_clean_cpu.
    + intros l. now rewrite E2, l1_clean_cached.
    + intros l. rewrite E3, l1_clean_dirty, reached_S. unfold drop_line. destruct (l =? line s), (reached _ n l), (dirty c l); reflexivity.
    + intros x. rewrite E4. unfold written_back. rewrite l1_clean_cpu, l1_clean_poc, l1_clean_dirty, reached_S. unfold write_back, drop_line.
      destruct (line x =? line s), (reached _ n (line x)), (dirty c (line x)); reflexivity.
Qed.

(** Dropping. *)
Lemma inv_lines n s c : let c' := do_lines n DCIMVAC s c in
  (forall x, poc c' x = poc c x) /\ (forall l, cached c' l = negb (reached s n l) && cached c l)
  /\ (forall l, dirty c' l = negb (reached s n l) && dirty c l) /\ (forall x, cpu c' x = if reached s n (line x) then poc c x else cpu c x).
Proof.
  revert s c. induction n as [|n IH]; intros s c; cbn [do_lines]; cbv zeta.
  - setoid_rewrite reached_O. now split_and!.
  - destruct (IH (s + L1_CACHE_BYTES) (DCIMVAC s c)) as (E1 & E2 & E3 & E4). split_and!.
    + intros x. now rewrite E1, l1_inv_poc.
    + intros l. rewrite E2, l1_inv_cached, reached_S. unfold drop_line. destruct (l =? line s), (reached _ n l), (cached c l); reflexivity.
    + intros l. rewrite E3, l1_inv_dirty, reached_S. unfold drop_line. destruct (l =? line s), (reached _ n l), (dirty c l); reflexivity.
    + intros x. rewrite E4, l1_inv_cpu, l1_inv_poc, reached_S. destruct (line x =? line s), (reached _ n (line x)); reflexivity.
Qed.

(** Both. *)
Lemma flush_lines n s c : let c' := do_lines n DCCIMVAC s c in
  (forall x, poc c' x = written_back c (reached s n) x) /\ (forall l, cached c' l = negb (reached s n l) && cached c l)
  /\ (forall l, dirty c' l = negb (reached s n l) && dirty c l)
  /\ (forall x, cpu c' x = if reached s n (line x) then written_back c (reached s n) x else cpu c x).
Proof.
  revert s c. induction n as [|n IH]; intros s c; cbn [do_lines]; cbv zeta.
  - unfold written_back. setoid_rewrite reached_O. now split_and!.
  - destruct (IH (s + L1_CACHE_BYTES) (DCCIMVAC s c)) as (E1 & E2 & E3 & E4). split_and!.
    + intros x. rewrite E1. unfold written_back. rewrite l1_flush_cpu, l1_flush_poc, l1_flush_dirty, reached_S. unfold write_back, drop_line.
      destruct (line x =? line s), (reached _ n (line x)), (dirty c (line x)); reflexivity.
    + intros l. rewrite E2, l1_flush_cached, reached_S. unfold drop_line. destruct (l =? line s), (reached _ n l), (cached c l); reflexivity.
    + intros l. rewrite E3, l1_flush_dirty, reached_S. unfold drop_line. destruct (l =? line s), (reached _ n l), (dirty c l); reflexivity.
    + intros x. rewrite E4. unfold written_back. rewrite l1_flush_cpu, l1_flush_poc, l1_flush_dirty, reached_S. unfold write_back, drop_line.
      destruct (line x =? line s), (reached _ n (line x)), (dirty c (line x)); reflexivity.
Qed.

(** A loop over a range from the start of a line comes to its lines and no others. *)
Lemma reached_range s e x : 0 <= s -> s mod 32 = 0 -> reached s (Z.to_nat (turns (e - s))) (line x) = (s <=? x) && (x <? 32 * turns e).
Proof. intros Hs Hm. unfold reached, line, turns, L1_CACHE_BYTES. zcrush; zdiv. Qed.

End Ranges.

(** ** What the code makes of it *)

Section Correct.

Context {C : Type} `{L1 C}.
Implicit Type c : C.

(** A line that does not wait to be written back agrees with memory. *)
Definition fresh c (x : Z) : Prop := dirty c (line x) = false -> cpu c x = poc c x.

(** Cleaning a range ends, changes nothing that the processor reads and gives memory the lines the loop comes to, no others.
    They are the lines of the range unless the start is so far into its line that the last turn falls short: then the
    line with the last byte is not written back, and a device reads old data there. *)
Theorem dma_clean_range_lines s e c :
  0 <= s <= e -> e <= 2 ^ 32 - 32 ->
  exists c', v7m_dma_clean_range s e c = Ok c'
    /\ (forall x, cpu c' x = cpu c x) /\ (forall x, line x < line s \/ line e < line x -> poc c' x = poc c x)
    /\ (s mod 32 + (e - s - 1) mod 32 < 32 -> forall x, s <= x < e -> fresh c x -> poc c' x = cpu c x)
    /\ (s < e -> 32 <= s mod 32 + (e - s - 1) mod 32 -> forall x, line x = line (e - 1) -> poc c' x = poc c x).
Proof.
  intros Hs He. unfold v7m_dma_clean_range. rewrite lines_do_eq by lia. eexists. split; [reflexivity|].
  destruct (clean_lines (Z.to_nat (turns (e - s))) s c) as (E1 & _ & _ & E4). set (n := Z.to_nat _) in *.
  assert (Hn : Z.of_nat n = turns (e - s)) by (unfold n, turns; zdiv).
  split_and!; [exact E1| | |]; [intros x Hx|intros Hf x Hx Hfr|intros Hlt Hf x Hx]; rewrite E4; unfold written_back.
  - assert (Er : reached s n (line x) = false); [|now rewrite Er]. unfold reached. rewrite Hn. apply andb_false_iff.
    rewrite Z.leb_gt, Z.ltb_ge. unfold turns, line, L1_CACHE_BYTES in *. zdiv.
  - assert (Er : reached s n (line x) = true).
    { unfold reached. rewrite Hn. apply andb_true_iff. rewrite Z.leb_le, Z.ltb_lt. unfold turns, line, L1_CACHE_BYTES in *. zdiv. }
    rewrite Er. destruct (dirty c (line x)) eqn:Ed; cbn [andb]; [reflexivity|]. symmetry. now apply Hfr.
  - assert (Er : reached s n (line x) = false); [|now rewrite Er]. unfold reached. rewrite Hn, Hx. apply andb_false_iff.
    rewrite Z.leb_gt, Z.ltb_ge. unfold turns, line, L1_CACHE_BYTES in *. zdiv.
Qed.

Lemma misaligned_false a : 0 <= a -> a mod 32 = 0 -> misaligned a = false.
Proof. intros Ha Hm. unfold misaligned, L1_CACHE_BYTES. change (32 - 1) with (Z.ones 5). rewrite Z.land_ones by lia. change (2 ^ 5) with 32. now rewrite Hm. Qed.

Lemma misaligned_true a : 0 <= a -> a mod 32 <> 0 -> misaligned a = true.
Proof.
  intros Ha Hm. unfold misaligned, L1_CACHE_BYTES. change (32 - 1) with (Z.ones 5). rewrite Z.land_ones by lia. change (2 ^ 5) with 32.
  now rewrite (proj2 (Z.eqb_neq _ 0) Hm).
Qed.

Lemma inv_aligned s e c : 0 <= s -> s mod 32 = 0 -> 0 <= e <= 2 ^ 32 - 32 -> e mod 32 = 0 ->
  v7m_dma_inv_range s e c = Ok (do_lines (Z.to_nat (turns (e - s))) DCIMVAC s c).
Proof. intros Hs Hsm He Hem. unfold v7m_dma_inv_range. rewrite !misaligned_false by lia. cbn. apply lines_do_eq; lia. Qed.

(** The range of a buffer made of whole lines. *)
Definition in_range (s size x : Z) : Prop := s <= x < s + size.

Lemma reached_buffer s size x : 0 <= s -> s mod 32 = 0 -> 0 <= size -> size mod 32 = 0 ->
  reached s (Z.to_nat (turns size)) (line x) = bool_decide (in_range s size x).
Proof.
  intros Hs Hm Hsz Hzm. unfold reached, line, turns, L1_CACHE_BYTES, in_range. case_bool_decide; [apply andb_true_iff|apply andb_false_iff];
    rewrite ?Z.leb_le, ?Z.ltb_lt, ?Z.leb_gt, ?Z.ltb_ge; zdiv.
Qed.

(** C23: A buffer of whole lines that a device fills: mapping it leaves nothing of it in the cache that could be written over what
    the device writes; whatever the device has written and the processor has read ahead in the meantime, after unmapping
    the processor reads what is in memory, and nothing else has changed. *)
Theorem dma_from_device s size c :
  0 <= s -> s mod 32 = 0 -> 0 <= size -> size mod 32 = 0 -> s + size <= 2 ^ 32 - 32 ->
  exists c1, v7m_dma_map_area s size DMA_FROM_DEVICE c = Ok c1
    /\ (forall x, in_range s size x -> cached c1 (line x) = false /\ dirty c1 (line x) = false)
    /\ (forall x, ~ in_range s size x -> cpu c1 x = cpu c x /\ poc c1 x = poc c x)
    /\ forall c2, (forall x, in_range s size x -> dirty c2 (line x) = false) ->
       exists c3, v7m_dma_unmap_area s size DMA_FROM_DEVICE c2 = Ok c3
         /\ (forall x, in_range s size x -> cpu c3 x = poc c2 x) /\ (forall x, poc c3 x = poc c2 x)
         /\ (forall x, ~ in_range s size x -> cpu c3 x = cpu c2 x).
Proof.
  intros Hs Hm Hsz Hzm Hb. assert (Eu : u32 (s + size) = s + size) by (apply u32_id; unfold fits; lia).
  assert (Einv : forall c, v7m_dma_inv_range s (s + size) c = Ok (do_lines (Z.to_nat (turns size)) DCIMVAC s c)).
  { intros c0. rewrite inv_aligned by (try lia; zdiv). repeat f_equal. lia. }
  set (n := Z.to_nat (turns size)) in *. assert (Hr : forall x, reached s n (line x) = bool_decide (in_range s size x)) by (intros x; now apply reached_buffer).
  destruct (inv_lines n s c) as (I1 & I2 & I3 & I4). set (ci := do_lines n DCIMVAC s c) in *.
  destruct (clean_lines n s ci) as (E1 & E2 & E3 & E4). exists (do_lines n DCCMVAC s ci). split_and!.
  - unfold v7m_dma_map_area. rewrite Eu, Einv. cbn [rbind]. fold ci. unfold v7m_dma_clean_range. rewrite lines_do_eq by lia.
    unfold n. repeat f_equal. lia.
  - intros x Hx. rewrite E2, E3, I2, I3, Hr, bool_decide_eq_true_2 by exact Hx. auto.
  - intros x Hx. rewrite E1, E4. unfold written_back. rewrite I1, I4, Hr, bool_decide_eq_false_2 by exact Hx. auto.
  - intros c2 Hd. destruct (inv_lines n s c2) as (J1 & J2 & J3 & J4). exists (do_lines n DCIMVAC s c2). unfold v7m_dma_unmap_area. rewrite Eu, Einv.
    split_and!; [reflexivity| |exact J1|].
    + intros x Hx. now rewrite J4, Hr, bool_decide_eq_true_2 by exact Hx.
    + intros x Hx. now rewrite J4, Hr, bool_decide_eq_false_2 by exact Hx.
Qed.

(** When a buffer ends inside a line, the line before that one, with the last whole line of the buffer, is not invalidated: the
    processor goes on reading what it had cached. *)
Theorem dma_inv_range_skips_line s e c :
  0 <= s -> s mod 32 = 0 -> e <= 2 ^ 32 - 32 -> e mod 32 <> 0 -> line s < line e ->
  exists c', v7m_dma_inv_range s e c = Ok c'
    /\ forall x, line x = line e - 1 -> s <= x < e /\ cached c' (line x) = cached c (line x) /\ cpu c' x = cpu c x.
Proof.
  intros Hs Hm He Hem Hl. unfold v7m_dma_inv_range. unfold line, L1_CACHE_BYTES in Hl. rewrite misaligned_false, misaligned_true by (try lia; zdiv).
  assert (Ee : u32 (e - L1_CACHE_BYTES) .& .~ (L1_CACHE_BYTES - 1) = 32 * (e / 32 - 1)).
  { unfold L1_CACHE_BYTES. rewrite u32_id by (unfold fits; zdiv). change (32 - 1) with (Z.ones 5).
    assert (E : (e - 32) .& .~ Z.ones 5 = Z.ldiff (e - 32) (Z.ones 5)).
    { apply Z.bits_inj'. intros i Hi. rewrite Z.land_spec, Z.ldiff_spec, testbit_not32.
      destruct (Z.ltb_spec i 32); [rewrite (proj2 (Z.leb_le 0 i)) by lia; now rewrite xorb_true_r|].
      now rewrite (fits_testbit_high 32 (e - 32) i) by (unfold fits; zdiv). }
    rewrite E, Z.ldiff_ones_r, Z.shiftl_mul_pow2, Z.shiftr_div_pow2 by lia. change (2 ^ 5) with 32. zdiv. }
  rewrite Ee. set (c0 := DCCIMVAC e c). rewrite lines_do_eq by zdiv. eexists. split; [reflexivity|]. intros x Hx.
  set (n := Z.to_nat _). destruct (inv_lines n s c0) as (I1 & I2 & I3 & I4).
  assert (Hr : reached s n (line x) = false).
  { unfold reached. rewrite Hx. apply andb_false_iff. right. apply Z.ltb_ge. unfold n, turns, line, L1_CACHE_BYTES. zdiv. }
  assert (Hne : (line x =? line e) = false) by (apply Z.eqb_neq; lia).
  split; [unfold line, L1_CACHE_BYTES in Hx; zdiv|]. rewrite I2, I4, Hr. unfold c0. rewrite l1_flush_cached, l1_flush_cpu. unfold drop_line. now rewrite Hne.
Qed.

End Correct.

(** ** Code that was written as data *)

Section Coherent.

Context {C : Type} `{L1 C}.
Implicit Type c : C.

Lemma coherent_lines n s c : let c' := do_lines n (fun s c => ICIMVAU s (DCCMVAC s c)) s c in
  (forall x, cpu c' x = cpu c x) /\ (forall l, dirty c' l = negb (reached s n l) && dirty c l)
  /\ (forall x, poc c' x = written_back c (reached s n) x) /\ (forall l, icached c' l = negb (reached s n l) && icached c l).
Proof.
  revert s c. induction n as [|n IH]; intros s c; cbn [do_lines]; cbv zeta.
  - unfold written_back. setoid_rewrite reached_O. now split_and!.
  - destruct (IH (s + L1_CACHE_BYTES) (ICIMVAU s (DCCMVAC s c))) as (E1 & E3 & E4 & E5). split_and!.
    + intros x. now rewrite E1, l1_icache_cpu, l1_clean_cpu.
    + intros l. rewrite E3, l1_icache_dirty, l1_clean_dirty, reached_S. unfold drop_line. destruct (l =? line s), (reached _ n l), (dirty c l); reflexivity.
    + intros x. rewrite E4. unfold written_back. rewrite l1_icache_cpu, l1_icache_poc, l1_icache_dirty, l1_clean_cpu, l1_clean_poc, l1_clean_dirty, reached_S.
      unfold write_back, drop_line. destruct (line x =? line s), (reached _ n (line x)), (dirty c (line x)); reflexivity.
    + intros l. rewrite E5, l1_icache_icached. unfold drop_line. rewrite l1_clean_icached, reached_S. destruct (l =? line s), (reached _ n l), (icached c l); reflexivity.
Qed.

(** From the start of a line: instructions are fetched from memory, and memory has what was written. *)
Lemma coherent_kern_range s e c : 0 <= s -> s mod 32 = 0 -> e <= 2 ^ 32 - 32 ->
  exists c', v7m_coherent_kern_range s e c = Ok c' /\ (forall x, cpu c' x = cpu c x)
    /\ forall x, s <= x < e -> icached c' (line x) = false /\ (fresh c x -> poc c' x = cpu c x).
Proof.
  intros Hs Hm He. unfold v7m_coherent_kern_range. rewrite lines_do_eq by lia. eexists. split; [reflexivity|].
  destruct (coherent_lines (Z.to_nat (turns (e - s))) s c) as (E1 & _ & E4 & E5). split; [exact E1|]. intros x Hx.
  assert (Er : reached s (Z.to_nat (turns (e - s))) (line x) = true).
  { unfold reached. apply andb_true_iff. rewrite Z.leb_le, Z.ltb_lt. unfold turns, line, L1_CACHE_BYTES in *. zdiv. }
  rewrite E5, E4. unfold written_back. rewrite Er. split; [reflexivity|]. intros Hf. destruct (dirty c (line x)) eqn:Ed; cbn [andb]; [reflexivity|].
  symmetry. now apply Hf.
Qed.

End Coherent.

(** ** Sets and ways *)

Definition set_way (ccsidr set way : Z) : Z := way * 2 ^ clz (CCSIDR_ASC ccsidr) + set * 2 ^ (CCSIDR_LSZ ccsidr + 4).

(** The geometry is one that the operands of 32 bits can name. *)
Definition geometry_ok (ccsidr : Z) : Prop :=
  (CCSIDR_NSETS ccsidr + 1) * 2 ^ (CCSIDR_LSZ ccsidr + 4) <= 2 ^ clz (CCSIDR_ASC ccsidr) /\ (CCSIDR_ASC ccsidr + 1) * 2 ^ clz (CCSIDR_ASC ccsidr) <= 2 ^ 32.

Lemma lor_add a b w : 0 <= w -> 0 <= b < 2 ^ w -> (a * 2 ^ w) .| b = a * 2 ^ w + b.
Proof.
  intros Hw Hb. rewrite <- Z.shiftl_mul_pow2 by exact Hw. assert (El : Z.land (Z.shiftl a w) b = 0).
  { apply Z.bits_inj'. intros i Hi. rewrite Z.land_spec, Z.bits_0, Z.shiftl_spec by exact Hi. destruct (Z.ltb_spec i w).
    - now rewrite Z.testbit_neg_r by lia.
    - rewrite (fits_testbit_high w b i) by (unfold fits; lia). apply andb_false_r. }
  rewrite Z.add_nocarry_lxor by exact El. now rewrite Z.lxor_lor by exact El.
Qed.

Lemma ccsidr_fields x : 0 <= CCSIDR_NSETS x /\ 0 <= CCSIDR_ASC x /\ 0 <= CCSIDR_LSZ x /\ 0 <= clz (CCSIDR_ASC x).
Proof.
  assert (Ha : 0 <= CCSIDR_ASC x < 1024).
  { unfold CCSIDR_ASC. change 0x3ff with (Z.ones 10). rewrite Z.land_ones by lia. apply Z.mod_pos_bound. lia. }
  unfold CCSIDR_NSETS, CCSIDR_LSZ. change 0x7fff with (Z.ones 15). change 0x7 with (Z.ones 3). rewrite !Z.land_ones by lia.
  split_and!; [apply Z.mod_pos_bound; lia|lia|apply Z.mod_pos_bound; lia|].
  unfold clz. destruct (Z.eqb_spec (CCSIDR_ASC x) 0); [lia|]. assert (Z.log2 (CCSIDR_ASC x) < 10) by (apply Z.log2_lt_pow2; lia). lia.
Qed.

Lemma set_way_eq ccsidr set way : geometry_ok ccsidr -> 0 <= set <= CCSIDR_NSETS ccsidr -> 0 <= way <= CCSIDR_ASC ccsidr ->
  ((way .<< clz (CCSIDR_ASC ccsidr)) .| (set .<< (CCSIDR_LSZ ccsidr + 4))) .| (0 .<< 1) = set_way ccsidr set way.
Proof.
  intros [G1 G2] Hs Hw. destruct (ccsidr_fields ccsidr) as (_ & _ & Hl & Hc). unfold set_way. change (0 .<< 1) with 0. rewrite Z.lor_0_r. unfold shl32.
  assert (0 < 2 ^ clz (CCSIDR_ASC ccsidr)) by (apply Z.pow_pos_nonneg; lia). assert (0 < 2 ^ (CCSIDR_LSZ ccsidr + 4)) by (apply Z.pow_pos_nonneg; lia).
  rewrite !Z.shiftl_mul_pow2 by lia. rewrite !u32_id by (unfold fits; nia). apply lor_add; [lia|nia].
Qed.

Lemma set_ways_prod ccsidr : set_ways ccsidr =
  map (fun p => ((Z.of_nat (snd p) .<< clz (CCSIDR_ASC ccsidr)) .| (Z.of_nat (fst p) .<< (CCSIDR_LSZ ccsidr + 4))) .| (0 .<< 1))
    (list_prod (seq 0 (Z.to_nat (CCSIDR_NSETS ccsidr + 1))) (seq 0 (Z.to_nat (CCSIDR_ASC ccsidr + 1)))).
Proof.
  unfold set_ways. cbv zeta. induction (seq 0 (Z.to_nat (CCSIDR_NSETS ccsidr + 1))) as [|set sets IH]; [reflexivity|]. cbn [flat_map list_prod].
  now rewrite map_app, map_map, IH.
Qed.

Lemma prod_NoDup {A B} (l : list A) (l' : list B) : List.NoDup l -> List.NoDup l' -> List.NoDup (list_prod l l').
Proof.
  intros Hl Hl'. induction Hl as [|x l Hx Hl IH]; cbn [list_prod]; [constructor|]. apply List.NoDup_app; [|exact IH|].
  - apply Finite.Injective_map_NoDup; [|exact Hl']. now intros y z [= ->].
  - intros [a b] H1 H2. apply in_map_iff in H1 as (y & [= <- <-] & _). apply in_prod_iff in H2 as [H2 _]. contradiction.
Qed.

(** Flushing everything names every set and way once. *)
Lemma set_ways_once ccsidr : geometry_ok ccsidr ->
  List.NoDup (set_ways ccsidr)
  /\ forall set way, 0 <= set <= CCSIDR_NSETS ccsidr -> 0 <= way <= CCSIDR_ASC ccsidr -> In (set_way ccsidr set way) (set_ways ccsidr).
Proof.
  intros G. destruct (ccsidr_fields ccsidr) as (Hn & Ha & Hl & Hc). rewrite set_ways_prod. split.
  - apply Finite.Injective_map_NoDup_in; [|apply prod_NoDup; apply List.seq_NoDup].
    intros [s1 w1] [s2 w2] H1 H2. apply in_prod_iff in H1 as [H1a H1b], H2 as [H2a H2b]. apply in_seq in H1a, H1b, H2a, H2b. cbn [fst snd].
    rewrite !set_way_eq by (try exact G; lia). unfold set_way. intros E. destruct G as [G1 G2].
    assert (0 < 2 ^ (CCSIDR_LSZ ccsidr + 4)) by (apply Z.pow_pos_nonneg; lia).
    assert (Hb : forall k, (k < Z.to_nat (CCSIDR_NSETS ccsidr + 1))%nat -> 0 <= Z.of_nat k * 2 ^ (CCSIDR_LSZ ccsidr + 4) < 2 ^ clz (CCSIDR_ASC ccsidr)) by (intros k Hk; nia).
    pose proof (Hb s1 ltac:(lia)). pose proof (Hb s2 ltac:(lia)).
    set (b1 := Z.of_nat s1 * _) in *. set (b2 := Z.of_nat s2 * _) in *. set (P := 2 ^ clz _) in *.
    assert (Ew : Z.of_nat w1 = Z.of_nat w2 /\ b1 = b2) by (apply (Z.div_mod_unique P); [left; assumption|left; assumption|lia]). unfold b1, b2 in Ew. destruct Ew as [Ew Es]. apply Z.mul_cancel_r in Es; [|lia]. f_equal; lia.
  - intros set way Hs Hw. apply in_map_iff. exists (Z.to_nat set, Z.to_nat way). cbn [fst snd]. rewrite !Z2Nat.id by lia.
    split; [now apply set_way_eq|]. apply in_prod; apply in_seq; lia.
Qed.

(** ** The mode of the caches *)

(** The policy of a region by the TEX, C and B bits of the MPU: with TEX[2] the inner policy is C and B, otherwise TEX selects. *)
Definition region_mode (rasr : Z) : option cache_mode :=
  match Z.testbit rasr 21, Z.testbit rasr 20, Z.testbit rasr 19, Z.testbit rasr 17, Z.testbit rasr 16 with
  | true, _, _, false, false => Some OFF
  | true, _, _, true, false => Some WT
  | true, _, _, true, true => Some WB
  | true, _, _, false, true => Some WBA
  | false, false, true, false, false => Some OFF
  | false, false, false, true, false => Some WT
  | false, false, false, true, true => Some WB
  | false, false, true, true, true => Some WBA
  | _, _, _, _, _ => None
  end.

Definition mode_rank (m : cache_mode) : Z := match m with OFF => 0 | WT => 1 | WB => 2 | WBA => 3 end.

Lemma mode_bits rasr : rasr .& 0x3b0000 =
  (Z.b2z (Z.testbit rasr 16) * 2 ^ 16 + Z.b2z (Z.testbit rasr 17) * 2 ^ 17 + Z.b2z (Z.testbit rasr 19) * 2 ^ 19
   + Z.b2z (Z.testbit rasr 20) * 2 ^ 20 + Z.b2z (Z.testbit rasr 21) * 2 ^ 21).
Proof.
  set (v := _ + _). assert (Hv : v = Z.land rasr 0x3b0000); [|now rewrite Hv].
  apply Z.bits_inj'. intros i Hi. rewrite Z.land_spec. unfold v. destruct (Z.ltb_spec i 22) as [Hl|Hl].
  - assert (Hc : In i (map Z.of_nat (seq 0 22))) by (apply in_map_iff; exists (Z.to_nat i); split; [lia|apply in_seq; lia]).
    cbn in Hc. repeat destruct Hc as [<-|Hc]; try destruct Hc;
      match goal with |- context [Z.of_nat ?n] => let z := eval vm_compute in (Z.of_nat n) in change (Z.of_nat n) with z end;
      match goal with |- context [Z.testbit 0x3b0000 ?k] => let b := eval vm_compute in (Z.testbit 0x3b0000 k) in change (Z.testbit 0x3b0000 k) with b end;
      rewrite ?andb_false_r, ?andb_true_r;
      destruct (Z.testbit rasr 16), (Z.testbit rasr 17), (Z.testbit rasr 19), (Z.testbit rasr 20), (Z.testbit rasr 21); reflexivity.
  - rewrite (fits_testbit_high 22 0x3b0000 i) by (unfold fits; lia). rewrite andb_false_r. apply (fits_testbit_high 22); [lia| |exact Hl]. unfold fits.
    destruct (Z.testbit rasr 16), (Z.testbit rasr 17), (Z.testbit rasr 19), (Z.testbit rasr 20), (Z.testbit rasr 21); cbn; lia.
Qed.

(** The table finds the policy; the best one so far is kept. *)
Lemma best_mode_spec rasr best : -1 <= best ->
  best_mode rasr 0 mode_table best = match region_mode rasr with Some m => Z.max best (mode_rank m) | None => best end.
Proof.
  intros Hb. assert (Hm : forall r, mode_matches rasr r = negb (negb (((rasr .& 0x3b0000) .& fst (fst r)) =? snd (fst r)) && negb (((rasr .& 0x3b0000) .& fst (snd r)) =? snd (snd r)))
    \/ ~ In r (map snd mode_table)).
  { intros r. destruct (in_dec (fun x y : (Z * Z) * (Z * Z) => ltac:(repeat decide equality)) r (map snd mode_table)) as [Hin|Hin]; [left|now right].
    unfold mode_matches. rewrite <- !Z.land_assoc. cbn [mode_table map snd] in Hin. repeat destruct Hin as [<-|Hin]; try destruct Hin; reflexivity. }
  assert (Hk : forall r, In r (map snd mode_table) -> mode_matches rasr r =
    negb (negb (((rasr .& 0x3b0000) .& fst (fst r)) =? snd (fst r)) && negb (((rasr .& 0x3b0000) .& fst (snd r)) =? snd (snd r)))).
  { intros r Hr. destruct (Hm r); [assumption|contradiction]. }
  rewrite mode_bits in Hk. unfold mode_table in *. cbv zeta in *. cbn [best_mode map snd] in *.
  rewrite !Hk by (cbn; tauto). clear Hk Hm. unfold region_mode.
  destruct (Z.testbit rasr 16), (Z.testbit rasr 17), (Z.testbit rasr 19), (Z.testbit rasr 20), (Z.testbit rasr 21);
    repeat match goal with |- context [if negb ?b then _ else _] => let v := eval vm_compute in (negb b) in change (negb b) with v; cbv iota end;
    unfold mode_rank; try reflexivity; match goal with |- context [?a <? ?b] => destruct (Z.ltb_spec a b) end; lia.
Qed.

(** ** A write-back cache *)

(** Memory and the lines in the cache, each with whether it waits to be written back; bytes are taken modulo 256. *)
Record wb_cache := { wb_mem : Z -> Z; wb_lines : Z -> option (bool * (Z -> Z)); wb_icache : Z -> bool }.

Definition wb_write_line (c : wb_cache) (a x : Z) : Z :=
  if line x =? line a then match wb_lines c (line x) with Some (true, d) => d x | _ => wb_mem c x end else wb_mem c x.
Definition wb_without (c : wb_cache) (a l : Z) : option (bool * (Z -> Z)) := if l =? line a then None else wb_lines c l.

#[export] Instance wb_caches : Caches wb_cache := {
  cpu c x := match wb_lines c (line x) with Some (_, d) => d x mod 256 | None => wb_mem c x mod 256 end;
  poc c x := wb_mem c x mod 256;
  cached c l := match wb_lines c l with Some _ => true | None => false end;
  dirty c l := match wb_lines c l with Some (d, _) => d | None => false end;
  icached c l := wb_icache c l;
  DCIMVAC a c := {| wb_mem := wb_mem c; wb_lines := wb_without c a; wb_icache := wb_icache c |};
  DCCMVAC a c := {| wb_mem := wb_write_line c a;
    wb_lines := fun l => if l =? line a then match wb_lines c l with Some (_, d) => Some (false, d) | None => None end else wb_lines c l;
    wb_icache := wb_icache c |};
  DCCIMVAC a c := {| wb_mem := wb_write_line c a; wb_lines := wb_without c a; wb_icache := wb_icache c |};
  ICIMVAU a c := {| wb_mem := wb_mem c; wb_lines := wb_lines c; wb_icache := drop_line (wb_icache c) a |}
}.

#[export] Instance wb_l1 : L1 wb_cache.
Proof.
  split; intros; unfold write_back, drop_line in *; cbn in *; unfold wb_write_line, wb_without, drop_line in *;
    repeat match goal with
    | |- context [?a =? ?b] => destruct (Z.eqb_spec a b)
    | |- context [match wb_lines ?c ?l with _ => _ end] => destruct (wb_lines c l) as [[[] ?]|] eqn:?
    | Hc : context [match wb_lines ?c ?l with _ => _ end] |- _ => destruct (wb_lines c l) as [[[] ?]|] eqn:?
    end; try congruence; reflexivity.
Qed.

(** The lines of address 0 to 63 written by the processor. *)
Definition wb_example : wb_cache :=
  {| wb_mem := fun _ => 0; wb_lines := fun l => if (0 <=? l) && (l <? 2) then Some (true, fun _ => 1) else None; wb_icache := fun _ => false |}.

(** At a buffer from 16 to 48. *)
Lemma dma_clean_range_lines_witness :
  (0 <= 16 <= 48) /\ exists c', v7m_dma_clean_range 16 48 wb_example = Ok c' /\ poc c' 16 = 1 /\ poc c' 47 = 0.
Proof.
  split; [lia|]. destruct (dma_clean_range_lines 16 48 wb_example) as (c' & E & _ & _ & _ & Hl); [lia|lia|].
  exists c'. split; [exact E|]. split; [injection E as <-; reflexivity|]. apply (Hl ltac:(lia) ltac:(vm_compute; congruence) 47). reflexivity.
Defined.

(** At the same lines. *)
Lemma dma_from_device_witness :
  exists c1, v7m_dma_map_area 0 64 DMA_FROM_DEVICE wb_example = Ok c1 /\ cached c1 0 = false /\ cached c1 1 = false.
Proof.
  destruct (dma_from_device 0 64 wb_example) as (c1 & E & Hc & _); try reflexivity; try lia. exists c1. split; [exact E|].
  split; [apply (Hc 0)|apply (Hc 32)]; unfold in_range; lia.
Defined.

(** At a buffer from 0 to 40: the first line stays. *)
Lemma dma_inv_range_skips_line_witness : exists c', v7m_dma_inv_range 0 40 wb_example = Ok c' /\ cached c' 0 = true /\ cpu c' 0 = 1.
Proof.
  destruct (dma_inv_range_skips_line 0 40 wb_example) as (c' & E & Hl); try reflexivity; try lia; [discriminate|].
  exists c'. split; [exact E|]. destruct (Hl 0 eq_refl) as (_ & E1 & E2). now rewrite E2.
Defined.
