(* ===== verification/Fb.v ===== *)
(** * Drawing into a frame buffer ([drivers/video/cfbfillrect.c], [cfbcopyarea.c], [cfbimgblt.c])

    The generic routines that the LCD driver and the console on it draw with, in the
    committed configuration: 32-bit words, little endian, pixels in the order of the
    bits.  Reversed pixels ([fb_rev_pixels_in_long], [bswapmask]) are not configured and
    left out.  Memory is an interface of words; an access outside of the frame buffer is
    a [BadIndex] fault. *)

From S2P Require Import Prelude.

(** ** Memory *)

(** Words by address divided by four. *)
Class Vram (M : Type) := { vread : Z -> M -> Z; vwrite : Z -> Z -> M -> M }.

Record fb_info := {
  bits_per_pixel : Z; line_length : Z; smem_start : Z; smem_len : Z; screen_base : Z; pseudo_palette : list Z;
  fb_running : bool; fb_truecolor : bool
}.

Record fb_fillrect := { fr_dx : Z; fr_dy : Z; fr_width : Z; fr_height : Z; fr_color : Z; fr_rop : Z }.
Record fb_copyarea := { ca_dx : Z; ca_dy : Z; ca_width : Z; ca_height : Z; ca_sx : Z; ca_sy : Z }.
Record fb_image := { im_dx : Z; im_dy : Z; im_width : Z; im_height : Z; im_fg : Z; im_bg : Z; im_depth : Z; im_data : list Z }.

Definition ROP_COPY : Z := 0.
Definition ROP_XOR : Z := 1.

(** ** [fb_draw.h] *)

Definition comp (a b mask : Z) : Z := Z.lxor (Z.lxor a b .& mask) b.

Definition pixel_to_pat (bpp pixel : Z) : result Z :=
  let times k := Ok (u32 (k * pixel)) in
  if bpp =? 1 then times 0xffffffff
  else if bpp =? 2 then times 0x55555555
  else if bpp =? 4 then times 0x11111111
  else if bpp =? 8 then times 0x01010101
  else if bpp =? 12 then times 0x01001001
  else if bpp =? 16 then times 0x00010001
  else if bpp =? 24 then times 0x01000001
  else if bpp =? 32 then times 0x00000001
  else Fault Bug.

Definition FB_SHIFT_HIGH (val bits : Z) : Z := val .<< bits.
Definition FB_SHIFT_LOW (val bits : Z) : Z := val .>> bits.
Definition shifted_mask (i : Z) : Z := FB_SHIFT_HIGH u32_max i.

Definition rolx (word shift x : Z) : Z := (word .<< shift) .| (word .>> (x - shift)).

Definition palette (p : fb_info) (i : Z) : result Z :=
  match nth_error (pseudo_palette p) (Z.to_nat i) with Some c => Ok c | None => Fault BadIndex end.

(** The value of a colour in the frame buffer. *)
Definition color_of (p : fb_info) (i : Z) : result Z := if fb_truecolor p then palette p i else Ok i.

Section Draw.

Context {M : Type} `{Vram M}.
Variable p : fb_info.
Implicit Type m : M.

Definition mapped (a : Z) : bool := (smem_start p <=? 4 * a) && (4 * a + 4 <=? smem_start p + smem_len p).

Definition fb_readl (a : Z) m : result Z := if mapped a then Ok (vread a m) else Fault BadIndex.
Definition fb_writel (v a : Z) m : result M := if mapped a then Ok (vwrite a v m) else Fault BadIndex.

(** [FB_WRITEL(comp(v, FB_READL(dst), mask), dst)] and the same with [dat ^ v]. *)
Definition put_masked (v mask dst : Z) m : result M := let* d := fb_readl dst m in fb_writel (comp v d mask) dst m.
Definition xor_masked (v mask dst : Z) m : result M := let* d := fb_readl dst m in fb_writel (comp (Z.lxor d v) d mask) dst m.
Definition xor_word (v dst : Z) m : result M := let* d := fb_readl dst m in fb_writel (Z.lxor d v) dst m.

(** *** Filling *)

(** [n] words from [dst], each by [put], which turns the pattern on. *)
Fixpoint run_words (put : Z -> Z -> M -> result M) (turn : Z -> Z) (n : nat) (pat dst : Z) m : result (Z * Z * M) :=
  match n with
  | O => Ok (pat, dst, m)
  | S n => let* m := put pat dst m in run_words put turn n (turn pat) (dst + 1) m
  end.

(** [while (n >= k) \{ ... n -= k; \} while (n--)], the first loop unrolled [k] times. *)
Fixpoint main_chunk (put : Z -> Z -> M -> result M) (turn : Z -> Z) (k : nat) (fuel : nat) (n pat dst : Z) m : result (Z * Z * M) :=
  match fuel with
  | O => Fault Stuck
  | S fuel =>
      if Z.of_nat k <=? n then
        let* (x, m) := run_words put turn k pat dst m in let (pat, dst) := (x : Z * Z) in main_chunk put turn k fuel (n - Z.of_nat k) pat dst m
      else run_words put turn (Z.to_nat n) pat dst m
  end.

(** The four fills share their form: how a word is written, how a masked one, when the first word is left to the main
    chunk, how the pattern turns and the unrolling. *)
Definition bitfill (masked : Z -> Z -> Z -> M -> result M) (put : Z -> Z -> M -> result M) (leading : Z -> bool) (turn : Z -> Z) (unroll : nat)
    (dst dst_idx pat n : Z) m : result M :=
  if n =? 0 then Ok m
  else
    let first := shifted_mask dst_idx in
    let last := .~ shifted_mask (u32 (dst_idx + n) mod 32) in
    if u32 (dst_idx + n) <=? 32 then masked pat (if last =? 0 then first else first .& last) dst m
    else
      let* (x, m) := if leading first then let* m := masked pat first dst m in Ok (dst + 1, turn pat, u32 (n - (32 - dst_idx)), m) else Ok (dst, pat, n, m) in
      let '(dst, pat, n) := (x : Z * Z * Z) in
      let n := n / 32 in
      let* (x, m) := main_chunk put turn unroll (Z.to_nat n + 1) n pat dst m in
      let (pat, dst) := (x : Z * Z) in
      if last =? 0 then Ok m else masked pat last dst m.

Definition turned (left right pat : Z) : Z := (pat .<< left) .| (pat .>> right).

Definition bitfill_aligned : Z -> Z -> Z -> Z -> M -> result M := bitfill put_masked fb_writel (fun first => negb (first =? u32_max)) id 8.
Definition bitfill_aligned_rev : Z -> Z -> Z -> Z -> M -> result M := bitfill xor_masked xor_word (fun first => negb (first =? 0)) id 8.
Definition bitfill_unaligned (left right : Z) : Z -> Z -> Z -> Z -> M -> result M :=
  bitfill put_masked fb_writel (fun first => negb (first =? 0)) (turned left right) 4.
Definition bitfill_unaligned_rev (left right : Z) : Z -> Z -> Z -> Z -> M -> result M :=
  bitfill xor_masked xor_word (fun first => negb (first =? 0)) (turned left right) 4.

(** The rows of a rectangle: the position is split into a word and a bit. *)
Fixpoint fill_rows (words : Z -> Z) (fill : Z -> Z -> M -> result M) (height : nat) (dst dst_idx : Z) m : result M :=
  match height with
  | O => Ok m
  | S height =>
      let dst := dst + words dst_idx in
      let dst_idx := dst_idx .& 31 in
      let* m := fill dst dst_idx m in
      fill_rows words fill height dst (s32 (dst_idx + line_length p * 8)) m
  end.

(** [screen_base] as a word and a bit, and the bit of a pixel. *)
Definition base_word : Z := screen_base p / 4.
Definition base_idx : Z := (screen_base p .& 3) * 8.
Definition pixel_idx (dx dy : Z) : Z := u32 (u32 (u32 (dy * line_length p) * 8) + u32 (dx * bits_per_pixel p)).

(** [fb_sync] of the driver. *)
Variable fb_sync : M -> result M.

Definition cfb_fillrect (rect : fb_fillrect) m : result M :=
  if negb (fb_running p) then Ok m
  else
    let bpp := bits_per_pixel p in
    let* fg := color_of p (fr_color rect) in
    let* pat := pixel_to_pat bpp fg in
    let dst := base_word in
    let dst_idx := s32 (base_idx + pixel_idx (fr_dx rect) (fr_dy rect)) in
    let n := u32 (fr_width rect * bpp) in
    let left := 32 mod bpp in
    let* m := fb_sync m in
    if left =? 0 then
      let fill := if fr_rop rect =? ROP_XOR then bitfill_aligned_rev else bitfill_aligned in
      fill_rows (fun i => i .>> 5) (fun dst dst_idx m => fill dst dst_idx pat n m) (Z.to_nat (fr_height rect)) dst dst_idx m
    else
      let right := left in
      let left := bpp - right in
      let fill := if fr_rop rect =? ROP_XOR then bitfill_unaligned_rev left right else bitfill_unaligned left right in
      fill_rows (fun i => Z.quot i 32) (fun dst dst_idx m => fill dst dst_idx (rolx pat (dst_idx mod bpp) bpp) n m) (Z.to_nat (fr_height rect)) dst dst_idx m.

(** *** Images *)

(** The pixels of a row: [val] collects the bits of the word at [dst] below [shift]. *)
Fixpoint put_pixels (colors : list Z) (dst shift val : Z) m : result (Z * Z * Z * M) :=
  match colors with
  | [] => Ok (dst, shift, val, m)
  | color :: colors =>
      let null_bits := 32 - bits_per_pixel p in
      let val := val .| FB_SHIFT_HIGH color shift in
      let next := (shift + bits_per_pixel p) .& 31 in
      if null_bits <=? shift then
        let* m := fb_writel val dst m in
        put_pixels colors (dst + 1) next (if shift =? null_bits then 0 else FB_SHIFT_LOW color (32 - shift)) m
      else put_pixels colors dst next val m
  end.

Definition blit_row (colors : list Z) (dst start_index : Z) m : result M :=
  let* val := if start_index =? 0 then Ok 0 else let* d := fb_readl dst m in Ok (d .& .~ shifted_mask start_index) in
  let* (x, m) := put_pixels colors dst start_index val m in
  let '(dst, shift, val) := (x : Z * Z * Z) in
  if shift =? 0 then Ok m else let* d := fb_readl dst m in fb_writel ((d .& shifted_mask shift) .| val) dst m.

(** The rows, [dst1] and [dst2] being addresses of bytes; a word that is not aligned is a fault. *)
Fixpoint blit_rows (rows : list (list Z)) (dst1 dst2 start_index pitch_index : Z) m : result M :=
  match rows with
  | [] => Ok m
  | row :: rows =>
      if negb (dst1 mod 4 =? 0) then Fault BadIndex
      else
        let* m := blit_row row (dst1 / 4) start_index m in
        if pitch_index =? 0 then blit_rows rows (u32 (dst1 + line_length p)) dst2 start_index pitch_index m
        else
          let dst2 := u32 (dst2 + line_length p) in
          blit_rows rows (dst2 .& .~ 3) dst2 ((start_index + pitch_index) .& 31) pitch_index m
  end.

Definition image_byte (image : fb_image) (i : Z) : result Z :=
  match nth_error (im_data image) (Z.to_nat i) with Some b => Ok b | None => Fault BadIndex end.

(** [n] pixels of a monochrome row from pixel [j]; the row starts at byte [src]. *)
Fixpoint mono_row (image : fb_image) (fgcolor bgcolor : Z) (n : nat) (src j : Z) : result (list Z) :=
  match n with
  | O => Ok []
  | S n =>
      let* b := image_byte image (src + j / 8) in
      let* l := mono_row image fgcolor bgcolor n src (j + 1) in
      Ok ((if Z.testbit b (7 - j mod 8) then fgcolor else bgcolor) :: l)
  end.

Fixpoint mono_rows (image : fb_image) (fgcolor bgcolor : Z) (n : nat) (src : Z) : result (list (list Z)) :=
  match n with
  | O => Ok []
  | S n =>
      let* row := mono_row image fgcolor bgcolor (Z.to_nat (im_width image)) src 0 in
      let* rows := mono_rows image fgcolor bgcolor n (src + (im_width image + 7) / 8) in
      Ok (row :: rows)
  end.

Definition slow_imageblit (image : fb_image) (dst1 fgcolor bgcolor start_index pitch_index : Z) m : result M :=
  let* rows := mono_rows image fgcolor bgcolor (Z.to_nat (im_height image)) 0 in
  blit_rows rows dst1 dst1 start_index pitch_index m.

(** A row of [n] pixels of a byte each. *)
Fixpoint color_row (image : fb_image) (n : nat) (src : Z) : result (list Z) :=
  match n with
  | O => Ok []
  | S n => let* b := image_byte image src in let* c := color_of p b in let* l := color_row image n (src + 1) in Ok (c :: l)
  end.

Fixpoint color_rows (image : fb_image) (n : nat) (src : Z) : result (list (list Z)) :=
  match n with
  | O => Ok []
  | S n => let* row := color_row image (Z.to_nat (im_width image)) src in let* rows := color_rows image n (src + im_width image) in Ok (row :: rows)
  end.

Definition color_imageblit (image : fb_image) (dst1 start_index pitch_index : Z) m : result M :=
  let* rows := color_rows image (Z.to_nat (im_height image)) 0 in
  blit_rows rows dst1 dst1 start_index pitch_index m.

Definition cfb_tab8_le : list Z :=
  [0x00000000; 0xff000000; 0x00ff0000; 0xffff0000; 0x0000ff00; 0xff00ff00; 0x00ffff00; 0xffffff00;
   0x000000ff; 0xff0000ff; 0x00ff00ff; 0xffff00ff; 0x0000ffff; 0xff00ffff; 0x00ffffff; 0xffffffff].
Definition cfb_tab16_le : list Z := [0x00000000; 0xffff0000; 0x0000ffff; 0xffffffff].
Definition cfb_tab32 : list Z := [0x00000000; 0xffffffff].

(** [n] times [x <<= bpp; x |= color]. *)
Fixpoint spread (n : nat) (color x : Z) : Z := match n with O => x | S n => spread n color ((x .<< bits_per_pixel p) .| color) end.

Fixpoint fast_row (image : fb_image) (tab : list Z) (ppw eorx bgx : Z) (k : nat) (src shift dst : Z) m : result M :=
  match k with
  | O => Ok m
  | S k =>
      let shift := shift - ppw in
      let* b := image_byte image src in
      let end_mask := nth (Z.to_nat ((b .>> shift) .& ((1 .<< ppw) - 1))) tab 0 in
      let* m := fb_writel (Z.lxor (end_mask .& eorx) bgx) dst m in
      if shift =? 0 then fast_row image tab ppw eorx bgx k (src + 1) 8 (dst + 1) m else fast_row image tab ppw eorx bgx k src shift (dst + 1) m
  end.

Fixpoint fast_rows (image : fb_image) (tab : list Z) (ppw eorx bgx : Z) (n : nat) (s dst1 : Z) m : result M :=
  match n with
  | O => Ok m
  | S n =>
      if negb (dst1 mod 4 =? 0) then Fault BadIndex
      else
        let* m := fast_row image tab ppw eorx bgx (Z.to_nat (im_width image / ppw)) s 8 (dst1 / 4) m in
        fast_rows image tab ppw eorx bgx n (s + (im_width image + 7) / 8) (u32 (dst1 + line_length p)) m
  end.

Definition fast_imageblit (image : fb_image) (dst1 fgcolor bgcolor : Z) m : result M :=
  let bpp := bits_per_pixel p in
  let ppw := 32 / bpp in
  let tab := if bpp =? 8 then cfb_tab8_le else if bpp =? 16 then cfb_tab16_le else cfb_tab32 in
  let fgx := spread (Z.to_nat (ppw - 1)) fgcolor fgcolor in
  let bgx := spread (Z.to_nat (ppw - 1)) bgcolor bgcolor in
  fast_rows image tab ppw (Z.lxor fgx bgx) bgx (Z.to_nat (im_height image)) 0 dst1 m.

Definition cfb_imageblit (image : fb_image) m : result M :=
  if negb (fb_running p) then Ok m
  else
    let bpp := bits_per_pixel p in
    let bitstart := pixel_idx (im_dx image) (im_dy image) in
    let start_index := bitstart .& 31 in
    let pitch_index := (line_length p .& 3) * 8 in
    let dst1 := u32 (screen_base p + ((bitstart / 8) .& .~ 3)) in
    let* m := fb_sync m in
    if im_depth image =? 1 then
      let* fgcolor := color_of p (im_fg image) in
      let* bgcolor := color_of p (im_bg image) in
      if (32 mod bpp =? 0) && (start_index =? 0) && (pitch_index =? 0) && ((im_width image .& (32 / bpp - 1)) =? 0) && (8 <=? bpp) && (bpp <=? 32)
      then fast_imageblit image dst1 fgcolor bgcolor m
      else slow_imageblit image dst1 fgcolor bgcolor start_index pitch_index m
    else color_imageblit image dst1 start_index pitch_index m.

(** *** Copying *)

Definition copy_masked (mask src dst : Z) m : result M := let* v := fb_readl src m in put_masked v mask dst m.
Definition copy_word (src dst : Z) m : result M := let* v := fb_readl src m in fb_writel v dst m.

(** [n] words, upward or downward by [step]. *)
Fixpoint copy_words (step : Z) (n : nat) (src dst : Z) m : result (Z * Z * M) :=
  match n with O => Ok (src, dst, m) | S n => let* m := copy_word src dst m in copy_words step n (src + step) (dst + step) m end.

(** The loop unrolled eight times and the rest. *)
Fixpoint copy_chunk (step : Z) (fuel : nat) (n src dst : Z) m : result (Z * Z * M) :=
  match fuel with
  | O => Fault Stuck
  | S fuel =>
      if 8 <=? n then
        let* (x, m) := copy_words step 8 src dst m in let (src, dst) := (x : Z * Z) in copy_chunk step fuel (n - 8) src dst m
      else copy_words step (Z.to_nat n) src dst m
  end.

(** Source and destination at the same place in their words: [one] tells that a single word is written, [lead] is the
    number of bits in the first. *)
Definition copy_same (step first last : Z) (one : bool) (lead src dst n : Z) m : result M :=
  if one then copy_masked (if last =? 0 then first else first .& last) src dst m
  else
    let* (x, m) := if negb (first =? u32_max) then let* m := copy_masked first src dst m in Ok (src + step, dst + step, u32 (n - lead), m) else Ok (src, dst, n, m) in
    let '(src, dst, n) := (x : Z * Z * Z) in
    let n := n / 32 in
    let* (x, m) := copy_chunk step (Z.to_nat n + 1) n src dst m in
    let (src, dst) := (x : Z * Z) in
    if last =? 0 then Ok m else copy_masked last src dst m.

(** The words of a shifted copy; [join] puts together the word before and the new one, [d0] is the one before. *)
Fixpoint shift_words (join : Z -> Z -> Z) (step : Z) (n : nat) (d0 src dst : Z) m : result (Z * Z * Z * M) :=
  match n with
  | O => Ok (d0, src, dst, m)
  | S n =>
      let* d1 := fb_readl src m in
      let* m := fb_writel (join d0 d1) dst m in
      shift_words join step n d1 (src + step) (dst + step) m
  end.

Fixpoint shift_chunk (join : Z -> Z -> Z) (step : Z) (fuel : nat) (n d0 src dst : Z) m : result (Z * Z * Z * M) :=
  match fuel with
  | O => Fault Stuck
  | S fuel =>
      if 4 <=? n then
        let* (x, m) := shift_words join step 4 d0 src dst m in
        let '(d0, src, dst) := (x : Z * Z * Z) in
        shift_chunk join step fuel (n - 4) d0 src dst m
      else shift_words join step (Z.to_nat n) d0 src dst m
  end.

Definition bitcpy (dst dst_idx src src_idx n : Z) m : result M :=
  let shift := dst_idx - src_idx in
  let first := shifted_mask dst_idx in
  let last := .~ shifted_mask (u32 (dst_idx + n) mod 32) in
  let one := u32 (dst_idx + n) <=? 32 in
  if shift =? 0 then copy_same 1 first last one (32 - dst_idx) src dst n m
  else
    let right := shift .& 31 in
    let left := (- shift) .& 31 in
    let join d0 d1 := (d0 .<< left) .| (d1 .>> right) in
    if one then
      let* d0 := fb_readl src m in
      let* d0 :=
        if 0 <? shift then Ok (d0 .>> right)
        else if u32 (src_idx + n) <=? 32 then Ok (d0 .<< left)
        else let* d1 := fb_readl (src + 1) m in Ok (join d0 d1) in
      put_masked d0 (if last =? 0 then first else first .& last) dst m
    else
      let* d0 := fb_readl src m in
      let* (x, src) := if 0 <? shift then Ok (d0 .>> right, d0, src + 1) else let* d1 := fb_readl (src + 1) m in Ok (join d0 d1, d1, src + 2) in
      let (d0, d1) := (x : Z * Z) in
      let dst := dst + 1 in
      let n := u32 (n - (32 - dst_idx)) in
      let* m := put_masked d0 first dst m in
      let rest := n mod 32 in
      let* (x, m) := shift_chunk join 1 (Z.to_nat (n / 32) + 1) (n / 32) d1 src dst m in
      let '(d0, src, dst) := (x : Z * Z * Z) in
      if last =? 0 then Ok m
      else
        let* d0 := if rest <=? right then Ok (d0 .<< left) else let* d1 := fb_readl src m in Ok (join d0 d1) in
        put_masked d0 last dst m.

(** Downwards, from the last bits. *)
Definition bitcpy_rev (dst dst_idx src src_idx n : Z) m : result M :=
  let dst := dst + u32 (n - 1) / 32 in
  let src := src + u32 (n - 1) / 32 in
  let more := u32 (n - 1) mod 32 in
  let dst := if more =? 0 then dst else dst + ((dst_idx + more) .>> 5) in
  let src := if more =? 0 then src else src + ((src_idx + more) .>> 5) in
  let dst_idx := if more =? 0 then dst_idx else (dst_idx + more) .& 31 in
  let src_idx := if more =? 0 then src_idx else (src_idx + more) .& 31 in
  let shift := dst_idx - src_idx in
  let first := shifted_mask (31 - dst_idx) in
  let last := .~ shifted_mask (31 - u32 (dst_idx - n) mod 32) in
  let one := n <=? dst_idx + 1 in
  if shift =? 0 then copy_same (-1) first last one (dst_idx + 1) src dst n m
  else
    let left := (- shift) .& 31 in
    let right := shift .& 31 in
    let join d0 d1 := (d0 .>> right) .| (d1 .<< left) in
    if one then
      let* d0 := fb_readl src m in
      let* d0 :=
        if shift <? 0 then Ok (d0 .<< left)
        else if n <=? 1 + src_idx then Ok (d0 .>> right)
        else let* d1 := fb_readl (src - 1) m in Ok (join d0 d1) in
      put_masked d0 (if last =? 0 then first else first .& last) dst m
    else
      let* d0 := fb_readl src m in
      let* (x, src) := if shift <? 0 then Ok (d0 .<< left, d0, src - 1) else let* d1 := fb_readl (src - 1) m in Ok (join d0 d1, d1, src - 2) in
      let (d0, d1) := (x : Z * Z) in
      let* m := put_masked d0 first dst m in
      let dst := dst - 1 in
      let n := u32 (n - (dst_idx + 1)) in
      let rest := n mod 32 in
      let* (x, m) := shift_chunk join (-1) (Z.to_nat (n / 32) + 1) (n / 32) d1 src dst m in
      let '(d0, src, dst) := (x : Z * Z * Z) in
      if last =? 0 then Ok m
      else
        let* d0 := if rest <=? left then Ok (d0 .>> right) else let* d1 := fb_readl src m in Ok (join d0 d1) in
        put_masked d0 last dst m.

(** The rows, from the first or from the last; the bit in the word is taken modulo four. *)
Fixpoint copy_rows (rev : bool) (n : Z) (height : nat) (dst dst_idx src src_idx : Z) m : result M :=
  match height with
  | O => Ok m
  | S height =>
      let line := line_length p * 8 in
      let dst_idx := if rev then s32 (dst_idx - line) else dst_idx in
      let src_idx := if rev then s32 (src_idx - line) else src_idx in
      let dst := dst + (dst_idx .>> 5) in
      let dst_idx := dst_idx .& 3 in
      let src := src + (src_idx .>> 5) in
      let src_idx := src_idx .& 3 in
      let* m := if rev then bitcpy_rev dst dst_idx src src_idx n m else bitcpy dst dst_idx src src_idx n m in
      if rev then copy_rows rev n height dst dst_idx src src_idx m
      else copy_rows rev n height dst (s32 (dst_idx + line)) src (s32 (src_idx + line)) m
  end.

Definition cfb_copyarea (area : fb_copyarea) m : result M :=
  if negb (fb_running p) then Ok m
  else
    let rev := ((ca_dy area =? ca_sy area) && (ca_sx area <? ca_dx area)) || (ca_sy area <? ca_dy area) in
    let dy := if rev then u32 (ca_dy area + ca_height area) else ca_dy area in
    let sy := if rev then u32 (ca_sy area + ca_height area) else ca_sy area in
    let bits_per_line := u32 (line_length p * 8) in
    let idx x y := s32 (base_idx + u32 (u32 (y * bits_per_line) + u32 (x * bits_per_pixel p))) in
    let* m := fb_sync m in
    copy_rows rev (u32 (ca_width area * bits_per_pixel p)) (Z.to_nat (ca_height area))
      base_word (idx (ca_dx area) dy) base_word (idx (ca_sx area) sy) m.

End Draw.
