(* ===== verification/FbBits.v ===== *)
(** * Frame buffer: memory as bits

    Drawing is described bit by bit: which bits of memory are painted, and with what.  The
    words that an operation writes are tracked along. *)

From S2P Require Import Prelude Fb.

Class VramLaws (M : Type) `{Vram M} := {
  vread_u32 a (m : M) : is_u32 (vread a m);
  vread_vwrite a b v (m : M) : is_u32 v -> vread b (vwrite a v m) = if b =? a then v else vread b m
}.

Section Bits.

Context {M : Type} `{VramLaws M}.
Implicit Type m : M.

Definition bit m (b : Z) : bool := Z.testbit (vread (b / 32) m) (b mod 32).

(** Stores of words to addresses in [W]. *)
Inductive writes (W : Z -> Prop) : M -> M -> Prop :=
| writes_nil m : writes W m m
| writes_cons a v m m' : W a -> is_u32 v -> writes W (vwrite a v m) m' -> writes W m m'.

Lemma writes_trans W m m1 m2 : writes W m m1 -> writes W m1 m2 -> writes W m m2.
Proof. induction 1; [easy|]. intros Hm. econstructor; eauto. Qed.

Lemma writes_weaken (W W' : Z -> Prop) m m' : (forall a, W a -> W' a) -> writes W m m' -> writes W' m m'.
Proof. intros HW. induction 1; [constructor|]. econstructor; eauto. Qed.

(** The words with a bit of [S]. *)
Definition words_of (S : Z -> bool) (a : Z) : Prop := exists b, S b = true /\ b / 32 = a.

(** The bits of [S] become [f old new], the others stay; only words with such bits are written. *)
Record paint (f : bool -> bool -> bool) (g : Z -> bool) (S : Z -> bool) m m' : Prop := {
  pt_bit : forall b, bit m' b = if S b then f (bit m b) (g b) else bit m b;
  pt_writes : writes (words_of S) m m'
}.

Definition range (s n b : Z) : bool := (s <=? b) && (b <? s + n).

Lemma range_true s n b : range s n b = true <-> s <= b < s + n.
Proof. unfold range. rewrite andb_true_iff, Z.leb_le, Z.ltb_lt. lia. Qed.

Lemma range_false s n b : range s n b = false <-> b < s \/ s + n <= b.
Proof. unfold range. rewrite andb_false_iff, Z.leb_gt, Z.ltb_ge. lia. Qed.

Lemma paint_nothing f g S m : (forall b, S b = false) -> paint f g S m m.
Proof. intros HS. split; [intros b; now rewrite HS|constructor]. Qed.

Lemma paint_ext f g g' S S' m m' : (forall b, S b = S' b) -> (forall b, S b = true -> g b = g' b) -> paint f g S m m' -> paint f g' S' m m'.
Proof.
  intros HS Hg [P1 P2]. split.
  - intros b. rewrite P1, <- HS. destruct (S b) eqn:E; [now rewrite Hg|reflexivity].
  - apply (writes_weaken (words_of S)); [|exact P2]. intros a (b & Hb & <-). exists b. now rewrite <- HS.
Qed.

(** One after the other, on different bits. *)
Lemma paint_seq f g S1 S2 m m1 m2 :
  (forall b, S1 b = true -> S2 b = false) -> paint f g S1 m m1 -> paint f g S2 m1 m2 -> paint f g (fun b => S1 b || S2 b) m m2.
Proof.
  intros Hd [P1 P2] [P3 P4]. split.
  - intros b. rewrite P3, P1. specialize (Hd b). destruct (S1 b), (S2 b); cbn [orb]; (reflexivity || now specialize (Hd eq_refl)).
  - apply (writes_trans _ _ m1); [apply (writes_weaken (words_of S1)); [|exact P2]|apply (writes_weaken (words_of S2)); [|exact P4]];
      intros a (b & Hb & <-); exists b; rewrite Hb; split; auto using orb_true_r.
Qed.

Lemma paint_seq_range f g s n1 n2 m m1 m2 :
  0 <= n1 -> 0 <= n2 -> paint f g (range s n1) m m1 -> paint f g (range (s + n1) n2) m1 m2 -> paint f g (range s (n1 + n2)) m m2.
Proof.
  intros H1 H2 P1 P2. apply (paint_ext f g g (fun b => range s n1 b || range (s + n1) n2 b)); [|easy|].
  - intros b. unfold range. zcrush.
  - apply (paint_seq f g _ _ m m1); try assumption. intros b. rewrite range_true, range_false. lia.
Qed.

(** A word. *)
Lemma bit_vwrite a v m b : is_u32 v -> bit (vwrite a v m) b = if b / 32 =? a then Z.testbit v (b mod 32) else bit m b.
Proof. intros Hv. unfold bit. rewrite vread_vwrite by exact Hv. destruct (Z.eqb_spec (b / 32) a); reflexivity. Qed.

(** A word of which the bits from [i] to [j] are painted. *)
Lemma paint_word f g a i j v m :
  0 <= i < j -> j <= 32 -> is_u32 v ->
  (forall k, 0 <= k < 32 -> Z.testbit v k = if (i <=? k) && (k <? j) then f (Z.testbit (vread a m) k) (g (32 * a + k)) else Z.testbit (vread a m) k) ->
  paint f g (range (32 * a + i) (j - i)) m (vwrite a v m).
Proof.
  intros Hi Hj Hv Hk. split.
  - intros b. rewrite bit_vwrite by exact Hv. destruct (Z.eqb_spec (b / 32) a) as [E|Hne].
    + rewrite Hk by zdiv. assert (Er : range (32 * a + i) (j - i) b = (i <=? b mod 32) && (b mod 32 <? j)) by (unfold range; zcrush; zdiv).
      rewrite Er. replace (32 * a + b mod 32) with b by zdiv. unfold bit. now rewrite E.
    + assert (Er : range (32 * a + i) (j - i) b = false) by (rewrite range_false; zdiv). now rewrite Er.
  - econstructor; [|exact Hv|constructor]. exists (32 * a + i). split; [apply range_true; lia|zdiv].
Qed.

(** *** Masks *)

Definition mask_of (mask i j : Z) : Prop := forall k, 0 <= k < 32 -> Z.testbit mask k = (i <=? k) && (k <? j).

Lemma u32_max_testbit k : 0 <= k < 32 -> Z.testbit u32_max k = true.
Proof. intros Hk. change u32_max with (Z.ones 32). rewrite Z.testbit_ones by lia. zcrush. Qed.

Lemma shifted_mask_testbit i k : 0 <= i -> 0 <= k < 32 -> Z.testbit (shifted_mask i) k = (i <=? k).
Proof.
  intros Hi Hk. unfold shifted_mask, FB_SHIFT_HIGH. rewrite testbit_shl32 by exact Hi. rewrite (proj2 (Z.ltb_lt k 32)) by lia. cbn [andb].
  destruct (Z.leb_spec i k); [apply u32_max_testbit; lia|]. apply Z.testbit_neg_r. lia.
Qed.

Lemma shifted_mask_u32 i : is_u32 (shifted_mask i).
Proof. apply shl32_u32. Qed.

Lemma shifted_mask_0 i : 0 <= i < 32 -> (shifted_mask i =? u32_max) = (i =? 0).
Proof.
  intros Hi. destruct (Z.eqb_spec i 0) as [->|Hne]; [reflexivity|]. apply Z.eqb_neq. intros E.
  pose proof (shifted_mask_testbit i 0 ltac:(lia) ltac:(lia)) as Ht. rewrite E, u32_max_testbit in Ht by lia. zcrush.
Qed.

Lemma shifted_mask_nonzero i : 0 <= i < 32 -> (shifted_mask i =? 0) = false.
Proof.
  intros Hi. apply Z.eqb_neq. intros E. pose proof (shifted_mask_testbit i 31 ltac:(lia) ltac:(lia)) as Ht. rewrite E, Z.bits_0 in Ht. zcrush.
Qed.

Lemma last_mask_testbit i k : 0 <= i -> 0 <= k < 32 -> Z.testbit (.~ shifted_mask i) k = (k <? i).
Proof.
  intros Hi Hk. rewrite testbit_not32, shifted_mask_testbit by assumption. rewrite (proj2 (Z.leb_le 0 k)), (proj2 (Z.ltb_lt k 32)) by lia. zcrush.
Qed.

Lemma last_mask_0 i : 0 <= i < 32 -> (.~ shifted_mask i =? 0) = (i =? 0).
Proof.
  intros Hi. destruct (Z.eqb_spec i 0) as [->|Hne]; [reflexivity|]. apply Z.eqb_neq. intros E.
  pose proof (last_mask_testbit i 0 ltac:(lia) ltac:(lia)) as Ht. rewrite E, Z.bits_0 in Ht. zcrush.
Qed.

Lemma last_mask_u32 i : is_u32 (.~ shifted_mask i).
Proof. apply not32_u32, shifted_mask_u32. Qed.

(** The mask of a single word: from [idx] to the end of [n] bits. *)
Lemma single_mask idx n : 0 <= idx < 32 -> 0 < n -> idx + n <= 32 ->
  let last := .~ shifted_mask ((idx + n) mod 32) in
  mask_of (if last =? 0 then shifted_mask idx else shifted_mask idx .& last) idx (idx + n).
Proof.
  intros Hi Hn Hl last k Hk. unfold last. rewrite last_mask_0 by (apply Z.mod_pos_bound; lia).
  destruct (Z.eq_dec (idx + n) 32) as [E|Hne].
  - rewrite E. change (32 mod 32 =? 0) with true. cbv iota. rewrite shifted_mask_testbit by lia. zcrush.
  - rewrite Z.mod_small by lia. rewrite (proj2 (Z.eqb_neq (idx + n) 0)) by lia. rewrite Z.land_spec, shifted_mask_testbit, last_mask_testbit by lia. reflexivity.
Qed.

Lemma comp_testbit a b mask k : Z.testbit (comp a b mask) k = if Z.testbit mask k then Z.testbit a k else Z.testbit b k.
Proof. unfold comp. rewrite Z.lxor_spec, Z.land_spec, Z.lxor_spec. destruct (Z.testbit mask k), (Z.testbit a k), (Z.testbit b k); reflexivity. Qed.

Lemma lxor_u32 a b : is_u32 a -> is_u32 b -> is_u32 (Z.lxor a b).
Proof.
  intros Ha Hb. apply fits_bits; [lia|apply Z.lxor_nonneg; unfold fits in *; lia|]. intros i Hi. rewrite Z.lxor_spec.
  now rewrite (fits_testbit_high 32 a), (fits_testbit_high 32 b) by (try assumption; lia).
Qed.

Lemma comp_u32 a b mask : is_u32 a -> is_u32 b -> is_u32 mask -> is_u32 (comp a b mask).
Proof.
  intros Ha Hb Hm. apply fits_bits; [lia| |].
  - unfold comp. apply Z.lxor_nonneg. unfold fits in *. split; intros _; [lia|]. apply Z.land_nonneg. right. lia.
  - intros i Hi. rewrite comp_testbit, (fits_testbit_high 32 mask i), (fits_testbit_high 32 b i) by (try assumption; lia). reflexivity.
Qed.

Lemma land_u32 a b : is_u32 a -> is_u32 b -> is_u32 (a .& b).
Proof. intros Ha Hb. apply land_u32_l; [exact Ha|unfold fits in *; lia]. Qed.

End Bits.

#[export] Hint Resolve shifted_mask_u32 last_mask_u32 lxor_u32 comp_u32 land_u32 : u32.

(** ** Plain memory *)

Record plain := { plain_word : Z -> Z }.

#[export] Instance plain_vram : Vram plain := {
  vread a m := u32 (plain_word m a);
  vwrite a v m := {| plain_word := fun b => if b =? a then v else plain_word m b |}
}.

#[export] Instance plain_vram_laws : VramLaws plain.
Proof.
  split; [intros; apply u32_range|]. intros a b v m Hv. cbn. destruct (b =? a); [now apply u32_id|reflexivity].
Qed.
