(* ===== verification/FbFill.v ===== *)
(** * Frame buffer: filling rectangles

    The fills by words paint exactly the bits of the rectangle, for every position and
    every depth that divides the word. *)

From S2P Require Import Prelude Fb FbBits.

Section Fill.

Context {M : Type} `{VramLaws M}.
Variable p : fb_info.
Implicit Type m : M.

Definition over (old new : bool) : bool := new.
Definition pat_bit (pat b : Z) : bool := Z.testbit pat (b mod 32).

(** All the words that [n] bits from bit [i] of word [dst] are in. *)
Definition mapped_bits (s n : Z) : Prop := forall b, s <= b < s + n -> mapped p (b / 32) = true.

Lemma mapped_sub s n s' n' : mapped_bits s n -> s <= s' -> s' + n' <= s + n -> mapped_bits s' n'.
Proof. intros Hm H1 H2 b Hb. apply Hm. lia. Qed.

Lemma mapped_word s n a i : mapped_bits s n -> s <= 32 * a + i < s + n -> 0 <= i < 32 -> mapped p a = true.
Proof. intros Hm Hb Hi. rewrite <- (Hm (32 * a + i) Hb). f_equal. zdiv. Qed.

(** A masked write and a whole one. *)
Record painter (f : bool -> bool -> bool) (masked : Z -> Z -> Z -> M -> result M) (put : Z -> Z -> M -> result M) : Prop := {
  pn_masked pat mask dst i j m : mapped p dst = true -> is_u32 pat -> is_u32 mask -> mask_of mask i j -> 0 <= i < j -> j <= 32 ->
    exists m', masked pat mask dst m = Ok m' /\ paint f (pat_bit pat) (range (32 * dst + i) (j - i)) m m';
  pn_put pat dst m : mapped p dst = true -> is_u32 pat -> exists m', put pat dst m = Ok m' /\ paint f (pat_bit pat) (range (32 * dst) 32) m m'
}.

Lemma pat_bit_in pat a k : 0 <= k < 32 -> pat_bit pat (32 * a + k) = Z.testbit pat k.
Proof. intros Hk. unfold pat_bit. f_equal. zdiv. Qed.

Lemma copy_painter : painter over (put_masked p) (fb_writel p).
Proof.
  split.
  - intros pat mask dst i j m Hm Hp Hk Hmask Hi Hj. unfold put_masked, fb_readl, fb_writel. rewrite Hm. cbn [rbind]. eexists. split; [reflexivity|].
    apply paint_word; auto with u32; [apply comp_u32; auto; apply vread_u32|]. intros k Hk'. rewrite comp_testbit, Hmask by exact Hk'.
    rewrite pat_bit_in by exact Hk'. reflexivity.
  - intros pat dst m Hm Hp. unfold fb_writel. rewrite Hm. eexists. split; [reflexivity|]. replace (32 * dst) with (32 * dst + 0) by lia.
    apply (paint_word over (pat_bit pat) dst 0 32); auto; try lia. intros k Hk. rewrite pat_bit_in by exact Hk. zcrush.
Qed.

Lemma xor_painter : painter xorb (xor_masked p) (xor_word p).
Proof.
  split.
  - intros pat mask dst i j m Hm Hp Hk Hmask Hi Hj. unfold xor_masked, fb_readl, fb_writel. rewrite Hm. cbn [rbind]. eexists. split; [reflexivity|].
    pose proof (vread_u32 dst m) as Hr. apply paint_word; auto with u32. intros k Hk'. rewrite comp_testbit, Z.lxor_spec, Hmask by exact Hk'.
    rewrite pat_bit_in by exact Hk'. reflexivity.
  - intros pat dst m Hm Hp. unfold xor_word, fb_readl, fb_writel. rewrite Hm. cbn [rbind]. eexists. split; [reflexivity|].
    pose proof (vread_u32 dst m) as Hr. replace (32 * dst) with (32 * dst + 0) by lia. apply (paint_word xorb (pat_bit pat) dst 0 32); auto with u32; try lia.
    intros k Hk. rewrite Z.lxor_spec, pat_bit_in by exact Hk. zcrush.
Qed.

Section Painter.

Variables (f : bool -> bool -> bool) (masked : Z -> Z -> Z -> M -> result M) (put : Z -> Z -> M -> result M) (leading : Z -> bool) (unroll : nat).
Hypothesis Hp : painter f masked put.

Lemma run_words_paint n pat dst m :
  is_u32 pat -> mapped_bits (32 * dst) (32 * Z.of_nat n) ->
  exists m', run_words put id n pat dst m = Ok (pat, dst + Z.of_nat n, m') /\ paint f (pat_bit pat) (range (32 * dst) (32 * Z.of_nat n)) m m'.
Proof.
  intros Hu. revert dst m. induction n as [|n IH]; intros dst m Hm; cbn [run_words].
  - rewrite Z.add_0_r. exists m. split; [reflexivity|]. apply paint_nothing. intros b. apply range_false. lia.
  - destruct (pn_put _ _ _ Hp pat dst m) as (m1 & E1 & P1); [apply (mapped_word _ _ _ 0 Hm); lia|exact Hu|]. rewrite E1. cbn [rbind].
    destruct (IH (dst + 1) m1) as (m2 & E2 & P2); [apply (mapped_sub _ _ _ _ Hm); lia|]. unfold id in E2 |- *. rewrite E2. exists m2.
    split; [now replace (dst + Z.of_nat (S n)) with (dst + 1 + Z.of_nat n) by lia|]. replace (32 * Z.of_nat (S n)) with (32 + 32 * Z.of_nat n) by lia.
    apply (paint_seq_range f _ _ 32 _ m m1); [lia|lia|exact P1|]. now replace (32 * dst + 32) with (32 * (dst + 1)) by lia.
Qed.

Lemma main_chunk_paint fuel n pat dst m :
  (0 < unroll)%nat -> 0 <= n < Z.of_nat fuel -> is_u32 pat -> mapped_bits (32 * dst) (32 * n) ->
  exists m', main_chunk put id unroll fuel n pat dst m = Ok (pat, dst + n, m') /\ paint f (pat_bit pat) (range (32 * dst) (32 * n)) m m'.
Proof.
  intros Hk. revert n dst m. induction fuel as [|fuel IH]; intros n dst m Hn Hu Hm; [lia|]. cbn [main_chunk].
  destruct (Z.leb_spec (Z.of_nat unroll) n).
  - destruct (run_words_paint unroll pat dst m Hu) as (m1 & E1 & P1); [apply (mapped_sub _ _ _ _ Hm); lia|]. rewrite E1. cbn [rbind].
    destruct (IH (n - Z.of_nat unroll) (dst + Z.of_nat unroll) m1) as (m2 & E2 & P2); [lia|exact Hu|apply (mapped_sub _ _ _ _ Hm); lia|].
    rewrite E2. exists m2. split; [now replace (dst + n) with (dst + Z.of_nat unroll + (n - Z.of_nat unroll)) by lia|]. replace (32 * n) with (32 * Z.of_nat unroll + 32 * (n - Z.of_nat unroll)) by lia.
    apply (paint_seq_range f _ _ _ _ m m1); [lia|lia|exact P1|]. now replace (32 * dst + 32 * Z.of_nat unroll) with (32 * (dst + Z.of_nat unroll)) by lia.
  - destruct (run_words_paint (Z.to_nat n) pat dst m Hu) as (m1 & E1 & P1); [now rewrite Z2Nat.id by lia|]. rewrite Z2Nat.id in * by lia. now exists m1.
Qed.

(** A row of bits. *)
Lemma bitfill_paint dst idx pat n m :
  (forall i, 0 <= i < 32 -> leading (shifted_mask i) = false -> i = 0) -> (0 < unroll)%nat ->
  0 <= idx < 32 -> 0 <= n < 2 ^ 31 -> is_u32 pat -> mapped_bits (32 * dst + idx) n ->
  exists m', bitfill masked put leading id unroll dst idx pat n m = Ok m' /\ paint f (pat_bit pat) (range (32 * dst + idx) n) m m'.
Proof.
  intros Hlead Hk Hi Hn Hu Hm. unfold bitfill. destruct (Z.eqb_spec n 0) as [->|Hne].
  { exists m. split; [reflexivity|]. apply paint_nothing. intros b. apply range_false. lia. }
  rewrite (u32_id (idx + n)) by (unfold fits; lia). set (last := .~ shifted_mask _). destruct (Z.leb_spec (idx + n) 32) as [Hs|Hl].
  - pose proof (single_mask idx n Hi ltac:(lia) Hs) as Hmk. cbv zeta in Hmk. fold last in Hmk.
    destruct (pn_masked _ _ _ Hp pat (if last =? 0 then shifted_mask idx else shifted_mask idx .& last) dst idx (idx + n) m) as (m1 & E1 & P1); auto; try lia.
    + apply (mapped_word _ _ _ idx Hm); lia.
    + destruct (last =? 0); [apply shifted_mask_u32|apply land_u32; [apply shifted_mask_u32|apply last_mask_u32]].
    + exists m1. split; [exact E1|]. now replace (idx + n - idx) with n in P1 by lia.
  - set (k := if leading (shifted_mask idx) then 32 - idx else 0). set (dst1 := if leading (shifted_mask idx) then dst + 1 else dst).
    assert (Hk32 : 32 * dst1 = 32 * dst + idx + k /\ 0 <= k < n /\ dst <= dst1).
    { unfold dst1, k. destruct (leading (shifted_mask idx)) eqn:E; [lia|]. apply Hlead in E; lia. }
    assert (H1 : exists m1, (if leading (shifted_mask idx) then let* m := masked pat (shifted_mask idx) dst m in Ok (dst + 1, id pat, u32 (n - (32 - idx)), m)
      else Ok (dst, pat, n, m)) = Ok (dst1, pat, n - k, m1) /\ paint f (pat_bit pat) (range (32 * dst + idx) k) m m1).
    { unfold dst1, k. destruct (leading (shifted_mask idx)) eqn:E.
      - destruct (pn_masked _ _ _ Hp pat (shifted_mask idx) dst idx 32 m) as (m1 & E1 & P1); auto; try lia.
        + apply (mapped_word _ _ _ idx Hm); lia.
        + apply shifted_mask_u32.
        + intros j Hj. rewrite shifted_mask_testbit by lia. zcrush.
        + exists m1. rewrite E1. cbn [rbind]. rewrite u32_id by (unfold fits; lia). auto.
      - exists m. split; [now rewrite Z.sub_0_r|]. apply paint_nothing. intros b. apply range_false. lia. }
    destruct H1 as (m1 & E1 & P1). rewrite E1. cbn [rbind].
    destruct (main_chunk_paint (Z.to_nat ((n - k) / 32) + 1) ((n - k) / 32) pat dst1 m1 Hk) as (m2 & E2 & P2); [zdiv|exact Hu|apply (mapped_sub _ _ _ _ Hm); zdiv|].
    rewrite E2. cbn [rbind]. assert (Em : (idx + n) mod 32 = (n - k) mod 32) by zdiv.
    pose proof (paint_seq_range f (pat_bit pat) (32 * dst + idx) k (32 * ((n - k) / 32)) m m1 m2 ltac:(lia) ltac:(zdiv) P1 ltac:(now replace (32 * dst + idx + k) with (32 * dst1) by lia)) as P12.
    unfold last. rewrite last_mask_0 by (apply Z.mod_pos_bound; lia). destruct (Z.eqb_spec ((idx + n) mod 32) 0) as [Ez|Hnz].
    + exists m2. split; [reflexivity|]. now replace (k + 32 * ((n - k) / 32)) with n in P12 by zdiv.
    + set (r := (n - k) mod 32) in *. rewrite Em.
      destruct (pn_masked _ _ _ Hp pat (.~ shifted_mask r) (dst1 + (n - k) / 32) 0 r m2) as (m3 & E3 & P3); auto; try (unfold r in *; zdiv).
      * apply (mapped_word _ _ _ 0 Hm); unfold r in *; zdiv.
      * apply last_mask_u32.
      * intros j Hj. rewrite last_mask_testbit by (unfold r; zdiv). zcrush.
      * exists m3. split; [exact E3|]. replace n with (k + 32 * ((n - k) / 32) + r) by (unfold r; zdiv).
        apply (paint_seq_range f _ _ _ _ m m2); [zdiv|unfold r; zdiv|exact P12|].
        replace (32 * dst + idx + (k + 32 * ((n - k) / 32))) with (32 * (dst1 + (n - k) / 32) + 0) by lia. now replace (r - 0) with r in P3 by lia.
Qed.

End Painter.

End Fill.

(** ** Rectangles of bits *)

(** The bits of [h] rows of [n] bits, [l] bits apart. *)
Definition rect_bits (s l n h b : Z) : bool := (0 <=? b - s) && ((b - s) / l <? h) && ((b - s) mod l <? n).

Lemma rect_bits_true s l n h b : 0 < l -> rect_bits s l n h b = true <-> exists i j, 0 <= i < h /\ 0 <= j < n /\ j < l /\ b = s + i * l + j.
Proof.
  intros Hl. unfold rect_bits. rewrite !andb_true_iff, Z.leb_le, !Z.ltb_lt. split.
  - intros [[H1 H2] H3]. exists ((b - s) / l), ((b - s) mod l). pose proof (Z.div_mod (b - s) l ltac:(lia)). pose proof (Z.mod_pos_bound (b - s) l Hl).
    pose proof (Z.div_pos (b - s) l H1 Hl). lia.
  - intros (i & j & Hi & Hj & Hjl & ->). replace (s + i * l + j - s) with (i * l + j) by lia. rewrite Z.div_add_l by lia.
    rewrite Z.div_small by lia. rewrite Z.add_comm, Z.mod_add by lia. rewrite Z.mod_small by lia. nia.
Qed.

Lemma rect_bits_0 s l n b : 0 < l -> rect_bits s l n 0 b = false.
Proof. intros Hl. apply not_true_iff_false. rewrite rect_bits_true by exact Hl. intros (i & j & Hi & _). lia. Qed.

Lemma rect_bits_S s l n h b : 0 < l -> 0 <= h -> n <= l -> rect_bits s l n (h + 1) b = range s n b || rect_bits (s + l) l n h b.
Proof.
  intros Hl Hh Hn. apply eq_true_iff_eq. rewrite orb_true_iff, range_true, !rect_bits_true by exact Hl. split.
  - intros (i & j & Hi & Hj & Hjl & ->). destruct (Z.eq_dec i 0) as [->|Hi0]; [left; lia|right]. exists (i - 1), j. split; [lia|]. split; [lia|]. split; [lia|]. lia.
  - intros [Hb|(i & j & Hi & Hj & Hjl & ->)]; [exists 0, (b - s); lia|]. exists (i + 1), j. lia.
Qed.

(** Another way down: by the last row. *)
Lemma rect_bits_snoc s l n h b : 0 < l -> 0 <= h -> n <= l -> rect_bits s l n (h + 1) b = rect_bits s l n h b || range (s + h * l) n b.
Proof.
  intros Hl Hh Hn. apply eq_true_iff_eq. rewrite orb_true_iff, range_true, !rect_bits_true by exact Hl. split.
  - intros (i & j & Hi & Hj & Hjl & ->). destruct (Z.eq_dec i h) as [->|Hi0]; [right; lia|left]. exists i, j. lia.
  - intros [(i & j & Hi & Hj & Hjl & ->)|Hb]; [exists i, j; lia|]. exists h, (b - s - h * l). lia.
Qed.

Lemma range_rect_disjoint s l n h b : 0 < l -> n <= l -> range s n b = true -> rect_bits (s + l) l n h b = false.
Proof.
  intros Hl Hn Hr. apply range_true in Hr. apply not_true_iff_false. rewrite rect_bits_true by exact Hl. intros (i & j & Hi & Hj & _ & ->). nia.
Qed.

(** A row and the rows below it. *)
Lemma paint_rect_S {M} `{VramLaws M} f g s l n h (m m1 m' : M) :
  0 < l -> 0 <= h -> n <= l -> paint f g (range s n) m m1 -> paint f g (rect_bits (s + l) l n h) m1 m' -> paint f g (rect_bits s l n (h + 1)) m m'.
Proof.
  intros Hl Hh Hn P1 P2. apply (paint_ext f g g (fun b => range s n b || rect_bits (s + l) l n h b)); [|easy|].
  - intros b. symmetry. apply rect_bits_S; lia.
  - apply (paint_seq f g _ _ m m1); try assumption. intros b Hb. apply range_rect_disjoint; try assumption; lia.
Qed.

Section Rows.

Context {M : Type} `{VramLaws M}.
Variable p : fb_info.
Implicit Type m : M.

(** The rows of a rectangle can be accessed. *)
Definition mapped_rect (s n h : Z) : Prop := forall i, 0 <= i < h -> mapped_bits p (s + i * (line_length p * 8)) n.

Lemma mapped_rect_tail s n h : mapped_rect s n (h + 1) -> mapped_rect (s + line_length p * 8) n h.
Proof. intros Hm i Hi. replace (s + line_length p * 8 + i * (line_length p * 8)) with (s + (i + 1) * (line_length p * 8)) by lia. apply Hm. lia. Qed.

(** [fill] paints a row with the bits [g], which may depend on the place alone. *)
Definition row_painter (f : bool -> bool -> bool) (g : Z -> bool) (n : Z) (fill : Z -> Z -> M -> result M) : Prop :=
  forall dst idx m, 0 <= idx < 32 -> mapped_bits p (32 * dst + idx) n ->
  exists m', fill dst idx m = Ok m' /\ paint f g (range (32 * dst + idx) n) m m'.

Lemma fill_rows_paint f g n words fill height dst idx m :
  (forall i, 0 <= i -> words i = i / 32) -> row_painter f g n fill -> 0 <= idx < 2 ^ 31 -> 0 <= n <= line_length p * 8 -> 0 < line_length p * 8 < 2 ^ 30 ->
  mapped_rect (32 * dst + idx) n (Z.of_nat height) ->
  exists m', fill_rows p words fill height dst idx m = Ok m'
    /\ paint f g (rect_bits (32 * dst + idx) (line_length p * 8) n (Z.of_nat height)) m m'.
Proof.
  intros Hw Hfill Hi Hn Hl. revert dst idx m Hi. induction height as [|height IH]; intros dst idx m Hi Hm; cbn [fill_rows].
  - exists m. split; [reflexivity|]. apply paint_nothing. intros b. now apply rect_bits_0.
  - rewrite Hw by lia. change 31 with (Z.ones 5). rewrite Z.land_ones by lia. change (2 ^ 5) with 32.
    assert (Es : 32 * (dst + idx / 32) + idx mod 32 = 32 * dst + idx) by zdiv. rewrite Nat2Z.inj_succ in *. unfold Z.succ in *.
    destruct (Hfill (dst + idx / 32) (idx mod 32) m) as (m1 & E1 & P1); [zdiv| |].
    { rewrite Es. replace (32 * dst + idx) with (32 * dst + idx + 0 * (line_length p * 8)) by lia. apply Hm. lia. }
    rewrite E1. cbn [rbind]. rewrite Es in P1.
    assert (Eu : s32 (idx mod 32 + line_length p * 8) = idx mod 32 + line_length p * 8).
    { unfold s32. rewrite u32_id by (unfold fits; zdiv). cbv zeta. rewrite (proj2 (Z.ltb_lt _ 2147483648)) by zdiv. reflexivity. }
    rewrite Eu. assert (Es2 : 32 * (dst + idx / 32) + (idx mod 32 + line_length p * 8) = 32 * dst + idx + line_length p * 8) by zdiv.
    destruct (IH (dst + idx / 32) (idx mod 32 + line_length p * 8) m1) as (m2 & E2 & P2); [zdiv|rewrite Es2; now apply mapped_rect_tail|].
    exists m2. split; [exact E2|]. rewrite Es2 in P2. apply (paint_rect_S f g _ _ _ _ m m1 m2); try assumption; lia.
Qed.

End Rows.

(** ** Colours as patterns *)

Lemma testbit_concat a b w k : 0 <= w -> fits w b -> 0 <= k -> Z.testbit (a * 2 ^ w + b) k = if k <? w then Z.testbit b k else Z.testbit a (k - w).
Proof.
  intros Hw Hb Hk. destruct (Z.ltb_spec k w) as [Hl|Hg].
  - rewrite <- (Z.mod_pow2_bits_low _ w k) by lia. rewrite Z.add_comm, Z.mod_add by (apply Z.pow_nonzero; lia). now rewrite Z.mod_small by exact Hb.
  - replace k with (k - w + w) at 1 by lia. rewrite <- Z.div_pow2_bits by lia. rewrite Z.div_add_l by (apply Z.pow_nonzero; lia).
    rewrite Z.div_small by exact Hb. now rewrite Z.add_0_r.
Qed.

(** [n] copies of a pixel. *)
Fixpoint copies (n : nat) (bpp pixel : Z) : Z := match n with O => 0 | S n => copies n bpp pixel * 2 ^ bpp + pixel end.

Lemma copies_testbit n bpp pixel k : 0 < bpp -> fits bpp pixel -> 0 <= k ->
  Z.testbit (copies n bpp pixel) k = (k <? Z.of_nat n * bpp) && Z.testbit pixel (k mod bpp).
Proof.
  intros Hb Hp. revert k. induction n as [|n IH]; intros k Hk; cbn [copies].
  - rewrite Z.bits_0. rewrite (proj2 (Z.ltb_ge k _)) by lia. reflexivity.
  - rewrite testbit_concat by (try assumption; lia). destruct (Z.ltb_spec k bpp) as [Hl|Hg].
    + rewrite Z.mod_small by lia. rewrite (proj2 (Z.ltb_lt k _)) by nia. reflexivity.
    + rewrite IH by lia. assert (Em : (k - bpp) mod bpp = k mod bpp).
      { replace (k - bpp) with (k + (-1) * bpp) by lia. apply Z.mod_add. lia. }
      rewrite Em. f_equal. zcrush.
Qed.

Lemma copies_times n bpp pixel : copies n bpp pixel = copies n bpp 1 * pixel.
Proof. induction n as [|n IH]; cbn [copies]; [reflexivity|]. rewrite IH. lia. Qed.

(** The depths that divide a word. *)
Definition depth (bpp : Z) : Prop := In bpp [1; 2; 4; 8; 16; 32].

Lemma pixel_to_pat_depth bpp pixel : depth bpp -> fits bpp pixel ->
  exists pat, pixel_to_pat bpp pixel = Ok pat /\ is_u32 pat /\ forall b, 0 <= b -> pat_bit pat b = Z.testbit pixel (b mod bpp).
Proof.
  intros Hd Hp. exists (copies (Z.to_nat (32 / bpp)) bpp pixel).
  assert (Hb : 0 < bpp /\ bpp * (32 / bpp) = 32) by (cbn in Hd; repeat destruct Hd as [<-|Hd]; try destruct Hd; split; reflexivity).
  assert (Hdiv : forall b, 0 <= b -> (b mod 32) mod bpp = b mod bpp).
  { intros b _. apply Z.mod_mod_divide. exists (32 / bpp). lia. }
  assert (Hu : is_u32 (copies (Z.to_nat (32 / bpp)) bpp pixel)).
  { apply fits_bits; [lia| |].
    - generalize (Z.to_nat (32 / bpp)). intros n. induction n as [|n IH]; cbn [copies]; [lia|]. destruct Hp. pose proof (Z.pow_pos_nonneg 2 bpp ltac:(lia) ltac:(lia)). nia.
    - intros i Hi. rewrite copies_testbit by (try assumption; lia). rewrite Z2Nat.id by (apply Z.div_pos; lia).
      rewrite (proj2 (Z.ltb_ge i _)) by lia. reflexivity. }
  split; [|split; [exact Hu|]].
  - unfold pixel_to_pat. rewrite <- (u32_id _ Hu), copies_times. cbn in Hd. repeat destruct Hd as [<-|Hd]; try destruct Hd; reflexivity.
  - intros b Hb0. unfold pat_bit. rewrite copies_testbit by (try assumption; zdiv). rewrite Z2Nat.id by (apply Z.div_pos; lia).
    rewrite (proj2 (Z.ltb_lt (b mod 32) _)) by zdiv. now rewrite Hdiv by exact Hb0.
Qed.

(** ** Rectangles *)

Section Fillrect.

Context {M : Type} `{VramLaws M}.
Variable p : fb_info.
Variable fb_sync : M -> result M.
Implicit Type m : M.

(** The first bit of a pixel. *)
Definition pixel_bit (x y : Z) : Z := 8 * screen_base p + y * (line_length p * 8) + x * bits_per_pixel p.

(** A rectangle inside of the lines, and small enough for the code's integers. *)
Record rect_ok (dx dy w h : Z) : Prop := {
  ro_x : 0 <= dx; ro_y : 0 <= dy; ro_w : 0 <= w; ro_h : 0 <= h;
  ro_line : (dx + w) * bits_per_pixel p <= line_length p * 8;
  ro_small : (dy + h + 1) * (line_length p * 8) < 2 ^ 30
}.

(** The driver's description of the screen. *)
Record info_ok : Prop := {
  in_running : fb_running p = true;
  in_depth : depth (bits_per_pixel p);
  in_line : 0 < line_length p;
  in_base : is_u32 (screen_base p)
}.

Lemma base_bit : info_ok -> 32 * base_word p + base_idx p = 8 * screen_base p /\ 0 <= base_idx p < 32.
Proof.
  intros [_ _ _ Hb]. unfold base_word, base_idx. change 3 with (Z.ones 2). rewrite Z.land_ones by lia. change (2 ^ 2) with 4. unfold fits in Hb. zdiv.
Qed.

Lemma depth_bounds bpp : depth bpp -> 1 <= bpp <= 32 /\ 32 mod bpp = 0.
Proof. intros Hd. cbn in Hd. repeat destruct Hd as [<-|Hd]; try destruct Hd; (split; [lia|reflexivity]). Qed.

Lemma pixel_idx_eq dx dy w h : info_ok -> rect_ok dx dy w h ->
  pixel_idx p dx dy = dy * (line_length p * 8) + dx * bits_per_pixel p /\ 0 <= pixel_idx p dx dy < 2 ^ 30
  /\ s32 (base_idx p + pixel_idx p dx dy) = base_idx p + pixel_idx p dx dy.
Proof.
  intros Hi [Hx Hy Hw Hh Hl Hs]. destruct (base_bit Hi) as [_ Hb]. destruct Hi as [_ Hd Hln _]. apply depth_bounds in Hd as [Hd _].
  assert (H1 : 0 <= dy * (line_length p * 8) + dx * bits_per_pixel p < 2 ^ 30) by nia. assert (0 <= dx * bits_per_pixel p) by nia. assert (0 <= dy * line_length p) by nia.
  assert (E : pixel_idx p dx dy = dy * (line_length p * 8) + dx * bits_per_pixel p).
  { unfold pixel_idx. rewrite (u32_id (dy * line_length p)) by (unfold fits; nia). rewrite (u32_id (dy * line_length p * 8)) by (unfold fits; nia).
    rewrite (u32_id (dx * bits_per_pixel p)) by (unfold fits; nia). rewrite u32_id by (unfold fits; nia). lia. }
  rewrite E. split; [reflexivity|]. split; [exact H1|]. unfold s32. rewrite u32_id by (unfold fits; lia). cbv zeta.
  now rewrite (proj2 (Z.ltb_lt _ 2147483648)) by lia.
Qed.

Definition rop_bits (rop : Z) : bool -> bool -> bool := if rop =? ROP_XOR then xorb else over.

Lemma bitfill_row rop pat n : is_u32 pat -> 0 <= n < 2 ^ 31 ->
  row_painter p (rop_bits rop) (pat_bit pat) n (fun dst idx m => (if rop =? ROP_XOR then bitfill_aligned_rev p else bitfill_aligned p) dst idx pat n m).
Proof.
  intros Hu Hn dst idx m Hi Hm. unfold rop_bits. destruct (rop =? ROP_XOR).
  - apply (bitfill_paint p xorb _ _ _ 8 (xor_painter p)); auto; [|lia]. intros i Hi0. rewrite shifted_mask_nonzero by exact Hi0. discriminate.
  - apply (bitfill_paint p over _ _ _ 8 (copy_painter p)); auto; [|lia]. intros i Hi0. rewrite shifted_mask_0 by exact Hi0. zcrush.
Qed.

(** Filling paints the bits of the rectangle with the colour. *)
Lemma fillrect_paint rect fg m m0 :
  info_ok -> rect_ok (fr_dx rect) (fr_dy rect) (fr_width rect) (fr_height rect) ->
  color_of p (fr_color rect) = Ok fg -> fits (bits_per_pixel p) fg -> fb_sync m = Ok m0 ->
  mapped_rect p (pixel_bit (fr_dx rect) (fr_dy rect)) (fr_width rect * bits_per_pixel p) (fr_height rect) ->
  exists m', cfb_fillrect p fb_sync rect m = Ok m'
    /\ paint (rop_bits (fr_rop rect)) (fun b => Z.testbit fg (b mod bits_per_pixel p))
         (rect_bits (pixel_bit (fr_dx rect) (fr_dy rect)) (line_length p * 8) (fr_width rect * bits_per_pixel p) (fr_height rect)) m0 m'.
Proof.
  intros Hi Hr Hc Hf Hsy Hm. destruct (pixel_idx_eq _ _ _ _ Hi Hr) as (Ei & Hib & Es). destruct (base_bit Hi) as [Eb Hbb].
  destruct Hr as [Hx Hy Hw Hh Hln Hs]. pose proof Hi as [Hrun Hd Hl Hsb]. destruct (depth_bounds _ Hd) as [Hbpp Hmod]. set (bpp := bits_per_pixel p) in *.
  destruct (pixel_to_pat_depth bpp fg Hd Hf) as (pat & Ep & Hu & Hpat).
  unfold cfb_fillrect. rewrite Hrun, Hc. cbn [negb rbind]. fold bpp. rewrite Ep. cbn [rbind]. rewrite Hsy. cbn [rbind]. rewrite Hmod, Es, Z.eqb_refl.
  assert (0 <= fr_dx rect * bpp) by nia. assert (0 <= fr_width rect * bpp <= line_length p * 8) by nia. assert (line_length p * 8 < 2 ^ 30) by nia.
  rewrite (u32_id (fr_width rect * bpp)) by (unfold fits; lia).
  assert (Eb2 : 32 * base_word p + (base_idx p + pixel_idx p (fr_dx rect) (fr_dy rect)) = pixel_bit (fr_dx rect) (fr_dy rect)).
  { unfold pixel_bit. fold bpp. lia. }
  destruct (fill_rows_paint p (rop_bits (fr_rop rect)) (pat_bit pat) (fr_width rect * bpp) (fun i => i .>> 5)
    (fun dst idx m => (if fr_rop rect =? ROP_XOR then bitfill_aligned_rev p else bitfill_aligned p) dst idx pat (fr_width rect * bpp) m)
    (Z.to_nat (fr_height rect)) (base_word p)
    (base_idx p + pixel_idx p (fr_dx rect) (fr_dy rect)) m0) as (m' & E & P).
  - intros i Hi0. rewrite Z.shiftr_div_pow2 by lia. reflexivity.
  - apply (bitfill_row (fr_rop rect) pat); [exact Hu|lia].
  - lia.
  - lia.
  - lia.
  - rewrite Eb2, Z2Nat.id by lia. exact Hm.
  - rewrite Eb2, Z2Nat.id in P by lia. exists m'. split; [destruct (fr_rop rect =? ROP_XOR); exact E|].
    apply (paint_ext _ (pat_bit pat) _ _ _ _ _ (fun b => eq_refl)); [|exact P]. intros b Hb. apply Hpat.
    apply rect_bits_true in Hb as (i & j & ? & ? & ? & ->); [|lia]. unfold pixel_bit, fits in *. nia.
Qed.

End Fillrect.
