(* ===== verification/FbPixel.v ===== *)
(** * Frame buffer: pixels

    The pixels of the screen, the effect of painting bits on them, and what filling a
    rectangle draws. *)

From S2P Require Import Prelude Fb FbBits FbFill.

Section Pixels.

Context {M : Type} `{VramLaws M}.
Variable p : fb_info.
Implicit Type m : M.

(** The value of a pixel: the field of its word. *)
Definition pixel m (x y : Z) : Z := (vread (pixel_bit p x y / 32) m .>> (pixel_bit p x y mod 32)) .& Z.ones (bits_per_pixel p).

(** A place on the lines of the screen. *)
Definition on_line (x y : Z) : Prop := 0 <= x /\ (x + 1) * bits_per_pixel p <= line_length p * 8 /\ 0 <= y.

Definition inside (dx dy w h x y : Z) : bool := (dx <=? x) && (x <? dx + w) && (dy <=? y) && (y <? dy + h).

(** Pixels do not cross words. *)
Record pixels_ok : Prop := {
  po_info : info_ok p;
  po_base : (8 * screen_base p) mod bits_per_pixel p = 0;
  po_line : (line_length p * 8) mod bits_per_pixel p = 0
}.

Lemma inside_true dx dy w h x y : inside dx dy w h x y = true <-> (dx <= x < dx + w) /\ (dy <= y < dy + h).
Proof. unfold inside. rewrite !andb_true_iff, !Z.leb_le, !Z.ltb_lt. lia. Qed.

Lemma pixel_bit_aligned x y : pixels_ok -> pixel_bit p x y mod bits_per_pixel p = 0.
Proof.
  intros [[_ Hd _ _] Hb Hl]. apply depth_bounds in Hd as [Hd _]. unfold pixel_bit. rewrite Z.mod_add by lia.
  rewrite Z.add_mod by lia. rewrite Hb, Z.mul_mod, Hl by lia. rewrite Z.mul_0_r, !Z.mod_0_l by lia. reflexivity.
Qed.

Lemma pixel_in_word x y : pixels_ok -> pixel_bit p x y mod 32 + bits_per_pixel p <= 32.
Proof.
  intros Hp. pose proof (pixel_bit_aligned x y Hp) as Ha. destruct Hp as [[_ Hd _ _] _ _]. revert Ha Hd. generalize (pixel_bit p x y) (bits_per_pixel p). intros b bpp Ha Hd.
  cbn in Hd. repeat destruct Hd as [<-|Hd]; try destruct Hd; zdiv.
Qed.

Lemma pixel_testbit m x y k : pixels_ok -> 0 <= k -> Z.testbit (pixel m x y) k = (k <? bits_per_pixel p) && bit m (pixel_bit p x y + k).
Proof.
  intros Hp Hk. pose proof (pixel_in_word x y Hp) as Hw. destruct Hp as [[_ Hd _ _] _ _]. apply depth_bounds in Hd as [Hd _].
  unfold pixel. rewrite Z.land_spec, Z.shiftr_spec, Z.testbit_ones by lia. rewrite (proj2 (Z.leb_le 0 k)) by lia. cbn [andb].
  destruct (Z.ltb_spec k (bits_per_pixel p)); [|apply andb_false_r]. rewrite andb_true_r. cbn [andb]. unfold bit.
  revert Hw. generalize (pixel_bit p x y). intros b Hw.
  assert (E : (b + k) / 32 = b / 32 /\ (b + k) mod 32 = k + b mod 32) by (split; zdiv). destruct E as [-> ->]. reflexivity.
Qed.

Lemma pixel_fits m x y : pixels_ok -> fits (bits_per_pixel p) (pixel m x y).
Proof.
  intros Hp. pose proof Hp as [[_ Hd _ _] _ _]. apply depth_bounds in Hd as [Hd _]. apply fits_bits; [lia| |].
  - unfold pixel. apply Z.land_nonneg. right. rewrite Z.ones_equiv. pose proof (Z.pow_pos_nonneg 2 (bits_per_pixel p)). lia.
  - intros i Hi. rewrite pixel_testbit by (try assumption; lia). now rewrite (proj2 (Z.ltb_ge i _)) by lia.
Qed.

Lemma pixel_ext m m' x y : pixels_ok -> (forall k, 0 <= k < bits_per_pixel p -> bit m' (pixel_bit p x y + k) = bit m (pixel_bit p x y + k)) ->
  pixel m' x y = pixel m x y.
Proof.
  intros Hp Hb. apply Z.bits_inj'. intros k Hk. rewrite !pixel_testbit by assumption. destruct (Z.ltb_spec k (bits_per_pixel p)); [|reflexivity].
  cbn [andb]. apply Hb. lia.
Qed.

(** The bits of a pixel belong to a rectangle together. *)
Lemma rect_bits_pixel dx dy w h x y k :
  0 < bits_per_pixel p -> rect_ok p dx dy w h -> on_line x y -> 0 <= k < bits_per_pixel p ->
  rect_bits (pixel_bit p dx dy) (line_length p * 8) (w * bits_per_pixel p) h (pixel_bit p x y + k) = inside dx dy w h x y.
Proof.
  intros Hb [Hx Hy Hw Hh Hl Hs] (Hx1 & Hx2 & Hy1) Hk. unfold pixel_bit. set (bpp := bits_per_pixel p) in *. set (l := line_length p * 8) in *.
  apply eq_true_iff_eq. rewrite inside_true, rect_bits_true by nia. split.
  - intros (i & j & Hi & Hj & Hjl & E). destruct (Z.div_mod_unique l y (dy + i) (x * bpp + k) (dx * bpp + j)) as [E1 E2]; try (left; nia); [nia|]. nia.
  - intros [H1 H2]. exists (y - dy), ((x - dx) * bpp + k). split; [lia|]. split; [nia|]. split; [nia|]. lia.
Qed.

(** What painting a rectangle does to the pixels. *)
Lemma paint_pixel f g dx dy w h m m' x y :
  pixels_ok -> rect_ok p dx dy w h -> on_line x y ->
  paint f g (rect_bits (pixel_bit p dx dy) (line_length p * 8) (w * bits_per_pixel p) h) m m' ->
  (inside dx dy w h x y = false -> pixel m' x y = pixel m x y)
  /\ (inside dx dy w h x y = true -> forall k, 0 <= k < bits_per_pixel p ->
      Z.testbit (pixel m' x y) k = f (Z.testbit (pixel m x y) k) (g (pixel_bit p x y + k))).
Proof.
  intros Hp Hr Hon [P _]. pose proof Hp as [[_ Hd _ _] _ _]. apply depth_bounds in Hd as [Hd _]. split; intros Hin.
  - apply pixel_ext; [exact Hp|]. intros k Hk. rewrite P, (rect_bits_pixel dx dy w h x y k ltac:(lia) Hr Hon Hk), Hin. reflexivity.
  - intros k Hk. rewrite !pixel_testbit by (try assumption; lia). rewrite (proj2 (Z.ltb_lt k _)) by lia. cbn [andb].
    rewrite P, (rect_bits_pixel dx dy w h x y k ltac:(lia) Hr Hon Hk), Hin. reflexivity.
Qed.

Lemma pixel_eq v m x y : pixels_ok -> fits (bits_per_pixel p) v ->
  (forall k, 0 <= k < bits_per_pixel p -> Z.testbit (pixel m x y) k = Z.testbit v k) -> pixel m x y = v.
Proof.
  intros Hp Hv Hb. pose proof Hp as [[_ Hd _ _] _ _]. apply depth_bounds in Hd as [Hd _]. apply Z.bits_inj'. intros k Hk.
  destruct (Z.lt_ge_cases k (bits_per_pixel p)); [apply Hb; lia|].
  rewrite (fits_testbit_high (bits_per_pixel p) v k), (fits_testbit_high (bits_per_pixel p) (pixel m x y) k); auto using pixel_fits; lia.
Qed.

(** *** Filling *)

Variable fb_sync : M -> result M.

Definition rop_pixel (rop old fg : Z) : Z := if rop =? ROP_XOR then Z.lxor old fg else fg.

Lemma rop_pixel_testbit rop old fg k : Z.testbit (rop_pixel rop old fg) k = rop_bits rop (Z.testbit old k) (Z.testbit fg k).
Proof. unfold rop_pixel, rop_bits. destruct (rop =? ROP_XOR); [apply Z.lxor_spec|reflexivity]. Qed.

Lemma rop_pixel_fits w rop old fg : 0 <= w -> fits w old -> fits w fg -> fits w (rop_pixel rop old fg).
Proof.
  intros Hw Ho Hf. unfold rop_pixel. destruct (rop =? ROP_XOR); [|exact Hf]. apply fits_bits; [lia|apply Z.lxor_nonneg; unfold fits in *; lia|].
  intros i Hi. rewrite Z.lxor_spec. now rewrite (fits_testbit_high w old), (fits_testbit_high w fg) by (try assumption; lia).
Qed.

(** The pixels after filling. *)
Lemma fillrect_pixels rect fg m m0 :
  pixels_ok -> rect_ok p (fr_dx rect) (fr_dy rect) (fr_width rect) (fr_height rect) ->
  color_of p (fr_color rect) = Ok fg -> fits (bits_per_pixel p) fg -> fb_sync m = Ok m0 ->
  mapped_rect p (pixel_bit p (fr_dx rect) (fr_dy rect)) (fr_width rect * bits_per_pixel p) (fr_height rect) ->
  exists m', cfb_fillrect p fb_sync rect m = Ok m'
    /\ (forall x y, on_line x y ->
        pixel m' x y = if inside (fr_dx rect) (fr_dy rect) (fr_width rect) (fr_height rect) x y then rop_pixel (fr_rop rect) (pixel m0 x y) fg else pixel m0 x y)
    /\ writes (words_of (rect_bits (pixel_bit p (fr_dx rect) (fr_dy rect)) (line_length p * 8) (fr_width rect * bits_per_pixel p) (fr_height rect))) m0 m'.
Proof.
  intros Hp Hr Hc Hf Hs Hm. pose proof Hp as [Hi _ _]. destruct (fillrect_paint p fb_sync rect fg m m0 Hi Hr Hc Hf Hs Hm) as (m' & E & P).
  exists m'. split; [exact E|]. split; [|exact (pt_writes _ _ _ _ _ P)]. intros x y Hon.
  destruct (paint_pixel _ _ _ _ _ _ _ _ x y Hp Hr Hon P) as [P1 P2]. destruct (inside _ _ _ _ x y); [|now apply P1].
  pose proof Hi as [_ Hd _ _]. apply depth_bounds in Hd as [Hd _].
  apply pixel_eq; [exact Hp|apply rop_pixel_fits; auto using pixel_fits; lia|]. intros k Hk. rewrite (P2 eq_refl k Hk), rop_pixel_testbit. f_equal. f_equal.
  pose proof (pixel_bit_aligned x y Hp) as Ha. rewrite Z.add_mod, Ha by lia. rewrite Z.add_0_l, Z.mod_mod by lia. apply Z.mod_small. lia.
Qed.

(** C39: filling a rectangle inside of the frame buffer, at any depth that divides a word,
    succeeds; every pixel of the rectangle becomes the colour, or its exclusive or with
    the colour, every other pixel of the screen is unchanged, and only words of the
    rectangle are stored to. *)
Theorem fillrect_draws rect fg m m0 :
  pixels_ok -> rect_ok p (fr_dx rect) (fr_dy rect) (fr_width rect) (fr_height rect) ->
  color_of p (fr_color rect) = Ok fg -> fits (bits_per_pixel p) fg -> fb_sync m = Ok m0 ->
  mapped_rect p (pixel_bit p (fr_dx rect) (fr_dy rect)) (fr_width rect * bits_per_pixel p) (fr_height rect) ->
  exists m', cfb_fillrect p fb_sync rect m = Ok m'
    /\ (forall x y, on_line x y ->
        pixel m' x y = if inside (fr_dx rect) (fr_dy rect) (fr_width rect) (fr_height rect) x y then rop_pixel (fr_rop rect) (pixel m0 x y) fg else pixel m0 x y)
    /\ writes (words_of (rect_bits (pixel_bit p (fr_dx rect) (fr_dy rect)) (line_length p * 8) (fr_width rect * bits_per_pixel p) (fr_height rect))) m0 m'.
Proof. exact (fillrect_pixels rect fg m m0). Qed.

End Pixels.

(** ** A small screen *)

(** 16 columns of a byte each, 8 rows. *)
Definition small_screen : fb_info := {|
  bits_per_pixel := 8; line_length := 16; smem_start := 64; smem_len := 128; screen_base := 64; pseudo_palette := []; fb_running := true; fb_truecolor := false
|}.

Lemma small_pixels_ok : pixels_ok small_screen.
Proof. split; [split|reflexivity|reflexivity]; [reflexivity|unfold depth; cbn; tauto|reflexivity|unfold fits; cbn; lia]. Qed.

Lemma small_mapped dx dy w h : 0 <= dx -> 0 <= dy -> dx + w <= 16 -> dy + h <= 8 -> mapped_rect small_screen (pixel_bit small_screen dx dy) (w * 8) h.
Proof. intros H1 H2 H3 H4 i Hi b Hb. unfold pixel_bit in Hb. cbn in Hb. unfold mapped. cbn [smem_start smem_len small_screen]. apply andb_true_iff. rewrite !Z.leb_le. zdiv. Qed.

Lemma small_rect_ok dx dy w h : 0 <= dx -> 0 <= dy -> 0 <= w -> 0 <= h -> dx + w <= 16 -> dy + h <= 8 -> rect_ok small_screen dx dy w h.
Proof. intros. split; cbn; lia. Qed.

Definition stripes : plain := {| plain_word := fun a => if Z.even a then 0x01020304 else 0 |}.

(** At a rectangle that begins and ends inside of words. *)
Lemma fillrect_draws_witness : exists m',
  cfb_fillrect small_screen Ok {| fr_dx := 1; fr_dy := 2; fr_width := 5; fr_height := 2; fr_color := 0xff; fr_rop := ROP_XOR |} stripes = Ok m'
  /\ pixel small_screen m' 0 2 = 4 /\ pixel small_screen m' 1 2 = 0xfc /\ pixel small_screen m' 5 3 = 0xff /\ pixel small_screen m' 6 3 = 0.
Proof.
  destruct (fillrect_draws small_screen Ok {| fr_dx := 1; fr_dy := 2; fr_width := 5; fr_height := 2; fr_color := 0xff; fr_rop := ROP_XOR |} 0xff stripes stripes)
    as (m' & E & Hp & _); [exact small_pixels_ok|apply small_rect_ok; cbn; lia|reflexivity|unfold fits; cbn; lia|reflexivity|apply small_mapped; cbn; lia|].
  exists m'. split; [exact E|]. split_and!; rewrite Hp by (unfold on_line; cbn; lia); reflexivity.
Defined.
