(* ===== verification/FbBlit.v ===== *)
(** * Frame buffer: images

    Rows of pixels are collected into words; a monochrome image is expanded either pixel
    by pixel or, when it fits the words, through a table.  Both draw the image. *)

From S2P Require Import Prelude Fb FbBits FbFill FbPixel.

Section Blit.

Context {M : Type} `{VramLaws M}.
Variable p : fb_info.
Implicit Type m : M.

Hypothesis Hdepth : depth (bits_per_pixel p).

(** The bits of a row of colours from bit [s]. *)
Definition row_bits (colors : list Z) (s b : Z) : bool :=
  Z.testbit (nth (Z.to_nat ((b - s) / bits_per_pixel p)) colors 0) ((b - s) mod bits_per_pixel p).

Lemma row_bits_cons c colors s b : s + bits_per_pixel p <= b -> row_bits (c :: colors) s b = row_bits colors (s + bits_per_pixel p) b.
Proof.
  intros Hb. destruct (depth_bounds _ Hdepth) as [Hd _]. unfold row_bits. set (bpp := bits_per_pixel p) in *.
  replace (b - s) with (b - (s + bpp) + 1 * bpp) by lia. rewrite Z.div_add, Z.mod_add by lia.
  pose proof (Z.div_pos (b - (s + bpp)) bpp ltac:(lia) ltac:(lia)). now replace (Z.to_nat ((b - (s + bpp)) / bpp + 1)) with (S (Z.to_nat ((b - (s + bpp)) / bpp))) by lia.
Qed.

Lemma row_bits_head c colors s b : s <= b < s + bits_per_pixel p -> row_bits (c :: colors) s b = Z.testbit c (b - s).
Proof. intros Hb. unfold row_bits. rewrite Z.div_small, Z.mod_small by lia. reflexivity. Qed.

(** Words are stored when they are full; [val] has the bits below [shift] of the next one. *)
Lemma put_pixels_spec colors : forall dst shift val m g,
  Forall (fits (bits_per_pixel p)) colors -> 0 <= shift < 32 -> shift mod bits_per_pixel p = 0 -> fits shift val ->
  (forall k, 0 <= k < shift -> Z.testbit val k = g (32 * dst + k)) ->
  (forall b, 32 * dst + shift <= b < 32 * dst + shift + Z.of_nat (length colors) * bits_per_pixel p -> row_bits colors (32 * dst + shift) b = g b) ->
  mapped_bits p (32 * dst + shift) (Z.of_nat (length colors) * bits_per_pixel p) ->
  exists dst' shift' val' m', put_pixels p colors dst shift val m = Ok (dst', shift', val', m')
    /\ 32 * dst' + shift' = 32 * dst + shift + Z.of_nat (length colors) * bits_per_pixel p /\ dst <= dst'
    /\ 0 <= shift' < 32 /\ fits shift' val'
    /\ (forall k, 0 <= k < shift' -> Z.testbit val' k = g (32 * dst' + k))
    /\ (forall b, bit m' b = if range (32 * dst) (32 * (dst' - dst)) b then g b else bit m b)
    /\ writes (words_of (range (32 * dst + shift) (Z.of_nat (length colors) * bits_per_pixel p))) m m'.
Proof.
  destruct (depth_bounds _ Hdepth) as [Hd Hmod]. set (bpp := bits_per_pixel p) in *.
  induction colors as [|c colors IH]; intros dst shift val m g Hf Hs Hsm Hv Hval Hrow Hm.
  { cbn [put_pixels length]. exists dst, shift, val, m. split_and!; try reflexivity; try lia; try assumption; [|constructor].
    intros b. now rewrite (proj2 (range_false _ _ _)) by lia. }
  cbn [put_pixels]. apply Forall_cons in Hf as [Hc Hf]. change (length (c :: colors)) with (S (length colors)) in *. rewrite Nat2Z.inj_succ in *. unfold Z.succ in *.
  assert (Hfit : shift + bpp <= 32).
  { unfold bpp in *. clear - Hdepth Hs Hsm. revert Hsm Hs. generalize (bits_per_pixel p) Hdepth. intros w Hw Hsm Hs. cbn in Hw. repeat destruct Hw as [<-|Hw]; try destruct Hw; zdiv. }
  assert (Hval2 : forall k, 0 <= k < shift + bpp -> Z.testbit (val .| FB_SHIFT_HIGH c shift) k = g (32 * dst + k)).
  { intros k Hk. unfold FB_SHIFT_HIGH. rewrite Z.lor_spec, testbit_shl32 by lia. rewrite (proj2 (Z.ltb_lt k 32)) by lia. cbn [andb].
    destruct (Z.lt_ge_cases k shift).
    - rewrite Hval by lia. rewrite Z.testbit_neg_r by lia. apply orb_false_r.
    - rewrite (fits_testbit_high shift val k) by (try assumption; lia). cbn [orb]. rewrite <- Hrow by nia. rewrite row_bits_head by (fold bpp; lia). f_equal. lia. }
  assert (Hval3 : fits (shift + bpp) (val .| FB_SHIFT_HIGH c shift)).
  { apply fits_bits; [lia|apply Z.lor_nonneg; split; [unfold fits in Hv; lia|apply (is_u32_nonneg _ (shl32_u32 c shift))]|]. intros k Hk. unfold FB_SHIFT_HIGH.
    rewrite Z.lor_spec, testbit_shl32 by lia. rewrite (fits_testbit_high shift val k), (fits_testbit_high bpp c (k - shift)) by (try assumption; lia). apply andb_false_r. }
  set (val2 := val .| FB_SHIFT_HIGH c shift) in *. change 31 with (Z.ones 5). rewrite Z.land_ones by lia. change (2 ^ 5) with 32. fold bpp.
  destruct (Z.leb_spec (32 - bpp) shift) as [Hfull|Hpart].
  - assert (E : shift = 32 - bpp) by lia. assert (Eb : shift + bpp = 32) by lia. rewrite Eb in *. unfold fb_writel.
    rewrite (mapped_word p _ _ dst shift Hm) by nia. cbn [rbind]. rewrite (proj2 (Z.eqb_eq shift (32 - bpp)) E). change (32 mod 32) with 0.
    assert (Hrow2 : forall b, 32 * (dst + 1) + 0 <= b < 32 * (dst + 1) + 0 + Z.of_nat (length colors) * bpp -> row_bits colors (32 * (dst + 1) + 0) b = g b).
    { intros b Hb. rewrite <- Hrow by lia. rewrite row_bits_cons by (fold bpp; lia). f_equal. fold bpp. lia. }
    destruct (IH (dst + 1) 0 0 (vwrite dst val2 m) g Hf) as (d' & s' & v' & m' & E1 & E2 & E3 & E4 & E5 & E6 & E7 & E8); try lia.
    + apply Z.mod_0_l. lia.
    + unfold fits. lia.
    + exact Hrow2.
    + apply (mapped_sub _ _ _ _ _ Hm); lia.
    + exists d', s', v', m'. split; [exact E1|]. split_and!; try assumption; try lia.
      * intros b. rewrite E7, bit_vwrite by exact Hval3. destruct (range (32 * (dst + 1)) (32 * (d' - (dst + 1))) b) eqn:Er.
        -- apply range_true in Er. now rewrite (proj2 (range_true _ _ _)) by lia.
        -- apply range_false in Er. destruct (Z.eqb_spec (b / 32) dst) as [<-|Hne].
           ++ rewrite (proj2 (range_true _ _ _)) by zdiv. rewrite Hval2 by zdiv. f_equal. zdiv.
           ++ rewrite (proj2 (range_false _ _ _)) by zdiv. reflexivity.
      * eapply (writes_cons _ dst); [exists (32 * dst + shift); split; [apply range_true; nia|zdiv]|exact Hval3|].
        apply (writes_weaken (words_of (range (32 * (dst + 1) + 0) (Z.of_nat (length colors) * bpp)))); [|exact E8].
        intros a (b & Hb & <-). exists b. split; [|reflexivity]. apply range_true in Hb. apply range_true. lia.
  - rewrite Z.mod_small by lia.
    assert (Hrow2 : forall b, 32 * dst + (shift + bpp) <= b < 32 * dst + (shift + bpp) + Z.of_nat (length colors) * bpp -> row_bits colors (32 * dst + (shift + bpp)) b = g b).
    { intros b Hb. rewrite <- Hrow by lia. rewrite row_bits_cons by (fold bpp; lia). f_equal. fold bpp. lia. }
    destruct (IH dst (shift + bpp) val2 m g Hf) as (d' & s' & v' & m' & E1 & E2 & E3 & E4 & E5 & E6 & E7 & E8); try lia; try assumption.
    + rewrite Z.add_mod, Hsm, Z.mod_same by lia. apply Z.mod_0_l. lia.
    + apply (mapped_sub _ _ _ _ _ Hm); lia.
    + exists d', s', v', m'. split; [exact E1|]. split_and!; try assumption; try lia.
      apply (writes_weaken (words_of (range (32 * dst + (shift + bpp)) (Z.of_nat (length colors) * bpp)))); [|exact E8].
      intros a (b & Hb & <-). exists b. split; [|reflexivity]. apply range_true in Hb. apply range_true. lia.
Qed.

(** A row replaces exactly its bits. *)
Lemma blit_row_paint colors dst start m :
  Forall (fits (bits_per_pixel p)) colors -> colors <> [] -> 0 <= start < 32 -> start mod bits_per_pixel p = 0 ->
  mapped_bits p (32 * dst + start) (Z.of_nat (length colors) * bits_per_pixel p) ->
  exists m', blit_row p colors dst start m = Ok m'
    /\ paint over (row_bits colors (32 * dst + start)) (range (32 * dst + start) (Z.of_nat (length colors) * bits_per_pixel p)) m m'.
Proof.
  intros Hf Hne Hs Hsm Hm. destruct (depth_bounds _ Hdepth) as [Hd _]. unfold blit_row. set (n := Z.of_nat (length colors)) in *. set (bpp := bits_per_pixel p) in *.
  assert (Hn : 1 <= n) by (unfold n; destruct colors; [congruence|cbn [length]; lia]).
  assert (Hdst : mapped p dst = true) by (apply (mapped_word p _ _ dst start Hm); nia).
  set (g := fun b => if b <? 32 * dst + start then bit m b else row_bits colors (32 * dst + start) b).
  assert (Hv : exists val, (if start =? 0 then Ok 0 else let* d := fb_readl p dst m in Ok (d .& .~ shifted_mask start)) = Ok val /\ fits start val
                /\ forall k, 0 <= k < start -> Z.testbit val k = g (32 * dst + k)).
  { destruct (Z.eqb_spec start 0) as [->|Hs0]; [exists 0; split; [reflexivity|]; split; [unfold fits; lia|intros; lia]|].
    unfold fb_readl. rewrite Hdst. cbn [rbind]. eexists. split; [reflexivity|]. split.
    - apply fits_bits; [lia|apply Z.land_nonneg; left; apply is_u32_nonneg, vread_u32|]. intros k Hk. rewrite Z.land_spec.
      destruct (Z.lt_ge_cases k 32); [|rewrite (fits_testbit_high 32 _ k (ltac:(lia)) (vread_u32 dst m)) by lia; reflexivity].
      rewrite last_mask_testbit by lia. rewrite (proj2 (Z.ltb_ge k start)) by lia. apply andb_false_r.
    - intros k Hk. rewrite Z.land_spec, last_mask_testbit by lia. rewrite (proj2 (Z.ltb_lt k start)) by lia. rewrite andb_true_r. unfold g.
      rewrite (proj2 (Z.ltb_lt _ _)) by lia. unfold bit. f_equal; [f_equal|]; zdiv. }
  destruct Hv as (val & -> & Hvf & Hvg). cbn [rbind].
  destruct (put_pixels_spec colors dst start val m g Hf Hs Hsm Hvf Hvg) as (d' & s' & v' & m1 & E1 & E2 & E3 & E4 & E5 & E6 & E7 & E8).
  { intros b Hb. unfold g. now rewrite (proj2 (Z.ltb_ge _ _)) by lia. }
  { exact Hm. }
  fold n bpp in E2, E8. rewrite E1. cbn [rbind]. destruct (Z.eqb_spec s' 0) as [->|Hs'].
  - exists m1. split; [reflexivity|]. split; [|exact E8]. intros b. rewrite E7. unfold over, g.
    destruct (range (32 * dst) (32 * (d' - dst)) b) eqn:Er; [apply range_true in Er|apply range_false in Er].
    + destruct (Z.ltb_spec b (32 * dst + start)); [now rewrite (proj2 (range_false _ _ _)) by lia|]. now rewrite (proj2 (range_true _ _ _)) by lia.
    + now rewrite (proj2 (range_false _ _ _)) by lia.
  - assert (Hd' : mapped p d' = true).
    { destruct (Z.eq_dec d' dst) as [->|]; [exact Hdst|]. apply (mapped_word p _ _ d' 0 Hm); lia. }
    unfold fb_readl, fb_writel. rewrite Hd'. cbn [rbind]. eexists. split; [reflexivity|].
    assert (Hu : is_u32 ((vread d' m1 .& shifted_mask s') .| v')).
    { apply lor_u32; [apply land_u32; [apply vread_u32|apply shifted_mask_u32]|]. unfold fits in *. pose proof (Z.pow_le_mono_r 2 s' 32). lia. }
    split.
    + intros b. rewrite bit_vwrite, E7 by exact Hu. unfold over. destruct (Z.eqb_spec (b / 32) d') as [E|Hne'].
      * rewrite Z.lor_spec, Z.land_spec, shifted_mask_testbit by zdiv. destruct (Z.leb_spec s' (b mod 32)).
        -- rewrite (fits_testbit_high s' v' (b mod 32)) by (try assumption; lia). rewrite andb_true_r, orb_false_r.
           pose proof (E7 b) as Eb. rewrite (proj2 (range_false (32 * dst) _ b)) in Eb by zdiv. unfold bit in Eb at 1. rewrite E in Eb. rewrite Eb.
           now rewrite (proj2 (range_false _ _ _)) by zdiv.
        -- rewrite andb_false_r. cbn [orb]. rewrite E6 by zdiv. replace (32 * d' + b mod 32) with b by zdiv. unfold g.
           destruct (Z.ltb_spec b (32 * dst + start)); [now rewrite (proj2 (range_false _ _ _)) by lia|]. now rewrite (proj2 (range_true _ _ _)) by zdiv.
      * destruct (range (32 * dst) (32 * (d' - dst)) b) eqn:Er; [apply range_true in Er|apply range_false in Er]; unfold g.
        -- destruct (Z.ltb_spec b (32 * dst + start)); [now rewrite (proj2 (range_false _ _ _)) by lia|]. now rewrite (proj2 (range_true _ _ _)) by lia.
        -- now rewrite (proj2 (range_false _ _ _)) by zdiv.
    + apply (writes_trans _ _ m1); [exact E8|]. econstructor; [|exact Hu|constructor]. destruct (Z.eq_dec d' dst) as [->|].
      * exists (32 * dst + start). split; [apply range_true; nia|zdiv].
      * exists (32 * d'). split; [apply range_true; lia|zdiv].
Qed.

(** *** Rows *)

(** [g] has the colours of a row of [n] pixels from bit [s]. *)
Definition shows (color : Z -> Z) (s n : Z) (g : Z -> bool) : Prop :=
  forall j k, 0 <= j < n -> 0 <= k < bits_per_pixel p -> g (s + j * bits_per_pixel p + k) = Z.testbit (color j) k.

Lemma shows_range color s n g b : shows color s n g -> range s (n * bits_per_pixel p) b = true ->
  g b = Z.testbit (color ((b - s) / bits_per_pixel p)) ((b - s) mod bits_per_pixel p).
Proof.
  intros Hg Hb. apply range_true in Hb. destruct (depth_bounds _ Hdepth) as [Hd _]. set (bpp := bits_per_pixel p) in *. rewrite <- Hg.
  - f_equal. pose proof (Z.div_mod (b - s) bpp). fold bpp. lia.
  - split; [apply Z.div_pos; lia|apply Z.div_lt_upper_bound; lia].
  - apply Z.mod_pos_bound. fold bpp. lia.
Qed.

Lemma blit_row_shows colors dst start m g :
  Forall (fits (bits_per_pixel p)) colors -> colors <> [] -> 0 <= start < 32 -> start mod bits_per_pixel p = 0 ->
  shows (fun j => nth (Z.to_nat j) colors 0) (32 * dst + start) (Z.of_nat (length colors)) g ->
  mapped_bits p (32 * dst + start) (Z.of_nat (length colors) * bits_per_pixel p) ->
  exists m', blit_row p colors dst start m = Ok m' /\ paint over g (range (32 * dst + start) (Z.of_nat (length colors) * bits_per_pixel p)) m m'.
Proof.
  intros Hf Hne Hs Hsm Hg Hm. destruct (blit_row_paint colors dst start m Hf Hne Hs Hsm Hm) as (m' & E & P). exists m'. split; [exact E|].
  apply (paint_ext over (row_bits colors (32 * dst + start)) g _ _ _ _ (fun b => eq_refl)); [|exact P].
  intros b Hb. rewrite (shows_range _ _ _ g b Hg Hb). reflexivity.
Qed.

Lemma blit_rows_shows g w rows : forall dst1 dst2 start m,
  dst1 mod 4 = 0 -> 0 <= dst1 -> 0 < line_length p -> line_length p mod 4 = 0 -> 0 <= start < 32 -> start mod bits_per_pixel p = 0 -> 0 < w ->
  w * bits_per_pixel p <= line_length p * 8 -> dst1 + Z.of_nat (length rows) * line_length p < 2 ^ 32 ->
  Forall (fun row => Forall (fits (bits_per_pixel p)) row /\ Z.of_nat (length row) = w) rows ->
  (forall i, 0 <= i < Z.of_nat (length rows) ->
    shows (fun j => nth (Z.to_nat j) (nth (Z.to_nat i) rows []) 0) (8 * dst1 + start + i * (line_length p * 8)) w g) ->
  mapped_rect p (8 * dst1 + start) (w * bits_per_pixel p) (Z.of_nat (length rows)) ->
  exists m', blit_rows p rows dst1 dst2 start 0 m = Ok m'
    /\ paint over g (rect_bits (8 * dst1 + start) (line_length p * 8) (w * bits_per_pixel p) (Z.of_nat (length rows))) m m'.
Proof.
  destruct (depth_bounds _ Hdepth) as [Hd _]. induction rows as [|row rows IH]; intros dst1 dst2 start m Ha Hpos Hl Hla Hs Hsm Hw Hwl Hend Hf Hg Hm; cbn [blit_rows].
  - exists m. split; [reflexivity|]. apply paint_nothing. intros b. apply rect_bits_0. lia.
  - apply Forall_cons in Hf as [[Hf Hlen] Hfs]. change (length (row :: rows)) with (S (length rows)) in *. rewrite Nat2Z.inj_succ in *. unfold Z.succ in *.
    rewrite (proj2 (Z.eqb_eq _ _) Ha). cbn [negb]. assert (Es : 32 * (dst1 / 4) + start = 8 * dst1 + start) by zdiv.
    destruct (blit_row_shows row (dst1 / 4) start m g Hf) as (m1 & E1 & P1); try assumption.
    + intros ->. cbn in Hlen. lia.
    + rewrite Es, Hlen. intros j k Hj Hk. pose proof (Hg 0 ltac:(lia) j k Hj Hk) as Hjk. change (nth (Z.to_nat 0) (row :: rows) []) with row in Hjk. rewrite <- Hjk. f_equal. lia.
    + rewrite Es, Hlen. replace (8 * dst1 + start) with (8 * dst1 + start + 0 * (line_length p * 8)) by lia. apply Hm. lia.
    + rewrite E1. cbn [rbind]. rewrite Z.eqb_refl, u32_id by (unfold fits; nia). rewrite Es, Hlen in P1.
      assert (Es2 : 8 * (dst1 + line_length p) + start = 8 * dst1 + start + line_length p * 8) by lia.
      destruct (IH (dst1 + line_length p) dst2 start m1) as (m2 & E2 & P2); try assumption; try lia; [zdiv| | |].
      * intros i Hi j k Hj Hk. pose proof (Hg (i + 1) ltac:(lia) j k Hj Hk) as Hjk. replace (Z.to_nat (i + 1)) with (S (Z.to_nat i)) in Hjk by lia.
        cbn [nth] in Hjk. rewrite <- Hjk. f_equal. lia.
      * rewrite Es2. now apply mapped_rect_tail.
      * exists m2. split; [exact E2|]. rewrite Es2 in P2. apply (paint_rect_S over g _ _ _ _ m m1 m2); try assumption; lia.
Qed.

End Blit.
