(* ===== verification/FbImage.v ===== *)
(** * Frame buffer: what drawing an image shows

    The colour of every pixel of an image, the table-driven expansion of monochrome rows
    and the effect of [cfb_imageblit] on the screen. *)

From S2P Require Import Prelude Fb FbBits FbFill FbPixel FbBlit.

Lemma nth_map_seq {A} (f : nat -> A) n i d : (i < n)%nat -> nth i (map f (seq 0 n)) d = f i.
Proof.
  intros Hi. rewrite (nth_indep _ d (f 0%nat)) by now rewrite length_map, length_seq. rewrite (map_nth f), seq_nth by exact Hi. reflexivity.
Qed.

Section Image.

Context {M : Type} `{VramLaws M}.
Variable p : fb_info.
Variable image : fb_image.
Implicit Type m : M.

Definition spitch : Z := (im_width image + 7) / 8.
Definition byte_at (i : Z) : Z := nth (Z.to_nat i) (im_data image) 0.

(** The colour of pixel [j] of the monochrome row at byte [src]. *)
Definition mono_color (fg bg src j : Z) : Z := if Z.testbit (byte_at (src + j / 8)) (7 - j mod 8) then fg else bg.
Definition byte_color (i : Z) : Z := match color_of p (byte_at i) with Ok c => c | Fault _ => 0 end.

(** The colour of the pixel in column [x] of row [y]. *)
Definition image_color (fg bg x y : Z) : Z :=
  if im_depth image =? 1 then mono_color fg bg (y * spitch) x else byte_color (y * im_width image + x).

Lemma image_byte_at i : 0 <= i < Z.of_nat (length (im_data image)) -> image_byte image i = Ok (byte_at i).
Proof. intros Hi. unfold image_byte, byte_at. rewrite (nth_error_nth' _ 0) by lia. reflexivity. Qed.

Lemma mono_row_spec fg bg n : forall src j,
  0 <= src -> 0 <= j -> 8 * src + j + Z.of_nat n <= 8 * Z.of_nat (length (im_data image)) ->
  mono_row image fg bg n src j = Ok (map (fun i => mono_color fg bg src (j + Z.of_nat i)) (seq 0 n)).
Proof.
  induction n as [|n IH]; intros src j Hs Hj Hl; [reflexivity|]. cbn [mono_row]. rewrite image_byte_at by zdiv. cbn [rbind].
  rewrite IH by lia. cbn [rbind seq map]. f_equal. f_equal; [unfold mono_color; now rewrite Z.add_0_r|].
  rewrite <- seq_shift, map_map. apply map_ext. intros i. f_equal. lia.
Qed.

Definition mono_table (fg bg src : Z) (n : nat) : list (list Z) :=
  map (fun i => map (fun j => mono_color fg bg (src + Z.of_nat i * spitch) (Z.of_nat j)) (seq 0 (Z.to_nat (im_width image)))) (seq 0 n).

Lemma mono_rows_spec fg bg n : forall src,
  0 <= src -> 0 <= im_width image -> src + Z.of_nat n * spitch <= Z.of_nat (length (im_data image)) ->
  mono_rows image fg bg n src = Ok (mono_table fg bg src n).
Proof.
  assert (Hsp : 8 * spitch >= im_width image) by (unfold spitch; zdiv). unfold mono_table.
  induction n as [|n IH]; intros src Hs Hw Hl; [reflexivity|]. cbn [mono_rows]. assert (0 <= spitch) by lia. rewrite mono_row_spec by nia. cbn [rbind].
  fold spitch. rewrite IH by lia. cbn [rbind seq map]. f_equal. f_equal.
  - apply map_ext. intros i. f_equal; lia.
  - rewrite <- seq_shift, map_map. apply map_ext. intros i. apply map_ext. intros k. f_equal. lia.
Qed.

Lemma color_row_spec n : forall src,
  0 <= src -> src + Z.of_nat n <= Z.of_nat (length (im_data image)) ->
  (forall i, src <= i < src + Z.of_nat n -> exists c, color_of p (byte_at i) = Ok c) ->
  color_row p image n src = Ok (map (fun i => byte_color (src + Z.of_nat i)) (seq 0 n)).
Proof.
  induction n as [|n IH]; intros src Hs Hl Hc; [reflexivity|]. cbn [color_row]. rewrite image_byte_at by lia. cbn [rbind].
  destruct (Hc src ltac:(lia)) as (c & Ec). rewrite Ec. cbn [rbind]. rewrite IH by (try lia; intros; apply Hc; lia). cbn [rbind seq map].
  f_equal. f_equal; [unfold byte_color; now rewrite Z.add_0_r, Ec|]. rewrite <- seq_shift, map_map. apply map_ext. intros i. f_equal. lia.
Qed.

Definition color_table (src : Z) (n : nat) : list (list Z) :=
  map (fun i => map (fun j => byte_color (src + Z.of_nat i * im_width image + Z.of_nat j)) (seq 0 (Z.to_nat (im_width image)))) (seq 0 n).

Lemma color_rows_spec n : forall src,
  0 <= src -> 0 <= im_width image -> src + Z.of_nat n * im_width image <= Z.of_nat (length (im_data image)) ->
  (forall i, src <= i < src + Z.of_nat n * im_width image -> exists c, color_of p (byte_at i) = Ok c) ->
  color_rows p image n src = Ok (color_table src n).
Proof.
  unfold color_table. induction n as [|n IH]; intros src Hs Hw Hl Hc; [reflexivity|]. cbn [color_rows]. rewrite color_row_spec by (try nia; intros; apply Hc; nia). cbn [rbind].
  rewrite IH by (try lia; intros; apply Hc; lia). cbn [rbind seq map]. f_equal. f_equal.
  - apply map_ext. intros i. f_equal. lia.
  - rewrite <- seq_shift, map_map. apply map_ext. intros i. apply map_ext. intros k. f_equal. lia.
Qed.

(** The bits of the image at bit [s] of the screen. *)
Definition image_bits (fg bg s b : Z) : bool :=
  let l := line_length p * 8 in let bpp := bits_per_pixel p in
  Z.testbit (image_color fg bg ((b - s) mod l / bpp) ((b - s) / l)) ((b - s) mod l mod bpp).

Lemma image_bits_at fg bg s i j k :
  0 <= i -> 0 <= j < im_width image -> 0 <= k < bits_per_pixel p -> im_width image * bits_per_pixel p <= line_length p * 8 ->
  image_bits fg bg s (s + i * (line_length p * 8) + j * bits_per_pixel p + k) = Z.testbit (image_color fg bg j i) k.
Proof.
  intros Hi Hj Hk Hw. unfold image_bits. set (l := line_length p * 8) in *. set (bpp := bits_per_pixel p) in *.
  replace (s + i * l + j * bpp + k - s) with (j * bpp + k + i * l) by lia. rewrite Z.div_add, Z.mod_add by nia.
  rewrite (Z.div_small (j * bpp + k) l), (Z.mod_small (j * bpp + k) l) by nia. replace (j * bpp + k) with (k + j * bpp) by lia.
  rewrite Z.div_add, Z.mod_add by lia. rewrite Z.div_small, Z.mod_small by lia. reflexivity.
Qed.

(** *** The table *)

Lemma tab_testbit tab bpp idx k :
  In (bpp, tab) [(8, cfb_tab8_le); (16, cfb_tab16_le); (32, cfb_tab32)] -> 0 <= idx < 2 ^ (32 / bpp) -> 0 <= k < 32 ->
  0 <= nth (Z.to_nat idx) tab 0 /\ Z.testbit (nth (Z.to_nat idx) tab 0) k = Z.testbit idx (32 / bpp - 1 - k / bpp).
Proof.
  assert (Hall : forallb (fun '(bpp, tab) => forallb (fun i => (0 <=? nth i tab 0) && forallb (fun k => Bool.eqb (Z.testbit (nth i tab 0) (Z.of_nat k)) (Z.testbit (Z.of_nat i) (32 / bpp - 1 - Z.of_nat k / bpp))) (seq 0 32))
    (seq 0 (Z.to_nat (2 ^ (32 / bpp))))) [(8, cfb_tab8_le); (16, cfb_tab16_le); (32, cfb_tab32)] = true) by (vm_compute; reflexivity).
  intros Hin Hi Hk. rewrite forallb_forall in Hall. specialize (Hall _ Hin). cbv beta iota in Hall. rewrite forallb_forall in Hall.
  specialize (Hall (Z.to_nat idx) ltac:(apply in_seq; lia)). apply andb_true_iff in Hall as [H1 H2]. split; [lia|].
  rewrite forallb_forall in H2. specialize (H2 (Z.to_nat k) ltac:(apply in_seq; lia)). rewrite !Z2Nat.id in H2 by lia. now apply eqb_prop.
Qed.

Lemma spread_testbit color n : forall q x, fits (bits_per_pixel p) color -> 0 < bits_per_pixel p -> 0 <= q -> (q + Z.of_nat n) * bits_per_pixel p <= 32 ->
  (forall k, 0 <= k < q * bits_per_pixel p -> Z.testbit x k = Z.testbit color (k mod bits_per_pixel p)) ->
  forall k, 0 <= k < (q + Z.of_nat n) * bits_per_pixel p -> Z.testbit (spread p n color x) k = Z.testbit color (k mod bits_per_pixel p).
Proof.
  set (bpp := bits_per_pixel p). induction n as [|n IH]; intros q x Hc Hb Hq Hl Hx k Hk; cbn [spread]; [apply Hx; lia|].
  apply (IH (q + 1)); try lia; try assumption. intros i Hi. fold bpp. rewrite Z.lor_spec, testbit_shl32 by lia. rewrite (proj2 (Z.ltb_lt i 32)) by nia. cbn [andb].
  destruct (Z.lt_ge_cases i bpp).
  - rewrite Z.testbit_neg_r by lia. rewrite Z.mod_small by lia. reflexivity.
  - rewrite (fits_testbit_high bpp color i), orb_false_r by (try assumption; lia). rewrite Hx by lia. f_equal.
    replace (i - bpp) with (i + (-1) * bpp) by lia. apply Z.mod_add. lia.
Qed.

Lemma spread_u32 color n x : is_u32 color -> is_u32 x -> is_u32 (spread p n color x).
Proof. intros Hc. revert x. induction n as [|n IH]; intros x Hx; cbn [spread]; [exact Hx|]. apply IH. auto with u32. Qed.

(** *** The fast path *)

(** Groups of [w] bits in a byte. *)
Lemma bit_groups j w : w = 1 \/ w = 2 \/ w = 4 -> 0 <= j -> j mod w = 0 ->
  0 <= 8 - j mod 8 - w /\ (j + w) mod w = 0
  /\ (8 - j mod 8 - w = 0 -> (j + w) / 8 = j / 8 + 1 /\ (j + w) mod 8 = 0)
  /\ (8 - j mod 8 - w <> 0 -> (j + w) / 8 = j / 8 /\ (j + w) mod 8 = j mod 8 + w)
  /\ (forall q, 0 <= q < w -> (j + q) / 8 = j / 8 /\ (j + q) mod 8 = j mod 8 + q).
Proof. intros [-> |[-> | ->]] Hj Hm; (split; [zdiv|]; split; [zdiv|]; split; [split; zdiv|]; split; [split; zdiv|split; zdiv]). Qed.

Section Fast.

Variables (fg bg : Z) (tab : list Z).
Let bpp := bits_per_pixel p.
Let ppw := 32 / bpp.
Let bgx := spread p (Z.to_nat (ppw - 1)) bg bg.
Let eorx := Z.lxor (spread p (Z.to_nat (ppw - 1)) fg fg) bgx.

Hypotheses (Htab : In (bpp, tab) [(8, cfb_tab8_le); (16, cfb_tab16_le); (32, cfb_tab32)]) (Hfg : fits bpp fg) (Hbg : fits bpp bg).

Lemma ppw_values : bpp * ppw = 32 /\ (ppw = 1 \/ ppw = 2 \/ ppw = 4) /\ 8 <= bpp <= 32.
Proof. cbn in Htab. unfold ppw. destruct Htab as [[= <- _]|[[= <- _]|[[= <- _]|[]]]]; (split; [reflexivity|split; [tauto|lia]]). Qed.

Lemma spread_pattern color k : fits bpp color -> 0 <= k < 32 -> Z.testbit (spread p (Z.to_nat (ppw - 1)) color color) k = Z.testbit color (k mod bpp).
Proof.
  intros Hc Hk. destruct ppw_values as (Hp & Hv & Hb). apply (spread_testbit color (Z.to_nat (ppw - 1)) 1); fold bpp; try assumption; try lia.
  intros i Hi. now rewrite Z.mod_small by lia.
Qed.

(** A word of the fast path. *)
Lemma fast_word_testbit byte shift k : 0 <= shift -> 0 <= k < 32 ->
  let v := Z.lxor (nth (Z.to_nat ((byte .>> shift) .& ((1 .<< ppw) - 1))) tab 0 .& eorx) bgx in
  is_u32 v /\ Z.testbit v k = Z.testbit (if Z.testbit byte (shift + ppw - 1 - k / bpp) then fg else bg) (k mod bpp).
Proof.
  intros Hs Hk v. destruct ppw_values as (Hp & Hv & Hb). assert (E1 : (1 .<< ppw) - 1 = Z.ones ppw) by (destruct Hv as [-> |[-> | ->]]; reflexivity).
  set (idx := (byte .>> shift) .& ((1 .<< ppw) - 1)) in *. assert (Ei : idx = (byte .>> shift) mod 2 ^ ppw) by (unfold idx; rewrite E1, Z.land_ones by lia; reflexivity).
  assert (Hi : 0 <= idx < 2 ^ ppw) by (rewrite Ei; apply Z.mod_pos_bound; destruct Hv as [-> |[-> | ->]]; reflexivity).
  destruct (tab_testbit tab bpp idx k Htab Hi Hk) as [H1 H2]. fold ppw in H2.
  assert (Hub : is_u32 bg /\ is_u32 fg) by (split; apply (fits_weaken bpp); auto; lia).
  assert (Hux : is_u32 bgx) by (apply spread_u32; apply Hub). assert (Hue : is_u32 eorx) by (apply lxor_u32; [apply spread_u32; apply Hub|exact Hux]).
  split; [unfold v; apply lxor_u32; [rewrite Z.land_comm; now apply land_u32_l|exact Hux]|].
  unfold v. rewrite Z.lxor_spec, Z.land_spec, H2. unfold eorx. rewrite Z.lxor_spec. unfold bgx. rewrite !spread_pattern by assumption.
  assert (Hq : 0 <= k / bpp < ppw) by (split; [apply Z.div_pos; lia|apply Z.div_lt_upper_bound; lia]).
  rewrite Ei, Z.mod_pow2_bits_low by lia. rewrite testbit_shr by lia. replace (ppw - 1 - k / bpp + shift) with (shift + ppw - 1 - k / bpp) by lia.
  destruct (Z.testbit byte _), (Z.testbit fg _), (Z.testbit bg _); reflexivity.
Qed.

Lemma fast_row_shows g s n : forall j dst m,
  0 <= s -> 0 <= j -> j mod ppw = 0 -> 8 * s + j + Z.of_nat n * ppw <= 8 * Z.of_nat (length (im_data image)) ->
  shows p (fun i => mono_color fg bg s (j + i)) (32 * dst) (Z.of_nat n * ppw) g -> mapped_bits p (32 * dst) (Z.of_nat n * 32) ->
  exists m', fast_row p image tab ppw eorx bgx n (s + j / 8) (8 - j mod 8) dst m = Ok m' /\ paint over g (range (32 * dst) (Z.of_nat n * 32)) m m'.
Proof.
  destruct ppw_values as (Hp & Hv & Hb). induction n as [|n IH]; intros j dst m Hs Hj Hjm Hl Hg Hm; cbn [fast_row].
  - exists m. split; [reflexivity|]. apply paint_nothing. intros b. apply range_false. lia.
  - rewrite Nat2Z.inj_succ in *. unfold Z.succ in *. rewrite image_byte_at by zdiv. cbn [rbind]. unfold fb_writel.
    rewrite (mapped_word p _ _ dst 0 Hm) by lia. cbn [rbind]. set (shift := 8 - j mod 8 - ppw).
    destruct (bit_groups j ppw Hv Hj Hjm) as (Hsh & Hjm2 & Hfull & Hpart & Hq8). fold shift in Hsh, Hfull, Hpart.
    set (v := Z.lxor _ bgx).
    assert (Hw : is_u32 v /\ forall k, 0 <= k < 32 -> Z.testbit v k = Z.testbit (if Z.testbit (byte_at (s + j / 8)) (shift + ppw - 1 - k / bpp) then fg else bg) (k mod bpp)).
    { split; [exact (proj1 (fast_word_testbit (byte_at (s + j / 8)) shift 0 Hsh ltac:(lia)))|intros k Hk; exact (proj2 (fast_word_testbit (byte_at (s + j / 8)) shift k Hsh Hk))]. }
    destruct Hw as [Hvu Hvb].
    assert (P1 : paint over g (range (32 * dst) 32) m (vwrite dst v m)).
    { replace (32 * dst) with (32 * dst + 0) by lia. apply (paint_word over g dst 0 32); try lia; [exact Hvu|]. intros k Hk. rewrite Hvb by exact Hk. unfold over.
      assert (Hq : 0 <= k / bpp < ppw) by (split; [apply Z.div_pos; lia|apply Z.div_lt_upper_bound; lia]). pose proof (Z.mod_pos_bound k bpp ltac:(lia)) as Hkm.
      rewrite (proj2 (Z.leb_le 0 k)), (proj2 (Z.ltb_lt k 32)) by lia. cbn [andb].
      pose proof (Hg (k / bpp) (k mod bpp) ltac:(nia) Hkm) as Hgk. fold bpp in Hgk. replace (32 * dst + k / bpp * bpp + k mod bpp) with (32 * dst + k) in Hgk by (pose proof (Z.div_mod k bpp); lia).
      rewrite Hgk. f_equal. unfold mono_color. assert (E : s + (j + k / bpp) / 8 = s + j / 8 /\ 7 - (j + k / bpp) mod 8 = shift + ppw - 1 - k / bpp).
      { destruct (Hq8 _ Hq) as [-> ->]. unfold shift. lia. }
      destruct E as [-> ->]. reflexivity. }
    set (m1 := vwrite dst v m) in *.
    assert (Hstep : exists m', (if shift =? 0 then fast_row p image tab ppw eorx bgx n (s + j / 8 + 1) 8 (dst + 1) m1 else fast_row p image tab ppw eorx bgx n (s + j / 8) shift (dst + 1) m1) = Ok m'
      /\ paint over g (range (32 * (dst + 1)) (Z.of_nat n * 32)) m1 m').
    { destruct (IH (j + ppw) (dst + 1) m1) as (m' & E & P); try assumption; try lia.
      - intros i k Hi Hk. pose proof (Hg (ppw + i) k ltac:(lia) Hk) as Hgi. fold bpp in Hgi |- *. cbv beta in Hgi. rewrite Z.add_assoc in Hgi. rewrite <- Hgi. f_equal. lia.
      - apply (mapped_sub _ _ _ _ _ Hm); lia.
      - exists m'. split; [|exact P]. rewrite <- E. destruct (Z.eqb_spec shift 0) as [E0|E0].
        + destruct (Hfull E0) as [-> ->]. f_equal. lia.
        + destruct (Hpart E0) as [-> ->]. f_equal. unfold shift. lia. }
    destruct Hstep as (m' & E & P2). exists m'. split; [exact E|]. replace ((Z.of_nat n + 1) * 32) with (32 + Z.of_nat n * 32) by lia.
    apply (paint_seq_range over g _ 32 _ m m1); try lia; [exact P1|]. now replace (32 * dst + 32) with (32 * (dst + 1)) by lia.
Qed.

Lemma fast_rows_shows g n : forall s dst1 m,
  0 <= s -> 0 <= im_width image -> im_width image mod ppw = 0 -> s + Z.of_nat n * spitch <= Z.of_nat (length (im_data image)) ->
  dst1 mod 4 = 0 -> 0 <= dst1 -> 0 < line_length p -> line_length p mod 4 = 0 -> im_width image * bpp <= line_length p * 8 ->
  dst1 + Z.of_nat n * line_length p < 2 ^ 32 ->
  (forall i, 0 <= i < Z.of_nat n -> shows p (mono_color fg bg (s + i * spitch)) (8 * dst1 + i * (line_length p * 8)) (im_width image) g) ->
  mapped_rect p (8 * dst1) (im_width image * bpp) (Z.of_nat n) ->
  exists m', fast_rows p image tab ppw eorx bgx n s dst1 m = Ok m' /\ paint over g (rect_bits (8 * dst1) (line_length p * 8) (im_width image * bpp) (Z.of_nat n)) m m'.
Proof.
  destruct ppw_values as (Hp & Hv & Hb). assert (Hsp : 8 * spitch >= im_width image) by (unfold spitch; zdiv).
  induction n as [|n IH]; intros s dst1 m Hs Hw Hwm Hl Ha Hpos Hll Hla Hwl Hend Hg Hm; cbn [fast_rows].
  - exists m. split; [reflexivity|]. apply paint_nothing. intros b. apply rect_bits_0. lia.
  - rewrite Nat2Z.inj_succ in *. unfold Z.succ in *. rewrite (proj2 (Z.eqb_eq _ _) Ha). cbn [negb]. assert (Es : 32 * (dst1 / 4) = 8 * dst1) by zdiv.
    assert (Ew : Z.of_nat (Z.to_nat (im_width image / ppw)) * ppw = im_width image).
    { rewrite Z2Nat.id by (apply Z.div_pos; lia). pose proof (Z.div_mod (im_width image) ppw). lia. }
    assert (Ew2 : Z.of_nat (Z.to_nat (im_width image / ppw)) * 32 = im_width image * bpp) by (rewrite <- Ew at 2; lia).
    destruct (fast_row_shows g s (Z.to_nat (im_width image / ppw)) 0 (dst1 / 4) m) as (m1 & E1 & P1); try lia.
    + apply Z.mod_0_l. lia.
    + rewrite Ew, Es. intros j k Hj Hk. pose proof (Hg 0 ltac:(lia) j k Hj Hk) as Hjk. rewrite !Z.mul_0_l, !Z.add_0_r in Hjk. rewrite Hjk. reflexivity.
    + rewrite Es, Ew2. replace (8 * dst1) with (8 * dst1 + 0 * (line_length p * 8)) by lia. apply Hm. lia.
    + rewrite Z.div_0_l, Z.mod_0_l, Z.add_0_r in E1 by lia. change (8 - 0) with 8 in E1. fold spitch. rewrite E1. cbn [rbind].
      rewrite u32_id by (unfold fits; nia). rewrite Es, Ew2 in P1. assert (Es2 : 8 * (dst1 + line_length p) = 8 * dst1 + line_length p * 8) by lia.
      destruct (IH (s + spitch) (dst1 + line_length p) m1) as (m2 & E2 & P2); try assumption; try lia; [zdiv| | |].
      * intros i Hi j k Hj Hk. pose proof (Hg (i + 1) ltac:(lia) j k Hj Hk) as Hjk. replace (s + spitch + i * spitch) with (s + (i + 1) * spitch) by lia. rewrite <- Hjk. f_equal. lia.
      * rewrite Es2. now apply mapped_rect_tail.
      * exists m2. split; [exact E2|]. rewrite Es2 in P2. apply (paint_rect_S over g _ _ _ _ m m1 m2); try assumption; lia.
Qed.

End Fast.

(** *** The whole image *)

Variable fb_sync : M -> result M.

(** The colours of an image are those of the screen, and its data are all there. *)
Record image_ok (fg bg : Z) : Prop := {
  ik_rect : rect_ok p (im_dx image) (im_dy image) (im_width image) (im_height image);
  ik_width : 0 < im_width image;
  ik_mono : im_depth image = 1 -> color_of p (im_fg image) = Ok fg /\ fits (bits_per_pixel p) fg /\ color_of p (im_bg image) = Ok bg /\ fits (bits_per_pixel p) bg
    /\ im_height image * spitch <= Z.of_nat (length (im_data image));
  ik_color : im_depth image <> 1 -> im_height image * im_width image <= Z.of_nat (length (im_data image))
    /\ forall i, 0 <= i < im_height image * im_width image -> exists c, color_of p (byte_at i) = Ok c /\ fits (bits_per_pixel p) c
}.

(** The screen is at a word, its lines are words and end below the last address. *)
Record words_ok : Prop := {
  wk_base : screen_base p mod 4 = 0;
  wk_line : line_length p mod 4 = 0;
  wk_end : screen_base p + (im_dy image + im_height image + 1) * line_length p < 2 ^ 32
}.

Lemma image_start : pixels_ok p -> words_ok -> rect_ok p (im_dx image) (im_dy image) (im_width image) (im_height image) ->
  let bits := pixel_idx p (im_dx image) (im_dy image) in
  let dst1 := u32 (screen_base p + ((bits / 8) .& .~ 3)) in
  8 * dst1 + (bits .& 31) = pixel_bit p (im_dx image) (im_dy image) /\ dst1 mod 4 = 0 /\ 0 <= dst1
  /\ dst1 + im_height image * line_length p < 2 ^ 32 /\ 0 <= (bits .& 31) < 32 /\ (bits .& 31) mod bits_per_pixel p = 0.
Proof.
  intros Hp [Hb Hl He] Hr bits dst1. destruct (pixel_idx_eq p _ _ _ _ (po_info p Hp) Hr) as (Ei & Hib & _). fold bits in Ei, Hib.
  pose proof (pixel_bit_aligned p (im_dx image) (im_dy image) Hp) as Hpa. destruct Hp as [[_ Hd Hln Hsb] Hpb Hpl]. destruct Hr as [Hx Hy Hw Hh Hrl Hs].
  assert (Eb : bits .& 31 = bits mod 32) by (change 31 with (Z.ones 5); rewrite Z.land_ones by lia; reflexivity). rewrite Eb.
  assert (En : (bits / 8) .& .~ 3 = bits / 32 * 4).
  { change 3 with (Z.ones 2). rewrite land_not_ones by (try lia; unfold fits; zdiv). change (2 ^ 2) with 4. zdiv. }
  assert (Hbb : 0 <= im_dx image * bits_per_pixel p <= line_length p * 8) by (apply depth_bounds in Hd as [Hd _]; nia).
  assert (Hsum : 8 * (bits / 32 * 4) <= (im_dy image + 1) * (line_length p * 8)) by zdiv.
  assert (Hb0 : 0 <= bits / 32 * 4) by zdiv. pose proof (Z.mul_nonneg_nonneg (im_height image) (line_length p) Hh ltac:(lia)) as Hhl.
  assert (Ed : dst1 = screen_base p + bits / 32 * 4) by (unfold dst1; rewrite En; apply u32_id; unfold fits in *; lia).
  assert (E32 : 8 * (bits / 32 * 4) + bits mod 32 = bits) by zdiv. unfold fits in Hsb.
  split; [unfold pixel_bit; lia|]. split; [rewrite Ed; zdiv|]. split; [lia|]. split; [lia|]. split; [zdiv|].
  replace (bits mod 32) with (pixel_bit p (im_dx image) (im_dy image) - 8 * dst1 + 0) by (unfold pixel_bit; lia).
  assert (Ew : 8 * dst1 = 32 * (dst1 / 4)) by (rewrite Ed in *; zdiv). rewrite Ew. revert Hpa. generalize (pixel_bit p (im_dx image) (im_dy image)) (dst1 / 4).
  revert Hd. generalize (bits_per_pixel p). intros w Hwd a b Ha. cbn in Hwd. repeat destruct Hwd as [<-|Hwd]; try destruct Hwd; zdiv.
Qed.

(** The general way paints the bits of the image, for both kinds of data. *)
Lemma slow_shows rows color start dst1 m g :
  rows = map (fun i => map (fun j => color (Z.of_nat i) (Z.of_nat j)) (seq 0 (Z.to_nat (im_width image)))) (seq 0 (Z.to_nat (im_height image))) ->
  pixels_ok p -> words_ok -> 0 < im_width image -> im_width image * bits_per_pixel p <= line_length p * 8 -> 0 <= im_height image ->
  (forall i j, 0 <= i < im_height image -> 0 <= j < im_width image -> fits (bits_per_pixel p) (color i j)) ->
  (forall i j k, 0 <= i < im_height image -> 0 <= j < im_width image -> 0 <= k < bits_per_pixel p ->
    g (8 * dst1 + start + i * (line_length p * 8) + j * bits_per_pixel p + k) = Z.testbit (color i j) k) ->
  dst1 mod 4 = 0 -> 0 <= dst1 -> dst1 + im_height image * line_length p < 2 ^ 32 -> 0 <= start < 32 -> start mod bits_per_pixel p = 0 ->
  mapped_rect p (8 * dst1 + start) (im_width image * bits_per_pixel p) (im_height image) ->
  exists m', blit_rows p rows dst1 dst1 start 0 m = Ok m'
    /\ paint over g (rect_bits (8 * dst1 + start) (line_length p * 8) (im_width image * bits_per_pixel p) (im_height image)) m m'.
Proof.
  intros -> [[_ Hd Hln _] _ _] [_ Hl _] Hw Hwl Hh Hf Hg Ha Hpos Hend Hs Hsm Hm.
  match goal with |- exists _, blit_rows _ ?r _ _ _ _ _ = _ /\ _ => set (rows := r) end.
  assert (El : Z.of_nat (length rows) = im_height image) by (unfold rows; rewrite length_map, length_seq; lia).
  destruct (blit_rows_shows p Hd g (im_width image) rows dst1 dst1 start m) as (m' & E & P); try assumption; try (rewrite El; assumption).
  - unfold rows. apply List.Forall_forall. intros r (i & <- & Hi%in_seq)%in_map_iff. split; [|rewrite length_map, length_seq; lia].
    apply List.Forall_forall. intros c (j & <- & Hj%in_seq)%in_map_iff. apply Hf; lia.
  - rewrite El. intros i Hi j k Hj Hk. unfold rows. rewrite nth_map_seq by lia. rewrite nth_map_seq by lia. rewrite !Z2Nat.id by lia. now apply Hg.
  - rewrite El in P. now exists m'.
Qed.

(** Both ways paint the bits of the image. *)
Lemma imageblit_paint fg bg m m0 :
  pixels_ok p -> words_ok -> image_ok fg bg -> fb_sync m = Ok m0 ->
  mapped_rect p (pixel_bit p (im_dx image) (im_dy image)) (im_width image * bits_per_pixel p) (im_height image) ->
  exists m', cfb_imageblit p fb_sync image m = Ok m'
    /\ paint over (image_bits fg bg (pixel_bit p (im_dx image) (im_dy image)))
         (rect_bits (pixel_bit p (im_dx image) (im_dy image)) (line_length p * 8) (im_width image * bits_per_pixel p) (im_height image)) m0 m'.
Proof.
  intros Hp Hwk Hok Hsy Hm. destruct (image_start Hp Hwk (ik_rect _ _ Hok)) as (Est & Ha & Hpos & Hend & Hst & Hstm).
  pose proof Hok as [Hr Hw Hmono Hcolor]. destruct Hr as [Hx Hy Hw0 Hh Hrl Hs]. pose proof Hp as [[Hrun Hd Hln Hsb] _ _]. pose proof Hwk as [_ Hl4 _].
  destruct (depth_bounds _ Hd) as [Hbb Hmod]. assert (Hwl : im_width image * bits_per_pixel p <= line_length p * 8) by nia.
  unfold cfb_imageblit. rewrite Hrun, Hsy. cbn [negb rbind]. set (bits := pixel_idx p (im_dx image) (im_dy image)) in *. set (dst1 := u32 _) in *. set (start := bits .& 31) in *.
  set (s := pixel_bit p (im_dx image) (im_dy image)) in *. change 3 with (Z.ones 2). rewrite Z.land_ones by lia. change (2 ^ 2) with 4. rewrite Hl4. cbn [Z.mul].
  assert (Hg : forall i j k, 0 <= i < im_height image -> 0 <= j < im_width image -> 0 <= k < bits_per_pixel p ->
    image_bits fg bg s (s + i * (line_length p * 8) + j * bits_per_pixel p + k) = Z.testbit (image_color fg bg j i) k).
  { intros i j k Hi Hj Hk. apply image_bits_at; lia. }
  destruct (Z.eqb_spec (im_depth image) 1) as [E1|E1].
  - destruct (Hmono E1) as (Hfg & Hff & Hbg & Hbf & Hlen). rewrite Hfg, Hbg. cbn [rbind].
    assert (Emc : forall i j, image_color fg bg j i = mono_color fg bg (i * spitch) j) by (intros i j; unfold image_color; now rewrite E1).
    destruct (_ && _) eqn:Efast.
    + rewrite !andb_true_iff, !Z.eqb_eq, !Z.leb_le in Efast. destruct Efast as [[[[[_ Es0] _] Emask] H8] _]. rewrite Es0, Z.add_0_r in Est.
      unfold fast_imageblit. set (tab := if bits_per_pixel p =? 8 then _ else _).
      assert (Htab : In (bits_per_pixel p, tab) [(8, cfb_tab8_le); (16, cfb_tab16_le); (32, cfb_tab32)]).
      { unfold tab. clear - Hd H8. revert Hd H8. generalize (bits_per_pixel p). intros w Hwd H8. cbn in Hwd. repeat destruct Hwd as [<-|Hwd]; try destruct Hwd; try lia; cbn; tauto. }
      destruct (ppw_values fg bg tab Htab Hff Hbf) as (Hpp & Hpv & _).
      assert (Hwm : im_width image mod (32 / bits_per_pixel p) = 0).
      { rewrite <- Emask. destruct Hpv as [-> |[-> | ->]]; [rewrite Z.land_0_r; apply Z.mod_1_r|change (2 - 1) with (Z.ones 1)|change (4 - 1) with (Z.ones 2)]; now rewrite Z.land_ones by lia. }
      destruct (fast_rows_shows fg bg tab Htab Hff Hbf (image_bits fg bg s) (Z.to_nat (im_height image)) 0 dst1 m0) as (m' & E & P); try assumption; try lia.
      * rewrite Z2Nat.id by lia. intros i Hi j k Hj Hk. rewrite Est, Z.add_0_l, <- Emc. now apply Hg.
      * rewrite Est, Z2Nat.id by lia. exact Hm.
      * exists m'. split; [exact E|]. rewrite Est, Z2Nat.id in P by lia. exact P.
    + unfold slow_imageblit. rewrite mono_rows_spec by (try lia; rewrite Z2Nat.id by lia; lia). cbn [rbind]. rewrite <- Est in *.
      apply (slow_shows _ (fun i j => mono_color fg bg (i * spitch) j)); try assumption; try reflexivity.
      * intros i j _ _. unfold mono_color. now destruct (Z.testbit _ _).
      * intros i j k Hi Hj Hk. rewrite <- Emc. now apply Hg.
  - destruct (Hcolor E1) as (Hlen & Hc).
    assert (Emc : forall i j, image_color fg bg j i = byte_color (i * im_width image + j)) by (intros i j; unfold image_color; now rewrite (proj2 (Z.eqb_neq _ _) E1)).
    unfold color_imageblit. rewrite color_rows_spec; [|lia|lia|rewrite Z2Nat.id by lia; lia|].
    2: { rewrite Z2Nat.id by lia. intros i Hi. destruct (Hc i ltac:(lia)) as (c & Ec & _). now exists c. }
    cbn [rbind]. rewrite <- Est in *. apply (slow_shows _ (fun i j => byte_color (i * im_width image + j))); try assumption; try reflexivity.
    + intros i j Hi Hj. destruct (Hc (i * im_width image + j) ltac:(nia)) as (c & Ec & Hf). unfold byte_color. now rewrite Ec.
    + intros i j k Hi Hj Hk. rewrite <- Emc. now apply Hg.
Qed.

(** The pixels after drawing an image. *)
Lemma imageblit_pixels fg bg m m0 :
  pixels_ok p -> words_ok -> image_ok fg bg -> fb_sync m = Ok m0 ->
  mapped_rect p (pixel_bit p (im_dx image) (im_dy image)) (im_width image * bits_per_pixel p) (im_height image) ->
  exists m', cfb_imageblit p fb_sync image m = Ok m'
    /\ (forall x y, on_line p x y ->
        pixel p m' x y = if inside (im_dx image) (im_dy image) (im_width image) (im_height image) x y
          then image_color fg bg (x - im_dx image) (y - im_dy image) else pixel p m0 x y)
    /\ writes (words_of (rect_bits (pixel_bit p (im_dx image) (im_dy image)) (line_length p * 8) (im_width image * bits_per_pixel p) (im_height image))) m0 m'.
Proof.
  intros Hp Hwk Hok Hsy Hm. destruct (imageblit_paint fg bg m m0 Hp Hwk Hok Hsy Hm) as (m' & E & P). exists m'. split; [exact E|].
  split; [|exact (pt_writes _ _ _ _ _ P)]. intros x y Hon. pose proof Hok as [Hr Hw Hmono Hcolor].
  destruct (paint_pixel p _ _ _ _ _ _ _ _ x y Hp Hr Hon P) as [P1 P2]. destruct (inside _ _ _ _ x y) eqn:Hin; [|now apply P1]. apply inside_true in Hin as [Hxr Hyr].
  pose proof Hr as [Hx Hy Hw0 Hh Hrl Hs]. pose proof Hp as [[_ Hd Hln _] _ _]. apply depth_bounds in Hd as [Hd _].
  apply pixel_eq; [exact Hp| |].
  - unfold image_color. destruct (Z.eqb_spec (im_depth image) 1) as [E1|E1].
    + destruct (Hmono E1) as (_ & Hff & _ & Hbf & _). unfold mono_color. now destruct (Z.testbit _ _).
    + destruct (Hcolor E1) as [_ Hc]. destruct (Hc ((y - im_dy image) * im_width image + (x - im_dx image)) ltac:(nia)) as (c & Ec & Hf). unfold byte_color. now rewrite Ec.
  - intros k Hk. rewrite (P2 eq_refl k Hk). unfold over. rewrite <- (image_bits_at fg bg (pixel_bit p (im_dx image) (im_dy image)) (y - im_dy image)) by (try lia; nia).
    f_equal. unfold pixel_bit. lia.
Qed.

(** C31: drawing an image, monochrome or of indexed colours, at any depth that divides a word and at any column and
    row, on a screen that starts at a word and whose lines are whole words (a length that is a multiple of four bytes): both the
    table-driven and the general way succeed and set every pixel of the image to its colour, the others of the screen stay, and only
    words of the image are stored to.  The image is inside its lines, at least one column wide, has all its data and colours that fit
    a pixel, and its rows are in mapped memory below the last address.  On lines of another length the rows after the first
    can come out four bytes off: the bit index is reduced modulo 32 without moving to the next word. *)
Theorem imageblit_draws fg bg m m0 :
  pixels_ok p -> words_ok -> image_ok fg bg -> fb_sync m = Ok m0 ->
  mapped_rect p (pixel_bit p (im_dx image) (im_dy image)) (im_width image * bits_per_pixel p) (im_height image) ->
  exists m', cfb_imageblit p fb_sync image m = Ok m'
    /\ (forall x y, on_line p x y ->
        pixel p m' x y = if inside (im_dx image) (im_dy image) (im_width image) (im_height image) x y
          then image_color fg bg (x - im_dx image) (y - im_dy image) else pixel p m0 x y)
    /\ writes (words_of (rect_bits (pixel_bit p (im_dx image) (im_dy image)) (line_length p * 8) (im_width image * bits_per_pixel p) (im_height image))) m0 m'.
Proof. exact (imageblit_pixels fg bg m m0). Qed.

End Image.

(** ** On the small screen *)

(** A letter of eight columns, at a word (through the table) or not. *)
Definition letter (dx : Z) : fb_image := {| im_dx := dx; im_dy := 1; im_width := 8; im_height := 2; im_fg := 7; im_bg := 1; im_depth := 1; im_data := [0x81; 0x40] |}.

Lemma small_words_ok dx : words_ok small_screen (letter dx).
Proof. split; reflexivity. Qed.

Lemma letter_ok dx : 0 <= dx <= 8 -> image_ok small_screen (letter dx) 7 1.
Proof.
  intros Hdx. split; [apply small_rect_ok; cbn; lia|cbn; lia| |intros E; now contradict E]. intros _. unfold fits, spitch. cbn. split_and!; try reflexivity; lia.
Qed.

(** At both places. *)
Lemma imageblit_draws_witness :
  (exists m', cfb_imageblit small_screen Ok (letter 4) stripes = Ok m' /\ pixel small_screen m' 4 1 = 7 /\ pixel small_screen m' 5 1 = 1 /\ pixel small_screen m' 5 2 = 7)
  /\ exists m', cfb_imageblit small_screen Ok (letter 3) stripes = Ok m' /\ pixel small_screen m' 3 1 = 7 /\ pixel small_screen m' 4 1 = 1 /\ pixel small_screen m' 4 2 = 7.
Proof.
  split; [set (dx := 4)|set (dx := 3)];
    (destruct (imageblit_draws small_screen (letter dx) Ok 7 1 stripes stripes) as (m' & E & Hp & _);
      [exact small_pixels_ok|apply small_words_ok|apply letter_ok; unfold dx; lia|reflexivity|apply small_mapped; cbn; lia|];
    exists m'; split; [exact E|]; split_and!; rewrite Hp by (unfold on_line; cbn; lia); reflexivity).
Defined.
