(* ===== verification/FbCopy.v ===== *)
(** * Frame buffer: copying areas

    A copy is a sequence of moves of words.  In the order of the code no move overwrites
    the source of a later one, so the area arrives whole, also when source and destination
    overlap. *)

From stdpp Require Import sorting.
From S2P Require Import Prelude Fb FbBits FbFill FbPixel.

(** ** Sorted lists *)

Lemma StronglySorted_map_weaken {A B} (R : A -> A -> Prop) (R' : B -> B -> Prop) (f : A -> B) l :
  (forall x y, R x y -> R' (f x) (f y)) -> StronglySorted R l -> StronglySorted R' (map f l).
Proof.
  intros HR Hs. induction Hs as [|a l Hs IH Ha]; constructor; [exact IH|]. apply List.Forall_map. revert Ha. apply List.Forall_impl. auto.
Qed.

Lemma StronglySorted_rev {A} (R : A -> A -> Prop) l : StronglySorted R l -> StronglySorted (fun x y => R y x) (rev l).
Proof.
  induction 1 as [|a l Hs IH Ha]; [constructor|]. cbn [rev]. apply StronglySorted_app_2; [|exact IH|repeat constructor].
  intros x y Hx%list_elem_of_In Hy%list_elem_of_singleton. subst y. rewrite <- in_rev in Hx. rewrite List.Forall_forall in Ha. now apply Ha.
Qed.

(** ** Moves *)

Section Copy.

Context {M : Type} `{VramLaws M}.
Variable p : fb_info.
Implicit Type m : M.

(** Words from the first place to the second. *)
Fixpoint run_moves (l : list (Z * Z)) m : result M :=
  match l with [] => Ok m | (src, dst) :: l => let* m := copy_word p src dst m in run_moves l m end.

Lemma run_moves_app l1 l2 m : run_moves (l1 ++ l2) m = let* m := run_moves l1 m in run_moves l2 m.
Proof. revert m. induction l1 as [|[s d] l1 IH]; intros m; cbn; [reflexivity|]. destruct (copy_word p s d m); cbn; [apply IH|reflexivity]. Qed.

(** The first move does not disturb the second. *)
Definition before (e1 e2 : Z * Z) : Prop := snd e1 <> fst e2 /\ snd e1 <> snd e2.

Lemma run_moves_spec l : forall m,
  Forall (fun e => mapped p (fst e) = true /\ mapped p (snd e) = true) l -> StronglySorted before l ->
  exists m', run_moves l m = Ok m' /\ (forall s d, In (s, d) l -> vread d m' = vread s m)
    /\ (forall a, ~ In a (map snd l) -> vread a m' = vread a m) /\ writes (fun a => In a (map snd l)) m m'.
Proof.
  induction l as [|[s d] l IH]; intros m Hm Hs.
  - exists m. split_and!; try reflexivity; [intros ? ? []|constructor].
  - apply Forall_cons in Hm as [[H1 H2] Hm]. apply StronglySorted_inv in Hs as [Hs Hb]. rewrite List.Forall_forall in Hb. cbn in H1, H2.
    cbn [run_moves]. unfold copy_word, fb_readl, fb_writel. rewrite H1, H2. cbn [rbind]. pose proof (vread_u32 s m) as Hu.
    destruct (IH (vwrite d (vread s m) m) Hm Hs) as (m' & E & P1 & P2 & P3). exists m'. split; [exact E|].
    assert (Hd : ~ In d (map snd l)). { intros ([s' d'] & Ed & Hin)%in_map_iff. apply (proj2 (Hb _ Hin)). now rewrite Ed. }
    split_and!.
    + intros s' d' [[= <- <-]|Hin]; [rewrite P2 by exact Hd; rewrite vread_vwrite by exact Hu; now rewrite Z.eqb_refl|].
      rewrite (P1 s' d' Hin), vread_vwrite by exact Hu. pose proof (proj1 (Hb _ Hin)) as Hne. cbn in Hne. now rewrite (proj2 (Z.eqb_neq s' d)) by congruence.
    + intros a Ha. cbn [map snd] in Ha. rewrite P2 by (intros Hin; apply Ha; now right). rewrite vread_vwrite by exact Hu.
      now rewrite (proj2 (Z.eqb_neq a d)) by (intros ->; apply Ha; now left).
    + eapply (writes_cons _ d); [now left|exact Hu|]. apply (writes_weaken (fun a => In a (map snd l))); [|exact P3]. intros a Ha. now right.
Qed.

(** [n] words, up or down. *)
Definition line_moves (step : Z) (n : nat) (src dst : Z) : list (Z * Z) := map (fun k => (src + step * Z.of_nat k, dst + step * Z.of_nat k)) (seq 0 n).

Lemma line_moves_S step n src dst : line_moves step (S n) src dst = (src, dst) :: line_moves step n (src + step) (dst + step).
Proof.
  unfold line_moves. cbn [seq map]. f_equal; [f_equal; lia|]. rewrite <- seq_shift, map_map. apply map_ext. intros k. f_equal; lia.
Qed.

Lemma line_moves_add step n1 n2 src dst :
  line_moves step (n1 + n2) src dst = line_moves step n1 src dst ++ line_moves step n2 (src + step * Z.of_nat n1) (dst + step * Z.of_nat n1).
Proof.
  revert src dst. induction n1 as [|n1 IH]; intros src dst.
  - cbn [Nat.add Z.of_nat]. rewrite Z.mul_0_r, !Z.add_0_r. reflexivity.
  - cbn [Nat.add]. rewrite !line_moves_S, IH. cbn [app]. do 3 f_equal; lia.
Qed.

Lemma copy_words_moves step n : forall src dst m,
  copy_words p step n src dst m = let* m := run_moves (line_moves step n src dst) m in Ok (src + step * Z.of_nat n, dst + step * Z.of_nat n, m).
Proof.
  induction n as [|n IH]; intros src dst m.
  - cbn. rewrite Z.mul_0_r, !Z.add_0_r. reflexivity.
  - rewrite line_moves_S. cbn [copy_words run_moves]. destruct (copy_word p src dst m) as [m1|]; [|reflexivity]. cbn [rbind]. rewrite IH.
    destruct (run_moves _ m1); [|reflexivity]. cbn [rbind]. do 3 f_equal; lia.
Qed.

Lemma copy_chunk_moves step fuel : forall n src dst m, 0 <= n < Z.of_nat fuel ->
  copy_chunk p step fuel n src dst m = let* m := run_moves (line_moves step (Z.to_nat n) src dst) m in Ok (src + step * n, dst + step * n, m).
Proof.
  induction fuel as [|fuel IH]; intros n src dst m Hn; [lia|]. cbn [copy_chunk]. destruct (Z.leb_spec 8 n).
  - rewrite copy_words_moves. replace (Z.to_nat n) with (8 + Z.to_nat (n - 8))%nat by lia. rewrite line_moves_add, run_moves_app.
    destruct (run_moves (line_moves step 8 src dst) m) as [m1|]; [|reflexivity]. cbn [rbind]. rewrite IH by lia. destruct (run_moves _ m1); [|reflexivity].
    cbn [rbind]. do 3 f_equal; lia.
  - rewrite copy_words_moves, Z2Nat.id by lia. reflexivity.
Qed.

(** A whole word through a mask of all bits. *)
Lemma copy_masked_all src dst m : copy_masked p u32_max src dst m = let* v := fb_readl p src m in let* _ := fb_readl p dst m in fb_writel p v dst m.
Proof.
  unfold copy_masked, put_masked, fb_readl. destruct (mapped p src); [|reflexivity]. cbn [rbind]. destruct (mapped p dst); [|reflexivity]. cbn [rbind]. f_equal.
  pose proof (vread_u32 src m) as Hs. pose proof (vread_u32 dst m) as Hd. apply Z.bits_inj'. intros k Hk. rewrite comp_testbit.
  destruct (Z.lt_ge_cases k 32); [now rewrite u32_max_testbit by lia|]. rewrite (fits_testbit_high 32 u32_max k), (fits_testbit_high 32 (vread src m) k), (fits_testbit_high 32 (vread dst m) k); auto; try lia.
  unfold fits, u32_max. lia.
Qed.

Lemma copy_masked_word src dst m : mapped p dst = true -> copy_masked p u32_max src dst m = copy_word p src dst m.
Proof. intros Hd. rewrite copy_masked_all. unfold copy_word, fb_readl. destruct (mapped p src); [|reflexivity]. rewrite Hd. reflexivity. Qed.

(** Rows of whole words. *)
Lemma bitcpy_words dst src n m : 0 < n < 2 ^ 26 -> mapped p dst = true ->
  bitcpy p dst 0 src 0 (32 * n) m = run_moves (line_moves 1 (Z.to_nat n) src dst) m.
Proof.
  intros Hn Hm. unfold bitcpy. rewrite Z.add_0_l. rewrite u32_id by (unfold fits; lia). replace ((32 * n) mod 32) with 0 by zdiv.
  change (shifted_mask 0) with u32_max. change (.~ u32_max) with 0. change (0 - 0 =? 0) with true. cbv iota. unfold copy_same.
  destruct (Z.leb_spec (32 * n) 32).
  - assert (n = 1) as -> by lia. cbn [Z.eqb]. rewrite copy_masked_word by exact Hm. change (Z.to_nat 1) with 1%nat. rewrite line_moves_S. cbn. now destruct (copy_word _ _ _ _).
  - rewrite Z.eqb_refl. cbn [negb rbind Z.eqb]. replace (32 * n / 32) with n by zdiv. rewrite copy_chunk_moves by lia. destruct (run_moves _ m); reflexivity.
Qed.

Lemma bitcpy_rev_words dst src n m : 0 < n < 2 ^ 26 -> mapped p (dst + n - 1) = true ->
  bitcpy_rev p dst 0 src 0 (32 * n) m = run_moves (line_moves (-1) (Z.to_nat n) (src + n - 1) (dst + n - 1)) m.
Proof.
  intros Hn Hm. unfold bitcpy_rev. rewrite (u32_id (32 * n - 1)) by (unfold fits; lia). replace ((32 * n - 1) / 32) with (n - 1) by zdiv. replace ((32 * n - 1) mod 32) with 31 by zdiv.
  change (31 =? 0) with false. cbv iota. change (0 + 31) with 31. change (31 .>> 5) with 0. change (31 .& 31) with 31.
  assert (Er : u32 (31 - 32 * n) mod 32 = 31).
  { unfold u32. change (2 ^ 32) with (32 * 2 ^ 27). zdiv. }
  rewrite Er. change (shifted_mask (31 - 31)) with u32_max. change (.~ u32_max) with 0. change (31 - 31 =? 0) with true. cbv iota.
  replace (dst + (n - 1) + 0) with (dst + n - 1) by lia. replace (src + (n - 1) + 0) with (src + n - 1) by lia. unfold copy_same. destruct (Z.leb_spec (32 * n) (31 + 1)).
  - assert (n = 1) as -> by lia. cbn [Z.eqb]. rewrite copy_masked_word by exact Hm. change (Z.to_nat 1) with 1%nat. rewrite line_moves_S. cbn. now destruct (copy_word _ _ _ _).
  - rewrite Z.eqb_refl. cbn [negb rbind Z.eqb]. replace (32 * n / 32) with n by zdiv. rewrite copy_chunk_moves by lia. destruct (run_moves _ m); reflexivity.
Qed.

Lemma line_moves_rev n src dst : line_moves (-1) n (src + Z.of_nat n - 1) (dst + Z.of_nat n - 1) = rev (line_moves 1 n src dst).
Proof.
  induction n as [|n IH]; [reflexivity|]. replace (S n) with (n + 1)%nat at 4 by lia. rewrite line_moves_add, rev_app_distr, <- IH, line_moves_S. cbn [rev app].
  unfold line_moves at 2. cbn [seq map rev app]. f_equal; [f_equal; lia|]. f_equal; lia.
Qed.

(** ** The area *)

Definition line_words : Z := line_length p / 4.

(** The words of [h] rows of [n] from row [i], in order, from the first word of the area. *)
Definition area_words (n i h : nat) : list Z := flat_map (fun i => map (fun k => Z.of_nat i * line_words + Z.of_nat k) (seq 0 n)) (seq i h).

Lemma in_area_words n i h q : In q (area_words n i h) <-> exists a k, (i <= a < i + h)%nat /\ (k < n)%nat /\ q = Z.of_nat a * line_words + Z.of_nat k.
Proof.
  unfold area_words. rewrite in_flat_map. split.
  - intros (a & Ha%in_seq & (k & <- & Hk%in_seq)%in_map_iff). exists a, k. split_and!; lia.
  - intros (a & k & Ha & Hk & ->). exists a. split; [apply in_seq; lia|]. apply in_map_iff. exists k. split; [reflexivity|]. apply in_seq. lia.
Qed.

Lemma area_words_S n i h : area_words n i (S h) = map (fun k => Z.of_nat i * line_words + Z.of_nat k) (seq 0 n) ++ area_words n (S i) h.
Proof. reflexivity. Qed.

Lemma area_words_snoc n i h : area_words n i (S h) = area_words n i h ++ map (fun k => Z.of_nat (i + h) * line_words + Z.of_nat k) (seq 0 n).
Proof. unfold area_words. rewrite seq_S, flat_map_app. cbn [flat_map]. now rewrite app_nil_r. Qed.

Lemma area_words_sorted n i h : Z.of_nat n <= line_words -> StronglySorted Z.lt (area_words n i h).
Proof.
  intros Hn. revert i. induction h as [|h IH]; intros i; [constructor|]. rewrite area_words_S. apply StronglySorted_app_2; [|clear|apply IH].
  - intros x y Hx%list_elem_of_In Hy%list_elem_of_In. apply in_map_iff in Hx as (k & <- & Hk%in_seq). apply in_area_words in Hy as (a & k' & Ha & Hk' & ->). nia.
  - generalize (Z.of_nat i * line_words) as b. intros b. generalize 0%nat as j. induction n as [|n IH]; intros j; cbn [seq map]; constructor; [apply IH|].
    apply List.Forall_forall. intros x (k & <- & Hk%in_seq)%in_map_iff. lia.
Qed.

Definition area_moves (src dst : Z) (l : list Z) : list (Z * Z) := map (fun q => (src + q, dst + q)) l.

Lemma area_moves_line src dst b n : area_moves src dst (map (fun k => b + Z.of_nat k) (seq 0 n)) = line_moves 1 n (src + b) (dst + b).
Proof. unfold area_moves, line_moves. rewrite map_map. apply map_ext. intros k. f_equal; lia. Qed.

(** Upwards the destination is first, downwards last. *)
Lemma area_moves_sorted src dst n h : Z.of_nat n <= line_words -> dst <= src -> StronglySorted before (area_moves src dst (area_words n 0 h)).
Proof.
  intros Hn Hd. apply (StronglySorted_map_weaken Z.lt); [|now apply area_words_sorted]. intros x y Hxy. split; cbn; lia.
Qed.

Lemma area_moves_rev_sorted src dst n h : Z.of_nat n <= line_words -> src <= dst -> StronglySorted before (area_moves src dst (rev (area_words n 0 h))).
Proof.
  intros Hn Hd. apply (StronglySorted_map_weaken (fun x y => y < x)); [|now apply (StronglySorted_rev Z.lt), area_words_sorted]. intros x y Hxy. split; cbn; lia.
Qed.

Hypotheses (Hline : 0 < line_length p < 2 ^ 27) (Hline4 : line_length p mod 4 = 0).

Lemma line_bits : line_length p * 8 = 32 * line_words.
Proof. unfold line_words. zdiv. Qed.

Lemma idx_split i : i mod 32 = 0 -> (i .>> 5) = i / 32 /\ (i .& 3) = 0.
Proof.
  intros Hi. split; [rewrite Z.shiftr_div_pow2 by lia; reflexivity|]. change 3 with (Z.ones 2). rewrite Z.land_ones by lia. change (2 ^ 2) with 4. zdiv.
Qed.

Lemma copy_rows_forward n src0 dst0 h : forall i dst didx src sidx m,
  0 < Z.of_nat n < 2 ^ 26 -> didx mod 32 = 0 -> sidx mod 32 = 0 -> dst + didx / 32 = dst0 + Z.of_nat i * line_words -> src + sidx / 32 = src0 + Z.of_nat i * line_words ->
  (forall q, In q (area_words n i h) -> mapped p (dst0 + q) = true) ->
  copy_rows p false (32 * Z.of_nat n) h dst didx src sidx m = run_moves (area_moves src0 dst0 (area_words n i h)) m.
Proof.
  pose proof line_bits as Hlb. induction h as [|h IH]; intros i dst didx src sidx m Hn Hd Hs Ed Es Hm; [reflexivity|]. cbn [copy_rows].
  destruct (idx_split didx Hd) as [-> ->]. destruct (idx_split sidx Hs) as [-> ->]. rewrite Ed, Es. rewrite area_words_S in *. unfold area_moves. rewrite map_app.
  change (map (fun q => (src0 + q, dst0 + q))) with (area_moves src0 dst0). rewrite area_moves_line, run_moves_app, bitcpy_words, Nat2Z.id; [|exact Hn|].
  2: { apply Hm. apply in_or_app. left. apply in_map_iff. exists 0%nat. split; [lia|]. apply in_seq. lia. }
  destruct (run_moves _ m) as [m1|]; [|reflexivity]. cbn [rbind]. rewrite !s32_id by lia. rewrite Z.add_0_l, Hlb. apply IH; try assumption; try zdiv.
  intros q Hq. apply Hm. apply in_or_app. now right.
Qed.

Lemma copy_rows_backward n src0 dst0 h : forall dst didx src sidx m,
  0 < Z.of_nat n < 2 ^ 26 -> didx mod 32 = 0 -> sidx mod 32 = 0 -> 0 <= didx < 2 ^ 31 -> 0 <= sidx < 2 ^ 31 ->
  dst + didx / 32 = dst0 + Z.of_nat h * line_words -> src + sidx / 32 = src0 + Z.of_nat h * line_words ->
  (forall q, In q (area_words n 0 h) -> mapped p (dst0 + q) = true) ->
  copy_rows p true (32 * Z.of_nat n) h dst didx src sidx m = run_moves (area_moves src0 dst0 (rev (area_words n 0 h))) m.
Proof.
  pose proof line_bits as Hlb. induction h as [|h IH]; intros dst didx src sidx m Hn Hd Hs Hdr Hsr Ed Es Hm; [reflexivity|]. cbn [copy_rows].
  rewrite !s32_id by lia. assert (Hd' : (didx - line_length p * 8) mod 32 = 0) by zdiv. assert (Hs' : (sidx - line_length p * 8) mod 32 = 0) by zdiv.
  destruct (idx_split _ Hd') as [-> ->]. destruct (idx_split _ Hs') as [-> ->]. rewrite Hlb.
  replace (dst + (didx - 32 * line_words) / 32) with (dst0 + Z.of_nat h * line_words) by zdiv. replace (src + (sidx - 32 * line_words) / 32) with (src0 + Z.of_nat h * line_words) by zdiv.
  rewrite area_words_snoc in *. rewrite rev_app_distr. unfold area_moves. rewrite map_app, map_rev. change (map (fun q => (src0 + q, dst0 + q))) with (area_moves src0 dst0).
  rewrite area_moves_line, <- line_moves_rev, run_moves_app, bitcpy_rev_words, Nat2Z.id; [|exact Hn|].
  2: { replace (dst0 + Z.of_nat h * line_words + Z.of_nat n - 1) with (dst0 + (Z.of_nat h * line_words + Z.of_nat (n - 1))) by lia.
       apply Hm. apply in_or_app. right. apply in_map_iff. exists (n - 1)%nat. split; [reflexivity|]. apply in_seq. lia. }
  cbn [Nat.add]. destruct (run_moves _ m) as [m1|]; [|reflexivity]. cbn [rbind]. apply IH; try assumption; try reflexivity; try lia.
  3: { intros q Hq. apply Hm. apply in_or_app. now left. }
  all: now rewrite Z.add_0_r.
Qed.

End Copy.

(** ** What a copy draws *)

Section Area.

Context {M : Type} `{VramLaws M}.
Variable p : fb_info.
Variable area : fb_copyarea.
Variable fb_sync : M -> result M.
Implicit Type m : M.

(** Both areas are on the screen and made of whole words. *)
Record copy_ok : Prop := {
  ck_dst : rect_ok p (ca_dx area) (ca_dy area) (ca_width area) (ca_height area);
  ck_src : rect_ok p (ca_sx area) (ca_sy area) (ca_width area) (ca_height area);
  ck_width : 0 < ca_width area;
  ck_words : (ca_dx area * bits_per_pixel p) mod 32 = 0 /\ (ca_sx area * bits_per_pixel p) mod 32 = 0 /\ (ca_width area * bits_per_pixel p) mod 32 = 0;
  ck_base : screen_base p mod 4 = 0;
  ck_line : line_length p mod 4 = 0;
  ck_mapped : mapped_rect p (pixel_bit p (ca_dx area) (ca_dy area)) (ca_width area * bits_per_pixel p) (ca_height area)
    /\ mapped_rect p (pixel_bit p (ca_sx area) (ca_sy area)) (ca_width area * bits_per_pixel p) (ca_height area)
}.

Definition row_words : nat := Z.to_nat (ca_width area * bits_per_pixel p / 32).
Definition src_word : Z := pixel_bit p (ca_sx area) (ca_sy area) / 32.
Definition dst_word : Z := pixel_bit p (ca_dx area) (ca_dy area) / 32.
Definition words := area_words p row_words 0 (Z.to_nat (ca_height area)).

(** The bit offset that the code computes for the top or the bottom of an area. *)
Lemma copy_idx x y w h y' : info_ok p -> screen_base p mod 4 = 0 -> line_length p mod 4 = 0 -> rect_ok p x y w h -> y' = y \/ y' = y + h -> (x * bits_per_pixel p) mod 32 = 0 ->
  let i := s32 (base_idx p + u32 (u32 (y' * u32 (line_length p * 8)) + u32 (x * bits_per_pixel p))) in
  u32 y' = y' /\ 0 <= i < 2 ^ 31 /\ i mod 32 = 0 /\ base_word p + i / 32 = pixel_bit p x y / 32 + (y' - y) * line_words p.
Proof.
  intros [_ Hd Hln Hsb] Hb4 Hl4 [Hx Hy Hw Hh Hl Hs] Hy' Hxm i. apply depth_bounds in Hd as [Hd _].
  assert (Hyy : y <= y' <= y + h) by lia. assert (Hxb : 0 <= x * bits_per_pixel p <= line_length p * 8) by nia.
  assert (Hyl : 0 <= y' * (line_length p * 8) <= (y + h) * (line_length p * 8)) by (split; [apply Z.mul_nonneg_nonneg; lia|apply Z.mul_le_mono_nonneg_r; lia]).
  assert (Hll : 0 < line_length p * 8 < 2 ^ 30) by nia. assert (Hy30 : 0 <= y' < 2 ^ 30) by nia.
  assert (Ei : i = y' * (line_length p * 8) + x * bits_per_pixel p).
  { unfold i, base_idx. change 3 with (Z.ones 2). rewrite Z.land_ones by lia. change (2 ^ 2) with 4. rewrite Hb4.
    rewrite (u32_id (line_length p * 8)), (u32_id (y' * _)), (u32_id (x * _)) by (unfold fits; lia). rewrite u32_id by (unfold fits; lia). rewrite s32_id by lia. lia. }
  rewrite Ei. unfold base_word, pixel_bit, line_words. set (xb := x * bits_per_pixel p) in *.
  assert (El : line_length p * 8 = 32 * (line_length p / 4)) by zdiv. rewrite El. split; [apply u32_id; unfold fits; lia|]. split; [lia|]. split.
  - rewrite Z.add_comm, Z.mul_assoc, (Z.mul_comm y' 32), <- Z.mul_assoc, Z.mul_comm, <- (Z.mul_comm 32), Z.add_mod by lia. rewrite Hxm. rewrite Z.mul_comm, Z.mod_mul by lia. reflexivity.
  - replace (y' * (32 * (line_length p / 4)) + xb) with (xb + (y' * (line_length p / 4)) * 32) by lia. rewrite Z.div_add by lia.
    replace (8 * screen_base p + y * (32 * (line_length p / 4)) + xb) with (xb + (screen_base p / 4 + y * (line_length p / 4)) * 32) by zdiv. rewrite Z.div_add by lia. lia.
Qed.

Lemma row_words_eq : info_ok p -> copy_ok -> Z.of_nat row_words * 32 = ca_width area * bits_per_pixel p /\ 0 < Z.of_nat row_words < 2 ^ 26 /\ Z.of_nat row_words <= line_words p.
Proof.
  intros [_ Hd Hln _] [[Hx Hy Hw Hh Hl Hs] _ Hw0 (_ & _ & Hwm) _ Hl4 _]. apply depth_bounds in Hd as [Hd _]. unfold row_words, line_words.
  assert (0 < ca_width area * bits_per_pixel p <= line_length p * 8) by nia. assert (line_length p * 8 < 2 ^ 30) by nia. rewrite Z2Nat.id by (apply Z.div_pos; lia). zdiv.
Qed.

(** A word of an area. *)
Lemma area_word x y w h a k : 0 < bits_per_pixel p -> rect_ok p x y w h -> screen_base p mod 4 = 0 -> line_length p mod 4 = 0 -> (x * bits_per_pixel p) mod 32 = 0 ->
  32 * (pixel_bit p x y / 32 + (a * line_words p + k)) = pixel_bit p x y + a * (line_length p * 8) + 32 * k.
Proof.
  intros Hd [Hx Hy Hw Hh Hl Hs] Hb4 Hl4 Hxm. unfold pixel_bit, line_words. set (xb := x * bits_per_pixel p) in *.
  assert (El : line_length p * 8 = 32 * (line_length p / 4)) by zdiv. rewrite El.
  replace (8 * screen_base p + y * (32 * (line_length p / 4)) + xb) with (xb + (screen_base p / 4 + y * (line_length p / 4)) * 32) by zdiv. rewrite Z.div_add by lia. zdiv.
Qed.

Lemma words_mapped x y : info_ok p -> copy_ok -> rect_ok p x y (ca_width area) (ca_height area) -> (x * bits_per_pixel p) mod 32 = 0 ->
  mapped_rect p (pixel_bit p x y) (ca_width area * bits_per_pixel p) (ca_height area) ->
  forall q, In q words -> mapped p (pixel_bit p x y / 32 + q) = true.
Proof.
  intros Hi Hc Hr Hxm Hm q Hq. destruct (row_words_eq Hi Hc) as (En & Hn & _). apply in_area_words in Hq as (a & k & Ha & Hk & ->).
  destruct Hi as [_ Hd _ _]. apply depth_bounds in Hd as [Hd _]. pose proof (area_word x y _ _ (Z.of_nat a) (Z.of_nat k) ltac:(lia) Hr (ck_base Hc) (ck_line Hc) Hxm) as Ew.
  pose proof (ro_h _ _ _ _ _ (ck_dst Hc)) as Hh. specialize (Hm (Z.of_nat a) ltac:(lia) (pixel_bit p x y + Z.of_nat a * (line_length p * 8) + 32 * Z.of_nat k) ltac:(nia)).
  rewrite <- Ew in Hm. rewrite Z.mul_comm, Z.div_mul in Hm by lia. exact Hm.
Qed.

(** The code makes the moves of the area, in the order that the overlap asks for. *)
Lemma copyarea_moves m m0 : info_ok p -> copy_ok -> fb_sync m = Ok m0 ->
  exists l, cfb_copyarea p fb_sync area m = run_moves p (area_moves src_word dst_word l) m0 /\ (forall q, In q l <-> In q words)
    /\ StronglySorted before (area_moves src_word dst_word l).
Proof.
  intros Hi Hc Hsy. destruct (row_words_eq Hi Hc) as (En & Hn & Hnl). pose proof Hc as [Hdst Hsrc Hw (Hdm & Hsm & Hwm) Hb4 Hl4 [Hmd Hms]].
  pose proof (words_mapped _ _ Hi Hc Hdst Hdm Hmd) as Hmapped. pose proof Hdst as [Hdx Hdy _ Hh Hdl Hds]. pose proof Hsrc as [Hsx Hsyy _ _ Hsl Hss]. pose proof Hi as [Hrun Hd Hln Hsb].
  apply depth_bounds in Hd as [Hd _]. assert (Hl27 : 0 < line_length p < 2 ^ 27) by nia. assert (Hwb : 0 < ca_width area * bits_per_pixel p < 2 ^ 32) by nia.
  assert (Hxb : 0 <= ca_dx area * bits_per_pixel p /\ 0 <= ca_sx area * bits_per_pixel p) by nia.
  set (rev := ((ca_dy area =? ca_sy area) && (ca_sx area <? ca_dx area)) || (ca_sy area <? ca_dy area)).
  assert (Hord : if rev then src_word <= dst_word else dst_word <= src_word).
  { unfold src_word, dst_word, rev, pixel_bit. set (l := line_length p * 8) in *. set (bpp := bits_per_pixel p) in *.
    destruct (Z.eqb_spec (ca_dy area) (ca_sy area)) as [E|Hne], (Z.ltb_spec (ca_sx area) (ca_dx area)), (Z.ltb_spec (ca_sy area) (ca_dy area)); cbn [andb orb];
      apply Z.div_le_mono; try lia; nia. }
  unfold cfb_copyarea. rewrite Hrun. cbn [negb]. fold rev. rewrite Hsy. cbn [rbind]. rewrite (u32_id (ca_width area * _)) by (unfold fits; lia). rewrite <- En, (Z.mul_comm (Z.of_nat row_words)).
  destruct rev.
  - destruct (copy_idx _ _ _ _ (ca_dy area + ca_height area) Hi Hb4 Hl4 Hdst ltac:(lia) Hdm) as (Eu1 & Hr1 & Hm1 & E1).
    destruct (copy_idx _ _ _ _ (ca_sy area + ca_height area) Hi Hb4 Hl4 Hsrc ltac:(lia) Hsm) as (Eu2 & Hr2 & Hm2 & E2). rewrite Eu1, Eu2.
    exists (List.rev words). split; [|split; [intros q; symmetry; apply in_rev|now apply area_moves_rev_sorted]].
    apply copy_rows_backward; try assumption; rewrite ?Z2Nat.id by lia; unfold dst_word, src_word; lia.
  - destruct (copy_idx _ _ _ _ (ca_dy area) Hi Hb4 Hl4 Hdst ltac:(lia) Hdm) as (_ & Hr1 & Hm1 & E1).
    destruct (copy_idx _ _ _ _ (ca_sy area) Hi Hb4 Hl4 Hsrc ltac:(lia) Hsm) as (_ & Hr2 & Hm2 & E2).
    exists words. split; [|split; [reflexivity|now apply area_moves_sorted]]. apply copy_rows_forward; try assumption; unfold dst_word, src_word; lia.
Qed.

(** The pixels after copying. *)
Lemma copyarea_pixels m m0 :
  pixels_ok p -> copy_ok -> fb_sync m = Ok m0 ->
  exists m', cfb_copyarea p fb_sync area m = Ok m'
    /\ (forall x y, on_line p x y ->
        pixel p m' x y = if inside (ca_dx area) (ca_dy area) (ca_width area) (ca_height area) x y
          then pixel p m0 (x - ca_dx area + ca_sx area) (y - ca_dy area + ca_sy area) else pixel p m0 x y)
    /\ writes (words_of (rect_bits (pixel_bit p (ca_dx area) (ca_dy area)) (line_length p * 8) (ca_width area * bits_per_pixel p) (ca_height area))) m0 m'.
Proof.
  intros Hp Hc Hsy. pose proof (po_info p Hp) as Hi. destruct (row_words_eq Hi Hc) as (En & Hn & Hnl).
  destruct (copyarea_moves m m0 Hi Hc Hsy) as (l & E & Hl & Hs). pose proof Hc as [Hdst Hsrc Hw (Hdm & Hsm & Hwm) Hb4 Hl4 [Hmd Hms]].
  pose proof (words_mapped _ _ Hi Hc Hdst Hdm Hmd) as Hmapd. pose proof (words_mapped _ _ Hi Hc Hsrc Hsm Hms) as Hmaps. fold src_word in Hmaps. fold dst_word in Hmapd.
  pose proof Hdst as [Hdx Hdy _ Hh Hdl Hds]. pose proof Hi as [_ Hd Hln _]. apply depth_bounds in Hd as [Hd _].
  destruct (run_moves_spec p (area_moves src_word dst_word l) m0) as (m' & E' & P1 & P2 & P3); [|exact Hs|].
  { apply List.Forall_forall. intros e (q & <- & Hq)%in_map_iff. apply Hl in Hq. cbn. auto. }
  assert (Hbits : forall a k, 0 <= a < ca_height area -> 0 <= k < Z.of_nat row_words -> In (a * line_words p + k) l).
  { intros a k Ha Hk. apply Hl, in_area_words. exists (Z.to_nat a), (Z.to_nat k). split_and!; rewrite ?Z2Nat.id by lia; lia. }
  assert (Hdsts : forall w, In w (map snd (area_moves src_word dst_word l)) -> exists a k, 0 <= a < ca_height area /\ 0 <= k < Z.of_nat row_words /\ w = dst_word + (a * line_words p + k)).
  { intros w (e & <- & (q & <- & Hq)%in_map_iff)%in_map_iff. apply Hl, in_area_words in Hq as (a & k & Ha & Hk & ->). exists (Z.of_nat a), (Z.of_nat k). cbn. split_and!; lia. }
  pose proof (fun a k => area_word _ _ _ _ a k ltac:(lia) Hdst Hb4 Hl4 Hdm) as Hdw. pose proof (fun a k => area_word _ _ _ _ a k ltac:(lia) Hsrc Hb4 Hl4 Hsm) as Hsw.
  fold dst_word in Hdw. fold src_word in Hsw.
  exists m'. split; [now rewrite E|]. split.
  - intros x y Hon. destruct (inside _ _ _ _ x y) eqn:Hin.
    + apply inside_true in Hin as [Hxr Hyr]. set (a := y - ca_dy area) in *. set (b := (x - ca_dx area) * bits_per_pixel p).
      assert (Hb : 0 <= b < Z.of_nat row_words * 32) by (unfold b; nia). assert (Hk : 0 <= b / 32 < Z.of_nat row_words) by zdiv.
      assert (Ed : pixel_bit p x y = 32 * (dst_word + (a * line_words p + b / 32)) + b mod 32) by (rewrite Hdw; unfold pixel_bit, a; fold b; zdiv).
      assert (Es : pixel_bit p (x - ca_dx area + ca_sx area) (a + ca_sy area) = 32 * (src_word + (a * line_words p + b / 32)) + b mod 32) by (rewrite Hsw; unfold pixel_bit; zdiv).
      unfold pixel. rewrite Ed, Es, !(Z.mul_comm 32), !Z.div_add_l, !(Z.div_small (b mod 32)), !Z.add_0_r by zdiv.
      replace (((dst_word + (a * line_words p + b / 32)) * 32 + b mod 32) mod 32) with (((src_word + (a * line_words p + b / 32)) * 32 + b mod 32) mod 32) by zdiv.
      do 2 f_equal. apply P1. apply in_map_iff. exists (a * line_words p + b / 32). split; [reflexivity|]. apply Hbits; lia.
    + apply pixel_ext; [exact Hp|]. intros k Hk. unfold bit. rewrite P2; [reflexivity|]. intros (a & j & Ha & Hj & Ew)%Hdsts.
      pose proof (rect_bits_pixel p _ _ _ _ x y k ltac:(lia) Hdst Hon Hk) as Hrb. rewrite Hin in Hrb. apply not_true_iff_false in Hrb. apply Hrb.
      apply rect_bits_true; [lia|]. set (b := pixel_bit p x y + k) in *. pose proof (Z.div_mod b 32 ltac:(lia)) as Edm. rewrite Ew, Hdw in Edm. pose proof (Z.mod_pos_bound b 32 ltac:(lia)).
      exists a, (32 * j + b mod 32). split; [lia|]. split; [lia|]. split; [unfold line_words in *; nia|lia].
  - apply (writes_weaken (fun w => In w (map snd (area_moves src_word dst_word l)))); [|exact P3]. intros w (a & k & Ha & Hk & ->)%Hdsts.
    exists (32 * (dst_word + (a * line_words p + k))). split; [|rewrite Z.mul_comm; apply Z.div_mul; lia]. rewrite Hdw. apply rect_bits_true; [lia|].
    exists a, (32 * k). split; [lia|]. split; [lia|]. split; [nia|lia].
Qed.

(** C30: copying an area of whole words, also onto itself: it succeeds, every pixel of the
    destination is what the pixel of the source was before, the others stay, and only words
    of the destination are stored to. *)
Theorem copyarea_draws m m0 :
  pixels_ok p -> copy_ok -> fb_sync m = Ok m0 ->
  exists m', cfb_copyarea p fb_sync area m = Ok m'
    /\ (forall x y, on_line p x y ->
        pixel p m' x y = if inside (ca_dx area) (ca_dy area) (ca_width area) (ca_height area) x y
          then pixel p m0 (x - ca_dx area + ca_sx area) (y - ca_dy area + ca_sy area) else pixel p m0 x y)
    /\ writes (words_of (rect_bits (pixel_bit p (ca_dx area) (ca_dy area)) (line_length p * 8) (ca_width area * bits_per_pixel p) (ca_height area))) m0 m'.
Proof. exact (copyarea_pixels m m0). Qed.

End Area.

(** ** On the small screen *)

(** A copy onto itself, two rows down. *)
Definition scroll : fb_copyarea := {| ca_dx := 4; ca_dy := 3; ca_width := 8; ca_height := 4; ca_sx := 4; ca_sy := 1 |}.

Lemma scroll_ok : copy_ok small_screen scroll.
Proof. split; cbn; try lia; try reflexivity; try (apply small_rect_ok; lia); [split_and!; reflexivity|split; apply small_mapped; lia]. Qed.

(** At the copy. *)
Lemma copyarea_draws_witness : exists m', cfb_copyarea small_screen Ok scroll stripes = Ok m'
  /\ pixel small_screen m' 9 5 = pixel small_screen stripes 9 3 /\ pixel small_screen m' 9 6 = 3.
Proof.
  destruct (copyarea_draws small_screen scroll Ok stripes stripes) as (m' & E & Hp & _); [exact small_pixels_ok|exact scroll_ok|reflexivity|].
  exists m'. split; [exact E|]. split; rewrite Hp by (unfold on_line; cbn; lia); reflexivity.
Defined.

(** The columns of a word: at 16 bits a pixel a copy to an odd column lands on the even one before it, since the bit in
    the word is taken modulo four. *)
Definition deep_screen : fb_info := {|
  bits_per_pixel := 16; line_length := 16; smem_start := 64; smem_len := 128; screen_base := 64; pseudo_palette := []; fb_running := true; fb_truecolor := false
|}.

Example copyarea_odd_column : exists m',
  cfb_copyarea deep_screen Ok {| ca_dx := 1; ca_dy := 0; ca_width := 2; ca_height := 1; ca_sx := 0; ca_sy := 1 |} {| plain_word := fun a => 65536 * a + a |} = Ok m'
  /\ pixel deep_screen m' 0 0 = 20 /\ pixel deep_screen m' 2 0 = 17.
Proof. eexists. split; [vm_compute; reflexivity|]. split; reflexivity. Qed.
