(* ===== verification/Lcd.v ===== *)
(** * The LCD driver ([drivers/video/stm32f7_lcdfb.c])

    A frame of 480 by 272 pixels in cached memory, which the LCD controller (LTDC) reads
    behind the caches; the console draws on a canvas inside of it.  The drawing routines
    are those of [Fb], the cache maintenance that of [CacheV7m], the clocks those of
    [Clock]. *)

From S2P Require Import Prelude Clock CacheV7m Fb FbBits.

(** ** Stores of the processor through the caches *)

(** A word, by address divided by four. *)
Class Stores (C : Type) `{Caches C} := { store32 : Z -> Z -> C -> C }.

#[export] Instance cache_vram {C} `{Stores C} : Vram C := {
  vread a c := cpu c (4 * a) + 2 ^ 8 * cpu c (4 * a + 1) + 2 ^ 16 * cpu c (4 * a + 2) + 2 ^ 24 * cpu c (4 * a + 3);
  vwrite a v c := store32 a v c
}.

(** ** The driver *)

Definition LCD_WIDTH : Z := 480.
Definition LCD_HEIGHT : Z := 272.
Definition LCD_BPP : Z := 16.
Definition LCD_LINE_LEN : Z := LCD_WIDTH * 2.
Definition LCD_FRAME_SIZE : Z := LCD_LINE_LEN * LCD_HEIGHT.
Definition CONSOLE_MARGIN_X : Z := 8.
Definition CONSOLE_MARGIN_Y : Z := 8.
Definition CONSOLE_WIDTH : Z := LCD_WIDTH - 2 * CONSOLE_MARGIN_X.
Definition CONSOLE_HEIGHT : Z := LCD_HEIGHT - 2 * CONSOLE_MARGIN_Y.

Definition LTDC_SSCR : Z := 0x08.
Definition LTDC_BPCR : Z := 0x0c.
Definition LTDC_AWCR : Z := 0x10.
Definition LTDC_TWCR : Z := 0x14.
Definition LTDC_GCR : Z := 0x18.
Definition LTDC_SRCR : Z := 0x24.
Definition LTDC_BCCR : Z := 0x2c.
Definition LTDC_IER : Z := 0x34.
Definition LTDC_L1CR : Z := 0x84.
Definition LTDC_L1WHPCR : Z := 0x88.
Definition LTDC_L1WVPCR : Z := 0x8c.
Definition LTDC_L1PFCR : Z := 0x94.
Definition LTDC_L1CACR : Z := 0x98.
Definition LTDC_L1DCCR : Z := 0x9c.
Definition LTDC_L1BFCR : Z := 0xa0.
Definition LTDC_L1CFBAR : Z := 0xac.
Definition LTDC_L1CFBLR : Z := 0xb0.
Definition LTDC_L1CFBLNR : Z := 0xb4.

(** [info->fix] and [info->var] of a frame at [smem], with the palette [pal]. *)
Definition lcd_info (smem : Z) (pal : list Z) : fb_info := {|
  bits_per_pixel := LCD_BPP; line_length := LCD_LINE_LEN; smem_start := smem; smem_len := LCD_FRAME_SIZE;
  screen_base := u32 (smem + CONSOLE_MARGIN_Y * LCD_LINE_LEN + CONSOLE_MARGIN_X * 2); pseudo_palette := pal; fb_running := true; fb_truecolor := true
|}.

(** The palette after the call and the return value. *)
Definition fb_setcolreg (regno red green blue : Z) (pal : list Z) : Z * list Z :=
  if 16 <=? regno then (- EINVAL, pal)
  else (0, <[Z.to_nat regno := (((red .>> 11) .<< 11) .| ((green .>> 10) .<< 5)) .| (blue .>> 11)]> pal).

Section Driver.

Context {C : Type} `{Stores C}.
Implicit Type c : C.

(** [fix_start] is what the driver finds in [fb_fix.smem_start]: that structure is [__initdata]. *)
Definition fb_sync (fix_start : Z) c : result C := v7m_dma_clean_range fix_start (u32 (fix_start + LCD_FRAME_SIZE)) c.

(** The rows that were drawn on go to memory. *)
Definition clean_rows (p : fb_info) (dy height : Z) c : result C :=
  if negb (screen_base p =? 0) && negb (height =? 0) then
    let start := u32 (screen_base p + dy * line_length p) in
    v7m_dma_clean_range start (u32 (start + height * line_length p)) c
  else Ok c.

Definition stm32f7_fb_fillrect (p : fb_info) (fix_start : Z) (rect : fb_fillrect) c : result C :=
  let* c := cfb_fillrect p (fb_sync fix_start) rect c in clean_rows p (fr_dy rect) (fr_height rect) c.
Definition stm32f7_fb_copyarea (p : fb_info) (fix_start : Z) (area : fb_copyarea) c : result C :=
  let* c := cfb_copyarea p (fb_sync fix_start) area c in clean_rows p (ca_dy area) (ca_height area) c.
Definition stm32f7_fb_imageblit (p : fb_info) (fix_start : Z) (image : fb_image) c : result C :=
  let* c := cfb_imageblit p (fb_sync fix_start) image c in clean_rows p (im_dy image) (im_height image) c.

(** *** Start *)

(** Memory, the clocks, and the registers of devices by address. *)
Record lcd := { lmem : C; lclk : clk_state; lregs : Z -> Z }.

Definition writel (v a : Z) (l : lcd) : lcd := {| lmem := lmem l; lclk := lclk l; lregs := fun b => if b =? a then v else lregs l b |}.
Definition set_lmem (l : lcd) c : lcd := {| lmem := c; lclk := lclk l; lregs := lregs l |}.
Definition set_lclk (l : lcd) (k : clk_state) : lcd := {| lmem := lmem l; lclk := k; lregs := lregs l |}.

Variable pllsai_rdy : nat -> bool.
Variables (f7 : bool) (fuel : nat).

Fixpoint enable_all (ids : list clk_id) (k : clk_state) : result clk_state :=
  match ids with
  | [] => Ok k
  | id :: ids => let* (_, k) := clk_enable pllsai_rdy f7 fuel id k in enable_all ids k
  end.

Definition stm_clock_init (l : lcd) : result lcd :=
  let* k := enable_all [clk_sai_r; clk_ltdc; clk_gpioe; clk_gpiog; clk_gpioi; clk_gpioj; clk_gpiok] (lclk l) in Ok (set_lclk l k).

Definition ltdc_init (base : Z) (l : lcd) : result lcd :=
  let* l := stm_clock_init l in
  let l := writel (BIT 12) 0x40022018 l in
  let l := writel (BIT 3) 0x40022818 l in
  let l := writel 0x280009 (base + LTDC_SSCR) l in
  let l := writel 0x35000b (base + LTDC_BPCR) l in
  let l := writel 0x215011b (base + LTDC_AWCR) l in
  let l := writel 0x235011d (base + LTDC_TWCR) l in
  let l := writel 0 (base + LTDC_BCCR) l in
  let l := writel 0x6 (base + LTDC_IER) l in
  Ok (writel 0x2221 (base + LTDC_GCR) l).

Definition ltdc_layer_init (base addr : Z) (l : lcd) : lcd :=
  let l := writel 0x2150036 (base + LTDC_L1WHPCR) l in
  let l := writel 0x11b000c (base + LTDC_L1WVPCR) l in
  let l := writel 2 (base + LTDC_L1PFCR) l in
  let l := writel 0xff (base + LTDC_L1CACR) l in
  let l := writel 0 (base + LTDC_L1DCCR) l in
  let l := writel 0x607 (base + LTDC_L1BFCR) l in
  let l := writel addr (base + LTDC_L1CFBAR) l in
  let l := writel 0x03C003C3 (base + LTDC_L1CFBLR) l in
  let l := writel LCD_HEIGHT (base + LTDC_L1CFBLNR) l in
  let l := writel 1 (base + LTDC_L1CR) l in
  writel 0 (base + LTDC_L1CR + 0x80) l.

(** [memset] of whole words with zero. *)
Fixpoint memset_zero (n : nat) (a : Z) c : C := match n with O => c | S n => memset_zero n (a + 1) (vwrite a 0 c) end.

(** The calls that may fail: [kmalloc], [framebuffer_alloc], [fb_alloc_cmap], [register_framebuffer]. *)
Record probe_env := { pe_kmalloc : option Z; pe_fb_alloc : bool; pe_cmap : bool; pe_register : bool }.

(** The return value, the device that was registered, and whether the memory of the frame was freed. *)
Definition fb_probe (env : probe_env) (l : lcd) : result (Z * option fb_info * bool * lcd) :=
  let base := 0x40016800 in
  match pe_kmalloc env with
  | None => Ok (- ENOMEM, None, false, l)
  | Some fb_base =>
      let smem := u32 (fb_base + 256 - fb_base mod 256) in
      let c := memset_zero (Z.to_nat (LCD_FRAME_SIZE / 4)) (smem / 4) (lmem l) in
      let* c := v7m_dma_clean_range smem (u32 (smem + LCD_FRAME_SIZE)) c in
      let* l := ltdc_init base (set_lmem l c) in
      let l := ltdc_layer_init base smem l in
      let l := writel 1 (base + LTDC_SRCR) l in
      if negb (pe_fb_alloc env) then Ok (- ENOMEM, None, true, l)
      else if negb (pe_cmap env) then Ok (- ENOMEM, None, true, l)
      else if negb (pe_register env) then Ok (- EINVAL, None, true, l)
      else Ok (0, Some (lcd_info smem (repeat 0 16)), false, l)
  end.

End Driver.
