(* ===== verification/LcdMem.v ===== *)
(** * The frame behind the caches

    What the processor stores and what the LCD controller reads: a store is seen by the
    controller after its line is written back. *)

From S2P Require Import Prelude CacheV7m Fb FbBits Lcd.

(** A store changes four bytes for the processor; memory has them at once or later. *)
Class StoreLaws (C : Type) `{Stores C} := {
  st_byte c x : 0 <= cpu c x < 256;
  st_cpu a v c x : is_u32 v -> cpu (store32 a v c) x = if x / 4 =? a then (v / 2 ^ (8 * (x mod 4))) mod 256 else cpu c x;
  st_poc a v c x : poc (store32 a v c) x = poc c x \/ poc (store32 a v c) x = cpu (store32 a v c) x;
  st_fresh a v c : (forall x, fresh c x) -> forall x, fresh (store32 a v c) x
}.

Section Mem.

Context {C : Type} `{HC : Caches C} `{!L1 C} `{!Stores C} `{!StoreLaws C}.
Implicit Type c : C.

#[export] Instance cache_vram_laws : VramLaws C.
Proof.
  split.
  - intros a c. cbn [vread cache_vram]. pose proof (st_byte c (4 * a)). pose proof (st_byte c (4 * a + 1)). pose proof (st_byte c (4 * a + 2)). pose proof (st_byte c (4 * a + 3)).
    unfold fits. lia.
  - intros a b v c Hv. cbn [vread vwrite cache_vram]. rewrite !st_cpu by exact Hv.
    replace (4 * b / 4) with b by zdiv. replace ((4 * b + 1) / 4) with b by zdiv. replace ((4 * b + 2) / 4) with b by zdiv. replace ((4 * b + 3) / 4) with b by zdiv.
    destruct (b =? a); [|reflexivity].
    replace (4 * b mod 4) with 0 by zdiv. replace ((4 * b + 1) mod 4) with 1 by zdiv. replace ((4 * b + 2) mod 4) with 2 by zdiv. replace ((4 * b + 3) mod 4) with 3 by zdiv.
    cbn [Z.mul Z.pow Z.pow_pos Pos.iter Pos.mul]. change (8 * 0) with 0. change (8 * 1) with 8. change (8 * 2) with 16. change (8 * 3) with 24.
    unfold fits in Hv. change (2 ^ 0) with 1. change (2 ^ 8) with 256. change (2 ^ 16) with 65536. change (2 ^ 24) with 16777216. zdiv.
Qed.

(** Memory agrees with the processor. *)
Definition coherent c (x : Z) : Prop := poc c x = cpu c x.
Definition all_fresh c : Prop := forall x, fresh c x.

Lemma writes_cpu (W : Z -> Prop) c c' x : writes W c c' -> ~ W (x / 4) -> cpu c' x = cpu c x.
Proof.
  induction 1 as [|a v c c' Ha Hv _ IH]; intros Hx; [reflexivity|]. rewrite IH by exact Hx. cbn [vwrite cache_vram]. rewrite st_cpu by exact Hv.
  destruct (Z.eqb_spec (x / 4) a) as [<-|]; [contradiction|reflexivity].
Qed.

Lemma writes_coherent (W : Z -> Prop) c c' x : writes W c c' -> ~ W (x / 4) -> coherent c x -> coherent c' x.
Proof.
  induction 1 as [|a v c c' Ha Hv _ IH]; intros Hx Hc; [exact Hc|]. apply IH; [exact Hx|]. cbn [vwrite cache_vram]. unfold coherent in *.
  destruct (st_poc a v c x) as [E|E]; [|exact E]. rewrite E, Hc, st_cpu by exact Hv. destruct (Z.eqb_spec (x / 4) a) as [<-|]; [contradiction|reflexivity].
Qed.

Lemma writes_fresh (W : Z -> Prop) c c' : writes W c c' -> all_fresh c -> all_fresh c'.
Proof. induction 1 as [|a v c c' _ _ _ IH]; intros Hf; [exact Hf|]. apply IH. intros x. cbn. now apply st_fresh. Qed.

(** Cleaning from [s] to [e]: the lines the loop comes to agree, and nothing that agreed stops to. *)
Lemma clean_range_spec s e c : 0 <= s -> e <= 2 ^ 32 - 32 -> all_fresh c ->
  exists c', v7m_dma_clean_range s e c = Ok c' /\ (forall x, cpu c' x = cpu c x) /\ all_fresh c'
    /\ (forall x, coherent c x -> coherent c' x) /\ (forall x, reached s (Z.to_nat (turns (e - s))) (line x) = true -> coherent c' x).
Proof.
  intros Hs He Hf. unfold v7m_dma_clean_range. rewrite lines_do_eq by lia. eexists. split; [reflexivity|].
  destruct (clean_lines (Z.to_nat (turns (e - s))) s c) as (E1 & _ & E3 & E4). set (n := Z.to_nat _) in *. unfold coherent. split_and!.
  - exact E1.
  - intros x Hd. rewrite E3 in Hd. rewrite E1, E4. unfold written_back. destruct (reached s n (line x)), (dirty c (line x)) eqn:Ed; cbn [negb andb] in *; try reflexivity; try discriminate; now apply Hf.
  - intros x Hc. rewrite E1, E4. unfold written_back. destruct (_ && _); [reflexivity|exact Hc].
  - intros x Hr. rewrite E1, E4. unfold written_back. rewrite Hr. destruct (dirty c (line x)) eqn:Ed; cbn [andb]; [reflexivity|]. symmetry. now apply Hf.
Qed.

(** Zeroing. *)
Lemma memset_zero_spec n : forall a c,
  writes (fun w => a <= w < a + Z.of_nat n) c (memset_zero n a c) /\ forall x, a <= x / 4 < a + Z.of_nat n -> cpu (memset_zero n a c) x = 0.
Proof.
  induction n as [|n IH]; intros a c; cbn [memset_zero]; [split; [constructor|intros; lia]|]. destruct (IH (a + 1) (vwrite a 0 c)) as [W E]. split.
  - apply (writes_cons _ a 0); [lia|unfold fits; lia|]. apply (writes_weaken (fun w => a + 1 <= w < a + 1 + Z.of_nat n)); [intros; lia|exact W].
  - intros x Hx. destruct (Z.eq_dec (x / 4) a) as [Ea|].
    + rewrite (writes_cpu _ _ _ x W) by lia. cbn [vwrite cache_vram]. rewrite st_cpu by (unfold fits; lia). rewrite (proj2 (Z.eqb_eq _ _) Ea).
      rewrite Z.div_0_l by (apply Z.pow_nonzero; zdiv). reflexivity.
    + apply E. lia.
Qed.

End Mem.

(** *** The write-back cache stores words *)

(** A store allocates its line. *)
#[export] Instance wb_stores : Stores wb_cache := {
  store32 a v c := {| wb_mem := wb_mem c;
    wb_lines := fun l => if l =? line (4 * a) then
        Some (true, fun x => if x / 4 =? a then (v / 2 ^ (8 * (x mod 4))) mod 256 else match wb_lines c l with Some (_, d) => d x | None => wb_mem c x end)
      else wb_lines c l;
    wb_icache := wb_icache c |}
}.

#[export] Instance wb_store_laws : StoreLaws wb_cache.
Proof.
  split.
  - intros c x. cbn. destruct (wb_lines c (line x)) as [[]|]; apply Z.mod_pos_bound; lia.
  - intros a v c x _. cbn. destruct (Z.eqb_spec (line x) (line (4 * a))) as [E|Hne].
    + destruct (Z.eqb_spec (x / 4) a); [apply Z.mod_mod; lia|]. now destruct (wb_lines c (line x)) as [[]|].
    + destruct (Z.eqb_spec (x / 4) a) as [<-|]; [|reflexivity]. exfalso. apply Hne. unfold line, L1_CACHE_BYTES. zdiv.
  - intros a v c x. left. reflexivity.
  - intros a v c Hf x. specialize (Hf x). revert Hf. unfold fresh. cbn. destruct (line x =? line (4 * a)); [discriminate|]. auto.
Qed.

(** Empty caches over zeroed memory. *)
Definition wb_empty : wb_cache := {| wb_mem := fun _ => 0; wb_lines := fun _ => None; wb_icache := fun _ => false |}.

Lemma wb_empty_fresh : all_fresh wb_empty.
Proof. intros x _. reflexivity. Qed.
