(* ===== verification/LcdSpec.v ===== *)
(** * What the LCD shows

    The specification is a canvas of colours.  After any sequence of drawing calls the
    panel shows the canvas inside of its margin: the drawing routines set the right bits,
    and every word they store to has left the caches when the call returns. *)

From S2P Require Import Prelude Clock CacheV7m Fb FbBits FbFill FbPixel FbBlit FbImage FbCopy Lcd LcdMem.

(** ** The specification *)

Inductive lcd_op := Fill (r : fb_fillrect) | Copy (a : fb_copyarea) | Image (i : fb_image).

Definition canvas := Z -> Z -> Z.

(** A rectangle of the canvas. *)
Record canvas_rect (dx dy w h : Z) : Prop := {
  cr_x : 0 <= dx; cr_y : 0 <= dy; cr_w : 0 <= w; cr_h : 0 <= h; cr_right : dx + w <= CONSOLE_WIDTH; cr_bottom : dy + h <= CONSOLE_HEIGHT
}.

Section Canvas.

Variable p : fb_info.

Definition color (i : Z) : Z := nth (Z.to_nat i) (pseudo_palette p) 0.
Definition pen (i : Z) : Prop := 0 <= i < 16.

Definition draw (op : lcd_op) (cv : canvas) : canvas := fun x y =>
  match op with
  | Fill r => if inside (fr_dx r) (fr_dy r) (fr_width r) (fr_height r) x y then rop_pixel (fr_rop r) (cv x y) (color (fr_color r)) else cv x y
  | Copy a => if inside (ca_dx a) (ca_dy a) (ca_width a) (ca_height a) x y then cv (x - ca_dx a + ca_sx a) (y - ca_dy a + ca_sy a) else cv x y
  | Image i => if inside (im_dx i) (im_dy i) (im_width i) (im_height i) x y
      then image_color p i (color (im_fg i)) (color (im_bg i)) (x - im_dx i) (y - im_dy i) else cv x y
  end.

(** Calls inside of the canvas; copies at even columns, as [cfb_copyarea] needs them. *)
Definition op_ok (op : lcd_op) : Prop :=
  match op with
  | Fill r => canvas_rect (fr_dx r) (fr_dy r) (fr_width r) (fr_height r) /\ pen (fr_color r)
  | Copy a => canvas_rect (ca_dx a) (ca_dy a) (ca_width a) (ca_height a) /\ canvas_rect (ca_sx a) (ca_sy a) (ca_width a) (ca_height a)
      /\ 0 < ca_width a /\ ca_dx a mod 2 = 0 /\ ca_sx a mod 2 = 0 /\ ca_width a mod 2 = 0
  | Image i => canvas_rect (im_dx i) (im_dy i) (im_width i) (im_height i) /\ 0 < im_width i
      /\ (im_depth i = 1 -> pen (im_fg i) /\ pen (im_bg i) /\ im_height i * spitch i <= Z.of_nat (length (im_data i)))
      /\ (im_depth i <> 1 -> im_height i * im_width i <= Z.of_nat (length (im_data i)) /\ Forall pen (im_data i))
  end.

End Canvas.

(** The pixel that the controller fetches: two bytes of memory at the address and the pitch in its registers. *)
Definition panel_pixel {C} `{Caches C} (cfbar pitch : Z) (c : C) (x y : Z) : Z :=
  let a := cfbar + y * pitch + 2 * x in poc c a + 256 * poc c (a + 1).

Section Lcd.

Context {C : Type} `{HC : Caches C} `{!L1 C} `{!Stores C} `{!StoreLaws C}.
Implicit Type c : C.
Variables (smem fix_start : Z) (pal : list Z).

(** The frame is where the driver puts it; the cleaning in [fb_sync], wherever it begins, does not end in the last
    line of the address space. *)
Record lcd_ok : Prop := {
  lk_base : 0 < smem; lk_align : smem mod 256 = 0; lk_end : smem + 300000 <= 2 ^ 32;
  lk_fix : 0 <= fix_start; lk_fix_end : u32 (fix_start + LCD_FRAME_SIZE) <= 2 ^ 32 - 32;
  lk_palette : length pal = 16%nat; lk_colors : Forall (fits 16) pal
}.

Let p := lcd_info smem pal.

Definition lcd_step (op : lcd_op) c : result C :=
  match op with
  | Fill r => stm32f7_fb_fillrect p fix_start r c
  | Copy a => stm32f7_fb_copyarea p fix_start a c
  | Image i => stm32f7_fb_imageblit p fix_start i c
  end.

Fixpoint lcd_run (ops : list lcd_op) c : result C :=
  match ops with [] => Ok c | op :: ops => let* c := lcd_step op c in lcd_run ops c end.

Definition in_frame (x : Z) : Prop := smem <= x < smem + LCD_FRAME_SIZE.

(** Lines wait to be written back where the processor is ahead, but nowhere in the frame. *)
Record settled c : Prop := { se_fresh : all_fresh c; se_frame : forall x, in_frame x -> coherent c x }.

Hypothesis Hlcd : lcd_ok.

Lemma lcd_screen_base : screen_base p = smem + 7696.
Proof. destruct Hlcd. unfold p, lcd_info. cbn [screen_base]. change (CONSOLE_MARGIN_Y * LCD_LINE_LEN) with 7680. change (CONSOLE_MARGIN_X * 2) with 16. rewrite u32_id by (unfold fits; lia). lia. Qed.

Lemma lcd_pixel_bit x y : pixel_bit p x y = 8 * (smem + 7696) + y * 7680 + x * 16.
Proof. unfold pixel_bit. rewrite lcd_screen_base. change (line_length p) with 960. change (bits_per_pixel p) with 16. lia. Qed.

Lemma lcd_info_ok : info_ok p.
Proof.
  destruct Hlcd. split; [reflexivity| |reflexivity|rewrite lcd_screen_base; unfold fits; lia]. unfold depth. change (bits_per_pixel p) with 16. cbn. tauto.
Qed.

Lemma lcd_pixels_ok : pixels_ok p.
Proof.
  split; [exact lcd_info_ok| |reflexivity]. rewrite lcd_screen_base. change (bits_per_pixel p) with 16. destruct Hlcd. zdiv.
Qed.

Lemma lcd_rect_ok dx dy w h : canvas_rect dx dy w h -> rect_ok p dx dy w h.
Proof.
  intros [Hx Hy Hw Hh Hr Hb]. change CONSOLE_WIDTH with 464 in Hr. change CONSOLE_HEIGHT with 256 in Hb.
  split; try assumption; change (line_length p) with 960; change (bits_per_pixel p) with 16; lia.
Qed.

Lemma lcd_on_line x y : 0 <= x < CONSOLE_WIDTH -> 0 <= y -> on_line p x y.
Proof. change CONSOLE_WIDTH with 464. intros Hx Hy. unfold on_line. change (line_length p) with 960. change (bits_per_pixel p) with 16. lia. Qed.

Lemma lcd_mapped dx dy w h : canvas_rect dx dy w h -> mapped_rect p (pixel_bit p dx dy) (w * bits_per_pixel p) h.
Proof.
  intros [Hx Hy Hw Hh Hr Hb] i Hi b. change CONSOLE_WIDTH with 464 in Hr. change CONSOLE_HEIGHT with 256 in Hb. rewrite lcd_pixel_bit.
  change (line_length p) with 960. change (bits_per_pixel p) with 16. intros Hbb. unfold mapped. change (smem_start p) with smem. change (smem_len p) with 261120.
  destruct Hlcd. apply andb_true_iff. rewrite !Z.leb_le. zdiv.
Qed.

Lemma lcd_color i : pen i -> color_of p i = Ok (color p i) /\ fits (bits_per_pixel p) (color p i).
Proof.
  intros Hi. destruct Hlcd as [_ _ _ _ _ Hl Hc]. unfold color_of, palette, color, pen in *. change (fb_truecolor p) with true. change (pseudo_palette p) with pal. change (bits_per_pixel p) with 16.
  rewrite (nth_error_nth' _ 0) by lia. split; [reflexivity|]. rewrite List.Forall_forall in Hc. apply Hc, nth_In. lia.
Qed.

(** *** The caches *)

Lemma sync_spec c : settled c -> exists c', fb_sync fix_start c = Ok c' /\ (forall x, cpu c' x = cpu c x) /\ settled c'.
Proof.
  intros [Hf Hc]. destruct Hlcd. destruct (clean_range_spec fix_start (u32 (fix_start + LCD_FRAME_SIZE)) c) as (c' & E & E1 & E2 & E3 & _); try assumption.
  exists c'. split; [exact E|]. split; [exact E1|]. split; [exact E2|]. intros x Hx. apply E3, Hc, Hx.
Qed.

(** The words of a rectangle are in lines that the driver cleans. *)
Lemma rect_words_cleaned dx dy w h x : canvas_rect dx dy w h ->
  words_of (rect_bits (pixel_bit p dx dy) (line_length p * 8) (w * bits_per_pixel p) h) (x / 4) ->
  reached (smem + 7696 + dy * 960) (Z.to_nat (turns (h * 960))) (line x) = true.
Proof.
  intros [Hx Hy Hw Hh Hr Hb] (b & Hbits & Eb). change CONSOLE_WIDTH with 464 in Hr. change CONSOLE_HEIGHT with 256 in Hb.
  apply rect_bits_true in Hbits; [|reflexivity]. destruct Hbits as (i & j & Hi & Hj & _ & ->). revert Eb Hj. rewrite lcd_pixel_bit.
  change (line_length p * 8) with 7680. change (bits_per_pixel p) with 16. intros Eb Hj. destruct Hlcd as [Hs1 Hs2 _ _ _ _ _].
  unfold reached. rewrite Z2Nat.id by (unfold turns; zdiv). apply andb_true_iff. rewrite Z.leb_le, Z.ltb_lt. unfold line, turns, L1_CACHE_BYTES. zdiv.
Qed.

(** After drawing on a rectangle the rows of it are cleaned. *)
Lemma clean_rows_spec dx dy w h c0 c1 : canvas_rect dx dy w h -> settled c0 ->
  writes (words_of (rect_bits (pixel_bit p dx dy) (line_length p * 8) (w * bits_per_pixel p) h)) c0 c1 ->
  exists c2, clean_rows p dy h c1 = Ok c2 /\ (forall x, cpu c2 x = cpu c1 x) /\ settled c2.
Proof.
  intros Hr [Hf Hc] Hw. pose proof (writes_fresh _ _ _ Hw Hf) as Hf1. unfold clean_rows. rewrite lcd_screen_base.
  pose proof Hr as [_ Hy _ Hh _ Hb]. change CONSOLE_HEIGHT with 256 in Hb. pose proof Hlcd as [Hs1 _ Hs2 _ _ _ _].
  rewrite (proj2 (Z.eqb_neq (smem + 7696) 0)) by lia. cbn [negb andb]. destruct (Z.eqb_spec h 0) as [->|Hh0]; cbn [negb].
  - exists c1. split; [reflexivity|]. split; [reflexivity|]. split; [exact Hf1|]. intros x Hx. apply (writes_coherent _ _ _ _ Hw); [|now apply Hc].
    intros (b & Hbits & _). rewrite rect_bits_0 in Hbits by reflexivity. discriminate.
  - change (line_length p) with 960 in *. rewrite (u32_id (smem + 7696 + dy * 960)) by (unfold fits; lia). rewrite u32_id by (unfold fits; lia).
    destruct (clean_range_spec (smem + 7696 + dy * 960) (smem + 7696 + dy * 960 + h * 960) c1) as (c2 & E & E1 & E2 & E3 & E4); [lia|lia|exact Hf1|].
    exists c2. split; [exact E|]. split; [exact E1|]. split; [exact E2|]. intros x Hx.
    destruct (reached (smem + 7696 + dy * 960) (Z.to_nat (turns (h * 960))) (line x)) eqn:Er.
    + apply E4. now replace (smem + 7696 + dy * 960 + h * 960 - (smem + 7696 + dy * 960)) with (h * 960) by lia.
    + apply E3, (writes_coherent _ _ _ _ Hw); [|now apply Hc]. intros Hin. rewrite (rect_words_cleaned dx dy w h x Hr Hin) in Er. discriminate.
Qed.

(** *** The canvas *)

Lemma pixel_cpu c c' x y : (forall a, cpu c' a = cpu c a) -> pixel p c' x y = pixel p c x y.
Proof. intros E. unfold pixel. cbn [vread cache_vram]. now rewrite !E. Qed.

Definition on_canvas (x y : Z) : Prop := 0 <= x < CONSOLE_WIDTH /\ 0 <= y < CONSOLE_HEIGHT.

(** The canvas is in the frame, and the margin is black. *)
Record shows c (cv : canvas) : Prop := {
  sh_settled : settled c;
  sh_canvas : forall x y, on_canvas x y -> pixel p c x y = cv x y;
  sh_margin : forall x y e, 0 <= x < LCD_WIDTH -> 0 <= y < LCD_HEIGHT -> ~ on_canvas (x - CONSOLE_MARGIN_X) (y - CONSOLE_MARGIN_Y) -> 0 <= e < 2 ->
    cpu c (smem + y * LCD_LINE_LEN + 2 * x + e) = 0
}.

(** No word of the canvas has a byte of the margin. *)
Lemma margin_words dx dy w h x y e : canvas_rect dx dy w h ->
  0 <= x < LCD_WIDTH -> 0 <= y < LCD_HEIGHT -> ~ on_canvas (x - CONSOLE_MARGIN_X) (y - CONSOLE_MARGIN_Y) -> 0 <= e < 2 ->
  ~ words_of (rect_bits (pixel_bit p dx dy) (line_length p * 8) (w * bits_per_pixel p) h) ((smem + y * LCD_LINE_LEN + 2 * x + e) / 4).
Proof.
  intros [Hx Hy Hw Hh Hr Hb] Hxr Hyr Hout He (b & Hbits & Eb). apply Hout. clear Hout.
  apply rect_bits_true in Hbits; [|reflexivity]. destruct Hbits as (i & j & Hi & Hj & _ & ->). revert Eb Hj. rewrite lcd_pixel_bit. unfold on_canvas in *.
  change CONSOLE_WIDTH with 464 in *. change CONSOLE_HEIGHT with 256 in *. change LCD_WIDTH with 480 in *. change LCD_HEIGHT with 272 in *. change CONSOLE_MARGIN_X with 8. change CONSOLE_MARGIN_Y with 8.
  change (line_length p * 8) with 7680. change (bits_per_pixel p) with 16. change LCD_LINE_LEN with 960. intros Eb Hj. pose proof Hlcd as [Hs1 Hs2 _ _ _ _ _].
  assert (H1 : (8 * (smem + 7696) + dy * 7680 + dx * 16 + i * 7680 + j) / 32 = smem / 4 + (dy + i + 8) * 240 + 4 + (dx * 16 + j) / 32) by zdiv.
  assert (H2 : (smem + y * 960 + 2 * x + e) / 4 = smem / 4 + y * 240 + (2 * x + e) / 4) by zdiv.
  rewrite H1, H2 in Eb. assert (0 <= (dx * 16 + j) / 32 < 232) by zdiv. assert (0 <= (2 * x + e) / 4 < 240) by zdiv.
  assert (y = dy + i + 8) by lia. assert ((2 * x + e) / 4 = 4 + (dx * 16 + j) / 32) by lia. split; [zdiv|lia].
Qed.

(** What every drawing call has in common: cleaning before, drawing on a rectangle, cleaning its rows. *)
Lemma drawn dx dy w h cv cv' c c0 c1 : canvas_rect dx dy w h -> shows c cv -> (forall x, cpu c0 x = cpu c x) -> settled c0 ->
  writes (words_of (rect_bits (pixel_bit p dx dy) (line_length p * 8) (w * bits_per_pixel p) h)) c0 c1 ->
  (forall x y, on_canvas x y -> pixel p c1 x y = cv' x y) -> exists c2, clean_rows p dy h c1 = Ok c2 /\ shows c2 cv'.
Proof.
  intros Hr [_ _ Hm] E0 Hs Hw Hp. destruct (clean_rows_spec dx dy w h c0 c1 Hr Hs Hw) as (c2 & E2 & Ec & Hs2). exists c2. split; [exact E2|]. split; [exact Hs2| |].
  - intros x y Hxy. rewrite (pixel_cpu c1) by exact Ec. now apply Hp.
  - intros x y e Hx Hy Hout He. rewrite Ec, (writes_cpu _ _ _ _ Hw), E0 by now apply margin_words. now apply Hm.
Qed.

Lemma lcd_words_ok i : canvas_rect (im_dx i) (im_dy i) (im_width i) (im_height i) -> words_ok p i.
Proof.
  intros [Hx Hy Hw Hh Hr Hb]. change CONSOLE_HEIGHT with 256 in Hb. pose proof Hlcd as [Hs1 Hs2 Hs3 _ _ _ _].
  split; [rewrite lcd_screen_base; zdiv|reflexivity|]. rewrite lcd_screen_base. change (line_length p) with 960. lia.
Qed.

Lemma lcd_image_ok i : op_ok (Image i) -> image_ok p i (color p (im_fg i)) (color p (im_bg i)).
Proof.
  intros (Hr & Hw & Hmono & Hcolor). split; [now apply lcd_rect_ok|exact Hw| |].
  - intros E. destruct (Hmono E) as (Hf & Hb & Hl). destruct (lcd_color _ Hf), (lcd_color _ Hb). auto.
  - intros E. destruct (Hcolor E) as (Hl & Hp). split; [exact Hl|]. intros k Hk. rewrite List.Forall_forall in Hp. destruct (lcd_color (byte_at i k)); [|eauto].
    apply Hp, nth_In. lia.
Qed.

Lemma lcd_copy_ok a : op_ok (Copy a) -> copy_ok p a.
Proof.
  intros (Hd & Hs & Hw & H1 & H2 & H3). split; try assumption; try reflexivity; try (now apply lcd_rect_ok).
  - change (bits_per_pixel p) with 16. split_and!; zdiv.
  - rewrite lcd_screen_base. pose proof Hlcd as [_ Hs2 _ _ _ _ _]. zdiv.
  - split; now apply lcd_mapped.
Qed.

Lemma in_canvas dx dy w h x y : canvas_rect dx dy w h -> inside dx dy w h x y = true -> forall sx sy, canvas_rect sx sy w h -> on_canvas (x - dx + sx) (y - dy + sy).
Proof. intros Hr Hi sx sy [Hx Hy Hw Hh Hr' Hb]. apply inside_true in Hi. unfold on_canvas. destruct Hr. lia. Qed.

(** One call. *)
Lemma lcd_step_shows op c cv : op_ok op -> shows c cv -> exists c', lcd_step op c = Ok c' /\ shows c' (draw p op cv).
Proof.
  intros Hop Hsh. destruct (sync_spec c (sh_settled _ _ Hsh)) as (c0 & E0 & Ec & Hs0). pose proof lcd_pixels_ok as Hpx.
  assert (Hcv : forall x y, on_canvas x y -> pixel p c0 x y = cv x y) by (intros x y Hxy; rewrite (pixel_cpu c) by exact Ec; now apply (sh_canvas _ _ Hsh)).
  assert (Hline : forall x y, on_canvas x y -> on_line p x y) by (intros x y [Hx Hy]; apply lcd_on_line; lia). destruct op as [r|a|i]; cbn [lcd_step].
  - destruct Hop as [Hr Hpen]. destruct (lcd_color _ Hpen) as [Hc Hf]. unfold stm32f7_fb_fillrect.
    destruct (fillrect_pixels p (fb_sync fix_start) r _ c c0 Hpx (lcd_rect_ok _ _ _ _ Hr) Hc Hf E0 (lcd_mapped _ _ _ _ Hr)) as (c1 & E1 & Hp1 & Hw1).
    rewrite E1. cbn [rbind]. apply (drawn _ _ _ _ cv _ c c0 c1 Hr Hsh Ec Hs0 Hw1). intros x y Hxy. rewrite Hp1 by now apply Hline. unfold draw. now rewrite Hcv by exact Hxy.
  - pose proof Hop as (Hr & Hsrc & _). unfold stm32f7_fb_copyarea.
    destruct (copyarea_pixels p a (fb_sync fix_start) c c0 Hpx (lcd_copy_ok a Hop) E0) as (c1 & E1 & Hp1 & Hw1).
    rewrite E1. cbn [rbind]. apply (drawn _ _ _ _ cv _ c c0 c1 Hr Hsh Ec Hs0 Hw1). intros x y Hxy. rewrite Hp1 by now apply Hline. unfold draw.
    destruct (inside _ _ _ _ x y) eqn:Hin; apply Hcv; [|exact Hxy]. now apply (in_canvas _ _ _ _ x y Hr Hin).
  - pose proof Hop as (Hr & _). unfold stm32f7_fb_imageblit.
    destruct (imageblit_pixels p i (fb_sync fix_start) _ _ c c0 Hpx (lcd_words_ok i Hr) (lcd_image_ok i Hop) E0 (lcd_mapped _ _ _ _ Hr)) as (c1 & E1 & Hp1 & Hw1).
    rewrite E1. cbn [rbind]. apply (drawn _ _ _ _ cv _ c c0 c1 Hr Hsh Ec Hs0 Hw1). intros x y Hxy. rewrite Hp1 by now apply Hline. unfold draw. now rewrite Hcv by exact Hxy.
Qed.

Lemma lcd_run_shows ops : forall c cv, Forall op_ok ops -> shows c cv -> exists c', lcd_run ops c = Ok c' /\ shows c' (fold_left (fun cv op => draw p op cv) ops cv).
Proof.
  induction ops as [|op ops IH]; intros c cv Hops Hsh; cbn [lcd_run fold_left]; [now exists c|]. apply Forall_cons in Hops as [Hop Hops].
  destruct (lcd_step_shows op c cv Hop Hsh) as (c1 & E1 & Hsh1). rewrite E1. cbn [rbind]. now apply IH.
Qed.

(** *** The panel *)

(** The pixel of the canvas as bytes. *)
Lemma pixel_bytes c x y : on_canvas x y -> let a := smem + (y + CONSOLE_MARGIN_Y) * LCD_LINE_LEN + 2 * (x + CONSOLE_MARGIN_X) in pixel p c x y = cpu c a + 256 * cpu c (a + 1).
Proof.
  intros [Hx Hy] a. unfold pixel. rewrite lcd_pixel_bit. change (bits_per_pixel p) with 16. change CONSOLE_MARGIN_Y with 8 in a. change CONSOLE_MARGIN_X with 8 in a. change LCD_LINE_LEN with 960 in a.
  pose proof Hlcd as [Hs1 Hs2 _ _ _ _ _]. replace (8 * (smem + 7696) + y * 7680 + x * 16) with (8 * a) by lia. rewrite Z.land_ones, Z.shiftr_div_pow2 by zdiv. cbn [vread cache_vram].
  assert (Ha : a mod 2 = 0) by zdiv. clearbody a. replace (8 * a / 32) with (a / 4) by zdiv.
  pose proof (st_byte c (4 * (a / 4))). pose proof (st_byte c (4 * (a / 4) + 1)). pose proof (st_byte c (4 * (a / 4) + 2)). pose proof (st_byte c (4 * (a / 4) + 3)).
  change (2 ^ 8) with 256. change (2 ^ 16) with 65536. change (2 ^ 24) with 16777216. assert (Hm : a mod 4 = 0 \/ a mod 4 = 2) by zdiv. destruct Hm as [Hm|Hm].
  - replace (8 * a mod 32) with 0 by zdiv. replace (4 * (a / 4)) with a in * by zdiv. change (2 ^ 0) with 1. zdiv.
  - replace (8 * a mod 32) with 16 by zdiv. replace (4 * (a / 4)) with (a - 2) in * by zdiv. replace (a - 2 + 2) with a in * by lia. replace (a - 2 + 3) with (a + 1) in * by lia. change (2 ^ 16) with 65536. zdiv.
Qed.

Lemma panel_shows c cv x y : shows c cv -> 0 <= x < LCD_WIDTH -> 0 <= y < LCD_HEIGHT ->
  panel_pixel smem LCD_LINE_LEN c x y = if inside CONSOLE_MARGIN_X CONSOLE_MARGIN_Y CONSOLE_WIDTH CONSOLE_HEIGHT x y then cv (x - CONSOLE_MARGIN_X) (y - CONSOLE_MARGIN_Y) else 0.
Proof.
  intros [[_ Hc] Hcv Hm] Hx Hy. unfold panel_pixel. change LCD_WIDTH with 480 in *. change LCD_HEIGHT with 272 in *.
  assert (Hco : forall e, 0 <= e < 2 -> poc c (smem + y * LCD_LINE_LEN + 2 * x + e) = cpu c (smem + y * LCD_LINE_LEN + 2 * x + e)).
  { intros e He. apply Hc. unfold in_frame. change LCD_FRAME_SIZE with 261120. change LCD_LINE_LEN with 960. lia. }
  rewrite <- (Z.add_0_r (smem + y * LCD_LINE_LEN + 2 * x)) at 1. rewrite !Hco by lia. destruct (inside _ _ _ _ x y) eqn:Hin.
  - apply inside_true in Hin. assert (Hon : on_canvas (x - CONSOLE_MARGIN_X) (y - CONSOLE_MARGIN_Y)) by (unfold on_canvas; lia).
    rewrite <- Hcv by exact Hon. rewrite pixel_bytes by exact Hon. cbv zeta. rewrite !Z.sub_add, Z.add_0_r. reflexivity.
  - assert (Hout : ~ on_canvas (x - CONSOLE_MARGIN_X) (y - CONSOLE_MARGIN_Y)).
    { intros Hon. apply not_true_iff_false in Hin. apply Hin, inside_true. unfold on_canvas in Hon. lia. }
    rewrite !Hm by (assumption || lia). reflexivity.
Qed.

End Lcd.

(** ** From the probe on *)

Inductive lcd_call := Draw (op : lcd_op) | SetColor (regno red green blue : Z).

Definition u16 (x : Z) : Prop := 0 <= x < 65536.

(** What a call asks of its arguments, with the palette at the time. *)
Definition call_ok (call : lcd_call) : Prop := match call with Draw op => op_ok op | SetColor regno r g b => 0 <= regno /\ u16 r /\ u16 g /\ u16 b end.

(** The specification: a palette and a canvas. *)
Definition rgb565 (r g b : Z) : Z := r / 2 ^ 11 * 2 ^ 11 + g / 2 ^ 10 * 2 ^ 5 + b / 2 ^ 11.
Definition spec_call (smem : Z) (s : list Z * canvas) (call : lcd_call) : list Z * canvas :=
  match call with
  | Draw op => (fst s, draw (lcd_info smem (fst s)) op (snd s))
  | SetColor regno r g b => (if regno <? 16 then <[Z.to_nat regno := rgb565 r g b]> (fst s) else fst s, snd s)
  end.

(** Five, six and five bits. *)
Lemma rgb565_eq r g b : u16 r -> u16 g -> u16 b ->
  (((r .>> 11) .<< 11) .| ((g .>> 10) .<< 5)) .| (b .>> 11) = rgb565 r g b /\ fits 16 (rgb565 r g b).
Proof.
  unfold u16, rgb565. intros Hr Hg Hb. rewrite !Z.shiftr_div_pow2 by lia. change (2 ^ 11) with 2048. change (2 ^ 10) with 1024. change (2 ^ 5) with 32.
  assert (H1 : 0 <= r / 2048 < 32) by zdiv. assert (H2 : 0 <= g / 1024 < 64) by zdiv. assert (H3 : 0 <= b / 2048 < 32) by zdiv.
  revert H1 H2 H3. generalize (r / 2048) (g / 1024) (b / 2048). intros x y z Hx Hy Hz. split; [|unfold fits; lia].
  unfold shl32. rewrite !Z.shiftl_mul_pow2 by lia. rewrite !u32_id by (unfold fits; lia). change (2 ^ 5) with 32.
  assert (E1 : x * 2 ^ 11 .| y * 32 = x * 2 ^ 11 + y * 32) by (apply (lor_add x (y * 32) 11); lia). rewrite E1.
  replace (x * 2 ^ 11 + y * 32) with ((x * 64 + y) * 2 ^ 5) by lia. rewrite (lor_add (x * 64 + y) z 5) by lia. lia.
Qed.

Lemma setcolreg_spec regno r g b pal : 0 <= regno -> u16 r -> u16 g -> u16 b -> length pal = 16%nat -> Forall (fits 16) pal ->
  let pal' := snd (fb_setcolreg regno r g b pal) in
  pal' = (if regno <? 16 then <[Z.to_nat regno := rgb565 r g b]> pal else pal) /\ length pal' = 16%nat /\ Forall (fits 16) pal'.
Proof.
  intros Hn Hr Hg Hb Hl Hf. unfold fb_setcolreg. destruct (rgb565_eq r g b Hr Hg Hb) as [-> Hfit].
  destruct (Z.leb_spec 16 regno); cbn [snd]; [now rewrite (proj2 (Z.ltb_ge regno 16)) by lia|]. rewrite (proj2 (Z.ltb_lt regno 16)) by lia.
  split; [reflexivity|]. split; [now rewrite length_insert|]. now apply Forall_insert.
Qed.

(** Where the frame begins. *)
Lemma probe_frame fb_base : 0 <= fb_base -> fb_base + 300256 <= 2 ^ 32 ->
  let smem := u32 (fb_base + 256 - fb_base mod 256) in 0 < smem /\ smem mod 256 = 0 /\ smem + 300000 <= 2 ^ 32 /\ fb_base <= smem <= fb_base + 256.
Proof. intros H1 H2. cbv zeta. rewrite u32_id by (unfold fits; zdiv). split_and!; zdiv. Qed.

Section Calls.

Context {C : Type} `{HC : Caches C} `{!L1 C} `{!Stores C} `{!StoreLaws C}.
Implicit Type c : C.
Variables (smem fix_start : Z).

Definition lcd_do (call : lcd_call) (s : list Z * C) : result (list Z * C) :=
  match call with
  | Draw op => let* c := lcd_step smem fix_start (fst s) op (snd s) in Ok (fst s, c)
  | SetColor regno r g b => Ok (snd (fb_setcolreg regno r g b (fst s)), snd s)
  end.

Fixpoint lcd_calls (calls : list lcd_call) (s : list Z * C) : result (list Z * C) :=
  match calls with [] => Ok s | call :: calls => let* s := lcd_do call s in lcd_calls calls s end.

Lemma lcd_calls_show calls : forall pal c cv, lcd_ok smem fix_start pal -> Forall call_ok calls -> shows smem pal c cv ->
  exists pal' c', lcd_calls calls (pal, c) = Ok (pal', c') /\ lcd_ok smem fix_start pal'
    /\ pal' = fst (fold_left (spec_call smem) calls (pal, cv)) /\ shows smem pal' c' (snd (fold_left (spec_call smem) calls (pal, cv))).
Proof.
  induction calls as [|call calls IH]; intros pal c cv Hok Hcalls Hsh; cbn [lcd_calls fold_left]; [exists pal, c; auto|].
  apply Forall_cons in Hcalls as [Hcall Hcalls]. destruct call as [op|regno r g b]; cbn [lcd_do fst snd spec_call].
  - destruct (lcd_step_shows smem fix_start pal Hok op c cv Hcall Hsh) as (c1 & E1 & Hsh1). rewrite E1. cbn [rbind]. apply (IH pal c1 _ Hok Hcalls Hsh1).
  - destruct Hcall as (Hn & Hr & Hg & Hb). cbn [rbind]. destruct Hok as [H1 H2 H3 H4 H5 Hl Hf]. destruct (setcolreg_spec regno r g b pal Hn Hr Hg Hb Hl Hf) as (E & Hl' & Hf').
    rewrite <- E. apply IH; [now split|exact Hcalls|]. destruct Hsh as [Hs Hc Hm]. now split.
Qed.

(** *** The probe *)

Variables (pllsai_rdy : nat -> bool) (f7 : bool) (fuel : nat).

(** A black frame in memory. *)
Lemma probe_mem pal c : all_fresh c -> 0 < smem -> smem mod 256 = 0 -> smem + 300000 <= 2 ^ 32 -> lcd_ok smem 0 pal ->
  exists c', v7m_dma_clean_range smem (u32 (smem + LCD_FRAME_SIZE)) (memset_zero (Z.to_nat (LCD_FRAME_SIZE / 4)) (smem / 4) c) = Ok c'
    /\ shows smem pal c' (fun _ _ => 0).
Proof.
  intros Hf H1 H2 H3 Hok. destruct (memset_zero_spec (Z.to_nat (LCD_FRAME_SIZE / 4)) (smem / 4) c) as [Hw Hz]. set (c1 := memset_zero _ _ c) in *. clearbody c1.
  rewrite Z2Nat.id in * by (vm_compute; congruence). change (LCD_FRAME_SIZE / 4) with 65280 in *. change LCD_FRAME_SIZE with 261120. rewrite u32_id by (unfold fits; lia).
  destruct (clean_range_spec smem (smem + 261120) c1) as (c' & E & E1 & E2 & _ & E4); [lia|lia|exact (writes_fresh _ _ _ Hw Hf)|]. exists c'. split; [exact E|].
  assert (Hzero : forall x, in_frame smem x -> cpu c' x = 0) by (intros x Hx; rewrite E1; apply Hz; unfold in_frame in Hx; change LCD_FRAME_SIZE with 261120 in Hx; zdiv).
  split.
  - split; [exact E2|]. intros x Hx. apply E4. unfold in_frame in Hx. change LCD_FRAME_SIZE with 261120 in Hx. rewrite reached_range by (try lia; zdiv).
    apply andb_true_iff. rewrite Z.leb_le, Z.ltb_lt. unfold turns. zdiv.
  - intros x y Hxy. rewrite (pixel_bytes smem 0 pal Hok) by exact Hxy. cbv zeta. unfold on_canvas in Hxy.
    rewrite !Hzero; [reflexivity| |]; unfold in_frame; change LCD_FRAME_SIZE with 261120; change LCD_LINE_LEN with 960; change CONSOLE_MARGIN_Y with 8; change CONSOLE_MARGIN_X with 8;
      change CONSOLE_WIDTH with 464 in Hxy; change CONSOLE_HEIGHT with 256 in Hxy; lia.
  - intros x y e Hx Hy _ He. apply Hzero. unfold in_frame. change LCD_FRAME_SIZE with 261120. change LCD_LINE_LEN with 960. change LCD_WIDTH with 480 in Hx. change LCD_HEIGHT with 272 in Hy. lia.
Qed.

Definition black : canvas := fun _ _ => 0.
Definition LTDC_BASE : Z := 0x40016800.

(** What the controller is set to: the size of the window of layer 1, its frame and the bytes from a line to the next. *)
Definition window_ok (l : lcd (C := C)) (smem : Z) : Prop :=
  let whpcr := lregs l (LTDC_BASE + LTDC_L1WHPCR) in let wvpcr := lregs l (LTDC_BASE + LTDC_L1WVPCR) in
  (whpcr .>> 16) - (whpcr .& 0xfff) + 1 = LCD_WIDTH /\ (wvpcr .>> 16) - (wvpcr .& 0x7ff) + 1 = LCD_HEIGHT
  /\ lregs l (LTDC_BASE + LTDC_L1CFBAR) = smem /\ (lregs l (LTDC_BASE + LTDC_L1CFBLR) .>> 16) = LCD_LINE_LEN
  /\ (lregs l (LTDC_BASE + LTDC_L1CFBLR) .& 0x1fff) = LCD_LINE_LEN + 3 /\ lregs l (LTDC_BASE + LTDC_L1CFBLNR) = LCD_HEIGHT
  /\ lregs l (LTDC_BASE + LTDC_L1CR) = 1 /\ lregs l (LTDC_BASE + LTDC_L1CR + 0x80) = 0 /\ Z.testbit (lregs l (LTDC_BASE + LTDC_GCR)) 0 = true
  /\ lregs l (LTDC_BASE + LTDC_SRCR) = 1.

Definition lcd_clocks : list clk_id := [clk_sai_r; clk_ltdc; clk_gpioe; clk_gpiog; clk_gpioi; clk_gpioj; clk_gpiok].

(** Up to the registration. *)
Lemma probe_started fb_base l k env :
  pe_kmalloc env = Some fb_base -> 0 <= fb_base -> fb_base + 300256 <= 2 ^ 32 -> smem = u32 (fb_base + 256 - fb_base mod 256) ->
  all_fresh (lmem l) -> enable_all pllsai_rdy f7 fuel lcd_clocks (lclk l) = Ok k ->
  exists l1, window_ok l1 smem /\ lclk l1 = k /\ shows smem (repeat 0 16) (lmem l1) black
    /\ fb_probe pllsai_rdy f7 fuel env l = Ok (
      if negb (pe_fb_alloc env) then (- ENOMEM, None, true, l1) else if negb (pe_cmap env) then (- ENOMEM, None, true, l1)
      else if negb (pe_register env) then (- EINVAL, None, true, l1) else (0, Some (lcd_info smem (repeat 0 16)), false, l1)).
Proof.
  intros Ek Hb1 Hb2 Esm Hf Hck. destruct (probe_frame fb_base Hb1 Hb2) as (H1 & H2 & H3 & _). rewrite <- Esm in H1, H2, H3.
  assert (Hok : lcd_ok smem 0 (repeat 0 16)).
  { split; try assumption; try lia; try reflexivity; [vm_compute; congruence|]. apply List.Forall_forall. intros x Hx. apply repeat_spec in Hx. subst x. unfold fits. lia. }
  destruct (probe_mem (repeat 0 16) (lmem l) Hf H1 H2 H3 Hok) as (c' & E & Hsh).
  unfold fb_probe. rewrite Ek, <- Esm. cbv zeta. rewrite E. cbn [rbind]. unfold ltdc_init, stm_clock_init. cbn [lclk set_lmem]. fold lcd_clocks. rewrite Hck. cbn [rbind].
  eexists. split; [|split; [|split; [|destruct (pe_fb_alloc env), (pe_cmap env), (pe_register env); reflexivity]]]; [|reflexivity|exact Hsh].
  unfold window_ok. split_and!; reflexivity.
Qed.

End Calls.

(** A probe without memory changes nothing. *)
Lemma fb_probe_no_memory {C} `{HC : Caches C} `{!Stores C} rdy f7 fuel env (l : lcd (C := C)) :
  pe_kmalloc env = None -> fb_probe rdy f7 fuel env l = Ok (- ENOMEM, None, false, l).
Proof. intros E. unfold fb_probe. now rewrite E. Qed.

Section Final.

Context {C : Type} `{HC : Caches C} `{!L1 C} `{!Stores C} `{!StoreLaws C}.

(** The probe of the LCD gives the controller a black frame and registers it, whatever the caches held;
    when it fails after that it frees the frame and leaves the controller reading it. *)
Theorem fb_probe_outcomes rdy f7 fuel fb_base (l : lcd (C := C)) k env :
  pe_kmalloc env = Some fb_base -> 0 <= fb_base -> fb_base + 300256 <= 2 ^ 32 -> all_fresh (lmem l) -> enable_all rdy f7 fuel lcd_clocks (lclk l) = Ok k ->
  let smem := u32 (fb_base + 256 - fb_base mod 256) in
  exists l1 ret info freed, fb_probe rdy f7 fuel env l = Ok (ret, info, freed, l1) /\ window_ok l1 smem /\ fb_base <= smem <= fb_base + 256
    /\ (forall x y, 0 <= x < LCD_WIDTH -> 0 <= y < LCD_HEIGHT -> panel_pixel smem LCD_LINE_LEN (lmem l1) x y = 0)
    /\ (if pe_fb_alloc env && pe_cmap env && pe_register env then ret = 0 /\ info = Some (lcd_info smem (repeat 0 16)) /\ freed = false else ret = (if pe_fb_alloc env && pe_cmap env then - EINVAL else - ENOMEM) /\ info = None /\ freed = true).
Proof.
  intros Ek H1 H2 Hf Hc smem. destruct (probe_frame fb_base H1 H2) as (H3 & H4 & H5 & H6). fold smem in H3, H4, H5, H6.
  destruct (probe_started smem rdy f7 fuel fb_base l k env Ek H1 H2 eq_refl Hf Hc) as (l1 & Hw & _ & Hsh & E).
  assert (Hok : lcd_ok smem 0 (repeat 0 16)).
  { split; try assumption; try lia; try reflexivity; [vm_compute; congruence|]. apply List.Forall_forall. intros x Hx. apply repeat_spec in Hx. subst x. unfold fits. lia. }
  assert (Hp : forall x y, 0 <= x < LCD_WIDTH -> 0 <= y < LCD_HEIGHT -> panel_pixel smem LCD_LINE_LEN (lmem l1) x y = 0).
  { intros x y Hx Hy. rewrite (panel_shows smem 0 (repeat 0 16) Hok _ _ x y Hsh Hx Hy). now destruct (inside _ _ _ _ x y). }
  destruct (pe_fb_alloc env), (pe_cmap env), (pe_register env); cbn [negb andb] in *; do 4 eexists; (split; [exact E|]); split_and!; try assumption; reflexivity || lia.
Qed.

(** C6: from a successful probe on, after any list of calls that [call_ok] admits, the panel as the controller reads it from
    memory, through the address and the pitch it was given, shows the canvas of the specification in a black margin, wherever the
    stale cleaning of [fb_sync] goes.  The calls are: fills and images inside the canvas with colours of the sixteen-entry palette (an image
    at least one column wide, with all its data), copies between rectangles inside the canvas whose two columns and width
    are even and not zero, and changes of palette entries with 16-bit components.  A copy at an odd column is not among them: the code
    draws it in the wrong place ([FbCopy.copyarea_odd_column]).  The frame and the range that [fb_sync] cleans do not wrap around the
    address space, the clocks can be enabled, and every step of the probe succeeds. *)
Theorem lcd_shows_canvas rdy f7 fuel fb_base (l : lcd (C := C)) k env fix_start calls :
  pe_kmalloc env = Some fb_base -> pe_fb_alloc env && pe_cmap env && pe_register env = true -> 0 <= fb_base -> fb_base + 300256 <= 2 ^ 32 ->
  all_fresh (lmem l) -> enable_all rdy f7 fuel lcd_clocks (lclk l) = Ok k ->
  0 <= fix_start -> u32 (fix_start + LCD_FRAME_SIZE) <= 2 ^ 32 - 32 -> Forall call_ok calls ->
  exists info l1, fb_probe rdy f7 fuel env l = Ok (0, Some info, false, l1)
    /\ exists pal c, lcd_calls (smem_start info) fix_start calls (pseudo_palette info, lmem l1) = Ok (pal, c)
    /\ let spec := fold_left (spec_call (smem_start info)) calls (repeat 0 16, black) in pal = fst spec
    /\ forall x y, 0 <= x < LCD_WIDTH -> 0 <= y < LCD_HEIGHT ->
      panel_pixel (lregs l1 (LTDC_BASE + LTDC_L1CFBAR)) (lregs l1 (LTDC_BASE + LTDC_L1CFBLR) .>> 16) c x y
      = if inside CONSOLE_MARGIN_X CONSOLE_MARGIN_Y CONSOLE_WIDTH CONSOLE_HEIGHT x y then snd spec (x - CONSOLE_MARGIN_X) (y - CONSOLE_MARGIN_Y) else 0.
Proof.
  intros Ek Hall H1 H2 Hf Hc Hfix Hfe Hcalls. set (smem := u32 (fb_base + 256 - fb_base mod 256)).
  destruct (probe_frame fb_base H1 H2) as (H3 & H4 & H5 & H6). fold smem in H3, H4, H5, H6.
  destruct (probe_started smem rdy f7 fuel fb_base l k env Ek H1 H2 eq_refl Hf Hc) as (l1 & Hw & _ & Hsh & E). rewrite !andb_true_iff in Hall. destruct Hall as [[Ha1 Ha2] Ha3].
  rewrite Ha1, Ha2, Ha3 in E. cbn [negb] in E. exists (lcd_info smem (repeat 0 16)), l1. split; [exact E|]. cbn [smem_start pseudo_palette lcd_info].
  assert (Hok : lcd_ok smem fix_start (repeat 0 16)).
  { split; try assumption; try lia; try reflexivity. apply List.Forall_forall. intros x Hx. apply repeat_spec in Hx. subst x. unfold fits. lia. }
  destruct (lcd_calls_show smem fix_start calls (repeat 0 16) (lmem l1) black Hok Hcalls Hsh) as (pal & c & Er & Hok' & Ep & Hsh').
  exists pal, c. split; [exact Er|]. cbv zeta. split; [exact Ep|]. intros x y Hx Hy. destruct Hw as (_ & _ & -> & -> & _).
  now apply (panel_shows smem fix_start pal Hok').
Qed.

End Final.

(** ** On an empty cache *)

Definition lcd_example : lcd (C := wb_cache) := {| lmem := wb_empty; lclk := {| rcc := rcc_boot; vals := vals_1mhz; clks := clks_init |}; lregs := fun _ => 0 |}.
Definition env_example : probe_env := {| pe_kmalloc := Some 0xC0100000; pe_fb_alloc := true; pe_cmap := true; pe_register := true |}.
Definition calls_example : list lcd_call :=
  [SetColor 1 0xffff 0 0; Draw (Fill {| fr_dx := 3; fr_dy := 2; fr_width := 5; fr_height := 4; fr_color := 1; fr_rop := ROP_COPY |});
   Draw (Copy {| ca_dx := 10; ca_dy := 3; ca_width := 8; ca_height := 4; ca_sx := 2; ca_sy := 2 |})].

(** When the registration fails. *)
Lemma fb_probe_outcomes_witness : exists l1,
  fb_probe (Nat.leb 3) true 10 {| pe_kmalloc := Some 0xC0100000; pe_fb_alloc := true; pe_cmap := true; pe_register := false |} lcd_example = Ok (- EINVAL, None, true, l1).
Proof.
  destruct (enable_all (Nat.leb 3) true 10 lcd_clocks (lclk lcd_example)) as [k|f] eqn:Ek; [|vm_compute in Ek; discriminate Ek].
  destruct (fb_probe_outcomes (Nat.leb 3) true 10 0xC0100000 lcd_example k {| pe_kmalloc := Some 0xC0100000; pe_fb_alloc := true; pe_cmap := true; pe_register := false |})
    as (l1 & ret & info & freed & E & _ & _ & _ & Hr & Hi & Hfr); [reflexivity|lia|lia|exact wb_empty_fresh|exact Ek|].
  exists l1. cbn in Hr. now subst ret info freed.
Defined.

(** After a change of the palette, a fill and a copy: the left column of the copy is red. *)
Lemma lcd_shows_canvas_witness : exists info l1 pal c,
  fb_probe (Nat.leb 3) true 10 env_example lcd_example = Ok (0, Some info, false, l1)
  /\ lcd_calls (smem_start info) 0xC0100100 calls_example (pseudo_palette info, lmem l1) = Ok (pal, c)
  /\ panel_pixel (lregs l1 (LTDC_BASE + LTDC_L1CFBAR)) (lregs l1 (LTDC_BASE + LTDC_L1CFBLR) .>> 16) c 19 11 = 0xf800.
Proof.
  destruct (enable_all (Nat.leb 3) true 10 lcd_clocks (lclk lcd_example)) as [k|f] eqn:Ek; [|vm_compute in Ek; discriminate Ek].
  destruct (lcd_shows_canvas (Nat.leb 3) true 10 0xC0100000 lcd_example k env_example 0xC0100100 calls_example)
    as (info & l1 & E & pal & c & Er & _ & Hp); [reflexivity|reflexivity|lia|lia|exact wb_empty_fresh|exact Ek|lia|vm_compute; congruence| |].
  { repeat constructor; cbn; unfold u16, pen; try lia; try (vm_compute; congruence). }
  exists info, l1, pal, c. split; [exact E|]. split; [exact Er|]. rewrite Hp by (split; [lia|reflexivity]). reflexivity.
Defined.
