(* ===== verification/I2c.v ===== *)
(** * I2C controller driver ([drivers/i2c/busses/i2c-stm32f7.c])

    Messages go through a buffer in non-cached memory and a DMA channel ([Dmac], [Dmamem]);
    the interrupt handler reloads the byte counter of long messages and reports the end.
    What the hardware does during a message is an argument: the values that the status
    register is read as, the interrupts, the data that the DMA stores, and the time that
    passes. *)

From S2P Require Import Prelude Dmac Dmamem.

(** ** Constants *)

Definition EIO : Z := 5.
Definition ENXIO : Z := 6.
Definition ETIMEDOUT : Z := 110.

Definition HZ : Z := 100.
Definition I2C_TIMEOUT_BUSY : Z := 25.
Definition DMABUF_SIZE : Z := 1024.

Definition I2C_M_RD : Z := 0x0001.
Definition I2C_M_TEN : Z := 0x0010.

Definition _CR1_RXDMAEN : Z := 1 .<< 15.
Definition _CR1_TXDMAEN : Z := 1 .<< 14.
Definition _CR1_ERRIE : Z := 1 .<< 7.
Definition _CR1_TCIE : Z := 1 .<< 6.
Definition _CR1_STOPIE : Z := 1 .<< 5.
Definition _CR1_PE : Z := 1 .<< 0.

Definition _CR2_PECBYTE : Z := 1 .<< 26.
Definition _CR2_AUTOEND : Z := 1 .<< 25.
Definition _CR2_RELOAD : Z := 1 .<< 24.
Definition _CR2_NBYTES (x : Z) : Z := (x .& 0xff) .<< 16.
Definition _CR2_NACK : Z := 1 .<< 15.
Definition _CR2_STOP : Z := 1 .<< 14.
Definition _CR2_START : Z := 1 .<< 13.
Definition _CR2_HEAD10R : Z := 1 .<< 12.
Definition _CR2_ADD10 : Z := 1 .<< 11.
Definition _CR2_RD_WRN : Z := 1 .<< 10.
Definition _CR2_SADDR7 (x : Z) : Z := (x .& 0x7f) .<< 1.
Definition _CR2_SADDR10 (x : Z) : Z := (x .& 0x3ff) .| (1 .<< 11).

Definition _ISR_TCR : Z := 1 .<< 7.
Definition _ISR_STOPF : Z := 1 .<< 5.
Definition _ISR_NACKF : Z := 1 .<< 4.
Definition _ISR_RXNE : Z := 1 .<< 2.
Definition _ISR_TXIS : Z := 1 .<< 1.

Definition _ICR_STOPCF : Z := 1 .<< 5.
Definition _ICR_NACKCF : Z := 1 .<< 4.

Definition RCC_APB1RSTR_I2C1 : Z := 1 .<< 21.
Definition RCC_APB1RSTR_I2C2 : Z := 1 .<< 22.
Definition RCC_APB1RSTR_I2C3 : Z := 1 .<< 23.
Definition RCC_APB1ENR_I2C1 : Z := 1 .<< 21.
Definition RCC_APB1ENR_I2C2 : Z := 1 .<< 22.
Definition RCC_APB1ENR_I2C3 : Z := 1 .<< 23.

Definition STM32F7_I2Cx_TIMING : Z := 0x10806190.

(** The bits that [_cr2_set_val] clears. *)
Definition cr2_specific : Z :=
  _CR2_PECBYTE .| _CR2_AUTOEND .| _CR2_RELOAD .| _CR2_NBYTES 0xff .| _CR2_NACK .| _CR2_STOP .| _CR2_START .| _CR2_HEAD10R .| _CR2_ADD10 .| _CR2_RD_WRN
  .| _CR2_SADDR10 0x3ff.

(** ** State *)

(** The registers that the driver uses; [icr] is the last value written there. *)
Record i2c_stm32f7_regs := { i2c_cr1 : Z; i2c_cr2 : Z; timingr : Z; icr : Z }.

(** The controller's private data with its registers; [dmabuf] is [None] for NULL. *)
Record i2c_stm32f7 := {
  bus : Z; regs_base : Z; regs_size : Z; regs : Z; irq : Z; ref_clk : Z; i2c_clk : Z;
  msg_status : Z; nbytes : Z; dmabuf : option Z; dma_ch_tx : Z; dma_ch_rx : Z; hw : i2c_stm32f7_regs
}.

Definition set_hw (c : i2c_stm32f7) (r : i2c_stm32f7_regs) : i2c_stm32f7 :=
  {| bus := bus c; regs_base := regs_base c; regs_size := regs_size c; regs := regs c; irq := irq c; ref_clk := ref_clk c; i2c_clk := i2c_clk c;
     msg_status := msg_status c; nbytes := nbytes c; dmabuf := dmabuf c; dma_ch_tx := dma_ch_tx c; dma_ch_rx := dma_ch_rx c; hw := r |}.
Definition set_status (c : i2c_stm32f7) (v : Z) : i2c_stm32f7 :=
  {| bus := bus c; regs_base := regs_base c; regs_size := regs_size c; regs := regs c; irq := irq c; ref_clk := ref_clk c; i2c_clk := i2c_clk c;
     msg_status := v; nbytes := nbytes c; dmabuf := dmabuf c; dma_ch_tx := dma_ch_tx c; dma_ch_rx := dma_ch_rx c; hw := hw c |}.
Definition set_nbytes (c : i2c_stm32f7) (v : Z) : i2c_stm32f7 :=
  {| bus := bus c; regs_base := regs_base c; regs_size := regs_size c; regs := regs c; irq := irq c; ref_clk := ref_clk c; i2c_clk := i2c_clk c;
     msg_status := msg_status c; nbytes := v; dmabuf := dmabuf c; dma_ch_tx := dma_ch_tx c; dma_ch_rx := dma_ch_rx c; hw := hw c |}.

Definition set_cr1 (c : i2c_stm32f7) (v : Z) : i2c_stm32f7 :=
  set_hw c {| i2c_cr1 := v; i2c_cr2 := i2c_cr2 (hw c); timingr := timingr (hw c); icr := icr (hw c) |}.
Definition set_cr2 (c : i2c_stm32f7) (v : Z) : i2c_stm32f7 :=
  set_hw c {| i2c_cr1 := i2c_cr1 (hw c); i2c_cr2 := v; timingr := timingr (hw c); icr := icr (hw c) |}.
Definition set_timingr (c : i2c_stm32f7) (v : Z) : i2c_stm32f7 :=
  set_hw c {| i2c_cr1 := i2c_cr1 (hw c); i2c_cr2 := i2c_cr2 (hw c); timingr := v; icr := icr (hw c) |}.
Definition set_icr (c : i2c_stm32f7) (v : Z) : i2c_stm32f7 :=
  set_hw c {| i2c_cr1 := i2c_cr1 (hw c); i2c_cr2 := i2c_cr2 (hw c); timingr := timingr (hw c); icr := v |}.

(** With the DMA controllers and the bytes of the buffer at [dmabuf]. *)
Record i2c_state := { ctl : i2c_stm32f7; dma : dmac; buf : list Z }.

Definition set_ctl (st : i2c_state) (c : i2c_stm32f7) : i2c_state := {| ctl := c; dma := dma st; buf := buf st |}.
Definition set_dma (st : i2c_state) (d : dmac) : i2c_state := {| ctl := ctl st; dma := d; buf := buf st |}.
Definition set_buf (st : i2c_state) (b : list Z) : i2c_state := {| ctl := ctl st; dma := dma st; buf := b |}.

Section Driver.

(** What CR2 reads as after a value was written (the controller clears START itself), and the DMA flags after a
    write to their clear register. *)
Context (cr2_read : Z -> Z) (w1c : Z -> Z -> Z).

Definition _cr1_set_bits (mask : Z) (c : i2c_stm32f7) : i2c_stm32f7 := set_cr1 c (i2c_cr1 (hw c) .| mask).
Definition _cr1_clear_bits (mask : Z) (c : i2c_stm32f7) : i2c_stm32f7 := set_cr1 c (i2c_cr1 (hw c) .& .~ mask).
Definition _cr2_set_val (val : Z) (c : i2c_stm32f7) : i2c_stm32f7 := set_cr2 c ((cr2_read (i2c_cr2 (hw c)) .& .~ cr2_specific) .| val).

(** ** The interrupt handler *)

(** With the value that the status register is read as; the flag says that the waiting task is woken. *)
Definition i2c_stm32_irq (isr : Z) (c : i2c_stm32f7) : i2c_stm32f7 * bool :=
  if has isr _ISR_STOPF then
    let c := _cr1_clear_bits (_CR1_ERRIE .| _CR1_STOPIE) c in
    let '(c, clear) := if has isr _ISR_NACKF then (set_status c (- ENODEV), _ICR_STOPCF .| _ICR_NACKCF) else (c, _ICR_STOPCF) in
    let c := if msg_status c =? - EBUSY then set_status c 0 else c in
    let c := set_icr c clear in
    (_cr2_set_val 0 c, true)
  else if has isr _ISR_TCR then
    let cr2 := cr2_read (i2c_cr2 (hw c)) in
    if 255 <? nbytes c then
      let c := set_nbytes c (nbytes c - 255) in
      (_cr2_set_val (cr2 .| _CR2_NBYTES 255) c, false)
    else
      let c := set_nbytes c 0 in
      let cr2 := (cr2 .| _CR2_NBYTES (nbytes c)) .& .~ _CR2_RELOAD in
      (_cr2_set_val cr2 (_cr1_clear_bits _CR1_TCIE c), false)
  else (set_status (_cr2_set_val _CR2_STOP c) (- EIO), false).

(** ** Messages *)

Record i2c_msg := { m_addr : Z; m_flags : Z; m_len : Z; m_buf : list Z }.

(** While the task polls: an interrupt, or a read of the status register with the ticks since the start. *)
Inductive poll_event := PIrq (isr : Z) | PRead (isr ticks : Z).
(** While it waits: an interrupt, data stored to the buffer, or the end of the five seconds. *)
Inductive wait_event := WIrq (isr : Z) | WData (bytes : list Z) | WExpire.

Record msg_env := { me_poll : list poll_event; me_wait : list wait_event }.

(** Bytes at the front of the buffer. *)
Definition put_front (bytes b : list Z) : list Z := bytes ++ drop (length bytes) b.

(** The busy loop; [true]: ready, [false]: too long. *)
Fixpoint poll_ready (read : bool) (events : list poll_event) (c : i2c_stm32f7) : result (bool * i2c_stm32f7) :=
  match events with
  | [] => Fault Stuck
  | PIrq isr :: events => poll_ready read events (fst (i2c_stm32_irq isr c))
  | PRead isr ticks :: events =>
      if read && has isr _ISR_RXNE then Ok (true, _cr1_set_bits _CR1_RXDMAEN c)
      else if negb read && has isr _ISR_TXIS then Ok (true, _cr1_set_bits _CR1_TXDMAEN c)
      else if I2C_TIMEOUT_BUSY * HZ / 1000 <? ticks then Ok (false, c)
      else poll_ready read events c
  end.

(** [wait_event_timeout]: the condition is tested at once and when the task is woken. *)
Fixpoint wait_woken (events : list wait_event) (st : i2c_state) : result (bool * i2c_state) :=
  match events with
  | [] => Fault Stuck
  | WIrq isr :: events =>
      let (c, woken) := i2c_stm32_irq isr (ctl st) in
      if woken && negb (msg_status c =? - EBUSY) then Ok (true, set_ctl st c) else wait_woken events (set_ctl st c)
  | WData bytes :: events => wait_woken events (set_buf st (put_front bytes (buf st)))
  | WExpire :: _ => Ok (false, st)
  end.

Definition wait_done (events : list wait_event) (st : i2c_state) : result (bool * i2c_state) :=
  if negb (msg_status (ctl st) =? - EBUSY) then Ok (true, st) else wait_woken events st.

Definition is_read (m : i2c_msg) : bool := has (m_flags m) I2C_M_RD.

(** The configuration of a message without START, and the controller prepared for its length. *)
Definition msg_cr2 (m : i2c_msg) (c : i2c_stm32f7) : Z * i2c_stm32f7 :=
  let (cr2, c) :=
    if 255 <? m_len m then (_CR2_NBYTES 255 .| _CR2_RELOAD, _cr1_set_bits _CR1_TCIE (set_nbytes c (m_len m - 255)))
    else (_CR2_NBYTES (m_len m), set_nbytes c 0) in
  let cr2 := cr2 .| (if has (m_flags m) I2C_M_TEN then _CR2_SADDR10 (m_addr m) else _CR2_SADDR7 (m_addr m)) in
  let cr2 := if is_read m then cr2 .| _CR2_RD_WRN else cr2 in
  (cr2 .| _CR2_AUTOEND, c).

Definition msg_channel (m : i2c_msg) (c : i2c_stm32f7) : Z := if is_read m then dma_ch_rx c else dma_ch_tx c.

(** The DMA channel of a message; [inl]: a call failed. *)
Definition dma_start (ch addr len : Z) (d : dmac) : dmac + dmac :=
  let (rv, d) := stm32_dma_ch_set_memory ch addr 1 0 1 d in
  if rv <? 0 then inl d else
  let (rv, d) := stm32_dma_ch_set_nitems ch len d in
  if rv <? 0 then inl d else
  let (rv, d) := stm32_dma_ch_enable w1c ch d in
  if rv <? 0 then inl d else inr d.

(** How a message ended: the whole call ends, the loop ends, or it goes on. *)
Inductive msg_end := Failed (rv : Z) | Stopped (ret : Z) | Done.

Definition or_first (ret rv : Z) : Z := if ret =? 0 then rv else ret.

Definition disable (ch : Z) (st : i2c_state) : i2c_state := set_dma st (snd (stm32_dma_ch_disable w1c ch (dma st))).

(** Up to START: the state, or that of a failed call.  [addr] is the address of the buffer. *)
Definition msg_start (m : i2c_msg) (addr : Z) (st : i2c_state) : i2c_state + i2c_state :=
  let (cr2, c) := msg_cr2 m (ctl st) in
  let st := set_ctl st c in
  let st := if is_read m then st else set_buf st (put_front (take (Z.to_nat (m_len m)) (m_buf m)) (buf st)) in
  let st := set_ctl st (set_status (ctl st) (- EBUSY)) in
  match dma_start (msg_channel m (ctl st)) addr (m_len m) (dma st) with
  | inl d => inl (set_dma st d)
  | inr d =>
      let c := _cr1_set_bits (_CR1_ERRIE .| _CR1_STOPIE) (ctl st) in
      inr (set_ctl (set_dma st d) (_cr2_set_val (cr2 .| _CR2_START) c))
  end.

(** A message that took too long. *)
Definition clean_up (c : i2c_stm32f7) : i2c_stm32f7 := _cr2_set_val 0 (_cr1_clear_bits (_CR1_ERRIE .| _CR1_STOPIE .| _CR1_TCIE) c).

(** After the wait. *)
Definition msg_finish (m : i2c_msg) (i ret : Z) (done : bool) (st : i2c_state) : msg_end * list Z * i2c_state :=
  let '(ret, st) :=
    if negb done then (or_first ret (- ETIMEDOUT), set_ctl st (clean_up (ctl st)))
    else if negb (msg_status (ctl st) =? 0) then (or_first ret (msg_status (ctl st)), st)
    else (ret + 1, st) in
  let st := disable (msg_channel m (ctl st)) (set_ctl st (_cr1_clear_bits (_CR1_TXDMAEN .| _CR1_RXDMAEN) (ctl st))) in
  if negb (ret =? i + 1) then (Stopped ret, m_buf m, st)
  else (Done, if is_read m then put_front (take (Z.to_nat (m_len m)) (buf st)) (m_buf m) else m_buf m, st).

(** Message number [i]; [ret] messages were transferred.  The buffer of the message is returned. *)
Definition transfer_one (m : i2c_msg) (env : msg_env) (i ret : Z) (st : i2c_state) : result (msg_end * list Z * i2c_state) :=
  if DMABUF_SIZE <? m_len m then Ok (Stopped (or_first ret (- EINVAL)), m_buf m, st)
  else
    match dmabuf (ctl st) with
    | None => Fault BadIndex
    | Some addr =>
        match msg_start m addr st with
        | inl st => Ok (Failed (-1), m_buf m, st)
        | inr st =>
            let* (ready, c) := if 0 <? m_len m then poll_ready (is_read m) (me_poll env) (ctl st) else Ok (true, ctl st) in
            let st := set_ctl st c in
            if negb ready then
              Ok (Stopped (or_first ret (- ETIMEDOUT)), m_buf m, disable (msg_channel m (ctl st)) (set_ctl st (clean_up (ctl st))))
            else
              let* (done, st) := wait_done (me_wait env) st in
              Ok (msg_finish m i ret done st)
        end
    end.

(** The return value and the buffers of the messages. *)
Fixpoint transfer_loop (msgs : list i2c_msg) (envs : list msg_env) (i : Z) (st : i2c_state) : result (Z * list (list Z) * i2c_state) :=
  match msgs, envs with
  | [], _ => Ok (i, [], st)
  | _ :: _, [] => Fault Stuck
  | m :: msgs', env :: envs =>
      let* (x, st) := transfer_one m env i i st in
      let (e, b) := (x : msg_end * list Z) in
      match e with
      | Failed rv | Stopped rv => Ok (rv, b :: map m_buf msgs', st)
      | Done => let* (x, st) := transfer_loop msgs' envs (i + 1) st in let (rv, bs) := (x : Z * list (list Z)) in Ok (rv, b :: bs, st)
      end
  end.

Definition i2c_stm32_transfer (msgs : list i2c_msg) (envs : list msg_env) (st : i2c_state) : result (Z * list (list Z) * i2c_state) :=
  transfer_loop msgs envs 0 st.

(** ** The hardware *)

(** Registers of the reset and clock unit. *)
Record rcc := { apb1rstr : Z; apb1enr : Z }.

(** A device: the driver's state, the reset and clock unit and the allocator of non-cached memory. *)
Record i2c_hw := { drv : i2c_state; clocks : rcc; mem : dmamem }.

Definition set_drv (h : i2c_hw) (st : i2c_state) : i2c_hw := {| drv := st; clocks := clocks h; mem := mem h |}.
Definition set_clocks (h : i2c_hw) (r : rcc) : i2c_hw := {| drv := drv h; clocks := r; mem := mem h |}.
Definition set_mem (h : i2c_hw) (m : dmamem) : i2c_hw := {| drv := drv h; clocks := clocks h; mem := m |}.
Definition on_ctl (f : i2c_stm32f7 -> i2c_stm32f7) (h : i2c_hw) : i2c_hw := set_drv h (set_ctl (drv h) (f (ctl (drv h)))).
Definition on_dma (f : dmac -> Z * dmac) (h : i2c_hw) : Z * i2c_hw := let (rv, d) := f (dma (drv h)) in (rv, set_drv h (set_dma (drv h) d)).

(** The bits of a controller in the two registers. *)
Definition rcc_bits (b : Z) : option (Z * Z) :=
  if b =? 0 then Some (RCC_APB1RSTR_I2C1, RCC_APB1ENR_I2C1)
  else if b =? 1 then Some (RCC_APB1RSTR_I2C2, RCC_APB1ENR_I2C2)
  else if b =? 2 then Some (RCC_APB1RSTR_I2C3, RCC_APB1ENR_I2C3)
  else None.

(** Reset and clock on; the reset bit is written to 1 and, with the value read before, to 0. *)
Definition clock_on (b : Z) (r : rcc) : rcc :=
  match rcc_bits b with
  | Some (rst, en) => {| apb1rstr := apb1rstr r .& .~ rst; apb1enr := apb1enr r .| en |}
  | None => r
  end.

Definition clock_off (b : Z) (r : rcc) : rcc :=
  match rcc_bits b with
  | Some (rst, en) => {| apb1rstr := apb1rstr r .| rst; apb1enr := apb1enr r .& .~ en |}
  | None => r
  end.

(** The loop that waits for PE to read as 0, with the values read. *)
Fixpoint wait_reset (reads : list Z) : result unit :=
  match reads with
  | [] => Fault Stuck
  | v :: reads => if has v _CR1_PE then wait_reset reads else Ok tt
  end.

Definition rxdr_off : Z := 0x24.
Definition txdr_off : Z := 0x28.

(** The six calls that set up the channels; [true]: all succeeded. *)
Definition init_dma (h : i2c_hw) : bool * i2c_hw :=
  let c := ctl (drv h) in
  let rx := dma_ch_rx c in
  let tx := dma_ch_tx c in
  let (rv, h) := on_dma (stm32_dma_ch_init rx 0 1 3 0 0) h in
  if rv <? 0 then (false, h) else
  let (rv, h) := on_dma (stm32_dma_ch_init_fifo rx 0 3) h in
  if rv <? 0 then (false, h) else
  let (rv, h) := on_dma (stm32_dma_ch_set_periph rx (u32 (regs c + rxdr_off)) 0 0 0) h in
  if negb (rv =? 0) then (false, h) else
  let (rv, h) := on_dma (stm32_dma_ch_init tx 1 1 3 0 0) h in
  if rv <? 0 then (false, h) else
  let (rv, h) := on_dma (stm32_dma_ch_init_fifo tx 0 3) h in
  if rv <? 0 then (false, h) else
  let (rv, h) := on_dma (stm32_dma_ch_set_periph tx (u32 (regs c + txdr_off)) 0 0 0) h in
  if rv <? 0 then (false, h) else (true, h).

Definition i2c_stm32_hw_init (reads : list Z) (h : i2c_hw) : result (Z * i2c_hw) :=
  let c := ctl (drv h) in
  if (i2c_clk c =? 0) || (400000 <? i2c_clk c) then Ok (- ENXIO, h)
  else
    let h := set_clocks h (clock_on (bus c) (clocks h)) in
    let h := on_ctl (fun c => _cr1_clear_bits _CR1_PE (_cr2_set_val 0 c)) h in
    let* _ := wait_reset reads in
    let h := on_ctl (fun c => set_timingr c ((timingr (hw c) .& 0x0f000000) .| STM32F7_I2Cx_TIMING)) h in
    let h := on_ctl (_cr1_set_bits _CR1_PE) h in
    let (ok, h) := init_dma h in
    Ok (if ok then 0 else -1, h).

Definition i2c_stm32_hw_release (h : i2c_hw) : i2c_hw :=
  let h := on_ctl (_cr1_clear_bits _CR1_PE) h in
  set_clocks h (clock_off (bus (ctl (drv h))) (clocks h)).

(** ** Probe and remove *)

(** What the kernel gives to the driver. *)
Inductive i2c_res := RMem | RRegion (start size : Z) | RMap (addr : Z) | RIrq (n : Z) | RAdapter.

#[export] Instance i2c_res_eq_dec : EqDecision i2c_res.
Proof. solve_decision. Defined.

(** The device's driver data: NULL, the platform's, or the driver's own. *)
Inductive drvdata := DNull | DPlat (ref_clk i2c_clk : Z) | DPriv.

Record i2c_dev := { dhw : i2c_hw; held : list i2c_res; ddata : drvdata }.

Definition set_dhw (d : i2c_dev) (h : i2c_hw) : i2c_dev := {| dhw := h; held := held d; ddata := ddata d |}.
Definition set_ddata (x : drvdata) (d : i2c_dev) : i2c_dev := {| dhw := dhw d; held := held d; ddata := x |}.
Definition acquire (r : i2c_res) (d : i2c_dev) : i2c_dev := {| dhw := dhw d; held := r :: held d; ddata := ddata d |}.

(** Gives back one [r]. *)
Definition release (r : i2c_res) (d : i2c_dev) : i2c_dev :=
  {| dhw := dhw d; held := match list_find (eq r) (held d) with Some (i, _) => list_delete i (held d) | None => held d end; ddata := ddata d |}.

Definition free_dmabuf (d : i2c_dev) : i2c_dev :=
  match dmabuf (ctl (drv (dhw d))) with Some p => set_dhw d (set_mem (dhw d) (dmamem_free p (mem (dhw d)))) | None => d end.

Definition put_ch (ch : Z) (d : i2c_dev) : i2c_dev := set_dhw d (snd (on_dma (stm32_dma_ch_put ch) (dhw d))).

(** The answers of the platform and of the kernel. *)
Record i2c_probe_env := {
  pv_id : Z; pv_irq : Z; pv_regs : option (Z * Z); pv_kzalloc : bool; pv_region : bool; pv_ioremap : option Z; pv_request_irq : Z -> Z;
  pv_tx : option Z; pv_rx : option Z; pv_kmalloc : nat -> bool; pv_reads : list Z; pv_add_adapter : Z
}.

(** The labels of the error path, from the last. *)
Definition err_memory (d : i2c_dev) : i2c_dev := set_ddata DNull (release RMem d).
Definition err_mem_region (start size : Z) (d : i2c_dev) : i2c_dev := err_memory (release (RRegion start size) d).
Definition err_regs (start size : Z) (d : i2c_dev) : i2c_dev := err_mem_region start size (release (RMap (regs (ctl (drv (dhw d))))) d).
Definition err_irq1 (start size : Z) (d : i2c_dev) : i2c_dev := err_regs start size (release (RIrq (irq (ctl (drv (dhw d))))) d).
Definition err_irq2 (start size : Z) (d : i2c_dev) : i2c_dev := err_irq1 start size (release (RIrq (irq (ctl (drv (dhw d))) + 1)) d).
Definition err_dma_tx (start size : Z) (d : i2c_dev) : i2c_dev := err_irq2 start size (put_ch (dma_ch_tx (ctl (drv (dhw d)))) d).
Definition err_dma_rx (start size : Z) (d : i2c_dev) : i2c_dev := err_dma_tx start size (put_ch (dma_ch_rx (ctl (drv (dhw d)))) d).
Definition err_dmabuf (start size : Z) (d : i2c_dev) : i2c_dev := err_dma_rx start size (free_dmabuf d).
Definition err_hw (start size : Z) (d : i2c_dev) : i2c_dev := err_dmabuf start size (set_dhw d (i2c_stm32_hw_release (dhw d))).

(** The controller data as [kzalloc] leaves it and as the probe fills it in; [irq] is not read before the interrupt was granted. *)
Definition new_ctl (b start size map n : Z) (r : i2c_stm32f7_regs) : i2c_stm32f7 :=
  {| bus := b; regs_base := start; regs_size := size; regs := map; irq := n; ref_clk := 0; i2c_clk := 0;
     msg_status := 0; nbytes := 0; dmabuf := None; dma_ch_tx := 0; dma_ch_rx := 0; hw := r |}.
Definition with_clks (rc ic : Z) (c : i2c_stm32f7) : i2c_stm32f7 :=
  {| bus := bus c; regs_base := regs_base c; regs_size := regs_size c; regs := regs c; irq := irq c; ref_clk := rc; i2c_clk := ic;
     msg_status := msg_status c; nbytes := nbytes c; dmabuf := dmabuf c; dma_ch_tx := dma_ch_tx c; dma_ch_rx := dma_ch_rx c; hw := hw c |}.
Definition with_tx (ch : Z) (c : i2c_stm32f7) : i2c_stm32f7 :=
  {| bus := bus c; regs_base := regs_base c; regs_size := regs_size c; regs := regs c; irq := irq c; ref_clk := ref_clk c; i2c_clk := i2c_clk c;
     msg_status := msg_status c; nbytes := nbytes c; dmabuf := dmabuf c; dma_ch_tx := ch; dma_ch_rx := dma_ch_rx c; hw := hw c |}.
Definition with_rx (ch : Z) (c : i2c_stm32f7) : i2c_stm32f7 :=
  {| bus := bus c; regs_base := regs_base c; regs_size := regs_size c; regs := regs c; irq := irq c; ref_clk := ref_clk c; i2c_clk := i2c_clk c;
     msg_status := msg_status c; nbytes := nbytes c; dmabuf := dmabuf c; dma_ch_tx := dma_ch_tx c; dma_ch_rx := ch; hw := hw c |}.
Definition with_buf (p : option Z) (c : i2c_stm32f7) : i2c_stm32f7 :=
  {| bus := bus c; regs_base := regs_base c; regs_size := regs_size c; regs := regs c; irq := irq c; ref_clk := ref_clk c; i2c_clk := i2c_clk c;
     msg_status := msg_status c; nbytes := nbytes c; dmabuf := p; dma_ch_tx := dma_ch_tx c; dma_ch_rx := dma_ch_rx c; hw := hw c |}.

(** From the buffer on, with both channels acquired. *)
Definition probe_buffer (env : i2c_probe_env) (start size : Z) (d : i2c_dev) : result (Z * i2c_dev) :=
  let* (p, m) := dmamem_alloc (pv_kmalloc env) DMABUF_SIZE 0 (mem (dhw d)) in
  let d := set_dhw d (on_ctl (with_buf p) (set_mem (dhw d) m)) in
  match p with
  | None => Ok (0, err_dma_rx start size d)
  | Some _ =>
      let* (ret, h) := i2c_stm32_hw_init (pv_reads env) (dhw d) in
      let d := set_dhw d h in
      if negb (ret =? 0) then Ok (ret, err_dmabuf start size d)
      else if negb (pv_add_adapter env =? 0) then Ok (- ENXIO, err_hw start size d)
      else Ok (0, acquire RAdapter d)
  end.

(** From the channels on. *)
Definition probe_dma (env : i2c_probe_env) (start size : Z) (d : i2c_dev) : result (Z * i2c_dev) :=
  match pv_tx env with
  | None => Ok (- ENXIO, err_irq2 start size d)
  | Some tx =>
      let (rv, h) := on_dma (stm32_dma_ch_get tx) (on_ctl (with_tx tx) (dhw d)) in
      let d := set_dhw d h in
      if negb (rv =? 0) then Ok (- ENXIO, err_irq2 start size d)
      else
        match pv_rx env with
        | None => Ok (- ENXIO, err_dma_tx start size d)
        | Some rx =>
            let (rv, h) := on_dma (stm32_dma_ch_get rx) (on_ctl (with_rx rx) (dhw d)) in
            let d := set_dhw d h in
            if negb (rv =? 0) then Ok (- ENXIO, err_dma_tx start size d) else probe_buffer env start size d
        end
  end.

(** From the first interrupt on, with the registers mapped. *)
Definition probe_irqs (env : i2c_probe_env) (start size : Z) (d : i2c_dev) : result (Z * i2c_dev) :=
  let n := pv_irq env in
  let ret := pv_request_irq env n in
  if negb (ret =? 0) then Ok (ret, err_regs start size d)
  else
    let d := acquire (RIrq n) d in
    let ret := pv_request_irq env (n + 1) in
    if negb (ret =? 0) then Ok (ret, err_irq1 start size d)
    else
      let d := acquire (RIrq (n + 1)) d in
      match ddata d with
      | DPlat rc ic => probe_dma env start size (set_ddata DPriv (set_dhw d (on_ctl (with_clks rc ic) (dhw d))))
      | _ => Fault BadIndex
      end.

Definition i2c_stm32_probe (env : i2c_probe_env) (d : i2c_dev) : result (Z * i2c_dev) :=
  if negb ((0 <=? pv_id env) && (pv_id env <=? 3)) then Ok (- ENXIO, d)
  else if pv_irq env <? 0 then Ok (pv_irq env, d)
  else
    match pv_regs env with
    | None => Ok (- ENXIO, d)
    | Some (start, size) =>
        if negb (pv_kzalloc env) then Ok (- ENOMEM, d)
        else
          let d := acquire RMem d in
          if negb (pv_region env) then Ok (- ENOMEM, err_memory d)
          else
            let d := acquire (RRegion start size) d in
            match pv_ioremap env with
            | None => Ok (- EINVAL, err_mem_region start size d)
            | Some map =>
                let d := acquire (RMap map) d in
                probe_irqs env start size (set_dhw d (on_ctl (fun c => new_ctl (pv_id env) start size map (pv_irq env) (hw c)) (dhw d)))
            end
    end.

Definition i2c_stm32_remove (d : i2c_dev) : result (Z * i2c_dev) :=
  match ddata d with
  | DPriv =>
      let d := free_dmabuf d in
      let d := set_dhw d (i2c_stm32_hw_release (dhw d)) in
      let c := ctl (drv (dhw d)) in
      let d := put_ch (dma_ch_tx c) (put_ch (dma_ch_rx c) d) in
      let d := release RAdapter (set_ddata DNull d) in
      let d := release (RIrq (irq c + 1)) (release (RIrq (irq c)) d) in
      let d := release (RMap (regs c)) d in
      let d := release (RRegion (regs_base c) (regs_size c)) d in
      Ok (0, release RMem d)
  | _ => Fault BadIndex
  end.

End Driver.
