(* ===== verification/I2cSpec.v ===== *)
(** * I2C controller driver: properties

    What a message asks of the controller, transfers on a controller that answers, and the
    error paths of the probe. *)

From S2P Require Import Prelude Dmac Dmamem I2c.

(** ** Registers *)

(** A closed register constant. *)
#[local] Hint Extern 1 (is_u32 ?c) => (is_const c; vm_compute; split; [discriminate|reflexivity]) : u32.
#[local] Hint Extern 1 (is_u32 0) => (split; [discriminate|reflexivity]) : u32.

(** CR2 reads as it was written; the controller may clear START and STOP itself. *)
Class Cr2Read (cr2_read : Z -> Z) : Prop := {
  cr2_read_u32 v : is_u32 v -> is_u32 (cr2_read v);
  cr2_read_bit v i : is_u32 v -> i <> 13 -> i <> 14 -> Z.testbit (cr2_read v) i = Z.testbit v i
}.

Definition cr2_read_hw (v : Z) : Z := v .& .~ _CR2_START.

#[export] Instance cr2_read_hw_ok : Cr2Read cr2_read_hw.
Proof.
  split; unfold cr2_read_hw.
  - auto with u32.
  - intros v i Hv H13 _. change _CR2_START with (BIT 13). rewrite clear_bit_spec by (auto; lia). zcrush.
Qed.

Lemma field_of_low v s w n : 0 <= n <= s -> 0 <= w -> fits n v -> field v s w = 0.
Proof.
  intros Hn Hw Hv. apply Z.bits_inj'. intros i Hi. rewrite field_bits, Z.bits_0 by lia.
  rewrite (fits_testbit_high n v) by (auto; lia). apply andb_false_r.
Qed.

Lemma land_fits x n : 0 <= n -> fits n (x .& Z.ones n).
Proof. intros Hn. unfold fits. rewrite Z.land_ones by lia. apply Z.mod_pos_bound. lia. Qed.

Lemma fits_u32 n v : 0 <= n <= 32 -> fits n v -> is_u32 v.
Proof. intros Hn Hv. exact (fits_weaken n 32 v ltac:(lia) Hv). Qed.

Lemma nbytes_shl n : 0 <= n <= 255 -> _CR2_NBYTES n = n .<< 16.
Proof. intros Hn. unfold _CR2_NBYTES. change 0xff with (Z.ones 8). rewrite Z.land_ones, Z.mod_small by lia. reflexivity. Qed.

Lemma nbytes_field n : 0 <= n <= 255 -> field (_CR2_NBYTES n) 16 8 = n.
Proof. intros Hn. rewrite nbytes_shl by lia. apply field_shl_same; unfold fits; lia. Qed.

Lemma nbytes_other n s w : 0 <= n <= 255 -> 0 <= s -> 0 <= w -> s + w <= 16 \/ 24 <= s -> field (_CR2_NBYTES n) s w = 0.
Proof. intros. rewrite nbytes_shl by lia. apply (field_shl_other 8); unfold fits; lia. Qed.

(** The address bits of CR2. *)
Definition saddr (m : i2c_msg) : Z := if has (m_flags m) I2C_M_TEN then _CR2_SADDR10 (m_addr m) else _CR2_SADDR7 (m_addr m).

Lemma shl1_fits x : fits 7 x -> fits 10 (x .<< 1).
Proof.
  unfold fits, shl32, u32. change (2 ^ 7) with 128. change (2 ^ 10) with 1024. intros Hx.
  rewrite Z.shiftl_mul_pow2, Z.mod_small by lia. lia.
Qed.

Lemma saddr_fields m :
  fits 12 (saddr m) /\ field (saddr m) 10 1 = 0 /\ field (saddr m) 11 1 = Z.b2z (has (m_flags m) I2C_M_TEN)
  /\ field (saddr m) 0 10 = if has (m_flags m) I2C_M_TEN then m_addr m .& Z.ones 10 else (m_addr m .& Z.ones 7) .<< 1.
Proof.
  unfold saddr, _CR2_SADDR10, _CR2_SADDR7. change 0x3ff with (Z.ones 10). change 0x7f with (Z.ones 7).
  pose proof (land_fits (m_addr m) 10 ltac:(lia)) as F10. pose proof (land_fits (m_addr m) 7 ltac:(lia)) as F7.
  assert (K : forall x, fits 10 x -> field x 0 10 = x)
    by (intros x [? ?]; unfold field; rewrite Z.shiftr_0_r, Z.land_ones, Z.mod_small; lia).
  destruct (has _ _).
  - split.
    + apply fits_bits; [lia|apply Z.lor_nonneg; destruct F10; split; [lia|vm_compute; discriminate]|].
      intros i Hi. rewrite Z.lor_spec, (fits_testbit_high 10 (m_addr m .& _)) by (auto; lia).
      now rewrite (fits_testbit_high 12 (1 .<< 11)) by (lia || (vm_compute; split; [discriminate|reflexivity])).
    + rewrite !field_lor by lia. rewrite !(field_of_low (m_addr m .& Z.ones 10) _ _ 10), K by (auto; lia).
      change (field (1 .<< 11) 0 10) with 0. repeat split. apply Z.lor_0_r.
  - pose proof (shl1_fits _ F7) as F. split; [exact (fits_weaken 10 12 _ ltac:(lia) F)|].
    rewrite !(field_of_low (_ .<< 1) _ _ 10), K by (auto; lia). auto.
Qed.

(** What [_cr2_set_val] leaves. *)
Section Cr2.

Context (cr2_read : Z -> Z) `{Hcr2 : !Cr2Read cr2_read}.

Lemma field_specific s w : 0 <= s -> 0 <= w -> s + w <= 27 -> field cr2_specific s w = Z.ones w.
Proof.
  intros. change cr2_specific with (Z.ones 27). apply Z.bits_inj'. intros i Hi.
  rewrite field_bits, !Z.testbit_ones by lia. zcrush.
Qed.

Lemma cr2_set_field v c s w :
  0 <= s -> 0 <= w -> s + w <= 27 -> field (i2c_cr2 (hw (_cr2_set_val cr2_read v c))) s w = field v s w.
Proof.
  intros Hs Hw Hsw. change (i2c_cr2 (hw (_cr2_set_val cr2_read v c))) with ((cr2_read (i2c_cr2 (hw c)) .& .~ cr2_specific) .| v).
  rewrite field_lor, field_clear_in by (lia || (apply field_specific; lia)). apply Z.lor_0_l.
Qed.

Lemma cr2_set_u32 v c : is_u32 (i2c_cr2 (hw c)) -> is_u32 v -> is_u32 (i2c_cr2 (hw (_cr2_set_val cr2_read v c))).
Proof.
  intros Hc Hv. change (i2c_cr2 (hw (_cr2_set_val cr2_read v c))) with ((cr2_read (i2c_cr2 (hw c)) .& .~ cr2_specific) .| v).
  pose proof (cr2_read_u32 _ Hc). auto with u32.
Qed.

Lemma cr2_read_field v s w : is_u32 v -> 0 <= s -> 0 <= w -> s + w <= 13 \/ 15 <= s -> field (cr2_read v) s w = field v s w.
Proof. intros Hv Hs Hw Hd. apply field_ext; [lia..|]. intros i Hi. apply cr2_read_bit; [assumption|lia..]. Qed.

End Cr2.

(** ** The DMA channel of a message *)

(** An owned channel that is not enabled. *)
Definition chan_idle (d : dmac) (ch : Z) : Prop :=
  0 <= ch < 16 /\ in_use (priv d ch) = true /\ ch_enabled (dma_ch_regs d ch) = false.

(** Only registers of channel [ch] changed. *)
Record only_ch (ch : Z) (d d' : dmac) : Prop := {
  oc_wf : dmac_wf d';
  oc_priv ch' : priv d' ch' = priv d ch';
  oc_regs ch' : 0 <= ch' < 16 -> ch' <> ch -> dma_ch_regs d' ch' = dma_ch_regs d ch'
}.

Lemma only_ch_trans ch d d' d'' : only_ch ch d d' -> only_ch ch d' d'' -> only_ch ch d d''.
Proof.
  intros [_ P1 R1] [W2 P2 R2]. split; [assumption|congruence|]. intros. rewrite R2, R1 by assumption. reflexivity.
Qed.

Lemma only_ch_set ch d r : dmac_wf d -> 0 <= ch < 16 -> regs_wf r -> only_ch ch d (set_ch_regs d ch r).
Proof.
  intros Hw Hc Hr. split; [now apply wf_set_ch_regs|now intros; rewrite priv_set_ch_regs|].
  intros ch' Hc' Hne. rewrite regs_set_ch_regs by assumption. now destruct (Z.eqb_spec ch ch'); [subst|].
Qed.

Lemma ch_enabled_bit r : ch_enabled r = Z.testbit (cr r) 0.
Proof. exact (bit_set_testbit (cr r) 0 ltac:(lia)). Qed.

Lemma chan_ready d ch : dmac_wf d -> chan_idle d ch -> ready d ch (dma_ch_regs d ch).
Proof.
  intros Hw (_ & Hu & He). split; auto. rewrite field_1 by lia. rewrite ch_enabled_bit in He. now rewrite He.
Qed.

Section Dma.

Context (w1c : Z -> Z -> Z) `{Hw1c : !W1C w1c}.

#[local] Hint Extern 5 (fits _ _) => (vm_compute; split; [discriminate|reflexivity]) : core.

Lemma enable_ok ch d :
  dmac_wf d -> 0 <= ch < 16 -> in_use (priv d ch) = true ->
  exists d', stm32_dma_ch_enable w1c ch d = (0, d') /\ only_ch ch d d'
    /\ dma_ch_regs d' ch = set_ch_cr (dma_ch_regs d ch) (cr (dma_ch_regs d ch) .| STM32_DMA_CR_EN).
Proof.
  intros Hw Hc Hu. unfold stm32_dma_ch_enable, __stm32_dma_ch_enable. rewrite locked_spec by assumption.
  eexists. split; [reflexivity|]. pose proof (wf_clear w1c d ch irqf_all Hw) as Hw'.
  pose proof (wf_regs _ Hw ch) as []. split.
  - apply (only_ch_trans _ _ (stm32_dma_clear_irq_flags w1c ch irqf_all d)).
    + split; [assumption|now intros; rewrite priv_clear|now intros; rewrite regs_clear].
    + apply only_ch_set; [assumption..|]. rewrite regs_clear. split; cbn [cr fcr set_ch_cr]; [apply lor_u32; [assumption|unfold STM32_DMA_CR_EN; auto with u32]|assumption].
  - now rewrite regs_set_ch_regs, Z.eqb_refl, regs_clear by assumption.
Qed.

Lemma disable_ok ch d :
  dmac_wf d -> 0 <= ch < 16 -> in_use (priv d ch) = true ->
  let d' := snd (stm32_dma_ch_disable w1c ch d) in only_ch ch d d' /\ chan_idle d' ch.
Proof.
  intros Hw Hc Hu. unfold stm32_dma_ch_disable, __stm32_dma_ch_enable. rewrite locked_spec by assumption.
  pose proof (wf_regs _ Hw ch) as []. cbv zeta. cbn [snd].
  set (r' := set_ch_cr _ _).
  assert (O : only_ch ch d (set_ch_regs d ch r'))
    by (apply only_ch_set; [assumption..|]; unfold r', STM32_DMA_CR_EN; split; cbn [cr fcr set_ch_cr]; [apply land_u32_l; [assumption|auto with u32]|assumption]).
  split; [exact O|]. split_and!; [lia..|now rewrite (oc_priv _ _ _ O)|].
  rewrite regs_set_ch_regs, Z.eqb_refl, ch_enabled_bit by assumption. cbn [cr set_ch_cr r'].
  change STM32_DMA_CR_EN with (BIT 0). rewrite clear_bit_spec by (assumption || lia). reflexivity.
Qed.

(** The channel of a message moves [len] bytes between the buffer and the controller. *)
Definition chan_programmed (d d' : dmac) (ch addr len : Z) : Prop :=
  let r := dma_ch_regs d' ch in
  m0ar r = addr /\ ndtr r = len /\ par r = par (dma_ch_regs d ch) /\ ch_enabled r = true
  /\ field (cr r) 10 1 = 1 /\ field (cr r) 13 2 = 0 /\ field (cr r) 6 2 = field (cr (dma_ch_regs d ch)) 6 2.

Lemma cr_memory_fields c :
  let c' := cr_memory 1 0 1 c .| STM32_DMA_CR_EN in
  Z.testbit c' 0 = true /\ field c' 10 1 = 1 /\ field c' 13 2 = 0 /\ field c' 6 2 = field c 6 2.
Proof.
  assert (fits 1 1) by auto. assert (fits 2 0) by auto. assert (fits 2 1) by auto.
  cbv zeta. unfold STM32_DMA_CR_EN. change (1 .<< 0) with (BIT 0). split; [now rewrite set_bit_spec by lia|].
  rewrite !field_lor by lia. change (field (BIT 0) 10 1) with 0. change (field (BIT 0) 13 2) with 0. change (field (BIT 0) 6 2) with 0.
  rewrite !Z.lor_0_r. unfold cr_memory. split_and!; field_expr; reflexivity.
Qed.

Lemma dma_start_ok ch addr len d :
  dmac_wf d -> chan_idle d ch ->
  exists d', dma_start w1c ch addr len d = inr d' /\ only_ch ch d d' /\ chan_programmed d d' ch addr len.
Proof.
  intros Hw Hi. pose proof (chan_ready d ch Hw Hi) as R0. destruct Hi as (Hc & Hu & He).
  destruct (exec_set_memory w1c ch 0 0 0 0 0 0 0 0 1 0 1 addr 0 0 Hc ltac:(lia) ltac:(auto) ltac:(auto) ltac:(auto) ltac:(auto)
    ltac:(auto) ltac:(auto) ltac:(auto) ltac:(auto) ltac:(auto) ltac:(auto) ltac:(auto) ltac:(auto) d _ R0) as [E1 R1].
  destruct (exec_set_nitems w1c ch 0 0 0 0 0 0 0 0 1 0 1 0 0 len Hc ltac:(lia) ltac:(auto) ltac:(auto) ltac:(auto) ltac:(auto)
    ltac:(auto) ltac:(auto) ltac:(auto) ltac:(auto) ltac:(auto) ltac:(auto) ltac:(auto) ltac:(auto) _ _ R1) as [E2 R2].
  cbn [dma_exec] in E1, E2. cbn [cr ndtr par m0ar m1ar fcr] in *.
  set (d1 := set_ch_regs d ch _) in *. set (d2 := set_ch_regs d1 ch _) in *.
  destruct (enable_ok ch d2 (ready_wf _ _ _ R2) Hc (ready_owned _ _ _ R2)) as (d3 & E3 & O3 & Hr).
  exists d3. split; [unfold dma_start; rewrite E1; cbn [Z.ltb]; rewrite E2; cbn [Z.ltb]; now rewrite E3|].
  pose proof (wf_regs _ (ready_wf _ _ _ R1) ch) as W1. rewrite (ready_regs _ _ _ R1) in W1.
  pose proof (wf_regs _ (ready_wf _ _ _ R2) ch) as W2. rewrite (ready_regs _ _ _ R2) in W2. split.
  - apply (only_ch_trans _ _ d2); [|assumption]. apply (only_ch_trans _ _ d1).
    + now apply only_ch_set.
    + apply only_ch_set; [apply R1|assumption..].
  - unfold chan_programmed. cbv zeta. rewrite Hr, (ready_regs _ _ _ R2), ch_enabled_bit. cbn [cr ndtr par m0ar m1ar fcr set_ch_cr].
    destruct (cr_memory_fields (cr (dma_ch_regs d ch))) as (F1 & F2 & F3 & F4). now split_and!.
Qed.

End Dma.

(** ** The configuration of a message *)

Definition m_ok (m : i2c_msg) : Prop := 0 <= m_len m <= DMABUF_SIZE /\ Z.of_nat (length (m_buf m)) = m_len m.

(** The byte count of the first request and the RELOAD bit. *)
Definition first_count (m : i2c_msg) : Z := if 255 <? m_len m then _CR2_NBYTES 255 .| _CR2_RELOAD else _CR2_NBYTES (m_len m).

Lemma msg_cr2_eq m c :
  msg_cr2 m c =
  ((first_count m .| saddr m .| (if is_read m then _CR2_RD_WRN else 0)) .| _CR2_AUTOEND,
   if 255 <? m_len m then _cr1_set_bits _CR1_TCIE (set_nbytes c (m_len m - 255)) else set_nbytes c 0).
Proof. unfold msg_cr2, first_count, saddr. destruct (255 <? m_len m), (has (m_flags m) I2C_M_TEN), (is_read m); now rewrite ?Z.lor_0_r. Qed.

Lemma first_count_fields m :
  m_ok m ->
  is_u32 (first_count m) /\ field (first_count m) 16 8 = Z.min (m_len m) 255 /\ field (first_count m) 24 1 = Z.b2z (255 <? m_len m)
  /\ forall s w, 0 <= s -> 0 <= w -> s + w <= 16 \/ 25 <= s -> field (first_count m) s w = 0.
Proof.
  intros [Hl _]. unfold DMABUF_SIZE in Hl. unfold first_count. destruct (Z.ltb_spec 255 (m_len m)).
  - split_and!; [vm_compute; split; [discriminate|reflexivity]..|rewrite Z.min_r by lia; reflexivity|reflexivity|].
    intros s w Hs Hw Hd. rewrite field_lor by lia. rewrite nbytes_other by lia.
    change _CR2_RELOAD with (1 .<< 24). rewrite (field_shl_other 1) by (lia || (split; [discriminate|reflexivity])). reflexivity.
  - split_and!; [unfold _CR2_NBYTES; apply shl32_u32..|rewrite nbytes_field; lia|rewrite nbytes_other by lia; reflexivity|].
    intros. apply nbytes_other; lia.
Qed.

Lemma msg_cr2_fields m c :
  m_ok m ->
  let v := fst (msg_cr2 m c) .| _CR2_START in
  is_u32 v /\ field v 0 10 = field (saddr m) 0 10 /\ field v 11 1 = field (saddr m) 11 1 /\ field v 10 1 = Z.b2z (is_read m)
  /\ field v 13 1 = 1 /\ field v 25 1 = 1 /\ field v 24 1 = Z.b2z (255 <? m_len m) /\ field v 16 8 = Z.min (m_len m) 255.
Proof.
  intros Hm. destruct (first_count_fields m Hm) as (F1 & F2 & F3 & F4). destruct (saddr_fields m) as (A1 & A2 & _ & _).
  cbv zeta. rewrite msg_cr2_eq. cbn [fst].
  assert (Ha : forall s w, 12 <= s -> 0 <= w -> field (saddr m) s w = 0) by (intros; apply (field_of_low _ _ _ 12); auto; lia).
  split.
  { repeat apply lor_u32; auto with u32; [exact (fits_u32 12 _ ltac:(lia) A1)|destruct (is_read m); auto with u32]. }
  rewrite !field_lor by lia. rewrite F2, F3, A2, (Ha 13 1), (Ha 25 1), (Ha 24 1), (Ha 16 8) by lia.
  rewrite (F4 0 10), (F4 10 1), (F4 11 1), (F4 13 1), (F4 25 1) by lia.
  split_and!; destruct (is_read m); try (apply Z.lor_0_r || reflexivity);
    repeat match goal with |- context [field ?c ?s ?w] => is_const c; let x := eval vm_compute in (field c s w) in change (field c s w) with x end;
    rewrite ?Z.lor_0_r, ?Z.lor_0_l; reflexivity.
Qed.

(** ** Messages of more than 255 bytes *)

Definition regs_u32 (c : i2c_stm32f7) : Prop := is_u32 (i2c_cr1 (hw c)) /\ is_u32 (i2c_cr2 (hw c)).

(** The bytes that CR2 asks for, and whether another request follows. *)
Definition chunk (c : i2c_stm32f7) : Z := field (i2c_cr2 (hw c)) 16 8.
Definition reload (c : i2c_stm32f7) : bool := Z.testbit (i2c_cr2 (hw c)) 24.

Lemma reload_field c : field (i2c_cr2 (hw c)) 24 1 = Z.b2z (reload c).
Proof. now apply field_1. Qed.

Lemma b2z_inj a b : Z.b2z a = Z.b2z b -> a = b.
Proof. destruct a, b; (reflexivity || discriminate). Qed.

Section Requests.

Context (cr2_read : Z -> Z) `{Hcr2 : !Cr2Read cr2_read}.

(** The bytes that the controller transfers in all, with a TCR interrupt after every request but the last. *)
Fixpoint requested (isr : Z) (fuel : nat) (c : i2c_stm32f7) : Z * i2c_stm32f7 :=
  match fuel with
  | S fuel => if reload c then let (n, c') := requested isr fuel (fst (i2c_stm32_irq cr2_read isr c)) in (chunk c + n, c') else (chunk c, c)
  | O => (chunk c, c)
  end.

Context (isr : Z) (Hstop : has isr _ISR_STOPF = false) (Htcr : has isr _ISR_TCR = true).

Lemma cr1_clear_u32 m c : is_u32 (i2c_cr1 (hw c)) -> is_u32 m -> is_u32 (i2c_cr1 (hw (_cr1_clear_bits m c))).
Proof. intros Hc Hm. apply land_u32_l; [exact Hc|]. apply is_u32_nonneg, not32_u32, Hm. Qed.

Lemma cr1_set_u32 m c : is_u32 (i2c_cr1 (hw c)) -> is_u32 m -> is_u32 (i2c_cr1 (hw (_cr1_set_bits m c))).
Proof. apply lor_u32. Qed.

Lemma tcr_request c :
  regs_u32 c -> reload c = true -> chunk c = 255 ->
  let c' := fst (i2c_stm32_irq cr2_read isr c) in
  regs_u32 c' /\ chunk c' = 255 /\ reload c' = (255 <? nbytes c) /\ nbytes c' = (if 255 <? nbytes c then nbytes c - 255 else 0).
Proof.
  intros [H1 H2] Hr Hk. unfold chunk, reload in *. pose proof (cr2_read_u32 (cr2_read := cr2_read) _ H2) as Hu.
  pose proof (cr2_read_field cr2_read (i2c_cr2 (hw c)) 16 8 H2 ltac:(lia) ltac:(lia) ltac:(lia)) as F16. rewrite Hk in F16.
  pose proof (cr2_read_bit (cr2_read := cr2_read) _ 24 H2 ltac:(lia) ltac:(lia)) as B24. rewrite Hr in B24.
  unfold i2c_stm32_irq. rewrite Hstop, Htcr. cbv zeta. destruct (255 <? nbytes c); cbn [fst].
  - set (v := cr2_read _ .| _). assert (Hv : is_u32 v) by (apply lor_u32; [exact Hu|vm_compute; split; [discriminate|reflexivity]]).
    split; [split; [exact H1|apply (cr2_set_u32 cr2_read); [exact H2|exact Hv]]|].
    rewrite cr2_set_field by lia. unfold v. rewrite field_lor by lia. rewrite F16. split; [reflexivity|]. split; [|reflexivity].
    apply b2z_inj. rewrite <- !field_1, cr2_set_field by lia. unfold v. rewrite field_lor, field_1, B24 by lia. reflexivity.
  - set (v := (_ .| _) .& _).
    assert (Hv : is_u32 v) by (apply land_u32_l; [apply lor_u32; [exact Hu|vm_compute; split; [discriminate|reflexivity]]|vm_compute; discriminate]).
    split; [split; [apply cr1_clear_u32; [exact H1|vm_compute; split; [discriminate|reflexivity]]|apply (cr2_set_u32 cr2_read); [exact H2|exact Hv]]|].
    rewrite cr2_set_field by lia. unfold v. rewrite field_clear_out by (lia || reflexivity). rewrite field_lor by lia.
    rewrite F16. split; [reflexivity|]. split; [|reflexivity].
    apply b2z_inj. rewrite <- !field_1, cr2_set_field by lia. unfold v. now rewrite field_clear_in by (lia || reflexivity).
Qed.

(** With [nbytes] bytes still to do, every request is for 255 bytes, the last one too. *)
Lemma requested_sum fuel c :
  regs_u32 c -> reload c = true -> chunk c = 255 -> 0 < nbytes c <= 255 * Z.of_nat fuel ->
  exists c', requested isr fuel c = (255 + 255 * ((nbytes c + 254) / 255), c') /\ reload c' = false.
Proof.
  revert c. induction fuel as [|fuel IH]; intros c Hu Hr Hk Hn; [lia|].
  destruct (tcr_request c Hu Hr Hk) as (Hu' & Hk' & Hr' & Hn'). cbn [requested]. rewrite Hr.
  set (c1 := fst (i2c_stm32_irq cr2_read isr c)) in *. destruct (Z.ltb_spec 255 (nbytes c)).
  - destruct (IH c1 Hu' Hr' Hk') as (c' & E & Hf); [lia|]. rewrite E, Hk, Hn'. exists c'. split; [f_equal; zdiv|exact Hf].
  - exists c1. split; [|exact Hr']. assert (E : (nbytes c + 254) / 255 = 1) by zdiv. rewrite Hk, E.
    destruct fuel; cbn [requested]; rewrite ?Hr', Hk'; reflexivity.
Qed.

End Requests.

(** ** Starting a message *)

(** No message in progress: a buffer and two idle channels. *)
Record idle (addr : Z) (st : i2c_state) : Prop := {
  id_buf : dmabuf (ctl st) = Some addr;
  id_wf : dmac_wf (dma st);
  id_tx : chan_idle (dma st) (dma_ch_tx (ctl st));
  id_rx : chan_idle (dma st) (dma_ch_rx (ctl st));
  id_regs : regs_u32 (ctl st)
}.

Lemma idle_channel addr st m : idle addr st -> chan_idle (dma st) (msg_channel m (ctl st)).
Proof. intros []. unfold msg_channel. now destruct (is_read m). Qed.

(** What the interrupt handler and the transfer never change. *)
Definition chans (c : i2c_stm32f7) := (dmabuf c, dma_ch_tx c, dma_ch_rx c).

Lemma chans_channel m c c' : chans c' = chans c -> msg_channel m c' = msg_channel m c.
Proof. unfold chans, msg_channel. intros [= _ -> ->]. reflexivity. Qed.

Lemma put_front_take bytes b : take (length bytes) (put_front bytes b) = bytes.
Proof. apply take_app_length. Qed.

Section Start.

Context (cr2_read : Z -> Z) `{Hcr2 : !Cr2Read cr2_read} (w1c : Z -> Z -> Z) `{Hw1c : !W1C w1c}.

(** The state of a message that was started. *)
Record started (m : i2c_msg) (addr : Z) (st st' : i2c_state) : Prop := {
  sd_chans : chans (ctl st') = chans (ctl st);
  sd_regs : regs_u32 (ctl st');
  sd_status : msg_status (ctl st') = - EBUSY;
  sd_dma : only_ch (msg_channel m (ctl st)) (dma st) (dma st') /\ chan_programmed (dma st) (dma st') (msg_channel m (ctl st)) addr (m_len m);
  sd_cr2 s w : 0 <= s -> 0 <= w -> s + w <= 27 ->
    field (i2c_cr2 (hw (ctl st'))) s w = field (fst (msg_cr2 m (ctl st)) .| _CR2_START) s w;
  sd_nbytes : nbytes (ctl st') = Z.max 0 (m_len m - 255);
  sd_data : is_read m = false -> take (length (m_buf m)) (buf st') = m_buf m
}.

Lemma msg_start_ok m addr st :
  idle addr st -> m_ok m -> exists st', msg_start cr2_read w1c m addr st = inr st' /\ started m addr st st'.
Proof.
  intros Hi Hm. pose proof (idle_channel addr st m Hi) as Hc. destruct Hi as [_ Hw _ _ [R1 R2]].
  destruct (msg_cr2_fields m (ctl st) Hm) as (Hv & _). pose proof (msg_cr2_eq m (ctl st)) as Em.
  unfold msg_start. destruct (msg_cr2 m (ctl st)) as [v c] eqn:E. cbn [fst] in Hv. injection Em as _ Ec.
  assert (Hch : chans c = chans (ctl st)) by (rewrite Ec; now destruct (255 <? m_len m)).
  assert (Hr : regs_u32 c) by (rewrite Ec; destruct (255 <? m_len m); split; try assumption; apply cr1_set_u32; auto with u32).
  assert (Hn : nbytes c = Z.max 0 (m_len m - 255)) by (rewrite Ec; destruct (Z.ltb_spec 255 (m_len m)); cbn; lia).
  destruct (dma_start_ok w1c (msg_channel m (ctl st)) addr (m_len m) (dma st) Hw Hc) as (d & Ed & O & P).
  assert (Ech : msg_channel m (set_status c (- EBUSY)) = msg_channel m (ctl st)) by exact (chans_channel m (ctl st) (set_status c (- EBUSY)) Hch).
  assert (Ht : take (Z.to_nat (m_len m)) (m_buf m) = m_buf m) by (apply take_ge; destruct Hm; lia).
  cbv zeta. destruct (is_read m) eqn:Er; cbn [set_buf set_ctl ctl dma]; rewrite Ech, Ed; cbv zeta;
    eexists; (split; [reflexivity|]).
  all: split; cbn [set_dma set_ctl set_buf ctl dma buf]; [exact Hch| |reflexivity|now split| |exact Hn|].
  1, 4: split; [apply cr1_set_u32; [apply Hr|vm_compute; split; [discriminate|reflexivity]]|apply (cr2_set_u32 cr2_read); [apply Hr|exact Hv]].
  1, 3: intros s w Hs Hw' Hsw; now rewrite cr2_set_field, E by lia.
  - congruence.
  - intros _. rewrite Ht. apply put_front_take.
Qed.

(** C28: A message on an idle controller: the DMA channel is set to move its bytes between the buffer and the data register,
    the buffer holds the bytes to write, and CR2 holds the address, its kind, the direction, START and the first
    byte count.  The controller then asks for the bytes of the message if these are at most 255, and otherwise for a
    multiple of 255: too many, unless the length is one (the driver clears [nbytes] before it uses it). *)
Theorem i2c_message_requested m addr st isr :
  idle addr st -> m_ok m -> has isr _ISR_STOPF = false -> has isr _ISR_TCR = true ->
  exists st', msg_start cr2_read w1c m addr st = inr st'
    /\ chan_programmed (dma st) (dma st') (msg_channel m (ctl st)) addr (m_len m)
    /\ (is_read m = false -> take (length (m_buf m)) (buf st') = m_buf m)
    /\ (let v := i2c_cr2 (hw (ctl st')) in
        field v 0 10 = (if has (m_flags m) I2C_M_TEN then m_addr m .& Z.ones 10 else (m_addr m .& Z.ones 7) .<< 1)
        /\ field v 11 1 = Z.b2z (has (m_flags m) I2C_M_TEN) /\ field v 10 1 = Z.b2z (is_read m) /\ field v 13 1 = 1 /\ field v 25 1 = 1)
    /\ exists c', reload c' = false /\
       requested cr2_read isr 4 (ctl st') = (if m_len m <=? 255 then m_len m else 255 * ((m_len m + 254) / 255), c').
Proof.
  intros Hi Hm Hs Ht. destruct (msg_start_ok m addr st Hi Hm) as (st' & E & [_ Hr _ [_ P] Hf Hn Hd]).
  exists st'. split; [exact E|]. split; [exact P|]. split; [exact Hd|].
  destruct (msg_cr2_fields m (ctl st) Hm) as (_ & V0 & V11 & V10 & V13 & V25 & V24 & V16).
  destruct (saddr_fields m) as (_ & _ & A11 & A0). cbv zeta. rewrite !Hf by lia.
  split; [split_and!; congruence|].
  assert (Hre : reload (ctl st') = (255 <? m_len m)) by (apply b2z_inj; rewrite <- reload_field, Hf by lia; exact V24).
  assert (Hk : chunk (ctl st') = Z.min (m_len m) 255) by (unfold chunk; rewrite Hf by lia; exact V16).
  destruct Hm as [Hl _]. unfold DMABUF_SIZE in Hl. rewrite Z.leb_antisym. destruct (Z.ltb_spec 255 (m_len m)); cbn [negb].
  - destruct (requested_sum cr2_read isr Hs Ht 4 (ctl st') Hr Hre) as (c' & Er & Hc'); [lia..|].
    exists c'. split; [exact Hc'|]. rewrite Er, Hn. f_equal. zdiv.
  - exists (ctl st'). split; [exact Hre|]. cbn [requested]. rewrite Hre. f_equal. lia.
Qed.

End Start.

(** ** Transfers *)

(** The status bit that the task polls for. *)
Definition ready_bit (m : i2c_msg) : Z := if is_read m then _ISR_RXNE else _ISR_TXIS.

Definition wait_ok (e : wait_event) : Prop :=
  match e with WIrq isr => has isr _ISR_STOPF = false /\ has isr _ISR_TCR = true | WData _ => True | WExpire => False end.

(** What the DMA stored last; [d] before. *)
Fixpoint stored (evs : list wait_event) (d : list Z) : list Z :=
  match evs with [] => d | WData b :: evs => stored evs b | _ :: evs => stored evs d end.

(** The controller answers: it gets ready within two ticks, and while the task waits there are requests for more bytes,
    bytes stored by the DMA, and a STOP without NACK at last; [data]: the bytes of a read message. *)
Record good_run (m : i2c_msg) (e : msg_env) (data : list Z) : Prop := {
  gr_poll : 0 < m_len m -> exists early isr t rest, me_poll e = map (fun x => PRead x.1 x.2) early ++ PRead isr t :: rest
    /\ Forall (fun x => has x.1 (ready_bit m) = false /\ x.2 <= 2) early /\ has isr (ready_bit m) = true;
  gr_wait : exists evs stop rest, me_wait e = evs ++ WIrq stop :: rest
    /\ Forall wait_ok evs /\ has stop _ISR_STOPF = true /\ has stop _ISR_NACKF = false /\ stored evs [] = data;
  gr_len : is_read m = true -> Z.of_nat (length data) = m_len m
}.

(** The interrupts and the DMA requests are off and CR2 has no configuration. *)
Definition quiet (c : i2c_stm32f7) : Prop :=
  (forall n, n ∈ [5; 7; 14; 15] -> Z.testbit (i2c_cr1 (hw c)) n = false) /\ field (i2c_cr2 (hw c)) 0 27 = 0.

Lemma chan_idle_only ch ch' d d' : only_ch ch d d' -> chan_idle d' ch -> chan_idle d ch' -> chan_idle d' ch'.
Proof.
  intros O Hi (Hc & Hu & He). destruct (Z.eq_dec ch' ch) as [->|Hne]; [exact Hi|].
  split; [exact Hc|]. rewrite (oc_priv _ _ _ O), (oc_regs _ _ _ O) by assumption. now split.
Qed.

Lemma cr1_clear_bit m c n : is_u32 m -> 0 <= n < 32 -> Z.testbit m n = true -> Z.testbit (i2c_cr1 (hw (_cr1_clear_bits m c))) n = false.
Proof.
  intros Hm Hn Hb. change (i2c_cr1 (hw (_cr1_clear_bits m c))) with (i2c_cr1 (hw c) .& .~ m).
  rewrite Z.land_spec, testbit_not32, Hb. zcrush.
Qed.

Lemma cr1_clear_keeps m c n : Z.testbit (i2c_cr1 (hw c)) n = false -> Z.testbit (i2c_cr1 (hw (_cr1_clear_bits m c))) n = false.
Proof.
  intros Hb. change (i2c_cr1 (hw (_cr1_clear_bits m c))) with (i2c_cr1 (hw c) .& .~ m). now rewrite Z.land_spec, Hb.
Qed.

Section Transfer.

Context (cr2_read : Z -> Z) `{Hcr2 : !Cr2Read cr2_read} (w1c : Z -> Z -> Z) `{Hw1c : !W1C w1c}.

Lemma poll_good m early isr t rest c :
  Forall (fun x => has x.1 (ready_bit m) = false /\ x.2 <= 2) early -> has isr (ready_bit m) = true ->
  poll_ready cr2_read (is_read m) (map (fun x => PRead x.1 x.2) early ++ PRead isr t :: rest) c
  = Ok (true, _cr1_set_bits (if is_read m then _CR1_RXDMAEN else _CR1_TXDMAEN) c).
Proof.
  unfold ready_bit. intros He Hr. induction He as [|[i k] early [Hi Hk] _ IH]; cbn [map app poll_ready fst snd] in *.
  - destruct (is_read m); now rewrite Hr.
  - assert (Hlt : (I2C_TIMEOUT_BUSY * HZ / 1000 <? k) = false) by (apply Z.ltb_ge; vm_compute (I2C_TIMEOUT_BUSY * HZ / 1000); exact Hk).
    destruct (is_read m); cbn [andb negb]; rewrite Hi, Hlt; exact IH.
Qed.

Lemma irq_keeps isr c :
  regs_u32 c -> let c' := fst (i2c_stm32_irq cr2_read isr c) in chans c' = chans c /\ regs_u32 c'.
Proof.
  intros [H1 H2]. unfold i2c_stm32_irq. pose proof (cr2_read_u32 (cr2_read := cr2_read) _ H2) as Hu.
  destruct (has isr _ISR_STOPF); [|destruct (has isr _ISR_TCR)].
  - destruct (has isr _ISR_NACKF); cbv zeta; match goal with |- context [if ?b then _ else _] => destruct b end; (split; [reflexivity|]);
      (split; [apply cr1_clear_u32; [exact H1|vm_compute; split; [discriminate|reflexivity]]|apply (cr2_set_u32 cr2_read); [exact H2|auto with u32]]).
  - destruct (255 <? nbytes c); (split; [reflexivity|]); split; cbn [fst].
    + exact H1.
    + apply (cr2_set_u32 cr2_read); [exact H2|]. apply lor_u32; [exact Hu|vm_compute; split; [discriminate|reflexivity]].
    + apply cr1_clear_u32; [exact H1|vm_compute; split; [discriminate|reflexivity]].
    + apply (cr2_set_u32 cr2_read); [exact H2|].
      apply land_u32_l; [apply lor_u32; [exact Hu|vm_compute; split; [discriminate|reflexivity]]|vm_compute; discriminate].
  - split; [reflexivity|]. split; [exact H1|]. apply (cr2_set_u32 cr2_read); [exact H2|auto with u32].
Qed.

Lemma irq_tcr isr c :
  has isr _ISR_STOPF = false -> has isr _ISR_TCR = true ->
  let '(c', woken) := i2c_stm32_irq cr2_read isr c in woken = false /\ msg_status c' = msg_status c.
Proof. intros Hs Ht. unfold i2c_stm32_irq. rewrite Hs, Ht. now destruct (255 <? nbytes c). Qed.

Lemma irq_stop isr c :
  has isr _ISR_STOPF = true -> has isr _ISR_NACKF = false -> msg_status c = - EBUSY -> is_u32 (i2c_cr1 (hw c)) ->
  let '(c', woken) := i2c_stm32_irq cr2_read isr c in
  woken = true /\ msg_status c' = 0 /\ field (i2c_cr2 (hw c')) 0 27 = 0
  /\ forall n, n ∈ [5; 7] -> Z.testbit (i2c_cr1 (hw c')) n = false.
Proof.
  intros Hs Hn He Hu. unfold i2c_stm32_irq. rewrite Hs, Hn. cbv zeta.
  change (msg_status (_cr1_clear_bits _ c)) with (msg_status c). rewrite He. change (- EBUSY =? - EBUSY) with true. cbv iota.
  split; [reflexivity|]. split; [reflexivity|]. rewrite cr2_set_field by lia. split; [reflexivity|].
  intros n Hd. change (Z.testbit (i2c_cr1 (hw (_cr1_clear_bits (_CR1_ERRIE .| _CR1_STOPIE) c))) n = false).
  rewrite !elem_of_cons, elem_of_nil in Hd. destruct Hd as [->|[->|[]]];
    apply cr1_clear_bit; (lia || reflexivity || (vm_compute; split; [discriminate|reflexivity])).
Qed.

Lemma wait_good evs stop rest st d :
  Forall wait_ok evs -> has stop _ISR_STOPF = true -> has stop _ISR_NACKF = false ->
  msg_status (ctl st) = - EBUSY -> regs_u32 (ctl st) -> take (length d) (buf st) = d ->
  exists st', wait_woken cr2_read (evs ++ WIrq stop :: rest) st = Ok (true, st')
    /\ chans (ctl st') = chans (ctl st) /\ dma st' = dma st /\ regs_u32 (ctl st') /\ msg_status (ctl st') = 0
    /\ take (length (stored evs d)) (buf st') = stored evs d /\ field (i2c_cr2 (hw (ctl st'))) 0 27 = 0
    /\ forall n, n ∈ [5; 7] -> Z.testbit (i2c_cr1 (hw (ctl st'))) n = false.
Proof.
  intros He Hs Hn. revert st d. induction He as [|e evs He _ IH]; intros st d Hb Hr Hd; cbn [app wait_woken stored].
  - pose proof (irq_stop stop (ctl st) Hs Hn Hb (proj1 Hr)) as K. destruct (irq_keeps stop (ctl st) Hr) as [C R].
    destruct (i2c_stm32_irq cr2_read stop (ctl st)) as [c w]. destruct K as (-> & Es & K2 & K1). cbn [fst] in *.
    rewrite Es. cbn [andb negb]. eexists. split; [reflexivity|]. cbn [set_ctl ctl dma buf]. now split_and!.
  - destruct e as [isr|b|]; [|exact (IH (set_buf st (put_front b (buf st))) b Hb Hr (put_front_take b (buf st)))|contradiction].
    destruct He as [H1 H2]. pose proof (irq_tcr isr (ctl st) H1 H2) as K. destruct (irq_keeps isr (ctl st) Hr) as [C R].
    destruct (i2c_stm32_irq cr2_read isr (ctl st)) as [c w]. destruct K as (-> & Es). cbn [fst andb] in *.
    destruct (IH (set_ctl st c) d) as (st' & E & C' & Rest); [cbn; congruence|exact R|exact Hd|].
    exists st'. split; [exact E|]. split; [cbn in C'; congruence|exact Rest].
Qed.

Lemma finish_good m i addr st0 st1 st :
  idle addr st0 -> only_ch (msg_channel m (ctl st0)) (dma st0) (dma st1) ->
  chans (ctl st) = chans (ctl st0) -> dma st = dma st1 -> regs_u32 (ctl st) -> msg_status (ctl st) = 0 ->
  field (i2c_cr2 (hw (ctl st))) 0 27 = 0 -> (forall n, n ∈ [5; 7] -> Z.testbit (i2c_cr1 (hw (ctl st))) n = false) ->
  exists st', msg_finish cr2_read w1c m i i true st
    = (Done, if is_read m then put_front (take (Z.to_nat (m_len m)) (buf st)) (m_buf m) else m_buf m, st')
    /\ idle addr st' /\ quiet (ctl st').
Proof.
  intros Hi O C D R Hs H2 H1. pose proof (idle_channel addr st0 m Hi) as (Hc & Hu & _). destruct Hi as [Ib _ It Ir _].
  set (c := _cr1_clear_bits (_CR1_TXDMAEN .| _CR1_RXDMAEN) (ctl st)).
  assert (Ec : chans c = chans (ctl st0)) by exact C. pose proof (chans_channel m _ _ Ec) as Ech.
  destruct (disable_ok w1c (msg_channel m (ctl st0)) (dma st1)) as [O' Hidle]; [apply O|exact Hc|now rewrite (oc_priv _ _ _ O)|].
  pose proof (only_ch_trans _ _ _ _ O O') as O''.
  exists (set_dma (set_ctl st c) (snd (stm32_dma_ch_disable w1c (msg_channel m (ctl st0)) (dma st1)))). split; [|split].
  - unfold msg_finish. rewrite Hs. cbn [negb Z.eqb]. rewrite Z.eqb_refl. cbn [negb]. unfold disable.
    change (ctl (set_ctl st (_cr1_clear_bits (_CR1_TXDMAEN .| _CR1_RXDMAEN) (ctl st)))) with c.
    cbn [set_ctl dma]. rewrite (chans_channel m _ _ C), D. reflexivity.
  - unfold chans in Ec. injection Ec as E1 E2 E3. split; cbn [set_dma set_ctl ctl dma].
    + exact (eq_trans E1 Ib).
    + apply O''.
    + change (dma_ch_tx c) with (dma_ch_tx (ctl st)). rewrite E2. exact (chan_idle_only _ _ _ _ O'' Hidle It).
    + change (dma_ch_rx c) with (dma_ch_rx (ctl st)). rewrite E3. exact (chan_idle_only _ _ _ _ O'' Hidle Ir).
    + split; [apply cr1_clear_u32; [apply R|vm_compute; split; [discriminate|reflexivity]]|apply R].
  - split; [|exact H2]. intros n Hn. cbn [set_dma set_ctl ctl].
    rewrite !elem_of_cons, elem_of_nil in Hn. destruct Hn as [->|[->|[->|[->|[]]]]].
    1, 2: apply cr1_clear_keeps, H1; rewrite !elem_of_cons; tauto.
    all: apply cr1_clear_bit; (lia || reflexivity || (vm_compute; split; [discriminate|reflexivity])).
Qed.

Lemma one_good m e data i addr st :
  idle addr st -> m_ok m -> good_run m e data ->
  exists st', transfer_one cr2_read w1c m e i i st = Ok (Done, if is_read m then data else m_buf m, st')
    /\ idle addr st' /\ quiet (ctl st').
Proof.
  intros Hi Hm [Gp Gw Gl]. destruct (msg_start_ok cr2_read w1c m addr st Hi Hm) as (st1 & E1 & [C1 R1 S1 [O1 _] _ _ _]).
  destruct Gw as (evs & stop & rest & Ew & Hok & Hst & Hna & Hdata).
  unfold transfer_one. rewrite (proj2 (Z.ltb_ge _ _) (proj2 (proj1 Hm))), (id_buf _ _ Hi), E1.
  assert (P : exists c, (if 0 <? m_len m then poll_ready cr2_read (is_read m) (me_poll e) (ctl st1) else Ok (true, ctl st1)) = Ok (true, c)
            /\ chans c = chans (ctl st1) /\ regs_u32 c /\ msg_status c = msg_status (ctl st1)).
  { destruct (Z.ltb_spec 0 (m_len m)) as [Hl|_]; [|now exists (ctl st1)].
    destruct (Gp Hl) as (early & isr & t & prest & -> & He & Hr). rewrite (poll_good m early isr t prest _ He Hr).
    eexists. split; [reflexivity|]. split; [reflexivity|]. split; [|reflexivity].
    split; [|apply R1]. apply cr1_set_u32; [apply R1|destruct (is_read m); auto with u32]. }
  destruct P as (c & -> & C2 & R2 & S2). cbn [rbind]. cbv zeta. cbn [negb].
  unfold wait_done. cbn [set_ctl ctl]. rewrite S2, S1. change (- EBUSY =? - EBUSY) with true. cbn [negb]. rewrite Ew.
  destruct (wait_good evs stop rest (set_ctl st1 c) [] Hok Hst Hna) as (st3 & -> & C3 & D3 & R3 & S3 & T3 & Q2 & Q1);
    [cbn; congruence|exact R2|reflexivity|].
  cbn [rbind]. destruct (finish_good m i addr st st1 st3 Hi O1) as (st' & -> & Hi' & Hq); try assumption.
  { cbn [set_ctl ctl] in C3. congruence. }
  exists st'. split; [|now split]. do 3 f_equal. destruct (is_read m) eqn:Er; [|reflexivity].
  rewrite Hdata in T3. specialize (Gl eq_refl). replace (Z.to_nat (m_len m)) with (length data) by lia. rewrite T3.
  unfold put_front. rewrite drop_ge by (destruct Hm; lia). apply app_nil_r.
Qed.

Lemma loop_good msgs runs i addr st :
  idle addr st -> Forall m_ok msgs -> Forall2 (fun m r => good_run m r.1 r.2) msgs runs ->
  exists st', transfer_loop cr2_read w1c msgs (map fst runs) i st
    = Ok (i + Z.of_nat (length msgs), zip_with (fun m r => if is_read m then r.2 else m_buf m) msgs runs, st')
    /\ idle addr st' /\ (msgs <> [] -> quiet (ctl st')).
Proof.
  intros Hi Hm Hr. revert i st Hi Hm. induction Hr as [|m [e data] msgs runs Hr _ IH]; intros i st Hi Hm.
  - exists st. cbn. rewrite Z.add_0_r. now split_and!.
  - apply Forall_cons in Hm as [Hm Hms]. destruct (one_good m e data i addr st Hi Hm Hr) as (st1 & E1 & Hi1 & Hq1).
    destruct (IH (i + 1) st1 Hi1 Hms) as (st' & E & Hi' & Hq). exists st'. split; [|split; [exact Hi'|]].
    + cbn [transfer_loop map fst]. rewrite E1. cbn [rbind]. rewrite E. cbn [rbind zip_with snd length]. do 3 f_equal. lia.
    + intros _. destruct msgs as [|m' msgs]; [|now apply Hq]. inversion E; subst. exact Hq1.
Qed.

(** C26: A transfer on a controller that answers: the call ends with the number of messages, every read message
    has the bytes that the DMA stored and the others are unchanged, and the driver is idle again with interrupts, DMA
    requests and the configuration off. *)
Theorem i2c_transfer_completes msgs runs addr st :
  idle addr st -> Forall m_ok msgs -> Forall2 (fun m r => good_run m r.1 r.2) msgs runs ->
  exists st', i2c_stm32_transfer cr2_read w1c msgs (map fst runs) st
    = Ok (Z.of_nat (length msgs), zip_with (fun m r => if is_read m then r.2 else m_buf m) msgs runs, st')
    /\ idle addr st' /\ (msgs <> [] -> quiet (ctl st')).
Proof. exact (loop_good msgs runs 0 addr st). Qed.

End Transfer.

(** ** Probe and remove *)

(** The owner flag of every channel. *)
Definition uses (d : dmac) (ch : Z) : bool := in_use (priv d ch).

Definition same_use (d d' : dmac) : Prop := dmac_wf d' /\ forall ch, 0 <= ch < 16 -> uses d' ch = uses d ch.

Lemma same_use_trans d d' d'' : same_use d d' -> same_use d' d'' -> same_use d d''.
Proof. intros [_ H1] [W H2]. split; [exact W|]. intros ch Hc. rewrite H2, H1 by exact Hc. reflexivity. Qed.

Lemma dma_get_ok ch d rv d' :
  dmac_wf d -> stm32_dma_ch_get ch d = (rv, d') ->
  (rv <> 0 -> same_use d d')
  /\ (rv = 0 -> 0 <= ch < 16 /\ uses d ch = false /\ dmac_wf d' /\ forall ch', 0 <= ch' < 16 -> uses d' ch' = (ch =? ch') || uses d ch').
Proof.
  intros Hw. unfold stm32_dma_ch_get. destruct (stm32_dma_ch_valid ch) eqn:Hv; cbn [negb]; intros [= <- <-].
  2: { split; [now split|discriminate]. }
  apply valid_range in Hv. set (p := {| in_use := true; irq_handler := _; irq_data := _ |}).
  assert (W : dmac_wf (set_priv d ch p)) by (apply wf_set_priv; [assumption..|apply (wf_null _ Hw)]).
  assert (U : forall ch', 0 <= ch' < 16 -> uses (set_priv d ch p) ch' = (ch =? ch') || uses d ch').
  { intros ch' Hc'. unfold uses. rewrite priv_set_priv by assumption. now destruct (ch =? ch'). }
  destruct (in_use (priv d ch)) eqn:Hu; (split; intros Hr; [|]); try lia; try discriminate.
  - split; [exact W|]. intros ch' Hc'. rewrite U by exact Hc'. destruct (Z.eqb_spec ch ch') as [<-|]; [|reflexivity].
    symmetry. exact Hu.
  - now split_and!.
Qed.

Lemma dma_put_ok ch d :
  dmac_wf d -> 0 <= ch < 16 ->
  let d' := snd (stm32_dma_ch_put ch d) in
  dmac_wf d' /\ forall ch', 0 <= ch' < 16 -> uses d' ch' = negb (ch =? ch') && uses d ch'.
Proof.
  intros Hw Hc. unfold stm32_dma_ch_put. rewrite (proj2 (valid_range ch) Hc). cbn [negb snd]. cbv zeta.
  split; [apply wf_set_priv; [assumption..|apply (wf_null _ Hw)]|].
  intros ch' Hc'. unfold uses. rewrite priv_set_priv by assumption. now destruct (ch =? ch').
Qed.

Lemma locked_same ch body d rv d' :
  dmaapi_locked ch body d = (rv, d') -> (forall x, body d = inr x -> forall ch', priv x ch' = priv d ch') ->
  forall ch', priv d' ch' = priv d ch'.
Proof. intros E H ch'. destruct (locked_inv _ _ _ _ _ E) as [->|(_ & _ & _ & Hb)]; [reflexivity|now apply H]. Qed.

(** Calls that set up a channel. *)
Definition config_op (o : dma_op) : Prop :=
  match o with OpInit _ _ _ _ _ _ | OpInitFifo _ _ _ | OpSetPeriph _ _ _ _ _ => True | _ => False end.

Lemma config_same w1c `{!W1C w1c} o d rv d' : dmac_wf d -> config_op o -> dma_exec w1c o d = (rv, d') -> same_use d d'.
Proof.
  intros Hw Ho E. split; [apply (dma_channel_frame w1c o d rv d' Hw); [now destruct o|exact E]|].
  intros ch' _. unfold uses. f_equal. destruct o; try contradiction; cbn [dma_exec] in E.
  all: unfold stm32_dma_ch_init, stm32_dma_ch_init_fifo, stm32_dma_ch_set_periph in E; apply (locked_same _ _ _ _ _ E).
  all: intros x Hx ch''; repeat match type of Hx with context [if ?b then _ else _] => destruct b; [discriminate|] end.
  all: injection Hx as <-; apply priv_set_ch_regs.
Qed.

(** The controller data changed only in its registers, the allocator not, and no channel changed hands. *)
Record hw_only (h h' : i2c_hw) : Prop := {
  ho_ctl : exists r, ctl (drv h') = set_hw (ctl (drv h)) r;
  ho_mem : mem h' = mem h;
  ho_use : same_use (dma (drv h)) (dma (drv h'))
}.

Lemma set_hw_id c : set_hw c (hw c) = c.
Proof. now destruct c. Qed.

Lemma hw_only_trans h h' h'' : hw_only h h' -> hw_only h' h'' -> hw_only h h''.
Proof.
  intros [[r C] M U] [[r' C'] M' U']. split; [|congruence|exact (same_use_trans _ _ _ U U')].
  exists r'. rewrite C', C. reflexivity.
Qed.

Lemma hw_only_refl h : dmac_wf (dma (drv h)) -> hw_only h h.
Proof. intros Hw. split; [exists (hw (ctl (drv h))); symmetry; exact (set_hw_id (ctl (drv h)))|reflexivity|now split]. Qed.

Lemma hw_only_wf h h' : hw_only h h' -> dmac_wf (dma (drv h')).
Proof. intros H. apply (ho_use _ _ H). Qed.

Lemma on_dma_hw o h rv h' :
  dmac_wf (dma (drv h)) -> config_op o -> on_dma (dma_exec w1c_hw o) h = (rv, h') -> hw_only h h'.
Proof.
  intros Hw Ho. unfold on_dma. destruct (dma_exec w1c_hw o (dma (drv h))) as [x d] eqn:E. intros [= _ <-].
  split; [exists (hw (ctl (drv h))); symmetry; exact (set_hw_id (ctl (drv h)))|reflexivity|exact (config_same w1c_hw o _ _ _ Hw Ho E)].
Qed.

Lemma on_ctl_hw f h : dmac_wf (dma (drv h)) -> (exists r, f (ctl (drv h)) = set_hw (ctl (drv h)) r) -> hw_only h (on_ctl f h).
Proof. intros Hw Hf. split; [exact Hf|reflexivity|now split]. Qed.

Ltac dma_call o h :=
  let rv := fresh "rv" in let h' := fresh "h" in let E := fresh "E" in let O := fresh "O" in
  destruct (on_dma (dma_exec w1c_hw o) h) as [rv h'] eqn:E; cbn [dma_exec] in E; rewrite E;
  assert (O : hw_only h h') by (apply (on_dma_hw o h rv h'); [assumption || (eapply hw_only_wf; eassumption)|exact I|exact E]); clear E.

(** The next call of a sequence that sets up channels. *)
Ltac dma_next :=
  match goal with
  | |- context [on_dma (stm32_dma_ch_init ?c ?a ?b ?x ?y ?z) ?h] => dma_call (OpInit c a b x y z) h
  | |- context [on_dma (stm32_dma_ch_init_fifo ?c ?a ?b) ?h] => dma_call (OpInitFifo c a b) h
  | |- context [on_dma (stm32_dma_ch_set_periph ?c ?a ?b ?x ?y) ?h] => dma_call (OpSetPeriph c a b x y) h
  end.

Lemma init_dma_hw h ok h' : dmac_wf (dma (drv h)) -> init_dma h = (ok, h') -> hw_only h h'.
Proof.
  intros Hw. unfold init_dma. cbv zeta.
  do 6 (dma_next; match goal with |- (if ?b then _ else _) = _ -> _ => destruct b end;
    [intros [= _ <-]; eauto 8 using hw_only_trans|]).
  intros [= _ <-]. eauto 8 using hw_only_trans.
Qed.

Lemma hw_init_only cr2_read reads h rv h' :
  dmac_wf (dma (drv h)) -> i2c_stm32_hw_init cr2_read reads h = Ok (rv, h') -> hw_only h h'.
Proof.
  intros Hw. unfold i2c_stm32_hw_init. destruct (_ || _); [intros [= _ <-]; now apply hw_only_refl|].
  cbv zeta. destruct (wait_reset reads); cbn [rbind]; [|discriminate].
  match goal with |- context [init_dma ?x] => set (h1 := x) end.
  assert (O : hw_only h h1) by (split; [eexists; reflexivity|reflexivity|now split]).
  destruct (init_dma h1) as [ok h2] eqn:E. intros [= _ <-].
  apply (hw_only_trans _ h1); [exact O|]. exact (init_dma_hw _ _ _ (hw_only_wf _ _ O) E).
Qed.

Lemma hw_release_only h : dmac_wf (dma (drv h)) -> hw_only h (i2c_stm32_hw_release h).
Proof. intros Hw. split; [eexists; reflexivity|reflexivity|now split]. Qed.

Abbreviation ctl_of d := (ctl (drv (dhw d))).
Abbreviation dma_of d := (dma (drv (dhw d))).

Lemma release_head r d l : held d = r :: l -> held (release r d) = l.
Proof. intros E. unfold release. cbn [held]. rewrite E. cbn [list_find]. rewrite decide_True by reflexivity. reflexivity. Qed.

Lemma release_second r r' d l : r <> r' -> held d = r' :: r :: l -> held (release r d) = r' :: l.
Proof.
  intros Hne E. unfold release. cbn [held]. rewrite E. cbn [list_find]. rewrite decide_False by exact Hne.
  rewrite decide_True by reflexivity. reflexivity.
Qed.

Lemma put_ch_eq ch d : put_ch ch d = set_dhw d (set_drv (dhw d) (set_dma (drv (dhw d)) (snd (stm32_dma_ch_put ch (dma_of d))))).
Proof. unfold put_ch, on_dma. now destruct (stm32_dma_ch_put ch (dma_of d)). Qed.

(** Nothing is held that was not held before. *)
Definition balanced (d0 d : i2c_dev) : Prop :=
  held d = held d0 /\ mem (dhw d) = mem (dhw d0) /\ same_use (dma_of d0) (dma_of d).

(** The probe between its interrupts and its adapter. *)
Record probing (n map s z : Z) (d0 d : i2c_dev) : Prop := {
  pb_held : held d = [RIrq (n + 1); RIrq n; RMap map; RRegion s z; RMem] ++ held d0;
  pb_irq : irq (ctl_of d) = n;
  pb_regs : regs (ctl_of d) = map;
  pb_region : regs_base (ctl_of d) = s /\ regs_size (ctl_of d) = z;
  pb_data : ddata d = DPriv
}.

Section Probing.

Context (n map s z : Z) (d0 : i2c_dev).

Lemma err_irq2_held d : probing n map s z d0 d -> held (err_irq2 s z d) = held d0.
Proof.
  intros [H <- <- _ _]. unfold err_irq2, err_irq1, err_regs, err_mem_region, err_memory. cbn [held set_ddata].
  apply release_head, release_head, release_head, release_head, release_head. exact H.
Qed.

Lemma probing_hw d h : probing n map s z d0 d -> (exists r, ctl (drv h) = set_hw (ctl_of d) r) -> probing n map s z d0 (set_dhw d h).
Proof. intros [H1 H2 H3 H4 H5] [r Hr]. split; cbn [set_dhw dhw held ddata]; rewrite ?Hr; assumption. Qed.

Lemma err_irq2_ok d :
  probing n map s z d0 d -> mem (dhw d) = mem (dhw d0) -> same_use (dma_of d0) (dma_of d) -> balanced d0 (err_irq2 s z d).
Proof. intros Hp Hm Hu. split; [now apply err_irq2_held|now split]. Qed.

(** With the transmit channel, and with both. *)
Definition one_owned (tx : Z) (d : dmac) : Prop :=
  dmac_wf d /\ 0 <= tx < 16 /\ uses (dma_of d0) tx = false
  /\ forall ch, 0 <= ch < 16 -> uses d ch = (tx =? ch) || uses (dma_of d0) ch.

Definition two_owned (tx rx : Z) (d : dmac) : Prop :=
  dmac_wf d /\ 0 <= tx < 16 /\ 0 <= rx < 16 /\ tx <> rx /\ uses (dma_of d0) tx = false /\ uses (dma_of d0) rx = false
  /\ forall ch, 0 <= ch < 16 -> uses d ch = (rx =? ch) || (tx =? ch) || uses (dma_of d0) ch.

Lemma one_owned_same tx d d' : one_owned tx d -> same_use d d' -> one_owned tx d'.
Proof. intros (_ & H1 & H2 & H) [W U]. split_and!; auto; try lia. intros. now rewrite U, H. Qed.

Lemma two_owned_same tx rx d d' : two_owned tx rx d -> same_use d d' -> two_owned tx rx d'.
Proof. intros (_ & H1 & H2 & H3 & H4 & H5 & H) [W U]. split_and!; auto; try lia. intros. now rewrite U, H. Qed.

Lemma put_one tx d : one_owned tx d -> same_use (dma_of d0) (snd (stm32_dma_ch_put tx d)).
Proof.
  intros (W & Ht & Hf & H). destruct (dma_put_ok tx d W Ht) as [W' U]. split; [exact W'|].
  intros ch Hc. rewrite U, H by exact Hc. destruct (Z.eqb_spec tx ch) as [<-|]; [now rewrite Hf|reflexivity].
Qed.

Lemma put_rx tx rx d : two_owned tx rx d -> one_owned tx (snd (stm32_dma_ch_put rx d)).
Proof.
  intros (W & Ht & Hr & Hne & Ft & Fr & H). destruct (dma_put_ok rx d W Hr) as [W' U]. split_and!; auto; try lia.
  intros ch Hc. rewrite U, H by exact Hc. destruct (Z.eqb_spec rx ch) as [<-|]; [|reflexivity].
  rewrite Fr. destruct (Z.eqb_spec tx rx); [contradiction|reflexivity].
Qed.

Lemma put_tx tx rx d : two_owned tx rx d -> one_owned rx (snd (stm32_dma_ch_put tx d)).
Proof.
  intros (W & Ht & Hr & Hne & Ft & Fr & H). apply (put_rx rx tx). split_and!; auto; try lia.
  intros ch Hc. rewrite H by exact Hc. now rewrite (orb_comm (rx =? ch)).
Qed.

Lemma err_dma_tx_ok d :
  probing n map s z d0 d -> mem (dhw d) = mem (dhw d0) -> one_owned (dma_ch_tx (ctl_of d)) (dma_of d) -> balanced d0 (err_dma_tx s z d).
Proof.
  intros Hp Hm Ho. unfold err_dma_tx. rewrite put_ch_eq. apply err_irq2_ok; [|exact Hm|exact (put_one _ _ Ho)].
  apply probing_hw; [exact Hp|]. exists (hw (ctl_of d)). symmetry. exact (set_hw_id (ctl_of d)).
Qed.

Lemma err_dma_rx_ok d :
  probing n map s z d0 d -> mem (dhw d) = mem (dhw d0) -> two_owned (dma_ch_tx (ctl_of d)) (dma_ch_rx (ctl_of d)) (dma_of d) ->
  balanced d0 (err_dma_rx s z d).
Proof.
  intros Hp Hm Ho. unfold err_dma_rx. rewrite put_ch_eq. apply err_dma_tx_ok; [|exact Hm|exact (put_rx _ _ _ Ho)].
  apply probing_hw; [exact Hp|]. exists (hw (ctl_of d)). symmetry. exact (set_hw_id (ctl_of d)).
Qed.

Lemma err_dmabuf_ok d p :
  probing n map s z d0 d -> dmabuf (ctl_of d) = Some p -> dmamem_free p (mem (dhw d)) = mem (dhw d0) ->
  two_owned (dma_ch_tx (ctl_of d)) (dma_ch_rx (ctl_of d)) (dma_of d) -> balanced d0 (err_dmabuf s z d).
Proof.
  intros Hp Hb Hm Ho. unfold err_dmabuf, free_dmabuf. rewrite Hb. apply err_dma_rx_ok; [|exact Hm|exact Ho].
  apply probing_hw; [exact Hp|]. exists (hw (ctl_of d)). symmetry. exact (set_hw_id (ctl_of d)).
Qed.

(** The device in use. *)
Record attached (d : i2c_dev) (p : Z) : Prop := {
  at_held : held d = RAdapter :: [RIrq (n + 1); RIrq n; RMap map; RRegion s z; RMem] ++ held d0;
  at_irq : irq (ctl_of d) = n;
  at_regs : regs (ctl_of d) = map;
  at_region : regs_base (ctl_of d) = s /\ regs_size (ctl_of d) = z;
  at_data : ddata d = DPriv;
  at_buf : dmabuf (ctl_of d) = Some p;
  at_mem : dmamem_free p (mem (dhw d)) = mem (dhw d0);
  at_use : two_owned (dma_ch_tx (ctl_of d)) (dma_ch_rx (ctl_of d)) (dma_of d)
}.

(** Removing it gives everything back. *)
Lemma remove_ok d p : attached d p -> exists d', i2c_stm32_remove d = Ok (0, d') /\ balanced d0 d'.
Proof.
  intros [H Hi Hr [Hb Hs] Hd Hp Hm Hu]. unfold i2c_stm32_remove. rewrite Hd. unfold free_dmabuf. rewrite Hp.
  eexists. split; [reflexivity|]. rewrite !put_ch_eq. split; [|split].
  - cbn [ctl drv dhw set_dhw set_mem set_drv set_ctl on_ctl i2c_stm32_hw_release set_clocks]. unfold _cr1_clear_bits, set_cr1.
    cbn [irq regs regs_base regs_size set_hw]. rewrite Hi, Hr, Hb, Hs.
    apply release_head, release_head, release_head, release_head, (release_second _ (RIrq (n + 1))); [intros [=]; lia|].
    apply release_head. exact H.
  - exact Hm.
  - exact (put_one _ _ (put_rx _ _ _ Hu)).
Qed.

End Probing.

Lemma alloc_cases kmalloc sz align st p st' :
  dm_inv st -> req_ok st sz align -> dmamem_alloc kmalloc sz align st = Ok (p, st') ->
  match p with Some a => dmamem_free a st' = st | None => st' = st end.
Proof.
  intros Hi Hq E. destruct p as [a|]; [exact (alloc_free_undo _ _ _ _ _ _ Hi Hq E)|].
  destruct (alloc_spec kmalloc sz align st Hi Hq) as [(pre & d & post & _ & _ & _ & _ & [E'|[E' _]])|[_ E']]; congruence.
Qed.

Section Probe.

Context (cr2_read : Z -> Z) (env : i2c_probe_env) (d0 : i2c_dev).
Context (Hwf : dmac_wf (dma_of d0)) (Hmem : dm_inv (mem (dhw d0))) (Hreq : req_ok (mem (dhw d0)) DMABUF_SIZE 0).

Definition no_buffer : Prop := exists m, dmamem_alloc (pv_kmalloc env) DMABUF_SIZE 0 (mem (dhw d0)) = Ok (None, m).

Definition outcome (map s z rv : Z) (d' : i2c_dev) : Prop :=
  balanced d0 d' /\ (rv <> 0 \/ no_buffer) \/ rv = 0 /\ exists p, attached (pv_irq env) map s z d0 d' p.

Lemma probe_buffer_ok map s z d rv d' :
  probing (pv_irq env) map s z d0 d -> mem (dhw d) = mem (dhw d0) -> two_owned d0 (dma_ch_tx (ctl_of d)) (dma_ch_rx (ctl_of d)) (dma_of d) ->
  probe_buffer cr2_read env s z d = Ok (rv, d') -> outcome map s z rv d'.
Proof.
  intros [P1 P2 P3 P4 P5] Hm Ho. unfold probe_buffer. rewrite Hm.
  destruct (dmamem_alloc (pv_kmalloc env) DMABUF_SIZE 0 (mem (dhw d0))) as [[p m]|] eqn:Ea; cbn [rbind]; [|discriminate].
  pose proof (alloc_cases _ _ _ _ _ _ Hmem Hreq Ea) as Hp. set (d1 := set_dhw d (on_ctl (with_buf p) (set_mem (dhw d) m))).
  assert (Hd1 : probing (pv_irq env) map s z d0 d1) by now split.
  destruct p as [p|].
  2: { intros [= <- <-]. left. split; [|right; now exists m]. apply (err_dma_rx_ok (pv_irq env) map); [exact Hd1|exact Hp|exact Ho]. }
  destruct (i2c_stm32_hw_init cr2_read (pv_reads env) (dhw d1)) as [[ret h]|] eqn:Eh; cbn [rbind]; [|discriminate].
  assert (Hw1 : dmac_wf (dma_of d1)) by (destruct Ho as [W _]; exact W).
  destruct (hw_init_only _ _ _ _ _ Hw1 Eh) as [[r Hc] Hmh Hu]. set (d2 := set_dhw d1 h).
  assert (Hd2 : probing (pv_irq env) map s z d0 d2) by (apply probing_hw; [exact Hd1|now exists r]).
  assert (Ho2 : two_owned d0 (dma_ch_tx (ctl_of d2)) (dma_ch_rx (ctl_of d2)) (dma_of d2))
    by (cbn [d2 set_dhw dhw]; rewrite Hc; exact (two_owned_same _ _ _ _ _ Ho Hu)).
  assert (Hb2 : dmabuf (ctl_of d2) = Some p) by (cbn [d2 set_dhw dhw]; now rewrite Hc).
  assert (Hm2 : dmamem_free p (mem (dhw d2)) = mem (dhw d0)) by (cbn [d2 set_dhw dhw]; now rewrite Hmh).
  destruct (Z.eqb_spec ret 0) as [->|Hne]; cbn [negb].
  2: { intros [= <- <-]. left. split; [|now left]. exact (err_dmabuf_ok _ _ _ _ _ _ p Hd2 Hb2 Hm2 Ho2). }
  destruct (Z.eqb_spec (pv_add_adapter env) 0) as [_|_]; cbn [negb]; intros [= <- <-].
  - right. split; [reflexivity|]. exists p. destruct Hd2 as [Q1 Q2 Q3 Q4 Q5]. split; try assumption. cbn [acquire held]. now rewrite Q1.
  - left. split; [|left; discriminate]. unfold err_hw. 
    assert (Hw2 : dmac_wf (dma_of d2)) by (destruct Ho2 as [W _]; exact W).
    destruct (hw_release_only (dhw d2) Hw2) as [[r' Hc'] Hm' Hu'].
    apply (err_dmabuf_ok (pv_irq env) map s z d0 _ p); [apply probing_hw; [exact Hd2|now exists r']|exact Hb2|exact Hm2|exact Ho2].
Qed.

Lemma probe_dma_ok map s z d rv d' :
  probing (pv_irq env) map s z d0 d -> mem (dhw d) = mem (dhw d0) -> dma_of d = dma_of d0 ->
  probe_dma cr2_read env s z d = Ok (rv, d') -> outcome map s z rv d'.
Proof.
  intros Hp Hm Hd. unfold probe_dma. assert (Hself : same_use (dma_of d0) (dma_of d)) by (rewrite Hd; now split).
  destruct (pv_tx env) as [tx|]; [|intros [= <- <-]; left; split; [now apply (err_irq2_ok (pv_irq env) map)|left; discriminate]].
  unfold on_dma at 1. cbn [on_ctl drv set_drv set_ctl dma ctl]. rewrite Hd. destruct (stm32_dma_ch_get tx (dma_of d0)) as [r1 x1] eqn:E1.
  destruct (dma_get_ok _ _ _ _ Hwf E1) as [G1 G2]. match goal with |- context [set_dhw d ?h] => set (d1 := set_dhw d h) end.
  assert (Hp1 : probing (pv_irq env) map s z d0 d1) by (destruct Hp; now split).
  destruct (Z.eqb_spec r1 0) as [->|Hne]; cbn [negb].
  2: { intros [= <- <-]. left. split; [|left; discriminate]. apply (err_irq2_ok (pv_irq env) map); [exact Hp1|exact Hm|exact (G1 Hne)]. }
  destruct (G2 eq_refl) as (Ht & Hf & Hw1 & Hu1).
  assert (O1 : one_owned d0 tx x1) by now split_and!.
  destruct (pv_rx env) as [rx|]; [|intros [= <- <-]; left; split; [now apply (err_dma_tx_ok (pv_irq env) map)|left; discriminate]].
  unfold on_dma. cbn [on_ctl drv set_drv set_ctl dma ctl d1 dhw set_dhw set_dma]. destruct (stm32_dma_ch_get rx x1) as [r2 x2] eqn:E2.
  destruct (dma_get_ok _ _ _ _ Hw1 E2) as [K1 K2]. match goal with |- context [err_dma_tx s z ?h] => set (d2 := h) end.
  assert (Hp2 : probing (pv_irq env) map s z d0 d2) by (destruct Hp1; now split).
  destruct (Z.eqb_spec r2 0) as [->|Hne]; cbn [negb].
  2: { intros [= <- <-]. left. split; [|left; discriminate]. apply (err_dma_tx_ok (pv_irq env) map); [exact Hp2|exact Hm|].
       exact (one_owned_same _ _ _ _ O1 (K1 Hne)). }
  destruct (K2 eq_refl) as (Hr & Hfr & Hw2 & Hu2). apply probe_buffer_ok; [exact Hp2|exact Hm|].
  change (two_owned d0 tx rx x2).
  rewrite Hu1 in Hfr by exact Hr. apply orb_false_iff in Hfr as [Hne Hfr]. apply Z.eqb_neq in Hne.
  split_and!; try assumption; try lia. intros ch Hc. rewrite Hu2, Hu1 by exact Hc. apply orb_assoc.
Qed.

Lemma probe_irqs_ok map s z d rv d' :
  held d = [RMap map; RRegion s z; RMem] ++ held d0 -> irq (ctl_of d) = pv_irq env -> regs (ctl_of d) = map ->
  regs_base (ctl_of d) = s -> regs_size (ctl_of d) = z -> mem (dhw d) = mem (dhw d0) -> dma_of d = dma_of d0 ->
  probe_irqs cr2_read env s z d = Ok (rv, d') -> outcome map s z rv d'.
Proof.
  intros Hh Hi Hr Hb Hz Hm Hd. unfold probe_irqs. assert (Hself : same_use (dma_of d0) (dma_of d)) by (rewrite Hd; now split).
  destruct (Z.eqb_spec (pv_request_irq env (pv_irq env)) 0) as [_|Hne]; cbn [negb].
  2: { intros [= <- <-]. left. split; [|now left]. split; [|now split]. unfold err_regs, err_mem_region, err_memory. cbn [held set_ddata].
       rewrite Hr. apply release_head, release_head, release_head. exact Hh. }
  destruct (Z.eqb_spec (pv_request_irq env (pv_irq env + 1)) 0) as [_|Hne]; cbn [negb].
  2: { intros [= <- <-]. left. split; [|now left]. split; [|now split].
       set (d1 := acquire (RIrq (pv_irq env)) d). unfold err_irq1, err_regs, err_mem_region, err_memory. cbn [held set_ddata].
       change (irq (ctl_of d1)) with (irq (ctl_of d)). change (regs (ctl_of (release _ d1))) with (regs (ctl_of d)).
       rewrite Hi, Hr. apply release_head, release_head, release_head, release_head. cbn [d1 held acquire]. now rewrite Hh. }
  cbn [ddata acquire]. destruct (ddata d) as [|rc ic|]; [discriminate| |discriminate].
  apply probe_dma_ok; [|exact Hm|exact Hd].
  split; cbn [held acquire set_ddata set_dhw]; [now rewrite Hh|exact Hi|exact Hr|now split|reflexivity].
Qed.

(** C27: What the probe leaves: after a failure nothing is held, the allocator and the owners of the DMA channels are as before;
    after a success the adapter is registered and removing the device gives everything back.  An error code is
    returned for every failure but one: without a DMA buffer the call returns 0. *)
Theorem i2c_probe_balanced rv d' :
  i2c_stm32_probe cr2_read env d0 = Ok (rv, d') ->
  balanced d0 d' /\ (rv <> 0 \/ no_buffer)
  \/ rv = 0 /\ RAdapter ∈ held d' /\ ddata d' = DPriv
     /\ exists d'', i2c_stm32_remove d' = Ok (0, d'') /\ balanced d0 d''.
Proof.
  assert (Hself : balanced d0 d0) by (split; [reflexivity|split; [reflexivity|now split]]).
  unfold i2c_stm32_probe. destruct (_ && _); cbn [negb]; [|intros [= <- <-]; left; split; [exact Hself|left; discriminate]].
  destruct (Z.ltb_spec (pv_irq env) 0); [intros [= <- <-]; left; split; [exact Hself|left; lia]|].
  destruct (pv_regs env) as [[s z]|]; [|intros [= <- <-]; left; split; [exact Hself|left; discriminate]].
  destruct (pv_kzalloc env); cbn [negb]; [|intros [= <- <-]; left; split; [exact Hself|left; discriminate]].
  destruct (pv_region env); cbn [negb].
  2: { intros [= <- <-]. left. split; [|left; discriminate]. split; [|apply Hself]. now apply release_head. }
  destruct (pv_ioremap env) as [map|].
  2: { intros [= <- <-]. left. split; [|left; discriminate]. split; [|apply Hself]. now apply release_head, release_head. }
  intros E. assert (K : outcome map s z rv d') by (revert E; now apply probe_irqs_ok).
  destruct K as [K|(-> & p & A)]; [now left|]. right. split; [reflexivity|].
  split; [rewrite (at_held _ _ _ _ _ _ _ A); apply elem_of_cons; now left|]. split; [apply A|]. exact (remove_ok _ _ _ _ _ _ _ A).
Qed.

End Probe.

(** ** Witnesses *)

(** I2C1 of the board: channels 6 and 0, a buffer in the memory of the allocator. *)
Definition regs_reset : i2c_stm32f7_regs := {| i2c_cr1 := 1; i2c_cr2 := 0; timingr := 0x10806190; icr := 0 |}.
Definition ctl_i2c1 : i2c_stm32f7 :=
  {| bus := 0; regs_base := 0x40005400; regs_size := 0x400; regs := 0x40005400; irq := 31; ref_clk := 50000000; i2c_clk := 100000;
     msg_status := 0; nbytes := 0; dmabuf := Some 0xC0700000; dma_ch_tx := 6; dma_ch_rx := 0; hw := regs_reset |}.
Definition dmac_i2c : dmac := (stm32_dma_ch_get 0 (stm32_dma_ch_get 6 dmac_boot).2).2.
Definition i2c_ready : i2c_state := {| ctl := ctl_i2c1; dma := dmac_i2c; buf := repeat 0 4 |}.

Lemma i2c_ready_idle : idle 0xC0700000 i2c_ready.
Proof.
  assert (W : dmac_wf dmac_i2c).
  { apply (wf_set_priv (stm32_dma_ch_get 6 dmac_boot).2); [|lia|intros _; reflexivity].
    apply (wf_set_priv dmac_boot dmac_boot_wf 6); [lia|]. intros _. reflexivity. }
  split; [reflexivity|exact W|split; [cbn; lia|split; reflexivity]..|].
  split; vm_compute; split; (discriminate || reflexivity).
Qed.

(** 300 bytes for the device 0x50. *)
Definition long_msg : i2c_msg := {| m_addr := 0x50; m_flags := 0; m_len := 300; m_buf := repeat 7 300 |}.

Lemma i2c_message_requested_witness :
  exists st' c', msg_start cr2_read_hw w1c_hw long_msg 0xC0700000 i2c_ready = inr st'
  /\ requested cr2_read_hw _ISR_TCR 4 (ctl st') = (510, c').
Proof.
  destruct (i2c_message_requested cr2_read_hw w1c_hw long_msg 0xC0700000 i2c_ready _ISR_TCR i2c_ready_idle) as (st' & E & _ & _ & _ & c' & _ & R).
  - split; [vm_compute; split; discriminate|vm_compute; reflexivity].
  - vm_compute. reflexivity.
  - vm_compute. reflexivity.
  - exists st', c'. split; [exact E|exact R].
Defined.

(** A register number is written to a touch controller and two bytes are read. *)
Definition touch_write : i2c_msg := {| m_addr := 0x38; m_flags := 0; m_len := 1; m_buf := [0x10] |}.
Definition touch_read : i2c_msg := {| m_addr := 0x38; m_flags := I2C_M_RD; m_len := 2; m_buf := [0; 0] |}.
Definition touch_runs : list (msg_env * list Z) :=
  [({| me_poll := [PRead 0 0; PRead _ISR_TXIS 0]; me_wait := [WIrq _ISR_STOPF] |}, []);
   ({| me_poll := [PRead 0 1; PRead _ISR_RXNE 2]; me_wait := [WData [0xAB]; WData [0xAB; 0xCD]; WIrq _ISR_STOPF] |}, [0xAB; 0xCD])].

Lemma touch_runs_good : Forall2 (fun m r => good_run m r.1 r.2) [touch_write; touch_read] touch_runs.
Proof.
  constructor; [|constructor; [|constructor]]; split.
  - intros _. exists [(0, 0)], _ISR_TXIS, 0, []. split; [reflexivity|]. split; [|reflexivity]. repeat constructor; reflexivity || (cbn; lia).
  - exists [], _ISR_STOPF, []. now split_and!.
  - discriminate.
  - intros _. exists [(0, 1)], _ISR_RXNE, 2, []. split; [reflexivity|]. split; [|reflexivity]. repeat constructor; reflexivity || (cbn; lia).
  - exists [WData [0xAB]; WData [0xAB; 0xCD]], _ISR_STOPF, []. split_and!; try reflexivity. repeat constructor.
  - reflexivity.
Qed.

Lemma i2c_transfer_completes_witness :
  exists st', i2c_stm32_transfer cr2_read_hw w1c_hw [touch_write; touch_read] (map fst touch_runs) i2c_ready = Ok (2, [[0x10]; [0xAB; 0xCD]], st').
Proof.
  destruct (i2c_transfer_completes cr2_read_hw w1c_hw [touch_write; touch_read] touch_runs 0xC0700000 i2c_ready i2c_ready_idle) as (st' & E & _ & _).
  - repeat constructor; (discriminate || reflexivity).
  - exact touch_runs_good.
  - exists st'. exact E.
Defined.

(** A device that does not acknowledge its address: the polling ends after 25 ms with a timeout although the handler
    has set [- ENODEV]. *)
Example i2c_nack_times_out :
  exists st', i2c_stm32_transfer cr2_read_hw w1c_hw [touch_write]
    [{| me_poll := [PIrq (_ISR_STOPF .| _ISR_NACKF); PRead 0 1; PRead 0 3]; me_wait := [] |}] i2c_ready = Ok (- ETIMEDOUT, [[0x10]], st')
  /\ msg_status (ctl st') = - ENODEV.
Proof. eexists. split; vm_compute; reflexivity. Qed.

(** The device of the board before the probe; [pv_disco a]: the allocator of descriptors answers [a]. *)
Definition i2c1_dev : i2c_dev :=
  {| dhw := {| drv := {| ctl := new_ctl 0 0 0 0 0 regs_reset; dma := dmac_boot; buf := [] |}; clocks := {| apb1rstr := 0; apb1enr := 0 |};
               mem := dm_booted tag_disco |}; held := []; ddata := DPlat 50000000 100000 |}.
Definition pv_disco (a : bool) : i2c_probe_env :=
  {| pv_id := 0; pv_irq := 31; pv_regs := Some (0x40005400, 0x400); pv_kzalloc := true; pv_region := true; pv_ioremap := Some 0x40005400;
     pv_request_irq := fun _ => 0; pv_tx := Some 6; pv_rx := Some 0; pv_kmalloc := fun _ => a; pv_reads := [1; 0]; pv_add_adapter := 0 |}.

Lemma req_i2c : req_ok (dm_booted tag_disco) DMABUF_SIZE 0.
Proof. vm_compute. split_and!; (discriminate || reflexivity). Qed.

Lemma i2c_probe_balanced_witness :
  exists d' d'', i2c_stm32_probe cr2_read_hw (pv_disco true) i2c1_dev = Ok (0, d')
  /\ i2c_stm32_remove d' = Ok (0, d'') /\ held d'' = [] /\ mem (dhw d'') = dm_booted tag_disco.
Proof.
  destruct (i2c_stm32_probe cr2_read_hw (pv_disco true) i2c1_dev) as [[rv d']|f] eqn:E; [|vm_compute in E; discriminate E].
  pose proof (i2c_probe_balanced cr2_read_hw (pv_disco true) i2c1_dev dmac_boot_wf dm_disco_inv req_i2c rv d' E) as K.
  assert (rv = 0) as -> by (vm_compute in E; now injection E as <- _).
  destruct K as [[_ [K|[m K]]]|(_ & _ & _ & d'' & R & H & M & _)].
  - now destruct K.
  - vm_compute in K. discriminate K.
  - exists d', d''. exact (conj eq_refl (conj R (conj H M))).
Defined.

(** Without memory for a descriptor the probe gives everything back and returns 0. *)
Example i2c_probe_without_buffer :
  exists d', i2c_stm32_probe cr2_read_hw (pv_disco false) i2c1_dev = Ok (0, d') /\ held d' = [] /\ ddata d' = DNull.
Proof. eexists. split; [vm_compute; reflexivity|split; reflexivity]. Qed.

(** The fourth controller, which the platform code registers, is used without its clock. *)
Example i2c4_no_clock r : clock_on 3 r = r.
Proof. reflexivity. Qed.
