(* ===== verification/Spi.v ===== *)
(** * SPI controller driver ([drivers/spi/spi_stm32.c])

    Messages are queued and served by a work queue, one at a time; a message is a list of transfers whose frames the
    interrupt handler exchanges, one for each frame received.  The interrupt-driven build for STM32F7 is modelled.
    What the status and data registers are read as and the interrupts that come are arguments; the memory of the buffers
    is a function from addresses to bytes, so that buffers may overlap. *)

From S2P Require Import Prelude.

(** ** Constants *)

Definition EIO : Z := 5.
Definition ENXIO : Z := 6.
Definition ESHUTDOWN : Z := 108.
Definition ETIMEDOUT : Z := 110.

Definition SPI_CPHA : Z := 0x01.
Definition SPI_CPOL : Z := 0x02.

Definition RCC_APB1RSTR_SPI2 : Z := 1 .<< 14.
Definition RCC_APB1RSTR_SPI3 : Z := 1 .<< 15.
Definition RCC_APB1ENR_SPI2 : Z := 1 .<< 14.
Definition RCC_APB1ENR_SPI3 : Z := 1 .<< 15.
Definition RCC_APB2RSTR_SPI1 : Z := 1 .<< 12.
Definition RCC_APB2RSTR_SPI4 : Z := 1 .<< 13.
Definition RCC_APB2RSTR_SPI5 : Z := 1 .<< 20.
Definition RCC_APB2RSTR_SPI6 : Z := 1 .<< 21.
Definition RCC_APB2ENR_SPI1 : Z := 1 .<< 12.
Definition RCC_APB2ENR_SPI4 : Z := 1 .<< 13.
Definition RCC_APB2ENR_SPI5 : Z := 1 .<< 20.
Definition RCC_APB2ENR_SPI6 : Z := 1 .<< 21.
Definition SPI_CR1_SSM : Z := 1 .<< 9.
Definition SPI_CR1_SSI : Z := 1 .<< 8.
Definition SPI_CR1_SPE : Z := 1 .<< 6.
Definition SPI_CR1_BR (x : Z) : Z := x .<< 3.
Definition SPI_CR1_MSTR : Z := 1 .<< 2.
Definition SPI_CR1_CPOL : Z := 1 .<< 1.
Definition SPI_CR1_CPHA : Z := 1 .<< 0.
Definition SPI_CR2_FRXTH : Z := 1 .<< 12.
Definition SPI_CR2_DS (x : Z) : Z := x .<< 8.
Definition SPI_CR2_RXNEIE : Z := 1 .<< 6.
Definition SPI_CR2_ERRIE : Z := 1 .<< 5.
Definition SPI_SR_TXE : Z := 1 .<< 1.
Definition SPI_SR_RXNE : Z := 1 .<< 0.

(** ** Data *)

(** A buffer is its address, [None] for NULL. *)
Record spi_transfer := { tx_buf : option Z; rx_buf : option Z; t_len : Z }.

(** The slave device, [sd_id] its identity, with the data of the platform ([struct spi_stm32_slv]). *)
Record spi_device := { sd_id : Z; max_speed_hz : Z; sd_mode : Z; bits_per_word : Z; cs_gpio : Z; timeout : Z }.

Record spi_message := { m_id : Z; m_spi : spi_device; transfers : list spi_transfer }.

(** One of the two positions in a message: the transfer ([tx_t]), its frames ([tx_l]), the frame in it ([tx_i]) and the
    count in the message ([ti]); and the same for receiving. *)
Record cursor := { cu_t : nat; cu_l : Z; cu_i : Z; cu_n : Z }.

(** The fields of [struct spi_stm32] about the transfer in progress, with the message as its transfers. *)
Record spi_xfer := { msg : list spi_transfer; xfer_status : Z; len : Z; wb : Z; tx : cursor; rx : cursor }.

Record spi_regs := { cr1 : Z; cr2 : Z }.

(** The others. *)
Record spi_stm32 := { bus : Z; speed_hz : Z; stopping : bool; queue : list spi_message; slave : option Z }.

(** What an interrupt sees: the transfer, the memory and the frames written to the data register. *)
Record wire := { xf : spi_xfer; mem : Z -> Z; sent : list Z }.

Definition set_status (x : spi_xfer) (v : Z) : spi_xfer := {| msg := msg x; xfer_status := v; len := len x; wb := wb x; tx := tx x; rx := rx x |}.
Definition set_tx (x : spi_xfer) (cu : cursor) : spi_xfer := {| msg := msg x; xfer_status := xfer_status x; len := len x; wb := wb x; tx := cu; rx := rx x |}.
Definition set_rx (x : spi_xfer) (cu : cursor) : spi_xfer := {| msg := msg x; xfer_status := xfer_status x; len := len x; wb := wb x; tx := tx x; rx := cu |}.
Definition set_xf (w : wire) (x : spi_xfer) : wire := {| xf := x; mem := mem w; sent := sent w |}.
Definition set_cr1 (r : spi_regs) (v : Z) : spi_regs := {| cr1 := v; cr2 := cr2 r |}.
Definition set_cr2 (r : spi_regs) (v : Z) : spi_regs := {| cr1 := cr1 r; cr2 := v |}.
Definition set_queue (c : spi_stm32) (q : list spi_message) : spi_stm32 := {| bus := bus c; speed_hz := speed_hz c; stopping := stopping c; queue := q; slave := slave c |}.
Definition set_slave (c : spi_stm32) (s : option Z) : spi_stm32 := {| bus := bus c; speed_hz := speed_hz c; stopping := stopping c; queue := queue c; slave := s |}.
Definition set_stopping (c : spi_stm32) (b : bool) : spi_stm32 := {| bus := bus c; speed_hz := speed_hz c; stopping := b; queue := queue c; slave := slave c |}.

(** ** The hardware *)

Record rcc := { apb1rstr : Z; apb1enr : Z; apb2rstr : Z; apb2enr : Z }.

(** The bus of a controller and its bits there; [true] for APB2. *)
Definition rcc_bits (b : Z) : option (bool * Z * Z) :=
  if b =? 0 then Some (true, RCC_APB2RSTR_SPI1, RCC_APB2ENR_SPI1)
  else if b =? 1 then Some (false, RCC_APB1RSTR_SPI2, RCC_APB1ENR_SPI2)
  else if b =? 2 then Some (false, RCC_APB1RSTR_SPI3, RCC_APB1ENR_SPI3)
  else if b =? 3 then Some (true, RCC_APB2RSTR_SPI4, RCC_APB2ENR_SPI4)
  else if b =? 4 then Some (true, RCC_APB2RSTR_SPI5, RCC_APB2ENR_SPI5)
  else if b =? 5 then Some (true, RCC_APB2RSTR_SPI6, RCC_APB2ENR_SPI6)
  else None.

(** The reset bit is written to 1 and, with the value read before, to 0. *)
Definition clock_on (b : Z) (r : rcc) : rcc :=
  match rcc_bits b with
  | Some (true, rst, en) => {| apb1rstr := apb1rstr r; apb1enr := apb1enr r; apb2rstr := apb2rstr r .& .~ rst; apb2enr := apb2enr r .| en |}
  | Some (false, rst, en) => {| apb1rstr := apb1rstr r .& .~ rst; apb1enr := apb1enr r .| en; apb2rstr := apb2rstr r; apb2enr := apb2enr r |}
  | None => r
  end.

Definition clock_off (b : Z) (r : rcc) : rcc :=
  match rcc_bits b with
  | Some (true, rst, en) => {| apb1rstr := apb1rstr r; apb1enr := apb1enr r; apb2rstr := apb2rstr r .| rst; apb2enr := apb2enr r .& .~ en |}
  | Some (false, rst, en) => {| apb1rstr := apb1rstr r .| rst; apb1enr := apb1enr r .& .~ en; apb2rstr := apb2rstr r; apb2enr := apb2enr r |}
  | None => r
  end.

Definition spi_stm32_hw_init (b : Z) (k : rcc) (r : spi_regs) : rcc * spi_regs :=
  let k := clock_on b k in
  let r := set_cr1 r SPI_CR1_MSTR in
  let r := set_cr1 r (SPI_CR1_SSM .| SPI_CR1_SSI .| cr1 r) in
  let r := set_cr2 r (SPI_CR2_RXNEIE .| SPI_CR2_ERRIE .| cr2 r) in
  (k, set_cr1 r (SPI_CR1_SPE .| cr1 r)).

Definition spi_stm32_hw_release (b : Z) (k : rcc) (r : spi_regs) : rcc * spi_regs :=
  (clock_off b k, set_cr1 r (.~ SPI_CR1_SPE .& cr1 r)).

(** The loop of [spi_stm32_hw_clk_set]: the first of the remaining [n] shifts that is slow enough. *)
Fixpoint clk_shift (h spd i : Z) (n : nat) : option Z :=
  match n with
  | O => None
  | S n => if h / (1 .<< i) <=? spd then Some i else clk_shift h spd (i + 1) n
  end.

Definition spi_stm32_hw_clk_set (h spd : Z) (r : spi_regs) : Z * spi_regs :=
  match clk_shift h spd 1 8 with
  | None => (- EIO, r)
  | Some i => (0, set_cr1 r (SPI_CR1_BR (i - 1) .| cr1 r))
  end.

Definition spi_stm32_hw_bt_check (bt : Z) : Z := if (8 =? bt) || (bt =? 16) then 0 else 1.

Definition spi_stm32_hw_bt_set (bt : Z) (r : spi_regs) : Z * spi_regs :=
  let v := cr2 r .& .~ SPI_CR2_DS 0xF in
  (0, set_cr2 r (v .| (SPI_CR2_DS (bt - 1) .| (if bt =? 8 then SPI_CR2_FRXTH else 0)))).

Definition spi_stm32_hw_mode_set (mode : Z) (r : spi_regs) : Z * spi_regs :=
  let r := set_cr1 r (.~ SPI_CR1_SPE .& cr1 r) in
  let r := set_cr1 r (if has mode SPI_CPHA then SPI_CR1_CPHA .| cr1 r else .~ SPI_CR1_CPHA .& cr1 r) in
  let r := set_cr1 r (if has mode SPI_CPOL then SPI_CR1_CPOL .| cr1 r else .~ SPI_CR1_CPOL .& cr1 r) in
  (0, set_cr1 r (SPI_CR1_SPE .| cr1 r)).

Definition spi_stm32_prepare_for_slave (h : Z) (s : spi_device) (r : spi_regs) : Z * spi_regs :=
  let (ret, r) := spi_stm32_hw_bt_set (bits_per_word s) r in
  if negb (ret =? 0) then (- EINVAL, r)
  else
    let (ret, r) := spi_stm32_hw_clk_set h (Z.min (max_speed_hz s) h) r in
    if negb (ret =? 0) then (- EINVAL, r)
    else
      let (ret, r) := spi_stm32_hw_mode_set (sd_mode s) r in
      if negb (ret =? 0) then (- EINVAL, r) else (0, r).

(** ** Frames *)

Definition upd (m : Z -> Z) (a v : Z) : Z -> Z := fun x => if x =? a then v else m x.

(** The frame of [n] bytes at [a], from the first byte. *)
Fixpoint frame_at (m : Z -> Z) (a : Z) (n : nat) (d : Z) : Z :=
  match n with
  | O => d
  | S n => frame_at m (a + 1) n ((d .<< 8) .| m a)
  end.

(** The frame stored, from the last byte. *)
Fixpoint store_frame (m : Z -> Z) (a : Z) (n : nat) (d : Z) : Z -> Z :=
  match n with
  | O => m
  | S n => store_frame (upd m (a + Z.of_nat n) (d .& 0xFF)) a n (d .>> 8)
  end.

Definition frames (t : spi_transfer) (w : Z) : Z := s32 (t_len t / w).

Definition cursor_at (l : list spi_transfer) (t : nat) (w n : Z) : result cursor :=
  match l !! t with
  | None => Fault BadIndex
  | Some x => Ok {| cu_t := t; cu_l := frames x w; cu_i := 0; cu_n := n |}
  end.

(** The loop that goes to the next transfer; behind the last one the list head is taken for a transfer. *)
Fixpoint advance (fuel : nat) (l : list spi_transfer) (w : Z) (cu : cursor) : result cursor :=
  if cu_i cu =? cu_l cu then
    match fuel with
    | O => Fault Stuck
    | S fuel => let* cu := cursor_at l (S (cu_t cu)) w (cu_n cu) in advance fuel l w cu
    end
  else Ok cu.

Definition step_cursor (cu : cursor) : cursor := {| cu_t := cu_t cu; cu_l := cu_l cu; cu_i := cu_i cu + 1; cu_n := cu_n cu + 1 |}.

Definition spi_stm32_hw_txfifo_put (w : Z) (b : option Z) (i : Z) (m : Z -> Z) : Z :=
  match b with Some p => frame_at m (p + i * w) (Z.to_nat w) 0 | None => 0 end.

Definition spi_stm32_hw_rxfifo_get (w : Z) (b : option Z) (i d : Z) (m : Z -> Z) : Z -> Z :=
  match b with Some p => store_frame m (p + i * w) (Z.to_nat w) d | None => m end.

Definition spi_stm32_xfer_tx_next (x : wire) : result wire :=
  let c := xf x in
  let* cu := advance (length (msg c)) (msg c) (wb c) (tx c) in
  match msg c !! cu_t cu with
  | None => Fault BadIndex
  | Some t => Ok {| xf := set_tx c (step_cursor cu); mem := mem x; sent := sent x ++ [spi_stm32_hw_txfifo_put (wb c) (tx_buf t) (cu_i cu) (mem x)] |}
  end.

(** With the value read from the data register. *)
Definition spi_stm32_xfer_rx_next (d : Z) (x : wire) : result wire :=
  let c := xf x in
  let* cu := advance (length (msg c)) (msg c) (wb c) (rx c) in
  match msg c !! cu_t cu with
  | None => Fault BadIndex
  | Some t => Ok {| xf := set_rx c (step_cursor cu); mem := spi_stm32_hw_rxfifo_get (wb c) (rx_buf t) (cu_i cu) d (mem x); sent := sent x |}
  end.

(** The total in bytes. *)
Fixpoint total (l : list spi_transfer) (n : Z) : Z :=
  match l with [] => n | t :: l => total l (s32 (n + t_len t)) end.

Definition spi_stm32_xfer_init (bits : Z) (c : spi_xfer) : result spi_xfer :=
  let w := (bits + 7) / 8 in
  if w =? 0 then Fault DivByZero
  else
    let* cu := cursor_at (msg c) 0 w 0 in
    Ok {| msg := msg c; xfer_status := xfer_status c; len := Z.quot (total (msg c) 0) w; wb := w; tx := cu; rx := cu |}.

(** ** The interrupt handler *)

(** What the registers are read as: SR and the data for receiving, SR while the transmit FIFO is full, SR while purging. *)
Record spi_irq := { e_sr : Z; e_dr : Z; e_full : list Z; e_purge : list Z }.

(** The wait for room in the transmit FIFO. *)
Fixpoint wait_room (reads : list Z) : result unit :=
  match reads with
  | [] => Fault Stuck
  | sr :: reads => if has sr SPI_SR_TXE then Ok tt else wait_room reads
  end.

Fixpoint spi_stm32_hw_rxfifo_purge (reads : list Z) : result unit :=
  match reads with
  | [] => Fault Stuck
  | sr :: reads => if has sr SPI_SR_RXNE then spi_stm32_hw_rxfifo_purge reads else Ok tt
  end.

(** The flag says that the waiting task is woken. *)
Definition spi_stm32_irq (e : spi_irq) (x : wire) : result (wire * bool) :=
  let* (x, woken) :=
    if has (e_sr e) SPI_SR_RXNE then
      let* x := spi_stm32_xfer_rx_next (e_dr e) x in
      if cu_n (rx (xf x)) =? len (xf x) then
        let* _ := spi_stm32_hw_rxfifo_purge (e_purge e) in
        Ok (set_xf x (set_status (xf x) 0), true)
      else Ok (x, false)
    else Ok (x, false) in
  if cu_n (tx (xf x)) <? len (xf x) then
    let* _ := wait_room (e_full e) in
    let* x := spi_stm32_xfer_tx_next x in
    Ok (x, woken)
  else Ok (x, woken).

(** ** Transfers *)

(** While the task waits: an interrupt, the end of the time-out, or a signal. *)
Inductive spi_event := SIrq (e : spi_irq) | SExpire | SSignal.

(** [wait_event_interruptible_timeout]; [false]: timed out. *)
Fixpoint wait_xfer (events : list spi_event) (x : wire) : result (bool * wire) :=
  match events with
  | [] => Fault Stuck
  | SIrq e :: events =>
      let* (x, woken) := spi_stm32_irq e x in
      if woken && negb (xfer_status (xf x) =? - EBUSY) then Ok (true, x) else wait_xfer events x
  | SExpire :: _ => Ok (false, x)
  | SSignal :: _ => Ok (true, x)
  end.

(** The return value, the length transferred and the new state. *)
Definition spi_stm32_pio_interrupted (bits : Z) (events : list spi_event) (x : wire) : result (Z * Z * wire) :=
  let* c := spi_stm32_xfer_init bits (xf x) in
  let* x := spi_stm32_xfer_tx_next (set_xf x (set_status c (- EBUSY))) in
  let* (done, x) := wait_xfer events x in
  let ret := if done then xfer_status (xf x) else - ETIMEDOUT in
  let rlen := if ret =? 0 then cu_n (rx (xf x)) else 0 in
  Ok (ret, rlen, set_xf x (set_status (xf x) 0)).

(** The controller with the registers, the transfer, the values driven on chip-select pins, the completed messages
    (identity, status, length), and the state of the work queue. *)
Record spi_state := { ctl : spi_stm32; hw : spi_regs; wr : wire; cs : list (Z * bool); completed : list (Z * Z * Z); pending : bool }.

Definition set_ctl (st : spi_state) (c : spi_stm32) : spi_state := {| ctl := c; hw := hw st; wr := wr st; cs := cs st; completed := completed st; pending := pending st |}.
Definition set_hw (st : spi_state) (r : spi_regs) : spi_state := {| ctl := ctl st; hw := r; wr := wr st; cs := cs st; completed := completed st; pending := pending st |}.
Definition set_wr (st : spi_state) (x : wire) : spi_state := {| ctl := ctl st; hw := hw st; wr := x; cs := cs st; completed := completed st; pending := pending st |}.
Definition set_pending (st : spi_state) (b : bool) : spi_state := {| ctl := ctl st; hw := hw st; wr := wr st; cs := cs st; completed := completed st; pending := b |}.
Definition complete (st : spi_state) (m ret rlen : Z) : spi_state :=
  {| ctl := ctl st; hw := hw st; wr := wr st; cs := cs st; completed := completed st ++ [(m, ret, rlen)]; pending := pending st |}.

(** The pin is driven low to activate the slave. *)
Definition spi_stm32_hw_cs_set (n : Z) (activate : bool) (st : spi_state) : spi_state :=
  {| ctl := ctl st; hw := hw st; wr := wr st; cs := cs st ++ [(n, negb activate)]; completed := completed st; pending := pending st |}.
Definition spi_stm32_capture_slave (s : spi_device) (st : spi_state) : spi_state := spi_stm32_hw_cs_set (cs_gpio s) true st.
Definition spi_stm32_release_slave (s : spi_device) (st : spi_state) : spi_state := spi_stm32_hw_cs_set (cs_gpio s) false st.

(** The part before the chip select. *)
Definition take_slave (s : spi_device) (st : spi_state) : Z * spi_state :=
  if bool_decide (slave (ctl st) = Some (sd_id s)) then (0, st)
  else
    let (ret, r) := spi_stm32_prepare_for_slave (speed_hz (ctl st)) s (hw st) in
    (ret, set_hw (set_ctl st (set_slave (ctl st) (if ret =? 0 then Some (sd_id s) else None))) r).

(** The status and the length transferred (0 when it is not set). *)
Definition spi_stm32_handle_message (m : spi_message) (events : list spi_event) (st : spi_state) : result (Z * Z * spi_state) :=
  let s := m_spi m in
  let (ret, st) := take_slave s st in
  if negb (ret =? 0) then Ok (ret, 0, spi_stm32_release_slave s st)
  else
    let st := spi_stm32_capture_slave s st in
    let c := xf (wr st) in
    let x := set_xf (wr st) {| msg := transfers m; xfer_status := xfer_status c; len := len c; wb := wb c; tx := tx c; rx := rx c |} in
    let* (r, x) := spi_stm32_pio_interrupted (bits_per_word s) events x in
    let (ret, rlen) := (r : Z * Z) in
    Ok (ret, if ret =? 0 then rlen else 0, spi_stm32_release_slave s (set_wr st x)).

Definition spi_stm32_setup (s : spi_device) (st : spi_state) : Z * spi_state :=
  if stopping (ctl st) then (- ESHUTDOWN, st)
  else if negb (spi_stm32_hw_bt_check (bits_per_word s) =? 0) then (- EINVAL, st)
  else (0, spi_stm32_release_slave s st).

Definition spi_stm32_transfer (m : spi_message) (st : spi_state) : Z * spi_state :=
  if stopping (ctl st) then (- ESHUTDOWN, st)
  else match transfers m with
  | [] => (- EINVAL, st)
  | _ :: _ => (0, set_pending (set_ctl st (set_queue (ctl st) (queue (ctl st) ++ [m]))) true)
  end.

Definition submit (ms : list spi_message) (st : spi_state) : spi_state := fold_left (fun st m => snd (spi_stm32_transfer m st)) ms st.

(** The loop of the work handler.  For each message served: what happens while it is transferred, and the messages
    that are submitted until it is completed. *)
Fixpoint spi_stm32_handle (envs : list (list spi_event * list spi_message)) (st : spi_state) : result spi_state :=
  match queue (ctl st) with
  | [] => Ok st
  | m :: q =>
      if negb (xfer_status (xf (wr st)) =? 0) then Ok st
      else match envs with
      | [] => Fault Stuck
      | (events, more) :: envs =>
          let* (r, st) := spi_stm32_handle_message m events (set_ctl st (set_queue (ctl st) q)) in
          let (ret, rlen) := (r : Z * Z) in
          spi_stm32_handle envs (complete (submit more st) (m_id m) ret rlen)
      end
  end.

(** The first part of [spi_stm32_remove]: the messages of the queue are completed, and stay in it; ... *)
Definition shut_down (st : spi_state) : spi_state :=
  fold_left (fun st m => complete st (m_id m) (- ESHUTDOWN) 0) (queue (ctl st)) (set_ctl st (set_stopping (ctl st) true)).

(** ... [destroy_workqueue] lets pending work run, without interrupts. *)
Definition spi_stm32_remove (envs : list (list spi_event * list spi_message)) (k : rcc) (st : spi_state) : result (rcc * spi_state) :=
  let st := shut_down st in
  let* st := if pending st then spi_stm32_handle envs (set_pending st false) else Ok st in
  let (k, r) := spi_stm32_hw_release (bus (ctl st)) k (hw st) in
  Ok (k, set_hw st r).

(** ** Probe *)

(** What the kernel gives to the driver. *)
Inductive spi_res := RMaster | RMap | RIrq (n : Z) | RWorkqueue | RRegistered.

#[export] Instance spi_res_eq_dec : EqDecision spi_res.
Proof. solve_decision. Defined.

(** The device's driver data: NULL, the clock rate from the platform, or the driver's master. *)
Inductive drvdata := DNull | DRate (hz : Z) | DMaster.

Record spi_dev := { dst : spi_state; clocks : rcc; held : list spi_res; ddata : drvdata }.

Definition set_dev (d : spi_dev) (st : spi_state) (k : rcc) : spi_dev := {| dst := st; clocks := k; held := held d; ddata := ddata d |}.
Definition set_ddata (x : drvdata) (d : spi_dev) : spi_dev := {| dst := dst d; clocks := clocks d; held := held d; ddata := x |}.
Definition acquire (r : spi_res) (d : spi_dev) : spi_dev := {| dst := dst d; clocks := clocks d; held := r :: held d; ddata := ddata d |}.
Definition release (r : spi_res) (d : spi_dev) : spi_dev :=
  {| dst := dst d; clocks := clocks d; held := match list_find (eq r) (held d) with Some (i, _) => list_delete i (held d) | None => held d end; ddata := ddata d |}.

(** The answers of the platform and of the kernel. *)
Record spi_probe_env := { pv_id : Z; pv_irq : Z; pv_regs : bool; pv_master : bool; pv_ioremap : bool; pv_request_irq : Z; pv_workqueue : bool; pv_register : Z }.

(** The labels of the error path, from the last. *)
Definition err_master (d : spi_dev) : spi_dev := set_ddata DNull (release RMaster d).
Definition err_regs (d : spi_dev) : spi_dev := err_master (release RMap d).
Definition err_irq (n : Z) (d : spi_dev) : spi_dev := err_regs (release (RIrq n) d).
Definition err_workqueue (n : Z) (d : spi_dev) : spi_dev := err_irq n (release RWorkqueue d).
Definition err_hardware (n : Z) (d : spi_dev) : spi_dev :=
  let (k, r) := spi_stm32_hw_release (bus (ctl (dst d))) (clocks d) (hw (dst d)) in err_workqueue n (set_dev d (set_hw (dst d) r) k).

(** The driver data read as the clock rate. *)
Definition rate_of (x : drvdata) : result Z :=
  match x with DRate hz => Ok hz | DNull => Ok 0 | DMaster => Fault BadIndex end.

(** The controller data and the transfer as they are set up. *)
Definition new_ctl (b hz : Z) : spi_stm32 := {| bus := b; speed_hz := hz; stopping := false; queue := []; slave := None |}.
Definition new_wire (m : Z -> Z) : wire :=
  let cu := {| cu_t := 0; cu_l := 0; cu_i := 0; cu_n := 0 |} in
  {| xf := {| msg := []; xfer_status := 0; len := 0; wb := 0; tx := cu; rx := cu |}; mem := m; sent := [] |}.

Definition spi_stm32_probe (env : spi_probe_env) (d : spi_dev) : result (Z * spi_dev) :=
  let n := pv_irq env in
  if negb ((0 <=? pv_id env) && (pv_id env <=? 10)) then Ok (- ENXIO, d)
  else if n <? 0 then Ok (n, d)
  else if negb (pv_regs env) then Ok (- ENXIO, d)
  else if negb (pv_master env) then Ok (- ENOMEM, d)
  else
    let d := acquire RMaster d in
    if negb (pv_ioremap env) then Ok (- EINVAL, err_master d)
    else
      let d := acquire RMap d in
      if negb (pv_request_irq env =? 0) then Ok (pv_request_irq env, err_regs d)
      else
        let d := acquire (RIrq n) d in
        if negb (pv_workqueue env) then Ok (- ENXIO, err_irq n d)
        else
          let d := acquire RWorkqueue d in
          let (k, r) := spi_stm32_hw_init (pv_id env) (clocks d) (hw (dst d)) in
          let* hz := rate_of (ddata d) in
          let st := {| ctl := new_ctl (pv_id env) hz; hw := r; wr := new_wire (mem (wr (dst d))); cs := cs (dst d); completed := completed (dst d); pending := false |} in
          let d := set_dev d st k in
          if negb (pv_register env =? 0) then Ok (pv_register env, err_hardware n d)
          else Ok (0, set_ddata DMaster (acquire RRegistered d)).
