(* ===== verification/SpiSpec.v ===== *)
(** * SPI controller driver: properties

    What is programmed for a slave, the exchange of a message against a reference that handles one
    frame after the other, and the service of the queue. *)

From S2P Require Import Prelude Spi.

(** ** Slaves *)

#[local] Hint Extern 1 (is_u32 ?c) => (is_const c; vm_compute; split; [discriminate|reflexivity]) : u32.

Lemma shl_pow i : 0 <= i < 32 -> 1 .<< i = 2 ^ i.
Proof.
  intros Hi. unfold shl32. rewrite Z.shiftl_1_l. apply u32_id. unfold fits. pose proof (Z.pow_pos_nonneg 2 i).
  pose proof (Z.pow_lt_mono_r 2 i 32). lia.
Qed.

Lemma clk_shift_spec h spd i n :
  0 <= i -> i + Z.of_nat n <= 31 ->
  match clk_shift h spd i n with
  | Some k => i <= k < i + Z.of_nat n /\ h / 2 ^ k <= spd /\ forall j, i <= j < k -> spd < h / 2 ^ j
  | None => forall j, i <= j < i + Z.of_nat n -> spd < h / 2 ^ j
  end.
Proof.
  revert i. induction n as [|n IH]; intros i Hi Hn; cbn [clk_shift]; [lia|].
  rewrite shl_pow by lia. destruct (Z.leb_spec (h / 2 ^ i) spd); [split; [lia|split; [lia|intros; lia]]|].
  specialize (IH (i + 1) ltac:(lia) ltac:(lia)). destruct (clk_shift h spd (i + 1) n).
  - destruct IH as (A & B & C). split; [lia|]. split; [exact B|]. intros j Hj. destruct (Z.eq_dec j i) as [->|]; [lia|apply C; lia].
  - intros j Hj. destruct (Z.eq_dec j i) as [->|]; [lia|apply IH; lia].
Qed.

Lemma lor3_b : forallb (fun a => forallb (fun b => a <=? a .| b) (seqZ 0 8)) (seqZ 0 8) = true.
Proof. vm_compute. reflexivity. Qed.

Lemma lor3_ge a b : fits 3 a -> fits 3 b -> a <= a .| b.
Proof.
  unfold fits. change (2 ^ 3) with 8. intros Ha Hb. pose proof lor3_b as H. rewrite forallb_forall in H.
  specialize (H a ltac:(apply list_elem_of_In, elem_of_seqZ; lia)). cbv beta in H. rewrite forallb_forall in H.
  apply Z.leb_le, (H b). apply list_elem_of_In, elem_of_seqZ. lia.
Qed.

(** [x] after the bits of [m] are set or cleared, as the code writes it. *)
Lemma put_bit_field x n (b : bool) s w :
  is_u32 x -> 0 <= n < 32 -> 0 <= s -> 0 <= w -> s + w <= 32 -> s + w <= n \/ n < s ->
  field (if b then BIT n .| x else .~ BIT n .& x) s w = field x s w.
Proof.
  intros Hx Hn Hs Hw Hsw Hd. apply field_ext; [lia..|]. intros i Hi. destruct b.
  - rewrite Z.lor_comm, set_bit_spec by lia. zcrush.
  - rewrite Z.land_comm, clear_bit_spec by (assumption || lia). zcrush.
Qed.

Lemma put_bit_same x n (b : bool) : is_u32 x -> 0 <= n < 32 -> Z.testbit (if b then BIT n .| x else .~ BIT n .& x) n = b.
Proof.
  intros Hx Hn. destruct b.
  - rewrite Z.lor_comm, set_bit_spec by lia. zcrush.
  - rewrite Z.land_comm, clear_bit_spec by (assumption || lia). zcrush.
Qed.

Lemma put_bit_u32 x n (b : bool) : is_u32 x -> is_u32 (if b then BIT n .| x else .~ BIT n .& x).
Proof. intros Hx. pose proof (BIT_u32 n). destruct b; [now apply lor_u32|]. rewrite Z.land_comm. auto with u32. Qed.

(** The mode, at the end of the preparation. *)
Lemma mode_set_spec mode r :
  is_u32 (cr1 r) ->
  let r' := snd (spi_stm32_hw_mode_set mode r) in
  Z.testbit (cr1 r') 0 = Z.testbit mode 0 /\ Z.testbit (cr1 r') 1 = Z.testbit mode 1 /\ Z.testbit (cr1 r') 6 = true
  /\ cr2 r' = cr2 r /\ forall s w, 2 <= s -> 0 <= w -> s + w <= 6 \/ 7 <= s -> s + w <= 32 -> field (cr1 r') s w = field (cr1 r) s w.
Proof.
  intros Hr. unfold spi_stm32_hw_mode_set. cbv zeta. cbn [snd cr1 cr2 set_cr1].
  change SPI_CPHA with (BIT 0). change SPI_CPOL with (BIT 1). rewrite !has_bit by lia.
  change SPI_CR1_SPE with (BIT 6). change SPI_CR1_CPHA with (BIT 0). change SPI_CR1_CPOL with (BIT 1).
  set (c0 := .~ BIT 6 .& cr1 r). set (c1 := if Z.testbit mode 0 then BIT 0 .| c0 else .~ BIT 0 .& c0).
  set (c2 := if Z.testbit mode 1 then BIT 1 .| c1 else .~ BIT 1 .& c1).
  assert (U0 : is_u32 c0) by exact (put_bit_u32 (cr1 r) 6 false Hr).
  assert (U1 : is_u32 c1) by exact (put_bit_u32 c0 0 _ U0). assert (U2 : is_u32 c2) by exact (put_bit_u32 c1 1 _ U1).
  assert (B1 : Z.testbit c1 0 = Z.testbit mode 0) by exact (put_bit_same c0 0 _ U0 ltac:(lia)).
  assert (B2 : Z.testbit c2 1 = Z.testbit mode 1) by exact (put_bit_same c1 1 _ U1 ltac:(lia)).
  assert (B20 : Z.testbit c2 0 = Z.testbit mode 0).
  { rewrite <- B1. assert (F : field c2 0 1 = field c1 0 1) by (apply put_bit_field; auto; lia).
    rewrite !field_1 in F by lia. now destruct (Z.testbit c2 0), (Z.testbit c1 0). }
  split_and!; rewrite ?(Z.lor_comm (BIT 6)), ?set_bit_spec by lia; [exact B20|exact B2|reflexivity|reflexivity|].
  intros s w Hs Hw Hd Hsw. rewrite (Z.lor_comm c2).
  rewrite (put_bit_field c2 6 true s w U2) by lia. unfold c2. rewrite (put_bit_field c1 1 _ s w U1) by lia.
  unfold c1. rewrite (put_bit_field c0 0 _ s w U0) by lia. exact (put_bit_field (cr1 r) 6 false s w Hr ltac:(lia) ltac:(lia) Hw Hsw ltac:(lia)).
Qed.

Lemma br_shift k : 0 <= k <= 7 -> SPI_CR1_BR k = k .<< 3 /\ fits 3 k.
Proof. intros Hk. split; [reflexivity|unfold fits; change (2 ^ 3) with 8; lia]. Qed.

Lemma clk_set_spec h spd r ret r' :
  0 <= h -> spi_stm32_hw_clk_set h spd r = (ret, r') ->
  if h / 256 <=? spd then
    ret = 0 /\ cr2 r' = cr2 r /\ h / 2 ^ (field (cr1 r') 3 3 + 1) <= spd
    /\ (field (cr1 r) 3 3 = 0 -> forall j, 1 <= j <= field (cr1 r') 3 3 -> spd < h / 2 ^ j)
    /\ (is_u32 (cr1 r) -> is_u32 (cr1 r'))
    /\ forall s w, 0 <= s -> 0 <= w -> s + w <= 3 \/ 6 <= s -> field (cr1 r') s w = field (cr1 r) s w
  else ret = - EIO /\ r' = r.
Proof.
  intros Hh. unfold spi_stm32_hw_clk_set. pose proof (clk_shift_spec h spd 1 8 ltac:(lia) ltac:(lia)) as K.
  destruct (clk_shift h spd 1 8) as [k|]; intros [= <- <-].
  - destruct K as (Hk & Hle & Hmin). pose proof (br_shift (k - 1) ltac:(lia)) as [Ek Fk]. rewrite Ek.
    assert (H256 : h / 256 <= h / 2 ^ k) by (apply Z.div_le_compat_l; [lia|split; [apply Z.pow_pos_nonneg; lia|change 256 with (2 ^ 8); apply Z.pow_le_mono_r; lia]]).
    rewrite (proj2 (Z.leb_le _ _)) by lia. cbn [cr1 cr2 set_cr1].
    assert (F : field (((k - 1) .<< 3) .| cr1 r) 3 3 = (k - 1) .| field (cr1 r) 3 3)
      by (rewrite field_lor, field_shl_same by (lia || assumption); reflexivity).
    pose proof (field_fits (cr1 r) 3 3 ltac:(lia) ltac:(lia)) as Fo. rewrite F.
    pose proof (lor3_ge (k - 1) (field (cr1 r) 3 3) Fk Fo) as G.
    split_and!; [reflexivity|reflexivity| | |intros Hu; apply lor_u32; [apply shl32_u32|exact Hu]|].
    + apply Z.le_trans with (h / 2 ^ k); [|exact Hle]. apply Z.div_le_compat_l; [lia|]. split; [apply Z.pow_pos_nonneg; lia|].
      apply Z.pow_le_mono_r; lia.
    + intros E0 j Hj. rewrite E0, Z.lor_0_r in Hj. apply Hmin. lia.
    + intros s w Hs Hw Hd. rewrite field_lor, (field_shl_other 3) by (assumption || lia). reflexivity.
  - rewrite (proj2 (Z.leb_gt _ _)); [now split|]. exact (K 8 ltac:(lia)).
Qed.

Lemma bt_set_spec bt r :
  bt = 8 \/ bt = 16 -> is_u32 (cr2 r) ->
  let r' := snd (spi_stm32_hw_bt_set bt r) in
  fst (spi_stm32_hw_bt_set bt r) = 0 /\ cr1 r' = cr1 r /\ field (cr2 r') 8 4 = bt - 1 /\ field (cr2 r') 5 2 = field (cr2 r) 5 2.
Proof.
  intros Hbt Hr. unfold spi_stm32_hw_bt_set. cbv zeta. cbn [fst snd cr1 cr2 set_cr2].
  split; [reflexivity|]. split; [reflexivity|]. rewrite !field_lor by lia.
  rewrite field_clear_in by (lia || reflexivity). rewrite field_clear_out by (lia || reflexivity).
  destruct Hbt as [-> | ->]; split; reflexivity || (rewrite <- (Z.lor_0_r (field (cr2 r) 5 2)) at 2; reflexivity).
Qed.

(** C29: Preparing for a slave succeeds exactly when the slowest rate, a 256th of the controller's clock, is slow enough
    for it; then the rate is not above that of the slave, and the fastest such rate if the rate bits were clear before, and
    the clock phase, the polarity and the frame size are those of the slave, with the controller on and its other
    configuration as before. *)
Theorem spi_slave_prepared h s r ret r' :
  0 <= h -> bits_per_word s = 8 \/ bits_per_word s = 16 -> is_u32 (cr1 r) -> is_u32 (cr2 r) ->
  spi_stm32_prepare_for_slave h s r = (ret, r') ->
  let spd := Z.min (max_speed_hz s) h in
  ret = (if h / 256 <=? spd then 0 else - EINVAL)
  /\ (ret = 0 ->
      h / 2 ^ (field (cr1 r') 3 3 + 1) <= spd
      /\ (field (cr1 r) 3 3 = 0 -> forall j, 1 <= j <= field (cr1 r') 3 3 -> spd < h / 2 ^ j)
      /\ Z.testbit (cr1 r') 0 = Z.testbit (sd_mode s) 0 /\ Z.testbit (cr1 r') 1 = Z.testbit (sd_mode s) 1
      /\ field (cr2 r') 8 4 = bits_per_word s - 1 /\ field (cr2 r') 5 2 = field (cr2 r) 5 2
      /\ Z.testbit (cr1 r') 6 = true /\ field (cr1 r') 2 1 = field (cr1 r) 2 1 /\ field (cr1 r') 7 25 = field (cr1 r) 7 25).
Proof.
  intros Hh Hb H1 H2. unfold spi_stm32_prepare_for_slave. destruct (bt_set_spec (bits_per_word s) r Hb H2) as (E0 & B1 & B2 & B3).
  destruct (spi_stm32_hw_bt_set (bits_per_word s) r) as [rb r0]. cbn [fst snd] in *. subst rb. cbn [negb Z.eqb].
  set (spd := Z.min (max_speed_hz s) h). destruct (spi_stm32_hw_clk_set h spd r0) as [rc r1] eqn:Ec.
  pose proof (clk_set_spec h spd r0 rc r1 Hh Ec) as K. cbv zeta. destruct (h / 256 <=? spd).
  - destruct K as (-> & C2 & Hle & Hmin & Hu & Hf). cbn [negb Z.eqb].
    destruct (mode_set_spec (sd_mode s) r1 (Hu ltac:(rewrite B1; exact H1))) as (M0 & M1 & M6 & M2 & Mf).
    change (fst (spi_stm32_hw_mode_set (sd_mode s) r1)) with 0 in *.
    destruct (spi_stm32_hw_mode_set (sd_mode s) r1) as [rm r2] eqn:Em. assert (rm = 0) as -> by (apply (f_equal fst) in Em; symmetry; exact Em).
    cbn [negb Z.eqb snd] in *. intros [= <- <-]. split; [reflexivity|]. intros _.
    rewrite !Mf, M2, C2, <- B1 by lia. split_and!; try assumption; apply Hf; lia.
  - destruct K as [-> ->]. cbn [negb Z.eqb]. intros [= <- <-]. split; [reflexivity|discriminate].
Qed.

(** ** The frames of a message *)

(** The addresses of a frame: where it is sent from and where the answer goes. *)
Abbreviation slot := (option Z * option Z)%type.

Definition slots_of (w : Z) (t : spi_transfer) : list slot :=
  (fun i => ((fun p => p + i * w) <$> tx_buf t, (fun p => p + i * w) <$> rx_buf t)) <$> seqZ 0 (t_len t / w).

Definition slots (w : Z) (l : list spi_transfer) : list slot := flat_map (slots_of w) l.

Definition word (w : Z) (a : option Z) (m : Z -> Z) : Z := spi_stm32_hw_txfifo_put w a 0 m.
Definition store (w : Z) (a : option Z) (d : Z) (m : Z -> Z) : Z -> Z := spi_stm32_hw_rxfifo_get w a 0 d m.

(** The reference: one frame after the other, each sent and its answer stored. *)
Fixpoint exchange (w : Z) (l : list slot) (ds : list Z) (m : Z -> Z) : list Z * (Z -> Z) :=
  match l, ds with
  | (a, b) :: l, d :: ds => let (vs, m') := exchange w l ds (store w b d m) in (word w a m :: vs, m')
  | _, _ => ([], m)
  end.

(** Whole frames, few enough for the counters. *)
Definition transfers_ok (w : Z) (l : list spi_transfer) : Prop :=
  Forall (fun t => 0 <= t_len t /\ t_len t mod w = 0) l /\ w * Z.of_nat (length (slots w l)) < 2147483648.

Lemma slots_cons w t l : slots w (t :: l) = slots_of w t ++ slots w l.
Proof. reflexivity. Qed.

Lemma slots_app w l1 l2 : slots w (l1 ++ l2) = slots w l1 ++ slots w l2.
Proof. apply flat_map_app. Qed.

Lemma slots_of_length w t : 0 < w -> 0 <= t_len t -> Z.of_nat (length (slots_of w t)) = t_len t / w.
Proof.
  intros Hw Ht. unfold slots_of. rewrite length_fmap, length_seqZ. pose proof (Z.div_pos (t_len t) w Ht Hw). lia.
Qed.

Section Frames.

Context (w : Z) (Hw : 0 < w).

Lemma transfers_ok_app l1 l2 : transfers_ok w (l1 ++ l2) -> transfers_ok w l1 /\ transfers_ok w l2.
Proof.
  intros [H1 H2]. apply Forall_app in H1 as [A B]. rewrite slots_app, length_app in H2. split; split; try assumption; nia.
Qed.

Lemma frames_ok t l : transfers_ok w (t :: l) -> frames t w = t_len t / w.
Proof.
  intros [H1 H2]. apply Forall_cons in H1 as [[A B] _]. rewrite slots_cons, length_app in H2.
  pose proof (slots_of_length w t Hw A). unfold frames. apply s32_id. pose proof (Z.div_pos (t_len t) w A Hw). nia.
Qed.

Lemma total_sum l n : transfers_ok w l -> 0 <= n -> n + w * Z.of_nat (length (slots w l)) < 2147483648 ->
  total l n = n + w * Z.of_nat (length (slots w l)).
Proof.
  revert n. induction l as [|t l IH]; intros n Ho Hn Hb; [cbn; lia|].
  pose proof Ho as [H1 _]. apply Forall_cons in H1 as [[A B] _]. destruct (transfers_ok_app [t] l Ho) as [_ Ho'].
  rewrite slots_cons, length_app in *. pose proof (slots_of_length w t Hw A) as L.
  pose proof (Z.div_exact (t_len t) w ltac:(lia)) as [_ E]. specialize (E B). cbn [total].
  rewrite s32_id by nia. rewrite IH by (assumption || nia). nia.
Qed.

(** A cursor before frame [n]. *)
Definition cur_ok (l : list spi_transfer) (cu : cursor) (n : nat) : Prop :=
  exists l1 t l2, l = l1 ++ t :: l2 /\ cu_t cu = length l1 /\ cu_l cu = t_len t / w /\ 0 <= cu_i cu <= t_len t / w
    /\ Z.of_nat n = Z.of_nat (length (slots w l1)) + cu_i cu /\ cu_n cu = Z.of_nat n.

Lemma cursor_at_ok l1 t l2 k : transfers_ok w (l1 ++ t :: l2) -> cursor_at (l1 ++ t :: l2) (length l1) w k = Ok {| cu_t := length l1; cu_l := t_len t / w; cu_i := 0; cu_n := k |}.
Proof.
  intros Ho. unfold cursor_at. rewrite list_lookup_middle by reflexivity.
  destruct (transfers_ok_app l1 (t :: l2) Ho) as [_ H]. now rewrite (frames_ok t l2 H).
Qed.

Lemma advance_ok l2 : forall l1 t cu fuel n, transfers_ok w (l1 ++ t :: l2) -> (length l2 <= fuel)%nat ->
  cu_t cu = length l1 -> cu_l cu = t_len t / w -> 0 <= cu_i cu <= t_len t / w ->
  Z.of_nat n = Z.of_nat (length (slots w l1)) + cu_i cu -> cu_n cu = Z.of_nat n -> (n < length (slots w (l1 ++ t :: l2)))%nat ->
  exists cu', advance fuel (l1 ++ t :: l2) w cu = Ok cu' /\ cur_ok (l1 ++ t :: l2) cu' n /\ cu_i cu' < cu_l cu'.
Proof.
  induction l2 as [|t2 l2 IH]; intros l1 t cu fuel n Ho Hf Ht Hl Hi Hn Hk Hlt.
  all: assert (Ht0 : 0 <= t_len t) by (destruct Ho as [Ho _]; apply Forall_app in Ho as [_ Ho]; apply Forall_cons in Ho as [[A _] _]; exact A).
  all: pose proof (slots_of_length w t Hw Ht0) as L; rewrite slots_app, slots_cons, !length_app in Hlt.
  - destruct fuel; cbn [advance]; destruct (Z.eqb_spec (cu_i cu) (cu_l cu)) as [E|E]; try (cbn [slots flat_map length] in Hlt; lia).
    all: exists cu; split; [reflexivity|]; split; [exists l1, t, []; now split_and!|lia].
  - destruct fuel as [|fuel]; [cbn [length] in Hf; lia|]. cbn [advance]. destruct (Z.eqb_spec (cu_i cu) (cu_l cu)) as [E|E].
    + assert (Ea : l1 ++ t :: t2 :: l2 = (l1 ++ [t]) ++ t2 :: l2) by now rewrite <- app_assoc.
      assert (El : S (cu_t cu) = length (l1 ++ [t])) by (rewrite length_app; cbn [length]; lia).
      rewrite Ea in *. rewrite El, cursor_at_ok by exact Ho. cbn [rbind]. apply IH; cbn [cu_t cu_l cu_i cu_n]; auto.
      * cbn [length] in Hf. lia.
      * split; [lia|]. apply Z.div_pos; [|lia]. destruct Ho as [Ho _]. apply Forall_app in Ho as [_ Ho]. apply Forall_cons in Ho as [[A _] _]. exact A.
      * rewrite slots_app, length_app. cbn [slots flat_map]. rewrite app_nil_r. lia.
      * rewrite slots_app, slots_cons, slots_app, !length_app. cbn [slots flat_map]. rewrite app_nil_r, slots_cons, length_app in *. lia.
    + exists cu. split; [reflexivity|]. split; [exists l1, t, (t2 :: l2); now split_and!|lia].
Qed.

(** The next frame of a cursor and the cursor behind it. *)
Lemma next_frame l cu n :
  transfers_ok w l -> cur_ok l cu n -> (n < length (slots w l))%nat ->
  exists cu' t a b, advance (length l) l w cu = Ok cu' /\ l !! cu_t cu' = Some t /\ slots w l !! n = Some (a, b)
    /\ spi_stm32_hw_txfifo_put w (tx_buf t) (cu_i cu') = word w a /\ spi_stm32_hw_rxfifo_get w (rx_buf t) (cu_i cu') = store w b
    /\ cur_ok l (step_cursor cu') (S n).
Proof.
  intros Ho (l1 & t & l2 & -> & A & B & C & D & E) Hlt.
  destruct (advance_ok l2 l1 t cu (length (l1 ++ t :: l2)) n Ho) as (cu' & Ea & (m1 & u & m2 & El & At & Al & Ai & An & Ak) & Hi); try assumption.
  { rewrite length_app. cbn [length]. lia. }
  rewrite El in *. exists cu', u, ((fun p => p + cu_i cu' * w) <$> tx_buf u), ((fun p => p + cu_i cu' * w) <$> rx_buf u).
  split; [exact Ea|]. split; [rewrite At; now apply list_lookup_middle|]. rewrite Al in Hi.
  assert (Hu : 0 <= t_len u) by (destruct Ho as [Ho _]; apply Forall_app in Ho as [_ Ho]; apply Forall_cons in Ho as [[P _] _]; exact P).
  pose proof (slots_of_length w u Hw Hu) as L. split; [|split; [|split]].
  - rewrite slots_app, lookup_app_r, slots_cons, lookup_app_l by lia. unfold slots_of.
    rewrite list_lookup_fmap, lookup_seqZ_lt by lia. cbn [fmap option_fmap option_map].
    replace (0 + Z.of_nat (n - length (slots w m1))) with (cu_i cu') by lia. reflexivity.
  - unfold word, spi_stm32_hw_txfifo_put. destruct (tx_buf u); cbn [fmap option_fmap option_map]; [|reflexivity]. now rewrite Z.mul_0_l, Z.add_0_r.
  - unfold store, spi_stm32_hw_rxfifo_get. destruct (rx_buf u); cbn [fmap option_fmap option_map]; [|reflexivity]. now rewrite Z.mul_0_l, Z.add_0_r.
  - exists m1, u, m2. unfold step_cursor. cbn [cu_t cu_l cu_i cu_n]. split_and!; try assumption; reflexivity || lia.
Qed.

End Frames.

(** ** The exchange *)

(** An interrupt of a received frame; the FIFO gets room and is empty at the end. *)
Definition irq_ok (e : spi_irq) : Prop :=
  has (e_sr e) SPI_SR_RXNE = true /\ wait_room (e_full e) = Ok tt /\ spi_stm32_hw_rxfifo_purge (e_purge e) = Ok tt.

Section Exchange.

Context (w : Z) (Hw : 0 < w) (l : list spi_transfer) (Ho : transfers_ok w l).

(** The message after [k] frames were received and [j] sent. *)
Record running (k j : nat) (x : wire) : Prop := {
  rn_msg : msg (xf x) = l;
  rn_wb : wb (xf x) = w;
  rn_len : len (xf x) = Z.of_nat (length (slots w l));
  rn_status : xfer_status (xf x) = - EBUSY;
  rn_tx : cur_ok w l (tx (xf x)) j;
  rn_rx : cur_ok w l (rx (xf x)) k
}.

Lemma tx_next_ok k j x a b :
  running k j x -> slots w l !! j = Some (a, b) ->
  exists x', spi_stm32_xfer_tx_next x = Ok x' /\ running k (S j) x' /\ mem x' = mem x /\ sent x' = sent x ++ [word w a (mem x)].
Proof.
  intros [Hm Hb Hl Hs Ht Hr] Hj. destruct (next_frame w Hw l (tx (xf x)) j Ho Ht (lookup_lt_Some _ _ _ Hj))
    as (cu & t & a' & b' & Ea & El & Es & Ep & _ & Hc). rewrite Hj in Es. injection Es as <- <-.
  unfold spi_stm32_xfer_tx_next. rewrite Hm, Hb, Ea. cbn [rbind]. rewrite El, Ep.
  eexists. split; [reflexivity|]. split; [|split; reflexivity]. split; cbn [xf set_tx msg wb len xfer_status tx rx]; assumption.
Qed.

Lemma rx_next_ok k j x a b d :
  running k j x -> slots w l !! k = Some (a, b) ->
  exists x', spi_stm32_xfer_rx_next d x = Ok x' /\ running (S k) j x' /\ mem x' = store w b d (mem x) /\ sent x' = sent x.
Proof.
  intros [Hm Hb Hl Hs Ht Hr] Hj. destruct (next_frame w Hw l (rx (xf x)) k Ho Hr (lookup_lt_Some _ _ _ Hj))
    as (cu & t & a' & b' & Ea & El & Es & _ & Eg & Hc). rewrite Hj in Es. injection Es as <- <-.
  unfold spi_stm32_xfer_rx_next. rewrite Hm, Hb, Ea. cbn [rbind]. rewrite El, Eg.
  eexists. split; [reflexivity|]. split; [|split; reflexivity]. split; cbn [xf set_rx msg wb len xfer_status tx rx]; assumption.
Qed.

Lemma cur_count cu n : cur_ok w l cu n -> cu_n cu = Z.of_nat n.
Proof. now intros (? & ? & ? & _ & _ & _ & _ & _ & E). Qed.

Lemma irq_last k x a b e :
  running k (S k) x -> slots w l !! k = Some (a, b) -> S k = length (slots w l) -> irq_ok e ->
  exists x', spi_stm32_irq e x = Ok (x', true) /\ xfer_status (xf x') = 0 /\ cu_n (rx (xf x')) = Z.of_nat (S k)
    /\ mem x' = store w b (e_dr e) (mem x) /\ sent x' = sent x.
Proof.
  intros R Hk Hlast (E1 & _ & E3). destruct (rx_next_ok k (S k) x a b (e_dr e) R Hk) as (x1 & Ex & R1 & M1 & S1).
  unfold spi_stm32_irq. rewrite E1, Ex. cbn [rbind].
  rewrite (cur_count _ _ (rn_rx _ _ _ R1)), (rn_len _ _ _ R1), <- Hlast, Z.eqb_refl, E3. cbn [rbind].
  cbn [xf set_xf set_status tx len]. rewrite (cur_count _ _ (rn_tx _ _ _ R1)), (rn_len _ _ _ R1), <- Hlast, Z.ltb_irrefl.
  eexists. split; [reflexivity|]. cbn [xf set_xf set_status xfer_status rx mem sent]. split_and!; try assumption; [reflexivity|].
  apply cur_count, R1.
Qed.

Lemma irq_more k x a b a' b' e :
  running k (S k) x -> slots w l !! k = Some (a, b) -> slots w l !! S k = Some (a', b') -> irq_ok e ->
  exists x', spi_stm32_irq e x = Ok (x', false) /\ running (S k) (S (S k)) x'
    /\ mem x' = store w b (e_dr e) (mem x) /\ sent x' = sent x ++ [word w a' (mem x')].
Proof.
  intros R Hk Hk' (E1 & E2 & _). destruct (rx_next_ok k (S k) x a b (e_dr e) R Hk) as (x1 & Ex & R1 & M1 & S1).
  destruct (tx_next_ok (S k) (S k) x1 a' b' R1 Hk') as (x2 & Et & R2 & M2 & S2).
  pose proof (lookup_lt_Some _ _ _ Hk') as Hlt. unfold spi_stm32_irq. rewrite E1, Ex. cbn [rbind].
  rewrite (cur_count _ _ (rn_rx _ _ _ R1)), (rn_len _ _ _ R1), (proj2 (Z.eqb_neq _ _)) by lia. cbn [rbind].
  rewrite (cur_count _ _ (rn_tx _ _ _ R1)), (rn_len _ _ _ R1), (proj2 (Z.ltb_lt _ _)) by lia.
  rewrite E2. cbn [rbind]. rewrite Et. cbn [rbind]. exists x2. split; [reflexivity|]. split; [exact R2|].
  split; [congruence|]. congruence.
Qed.

(** All the frames. *)
Lemma wait_all es : forall k x more, running k (S k) x -> Forall irq_ok es -> es <> [] -> (k + length es = length (slots w l))%nat ->
  exists x', wait_xfer (map SIrq es ++ more) x = Ok (true, x') /\ xfer_status (xf x') = 0
    /\ cu_n (rx (xf x')) = Z.of_nat (length (slots w l))
    /\ let (vs, m) := exchange w (drop k (slots w l)) (map e_dr es) (mem x) in mem x' = m /\ sent x' = sent x ++ tl vs.
Proof.
  induction es as [|e es IH]; intros k x more R He Hne Hk; [contradiction|]. apply Forall_cons in He as [He Hes]. cbn [length] in Hk.
  destruct (lookup_lt_is_Some_2 (slots w l) k ltac:(lia)) as [[a b] Ek].
  rewrite (drop_S _ _ _ Ek). cbn [map app wait_xfer exchange].
  destruct es as [|e' es].
  - destruct (irq_last k x a b e R Ek ltac:(cbn [length] in Hk; lia) He) as (x' & E & Hs & Hn & Hm & Hd).
    rewrite E. cbn [rbind]. rewrite Hs. cbn [andb negb]. exists x'. split; [reflexivity|]. split; [exact Hs|].
    split; [rewrite Hn; f_equal; cbn [length] in Hk; lia|]. cbn [map].
    destruct (drop (S k) (slots w l)) as [|[c d] r]; cbn [exchange]; (split; [exact Hm|rewrite Hd; symmetry; apply app_nil_r]).
  - destruct (lookup_lt_is_Some_2 (slots w l) (S k) ltac:(cbn [length] in Hk; lia)) as [[a' b'] Ek'].
    destruct (irq_more k x a b a' b' e R Ek Ek' He) as (x1 & E & R1 & M1 & S1). rewrite E. cbn [rbind andb].
    destruct (IH (S k) x1 more R1 Hes ltac:(discriminate) ltac:(lia)) as (x' & E' & Hs & Hn & Hx).
    exists x'. split; [exact E'|]. split; [exact Hs|]. split; [exact Hn|]. rewrite <- M1.
    rewrite (drop_S _ _ _ Ek') in Hx |- *. cbn [map exchange] in Hx |- *.
    destruct (exchange w (drop (S (S k)) (slots w l)) (map e_dr es) (store w b' (e_dr e') (mem x1))) as [vs m].
    destruct Hx as [Hm Hd]. split; [exact Hm|]. cbn [tl] in Hd |- *. rewrite Hd, S1. now rewrite <- app_assoc.
Qed.

(** Fewer frames, and the end of the time-out. *)
Lemma wait_some es : forall k x more, running k (S k) x -> Forall irq_ok es -> (k + length es < length (slots w l))%nat ->
  exists x', wait_xfer (map SIrq es ++ SExpire :: more) x = Ok (false, x').
Proof.
  induction es as [|e es IH]; intros k x more R He Hk; [now exists x|]. apply Forall_cons in He as [He Hes]. cbn [length] in Hk.
  destruct (lookup_lt_is_Some_2 (slots w l) k ltac:(lia)) as [[a b] Ek].
  destruct (lookup_lt_is_Some_2 (slots w l) (S k) ltac:(lia)) as [[a' b'] Ek'].
  destruct (irq_more k x a b a' b' e R Ek Ek' He) as (x1 & E & R1 & _). cbn [map app wait_xfer]. rewrite E. cbn [rbind andb].
  exact (IH (S k) x1 more R1 Hes ltac:(lia)).
Qed.

(** The start of a message. *)
Lemma start_ok bits x a b :
  msg (xf x) = l -> (bits + 7) / 8 = w -> slots w l !! 0%nat = Some (a, b) ->
  exists c x1, spi_stm32_xfer_init bits (xf x) = Ok c /\ spi_stm32_xfer_tx_next (set_xf x (set_status c (- EBUSY))) = Ok x1
    /\ running 0 1 x1 /\ mem x1 = mem x /\ sent x1 = sent x ++ [word w a (mem x)].
Proof.
  intros Hm Hb H0. unfold spi_stm32_xfer_init. rewrite Hb, Hm, (proj2 (Z.eqb_neq w 0)) by lia.
  assert (Hc : exists t l2, l = t :: l2) by (destruct l as [|t l2]; [discriminate|now exists t, l2]). destruct Hc as (t & l2 & El).
  assert (Ht : 0 <= t_len t) by (destruct Ho as [H _]; rewrite El in H; apply Forall_cons in H as [[A _] _]; exact A).
  pose proof (cursor_at_ok w Hw [] t l2 0 ltac:(cbn [app]; rewrite <- El; exact Ho)) as Ec. cbn [app length] in Ec. rewrite <- El in Ec.
  rewrite Ec. cbn [rbind]. set (cu := {| cu_t := 0; cu_l := t_len t / w; cu_i := 0; cu_n := 0 |}).
  assert (Hcu : cur_ok w l cu 0).
  { exists [], t, l2. pose proof (Z.div_pos (t_len t) w Ht Hw). split_and!; try assumption; try reflexivity; cbn; lia. }
  rewrite (total_sum w Hw l 0 Ho) by (destruct Ho; lia). rewrite Z.add_0_l, Z.mul_comm, Z.quot_mul by lia.
  eexists. destruct (tx_next_ok 0 0 (set_xf x (set_status {| msg := l; xfer_status := xfer_status (xf x); len := Z.of_nat (length (slots w l)); wb := w; tx := cu; rx := cu |} (- EBUSY))) a b)
    as (x1 & E & R & M & S1); [|exact H0|].
  { split; cbn [xf set_xf set_status msg wb len xfer_status tx rx]; (reflexivity || exact Hcu). }
  exists x1. split; [reflexivity|]. split; [exact E|]. split; [exact R|]. now split.
Qed.

Lemma pio_done bits es more x :
  msg (xf x) = l -> (bits + 7) / 8 = w -> Forall irq_ok es -> es <> [] -> length es = length (slots w l) ->
  exists x', spi_stm32_pio_interrupted bits (map SIrq es ++ more) x = Ok (0, Z.of_nat (length es), x') /\ xfer_status (xf x') = 0
    /\ (sent x', mem x') = (let (vs, m) := exchange w (slots w l) (map e_dr es) (mem x) in (sent x ++ vs, m)).
Proof.
  intros Hm Hb He Hne Hlen. destruct (lookup_lt_is_Some_2 (slots w l) 0 ltac:(destruct es; [contradiction|cbn [length] in Hlen; lia])) as [[a b] E0].
  destruct (start_ok bits x a b Hm Hb E0) as (c & x1 & Ei & Et & R & M1 & S1).
  destruct (wait_all es 0 x1 more R He Hne ltac:(lia)) as (x2 & Ew & Hs & Hn & Hx).
  unfold spi_stm32_pio_interrupted. rewrite Ei. cbn [rbind]. rewrite Et. cbn [rbind]. rewrite Ew. cbn [rbind]. rewrite Hs, Hn, Hlen. cbn [Z.eqb].
  eexists. split; [reflexivity|]. cbn [set_xf xf set_status xfer_status sent mem]. split; [reflexivity|].
  rewrite (drop_S _ _ _ E0), M1 in Hx. rewrite <- (drop_0 (slots w l)) at 1. rewrite (drop_S _ _ _ E0).
  destruct es as [|e es]; [contradiction|]. cbn [map exchange] in Hx |- *.
  destruct (exchange w (drop 1 (slots w l)) (map e_dr es) (store w b (e_dr e) (mem x))) as [vs m].
  destruct Hx as [-> ->]. cbn [tl]. rewrite S1, <- app_assoc. reflexivity.
Qed.

Lemma pio_expires bits es more x :
  msg (xf x) = l -> (bits + 7) / 8 = w -> Forall irq_ok es -> (length es < length (slots w l))%nat ->
  exists x', spi_stm32_pio_interrupted bits (map SIrq es ++ SExpire :: more) x = Ok (- ETIMEDOUT, 0, x') /\ xfer_status (xf x') = 0.
Proof.
  intros Hm Hb He Hlt. destruct (lookup_lt_is_Some_2 (slots w l) 0 ltac:(lia)) as [[a b] E0].
  destruct (start_ok bits x a b Hm Hb E0) as (c & x1 & Ei & Et & R & _).
  destruct (wait_some es 0 x1 more R He ltac:(lia)) as (x2 & Ew).
  unfold spi_stm32_pio_interrupted. rewrite Ei. cbn [rbind]. rewrite Et. cbn [rbind]. rewrite Ew. cbn [rbind].
  eexists. split; reflexivity.
Qed.

End Exchange.

(** ** Buffers that do not overlap *)

(** Frames of [w] bytes at two addresses. *)
Definition apart (w : Z) (a b : option Z) : Prop :=
  match a, b with Some p, Some q => p + w <= q \/ q + w <= p | _, _ => True end.

(** No answer is stored over bytes that are still to be sent or over another answer; sending from and storing to the same
    place is allowed. *)
Inductive separate (w : Z) : list slot -> Prop :=
  | separate_nil : separate w []
  | separate_cons s l : Forall (fun s' => apart w s.2 s'.1 /\ apart w s.2 s'.2) l -> separate w l -> separate w (s :: l).

Definition outside (w : Z) (x : Z) (b : option Z) : Prop := match b with Some p => x < p \/ p + w <= x | None => True end.

(** The loops over the bytes of a frame of one or two bytes. *)
Ltac frame_steps :=
  change (Z.to_nat 1) with 1%nat; change (Z.to_nat 2) with 2%nat; cbn [frame_at store_frame];
  change (Z.of_nat 0) with 0; change (Z.of_nat 1) with 1; change (0 .<< 8) with 0; rewrite ?Z.lor_0_l; unfold upd.

Section Memory.

Context (w : Z) (Hw : w = 1 \/ w = 2).

Lemma store_outside b d m x : outside w x b -> store w b d m x = m x.
Proof.
  unfold store, spi_stm32_hw_rxfifo_get, outside. destruct b as [p|]; [|reflexivity]. intros Hx. rewrite Z.mul_0_l, Z.add_0_r.
  destruct Hw as [-> | ->]; frame_steps;
    repeat match goal with |- context [?a =? ?b] => rewrite (proj2 (Z.eqb_neq a b)) by lia end; reflexivity.
Qed.

Lemma word_same a m m' : (forall x, ~ outside w x a -> m x = m' x) -> word w a m = word w a m'.
Proof.
  unfold word, spi_stm32_hw_txfifo_put, outside. destruct a as [p|]; [|reflexivity]. intros H. rewrite Z.mul_0_l, Z.add_0_r.
  destruct Hw as [-> | ->]; frame_steps.
  - rewrite (H p) by lia. reflexivity.
  - rewrite (H p), (H (p + 1)) by lia. reflexivity.
Qed.

Lemma word_store_apart a b d m : apart w b a -> word w a (store w b d m) = word w a m.
Proof.
  intros Hab. apply word_same. intros x Hx. apply store_outside. unfold apart, outside in *. destruct a as [p|], b as [q|]; try tauto; lia.
Qed.

Lemma byte_pair d : fits 16 d -> ((d .>> 8) .& 0xFF) .<< 8 .| (d .& 0xFF) = d.
Proof.
  intros Hd. change 0xFF with (Z.ones 8). apply Z.bits_inj'. intros i Hi.
  rewrite Z.lor_spec, testbit_shl32, !Z.land_spec, !Z.testbit_ones by lia.
  destruct (Z.ltb_spec i 8).
  - rewrite (Z.testbit_neg_r _ (i - 8)) by lia. zcrush.
  - rewrite testbit_shr by lia. replace (i - 8 + 8) with i by lia.
    destruct (Z.ltb_spec i 16); [|rewrite (fits_testbit_high 16 d) by (auto; lia)]; zcrush.
Qed.

(** What is stored is read back. *)
Lemma word_store p d m : fits (8 * w) d -> word w (Some p) (store w (Some p) d m) = d.
Proof.
  intros Hd. unfold word, store, spi_stm32_hw_txfifo_put, spi_stm32_hw_rxfifo_get. rewrite Z.mul_0_l, Z.add_0_r.
  destruct Hw as [-> | ->]; frame_steps;
    repeat match goal with
    | |- context [?a =? ?a] => rewrite (Z.eqb_refl a)
    | |- context [?a =? ?b] => rewrite (proj2 (Z.eqb_neq a b)) by lia
    end.
  - rewrite ?Z.add_0_r, ?Z.eqb_refl. change 0xFF with (Z.ones 8).
    rewrite Z.land_ones by lia. apply Z.mod_small. exact Hd.
  - rewrite ?Z.add_0_r, ?Z.eqb_refl. apply byte_pair. exact Hd.
Qed.

Lemma exchange_outside l : forall ds m x, Forall (fun s => outside w x s.2) l -> snd (exchange w l ds m) x = m x.
Proof.
  induction l as [|[a b] l IH]; intros ds m x H; [reflexivity|]. apply Forall_cons in H as [H1 H2]. destruct ds as [|d ds]; [reflexivity|].
  cbn [exchange]. specialize (IH ds (store w b d m) x H2). destruct (exchange w l ds (store w b d m)). cbn [snd] in *.
  rewrite IH. now apply store_outside.
Qed.

Lemma exchange_word l a : forall ds m, Forall (fun s => apart w s.2 a) l -> word w a (snd (exchange w l ds m)) = word w a m.
Proof.
  induction l as [|[c b] l IH]; intros ds m H; [reflexivity|]. apply Forall_cons in H as [H1 H2]. destruct ds as [|d ds]; [reflexivity|].
  cbn [exchange]. specialize (IH ds (store w b d m) H2). destruct (exchange w l ds (store w b d m)). cbn [snd] in *.
  rewrite IH. now apply word_store_apart.
Qed.

Lemma apart_sym a b : apart w a b -> apart w b a.
Proof. unfold apart. destruct a, b; tauto. Qed.

(** With separate buffers: what the memory held before is sent, and the answers are in their places. *)
Lemma exchange_separate l : forall ds m, separate w l -> length ds = length l -> Forall (fits (8 * w)) ds ->
  fst (exchange w l ds m) = map (fun s => word w s.1 m) l
  /\ Forall2 (fun s d => match s.2 with Some p => word w (Some p) (snd (exchange w l ds m)) = d | None => True end) l ds.
Proof.
  induction l as [|[a b] l IH]; intros ds m Hs Hlen Hd; (destruct ds as [|d ds]; [now try constructor|]); [discriminate|].
  apply Forall_cons in Hd as [Hd Hds]. inversion Hs as [|s l' Hap Hs' E]; subst. cbn [fst snd] in Hap.
  injection Hlen as Hlen. destruct (IH ds (store w b d m) Hs' Hlen Hds) as [E1 E2]. cbn [exchange].
  pose proof (exchange_word l b ds (store w b d m)) as K.
  destruct (exchange w l ds (store w b d m)) as [vs m'] eqn:Ex. cbn [fst snd] in *. split.
  - cbn [map fst]. f_equal. rewrite E1. apply map_ext_Forall. apply (Forall_impl _ _ _ Hap). intros s [A _]. now apply word_store_apart.
  - constructor; [|exact E2]. cbn [snd]. destruct b as [p|]; [|exact I].
    rewrite K; [now apply word_store|]. apply (Forall_impl _ _ _ Hap). intros s [_ A]. now apply apart_sym.
Qed.

End Memory.

(** C24: A message of whole frames of one or two bytes, with an interrupt for every frame received: the driver does what the
    reference does that sends one frame and stores its answer before the next.  If no answer overlaps what is still to be
    sent or another answer, the frames sent are those that the memory held before, every answer is found in its place and
    the rest of the memory is unchanged.  The length returned is in frames. *)
Theorem spi_message_exchanged bits l es more x :
  bits = 8 \/ bits = 16 -> msg (xf x) = l -> let w := bits / 8 in
  transfers_ok w l -> Forall irq_ok es -> es <> [] -> length es = length (slots w l) ->
  exists x', spi_stm32_pio_interrupted bits (map SIrq es ++ more) x = Ok (0, Z.of_nat (length es), x')
    /\ (sent x', mem x') = (let (vs, m) := exchange w (slots w l) (map e_dr es) (mem x) in (sent x ++ vs, m))
    /\ (separate w (slots w l) -> Forall (fits bits) (map e_dr es) ->
        sent x' = sent x ++ map (fun s => word w s.1 (mem x)) (slots w l)
        /\ Forall2 (fun s d => match s.2 with Some p => word w (Some p) (mem x') = d | None => True end) (slots w l) (map e_dr es)
        /\ forall a, Forall (fun s => outside w a s.2) (slots w l) -> mem x' a = mem x a).
Proof.
  intros Hb Hm w Ho He Hne Hlen. assert (Hw : (w = 1 \/ w = 2) /\ (bits + 7) / 8 = w /\ bits = 8 * w) by (unfold w; destruct Hb as [-> | ->]; auto).
  destruct Hw as (Hw & Ew & E8). destruct (pio_done w ltac:(lia) l Ho bits es more x Hm Ew He Hne Hlen) as (x' & E & _ & Hx).
  exists x'. split; [exact E|]. split; [exact Hx|]. intros Hs Hd. rewrite E8 in Hd.
  destruct (exchange_separate w Hw (slots w l) (map e_dr es) (mem x) Hs ltac:(rewrite length_map; exact Hlen) Hd) as [S1 S2].
  pose proof (fun a => exchange_outside w Hw (slots w l) (map e_dr es) (mem x) a) as So.
  destruct (exchange w (slots w l) (map e_dr es) (mem x)) as [vs m]. cbn [fst snd] in *. injection Hx as -> ->. subst vs.
  split; [reflexivity|]. split; [exact S2|exact So].
Qed.

(** ** The queue *)

(** The order in which a run serves: the messages submitted while one is transferred go to the end of the queue. *)
Fixpoint order (q : list spi_message) (envs : list (list spi_event * list spi_message)) : option (list spi_message) :=
  match q, envs with
  | [], [] => Some []
  | m :: q, (_, more) :: envs => cons m <$> order (q ++ more) envs
  | _, _ => None
  end.

Lemma order_fifo envs : forall q l, order q envs = Some l -> l = q ++ concat (map snd envs).
Proof.
  induction envs as [|[ev more] envs IH]; intros [|m q] l; cbn [order]; try discriminate; [intros [= <-]; reflexivity|].
  destruct (order (q ++ more) envs) as [l'|] eqn:E; [|discriminate]. intros [= <-]. rewrite (IH _ _ E). cbn [map concat snd]. now rewrite <- app_assoc.
Qed.

(** How a message ends: all its frames are received, or the time runs out before. *)
Inductive served (h : Z) (m : spi_message) : list spi_event -> Z -> Z -> Prop :=
  | served_all es more : Forall irq_ok es -> es <> [] -> length es = length (slots (bits_per_word (m_spi m) / 8) (transfers m)) ->
      served h m (map SIrq es ++ more) 0 (Z.of_nat (length es))
  | served_some es more : Forall irq_ok es -> (length es < length (slots (bits_per_word (m_spi m) / 8) (transfers m)))%nat ->
      served h m (map SIrq es ++ SExpire :: more) (- ETIMEDOUT) 0.

(** A message of whole frames for a slave that is not too slow for a controller with clock [h]. *)
Record message_ok (h : Z) (m : spi_message) : Prop := {
  mk_bits : bits_per_word (m_spi m) = 8 \/ bits_per_word (m_spi m) = 16;
  mk_rate : h / 256 <= Z.min (max_speed_hz (m_spi m)) h;
  mk_transfers : transfers_ok (bits_per_word (m_spi m) / 8) (transfers m);
  mk_some : transfers m <> []
}.

Lemma prepare_ok h s r : 0 <= h -> h / 256 <= Z.min (max_speed_hz s) h -> fst (spi_stm32_prepare_for_slave h s r) = 0.
Proof.
  intros Hh Hr. unfold spi_stm32_prepare_for_slave. destruct (spi_stm32_hw_bt_set (bits_per_word s) r) as [rb r0] eqn:Eb.
  injection Eb as <- _. cbn [negb Z.eqb]. destruct (spi_stm32_hw_clk_set h (Z.min (max_speed_hz s) h) r0) as [rc r1] eqn:Ec.
  pose proof (clk_set_spec h _ r0 rc r1 Hh Ec) as K. rewrite (proj2 (Z.leb_le _ _) Hr) in K. destruct K as [-> _]. reflexivity.
Qed.

Lemma take_slave_ok s st :
  0 <= speed_hz (ctl st) -> speed_hz (ctl st) / 256 <= Z.min (max_speed_hz s) (speed_hz (ctl st)) ->
  exists r, take_slave s st = (0, set_hw (set_ctl st (set_slave (ctl st) (Some (sd_id s)))) r).
Proof.
  intros Hh Hr. unfold take_slave. case_bool_decide as E.
  - exists (hw st). destruct st as [[b h p q sl] r x g c k]. cbn in E |- *. now rewrite E.
  - pose proof (prepare_ok (speed_hz (ctl st)) s (hw st) Hh Hr) as K.
    destruct (spi_stm32_prepare_for_slave (speed_hz (ctl st)) s (hw st)) as [ret r]. cbn [fst] in K. subst ret. now exists r.
Qed.

(** One message: what it leaves to the next. *)
Lemma handle_message_ok m events ret rlen st :
  0 <= speed_hz (ctl st) -> message_ok (speed_hz (ctl st)) m -> served (speed_hz (ctl st)) m events ret rlen ->
  exists st', spi_stm32_handle_message m events st = Ok (ret, rlen, st')
    /\ queue (ctl st') = queue (ctl st) /\ speed_hz (ctl st') = speed_hz (ctl st) /\ stopping (ctl st') = stopping (ctl st)
    /\ completed st' = completed st /\ cs st' = cs st ++ [(cs_gpio (m_spi m), false); (cs_gpio (m_spi m), true)]
    /\ xfer_status (xf (wr st')) = 0.
Proof.
  intros Hh [Hb Hr Ht _] Hs. unfold spi_stm32_handle_message. destruct (take_slave_ok (m_spi m) st Hh Hr) as [r ->]. cbn [negb Z.eqb].
  match goal with |- context [spi_stm32_pio_interrupted _ _ ?y] => set (x := y) end.
  set (w := bits_per_word (m_spi m) / 8) in *.
  assert (Hw : 0 < w /\ (bits_per_word (m_spi m) + 7) / 8 = w) by (unfold w; destruct Hb as [-> | ->]; split; reflexivity).
  assert (P : exists x', spi_stm32_pio_interrupted (bits_per_word (m_spi m)) events x = Ok (ret, rlen, x') /\ xfer_status (xf x') = 0
              /\ (if ret =? 0 then rlen else 0) = rlen).
  { destruct Hs as [es more He Hne Hlen|es more He Hlt].
    - destruct (pio_done w (proj1 Hw) (transfers m) Ht _ es more x eq_refl (proj2 Hw) He Hne Hlen) as (x' & E & S0 & _). now exists x'.
    - destruct (pio_expires w (proj1 Hw) (transfers m) Ht _ es more x eq_refl (proj2 Hw) He Hlt) as (x' & E & S0). now exists x'. }
  destruct P as (x' & Ep & S0 & Er). rewrite Ep. cbn [rbind]. rewrite Er. eexists. split; [reflexivity|].
  cbn [spi_stm32_release_slave spi_stm32_capture_slave spi_stm32_hw_cs_set set_wr set_hw set_ctl ctl hw wr cs completed set_slave queue speed_hz stopping negb].
  rewrite <- app_assoc. now split_and!.
Qed.

Lemma submit_ok ms : forall st, stopping (ctl st) = false -> Forall (fun m => transfers m <> []) ms ->
  let st' := submit ms st in
  queue (ctl st') = queue (ctl st) ++ ms /\ speed_hz (ctl st') = speed_hz (ctl st) /\ stopping (ctl st') = false
  /\ completed st' = completed st /\ cs st' = cs st /\ wr st' = wr st.
Proof.
  induction ms as [|m ms IH]; intros st Hst Hm; [cbn; now rewrite app_nil_r|]. apply Forall_cons in Hm as [Hm Hms].
  unfold submit. cbn [fold_left]. fold (submit ms (snd (spi_stm32_transfer m st))).
  assert (E : snd (spi_stm32_transfer m st) = set_pending (set_ctl st (set_queue (ctl st) (queue (ctl st) ++ [m]))) true)
    by (unfold spi_stm32_transfer; rewrite Hst; destruct (transfers m); [contradiction|reflexivity]).
  rewrite E. destruct (IH (set_pending (set_ctl st (set_queue (ctl st) (queue (ctl st) ++ [m]))) true) Hst Hms) as (A & B & C & D & F & G).
  cbn [set_pending set_ctl set_queue ctl queue speed_hz completed cs wr] in *. rewrite A, <- app_assoc. now split_and!.
Qed.

Lemma serve_all envs : forall l results st,
  0 <= speed_hz (ctl st) -> stopping (ctl st) = false -> xfer_status (xf (wr st)) = 0 ->
  order (queue (ctl st)) envs = Some l -> Forall (message_ok (speed_hz (ctl st))) l ->
  Forall3 (fun m env r => served (speed_hz (ctl st)) m env.1 r.1 r.2) l envs results ->
  exists st', spi_stm32_handle envs st = Ok st' /\ queue (ctl st') = []
    /\ completed st' = completed st ++ zip_with (fun m r => (m_id m, r.1, r.2)) l results
    /\ cs st' = cs st ++ flat_map (fun m => [(cs_gpio (m_spi m), false); (cs_gpio (m_spi m), true)]) l
    /\ xfer_status (xf (wr st')) = 0.
Proof.
  induction envs as [|[events more] envs IH]; intros l results st Hh Hst Hx Hord Hok Hs.
  - destruct (queue (ctl st)) eqn:Eq; [|discriminate]. injection Hord as <-. inversion Hs; subst.
    exists st. cbn [spi_stm32_handle]. rewrite Eq. cbn. rewrite !app_nil_r. now split_and!.
  - destruct (queue (ctl st)) as [|m q] eqn:Eq; [discriminate|]. cbn [order] in Hord.
    destruct (order (q ++ more) envs) as [l'|] eqn:Eo; [|discriminate]. injection Hord as <-.
    apply Forall_cons in Hok as [Hm Hok]. inversion Hs as [|m' e' r l1 l2 results' Hr Hrs]; subst. cbn [fst] in Hr.
    assert (Hmore : Forall (fun m => transfers m <> []) more).
    { pose proof (order_fifo envs (q ++ more) l' Eo) as El. rewrite El in Hok. apply Forall_app in Hok as [Hok _]. apply Forall_app in Hok as [_ Hok].
      apply (Forall_impl _ _ _ Hok). intros y []. assumption. }
    cbn [spi_stm32_handle]. rewrite Eq, Hx. cbn [negb Z.eqb].
    destruct (handle_message_ok m events r.1 r.2 (set_ctl st (set_queue (ctl st) q)) Hh Hm Hr) as (st1 & E1 & Q1 & H1 & P1 & C1 & G1 & X1).
    rewrite E1. cbn [rbind]. cbn [set_ctl set_queue ctl queue speed_hz stopping completed cs] in Q1, H1, P1, C1, G1.
    destruct (submit_ok more st1 ltac:(congruence) Hmore) as (Q2 & H2 & P2 & C2 & G2 & W2).
    set (st2 := complete (submit more st1) (m_id m) r.1 r.2).
    assert (Q3 : queue (ctl st2) = q ++ more) by (cbn [st2 complete ctl]; congruence).
    assert (H3 : speed_hz (ctl st2) = speed_hz (ctl st)) by (cbn [st2 complete ctl]; congruence).
    assert (X3 : xfer_status (xf (wr st2)) = 0) by (cbn [st2 complete wr]; congruence).
    destruct (IH l' results' st2) as (st' & E & Q & C & G & X); rewrite ?H3, ?Q3; auto.
    exists st'. split; [exact E|]. split; [exact Q|]. split; [|split; [|exact X]].
    + rewrite C. cbn [st2 complete completed zip_with]. rewrite C2, C1, <- app_assoc. reflexivity.
    + rewrite G. cbn [st2 complete cs flat_map]. rewrite G2, G1, <- app_assoc. reflexivity.
Qed.

(** C25: The work handler of a controller that is not being removed serves the queue: every message, and every message
    submitted meanwhile, is completed exactly once, in the order of submission, with status 0 and its length, or a time-out; the
    queue is empty at the end, and chip selects are driven one at a time, each around the transfer of its message.  The messages have at
    least one transfer and consist of whole frames of 8 or 16 bits, for a slave whose highest rate the controller can go down to
    ([message_ok]); each gets an interrupt for every frame (with RXNE set, and with room in
    the transmit FIFO and an end of the purge within the polls), or its time runs out before.  A
    message without a frame makes the handler run past its transfers ([spi_no_frames]), and removing the controller with messages
    queued completes them twice ([spi_remove_completes_twice]). *)
Theorem spi_queue_served envs l results st :
  0 <= speed_hz (ctl st) -> stopping (ctl st) = false -> xfer_status (xf (wr st)) = 0 ->
  order (queue (ctl st)) envs = Some l -> Forall (message_ok (speed_hz (ctl st))) l ->
  Forall3 (fun m env r => served (speed_hz (ctl st)) m env.1 r.1 r.2) l envs results ->
  exists st', spi_stm32_handle envs st = Ok st' /\ queue (ctl st') = []
    /\ l = queue (ctl st) ++ concat (map snd envs)
    /\ completed st' = completed st ++ zip_with (fun m r => (m_id m, r.1, r.2)) l results
    /\ cs st' = cs st ++ flat_map (fun m => [(cs_gpio (m_spi m), false); (cs_gpio (m_spi m), true)]) l.
Proof.
  intros Hh Hst Hx Hord Hok Hs. destruct (serve_all envs l results st Hh Hst Hx Hord Hok Hs) as (st' & E & Q & C & G & _).
  exists st'. split; [exact E|]. split; [exact Q|]. split; [exact (order_fifo _ _ _ Hord)|]. now split.
Qed.

(** ** The probe *)

Lemma spi_release_head r d l : held d = r :: l -> held (release r d) = l.
Proof. intros E. unfold release. cbn [held]. rewrite E. cbn [list_find]. rewrite decide_True by reflexivity. reflexivity. Qed.

(** A probe that fails returns an error and holds nothing; one that succeeds leaves an idle controller with an empty queue,
    ready for [spi_queue_served]. *)
Lemma spi_probe_outcomes env d rv d' :
  spi_stm32_probe env d = Ok (rv, d') ->
  (rv <> 0 /\ held d' = held d)
  \/ (rv = 0 /\ held d' = [RRegistered; RWorkqueue; RIrq (pv_irq env); RMap; RMaster] ++ held d /\ ddata d' = DMaster
      /\ queue (ctl (dst d')) = [] /\ stopping (ctl (dst d')) = false /\ slave (ctl (dst d')) = None /\ xfer_status (xf (wr (dst d'))) = 0).
Proof.
  unfold spi_stm32_probe. destruct (_ && _); cbn [negb]; [|intros [= <- <-]; left; split; [discriminate|reflexivity]].
  destruct (Z.ltb_spec (pv_irq env) 0); [intros [= <- <-]; left; split; [lia|reflexivity]|].
  destruct (pv_regs env); cbn [negb]; [|intros [= <- <-]; left; split; [discriminate|reflexivity]].
  destruct (pv_master env); cbn [negb]; [|intros [= <- <-]; left; split; [discriminate|reflexivity]].
  destruct (pv_ioremap env); cbn [negb]; [|intros [= <- <-]; left; split; [discriminate|now apply spi_release_head]].
  destruct (Z.eqb_spec (pv_request_irq env) 0) as [_|Hne]; cbn [negb].
  2: { intros [= <- <-]. left. split; [exact Hne|]. now apply spi_release_head, spi_release_head. }
  destruct (pv_workqueue env); cbn [negb].
  2: { intros [= <- <-]. left. split; [discriminate|]. now apply spi_release_head, spi_release_head, spi_release_head. }
  unfold spi_stm32_hw_init. cbv zeta. cbn [ddata acquire]. destruct (rate_of (ddata d)) as [hz|]; cbn [rbind]; [|discriminate].
  destruct (Z.eqb_spec (pv_register env) 0) as [_|Hne]; cbn [negb]; intros [= <- <-].
  - right. now split_and!.
  - left. split; [exact Hne|]. now apply spi_release_head, spi_release_head, spi_release_head, spi_release_head.
Qed.

(** ** Witnesses and cases *)

Definition spi_reset : spi_regs := {| cr1 := 0x344; cr2 := 0x60 |}.
Definition cursor0 : cursor := {| cu_t := 0; cu_l := 0; cu_i := 0; cu_n := 0 |}.

(** An interrupt with a frame received. *)
Definition frame_irq (d : Z) : spi_irq := {| e_sr := 3; e_dr := d; e_full := [0; 2]; e_purge := [0] |}.

(** A flash memory: two bytes of a command are sent, and one byte is received. *)
Definition flash_dev : spi_device := {| sd_id := 1; max_speed_hz := 1000000; sd_mode := 3; bits_per_word := 8; cs_gpio := 6; timeout := 1 |}.
Definition flash_read : spi_message :=
  {| m_id := 10; m_spi := flash_dev;
     transfers := [{| tx_buf := Some 0x100; rx_buf := None; t_len := 2 |}; {| tx_buf := None; rx_buf := Some 0x200; t_len := 1 |}] |}.
Definition flash_mem : Z -> Z := fun a => if a =? 0x100 then 0x9F else if a =? 0x101 then 0x01 else 0.
Definition idle_wire (l : list spi_transfer) : wire :=
  {| xf := {| msg := l; xfer_status := 0; len := 0; wb := 0; tx := cursor0; rx := cursor0 |}; mem := flash_mem; sent := [] |}.
Definition spi_idle (q : list spi_message) : spi_state :=
  {| ctl := {| bus := 0; speed_hz := 54000000; stopping := false; queue := q; slave := None |}; hw := spi_reset; wr := idle_wire []; cs := []; completed := []; pending := true |}.

Lemma spi_slave_prepared_witness :
  exists r', spi_stm32_prepare_for_slave 54000000 flash_dev spi_reset = (0, r') /\ field (cr2 r') 8 4 = 7 /\ Z.testbit (cr1 r') 1 = true.
Proof.
  destruct (spi_stm32_prepare_for_slave 54000000 flash_dev spi_reset) as [ret r'] eqn:E.
  destruct (spi_slave_prepared 54000000 flash_dev spi_reset ret r' ltac:(lia) ltac:(now left) ltac:(now split) ltac:(now split) E) as [R K].
  assert (ret = 0) as -> by exact R. exists r'. split; [reflexivity|]. destruct (K eq_refl) as (_ & _ & _ & M & D & _). now split.
Defined.

Lemma flash_transfers_ok : transfers_ok 1 (transfers flash_read).
Proof. split; [repeat constructor; (discriminate || reflexivity)|vm_compute; reflexivity]. Qed.

Lemma spi_message_exchanged_witness :
  exists x', spi_stm32_pio_interrupted 8 (map SIrq (map frame_irq [0xFF; 0xFE; 0x5A]) ++ []) (idle_wire (transfers flash_read)) = Ok (0, 3, x')
  /\ sent x' = [0x9F; 0x01; 0] /\ word 1 (Some 0x200) (mem x') = 0x5A.
Proof.
  destruct (spi_message_exchanged 8 (transfers flash_read) (map frame_irq [0xFF; 0xFE; 0x5A]) [] (idle_wire (transfers flash_read))
              ltac:(now left) eq_refl flash_transfers_ok) as (x' & E & _ & H).
  - repeat constructor.
  - discriminate.
  - reflexivity.
  - destruct H as (S1 & S2 & _).
    + repeat constructor.
    + repeat constructor; discriminate.
    + exists x'. split; [exact E|]. split; [exact S1|]. inversion S2 as [|? ? ? ? _ S3]; subst. inversion S3 as [|? ? ? ? _ S4]; subst.
      inversion S4 as [|? ? ? ? S5 _]; subst. exact S5.
Defined.

(** Two messages; the second is submitted during the first, and its slave does not answer. *)
Definition flash_again : spi_message := {| m_id := 11; m_spi := flash_dev; transfers := transfers flash_read |}.
Definition flash_envs : list (list spi_event * list spi_message) :=
  [(map SIrq (map frame_irq [0; 0; 7]) ++ [], [flash_again]); (map SIrq (map frame_irq [0]) ++ SExpire :: [], [])].

Lemma spi_queue_served_witness :
  exists st', spi_stm32_handle flash_envs (spi_idle [flash_read]) = Ok st'
  /\ completed st' = [(10, 0, 3); (11, - ETIMEDOUT, 0)] /\ cs st' = [(6, false); (6, true); (6, false); (6, true)].
Proof.
  destruct (spi_queue_served flash_envs [flash_read; flash_again] [(0, 3); (- ETIMEDOUT, 0)] (spi_idle [flash_read])
              ltac:(cbn; lia) eq_refl eq_refl eq_refl) as (st' & E & _ & _ & C & G).
  - repeat constructor; try (now left); try discriminate; (exact flash_transfers_ok || (cbn; lia)).
  - constructor; [|constructor; [|constructor]].
    + apply (served_all 54000000 flash_read (map frame_irq [0; 0; 7]) []); [repeat constructor|discriminate|reflexivity].
    + apply (served_some 54000000 flash_again (map frame_irq [0]) []); [repeat constructor|vm_compute; repeat constructor].
  - exists st'. split; [exact E|]. split; [exact C|exact G].
Defined.

(** The rate bits are only ever set: after a slow slave a fast one is served at the slow rate. *)
Example spi_rate_sticks :
  let fast := {| sd_id := 2; max_speed_hz := 27000000; sd_mode := 0; bits_per_word := 8; cs_gpio := 7; timeout := 1 |} in
  field (cr1 (snd (spi_stm32_prepare_for_slave 54000000 fast spi_reset))) 3 3 = 0
  /\ field (cr1 (snd (spi_stm32_prepare_for_slave 54000000 fast (snd (spi_stm32_prepare_for_slave 54000000 flash_dev spi_reset))))) 3 3 = 5.
Proof. vm_compute. split; reflexivity. Qed.

(** A message without a frame goes past the end of its list of transfers, and so does one of 16-bit frames with odd lengths. *)
Example spi_no_frames evs :
  spi_stm32_pio_interrupted 8 evs (idle_wire [{| tx_buf := None; rx_buf := None; t_len := 0 |}]) = Fault BadIndex.
Proof. reflexivity. Qed.

Example spi_odd_lengths :
  let t := {| tx_buf := None; rx_buf := None; t_len := 3 |} in
  spi_stm32_pio_interrupted 16 (map SIrq (map frame_irq [0; 0; 0])) (idle_wire [t; t]) = Fault BadIndex.
Proof. vm_compute. reflexivity. Qed.

(** After a time-out an interrupt still stores to the buffer of the message. *)
Example spi_late_frame :
  let t := {| tx_buf := None; rx_buf := Some 0x200; t_len := 2 |} in
  exists x x' w, spi_stm32_pio_interrupted 8 [SExpire] (idle_wire [t]) = Ok (- ETIMEDOUT, 0, x)
  /\ spi_stm32_irq (frame_irq 0x77) x = Ok (x', w) /\ mem x 0x200 = 0 /\ mem x' 0x200 = 0x77.
Proof. eexists _, _, _. split; [vm_compute; reflexivity|]. split; [vm_compute; reflexivity|]. split; reflexivity. Qed.

(** A slave that is set up again for another mode is not programmed again. *)
Example spi_mode_stale mode st :
  slave (ctl st) = Some 1 ->
  take_slave {| sd_id := 1; max_speed_hz := 1000000; sd_mode := mode; bits_per_word := 8; cs_gpio := 6; timeout := 1 |} st = (0, st).
Proof. intros H. unfold take_slave. now rewrite bool_decide_eq_true_2. Qed.

(** Removing a controller with a message in the queue completes the message twice. *)
Example spi_remove_completes_twice :
  exists k' st', spi_stm32_remove [([SExpire], [])] {| apb1rstr := 0; apb1enr := 0; apb2rstr := 0; apb2enr := 0x1000 |} (spi_idle [flash_read]) = Ok (k', st')
  /\ completed st' = [(10, - ESHUTDOWN, 0); (10, - ETIMEDOUT, 0)].
Proof. eexists _, _. split; [vm_compute; reflexivity|reflexivity]. Qed.
